(* ===== verification/_CoqProject ===== *)
-Q . S2P
Prelude.v
Interfaces.v
Ring.v
Slots.v
Posix.v
Wire.v
Udp.v
Mqueue.v
VodTable.v
StbTable.v
StioServer.v
StioClient.v
StioRead.v
StioFile.v
StioEnd.v
StioRun.v
BufferCache.v
Xlist.v
Pqueue.v
Cstr.v
Simconf.v
Rc4.v
Playlist.v
Cron.v
Hdllio.v
Md5.v
Mactable.v
StioEngine.v
Prefetch.v
Cmdlintf.v
Genpdu.v
ThreadSvc.v
Autofree.v
Koklib.v
Rbmcast.v
XObject.v
Session.v
MiniFx.v
StioV2Server.v
StioV2Client.v
StioV2End.v
SysConf.v
SysLang.v
SysMean.v
FtpClient.v
FtpSpec.v
Eten.v
Rmimage.v
RmDraw.v
RmSpec.v
