(* ===== verification/Prelude.v ===== *)
(** * Katmai: a verification library for the katmai set-top-box code base

    katmai is a collection of C libraries for a video-on-demand system: set-top
    boxes (clients) fetch media files from stream servers over UDP.  This library
    models the parts that carry its own logic and proves them correct, or proves
    exactly how they fail.

    ** The program and the files of this library

    The stream protocol, version 3 (src/streamio_v3), is the core.  A client
    registers with a server, opens a file on one of its channels and fetches it in
    blocks of 32768 bytes; a block travels as 23 data packets of at most 1425
    bytes, and the client asks again for the packets it misses.

    - [Wire.v]: the packets ([streamio_v3_pdu.h]) as byte lists with the offsets
      of the packed structures, and the checksum ([common/cksum.c]).
    - [Udp.v] ([UDP]): the datagram socket with its table of remote addresses
      (src/udplib).  Sent datagrams are a log.
    - [Mqueue.v] ([MQ]): the multi-level queue of waiting clients (src/mqueue).
    - [VodTable.v] ([VOD]): the client's directory of servers (src/vod_table).
    - [StbTable.v] ([STB]): the server's table of clients, their open files and
      disk buffers, and one turn of a service thread ([stb_table.c]).
    - [StioServer.v] ([SRV]): the server's request loop and service threads on the
      wire ([server.c]).
    - [StioClient.v] ([CLI]): the client's state and its response thread
      ([src.client/response.c]); [StioRead.v] ([RD]): the calls that send a
      request and wait ([src.client/internal.c]); [StioFile.v] ([SF]): the file
      interface, reads of any length and seeks ([client.c]).
    - [StioEnd.v] ([E2E]): client and server together; [StioRun.v] ([RUN]): runs of the
      client's calls on concrete datagrams.
    - [StioV2Server.v] ([S2]), [StioV2Client.v] ([C2]), [StioV2End.v] ([E2]): version 2 of
      the protocol (src/streamio_v2), in which the client asks for every block itself: the
      server with its thread per client ([server.c], [client_entry.c]), the client
      ([client.c], [client/]), and both with a network between them.

    The support libraries:

    - [BufferCache.v] ([BC]): the producer/consumer ring of disk buffers
      (src/buffer_cache), with its threads as a step relation.
    - [Xlist.v] ([XL]): the double-ended list (src/xlist), both variants.
    - [Pqueue.v] ([PQ]): the older client queue (src/pqueue), both modes.
    - [Cstr.v] ([CS]): the in-place string functions (src/misclib: chomp, ltrim,
      rtrim, strip_dos_eof); [Simconf.v] ([SC]): configuration files
      (src/simconf); [Playlist.v] ([PL]): play lists (src/playlist).
    - [Rc4.v] ([RC]): the cipher of media files (src/misclib/rc4encrypt.c);
      [Md5.v] ([MD]): digests (src/misclib/md5.c, src/md5sum).
    - [Cron.v] ([CR]): commands at given times (src/cron); [Mactable.v] ([MAC]): the
      table of hardware addresses (src/mactable); [Hdllio.v] ([HD]): the partition
      tables of a disk (src/hdllio).
    - [StioEngine.v] ([EN]) and [Prefetch.v] ([PF]): the reader of local files, with
      repetition and with threads that read ahead through [BufferCache]
      (src/stio_engine); [Koklib.v] ([KOK]): song files read through it (src/koklib).
    - [Cmdlintf.v] ([CL]): the command line, local and over a socket (src/cmdlintf);
      [Genpdu.v] ([GP]): generic packets and their dispatch (src/genpdu);
      [Rbmcast.v] ([RBM]): the multicast connection (src/rbmcast).
    - [ThreadSvc.v] ([TS]): the switch of a service thread, as a step relation
      (src/thread_svc); [Autofree.v] ([AF]): deferred freeing (src/autofree);
      [XObject.v] ([XO]): dynamically typed objects in one heap (src/x_object).
    - [Session.v] ([SES]): two processes on a connected socket; [MiniFx.v] ([FX]): the
      mini file exchange, server and clients (src/mini_filexchg).
    - [SysConf.v] ([SY]): system settings (src/sys_conf/sys_conf.c); [SysLang.v] ([SL]):
      the scanner and the grammar of their files with its actions (lexer.l, parser.y and
      the C code made from them); [SysMean.v] ([SM]): what such a file means.
    - [FtpClient.v] ([FTP]): the client of the file transfer protocol (src/ftpclient);
      [FtpSpec.v] ([FTS]): its sessions.
    - [Eten.v] ([ET]): the fonts of the on-screen display (src/ETen); [Rmimage.v] ([RI]): its
      images of 256 colours, byte for byte (src/rmosdlib/rmimage256.c); [RmDraw.v] ([RD]):
      what each drawing function paints; [RmSpec.v] ([RS]): images as pictures.

    Shared: [Interfaces.v] states what one component promises another as type
    classes ([FifoQueue], met by [Mqueue] and [Pqueue], used by the server table;
    [VodDirectory], met by [VodTable], used by the client); [Ring.v] has the theory
    of circular buffers used by every queue here; [Slots.v] lemmas on tables of
    slots; [Posix.v] the files and descriptors the server uses.

    ** How C is modelled

    - An operation is a function into [outcome]: [Ret] is a return, [Block] a wait
      on a condition variable or on a lock another thread holds, [Fault] undefined
      behaviour (out-of-bounds access, NULL, signed overflow, division by zero) or
      a deadlock with itself.  Reads and writes outside an array are faults, so a
      theorem that an operation returns is also a memory-safety theorem.
    - [int] arithmetic is checked ([ck]); unsigned arithmetic wraps ([u32], ...).
    - A structure is a record with the source's field names; its static or private
      variables are fields too.  Pointers to tables are indices.
    - A critical section under a mutex is one atomic step.  Where threads matter
      they are explicit: as a step relation ([BufferCache], [ThreadSvc]), or as the
      list of
      datagrams the response thread handles during each wait of a client call
      (the environment argument of the functions of [StioRead] and [StioFile]).  Two
      processes on a TCP connection are a step relation too ([Session]): a [read] returns
      any non-empty part of what has arrived, but does not split what is at most as long
      as the number the relation is given; each theorem says for which it holds.
    - Results of the environment (memory, [read] sizes, clock, [mktime], [qsort])
      are parameters.

    ** What the theorems show

    - The transfer: a block that the client requests arrives as the bytes of the
      file ([block_transfer], through both programs and the wire format); reads of
      any length return the file's bytes in order ([stiov3_read_stream]); a block
      read does not fault or spin, and what it returns is the block, whatever else was
      received ([internal_read_correct]); a service turn sends the wanted packets of
      the block, whatever was cached and however [read] splits ([service_one_correct]).
      The cases in which the server reads past its buffer or leaves the last packet out
      are part of these statements.
      In version 2, from the creation of both sides on, opening and reading give the size
      and the bytes of the file under every schedule of requests and replies that are lost,
      repeated, reordered and late and of searches for the server, and end when the schedule
      is fair ([v2_streams]); only data of another block than the one asked for must not
      arrive, since the client stores it ([late_corrupts]).
    - The request loop: registration, opening, fetching and refusals have the
      stated answer and effect on the table ([handle_regist_answers],
      [handle_openfile_opens], [handle_fetch_queues], [handle_refuses]).
    - Containers refine abstract data: [mq_enqueue_refines], [mq_dequeue_refines],
      [xlist_deque], [pq_fifo_correct], [cache_fifo], [cache_live],
      [setbuffer_resizes], [vodsvr_add_correct], [udplib_regist_rmaddr_correct].
    - Text and bytes: [trim_correct], [sc_load_correct], [sc_load_roundtrip],
      [format_tm_iff], [pl_load_correct], [pl_next_cycles], [rc4_roundtrip],
      [rc4_stream], [seal_roundtrip], [cksum_detects], [md5sum_streams] (however a
      message is cut, its RFC 1321 digest), [mac_text_roundtrip], [mac_file_roundtrip],
      [kok_load_reads].
    - Settings: any additions make a map of keys without case ([settings_refine]); a file
      is a program whose meaning on such a map is what reading it gives, also where that is
      to read freed memory, at an [else-if] ([config_means]), and its tokens are read back as written ([scan_render]).
    - Reading ahead changes nothing: [engine_streams], and [prefetch_streams] through
      the thread, the ring in any interleaving and the reads of the program;
      [prefetch_queue_prepares] for the next file.
    - From a text file to its effect: [cron_starts] (the commands of the lines that
      match a time, and no others; lines with a step too far behind never), [cron_sleep_aligned]; from the sectors of a disk to
      its partitions: [hdll_open_reads], [hdll_finds_conventional].
    - The command line: the tree of commands is a directory of word paths
      ([cli_addcmd_correct], [cli_tree_wf]), which of the registered commands a line calls and
      with what ([cli_executes]), and the other process gives the same output and result if
      the numbers of its answer are not cut ([remote_equals_local]).  Packets: [pack_dispatches], [genpdu_detects],
      [genpdu_do_cmd_safe]; a multicast client and its server agree on the connection
      ([rbm_handshake]).
    - Objects: a table is a map in insertion order until an entry is deleted that is the
      only one or not the first, and then breaks as stated ([table_refines]); its disposal frees
      each of its blocks once ([table_dispose]); a string list is a stack
      ([stack_refines]); numbers and strings are stored ([scalar_refines]); emptying ends
      on every heap ([empty_terminates]).
    - The file exchange: a file arrives complete and both ends report success, or failure if
      it is empty, however the processes interleave and the network cuts the stream between
      the integers ([get_delivers]; [put_delivers] for names of four letters,
      [time_delivers]); when an integer is cut it can fail ([get_cut_fails]); a name with
      ".." is refused ([get_refused]).  All follow from [SES.conversation].
    - File transfer: a session of any actions with a server that answers sends the commands
      and stores the bytes that belong to them ([ftp_session]); replies of one or many lines
      are read to their end ([getreply_correct]).
    - Images: any sequence of drawing and palette operations, clipped anywhere, returns and
      shows what the operations mean on pictures; an image made from the bytes of another is
      the same ([image_draws]).
    - Threads: [thread_svc_one] (one at a time), [thread_stop_ends] (stopping ends
      unless the thread sleeps).
    - Defects, as theorems about the code as it is: a full queue loses numbers and
      then faults ([mq_full_loses], [mq_full_then_jump_faults]); a non-waiting
      dequeue spins ([mq_dequeue_nowait_spins]); the last packet of a disk buffer is
      read out of bounds ([stbtbl_fill_overreads]); some file lengths are never
      delivered ([service_one_starves]); counters and locks go wrong
      ([opend_file_decremented_again], [stbtbl_init_leaks_lock]); a channel number is
      not checked ([handle_channel_unchecked]); buffers leak ([dispose_leaks]); the
      linked list deadlocks ([xlist_linked_deadlocks]); the priority mode loses a
      number ([pq_priority_loses]); a late cron slot is skipped for ever
      ([cron_late_step_never]); a reopened disk shows old partitions
      ([hdll_reopen_stale]); a seek is reported as position 1 ([pub_seek_position]); the
      keep buffer stays empty ([keep_block_empty]); a short command cannot be added after
      a longer one ([prefix_refused]); a stopped thread may be waited for for ever, or not
      at all ([thread_stop_deadlocks], [thread_stop_misses]); nothing given to autofree is
      freed ([autofree_leaks]); deleted entries of a table stay linked ([del_dangles],
      [del_last_faults]), a drained list cannot be pushed to ([drained_push_faults]), copies
      share nodes ([copy_shares]) and lists are cloned empty ([clone_list_empty]); the multicast sender
      waits for ever ([rbm_send_blocks]); storing a file under a longer name hangs both ends
      ([put_longer_hangs]), and a negative length writes before the buffer
      ([negative_name_crashes]).  In version 2 of the protocol one corrupt datagram ends the
      server's main thread ([corrupt_ends_server]), parameters are written behind their
      arrays ([set_parameter_overruns]), a negative block number reads in front of the buffer
      ([negative_block_faults]), entries that could not be made are used
      ([missing_entry_faults]), data packets of other blocks are accepted ([data_unchecked])
      and counted before they are copied ([counted_before_copied]), a second client in a
      process finds no server ([second_client_deaf]).  In a configuration file [else-if]
      uses a freed text ([else_if_use_after_free]).  The file transfer client waits for ever
      at the end of the connection ([reply_needs_line]), loses a byte after a telnet WILL
      ([will_eats_a_byte]), cannot connect again after a close ([closed_stays_connected]),
      reports every transfer as done ([get_always_succeeds]), returns a mode that was never
      set ([refused_type_uninit]) and takes some lines for the last ([digits_end_reply]).
      Images: colours from 128 on are not found ([atob_high]), lines back are not drawn
      ([lineto_back]), an outline is larger than its filling and lacks a corner
      ([outline_size]), a bitmap gets a column too many ([packed_extra_column]), a negative
      size overruns the block ([new_negative]), and some characters have negative numbers
      ([chcode_supplement]).

    ** Fuel

    Loops that are not structural take fuel, and running out is [Fault OutOfFuel],
    which the theorems exclude: [mq_dequeue] needs one round per queued entry and
    one more; [read_loop] one per byte of the disk buffer; [send_loop] 24 rounds for
    23 packets; the waiting loops of the client one more than the length of their
    environment, reopening three per element and three; [stiov3_read] one more than
    the bytes asked for; [flush_loop] one more than the ready buffers; the loaders of
    text files one more than the bytes of the file; [ext_loop] 13 rounds for twelve
    logical partitions; [block_loop] one per block of the message; [fio_loop] one more
    than the bytes asked for; [prefetch_loop] one more than the bytes to come, [pq_loop]
    two more than the buffers; [as_possible_loop] and [client_loop] one more than the
    bytes; [KOK.get_loop] one more than the lines left; [XO.get_loop] one per block of the
    heap, [empty_fuel] four per block and two; the reading loops of [SES] and [FX] one per
    byte; those of [S2] and [C2] as in version 3; the scanner and the grammar of [SL] one
    per byte and per token; the loops of [FTP] one per byte.

    ** Not modelled

    Threads are not created or scheduled beyond what is said above; sleeping,
    printing and time-outs are left out or are part of the environment.  Device
    drivers, displays, media decoders, database, SSL and SNMP wrappers, the tables of
    generated parsers and version 1 of the protocol are not modelled.  Of stio_engine the
    starting and stopping of the prefetching threads is left out, of cmdlintf the
    interactive loop of the readline library, of rbmcast the set-up of the socket.  The
    timers of misclib are floating-point time arithmetic, and lyrics_osd, holktv and the
    speech engine are threads around calls of the display, the sound card and their
    libraries; they are left out. *)

From stdpp Require Export base list numbers option sets.
From Stdlib Require Export ZArith Lia.

(** ** The outcome of running a piece of C

    [Ret a] is a normal return, [Block] is a call that waits on a condition
    variable (or on a lock held by another thread) in the current state, and
    [Fault f] is undefined behaviour or a self-deadlock.  Operations of the
    sources are functions into [outcome]; a safety theorem says that no
    [Fault] is reached. *)
Inductive fault :=
  | OutOfBounds
  | NullDeref
  | UseAfterFree
  | Uninit
  | DivByZero
  | SignedOverflow
  | Deadlock
  | OutOfFuel.

Inductive outcome (A : Type) :=
  | Ret (a : A)
  | Block
  | Fault (f : fault).
Arguments Ret {A} a.
Arguments Block {A}.
Arguments Fault {A} f.

#[global] Instance fault_eq_dec : EqDecision fault.
Proof. solve_decision. Defined.
#[global] Instance outcome_eq_dec {A} `{EqDecision A} : EqDecision (outcome A).
Proof. solve_decision. Defined.

Definition obind {A B} (f : A -> outcome B) (m : outcome A) : outcome B :=
  match m with
  | Ret a => f a
  | Block => Block
  | Fault e => Fault e
  end.

Declare Scope c_scope.
Delimit Scope c_scope with C.
Notation "'let*' x ':=' m 'in' k" := (obind (fun x => k) m)
  (at level 10, x pattern, k at level 200,
   format "'[v' 'let*'  x  ':='  m  'in' '/' k ']'") : c_scope.
#[global] Open Scope c_scope.

Definition returns {A} (m : outcome A) : Prop := exists a, m = Ret a.

(** [safe m Q]: [m] does not fault; if it does not wait, its result satisfies [Q]. *)
Definition safe {A} (m : outcome A) (Q : A -> Prop) : Prop :=
  match m with Ret a => Q a | Block => True | Fault _ => False end.

Lemma safe_bind {A B} (m : outcome A) (f : A -> outcome B) (P : A -> Prop) (Q : B -> Prop) :
  safe m P -> (forall a, P a -> safe (f a) Q) -> safe (obind f m) Q.
Proof. destruct m; simpl; auto. Qed.

Lemma safe_mono {A} (m : outcome A) (P Q : A -> Prop) :
  safe m P -> (forall a, P a -> Q a) -> safe m Q.
Proof. destruct m; simpl; auto. Qed.

(** ** Machine integers *)
#[global] Open Scope Z_scope.

Definition INT_MIN : Z := -2147483648.
Definition INT_MAX : Z := 2147483647.
Definition int_ok (z : Z) : Prop := INT_MIN <= z <= INT_MAX.
Definition int_okb (z : Z) : bool := (INT_MIN <=? z) && (z <=? INT_MAX).

(** The value of a signed [int] expression: signed overflow is undefined. *)
Definition ck (z : Z) : outcome Z :=
  if int_okb z then Ret z else Fault SignedOverflow.

(** [u32], [u64], [u16], [u8]: unsigned arithmetic wraps. *)
Definition u8 (z : Z) : Z := z mod 2 ^ 8.
Definition u16 (z : Z) : Z := z mod 2 ^ 16.
Definition u32 (z : Z) : Z := z mod 2 ^ 32.
Definition u64 (z : Z) : Z := z mod 2 ^ 64.

(** Conversion of an out-of-range value to [int] (two's complement). *)
Definition to_int (z : Z) : Z :=
  let w := u32 z in if w <? 2 ^ 31 then w else w - 2 ^ 32.

(** C's [%] and [/] truncate towards zero. *)
Definition crem (a b : Z) : outcome Z :=
  if b =? 0 then Fault DivByZero else Ret (Z.rem a b).
Definition cquot (a b : Z) : outcome Z :=
  if b =? 0 then Fault DivByZero else Ret (Z.quot a b).

Definition b2z (b : bool) : Z := if b then 1 else 0.

(** ** Arrays: a C array is a list, accesses outside it are faults *)
Definition zlen {A} (l : list A) : Z := Z.of_nat (length l).

Definition aget {A} (l : list A) (i : Z) : outcome A :=
  if i <? 0 then Fault OutOfBounds
  else match l !! Z.to_nat i with
       | Some x => Ret x
       | None => Fault OutOfBounds
       end.

Definition aset {A} (l : list A) (i : Z) (x : A) : outcome (list A) :=
  if (0 <=? i) && (i <? zlen l) then Ret (<[Z.to_nat i := x]> l)
  else Fault OutOfBounds.

(** ** Basic facts *)
Section basics.
Context {A : Type}.
Implicit Types (l : list A) (x : A) (i : Z).

Lemma ck_Ret z : int_ok z -> ck z = Ret z.
Proof.
  unfold ck, int_okb, int_ok. intros [H1 H2].
  apply Z.leb_le in H1, H2. by rewrite H1, H2.
Qed.

Lemma ck_inv z v : ck z = Ret v -> v = z /\ int_ok z.
Proof.
  unfold ck, int_okb, int_ok. case_eq ((INT_MIN <=? z) && (z <=? INT_MAX)); [|done].
  intros H%andb_true_iff [= <-]. lia.
Qed.

Lemma crem_Ret a b : 0 <= a -> 0 < b -> crem a b = Ret (a mod b).
Proof.
  intros. unfold crem. rewrite (proj2 (Z.eqb_neq b 0)) by lia.
  by rewrite Z.rem_mod_nonneg by lia.
Qed.

Lemma cquot_Ret a b : 0 <= a -> 0 < b -> cquot a b = Ret (a / b).
Proof.
  intros. unfold cquot. rewrite (proj2 (Z.eqb_neq b 0)) by lia.
  by rewrite Z.quot_div_nonneg by lia.
Qed.

Lemma zlen_nonneg l : 0 <= zlen l.
Proof. unfold zlen. lia. Qed.

Lemma zlen_nil : zlen (@nil A) = 0.
Proof. done. Qed.
Lemma zlen_cons x l : zlen (x :: l) = zlen l + 1.
Proof. unfold zlen. simpl. lia. Qed.
Lemma zlen_app l k : zlen (l ++ k) = zlen l + zlen k.
Proof. unfold zlen. rewrite length_app. lia. Qed.
Lemma zlen_insert l (n : nat) x : zlen (<[n := x]> l) = zlen l.
Proof. unfold zlen. by rewrite length_insert. Qed.
Lemma zlen_replicate (n : nat) x : zlen (replicate n x) = Z.of_nat n.
Proof. unfold zlen. by rewrite length_replicate. Qed.

Lemma aget_Some l i x : 0 <= i -> l !! Z.to_nat i = Some x -> aget l i = Ret x.
Proof.
  intros Hi Hl. unfold aget.
  by rewrite (proj2 (Z.ltb_ge i 0)), Hl by lia.
Qed.

Lemma aget_inv l i x : aget l i = Ret x ->
  0 <= i < zlen l /\ l !! Z.to_nat i = Some x.
Proof.
  unfold aget, zlen. destruct (Z.ltb_spec i 0); [done|].
  destruct (l !! Z.to_nat i) eqn:E; [|done]. intros [= ->].
  apply lookup_lt_Some in E as ?. split; [lia|done].
Qed.

Lemma aget_lt l i : 0 <= i < zlen l -> exists x, aget l i = Ret x /\ l !! Z.to_nat i = Some x.
Proof.
  unfold zlen. intros Hi.
  destruct (lookup_lt_is_Some_2 l (Z.to_nat i)) as [x Hx]; [lia|].
  exists x. split; [|done]. by apply aget_Some; [lia|].
Qed.

Lemma aget_OOB l i : ~ (0 <= i < zlen l) -> aget l i = Fault OutOfBounds.
Proof.
  unfold aget, zlen. intros H. destruct (Z.ltb_spec i 0); [done|].
  by rewrite (proj2 (lookup_ge_None l (Z.to_nat i))) by lia.
Qed.

Lemma aset_Ret l i x : 0 <= i < zlen l -> aset l i x = Ret (<[Z.to_nat i := x]> l).
Proof.
  intros [H1 H2]. unfold aset. apply Z.leb_le in H1. apply Z.ltb_lt in H2.
  by rewrite H1, H2.
Qed.

Lemma aset_OOB l i x : ~ (0 <= i < zlen l) -> aset l i x = Fault OutOfBounds.
Proof.
  unfold aset. intros H.
  destruct (Z.leb_spec 0 i), (Z.ltb_spec i (zlen l)); try done. lia.
Qed.
End basics.

Lemma aget_nat {A} (l : list A) (q : nat) x : l !! q = Some x -> aget l (Z.of_nat q) = Ret x.
Proof. intros H. apply aget_Some; [lia|]. by rewrite Nat2Z.id. Qed.

Lemma aset_nat {A} (l : list A) (q : nat) x :
  (q < length l)%nat -> aset l (Z.of_nat q) x = Ret (<[q := x]> l).
Proof. intros H. rewrite aset_Ret by (unfold zlen; lia). by rewrite Nat2Z.id. Qed.

Lemma aget_insert {A} (l : list A) i x : 0 <= i < zlen l -> aget (<[Z.to_nat i := x]> l) i = Ret x.
Proof. intros H. apply aget_Some; [lia|]. apply list_lookup_insert_eq. unfold zlen in H. lia. Qed.

Lemma obind_Ret_inv {A B} (m : outcome A) (f : A -> outcome B) b :
  obind f m = Ret b -> exists a, m = Ret a /\ f a = Ret b.
Proof. destruct m; simpl; [eauto|done|done]. Qed.

Lemma crem_inv a b r : crem a b = Ret r -> b <> 0 /\ r = Z.rem a b.
Proof. unfold crem. destruct (Z.eqb_spec b 0); [done|]. by intros [= <-]. Qed.

Lemma alter_as_insert {A} (f : A -> A) (l : list A) (i : nat) x :
  l !! i = Some x -> alter f i l = <[i := f x]> l.
Proof.
  revert i. induction l as [|y l IH]; intros [|i] H; simplify_eq/=; [done|].
  f_equal. by apply IH.
Qed.

Lemma alter_alter {A} (f g h : A -> A) (l : list A) (i : nat) :
  (forall x, f (g x) = h x) -> alter f i (alter g i l) = alter h i l.
Proof.
  intros H. revert i. induction l as [|y l IH]; intros [|i]; simpl; [done..| |].
  - by rewrite <- H.
  - f_equal. apply IH.
Qed.

Lemma filter_all {A} (P : A -> Prop) `{!forall x, Decision (P x)} (l : list A) :
  (forall x, x ∈ l -> P x) -> filter P l = l.
Proof.
  induction l as [|x l IH]; intros Hl; [done|].
  rewrite filter_cons_True by (apply Hl; by left). f_equal. apply IH. intros y Hy. apply Hl. by right.
Qed.

Lemma filter_reject_nil {A} (P : A -> Prop) `{!forall x, Decision (P x)} (l : list A) :
  (forall x, x ∈ l -> ~ P x) -> filter P l = [].
Proof.
  induction l as [|x l IH]; intros Hl; [done|].
  rewrite filter_cons_False by (apply Hl; by left). apply IH. intros y Hy. apply Hl. by right.
Qed.

Lemma b2z_1 b : b2z b = 1 <-> b = true.
Proof. by destruct b. Qed.
Lemma b2z_0 b : b2z b = 0 <-> b = false.
Proof. by destruct b. Qed.

Create HintDb katmai.
Create Rewrite HintDb katmai.
#[export] Hint Rewrite @zlen_nil @zlen_cons @zlen_app @zlen_insert @zlen_replicate : katmai.
#[export] Hint Resolve zlen_nonneg : katmai.

(** ** Tactics

    [cbool] turns the boolean comparisons of the goal into case splits with
    arithmetic hypotheses; [cstep] runs one primitive of the outcome monad
    whose side condition is arithmetic; [cinv H] inverts a chain of binds. *)
Ltac int_lia := unfold int_ok, INT_MIN, INT_MAX in *; lia.

Ltac cstep :=
  match goal with
  | |- context [ck ?z] => rewrite (ck_Ret z) by int_lia
  | |- context [crem ?a ?b] => rewrite (crem_Ret a b) by lia
  | |- context [cquot ?a ?b] => rewrite (cquot_Ret a b) by lia
  end; cbn [obind].

(** [crun] runs the whole chain: array accesses whose cells are known from the
    context, writes whose index is in range, arithmetic that does not overflow. *)
Ltac crun1 :=
  match goal with
  | H : ?l !! ?q = Some _ |- context [aget ?l (Z.of_nat ?q)] => rewrite (aget_nat _ _ _ H)
  | H : aget ?l ?i = Ret _ |- context [aget ?l ?i] => rewrite H
  | |- context [aset ?l (Z.of_nat ?q) ?x] => rewrite (aset_nat l q x) by lia
  | |- context [aset ?l ?i ?x] => rewrite (aset_Ret l i x) by lia
  | |- context [ck ?z] => rewrite (ck_Ret z) by int_lia
  | |- context [crem ?a ?b] => rewrite (crem_Ret a b) by lia
  | |- context [cquot ?a ?b] => rewrite (cquot_Ret a b) by lia
  end; cbn [obind].
Ltac crun := repeat crun1.

Ltac cbool1 :=
  match goal with
  | |- context [?a =? ?b] => destruct (Z.eqb_spec a b)
  | |- context [?a <? ?b] => destruct (Z.ltb_spec a b)
  | |- context [?a <=? ?b] => destruct (Z.leb_spec a b)
  | |- context [?a >? ?b] => rewrite (Z.gtb_ltb a b)
  | |- context [?a >=? ?b] => rewrite (Z.geb_leb a b)
  end.

Ltac cinv H :=
  repeat match type of H with
  | obind _ _ = Ret _ =>
      let a := fresh "v" in let E := fresh "E" in
      apply obind_Ret_inv in H as (a & E & H)
  end.
