(* ===== verification/Interfaces.v ===== *)
(** * Interfaces.v: what components promise to one another

    The C code couples its components through structures of function pointers
    ([struct multiple_queue_t], [struct vodsvr_t], ...).  Each such structure
    that a modelled client calls is a type class here: its operations are the
    function pointers the client uses, its laws are what the client's theorems
    rely on, and the component that fills the structure in provides the
    instance. *)

From S2P Require Import Prelude.

(** The queue of ready clients of a stream channel, as the stream server uses
    it: numbers below [cap] are pushed at one fixed level and popped by the
    service threads.  [fq_rep q cap l]: [q] holds [l], in service order. *)
Class FifoQueue (Q : Type) := {
  fq_push : Q -> Z -> Z -> outcome (Z * Q);
  fq_pop : Q -> outcome (Z * Q);
  fq_is_empty : Q -> Z;
  fq_rep : Q -> Z -> list Z -> Prop;
  fq_push_ok : forall q cap l n, fq_rep q cap l -> 0 <= n < cap ->
    exists q', fq_push q n 1 = Ret (1, q') /\
      fq_rep q' cap (if decide (n ∈ l) then l else l ++ [n]);
  fq_pop_ok : forall q cap l n, fq_rep q cap (n :: l) ->
    exists q', fq_pop q = Ret (n, q') /\ fq_rep q' cap l;
  fq_pop_wait : forall q cap, fq_rep q cap [] -> fq_pop q = Block;
  fq_is_empty_ok : forall q cap l, fq_rep q cap l -> fq_is_empty q = b2z (bool_decide (l = []));
  fq_range : forall q cap l, fq_rep q cap l -> NoDup l /\ Forall (fun v => 0 <= v < cap) l;
}.

(** The client's directory of stream servers ([struct vodsvr_t]): servers are
    known by address and named by their slot number; [vd_addr d i] is the
    address registered in slot [i]. *)
Class VodDirectory (D : Type) := {
  vd_add : D -> Z -> outcome (Z * D);
  vd_regist_code : D -> Z -> outcome Z;
  vd_udp_entry : D -> Z -> outcome Z;
  vd_unset_registcode : D -> Z -> outcome (Z * D);
  vd_set_registcode : D -> Z -> Z -> Z -> outcome (Z * D);
  vd_ok : D -> Prop;
  vd_addr : D -> Z -> option Z;
  vd_add_ok : forall d a, vd_ok d -> exists i d', vd_add d a = Ret (i, d') /\ vd_ok d' /\
    (i = -1 /\ d' = d \/ 0 <= i /\ vd_addr d' i = Some a /\
       forall j b, vd_addr d j = Some b -> vd_addr d' j = Some b);
  vd_unset_ok : forall d i, vd_ok d -> exists rc d', vd_unset_registcode d i = Ret (rc, d') /\
    vd_ok d' /\ forall j, vd_addr d' j = vd_addr d j;
  vd_set_ok : forall d a c u, vd_ok d -> exists i d', vd_set_registcode d a c u = Ret (i, d') /\
    vd_ok d' /\ (i = -1 /\ d' = d \/ 0 <= i /\ vd_addr d' i = Some a /\
       vd_regist_code d' i = Ret c /\ vd_udp_entry d' i = Ret u);
  vd_code_ok : forall d i, vd_ok d -> returns (vd_regist_code d i) /\ returns (vd_udp_entry d i);
}.
