(* ===== verification/Ring.v ===== *)
(** * Ring.v: circular buffers

    The queues of the code base (xlist, pqueue, mqueue, buffer_cache) all keep
    their elements in an array of [count] slots addressed modulo [count].
    [ring_rep arr start l] says that the slots [start], [start + 1], ... of
    [arr] (modulo its length) hold the elements of [l] in order; the lemmas
    give the effect of writing after the last element, before the first one,
    and of moving either end. *)

From S2P Require Import Prelude.

(** The index of slot [i] in a ring of [n] slots. *)
Definition rslot (n i : Z) : nat := Z.to_nat (i mod n).

Definition ring_rep {A} (arr : list A) (start : Z) (l : list A) : Prop :=
  zlen l <= zlen arr /\
  forall j x, l !! j = Some x -> arr !! rslot (zlen arr) (start + Z.of_nat j) = Some x.

Lemma mod_inj n s i j :
  0 <= i < n -> 0 <= j < n -> (s + i) mod n = (s + j) mod n -> i = j.
Proof.
  intros Hi Hj H.
  assert ((i - j) mod n = 0) as Hd.
  { replace (i - j) with ((s + i) - (s + j)) by lia.
    rewrite Zminus_mod, H, Z.sub_diag. apply Zmod_0_l. }
  assert (n <> 0) as Hn by lia. apply (Z.mod_divide _ _ Hn) in Hd as [k Hk].
  assert (k < 0 \/ k = 0 \/ 0 < k) as [?|[->|?]] by lia; [exfalso; nia|lia|exfalso; nia].
Qed.

Lemma rslot_mod n s i : 0 < n -> rslot n (s mod n + i) = rslot n (s + i).
Proof. intros. unfold rslot. by rewrite Zplus_mod_idemp_l. Qed.

Lemma rslot_inj n s i j :
  0 <= i < n -> 0 <= j < n -> rslot n (s + i) = rslot n (s + j) -> i = j.
Proof.
  intros Hi Hj H. unfold rslot in H. apply (mod_inj n s); [done|done|].
  pose proof (Z.mod_pos_bound (s + i) n). pose proof (Z.mod_pos_bound (s + j) n). lia.
Qed.

Lemma rslot_lt {A} (arr : list A) i : 0 < zlen arr -> (rslot (zlen arr) i < length arr)%nat.
Proof.
  intros H. unfold rslot. pose proof (Z.mod_pos_bound i (zlen arr) H). unfold zlen in *. lia.
Qed.

Lemma rslot_to_nat n s i : 0 < n -> 0 <= s + i < n -> rslot n (s + i) = Z.to_nat (s + i).
Proof. intros. unfold rslot. by rewrite Z.mod_small. Qed.

Section ring.
Context {A : Type}.
Implicit Types (arr l : list A) (x y : A) (s : Z).

Lemma ring_rep_nil arr s : ring_rep arr s [].
Proof. split; [apply zlen_nonneg|]. intros j x. by rewrite lookup_nil. Qed.

Lemma ring_rep_mod arr s l :
  0 < zlen arr -> ring_rep arr (s mod zlen arr) l <-> ring_rep arr s l.
Proof.
  intros H. unfold ring_rep. split; intros [Hl Hr]; (split; [done|]); intros j x Hj.
  - rewrite <- (rslot_mod _ s) by done. by apply Hr.
  - rewrite rslot_mod by done. by apply Hr.
Qed.

Lemma ring_rep_lookup arr s l j x :
  0 < zlen arr -> ring_rep arr s l -> l !! j = Some x ->
  aget arr ((s + Z.of_nat j) mod zlen arr) = Ret x.
Proof.
  intros Hn [_ Hr] Hj. apply aget_Some.
  - by apply Z.mod_pos_bound.
  - by apply Hr.
Qed.

Lemma ring_rep_snoc arr s l x :
  zlen l < zlen arr -> ring_rep arr s l ->
  ring_rep (<[rslot (zlen arr) (s + zlen l) := x]> arr) s (l ++ [x]).
Proof.
  intros Hlt [Hl Hr]. split; autorewrite with katmai; [lia|].
  intros j y [Hj|(Hj & [Hj0 <-]%list_lookup_singleton_Some)]%lookup_app_Some.
  - apply lookup_lt_Some in Hj as ?.
    rewrite list_lookup_insert_ne; [by apply Hr|].
    intros E%rslot_inj; unfold zlen in *; lia.
  - assert (j = length l) as -> by lia.
    apply list_lookup_insert_eq, rslot_lt. pose proof (zlen_nonneg l). lia.
Qed.

Lemma ring_rep_snoc_inv arr s l x :
  0 < zlen arr -> ring_rep arr s (l ++ [x]) ->
  aget arr ((s + zlen l) mod zlen arr) = Ret x /\ ring_rep arr s l.
Proof.
  intros Hn [Hl Hr]. split.
  - eapply ring_rep_lookup; [done|by split|]. by apply list_lookup_middle.
  - autorewrite with katmai in Hl. split; [lia|].
    intros j y Hj. by apply Hr, lookup_app_l_Some.
Qed.

Lemma ring_rep_cons_inv arr s l x :
  0 < zlen arr -> ring_rep arr s (x :: l) ->
  aget arr (s mod zlen arr) = Ret x /\ ring_rep arr (s + 1) l.
Proof.
  intros Hn [Hl Hr]. split.
  - replace s with (s + Z.of_nat 0) by lia.
    by eapply ring_rep_lookup; [|split|].
  - autorewrite with katmai in Hl. split; [lia|]. intros j y Hj.
    replace (s + 1 + Z.of_nat j) with (s + Z.of_nat (S j)) by lia. by apply Hr.
Qed.

Lemma ring_rep_cons arr s l x :
  zlen l < zlen arr -> ring_rep arr (s + 1) l ->
  ring_rep (<[rslot (zlen arr) s := x]> arr) s (x :: l).
Proof.
  intros Hlt [Hl Hr]. split; autorewrite with katmai; [lia|].
  pose proof (zlen_nonneg l). intros [|j] y Hj; simpl in Hj.
  - injection Hj as <-. rewrite Z.add_0_r. apply list_lookup_insert_eq, rslot_lt. lia.
  - apply lookup_lt_Some in Hj as ?.
    rewrite list_lookup_insert_ne.
    + replace (s + Z.of_nat (S j)) with (s + 1 + Z.of_nat j) by lia. by apply Hr.
    + rewrite <- (Z.add_0_r s) at 1. intros E%rslot_inj; unfold zlen in *; lia.
Qed.

(** Overwriting one element in place. *)
Lemma ring_rep_insert arr s l j y :
  (j < length l)%nat -> ring_rep arr s l ->
  ring_rep (<[rslot (zlen arr) (s + Z.of_nat j) := y]> arr) s (<[j := y]> l).
Proof.
  intros Hj [Hl Hr]. split; autorewrite with katmai; [done|].
  intros i x Hi. unfold zlen in *.
  destruct (decide (i = j)) as [->|Hne].
  - rewrite list_lookup_insert_eq in Hi by done. injection Hi as <-.
    apply list_lookup_insert_eq, rslot_lt. unfold zlen. lia.
  - rewrite list_lookup_insert_ne in Hi by done. apply lookup_lt_Some in Hi as ?.
    rewrite list_lookup_insert_ne; [by apply Hr|]. intros E%rslot_inj; lia.
Qed.

(** Slots outside the window may change freely. *)
Lemma ring_rep_frame arr s l j y :
  zlen l <= j < zlen arr -> ring_rep arr s l ->
  ring_rep (<[rslot (zlen arr) (s + j) := y]> arr) s l.
Proof.
  intros Hj [Hl Hr]. split; autorewrite with katmai; [done|].
  intros i x Hi. apply lookup_lt_Some in Hi as ?.
  rewrite list_lookup_insert_ne; [by apply Hr|].
  intros E%rslot_inj; unfold zlen in *; lia.
Qed.

(** The slot behind a list that does not fill the ring. *)
Lemma ring_rep_extend arr s l :
  zlen l < zlen arr -> ring_rep arr s l ->
  exists x, arr !! rslot (zlen arr) (s + zlen l) = Some x /\ ring_rep arr s (l ++ [x]).
Proof.
  intros Hlt [Hl Hr]. pose proof (zlen_nonneg l).
  destruct (lookup_lt_is_Some_2 arr (rslot (zlen arr) (s + zlen l))) as [x Hx]; [by apply rslot_lt; lia|].
  exists x. split; [done|]. split; autorewrite with katmai; [lia|].
  intros j y. rewrite lookup_app. destruct (l !! j) eqn:E; [intros [= <-]; by apply Hr|].
  intros Hy. apply lookup_ge_None in E. apply list_lookup_singleton_Some in Hy as [Hj <-].
  assert (j = length l) as -> by lia. exact Hx.
Qed.
End ring.
