(* ===== verification/Slots.v ===== *)
(** * Slots.v: fixed tables of slots with an in-use flag

    The registration routines of the code base (stbtbl_regist, vodsvr_add,
    regist_client) all run the same loop over a fixed table: remember the first
    slot that is not in use, stop at an in-use slot that matches.  [scan] is
    that loop; the lemmas say what it finds. *)

From S2P Require Import Prelude.

(** [for (i = 0, f = -1; i < count; i++) {
       if (! used (t[i])) { if (f < 0) f = i; }
       else if (hit (t[i])) return i; }
     return f;]
    The boolean tells the two ways out apart. *)
Fixpoint scan {A} (used hit : A -> bool) (t : list A) (i f : Z) : bool * Z :=
  match t with
  | [] => (false, f)
  | x :: t' =>
      if negb (used x) then scan used hit t' (i + 1) (if f <? 0 then i else f)
      else if hit x then (true, i)
      else scan used hit t' (i + 1) f
  end.

Section scan.
Context {A : Type} (used hit : A -> bool).
Implicit Types t : list A.

Lemma scan_found t i f j :
  scan used hit t i f = (true, j) ->
  i <= j /\ exists x, t !! Z.to_nat (j - i) = Some x /\ used x = true /\ hit x = true.
Proof.
  revert i f. induction t as [|x t IH]; intros i f; simpl; [done|].
  destruct (used x) eqn:Hu; simpl; [destruct (hit x) eqn:Hh|].
  - intros [= <-]. split; [lia|]. exists x. by rewrite Z.sub_diag.
  - intros (Hle & y & Hy & H)%IH. split; [lia|]. exists y.
    replace (Z.to_nat (j - i)) with (S (Z.to_nat (j - (i + 1)))) by lia. done.
  - intros (Hle & y & Hy & H)%IH. split; [lia|]. exists y.
    replace (Z.to_nat (j - i)) with (S (Z.to_nat (j - (i + 1)))) by lia. done.
Qed.

Lemma scan_not_found t i f j :
  scan used hit t i f = (false, j) ->
  forall k x, t !! k = Some x -> used x = true -> hit x = false.
Proof.
  revert i f. induction t as [|y t IH]; intros i f; simpl; [by intros _ k x|].
  destruct (used y) eqn:Hu; simpl; [destruct (hit y) eqn:Hh; [done|]|];
    intros Hs [|k] x Hx Hux; simplify_eq/=; eauto; congruence.
Qed.

(** The slot returned when nothing matches: the remembered one, or the first
    free one, or none when every slot is in use. *)
Lemma scan_free t i f j :
  0 <= i -> scan used hit t i f = (false, j) ->
  (0 <= f /\ j = f) \/
  (f < 0 /\ i <= j /\ (exists x, t !! Z.to_nat (j - i) = Some x /\ used x = false) /\
   forall k x, (Z.of_nat k < j - i) -> t !! k = Some x -> used x = true) \/
  (f < 0 /\ j = f /\ forall k x, t !! k = Some x -> used x = true).
Proof.
  revert i f. induction t as [|y t IH]; intros i f Hi; simpl.
  - intros [= <-]. destruct (Z.lt_ge_cases f 0); [|by left].
    right; right. split_and!; [done..|]. intros k x Hk. by rewrite lookup_nil in Hk.
  - destruct (used y) eqn:Hu; simpl; [destruct (hit y) eqn:Hh; [done|]|]; intros Hs.
    + destruct (IH (i + 1) _ ltac:(lia) Hs) as [?|[(Hf & Hj & (x & Hx & Hux) & Hb)|(Hf & Hj & Hb)]].
      * by left.
      * right; left. split_and!; [done|lia| |].
        -- exists x. by replace (Z.to_nat (j - i)) with (S (Z.to_nat (j - (i + 1)))) by lia.
        -- intros [|k] z Hk Hz; simplify_eq/=; [done|]. by apply (Hb k z); [lia|].
      * right; right. split_and!; [done..|]. intros [|k] z Hz; simplify_eq/=; eauto.
    + destruct (Z.ltb_spec f 0) as [Hf|Hf].
      * destruct (IH (i + 1) _ ltac:(lia) Hs) as [[_ ->]|[(? & _)|(? & _)]]; [|lia..].
        right; left. split_and!; [done|lia| |intros; lia].
        exists y. by rewrite Z.sub_diag.
      * destruct (IH (i + 1) _ ltac:(lia) Hs) as [[_ ->]|[(? & _)|(? & _)]]; [by left|lia..].
Qed.

(** Summary for the call with [i = 0], [f = -1]. *)
Lemma scan_cases t :
  (exists j x, scan used hit t 0 (-1) = (true, Z.of_nat j) /\
     t !! j = Some x /\ used x = true /\ hit x = true) \/
  ((forall k x, t !! k = Some x -> used x = true -> hit x = false) /\
   ((exists j x, scan used hit t 0 (-1) = (false, Z.of_nat j) /\
       t !! j = Some x /\ used x = false /\
       forall k y, (k < j)%nat -> t !! k = Some y -> used y = true) \/
    (scan used hit t 0 (-1) = (false, -1) /\
       forall k x, t !! k = Some x -> used x = true))).
Proof.
  destruct (scan used hit t 0 (-1)) as [[] j] eqn:E.
  - left. apply scan_found in E as (Hj & x & Hx & H). exists (Z.to_nat j), x.
    rewrite Z2Nat.id by lia. by rewrite Z.sub_0_r in Hx.
  - right. split; [by eapply scan_not_found|].
    apply scan_free in E as [[? _]|[(_ & Hj & (x & Hx & Hux) & Hb)|(_ & -> & Hb)]];
      [lia| |by right|lia].
    left. exists (Z.to_nat j), x. rewrite Z2Nat.id by lia. rewrite Z.sub_0_r in Hx.
    split_and!; [done..|]. intros k y Hk. apply Hb. lia.
Qed.
End scan.
