(* ===== verification/Posix.v ===== *)
(** * Posix.v: the part of the operating system the stream server uses

    Files are byte lists; the process has a table of open files, each with its
    own offset; [open] takes the lowest free descriptor.  [read] on a regular
    file returns at least one byte and at most what is asked for and left; how
    many exactly is the kernel's choice, given by the argument [chunk]. *)

From S2P Require Import Prelude.

Definition path := list Z.

Record ofile := mk_ofile { of_data : list Z; of_pos : Z }.

Record kernel := mk_kernel {
  k_fs : path -> option (list Z * bool);   (* contents, readable *)
  k_fds : list (option ofile);
  k_errno : Z;
}.

Definition ENOENT : Z := 2.
Definition EBADF : Z := 9.
Definition EACCES : Z := 13.
Definition EFAULT : Z := 14.

Definition set_fds (k : kernel) fds := mk_kernel (k_fs k) fds (k_errno k).
Definition set_errno (k : kernel) e := mk_kernel (k_fs k) (k_fds k) e.

Definition get_file (k : kernel) (fd : Z) : option ofile :=
  if fd <? 0 then None else match k_fds k !! Z.to_nat fd with Some o => o | None => None end.

Fixpoint lowest_free (fds : list (option ofile)) (i : nat) : nat :=
  match fds with
  | [] => i
  | None :: _ => i
  | Some _ :: fds' => lowest_free fds' (S i)
  end.

Definition put_fd (fds : list (option ofile)) (i : nat) (o : option ofile) : list (option ofile) :=
  if (i <? length fds)%nat then <[i := o]> fds else fds ++ [o].

(** [stat]: the size, or -1. *)
Definition sys_stat (k : kernel) (p : path) : option Z * kernel :=
  match k_fs k p with
  | Some (data, _) => (Some (zlen data), k)
  | None => (None, set_errno k ENOENT)
  end.

Definition sys_open (k : kernel) (p : path) : Z * kernel :=
  match k_fs k p with
  | Some (data, true) =>
      let i := lowest_free (k_fds k) 0 in
      (Z.of_nat i, set_fds k (put_fd (k_fds k) i (Some (mk_ofile data 0))))
  | Some (_, false) => (-1, set_errno k EACCES)
  | None => (-1, set_errno k ENOENT)
  end.

Definition sys_close (k : kernel) (fd : Z) : kernel :=
  match get_file k fd with
  | Some _ => set_fds k (<[Z.to_nat fd := None]> (k_fds k))
  | None => set_errno k EBADF
  end.

Definition set_file (k : kernel) (fd : Z) (f : ofile) : kernel :=
  set_fds k (<[Z.to_nat fd := Some f]> (k_fds k)).

Definition sys_lseek (k : kernel) (fd pos : Z) : kernel :=
  match get_file k fd with
  | Some f => set_file k fd (mk_ofile (of_data f) pos)
  | None => set_errno k EBADF
  end.

(** Bytes [off, off + len) of a list. *)
Definition slice (l : list Z) (off len : Z) : list Z :=
  take (Z.to_nat len) (drop (Z.to_nat off) l).

(** [memcpy (&buf[off], bytes, ...)]. *)
Definition blit (buf : list Z) (off : Z) (bytes : list Z) : outcome (list Z) :=
  if (0 <=? off) && (off + zlen bytes <=? zlen buf) then
    Ret (take (Z.to_nat off) buf ++ bytes ++ drop (Z.to_nat (off + zlen bytes)) buf)
  else Fault OutOfBounds.

Definition sys_read (chunk : Z -> Z -> Z) (k : kernel) (fd n : Z) : Z * list Z * kernel :=
  match get_file k fd with
  | None => (-1, [], set_errno k EBADF)
  | Some f =>
      let m := Z.min n (zlen (of_data f) - of_pos f) in
      if m <=? 0 then (0, [], k)
      else
        let len := Z.max 1 (Z.min m (chunk (of_pos f) m)) in
        (len, slice (of_data f) (of_pos f) len,
         set_file k fd (mk_ofile (of_data f) (of_pos f + len)))
  end.

(** ** Facts *)
Lemma zlen_slice (l : list Z) off len :
  0 <= off -> 0 <= len -> off + len <= zlen l -> zlen (slice l off len) = len.
Proof. unfold slice, zlen. intros. rewrite length_take, length_drop. lia. Qed.

Lemma slice_nil (l : list Z) off : slice l off 0 = [].
Proof. done. Qed.

Lemma slice_all_eq (l : list Z) n : n = zlen l -> slice l 0 n = l.
Proof. intros ->. unfold slice, zlen. change (Z.to_nat 0) with 0%nat. rewrite drop_0, Nat2Z.id. by apply take_ge. Qed.

Lemma slice_app (l : list Z) off a b :
  0 <= off -> 0 <= a -> 0 <= b -> slice l off a ++ slice l (off + a) b = slice l off (a + b).
Proof.
  intros. unfold slice. replace (Z.to_nat (a + b)) with (Z.to_nat a + Z.to_nat b)%nat by lia.
  rewrite <- take_take_drop, drop_drop. do 2 f_equal. f_equal. lia.
Qed.

Lemma lookup_slice (l : list Z) off len (i : nat) :
  0 <= off -> (Z.of_nat i < len) -> slice l off len !! i = l !! (Z.to_nat off + i)%nat.
Proof. intros. unfold slice. rewrite lookup_take_lt by lia. apply lookup_drop. Qed.

Lemma lookup_slice_ge (l : list Z) off len (i : nat) :
  len <= Z.of_nat i -> slice l off len !! i = None.
Proof. intros. unfold slice. apply lookup_take_ge. lia. Qed.

Lemma slice_slice (l : list Z) a n b m :
  0 <= a -> 0 <= b -> 0 <= m -> b + m <= n -> slice (slice l a n) b m = slice l (a + b) m.
Proof.
  intros. apply list_eq. intros i. destruct (Z.lt_ge_cases (Z.of_nat i) m).
  - rewrite !lookup_slice by lia. f_equal. lia.
  - by rewrite !lookup_slice_ge by lia.
Qed.

Lemma blit_Ret buf off bytes :
  0 <= off -> off + zlen bytes <= zlen buf ->
  exists buf', blit buf off bytes = Ret buf' /\ zlen buf' = zlen buf /\
    slice buf' off (zlen bytes) = bytes /\
    (forall i, (Z.of_nat i < off \/ off + zlen bytes <= Z.of_nat i) -> buf' !! i = buf !! i).
Proof.
  intros H1 H2. unfold blit. rewrite (proj2 (Z.leb_le _ _) H1), (proj2 (Z.leb_le _ _) H2). simpl.
  eexists. split; [done|]. unfold zlen in *. split_and!.
  - rewrite !length_app, length_take, length_drop. lia.
  - unfold slice. rewrite drop_app_length', take_app_length'; [done|lia|rewrite length_take; lia].
  - intros i [Hi|Hi].
    + rewrite lookup_app_l, lookup_take_lt by (rewrite ?length_take; lia). done.
    + rewrite lookup_app_r by (rewrite length_take; lia).
      rewrite lookup_app_r by (rewrite length_take; lia).
      rewrite lookup_drop, length_take. f_equal. lia.
Qed.

Lemma get_file_set k fd f g : get_file k fd = Some g -> get_file (set_file k fd f) fd = Some f.
Proof.
  unfold get_file, set_file. simpl. destruct (fd <? 0); [done|].
  destruct (k_fds k !! Z.to_nat fd) eqn:E; [|done]. intros ->.
  by rewrite list_lookup_insert_eq by (by eapply lookup_lt_Some).
Qed.

Lemma get_file_set_ne k fd fd' f :
  0 <= fd -> fd <> fd' -> get_file (set_file k fd f) fd' = get_file k fd'.
Proof.
  intros H Hne. unfold get_file, set_file. simpl. destruct (Z.ltb_spec fd' 0); [done|].
  by rewrite list_lookup_insert_ne by lia.
Qed.

Lemma lowest_free_spec fds i : (lowest_free fds i <= i + length fds)%nat /\ (i <= lowest_free fds i)%nat.
Proof.
  revert i. induction fds as [|[f|] fds IH]; intros i; simpl; [lia| |lia].
  destruct (IH (S i)). lia.
Qed.

Lemma sys_open_get k p data fd k' :
  k_fs k p = Some (data, true) -> sys_open k p = (fd, k') ->
  0 <= fd /\ get_file k' fd = Some (mk_ofile data 0).
Proof.
  intros Hp. unfold sys_open. rewrite Hp. intros [= <- <-]. split; [lia|].
  unfold get_file, put_fd. simpl. rewrite (proj2 (Z.ltb_ge _ 0)), Nat2Z.id by lia.
  destruct (lowest_free_spec (k_fds k) 0) as [Hle _].
  destruct (Nat.ltb_spec (lowest_free (k_fds k) 0) (length (k_fds k))).
  - by rewrite list_lookup_insert_eq.
  - replace (lowest_free (k_fds k) 0) with (length (k_fds k)) by lia. by rewrite list_lookup_middle.
Qed.

Lemma sys_read_file chunk k fdn f m :
  get_file k fdn = Some f -> 0 <= of_pos f -> 0 < m -> of_pos f < zlen (of_data f) ->
  exists len k', sys_read chunk k fdn m = (len, slice (of_data f) (of_pos f) len, k') /\
    1 <= len <= m /\ of_pos f + len <= zlen (of_data f) /\
    get_file k' fdn = Some (mk_ofile (of_data f) (of_pos f + len)).
Proof.
  intros Hf Hp Hm Hlt. unfold sys_read. rewrite Hf.
  destruct (Z.leb_spec (Z.min m (zlen (of_data f) - of_pos f)) 0); [lia|].
  eexists _, _. split_and!; [done|lia..|]. by eapply get_file_set.
Qed.

Lemma sys_read_eof chunk k fdn f m :
  get_file k fdn = Some f -> zlen (of_data f) <= of_pos f -> sys_read chunk k fdn m = (0, [], k).
Proof.
  intros Hf Hp. unfold sys_read. rewrite Hf.
  by destruct (Z.leb_spec (Z.min m (zlen (of_data f) - of_pos f)) 0); [|lia].
Qed.
