(* ===== verification/Wire.v ===== *)
(** * Wire.v: protocol data units of streamio_v3 as bytes, and their checksum

    A PDU is a packed C structure laid over a byte buffer
    (streamio_v3/streamio_v3_pdu.h).  The machine is the 32-bit little-endian
    one the code was written for ([(int) &p] is used as an address), [char] is
    signed and [off_t] has four bytes.  Fields are read and written at constant
    offsets of buffers that are large enough, so field access cannot fault;
    copies of variable length go through [blit], which can.

    [stiov3_cs_cksum] is streamio_v3/common/cksum.c. *)

From S2P Require Import Prelude Posix.

(** ** Bytes *)
Definition byte (z : Z) : Prop := 0 <= z < 256.
Definition bytes (l : list Z) : Prop := Forall byte l.

Definition le32 (z : Z) : list Z := [u8 z; u8 (z / 2 ^ 8); u8 (z / 2 ^ 16); u8 (z / 2 ^ 24)].
Fixpoint le_val (l : list Z) : Z :=
  match l with [] => 0 | b :: l' => b + 256 * le_val l' end.

(** [int], [unsigned int] and [char] at offset [o]. *)
Definition i32_at (buf : list Z) (o : Z) : Z := to_int (le_val (slice buf o 4)).
Definition u32_at (buf : list Z) (o : Z) : Z := u32 (le_val (slice buf o 4)).
Definition u16_at (buf : list Z) (o : Z) : Z := u16 (le_val (slice buf o 2)).
Definition s16_at (buf : list Z) (o : Z) : Z := let v := u16_at buf o in if v <? 2 ^ 15 then v else v - 2 ^ 16.
Definition u8_at (buf : list Z) (o : Z) : Z := default 0 (buf !! Z.to_nat o).
Definition char_at (buf : list Z) (o : Z) : Z :=
  let b := u8_at buf o in if b <? 128 then b else b - 256.

(** Overwriting bytes from offset [o]. *)
Definition patch (buf : list Z) (o : Z) (new : list Z) : list Z :=
  take (Z.to_nat o) buf ++ new ++ drop (Z.to_nat (o + zlen new)) buf.
Definition put32 (buf : list Z) (o z : Z) : list Z := patch buf o (le32 z).
Definition put16 (buf : list Z) (o z : Z) : list Z := patch buf o [u8 z; u8 (z / 2 ^ 8)].
Definition put8 (buf : list Z) (o z : Z) : list Z := patch buf o [u8 z].

(** The C string that starts at offset [o]; [None] when no NUL ends it inside
    the buffer. *)
Fixpoint cstr (l : list Z) : option (list Z) :=
  match l with
  | [] => None
  | b :: l' => if b =? 0 then Some [] else (b ::.) <$> cstr l'
  end.
Definition cstr_at (buf : list Z) (o : Z) : option (list Z) := cstr (drop (Z.to_nat o) buf).

(** ** Layout *)
Definition SIZEOF_HEADER : Z := 8.
Definition SIZEOF_PDU : Z := 37.
Definition SIZEOF_REGIST : Z := 16.
Definition o_cksum : Z := 0.
Definition o_cmd : Z := 4.
Definition o_sn : Z := 8.
Definition o_threshold : Z := 12.
Definition o_version_major : Z := 16.
Definition o_version_minor : Z := 20.
Definition o_channel : Z := 12.
Definition o_err : Z := 13.
Definition o_filecnt : Z := 17.
Definition o_block : Z := 21.
Definition o_qos : Z := 25.
Definition o_map : Z := 29.
Definition o_bid : Z := 25.
Definition o_len : Z := 29.
Definition o_data : Z := 33.
Definition o_filesize : Z := 21.
Definition o_stbid : Z := 25.
Definition o_fnlen : Z := 29.
Definition o_file : Z := 30.

Definition PDU_FINDSERVER : Z := 0.
Definition PDU_REGIST : Z := 1.
Definition PDU_OPENFILE : Z := 2.
Definition PDU_FETCH : Z := 3.
Definition PDU_FAST_FETCH : Z := 4.
Definition PDU_CLOSEFILE : Z := 5.
Definition PDU_VODSTOP : Z := 6.
Definition PDU_NEED_REGIST : Z := 7.
Definition PDU_FETCH_RESPONSE : Z := 8.
Definition PDU_NEED_REOPEN : Z := 9.

(** ** The checksum: the bytes behind the [cksum] field, masked to 28 bits after
    every addition *)
Fixpoint cksum_loop (q : list Z) (sum : Z) : Z :=
  match q with
  | [] => sum
  | b :: q' => cksum_loop q' (Z.land (sum + b) 0xfffffff)
  end.
Definition stiov3_cs_cksum (buf : list Z) (len : Z) : Z :=
  cksum_loop (slice buf 4 (len - 4)) 0.

(** [ptr->cksum = self->cksum (buffer, len)]. *)
Definition seal (buf : list Z) (len : Z) : list Z :=
  put32 buf o_cksum (stiov3_cs_cksum buf len).

(** The test both receivers make before they look at a PDU. *)
Definition cksum_ok (buf : list Z) (len : Z) : bool :=
  stiov3_cs_cksum buf len =? i32_at buf o_cksum.

(** ** Facts about bytes and fields *)
Lemma le_val_le32 z : le_val (le32 z) = u32 z.
Proof. unfold le32, u8, u32. simpl. Z.div_mod_to_equations. lia. Qed.

Lemma to_int_u32 z : to_int (u32 z) = to_int z.
Proof. unfold to_int, u32. by rewrite Z.mod_mod. Qed.

Lemma to_int_id z : int_ok z -> to_int z = z.
Proof.
  unfold to_int, u32, int_ok, INT_MIN, INT_MAX. intros H.
  destruct (Z.ltb_spec (z mod 2 ^ 32) (2 ^ 31)); Z.div_mod_to_equations; lia.
Qed.

Lemma u32_id z : 0 <= z < 2 ^ 32 -> u32 z = z.
Proof. intros. unfold u32. by apply Z.mod_small. Qed.

Lemma zlen_le32 z : zlen (le32 z) = 4.
Proof. done. Qed.

Lemma bytes_le32 z : bytes (le32 z).
Proof.
  unfold bytes, le32, byte, u8. repeat constructor;
    match goal with |- context [?a mod _] => pose proof (Z.mod_pos_bound a (2 ^ 8)); lia end.
Qed.

Lemma zlen_patch buf o new :
  0 <= o -> o + zlen new <= zlen buf -> zlen (patch buf o new) = zlen buf.
Proof.
  unfold patch, zlen. intros. rewrite !length_app, length_take, length_drop. lia.
Qed.

Lemma blit_patch buf o new :
  0 <= o -> o + zlen new <= zlen buf -> blit buf o new = Ret (patch buf o new).
Proof. intros H1 H2. unfold blit. by rewrite (proj2 (Z.leb_le _ _) H1), (proj2 (Z.leb_le _ _) H2). Qed.

Lemma lookup_patch buf o new (i : nat) :
  0 <= o -> o + zlen new <= zlen buf ->
  patch buf o new !! i =
    if decide (o <= Z.of_nat i < o + zlen new) then new !! (i - Z.to_nat o)%nat else buf !! i.
Proof.
  intros H1 H2. unfold patch, zlen in *. case_decide.
  - rewrite lookup_app_r by (rewrite length_take; lia).
    rewrite lookup_app_l by (rewrite length_take; lia). f_equal. rewrite length_take. lia.
  - destruct (Z.lt_ge_cases (Z.of_nat i) o).
    + rewrite lookup_app_l, lookup_take_lt by (rewrite ?length_take; lia). done.
    + rewrite lookup_app_r by (rewrite length_take; lia).
      rewrite lookup_app_r by (rewrite length_take; lia).
      rewrite lookup_drop, length_take. f_equal. lia.
Qed.

Lemma slice_patch_eq buf o new len :
  0 <= o -> o + zlen new <= zlen buf -> zlen new = len -> slice (patch buf o new) o len = new.
Proof.
  intros H1 H2 <-. apply list_eq. intros i. destruct (Z.lt_ge_cases (Z.of_nat i) (zlen new)).
  - rewrite lookup_slice, lookup_patch by lia. rewrite decide_True by lia. f_equal. lia.
  - rewrite lookup_slice_ge by lia. symmetry. apply lookup_ge_None. unfold zlen in *. lia.
Qed.

Lemma slice_patch_ne buf o new p len :
  0 <= o -> o + zlen new <= zlen buf -> 0 <= p -> (p + len <= o \/ o + zlen new <= p) ->
  slice (patch buf o new) p len = slice buf p len.
Proof.
  intros H1 H2 Hp Hd. apply list_eq. intros i. destruct (Z.lt_ge_cases (Z.of_nat i) len).
  - rewrite !lookup_slice, lookup_patch by lia. by rewrite decide_False by lia.
  - by rewrite !lookup_slice_ge by lia.
Qed.

Lemma slice_patch_sub buf o new p len :
  0 <= o -> o + zlen new <= zlen buf -> o <= p -> 0 <= len -> p + len <= o + zlen new ->
  slice (patch buf o new) p len = slice new (p - o) len.
Proof.
  intros H1 H2 Hp Hl Hd. apply list_eq. intros i. destruct (Z.lt_ge_cases (Z.of_nat i) len).
  - rewrite !lookup_slice, lookup_patch by lia. rewrite decide_True by lia. f_equal. lia.
  - by rewrite !lookup_slice_ge by lia.
Qed.

Lemma slice_patch_prefix buf o new : 0 <= o -> o + zlen new <= zlen buf ->
  slice (patch buf o new) 0 (o + zlen new) = slice buf 0 o ++ new.
Proof.
  intros Ho Hl. pose proof (zlen_nonneg new). rewrite <- (slice_app _ 0 o (zlen new)) by lia. f_equal.
  - rewrite slice_patch_ne by lia. done.
  - apply slice_patch_eq; lia.
Qed.

Lemma head_split (l : list Z) n k : 0 <= k <= n ->
  slice l 0 k = take (Z.to_nat k) (slice l 0 n) /\ slice l k (n - k) = drop (Z.to_nat k) (slice l 0 n).
Proof.
  intros H. unfold slice. change (Z.to_nat 0) with 0%nat. rewrite !drop_0. split.
  - rewrite take_take. f_equal. lia.
  - rewrite skipn_firstn_comm. f_equal. lia.
Qed.

Lemma bytes_patch buf o new : bytes buf -> bytes new -> bytes (patch buf o new).
Proof. intros Hb Hn. unfold patch, bytes. by apply Forall_app_2; [apply Forall_take|apply Forall_app_2, Forall_drop]. Qed.

Lemma bytes_slice buf o len : bytes buf -> bytes (slice buf o len).
Proof. intros. by apply Forall_take, Forall_drop. Qed.

Lemma i32_put32 buf o z :
  0 <= o -> o + 4 <= zlen buf -> int_ok z -> i32_at (put32 buf o z) o = z.
Proof.
  intros H1 H2 Hz. unfold i32_at, put32. rewrite slice_patch_eq, le_val_le32 by (rewrite ?zlen_le32; lia).
  rewrite to_int_u32. by apply to_int_id.
Qed.

Lemma i32_put32_wrap buf o z :
  0 <= o -> o + 4 <= zlen buf -> i32_at (put32 buf o z) o = to_int z.
Proof.
  intros H1 H2. unfold i32_at, put32. rewrite slice_patch_eq, le_val_le32 by (rewrite ?zlen_le32; lia).
  apply to_int_u32.
Qed.

Lemma u32_put32 buf o z :
  0 <= o -> o + 4 <= zlen buf -> u32_at (put32 buf o z) o = u32 z.
Proof.
  intros H1 H2. unfold u32_at, put32. rewrite slice_patch_eq, le_val_le32 by (rewrite ?zlen_le32; lia).
  unfold u32. by rewrite Z.mod_mod.
Qed.

Lemma i32_put32_ne buf o z p :
  0 <= o -> o + 4 <= zlen buf -> 0 <= p -> (p + 4 <= o \/ o + 4 <= p) ->
  i32_at (put32 buf o z) p = i32_at buf p.
Proof. intros. unfold i32_at, put32. by rewrite slice_patch_ne by (rewrite ?zlen_le32; lia). Qed.

Lemma zlen_put32 buf o z : 0 <= o -> o + 4 <= zlen buf -> zlen (put32 buf o z) = zlen buf.
Proof. intros. by apply zlen_patch. Qed.

Lemma zlen_put16 buf o z : 0 <= o -> o + 2 <= zlen buf -> zlen (put16 buf o z) = zlen buf.
Proof. intros. by apply zlen_patch. Qed.

Lemma u16_put16 buf o z : 0 <= o -> o + 2 <= zlen buf -> u16_at (put16 buf o z) o = u16 z.
Proof.
  intros H1 H2. unfold u16_at, put16. rewrite slice_patch_eq by (change (zlen [u8 z; u8 (z / 2 ^ 8)]) with 2; lia).
  unfold u8, u16. cbn [le_val]. Z.div_mod_to_equations. lia.
Qed.

Lemma s16_put16 buf o z : 0 <= o -> o + 2 <= zlen buf -> - 2 ^ 15 <= z < 2 ^ 15 -> s16_at (put16 buf o z) o = z.
Proof.
  intros H1 H2 Hz. unfold s16_at. rewrite u16_put16 by done. unfold u16. destruct (Z.ltb_spec (z mod 2 ^ 16) (2 ^ 15)); Z.div_mod_to_equations; lia.
Qed.

Lemma slice_put16_ne buf o z p n : 0 <= o -> o + 2 <= zlen buf -> 0 <= p -> (p + n <= o \/ o + 2 <= p) ->
  slice (put16 buf o z) p n = slice buf p n.
Proof. intros. unfold put16. by rewrite slice_patch_ne by (change (zlen [u8 z; u8 (z / 2 ^ 8)]) with 2; lia). Qed.

(** ** Receiving into a buffer *)

(** The buffer after receiving [d]. *)
Definition rx (buf d : list Z) : list Z := take (length buf) d ++ drop (length (take (length buf) d)) buf.

Lemma zlen_rx buf d : zlen (rx buf d) = zlen buf.
Proof. unfold rx, zlen. rewrite length_app, length_drop, length_take. lia. Qed.

Lemma slice_rx buf d : zlen d <= zlen buf -> slice (rx buf d) 0 (zlen d) = d.
Proof.
  intros H. unfold rx, slice, zlen in *. rewrite (take_ge d) by lia. rewrite drop_0.
  rewrite Nat2Z.id. by apply take_app_length.
Qed.

Lemma i32_slice b b' p : slice b p 4 = slice b' p 4 -> i32_at b p = i32_at b' p.
Proof. unfold i32_at. by intros ->. Qed.

Lemma slice_all b n : zlen b = n -> slice b 0 n = b.
Proof. intros <-. unfold slice, zlen. rewrite Nat2Z.id, drop_0. by apply take_ge. Qed.

Lemma slice_rx_in buf d p n :
  0 <= p -> 0 <= n -> p + n <= zlen d -> zlen d <= zlen buf -> slice (rx buf d) p n = slice d p n.
Proof.
  intros. apply list_eq. intros i. destruct (Z.lt_ge_cases (Z.of_nat i) n).
  - rewrite !lookup_slice by lia. unfold rx, zlen in *. rewrite (take_ge d) by lia.
    by rewrite lookup_app_l by lia.
  - by rewrite !lookup_slice_ge by lia.
Qed.

(** Offsets are small and buffers are long: side conditions of field accesses. *)
Ltac fld :=
  unfold o_cksum, o_cmd, o_sn, o_threshold, o_version_major, o_version_minor, o_channel, o_err,
    o_filecnt, o_block, o_qos, o_map, o_bid, o_len, o_data, o_filesize, o_stbid, o_fnlen, o_file in *; lia.

(** ** Facts about the checksum *)
Fixpoint zsum (l : list Z) : Z := match l with [] => 0 | x :: l' => x + zsum l' end.

Lemma zsum_app l k : zsum (l ++ k) = zsum l + zsum k.
Proof. induction l as [|x l IH]; simpl; [done|]. lia. Qed.

Lemma land_28 z : Z.land z 0xfffffff = z mod 2 ^ 28.
Proof. change 0xfffffff with (Z.ones 28). by rewrite Z.land_ones by lia. Qed.

Lemma cksum_loop_sum q sum : cksum_loop q sum mod 2 ^ 28 = (sum + zsum q) mod 2 ^ 28.
Proof.
  revert sum. induction q as [|b q IH]; intros sum; simpl; [by rewrite Z.add_0_r|].
  rewrite IH, land_28, Z.add_mod_idemp_l by lia. f_equal. lia.
Qed.

Lemma cksum_loop_range q sum : 0 <= sum < 2 ^ 28 -> 0 <= cksum_loop q sum < 2 ^ 28.
Proof.
  revert sum. induction q as [|b q IH]; intros sum H; simpl; [done|]. apply IH.
  rewrite land_28. apply Z.mod_pos_bound. lia.
Qed.

Lemma cs_cksum_eq buf len : stiov3_cs_cksum buf len = zsum (slice buf 4 (len - 4)) mod 2 ^ 28.
Proof.
  unfold stiov3_cs_cksum. rewrite <- (Z.mod_small (cksum_loop _ 0) (2 ^ 28)).
  - by rewrite cksum_loop_sum.
  - apply cksum_loop_range. lia.
Qed.

Lemma cs_cksum_range buf len : 0 <= stiov3_cs_cksum buf len < 2 ^ 28.
Proof. apply cksum_loop_range. lia. Qed.

Lemma cksum_seal buf len : 4 <= zlen buf -> stiov3_cs_cksum (seal buf len) len = stiov3_cs_cksum buf len.
Proof.
  intros H. unfold seal at 1, stiov3_cs_cksum at 1, put32, o_cksum.
  destruct (Z.le_gt_cases 0 (len - 4)).
  - rewrite slice_patch_ne by (rewrite ?zlen_le32; lia). done.
  - unfold stiov3_cs_cksum, slice. by replace (Z.to_nat (len - 4)) with 0%nat by lia.
Qed.

Lemma seal_ok buf len : 4 <= zlen buf -> cksum_ok (seal buf len) len = true.
Proof.
  intros H. unfold cksum_ok. rewrite cksum_seal by done. apply Z.eqb_eq. unfold seal.
  rewrite i32_put32; [done|unfold o_cksum; lia..|].
  pose proof (cs_cksum_range buf len). int_lia.
Qed.

Lemma zlen_seal buf len : 4 <= zlen buf -> zlen (seal buf len) = zlen buf.
Proof. intros. unfold seal. apply zlen_put32; unfold o_cksum; lia. Qed.

Lemma slice_seal buf len p n : 4 <= zlen buf -> 4 <= p -> slice (seal buf len) p n = slice buf p n.
Proof. intros. unfold seal, put32, o_cksum. by rewrite slice_patch_ne by (rewrite ?zlen_le32; lia). Qed.

Lemma i32_seal buf len p : 4 <= zlen buf -> 4 <= p -> i32_at (seal buf len) p = i32_at buf p.
Proof. intros. unfold i32_at. by rewrite slice_seal. Qed.

Lemma u32_seal buf len p : 4 <= zlen buf -> 4 <= p -> u32_at (seal buf len) p = u32_at buf p.
Proof. intros. unfold u32_at. by rewrite slice_seal. Qed.

Lemma u8_slice buf p : 0 <= p -> u8_at buf p = default 0 (slice buf p 1 !! 0%nat).
Proof. intros. unfold u8_at. rewrite lookup_slice by lia. by rewrite Nat.add_0_r. Qed.

Lemma char_seal buf len p : 4 <= zlen buf -> 4 <= p -> char_at (seal buf len) p = char_at buf p.
Proof. intros. unfold char_at. by rewrite !u8_slice, slice_seal by lia. Qed.

(** A received PDU is checked on its own bytes, whatever the buffer held before. *)
Lemma cksum_rx buf d : 4 <= zlen d <= zlen buf -> cksum_ok (rx buf d) (zlen d) = cksum_ok d (zlen d).
Proof.
  intros H. unfold cksum_ok, stiov3_cs_cksum, i32_at, o_cksum.
  by rewrite !slice_rx_in by lia.
Qed.

Lemma slice_split buf p n i :
  0 <= p -> 0 <= i < n -> p + n <= zlen buf ->
  slice buf p n = slice buf p i ++ [u8_at buf (p + i)] ++ slice buf (p + i + 1) (n - i - 1).
Proof.
  intros. replace n with (i + (1 + (n - i - 1))) at 1 by lia.
  rewrite <- slice_app, <- slice_app by lia. do 2 f_equal.
  destruct (lookup_lt_is_Some_2 buf (Z.to_nat (p + i))) as [x Hx]; [unfold zlen in *; lia|].
  unfold u8_at. rewrite Hx. unfold slice. change (Z.to_nat 1) with 1%nat.
  by erewrite drop_S by done.
Qed.

(** The receivers' test rejects a PDU in which one byte was changed in transit. *)
Lemma cksum_flip buf len p b :
  bytes buf -> 4 <= p < len -> len <= zlen buf -> byte b -> b <> u8_at buf p ->
  stiov3_cs_cksum (patch buf p [b]) len <> stiov3_cs_cksum buf len.
Proof.
  intros Hb Hp Hl Hbb Hne. rewrite !cs_cksum_eq.
  assert (zlen (patch buf p [b]) = zlen buf) as Hz by (apply zlen_patch; autorewrite with katmai; lia).
  rewrite (slice_split buf 4 (len - 4) (p - 4)) by lia.
  rewrite (slice_split (patch buf p [b]) 4 (len - 4) (p - 4)) by lia.
  rewrite !slice_patch_ne by (autorewrite with katmai; lia).
  replace (4 + (p - 4)) with p by lia.
  assert (u8_at (patch buf p [b]) p = b) as ->.
  { unfold u8_at. rewrite lookup_patch by (autorewrite with katmai; lia).
    rewrite decide_True by (autorewrite with katmai; lia). by rewrite Nat.sub_diag. }
  assert (byte (u8_at buf p)).
  { unfold u8_at. destruct (buf !! Z.to_nat p) eqn:E; simpl; [|unfold byte; lia].
    by eapply Forall_lookup_1 in E. }
  rewrite !zsum_app. simpl. unfold byte in *. Z.div_mod_to_equations. lia.
Qed.

(** A PDU that its sender sealed passes the receivers' checksum test, and
    sealing changes nothing but the [cksum] field: the test reads back what the
    sender wrote, whatever bytes the PDU holds. *)
Theorem seal_roundtrip buf len :
  4 <= zlen buf ->
  cksum_ok (seal buf len) len = true /\ zlen (seal buf len) = zlen buf /\
  slice (seal buf len) 4 (zlen buf - 4) = slice buf 4 (zlen buf - 4).
Proof.
  intros H. split_and!; [by apply seal_ok|by apply zlen_seal|by apply slice_seal; [|lia]].
Qed.

(** The checksum is the sum of the bytes behind it modulo 2^28; so a PDU that passes the test
    fails it after any single byte behind the checksum is changed. *)
Theorem cksum_detects buf len p b :
  bytes buf -> 4 <= p < len -> len <= zlen buf -> byte b -> b <> u8_at buf p ->
  cksum_ok buf len = true ->
  stiov3_cs_cksum buf len = zsum (slice buf 4 (len - 4)) mod 2 ^ 28 /\
  cksum_ok (patch buf p [b]) len = false.
Proof.
  intros Hb Hp Hl Hbb Hne Hok. split; [apply cs_cksum_eq|].
  unfold cksum_ok in *. apply Z.eqb_eq in Hok. apply Z.eqb_neq.
  unfold i32_at, o_cksum in *. rewrite slice_patch_ne by (autorewrite with katmai; lia).
  rewrite <- Hok. by apply cksum_flip.
Qed.

Lemma seal_roundtrip_witness :
  cksum_ok (seal [9; 9; 9; 9; 3; 0; 0; 0; 250] 9) 9 = true.
Proof. apply (seal_roundtrip [9; 9; 9; 9; 3; 0; 0; 0; 250] 9). vm_compute. discriminate. Defined.

Lemma cksum_detects_witness :
  cksum_ok (patch [253; 0; 0; 0; 3; 0; 0; 0; 250] 8 [7]) 9 = false.
Proof.
  apply (cksum_detects [253; 0; 0; 0; 3; 0; 0; 0; 250] 9 8 7);
    [unfold bytes, byte; repeat constructor; lia|lia|vm_compute; discriminate|unfold byte; lia|
     vm_compute; discriminate|reflexivity].
Defined.
