(* ===== verification/Udp.v ===== *)
(** * Udp.v: the datagram socket with its address book, udplib/udplib.c

    A socket remembers the sender of the last datagram ([rmaddr]) and keeps a
    fixed table of registered peers; servers and clients name a peer by its slot
    number.  What leaves the socket is recorded in [sent], newest last.  The
    system calls behind [udplib_open] are the fields of an [os_socket] argument;
    [select] and the raw [recvfrom] only wait and copy and are not modelled. *)

From S2P Require Import Prelude Slots Posix.

Module UDP.

(** [struct sockaddr_in], whose family is always AF_INET and whose padding is
    zero; both fields in network byte order. *)
Record sockaddr := mk_sockaddr { sin_addr : Z; sin_port : Z }.
#[global] Instance sockaddr_eq_dec : EqDecision sockaddr.
Proof. solve_decision. Defined.

Definition htons (p : Z) : Z := 256 * (p mod 256) + (p / 256) mod 256.
Definition ntohl (a : Z) : Z :=
  2 ^ 24 * (a mod 256) + 2 ^ 16 * ((a / 2 ^ 8) mod 256) + 2 ^ 8 * ((a / 2 ^ 16) mod 256)
  + (a / 2 ^ 24) mod 256.

(** One element of the arrays [addruse] and [addrlist]. *)
Record peer := mk_peer { use : bool; sa : sockaddr }.

Record udplib := mk_udp {
  fd : Z;
  myaddr : sockaddr;
  bcaddr : sockaddr;
  rmaddr : sockaddr;
  addrlist : list peer;
  myport : Z;
  listcnt : Z;
  ioflag : Z;
  nonblocking_flag : Z;
  sendflag : Z;
  recvflag : Z;
  sent : list (sockaddr * list Z);
}.

Definition set_addrs (l : list peer) (u : udplib) : udplib :=
  mk_udp (fd u) (myaddr u) (bcaddr u) (rmaddr u) l (myport u) (listcnt u) (ioflag u)
    (nonblocking_flag u) (sendflag u) (recvflag u) (sent u).
Definition set_rmaddr (a : sockaddr) (u : udplib) : udplib :=
  mk_udp (fd u) (myaddr u) (bcaddr u) a (addrlist u) (myport u) (listcnt u) (ioflag u)
    (nonblocking_flag u) (sendflag u) (recvflag u) (sent u).
Definition set_bcaddr (a : sockaddr) (u : udplib) : udplib :=
  mk_udp (fd u) (myaddr u) a (rmaddr u) (addrlist u) (myport u) (listcnt u) (ioflag u)
    (nonblocking_flag u) (sendflag u) (recvflag u) (sent u).
Definition emit (a : sockaddr) (b : list Z) (u : udplib) : udplib :=
  mk_udp (fd u) (myaddr u) (bcaddr u) (rmaddr u) (addrlist u) (myport u) (listcnt u) (ioflag u)
    (nonblocking_flag u) (sendflag u) (recvflag u) (sent u ++ [(a, b)]).
Definition set_fd (f : Z) (u : udplib) : udplib :=
  mk_udp f (myaddr u) (bcaddr u) (rmaddr u) (addrlist u) (myport u) (listcnt u) (ioflag u)
    (nonblocking_flag u) (sendflag u) (recvflag u) (sent u).
Definition set_nonblocking (ff : Z) (u : udplib) : udplib :=
  mk_udp (fd u) (myaddr u) (bcaddr u) (rmaddr u) (addrlist u) (myport u) (listcnt u) (ioflag u)
    ff (sendflag u) (recvflag u) (sent u).

Definition udplib_close (u : udplib) : udplib := set_fd (-1) u.

(** [udplib_receive]: the datagram [d] from [a] is put at the start of the
    caller's buffer of [len] bytes; the number of bytes. *)
Definition udplib_receive (u : udplib) (buf : list Z) (a : sockaddr) (d : list Z)
  : Z * list Z * udplib :=
  let d' := take (length buf) d in
  (zlen d', d' ++ drop (length d') buf, set_rmaddr a u).

Definition udplib_send (u : udplib) (buf : list Z) (len : Z) : udplib :=
  emit (rmaddr u) (slice buf 0 len) u.

Definition in_list (u : udplib) (n : Z) : bool := (0 <=? n) && (n <? listcnt u).

(** The kernel's answer to a datagram it accepts is its length. *)
Definition udplib_sendto (u : udplib) (n : Z) (buf : list Z) (len : Z) : outcome (Z * udplib) :=
  if in_list u n then
    let* p := aget (addrlist u) n in
    if use p then Ret (len, emit (sa p) (slice buf 0 len) u) else Ret (-1, u)
  else Ret (-1, u).

Definition udplib_bsend (u : udplib) (port : Z) (buf : list Z) (len : Z) : udplib :=
  let u1 := set_bcaddr (mk_sockaddr (sin_addr (bcaddr u)) (htons port)) u in
  emit (bcaddr u1) (slice buf 0 len) u1.

Definition udplib_set_sendflag (u : udplib) (f : Z) : Z * udplib :=
  (sendflag u, mk_udp (fd u) (myaddr u) (bcaddr u) (rmaddr u) (addrlist u) (myport u) (listcnt u)
     (ioflag u) (nonblocking_flag u) f (recvflag u) (sent u)).
Definition udplib_set_recvflag (u : udplib) (f : Z) : Z * udplib :=
  (recvflag u, mk_udp (fd u) (myaddr u) (bcaddr u) (rmaddr u) (addrlist u) (myport u) (listcnt u)
     (ioflag u) (nonblocking_flag u) (sendflag u) f (sent u)).

(** What the system calls of [udplib_open] answer: the descriptor of [socket],
    whether [bind] succeeds, the interface's broadcast and own address, the
    port of [getsockname] and the flags of [fcntl]. *)
Record os_socket := mk_os {
  os_socket_fd : Z; os_bind_ok : bool; os_bcast : option Z; os_ifaddr : option Z;
  os_name_port : Z; os_flags : Z }.

Definition udplib_open (u : udplib) (os : os_socket) (port : Z) (intf isbind : bool)
  : Z * udplib :=
  if os_socket_fd os <? 0 then (-1, set_fd (os_socket_fd os) u)
  else
    let my0 := mk_sockaddr 0 (htons port) in
    let bc := match os_bcast os with
              | Some a => if intf then mk_sockaddr a (sin_port (bcaddr u)) else bcaddr u
              | None => bcaddr u
              end in
    let '(my1, setlocal) :=
      match os_ifaddr os with
      | Some a => if intf then if isbind then (mk_sockaddr a (sin_port my0), None) else (my0, Some a)
                  else (my0, None)
      | None => (my0, None)
      end in
    let f := if os_bind_ok os then os_socket_fd os else -1 in
    let my2 := match setlocal with Some a => mk_sockaddr a (sin_port my1) | None => my1 end in
    (f, mk_udp f my2 bc (rmaddr u) (addrlist u) (htons (os_name_port os)) (listcnt u)
          (os_flags os) (nonblocking_flag u) (sendflag u) (recvflag u) (sent u)).

Definition udplib_num_of_registed (u : udplib) : Z :=
  foldl (fun rc p => if use p then rc + 1 else rc) 0 (addrlist u).

Definition udplib_nonblocking (u : udplib) (n : Z) : Z * udplib :=
  let u' := if n =? 0 then if nonblocking_flag u =? 1 then set_nonblocking 0 u else u
            else if n =? 1 then if nonblocking_flag u =? 0 then set_nonblocking 1 u else u
            else u in
  (nonblocking_flag u', u').

Definition udplib_remote_port (u : udplib) : Z := htons (sin_port (rmaddr u)).
Definition udplib_get_remote (u : udplib) : Z := sin_addr (rmaddr u).
Definition udplib_get_myself (u : udplib) : Z := sin_addr (myaddr u).
Definition udplib_is_local (u : udplib) : Z :=
  if sin_addr (rmaddr u) =? sin_addr (myaddr u) then 1 else 0.
Definition udplib_ip_cmp (u : udplib) : Z :=
  if sin_addr (rmaddr u) =? sin_addr (myaddr u) then 0
  else if sin_addr (myaddr u) <? sin_addr (rmaddr u) then -1 else 1.

Definition udplib_udp_port (u : udplib) (n : Z) : outcome Z :=
  if in_list u n then let* p := aget (addrlist u) n in Ret (htons (sin_port (sa p))) else Ret 0.

Definition udplib_set_port (u : udplib) (n port : Z) : outcome (Z * udplib) :=
  if in_list u n then
    let* p := aget (addrlist u) n in
    let* l := aset (addrlist u) n (mk_peer (use p) (mk_sockaddr (sin_addr (sa p)) (htons port))) in
    Ret (1, set_addrs l u)
  else Ret (0, u).

(** ** Registration *)

(** The two searches differ in what they compare. *)
Definition regist_by (hit : sockaddr -> sockaddr -> bool) (u : udplib) : outcome (Z * udplib) :=
  let '(_, f) := scan use (fun p => hit (sa p) (rmaddr u))
                   (take (Z.to_nat (listcnt u)) (addrlist u)) 0 (-1) in
  if 0 <=? f then
    let* p := aget (addrlist u) f in
    if use p then Ret (f, u)
    else let* l := aset (addrlist u) f (mk_peer true (rmaddr u)) in Ret (f, set_addrs l u)
  else Ret (f, u).

Definition udplib_regist_rmaddr (u : udplib) : outcome (Z * udplib) :=
  regist_by (fun a b => bool_decide (a = b)) u.
Definition udplib_regist_ipaddr (u : udplib) : outcome (Z * udplib) :=
  regist_by (fun a b => sin_addr a =? sin_addr b) u.

Fixpoint find_free (l : list peer) (i : Z) : Z :=
  match l with
  | [] => -1
  | p :: l' => if use p then find_free l' (i + 1) else i
  end.
Definition internal_find_free (u : udplib) : outcome (Z * udplib) :=
  let f := find_free (take (Z.to_nat (listcnt u)) (addrlist u)) 0 in
  if f <? 0 then Ret (-1, u)
  else
    let* p := aget (addrlist u) f in
    let* l := aset (addrlist u) f (mk_peer true (sa p)) in
    Ret (f, set_addrs l u).

(** [resolve] is the answer of [inet_aton]/[gethostbyname]. *)
Definition udplib_regist_addr (resolve : path -> option Z) (u : udplib) (ip : path) (port : Z)
  : outcome (Z * udplib) :=
  let* r := internal_find_free u in
  let '(i, u1) := r in
  if i <? 0 then Ret (-1, u1)
  else
    match resolve ip with
    | Some a =>
        let* l := aset (addrlist u1) i (mk_peer true (mk_sockaddr a (htons port))) in
        Ret (i, set_addrs l u1)
    | None =>
        let* l := aset (addrlist u1) i (mk_peer false (mk_sockaddr 0 0)) in
        Ret (-1, set_addrs l u1)
    end.

Definition udplib_regist_sockaddr (u : udplib) (a : sockaddr) : outcome (Z * udplib) :=
  let* r := internal_find_free u in
  let '(i, u1) := r in
  if i <? 0 then Ret (-1, u1)
  else let* l := aset (addrlist u1) i (mk_peer true a) in Ret (i, set_addrs l u1).

Definition udplib_unregist (u : udplib) (entry : Z) : outcome udplib :=
  if in_list u entry then
    let* p := aget (addrlist u) entry in
    let* l := aset (addrlist u) entry (mk_peer false (sa p)) in
    Ret (set_addrs l u)
  else Ret u.

(** [callback (caller, i)] for every registered slot, in order. *)
Definition udplib_external_call {C} (callback : C -> Z -> C) (u : udplib) (c : C) : C :=
  foldl (fun c '(i, p) => if use p then callback c (Z.of_nat i) else c) c
    (imap (fun i p => (i, p)) (addrlist u)).

(** [u0] is the content of the allocated block: [myaddr], [rmaddr], [myport] and
    [ioflag] are not initialised. *)
Definition new_udplib (u0 : udplib) (n : Z) : udplib :=
  mk_udp (-1) (myaddr u0) (mk_sockaddr (2 ^ 32 - 1) 0) (rmaddr u0)
    (replicate (Z.to_nat n) (mk_peer false (mk_sockaddr 0 0))) (myport u0) (Z.max 0 n)
    (ioflag u0) 0 0 0 (sent u0).

(** ** The address book is sound: the table has [listcnt] slots and no address is
    registered twice *)
Record book_ok (u : udplib) : Prop := {
  bo_len : listcnt u = zlen (addrlist u);
  bo_unique : forall i j p q, addrlist u !! i = Some p -> addrlist u !! j = Some q ->
    use p = true -> use q = true -> sa p = sa q -> i = j;
}.

(** The address a slot stands for. *)
Definition peer_at (u : udplib) (n : Z) : option sockaddr :=
  if 0 <=? n then
    match addrlist u !! Z.to_nat n with
    | Some p => if use p then Some (sa p) else None
    | None => None
    end
  else None.

Lemma peer_at_nat u (i : nat) p :
  addrlist u !! i = Some p -> peer_at u (Z.of_nat i) = if use p then Some (sa p) else None.
Proof. intros H. unfold peer_at. by rewrite (proj2 (Z.leb_le 0 _)), Nat2Z.id, H by lia. Qed.

Lemma peer_at_insert u (i : nat) p n :
  (i < length (addrlist u))%nat -> n <> Z.of_nat i ->
  peer_at (set_addrs (<[i := p]> (addrlist u)) u) n = peer_at u n.
Proof.
  intros Hi Hn. unfold peer_at. simpl. destruct (Z.leb_spec 0 n); [|done].
  by rewrite list_lookup_insert_ne by lia.
Qed.

Lemma book_ok_take u (i : nat) a p :
  book_ok u -> addrlist u !! i = Some p -> use p = false ->
  (forall j q, addrlist u !! j = Some q -> use q = true -> sa q <> a) ->
  book_ok (set_addrs (<[i := mk_peer true a]> (addrlist u)) u).
Proof.
  intros [Hl Hu] Hp Hf Hno. split; simpl; [by rewrite zlen_insert|].
  pose proof (lookup_lt_Some _ _ _ Hp).
  intros x y q r Hq Hr Hq1 Hr1 Heq.
  destruct (decide (x = i)) as [->|]; [rewrite list_lookup_insert_eq in Hq by done|
    rewrite list_lookup_insert_ne in Hq by done];
  (destruct (decide (y = i)) as [->|]; [rewrite list_lookup_insert_eq in Hr by done|
    rewrite list_lookup_insert_ne in Hr by done]); simplify_eq/=; [done| | |by eauto];
  exfalso; by eapply Hno.
Qed.

(** What registering the last sender does. *)
Lemma regist_rmaddr_cases u :
  book_ok u -> exists i u', udplib_regist_rmaddr u = Ret (i, u') /\ book_ok u' /\
    sent u' = sent u /\ rmaddr u' = rmaddr u /\ listcnt u' = listcnt u /\
    (forall n a, peer_at u n = Some a -> peer_at u' n = Some a) /\
    (0 <= i /\ peer_at u' i = Some (rmaddr u) \/
     i = -1 /\ u' = u /\ forall p, p ∈ addrlist u -> use p = true /\ sa p <> rmaddr u).
Proof.
  intros B. pose proof (bo_len _ B) as Hl. unfold udplib_regist_rmaddr, regist_by.
  rewrite take_ge by (unfold zlen in *; lia).
  destruct (scan_cases use (fun p => bool_decide (sa p = rmaddr u)) (addrlist u))
    as [(i & p & -> & Hp & Hu & Ha%bool_decide_eq_true)|(Hno & [(i & p & -> & Hp & Hu & _)|[-> Hfull]])].
  - rewrite (proj2 (Z.leb_le 0 _)) by lia. crun. rewrite Hu.
    exists (Z.of_nat i), u. split_and!; try done. left. split; [lia|].
    rewrite (peer_at_nat _ _ _ Hp), Hu. by f_equal.
  - rewrite (proj2 (Z.leb_le 0 _)) by lia. pose proof (lookup_lt_Some _ _ _ Hp). crun. rewrite Hu. crun.
    assert (forall j q, addrlist u !! j = Some q -> use q = true -> sa q <> rmaddr u) as Hno'.
    { intros j q Hq Huq. specialize (Hno _ _ Hq Huq). by apply bool_decide_eq_false in Hno. }
    do 2 eexists. split; [done|]. split; [by eapply book_ok_take|]. split_and!; try done.
    + intros n a Hn. rewrite peer_at_insert; [done|done|]. intros ->.
      rewrite (peer_at_nat _ _ _ Hp), Hu in Hn. done.
    + left. split; [lia|]. erewrite peer_at_nat by (simpl; by rewrite list_lookup_insert_eq). done.
  - simpl. exists (-1), u. split_and!; try done. right. split_and!; try done.
    intros p [j Hj]%list_elem_of_lookup. split; [by eapply Hfull|].
    specialize (Hno _ _ Hj (Hfull _ _ Hj)). by apply bool_decide_eq_false in Hno.
Qed.

Lemma sendto_peer u n a buf len :
  book_ok u -> peer_at u n = Some a ->
  udplib_sendto u n buf len = Ret (len, emit a (slice buf 0 len) u).
Proof.
  intros B. unfold peer_at. destruct (Z.leb_spec 0 n); [|done].
  destruct (addrlist u !! Z.to_nat n) as [p|] eqn:E; [|done]. destruct (use p) eqn:Hu; [|done].
  intros [= <-]. unfold udplib_sendto, in_list. apply lookup_lt_Some in E as ?.
  rewrite (proj2 (Z.leb_le 0 n)), (proj2 (Z.ltb_lt n _)) by (rewrite ?(bo_len _ B); unfold zlen; lia).
  simpl. rewrite (aget_Some _ _ p) by done. simpl. by rewrite Hu.
Qed.

Lemma peer_at_inv u n a : peer_at u n = Some a ->
  0 <= n /\ exists p, addrlist u !! Z.to_nat n = Some p /\ use p = true /\ sa p = a.
Proof.
  unfold peer_at. destruct (Z.leb_spec 0 n); [|done].
  destruct (addrlist u !! Z.to_nat n) as [p|] eqn:E; [|done]. destruct (use p) eqn:Hu; [|done].
  intros [= <-]. eauto.
Qed.

(** A sender that has a slot gets it again. *)
Lemma regist_rmaddr_known u n :
  book_ok u -> peer_at u n = Some (rmaddr u) -> udplib_regist_rmaddr u = Ret (n, u).
Proof.
  intros B (Hn & p & Hp & Hu & Ha)%peer_at_inv. pose proof (bo_len _ B) as Hl.
  unfold udplib_regist_rmaddr, regist_by. rewrite take_ge by (unfold zlen in *; lia).
  destruct (scan_cases use (fun p => bool_decide (sa p = rmaddr u)) (addrlist u))
    as [(i & q & -> & Hq & Huq & Haq%bool_decide_eq_true)|(Hno & _)].
  - rewrite (proj2 (Z.leb_le 0 _)) by lia. crun. rewrite Huq.
    rewrite (bo_unique _ B _ _ _ _ Hq Hp) by congruence. by rewrite Z2Nat.id.
  - specialize (Hno _ _ Hp Hu). apply bool_decide_eq_false in Hno. done.
Qed.

(** Registering the sender of the last datagram returns a slot to which
    [udplib_sendto] sends: the same slot every time for the same address (no
    address gets two slots), without disturbing the slots of other peers; only
    when all slots are taken by other addresses it returns -1 and changes
    nothing. *)
Theorem udplib_regist_rmaddr_correct u buf len :
  book_ok u -> exists i u', udplib_regist_rmaddr u = Ret (i, u') /\ book_ok u' /\
    (forall n a, peer_at u n = Some a -> peer_at u' n = Some a) /\
    (0 <= i /\ udplib_sendto u' i buf len = Ret (len, emit (rmaddr u) (slice buf 0 len) u') /\
       udplib_regist_rmaddr u' = Ret (i, u') \/
     i = -1 /\ u' = u /\ forall p, p ∈ addrlist u -> use p = true /\ sa p <> rmaddr u).
Proof.
  intros B. destruct (regist_rmaddr_cases u B) as (i & u' & H & B' & _ & Hr & _ & Hk & Hi).
  exists i, u'. split_and!; try done. destruct Hi as [[H0 Hp]|Hi]; [left|by right].
  split_and!; [done|by apply sendto_peer|].
  apply regist_rmaddr_known; [done|]. by rewrite Hr.
Qed.

Definition ex_udp : udplib :=
  mk_udp 3 (mk_sockaddr 1 2) (mk_sockaddr 9 2) (mk_sockaddr 7 5)
    [mk_peer true (mk_sockaddr 4 5); mk_peer false (mk_sockaddr 0 0)] 2 2 0 0 0 0 [].
Lemma ex_udp_ok : book_ok ex_udp.
Proof.
  split; [done|]. intros [|[|i]] [|[|j]] p q Hp Hq; simplify_eq/=; try done.
Qed.

Lemma udplib_regist_rmaddr_correct_witness :
  book_ok ex_udp /\ exists i u', udplib_regist_rmaddr ex_udp = Ret (i, u') /\ book_ok u'.
Proof.
  split; [exact ex_udp_ok|].
  destruct (udplib_regist_rmaddr_correct ex_udp [] 0 ex_udp_ok) as (i & u' & H & B & _).
  by exists i, u'.
Defined.
End UDP.
