(* ===== verification/Mqueue.v ===== *)
(** * Mqueue.v: the multi-level queue of mqueue/mqueue.c

    A [multiple_queue] has up to four rings of client numbers, level 0 being
    served first, and a [location] table that remembers where each client
    number is queued.  Enqueueing a number that already waits at a less urgent
    level moves it: its old slot is overwritten with -1 (a tombstone) and
    [mq_dequeue] skips it.

    The specification is the list of levels without tombstones; the main
    results are the refinement of [mq_enqueue] and [mq_dequeue], the safety of
    both, the behaviour of the two branches that lose requests, and the FIFO
    interface used by the stream server. *)

From S2P Require Import Prelude Ring Interfaces.

Module MQ.

Definition MAX_NUM_OF_MQUEUE : Z := 4.

Record location := mk_location { loc_q : Z; loc_i : Z }.

(** The arrays hold the cells the constructor initialises: [queue], [front],
    [rear] and [use_cnt] have one entry per queue of [number_of_queue]. *)
Record multiple_queue := mk_mq {
  queue : list (list Z);
  locations : list location;
  max_value : Z;
  count : Z;
  number_of_queue : Z;
  front : list Z;
  rear : list Z;
  use_cnt : list Z;
  inqueue_cnt : Z;
}.

Definition set_locations (m : multiple_queue) ls :=
  mk_mq (queue m) ls (max_value m) (count m) (number_of_queue m)
        (front m) (rear m) (use_cnt m) (inqueue_cnt m).
Definition set_queue (m : multiple_queue) qs :=
  mk_mq qs (locations m) (max_value m) (count m) (number_of_queue m)
        (front m) (rear m) (use_cnt m) (inqueue_cnt m).

(** The jump of a client from level [i]: its old slot becomes a tombstone. *)
Definition mq_jump (self : multiple_queue) (n i : Z) : outcome multiple_queue :=
  let* qi := aget (queue self) i in
  let* loc := aget (locations self) n in
  let* qi' := aset qi (loc_i loc) (-1) in
  let* qs := aset (queue self) i qi' in
  Ret (set_queue self qs).

(** Appending client [n] at the rear of level [q]. *)
Definition mq_append (self : multiple_queue) (n q : Z) : outcome multiple_queue :=
  let* r := aget (rear self) q in
  let* locs := aset (locations self) n (mk_location q r) in
  let* qq := aget (queue self) q in
  let* qq' := aset qq r n in
  let* qs := aset (queue self) q qq' in
  let* r1 := ck (r + 1) in
  let* r' := crem r1 (count self) in
  let* rear' := aset (rear self) q r' in
  let* u := aget (use_cnt self) q in
  let* u' := ck (u + 1) in
  let* use' := aset (use_cnt self) q u' in
  let* c' := ck (inqueue_cnt self + 1) in
  Ret (mk_mq qs locs (max_value self) (count self) (number_of_queue self)
             (front self) rear' use' c').

Definition mq_enqueue (self : multiple_queue) (n q : Z) : outcome (Z * multiple_queue) :=
  let* loc := aget (locations self) n in
  let i := loc_q loc in
  if (i <? 0) || (q <? i) then
    let* locs := aset (locations self) n (mk_location q (loc_i loc)) in
    let self1 := set_locations self locs in
    let* u := aget (use_cnt self1) q in
    let* lim := ck (count self1 - 1) in
    if u <? lim then
      let* self2 := (if q <? i then mq_jump self1 n i else Ret self1) in
      let* self3 := mq_append self2 n q in
      Ret (1, self3)
    else Ret (1, self1)
  else Ret (1, self).

(** The body of the [if (use_cnt[i] > 0)] branch of the scan. *)
Definition mq_take (self : multiple_queue) (i : Z) : outcome (Z * multiple_queue) :=
  let* qi := aget (queue self) i in
  let* f := aget (front self) i in
  let* rc := aget qi f in
  let* f1 := ck (f + 1) in
  let* f' := crem f1 (count self) in
  let* front' := aset (front self) i f' in
  let* u := aget (use_cnt self) i in
  let* u' := ck (u - 1) in
  let* use' := aset (use_cnt self) i u' in
  let* c' := ck (inqueue_cnt self - 1) in
  let* locs := (if 0 <=? rc
                then let* l := aget (locations self) rc in
                     aset (locations self) rc (mk_location (-1) (loc_i l))
                else Ret (locations self)) in
  Ret (rc, mk_mq (queue self) locs (max_value self) (count self)
                 (number_of_queue self) front' (rear self) use' c').

(** [for (i = 0; i < number_of_queue; i++) if (use_cnt[i] > 0) { ...; break; }],
    from level [i] with [k] levels left. *)
Fixpoint mq_scan (k : nat) (i : Z) (self : multiple_queue) : outcome (Z * multiple_queue) :=
  match k with
  | O => Ret (-1, self)
  | S k' =>
      let* u := aget (use_cnt self) i in
      if 0 <? u then mq_take self i else mq_scan k' (i + 1) self
  end.

(** One critical section of [mq_dequeue]. *)
Definition mq_dequeue_iter (wait : Z) (self : multiple_queue) : outcome (Z * multiple_queue) :=
  if negb (wait =? 0) && (inqueue_cnt self =? 0) then Block
  else if inqueue_cnt self =? 0 then Ret (-1, self)
  else mq_scan (Z.to_nat (number_of_queue self)) 0 self.

(** [do { ... } while (rc < 0);] *)
Fixpoint mq_dequeue (fuel : nat) (self : multiple_queue) (wait : Z)
  : outcome (Z * multiple_queue) :=
  match fuel with
  | O => Fault OutOfFuel
  | S fuel' =>
      let* r := mq_dequeue_iter wait self in
      if fst r <? 0 then mq_dequeue fuel' (snd r) wait else Ret r
  end.

Definition mq_is_empty (self : multiple_queue) : Z := b2z (inqueue_cnt self =? 0).

(** [malloc_ok]: whether the allocation of the structure succeeds (the
    [calloc]s of the members are not checked by the code). *)
Definition new_multiple_queue (malloc_ok : bool) (n nq maxv : Z) : option multiple_queue :=
  if (MAX_NUM_OF_MQUEUE <? nq) || (nq <? 1) then None
  else if negb malloc_ok then None
  else
    let k := Z.to_nat nq in
    Some (mk_mq (replicate k (replicate (Z.to_nat (n + 1)) 0))
                (replicate (Z.to_nat (maxv + 1)) (mk_location (-1) (-1)))
                maxv (n + 1) nq
                (replicate k 0) (replicate k 0) (replicate k 0) 0).

(** ** Representation invariant

    [raws] lists, per level, the ring contents from front to rear, tombstones
    included. *)
Record qrep (m : multiple_queue) (q : nat) (raw : list Z) : Prop := {
  qr_arr : exists arr fr,
    queue m !! q = Some arr /\ zlen arr = count m /\
    front m !! q = Some fr /\ 0 <= fr < count m /\
    rear m !! q = Some ((fr + zlen raw) mod count m) /\
    use_cnt m !! q = Some (zlen raw) /\ zlen raw <= count m - 1 /\
    ring_rep arr fr raw /\
    forall j v, raw !! j = Some v ->
      v = -1 \/
      (0 <= v /\ locations m !! Z.to_nat v =
         Some (mk_location (Z.of_nat q) ((fr + Z.of_nat j) mod count m)));
}.

Record mq_inv (m : multiple_queue) (raws : list (list Z)) : Prop := {
  mi_nq : number_of_queue m = zlen raws;
  mi_nq_bound : 1 <= zlen raws <= MAX_NUM_OF_MQUEUE;
  mi_count : 1 <= count m;
  mi_count_max : 4 * count m <= INT_MAX;
  mi_lens : length (queue m) = length raws /\ length (front m) = length raws /\
            length (rear m) = length raws /\ length (use_cnt m) = length raws;
  mi_rep : forall q raw, raws !! q = Some raw -> qrep m q raw;
  mi_total : inqueue_cnt m = zlen (concat raws);
  mi_loc : forall v loc, locations m !! v = Some loc ->
    loc_q loc < 0 \/
    exists q raw, loc_q loc = Z.of_nat q /\ raws !! q = Some raw /\ Z.of_nat v ∈ raw;
}.

(** ** Specification: the levels, without tombstones *)
Definition live (raw : list Z) : list Z := filter (fun v => 0 <= v) raw.
Definition levels (raws : list (list Z)) : list (list Z) := live <$> raws.

(** Is [n] queued at level [q] or at a more urgent one? *)
Definition waiting_upto (n : Z) (q : nat) (ls : list (list Z)) : bool :=
  existsb (fun l => bool_decide (n ∈ l)) (take (S q) ls).

Definition spec_enqueue (n : Z) (q : nat) (ls : list (list Z)) : list (list Z) :=
  if waiting_upto n q ls then ls
  else alter (fun l => l ++ [n]) q (filter (fun v => v <> n) <$> ls).

Fixpoint spec_dequeue (ls : list (list Z)) : option (Z * list (list Z)) :=
  match ls with
  | [] => None
  | (v :: l) :: ls' => Some (v, l :: ls')
  | [] :: ls' =>
      match spec_dequeue ls' with
      | Some (v, ls'') => Some (v, [] :: ls'')
      | None => None
      end
  end.

(** ** Lemmas *)
Lemma concat_insert_len (raws : list (list Z)) q raw raw' :
  raws !! q = Some raw ->
  zlen (concat (<[q := raw']> raws)) + zlen raw = zlen (concat raws) + zlen raw'.
Proof.
  revert q. induction raws as [|r raws IH]; intros [|q] H; simplify_eq/=;
    autorewrite with katmai; [lia|].
  specialize (IH _ H). lia.
Qed.

Lemma concat_len_ge (raws : list (list Z)) q raw :
  raws !! q = Some raw -> zlen raw <= zlen (concat raws).
Proof.
  revert q. induction raws as [|r raws IH]; intros [|q] H; simplify_eq/=;
    autorewrite with katmai.
  - pose proof (zlen_nonneg (concat raws)). lia.
  - specialize (IH _ H). pose proof (zlen_nonneg r). lia.
Qed.

Lemma concat_len_bound (raws : list (list Z)) b :
  (forall q raw, raws !! q = Some raw -> zlen raw <= b) -> zlen (concat raws) <= b * zlen raws.
Proof.
  induction raws as [|r raws IH]; intros H; simpl; autorewrite with katmai; [lia|].
  pose proof (H 0%nat r eq_refl). specialize (IH (fun q => H (S q))). lia.
Qed.

Lemma total_bound m raws : mq_inv m raws -> inqueue_cnt m < INT_MAX.
Proof.
  intros I. rewrite (mi_total _ _ I). pose proof (mi_count_max _ _ I).
  assert (zlen (concat raws) <= (count m - 1) * zlen raws).
  { apply concat_len_bound. intros q' r' Hr'.
    by destruct (mi_rep _ _ I _ _ Hr') as [(?&?&?&?&?&?&?&?&?&?)]. }
  pose proof (mi_nq_bound _ _ I). pose proof (mi_count _ _ I). unfold MAX_NUM_OF_MQUEUE in *. nia.
Qed.

Lemma qrep_frame m m' q raw :
  qrep m q raw -> count m' = count m ->
  queue m' !! q = queue m !! q -> front m' !! q = front m !! q ->
  rear m' !! q = rear m !! q -> use_cnt m' !! q = use_cnt m !! q ->
  (forall v, 0 <= v -> v ∈ raw -> locations m' !! Z.to_nat v = locations m !! Z.to_nat v) ->
  qrep m' q raw.
Proof.
  intros [(arr & fr & A1 & A2 & A3 & A4 & A5 & A6 & A7 & A8 & A9)] Hc Hq Hf Hr Hu Hl.
  constructor. exists arr, fr.
  rewrite Hc, Hq, Hf, Hr, Hu. split_and!; try done; try lia.
  intros j v Hj. destruct (A9 j v Hj) as [->|[Hv Hloc]]; [by left|right].
  split; [done|]. rewrite Hl; [done|done|]. by eapply list_elem_of_lookup_2.
Qed.

Lemma mq_unique m raws q q' raw raw' j j' v :
  mq_inv m raws -> 0 <= v ->
  raws !! q = Some raw -> raw !! j = Some v ->
  raws !! q' = Some raw' -> raw' !! j' = Some v -> q = q' /\ j = j'.
Proof.
  intros I Hv Hq Hj Hq' Hj'.
  destruct (mi_rep _ _ I _ _ Hq) as [(arr & fr & _ & _ & Hf & _ & _ & _ & Hc & _ & L)].
  destruct (mi_rep _ _ I _ _ Hq') as [(arr' & fr' & _ & _ & Hf' & _ & _ & _ & _ & _ & L')].
  destruct (L _ _ Hj) as [?|[_ E1]]; [lia|].
  destruct (L' _ _ Hj') as [?|[_ E2]]; [lia|].
  rewrite E1 in E2. injection E2 as Eq Ei. assert (q = q') as <- by lia.
  split; [done|]. simplify_eq. apply lookup_lt_Some in Hj, Hj'.
  apply mod_inj in Ei; unfold zlen in *; lia.
Qed.

Lemma mq_not_in m raws n loc q raw :
  mq_inv m raws -> locations m !! n = Some loc -> loc_q loc < 0 ->
  raws !! q = Some raw -> Z.of_nat n ∉ raw.
Proof.
  intros I Hl Hneg Hq [j Hj]%list_elem_of_lookup_1.
  destruct (mi_rep _ _ I _ _ Hq) as [(arr & fr & _ & _ & _ & _ & _ & _ & _ & _ & L)].
  destruct (L _ _ Hj) as [?|[_ E]]; [lia|].
  rewrite Nat2Z.id, Hl in E. injection E as ->. simpl in Hneg. lia.
Qed.

Definition append_state m (n q : nat) (arr : list Z) (fr : Z) (raw : list Z) :=
  mk_mq (<[q := <[rslot (count m) (fr + zlen raw) := Z.of_nat n]> arr]> (queue m))
    (<[n := mk_location (Z.of_nat q) ((fr + zlen raw) mod count m)]> (locations m))
    (max_value m) (count m) (number_of_queue m) (front m)
    (<[q := (fr + zlen raw + 1) mod count m]> (rear m))
    (<[q := zlen raw + 1]> (use_cnt m)) (inqueue_cnt m + 1).

Lemma mq_append_run m raws (n q : nat) arr fr raw :
  mq_inv m raws -> raws !! q = Some raw ->
  queue m !! q = Some arr -> zlen arr = count m -> 
  rear m !! q = Some ((fr + zlen raw) mod count m) ->
  use_cnt m !! q = Some (zlen raw) -> zlen raw < count m - 1 ->
  (n < length (locations m))%nat ->
  mq_append m (Z.of_nat n) (Z.of_nat q) = Ret (append_state m n q arr fr raw).
Proof.
  intros I Hq Ha Hlen Hr Hu Hlt Hn. unfold mq_append, append_state.
  destruct (mi_lens _ _ I) as (L1 & L2 & L3 & L4). apply lookup_lt_Some in Hq as Hqlt.
  pose proof (total_bound _ _ I).
  pose proof (mi_count _ _ I). pose proof (mi_count_max _ _ I).
  pose proof (zlen_nonneg (concat raws)) as Htot. rewrite <- (mi_total _ _ I) in Htot.
  pose proof (zlen_nonneg raw).
  assert (0 <= (fr + zlen raw) mod count m < count m) by (apply Z.mod_pos_bound; lia).
  crun.
  unfold rslot. by rewrite Zplus_mod_idemp_l.
Qed.

Lemma append_inv m raws (n q : nat) arr fr raw loc :
  mq_inv m raws -> raws !! q = Some raw ->
  queue m !! q = Some arr -> zlen arr = count m ->
  front m !! q = Some fr -> 0 <= fr < count m -> ring_rep arr fr raw ->
  (forall j v, raw !! j = Some v -> v = -1 \/ (0 <= v /\ locations m !! Z.to_nat v =
         Some (mk_location (Z.of_nat q) ((fr + Z.of_nat j) mod count m)))) ->
  zlen raw < count m - 1 ->
  locations m !! n = Some loc -> loc_q loc < 0 ->
  mq_inv (append_state m n q arr fr raw) (<[q := raw ++ [Z.of_nat n]]> raws).
Proof.
  intros I Hq Ha Hlen Hf Hfr Hring L Hlt Hn Hneg.
  pose proof (lookup_lt_Some _ _ _ Hq) as Hqlt. pose proof (lookup_lt_Some _ _ _ Hn) as Hnlt.
  destruct (mi_lens _ _ I) as (L1 & L2 & L3 & L4).
  split; simpl; rewrite ?zlen_insert, ?length_insert; try apply I; try done.
  - intros q' raw' Hq'. destruct (decide (q = q')) as [<-|Hne].
    + rewrite list_lookup_insert_eq in Hq' by done. injection Hq' as <-.
      constructor. exists (<[rslot (count m) (fr + zlen raw) := Z.of_nat n]> arr), fr. simpl.
      rewrite !list_lookup_insert_eq by lia. autorewrite with katmai.
      split_and!; try done; try lia.
      * f_equal. f_equal. lia.
      * rewrite <- Hlen. apply ring_rep_snoc; [lia|done].
      * intros j v [[_ Hj]|[-> <-]]%lookup_snoc_Some.
        -- destruct (L _ _ Hj) as [?|[? Hl]]; [by left|right]. split; [done|].
           rewrite list_lookup_insert_ne; [done|]. intros ->. rewrite Hn in Hl.
           injection Hl as ->. simpl in Hneg. lia.
        -- right. rewrite Nat2Z.id, list_lookup_insert_eq by done. unfold zlen. split; [lia|done].
    + rewrite list_lookup_insert_ne in Hq' by done.
      apply (qrep_frame m); simpl; try done; [by eapply mi_rep|by rewrite list_lookup_insert_ne..|].
      intros v Hv Hin. rewrite list_lookup_insert_ne; [done|]. intros ->.
      eapply (mq_not_in m raws (Z.to_nat v)); try done. by rewrite Z2Nat.id by lia.
  - pose proof (concat_insert_len raws q raw (raw ++ [Z.of_nat n]) Hq) as E.
    rewrite (mi_total _ _ I). autorewrite with katmai in E. lia.
  - intros v loc' Hv. destruct (decide (n = v)) as [<-|Hne].
    + rewrite list_lookup_insert_eq in Hv by done. injection Hv as <-. right.
      exists q, (raw ++ [Z.of_nat n]). rewrite list_lookup_insert_eq by done.
      split_and!; [done..|]. apply elem_of_app. right. by apply list_elem_of_singleton.
    + rewrite list_lookup_insert_ne in Hv by done.
      destruct (mi_loc _ _ I _ _ Hv) as [?|(q' & raw' & H1 & H2 & H3)]; [by left|right].
      destruct (decide (q = q')) as [<-|Hne'].
      * exists q, (raw ++ [Z.of_nat n]). rewrite list_lookup_insert_eq by done.
        simplify_eq. split_and!; [done..|]. apply elem_of_app. by left.
      * exists q', raw'. by rewrite list_lookup_insert_ne.
Qed.

(** The state after a jump, with the client marked absent. *)
Definition unlink_state m (n i : nat) (arr : list Z) (loc : location) :=
  set_locations (set_queue m (<[i := <[Z.to_nat (loc_i loc) := -1]> arr]> (queue m)))
    (<[n := mk_location (-1) (loc_i loc)]> (locations m)).

Lemma unlink_inv m raws (n i j : nat) arr loc raw :
  mq_inv m raws -> locations m !! n = Some loc ->
  raws !! i = Some raw -> raw !! j = Some (Z.of_nat n) -> queue m !! i = Some arr ->
  mq_inv (unlink_state m n i arr loc) (<[i := <[j := -1]> raw]> raws) /\
  0 <= loc_i loc < zlen arr /\ loc_q loc = Z.of_nat i.
Proof.
  intros I Hn Hi Hj Ha.
  destruct (mi_rep _ _ I _ _ Hi) as [(arr0 & fr & A1 & A2 & A3 & A4 & A5 & A6 & A7 & A8 & A9)].
  simplify_eq.
  destruct (A9 _ _ Hj) as [?|[_ Hl]]; [lia|]. rewrite Nat2Z.id, Hn in Hl. injection Hl as ->.
  pose proof (mi_count _ _ I) as Hc.
  assert (0 <= (fr + Z.of_nat j) mod count m < count m) by (apply Z.mod_pos_bound; lia).
  split; [|simpl; lia].
  pose proof (lookup_lt_Some _ _ _ Hi) as Hilt. pose proof (lookup_lt_Some _ _ _ Hj) as Hjlt.
  pose proof (lookup_lt_Some _ _ _ Hn) as Hnlt.
  destruct (mi_lens _ _ I) as (L1 & L2 & L3 & L4).
  split; simpl; rewrite ?zlen_insert, ?length_insert; try apply I; try done.
  - intros q' raw' Hq'. destruct (decide (i = q')) as [<-|Hne].
    + rewrite list_lookup_insert_eq in Hq' by done. injection Hq' as <-.
      constructor. exists (<[rslot (count m) (fr + Z.of_nat j) := -1]> arr), fr. simpl.
      rewrite !list_lookup_insert_eq by lia. autorewrite with katmai.
      split_and!; try done; try lia.
      * rewrite <- A2. by apply ring_rep_insert.
      * intros k v Hk. destruct (decide (j = k)) as [<-|Hjk].
        -- rewrite list_lookup_insert_eq in Hk by done. left. congruence.
        -- rewrite list_lookup_insert_ne in Hk by done.
           destruct (A9 _ _ Hk) as [?|[Hv Hl]]; [by left|right]. split; [done|].
           rewrite list_lookup_insert_ne; [done|]. intros ->.
           rewrite Z2Nat.id in Hj by lia.
           destruct (mq_unique m raws i i raw raw k j v) as [_ ?]; [done..|lia].
    + rewrite list_lookup_insert_ne in Hq' by done.
      apply (qrep_frame m); simpl; try done; [by eapply mi_rep|by rewrite list_lookup_insert_ne|].
      intros v Hv [k Hk]%list_elem_of_lookup_1. rewrite list_lookup_insert_ne; [done|].
      intros ->. rewrite Z2Nat.id in Hj by lia.
      by destruct (mq_unique m raws i q' raw raw' j k v) as [? _].
  - pose proof (concat_insert_len raws i raw (<[j:=-1]> raw) Hi) as E.
    rewrite (mi_total _ _ I). autorewrite with katmai in E. lia.
  - intros v loc' Hv. destruct (decide (n = v)) as [<-|Hne].
    + rewrite list_lookup_insert_eq in Hv by done. injection Hv as <-. left. simpl. lia.
    + rewrite list_lookup_insert_ne in Hv by done.
      destruct (mi_loc _ _ I _ _ Hv) as [?|(q' & raw' & H1 & H2 & H3)]; [by left|right].
      destruct (decide (i = q')) as [<-|Hne'].
      * exists i, (<[j:=-1]> raw). rewrite list_lookup_insert_eq by done. simplify_eq.
        split_and!; [done..|]. apply list_elem_of_lookup_1 in H3 as [k Hk].
        apply list_elem_of_lookup_2 with k. rewrite list_lookup_insert_ne; [done|].
        intros ->. rewrite Hj in Hk. injection Hk. lia.
      * exists q', raw'. by rewrite list_lookup_insert_ne.
Qed.

(** [mq_append] overwrites the location of the client it appends. *)
Lemma mq_append_forget m (n : nat) l q :
  (n < length (locations m))%nat ->
  mq_append (set_locations m (<[n := l]> (locations m))) (Z.of_nat n) q = mq_append m (Z.of_nat n) q.
Proof.
  intros Hn. unfold mq_append. simpl. destruct (aget (rear m) q); simpl; [|done..].
  rewrite !aset_nat by (rewrite ?length_insert; lia). simpl. by rewrite list_insert_insert_eq.
Qed.

Lemma live_app raw v : 0 <= v -> live (raw ++ [v]) = live raw ++ [v].
Proof. intros Hv. unfold live. rewrite filter_app, filter_cons_True by done. done. Qed.

Lemma levels_append raws (q : nat) raw v :
  0 <= v -> raws !! q = Some raw ->
  levels (<[q := raw ++ [v]]> raws) = alter (fun l => l ++ [v]) q (levels raws).
Proof.
  intros Hv Hq. unfold levels. apply list_eq. intros k.
  rewrite list_lookup_alter, !list_lookup_fmap.
  destruct (decide (q = k)) as [<-|Hne].
  - rewrite list_lookup_insert_eq by (by eapply lookup_lt_Some). rewrite Hq. simpl. by rewrite live_app.
  - by rewrite list_lookup_insert_ne.
Qed.

Lemma elem_of_live v raw : v ∈ live raw <-> 0 <= v /\ v ∈ raw.
Proof. unfold live. apply list_elem_of_filter. Qed.

Lemma levels_absent raws v :
  (forall q raw, raws !! q = Some raw -> v ∉ raw) ->
  filter (fun w => w <> v) <$> levels raws = levels raws.
Proof.
  intros H. unfold levels. rewrite <- list_fmap_compose. apply list_fmap_ext.
  intros q raw Hq. apply filter_all. intros w [_ Hw]%elem_of_live ->. by apply (H q raw).
Qed.

Lemma live_tombstone raw (j : nat) v :
  0 <= v -> raw !! j = Some v -> (forall k, raw !! k = Some v -> k = j) ->
  live (<[j := -1]> raw) = filter (fun w => w <> v) (live raw).
Proof.
  intros Hv. unfold live. revert j. induction raw as [|w raw IH]; intros [|j] Hj Hu; simplify_eq/=.
  - rewrite filter_cons_False by lia.
    rewrite (filter_cons_True (fun v => 0 <= v)) by done.
    rewrite filter_cons_False by (intros E; by apply E). symmetry. apply filter_all.
    intros w [_ [k Hk]%list_elem_of_lookup_1]%list_elem_of_filter ->. by specialize (Hu (S k) Hk).
  - rewrite !filter_cons. rewrite (IH j) by (done || (intros k Hk; specialize (Hu (S k) Hk); lia)).
    destruct (decide (0 <= w)); [|done]. rewrite filter_cons_True; [done|].
    intros ->. by specialize (Hu 0%nat eq_refl).
Qed.

Lemma levels_unlink m raws (i j n : nat) raw :
  mq_inv m raws -> raws !! i = Some raw -> raw !! j = Some (Z.of_nat n) ->
  levels (<[i := <[j := -1]> raw]> raws) = filter (fun w => w <> Z.of_nat n) <$> levels raws.
Proof.
  intros I Hi Hj. apply list_eq. intros k. unfold levels.
  rewrite !list_lookup_fmap. destruct (decide (i = k)) as [<-|Hne].
  - rewrite list_lookup_insert_eq by (by eapply lookup_lt_Some). rewrite Hi. simpl. f_equal.
    apply live_tombstone; [lia|done|]. intros k Hk.
    destruct (mq_unique m raws i i raw raw k j (Z.of_nat n)) as [_ ?]; [done|lia|done..].
  - rewrite list_lookup_insert_ne by done. destruct (raws !! k) as [raw'|] eqn:Hk; [|done].
    simpl. f_equal. symmetry. apply filter_all.
    intros w [_ [k' Hk']%list_elem_of_lookup_1]%elem_of_live ->.
    by destruct (mq_unique m raws i k raw raw' j k' (Z.of_nat n)) as [? _]; [done|lia|done..|].
Qed.

Lemma waiting_upto_true (n : Z) (q : nat) raws :
  0 <= n ->
  waiting_upto n q (levels raws) = true <->
  exists i raw, (i <= q)%nat /\ raws !! i = Some raw /\ n ∈ raw.
Proof.
  intros Hn. unfold waiting_upto. rewrite existsb_exists. split.
  - intros (l & Hin & Hb%bool_decide_eq_true). apply list_elem_of_In, list_elem_of_lookup_1 in Hin as [i Hi].
    apply lookup_take_Some in Hi as [Hi Hlt]. unfold levels in Hi.
    apply list_lookup_fmap_Some in Hi as (raw & -> & Hraw).
    apply elem_of_live in Hb as [_ Hb]. exists i, raw. split_and!; [lia|done..].
  - intros (i & raw & Hi & Hraw & Hin). exists (live raw). split.
    + apply list_elem_of_In, list_elem_of_lookup_2 with i. apply lookup_take_Some.
      split; [|lia]. unfold levels. by rewrite list_lookup_fmap, Hraw.
    + apply bool_decide_eq_true, elem_of_live. done.
Qed.

Lemma waiting_upto_spec m raws (n q : nat) loc :
  mq_inv m raws -> locations m !! n = Some loc ->
  waiting_upto (Z.of_nat n) q (levels raws) = negb ((loc_q loc <? 0) || (Z.of_nat q <? loc_q loc)).
Proof.
  intros I Hn. apply eq_bool_prop_intro. rewrite !Is_true_true.
  rewrite waiting_upto_true by lia. rewrite negb_true_iff, orb_false_iff, !Z.ltb_ge. split.
  - intros (i & raw & Hle & Hi & [j Hj]%list_elem_of_lookup_1).
    destruct (mi_rep _ _ I _ _ Hi) as [(arr & fr & _ & _ & _ & _ & _ & _ & _ & _ & L)].
    destruct (L _ _ Hj) as [?|[_ E]]; [lia|]. rewrite Nat2Z.id, Hn in E.
    injection E as ->. simpl. lia.
  - intros [H0 H1]. destruct (mi_loc _ _ I _ _ Hn) as [?|(i & raw & E & Hi & Hin)]; [lia|].
    exists i, raw. split_and!; [lia|done..].
Qed.

Lemma append_ok m raws (n q : nat) loc :
  mq_inv m raws -> (q < length raws)%nat -> locations m !! n = Some loc -> loc_q loc < 0 ->
  (forall raw, raws !! q = Some raw -> zlen raw < count m - 1) ->
  exists m' raw, raws !! q = Some raw /\
    mq_append m (Z.of_nat n) (Z.of_nat q) = Ret m' /\
    mq_inv m' (<[q := raw ++ [Z.of_nat n]]> raws) /\
    count m' = count m /\ length (locations m') = length (locations m).
Proof.
  intros I Hq Hn Hneg Hroom. destruct (lookup_lt_is_Some_2 _ _ Hq) as [raw Hraw].
  pose proof (Hroom _ Hraw).
  destruct (mi_rep _ _ I _ _ Hraw) as [(arr & fr & A1 & A2 & A3 & A4 & A5 & A6 & A7 & A8 & A9)].
  exists (append_state m n q arr fr raw), raw.
  split_and!; [done| |by eapply append_inv|done|by apply length_insert].
  eapply mq_append_run; try done. by eapply lookup_lt_Some.
Qed.

Lemma append_levels m raws (n q : nat) loc :
  mq_inv m raws -> (q < length raws)%nat -> locations m !! n = Some loc -> loc_q loc < 0 ->
  (forall raw, raws !! q = Some raw -> zlen raw < count m - 1) ->
  exists m' raws', mq_append m (Z.of_nat n) (Z.of_nat q) = Ret m' /\ mq_inv m' raws' /\
    levels raws' = alter (fun l => l ++ [Z.of_nat n]) q (levels raws).
Proof.
  intros I Hq Hn Hneg Hroom.
  destruct (append_ok m raws n q loc) as (m' & raw & Hraw & Hrun & I' & _); [done..|].
  exists m', (<[q := raw ++ [Z.of_nat n]]> raws). split_and!; [done..|].
  apply levels_append; [lia|done].
Qed.

(** Room at level [q], and how a tombstone keeps it. *)
Definition room m (q : nat) : Prop := exists u, use_cnt m !! q = Some u /\ u < count m - 1.

Lemma room_raw m raws q raw :
  mq_inv m raws -> room m q -> raws !! q = Some raw -> zlen raw < count m - 1.
Proof.
  intros I (u & Hu & Hlt) Hq.
  destruct (mi_rep _ _ I _ _ Hq) as [(arr & fr & _ & _ & _ & _ & _ & A6 & _)]. by simplify_eq.
Qed.

Lemma mq_jump_append m raws (n q : nat) loc :
  mq_inv m raws -> (q < length raws)%nat -> locations m !! n = Some loc -> 0 <= loc_q loc ->
  room m q ->
  exists m2 m' raws',
    mq_jump (set_locations m (<[n := mk_location (Z.of_nat q) (loc_i loc)]> (locations m)))
            (Z.of_nat n) (loc_q loc) = Ret m2 /\
    mq_append m2 (Z.of_nat n) (Z.of_nat q) = Ret m' /\ mq_inv m' raws' /\
    levels raws' = alter (fun l => l ++ [Z.of_nat n]) q
                     (filter (fun w => w <> Z.of_nat n) <$> levels raws).
Proof.
  intros I Hq Hloc Hpos Hroom. pose proof (lookup_lt_Some _ _ _ Hloc) as Hn.
  destruct (mi_loc _ _ I _ _ Hloc) as [?|(i & raw & E & Hi & Hin)]; [lia|].
  apply list_elem_of_lookup_1 in Hin as [j Hj].
  destruct (lookup_lt_is_Some_2 (queue m) i) as [arr Harr].
  { destruct (mi_lens _ _ I) as [-> _]. by eapply lookup_lt_Some. }
  destruct (unlink_inv m raws n i j arr loc raw) as (I1 & Hb1 & _); [done..|].
  set (qm := set_queue m (<[i := <[Z.to_nat (loc_i loc) := -1]> arr]> (queue m))).
  exists (set_locations qm (<[n := mk_location (Z.of_nat q) (loc_i loc)]> (locations qm))).
  rewrite mq_append_forget by done.
  destruct (append_levels (unlink_state m n i arr loc) _ n q (mk_location (-1) (loc_i loc)) I1)
    as (m' & raws' & Hrun & I' & Hl).
  - by rewrite length_insert.
  - by apply list_lookup_insert_eq.
  - done.
  - intros raw'. apply (room_raw _ _ _ _ I1). done.
  - exists m', raws'. split_and!; [|by rewrite <- Hrun; symmetry; apply (mq_append_forget qm)|done|].
    + unfold mq_jump. simpl. rewrite E. rewrite (aget_nat _ _ _ Harr). cbn [obind].
      rewrite (aget_nat _ n (mk_location (Z.of_nat q) (loc_i loc)))
        by (by apply list_lookup_insert_eq). cbn [obind loc_i].
      rewrite aset_Ret by done. cbn [obind].
      by rewrite aset_nat by (by eapply lookup_lt_Some).
    + rewrite Hl. by erewrite levels_unlink.
Qed.

(** ** Dequeue *)
Definition take_state m (i : nat) (fr v : Z) (raw : list Z) :=
  mk_mq (queue m)
    (if 0 <=? v then alter (fun l => mk_location (-1) (loc_i l)) (Z.to_nat v) (locations m)
     else locations m)
    (max_value m) (count m) (number_of_queue m)
    (<[i := (fr + 1) mod count m]> (front m)) (rear m)
    (<[i := zlen raw]> (use_cnt m)) (inqueue_cnt m - 1).

Lemma take_loc m raws (i : nat) v raw :
  mq_inv m raws -> raws !! i = Some (v :: raw) ->
  v = -1 \/ (0 <= v /\ exists l, locations m !! Z.to_nat v = Some l).
Proof.
  intros I Hi. destruct (mi_rep _ _ I _ _ Hi) as [(arr & fr & _ & _ & _ & _ & _ & _ & _ & _ & L)].
  destruct (L 0%nat v eq_refl) as [?|[? ?]]; [by left|right]. eauto.
Qed.

Lemma mq_take_run m raws (i : nat) v raw fr :
  mq_inv m raws -> raws !! i = Some (v :: raw) -> front m !! i = Some fr ->
  mq_take m (Z.of_nat i) = Ret (v, take_state m i fr v raw).
Proof.
  intros I Hi Hfr.
  destruct (mi_rep _ _ I _ _ Hi) as [(arr & fr0 & A1 & A2 & A3 & A4 & A5 & A6 & A7 & A8 & A9)].
  simplify_eq. destruct (mi_lens _ _ I) as (L1 & L2 & L3 & L4).
  pose proof (lookup_lt_Some _ _ _ Hi). pose proof (mi_count_max _ _ I). pose proof (mi_count _ _ I).
  apply ring_rep_cons_inv in A8 as [A8 _]; [|lia]. rewrite A2, Z.mod_small in A8 by lia.
  pose proof (total_bound _ _ I). pose proof (concat_len_ge raws i _ Hi) as Hge.
  rewrite <- (mi_total _ _ I) in Hge.
  autorewrite with katmai in *. pose proof (zlen_nonneg raw).
  unfold mq_take, take_state. crun.
  replace (zlen raw + 1 - 1) with (zlen raw) by lia.
  destruct (take_loc m raws i v raw I Hi) as [->|(Hv & l & Hl)]; [done|].
  rewrite (proj2 (Z.leb_le 0 v)) by done. rewrite (aget_Some _ _ _ Hv Hl). cbn [obind].
  pose proof (lookup_lt_Some _ _ _ Hl). rewrite aset_Ret by (unfold zlen; lia). cbn [obind].
  by rewrite (alter_as_insert _ _ _ _ Hl).
Qed.

Lemma take_inv m raws (i : nat) v raw fr :
  mq_inv m raws -> raws !! i = Some (v :: raw) -> front m !! i = Some fr ->
  mq_inv (take_state m i fr v raw) (<[i := raw]> raws).
Proof.
  intros I Hi Hfr.
  destruct (mi_rep _ _ I _ _ Hi) as [(arr & fr0 & A1 & A2 & A3 & A4 & A5 & A6 & A7 & A8 & A9)].
  simplify_eq. destruct (mi_lens _ _ I) as (L1 & L2 & L3 & L4).
  pose proof (lookup_lt_Some _ _ _ Hi) as Hilt. pose proof (mi_count _ _ I).
  autorewrite with katmai in *.
  assert (forall w, 0 <= w -> w <> v ->
    locations (take_state m i fr v raw) !! Z.to_nat w = locations m !! Z.to_nat w) as Hloc.
  { intros w Hw Hne. unfold take_state. simpl. destruct (Z.leb_spec 0 v); [|done].
    rewrite list_lookup_alter_ne; [done|lia]. }
  split; rewrite ?zlen_insert, ?length_insert; try apply I; try done.
  - simpl. rewrite !length_insert. done.
  - intros q' raw' Hq'. destruct (decide (i = q')) as [<-|Hne].
    + rewrite list_lookup_insert_eq in Hq' by done. injection Hq' as <-.
      constructor. exists arr, ((fr + 1) mod count m). simpl.
      rewrite !list_lookup_insert_eq by lia.
      split_and!; try done; try lia; try (apply Z.mod_pos_bound; lia).
      * rewrite Zplus_mod_idemp_l. rewrite A5. do 2 f_equal. lia.
      * apply ring_rep_cons_inv in A8 as [_ A8]; [|lia].
        rewrite <- A2. by apply ring_rep_mod; [lia|].
      * intros j w Hj. destruct (A9 (S j) w Hj) as [?|[Hw Hl]]; [by left|right]. split; [done|].
        setoid_rewrite Hloc; [|done|].
        -- rewrite Hl. do 2 f_equal. rewrite Zplus_mod_idemp_l. f_equal. lia.
        -- intros ->. by destruct (mq_unique m raws i i (v :: raw) (v :: raw) (S j) 0 v) as [_ ?].
    + rewrite list_lookup_insert_ne in Hq' by done.
      apply (qrep_frame m); try done; [by eapply mi_rep|by simpl; rewrite list_lookup_insert_ne..|].
      intros w Hw [k Hk]%list_elem_of_lookup_1. apply Hloc; [done|]. intros ->.
      by destruct (mq_unique m raws q' i raw' (v :: raw) k 0 v) as [? _].
  - pose proof (concat_insert_len raws i _ raw Hi) as E. simpl.
    rewrite (mi_total _ _ I). autorewrite with katmai in E. lia.
  - intros w loc' Hw. destruct (decide (Z.of_nat w = v)) as [<-|Hne].
    + left. unfold take_state in Hw. simpl in Hw. rewrite (proj2 (Z.leb_le 0 _)) in Hw by lia.
      rewrite Nat2Z.id, list_lookup_alter_eq in Hw.
      apply fmap_Some in Hw as (l0 & _ & ->). done.
    + pose proof (Hloc (Z.of_nat w)) as E. rewrite Nat2Z.id in E. rewrite E in Hw by lia.
      destruct (mi_loc _ _ I _ _ Hw) as [?|(q' & raw' & H1 & H2 & H3)]; [by left|right].
      destruct (decide (i = q')) as [<-|Hne'].
      * exists i, raw. rewrite list_lookup_insert_eq by done. simplify_eq.
        apply elem_of_cons in H3 as [?|?]; [done|]. done.
      * exists q', raw'. by rewrite list_lookup_insert_ne.
Qed.

(** The scan finds the first level that is not empty. *)
Lemma mq_scan_spec m raws (k i : nat) :
  mq_inv m raws -> (k + i = length raws)%nat ->
  (exists i0 v raw m', (i <= i0)%nat /\ raws !! i0 = Some (v :: raw) /\
     (forall j, (i <= j < i0)%nat -> raws !! j = Some []) /\
     mq_scan k (Z.of_nat i) m = Ret (v, m') /\ mq_inv m' (<[i0 := raw]> raws)) \/
  (forall j, (i <= j < length raws)%nat -> raws !! j = Some []).
Proof.
  intros I. revert i. induction k as [|k IH]; intros i Hk; [right; intros; lia|].
  destruct (lookup_lt_is_Some_2 raws i) as [raw Hi]; [lia|].
  destruct (mi_rep _ _ I _ _ Hi) as [(arr & fr & A1 & A2 & A3 & A4 & A5 & A6 & A7 & A8 & A9)].
  simpl. crun. destruct raw as [|v raw]; autorewrite with katmai.
  - destruct (IH (S i)) as [(i0 & v & raw & m' & H1 & H2 & H3 & H4 & H5)|H]; [lia|left|right].
    + exists i0, v, raw, m'. simpl. replace (Z.of_nat i + 1) with (Z.of_nat (S i)) by lia.
      split_and!; try done; [lia|]. intros j Hj.
      destruct (decide (j = i)) as [->|?]; [done|apply H3; lia].
    + intros j Hj. destruct (decide (j = i)) as [->|?]; [done|apply H; lia].
  - left. pose proof (zlen_nonneg raw). rewrite (proj2 (Z.ltb_lt 0 _)) by lia.
    exists i, v, raw, (take_state m i fr v raw).
    split_and!; try done; [intros; lia|by eapply mq_take_run|by apply take_inv].
Qed.

Lemma spec_dequeue_at (ls : list (list Z)) (i : nat) v l :
  ls !! i = Some (v :: l) -> (forall j, (j < i)%nat -> ls !! j = Some []) ->
  spec_dequeue ls = Some (v, <[i := l]> ls).
Proof.
  revert i. induction ls as [|l0 ls IH]; intros [|i] Hi Hb; simplify_eq/=; [done|].
  specialize (Hb 0%nat ltac:(lia)) as H0. simpl in H0. injection H0 as ->.
  rewrite (IH i Hi); [done|]. intros j Hj. by apply (Hb (S j)); lia.
Qed.

Lemma spec_dequeue_none (ls : list (list Z)) :
  (forall j, (j < length ls)%nat -> ls !! j = Some []) -> spec_dequeue ls = None.
Proof.
  induction ls as [|l ls IH]; intros H; [done|].
  specialize (H 0%nat ltac:(simpl; lia)) as H0. simpl in H0. injection H0 as ->. simpl.
  rewrite IH; [done|]. intros j Hj. apply (H (S j)). simpl. lia.
Qed.

Lemma levels_insert raws (i : nat) raw : levels (<[i := raw]> raws) = <[i := live raw]> (levels raws).
Proof. unfold levels. apply list_fmap_insert. Qed.

(** What one critical section does: it takes the head [v] of the first level
    that is not empty; a tombstone leaves the levels unchanged. *)
Lemma mq_iter_spec m raws wait :
  mq_inv m raws ->
  (inqueue_cnt m = 0 /\ spec_dequeue (levels raws) = None) \/
  (exists v m' raws', mq_dequeue_iter wait m = Ret (v, m') /\ mq_inv m' raws' /\
     zlen (concat raws) = zlen (concat raws') + 1 /\
     ((v = -1 /\ levels raws' = levels raws) \/
      (0 <= v /\ spec_dequeue (levels raws) = Some (v, levels raws')))).
Proof.
  intros I.
  destruct (mq_scan_spec m raws (length raws) 0 I) as [(i & v & raw & m' & _ & Hi & Hb & Hs & I')|He];
    [lia|right|left].
  - pose proof (concat_len_ge _ _ _ Hi) as Hge. rewrite <- (mi_total _ _ I) in Hge.
    pose proof (concat_insert_len raws i _ raw Hi) as Hlen. autorewrite with katmai in *.
    pose proof (zlen_nonneg raw). exists v, m', (<[i := raw]> raws). split_and!; [|done|lia|].
    + unfold mq_dequeue_iter. rewrite (proj2 (Z.eqb_neq (inqueue_cnt m) 0)), andb_false_r by lia.
      rewrite (mi_nq _ _ I). unfold zlen. by rewrite Nat2Z.id.
    + assert (levels raws !! i = Some (live (v :: raw))) as Hli.
      { unfold levels. by rewrite list_lookup_fmap, Hi. }
      rewrite levels_insert. destruct (take_loc m raws i v raw I Hi) as [->|[Hv _]].
      * left. split; [done|]. by apply list_insert_id.
      * right. split; [done|]. apply spec_dequeue_at.
        -- rewrite Hli. unfold live. by rewrite filter_cons_True.
        -- intros j Hj. unfold levels. rewrite list_lookup_fmap, Hb by lia. done.
  - split.
    + rewrite (mi_total _ _ I). clear - He. induction raws as [|raw raws IH]; [done|].
      pose proof (He 0%nat ltac:(simpl; lia)) as H0. simpl in H0. injection H0 as ->. simpl.
      apply IH. intros j Hj. apply (He (S j)). simpl. lia.
    + apply spec_dequeue_none. unfold levels. intros j Hj. rewrite length_fmap in Hj.
      rewrite list_lookup_fmap, He by lia. done.
Qed.

Lemma mq_dequeue_some m raws wait fuel v ls' :
  mq_inv m raws -> (length (concat raws) < fuel)%nat ->
  spec_dequeue (levels raws) = Some (v, ls') ->
  exists m' raws', mq_dequeue fuel m wait = Ret (v, m') /\ mq_inv m' raws' /\ levels raws' = ls'.
Proof.
  revert m raws. induction fuel as [|fuel IH]; intros m raws I Hf Hs; [lia|]. simpl.
  destruct (mq_iter_spec m raws wait I) as [[_ ?]|(v0 & m' & raws' & Hit & I' & Hl & Hc)];
    [congruence|]. rewrite Hit. cbn [obind fst snd].
  destruct Hc as [[-> Hlv]|[Hv Hsp]].
  - apply (IH m' raws'); [done|unfold zlen in Hl; lia|congruence].
  - rewrite (proj2 (Z.ltb_ge v0 0)) by lia. rewrite Hs in Hsp. injection Hsp as <- ->. eauto.
Qed.

Lemma mq_dequeue_none m raws wait fuel :
  mq_inv m raws -> spec_dequeue (levels raws) = None ->
  (wait <> 0 -> (length (concat raws) < fuel)%nat -> mq_dequeue fuel m wait = Block) /\
  (wait = 0 -> mq_dequeue fuel m wait = Fault OutOfFuel).
Proof.
  revert m raws. induction fuel as [|fuel IH]; intros m raws I Hs; [split; [lia|done]|]. simpl.
  destruct (mq_iter_spec m raws wait I) as [[H0 _]|(v0 & m' & raws' & Hit & I' & Hl & Hc)].
  - unfold mq_dequeue_iter. rewrite H0. simpl. split.
    + intros Hw. by rewrite (proj2 (Z.eqb_neq wait 0)).
    + intros ->. simpl. by apply (IH m raws).
  - rewrite Hit. cbn [obind fst snd]. destruct Hc as [[-> Hlv]|[? ?]]; [|congruence].
    destruct (IH m' raws' I') as [IH1 IH2]; [congruence|]. simpl.
    split; intros; [apply IH1; [done|unfold zlen in Hl; lia]|by apply IH2].
Qed.
Lemma enqueue_levels m raws (n q : nat) :
  mq_inv m raws -> (n < length (locations m))%nat -> (q < length raws)%nat -> room m q ->
  exists m' raws', mq_enqueue m (Z.of_nat n) (Z.of_nat q) = Ret (1, m') /\ mq_inv m' raws' /\
    levels raws' = spec_enqueue (Z.of_nat n) q (levels raws).
Proof.
  intros I Hn Hq Hroom. destruct (lookup_lt_is_Some_2 _ _ Hn) as [loc Hloc].
  unfold mq_enqueue, spec_enqueue. rewrite (waiting_upto_spec m raws n q loc) by done.
  crun. destruct ((loc_q loc <? 0) || (Z.of_nat q <? loc_q loc)) eqn:Hb; cbn [negb];
    [|by exists m, raws].
  pose proof (mi_count _ _ I). pose proof (mi_count_max _ _ I). 
  pose proof Hroom as (u & Hu & Hlt). simpl. crun.
  rewrite (proj2 (Z.ltb_lt u (count m - 1))) by done.
  destruct (Z.ltb_spec (loc_q loc) 0) as [Hneg|Hpos].
  - rewrite (proj2 (Z.ltb_ge (Z.of_nat q) (loc_q loc))) by lia. cbn [obind].
    rewrite mq_append_forget by done.
    destruct (append_levels m raws n q loc) as (m' & raws' & -> & I' & Hl);
      [done..|intros raw Hr; by eapply room_raw|].
    exists m', raws'. split_and!; [done..|]. rewrite Hl, levels_absent; [done|].
    intros q' raw' Hq'. by apply (mq_not_in m raws n loc q' raw').
  - simpl in Hb. rewrite Hb.
    destruct (mq_jump_append m raws n q loc) as (m2 & m' & raws' & -> & Ha & I' & Hl); [done..|].
    cbn [obind]. rewrite Ha. by exists m', raws'.
Qed.


(** ** A fresh queue *)
Lemma new_mq_inv n nq maxv m :
  0 <= n -> 4 * (n + 1) <= INT_MAX -> new_multiple_queue true n nq maxv = Some m ->
  mq_inv m (replicate (Z.to_nat nq) []) /\ count m = n + 1 /\
  (0 <= maxv -> zlen (locations m) = maxv + 1).
Proof.
  intros Hn Hmax. unfold new_multiple_queue.
  destruct (Z.ltb_spec MAX_NUM_OF_MQUEUE nq), (Z.ltb_spec nq 1); simpl; try done.
  intros [= <-]. split_and!; [|done|intros; simpl; autorewrite with katmai; lia].
  split; simpl; autorewrite with katmai; rewrite ?length_replicate; try lia; try done.
  - intros q raw [-> Hq]%lookup_replicate. constructor.
    exists (replicate (Z.to_nat (n + 1)) 0), 0. simpl.
    rewrite !lookup_replicate_2 by done. autorewrite with katmai.
    split_and!; try done; try lia; apply ring_rep_nil.
  - induction (Z.to_nat nq) as [|k IH]; done.
  - intros v loc [-> _]%lookup_replicate. left. simpl. lia.
Qed.

Lemma levels_fresh k : levels (replicate k []) = replicate k [].
Proof. unfold levels. by rewrite fmap_replicate. Qed.

(** ** The stream server's use: every request at level 1

    [fifo_rep m cap l]: two levels, the first one empty, the second one holding
    the duplicate-free list [l] of numbers below the capacity. *)
Definition fifo_rep (m : multiple_queue) (cap : Z) (l : list Z) : Prop :=
  mq_inv m [[]; l] /\ count m = cap + 1 /\ cap <= zlen (locations m) /\
  Forall (fun v => 0 <= v < cap) l.

Lemma raw_NoDup m raws q raw :
  mq_inv m raws -> raws !! q = Some raw -> Forall (fun v => 0 <= v) raw -> NoDup raw.
Proof.
  intros I Hq Hpos. apply NoDup_alt. intros i j v Hi Hj.
  destruct (mq_unique m raws q q raw raw i j v) as [_ ?]; try done.
  by eapply Forall_lookup_1 in Hi.
Qed.

Lemma fifo_NoDup m cap l : fifo_rep m cap l -> NoDup l.
Proof.
  intros (I & _ & _ & Hl). apply (raw_NoDup m [[]; l] 1 l I eq_refl).
  eapply Forall_impl; [done|]. simpl. lia.
Qed.

Lemma NoDup_range_length (l : list Z) (cap : Z) :
  0 <= cap -> NoDup l -> Forall (fun v => 0 <= v < cap) l -> zlen l <= cap.
Proof.
  intros Hc Hnd Hl. assert (l ⊆+ seqZ 0 cap) as Hs%submseteq_length.
  { apply NoDup_submseteq; [done|]. intros v Hv. rewrite Forall_forall in Hl.
    apply elem_of_seqZ. specialize (Hl v Hv). lia. }
  rewrite length_seqZ in Hs. unfold zlen. lia.
Qed.

Lemma fifo_push m cap l n :
  fifo_rep m cap l -> 0 <= n < cap ->
  exists m', mq_enqueue m n 1 = Ret (1, m') /\
    fifo_rep m' cap (if decide (n ∈ l) then l else l ++ [n]).
Proof.
  intros F Hn. pose proof (fifo_NoDup _ _ _ F) as Hnd. destruct F as (I & Hc & Hlocs & Hl).
  assert (exists k, n = Z.of_nat k) as [k ->] by (exists (Z.to_nat n); lia).
  destruct (lookup_lt_is_Some_2 (locations m) k) as [loc Hloc]; [unfold zlen in *; lia|].
  unfold mq_enqueue. crun.
  destruct (mi_loc _ _ I _ _ Hloc) as [Hneg|(q & raw & Hq & Hraw & Hin)].
  - assert (Z.of_nat k ∉ l) as Hnin by (by apply (mq_not_in m [[]; l] k loc 1 l)).
    rewrite decide_False by done.
    assert (zlen l < cap) as Hroom.
    { assert (zlen (Z.of_nat k :: l) <= cap); [|autorewrite with katmai in *; lia].
      apply NoDup_range_length; [lia|by apply NoDup_cons|by apply Forall_cons]. }
    rewrite (proj2 (Z.ltb_lt (loc_q loc) 0)) by done. cbn [orb].
    assert (use_cnt m !! 1%nat = Some (zlen l)) as Hu.
    { by destruct (mi_rep _ _ I 1%nat l eq_refl) as [(?&?&?&?&?&?&?&?&?&?)]. }
    pose proof (mi_count_max _ _ I). pose proof (zlen_nonneg l).
    rewrite ?aset_nat by (unfold zlen in *; lia). cbn [obind use_cnt set_locations count].
    rewrite (aget_nat _ 1 _ Hu : aget (use_cnt m) 1 = _). cbn [obind]. crun.
    rewrite (proj2 (Z.ltb_lt (zlen l) _)), (proj2 (Z.ltb_ge 1 (loc_q loc))) by lia.
    cbn [obind]. rewrite ?Nat2Z.id. rewrite mq_append_forget by (by eapply lookup_lt_Some).
    destruct (append_ok m [[]; l] k 1 loc) as (m' & raw & [= <-] & Hrun & I' & Hc' & Hl');
      [done|simpl; lia|done|done|intros raw [= <-]; lia|].
    change (Z.of_nat 1) with 1 in Hrun. rewrite Hrun. exists m'. split; [done|].
    split_and!; [done|congruence|unfold zlen in *; lia|].
    apply Forall_app. split; [done|]. by apply Forall_singleton.
  - destruct q as [|[|q]]; simplify_eq/=; [by apply not_elem_of_nil in Hin|].
    rewrite Hq, decide_True by done. exists m. done.
Qed.

Definition mq_pop (m : multiple_queue) : outcome (Z * multiple_queue) :=
  mq_dequeue (S (Z.to_nat (inqueue_cnt m))) m 1.

Lemma fifo_pop m cap l n :
  fifo_rep m cap (n :: l) -> exists m', mq_pop m = Ret (n, m') /\ fifo_rep m' cap l.
Proof.
  intros (I & Hc & Hlocs & Hl). apply Forall_cons in Hl as [Hn Hl].
  destruct (mi_rep _ _ I 1%nat _ eq_refl) as [(arr & fr & A1 & A2 & A3 & A4 & A5 & A6 & A7 & A8 & A9)].
  exists (take_state m 1 fr n l). pose proof (take_inv _ _ 1 _ _ _ I eq_refl A3) as I'.
  split.
  - assert (inqueue_cnt m = zlen l + 1) as Htot.
    { rewrite (mi_total _ _ I). simpl. by rewrite app_nil_r, zlen_cons. }
    pose proof (zlen_nonneg l). unfold mq_pop. cbn [mq_dequeue]. unfold mq_dequeue_iter.
    rewrite Htot, (proj2 (Z.eqb_neq (zlen l + 1) 0)) by lia. rewrite (mi_nq _ _ I).
    change (Z.to_nat (zlen [[]; n :: l])) with 2%nat. simpl.
    destruct (mi_rep _ _ I 0%nat _ eq_refl) as [(_ & _ & _ & _ & _ & _ & _ & B6 & _)].
    rewrite (aget_nat _ 0 _ B6 : aget (use_cnt m) 0 = _). simpl. rewrite zlen_cons in A6.
    change (0 + 1) with 1. rewrite (aget_nat _ 1 _ A6 : aget (use_cnt m) 1 = _). cbn [obind].
    rewrite (proj2 (Z.ltb_lt 0 (zlen l + 1))) by lia.
    rewrite (mq_take_run _ _ 1 _ _ _ I eq_refl A3 : mq_take m 1 = _). simpl.
    by rewrite (proj2 (Z.ltb_ge n 0)) by lia.
  - split_and!; [done|done| |done]. simpl. destruct (0 <=? n); [|done].
    unfold zlen. by rewrite length_alter.
Qed.

Lemma fifo_pop_wait m cap : fifo_rep m cap [] -> mq_pop m = Block.
Proof.
  intros (I & _). unfold mq_pop. rewrite (mi_total _ _ I). simpl.
  unfold mq_dequeue_iter. by rewrite (mi_total _ _ I).
Qed.

#[export] Program Instance mq_fifo : FifoQueue multiple_queue := {|
  fq_push := mq_enqueue;
  fq_pop := mq_pop;
  fq_is_empty := mq_is_empty;
  fq_rep := fifo_rep;
  fq_push_ok := fifo_push;
  fq_pop_ok := fifo_pop;
  fq_pop_wait := fifo_pop_wait;
|}.
Next Obligation.
  intros m cap l (I & _). unfold mq_is_empty. f_equal. rewrite (mi_total _ _ I). simpl.
  rewrite app_nil_r. destruct l; [done|]. rewrite zlen_cons.
  by rewrite (proj2 (Z.eqb_neq _ 0)) by (pose proof (zlen_nonneg l); lia).
Qed.
Next Obligation. intros m cap l F. split; [by eapply fifo_NoDup|apply F]. Qed.

Lemma fifo_fresh malloc_ok n maxv m :
  0 <= n -> 4 * (n + 1) <= INT_MAX -> n <= maxv + 1 -> 0 <= maxv ->
  new_multiple_queue malloc_ok n 2 maxv = Some m -> fifo_rep m n [].
Proof.
  intros Hn Hm Hmax Hv Hnew. destruct malloc_ok; [|done].
  apply new_mq_inv in Hnew as (I & Hc & Hl); [|done..].
  split_and!; [done|lia|rewrite Hl by done; lia|by apply Forall_nil].
Qed.

(** ** Properties *)

(** C6: enqueueing client [n] at level [q], when that level has room, behaves as
    the specification: nothing changes if [n] already waits at level [q] or at
    a more urgent one; otherwise [n] leaves the level it was in and joins the
    end of level [q].  No memory access goes out of bounds, no counter
    overflows, and the representation invariant is kept. *)
Theorem mq_enqueue_refines m raws n q :
  mq_inv m raws -> 0 <= n < zlen (locations m) -> 0 <= q < number_of_queue m ->
  room m (Z.to_nat q) ->
  exists m' raws', mq_enqueue m n q = Ret (1, m') /\ mq_inv m' raws' /\
    levels raws' = spec_enqueue n (Z.to_nat q) (levels raws).
Proof.
  intros I Hn Hq Hroom. pose proof (mi_nq _ _ I). unfold zlen in *.
  destruct (enqueue_levels m raws (Z.to_nat n) (Z.to_nat q)) as (m' & raws' & Hr); [done|lia..|done|].
  rewrite !Z2Nat.id in Hr by lia. eauto.
Qed.

(** C7: dequeueing with waiting (and enough loop turns, one per queued entry)
    returns the first client of the most urgent level that is not empty and
    removes it, skipping tombstones; it waits exactly when no client is
    queued. *)
Theorem mq_dequeue_refines m raws wait fuel :
  mq_inv m raws -> wait <> 0 -> (length (concat raws) < fuel)%nat ->
  match spec_dequeue (levels raws) with
  | Some (v, ls') => exists m' raws',
      mq_dequeue fuel m wait = Ret (v, m') /\ mq_inv m' raws' /\ levels raws' = ls'
  | None => mq_dequeue fuel m wait = Block
  end.
Proof.
  intros I Hw Hf. destruct (spec_dequeue (levels raws)) as [[v ls']|] eqn:E.
  - by eapply mq_dequeue_some.
  - by apply (mq_dequeue_none m raws wait fuel I E).
Qed.

(** Dequeueing without waiting from a queue that holds no client never
    returns: the [do ... while (rc < 0)] loop spins for ever, whatever the
    number of turns. *)
Theorem mq_dequeue_nowait_spins m raws fuel :
  mq_inv m raws -> spec_dequeue (levels raws) = None ->
  mq_dequeue fuel m 0 = Fault OutOfFuel.
Proof. intros I E. by apply (mq_dequeue_none m raws 0 fuel I E). Qed.

(** When level [q] is full, the request of a client that is not queued is
    lost for ever: the call reports success and queues nothing, but the
    location table now says the client is queued, so that every later request
    at level [q] or a less urgent one is ignored as well. *)
Theorem mq_full_loses m raws (n q : nat) loc :
  mq_inv m raws -> locations m !! n = Some loc -> loc_q loc < 0 ->
  use_cnt m !! q = Some (count m - 1) ->
  exists m', mq_enqueue m (Z.of_nat n) (Z.of_nat q) = Ret (1, m') /\
    queue m' = queue m /\ use_cnt m' = use_cnt m /\ inqueue_cnt m' = inqueue_cnt m /\
    forall q', Z.of_nat q <= q' -> mq_enqueue m' (Z.of_nat n) q' = Ret (1, m').
Proof.
  intros I Hn Hneg Hu. pose proof (lookup_lt_Some _ _ _ Hn).
  pose proof (mi_count _ _ I). pose proof (mi_count_max _ _ I).
  exists (set_locations m (<[n := mk_location (Z.of_nat q) (loc_i loc)]> (locations m))).
  split_and!; [|done..|].
  - unfold mq_enqueue. crun. rewrite (proj2 (Z.ltb_lt (loc_q loc) 0)) by done. simpl. crun.
    by rewrite Z.ltb_irrefl.
  - intros q' Hq'. unfold mq_enqueue. simpl.
    rewrite (aget_nat _ n (mk_location (Z.of_nat q) (loc_i loc)))
      by (by apply list_lookup_insert_eq). cbn [obind loc_q].
    rewrite (proj2 (Z.ltb_ge (Z.of_nat q) 0)), (proj2 (Z.ltb_ge q' (Z.of_nat q))) by lia. done.
Qed.

(** A client whose very first request hits a full level and which then asks
    for a more urgent level makes the code write at index -1 of the queue
    array. *)
Theorem mq_full_then_jump_faults m raws (n q q' : nat) :
  mq_inv m raws -> locations m !! n = Some (mk_location (-1) (-1)) ->
  use_cnt m !! q = Some (count m - 1) -> (q' < q)%nat -> room m q' ->
  exists m', mq_enqueue m (Z.of_nat n) (Z.of_nat q) = Ret (1, m') /\
    mq_enqueue m' (Z.of_nat n) (Z.of_nat q') = Fault OutOfBounds.
Proof.
  intros I Hn Hu Hlt (u & Hu' & Hroom). pose proof (lookup_lt_Some _ _ _ Hn).
  pose proof (mi_count _ _ I). pose proof (mi_count_max _ _ I).
  exists (set_locations m (<[n := mk_location (Z.of_nat q) (-1)]> (locations m))). split.
  - unfold mq_enqueue. crun. simpl. crun. by rewrite Z.ltb_irrefl.
  - unfold mq_enqueue. simpl.
    rewrite (aget_nat _ n (mk_location (Z.of_nat q) (-1)))
      by (by apply list_lookup_insert_eq). cbn [obind loc_q].
    rewrite (proj2 (Z.ltb_lt (Z.of_nat q') (Z.of_nat q))), orb_true_r by lia.
    rewrite aset_nat by (by rewrite length_insert). cbn [obind]. simpl. crun.
    rewrite (proj2 (Z.ltb_lt u (count m - 1))) by done.
    unfold mq_jump. simpl. destruct (mi_lens _ _ I) as (L1 & _ & _ & L4).
    destruct (lookup_lt_is_Some_2 (queue m) q) as [arr Harr].
    { pose proof (lookup_lt_Some _ _ _ Hu). lia. }
    crun. rewrite (aget_nat _ n (mk_location (Z.of_nat q') (-1)));
      [done|rewrite list_insert_insert_eq; by apply list_lookup_insert_eq].
Qed.

(** ** Witnesses *)
Definition ex_mq : multiple_queue :=
  Eval cbv in match new_multiple_queue true 1 2 3 with Some m => m | None => mk_mq [] [] 0 0 0 [] [] [] 0 end.
(** [ex_mq] with client 0 queued at level 1, which is then full. *)
Definition ex_mq1 : multiple_queue :=
  Eval cbv in match mq_enqueue ex_mq 0 1 with Ret (_, m) => m | _ => ex_mq end.

Lemma ex_mq_inv : mq_inv ex_mq [[]; []].
Proof. by apply (new_mq_inv 1 2 3 ex_mq). Qed.

Lemma ex_mq1_inv : mq_inv ex_mq1 [[]; [0]].
Proof.
  apply (append_inv ex_mq [[]; []] 0 1 [0; 0] 0 [] (mk_location (-1) (-1)));
    first [apply ex_mq_inv | apply ring_rep_nil | done].
Qed.

Lemma mq_enqueue_refines_witness :
  exists m' raws', mq_enqueue ex_mq 0 1 = Ret (1, m') /\ mq_inv m' raws' /\
    levels raws' = [[]; [0]].
Proof.
  apply (mq_enqueue_refines ex_mq [[]; []] 0 1); [apply ex_mq_inv|by cbv|by cbv|].
  exists 0. done.
Defined.

Lemma mq_dequeue_refines_witness :
  exists m' raws', mq_dequeue 2 ex_mq1 1 = Ret (0, m') /\ mq_inv m' raws' /\
    levels raws' = [[]; []].
Proof. apply (mq_dequeue_refines ex_mq1 [[]; [0]] 1 2); [apply ex_mq1_inv|done|simpl; lia]. Defined.

Lemma mq_dequeue_nowait_spins_witness : mq_dequeue 1000 ex_mq 0 = Fault OutOfFuel.
Proof. apply (mq_dequeue_nowait_spins ex_mq [[]; []] 1000); [apply ex_mq_inv|done]. Defined.

Lemma mq_full_loses_witness :
  exists m', mq_enqueue ex_mq1 1 1 = Ret (1, m') /\
    queue m' = queue ex_mq1 /\ use_cnt m' = use_cnt ex_mq1 /\ inqueue_cnt m' = inqueue_cnt ex_mq1 /\
    forall q', 1 <= q' -> mq_enqueue m' 1 q' = Ret (1, m').
Proof.
  apply (mq_full_loses ex_mq1 [[]; [0]] 1 1 (mk_location (-1) (-1))); [apply ex_mq1_inv|done..].
Defined.

Lemma mq_full_then_jump_faults_witness :
  exists m', mq_enqueue ex_mq1 1 1 = Ret (1, m') /\ mq_enqueue m' 1 0 = Fault OutOfBounds.
Proof.
  apply (mq_full_then_jump_faults ex_mq1 [[]; [0]] 1 1 0); [apply ex_mq1_inv|done|done|lia|].
  exists 0. done.
Defined.
End MQ.
