(* ===== verification/VodTable.v ===== *)
(** * VodTable.v: the directory of stream servers, vod_table/vod_table.c

    A fixed table of servers keyed by IP address.  A slot, once in use, is
    never freed: unregistering only clears its registration code.  The file
    proves the registration behaviour and provides the [VodDirectory] instance
    the stream client is verified against. *)

From S2P Require Import Prelude Slots Interfaces.

Module VOD.

Record vodsvr_entry := mk_entry {
  addr : Z; lastuse : Z; inuse : bool; regist : Z; udp_entry : Z }.

(** The file-scope variables [vodtab], [count] and [inuse]. *)
Record vodsvr := mk_vodsvr {
  vodtab : list vodsvr_entry; count : Z; inuse_cnt : Z }.

Definition in_range (n c : Z) : bool := (0 <=? n) && (n <? c).

Definition vodsvr_regist_code (self : vodsvr) (n : Z) : outcome Z :=
  if in_range n (count self) then let* e := aget (vodtab self) n in Ret (regist e)
  else Ret (-1).

Definition vodsvr_udp_entry (self : vodsvr) (n : Z) : outcome Z :=
  if in_range n (count self) then let* e := aget (vodtab self) n in Ret (udp_entry e)
  else Ret (-1).

Definition vodsvr_add (self : vodsvr) (a : Z) : outcome (Z * vodsvr) :=
  let '(found, f) := scan inuse (fun e => addr e =? a)
                       (take (Z.to_nat (count self)) (vodtab self)) 0 (-1) in
  if found then Ret (f, self)
  else if 0 <=? f then
    let* e := aget (vodtab self) f in
    let* t := aset (vodtab self) f (mk_entry a (lastuse e) true 0 (-1)) in
    let* c := ck (inuse_cnt self + 1) in
    Ret (f, mk_vodsvr t (count self) c)
  else Ret (f, self).

Definition vodsvr_unset_registcode (self : vodsvr) (n : Z) : outcome (Z * vodsvr) :=
  if in_range n (count self) then
    let* e := aget (vodtab self) n in
    let* t := aset (vodtab self) n (mk_entry (addr e) (lastuse e) (inuse e) 0 (udp_entry e)) in
    Ret (1, mk_vodsvr t (count self) (inuse_cnt self))
  else Ret (0, self).

Definition vodsvr_set_registcode (self : vodsvr) (a code u : Z) : outcome (Z * vodsvr) :=
  let* r := vodsvr_add self a in
  let '(i, self1) := r in
  if 0 <=? i then
    let* e := aget (vodtab self1) i in
    let* t := aset (vodtab self1) i (mk_entry (addr e) (lastuse e) (inuse e) code u) in
    Ret (i, mk_vodsvr t (count self1) (inuse_cnt self1))
  else Ret (i, self1).

(** [new_vodsvr]: the table is allocated by the first call only. *)
Definition new_vodsvr (self : vodsvr) (n : Z) : vodsvr :=
  if count self =? 0 then mk_vodsvr (replicate (Z.to_nat n) (mk_entry 0 0 false 0 0)) n 0
  else self.

(** ** Invariant: the counters are right and no address is registered twice *)
Definition used_count (t : list vodsvr_entry) : Z := zlen (filter (fun e => inuse e = true) t).

Record vod_ok (s : vodsvr) : Prop := {
  vo_count : count s = zlen (vodtab s);
  vo_inuse : inuse_cnt s = used_count (vodtab s);
  vo_max : zlen (vodtab s) < INT_MAX;
  vo_unique : forall i j e e', vodtab s !! i = Some e -> vodtab s !! j = Some e' ->
    inuse e = true -> inuse e' = true -> addr e = addr e' -> i = j;
}.

Definition vod_addr (s : vodsvr) (i : Z) : option Z :=
  if 0 <=? i then
    match vodtab s !! Z.to_nat i with
    | Some e => if inuse e then Some (addr e) else None
    | None => None
    end
  else None.

(** ** Lemmas *)
Lemma used_count_insert t (i : nat) e e' :
  t !! i = Some e ->
  used_count (<[i := e']> t) = used_count t - b2z (inuse e) + b2z (inuse e').
Proof.
  unfold used_count. revert i. induction t as [|x t IH]; intros [|i] H; simplify_eq/=.
  - rewrite !filter_cons. do 2 case_decide; destruct (inuse e), (inuse e'); try done;
      autorewrite with katmai; simpl; lia.
  - rewrite !filter_cons. case_decide; autorewrite with katmai; rewrite (IH _ H); lia.
Qed.

Lemma used_count_le t : used_count t <= zlen t.
Proof. unfold used_count, zlen. pose proof (length_filter (fun e => inuse e = true) t). lia. Qed.

Lemma used_count_nonneg t : 0 <= used_count t.
Proof. apply zlen_nonneg. Qed.

(** Replacing an entry by one with the same flag and address. *)
Lemma vod_ok_update s (i : nat) e r u :
  vod_ok s -> vodtab s !! i = Some e ->
  vod_ok (mk_vodsvr (<[i := mk_entry (addr e) (lastuse e) (inuse e) r u]> (vodtab s))
            (count s) (inuse_cnt s)).
Proof.
  intros [Hc Hi Hm Hu] He. split; simpl; rewrite ?zlen_insert; try done.
  - rewrite (used_count_insert _ _ e) by done. simpl. lia.
  - intros a b x y Hx Hy Hux Huy Hxy. apply lookup_lt_Some in He as ?.
    destruct (decide (i = a)) as [<-|Ha]; [rewrite list_lookup_insert_eq in Hx by done|
      rewrite list_lookup_insert_ne in Hx by done];
    (destruct (decide (i = b)) as [<-|Hb]; [rewrite list_lookup_insert_eq in Hy by done|
      rewrite list_lookup_insert_ne in Hy by done]); simplify_eq/=; eauto.
Qed.

Lemma vod_addr_update s (i : nat) e r u c1 c2 j :
  vodtab s !! i = Some e ->
  vod_addr (mk_vodsvr (<[i := mk_entry (addr e) (lastuse e) (inuse e) r u]> (vodtab s)) c1 c2) j
  = vod_addr s j.
Proof.
  intros He. unfold vod_addr. simpl. destruct (0 <=? j); [|done]. apply lookup_lt_Some in He as ?.
  destruct (decide (i = Z.to_nat j)) as [<-|Hj].
  - by rewrite list_lookup_insert_eq, He.
  - by rewrite list_lookup_insert_ne.
Qed.

Lemma vod_addr_nat s (i : nat) e :
  vodtab s !! i = Some e -> inuse e = true -> vod_addr s (Z.of_nat i) = Some (addr e).
Proof.
  intros He Hu. unfold vod_addr. rewrite (proj2 (Z.leb_le 0 _)), Nat2Z.id, He, Hu by lia. done.
Qed.

(** The three ways [vodsvr_add] ends. *)
Lemma vodsvr_add_cases s a :
  vod_ok s ->
  (exists (i : nat) e, vodsvr_add s a = Ret (Z.of_nat i, s) /\
     vodtab s !! i = Some e /\ inuse e = true /\ addr e = a) \/
  ((forall j, vod_addr s j <> Some a) /\
   ((exists (i : nat) e, vodtab s !! i = Some e /\ inuse e = false /\
       (forall k e', (k < i)%nat -> vodtab s !! k = Some e' -> inuse e' = true) /\
       vodsvr_add s a = Ret (Z.of_nat i,
         mk_vodsvr (<[i := mk_entry a (lastuse e) true 0 (-1)]> (vodtab s))
           (count s) (inuse_cnt s + 1))) \/
    (vodsvr_add s a = Ret (-1, s) /\ forall k e, vodtab s !! k = Some e -> inuse e = true))).
Proof.
  intros I. unfold vodsvr_add. rewrite take_ge by (rewrite (vo_count _ I); unfold zlen; lia).
  destruct (scan_cases inuse (fun e => addr e =? a) (vodtab s))
    as [(i & e & -> & He & Hu & Ha%Z.eqb_eq)|(Hno & Hcase)].
  - left. by exists i, e.
  - right. split.
    { intros j. unfold vod_addr. destruct (0 <=? j); [|done].
      destruct (vodtab s !! Z.to_nat j) as [e|] eqn:He; [|done].
      destruct (inuse e) eqn:Hu; [|done]. intros [= Ha].
      specialize (Hno _ _ He Hu). by apply Z.eqb_neq in Hno. }
    destruct Hcase as [(i & e & -> & He & Hu & Hb)|[-> Hfull]]; [left|by right].
    exists i, e. split_and!; [done..|]. rewrite (proj2 (Z.leb_le 0 _)) by lia.
    pose proof (lookup_lt_Some _ _ _ He). pose proof (used_count_le (vodtab s)).
    pose proof (vo_inuse _ I). pose proof (vo_max _ I). pose proof (used_count_nonneg (vodtab s)).
    by crun.
Qed.

Lemma vod_ok_add s (i : nat) e a :
  vod_ok s -> (forall j, vod_addr s j <> Some a) -> vodtab s !! i = Some e -> inuse e = false ->
  vod_ok (mk_vodsvr (<[i := mk_entry a (lastuse e) true 0 (-1)]> (vodtab s)) (count s) (inuse_cnt s + 1)).
Proof.
  intros [Hc Hi Hm Hu] Hna He Hf. split; simpl; rewrite ?zlen_insert; try done.
  - rewrite (used_count_insert _ _ e) by done. rewrite Hf. simpl. lia.
  - assert (forall k x, vodtab s !! k = Some x -> inuse x = true -> addr x <> a) as Hno.
    { intros k x Hk Hux <-. by apply (Hna (Z.of_nat k)), vod_addr_nat. }
    intros j k x y Hx Hy Hux Huy Hxy. apply lookup_lt_Some in He as ?.
    destruct (decide (i = j)) as [<-|Hj]; [rewrite list_lookup_insert_eq in Hx by done|
      rewrite list_lookup_insert_ne in Hx by done];
    (destruct (decide (i = k)) as [<-|Hk]; [rewrite list_lookup_insert_eq in Hy by done|
      rewrite list_lookup_insert_ne in Hy by done]); simplify_eq/=; eauto;
    exfalso; match goal with H : vodtab s !! _ = Some ?x |- _ => by apply (Hno _ _ H) end.
Qed.

Lemma add_ok s a :
  vod_ok s -> exists i s', vodsvr_add s a = Ret (i, s') /\ vod_ok s' /\
    (i = -1 /\ s' = s \/ 0 <= i /\ vod_addr s' i = Some a /\
       forall j b, vod_addr s j = Some b -> vod_addr s' j = Some b).
Proof.
  intros I. destruct (vodsvr_add_cases s a I)
    as [(i & e & -> & He & Hu & <-)|(Hna & [(i & e & He & Hu & Hb & ->)|[-> Hfull]])].
  - exists (Z.of_nat i), s. split_and!; [done..|]. right. split_and!; [lia| |done]. by apply vod_addr_nat.
  - eexists (Z.of_nat i), _. split_and!; [done|by apply vod_ok_add|]. right.
    apply lookup_lt_Some in He as ?. split_and!; [lia| |].
    + eapply vod_addr_nat with (e := mk_entry a (lastuse e) true 0 (-1)); [|done].
      by apply list_lookup_insert_eq.
    + intros j b. unfold vod_addr. simpl. destruct (0 <=? j); [|done].
      destruct (decide (i = Z.to_nat j)) as [<-|Hj]; [by rewrite He, Hu|].
      by rewrite list_lookup_insert_ne.
  - exists (-1), s. split_and!; [done..|]. by left.
Qed.

Lemma in_range_addr s i a : vod_ok s -> vod_addr s i = Some a ->
  in_range i (count s) = true /\ 0 <= i /\
  exists e, vodtab s !! Z.to_nat i = Some e /\ inuse e = true /\ addr e = a.
Proof.
  intros I. unfold vod_addr, in_range. rewrite (vo_count _ I).
  destruct (Z.leb_spec 0 i); [|done]. destruct (vodtab s !! Z.to_nat i) as [e|] eqn:He; [|done].
  destruct (inuse e) eqn:Hu; [|done]. intros [= <-]. apply lookup_lt_Some in He as ?.
  split_and!; [|done|eauto]. apply Z.ltb_lt. unfold zlen. lia.
Qed.

Lemma set_ok s a c u :
  vod_ok s -> exists i s', vodsvr_set_registcode s a c u = Ret (i, s') /\ vod_ok s' /\
    (i = -1 /\ s' = s \/ 0 <= i /\ vod_addr s' i = Some a /\
       vodsvr_regist_code s' i = Ret c /\ vodsvr_udp_entry s' i = Ret u /\
       forall j b, vod_addr s j = Some b -> vod_addr s' j = Some b).
Proof.
  intros I. unfold vodsvr_set_registcode.
  destruct (add_ok s a I) as (i & s1 & -> & I1 & [[-> ->]|(Hi & Ha & Hold)]); cbn [obind].
  { exists (-1), s. split_and!; [done..|by left]. }
  rewrite (proj2 (Z.leb_le 0 i)) by done.
  destruct (in_range_addr _ _ _ I1 Ha) as (Hr & _ & e & He & Hu & <-).
  rewrite (aget_Some _ _ _ Hi He). cbn [obind]. pose proof (lookup_lt_Some _ _ _ He).
  rewrite aset_Ret by (unfold zlen; lia). cbn [obind].
  eexists i, _. split_and!; [done|by apply vod_ok_update|]. right.
  rewrite vod_addr_update by done. split_and!; try done.
  - unfold vodsvr_regist_code. simpl. rewrite Hr.
    rewrite (aget_Some _ _ (mk_entry (addr e) (lastuse e) (inuse e) c u)); [done|done|].
    by apply list_lookup_insert_eq.
  - unfold vodsvr_udp_entry. simpl. rewrite Hr.
    rewrite (aget_Some _ _ (mk_entry (addr e) (lastuse e) (inuse e) c u)); [done|done|].
    by apply list_lookup_insert_eq.
  - intros j b Hj. rewrite vod_addr_update by done. eauto.
Qed.

Lemma in_range_get s i : vod_ok s -> in_range i (count s) = true ->
  exists e, aget (vodtab s) i = Ret e /\ vodtab s !! Z.to_nat i = Some e /\ 0 <= i < zlen (vodtab s).
Proof.
  intros I [H1%Z.leb_le H2%Z.ltb_lt]%andb_true_iff. rewrite (vo_count _ I) in H2.
  destruct (aget_lt (vodtab s) i) as (e & ? & ?); [lia|]. eauto.
Qed.

#[export] Program Instance vod_directory : VodDirectory vodsvr := {|
  vd_add := vodsvr_add;
  vd_regist_code := vodsvr_regist_code;
  vd_udp_entry := vodsvr_udp_entry;
  vd_unset_registcode := vodsvr_unset_registcode;
  vd_set_registcode := vodsvr_set_registcode;
  vd_ok := vod_ok;
  vd_addr := vod_addr;
  vd_add_ok := add_ok;
|}.
Next Obligation.
  intros s i I. unfold vodsvr_unset_registcode. destruct (in_range i (count s)) eqn:Hr.
  - destruct (in_range_get s i I Hr) as (e & -> & He & Hi). cbn [obind].
    rewrite aset_Ret by done. eexists _, _. split_and!; [done|by apply vod_ok_update|].
    intros j. by apply vod_addr_update.
  - by exists 0, s.
Qed.
Next Obligation.
  intros s a c u I. destruct (set_ok s a c u I) as (i & s' & H1 & H2 & H3).
  exists i, s'. split_and!; [done..|]. naive_solver.
Qed.
Next Obligation.
  intros s i I. unfold vodsvr_regist_code, vodsvr_udp_entry.
  destruct (in_range i (count s)) eqn:Hr; [|split; by eexists].
  destruct (in_range_get s i I Hr) as (e & -> & _). split; by eexists.
Qed.

Lemma new_vodsvr_ok s n : count s = 0 -> 0 <= n < INT_MAX -> vod_ok (new_vodsvr s n).
Proof.
  intros Hc Hn. unfold new_vodsvr. rewrite Hc. simpl.
  split; simpl; autorewrite with katmai; try lia.
  - unfold used_count. induction (Z.to_nat n); [done|]. simpl. by rewrite filter_cons_False.
  - by intros i j e e' [-> _]%lookup_replicate _ [=].
Qed.

(** ** Properties *)

(** Adding a server address never fails unsafely and keeps the directory
    sound (right counters, each address at most once).  An address already
    present keeps its slot and nothing changes; a new one takes the first free
    slot, with registration code 0; when every slot is in use the call returns
    -1 and nothing changes. *)
Theorem vodsvr_add_correct s a :
  vod_ok s -> exists i s', vodsvr_add s a = Ret (i, s') /\ vod_ok s' /\
    ((exists j, vod_addr s j = Some a /\ i = j /\ s' = s) \/
     ((forall j, vod_addr s j <> Some a) /\
      ((vod_addr s i = None /\ (forall k, 0 <= k < i -> exists b, vod_addr s k = Some b) /\
        vod_addr s' i = Some a /\ vodsvr_regist_code s' i = Ret 0 /\
        inuse_cnt s' = inuse_cnt s + 1) \/
       (i = -1 /\ s' = s /\ inuse_cnt s = count s)))).
Proof.
  intros I. destruct (vodsvr_add_cases s a I)
    as [(i & e & -> & He & Hu & <-)|(Hna & [(i & e & He & Hu & Hb & ->)|[-> Hfull]])].
  - exists (Z.of_nat i), s. split_and!; [done..|]. left. exists (Z.of_nat i).
    split_and!; [by apply vod_addr_nat|done..].
  - eexists (Z.of_nat i), _. split_and!; [done|by apply vod_ok_add|]. right. split; [done|]. left.
    pose proof (lookup_lt_Some _ _ _ He) as Hlt. split_and!; [| | | |done].
    + unfold vod_addr. by rewrite (proj2 (Z.leb_le 0 _)), Nat2Z.id, He, Hu by lia.
    + intros k Hk. destruct (lookup_lt_is_Some_2 (vodtab s) (Z.to_nat k)) as [x Hx]; [lia|].
      exists (addr x). rewrite <- (Z2Nat.id k) by lia. apply vod_addr_nat; [done|]. apply (Hb (Z.to_nat k)); [lia|done].
    + eapply vod_addr_nat with (e := mk_entry a (lastuse e) true 0 (-1)); [|done].
      by apply list_lookup_insert_eq.
    + unfold vodsvr_regist_code, in_range. simpl. rewrite (vo_count _ I).
      rewrite (proj2 (Z.leb_le 0 _)), (proj2 (Z.ltb_lt _ _)) by (unfold zlen; lia). simpl.
      by rewrite (aget_nat _ _ _ (list_lookup_insert_eq _ _ (mk_entry a (lastuse e) true 0 (-1)) Hlt)).
  - exists (-1), s. split_and!; [done..|]. right. split; [done|]. right. split_and!; [done..|].
    rewrite (vo_inuse _ I), (vo_count _ I). unfold used_count. f_equal. apply filter_all.
    intros e [k Hk]%list_elem_of_lookup_1. eauto.
Qed.

(** Registering a server stores its code and UDP entry under its slot:
    both are read back unchanged, a later search for the address finds the same
    slot, and every other registered address is kept. *)
Theorem vodsvr_set_registcode_roundtrip s a c u i s' :
  vod_ok s -> vodsvr_set_registcode s a c u = Ret (i, s') -> i <> -1 ->
  vodsvr_regist_code s' i = Ret c /\ vodsvr_udp_entry s' i = Ret u /\
  vodsvr_add s' a = Ret (i, s') /\
  forall j b, vod_addr s j = Some b -> vod_addr s' j = Some b.
Proof.
  intros I Hrun Hi. destruct (set_ok s a c u I) as (i0 & s0 & Hrun' & I' & H).
  rewrite Hrun in Hrun'. injection Hrun' as <- <-.
  destruct H as [[? _]|(Hpos & Ha & Hc & Hu & Hold)]; [done|]. split_and!; [done..| |done].
  destruct (vodsvr_add_cases s' a I') as [(k & e & -> & He & Hue & Hae)|(Hna & _)].
  - destruct (in_range_addr _ _ _ I' Ha) as (_ & _ & e' & He' & Hue' & Hae').
    assert (k = Z.to_nat i) as -> by (eapply (vo_unique _ I'); eauto; congruence).
    by rewrite Z2Nat.id by lia.
  - by destruct (Hna i).
Qed.

(** ** Witnesses *)
Definition ex_vod : vodsvr := Eval cbv in new_vodsvr (mk_vodsvr [] 0 0) 2.

Lemma ex_vod_ok : vod_ok ex_vod.
Proof. by apply (new_vodsvr_ok (mk_vodsvr [] 0 0) 2). Qed.

Lemma vodsvr_add_correct_witness :
  exists i s', vodsvr_add ex_vod 7 = Ret (i, s') /\ vod_ok s'.
Proof. destruct (vodsvr_add_correct ex_vod 7 ex_vod_ok) as (i & s' & H1 & H2 & _). eauto. Defined.

Lemma vodsvr_set_registcode_roundtrip_witness :
  match vodsvr_set_registcode ex_vod 7 42 3 with
  | Ret (i, s') => vodsvr_regist_code s' i = Ret 42 /\ vodsvr_udp_entry s' i = Ret 3
  | _ => False
  end.
Proof.
  destruct (vodsvr_set_registcode_roundtrip ex_vod 7 42 3 0
    (mk_vodsvr [mk_entry 7 0 true 42 3; mk_entry 0 0 false 0 0] 2 1)) as (H1 & H2 & _);
    [apply ex_vod_ok|done|done|]. by split.
Defined.
End VOD.
