(* ===== verification/StbTable.v ===== *)
(** * StbTable.v: the stream server's table of clients, streamio_v3/stb_table.c

    Every registered set-top box has an entry with five channels; a channel is
    an open file with a disk buffer, the block it is asked for and the map of
    packets the client still wants.  [streamio_v3_service] serves one request:
    it reads the disk buffer that holds the block (unless it is there already)
    and sends the wanted packets of the block, 1425 bytes each.

    The file models the whole table and one turn of the service loop.  A call
    that meets a held channel lock is [Block]; [stb_mutex] only protects the
    counters inside a call and is not modelled. *)

From S2P Require Import Prelude Slots Interfaces Posix Mqueue.

Module STB.

Definition MAX_STIOV3_CHANNEL : Z := 5.
Definition BLOCK : Z := 32768.
Definition PKT : Z := 1425.
Definition NPKT : Z := 23.

Definition CMD_FAST_FETCH : Z := 4.

(** The per-channel arrays of [struct stb_entry_t] (streamio_v3/include/stb_entry.h),
    gathered in one record per channel; [mutex] is [true] while the channel's
    lock is held, [buffer] is [None] for a NULL pointer. *)
Record chan := mk_chan {
  qos : Z;
  mutex : bool;
  filesize : Z;
  fd : Z;
  filestatus : Z;
  filecount : Z;
  blockcnt : Z;
  err : Z;
  request_block : Z;
  current_block : Z;
  rdkio_block : Z;
  cdkio_block : Z;
  netio_block : Z;
  map : list Z;
  mapidx : Z;
  mapi : Z;
  stbid : Z;
  buffer : option (list Z);
  buflen : Z;
}.
Definition set_qos (v : Z) (c : chan) : chan :=
  mk_chan v (mutex c) (filesize c) (fd c) (filestatus c) (filecount c) (blockcnt c) (err c) (request_block c) (current_block c) (rdkio_block c) (cdkio_block c) (netio_block c) (map c) (mapidx c) (mapi c) (stbid c) (buffer c) (buflen c).
Definition set_mutex (v : bool) (c : chan) : chan :=
  mk_chan (qos c) v (filesize c) (fd c) (filestatus c) (filecount c) (blockcnt c) (err c) (request_block c) (current_block c) (rdkio_block c) (cdkio_block c) (netio_block c) (map c) (mapidx c) (mapi c) (stbid c) (buffer c) (buflen c).
Definition set_filesize (v : Z) (c : chan) : chan :=
  mk_chan (qos c) (mutex c) v (fd c) (filestatus c) (filecount c) (blockcnt c) (err c) (request_block c) (current_block c) (rdkio_block c) (cdkio_block c) (netio_block c) (map c) (mapidx c) (mapi c) (stbid c) (buffer c) (buflen c).
Definition set_fd (v : Z) (c : chan) : chan :=
  mk_chan (qos c) (mutex c) (filesize c) v (filestatus c) (filecount c) (blockcnt c) (err c) (request_block c) (current_block c) (rdkio_block c) (cdkio_block c) (netio_block c) (map c) (mapidx c) (mapi c) (stbid c) (buffer c) (buflen c).
Definition set_filestatus (v : Z) (c : chan) : chan :=
  mk_chan (qos c) (mutex c) (filesize c) (fd c) v (filecount c) (blockcnt c) (err c) (request_block c) (current_block c) (rdkio_block c) (cdkio_block c) (netio_block c) (map c) (mapidx c) (mapi c) (stbid c) (buffer c) (buflen c).
Definition set_filecount (v : Z) (c : chan) : chan :=
  mk_chan (qos c) (mutex c) (filesize c) (fd c) (filestatus c) v (blockcnt c) (err c) (request_block c) (current_block c) (rdkio_block c) (cdkio_block c) (netio_block c) (map c) (mapidx c) (mapi c) (stbid c) (buffer c) (buflen c).
Definition set_blockcnt (v : Z) (c : chan) : chan :=
  mk_chan (qos c) (mutex c) (filesize c) (fd c) (filestatus c) (filecount c) v (err c) (request_block c) (current_block c) (rdkio_block c) (cdkio_block c) (netio_block c) (map c) (mapidx c) (mapi c) (stbid c) (buffer c) (buflen c).
Definition set_err (v : Z) (c : chan) : chan :=
  mk_chan (qos c) (mutex c) (filesize c) (fd c) (filestatus c) (filecount c) (blockcnt c) v (request_block c) (current_block c) (rdkio_block c) (cdkio_block c) (netio_block c) (map c) (mapidx c) (mapi c) (stbid c) (buffer c) (buflen c).
Definition set_request_block (v : Z) (c : chan) : chan :=
  mk_chan (qos c) (mutex c) (filesize c) (fd c) (filestatus c) (filecount c) (blockcnt c) (err c) v (current_block c) (rdkio_block c) (cdkio_block c) (netio_block c) (map c) (mapidx c) (mapi c) (stbid c) (buffer c) (buflen c).
Definition set_current_block (v : Z) (c : chan) : chan :=
  mk_chan (qos c) (mutex c) (filesize c) (fd c) (filestatus c) (filecount c) (blockcnt c) (err c) (request_block c) v (rdkio_block c) (cdkio_block c) (netio_block c) (map c) (mapidx c) (mapi c) (stbid c) (buffer c) (buflen c).
Definition set_rdkio_block (v : Z) (c : chan) : chan :=
  mk_chan (qos c) (mutex c) (filesize c) (fd c) (filestatus c) (filecount c) (blockcnt c) (err c) (request_block c) (current_block c) v (cdkio_block c) (netio_block c) (map c) (mapidx c) (mapi c) (stbid c) (buffer c) (buflen c).
Definition set_cdkio_block (v : Z) (c : chan) : chan :=
  mk_chan (qos c) (mutex c) (filesize c) (fd c) (filestatus c) (filecount c) (blockcnt c) (err c) (request_block c) (current_block c) (rdkio_block c) v (netio_block c) (map c) (mapidx c) (mapi c) (stbid c) (buffer c) (buflen c).
Definition set_netio_block (v : Z) (c : chan) : chan :=
  mk_chan (qos c) (mutex c) (filesize c) (fd c) (filestatus c) (filecount c) (blockcnt c) (err c) (request_block c) (current_block c) (rdkio_block c) (cdkio_block c) v (map c) (mapidx c) (mapi c) (stbid c) (buffer c) (buflen c).
Definition set_map (v : list Z) (c : chan) : chan :=
  mk_chan (qos c) (mutex c) (filesize c) (fd c) (filestatus c) (filecount c) (blockcnt c) (err c) (request_block c) (current_block c) (rdkio_block c) (cdkio_block c) (netio_block c) v (mapidx c) (mapi c) (stbid c) (buffer c) (buflen c).
Definition set_mapidx (v : Z) (c : chan) : chan :=
  mk_chan (qos c) (mutex c) (filesize c) (fd c) (filestatus c) (filecount c) (blockcnt c) (err c) (request_block c) (current_block c) (rdkio_block c) (cdkio_block c) (netio_block c) (map c) v (mapi c) (stbid c) (buffer c) (buflen c).
Definition set_mapi (v : Z) (c : chan) : chan :=
  mk_chan (qos c) (mutex c) (filesize c) (fd c) (filestatus c) (filecount c) (blockcnt c) (err c) (request_block c) (current_block c) (rdkio_block c) (cdkio_block c) (netio_block c) (map c) (mapidx c) v (stbid c) (buffer c) (buflen c).
Definition set_stbid (v : Z) (c : chan) : chan :=
  mk_chan (qos c) (mutex c) (filesize c) (fd c) (filestatus c) (filecount c) (blockcnt c) (err c) (request_block c) (current_block c) (rdkio_block c) (cdkio_block c) (netio_block c) (map c) (mapidx c) (mapi c) v (buffer c) (buflen c).
Definition set_buffer (v : option (list Z)) (c : chan) : chan :=
  mk_chan (qos c) (mutex c) (filesize c) (fd c) (filestatus c) (filecount c) (blockcnt c) (err c) (request_block c) (current_block c) (rdkio_block c) (cdkio_block c) (netio_block c) (map c) (mapidx c) (mapi c) (stbid c) v (buflen c).
Definition set_buflen (v : Z) (c : chan) : chan :=
  mk_chan (qos c) (mutex c) (filesize c) (fd c) (filestatus c) (filecount c) (blockcnt c) (err c) (request_block c) (current_block c) (rdkio_block c) (cdkio_block c) (netio_block c) (map c) (mapidx c) (mapi c) (stbid c) (buffer c) v.

(** The scalar fields of [struct stb_entry_t]; [chans] has [MAX_STIOV3_CHANNEL]
    records. *)
Record stb_entry := mk_ent {
  n : Z;
  stb_sn : Z;
  udp : Z;
  ready : Z;
  inuse : bool;
  addr : Z;
  lastuse : Z;
  chans : list chan;
}.
Definition set_n (v : Z) (c : stb_entry) : stb_entry :=
  mk_ent v (stb_sn c) (udp c) (ready c) (inuse c) (addr c) (lastuse c) (chans c).
Definition set_stb_sn (v : Z) (c : stb_entry) : stb_entry :=
  mk_ent (n c) v (udp c) (ready c) (inuse c) (addr c) (lastuse c) (chans c).
Definition set_udp (v : Z) (c : stb_entry) : stb_entry :=
  mk_ent (n c) (stb_sn c) v (ready c) (inuse c) (addr c) (lastuse c) (chans c).
Definition set_ready (v : Z) (c : stb_entry) : stb_entry :=
  mk_ent (n c) (stb_sn c) (udp c) v (inuse c) (addr c) (lastuse c) (chans c).
Definition set_inuse (v : bool) (c : stb_entry) : stb_entry :=
  mk_ent (n c) (stb_sn c) (udp c) (ready c) v (addr c) (lastuse c) (chans c).
Definition set_addr (v : Z) (c : stb_entry) : stb_entry :=
  mk_ent (n c) (stb_sn c) (udp c) (ready c) (inuse c) v (lastuse c) (chans c).
Definition set_lastuse (v : Z) (c : stb_entry) : stb_entry :=
  mk_ent (n c) (stb_sn c) (udp c) (ready c) (inuse c) (addr c) v (chans c).
Definition set_chans (v : list chan) (c : stb_entry) : stb_entry :=
  mk_ent (n c) (stb_sn c) (udp c) (ready c) (inuse c) (addr c) (lastuse c) v.

Section stb.
Context {Q : Type} `{FQ : FifoQueue Q}.

(** The file-scope variables.  [stbent] has [count] entries from the moment the
    table is created, so [count] is the length of the list.  [kern] is the
    operating system's side (open files, errno). *)
Record stb := mk_stb {
  stb_regist_cnt : Z;
  stb_opend_file : Z;
  stb_opend_file_all : Z;
  best_diskio_buffer_size : Z;
  netio_block_per_diskio : Z;
  stop_services : Z;
  stbent : list stb_entry;
  netq : list Q;
  kern : kernel;
}.

Definition count (s : stb) : Z := zlen (stbent s).

Definition set_stbent (v : list stb_entry) (s : stb) : stb :=
  mk_stb (stb_regist_cnt s) (stb_opend_file s) (stb_opend_file_all s) (best_diskio_buffer_size s)
    (netio_block_per_diskio s) (stop_services s) v (netq s) (kern s).
Definition set_kern (v : kernel) (s : stb) : stb :=
  mk_stb (stb_regist_cnt s) (stb_opend_file s) (stb_opend_file_all s) (best_diskio_buffer_size s)
    (netio_block_per_diskio s) (stop_services s) (stbent s) (netq s) v.
Definition set_netq (v : list Q) (s : stb) : stb :=
  mk_stb (stb_regist_cnt s) (stb_opend_file s) (stb_opend_file_all s) (best_diskio_buffer_size s)
    (netio_block_per_diskio s) (stop_services s) (stbent s) v (kern s).
Definition set_opend (a b : Z) (s : stb) : stb :=
  mk_stb (stb_regist_cnt s) a b (best_diskio_buffer_size s)
    (netio_block_per_diskio s) (stop_services s) (stbent s) (netq s) (kern s).
Definition set_regist_cnt (a : Z) (s : stb) : stb :=
  mk_stb a (stb_opend_file s) (stb_opend_file_all s) (best_diskio_buffer_size s)
    (netio_block_per_diskio s) (stop_services s) (stbent s) (netq s) (kern s).
Definition set_stop_services (a : Z) (s : stb) : stb :=
  mk_stb (stb_regist_cnt s) (stb_opend_file s) (stb_opend_file_all s) (best_diskio_buffer_size s)
    (netio_block_per_diskio s) a (stbent s) (netq s) (kern s).
(** [stb_opend_file--] on an [unsigned int]. *)
Definition dec_opend (s : stb) : stb := set_opend (u32 (stb_opend_file s - 1)) (stb_opend_file_all s) s.
Definition inc_opend (s : stb) : stb :=
  set_opend (u32 (stb_opend_file s + 1)) (u32 (stb_opend_file_all s + 1)) s.

Definition in_range (n : Z) (s : stb) : bool := (0 <=? n) && (n <? count s).

(** Access to [stbent[n].<field>[channel]]. *)
Definition get_chan (s : stb) (n channel : Z) : outcome chan :=
  let* e := aget (stbent s) n in aget (chans e) channel.
Definition put_chan (s : stb) (n channel : Z) (c : chan) : outcome stb :=
  let* e := aget (stbent s) n in
  let* cs := aset (chans e) channel c in
  let* es := aset (stbent s) n (set_chans cs e) in
  Ret (set_stbent es s).

Definition lock (c : chan) : outcome chan := if mutex c then Block else Ret (set_mutex true c).
Definition unlock (c : chan) : chan := set_mutex false c.

(** ** Registration *)
Definition fresh_chan (c : chan) : chan := set_filecount 0 (set_filesize 0 (set_fd (-1) c)).

Definition stbtbl_regist (s : stb) (a u now : Z) : outcome (Z * stb) :=
  let '(found, f) := scan inuse (fun e => addr e =? a) (stbent s) 0 (-1) in
  if found then
    let* e := aget (stbent s) f in
    let* es := aset (stbent s) f (set_udp u e) in
    Ret (f, set_stbent es s)
  else if 0 <=? f then
    let* e := aget (stbent s) f in
    let e' := set_udp u (set_chans (fresh_chan <$> chans e) (set_lastuse now
                (set_addr a (set_inuse true e)))) in
    let* es := aset (stbent s) f e' in
    Ret (f, set_stbent es (set_regist_cnt (u32 (stb_regist_cnt s + 1)) s))
  else Ret (f, s).

(** ** Opening a file on a channel

    [file_pathname] and [real_filename] are the callbacks of the application. *)
Context (file_pathname : Z -> path -> path) (real_filename : Z -> option path).

(** Lines 161-174: close what the channel had open. *)
Definition close_old (s : stb) (c : chan) : stb * chan :=
  if 0 <=? fd c then
    let s1 := if filestatus c =? 2 then s else dec_opend s in
    (set_kern (sys_close (kern s1) (fd c)) s1, set_fd (-1) c)
  else (s, c).

(** Lines 204-230: stat and open the new file. *)
Definition open_new (s : stb) (c : chan) (filename : path) : stb * chan :=
  match sys_stat (kern s) filename with
  | (None, k) => (set_kern k s, set_filesize (-1) c)
  | (Some size, k) =>
      let '(f, k') := sys_open k filename in
      let c1 := set_fd f c in
      if f <? 0 then (set_kern k' s, set_filesize (-1) c1)
      else
        let b := u32 (Z.quot size BLOCK) in
        let b' := if Z.rem size BLOCK =? 0 then b else u32 (b + 1) in
        (inc_opend (set_kern k' s), set_blockcnt b' (set_filesize size (set_filestatus 1 c1)))
  end.

(** The result: the returned size, what was stored through [realfile] and
    through [err] ([None]: the pointer was not written). *)
Definition stbtbl_setfile (s : stb) (n channel : Z) (file : path) (cnt stbid' : Z)
  : outcome (Z * option (option path) * option Z * stb) :=
  if in_range n s then
    let* c := get_chan s n channel in
    if (stbid c =? stbid') && (filecount c =? u32 cnt) then
      Ret (filesize c, None, Some (err c), s)
    else if (stbid c =? stbid') && (u32 cnt <? filecount c) then
      Ret (-1, None, None, s)
    else
      let* c1 := lock (set_stbid stbid' c) in
      let '(s2, c2) := close_old s c1 in
      let c3 := set_filecount (u32 cnt) c2 in
      let filename := file_pathname channel file in
      if 256 <=? zlen filename then Fault OutOfBounds
      else
        let '(s4, c4) := open_new s2 c3 filename in
        let e := k_errno (kern s4) in
        let c5 := unlock (set_cdkio_block (-1) (set_current_block (-1) (set_err e c4))) in
        let* s5 := put_chan s4 n channel c5 in
        Ret (filesize c5, Some (real_filename channel), Some e, s5)
  else Ret (0, None, None, s).

(** ** Locks, requests, the queue *)
Definition stbtbl_streamming_lock (s : stb) (n channel : Z) : outcome (Z * stb) :=
  if in_range n s then
    let* c := get_chan s n channel in
    let* c' := lock c in
    let* s' := put_chan s n channel c' in
    Ret (1, s')
  else Ret (0, s).

Definition stbtbl_streamming_unlock (s : stb) (n channel : Z) : outcome (Z * stb) :=
  if in_range n s then
    let* c := get_chan s n channel in
    let* s' := put_chan s n channel (unlock c) in
    Ret (1, s')
  else Ret (0, s).

Definition stbtbl_is_file_matched (s : stb) (n channel fc : Z) : outcome Z :=
  if in_range n s then
    let* c := get_chan s n channel in
    Ret (if filecount c =? u32 fc then 1 else 0)
  else Ret 0.

(** [map] is the request's array: 23 bytes are copied from it. *)
Definition stbtbl_setrequest (s : stb) (n channel block : Z) (mp : list Z) (q : Z)
  : outcome (Z * stb) :=
  if in_range n s then
    let* c := get_chan s n channel in
    let* c1 := lock c in
    if zlen mp <? NPKT then Fault OutOfBounds
    else
      let* rd := cquot block (netio_block_per_diskio s) in
      let* nb := crem block (netio_block_per_diskio s) in
      let c2 := set_netio_block nb (set_rdkio_block rd (set_request_block block
                  (set_qos q (set_map (take (Z.to_nat NPKT) mp) c1)))) in
      let* s' := put_chan s n channel (unlock c2) in
      Ret (1, s')
  else Ret (0, s).

Definition stbtbl_push (s : stb) (n channel cmd : Z) : outcome (Z * stb) :=
  if in_range n s then
    let* q := aget (netq s) channel in
    let* r := fq_push q n (if cmd =? CMD_FAST_FETCH then 0 else 1) in
    let* qs := aset (netq s) channel (snd r) in
    Ret (1, set_netq qs s)
  else Ret (0, s).

Definition stbtbl_pop (s : stb) (channel : Z) : outcome (Z * stb) :=
  let* q := aget (netq s) channel in
  let* r := fq_pop q in
  let* qs := aset (netq s) channel (snd r) in
  Ret (fst r, set_netq qs s).

(** [stbtbl_init]: the disk buffer is allocated by the first call; [fresh_mem]
    is what the allocation returns (arbitrary bytes, or [None]).  When it fails
    the code returns without releasing the channel's lock. *)
Definition stbtbl_init (s : stb) (n channel sn : Z) (fresh_mem : option (list Z))
  : outcome (Z * stb) :=
  if in_range n s then
    let* c := get_chan s n channel in
    let* c1 := lock c in
    let* e := aget (stbent s) n in
    let* es := aset (stbent s) n (set_stb_sn sn e) in
    let s1 := set_stbent es s in
    match (match buffer c1 with Some b => Some b | None => fresh_mem end) with
    | None => let* s2 := put_chan s1 n channel c1 in Ret (0, s2)
    | Some b => let* s2 := put_chan s1 n channel (unlock (set_buffer (Some b) c1)) in Ret (1, s2)
    end
  else Ret (0, s).

Definition stbtbl_start (s : stb) (n sn : Z) : Z := 1.

Definition stbtbl_stop (s : stb) (n channel : Z) : outcome (Z * stb) :=
  if in_range n s then
    let* c := get_chan s n channel in
    if 0 <=? fd c then
      let s1 := set_kern (sys_close (kern s) (fd c)) s in
      let s2 := if filestatus c =? 2 then s1 else dec_opend s1 in
      let* s3 := put_chan s2 n channel (set_filestatus 0 (set_fd (-1) c)) in
      Ret (1, s3)
    else Ret (1, s)
  else Ret (0, s).

Definition stbtbl_udp (s : stb) (n : Z) : outcome Z :=
  if in_range n s then let* e := aget (stbent s) n in Ret (udp e) else Ret (-1).

(** ** Reading from disk and cutting a block into packets *)

(** [while ((len = read (fd, &ptr[rlen], best - rlen)) > 0) if ((rlen += len) == best) break;]
    Result: the last [len], [rlen], the buffer and the kernel. *)
Fixpoint read_loop (chunk : Z -> Z -> Z) (fuel : nat) (k : kernel) (fdn best : Z)
    (buf : list Z) (rlen : Z) : outcome (Z * Z * list Z * kernel) :=
  match fuel with
  | O => Fault OutOfFuel
  | S fuel' =>
      let '(len, bytes, k') := sys_read chunk k fdn (best - rlen) in
      if 0 <? len then
        let* buf' := blit buf rlen bytes in
        let rlen' := rlen + len in
        if rlen' =? best then Ret (len, rlen', buf', k')
        else read_loop chunk fuel' k' fdn best buf' rlen'
      else Ret (len, rlen, buf, k')
  end.

Definition read_fuel (s : stb) : nat := S (Z.to_nat (best_diskio_buffer_size s)).

(** Lines 340-411: fetch the disk buffer of the request, unless it is the
    current one.  [read] into a NULL buffer fails with EFAULT. *)
Definition fetch_disk (chunk : Z -> Z -> Z) (s : stb) (c : chan) : outcome (stb * chan) :=
  if rdkio_block c =? cdkio_block c then Ret (s, c)
  else
    let best := best_diskio_buffer_size s in
    let* nxt := ck (cdkio_block c + 1) in
    let* k1 := (if rdkio_block c =? nxt then Ret (kern s)
                else let* off := ck (rdkio_block c * best) in
                     Ret (sys_lseek (kern s) (fd c) off)) in
    let c1 := set_cdkio_block (rdkio_block c) c in
    let* r := match buffer c with
              | None => Ret (-1, 0, None, set_errno k1 EFAULT)
              | Some buf =>
                  let* r := read_loop chunk (read_fuel s) k1 (fd c) best buf 0 in
                  let '(len, rlen, buf', k2) := r in Ret (len, rlen, Some buf', k2)
              end in
    let '(len, rlen, buf', k2) := r in
    let s1 := set_kern k2 s in
    let c2 := set_buflen rlen (set_buffer buf' c1) in
    if len =? 0 then Ret (dec_opend s1, set_filestatus 2 c2) else Ret (s1, c2).

(** The header fields stored through [fptr]: sn, filecnt, block. *)
Definition stbtbl_read (chunk : Z -> Z -> Z) (s : stb) (n channel : Z)
  : outcome (Z * option (Z * Z * Z) * stb) :=
  if in_range n s then
    let* c := get_chan s n channel in
    let* r := fetch_disk chunk s c in
    let '(s1, c1) := r in
    let* s2 := put_chan s1 n channel c1 in
    let* e := aget (stbent s2) n in
    Ret (1, Some (stb_sn e, filecount c1, request_block c1), s2)
  else Ret (0, None, s).

(** [for (++i; i < 23; i++) if (map[i] != 0) ...break;]: the first wanted packet
    at or after [i], or 23. *)
Fixpoint next_wanted (k : nat) (mp : list Z) (i : Z) : outcome Z :=
  match k with
  | O => Ret i
  | S k' => let* v := aget mp i in
            if v =? 0 then next_wanted k' mp (i + 1) else Ret i
  end.

(** The length given to packet [i]: from the length of the whole disk buffer. *)
Definition pkt_len (blen i : Z) : Z :=
  if i <? Z.quot blen PKT then PKT else Z.rem blen PKT.

(** Lines 290-319, on the channel.  Result: the returned length (-1: nothing to
    send), [*bid] and the bytes copied to [buffer]. *)
Definition fill_chan (c : chan) (mapflag : Z) : outcome (Z * option Z * list Z * chan) :=
  let start := (if mapflag =? 1 then -1 else mapi c) + 1 in
  let* i := next_wanted (Z.to_nat (NPKT - start)) (map c) start in
  let c' := set_mapi i c in
  if i <? NPKT then
    let rc := pkt_len (buflen c) i in
    if rc =? 0 then Ret (-1, Some i, [], c')
    else
      match buffer c with
      | None => Fault NullDeref
      | Some b =>
          let off := BLOCK * netio_block c + PKT * i in
          if (0 <=? off) && (0 <=? rc) && (off + rc <=? zlen b)
          then Ret (rc, Some i, slice b off rc, c')
          else Fault OutOfBounds
      end
  else Ret (-1, None, [], c').

Definition stbtbl_fill (s : stb) (n channel mapflag : Z)
  : outcome (Z * option Z * list Z * stb) :=
  if in_range n s then
    let* c := get_chan s n channel in
    let* r := fill_chan c mapflag in
    let '(rc, bid, data, c') := r in
    let* s' := put_chan s n channel c' in
    Ret (rc, bid, data, s')
  else Ret (-1, None, [], s).

(** ** One turn of the service loop *)
Record packet := mk_packet {
  p_sn : Z; p_channel : Z; p_filecnt : Z; p_block : Z; p_bid : Z; p_len : Z; p_data : list Z }.

(** [do { send } while ((len = fill (0)) > 0)], with the first fill done. *)
Fixpoint send_loop (fuel : nat) (s : stb) (n channel : Z) (hdr : Z * Z * Z)
    (len bid : Z) (data : list Z) (out : list packet) : outcome (list packet * stb) :=
  match fuel with
  | O => Fault OutOfFuel
  | S fuel' =>
      let '(sn, fc, bl) := hdr in
      let out' := out ++ [mk_packet sn channel fc bl bid len data] in
      let* r := stbtbl_fill s n channel 0 in
      let '(len', bid', data', s') := r in
      if 0 <? len' then send_loop fuel' s' n channel hdr len' (default bid bid') data' out'
      else Ret (out', s')
  end.

(** The body of the loop of [streamio_v3_service] for the popped client [n]; the
    packets sent, in order. *)
Definition service_one (chunk : Z -> Z -> Z) (s : stb) (n channel : Z)
  : outcome (list packet * stb) :=
  let* r1 := stbtbl_streamming_lock s n channel in
  let* r2 := stbtbl_read chunk (snd r1) n channel in
  let '(_, hdr, s2) := r2 in
  let* r3 := stbtbl_fill s2 n channel 1 in
  let '(len, bid, data, s3) := r3 in
  let* r4 := (if 0 <? len
              then send_loop (Z.to_nat (NPKT + 1)) s3 n channel (default (0, 0, 0) hdr) len
                     (default 0 bid) data []
              else Ret ([], s3)) in
  let* r5 := stbtbl_streamming_unlock (snd r4) n channel in
  Ret (fst r4, snd r5).

(** ** Creation and shutdown *)
Definition close_chan (s : stb) (c : chan) : outcome (stb * chan) :=
  let* c1 := lock c in
  if 0 <=? fd c1 then
    let s1 := set_kern (sys_close (kern s) (fd c1)) s in
    let s2 := if filestatus c1 =? 2 then s1 else dec_opend s1 in
    Ret (s2, unlock (set_filestatus 0 (set_filecount 0 (set_fd (-1) c1))))
  else Ret (s, unlock c1).

Fixpoint close_chans (s : stb) (cs : list chan) : outcome (stb * list chan) :=
  match cs with
  | [] => Ret (s, [])
  | c :: cs' =>
      let* r := close_chan s c in
      let* r' := close_chans (fst r) cs' in
      Ret (fst r', snd r :: snd r')
  end.

Fixpoint close_entries (s : stb) (es : list stb_entry) : outcome (stb * list stb_entry) :=
  match es with
  | [] => Ret (s, [])
  | e :: es' =>
      let* r := close_chans s (chans e) in
      let* r' := close_entries (fst r) es' in
      Ret (fst r', set_chans (snd r) e :: snd r')
  end.

(** [stbtbl_close_all]: the call waits until every queue is empty; [services]
    is stopped meanwhile and restored at the end. *)
Definition stbtbl_close_all (s : stb) : outcome (Z * stb) :=
  let flag := stop_services s in
  let s1 := set_stop_services 1 s in
  if forallb (fun q => negb (fq_is_empty q =? 0)) (netq s1) then
    let* r := close_entries s1 (stbent s1) in
    Ret (1, set_stop_services flag (set_stbent (snd r) (fst r)))
  else Block.

Definition new_chan (c : chan) : chan :=
  set_mapidx 0 (set_buffer None (set_filestatus 0 (set_fd (-1) (set_stbid (-1) (set_mutex false c))))).
(** [calloc]ed memory is zero. *)
Definition zero_chan : chan :=
  mk_chan 0 false 0 0 0 0 0 0 0 0 0 0 0 (replicate 23 0) 0 0 0 None 0.
Definition new_entry (i : nat) : stb_entry :=
  mk_ent (Z.of_nat i) 0 (-1) 0 false 0 0 (replicate (Z.to_nat MAX_STIOV3_CHANNEL) (new_chan zero_chan)).

(** [new_stbtable_v3]: the counters are reset by every call, the table and the
    queues are made by the first one; [new_q] is the queue constructor (its
    allocation, which the code does not check, succeeds). *)
Definition new_stbtable_v3 (s : stb) (n : Z) (new_q : Z -> Q) : stb :=
  let best := 1024 * 1024 in
  let s1 := mk_stb 0 0 0 best (Z.quot best BLOCK) (stop_services s) (stbent s) (netq s) (kern s) in
  if count s =? 0 then
    set_netq (replicate (Z.to_nat MAX_STIOV3_CHANNEL) (new_q n))
      (set_stbent (new_entry <$> seq 0 (Z.to_nat n)) s1)
  else s1.

(** ** Channel access *)
Definition upd_chan (s : stb) (n channel : Z) (c : chan) : stb :=
  set_stbent (alter (fun e => set_chans (<[Z.to_nat channel := c]> (chans e)) e)
                (Z.to_nat n) (stbent s)) s.

Lemma get_chan_inv s n ch c :
  get_chan s n ch = Ret c ->
  0 <= n < count s /\ exists e, stbent s !! Z.to_nat n = Some e /\
    0 <= ch < zlen (chans e) /\ chans e !! Z.to_nat ch = Some c.
Proof.
  unfold get_chan, count. intros (e & [? ?]%aget_inv & [? ?]%aget_inv)%obind_Ret_inv. eauto.
Qed.

Lemma get_chan_in_range s n ch c : get_chan s n ch = Ret c -> in_range n s = true.
Proof.
  intros [[H1 H2] _]%get_chan_inv. unfold in_range.
  by rewrite (proj2 (Z.leb_le _ _) H1), (proj2 (Z.ltb_lt _ _) H2).
Qed.

Lemma put_chan_Ret s n ch c c' :
  get_chan s n ch = Ret c -> put_chan s n ch c' = Ret (upd_chan s n ch c').
Proof.
  intros (Hn & e & He & Hch & Hc)%get_chan_inv. unfold put_chan, upd_chan.
  rewrite (aget_Some _ _ e) by (done || lia). cbn [obind]. rewrite aset_Ret by done. cbn [obind].
  rewrite aset_Ret by done. cbn [obind]. by rewrite (alter_as_insert _ _ _ e).
Qed.

Lemma get_upd s n ch c c' :
  get_chan s n ch = Ret c -> get_chan (upd_chan s n ch c') n ch = Ret c'.
Proof.
  intros (Hn & e & He & Hch & Hc)%get_chan_inv. unfold get_chan, upd_chan. simpl.
  rewrite (aget_Some _ _ (set_chans (<[Z.to_nat ch := c']> (chans e)) e));
    [|lia|by rewrite list_lookup_alter_eq, He].
  simpl. apply aget_Some; [lia|]. by apply list_lookup_insert_eq, lookup_lt_Some with c.
Qed.

Lemma upd_upd s n ch c c' : upd_chan (upd_chan s n ch c) n ch c' = upd_chan s n ch c'.
Proof.
  unfold upd_chan, set_stbent. simpl. f_equal. apply alter_alter. intros e. unfold set_chans. simpl.
  by rewrite list_insert_insert_eq.
Qed.

Lemma count_upd s n ch c : count (upd_chan s n ch c) = count s.
Proof. unfold count, upd_chan, zlen. simpl. by rewrite length_alter. Qed.

Lemma stbtbl_fill_chan s n ch c m :
  get_chan s n ch = Ret c ->
  stbtbl_fill s n ch m =
    (let* r := fill_chan c m in
     let '(rc, bid, data, c') := r in Ret (rc, bid, data, upd_chan s n ch c')).
Proof.
  intros Hc. unfold stbtbl_fill. rewrite (get_chan_in_range _ _ _ _ Hc), Hc. cbn [obind].
  destruct (fill_chan c m) as [[[[rc bid] data] c']| |]; cbn [obind]; [|done..].
  by rewrite (put_chan_Ret _ _ _ _ _ Hc).
Qed.

(** ** Cutting a block into packets *)
Definition wanted (mp : list Z) (i : Z) : bool := negb (default 0 (mp !! Z.to_nat i) =? 0).

(** The packets of a block that are sent: the wanted ones that are not given
    length zero. *)
Definition sent_from (mp : list Z) (blen i : Z) : list Z :=
  filter (fun j => wanted mp j = true /\ pkt_len blen j <> 0) (seqZ i (NPKT - i)).

Lemma next_wanted_spec mp (k : nat) i :
  0 <= i -> Z.of_nat k + i = NPKT -> zlen mp = NPKT ->
  exists j, next_wanted k mp i = Ret j /\ i <= j <= NPKT /\
    (j < NPKT -> wanted mp j = true) /\ forall m, i <= m < j -> wanted mp m = false.
Proof.
  revert i. induction k as [|k IH]; intros i Hi Hk Hl; simpl.
  - exists i. split_and!; [done|lia..].
  - destruct (aget_lt mp i) as (v & -> & Hv); [lia|]. cbn [obind].
    destruct (Z.eqb_spec v 0) as [->|Hne].
    + destruct (IH (i + 1)) as (j & Hj & ? & ? & Hb); [lia..|]. exists j. split_and!; [done|lia..|done|].
      intros m Hm. destruct (decide (m = i)) as [->|?]; [|apply Hb; lia].
      unfold wanted. by rewrite Hv.
    + exists i. split_and!; [done|lia|lia| |lia]. intros _. unfold wanted. rewrite Hv. simpl.
      by rewrite (proj2 (Z.eqb_neq v 0)).
Qed.

Lemma pkt_len_eq blen i : 0 <= blen ->
  pkt_len blen i = if i <? blen / PKT then PKT else blen mod PKT.
Proof.
  intros H. unfold pkt_len, PKT. by rewrite Z.quot_div_nonneg, Z.rem_mod_nonneg by lia.
Qed.

Lemma pkt_len_bounds blen i : 0 <= blen -> 0 <= pkt_len blen i <= PKT.
Proof.
  intros H. rewrite pkt_len_eq by done. pose proof (Z.mod_pos_bound blen PKT ltac:(done)).
  destruct (i <? blen / PKT); [unfold PKT|]; lia.
Qed.

(** Once a packet has length zero, so have the following ones. *)
Lemma pkt_len_zero_mono blen i j : 0 <= blen -> i <= j -> pkt_len blen i = 0 -> pkt_len blen j = 0.
Proof.
  intros H Hij. rewrite !pkt_len_eq by done.
  destruct (Z.ltb_spec i (blen / PKT)), (Z.ltb_spec j (blen / PKT)); unfold PKT in *; lia.
Qed.

Lemma sent_from_skip mp blen i j :
  i <= j <= NPKT -> (forall m, i <= m < j -> wanted mp m = false) ->
  sent_from mp blen i = sent_from mp blen j.
Proof.
  intros Hij Hb. unfold sent_from.
  replace (NPKT - i) with ((j - i) + (NPKT - j)) by lia. rewrite seqZ_app by lia.
  replace (i + (j - i)) with j by lia. rewrite filter_app.
  replace (filter _ (seqZ i (j - i))) with (@nil Z); [done|]. symmetry.
  destruct (filter _ (seqZ i (j - i))) as [|x l] eqn:E; [done|].
  assert (x ∈ x :: l) as Hx by left. rewrite <- E in Hx.
  apply list_elem_of_filter in Hx as [[Hw _] Hx%elem_of_seqZ]. rewrite Hb in Hw; [done|lia].
Qed.

Lemma sent_from_stop mp blen j : 0 <= blen -> pkt_len blen j = 0 -> sent_from mp blen j = [].
Proof.
  intros Hb Hz. unfold sent_from. destruct (filter _ _) as [|x l] eqn:E; [done|].
  assert (x ∈ x :: l) as Hx by left. rewrite <- E in Hx.
  apply list_elem_of_filter in Hx as [[_ Hp] Hx%elem_of_seqZ].
  destruct Hp. apply (pkt_len_zero_mono blen j); [done|lia|done].
Qed.

Lemma sent_from_cons mp blen j :
  0 <= j < NPKT -> wanted mp j = true -> pkt_len blen j <> 0 ->
  sent_from mp blen j = j :: sent_from mp blen (j + 1).
Proof.
  intros Hj Hw Hp. unfold sent_from. rewrite (seqZ_cons j) by lia.
  rewrite filter_cons_True by done. do 2 f_equal. f_equal; lia.
Qed.

Lemma sent_from_end mp blen j : NPKT <= j -> sent_from mp blen j = [].
Proof. intros Hj. unfold sent_from. by rewrite seqZ_nil by lia. Qed.

(** A channel ready to be cut: its buffer covers the block. *)
Record cut_ok (c : chan) (b : list Z) : Prop := {
  co_buffer : buffer c = Some b;
  co_map : zlen (map c) = NPKT;
  co_nb : 0 <= netio_block c;
  co_blen : 0 <= buflen c;
  co_room : BLOCK * (netio_block c + 1) <= zlen b;
}.

(** 23 packets are 7 bytes more than a block: the last packet, when it is wanted, may
    reach past a buffer of [room] bytes in which the block begins at [off]. *)
Definition overruns (mp : list Z) (blen off room : Z) : bool :=
  wanted mp (NPKT - 1) && negb (pkt_len blen (NPKT - 1) =? 0) && (room <? off + PKT * (NPKT - 1) + pkt_len blen (NPKT - 1)).
Definition overruns_buf (c : chan) (b : list Z) : bool := overruns (map c) (buflen c) (BLOCK * netio_block c) (zlen b).

Definition pkt_data (c : chan) (b : list Z) (i : Z) : list Z :=
  slice b (BLOCK * netio_block c + PKT * i) (pkt_len (buflen c) i).

Lemma fill_chan_spec c b m :
  cut_ok c b -> overruns_buf c b = false -> let start := (if m =? 1 then -1 else mapi c) + 1 in 0 <= start <= NPKT ->
  exists j, start <= j /\
    ((0 <= j < NPKT /\ sent_from (map c) (buflen c) start = j :: sent_from (map c) (buflen c) (j + 1) /\
      0 < pkt_len (buflen c) j /\
      fill_chan c m = Ret (pkt_len (buflen c) j, Some j, pkt_data c b j, set_mapi j c)) \/
     (sent_from (map c) (buflen c) start = [] /\
      exists o, fill_chan c m = Ret (-1, o, [], set_mapi j c))).
Proof.
  intros [Hb Hm Hnb Hbl Hr] Hov start Hs. unfold fill_chan. fold start.
  destruct (next_wanted_spec (map c) (Z.to_nat (NPKT - start)) start) as (j & -> & Hj & Hw & Hskip);
    [lia..|done|]. cbn [obind]. exists j. split; [lia|].
  rewrite (sent_from_skip _ _ start j) by (done || lia).
  destruct (Z.ltb_spec j NPKT) as [Hlt|Hge].
  - destruct (Z.eqb_spec (pkt_len (buflen c) j) 0) as [Hz|Hnz].
    + right. rewrite sent_from_stop by done. eauto.
    + left. pose proof (pkt_len_bounds (buflen c) j Hbl). specialize (Hw Hlt).
      split_and!; [lia|lia|by apply sent_from_cons; [lia|..]|lia|].
      rewrite Hb. unfold pkt_data.
      assert (BLOCK * netio_block c + PKT * j + pkt_len (buflen c) j <= zlen b) as Hfit.
      { destruct (Z.eq_dec j (NPKT - 1)) as [->|Hne]; [|unfold BLOCK, PKT, NPKT in *; lia].
        unfold overruns_buf, overruns in Hov. rewrite Hw, (proj2 (Z.eqb_neq _ 0) Hnz) in Hov. by apply Z.ltb_ge in Hov. }
      rewrite !(proj2 (Z.leb_le _ _)) by (unfold BLOCK, PKT in *; lia). done.
  - right. rewrite sent_from_end by done. eauto.
Qed.

Lemma cut_ok_mapi c b j : cut_ok c b -> cut_ok (set_mapi j c) b.
Proof. by intros [????]. Qed.

(** When the last packet overruns, the packets before it are found first. *)
Lemma fill_chan_overrun c b m :
  cut_ok c b -> overruns_buf c b = true -> let start := (if m =? 1 then -1 else mapi c) + 1 in 0 <= start < NPKT ->
  exists j, start <= j < NPKT /\ if j =? NPKT - 1 then fill_chan c m = Fault OutOfBounds
    else 0 < pkt_len (buflen c) j /\ fill_chan c m = Ret (pkt_len (buflen c) j, Some j, pkt_data c b j, set_mapi j c).
Proof.
  intros [Hb Hm Hnb Hbl Hr] Hov start Hs. unfold overruns_buf, overruns in Hov.
  apply andb_true_iff in Hov as [[Hw Hz%negb_true_iff]%andb_true_iff Hlt%Z.ltb_lt].
  unfold fill_chan. fold start.
  destruct (next_wanted_spec (map c) (Z.to_nat (NPKT - start)) start) as (j & -> & Hj & _ & Hskip); [lia..|done|].
  cbn [obind]. exists j. destruct (Z.lt_ge_cases (NPKT - 1) j) as [Hc|Hc]; [rewrite Hskip in Hw by lia; done|].
  split; [lia|]. rewrite (proj2 (Z.ltb_lt j NPKT)) by lia. apply Z.eqb_neq in Hz as Hz0.
  pose proof (pkt_len_bounds (buflen c) j Hbl).
  assert (pkt_len (buflen c) j <> 0) as Hnz by (intros E; apply Hz0, (pkt_len_zero_mono _ j); [done|lia|done]).
  rewrite (proj2 (Z.eqb_neq _ 0) Hnz), Hb. destruct (Z.eqb_spec j (NPKT - 1)) as [->|Hne].
  - rewrite (proj2 (Z.leb_gt (_ + _ + _) _)) by done. by rewrite andb_false_r.
  - split; [lia|]. unfold pkt_data. rewrite !(proj2 (Z.leb_le _ _)) by (unfold BLOCK, PKT, NPKT in *; lia). done.
Qed.

Definition mk_pkt (c : chan) (b : list Z) (channel : Z) (hdr : Z * Z * Z) (i : Z) : packet :=
  let '(sn, fc, bl) := hdr in
  mk_packet sn channel fc bl i (pkt_len (buflen c) i) (pkt_data c b i).

Lemma send_loop_spec fuel s n ch c b hdr bid out :
  get_chan s n ch = Ret c -> cut_ok c b -> overruns_buf c b = false -> 0 <= mapi c < NPKT -> mapi c = bid ->
  (NPKT - mapi c < Z.of_nat fuel) ->
  exists j, send_loop fuel s n ch hdr (pkt_len (buflen c) bid) bid (pkt_data c b bid) out =
    Ret (out ++ mk_pkt c b ch hdr bid :: (mk_pkt c b ch hdr <$> sent_from (map c) (buflen c) (bid + 1)),
         upd_chan s n ch (set_mapi j c)).
Proof.
  revert s c bid out. induction fuel as [|fuel IH]; intros s c bid out Hc Hok Hov Hm <- Hf; [lia|].
  cbn [send_loop]. destruct hdr as [[sn fc] bl]. rewrite (stbtbl_fill_chan _ _ _ _ _ Hc).
  destruct (fill_chan_spec c b 0 Hok Hov) as (j & Hj & [(Hj2 & Hs & Hpos & ->)|(Hs & o & ->)]);
    simpl in *; [lia| |].
  - rewrite (proj2 (Z.ltb_lt _ _) Hpos).
    destruct (IH (upd_chan s n ch (set_mapi j c)) (set_mapi j c) j
               (out ++ [mk_packet sn ch fc bl (mapi c) (pkt_len (buflen c) (mapi c)) (pkt_data c b (mapi c))]))
      as [j' E]; [by eapply get_upd|by apply cut_ok_mapi|done|simpl; lia|done|simpl; lia|].
    exists j'. rewrite upd_upd in E. etransitivity; [exact E|].
    rewrite Hs, <- app_assoc. done.
  - exists j. by rewrite Hs.
Qed.

Lemma send_loop_overrun fuel s n ch c b hdr len bid data out :
  get_chan s n ch = Ret c -> cut_ok c b -> overruns_buf c b = true -> 0 <= mapi c < NPKT - 1 ->
  (NPKT - mapi c < Z.of_nat fuel) -> send_loop fuel s n ch hdr len bid data out = Fault OutOfBounds.
Proof.
  revert s c len bid data out. induction fuel as [|fuel IH]; intros s c len bid data out Hc Hok Hov Hm Hf; [lia|].
  cbn [send_loop]. destruct hdr as [[sn fc] bl]. rewrite (stbtbl_fill_chan _ _ _ _ _ Hc).
  destruct (fill_chan_overrun c b 0 Hok Hov) as (j & Hj & H); [simpl; lia|]. simpl in Hj.
  destruct (Z.eqb_spec j (NPKT - 1)) as [->|Hne]; [by rewrite H|]. destruct H as [Hpos ->]. cbn [obind].
  rewrite (proj2 (Z.ltb_lt _ _) Hpos). apply (IH _ (set_mapi j c)); [by eapply get_upd|by apply cut_ok_mapi|done|simpl; lia|simpl; lia].
Qed.

(** The part of a service turn that follows the disk read. *)
Lemma fill_and_send s n ch c b hdr :
  get_chan s n ch = Ret c -> cut_ok c b -> overruns_buf c b = false ->
  exists j,
    (let* r3 := stbtbl_fill s n ch 1 in
     let '(len, bid, data, s3) := r3 in
     if 0 <? len
     then send_loop (Z.to_nat (NPKT + 1)) s3 n ch hdr len (default 0 bid) data []
     else Ret ([], s3)) =
    Ret (mk_pkt c b ch hdr <$> sent_from (map c) (buflen c) 0, upd_chan s n ch (set_mapi j c)).
Proof.
  intros Hc Hok Hov. rewrite (stbtbl_fill_chan _ _ _ _ _ Hc).
  destruct (fill_chan_spec c b 1 Hok Hov) as (j & Hj & [(Hj2 & Hs & Hpos & ->)|(Hs & o & ->)]);
    [unfold NPKT; simpl; lia| |]; cbn [obind].
  - rewrite (proj2 (Z.ltb_lt _ _) Hpos). cbn [default].
    destruct (send_loop_spec (Z.to_nat (NPKT + 1)) (upd_chan s n ch (set_mapi j c)) n ch (set_mapi j c) b
                hdr j []) as [j' E]; [by eapply get_upd|by apply cut_ok_mapi|done|done|done|simpl; lia|].
    exists j'. rewrite upd_upd in E. etransitivity; [exact E|].
    simpl in Hs. change (-1 + 1) with 0 in Hs. by rewrite Hs.
  - exists j. simpl in Hs. change (-1 + 1) with 0 in Hs. by rewrite Hs.
Qed.

Lemma fill_and_send_overrun s n ch c b hdr :
  get_chan s n ch = Ret c -> cut_ok c b -> overruns_buf c b = true ->
  (let* r3 := stbtbl_fill s n ch 1 in
   let '(len, bid, data, s3) := r3 in
   if 0 <? len
   then send_loop (Z.to_nat (NPKT + 1)) s3 n ch hdr len (default 0 bid) data []
   else Ret ([], s3)) = Fault OutOfBounds.
Proof.
  intros Hc Hok Hov. rewrite (stbtbl_fill_chan _ _ _ _ _ Hc).
  destruct (fill_chan_overrun c b 1 Hok Hov) as (j & Hj & H); [unfold NPKT; simpl; lia|]. simpl in Hj.
  destruct (Z.eqb_spec j (NPKT - 1)) as [->|Hne]; [by rewrite H|]. destruct H as [Hpos ->]. cbn [obind].
  rewrite (proj2 (Z.ltb_lt _ _) Hpos). apply (send_loop_overrun _ _ _ _ (set_mapi j c) b);
    [by eapply get_upd|by apply cut_ok_mapi|done|simpl; lia|simpl; lia].
Qed.

(** ** Reading a disk buffer *)
(** Whatever the sizes of the individual reads, the loop fills the buffer from
    the file until it is full or the file ends; [len = 0] tells the end. *)
Lemma read_loop_spec chunk fuel k fdn best D p buf rlen :
  get_file k fdn = Some (mk_ofile D p) -> 0 <= p <= zlen D -> 0 <= rlen < best -> best <= zlen buf ->
  best - rlen < Z.of_nat fuel ->
  let t := Z.min (best - rlen) (zlen D - p) in
  exists len buf' k', read_loop chunk fuel k fdn best buf rlen = Ret (len, rlen + t, buf', k') /\
    0 <= len /\ (len = 0 <-> rlen + t < best) /\ zlen buf' = zlen buf /\
    get_file k' fdn = Some (mk_ofile D (p + t)) /\
    (forall i, Z.of_nat i < rlen -> buf' !! i = buf !! i) /\
    (forall i, rlen <= Z.of_nat i < rlen + t -> buf' !! i = D !! Z.to_nat (p + (Z.of_nat i - rlen))).
Proof.
  revert k p buf rlen. induction fuel as [|fuel IH]; intros k p buf rlen Hf Hp Hr Hb Hfuel t; [lia|].
  cbn [read_loop]. destruct (Z.eq_dec p (zlen D)) as [->|Hne].
  - rewrite (sys_read_eof chunk k fdn _ (best - rlen) Hf) by (simpl; lia). simpl.
    replace t with 0 by lia. exists 0, buf, k. rewrite !Z.add_0_r. split_and!; try done; lia.
  - destruct (sys_read_file chunk k fdn _ (best - rlen) Hf) as (len & k' & -> & Hlen & Hle & Hf');
      simpl in *; [lia..|].
    rewrite (proj2 (Z.ltb_lt 0 len)) by lia.
    assert (zlen (slice D p len) = len) as Hsl by (apply zlen_slice; lia).
    destruct (blit_Ret buf rlen (slice D p len)) as (buf1 & -> & Hz1 & Hs1 & Hk1); [lia|lia|].
    rewrite Hsl in *. cbn [obind].
    assert (forall i, rlen <= Z.of_nat i < rlen + len ->
              buf1 !! i = D !! Z.to_nat (p + (Z.of_nat i - rlen))) as Hcopy.
    { intros i Hi. apply (f_equal (.!! Z.to_nat (Z.of_nat i - rlen))) in Hs1.
      rewrite !lookup_slice in Hs1 by lia.
      replace (Z.to_nat rlen + Z.to_nat (Z.of_nat i - rlen))%nat with i in Hs1 by lia.
      rewrite Hs1. f_equal. lia. }
    destruct (Z.eqb_spec (rlen + len) best) as [He|Hne'].
    + replace t with len by lia. exists len, buf1, k'. split_and!; try done; try lia.
      intros i Hi. apply Hk1. lia.
    + destruct (IH k' (p + len) buf1 (rlen + len)) as (len2 & buf2 & k2 & H1 & H2 & H3 & H4 & H5 & H6 & H7);
        [done|lia..|].
      replace (Z.min (best - (rlen + len)) (zlen D - (p + len))) with (t - len) in * by lia.
      replace (rlen + len + (t - len)) with (rlen + t) in * by lia.
      replace (p + len + (t - len)) with (p + t) in * by lia.
      exists len2, buf2, k2. split_and!; try done; try lia.
      * intros i Hi. rewrite H6 by lia. apply Hk1. lia.
      * intros i Hi. destruct (Z.lt_ge_cases (Z.of_nat i) (rlen + len)).
        -- rewrite H6 by lia. apply Hcopy. lia.
        -- rewrite H7 by lia. f_equal. lia.
Qed.

(** The disk cache of a channel: the buffer holds disk block [cdkio_block] of
    the file [D] and the file offset is right behind it; -1 stands for a file
    just opened. *)
Record disk_ok (best : Z) (k : kernel) (c : chan) (D b : list Z) : Prop := {
  dk_buffer : buffer c = Some b;
  dk_len : best <= zlen b;
  dk_cur : exists p, get_file k (fd c) = Some (mk_ofile D p) /\
    (cdkio_block c = -1 /\ p = 0 \/
     0 <= cdkio_block c /\ cdkio_block c * best < zlen D /\
     p = Z.min (zlen D) ((cdkio_block c + 1) * best) /\
     buflen c = p - cdkio_block c * best /\
     forall i, Z.of_nat i < buflen c -> b !! i = D !! Z.to_nat (cdkio_block c * best + Z.of_nat i));
}.

(** Everything a disk read leaves alone. *)
Definition same_request (c c' : chan) : Prop :=
  fd c' = fd c /\ mutex c' = mutex c /\ map c' = map c /\ mapi c' = mapi c /\
  netio_block c' = netio_block c /\ rdkio_block c' = rdkio_block c /\
  request_block c' = request_block c /\ filecount c' = filecount c /\ filesize c' = filesize c.

Lemma fetch_disk_spec chunk s c D b :
  let best := best_diskio_buffer_size s in
  0 < best -> zlen D <= INT_MAX -> disk_ok best (kern s) c D b ->
  0 <= rdkio_block c -> rdkio_block c * best < zlen D ->
  exists s' c' b', fetch_disk chunk s c = Ret (s', c') /\ stbent s' = stbent s /\
    disk_ok best (kern s') c' D b' /\ cdkio_block c' = rdkio_block c /\ same_request c c' /\
    best_diskio_buffer_size s' = best /\ netio_block_per_diskio s' = netio_block_per_diskio s /\
    buflen c' = Z.min best (zlen D - rdkio_block c * best) /\ zlen b' = zlen b /\
    stb_opend_file s' = (if (rdkio_block c =? cdkio_block c) || (best <=? buflen c')
                         then stb_opend_file s else u32 (stb_opend_file s - 1)).
Proof.
  intros best Hbest HD [Hb Hlen (p & Hp & Hcur)] Hr Hrd. unfold fetch_disk. cbv zeta. fold best.
  destruct (Z.eqb_spec (rdkio_block c) (cdkio_block c)) as [Heq|Hne]; cbn [orb].
  { destruct Hcur as [[? _]|(H1 & H2 & H3 & H4 & H5)]; [lia|].
    exists s, c, b. split_and!; try done; [|by rewrite Heq; lia].
    split; [done..|]. exists p. split; [done|]. by right. }
  assert (-1 <= cdkio_block c /\ cdkio_block c < zlen D) as Hcd by (destruct Hcur; nia).
  rewrite (ck_Ret (cdkio_block c + 1)) by int_lia. cbn [obind].
  assert (exists k1, (if rdkio_block c =? cdkio_block c + 1 then Ret (kern s)
      else let* off := ck (rdkio_block c * best) in Ret (sys_lseek (kern s) (fd c) off)) = Ret k1 /\
      get_file k1 (fd c) = Some (mk_ofile D (rdkio_block c * best))) as (k1 & -> & Hk1).
  { destruct (Z.eqb_spec (rdkio_block c) (cdkio_block c + 1)) as [He|Hne2].
    - exists (kern s). split; [done|]. rewrite Hp. do 2 f_equal.
      destruct Hcur as [[? ->]|(H1 & H2 & H3 & _)]; [nia|]. rewrite He in *. lia.
    - rewrite ck_Ret by (int_lia || (unfold int_ok, INT_MIN; split; nia)). cbn [obind].
      eexists. split; [done|]. unfold sys_lseek. rewrite Hp. by eapply get_file_set. }
  cbn [obind]. rewrite Hb.
  destruct (read_loop_spec chunk (read_fuel s) k1 (fd c) best D (rdkio_block c * best) b 0)
    as (len & buf' & k' & -> & H1 & H2 & H3 & H4 & _ & H6); [done|nia|lia|done|unfold read_fuel; fold best; lia|].
  cbn [obind]. rewrite Z.sub_0_r, Z.add_0_l in *.
  set (L := Z.min best (zlen D - rdkio_block c * best)) in *.
  exists (if len =? 0 then dec_opend (set_kern k' s) else set_kern k' s),
    (if len =? 0 then set_filestatus 2 (set_buflen L (set_buffer (Some buf') (set_cdkio_block (rdkio_block c) c)))
     else set_buflen L (set_buffer (Some buf') (set_cdkio_block (rdkio_block c) c))), buf'.
  split_and!; try (by destruct (len =? 0)).
  2:{ destruct (Z.eqb_spec len 0); simpl; destruct (Z.leb_spec best L); try done; exfalso; lia. }
  replace (kern (if len =? 0 then dec_opend (set_kern k' s) else set_kern k' s)) with k' by (by destruct (len =? 0)).
  split; [by destruct (len =? 0)|lia|]. exists (rdkio_block c * best + L).
  split; [by destruct (len =? 0)|]. right.
  assert (forall i, Z.of_nat i < L -> buf' !! i = D !! Z.to_nat (rdkio_block c * best + Z.of_nat i)) as Hcopy.
  { intros i Hi. rewrite H6 by lia. f_equal. lia. }
  destruct (len =? 0); simpl; split_and!; try done; lia.
Qed.

Lemma disk_ok_ext best k c c' D b :
  buffer c' = buffer c -> fd c' = fd c -> cdkio_block c' = cdkio_block c -> buflen c' = buflen c ->
  disk_ok best k c D b -> disk_ok best k c' D b.
Proof.
  intros H1 H2 H3 H4 [D1 D2 D3]. split; [congruence|done|]. by rewrite H2, H3, H4.
Qed.

(** ** A service turn *)

(** The bytes of a packet are those of the file, as far as they belong to the
    block and to the file. *)
Definition pkt_faithful (D : list Z) (block : Z) (p : packet) : Prop :=
  forall q : nat, Z.of_nat q < p_len p -> PKT * p_bid p + Z.of_nat q < BLOCK ->
    BLOCK * block + PKT * p_bid p + Z.of_nat q < zlen D ->
    p_data p !! q = D !! Z.to_nat (BLOCK * block + PKT * p_bid p + Z.of_nat q).

(** A request for block [request_block] of file [D], as [stbtbl_setrequest]
    leaves it. *)
Record request_ok (s : stb) (c : chan) (D b : list Z) : Prop := {
  rq_per : 0 < netio_block_per_diskio s;
  rq_best : best_diskio_buffer_size s = BLOCK * netio_block_per_diskio s;
  rq_block : 0 <= request_block c;
  rq_in_file : BLOCK * request_block c < zlen D;
  rq_rd : rdkio_block c = request_block c / netio_block_per_diskio s;
  rq_nb : netio_block c = request_block c mod netio_block_per_diskio s;
  rq_map : zlen (map c) = NPKT;
  rq_disk : disk_ok (best_diskio_buffer_size s) (kern s) c D b;
  rq_size : zlen D <= INT_MAX;
}.

(** How many bytes of the file the disk buffer of the request holds. *)
Definition disk_len (s : stb) (c : chan) (D : list Z) : Z :=
  Z.min (best_diskio_buffer_size s) (zlen D - rdkio_block c * best_diskio_buffer_size s).

Lemma request_disk s c D b :
  request_ok s c D b ->
  0 <= rdkio_block c /\ 0 <= netio_block c < netio_block_per_diskio s /\
  rdkio_block c * best_diskio_buffer_size s + BLOCK * netio_block c = BLOCK * request_block c /\
  BLOCK * netio_block c < disk_len s c D.
Proof.
  intros R. destruct R as [H1 H2 H3 H4 H5 H6 _ _ _]. unfold disk_len. rewrite H2, H5, H6 in *.
  pose proof (Z.div_mod (request_block c) (netio_block_per_diskio s) ltac:(lia)) as E.
  pose proof (Z.mod_pos_bound (request_block c) (netio_block_per_diskio s) ltac:(lia)).
  pose proof (Z.div_pos (request_block c) (netio_block_per_diskio s) ltac:(lia) ltac:(lia)).
  unfold BLOCK in *. split_and!; try lia; nia.
Qed.

Lemma mk_pkt_faithful s k c c' D b b' ch hdr i :
  request_ok s c D b -> netio_block c' = netio_block c -> cdkio_block c' = rdkio_block c ->
  disk_ok (best_diskio_buffer_size s) k c' D b' ->
  buflen c' = disk_len s c D -> 0 <= i ->
  pkt_faithful D (request_block c) (mk_pkt c' b' ch hdr i).
Proof.
  intros R Hnb Hcd [_ _ (p & _ & Hcur)] Hbl Hi q. destruct hdr as [[sn fc] bl]. simpl.
  intros Hq Hblk Hfile. unfold pkt_data. rewrite Hbl, Hnb in *.
  destruct (request_disk _ _ _ _ R) as (H1 & H2 & H3 & H4). pose proof (rq_best _ _ _ _ R).
  rewrite lookup_slice by (unfold BLOCK, PKT; lia).
  destruct Hcur as [[? _]|(_ & _ & _ & _ & Hcopy)]; [lia|].
  assert (BLOCK * netio_block c + PKT * i + Z.of_nat q < disk_len s c D).
  { unfold disk_len in *. unfold BLOCK, PKT in *. nia. }
  rewrite Hcopy by (unfold BLOCK, PKT in *; lia). f_equal. rewrite Hcd.
  unfold BLOCK, PKT in *. lia.
Qed.

Lemma lock_get s n ch c :
  get_chan s n ch = Ret c -> mutex c = false ->
  stbtbl_streamming_lock s n ch = Ret (1, upd_chan s n ch (set_mutex true c)).
Proof.
  intros Hc Hm. unfold stbtbl_streamming_lock. rewrite (get_chan_in_range _ _ _ _ Hc), Hc.
  cbn [obind]. unfold lock. rewrite Hm. cbn [obind]. by rewrite (put_chan_Ret _ _ _ _ _ Hc).
Qed.

Lemma unlock_get s n ch c :
  get_chan s n ch = Ret c ->
  stbtbl_streamming_unlock s n ch = Ret (1, upd_chan s n ch (set_mutex false c)).
Proof.
  intros Hc. unfold stbtbl_streamming_unlock. rewrite (get_chan_in_range _ _ _ _ Hc), Hc.
  cbn [obind]. by rewrite (put_chan_Ret _ _ _ _ _ Hc).
Qed.

Lemma get_chan_stbent s s' n ch : stbent s' = stbent s -> get_chan s' n ch = get_chan s n ch.
Proof. intros E. unfold get_chan. by rewrite E. Qed.

Lemma entry_upd s n ch c e :
  stbent s !! Z.to_nat n = Some e ->
  exists e', stbent (upd_chan s n ch c) !! Z.to_nat n = Some e' /\ stb_sn e' = stb_sn e /\ udp e' = udp e.
Proof. intros He. unfold upd_chan. simpl. rewrite list_lookup_alter_eq, He. simpl. by eexists. Qed.

Lemma stbtbl_read_spec chunk s n ch c e D b :
  get_chan s n ch = Ret c -> stbent s !! Z.to_nat n = Some e -> request_ok s c D b ->
  exists s' c' b',
    stbtbl_read chunk s n ch = Ret (1, Some (stb_sn e, filecount c, request_block c), s') /\
    get_chan s' n ch = Ret c' /\ same_request c c' /\ cdkio_block c' = rdkio_block c /\
    buflen c' = disk_len s c D /\ zlen b' = zlen b /\
    disk_ok (best_diskio_buffer_size s) (kern s') c' D b' /\
    (exists e', stbent s' !! Z.to_nat n = Some e' /\ udp e' = udp e).
Proof.
  intros Hc He R. destruct (request_disk _ _ _ _ R) as (H1 & H2 & H3 & H4).
  destruct R as [R1 R2 R3 R4 R5 R6 R7 R8 R9].
  destruct (fetch_disk_spec chunk s c D b) as (s1 & c1 & b1 & Hf & Hst & Hd & Hcd & Hsr & Hb1 & _ & Hbl & Hz & _);
    [unfold BLOCK in *; lia|done|done|done|unfold BLOCK in *; nia|].
  assert (get_chan s1 n ch = Ret c) as Hc1 by (by rewrite (get_chan_stbent s)).
  destruct (entry_upd s1 n ch c1 e) as (e' & He' & Hsn & Hudp); [by rewrite Hst|].
  destruct Hsr as (S1 & S2 & S3 & S4 & S5 & S6 & S7 & S8 & S9).
  exists (upd_chan s1 n ch c1), c1, b1. split_and!; try done.
  - unfold stbtbl_read. rewrite (get_chan_in_range _ _ _ _ Hc), Hc. cbn [obind]. rewrite Hf. cbn [obind].
    rewrite (put_chan_Ret _ _ _ _ _ Hc1). cbn [obind].
    rewrite (aget_Some _ _ e') by (done || apply get_chan_inv in Hc; lia). cbn [obind].
    by rewrite Hsn, S8, S7.
  - by eapply get_upd.
  - by exists e'.
Qed.

(** A turn up to the packets: the disk has been read and the channel can be cut. *)
Lemma service_one_start chunk s n ch c e D b :
  get_chan s n ch = Ret c -> stbent s !! Z.to_nat n = Some e -> mutex c = false -> request_ok s c D b ->
  exists s2 c2 b2 e2,
    service_one chunk s n ch =
      (let* r4 := (let* r3 := stbtbl_fill s2 n ch 1 in
                   let '(len, bid, data, s3) := r3 in
                   if 0 <? len
                   then send_loop (Z.to_nat (NPKT + 1)) s3 n ch (stb_sn e, filecount c, request_block c) len (default 0 bid) data []
                   else Ret ([], s3)) in
       let* r5 := stbtbl_streamming_unlock (snd r4) n ch in Ret (fst r4, snd r5)) /\
    get_chan s2 n ch = Ret c2 /\ cut_ok c2 b2 /\ map c2 = map c /\ buflen c2 = disk_len s c D /\ netio_block c2 = netio_block c /\
    cdkio_block c2 = rdkio_block c /\ zlen b2 = zlen b /\ disk_ok (best_diskio_buffer_size s) (kern s2) c2 D b2 /\
    stbent s2 !! Z.to_nat n = Some e2 /\ udp e2 = udp e.
Proof.
  intros Hc He Hm R. unfold service_one. rewrite (lock_get _ _ _ _ Hc Hm). cbn [obind snd].
  set (s1 := upd_chan s n ch (set_mutex true c)).
  assert (get_chan s1 n ch = Ret (set_mutex true c)) as Hc1 by (by eapply get_upd).
  destruct (entry_upd s n ch (set_mutex true c) e He) as (e1 & He1 & Hsn & Hu1).
  destruct (stbtbl_read_spec chunk s1 n ch (set_mutex true c) e1 D b Hc1 He1)
    as (s2 & c2 & b2 & -> & Hc2 & Hsr & Hcd & Hbl & Hz & Hd & e2 & He2 & Hu2).
  { destruct R as [R1 R2 R3 R4 R5 R6 R7 R8 R9]. split; try done. by eapply disk_ok_ext; last exact R8. }
  cbn [obind default]. rewrite Hsn. destruct Hsr as (S1 & S2 & S3 & S4 & S5 & S6 & S7 & S8 & S9). simpl in S3, S5.
  destruct (request_disk _ _ _ _ R) as (H1 & H2 & H3 & H4). pose proof (dk_len _ _ _ _ _ (rq_disk _ _ _ _ R)).
  pose proof (rq_best _ _ _ _ R).
  exists s2, c2, b2, e2. split_and!; try done; [|split; [apply Hd|rewrite S3; apply R|lia|rewrite Hbl|rewrite Hz, S5; unfold BLOCK in *; nia]|congruence].
  - by destruct (stbtbl_fill s2 n ch 1) as [[[[len bid] data] s3]| |].
  - change (disk_len s1 (set_mutex true c) D) with (disk_len s c D). unfold BLOCK in *. lia.
Qed.

(** Does the turn read past the buffer? *)
Definition overread (s : stb) (c : chan) (D b : list Z) : bool := overruns (map c) (disk_len s c D) (BLOCK * netio_block c) (zlen b).

Lemma service_one_overread chunk s n ch c e D b :
  get_chan s n ch = Ret c -> stbent s !! Z.to_nat n = Some e -> mutex c = false -> request_ok s c D b ->
  overread s c D b = true -> service_one chunk s n ch = Fault OutOfBounds.
Proof.
  intros Hc He Hm R Hov.
  destruct (service_one_start chunk s n ch c e D b Hc He Hm R) as (s2 & c2 & b2 & e2 & -> & Hc2 & Hcut & S3 & Hbl & S5 & _ & Hz & _).
  rewrite (fill_and_send_overrun _ _ _ _ _ _ Hc2 Hcut); [done|]. unfold overruns_buf. by rewrite S3, Hbl, S5, Hz.
Qed.

Lemma service_one_run chunk s n ch c e D b :
  get_chan s n ch = Ret c -> stbent s !! Z.to_nat n = Some e -> mutex c = false ->
  request_ok s c D b -> overread s c D b = false ->
  exists s' c' b',
    service_one chunk s n ch =
      Ret (mk_pkt c' b' ch (stb_sn e, filecount c, request_block c) <$>
             sent_from (map c) (disk_len s c D) 0, s') /\
    get_chan s' n ch = Ret c' /\ mutex c' = false /\
    buflen c' = disk_len s c D /\ netio_block c' = netio_block c /\
    cdkio_block c' = rdkio_block c /\ zlen b' = zlen b /\
    disk_ok (best_diskio_buffer_size s) (kern s') c' D b' /\
    (exists e', stbent s' !! Z.to_nat n = Some e' /\ udp e' = udp e).
Proof.
  intros Hc He Hm R Hov.
  destruct (service_one_start chunk s n ch c e D b Hc He Hm R) as (s2 & c2 & b2 & e2 & -> & Hc2 & Hcut & S3 & Hbl & S5 & Hcd & Hz & Hd & He2 & Hu2).
  destruct (fill_and_send s2 n ch c2 b2 (stb_sn e, filecount c, request_block c) Hc2 Hcut) as [j ->];
    [unfold overruns_buf; by rewrite S3, Hbl, S5, Hz|]. cbn [obind snd fst].
  assert (get_chan (upd_chan s2 n ch (set_mapi j c2)) n ch = Ret (set_mapi j c2)) as Hc3 by (by eapply get_upd).
  rewrite (unlock_get _ _ _ _ Hc3). cbn [obind snd]. rewrite upd_upd.
  exists (upd_chan s2 n ch (set_mutex false (set_mapi j c2))), (set_mutex false (set_mapi j c2)), b2.
  split_and!; try done.
  - by rewrite S3, Hbl.
  - by eapply get_upd.
  - by eapply disk_ok_ext; last exact Hd.
  - destruct (entry_upd s2 n ch (set_mutex false (set_mapi j c2)) e2 He2) as (e3 & He3 & _ & Hu3).
    exists e3. split; [done|]. congruence.
Qed.

Lemma sent_all_eq L :
  0 <= L -> (L mod PKT <> 0 \/ PKT * NPKT <= L) ->
  sent_from (replicate 23 1) L 0 = seqZ 0 NPKT.
Proof.
  intros HL H. unfold sent_from. change (NPKT - 0) with NPKT. apply filter_all.
  intros j Hj%elem_of_seqZ. split.
  - unfold wanted. rewrite lookup_replicate_2 by (unfold NPKT in *; lia). done.
  - rewrite pkt_len_eq by done. destruct (Z.ltb_spec j (L / PKT)) as [|Hge]; [done|].
    destruct H as [H|H]; [done|]. exfalso.
    assert (NPKT <= L / PKT) by (apply Z.div_le_lower_bound; unfold PKT, NPKT in *; lia).
    unfold NPKT in *. lia.
Qed.

(** ** Registration: lemmas *)
Definition stb_unique (s : stb) : Prop :=
  forall i j e e', stbent s !! i = Some e -> stbent s !! j = Some e' ->
    inuse e = true -> inuse e' = true -> addr e = addr e' -> i = j.

Lemma unique_insert s s' (i : nat) e e' :
  stb_unique s -> stbent s !! i = Some e -> stbent s' = <[i := e']> (stbent s) ->
  (forall k x, k <> i -> stbent s !! k = Some x -> inuse x = true -> inuse e' = true -> addr x <> addr e') ->
  stb_unique s'.
Proof.
  intros U He Hs Hd j k x y. rewrite Hs. apply lookup_lt_Some in He as Hlt.
  destruct (decide (i = j)) as [<-|Hj]; [rewrite list_lookup_insert_eq by done|rewrite list_lookup_insert_ne by done];
  (destruct (decide (i = k)) as [<-|Hk]; [rewrite list_lookup_insert_eq by done|rewrite list_lookup_insert_ne by done]);
  intros Hx Hy Hux Huy Hxy; simplify_eq/=; eauto.
  - exfalso. by apply (Hd k y).
  - exfalso. by apply (Hd j x).
Qed.

(** [stbtbl_init] on a channel that has, or gets, a disk buffer. *)
Lemma stbtbl_init_run s n ch c sn fresh b :
  get_chan s n ch = Ret c -> mutex c = false -> (buffer c = Some b \/ buffer c = None /\ fresh = Some b) ->
  exists s', stbtbl_init s n ch sn fresh = Ret (1, s') /\ kern s' = kern s /\
    get_chan s' n ch = Ret (set_mutex false (set_buffer (Some b) (set_mutex true c))) /\
    (exists e, stbent s' !! Z.to_nat n = Some e /\ stb_sn e = sn).
Proof.
  intros Hc Hm Hb. apply get_chan_inv in Hc as Hinv. destruct Hinv as (Hn & e & He & Hch & Hce).
  unfold stbtbl_init. rewrite (get_chan_in_range _ _ _ _ Hc), Hc. cbn [obind]. unfold lock.
  rewrite Hm. cbn [obind]. rewrite (aget_Some _ n e) by (done || lia). cbn [obind].
  rewrite aset_Ret by done. cbn [obind]. simpl buffer.
  replace (match buffer c with Some b0 => Some b0 | None => fresh end) with (Some b)
    by (destruct Hb as [->|[-> ->]]; done).
  set (s1 := set_stbent _ s). apply lookup_lt_Some in He as Hlt.
  assert (stbent s1 !! Z.to_nat n = Some (set_stb_sn sn e)) as He1
    by (by apply list_lookup_insert_eq).
  assert (get_chan s1 n ch = Ret c) as Hc1.
  { unfold get_chan. rewrite (aget_Some _ _ (set_stb_sn sn e)); [|lia|done].
    simpl. apply aget_Some; [lia|done]. }
  rewrite (put_chan_Ret _ _ _ _ _ Hc1). cbn [obind].
  eexists. split_and!; [done|done|by eapply get_upd|].
  match goal with |- context [upd_chan _ _ _ ?c'] => destruct (entry_upd s1 n ch c' _ He1) as (e' & ? & ? & _) end.
  by exists e'.
Qed.

(** ** Properties *)

(** Registering a set-top box keeps the addresses of the table distinct.  A
    known address gets its old entry, whose UDP entry alone is updated; a new
    one gets the first free entry, with no file open on any channel; when the
    table is full the result is -1 and nothing changes. *)
Lemma stbtbl_regist_run s a u now :
  stb_unique s ->
  exists i s', stbtbl_regist s a u now = Ret (i, s') /\ stb_unique s' /\ count s' = count s /\
    (forall k, Z.of_nat k <> i -> stbent s' !! k = stbent s !! k) /\
    ((exists e e', 0 <= i /\ stbent s !! Z.to_nat i = Some e /\ inuse e = true /\ addr e = a /\
        stbent s' !! Z.to_nat i = Some e' /\ inuse e' = true /\ addr e' = a /\ udp e' = u /\ chans e' = chans e /\
        stb_regist_cnt s' = stb_regist_cnt s) \/
     (exists e e', 0 <= i /\ stbent s !! Z.to_nat i = Some e /\ inuse e = false /\
        (forall k x, (k < Z.to_nat i)%nat -> stbent s !! k = Some x -> inuse x = true) /\
        stbent s' !! Z.to_nat i = Some e' /\ inuse e' = true /\ addr e' = a /\ udp e' = u /\
        Forall (fun c => fd c = -1 /\ filesize c = 0 /\ filecount c = 0) (chans e') /\
        stb_regist_cnt s' = u32 (stb_regist_cnt s + 1)) \/
     (i = -1 /\ s' = s /\ Forall (fun e => inuse e = true /\ addr e <> a) (stbent s))).
Proof.
  intros U. unfold stbtbl_regist.
  destruct (scan_cases inuse (fun e => addr e =? a) (stbent s))
    as [(i & e & -> & He & Hu & Ha%Z.eqb_eq)|(Hno & [(i & e & -> & He & Hu & Hb)|[-> Hfull]])];
    cbv iota zeta.
  - pose proof (lookup_lt_Some _ _ _ He). crun. eexists (Z.of_nat i), _.
    split_and!; [done| |by unfold count; simpl; rewrite zlen_insert|intros k Hk; simpl; rewrite ?Nat2Z.id; apply list_lookup_insert_ne; lia|].
    + eapply (unique_insert s); [done..|]. intros k x Hk Hx Hux _ Hxa. by apply Hk, (U k i x e).
    + left. exists e, (set_udp u e). rewrite Nat2Z.id. simpl.
      rewrite list_lookup_insert_eq by done. split_and!; (done || lia).
  - pose proof (lookup_lt_Some _ _ _ He). rewrite (proj2 (Z.leb_le 0 _)) by lia. crun.
    eexists (Z.of_nat i), _. split_and!; [done| |by unfold count; simpl; rewrite zlen_insert|intros k Hk; simpl; rewrite ?Nat2Z.id; apply list_lookup_insert_ne; lia|].
    + eapply (unique_insert s); [done..|]. intros k x Hk Hx Hux _ Hxa. simpl in Hxa.
      specialize (Hno _ _ Hx Hux). by apply Z.eqb_neq in Hno.
    + right; left. eexists e, _. rewrite Nat2Z.id. simpl. rewrite list_lookup_insert_eq by done.
      split_and!; try done; [lia|]. simpl. apply Forall_fmap, Forall_true. done.
  - exists (-1), s. split_and!; [done..|]. right; right. split_and!; [done..|].
    apply Forall_lookup. intros k x Hx. split; [eauto|]. specialize (Hno _ _ Hx (Hfull _ _ Hx)).
    by apply Z.eqb_neq in Hno.
Qed.

(** Opening a readable file on a free channel succeeds: the size of the file
    is returned, the channel holds a descriptor at offset 0 of its contents,
    the number of 32768-byte blocks is the size rounded up, the new file count
    is recorded, no disk block is cached and the channel lock is released. *)
Lemma stbtbl_setfile_run s n ch c file cnt id D :
  get_chan s n ch = Ret c -> mutex c = false ->
  k_fs (kern s) (file_pathname ch file) = Some (D, true) -> zlen (file_pathname ch file) < 256 ->
  stbid c <> id \/ filecount c < u32 cnt -> zlen D < INT_MAX ->
  exists s' c' e, stbtbl_setfile s n ch file cnt id =
      Ret (zlen D, Some (real_filename ch), Some e, s') /\
    get_chan s' n ch = Ret c' /\ mutex c' = false /\
    filecount c' = u32 cnt /\ stbid c' = id /\ filesize c' = zlen D /\
    blockcnt c' = (zlen D + (BLOCK - 1)) / BLOCK /\ cdkio_block c' = -1 /\ 0 <= fd c' /\
    get_file (kern s') (fd c') = Some (mk_ofile D 0) /\ buffer c' = buffer c.
Proof.
  intros Hc Hm Hfs Hlen Hnew HD. unfold stbtbl_setfile. rewrite (get_chan_in_range _ _ _ _ Hc), Hc. cbn [obind].
  replace ((stbid c =? id) && (filecount c =? u32 cnt)) with false
    by (destruct (Z.eqb_spec (stbid c) id), (Z.eqb_spec (filecount c) (u32 cnt)); simpl; try done; lia).
  replace ((stbid c =? id) && (u32 cnt <? filecount c)) with false
    by (destruct (Z.eqb_spec (stbid c) id), (Z.ltb_spec (u32 cnt) (filecount c)); simpl; try done; lia).
  unfold lock. simpl mutex. rewrite Hm. cbn [obind].
  destruct (close_old s (set_mutex true (set_stbid id c))) as [s2 c2] eqn:Hcl.
  assert (stbent s2 = stbent s /\ k_fs (kern s2) = k_fs (kern s) /\ buffer c2 = buffer c /\ stbid c2 = id)
    as (Hst & Hfs2 & Hbuf & Hid).
  { unfold close_old in Hcl. destruct (0 <=? fd _); [|by simplify_eq].
    injection Hcl as <- <-. unfold sys_close.
    destruct (filestatus _ =? 2); simpl; destruct (get_file _ _); done. }
  rewrite (proj2 (Z.leb_gt 256 _)) by done. rewrite <- Hfs2 in Hfs.
  destruct (open_new s2 (set_filecount (u32 cnt) c2) (file_pathname ch file)) as [s4 c4] eqn:Hop.
  unfold open_new, sys_stat in Hop. rewrite Hfs in Hop. cbv iota beta zeta in Hop.
  destruct (sys_open (kern s2) (file_pathname ch file)) as [f k'] eqn:Hso.
  destruct (sys_open_get _ _ _ _ _ Hfs Hso) as [Hf Hget].
  rewrite (proj2 (Z.ltb_ge f 0) Hf) in Hop. injection Hop as <- <-.
  pose proof (get_chan_stbent s (inc_opend (set_kern k' s2)) n ch Hst) as Hg. rewrite Hc in Hg.
  rewrite (put_chan_Ret _ _ _ _ _ Hg). cbn [obind].
  eexists _, _, _. split_and!; [done|by eapply get_upd|done..| |done|done|done|done]. simpl.
  pose proof (zlen_nonneg D). unfold BLOCK, u32, INT_MAX in *.
  rewrite Z.quot_div_nonneg, Z.rem_mod_nonneg by lia.
  assert (zlen D / 32768 < 2 ^ 31) by (apply Z.div_lt_upper_bound; lia).
  assert (0 <= zlen D / 32768) by (by apply Z.div_pos).
  rewrite (Z.mod_small (zlen D / 32768)) by lia.
  destruct (Z.eqb_spec (zlen D mod 32768) 0); [|rewrite Z.mod_small by lia];
    Z.div_mod_to_equations; lia.
Qed.

(** A stale request (same box, a file count below the current one) is
    refused without touching the table, and repeating the current one answers
    from the table without opening anything. *)
Theorem stbtbl_setfile_stale s n ch c file cnt :
  get_chan s n ch = Ret c ->
  (u32 cnt < filecount c -> stbtbl_setfile s n ch file cnt (stbid c) = Ret (-1, None, None, s)) /\
  (filecount c = u32 cnt ->
     stbtbl_setfile s n ch file cnt (stbid c) = Ret (filesize c, None, Some (err c), s)).
Proof.
  intros Hc. unfold stbtbl_setfile. rewrite (get_chan_in_range _ _ _ _ Hc), Hc. cbn [obind].
  rewrite Z.eqb_refl. simpl. split; intros H.
  - rewrite (proj2 (Z.eqb_neq _ _)), (proj2 (Z.ltb_lt _ _)) by lia. done.
  - by rewrite (proj2 (Z.eqb_eq _ _) H).
Qed.

(** A request for a block of the file, on a channel whose disk cache is
    sound, sets up exactly what a service turn needs: disk block and position
    of the block in it, the map of wanted packets, and a released lock. *)
Lemma stbtbl_setrequest_run s n ch c block mp q D b :
  get_chan s n ch = Ret c -> mutex c = false ->
  0 < netio_block_per_diskio s -> best_diskio_buffer_size s = BLOCK * netio_block_per_diskio s ->
  disk_ok (best_diskio_buffer_size s) (kern s) c D b -> zlen D <= INT_MAX ->
  0 <= block -> BLOCK * block < zlen D -> NPKT <= zlen mp ->
  exists s' c', stbtbl_setrequest s n ch block mp q = Ret (1, s') /\
    get_chan s' n ch = Ret c' /\ mutex c' = false /\ request_ok s' c' D b /\
    request_block c' = block /\ map c' = take 23 mp /\ filecount c' = filecount c /\
    s' = upd_chan s n ch c'.
Proof.
  intros Hc Hm Hper Hbest Hd HD Hb Hin Hmp. unfold stbtbl_setrequest.
  rewrite (get_chan_in_range _ _ _ _ Hc), Hc. cbn [obind]. unfold lock. rewrite Hm. cbn [obind].
  rewrite (proj2 (Z.ltb_ge _ _) Hmp). do 2 cstep. rewrite (put_chan_Ret _ _ _ _ _ Hc). cbn [obind].
  eexists _, _. split_and!; [done|by eapply get_upd|done| |done..].
  split; try done.
  - simpl. unfold zlen, NPKT in *. rewrite length_take. lia.
  - by eapply disk_ok_ext; last exact Hd.
Qed.

(** A packet a service turn may send for the request of channel [c]: it carries
    the request's numbers, the length of its place and the file's bytes. *)
Record served_pkt (s : stb) (c : chan) (e : stb_entry) (ch : Z) (D : list Z) (p : packet) : Prop := {
  sp_sn : p_sn p = stb_sn e;
  sp_channel : p_channel p = ch;
  sp_filecnt : p_filecnt p = filecount c;
  sp_block : p_block p = request_block c;
  sp_len : p_len p = pkt_len (disk_len s c D) (p_bid p);
  sp_data : zlen (p_data p) = p_len p;
  sp_faithful : pkt_faithful D (request_block c) p;
}.

Lemma service_one_packets chunk s n ch c e D b :
  get_chan s n ch = Ret c -> stbent s !! Z.to_nat n = Some e -> mutex c = false ->
  request_ok s c D b -> overread s c D b = false ->
  exists pkts s' c' b' e', service_one chunk s n ch = Ret (pkts, s') /\
    p_bid <$> pkts = sent_from (map c) (disk_len s c D) 0 /\
    Forall (served_pkt s c e ch D) pkts /\
    get_chan s' n ch = Ret c' /\ mutex c' = false /\
    disk_ok (best_diskio_buffer_size s) (kern s') c' D b' /\
    stbent s' !! Z.to_nat n = Some e' /\ udp e' = udp e.
Proof.
  intros Hc He Hm R Hov.
  destruct (service_one_run chunk s n ch c e D b)
    as (s' & c' & b' & Hrun & Hc' & Hm' & Hbl & Hnb & Hcd & Hz & Hd & e' & He' & Hu'); [done..|].
  exists (mk_pkt c' b' ch (stb_sn e, filecount c, request_block c) <$> sent_from (map c) (disk_len s c D) 0), s', c', b', e'.
  split_and!; [done| | |done..].
  - rewrite <- list_fmap_compose. unfold compose. simpl. by rewrite list_fmap_id.
  - apply Forall_fmap, Forall_forall. intros i Hin. pose proof Hin as [_ Hi%elem_of_seqZ]%list_elem_of_filter.
    pose proof (mk_pkt_faithful s (kern s') c c' D b b' ch (stb_sn e, filecount c, request_block c) i
                  R Hnb Hcd Hd Hbl ltac:(lia)) as Hfaith.
    destruct (request_disk _ _ _ _ R) as (H1 & H2 & H3 & H4).
    pose proof (pkt_len_bounds (disk_len s c D) i ltac:(unfold BLOCK in *; lia)).
    split; [done..|by simpl; rewrite Hbl| |exact Hfaith]. simpl. unfold pkt_data. rewrite Hbl, Hnb.
    rewrite zlen_slice; [done|unfold BLOCK, PKT in *; lia|lia|].
    rewrite Hz. pose proof (dk_len _ _ _ _ _ (rq_disk _ _ _ _ R)). pose proof (rq_best _ _ _ _ R).
    apply list_elem_of_filter in Hin as [[Hw Hnz] _]. destruct (Z.eq_dec i (NPKT - 1)) as [->|Hne]; [|unfold BLOCK, PKT, NPKT in *; nia].
    unfold overread, overruns in Hov. rewrite Hw, (proj2 (Z.eqb_neq _ 0) Hnz) in Hov. by apply Z.ltb_ge in Hov.
Qed.

(** The packets of length zero: those behind the bytes of the disk buffer, when these are a
    multiple of a packet. *)
Lemma sent_from_eq mp L : 0 <= L -> sent_from mp L 0 = filter (fun i => wanted mp i = true /\ (L mod PKT = 0 -> i < L / PKT)) (seqZ 0 NPKT).
Proof.
  intros HL. unfold sent_from. change (NPKT - 0) with NPKT. apply list_filter_iff. intros i. rewrite pkt_len_eq by done.
  destruct (Z.ltb_spec i (L / PKT)); [|by split; intros [? ?]; split; [|lia| |lia]].
  split; intros [? ?]; split; try done; unfold PKT; lia.
Qed.

(** C5: one turn of the service loop, for any request on a channel with a sound disk
    cache.  Without an overread it sends, in increasing order, the wanted packets of the
    requested block, each with the serial number, file count and block number of the
    request; the bytes of a packet are the bytes of the file, whichever disk block was in
    the buffer before and however the kernel splits its reads; the channel lock is released
    and the disk cache is sound again.  A wanted packet is left out exactly when the disk
    buffer holds a multiple of 1425 bytes and the packet lies behind them.  The turn reads
    outside the disk buffer exactly when packet 22 is wanted and reaches past its end, as it
    does for the last block of a full buffer. *)
Theorem service_one_correct chunk s n ch c e D b :
  get_chan s n ch = Ret c -> stbent s !! Z.to_nat n = Some e -> mutex c = false ->
  request_ok s c D b ->
  let L := disk_len s c D in
  if wanted (map c) 22 && negb (pkt_len L 22 =? 0) && (zlen b <? BLOCK * netio_block c + PKT * 22 + pkt_len L 22)
  then service_one chunk s n ch = Fault OutOfBounds
  else exists pkts s' c' b', service_one chunk s n ch = Ret (pkts, s') /\
    p_bid <$> pkts = filter (fun i => wanted (map c) i = true /\ (L mod PKT = 0 -> i < L / PKT)) (seqZ 0 23) /\
    Forall (served_pkt s c e ch D) pkts /\
    get_chan s' n ch = Ret c' /\ mutex c' = false /\
    disk_ok (best_diskio_buffer_size s) (kern s') c' D b'.
Proof.
  intros Hc He Hm R L. change (wanted (map c) 22 && _ && _) with (overread s c D b).
  destruct (overread s c D b) eqn:Hov; [by eapply service_one_overread|].
  destruct (service_one_packets chunk s n ch c e D b Hc He Hm R Hov)
    as (pkts & s' & c' & b' & e' & H1 & H2 & H3 & H4 & H5 & H6 & _).
  rewrite sent_from_eq in H2 by (destruct (request_disk _ _ _ _ R) as (? & ? & ? & ?); unfold BLOCK in *; lia). eauto 10.
Qed.

(** The last packet of the last block of a disk buffer is read past the end
    of the buffer: 23 packets of 1425 bytes are 7 bytes more than a block, and
    the buffer has no room behind its last block. *)
Theorem stbtbl_fill_overreads s n ch c b :
  get_chan s n ch = Ret c -> buffer c = Some b -> mapi c = NPKT - 2 ->
  zlen (map c) = NPKT -> wanted (map c) (NPKT - 1) = true ->
  zlen b = BLOCK * (netio_block c + 1) -> 0 <= netio_block c -> PKT * NPKT <= buflen c ->
  stbtbl_fill s n ch 0 = Fault OutOfBounds.
Proof.
  intros Hc Hb Hmi Hm Hw Hz Hnb Hbl. rewrite (stbtbl_fill_chan _ _ _ _ _ Hc).
  unfold fill_chan. simpl Z.eqb. cbv iota zeta. rewrite Hmi.
  change (NPKT - 2 + 1) with (NPKT - 1). change (Z.to_nat (NPKT - (NPKT - 1))) with 1%nat. simpl next_wanted.
  unfold wanted in Hw. destruct (aget_lt (map c) (NPKT - 1)) as (v & -> & Hv); [unfold NPKT in *; lia|].
  rewrite Hv in Hw. simpl in Hw. cbn [obind]. destruct (v =? 0); [done|]. cbn [obind].
  change (NPKT - 1 <? NPKT) with true. cbv iota.
  assert (pkt_len (buflen c) (NPKT - 1) = PKT) as ->.
  { rewrite pkt_len_eq by (unfold PKT, NPKT in *; lia). rewrite (proj2 (Z.ltb_lt _ _)); [done|].
    apply Z.lt_le_trans with NPKT; [done|]. apply Z.div_le_lower_bound; [done|]. done. }
  change (PKT =? 0) with false. cbv iota. rewrite Hb, Hz.
  rewrite (proj2 (Z.leb_gt (_ + _ + _) _)) by (unfold BLOCK, PKT, NPKT; lia).
  by rewrite andb_false_r.
Qed.

(** When the disk buffer of a request holds a number of bytes that is a
    multiple of 1425 but less than 23 packets, packet 22 of the block is never
    sent, whatever the client asks for: a client that waits for all 23 packets
    of the block waits for ever. *)
Theorem service_one_starves chunk s n ch c e D b :
  get_chan s n ch = Ret c -> stbent s !! Z.to_nat n = Some e -> mutex c = false ->
  request_ok s c D b ->
  disk_len s c D mod PKT = 0 -> disk_len s c D < PKT * NPKT ->
  exists pkts s', service_one chunk s n ch = Ret (pkts, s') /\ NPKT - 1 ∉ p_bid <$> pkts.
Proof.
  intros Hc He Hm R Hmod Hlt.
  destruct (request_disk _ _ _ _ R) as (H1 & H2 & H3 & H4).
  assert (pkt_len (disk_len s c D) (NPKT - 1) = 0) as Hz.
  { rewrite pkt_len_eq by (unfold BLOCK in *; lia). rewrite (proj2 (Z.ltb_ge _ _)); [done|].
    assert (disk_len s c D / PKT < NPKT) by (apply Z.div_lt_upper_bound; [done|]; done).
    unfold NPKT in *. lia. }
  destruct (service_one_run chunk s n ch c e D b) as (s' & c' & b' & Hrun & _); [done..| |].
  { unfold overread, overruns. rewrite Hz. by rewrite andb_false_r. }
  eexists _, _. split; [done|]. rewrite <- list_fmap_compose. unfold compose. simpl. rewrite list_fmap_id.
  by intros [[_ Hp] _]%list_elem_of_filter.
Qed.

(** The counter of open files is decremented every time the end of the file
    is met, even when this file was already counted as finished: reading the
    last disk block again makes the (unsigned) counter wrong. *)
Theorem opend_file_decremented_again chunk s c D b :
  let best := best_diskio_buffer_size s in
  0 < best -> zlen D <= INT_MAX -> disk_ok best (kern s) c D b ->
  0 <= rdkio_block c -> rdkio_block c * best < zlen D -> rdkio_block c <> cdkio_block c ->
  disk_len s c D < best -> filestatus c = 2 ->
  exists s' c', fetch_disk chunk s c = Ret (s', c') /\
    stb_opend_file s' = u32 (stb_opend_file s - 1).
Proof.
  intros best Hbest HD Hd Hr Hin Hne Hlt _.
  destruct (fetch_disk_spec chunk s c D b) as (s' & c' & b' & Hf & _ & _ & _ & _ & _ & _ & Hbl & _ & Ho); [done..|].
  exists s', c'. split; [done|]. rewrite Ho. rewrite (proj2 (Z.eqb_neq _ _)) by done. simpl.
  rewrite Hbl. unfold disk_len in Hlt. fold best in Hlt |- *. by rewrite (proj2 (Z.leb_gt _ _)).
Qed.

(** When the disk buffer of a channel cannot be allocated, the channel's
    lock is left held: every later request, service turn or new file on the
    channel waits for ever. *)
Theorem stbtbl_init_leaks_lock s n ch c sn :
  get_chan s n ch = Ret c -> mutex c = false -> buffer c = None ->
  exists s', stbtbl_init s n ch sn None = Ret (0, s') /\
    (forall block mp q, stbtbl_setrequest s' n ch block mp q = Block) /\
    (forall chunk, service_one chunk s' n ch = Block) /\
    (forall sn' mem, stbtbl_init s' n ch sn' mem = Block).
Proof.
  intros Hc Hm Hb. apply get_chan_inv in Hc as Hinv. destruct Hinv as (Hn & e & He & Hch & Hce).
  unfold stbtbl_init at 1. rewrite (get_chan_in_range _ _ _ _ Hc), Hc. cbn [obind]. unfold lock at 1.
  rewrite Hm. cbn [obind]. rewrite (aget_Some _ n e) by (done || lia). cbn [obind].
  rewrite aset_Ret by done. cbn [obind]. simpl buffer. rewrite Hb.
  set (s1 := set_stbent _ s).
  assert (get_chan s1 n ch = Ret c) as Hc1.
  { unfold get_chan, s1. simpl.
    rewrite (aget_Some _ _ (set_stb_sn sn e)); [|lia|by apply list_lookup_insert_eq, lookup_lt_Some with e].
    simpl. apply aget_Some; [lia|done]. }
  rewrite (put_chan_Ret _ _ _ _ _ Hc1). cbn [obind].
  exists (upd_chan s1 n ch (set_mutex true c)). split; [done|].
  assert (get_chan (upd_chan s1 n ch (set_mutex true c)) n ch = Ret (set_mutex true c)) as Hc2 by (by eapply get_upd).
  split_and!; intros.
  - unfold stbtbl_setrequest. by rewrite (get_chan_in_range _ _ _ _ Hc2), Hc2.
  - unfold service_one, stbtbl_streamming_lock. by rewrite (get_chan_in_range _ _ _ _ Hc2), Hc2.
  - unfold stbtbl_init. by rewrite (get_chan_in_range _ _ _ _ Hc2), Hc2.
Qed.
End stb.

(** ** Witnesses: one client, one channel, a file of three bytes *)
Import MQ.
Definition ex_path : Z -> path -> path := fun _ f => f.
Definition ex_fs : path -> option (list Z * bool) := fun p => if bool_decide (p = [97]) then Some ([1; 2; 3], true) else None.
Definition ex_chunk : Z -> Z -> Z := fun _ m => m.
(** [b]: the bytes of the disk buffer; [st]: the status of the file. *)
Definition ex_chan (b : option (list Z)) (nb mi bl st : Z) : chan :=
  mk_chan 0 false 3 0 st 0 1 0 0 (-1) 0 (-1) nb (replicate 23 1) 0 mi 7 b bl.
Definition ex_stb (c : chan) (D : list Z) : stb :=
  mk_stb 1 1 1 (1024 * 1024) 32 0 [mk_ent 0 258 5 0 true 77 0 [c]] [ex_mq]
    (mk_kernel ex_fs [Some (mk_ofile D 0)] 0).
(** Byte buffers of a given length. *)
Definition ex_bytes (len : Z) : list Z := replicate (Z.to_nat len) 0.
Lemma zlen_ex_bytes len : 0 <= len -> zlen (ex_bytes len) = len.
Proof. intros. unfold ex_bytes. rewrite zlen_replicate. lia. Qed.
#[local] Opaque ex_bytes.
(** The disk buffer, as [stbtbl_init] allocates it. *)
Definition ex_buf : list Z := ex_bytes (1024 * 1024).
Lemma zlen_ex_buf : zlen ex_buf = 1024 * 1024.
Proof. by apply zlen_ex_bytes. Qed.

Lemma ex_disk_ok bl st D : D <> [] -> disk_ok (1024 * 1024) (kern (ex_stb (ex_chan (Some ex_buf) 0 0 bl st) D))
  (ex_chan (Some ex_buf) 0 0 bl st) D ex_buf.
Proof.
  intros HD. split; [done|by rewrite zlen_ex_buf|].
  exists 0. split; [done|]. by left.
Qed.

Lemma ex_request_ok bl st D : D <> [] -> zlen D <= 2000 ->
  request_ok (ex_stb (ex_chan (Some ex_buf) 0 0 bl st) D) (ex_chan (Some ex_buf) 0 0 bl st) D ex_buf.
Proof.
  intros HD Hl. split; [by cbv|by cbv|by cbv| |by cbv|by cbv|by cbv|by apply ex_disk_ok|int_lia].
  simpl. destruct D; [done|]. rewrite zlen_cons. pose proof (zlen_nonneg D). lia.
Qed.

Lemma stbtbl_setfile_stale_witness :
  stbtbl_setfile ex_path (fun _ => None) (ex_stb (ex_chan None 0 0 0 1) [1]) 0 0 [97] 0 7 =
    Ret (3, None, Some 0, ex_stb (ex_chan None 0 0 0 1) [1]).
Proof.
  apply (stbtbl_setfile_stale ex_path (fun _ => None) (ex_stb (ex_chan None 0 0 0 1) [1]) 0 0
           (ex_chan None 0 0 0 1) [97] 0); done.
Defined.

(** The turn for block 0 of a file of three bytes, in a disk buffer of 1 MB. *)
Lemma service_one_correct_witness :
  exists pkts s', service_one ex_chunk (ex_stb (ex_chan (Some ex_buf) 0 0 0 1) [1; 2; 3]) 0 0 = Ret (pkts, s') /\
    p_bid <$> pkts = seqZ 0 23 /\ Forall (pkt_faithful [1; 2; 3] 0) pkts.
Proof.
  pose proof (service_one_correct ex_chunk (ex_stb (ex_chan (Some ex_buf) 0 0 0 1) [1; 2; 3]) 0 0
    (ex_chan (Some ex_buf) 0 0 0 1) (mk_ent 0 258 5 0 true 77 0 [ex_chan (Some ex_buf) 0 0 0 1]) [1; 2; 3] ex_buf
    eq_refl eq_refl eq_refl (ex_request_ok 0 1 [1; 2; 3] ltac:(done) ltac:(by cbv))) as T.
  cbv zeta in T. rewrite zlen_ex_buf in T.
  change (disk_len _ _ _) with 3 in T. change (map _) with (replicate 23 1) in T. change (netio_block _) with 0 in T.
  change (wanted (replicate 23 1) 22 && negb (pkt_len 3 22 =? 0) && (1024 * 1024 <? BLOCK * 0 + PKT * 22 + pkt_len 3 22)) with false in T.
  destruct T as (pkts & s' & _ & _ & H1 & H2 & H3 & _). exists pkts, s'. split; [exact H1|]. split; [exact H2|].
  eapply Forall_impl; [exact H3|]. intros p Hp. exact (sp_faithful _ _ _ _ _ _ Hp).
Defined.

Lemma stbtbl_fill_overreads_witness :
  stbtbl_fill (ex_stb (ex_chan (Some (ex_bytes 32768)) 0 21 32775 1) [1]) 0 0 0 = Fault OutOfBounds.
Proof.
  apply (stbtbl_fill_overreads _ 0 0 (ex_chan (Some (ex_bytes 32768)) 0 21 32775 1) (ex_bytes 32768));
    [done|done|done|done|done|by rewrite zlen_ex_bytes|by cbv|by cbv].
Defined.

Lemma service_one_starves_witness :
  exists pkts s', service_one ex_chunk (ex_stb (ex_chan (Some ex_buf) 0 0 0 1) (ex_bytes 1425)) 0 0 = Ret (pkts, s') /\
    22 ∉ p_bid <$> pkts.
Proof.
  apply (service_one_starves ex_chunk (ex_stb (ex_chan (Some ex_buf) 0 0 0 1) (ex_bytes 1425)) 0 0
    (ex_chan (Some ex_buf) 0 0 0 1) (mk_ent 0 258 5 0 true 77 0 [ex_chan (Some ex_buf) 0 0 0 1])
    (ex_bytes 1425) ex_buf); [done|done|done|..].
  - assert (zlen (ex_bytes 1425) = 1425) as E by (by apply zlen_ex_bytes).
    apply ex_request_ok; [intros Hn; by rewrite Hn in E|lia].
  - unfold disk_len. simpl. by rewrite zlen_ex_bytes.
  - unfold disk_len. simpl. by rewrite zlen_ex_bytes.
Defined.

Lemma opend_file_decremented_again_witness :
  exists s' c', fetch_disk ex_chunk (set_opend 0 1 (ex_stb (ex_chan (Some ex_buf) 0 0 0 2) [1; 2; 3]))
      (ex_chan (Some ex_buf) 0 0 0 2) = Ret (s', c') /\ stb_opend_file s' = 4294967295.
Proof.
  apply (opend_file_decremented_again ex_chunk (set_opend 0 1 (ex_stb (ex_chan (Some ex_buf) 0 0 0 2) [1; 2; 3]))
    (ex_chan (Some ex_buf) 0 0 0 2) [1; 2; 3] ex_buf);
    [by cbv|by cbv|by apply ex_disk_ok|by cbv|by cbv|done|by cbv|done].
Defined.

Lemma stbtbl_init_leaks_lock_witness :
  exists s', stbtbl_init (ex_stb (ex_chan None 0 0 0 1) [1]) 0 0 5 None = Ret (0, s') /\
    forall chunk, service_one chunk s' 0 0 = Block.
Proof.
  destruct (stbtbl_init_leaks_lock (ex_stb (ex_chan None 0 0 0 1) [1]) 0 0 (ex_chan None 0 0 0 1) 5)
    as (s' & H1 & _ & H2 & _); [done..|]. eauto.
Defined.
End STB.
