(* ===== verification/StioServer.v ===== *)
(** * StioServer.v: the stream server's request handler, streamio_v3/server.c

    [streamio_v3_main] receives datagrams, checks them and answers: it finds
    the server, registers clients, opens files, queues block requests.
    [handle] is one turn of its loop for one datagram; the variables that
    live across turns (the 2000-byte buffer and [err]) are part of the state, so
    that bytes left over from earlier datagrams are visible as in the code.

    The client table is StbTable.v, the socket is Udp.v, the PDU layout and the
    checksum are Wire.v. *)

From S2P Require Import Prelude Interfaces Posix Udp Wire Mqueue StbTable.

Module SRV.

Section server.
Context {Q : Type} `{FQ : FifoQueue Q}.

(** The callbacks of the application, and the library's defaults. *)
Context (file_pathname : Z -> path -> path) (real_filename : Z -> option path).

(** [struct streamming_io_v3_server_pd_t] with the locals of [streamio_v3_main]
    that survive a turn of its loop. *)
Record server := mk_server {
  my_id : Z;
  terminate : Z;
  already_started : Z;
  stop_services : Z;
  stb_qos_threshold : Z;
  version_major : Z;
  version_minor : Z;
  udp : UDP.udplib;
  stb : STB.stb (Q := Q);
  buffer : list Z;
  err : Z;
}.
Definition set_my_id (v : Z) (s : server) : server :=
  mk_server v (terminate s) (already_started s) (stop_services s) (stb_qos_threshold s) (version_major s) (version_minor s) (udp s) (stb s) (buffer s) (err s).
Definition set_terminate (v : Z) (s : server) : server :=
  mk_server (my_id s) v (already_started s) (stop_services s) (stb_qos_threshold s) (version_major s) (version_minor s) (udp s) (stb s) (buffer s) (err s).
Definition set_already_started (v : Z) (s : server) : server :=
  mk_server (my_id s) (terminate s) v (stop_services s) (stb_qos_threshold s) (version_major s) (version_minor s) (udp s) (stb s) (buffer s) (err s).
Definition set_stop_services (v : Z) (s : server) : server :=
  mk_server (my_id s) (terminate s) (already_started s) v (stb_qos_threshold s) (version_major s) (version_minor s) (udp s) (stb s) (buffer s) (err s).
Definition set_stb_qos_threshold (v : Z) (s : server) : server :=
  mk_server (my_id s) (terminate s) (already_started s) (stop_services s) v (version_major s) (version_minor s) (udp s) (stb s) (buffer s) (err s).
Definition set_version_major (v : Z) (s : server) : server :=
  mk_server (my_id s) (terminate s) (already_started s) (stop_services s) (stb_qos_threshold s) v (version_minor s) (udp s) (stb s) (buffer s) (err s).
Definition set_version_minor (v : Z) (s : server) : server :=
  mk_server (my_id s) (terminate s) (already_started s) (stop_services s) (stb_qos_threshold s) (version_major s) v (udp s) (stb s) (buffer s) (err s).
Definition set_udp (v : UDP.udplib) (s : server) : server :=
  mk_server (my_id s) (terminate s) (already_started s) (stop_services s) (stb_qos_threshold s) (version_major s) (version_minor s) v (stb s) (buffer s) (err s).
Definition set_stb (v : STB.stb (Q := Q)) (s : server) : server :=
  mk_server (my_id s) (terminate s) (already_started s) (stop_services s) (stb_qos_threshold s) (version_major s) (version_minor s) (udp s) v (buffer s) (err s).
Definition set_buffer (v : list Z) (s : server) : server :=
  mk_server (my_id s) (terminate s) (already_started s) (stop_services s) (stb_qos_threshold s) (version_major s) (version_minor s) (udp s) (stb s) v (err s).
Definition set_err (v : Z) (s : server) : server :=
  mk_server (my_id s) (terminate s) (already_started s) (stop_services s) (stb_qos_threshold s) (version_major s) (version_minor s) (udp s) (stb s) (buffer s) v.


(** What the surroundings supply to one turn: the time, the memory a first
    [stbtbl_init] allocates, and the uninitialised stack bytes of the PDU
    [check_regist] sends. *)
Record ambient := mk_ambient { now : Z; fresh_mem : option (list Z); junk : list Z }.

(** [check_regist]: the client's slot, or -1 after asking it to register. *)
Definition check_regist (s : server) (am : ambient) (sn : Z) : Z * server :=
  if my_id s =? Z.shiftr sn 8 then (Z.land sn 0xff, s)
  else
    let pdu := seal (put32 (junk am) o_cmd PDU_NEED_REGIST) SIZEOF_PDU in
    (-1, set_udp (UDP.udplib_send (udp s) pdu SIZEOF_PDU) s).

(** [strncpy (fioptr->file, name, 7)]: at most seven bytes, padded with NULs. *)
Definition strncpy7 (name : path) : list Z :=
  take 7 (name ++ replicate 7 0).

(** Lines 149-154: [rf] is what [setfile] stored through its pointer. *)
Definition put_filename (b : list Z) (rf : option (option path)) : list Z :=
  match rf with
  | Some (Some name) => patch b o_file (strncpy7 name)
  | _ => put8 b o_file 0
  end.

(** [udp->send (udp, buffer, len)] after [ptr->cksum = ...]. *)
Definition seal_and_send (s : server) (len : Z) : server :=
  let b := seal (buffer s) len in
  set_udp (UDP.udplib_send (udp s) b len) (set_buffer b s).

Definition on_findserver (s : server) (len : Z) : outcome server :=
  Ret (set_udp (UDP.udplib_send (udp s) (buffer s) len) s).

Definition on_regist (s : server) (am : ambient) : outcome server :=
  let* r := UDP.udplib_regist_rmaddr (udp s) in
  let '(j, u) := r in
  let* r2 := STB.stbtbl_regist (stb s) (UDP.udplib_get_remote u) j (now am) in
  let '(i, tb) := r2 in
  let* sn := (if 0 <=? i then ck (Z.shiftl (my_id s) 8 + i) else Ret (-1)) in
  let b1 := put32 (buffer s) o_sn sn in
  let b2 := put32 b1 o_threshold (stb_qos_threshold s) in
  let b3 := put32 b2 o_version_major (version_major s) in
  let b4 := put32 b3 o_version_minor (version_minor s) in
  Ret (seal_and_send (set_buffer b4 (set_stb tb (set_udp u s))) (SIZEOF_HEADER + SIZEOF_REGIST)).

Definition on_openfile (s : server) (am : ambient) (len : Z) : outcome server :=
  let '(i, s1) := check_regist s am (i32_at (buffer s) o_sn) in
  if i <? 0 then Ret s1
  else
    let ch := char_at (buffer s1) o_channel in
    match cstr_at (buffer s1) o_file with
    | None => Fault OutOfBounds
    | Some file =>
        let* r := STB.stbtbl_setfile file_pathname real_filename (stb s1) i ch file
                    (u32_at (buffer s1) o_filecnt) (i32_at (buffer s1) o_stbid) in
        let '(size, rf, e, tb) := r in
        let b1 := put32 (buffer s1) o_filesize size in
        let b2 := put_filename b1 rf in
        let e' := default (err s1) e in
        let b3 := put32 b2 o_err e' in
        let s2 := seal_and_send (set_buffer b3 (set_err e' (set_stb tb s1))) len in
        let* r2 := STB.stbtbl_init (stb s2) i ch (i32_at (buffer s2) o_sn) (fresh_mem am) in
        Ret (set_stb (snd r2) s2)
    end.

Definition on_fetch (s : server) (am : ambient) (len : Z) : outcome server :=
  let '(i, s1) := check_regist s am (i32_at (buffer s) o_sn) in
  if i <? 0 then Ret s1
  else
    let ch := char_at (buffer s1) o_channel in
    let* m := STB.stbtbl_is_file_matched (stb s1) i ch (u32_at (buffer s1) o_filecnt) in
    if m =? 0 then
      Ret (seal_and_send (set_buffer (put32 (buffer s1) o_cmd PDU_NEED_REOPEN) s1) len)
    else
      let s2 := seal_and_send (set_buffer (put32 (buffer s1) o_cmd PDU_FETCH_RESPONSE) s1) len in
      let* r := STB.stbtbl_setrequest (stb s2) i ch (i32_at (buffer s2) o_block)
                  (slice (buffer s2) o_map 23) (i32_at (buffer s2) o_qos) in
      let* r2 := STB.stbtbl_push (snd r) i ch (i32_at (buffer s2) o_cmd) in
      Ret (set_stb (snd r2) s2).

Definition on_closefile (s : server) (am : ambient) : outcome server :=
  Ret (snd (check_regist s am (i32_at (buffer s) o_sn))).

(** The body of the loop of [streamio_v3_main] for the datagram [d] from [a]
    (a failed or empty [receive] only sleeps or prints). *)
Definition handle (s : server) (am : ambient) (a : UDP.sockaddr) (d : list Z) : outcome server :=
  let '(len, b, u) := UDP.udplib_receive (udp s) (buffer s) a d in
  let s1 := set_udp u (set_buffer b s) in
  if len =? 0 then Ret s1
  else if negb (cksum_ok b len) then Ret s1
  else if negb (stop_services s1 =? 0) then Ret s1
  else
    let cmd := i32_at b o_cmd in
    if cmd =? PDU_FINDSERVER then on_findserver s1 len
    else if cmd =? PDU_REGIST then on_regist s1 am
    else if cmd =? PDU_OPENFILE then on_openfile s1 am len
    else if cmd =? PDU_FAST_FETCH then Ret s1
    else if cmd =? PDU_FETCH then on_fetch s1 am len
    else if cmd =? PDU_CLOSEFILE then on_closefile s1 am
    else Ret s1.

(** ** Control *)

(** The service threads [stiov3_start_svc] creates: thread [k] serves channel
    [i], [nos[i]] threads per channel. *)
Definition nos : list Z := [30; 5; 5; 3; 20; 3; 3].
Fixpoint start_svc_loop (ch : list Z) (i k : Z) (room : Z) : outcome (list (Z * Z)) :=
  match ch with
  | [] => Ret []
  | m :: ch' =>
      if i <? STB.MAX_STIOV3_CHANNEL then
        if k + m <=? room then
          let* r := start_svc_loop ch' (i + 1) (k + m) room in
          Ret (((fun j => (k + j, i)) <$> seqZ 0 m) ++ r)
        else Fault OutOfBounds
      else Ret []
  end.
Definition stiov3_start_svc : outcome (list (Z * Z)) := start_svc_loop nos 0 0 100.

Definition stiov3_close_all (s : server) : outcome server :=
  let svcst := stop_services s in
  let* r := STB.stbtbl_close_all (stb s) in
  Ret (set_stop_services svcst (set_stb (snd r) s)).

Definition stiov3_start (s : server) : server := set_terminate 0 (set_already_started 1 s).
Definition stiov3_stop (s : server) : server := set_terminate 1 s.

Definition stiov3_pause (s : server) (p : Z) : Z * server :=
  (stop_services s, if 0 <=? p then set_stop_services (if p =? 0 then 0 else 1) s else s).

(** [new_streamming_io_v3_server]: [s0] is the allocated memory, [r] the value of
    [rand ()], [u] the opened socket.  The version numbers are not initialised. *)
Definition new_server (s0 : server) (r maxclient : Z) (u : UDP.udplib) (tb : STB.stb (Q := Q))
    (new_q : Z -> Q) : server :=
  mk_server (Z.rem r 8388608) 0 0 0 60 (version_major s0) (version_minor s0) u
    (STB.new_stbtable_v3 tb maxclient new_q) (buffer s0) (err s0).

(** ** Service threads: what they put on the wire *)

(** The bytes of a data PDU (struct stiov3_fetch_data_t); the thread never sets
    [h.err], whose bytes are [errb]. *)
Definition data_bytes (errb : list Z) (p : STB.packet) : list Z :=
  let b := [0; 0; 0; 0] ++ le32 PDU_FETCH ++ le32 (STB.p_sn p) ++ [u8 (STB.p_channel p)] ++ errb ++
           le32 (STB.p_filecnt p) ++ le32 (STB.p_block p) ++ le32 (STB.p_bid p) ++
           le32 (STB.p_len p) ++ STB.p_data p in
  seal b (o_data + STB.p_len p).

Fixpoint send_packets (u : UDP.udplib) (slot : Z) (errb : list Z) (ps : list STB.packet)
  : outcome UDP.udplib :=
  match ps with
  | [] => Ret u
  | p :: ps' =>
      let* r := UDP.udplib_sendto u slot (data_bytes errb p) (o_data + STB.p_len p) in
      send_packets (snd r) slot errb ps'
  end.

(** One turn of [streamio_v3_service]: take the next client of the channel's
    queue (or wait), serve it, send its packets to its UDP slot. *)
Definition service_turn (chunk : Z -> Z -> Z) (errb : list Z) (s : server) (channel : Z)
  : outcome server :=
  let* r := STB.stbtbl_pop (stb s) channel in
  let* r2 := STB.service_one chunk (snd r) (fst r) channel in
  let* slot := STB.stbtbl_udp (snd r2) (fst r) in
  let* u := send_packets (udp s) slot errb (fst r2) in
  Ret (set_udp u (set_stb (snd r2) s)).

(** ** Facts *)

(** What a turn does before it looks at the command. *)
Definition received (s : server) (a : UDP.sockaddr) (d : list Z) : server :=
  set_udp (UDP.set_rmaddr a (udp s)) (set_buffer (rx (buffer s) d) s).

(** A datagram that passes the tests of the loop, [d] bytes long. *)
Record accepted (s : server) (d : list Z) : Prop := {
  ac_buf : zlen (buffer s) = 2000;
  ac_len : 0 < zlen d <= 2000;
  ac_cksum : cksum_ok (rx (buffer s) d) (zlen d) = true;
  ac_running : stop_services s = 0;
}.

Lemma handle_accepted s am a d :
  accepted s d ->
  handle s am a d =
    let cmd := i32_at (rx (buffer s) d) o_cmd in
    let s1 := received s a d in
    if cmd =? PDU_FINDSERVER then on_findserver s1 (zlen d)
    else if cmd =? PDU_REGIST then on_regist s1 am
    else if cmd =? PDU_OPENFILE then on_openfile s1 am (zlen d)
    else if cmd =? PDU_FAST_FETCH then Ret s1
    else if cmd =? PDU_FETCH then on_fetch s1 am (zlen d)
    else if cmd =? PDU_CLOSEFILE then on_closefile s1 am
    else Ret s1.
Proof.
  intros [Hb Hl Hc Hs]. unfold handle, UDP.udplib_receive.
  assert (zlen (take (length (buffer s)) d) = zlen d) as ->.
  { unfold zlen in *. rewrite length_take. lia. }
  fold (rx (buffer s) d). rewrite (proj2 (Z.eqb_neq _ _)) by lia. rewrite Hc. simpl.
  by rewrite Hs.
Qed.

(** A registration number names the slot it was made from. *)
Lemma check_regist_sn s am sn :
  Z.shiftr sn 8 = my_id s -> check_regist s am sn = (Z.land sn 0xff, s).
Proof. intros H. unfold check_regist. by rewrite H, Z.eqb_refl. Qed.

Lemma sn_slot m i : 0 <= i < 256 -> Z.shiftr (Z.shiftl m 8 + i) 8 = m /\ Z.land (Z.shiftl m 8 + i) 0xff = i.
Proof.
  intros Hi. change 0xff with (Z.ones 8). rewrite Z.land_ones, Z.shiftr_div_pow2, Z.shiftl_mul_pow2 by lia.
  change (2 ^ 8) with 256. split; Z.div_mod_to_equations; lia.
Qed.

(** The reply a handler makes from the buffer [b0] by setting the command. *)
Lemma reply_fields b0 cmd len :
  zlen b0 = 2000 -> 8 <= len <= 2000 -> int_ok cmd ->
  let b := seal (put32 b0 o_cmd cmd) len in
  zlen b = 2000 /\ cksum_ok b len = true /\ i32_at b o_cmd = cmd /\
  (forall p n, 8 <= p -> slice b p n = slice b0 p n).
Proof.
  intros Hb Hl Hc b. assert (zlen (put32 b0 o_cmd cmd) = 2000) as Hz
    by (rewrite zlen_put32; unfold o_cmd; lia).
  split_and!; unfold b.
  - by rewrite zlen_seal by lia.
  - apply seal_ok. lia.
  - unfold o_cmd in *. rewrite i32_seal by lia. by apply i32_put32; [lia|lia|].
  - intros p n Hp. rewrite slice_seal by lia. unfold put32, o_cmd.
    by rewrite slice_patch_ne by (rewrite ?zlen_le32; lia).
Qed.

Lemma send_log u buf len : UDP.sent (UDP.udplib_send u buf len) = UDP.sent u ++ [(UDP.rmaddr u, slice buf 0 len)].
Proof. done. Qed.

(** The branch of [on_fetch] for an open file. *)
Lemma on_fetch_run s am len c D mb q cap l :
  let b := buffer s in
  let n := Z.land (i32_at b o_sn) 0xff in
  let ch := char_at b o_channel in
  let block := i32_at b o_block in
  zlen b = 2000 -> 8 <= len <= 2000 -> Z.shiftr (i32_at b o_sn) 8 = my_id s ->
  STB.get_chan (stb s) n ch = Ret c -> STB.mutex c = false ->
  STB.filecount c = u32_at b o_filecnt ->
  0 < STB.netio_block_per_diskio (stb s) ->
  STB.best_diskio_buffer_size (stb s) = STB.BLOCK * STB.netio_block_per_diskio (stb s) ->
  STB.disk_ok (STB.best_diskio_buffer_size (stb s)) (STB.kern (stb s)) c D mb -> zlen D <= INT_MAX ->
  0 <= block -> STB.BLOCK * block < zlen D ->
  STB.netq (stb s) !! Z.to_nat ch = Some q -> fq_rep q cap l -> n < cap ->
  exists s' c' q' reply, on_fetch s am len = Ret s' /\
    STB.get_chan (stb s') n ch = Ret c' /\ STB.mutex c' = false /\
    STB.request_ok (stb s') c' D mb /\ STB.request_block c' = block /\
    STB.map c' = slice b o_map 23 /\ STB.filecount c' = STB.filecount c /\
    STB.netq (stb s') !! Z.to_nat ch = Some q' /\
    fq_rep q' cap (if decide (n ∈ l) then l else l ++ [n]) /\
    UDP.sent (udp s') = UDP.sent (udp s) ++ [(UDP.rmaddr (udp s), slice reply 0 len)] /\
    cksum_ok reply len = true /\ i32_at reply o_cmd = PDU_FETCH_RESPONSE /\
    (forall p k, 8 <= p -> slice reply p k = slice b p k).
Proof.
  intros b n ch block Hb Hl Hsn Hc Hm Hfc Hper Hbest Hd HD Hb0 Hin Hq Hrep Hcap.
  unfold on_fetch. rewrite (check_regist_sn _ _ _ Hsn). fold b n. cbv beta iota.
  assert (0 <= n) as Hn by (apply Z.land_nonneg; lia).
  rewrite (proj2 (Z.ltb_ge n 0)) by done. fold ch.
  unfold STB.stbtbl_is_file_matched. rewrite (STB.get_chan_in_range _ _ _ _ Hc), Hc. cbn [obind].
  assert (u32 (u32_at b o_filecnt) = u32_at b o_filecnt) as Hu32.
  { unfold u32_at, u32. by rewrite Z.mod_mod. }
  rewrite Hfc, Hu32, Z.eqb_refl. cbn [obind Z.eqb].
  destruct (reply_fields b PDU_FETCH_RESPONSE len Hb Hl ltac:(done)) as (R1 & R2 & R3 & R4).
  unfold seal_and_send. cbn [buffer set_buffer set_udp udp stb]. fold b.
  set (reply := seal (put32 b o_cmd PDU_FETCH_RESPONSE) len) in *.
  assert (i32_at reply o_block = block) as -> by (apply i32_slice, R4; unfold o_block; lia).
  assert (i32_at reply o_qos = i32_at b o_qos) as -> by (apply i32_slice, R4; unfold o_qos; lia).
  rewrite (R4 o_map 23), R3 by (unfold o_map; lia).
  assert (zlen (slice b o_map 23) = 23) as Hzm by (apply zlen_slice; unfold o_map; lia).
  destruct (STB.stbtbl_setrequest_run (stb s) n ch c block (slice b o_map 23) (i32_at b o_qos) D mb)
    as (t1 & c1 & -> & Hc1 & Hm1 & Rq & Hrb & Hmap & Hfc1 & Ht1); try done; [by rewrite Hzm|].
  cbn [obind snd]. unfold STB.stbtbl_push. rewrite (STB.get_chan_in_range _ _ _ _ Hc1).
  assert (STB.netq t1 = STB.netq (stb s)) as Hnq by (by rewrite Ht1). rewrite Hnq.
  assert (0 <= ch) as Hch by (apply STB.get_chan_inv in Hc as (? & ? & ? & ? & ?); lia).
  rewrite (aget_Some _ _ q) by done. cbn [obind]. change (PDU_FETCH_RESPONSE =? STB.CMD_FAST_FETCH) with false.
  destruct (fq_push_ok q cap l n Hrep ltac:(lia)) as (q' & -> & Hrep'). cbn [obind snd].
  apply lookup_lt_Some in Hq as Hlt. rewrite aset_Ret by (unfold zlen; lia). cbn [obind snd].
  eexists _, c1, q', reply. split; [done|]. simpl.
  split_and!; try done.
  - destruct Rq. by split.
  - by rewrite Hmap, take_ge by (unfold zlen in *; lia).
  - by rewrite Hfc1.
  - by rewrite list_lookup_insert_eq.
Qed.

Lemma zlen_data_bytes errb p :
  zlen errb = 4 -> zlen (STB.p_data p) = STB.p_len p -> zlen (data_bytes errb p) = o_data + STB.p_len p.
Proof.
  intros He Hd. pose proof (zlen_nonneg (STB.p_data p)). unfold data_bytes.
  rewrite zlen_seal; autorewrite with katmai; rewrite !zlen_le32, He, Hd; unfold o_data; lia.
Qed.

Lemma send_packets_run u slot a errb ps :
  UDP.book_ok u -> UDP.peer_at u slot = Some a -> zlen errb = 4 ->
  Forall (fun p => zlen (STB.p_data p) = STB.p_len p) ps ->
  exists u', send_packets u slot errb ps = Ret u' /\ UDP.addrlist u' = UDP.addrlist u /\
    UDP.sent u' = UDP.sent u ++ ((fun p => (a, data_bytes errb p)) <$> ps).
Proof.
  intros B Hp He Hps. revert u B Hp. induction Hps as [|p ps Hd Hps IH]; intros u B Hp; simpl.
  - exists u. by rewrite app_nil_r.
  - rewrite (UDP.sendto_peer _ _ _ _ _ B Hp), slice_all by (by apply zlen_data_bytes). cbn [obind snd].
    destruct (IH (UDP.emit a (data_bytes errb p) u)) as (u' & -> & Ha & Hs).
    { destruct B. by split. }
    { done. }
    exists u'. split_and!; [done..|]. rewrite Hs. simpl. by rewrite <- app_assoc.
Qed.

(** One turn of a service thread whose next client has a good request. *)
Lemma service_turn_run chunk errb s ch c e D b q cap n l a :
  STB.netq (stb s) !! Z.to_nat ch = Some q -> fq_rep q cap (n :: l) ->
  STB.get_chan (stb s) n ch = Ret c -> STB.stbent (stb s) !! Z.to_nat n = Some e ->
  STB.mutex c = false -> STB.request_ok (stb s) c D b ->
  STB.overread (stb s) c D b = false ->
  UDP.book_ok (udp s) -> UDP.peer_at (udp s) (STB.udp e) = Some a -> zlen errb = 4 ->
  exists pkts s', service_turn chunk errb s ch = Ret s' /\
    UDP.sent (udp s') = UDP.sent (udp s) ++ ((fun p => (a, data_bytes errb p)) <$> pkts) /\
    STB.p_bid <$> pkts = STB.sent_from (STB.map c) (STB.disk_len (stb s) c D) 0 /\
    Forall (STB.served_pkt (stb s) c e ch D) pkts.
Proof.
  intros Hq Hrep Hc He Hm R Hov B Hp Herr. unfold service_turn, STB.stbtbl_pop.
  assert (0 <= ch /\ 0 <= n) as [Hch Hn]
    by (apply STB.get_chan_inv in Hc as (? & ? & ? & ? & ?); lia).
  rewrite (aget_Some _ _ q) by done. cbn [obind].
  destruct (fq_pop_ok q cap l n Hrep) as (q' & -> & _). cbn [obind snd fst].
  apply lookup_lt_Some in Hq as Hlt. rewrite aset_Ret by (unfold zlen; lia). cbn [obind snd fst].
  set (tb := STB.set_netq _ (stb s)).
  destruct (STB.service_one_packets chunk tb n ch c e D b) as (pkts & t' & c' & b' & e' & Hrun & Hb & Hf & Hc' & _ & _ & He' & Hu');
    [done|done|done|by destruct R; split|done|].
  rewrite Hrun. cbn [obind snd fst]. unfold STB.stbtbl_udp. rewrite (STB.get_chan_in_range _ _ _ _ Hc').
  rewrite (aget_Some _ _ e') by done. cbn [obind]. rewrite Hu'.
  destruct (send_packets_run (udp s) (STB.udp e) a errb pkts) as (u' & -> & _ & Hs); [done..| |].
  { eapply Forall_impl; [exact Hf|]. intros p Hp'. apply Hp'. }
  cbn [obind]. eexists pkts, _. split_and!; [done|exact Hs|exact Hb|].
  eapply Forall_impl; [exact Hf|]. intros p []. by split.
Qed.

Lemma service_turn_overread chunk errb s ch c e D b q cap n l :
  STB.netq (stb s) !! Z.to_nat ch = Some q -> fq_rep q cap (n :: l) ->
  STB.get_chan (stb s) n ch = Ret c -> STB.stbent (stb s) !! Z.to_nat n = Some e ->
  STB.mutex c = false -> STB.request_ok (stb s) c D b ->
  STB.overread (stb s) c D b = true -> service_turn chunk errb s ch = Fault OutOfBounds.
Proof.
  intros Hq Hrep Hc He Hm R Hov. unfold service_turn, STB.stbtbl_pop.
  assert (0 <= ch /\ 0 <= n) as [Hch Hn]
    by (apply STB.get_chan_inv in Hc as (? & ? & ? & ? & ?); lia).
  rewrite (aget_Some _ _ q) by done. cbn [obind].
  destruct (fq_pop_ok q cap l n Hrep) as (q' & -> & _). cbn [obind snd fst].
  apply lookup_lt_Some in Hq as Hlt. rewrite aset_Ret by (unfold zlen; lia). cbn [obind snd fst].
  set (tb := STB.set_netq _ (stb s)).
  assert (STB.request_ok tb c D b) as R' by (destruct R; by split).
  by rewrite (STB.service_one_overread chunk tb n ch c e D b Hc He Hm R' Hov).
Qed.

Lemma received_buffer s a d : accepted s d -> zlen (buffer (received s a d)) = 2000.
Proof. intros A. simpl. rewrite zlen_rx. apply A. Qed.

(** ** Properties *)

(** C8: a fetch request of a registered client for a block of the file it has
    open is answered by the same PDU with the command FETCH_RESPONSE, sealed and
    sent to the requester; the channel then holds exactly the request that a
    service turn needs, and the client is in the channel's queue, once. *)
Theorem handle_fetch_queues s am a d c D mb q cap l :
  let b := rx (buffer s) d in
  let n := Z.land (i32_at b o_sn) 0xff in
  let ch := char_at b o_channel in
  accepted s d -> 8 <= zlen d -> i32_at b o_cmd = PDU_FETCH -> Z.shiftr (i32_at b o_sn) 8 = my_id s ->
  STB.get_chan (stb s) n ch = Ret c -> STB.mutex c = false -> STB.filecount c = u32_at b o_filecnt ->
  0 < STB.netio_block_per_diskio (stb s) ->
  STB.best_diskio_buffer_size (stb s) = STB.BLOCK * STB.netio_block_per_diskio (stb s) ->
  STB.disk_ok (STB.best_diskio_buffer_size (stb s)) (STB.kern (stb s)) c D mb -> zlen D <= INT_MAX ->
  0 <= i32_at b o_block -> STB.BLOCK * i32_at b o_block < zlen D ->
  STB.netq (stb s) !! Z.to_nat ch = Some q -> fq_rep q cap l -> n < cap ->
  exists s' c' q' reply, handle s am a d = Ret s' /\
    STB.get_chan (stb s') n ch = Ret c' /\ STB.mutex c' = false /\
    STB.request_ok (stb s') c' D mb /\ STB.request_block c' = i32_at b o_block /\
    STB.map c' = slice b o_map 23 /\
    STB.netq (stb s') !! Z.to_nat ch = Some q' /\
    fq_rep q' cap (if decide (n ∈ l) then l else l ++ [n]) /\
    UDP.sent (udp s') = UDP.sent (udp s) ++ [(a, slice reply 0 (zlen d))] /\
    cksum_ok reply (zlen d) = true /\ i32_at reply o_cmd = PDU_FETCH_RESPONSE /\
    (forall p k, 8 <= p -> slice reply p k = slice b p k).
Proof.
  intros b n ch A Hd Hcmd Hsn Hc Hm Hfc Hper Hbest Hdk HD Hb0 Hin Hq Hrep Hcap.
  rewrite (handle_accepted _ _ _ _ A). cbv zeta. fold b. rewrite Hcmd. cbv [PDU_FETCH PDU_FINDSERVER PDU_REGIST PDU_OPENFILE PDU_FAST_FETCH Z.eqb Pos.eqb].
  destruct (on_fetch_run (received s a d) am (zlen d) c D mb q cap l)
    as (s' & c' & q' & reply & H); try done.
  { by apply (received_buffer s a d). }
  { destruct A. lia. }
  destruct H as (H1 & H2 & H3 & H4 & H5 & H6 & _ & H7 & H8 & H9 & H10 & H11 & H12).
  exists s', c', q', reply. by split_and!.
Qed.

(** The serial number a registration hands out. *)
Lemma serial_run id i : 0 <= id < 2 ^ 23 -> -1 <= i < 256 ->
  exists sn, (if 0 <=? i then ck (Z.shiftl id 8 + i) else Ret (-1)) = Ret sn /\
    int_ok sn /\ (0 <= i -> sn = Z.shiftl id 8 + i) /\ (i = -1 -> sn = -1).
Proof.
  intros Hid Hi. rewrite Z.shiftl_mul_pow2 by lia. change (2 ^ 8) with 256.
  destruct (Z.leb_spec 0 i).
  - exists (id * 256 + i). rewrite ck_Ret by int_lia. split_and!; [done|int_lia|done|lia].
  - exists (-1). split_and!; [done|int_lia|lia|done].
Qed.

(** The answer to a registration: the four fields it sets, the command it keeps. *)
Lemma regist_reply b sn th vma vmi : zlen b = 2000 -> int_ok sn ->
  let r := seal (put32 (put32 (put32 (put32 b o_sn sn) o_threshold th) o_version_major vma) o_version_minor vmi) 24 in
  cksum_ok r 24 = true /\ i32_at r o_cmd = i32_at b o_cmd /\ i32_at r o_threshold = to_int th /\ i32_at r o_sn = sn.
Proof.
  intros Hz Hok. set (b1 := put32 b o_sn sn). set (b2 := put32 b1 _ _). set (b3 := put32 b2 _ _). set (b4 := put32 b3 _ _).
  assert (zlen b1 = 2000) as Hz1 by (unfold b1; by rewrite zlen_put32 by fld).
  assert (zlen b2 = 2000) as Hz2 by (unfold b2; by rewrite zlen_put32 by fld).
  assert (zlen b3 = 2000) as Hz3 by (unfold b3; by rewrite zlen_put32 by fld).
  assert (zlen b4 = 2000) as Hz4 by (unfold b4; by rewrite zlen_put32 by fld).
  cbv zeta. split_and!; [apply seal_ok; lia| | |]; rewrite i32_seal by fld;
    unfold b4; rewrite i32_put32_ne by fld; unfold b3; rewrite i32_put32_ne by fld; unfold b2.
  - rewrite i32_put32_ne by fld. unfold b1. by rewrite i32_put32_ne by fld.
  - by rewrite i32_put32_wrap by fld.
  - rewrite i32_put32_ne by fld. unfold b1. by rewrite i32_put32 by (fld || done).
Qed.


(** C37: requests that must not be served.  A datagram with a wrong checksum, or
    one that arrives while services are stopped, has no effect and no answer; a
    request with a serial number of another server run is answered with
    NEED_REGIST, a fetch for a file that is not the channel's with NEED_REOPEN,
    both as PDUs the client's checksum test accepts; the client table is the
    same as before in every case. *)
Theorem handle_refuses s am a d :
  let b := rx (buffer s) d in
  zlen (buffer s) = 2000 -> 0 < zlen d <= 2000 -> zlen (junk am) = SIZEOF_PDU ->
  (cksum_ok b (zlen d) = false \/ stop_services s <> 0 -> handle s am a d = Ret (received s a d)) /\
  (accepted s d -> i32_at b o_cmd ∈ [PDU_OPENFILE; PDU_FETCH; PDU_CLOSEFILE] ->
     Z.shiftr (i32_at b o_sn) 8 <> my_id s ->
     exists s' pdu, handle s am a d = Ret s' /\ stb s' = stb s /\
       UDP.sent (udp s') = UDP.sent (udp s) ++ [(a, pdu)] /\ zlen pdu = SIZEOF_PDU /\
       cksum_ok pdu SIZEOF_PDU = true /\ i32_at pdu o_cmd = PDU_NEED_REGIST) /\
  (forall c, accepted s d -> 8 <= zlen d -> i32_at b o_cmd = PDU_FETCH ->
     Z.shiftr (i32_at b o_sn) 8 = my_id s ->
     STB.get_chan (stb s) (Z.land (i32_at b o_sn) 0xff) (char_at b o_channel) = Ret c ->
     STB.filecount c <> u32_at b o_filecnt ->
     exists s' reply, handle s am a d = Ret s' /\ stb s' = stb s /\
       UDP.sent (udp s') = UDP.sent (udp s) ++ [(a, slice reply 0 (zlen d))] /\
       cksum_ok reply (zlen d) = true /\ i32_at reply o_cmd = PDU_NEED_REOPEN /\
       (forall p k, 8 <= p -> slice reply p k = slice b p k)).
Proof.
  intros b Hz Hd Hj. split_and!.
  - intros H. unfold handle, UDP.udplib_receive.
    assert (zlen (take (length (buffer s)) d) = zlen d) as ->
      by (unfold zlen in *; rewrite length_take; lia).
    fold (rx (buffer s) d) b. rewrite (proj2 (Z.eqb_neq _ _)) by lia.
    destruct (cksum_ok b (zlen d)); simpl; [|done].
    destruct H as [|Hs]; [done|]. simpl. by rewrite (proj2 (Z.eqb_neq _ _) Hs).
  - intros A Hcmd Hsn. rewrite (handle_accepted _ _ _ _ A). cbv zeta. fold b.
    assert (check_regist (received s a d) am (i32_at (buffer (received s a d)) o_sn) =
      (-1, set_udp (UDP.udplib_send (udp (received s a d)) (seal (put32 (junk am) o_cmd PDU_NEED_REGIST) SIZEOF_PDU) SIZEOF_PDU)
             (received s a d))) as Hchk.
    { unfold check_regist. rewrite (proj2 (Z.eqb_neq (my_id (received s a d)) _)); [done|]. simpl. by apply not_eq_sym. }
    set (pdu := seal _ _) in Hchk.
    assert (zlen (put32 (junk am) o_cmd PDU_NEED_REGIST) = SIZEOF_PDU) as Hzp
      by (rewrite zlen_put32; unfold SIZEOF_PDU in *; fld).
    assert (zlen pdu = SIZEOF_PDU) as Hzq by (unfold pdu; rewrite zlen_seal; unfold SIZEOF_PDU in *; lia).
    eexists _, pdu. split.
    { unfold on_openfile, on_fetch, on_closefile. rewrite Hchk. cbv beta iota zeta.
      rewrite !elem_of_cons in Hcmd. destruct Hcmd as [->|[->|[->|H]]]; [reflexivity..|].
      by apply not_elem_of_nil in H. }
    split_and!; [done| |done| |].
    + simpl. by rewrite (slice_all pdu) by done.
    + unfold pdu. apply seal_ok. unfold SIZEOF_PDU in *. lia.
    + unfold pdu. rewrite i32_seal by (unfold SIZEOF_PDU in *; fld).
      by apply i32_put32; [fld|unfold SIZEOF_PDU in *; fld|].
  - intros c A Hd8 Hcmd Hsn Hc Hfc. rewrite (handle_accepted _ _ _ _ A). cbv zeta. fold b. rewrite Hcmd.
    cbv [PDU_FETCH PDU_FINDSERVER PDU_REGIST PDU_OPENFILE PDU_FAST_FETCH Z.eqb Pos.eqb].
    unfold on_fetch. rewrite check_regist_sn by done. cbv beta iota.
    change (buffer (received s a d)) with b. change (stb (received s a d)) with (stb s).
    rewrite (proj2 (Z.ltb_ge _ 0)) by (apply Z.land_nonneg; lia).
    unfold STB.stbtbl_is_file_matched. rewrite (STB.get_chan_in_range _ _ _ _ Hc), Hc. cbn [obind].
    assert (u32 (u32_at b o_filecnt) = u32_at b o_filecnt) as -> by (unfold u32_at, u32; by rewrite Z.mod_mod).
    rewrite (proj2 (Z.eqb_neq _ _) Hfc). cbn [Z.eqb].
    destruct (reply_fields b PDU_NEED_REOPEN (zlen d) (received_buffer s a d A) ltac:(lia) ltac:(done)) as (R1 & R2 & R3 & R4).
    eexists _, (seal (put32 b o_cmd PDU_NEED_REOPEN) (zlen d)). by split_and!.
Qed.

(** The channel number of a request is not checked.  A fetch request with a
    valid serial number whose channel byte is not one of the entry's channels
    makes the server access its tables out of bounds. *)
Theorem handle_channel_unchecked s am a d e :
  let b := rx (buffer s) d in
  let n := Z.land (i32_at b o_sn) 0xff in
  accepted s d -> i32_at b o_cmd = PDU_FETCH -> Z.shiftr (i32_at b o_sn) 8 = my_id s ->
  STB.stbent (stb s) !! Z.to_nat n = Some e -> zlen (STB.chans e) = STB.MAX_STIOV3_CHANNEL ->
  ~ 0 <= char_at b o_channel < STB.MAX_STIOV3_CHANNEL ->
  handle s am a d = Fault OutOfBounds.
Proof.
  intros b n A Hcmd Hsn He Hch Hbad. rewrite (handle_accepted _ _ _ _ A). cbv zeta. fold b. rewrite Hcmd.
  cbv [PDU_FETCH PDU_FINDSERVER PDU_REGIST PDU_OPENFILE PDU_FAST_FETCH Z.eqb Pos.eqb].
  unfold on_fetch. rewrite check_regist_sn by done. cbv beta iota.
  change (buffer (received s a d)) with b. change (stb (received s a d)) with (stb s).
  assert (0 <= n) as Hn by (apply Z.land_nonneg; lia).
  rewrite (proj2 (Z.ltb_ge _ 0)) by done. apply lookup_lt_Some in He as Hlt.
  unfold STB.stbtbl_is_file_matched, STB.in_range, STB.count. fold n.
  rewrite (proj2 (Z.leb_le 0 n) Hn), (proj2 (Z.ltb_lt n _)) by (unfold zlen; lia). simpl.
  unfold STB.get_chan. rewrite (aget_Some _ _ e) by done. cbn [obind].
  by rewrite aget_OOB by (by rewrite Hch).
Qed.

(** C10: opening a file over the network.  The request of a registered client
    for a readable file is answered with the size of the file; the channel has
    the file open at its start, under the request's file count, with a disk
    buffer, no cached disk block and its lock released. *)
Theorem handle_openfile_opens s am a d c file D mem :
  let b := rx (buffer s) d in
  let n := Z.land (i32_at b o_sn) 0xff in
  let ch := char_at b o_channel in
  accepted s d -> i32_at b o_cmd = PDU_OPENFILE -> Z.shiftr (i32_at b o_sn) 8 = my_id s ->
  cstr_at b o_file = Some file -> STB.get_chan (stb s) n ch = Ret c -> STB.mutex c = false ->
  k_fs (STB.kern (stb s)) (file_pathname ch file) = Some (D, true) -> zlen (file_pathname ch file) < 256 ->
  STB.stbid c <> i32_at b o_stbid \/ STB.filecount c < u32_at b o_filecnt -> zlen D < INT_MAX ->
  (STB.buffer c = Some mem \/ STB.buffer c = None /\ fresh_mem am = Some mem) ->
  exists s' c' reply, handle s am a d = Ret s' /\
    UDP.sent (udp s') = UDP.sent (udp s) ++ [(a, slice reply 0 (zlen d))] /\
    cksum_ok reply (zlen d) = true /\ i32_at reply o_filesize = zlen D /\
    STB.get_chan (stb s') n ch = Ret c' /\ STB.mutex c' = false /\
    STB.filecount c' = u32_at b o_filecnt /\ STB.stbid c' = i32_at b o_stbid /\
    STB.filesize c' = zlen D /\ STB.blockcnt c' = (zlen D + (STB.BLOCK - 1)) / STB.BLOCK /\
    STB.cdkio_block c' = -1 /\ get_file (STB.kern (stb s')) (STB.fd c') = Some (mk_ofile D 0) /\
    STB.buffer c' = Some mem.
Proof.
  intros b n ch A Hcmd Hsn Hfile Hc Hm Hfs Hlen Hnew HD Hmem.
  rewrite (handle_accepted _ _ _ _ A). cbv zeta. fold b. rewrite Hcmd.
  cbv [PDU_FETCH PDU_FINDSERVER PDU_REGIST PDU_OPENFILE PDU_FAST_FETCH Z.eqb Pos.eqb].
  unfold on_openfile. rewrite check_regist_sn by done. cbv beta iota.
  change (buffer (received s a d)) with b. change (stb (received s a d)) with (stb s). fold n ch.
  rewrite (proj2 (Z.ltb_ge _ 0)) by (apply Z.land_nonneg; lia). rewrite Hfile.
  assert (u32 (u32_at b o_filecnt) = u32_at b o_filecnt) as Hu by (unfold u32_at, u32; by rewrite Z.mod_mod).
  destruct (STB.stbtbl_setfile_run file_pathname real_filename (stb s) n ch c file (u32_at b o_filecnt) (i32_at b o_stbid) D)
    as (t1 & c1 & e & -> & Hc1 & Hm1 & Hfc1 & Hid1 & Hsz1 & Hbc1 & Hcd1 & Hfd1 & Hgf1 & Hbuf1); try done; [by rewrite Hu|].
  cbn [obind]. pose proof (received_buffer s a d A) as Hz. simpl in Hz. fold b in Hz.
  set (b1 := put32 b o_filesize (zlen D)).
  assert (zlen b1 = 2000) as Hz1 by (unfold b1; by rewrite zlen_put32 by fld).
  set (b2 := put_filename b1 _).
  assert (zlen b2 = 2000 /\ i32_at b2 o_filesize = zlen D) as [Hz2 Hf2].
  { assert (forall x, zlen x <= 7 -> zlen (patch b1 o_file x) = 2000 /\ i32_at (patch b1 o_file x) o_filesize = zlen D) as Hp.
    { intros x Hx. pose proof (zlen_nonneg D). split; [rewrite zlen_patch by fld; done|].
      unfold i32_at. rewrite slice_patch_ne by fld. fold (i32_at b1 o_filesize). unfold b1.
      apply i32_put32; [fld|fld|int_lia]. }
    unfold b2, put_filename, put8. destruct (real_filename ch) as [name|]; apply Hp; [|by cbv].
    unfold strncpy7, zlen. rewrite length_take. lia. }
  unfold seal_and_send. cbn [buffer set_buffer set_udp udp stb set_stb set_err err from_option id].
  set (b3 := put32 b2 o_err e).
  assert (zlen b3 = 2000) as Hz3 by (unfold b3; by rewrite zlen_put32 by fld).
  destruct (STB.stbtbl_init_run t1 n ch c1 (i32_at (seal b3 (zlen d)) o_sn) (fresh_mem am) mem)
    as (t2 & -> & Hk & Hc2 & _); [done..|by rewrite Hbuf1|]. cbn [obind snd].
  eexists _, _, (seal b3 (zlen d)). split; [done|]. cbn [udp set_udp set_stb stb].
  split_and!; [done| | |exact Hc2|done|simpl; congruence|done..|simpl; by rewrite Hk|done].
  - apply seal_ok. lia.
  - rewrite i32_seal by fld. unfold b3. by rewrite i32_put32_ne by fld.
Qed.
End server.

(** ** Witnesses: server run 0, one client with five channels and a file of three
    bytes open on channel 0 *)
Import MQ.
Definition ex_tab : STB.stb := 
  let c := STB.ex_chan (Some STB.ex_buf) 0 0 0 1 in
  STB.mk_stb 1 1 1 (1024 * 1024) 32 0 [STB.mk_ent 0 0 0 0 true 77 0 [c; c; c; c; c]] [ex_mq]
    (mk_kernel STB.ex_fs [Some (mk_ofile [1; 2; 3] 0)] 0).
Definition ex_server : server :=
  mk_server 0 0 1 0 60 3 0 UDP.ex_udp ex_tab (replicate 2000 0) 0.
Definition ex_am : ambient := mk_ambient 0 None (replicate 37 0).
(** A PDU of 53 bytes with the given command, channel and file count. *)
Definition ex_pdu (cmd ch cnt : Z) : list Z :=
  seal (patch (patch (replicate 53 0) 4 (le32 cmd)) 12 (u8 ch :: le32 0 ++ le32 cnt)) 53.

Lemma ex_accepted cmd ch cnt :
  cksum_ok (rx (replicate 2000 0) (ex_pdu cmd ch cnt)) (zlen (ex_pdu cmd ch cnt)) = true ->
  zlen (ex_pdu cmd ch cnt) = 53 -> accepted ex_server (ex_pdu cmd ch cnt).
Proof. intros H1 H2. split; [done|rewrite H2; lia|done|done]. Qed.

Lemma ex_pdu_fields cmd ch cnt :
  (cmd, ch, cnt) ∈ [(PDU_FETCH, 0, 0); (PDU_FETCH, 9, 0); (PDU_REGIST, 0, 0); (PDU_OPENFILE, 0, 1)] ->
  accepted ex_server (ex_pdu cmd ch cnt) /\ zlen (ex_pdu cmd ch cnt) = 53 /\
  let b := rx (buffer ex_server) (ex_pdu cmd ch cnt) in
  i32_at b o_cmd = cmd /\ i32_at b o_sn = 0 /\ char_at b o_channel = ch /\ u32_at b o_filecnt = cnt /\
  i32_at b o_block = 0.
Proof.
  intros H. repeat (apply elem_of_cons in H as [[= -> -> ->]|H];
    [split_and!; [by apply ex_accepted; vm_compute|by vm_compute..]|]). by apply not_elem_of_nil in H.
Qed.

Lemma ex_mq_rep : fifo_rep ex_mq 1 [].
Proof. by apply (fifo_fresh true 1 3 ex_mq). Qed.

Lemma handle_fetch_queues_witness :
  exists s', handle STB.ex_path (fun _ => None) ex_server ex_am (UDP.mk_sockaddr 77 5) (ex_pdu PDU_FETCH 0 0) = Ret s'.
Proof.
  destruct (ex_pdu_fields PDU_FETCH 0 0) as (A & Hl & F1 & F2 & F3 & F4 & F5); [by left|].
  pose proof (handle_fetch_queues STB.ex_path (fun _ => None) ex_server ex_am (UDP.mk_sockaddr 77 5) (ex_pdu PDU_FETCH 0 0)
     (STB.ex_chan (Some STB.ex_buf) 0 0 0 1) [1; 2; 3] STB.ex_buf ex_mq 1 []) as T.
  cbv zeta in T. rewrite F1, F2, F3, F4, F5, Hl in T.
  destruct T as (s' & ? & ? & ? & H & _); [exact A|lia|reflexivity..|by apply STB.ex_disk_ok|
    vm_compute; discriminate|lia|reflexivity|reflexivity|exact ex_mq_rep|reflexivity|by exists s'].
Defined.

Lemma handle_channel_unchecked_witness :
  handle STB.ex_path (fun _ => None) ex_server ex_am (UDP.mk_sockaddr 77 5) (ex_pdu PDU_FETCH 9 0) = Fault OutOfBounds.
Proof.
  destruct (ex_pdu_fields PDU_FETCH 9 0) as (A & Hl & F1 & F2 & F3 & F4 & F5); [right; by left|].
  pose proof (fun e => handle_channel_unchecked STB.ex_path (fun _ => None) ex_server ex_am (UDP.mk_sockaddr 77 5) (ex_pdu PDU_FETCH 9 0) e) as T.
  cbv zeta in T. rewrite F1, F2, F3 in T.
  eapply T; [exact A|reflexivity..|unfold STB.MAX_STIOV3_CHANNEL; lia].
Defined.


Lemma handle_refuses_witness :
  handle STB.ex_path (fun _ => None) ex_server ex_am (UDP.mk_sockaddr 77 5) [1; 2; 3; 4] =
    Ret (received ex_server (UDP.mk_sockaddr 77 5) [1; 2; 3; 4]).
Proof.
  apply (handle_refuses STB.ex_path (fun _ => None) ex_server ex_am (UDP.mk_sockaddr 77 5) [1; 2; 3; 4]);
    [done|by cbv|done|left; by vm_compute].
Defined.

(** The same server with a file called "a" and no buffer on channel 0. *)
Definition ex_tab0 : STB.stb :=
  STB.mk_stb 1 1 1 (1024 * 1024) 32 0 [STB.mk_ent 0 0 0 0 true 77 0 [STB.ex_chan None 0 0 0 1]] [ex_mq]
    (mk_kernel STB.ex_fs [] 0).
Definition ex_open : list Z := seal (patch (ex_pdu PDU_OPENFILE 0 1) o_file [97; 0]) 53.
Lemma handle_openfile_opens_witness :
  exists s' c', handle STB.ex_path (fun _ => None) (set_stb ex_tab0 ex_server) (mk_ambient 0 (Some [0]) []) (UDP.mk_sockaddr 77 5) ex_open = Ret s' /\
    STB.get_chan (stb s') 0 0 = Ret c' /\ STB.filesize c' = 3.
Proof.
  assert (accepted (set_stb ex_tab0 ex_server) ex_open) as A
    by (split; [done|by vm_compute|by vm_compute|done]).
  assert (i32_at (rx (buffer (set_stb ex_tab0 ex_server)) ex_open) o_sn = 0) as F2 by (by vm_compute).
  assert (char_at (rx (buffer (set_stb ex_tab0 ex_server)) ex_open) o_channel = 0) as F3 by (by vm_compute).
  pose proof (handle_openfile_opens STB.ex_path (fun _ => None) (set_stb ex_tab0 ex_server) (mk_ambient 0 (Some [0]) []) (UDP.mk_sockaddr 77 5) ex_open
     (STB.ex_chan None 0 0 0 1) [97] [1; 2; 3] [0]) as T.
  cbv zeta in T. rewrite F2, F3 in T.
  destruct T as (s' & c' & ? & H1 & _ & _ & _ & H2 & _ & _ & _ & H3 & _);
    [exact A|by vm_compute|reflexivity|by vm_compute|reflexivity|reflexivity|reflexivity|by vm_compute|
     left; by vm_compute|by vm_compute|by right|].
  exists s', c'. split_and!; [exact H1|exact H2|exact H3].
Defined.
End SRV.
