(* ===== verification/StioClient.v ===== *)
(** * StioClient.v: the stream client's response thread, streamio_v3/src.client/response.c

    The client keeps, per channel, the block it wants, which of its 23 packets
    are still missing and the bytes received so far.  [streamio_v3_response]
    receives datagrams and updates this state; [response] is one turn of its
    loop.  The requesting side of the client is StioRead.v.

    The client's server directory is the interface [VodDirectory], its socket
    is Udp.v.  The code is compiled with ENABLE_PREFER_VOD_SERVER = 1. *)

From S2P Require Import Prelude Interfaces Posix Udp Wire StbTable.

Module CLI.

(** What [compare_variable[channel]] points to. *)
Inductive cmp_variable := V_vodsvr_response | V_need_filesize | V_brcvcnt.

(** The per-channel arrays of [struct streamming_io_v3_client_pd_t], one record
    per channel; [bbuf] is the array [23][1425] as one run of bytes. *)
Record cchan := mk_cchan {
  vodsvr_response : Z;
  need_filesize : Z;
  filesize : Z;
  need_reopen : Z;
  open_errno : Z;
  blockwant : Z;
  blockcnt : Z;
  filecnt : Z;
  bufok : list Z;
  bbuf : list Z;
  brcvcnt : Z;
  stm_buffer : list Z;
  readbuffer : list Z;
  rdbufidx : Z;
  rdbuflen : Z;
  may_need_fix_filename : Z;
  compare_variable : cmp_variable;
  compare_operator : Z;
  compare_expect : Z;
  reopen_pdu : list Z;
  reopen_pdu_len : Z;
}.
Definition set_vodsvr_response (v : Z) (s : cchan) : cchan :=
  mk_cchan v (need_filesize s) (filesize s) (need_reopen s) (open_errno s) (blockwant s) (blockcnt s) (filecnt s) (bufok s) (bbuf s) (brcvcnt s) (stm_buffer s) (readbuffer s) (rdbufidx s) (rdbuflen s) (may_need_fix_filename s) (compare_variable s) (compare_operator s) (compare_expect s) (reopen_pdu s) (reopen_pdu_len s).
Definition set_need_filesize (v : Z) (s : cchan) : cchan :=
  mk_cchan (vodsvr_response s) v (filesize s) (need_reopen s) (open_errno s) (blockwant s) (blockcnt s) (filecnt s) (bufok s) (bbuf s) (brcvcnt s) (stm_buffer s) (readbuffer s) (rdbufidx s) (rdbuflen s) (may_need_fix_filename s) (compare_variable s) (compare_operator s) (compare_expect s) (reopen_pdu s) (reopen_pdu_len s).
Definition set_filesize (v : Z) (s : cchan) : cchan :=
  mk_cchan (vodsvr_response s) (need_filesize s) v (need_reopen s) (open_errno s) (blockwant s) (blockcnt s) (filecnt s) (bufok s) (bbuf s) (brcvcnt s) (stm_buffer s) (readbuffer s) (rdbufidx s) (rdbuflen s) (may_need_fix_filename s) (compare_variable s) (compare_operator s) (compare_expect s) (reopen_pdu s) (reopen_pdu_len s).
Definition set_need_reopen (v : Z) (s : cchan) : cchan :=
  mk_cchan (vodsvr_response s) (need_filesize s) (filesize s) v (open_errno s) (blockwant s) (blockcnt s) (filecnt s) (bufok s) (bbuf s) (brcvcnt s) (stm_buffer s) (readbuffer s) (rdbufidx s) (rdbuflen s) (may_need_fix_filename s) (compare_variable s) (compare_operator s) (compare_expect s) (reopen_pdu s) (reopen_pdu_len s).
Definition set_open_errno (v : Z) (s : cchan) : cchan :=
  mk_cchan (vodsvr_response s) (need_filesize s) (filesize s) (need_reopen s) v (blockwant s) (blockcnt s) (filecnt s) (bufok s) (bbuf s) (brcvcnt s) (stm_buffer s) (readbuffer s) (rdbufidx s) (rdbuflen s) (may_need_fix_filename s) (compare_variable s) (compare_operator s) (compare_expect s) (reopen_pdu s) (reopen_pdu_len s).
Definition set_blockwant (v : Z) (s : cchan) : cchan :=
  mk_cchan (vodsvr_response s) (need_filesize s) (filesize s) (need_reopen s) (open_errno s) v (blockcnt s) (filecnt s) (bufok s) (bbuf s) (brcvcnt s) (stm_buffer s) (readbuffer s) (rdbufidx s) (rdbuflen s) (may_need_fix_filename s) (compare_variable s) (compare_operator s) (compare_expect s) (reopen_pdu s) (reopen_pdu_len s).
Definition set_blockcnt (v : Z) (s : cchan) : cchan :=
  mk_cchan (vodsvr_response s) (need_filesize s) (filesize s) (need_reopen s) (open_errno s) (blockwant s) v (filecnt s) (bufok s) (bbuf s) (brcvcnt s) (stm_buffer s) (readbuffer s) (rdbufidx s) (rdbuflen s) (may_need_fix_filename s) (compare_variable s) (compare_operator s) (compare_expect s) (reopen_pdu s) (reopen_pdu_len s).
Definition set_filecnt (v : Z) (s : cchan) : cchan :=
  mk_cchan (vodsvr_response s) (need_filesize s) (filesize s) (need_reopen s) (open_errno s) (blockwant s) (blockcnt s) v (bufok s) (bbuf s) (brcvcnt s) (stm_buffer s) (readbuffer s) (rdbufidx s) (rdbuflen s) (may_need_fix_filename s) (compare_variable s) (compare_operator s) (compare_expect s) (reopen_pdu s) (reopen_pdu_len s).
Definition set_bufok (v : list Z) (s : cchan) : cchan :=
  mk_cchan (vodsvr_response s) (need_filesize s) (filesize s) (need_reopen s) (open_errno s) (blockwant s) (blockcnt s) (filecnt s) v (bbuf s) (brcvcnt s) (stm_buffer s) (readbuffer s) (rdbufidx s) (rdbuflen s) (may_need_fix_filename s) (compare_variable s) (compare_operator s) (compare_expect s) (reopen_pdu s) (reopen_pdu_len s).
Definition set_bbuf (v : list Z) (s : cchan) : cchan :=
  mk_cchan (vodsvr_response s) (need_filesize s) (filesize s) (need_reopen s) (open_errno s) (blockwant s) (blockcnt s) (filecnt s) (bufok s) v (brcvcnt s) (stm_buffer s) (readbuffer s) (rdbufidx s) (rdbuflen s) (may_need_fix_filename s) (compare_variable s) (compare_operator s) (compare_expect s) (reopen_pdu s) (reopen_pdu_len s).
Definition set_brcvcnt (v : Z) (s : cchan) : cchan :=
  mk_cchan (vodsvr_response s) (need_filesize s) (filesize s) (need_reopen s) (open_errno s) (blockwant s) (blockcnt s) (filecnt s) (bufok s) (bbuf s) v (stm_buffer s) (readbuffer s) (rdbufidx s) (rdbuflen s) (may_need_fix_filename s) (compare_variable s) (compare_operator s) (compare_expect s) (reopen_pdu s) (reopen_pdu_len s).
Definition set_stm_buffer (v : list Z) (s : cchan) : cchan :=
  mk_cchan (vodsvr_response s) (need_filesize s) (filesize s) (need_reopen s) (open_errno s) (blockwant s) (blockcnt s) (filecnt s) (bufok s) (bbuf s) (brcvcnt s) v (readbuffer s) (rdbufidx s) (rdbuflen s) (may_need_fix_filename s) (compare_variable s) (compare_operator s) (compare_expect s) (reopen_pdu s) (reopen_pdu_len s).
Definition set_readbuffer (v : list Z) (s : cchan) : cchan :=
  mk_cchan (vodsvr_response s) (need_filesize s) (filesize s) (need_reopen s) (open_errno s) (blockwant s) (blockcnt s) (filecnt s) (bufok s) (bbuf s) (brcvcnt s) (stm_buffer s) v (rdbufidx s) (rdbuflen s) (may_need_fix_filename s) (compare_variable s) (compare_operator s) (compare_expect s) (reopen_pdu s) (reopen_pdu_len s).
Definition set_rdbufidx (v : Z) (s : cchan) : cchan :=
  mk_cchan (vodsvr_response s) (need_filesize s) (filesize s) (need_reopen s) (open_errno s) (blockwant s) (blockcnt s) (filecnt s) (bufok s) (bbuf s) (brcvcnt s) (stm_buffer s) (readbuffer s) v (rdbuflen s) (may_need_fix_filename s) (compare_variable s) (compare_operator s) (compare_expect s) (reopen_pdu s) (reopen_pdu_len s).
Definition set_rdbuflen (v : Z) (s : cchan) : cchan :=
  mk_cchan (vodsvr_response s) (need_filesize s) (filesize s) (need_reopen s) (open_errno s) (blockwant s) (blockcnt s) (filecnt s) (bufok s) (bbuf s) (brcvcnt s) (stm_buffer s) (readbuffer s) (rdbufidx s) v (may_need_fix_filename s) (compare_variable s) (compare_operator s) (compare_expect s) (reopen_pdu s) (reopen_pdu_len s).
Definition set_may_need_fix_filename (v : Z) (s : cchan) : cchan :=
  mk_cchan (vodsvr_response s) (need_filesize s) (filesize s) (need_reopen s) (open_errno s) (blockwant s) (blockcnt s) (filecnt s) (bufok s) (bbuf s) (brcvcnt s) (stm_buffer s) (readbuffer s) (rdbufidx s) (rdbuflen s) v (compare_variable s) (compare_operator s) (compare_expect s) (reopen_pdu s) (reopen_pdu_len s).
Definition set_compare_variable (v : cmp_variable) (s : cchan) : cchan :=
  mk_cchan (vodsvr_response s) (need_filesize s) (filesize s) (need_reopen s) (open_errno s) (blockwant s) (blockcnt s) (filecnt s) (bufok s) (bbuf s) (brcvcnt s) (stm_buffer s) (readbuffer s) (rdbufidx s) (rdbuflen s) (may_need_fix_filename s) v (compare_operator s) (compare_expect s) (reopen_pdu s) (reopen_pdu_len s).
Definition set_compare_operator (v : Z) (s : cchan) : cchan :=
  mk_cchan (vodsvr_response s) (need_filesize s) (filesize s) (need_reopen s) (open_errno s) (blockwant s) (blockcnt s) (filecnt s) (bufok s) (bbuf s) (brcvcnt s) (stm_buffer s) (readbuffer s) (rdbufidx s) (rdbuflen s) (may_need_fix_filename s) (compare_variable s) v (compare_expect s) (reopen_pdu s) (reopen_pdu_len s).
Definition set_compare_expect (v : Z) (s : cchan) : cchan :=
  mk_cchan (vodsvr_response s) (need_filesize s) (filesize s) (need_reopen s) (open_errno s) (blockwant s) (blockcnt s) (filecnt s) (bufok s) (bbuf s) (brcvcnt s) (stm_buffer s) (readbuffer s) (rdbufidx s) (rdbuflen s) (may_need_fix_filename s) (compare_variable s) (compare_operator s) v (reopen_pdu s) (reopen_pdu_len s).
Definition set_reopen_pdu (v : list Z) (s : cchan) : cchan :=
  mk_cchan (vodsvr_response s) (need_filesize s) (filesize s) (need_reopen s) (open_errno s) (blockwant s) (blockcnt s) (filecnt s) (bufok s) (bbuf s) (brcvcnt s) (stm_buffer s) (readbuffer s) (rdbufidx s) (rdbuflen s) (may_need_fix_filename s) (compare_variable s) (compare_operator s) (compare_expect s) v (reopen_pdu_len s).
Definition set_reopen_pdu_len (v : Z) (s : cchan) : cchan :=
  mk_cchan (vodsvr_response s) (need_filesize s) (filesize s) (need_reopen s) (open_errno s) (blockwant s) (blockcnt s) (filecnt s) (bufok s) (bbuf s) (brcvcnt s) (stm_buffer s) (readbuffer s) (rdbufidx s) (rdbuflen s) (may_need_fix_filename s) (compare_variable s) (compare_operator s) (compare_expect s) (reopen_pdu s) v.

Section client.
Context {D : Type} `{VD : VodDirectory D}.

(** The other fields, with the static [wait_channel] of [sendto_vod] and the
    receive buffer of the response thread. *)
Record client := mk_client {
  stbid : Z;
  port : Z;
  current_VODserver : Z;
  have_VODserver : Z;
  qos_threshold : Z;
  file_server : Z;
  terminate : Z;
  cut : Z;
  udp : UDP.udplib;
  vodsvr : D;
  server_port : Z;
  chs : list cchan;
  timeout_openfile : Z;
  timeout_response : Z;
  streamming_delay : Z;
  retry_openfile : Z;
  retry_response : Z;
  curr_svr_id : Z;
  prefsvr_id : Z;
  prefsvr_divider : Z;
  wait_channel : Z;
  rxbuf : list Z;
}.
Definition set_stbid (v : Z) (s : client) : client :=
  mk_client v (port s) (current_VODserver s) (have_VODserver s) (qos_threshold s) (file_server s) (terminate s) (cut s) (udp s) (vodsvr s) (server_port s) (chs s) (timeout_openfile s) (timeout_response s) (streamming_delay s) (retry_openfile s) (retry_response s) (curr_svr_id s) (prefsvr_id s) (prefsvr_divider s) (wait_channel s) (rxbuf s).
Definition set_port (v : Z) (s : client) : client :=
  mk_client (stbid s) v (current_VODserver s) (have_VODserver s) (qos_threshold s) (file_server s) (terminate s) (cut s) (udp s) (vodsvr s) (server_port s) (chs s) (timeout_openfile s) (timeout_response s) (streamming_delay s) (retry_openfile s) (retry_response s) (curr_svr_id s) (prefsvr_id s) (prefsvr_divider s) (wait_channel s) (rxbuf s).
Definition set_current_VODserver (v : Z) (s : client) : client :=
  mk_client (stbid s) (port s) v (have_VODserver s) (qos_threshold s) (file_server s) (terminate s) (cut s) (udp s) (vodsvr s) (server_port s) (chs s) (timeout_openfile s) (timeout_response s) (streamming_delay s) (retry_openfile s) (retry_response s) (curr_svr_id s) (prefsvr_id s) (prefsvr_divider s) (wait_channel s) (rxbuf s).
Definition set_have_VODserver (v : Z) (s : client) : client :=
  mk_client (stbid s) (port s) (current_VODserver s) v (qos_threshold s) (file_server s) (terminate s) (cut s) (udp s) (vodsvr s) (server_port s) (chs s) (timeout_openfile s) (timeout_response s) (streamming_delay s) (retry_openfile s) (retry_response s) (curr_svr_id s) (prefsvr_id s) (prefsvr_divider s) (wait_channel s) (rxbuf s).
Definition set_qos_threshold (v : Z) (s : client) : client :=
  mk_client (stbid s) (port s) (current_VODserver s) (have_VODserver s) v (file_server s) (terminate s) (cut s) (udp s) (vodsvr s) (server_port s) (chs s) (timeout_openfile s) (timeout_response s) (streamming_delay s) (retry_openfile s) (retry_response s) (curr_svr_id s) (prefsvr_id s) (prefsvr_divider s) (wait_channel s) (rxbuf s).
Definition set_file_server (v : Z) (s : client) : client :=
  mk_client (stbid s) (port s) (current_VODserver s) (have_VODserver s) (qos_threshold s) v (terminate s) (cut s) (udp s) (vodsvr s) (server_port s) (chs s) (timeout_openfile s) (timeout_response s) (streamming_delay s) (retry_openfile s) (retry_response s) (curr_svr_id s) (prefsvr_id s) (prefsvr_divider s) (wait_channel s) (rxbuf s).
Definition set_terminate (v : Z) (s : client) : client :=
  mk_client (stbid s) (port s) (current_VODserver s) (have_VODserver s) (qos_threshold s) (file_server s) v (cut s) (udp s) (vodsvr s) (server_port s) (chs s) (timeout_openfile s) (timeout_response s) (streamming_delay s) (retry_openfile s) (retry_response s) (curr_svr_id s) (prefsvr_id s) (prefsvr_divider s) (wait_channel s) (rxbuf s).
Definition set_cut (v : Z) (s : client) : client :=
  mk_client (stbid s) (port s) (current_VODserver s) (have_VODserver s) (qos_threshold s) (file_server s) (terminate s) v (udp s) (vodsvr s) (server_port s) (chs s) (timeout_openfile s) (timeout_response s) (streamming_delay s) (retry_openfile s) (retry_response s) (curr_svr_id s) (prefsvr_id s) (prefsvr_divider s) (wait_channel s) (rxbuf s).
Definition set_udp (v : UDP.udplib) (s : client) : client :=
  mk_client (stbid s) (port s) (current_VODserver s) (have_VODserver s) (qos_threshold s) (file_server s) (terminate s) (cut s) v (vodsvr s) (server_port s) (chs s) (timeout_openfile s) (timeout_response s) (streamming_delay s) (retry_openfile s) (retry_response s) (curr_svr_id s) (prefsvr_id s) (prefsvr_divider s) (wait_channel s) (rxbuf s).
Definition set_vodsvr (v : D) (s : client) : client :=
  mk_client (stbid s) (port s) (current_VODserver s) (have_VODserver s) (qos_threshold s) (file_server s) (terminate s) (cut s) (udp s) v (server_port s) (chs s) (timeout_openfile s) (timeout_response s) (streamming_delay s) (retry_openfile s) (retry_response s) (curr_svr_id s) (prefsvr_id s) (prefsvr_divider s) (wait_channel s) (rxbuf s).
Definition set_server_port (v : Z) (s : client) : client :=
  mk_client (stbid s) (port s) (current_VODserver s) (have_VODserver s) (qos_threshold s) (file_server s) (terminate s) (cut s) (udp s) (vodsvr s) v (chs s) (timeout_openfile s) (timeout_response s) (streamming_delay s) (retry_openfile s) (retry_response s) (curr_svr_id s) (prefsvr_id s) (prefsvr_divider s) (wait_channel s) (rxbuf s).
Definition set_chs (v : list cchan) (s : client) : client :=
  mk_client (stbid s) (port s) (current_VODserver s) (have_VODserver s) (qos_threshold s) (file_server s) (terminate s) (cut s) (udp s) (vodsvr s) (server_port s) v (timeout_openfile s) (timeout_response s) (streamming_delay s) (retry_openfile s) (retry_response s) (curr_svr_id s) (prefsvr_id s) (prefsvr_divider s) (wait_channel s) (rxbuf s).
Definition set_timeout_openfile (v : Z) (s : client) : client :=
  mk_client (stbid s) (port s) (current_VODserver s) (have_VODserver s) (qos_threshold s) (file_server s) (terminate s) (cut s) (udp s) (vodsvr s) (server_port s) (chs s) v (timeout_response s) (streamming_delay s) (retry_openfile s) (retry_response s) (curr_svr_id s) (prefsvr_id s) (prefsvr_divider s) (wait_channel s) (rxbuf s).
Definition set_timeout_response (v : Z) (s : client) : client :=
  mk_client (stbid s) (port s) (current_VODserver s) (have_VODserver s) (qos_threshold s) (file_server s) (terminate s) (cut s) (udp s) (vodsvr s) (server_port s) (chs s) (timeout_openfile s) v (streamming_delay s) (retry_openfile s) (retry_response s) (curr_svr_id s) (prefsvr_id s) (prefsvr_divider s) (wait_channel s) (rxbuf s).
Definition set_streamming_delay (v : Z) (s : client) : client :=
  mk_client (stbid s) (port s) (current_VODserver s) (have_VODserver s) (qos_threshold s) (file_server s) (terminate s) (cut s) (udp s) (vodsvr s) (server_port s) (chs s) (timeout_openfile s) (timeout_response s) v (retry_openfile s) (retry_response s) (curr_svr_id s) (prefsvr_id s) (prefsvr_divider s) (wait_channel s) (rxbuf s).
Definition set_retry_openfile (v : Z) (s : client) : client :=
  mk_client (stbid s) (port s) (current_VODserver s) (have_VODserver s) (qos_threshold s) (file_server s) (terminate s) (cut s) (udp s) (vodsvr s) (server_port s) (chs s) (timeout_openfile s) (timeout_response s) (streamming_delay s) v (retry_response s) (curr_svr_id s) (prefsvr_id s) (prefsvr_divider s) (wait_channel s) (rxbuf s).
Definition set_retry_response (v : Z) (s : client) : client :=
  mk_client (stbid s) (port s) (current_VODserver s) (have_VODserver s) (qos_threshold s) (file_server s) (terminate s) (cut s) (udp s) (vodsvr s) (server_port s) (chs s) (timeout_openfile s) (timeout_response s) (streamming_delay s) (retry_openfile s) v (curr_svr_id s) (prefsvr_id s) (prefsvr_divider s) (wait_channel s) (rxbuf s).
Definition set_curr_svr_id (v : Z) (s : client) : client :=
  mk_client (stbid s) (port s) (current_VODserver s) (have_VODserver s) (qos_threshold s) (file_server s) (terminate s) (cut s) (udp s) (vodsvr s) (server_port s) (chs s) (timeout_openfile s) (timeout_response s) (streamming_delay s) (retry_openfile s) (retry_response s) v (prefsvr_id s) (prefsvr_divider s) (wait_channel s) (rxbuf s).
Definition set_prefsvr_id (v : Z) (s : client) : client :=
  mk_client (stbid s) (port s) (current_VODserver s) (have_VODserver s) (qos_threshold s) (file_server s) (terminate s) (cut s) (udp s) (vodsvr s) (server_port s) (chs s) (timeout_openfile s) (timeout_response s) (streamming_delay s) (retry_openfile s) (retry_response s) (curr_svr_id s) v (prefsvr_divider s) (wait_channel s) (rxbuf s).
Definition set_prefsvr_divider (v : Z) (s : client) : client :=
  mk_client (stbid s) (port s) (current_VODserver s) (have_VODserver s) (qos_threshold s) (file_server s) (terminate s) (cut s) (udp s) (vodsvr s) (server_port s) (chs s) (timeout_openfile s) (timeout_response s) (streamming_delay s) (retry_openfile s) (retry_response s) (curr_svr_id s) (prefsvr_id s) v (wait_channel s) (rxbuf s).
Definition set_wait_channel (v : Z) (s : client) : client :=
  mk_client (stbid s) (port s) (current_VODserver s) (have_VODserver s) (qos_threshold s) (file_server s) (terminate s) (cut s) (udp s) (vodsvr s) (server_port s) (chs s) (timeout_openfile s) (timeout_response s) (streamming_delay s) (retry_openfile s) (retry_response s) (curr_svr_id s) (prefsvr_id s) (prefsvr_divider s) v (rxbuf s).
Definition set_rxbuf (v : list Z) (s : client) : client :=
  mk_client (stbid s) (port s) (current_VODserver s) (have_VODserver s) (qos_threshold s) (file_server s) (terminate s) (cut s) (udp s) (vodsvr s) (server_port s) (chs s) (timeout_openfile s) (timeout_response s) (streamming_delay s) (retry_openfile s) (retry_response s) (curr_svr_id s) (prefsvr_id s) (prefsvr_divider s) (wait_channel s) v.


Definition get_ch (s : client) (ch : Z) : outcome cchan := aget (chs s) ch.
Definition put_ch (s : client) (ch : Z) (c : cchan) : outcome client :=
  let* l := aset (chs s) ch c in Ret (set_chs l s).

(** [ntohl (udp->get_remote (udp)) % pd->prefsvr_divider], an unsigned value. *)
Definition remote_id (s : client) : outcome Z :=
  let dv := u32 (prefsvr_divider s) in
  if dv =? 0 then Fault DivByZero else Ret (UDP.ntohl (UDP.udplib_get_remote (udp s)) mod dv).

(** [udp->send] of the received PDU turned into a registration request. *)
Definition ask_regist (s : client) (len : Z) : client :=
  let b := seal (put32 (rxbuf s) o_cmd PDU_REGIST) len in
  set_udp (UDP.udplib_send (udp s) b len) (set_rxbuf b s).

Definition on_need_regist (s : client) : outcome client :=
  let* r := vd_add (vodsvr s) (UDP.udplib_get_remote (udp s)) in
  let '(vi, d) := r in
  let s1 := set_vodsvr d s in
  if current_VODserver s1 =? vi then
    let* r2 := vd_unset_registcode d vi in
    Ret (set_have_VODserver 0 (set_current_VODserver (-1) (set_vodsvr (snd r2) s1)))
  else Ret s1.

Definition on_findserver (s : client) (len : Z) : outcome client :=
  let* r := vd_add (vodsvr s) (UDP.udplib_get_remote (udp s)) in
  let '(vi, d) := r in
  let s1 := set_vodsvr d s in
  if vi <? 0 then Ret s1
  else if current_VODserver s1 <? 0 then Ret (ask_regist s1 len)
  else if negb (curr_svr_id s1 =? prefsvr_id s1) then
    let* id := remote_id s1 in
    if u32 (curr_svr_id s1) =? id then Ret (ask_regist s1 len) else Ret s1
  else Ret s1.

(** The server becomes the current one. *)
Definition take_server (s : client) (vi i threshold : Z) : outcome client :=
  let* p := UDP.udplib_udp_port (udp s) i in
  let* id := remote_id s in
  Ret (set_file_server (to_int id) (set_curr_svr_id (to_int id) (set_server_port p
        (set_qos_threshold threshold (set_have_VODserver 1 (set_current_VODserver vi s)))))).

Definition on_regist (s : client) : outcome client :=
  let* r := UDP.udplib_regist_rmaddr (udp s) in
  let '(i, u) := r in
  let* r2 := vd_set_registcode (vodsvr s) (UDP.udplib_get_remote u) (i32_at (rxbuf s) o_sn) i in
  let '(vi, d) := r2 in
  let s1 := set_vodsvr d (set_udp u s) in
  let threshold := i32_at (rxbuf s) o_threshold in
  if current_VODserver s1 <? 0 then take_server s1 vi i threshold
  else if negb (curr_svr_id s1 =? prefsvr_id s1) then
    let* id := remote_id s1 in
    if u32 (curr_svr_id s1) =? id then take_server s1 vi i threshold else Ret s1
  else Ret s1.

(** Lines 233-245: the server may have replaced the file name. *)
Definition fix_filename (b : list Z) (c : cchan) : outcome cchan :=
  if may_need_fix_filename c =? 0 then Ret c
  else
    let c1 := set_may_need_fix_filename 0 c in
    if u8_at b o_file =? 0 then Ret c1
    else match cstr_at b o_file with
         | None => Fault OutOfBounds
         | Some name =>
             let* p := blit (reopen_pdu c1) o_file (name ++ [0]) in Ret (set_reopen_pdu p c1)
         end.

Definition on_openfile (s : client) : outcome client :=
  let b := rxbuf s in
  let ch := char_at b o_channel in
  let* c := get_ch s ch in
  let* c1 := (if need_filesize c =? 0 then Ret c
              else
                let fs := i32_at b o_filesize in
                fix_filename b (set_need_reopen 0 (set_need_filesize 0
                  (set_filesize (if fs =? 0 then -1 else fs) c)))) in
  put_ch s ch (set_open_errno (i32_at b o_err) c1).

(** [(fdtptr->h.block == pd->blockwant[channel]) && (... filecnt ...)]. *)
Definition matches (b : list Z) (c : cchan) : bool :=
  (u32_at b o_block =? blockwant c) && (u32_at b o_filecnt =? filecnt c).

Definition on_fetch_response (s : client) : outcome client :=
  let ch := char_at (rxbuf s) o_channel in
  let* c := get_ch s ch in
  if matches (rxbuf s) c then put_ch s ch (set_vodsvr_response 1 c) else Ret s.

Definition on_need_reopen (s : client) : outcome client :=
  let ch := char_at (rxbuf s) o_channel in
  let* c := get_ch s ch in
  if matches (rxbuf s) c then put_ch s ch (set_need_reopen 1 c) else Ret s.

(** Lines 308-325: one data packet of the wanted block. *)
Definition store_packet (b : list Z) (c : cchan) : outcome cchan :=
  let i := i32_at b o_bid in
  let len := i32_at b o_len in
  let* ok := aget (bufok c) i in
  if ok =? 1 then
    let* oks := aset (bufok c) i 0 in
    let c1 := set_stm_buffer (put8 (stm_buffer c) (o_map + i) 0) (set_bufok oks c) in
    if (0 <=? len) && (o_data + len <=? zlen b) then
      let* bb := blit (bbuf c1) (STB.PKT * i) (slice b o_data len) in
      let* cnt := ck (brcvcnt c1 - 1) in
      Ret (set_brcvcnt cnt (set_bbuf bb c1))
    else Fault OutOfBounds
  else Ret c.

Definition on_fetch (s : client) : outcome client :=
  let ch := char_at (rxbuf s) o_channel in
  let* c := get_ch s ch in
  if matches (rxbuf s) c then
    let* c' := store_packet (rxbuf s) (set_vodsvr_response 1 c) in put_ch s ch c'
  else Ret s.

(** The body of the loop of [streamio_v3_response] for the datagram [d] from [a]. *)
Definition response (s : client) (a : UDP.sockaddr) (d : list Z) : outcome client :=
  let '(len, b, u) := UDP.udplib_receive (udp s) (rxbuf s) a d in
  let s1 := set_udp u (set_rxbuf b s) in
  if len =? 0 then Ret s1
  else if negb (cksum_ok b len) then Ret s1
  else
    let cmd := i32_at b o_cmd in
    if cmd =? PDU_NEED_REGIST then on_need_regist s1
    else if cmd =? PDU_FINDSERVER then on_findserver s1 len
    else if cmd =? PDU_REGIST then on_regist s1
    else if cmd =? PDU_OPENFILE then on_openfile s1
    else if cmd =? PDU_FETCH_RESPONSE then on_fetch_response s1
    else if cmd =? PDU_NEED_REOPEN then on_need_reopen s1
    else if (cmd =? PDU_FAST_FETCH) || (cmd =? PDU_FETCH) then on_fetch s1
    else Ret s1.

(** ** Invariant *)

(** How many packets are marked as missing. *)
Definition ones (l : list Z) : Z := zlen (filter (fun x => x = 1) l).

Record chan_ok (c : cchan) : Prop := {
  co_bufok : zlen (bufok c) = STB.NPKT;
  co_bbuf : zlen (bbuf c) = STB.PKT * STB.NPKT;
  co_stm : zlen (stm_buffer c) = 2000;
  co_reopen : zlen (reopen_pdu c) = 256;
  co_cnt : INT_MIN <= brcvcnt c - ones (bufok c);
  co_cnt' : brcvcnt c <= INT_MAX;
}.

Record cli_ok (s : client) : Prop := {
  cl_rx : zlen (rxbuf s) = 2000;
  cl_vd : vd_ok (vodsvr s);
  cl_book : UDP.book_ok (udp s);
  cl_div : 0 < prefsvr_divider s <= INT_MAX;
  cl_chs : zlen (chs s) = STB.MAX_STIOV3_CHANNEL;
  cl_ch : Forall chan_ok (chs s);
}.

(** A PDU whose channel, packet number, lengths and file name are in range; the
    code trusts the network on these. *)
Record pdu_ok (b : list Z) : Prop := {
  po_ch : i32_at b o_cmd ∈ [PDU_OPENFILE; PDU_FETCH_RESPONSE; PDU_NEED_REOPEN; PDU_FAST_FETCH; PDU_FETCH] ->
    0 <= char_at b o_channel < STB.MAX_STIOV3_CHANNEL;
  po_name : i32_at b o_cmd = PDU_OPENFILE ->
    exists name, cstr_at b o_file = Some name /\ zlen name < 226;
  po_data : i32_at b o_cmd ∈ [PDU_FAST_FETCH; PDU_FETCH] ->
    0 <= i32_at b o_bid < STB.NPKT /\ 0 <= i32_at b o_len <= STB.PKT;
}.
Definition dgram_ok (d : list Z) : Prop :=
  zlen d <= 2000 /\ forall buf, zlen buf = 2000 -> pdu_ok (rx buf d).

(** What a datagram may do to a channel: nothing to the block being received,
    or store a packet of it. *)
Record same_rx (b : list Z) (k : nat) (c c' : cchan) : Prop := {
  sr_blockwant : blockwant c' = blockwant c;
  sr_filecnt : filecnt c' = filecnt c;
  sr_bufok : bufok c' = bufok c;
  sr_bbuf : bbuf c' = bbuf c;
  sr_brcvcnt : brcvcnt c' = brcvcnt c;
  sr_readbuffer : readbuffer c' = readbuffer c;
  sr_rdbufidx : rdbufidx c' = rdbufidx c;
  sr_rdbuflen : rdbuflen c' = rdbuflen c;
  sr_cvar : compare_variable c' = compare_variable c;
  sr_cop : compare_operator c' = compare_operator c;
  sr_cexp : compare_expect c' = compare_expect c;
  sr_resp : vodsvr_response c = 1 -> vodsvr_response c' = 1;
  sr_blockcnt : blockcnt c' = blockcnt c;
  sr_filesize : need_filesize c' = need_filesize c /\ filesize c' = filesize c \/
    need_filesize c <> 0 /\ i32_at b o_cmd = PDU_OPENFILE /\ Z.of_nat k = char_at b o_channel /\
    need_filesize c' = 0 /\
    filesize c' = (if i32_at b o_filesize =? 0 then -1 else i32_at b o_filesize);
}.
Definition stores (b : list Z) (k : nat) (c c' : cchan) : Prop :=
  i32_at b o_cmd ∈ [PDU_FAST_FETCH; PDU_FETCH] /\ Z.of_nat k = char_at b o_channel /\
  matches b c = true /\ store_packet b (set_vodsvr_response 1 c) = Ret c'.
Definition chan_step (b : list Z) (k : nat) (c c' : cchan) : Prop :=
  same_rx b k c c' \/ stores b k c c'.
Definition steps (b : list Z) (l l' : list cchan) : Prop :=
  length l' = length l /\
  forall k c, l !! k = Some c -> exists c', l' !! k = Some c' /\ chan_step b k c c'.

Lemma same_rx_refl b k c : same_rx b k c c.
Proof. split; (done || by left). Qed.

Lemma steps_refl b l : steps b l l.
Proof. split; [done|]. intros k c Hk. exists c. split; [done|]. left. apply same_rx_refl. Qed.

Lemma steps_put b l (k : nat) c c' :
  l !! k = Some c -> chan_step b k c c' -> steps b l (<[k := c']> l).
Proof.
  intros Hk Hs. split; [by rewrite length_insert|]. intros j x Hx.
  apply lookup_lt_Some in Hk as ?. destruct (decide (k = j)) as [<-|Hne].
  - exists c'. rewrite list_lookup_insert_eq by done. by simplify_eq.
  - exists x. rewrite list_lookup_insert_ne by done. split; [done|]. left. apply same_rx_refl.
Qed.

Lemma get_put s ch c c' :
  chs s !! Z.to_nat ch = Some c -> 0 <= ch ->
  get_ch s ch = Ret c /\ put_ch s ch c' = Ret (set_chs (<[Z.to_nat ch := c']> (chs s)) s).
Proof.
  intros Hc H0. apply lookup_lt_Some in Hc as Hlt. unfold get_ch, put_ch. split; [by apply aget_Some|].
  by rewrite aset_Ret by (unfold zlen; lia).
Qed.

Lemma get_ch_ok s ch : cli_ok s -> 0 <= ch < STB.MAX_STIOV3_CHANNEL ->
  exists c, get_ch s ch = Ret c /\ chs s !! Z.to_nat ch = Some c /\ chan_ok c.
Proof.
  intros I H. destruct (aget_lt (chs s) ch) as (c & Hg & Hc); [by rewrite (cl_chs _ I)|].
  exists c. split_and!; [done..|]. eapply Forall_lookup_1; [apply I|done].
Qed.

Lemma cli_ok_put s ch c : cli_ok s -> chan_ok c -> cli_ok (set_chs (<[Z.to_nat ch := c]> (chs s)) s).
Proof.
  intros [] Hc. split; simpl; try done; [by rewrite zlen_insert|]. by apply Forall_insert.
Qed.

(** The book, directory and channels of the state a handler starts from. *)
Lemma ones_insert l (i : nat) : l !! i = Some 1 -> ones (<[i := 0]> l) = ones l - 1.
Proof.
  unfold ones. revert i. induction l as [|x l IH]; intros [|i] H; simplify_eq/=.
  - rewrite !filter_cons. simpl. rewrite zlen_cons. lia.
  - rewrite !filter_cons. case_decide; rewrite ?zlen_cons, (IH _ H); lia.
Qed.

Lemma ones_bounds l : 0 <= ones l <= zlen l.
Proof. unfold ones, zlen. pose proof (length_filter (fun x => x = 1) l). lia. Qed.

(** Storing a packet that is in range cannot fault. *)
Lemma store_packet_run b c :
  zlen b = 2000 -> chan_ok c -> 0 <= i32_at b o_bid < STB.NPKT -> 0 <= i32_at b o_len <= STB.PKT ->
  let i := i32_at b o_bid in
  exists c', store_packet b c = Ret c' /\ chan_ok c' /\
    blockwant c' = blockwant c /\ filecnt c' = filecnt c /\ readbuffer c' = readbuffer c /\
    rdbufidx c' = rdbufidx c /\ rdbuflen c' = rdbuflen c /\ compare_variable c' = compare_variable c /\
    compare_operator c' = compare_operator c /\ compare_expect c' = compare_expect c /\
    vodsvr_response c' = vodsvr_response c /\
    brcvcnt c' - ones (bufok c') = brcvcnt c - ones (bufok c) /\
    (bufok c !! Z.to_nat i = Some 1 /\ bufok c' = <[Z.to_nat i := 0]> (bufok c) /\
       bbuf c' = patch (bbuf c) (STB.PKT * i) (slice b o_data (i32_at b o_len)) \/
     bufok c !! Z.to_nat i <> Some 1 /\ c' = c).
Proof.
  intros Hb [H1 H2 H3 H4 H5 H6] Hi Hl i. unfold store_packet. fold i.
  destruct (aget_lt (bufok c) i) as (v & Hv & Hlk); [by rewrite H1|]. rewrite Hv. cbn [obind].
  destruct (Z.eqb_spec v 1) as [->|Hne].
  2:{ exists c. split_and!; try done. right. split; [|done]. rewrite Hlk. congruence. }
  rewrite aset_Ret by (by rewrite H1). cbn [obind].
  rewrite (proj2 (Z.leb_le 0 (i32_at b o_len))), (proj2 (Z.leb_le (o_data + _) _)) by (unfold STB.PKT in *; fld).
  cbn [andb bbuf set_stm_buffer set_bufok brcvcnt]. set (new := slice b o_data _).
  assert (zlen new = i32_at b o_len) as Hn by (apply zlen_slice; unfold STB.PKT in *; fld).
  rewrite blit_patch by (rewrite ?Hn, ?H2; unfold STB.PKT, STB.NPKT in *; lia). cbn [obind].
  pose proof (ones_insert _ _ Hlk) as Ho. pose proof (ones_bounds (<[Z.to_nat i := 0]> (bufok c))).
  rewrite ck_Ret by int_lia. cbn [obind]. eexists. split; [done|]. simpl. split_and!; try done.
  - split; simpl; try done.
    + by rewrite zlen_insert.
    + rewrite zlen_patch; rewrite ?Hn, ?H2; unfold STB.PKT, STB.NPKT in *; lia.
    + unfold put8. rewrite zlen_patch; [done|unfold o_map; lia|]. rewrite zlen_cons, zlen_nil.
      unfold o_map, STB.NPKT in *. lia.
    + lia.
    + int_lia.
  - lia.
  - left. split_and!; [by f_equal|done..].
Qed.

Lemma store_packet_frame b c c' : store_packet b c = Ret c' ->
  blockcnt c' = blockcnt c /\ need_filesize c' = need_filesize c /\ filesize c' = filesize c.
Proof.
  unfold store_packet. intros Hs. apply obind_Ret_inv in Hs as (ok & _ & Hs).
  destruct (ok =? 1); [|by injection Hs as <-]. apply obind_Ret_inv in Hs as (oks & _ & Hs).
  case_match; [|done]. apply obind_Ret_inv in Hs as (bb & _ & Hs). apply obind_Ret_inv in Hs as (n & _ & Hs).
  by injection Hs as <-.
Qed.

(** The result every handler must have. *)
Definition handled (s : client) (m : outcome client) : Prop :=
  exists s', m = Ret s' /\ cli_ok s' /\ steps (rxbuf s) (chs s) (chs s') /\ cut s' = cut s.

Lemma handled_same s s' :
  cli_ok s' -> chs s' = chs s -> cut s' = cut s -> handled s (Ret s').
Proof. intros I E Hc. exists s'. rewrite E. split_and!; [done..|apply steps_refl|done]. Qed.

Lemma handled_put s ch c c' :
  cli_ok s -> chs s !! Z.to_nat ch = Some c -> 0 <= ch -> chan_ok c' ->
  chan_step (rxbuf s) (Z.to_nat ch) c c' -> handled s (put_ch s ch c').
Proof.
  intros I Hc H0 Hok Hst. rewrite (proj2 (get_put s ch c c' Hc H0)).
  eexists. split_and!; [done|by apply cli_ok_put|by apply steps_put with c|done].
Qed.

Lemma remote_id_run s : cli_ok s -> exists id, remote_id s = Ret id.
Proof.
  intros I. destruct (cl_div _ I). unfold remote_id.
  rewrite u32_id by (unfold INT_MAX in *; lia). rewrite (proj2 (Z.eqb_neq _ 0)) by lia. eauto.
Qed.

Lemma ask_regist_ok s len : cli_ok s -> cli_ok (ask_regist s len).
Proof.
  intros [H1 H2 [B1 B2] H4 H5 H6]. split; simpl; try done.
  rewrite zlen_seal; rewrite zlen_put32; fld.
Qed.

Lemma on_need_regist_ok s : cli_ok s -> handled s (on_need_regist s).
Proof.
  intros I. unfold on_need_regist.
  destruct (vd_add_ok _ (UDP.udplib_get_remote (udp s)) (cl_vd _ I)) as (vi & d & -> & Hd & _). cbn [obind].
  destruct (current_VODserver _ =? vi).
  - destruct (vd_unset_ok _ vi Hd) as (rc & d' & -> & Hd' & _). cbn [obind snd].
    apply handled_same; [|done..]. destruct I. by split.
  - apply handled_same; [|done..]. destruct I. by split.
Qed.

Lemma on_findserver_ok s len : cli_ok s -> handled s (on_findserver s len).
Proof.
  intros I. unfold on_findserver.
  destruct (vd_add_ok _ (UDP.udplib_get_remote (udp s)) (cl_vd _ I)) as (vi & d & -> & Hd & _). cbn [obind].
  assert (cli_ok (set_vodsvr d s)) as I1 by (destruct I; by split).
  destruct (remote_id_run _ I1) as [id Hid].
  repeat case_match; rewrite ?Hid; cbn [obind]; try case_match;
    apply handled_same; try done; by apply ask_regist_ok.
Qed.

Lemma take_server_ok s vi i th : cli_ok s -> exists s', take_server s vi i th = Ret s' /\ cli_ok s' /\
  chs s' = chs s /\ cut s' = cut s /\ current_VODserver s' = vi /\ vodsvr s' = vodsvr s /\ udp s' = udp s.
Proof.
  intros I. unfold take_server, UDP.udplib_udp_port.
  assert (exists p, (if UDP.in_list (udp s) i then let* p := aget (UDP.addrlist (udp s)) i in Ret (UDP.htons (UDP.sin_port (UDP.sa p))) else Ret 0) = Ret p)
    as [p ->].
  { destruct (UDP.in_list (udp s) i) eqn:E; [|eauto]. unfold UDP.in_list in E.
    apply andb_true_iff in E as [E1%Z.leb_le E2%Z.ltb_lt]. rewrite (UDP.bo_len _ (cl_book _ I)) in E2.
    destruct (aget_lt (UDP.addrlist (udp s)) i) as (x & -> & _); [lia|]. simpl. eauto. }
  cbn [obind]. destruct (remote_id_run _ I) as [id ->]. cbn [obind].
  eexists. split; [done|]. split_and!; [destruct I; by split|done..].
Qed.

Lemma on_regist_ok s : cli_ok s -> handled s (on_regist s).
Proof.
  intros I. unfold on_regist.
  destruct (UDP.regist_rmaddr_cases _ (cl_book _ I)) as (i & u & -> & Bu & _). cbn [obind].
  destruct (vd_set_ok _ (UDP.udplib_get_remote u) (i32_at (rxbuf s) o_sn) i (cl_vd _ I)) as (vi & d & -> & Hd & _). cbn [obind].
  set (s1 := set_vodsvr d (set_udp u s)).
  assert (cli_ok s1) as I1 by (destruct I; by split).
  destruct (take_server_ok s1 vi i (i32_at (rxbuf s) o_threshold) I1) as (s2 & Hs2 & I2 & Hch & Hcut & _).
  destruct (remote_id_run _ I1) as [id Hid].
  repeat case_match; rewrite ?Hid, ?Hs2; cbn [obind]; try case_match; rewrite ?Hs2; apply handled_same; done.
Qed.

Lemma fix_filename_run b c :
  (exists name, cstr_at b o_file = Some name /\ zlen name < 226) -> chan_ok c ->
  exists c', fix_filename b c = Ret c' /\ chan_ok c' /\ (forall b k, same_rx b k c c') /\
    need_filesize c' = need_filesize c /\ filesize c' = filesize c.
Proof.
  intros (name & Hn & Hl) [H1 H2 H3 H4 H5 H6]. unfold fix_filename. destruct (may_need_fix_filename c =? 0).
  { exists c. split_and!; try done. intros. apply same_rx_refl. }
  destruct (u8_at b o_file =? 0).
  { eexists. split_and!; [done|by split|split; (done || by left)|done..]. }
  rewrite Hn. cbn [reopen_pdu set_may_need_fix_filename].
  assert (zlen (name ++ [0]) = zlen name + 1) as Hz by (by rewrite zlen_app).
  pose proof (zlen_nonneg name).
  rewrite blit_patch by (rewrite ?Hz, ?H4; fld). cbn [obind].
  eexists. split_and!; [done| |split; (done || by left)|done..]. split; simpl; try done.
  rewrite zlen_patch; rewrite ?Hz, ?H4; fld.
Qed.

Lemma on_openfile_ok s : cli_ok s -> pdu_ok (rxbuf s) -> i32_at (rxbuf s) o_cmd = PDU_OPENFILE ->
  handled s (on_openfile s).
Proof.
  intros I P Hcmd. unfold on_openfile.
  destruct (get_ch_ok s (char_at (rxbuf s) o_channel) I) as (c & -> & Hc & Hok).
  { apply P. rewrite Hcmd. set_solver. }
  assert (0 <= char_at (rxbuf s) o_channel) by (apply P; rewrite Hcmd; set_solver).
  cbn [obind]. destruct (Z.eqb_spec (need_filesize c) 0) as [Hn|Hn]; cbn [obind].
  { eapply handled_put; [done..| |]; [destruct Hok; by split|left; split; (done || by left)]. }
  match goal with |- context [fix_filename _ ?x] =>
    destruct (fix_filename_run (rxbuf s) x) as (c' & -> & Hok' & Hsame & Hnf & Hfs) end.
  { by apply P. }
  { destruct Hok. by split. }
  cbn [obind]. eapply handled_put; [done..| |]; [destruct Hok'; by split|left].
  destruct (Hsame (rxbuf s) 0%nat). split; simpl in *; try done. right.
  split_and!; [done|done|by rewrite Z2Nat.id|done|done].
Qed.

Lemma on_flag_ok s (f : cchan -> cchan) :
  cli_ok s -> 0 <= char_at (rxbuf s) o_channel < STB.MAX_STIOV3_CHANNEL ->
  (forall c, chan_ok c -> chan_ok (f c)) -> (forall b k c, same_rx b k c (f c)) ->
  handled s (let* c := get_ch s (char_at (rxbuf s) o_channel) in
             if matches (rxbuf s) c then put_ch s (char_at (rxbuf s) o_channel) (f c) else Ret s).
Proof.
  intros I H Hf Hs. destruct (get_ch_ok s _ I H) as (c & -> & Hc & Hok). cbn [obind].
  destruct (matches (rxbuf s) c); [|by apply handled_same].
  eapply handled_put; [done|done|lia|by apply Hf|left; apply Hs].
Qed.

Lemma on_fetch_ok s : cli_ok s -> pdu_ok (rxbuf s) ->
  i32_at (rxbuf s) o_cmd ∈ [PDU_FAST_FETCH; PDU_FETCH] -> handled s (on_fetch s).
Proof.
  intros I P Hcmd. unfold on_fetch.
  assert (0 <= char_at (rxbuf s) o_channel < STB.MAX_STIOV3_CHANNEL) as Hch by (apply P; set_solver).
  destruct (get_ch_ok s _ I Hch) as (c & -> & Hc & Hok). cbn [obind].
  destruct (matches (rxbuf s) c) eqn:Hm; [|by apply handled_same].
  destruct (po_data _ P Hcmd) as [Hi Hl].
  destruct (store_packet_run (rxbuf s) (set_vodsvr_response 1 c)) as (c' & Hst & Hok' & _);
    [apply I|destruct Hok; by split|done..|].
  rewrite Hst. cbn [obind]. eapply handled_put; [done|done|lia|done|].
  right. split_and!; [done|rewrite Z2Nat.id by lia; done|done..].
Qed.

(** A datagram in range never makes the response thread fault, keeps the
    client's invariant, and touches a block being received only by storing a
    packet of it. *)
Lemma response_ok s a d : cli_ok s -> dgram_ok d ->
  exists s', response s a d = Ret s' /\ cli_ok s' /\ steps (rx (rxbuf s) d) (chs s) (chs s') /\
    cut s' = cut s.
Proof.
  intros I [Hl Hp]. specialize (Hp _ (cl_rx _ I)). unfold response, UDP.udplib_receive.
  fold (rx (rxbuf s) d). set (s1 := set_udp _ _).
  assert (cli_ok s1) as I1.
  { destruct I as [H1 H2 [B1 B2] H4 H5 H6]. split; simpl; try done. by rewrite zlen_rx. }
  change (pdu_ok (rxbuf s1)) in Hp.
  change (handled s1 (if zlen (take (length (rxbuf s)) d) =? 0 then Ret s1 else
    if negb (cksum_ok (rxbuf s1) (zlen (take (length (rxbuf s)) d))) then Ret s1 else
    let cmd := i32_at (rxbuf s1) o_cmd in
    if cmd =? PDU_NEED_REGIST then on_need_regist s1
    else if cmd =? PDU_FINDSERVER then on_findserver s1 (zlen (take (length (rxbuf s)) d))
    else if cmd =? PDU_REGIST then on_regist s1
    else if cmd =? PDU_OPENFILE then on_openfile s1
    else if cmd =? PDU_FETCH_RESPONSE then on_fetch_response s1
    else if cmd =? PDU_NEED_REOPEN then on_need_reopen s1
    else if (cmd =? PDU_FAST_FETCH) || (cmd =? PDU_FETCH) then on_fetch s1
    else Ret s1)). cbv zeta.
  repeat match goal with |- handled _ (if ?x then _ else _) => destruct x eqn:?E end;
    try (by apply handled_same); rewrite ?orb_true_iff, ?Z.eqb_eq in *.
  - by apply on_need_regist_ok.
  - by apply on_findserver_ok.
  - by apply on_regist_ok.
  - by apply on_openfile_ok.
  - apply (on_flag_ok s1 (set_vodsvr_response 1)); [done| |intros c []; by split|split; (done || by left)].
    apply Hp. set_solver.
  - apply (on_flag_ok s1 (set_need_reopen 1)); [done| |intros c []; by split|split; (done || by left)].
    apply Hp. set_solver.
  - apply on_fetch_ok; [done..|]. set_solver.
Qed.
End client.
End CLI.
