(* ===== verification/StioRead.v ===== *)
(** * StioRead.v: the requesting side of the stream client, streamio_v3/src.client/internal.c,
      streamio_v3/client.c and streamio_v3/src.client/stio_eng.c

    A caller sends a request and waits on its channel's condition variable until
    the response thread (StioClient.v) has changed the variable it watches, or
    the wait times out.  What happens during the waits is given by an [env]:
    one [turn] per wait, with the datagrams the response thread handles meanwhile
    and whether the wait ends by a timeout.  A call that would wait when no turn
    is left is [Block].  Theorems quantify over the environment: over
    every order, loss, repetition and delay of datagrams. *)

From S2P Require Import Prelude Interfaces Posix Udp Wire VodTable StbTable StioClient.

Module RD.
Import CLI.

Record turn := mk_turn { t_dgrams : list (UDP.sockaddr * list Z); t_timeout : bool }.
Definition env := list turn.

Definition CMP_GT : Z := 1.
Definition CMP_GE : Z := 2.
Definition CMP_LT : Z := 3.
Definition CMP_LE : Z := 4.
Definition CMP_EQ : Z := 5.
Definition CMP_NE : Z := 6.
Definition PUBLIC_CHANNEL : Z := 4.

(** Which PDU of a channel is sent: [stmpdu[channel]] or [reopen_pdu[channel]]. *)
Inductive pdu_ref := Stm | Reopen.

Section read.
Context {D : Type} `{VD : VodDirectory D}.
(** The uninitialised stack bytes of the PDU [find_fileserver] broadcasts. *)
Context (junk : list Z).
Abbreviation client := (CLI.client (D := D)).

(** The response thread handles the datagrams that arrive during a wait. *)
Fixpoint run_dgrams (s : client) (ds : list (UDP.sockaddr * list Z)) : outcome client :=
  match ds with
  | [] => Ret s
  | (a, d) :: ds' => let* s' := response s a d in run_dgrams s' ds'
  end.

Definition unset_VODserver (s : client) : outcome client :=
  if 0 <=? current_VODserver s then
    let* r := vd_unset_registcode (vodsvr s) (current_VODserver s) in
    Ret (set_curr_svr_id (-1) (set_have_VODserver 0 (set_current_VODserver (-1)
          (set_vodsvr (snd r) s))))
  else Ret s.

Definition set_compare (c : cchan) (v : cmp_variable) (op exp : Z) : cchan :=
  set_compare_expect exp (set_compare_operator op (set_compare_variable v c)).

Definition var_value (c : cchan) : Z :=
  match compare_variable c with
  | V_vodsvr_response => vodsvr_response c
  | V_need_filesize => need_filesize c
  | V_brcvcnt => brcvcnt c
  end.
Definition do_compare (c : cchan) : bool :=
  let v := var_value c in
  let e := compare_expect c in
  let op := compare_operator c in
  if op =? CMP_GT then v >? e
  else if op =? CMP_GE then v >=? e
  else if op =? CMP_LT then v <? e
  else if op =? CMP_LE then v <=? e
  else if op =? CMP_EQ then v =? e
  else if op =? CMP_NE then negb (v =? e)
  else false.

(** client.c: [find_fileserver]. *)
Definition find_fileserver (s : client) : client :=
  let pdu := seal (put32 junk o_cmd PDU_FINDSERVER) SIZEOF_PDU in
  set_udp (UDP.udplib_bsend (udp s) (port s) pdu SIZEOF_PDU) s.

Definition get_pdu (r : pdu_ref) (c : cchan) : list Z :=
  match r with Stm => stm_buffer c | Reopen => reopen_pdu c end.
Definition set_pdu (r : pdu_ref) (b : list Z) (c : cchan) : cchan :=
  match r with Stm => set_stm_buffer b c | Reopen => set_reopen_pdu b c end.

(** Lines 136-158 of internal.c: the server is known. *)
Definition send_now (s : client) (ch : Z) (r : pdu_ref) (len : Z) : outcome (Z * client) :=
  let i := current_VODserver s in
  let s1 := if wait_channel s =? ch then set_wait_channel (-1) s else s in
  let* sn := vd_regist_code (vodsvr s1) i in
  let* c := get_ch s1 ch in
  let b := seal (put32 (get_pdu r c) o_sn sn) len in
  let* s2 := put_ch s1 ch (set_pdu r b c) in
  let* slot := vd_udp_entry (vodsvr s2) i in
  let* x := UDP.udplib_sendto (udp s2) slot b len in
  Ret (i, set_udp (snd x) s2).

(** [sendto_vod]: look for a server first when there is none; each round of the
    search waits once (the wait for [vod_condi], or the [usleep] of a channel
    that lets another one search). *)
Fixpoint sendto_vod (s : client) (e : env) (ch : Z) (r : pdu_ref) (len : Z)
  : outcome (Z * client * env) :=
  if 0 <=? current_VODserver s then let* x := send_now s ch r len in Ret (x, e)
  else if negb (cut s =? 0) && negb (ch =? PUBLIC_CHANNEL) then
    Ret (-1, if wait_channel s =? ch then set_wait_channel (-1) s else s, e)
  else
    let s1 := if wait_channel s <? 0 then set_wait_channel ch s else s in
    let s2 := if wait_channel s1 =? ch then find_fileserver s1 else s1 in
    match e with
    | [] => Block
    | t :: e' => let* s3 := run_dgrams s2 (t_dgrams t) in sendto_vod s3 e' ch r len
    end.

(** The loop of [send_and_wait], lines 189-270; [count] is the number of
    timeouts since the server was last given up. *)
Fixpoint wait_loop (fuel : nat) (s : client) (e : env) (ch : Z) (r : pdu_ref) (len retry count : Z)
  : outcome (Z * client * env) :=
  match fuel with
  | O => Fault OutOfFuel
  | S fuel' =>
      let* c := get_ch s ch in
      if do_compare c then
        match e with
        | [] => Block
        | t :: e' =>
            let* s1 := run_dgrams s (t_dgrams t) in
            let* c1 := get_ch s1 ch in
            if do_compare c1 then
              if negb (need_reopen c1 =? 0) then
                let* s2 := put_ch s1 ch (set_need_reopen 0 c1) in Ret (1, s2, e')
              else if t_timeout t then
                if retry =? 0 then Ret (2, s1, e')
                else
                  let limit := if curr_svr_id s1 =? prefsvr_id s1 then retry + 5 else retry in
                  let* s2 := (if count + 1 =? limit then unset_VODserver s1 else Ret s1) in
                  let count' := if count + 1 =? limit then 0 else count + 1 in
                  let* x := sendto_vod s2 e' ch r len in
                  let '(rc, s3, e3) := x in
                  if rc <? 0 then Ret (-1, s3, e3)
                  else wait_loop fuel' s3 e3 ch r len retry count'
              else wait_loop fuel' s1 e' ch r len retry count
            else wait_loop fuel' s1 e' ch r len retry count
        end
      else Ret (0, s, e)
  end.

(** [send_and_wait] up to its last lines; every iteration of the loop uses a
    turn, so the fuel below is never used up. *)
Definition send_and_wait_1 (s : client) (e : env) (ch : Z) (r : pdu_ref) (len : Z)
    (v : cmp_variable) (op unexpect : Z) (wait_first : bool) (retry : Z) : outcome (Z * client * env) :=
  let* c := get_ch s ch in
  let* s1 := put_ch s ch (set_compare c v op unexpect) in
  let* x := (if wait_first then Ret (0, s1, e) else sendto_vod s1 e ch r len) in
  let '(_, s2, e2) := x in
  wait_loop (S (length e2)) s2 e2 ch r len retry 0.

(** [internal_reopen_file], with the [send_and_wait] it repeats and which calls
    it again when the server asks for a reopen. *)
Fixpoint internal_reopen_file (fuel : nat) (s : client) (e : env) (ch : Z) : outcome (Z * client * env) :=
  match fuel with
  | O => Fault OutOfFuel
  | S fuel' =>
      let* c := get_ch s ch in
      let c1 := set_reopen_pdu (put32 (reopen_pdu c) o_stbid (stbid s))
                  (set_need_filesize 1 (set_filesize 0 c)) in
      let* s1 := put_ch s ch c1 in
      reopen_wait fuel' s1 e ch
  end
(** Lines 293-327: [while (send_and_wait (...) != 0) ...] and the block count. *)
with reopen_wait (fuel : nat) (s : client) (e : env) (ch : Z) : outcome (Z * client * env) :=
  match fuel with
  | O => Fault OutOfFuel
  | S fuel' =>
      let* c0 := get_ch s ch in
      let* x := send_and_wait_1 s e ch Reopen (reopen_pdu_len c0) V_need_filesize CMP_EQ 1 false
                  (retry_openfile s) in
      let '(rc, s1, e1) := x in
      let* y := (if rc =? 1 then internal_reopen_file fuel' s1 e1 ch else Ret (0, s1, e1)) in
      let '(_, s2, e2) := y in
      if negb (rc =? 0) then
        if negb (cut s2 =? 0) && negb (ch =? PUBLIC_CHANNEL) then Ret (0, s2, e2)
        else reopen_wait fuel' s2 e2 ch
      else
        let* c := get_ch s2 ch in
        if filesize c <? 0 then Ret (-1, s2, e2)
        else
          let b := u32 (Z.quot (filesize c) STB.BLOCK) in
          let b' := if Z.rem (filesize c) STB.BLOCK =? 0 then b else u32 (b + 1) in
          let* s3 := put_ch s2 ch (set_blockcnt b' c) in
          Ret (1, s3, e2)
  end.

(** Every round of these loops ends with at least one turn used, so a fuel of
    three per turn is enough. *)
Definition reopen_fuel (e : env) : nat := 3 + 3 * length e.

Definition send_and_wait (s : client) (e : env) (ch : Z) (r : pdu_ref) (len : Z)
    (v : cmp_variable) (op unexpect : Z) (wait_first : bool) (retry : Z) : outcome (Z * client * env) :=
  let* x := send_and_wait_1 s e ch r len v op unexpect wait_first retry in
  let '(rc, s1, e1) := x in
  if rc =? 1 then
    let* y := internal_reopen_file (reopen_fuel e1) s1 e1 ch in
    let '(_, s2, e2) := y in Ret (1, s2, e2)
  else Ret (rc, s1, e1).

(** ** Reading a block *)

(** Lines 353-373: mark all 23 packets as wanted. *)
Definition start_block (c : cchan) : cchan :=
  let b1 := put32 (stm_buffer c) o_cmd PDU_FETCH in
  let b2 := put32 b1 o_block (blockwant c) in
  let b3 := patch b2 o_map (replicate 23 1) in
  set_vodsvr_response 0 (set_stm_buffer b3 (set_bufok (replicate 23 1) (set_brcvcnt STB.NPKT c))).

Definition expect_len (c : cchan) : Z :=
  if blockwant c <? u32 (blockcnt c - 1) then STB.BLOCK
  else let m := Z.rem (filesize c) STB.BLOCK in if m =? 0 then STB.BLOCK else m.

(** [((int) &stmreq->map[24]) - ((int) stmpdu)]. *)
Definition FETCH_LEN : Z := 53.

(** Lines 384-394: until the server has acknowledged the request; [false]: cut. *)
Fixpoint ack_loop (fuel : nat) (s : client) (e : env) (ch : Z) : outcome (bool * client * env) :=
  match fuel with
  | O => Fault OutOfFuel
  | S fuel' =>
      let* x := send_and_wait s e ch Stm FETCH_LEN V_vodsvr_response CMP_EQ 0 false (retry_response s) in
      let '(rc, s1, e1) := x in
      if rc =? 0 then Ret (true, s1, e1)
      else if negb (cut s1 =? 0) && negb (ch =? PUBLIC_CHANNEL) then Ret (false, s1, e1)
      else ack_loop fuel' s1 e1 ch
  end.

(** Lines 398-432: until all packets are there; [lastval] as in the code. *)
Fixpoint data_loop (fuel : nat) (s : client) (e : env) (ch lastval : Z) : outcome (bool * client * env) :=
  match fuel with
  | O => Fault OutOfFuel
  | S fuel' =>
      let* c := get_ch s ch in
      if brcvcnt c =? 0 then Ret (true, s, e)
      else
        let b1 := put32 (stm_buffer c) o_qos 90 in
        let got := brcvcnt c <? lastval in
        let lastval' := if got then brcvcnt c else lastval in
        let b2 := if got then b1
                  else if 90 <? qos_threshold s then put32 b1 o_cmd PDU_FAST_FETCH else b1 in
        let retry := if got then 0 else 2 in
        let* s1 := put_ch s ch (set_stm_buffer b2 c) in
        let* x := send_and_wait s1 e ch Stm FETCH_LEN V_brcvcnt CMP_GT 0 true retry in
        let '(_, s2, e2) := x in
        if negb (cut s2 =? 0) && negb (ch =? PUBLIC_CHANNEL) then Ret (false, s2, e2)
        else data_loop fuel' s2 e2 ch lastval'
  end.

(** [internal_read]: the returned value, the bytes written to the caller's buffer
    and the rest of the environment; -1 without bytes at the end of the file and
    when the read is cut. *)
Definition internal_read (s : client) (e : env) (ch : Z) : outcome (Z * list Z * client * env) :=
  let* c := get_ch s ch in
  if blockcnt c <=? blockwant c then Ret (-1, [], s, e)
  else
    let elen := expect_len c in
    let* s1 := put_ch s ch (start_block c) in
    let* x := ack_loop (S (length e)) s1 e ch in
    let '(ok, s2, e2) := x in
    if negb ok then Ret (-1, [], s2, e2)
    else
      let* y := data_loop (S (length e2)) s2 e2 ch STB.NPKT in
      let '(ok', s3, e3) := y in
      if negb ok' then Ret (-1, [], s3, e3)
      else
        let* c3 := get_ch s3 ch in
        if elen <=? zlen (bbuf c3) then
          let* s4 := put_ch s3 ch (set_blockwant (u32 (blockwant c3 + 1)) c3) in
          Ret (elen, slice (bbuf c3) 0 elen, s4, e3)
        else Fault OutOfBounds.

(** ** The block being received *)

(** Block [blk] of the file [F], [elen] bytes of which are wanted on channel
    [ch] under file count [fc]; [rd] is the state of the read buffer and [ct] the
    client's [cut] flag, which receiving a block does not touch. *)
Section receive.
Context (F : list Z) (ch blk fc elen : Z) (rd : list Z * Z * Z) (ct : Z).
Context (HF : 0 < zlen F <= INT_MAX) (Hch : 0 <= ch < STB.MAX_STIOV3_CHANNEL).
Context (Hel : elen <= Z.min STB.BLOCK (zlen F - STB.BLOCK * blk)).

(** The bytes of row [i] of [bbuf] that belong to the block. *)
Definition row_bytes (bb : list Z) (i : nat) : Prop :=
  forall q : nat, Z.of_nat q < STB.PKT -> STB.PKT * Z.of_nat i + Z.of_nat q < elen ->
    bb !! Z.to_nat (STB.PKT * Z.of_nat i + Z.of_nat q) =
    F !! Z.to_nat (STB.BLOCK * blk + STB.PKT * Z.of_nat i + Z.of_nat q).

(** A data PDU for the file carries bytes of the file: those of its packet of its
    block, as many as there are; a reply to an open request carries its size. *)
Definition faithful (b : list Z) : Prop :=
  (i32_at b o_cmd = PDU_OPENFILE -> char_at b o_channel = ch -> i32_at b o_filesize = zlen F) /\
  (i32_at b o_cmd ∈ [PDU_FAST_FETCH; PDU_FETCH] -> char_at b o_channel = ch -> u32_at b o_filecnt = fc ->
   let k := u32_at b o_block in
   forall q : nat, Z.of_nat q < STB.PKT ->
     STB.PKT * i32_at b o_bid + Z.of_nat q < Z.min STB.BLOCK (zlen F - STB.BLOCK * k) ->
     Z.of_nat q < i32_at b o_len /\
     b !! Z.to_nat (o_data + Z.of_nat q) = F !! Z.to_nat (STB.BLOCK * k + STB.PKT * i32_at b o_bid + Z.of_nat q)).

Definition good_dgram (d : list Z) : Prop :=
  dgram_ok d /\ forall buf, zlen buf = 2000 -> faithful (rx buf d).
Definition good_env (e : env) : Prop :=
  Forall (fun t => Forall (fun x => good_dgram (snd x)) (t_dgrams t)) e.

Definition blocks_of : Z := (zlen F + (STB.BLOCK - 1)) / STB.BLOCK.

(** The comparison a caller waits for. *)
Definition cmp_of (c : cchan) : cmp_variable * Z * Z :=
  (compare_variable c, compare_operator c, compare_expect c).

(** [nf] says that the size of the file is known (no reopen is under way), [cmp]
    which comparison is set up, when that matters. *)
Section phase.
Context (nf : bool) (cmp : option (cmp_variable * Z * Z)).

Record rcv_ok (c : cchan) : Prop := {
  rv_blk : blockwant c = blk;
  rv_fc : filecnt c = fc;
  rv_01 : Forall (fun x => x = 0 \/ x = 1) (bufok c);
  rv_cnt : brcvcnt c = ones (bufok c);
  rv_rows : forall i, bufok c !! i = Some 0 -> row_bytes (bbuf c) i;
  rv_rd : (readbuffer c, rdbufidx c, rdbuflen c) = rd;
  rv_bc : blockcnt c = blocks_of;
  rv_nf : need_filesize c = 0 \/ nf = false /\ need_filesize c = 1;
  rv_fs : need_filesize c = 0 -> filesize c = zlen F;
  rv_cmp : match cmp with Some x => cmp_of c = x | None => True end;
}.

Lemma rcv_store b c c' :
  zlen b = 2000 -> pdu_ok b -> faithful b -> chan_ok c -> rcv_ok c ->
  stores b (Z.to_nat ch) c c' -> rcv_ok c'.
Proof.
  intros Hb P [_ Hf] Hok [R1 R2 R3 R4 R5 R6 R7 R8 R9 R10] (Hcmd & Hchb & Hm & Hst).
  destruct (po_data _ P Hcmd) as [Hi Hl]. destruct (store_packet_frame _ _ _ Hst) as (F1 & F2 & F3).
  destruct (store_packet_run b (set_vodsvr_response 1 c)) as
    (c2 & Hst2 & _ & E1 & E2 & E3 & E4 & E5 & E6 & E7 & E8 & _ & Hcnt & Hcase);
    [done|destruct Hok; by split|done..|].
  rewrite Hst2 in Hst. injection Hst as <-. simpl in *. unfold matches in Hm.
  apply andb_true_iff in Hm as [Hm1%Z.eqb_eq Hm2%Z.eqb_eq].
  split; [congruence|congruence| | | |by rewrite E3, E4, E5|congruence|by rewrite F2|by rewrite F2, F3|].
  - destruct Hcase as [(_ & -> & _)|(_ & ->)]; [|done]. apply Forall_insert; [done|by left].
  - lia.
  - destruct Hcase as [(Hone & Hb1 & Hb2)|(_ & ->)]; [|done].
    pose proof (lookup_lt_Some _ _ _ Hone) as Hlt. destruct Hok as [O1 O2 _ _ _ _].
    assert (zlen (slice b o_data (i32_at b o_len)) = i32_at b o_len) as Hz
      by (apply zlen_slice; unfold STB.PKT in *; fld).
    intros i Hi0 q Hq Hqe. rewrite Hb2, lookup_patch by
      (simpl; rewrite ?Hz, ?O2; unfold STB.PKT, STB.NPKT in *; lia).
    rewrite Hz, Z2Nat.id by (unfold STB.PKT in *; lia).
    destruct (decide (i = Z.to_nat (i32_at b o_bid))) as [->|Hne].
    + rewrite Z2Nat.id in * by lia. destruct (Hf Hcmd ltac:(lia) ltac:(lia) q Hq) as [Hql Hbyte];
        [rewrite Hm1, R1; lia|].
      rewrite decide_True by lia. rewrite lookup_slice by (unfold STB.PKT in *; fld). rewrite Hm1, R1 in Hbyte. rewrite <- Hbyte.
      f_equal. unfold STB.PKT in *. fld.
    + rewrite decide_False by (unfold STB.PKT in *; lia). apply R5; [|done..].
      rewrite Hb1 in Hi0. by rewrite list_lookup_insert_ne in Hi0 by done.
  - destruct cmp; [|done]. unfold cmp_of in *. congruence.
Qed.

(** All packets received: the block is there. *)
Lemma rcv_done c :
  chan_ok c -> rcv_ok c -> brcvcnt c = 0 -> 0 <= blk -> 0 <= elen <= STB.BLOCK ->
  STB.BLOCK * blk + elen <= zlen F ->
  slice (bbuf c) 0 elen = slice F (STB.BLOCK * blk) elen.
Proof.
  intros [O1 O2 _ _ _ _] [_ _ R3 R4 R5 _ _ _ _ _] Hz Hblk He HF'. rewrite Hz in R4.
  assert (forall i : nat, (i < 23)%nat -> bufok c !! i = Some 0) as Hall.
  { intros i Hi. destruct (lookup_lt_is_Some_2 (bufok c) i) as [x Hx]; [unfold zlen, STB.NPKT in *; lia|].
    rewrite Hx. f_equal. destruct (Forall_lookup_1 _ _ _ _ R3 Hx) as [?| ->]; [done|]. exfalso.
    pose proof (ones_insert _ _ Hx). pose proof (ones_bounds (<[i := 0]> (bufok c))). lia. }
  apply list_eq. intros j. destruct (Z.lt_ge_cases (Z.of_nat j) elen).
  2:{ by rewrite !lookup_slice_ge by lia. }
  rewrite !lookup_slice by (unfold STB.BLOCK in *; lia).
  pose proof (Nat.div_mod j 1425 ltac:(lia)) as Hdm.
  pose proof (Nat.mod_upper_bound j 1425 ltac:(lia)) as Hmu.
  assert (j / 1425 < 23)%nat as Hd by (apply Nat.Div0.div_lt_upper_bound; unfold STB.BLOCK in *; lia).
  pose proof (R5 _ (Hall _ Hd) (j mod 1425)%nat) as Hrow. unfold STB.PKT in Hrow.
  assert (1425 * Z.of_nat (j / 1425) + Z.of_nat (j mod 1425) = Z.of_nat j) as Hj by lia.
  rewrite Hj in Hrow. replace (Z.to_nat 0 + j)%nat with (Z.to_nat (Z.of_nat j)) by lia.
  rewrite Hrow by lia. f_equal. unfold STB.BLOCK in *. lia.
Qed.

(** ** The invariant of a read in progress *)
Definition inv (s : client) : Prop :=
  cli_ok s /\ cut s = ct /\ exists c, chs s !! Z.to_nat ch = Some c /\ rcv_ok c.

Lemma inv_get s : inv s -> exists c, get_ch s ch = Ret c /\ chs s !! Z.to_nat ch = Some c /\ chan_ok c /\ rcv_ok c.
Proof.
  intros (I & _ & c & Hc & R). exists c. split_and!; [exact (proj1 (get_put s ch c c Hc ltac:(lia)))|done| |done].
  eapply Forall_lookup_1; [apply I|done].
Qed.

Lemma inv_put s c : inv s -> chan_ok c -> rcv_ok c -> exists s', put_ch s ch c = Ret s' /\ inv s' /\
  s' = set_chs (<[Z.to_nat ch := c]> (chs s)) s.
Proof.
  intros (I & Hct & c0 & Hc & R0) Hok R. rewrite (proj2 (get_put s ch c0 c Hc ltac:(lia))).
  eexists. split_and!; [done| |done]. split; [by apply cli_ok_put|]. split; [done|]. exists c. split; [|done].
  simpl. apply list_lookup_insert_eq. by eapply lookup_lt_Some.
Qed.

Lemma inv_frame s s' : inv s -> cli_ok s' -> chs s' = chs s -> cut s' = cut s -> inv s'.
Proof.
  intros (_ & Hct & c & Hc & R) I' E E2. split; [done|]. split; [congruence|]. exists c. by rewrite E.
Qed.

Lemma rcv_same b c c' : faithful b -> same_rx b (Z.to_nat ch) c c' -> rcv_ok c -> rcv_ok c'.
Proof.
  intros [Hf _] [] [R1 R2 R3 R4 R5 R6 R7 R8 R9 R10]. split; try congruence.
  - intros i Hi. rewrite sr_bbuf0. apply R5. congruence.
  - destruct sr_filesize0 as [[-> _]|(_ & _ & _ & -> & _)]; [done|by left].
  - intros H0. destruct sr_filesize0 as [[E1 E2]|(_ & Hcmd & Hk & _ & E2)].
    + rewrite E2. apply R9. congruence.
    + rewrite E2, Hf by (done || lia). rewrite (proj2 (Z.eqb_neq _ 0)) by lia. done.
  - destruct cmp; [|done]. unfold cmp_of in *. congruence.
Qed.

Lemma response_inv s a d : inv s -> good_dgram d -> exists s', response s a d = Ret s' /\ inv s'.
Proof.
  intros (I & Hct & c & Hc & R) [Hd Hf]. destruct (response_ok s a d I Hd) as (s' & -> & I' & [_ Hst] & Hcut).
  pose proof (cl_rx _ I) as Hrx.
  exists s'. split; [done|]. split; [done|]. split; [congruence|].
  destruct (Hst _ _ Hc) as (c' & Hc' & [Hs|Hs]); exists c'; (split; [done|]).
  - by eapply rcv_same; [apply Hf|..].
  - eapply rcv_store; [by rewrite zlen_rx|by apply Hd|by apply Hf| |done|exact Hs].
    eapply Forall_lookup_1; [apply I|done].
Qed.

Lemma run_dgrams_inv s ds : inv s -> Forall (fun x => good_dgram (snd x)) ds ->
  exists s', run_dgrams s ds = Ret s' /\ inv s'.
Proof.
  intros I H. revert s I. induction H as [|[a d] ds Hd _ IH]; intros s I; simpl; [eauto|].
  destruct (response_inv s a d I Hd) as (s' & -> & I'). cbn [obind]. by apply IH.
Qed.

Lemma unset_inv s : inv s -> exists s', unset_VODserver s = Ret s' /\ inv s'.
Proof.
  intros I. unfold unset_VODserver. destruct (0 <=? current_VODserver s); [|eauto].
  destruct (vd_unset_ok _ (current_VODserver s) (cl_vd _ (proj1 I))) as (rc & d & -> & Hd & _). cbn [obind snd].
  eexists. split; [done|]. apply (inv_frame s); [done| |done..]. destruct I as [[] _]. by split.
Qed.

Lemma rcv_set_pdu c r b : rcv_ok c -> rcv_ok (set_pdu r b c).
Proof. intros []. by destruct r; split. Qed.

Lemma sendto_returns u n b len : UDP.book_ok u -> exists x, UDP.udplib_sendto u n b len = Ret x /\
  UDP.book_ok (snd x).
Proof.
  intros B. unfold UDP.udplib_sendto. destruct (UDP.in_list u n) eqn:E; [|by eexists].
  unfold UDP.in_list in E. apply andb_true_iff in E as [E1%Z.leb_le E2%Z.ltb_lt].
  rewrite (UDP.bo_len _ B) in E2. destruct (aget_lt (UDP.addrlist u) n) as (p & -> & _); [lia|]. cbn [obind].
  destruct (UDP.use p); eexists; (split; [done|]); [|done]. destruct B. by split.
Qed.

Lemma chan_ok_pdu c r b : chan_ok c -> zlen b = zlen (get_pdu r c) -> chan_ok (set_pdu r b c).
Proof. intros [] Hb. destruct r; simpl in Hb; split; simpl; congruence. Qed.

Lemma send_now_inv s r len : inv s -> exists rc s', send_now s ch r len = Ret (rc, s') /\ inv s'.
Proof.
  intros I. unfold send_now.
  set (s1 := if wait_channel s =? ch then set_wait_channel (-1) s else s).
  assert (inv s1) as I1.
  { unfold s1. destruct (wait_channel s =? ch); [|done]. apply (inv_frame s); [done| |done..].
    destruct I as [[] _]. by split. }
  destruct (proj1 (vd_code_ok _ (current_VODserver s) (cl_vd _ (proj1 I1)))) as [sn ->]. cbn [obind].
  destruct (inv_get _ I1) as (c & -> & Hc & Hok & R). cbn [obind].
  assert (zlen (get_pdu r c) = 2000 \/ zlen (get_pdu r c) = 256) as Hz by (destruct r, Hok; simpl; lia).
  match goal with |- context [put_ch _ _ ?x] => destruct (inv_put s1 x I1) as (s2 & -> & I2 & E2) end.
  { apply chan_ok_pdu; [done|]. rewrite zlen_seal; rewrite zlen_put32; fld. }
  { by apply rcv_set_pdu. }
  cbn [obind]. destruct (proj2 (vd_code_ok _ (current_VODserver s) (cl_vd _ (proj1 I2)))) as [slot ->]. cbn [obind].
  match goal with |- context [UDP.udplib_sendto ?u ?n ?b ?l] => destruct (sendto_returns u n b l) as (x & -> & Bx) end.
  { apply I2. }
  cbn [obind]. do 2 eexists. split; [done|]. apply (inv_frame s2); [done| |done..].
  destruct I2 as [[] _]. by split.
Qed.

(** The post-condition of a call that uses up part of the environment. *)
Definition went (e : env) (s' : client) (e' : env) : Prop :=
  inv s' /\ good_env e' /\ (length e' <= length e)%nat.

Lemma sendto_vod_inv s e r len : inv s -> good_env e ->
  safe (sendto_vod s e ch r len) (fun '(_, s', e') => went e s' e').
Proof.
  intros I He. revert s I. induction He as [|t e Ht He IH]; intros s I; cbn [sendto_vod];
    (destruct (0 <=? current_VODserver s);
      [destruct (send_now_inv s r len I) as (rc & s' & -> & I'); simpl; split_and!; [done|by constructor|done]|]);
    (destruct (negb (cut s =? 0) && negb (ch =? PUBLIC_CHANNEL));
      [simpl; split_and!; [|by constructor|done]; destruct (wait_channel s =? ch); [|done];
       apply (inv_frame s); [done| |done..]; destruct I as [[] _]; by split|]).
  - done.
  - set (s1 := if wait_channel s <? 0 then _ else s).
    set (s2 := if wait_channel s1 =? ch then _ else s1).
    assert (inv s2) as I2.
    { apply (inv_frame s); [done| | |]; unfold s2, s1; repeat case_match; try done; try apply I;
      destruct I as [[H1 H2 [B1 B2] H4 H5 H6] _]; by split. }
    destruct (run_dgrams_inv s2 _ I2 Ht) as (s3 & -> & I3). cbn [obind].
    eapply safe_mono; [by apply IH|]. intros [[rc s'] e'] (? & ? & ?). split_and!; [done..|simpl; lia].
Qed.

Lemma wait_loop_inv fuel s e r len retry count : inv s -> good_env e -> (length e < fuel)%nat ->
  safe (wait_loop fuel s e ch r len retry count) (fun '(rc, s', e') => went e s' e' /\
    (rc <> 0 \/ (exists c, get_ch s ch = Ret c /\ do_compare c = true) -> (length e' < length e)%nat) /\
    (rc = 0 -> exists c, get_ch s' ch = Ret c /\ do_compare c = false)).
Proof.
  revert s e count. induction fuel as [|fuel IH]; intros s e count I He Hf; [lia|]. cbn [wait_loop].
  destruct (inv_get _ I) as (c & Hg & Hc & Hok & R). rewrite Hg. cbn [obind].
  destruct (do_compare c) eqn:Hcmp.
  2:{ simpl. split_and!; [done..| |by exists c]. intros [|(c' & [= <-] & ?)]; congruence. }
  destruct He as [|t e Ht He]; [done|]. simpl in Hf.
  eapply (safe_mono _ (fun '(rc, s', e') => went e s' e' /\
    (rc = 0 -> exists c, get_ch s' ch = Ret c /\ do_compare c = false))).
  2:{ intros [[rc s'] e'] [(? & ? & ?) ?]. split_and!; [split_and!; [done..|simpl; lia]|simpl; lia|done]. }
  destruct (run_dgrams_inv s _ I Ht) as (s1 & -> & I1). cbn [obind].
  destruct (inv_get _ I1) as (c1 & -> & Hc1 & Hok1 & R1). cbn [obind].
  assert (forall s3 e3 n, went e s3 e3 ->
    safe (wait_loop fuel s3 e3 ch r len retry n) (fun '(rc, s', e') => went e s' e' /\
      (rc = 0 -> exists c, get_ch s' ch = Ret c /\ do_compare c = false))) as Hnext.
  { intros s3 e3 n (I3 & He3 & Hl). eapply safe_mono; [apply IH; [done..|lia]|].
    intros [[rc s'] e'] [(? & ? & ?) [_ ?]]. split; [split_and!; [done..|lia]|done]. }
  assert (went e s1 e) as W1 by done.
  destruct (do_compare c1); [|by apply Hnext]. destruct (negb (need_reopen c1 =? 0)).
  { destruct (inv_put s1 (set_need_reopen 0 c1) I1) as (s2 & -> & I2 & _);
      [destruct Hok1; by split|destruct R1; by split|]. done. }
  destruct (t_timeout t); [|by apply Hnext]. destruct (retry =? 0); [done|].
  set (hit := count + 1 =? _).
  assert (exists s2, (if hit then unset_VODserver s1 else Ret s1) = Ret s2 /\ inv s2) as (s2 & -> & I2).
  { destruct hit; [by apply unset_inv|eauto]. }
  cbn [obind]. eapply safe_bind; [by apply sendto_vod_inv|]. intros [[rc s3] e3] W3.
  destruct (rc <? 0); [done|by apply Hnext].
Qed.

(** ** Progress: packets that arrive are stored *)

(** [d] is the data packet [i] of the wanted block. *)
Definition delivers (d : list Z) (i : nat) : Prop :=
  0 < zlen d <= 2000 /\ forall buf, zlen buf = 2000 -> let b := rx buf d in
    cksum_ok b (zlen d) = true /\ i32_at b o_cmd = PDU_FETCH /\ char_at b o_channel = ch /\
    u32_at b o_block = blk /\ u32_at b o_filecnt = fc /\ i32_at b o_bid = Z.of_nat i.

Definition has (s : client) (i : nat) : Prop :=
  exists c, chs s !! Z.to_nat ch = Some c /\ bufok c !! i = Some 0 /\ vodsvr_response c = 1.

Lemma store_keeps b c c' i :
  zlen b = 2000 -> pdu_ok b -> chan_ok c -> stores b (Z.to_nat ch) c c' -> bufok c !! i = Some 0 ->
  bufok c' !! i = Some 0 /\ vodsvr_response c' = 1.
Proof.
  intros Hb P Hok (Hcmd & _ & _ & Hst) Hi. destruct (po_data _ P Hcmd) as [Hi' Hl].
  destruct (store_packet_run b (set_vodsvr_response 1 c)) as
    (c2 & Hst2 & _ & _ & _ & _ & _ & _ & _ & _ & _ & Hr & _ & Hcase); [done|destruct Hok; by split|done..|].
  rewrite Hst2 in Hst. injection Hst as <-. split; [|done]. simpl in Hcase.
  destruct Hcase as [(Hone & -> & _)|(_ & ->)]; [|done].
  rewrite list_lookup_insert_ne; [done|]. intros <-. congruence.
Qed.

Lemma response_has s a d i : inv s -> good_dgram d -> has s i ->
  exists s', response s a d = Ret s' /\ inv s' /\ has s' i.
Proof.
  intros I Hd (c & Hc & Hi & Hr). destruct (response_inv s a d I Hd) as (s' & Hs & I').
  exists s'. split_and!; [done..|]. destruct (response_ok s a d (proj1 I) (proj1 Hd)) as (s2 & Hs2 & _ & [_ Hst] & _).
  rewrite Hs in Hs2. injection Hs2 as <-. destruct (Hst _ _ Hc) as (c' & Hc' & [[]|Hx]).
  - exists c'. split_and!; [done|congruence|auto].
  - destruct (store_keeps (rx (rxbuf s) d) c c' i) as [? ?]; [by rewrite zlen_rx; apply I|by apply Hd, I| |done..|by exists c'].
    eapply Forall_lookup_1; [apply I|done].
Qed.

Lemma response_delivers s a d i : (i < 23)%nat -> inv s -> good_dgram d -> delivers d i ->
  exists s', response s a d = Ret s' /\ inv s' /\ has s' i.
Proof.
  intros Hi23 I Hd [Hlen Hb]. destruct (response_inv s a d I Hd) as (s' & Hs & I').
  exists s'. split_and!; [done..|]. pose proof (cl_rx _ (proj1 I)) as Hrx.
  destruct (Hb _ Hrx) as (B1 & B2 & B3 & B4 & B5 & B6). destruct I as (I & _ & c & Hc & R).
  assert (chan_ok c) as Hok by (eapply Forall_lookup_1; [apply I|done]).
  unfold response, UDP.udplib_receive in Hs. fold (rx (rxbuf s) d) in Hs.
  assert (zlen (take (length (rxbuf s)) d) = zlen d) as E by (unfold zlen in *; rewrite length_take; lia).
  rewrite E, (proj2 (Z.eqb_neq _ 0)), B1, B2 in Hs by lia. set (s1 := set_udp _ _) in Hs. cbn -[on_fetch] in Hs.
  unfold on_fetch in Hs. change (rxbuf s1) with (rx (rxbuf s) d) in Hs. set (b := rx (rxbuf s) d) in *.
  rewrite B3 in Hs. destruct (get_put s1 ch c c Hc ltac:(lia)) as [Hg _]. rewrite Hg in Hs. cbn [obind] in Hs.
  assert (matches b c = true) as Hm.
  { unfold matches. rewrite B4, B5, (rv_blk _ R), (rv_fc _ R), !Z.eqb_refl. done. }
  rewrite Hm in Hs. assert (pdu_ok b) as P by (by apply Hd). assert (zlen b = 2000) as Hbl by (by unfold b; rewrite zlen_rx).
  destruct (po_data _ P) as [Q1 Q2]; [rewrite B2; set_solver|].
  destruct (store_packet_run b (set_vodsvr_response 1 c)) as
    (c2 & Hst2 & _ & _ & _ & _ & _ & _ & _ & _ & _ & Hr & _ & Hcase); [done|destruct Hok; by split|done..|].
  rewrite Hst2 in Hs. cbn [obind] in Hs. rewrite (proj2 (get_put s1 ch c c2 Hc ltac:(lia))) in Hs. injection Hs as <-.
  exists c2. simpl. split_and!; [by apply list_lookup_insert_eq; eapply lookup_lt_Some| |done].
  rewrite B6, Nat2Z.id in Hcase. simpl in Hcase. destruct Hcase as [(Hone & -> & _)|(Hone & ->)].
  - apply list_lookup_insert_eq. by eapply lookup_lt_Some.
  - simpl. destruct (lookup_lt_is_Some_2 (bufok c) i) as [x Hx].
    { pose proof (co_bufok _ Hok). unfold zlen, STB.NPKT in *. lia. }
    rewrite Hx in *. f_equal. destruct (Forall_lookup_1 _ _ _ _ (rv_01 _ R) Hx) as [?| ->]; done.
Qed.

Lemma run_dgrams_has s ds i : (i < 23)%nat -> inv s -> Forall (fun x => good_dgram (snd x)) ds ->
  (has s i \/ Exists (fun x => delivers (snd x) i) ds) ->
  exists s', run_dgrams s ds = Ret s' /\ inv s' /\ has s' i.
Proof.
  intros Hi I Hg H. revert s I H. induction Hg as [|[a d] ds Hd _ IH]; intros s I H; simpl.
  - destruct H as [H|H]; [eauto|by apply Exists_nil in H].
  - rewrite Exists_cons in H. destruct H as [H|[H|H]].
    + destruct (response_has s a d i I Hd H) as (s' & -> & I' & H'). cbn [obind]. auto.
    + destruct (response_delivers s a d i Hi I Hd H) as (s' & -> & I' & H'). cbn [obind]. auto.
    + destruct (response_inv s a d I Hd) as (s' & -> & I'). cbn [obind]. auto.
Qed.

(** [d] is not the data packet [i]. *)
Definition other_than (d : list Z) (i : nat) : Prop := forall buf, zlen buf = 2000 -> i32_at (rx buf d) o_bid <> Z.of_nat i.
Definition lacks (s : client) (i : nat) : Prop := exists c, chs s !! Z.to_nat ch = Some c /\ bufok c !! i = Some 1.

Lemma response_lacks s a d i : inv s -> good_dgram d -> other_than d i -> lacks s i ->
  exists s', response s a d = Ret s' /\ inv s' /\ lacks s' i.
Proof.
  intros I Hd Ho (c & Hc & Hi). destruct (response_inv s a d I Hd) as (s' & Hs & I').
  exists s'. split_and!; [done..|]. destruct (response_ok s a d (proj1 I) (proj1 Hd)) as (s2 & Hs2 & _ & [_ Hst] & _).
  rewrite Hs in Hs2. injection Hs2 as <-. pose proof (cl_rx _ (proj1 I)) as Hrx. destruct (Hst _ _ Hc) as (c' & Hc' & [[]|(Hcmd & _ & _ & Hx)]).
  - exists c'. split; [done|congruence].
  - assert (pdu_ok (rx (rxbuf s) d)) as P by (by apply Hd). destruct (po_data _ P Hcmd) as [Q1 Q2].
    destruct (store_packet_run (rx (rxbuf s) d) (set_vodsvr_response 1 c)) as (c2 & Hst2 & _ & _ & _ & _ & _ & _ & _ & _ & _ & _ & _ & Hcase);
      [by rewrite zlen_rx|assert (chan_ok c) as [] by (eapply Forall_lookup_1; [apply I|done]); by split|done..|].
    rewrite Hst2 in Hx. injection Hx as <-. exists c2. split; [done|]. simpl in Hcase. specialize (Ho _ Hrx).
    destruct Hcase as [(_ & -> & _)|(_ & ->)]; [|done]. rewrite list_lookup_insert_ne; [done|]. lia.
Qed.
Lemma run_dgrams_lacks s ds i : inv s -> Forall (fun x => good_dgram (snd x)) ds -> Forall (fun x => other_than (snd x) i) ds -> lacks s i ->
  exists s', run_dgrams s ds = Ret s' /\ inv s' /\ lacks s' i.
Proof.
  intros I Hg Ho. revert s I. induction Hg as [|[a d] ds Hd _ IH]; intros s I H; simpl; [by exists s|]. apply Forall_cons in Ho as [Ho Hos].
  destruct (response_lacks s a d i I Hd Ho H) as (s' & -> & I' & H'). cbn [obind]. by apply IH.
Qed.

Lemma run_dgrams_complete s ds : inv s -> Forall (fun x => good_dgram (snd x)) ds ->
  (forall i, (i < 23)%nat -> Exists (fun x => delivers (snd x) i) ds) ->
  exists s' c, run_dgrams s ds = Ret s' /\ inv s' /\ get_ch s' ch = Ret c /\
    brcvcnt c = 0 /\ vodsvr_response c = 1.
Proof.
  intros I Hg Hall. destruct (run_dgrams_inv s ds I Hg) as (s' & Hs & I').
  destruct (inv_get _ I') as (c & Hgc & Hc & Hok & R). exists s', c.
  assert (forall i, (i < 23)%nat -> bufok c !! i = Some 0 /\ vodsvr_response c = 1) as H0.
  { intros i Hi. destruct (run_dgrams_has s ds i Hi I Hg (or_intror (Hall i Hi))) as (s2 & Hs2 & _ & c2 & Hc2 & ? & ?).
    rewrite Hs in Hs2. injection Hs2 as <-. rewrite Hc in Hc2. by injection Hc2 as <-. }
  split_and!; [done..| |by apply (H0 0%nat); lia]. rewrite (rv_cnt _ R). unfold ones.
  rewrite (filter_reject_nil (fun x => x = 1)); [done|]. intros x [i Hx]%list_elem_of_lookup ->.
  pose proof (lookup_lt_Some _ _ _ Hx). pose proof (co_bufok _ Hok). unfold zlen, STB.NPKT in *.
  destruct (H0 i ltac:(lia)) as [Hz _]. congruence.
Qed.

(** Sending to a known server leaves the caller's comparison and counters alone. *)
Lemma send_known s e r len c : inv s -> get_ch s ch = Ret c -> 0 <= current_VODserver s ->
  exists rc s' c', sendto_vod s e ch r len = Ret (rc, s', e) /\ inv s' /\
    chs s' !! Z.to_nat ch = Some c' /\ vodsvr_response c' = vodsvr_response c /\ bufok c' = bufok c.
Proof.
  intros I Hg Hv. destruct (send_now_inv s r len I) as (rc & s' & Hs & I').
  assert (sendto_vod s e ch r len = Ret (rc, s', e)) as Hsend.
  { destruct e; cbn [sendto_vod]; rewrite (proj2 (Z.leb_le 0 _) Hv), Hs; done. }
  destruct (inv_get _ I) as (c0 & Hg0 & Hc & _). rewrite Hg in Hg0. injection Hg0 as <-.
  unfold send_now in Hs. set (s1 := if wait_channel s =? ch then _ else s) in Hs.
  assert (chs s1 !! Z.to_nat ch = Some c) as Hc1 by (unfold s1; by destruct (wait_channel s =? ch)).
  apply obind_Ret_inv in Hs as (sn & _ & Hs). rewrite (proj1 (get_put s1 ch c c Hc1 ltac:(lia))) in Hs. cbn [obind] in Hs.
  set (c' := set_pdu r _ c) in Hs. rewrite (proj2 (get_put s1 ch c c' Hc1 ltac:(lia))) in Hs. cbn [obind] in Hs.
  apply obind_Ret_inv in Hs as (slot & _ & Hs). apply obind_Ret_inv in Hs as (x & _ & Hs). injection Hs as <- <-.
  eexists _, _, c'. split_and!; [exact Hsend|done| |by destruct r..].
  simpl. apply list_lookup_insert_eq. by eapply lookup_lt_Some.
Qed.
End phase.

(** ** The calls that wait *)
Definition cutted : Prop := ct <> 0 /\ ch <> PUBLIC_CHANNEL.

Lemma rcv_weaken nf cmp c : rcv_ok nf cmp c -> rcv_ok nf None c.
Proof. intros []. by split. Qed.
Lemma inv_weaken nf cmp s : inv nf cmp s -> inv nf None s.
Proof. intros (? & ? & c & ? & ?). split_and!; [done..|]. exists c. split; [done|]. by eapply rcv_weaken. Qed.
Lemma inv_false cmp s : inv true cmp s -> inv false None s.
Proof.
  intros (? & ? & c & ? & []). split_and!; [done..|]. exists c. split; [done|]. split; try done.
  destruct rv_nf0 as [?|[? ?]]; [by left|done].
Qed.

(** Replacing the channel, with a change of phase. *)
Lemma put_inv nf cmp nf' cmp' s c c' : inv nf cmp s -> get_ch s ch = Ret c -> (chan_ok c -> chan_ok c') ->
  (rcv_ok nf cmp c -> rcv_ok nf' cmp' c') ->
  exists s', put_ch s ch c' = Ret s' /\ inv nf' cmp' s' /\ get_ch s' ch = Ret c' /\
    current_VODserver s' = current_VODserver s.
Proof.
  intros I Hg Ho Hr. destruct (inv_get _ _ _ I) as (c0 & Hg0 & Hc & Hok & R).
  rewrite Hg in Hg0. injection Hg0 as <-. rewrite (proj2 (get_put s ch c c' Hc ltac:(lia))).
  assert ((<[Z.to_nat ch := c']> (chs s)) !! Z.to_nat ch = Some c') as E
    by (apply list_lookup_insert_eq; by eapply lookup_lt_Some).
  eexists. split_and!; [done| | |done].
  - destruct I as (I & Hct & _). split; [by apply cli_ok_put; [|apply Ho]|]. split; [done|].
    exists c'. split; [done|by apply Hr].
  - apply (get_put _ _ c' c'); [done|lia].
Qed.

Lemma send_and_wait_1_inv nf s e r len v op x wf retry : inv nf None s -> good_env e ->
  safe (send_and_wait_1 s e ch r len v op x wf retry) (fun '(rc, s', e') =>
    went nf (Some (v, op, x)) e s' e' /\
    (rc <> 0 \/ (wf = true /\ exists c, get_ch s ch = Ret c /\ do_compare (set_compare c v op x) = true) ->
       (length e' < length e)%nat) /\
    (rc = 0 -> exists c, get_ch s' ch = Ret c /\ do_compare c = false)).
Proof.
  intros I He. unfold send_and_wait_1. destruct (inv_get _ _ _ I) as (c & Hg & _). rewrite Hg. cbn [obind].
  destruct (put_inv nf None nf (Some (v, op, x)) s c (set_compare c v op x) I Hg) as (s1 & -> & I1 & Hg1 & _);
    [intros []; by split..|]. cbn [obind]. destruct wf; cbn [obind].
  - eapply safe_mono; [apply wait_loop_inv; [done..|lia]|]. intros [[rc s'] e'] (W & Hl & H0). split_and!; [done| |done].
    intros [?|(_ & c0 & [= <-] & Hd)]; [by apply Hl; left|]. apply Hl. right. eauto.
  - eapply safe_bind; [by apply sendto_vod_inv|]. intros [[rc s2] e2] (I2 & He2 & Hl2).
    eapply safe_mono; [apply wait_loop_inv; [done..|lia]|]. intros [[rc' s'] e'] ((Ha & Hb & Hc) & Hl & Hz0).
    split_and!; [split_and!; [done..|lia]| |done]. intros [Hrc|[? _]]; [|done].
    assert (length e' < length e2)%nat by (by apply Hl; left). lia.
Qed.

Lemma cut_true x : negb (x =? 0) && negb (ch =? PUBLIC_CHANNEL) = true -> x = ct -> cutted.
Proof. intros [?%negb_true_iff%Z.eqb_neq ?%negb_true_iff%Z.eqb_neq]%andb_true_iff E. split; congruence. Qed.

(** Lines 314-316 of internal.c compute the number of blocks. *)
Lemma blocks_eq : let b := u32 (Z.quot (zlen F) STB.BLOCK) in
  (if Z.rem (zlen F) STB.BLOCK =? 0 then b else u32 (b + 1)) = blocks_of.
Proof.
  unfold blocks_of, STB.BLOCK, INT_MAX in *. cbv zeta. rewrite Z.quot_div_nonneg, Z.rem_mod_nonneg by lia.
  rewrite (u32_id (zlen F / 32768)) by (Z.div_mod_to_equations; lia).
  destruct (Z.eqb_spec (zlen F mod 32768) 0); [|rewrite u32_id by (Z.div_mod_to_equations; lia)];
    Z.div_mod_to_equations; lia.
Qed.

(** A reopen ends with the size of the file known, or is cut. *)
Definition reopened (e : env) (s' : client) (e' : env) : Prop :=
  went false None e s' e' /\ (inv true None s' \/ cutted).

Lemma reopen_inv fuel :
  (forall s e, inv false None s -> good_env e -> (3 + 3 * length e <= fuel)%nat ->
     safe (internal_reopen_file fuel s e ch) (fun '(_, s', e') => reopened e s' e')) /\
  (forall s e, inv false None s -> good_env e -> (2 + 3 * length e <= fuel)%nat ->
     safe (reopen_wait fuel s e ch) (fun '(_, s', e') => reopened e s' e')).
Proof.
  induction fuel as [|fuel [IH1 IH2]]; (split; intros s e I He Hf; [try lia|try lia]).
  - cbn [internal_reopen_file]. destruct (inv_get _ _ _ I) as (c & Hg & _ & Hok & _). rewrite Hg. cbn [obind].
    destruct (put_inv false None false None s c (set_reopen_pdu (put32 (reopen_pdu c) o_stbid (stbid s))
      (set_need_filesize 1 (set_filesize 0 c))) I Hg) as (s1 & -> & I1 & _).
    { intros []. split; try done. simpl. rewrite zlen_put32; fld. }
    { intros []. split; try done. by right. }
    cbn [obind]. apply IH2; [done..|lia].
  - cbn [reopen_wait]. destruct (inv_get _ _ _ I) as (c0 & Hg0 & _). rewrite Hg0. cbn [obind].
    eapply safe_bind; [by apply send_and_wait_1_inv|]. intros [[rc s1] e1] ((I1 & He1 & Hl1) & Hrc & Hrc0).
    eapply (safe_bind _ _ (fun '(_, s2, e2) => went false None e1 s2 e2 /\ (rc = 0 -> s2 = s1))).
    { destruct (Z.eqb_spec rc 1) as [->|]; [|split; [|done]; split_and!; [by eapply inv_weaken|done..]].
      assert (length e1 < length e)%nat by (apply Hrc; by left).
      eapply safe_mono; [apply IH1; [by eapply inv_weaken|done|lia]|]. intros [[? ?] ?] [? _]. by split. }
    intros [[rc2 s2] e2] ((I2 & He2 & Hl2) & Hsame). destruct (Z.eqb_spec rc 0) as [->|Hne]; cbn [negb].
    + rewrite Hsame by done. destruct (inv_get _ _ _ I1) as (c & Hg & _ & Hok & R). rewrite Hg. cbn [obind].
      destruct (Hrc0 eq_refl) as (c' & Hg' & Hd). rewrite Hg in Hg'. injection Hg' as <-.
      pose proof (rv_cmp _ _ _ R) as Hcmp. unfold cmp_of in Hcmp. injection Hcmp as E1 E2 E3.
      unfold do_compare, var_value in Hd. rewrite E1, E2, E3 in Hd. simpl in Hd. apply Z.eqb_neq in Hd.
      assert (need_filesize c = 0) as Hn by (destruct (rv_nf _ _ _ R) as [?|[_ ?]]; done).
      rewrite (rv_fs _ _ _ R Hn). rewrite (proj2 (Z.ltb_ge _ 0)) by lia.
      pose proof blocks_eq as Hbe. cbv zeta in Hbe. rewrite Hbe.
      destruct (put_inv false (Some (V_need_filesize, CMP_EQ, 1)) true None s1 c (set_blockcnt blocks_of c) I1 Hg) as (s3 & -> & I3 & _).
      { intros []. by split. }
      { intros []. split; try done. by left. }
      simpl. split; [split_and!; [by eapply inv_false|done|lia]|by left].
    + assert (length e1 < length e)%nat by (apply Hrc; by left).
      destruct (negb (cut s2 =? 0) && negb (ch =? PUBLIC_CHANNEL)) eqn:Hcut.
      { simpl. split; [split_and!; [done..|lia]|]. right. by apply (cut_true (cut s2)), I2. }
      eapply safe_mono; [apply IH2; [done..|lia]|]. intros [[? ?] ?] [(? & ? & ?) ?].
      split; [split_and!; [done..|lia]|done].
Qed.

Lemma send_and_wait_inv s e r len v op x wf retry : inv true None s -> good_env e ->
  safe (send_and_wait s e ch r len v op x wf retry) (fun '(rc, s', e') =>
    went false None e s' e' /\ (inv true None s' \/ rc = 1 /\ cutted) /\
    (rc <> 0 \/ (wf = true /\ exists c, get_ch s ch = Ret c /\ do_compare (set_compare c v op x) = true) ->
       (length e' < length e)%nat)).
Proof.
  intros I He. unfold send_and_wait. eapply safe_bind; [by apply send_and_wait_1_inv|].
  intros [[rc s1] e1] ((I1 & He1 & Hl1) & Hrc & _). destruct (Z.eqb_spec rc 1) as [->|].
  2:{ split_and!; [split_and!; [by eapply inv_false|done..]|left; by eapply inv_weaken|done]. }
  eapply safe_bind; [apply (proj1 (reopen_inv _)); [by eapply inv_false|done|unfold reopen_fuel; lia]|].
  intros [[rc2 s2] e2] [(I2 & He2 & Hl2) Hor]. assert (length e1 < length e)%nat by (apply Hrc; by left).
  simpl. split_and!; [split_and!; [done..|lia]| |lia]. destruct Hor; [by left|by right].
Qed.

(** What the two loops of [internal_read] leave. *)
Definition loop_end (e : env) (ok : bool) (s' : client) (e' : env) : Prop :=
  went false None e s' e' /\ (ok = true -> inv true None s') /\ (ok = false -> cutted).

Lemma loop_end_le e e1 ok s' e' : (length e1 <= length e)%nat -> loop_end e1 ok s' e' -> loop_end e ok s' e'.
Proof. intros ? [(? & ? & ?) ?]. split; [split_and!; [done..|lia]|done]. Qed.

Lemma ack_loop_inv fuel s e : inv true None s -> good_env e -> (length e < fuel)%nat ->
  safe (ack_loop fuel s e ch) (fun '(ok, s', e') => loop_end e ok s' e').
Proof.
  revert s e. induction fuel as [|fuel IH]; intros s e I He Hf; [lia|]. cbn [ack_loop].
  eapply safe_bind; [by apply send_and_wait_inv|]. intros [[rc s1] e1] (W & Hor & Hrc).
  destruct (Z.eqb_spec rc 0) as [->|Hne]; [split_and!; [done| |done]; by destruct Hor as [|[? _]]|].
  destruct W as (I1 & He1 & Hl1). destruct (negb (cut s1 =? 0) && _) eqn:Hcut.
  { split; [done|]. split; [done|]. intros _. by apply (cut_true (cut s1)), I1. }
  assert (length e1 < length e)%nat by (apply Hrc; by left).
  destruct Hor as [I1'|[_ [Hc1 Hc2]]].
  2:{ exfalso. destruct I1 as (_ & Hct & _). rewrite Hct in Hcut.
      rewrite (proj2 (Z.eqb_neq _ _) Hc1), (proj2 (Z.eqb_neq _ _) Hc2) in Hcut. done. }
  eapply safe_mono; [apply IH; [done..|lia]|]. intros [[? ?] ?] ?. eapply loop_end_le; [|done]. lia.
Qed.

Lemma data_loop_inv fuel s e lastval : inv true None s -> good_env e -> (length e < fuel)%nat ->
  safe (data_loop fuel s e ch lastval) (fun '(ok, s', e') => loop_end e ok s' e' /\
    (ok = true -> exists c, get_ch s' ch = Ret c /\ brcvcnt c = 0)).
Proof.
  revert s e lastval. induction fuel as [|fuel IH]; intros s e lastval I He Hf; [lia|]. cbn [data_loop].
  destruct (inv_get _ _ _ I) as (c & Hg & Hc & Hok & R). rewrite Hg. cbn [obind].
  destruct (Z.eqb_spec (brcvcnt c) 0) as [Hz|Hnz].
  { simpl. split_and!; [split_and!; [split_and!; [by eapply inv_false|done..]|done|done]|eauto]. }
  match goal with |- context [put_ch _ _ ?x] => destruct (put_inv true None true None s c x I Hg) as (s1 & -> & I1 & Hg1 & _) end.
  { intros []. split; try done. simpl. repeat case_match; rewrite ?zlen_put32; rewrite ?zlen_put32; fld. }
  { intros []. by split. }
  cbn [obind]. eapply safe_bind; [by apply send_and_wait_inv|]. intros [[rc s2] e2] ((I2 & He2 & Hl2) & Hor & Hrc).
  assert (length e2 < length e)%nat.
  { apply Hrc. right. split; [done|]. eexists. split; [exact Hg1|].
    unfold do_compare, var_value. simpl. rewrite Z.gtb_ltb. apply Z.ltb_lt.
    pose proof (rv_cnt _ _ _ R). pose proof (ones_bounds (bufok c)). lia. }
  destruct (negb (cut s2 =? 0) && _) eqn:Hcut.
  { simpl. split; [|done]. split; [split_and!; [done..|lia]|]. split; [done|]. intros _.
    by apply (cut_true (cut s2)), I2. }
  destruct Hor as [I2'|[_ [Hc1 Hc2]]].
  2:{ exfalso. destruct I2 as (_ & Hct & _). rewrite Hct in Hcut.
      rewrite (proj2 (Z.eqb_neq _ _) Hc1), (proj2 (Z.eqb_neq _ _) Hc2) in Hcut. done. }
  eapply safe_mono; [apply IH; [done..|lia]|]. intros [[? ?] ?] [? ?].
  split; [|done]. eapply loop_end_le; [|done]. lia.
Qed.
End receive.

(** ** A whole block *)

(** The client's view of the file [F] it has open on a channel. *)
Record opened (F : list Z) (c : cchan) : Prop := {
  op_size : filesize c = zlen F;
  op_pos : 0 < zlen F <= INT_MAX;
  op_cnt : blockcnt c = blocks_of F;
  op_want : 0 <= blockwant c;
  op_known : need_filesize c = 0;
}.

Definition rd_of (c : cchan) : list Z * Z * Z := (readbuffer c, rdbufidx c, rdbuflen c).

Lemma opened_in F c : opened F c -> (blockwant c < blockcnt c <-> STB.BLOCK * blockwant c < zlen F).
Proof. intros [_ ? -> ? _]. unfold blocks_of, STB.BLOCK. Z.div_mod_to_equations. lia. Qed.

Lemma expect_len_eq F c : opened F c -> blockwant c < blockcnt c ->
  expect_len c = Z.min STB.BLOCK (zlen F - STB.BLOCK * blockwant c) /\ 0 < expect_len c <= STB.BLOCK.
Proof.
  intros O Hw. apply (opened_in F c O) in Hw as Hin. destruct O as [Hs [Hp Hm] Hc Hw0 _].
  unfold blocks_of in Hc. unfold expect_len. rewrite Hs, Z.rem_mod_nonneg, u32_id by (unfold STB.BLOCK, INT_MAX in *; Z.div_mod_to_equations; lia).
  rewrite Hc in *. unfold STB.BLOCK in *.
  destruct (Z.ltb_spec (blockwant c) ((zlen F + (32768 - 1)) / 32768 - 1));
    [|destruct (Z.eqb_spec (zlen F mod 32768) 0)]; Z.div_mod_to_equations; lia.
Qed.

Lemma start_ok c : chan_ok c -> chan_ok (start_block c).
Proof.
  intros []. unfold start_block. split; simpl; try done.
  - assert (zlen (put32 (stm_buffer c) o_cmd PDU_FETCH) = 2000) as H1 by (by rewrite zlen_put32 by fld).
    assert (zlen (put32 (put32 (stm_buffer c) o_cmd PDU_FETCH) o_block (blockwant c)) = 2000) as H2
      by (by rewrite zlen_put32 by fld).
    rewrite zlen_patch; [done|fld|]. match goal with |- _ + ?x <= _ => change x with 23 end. fld.

Qed.

Lemma start_rcv F elen c : opened F c ->
  rcv_ok F (blockwant c) (filecnt c) elen (rd_of c) true None (start_block c).
Proof.
  intros O. split; [done|done| |by vm_compute| |done|by apply O|left; by apply O|intros _; by apply O|done].
  - apply (Forall_replicate (fun x => x = 0 \/ x = 1) 23 1). by right.
  - intros i Hi. apply (lookup_replicate_1 23 1 0 i) in Hi as [? _]. done.
Qed.

Lemma start_inv F s ch c elen : cli_ok s -> 0 <= ch < STB.MAX_STIOV3_CHANNEL -> get_ch s ch = Ret c ->
  opened F c ->
  exists s', put_ch s ch (start_block c) = Ret s' /\
    inv F ch (blockwant c) (filecnt c) elen (rd_of c) (cut s) true None s' /\
    get_ch s' ch = Ret (start_block c) /\ current_VODserver s' = current_VODserver s.
Proof.
  intros I Hch Hg O. destruct (get_ch_ok s ch I Hch) as (c' & Hg' & Hc & Hok). rewrite Hg in Hg'. injection Hg' as <-.
  rewrite (proj2 (get_put s ch c (start_block c) Hc ltac:(lia))). eexists. split; [done|].
  assert ((<[Z.to_nat ch := start_block c]> (chs s)) !! Z.to_nat ch = Some (start_block c)) as Hi
    by (apply list_lookup_insert_eq; by eapply lookup_lt_Some).
  split_and!; [split_and!| |done].
  - apply cli_ok_put; [done|by apply start_ok].
  - done.
  - exists (start_block c). split; [done|by apply start_rcv].
  - apply (get_put _ _ (start_block c) (start_block c)); [done|lia].
Qed.

(** The end of [internal_read], when all packets are there. *)
Lemma read_end F s ch c elen blk fc rd ct :
  0 <= ch < STB.MAX_STIOV3_CHANNEL -> inv F ch blk fc elen rd ct true None s -> get_ch s ch = Ret c ->
  brcvcnt c = 0 -> 0 <= blk -> 0 <= elen <= STB.BLOCK -> STB.BLOCK * blk + elen <= zlen F ->
  0 < zlen F <= INT_MAX -> u32 (blk + 1) = blk + 1 ->
  elen <= zlen (bbuf c) /\ slice (bbuf c) 0 elen = slice F (STB.BLOCK * blk) elen /\
  exists s' c', put_ch s ch (set_blockwant (u32 (blockwant c + 1)) c) = Ret s' /\ cli_ok s' /\
    get_ch s' ch = Ret c' /\ blockwant c' = blk + 1 /\ filecnt c' = fc /\ rd_of c' = rd /\ opened F c' /\
    cut s' = ct.
Proof.
  intros Hch I Hg Hz Hb He HF HF0 Hu.
  destruct (inv_get F ch blk fc elen rd ct Hch _ _ s I) as (c' & Hg' & Hc & Hok & R).
  rewrite Hg in Hg'. injection Hg' as <-. rewrite (rv_blk _ _ _ _ _ _ _ _ R). split_and!.
  - rewrite (co_bbuf _ Hok). unfold STB.PKT, STB.NPKT, STB.BLOCK in *. lia.
  - eapply rcv_done; (done || lia).
  - rewrite (proj2 (get_put s ch c (set_blockwant (u32 (blk + 1)) c) Hc ltac:(lia))).
    eexists _, (set_blockwant (u32 (blk + 1)) c). destruct I as (I & Hct & _). destruct R.
    assert (need_filesize c = 0) by (by destruct rv_nf0 as [?|[? _]]).
    split_and!; [done| | |done|done|done| |done].
    + apply cli_ok_put; [done|]. destruct Hok. by split.
    + apply (get_put _ _ (set_blockwant (u32 (blk + 1)) c) c); [|lia].
      simpl. apply list_lookup_insert_eq. by eapply lookup_lt_Some.
    + split; simpl; [auto|done|done|lia|done].
Qed.

Lemma opened_bounds F c : opened F c -> blockwant c < blockcnt c ->
  0 <= expect_len c <= STB.BLOCK /\ STB.BLOCK * blockwant c + expect_len c <= zlen F /\
  u32 (blockwant c + 1) = blockwant c + 1.
Proof.
  intros O Hw. destruct (expect_len_eq F c O Hw) as [-> He]. destruct O as [_ [? ?] Hc ? _].
  unfold blocks_of in Hc. split_and!; [lia|lia|lia|]. apply u32_id. unfold STB.BLOCK, INT_MAX in *.
  revert Hw. rewrite Hc. Z.div_mod_to_equations. lia.
Qed.

Lemma internal_read_run F s e ch c :
  cli_ok s -> 0 <= ch < STB.MAX_STIOV3_CHANNEL -> get_ch s ch = Ret c -> opened F c ->
  blockwant c < blockcnt c ->
  good_env F ch (filecnt c) e ->
  safe (internal_read s e ch) (fun '(rc, bytes, s', e') =>
    cli_ok s' /\ (length e' <= length e)%nat /\ cut s' = cut s /\ good_env F ch (filecnt c) e' /\
    (rc = -1 /\ bytes = [] /\ cut s <> 0 /\ ch <> PUBLIC_CHANNEL \/
     rc = Z.min STB.BLOCK (zlen F - STB.BLOCK * blockwant c) /\
     bytes = slice F (STB.BLOCK * blockwant c) rc /\
     exists c', get_ch s' ch = Ret c' /\ blockwant c' = blockwant c + 1 /\ filecnt c' = filecnt c /\
       rd_of c' = rd_of c /\ opened F c')).
Proof.
  intros I Hch Hg O Hw He. destruct (opened_bounds F c O Hw) as (Hel & HF & Hu).
  pose proof (op_pos _ _ O) as HF0.
  assert (expect_len c <= Z.min STB.BLOCK (zlen F - STB.BLOCK * blockwant c)) as HL by lia.
  rewrite <- (proj1 (expect_len_eq F c O Hw)). unfold internal_read. rewrite Hg. cbn [obind].
  rewrite (proj2 (Z.leb_gt _ _) Hw).
  destruct (start_inv F s ch c (expect_len c) I Hch Hg O) as (s1 & -> & I1 & _). cbn [obind].
  eapply safe_bind;
    [apply (ack_loop_inv F ch (blockwant c) (filecnt c) (expect_len c) (rd_of c) (cut s)); [done..|lia]|].
  intros [[ok s2] e2] ((I2 & He2 & Hl2) & Hok2 & Hcut). destruct ok; cbn [negb].
  2:{ simpl. split_and!; [apply I2|done|apply I2|done|]. left. by destruct Hcut. }
  eapply safe_bind;
    [apply (data_loop_inv F ch (blockwant c) (filecnt c) (expect_len c) (rd_of c) (cut s)); [done|done|done|by apply Hok2|done|lia]|].
  intros [[ok s3] e3] [((I3 & He3 & Hl3) & Hok3 & Hcut3) Hdone]. destruct ok; cbn [negb].
  2:{ simpl. split_and!; [apply I3|lia|apply I3|done|]. left. by destruct Hcut3. }
  destruct Hdone as (c3 & Hg3 & Hz); [done|]. rewrite Hg3. cbn [obind].
  destruct (read_end F s3 ch c3 (expect_len c) (blockwant c) (filecnt c) (rd_of c) (cut s))
    as (Hroom & Hbytes & s4 & c4 & -> & I4 & Hg4 & Hbw & Hfc & Hrd & O4 & Hc4);
    [done|by apply Hok3|done|done|by apply O|done|done|done|done|].
  rewrite (proj2 (Z.leb_le _ _) Hroom). cbn [obind]. simpl. split_and!; [done|lia|done|done|]. right.
  split_and!; [done|done|]. exists c4. by split_and!.
Qed.

(** C4: reading a block is safe and right in every environment.  Whatever is
    lost, repeated, delayed or reordered, and whatever servers come and go, as
    long as data packets for this block carry the bytes of the file: the call
    does not fault and does not loop without waiting; when it returns it returns
    exactly the bytes of the wanted block and moves on to the next one, or -1
    because it was cut. *)
Theorem internal_read_correct F s e ch c :
  cli_ok s -> 0 <= ch < STB.MAX_STIOV3_CHANNEL -> get_ch s ch = Ret c -> opened F c ->
  blockwant c < blockcnt c ->
  good_env F ch (filecnt c) e ->
  safe (internal_read s e ch) (fun '(rc, bytes, s', e') =>
    cli_ok s' /\ (length e' <= length e)%nat /\
    (rc = -1 /\ bytes = [] /\ cut s <> 0 /\ ch <> PUBLIC_CHANNEL \/
     rc = Z.min STB.BLOCK (zlen F - STB.BLOCK * blockwant c) /\
     bytes = slice F (STB.BLOCK * blockwant c) rc /\
     exists c', get_ch s' ch = Ret c' /\ blockwant c' = blockwant c + 1 /\ filecnt c' = filecnt c /\
       opened F c')).
Proof.
  intros I Hch Hg O Hw He. eapply safe_mono; [by apply (internal_read_run F s e ch c)|].
  intros [[[rc bytes] s'] e'] (I' & Hl & _ & _ & [Hx|(-> & -> & c' & ? & ? & ? & ? & ?)]).
  - split_and!; [done..|by left].
  - split_and!; [done..|right]. split_and!; [done..|]. by exists c'.
Qed.

Lemma wait_done fuel s ch t e r len retry count c s' c' :
  get_ch s ch = Ret c -> do_compare c = true ->
  run_dgrams s (t_dgrams t) = Ret s' -> get_ch s' ch = Ret c' -> do_compare c' = false ->
  wait_loop (S (S fuel)) s (t :: e) ch r len retry count = Ret (0, s', e).
Proof.
  intros Hg Hd Hrun Hg' Hd'. cbn [wait_loop]. rewrite Hg. cbn [obind]. rewrite Hd, Hrun. cbn [obind].
  rewrite Hg'. cbn [obind]. by rewrite Hd'.
Qed.

(** With a known server, a read whose first wait brings a packet of the wanted block goes on
    to wait for the rest of them. *)
Lemma internal_read_turn F s t e ch c j :
  cli_ok s -> 0 <= ch < STB.MAX_STIOV3_CHANNEL -> get_ch s ch = Ret c -> opened F c ->
  blockwant c < blockcnt c -> 0 <= current_VODserver s ->
  good_env F ch (filecnt c) (t :: e) ->
  (j < 23)%nat -> Exists (fun x => delivers ch (blockwant c) (filecnt c) (snd x) j) (t_dgrams t) ->
  exists s2 s3, let I := inv F ch (blockwant c) (filecnt c) (expect_len c) (rd_of c) (cut s) true in
    I (Some (V_vodsvr_response, CMP_EQ, 0)) s2 /\ (forall i, (i < 23)%nat -> lacks ch s2 i) /\ run_dgrams s2 (t_dgrams t) = Ret s3 /\ I None s3 /\
    internal_read s (t :: e) ch =
      (let* y := data_loop (S (length e)) s3 e ch STB.NPKT in
       let '(ok', s3, e3) := y in
       if negb ok' then Ret (-1, [], s3, e3)
       else
         let* c3 := get_ch s3 ch in
         if expect_len c <=? zlen (bbuf c3) then
           let* s4 := put_ch s3 ch (set_blockwant (u32 (blockwant c3 + 1)) c3) in
           Ret (expect_len c, slice (bbuf c3) 0 (expect_len c), s4, e3)
         else Fault OutOfBounds).
Proof.
  intros I Hch Hg O Hw Hv He Hj Hdel. destruct (opened_bounds F c O Hw) as (Hel & HF & Hu).
  pose proof (op_pos _ _ O) as HF0.
  assert (expect_len c <= Z.min STB.BLOCK (zlen F - STB.BLOCK * blockwant c)) as HL by lia.
  unfold internal_read. rewrite Hg. cbn [obind]. rewrite (proj2 (Z.leb_gt _ _) Hw).
  destruct (start_inv F s ch c (expect_len c) I Hch Hg O) as (s1 & -> & I1 & Hg1 & Hv1). cbn [obind ack_loop].
  unfold send_and_wait at 1, send_and_wait_1. rewrite Hg1. cbn [obind].
  set (c1 := set_compare (start_block c) V_vodsvr_response CMP_EQ 0).
  destruct (put_inv F ch (blockwant c) (filecnt c) (expect_len c) (rd_of c) (cut s) Hch true None true
              (Some (V_vodsvr_response, CMP_EQ, 0)) s1 (start_block c) c1 I1 Hg1)
    as (s1' & -> & I1' & Hg1' & Hv1'); [intros []; by split..|]. cbn [obind].
  destruct (send_known F ch (blockwant c) (filecnt c) (expect_len c) (rd_of c) (cut s) Hch true _ s1' (t :: e) Stm FETCH_LEN c1 I1' Hg1')
    as (rc & s2 & c2 & -> & I2 & Hc2 & Hresp & Hbuf); [by rewrite Hv1', Hv1|]. cbn [obind].
  apply Forall_cons in He as [Ht He].
  destruct (run_dgrams_has F ch (blockwant c) (filecnt c) (expect_len c) (rd_of c) (cut s) HF0 Hch HL true _ s2 (t_dgrams t) j Hj I2 Ht (or_intror Hdel))
    as (s3 & Hrun & I3 & c3 & Hc3 & _ & Hr3).
  assert (get_ch s3 ch = Ret c3) as Hg3 by (apply (get_put _ _ c3 c3); [done|lia]).
  assert (forall s' c', inv F ch (blockwant c) (filecnt c) (expect_len c) (rd_of c) (cut s) true (Some (V_vodsvr_response, CMP_EQ, 0)) s' ->
    get_ch s' ch = Ret c' -> do_compare c' = (vodsvr_response c' =? 0)) as Hdo.
  { intros s' c' I' Hg'. destruct (inv_get _ _ _ _ _ _ _ Hch _ _ _ I') as (c4 & Hg4 & _ & _ & R). rewrite Hg' in Hg4.
    injection Hg4 as <-. pose proof (rv_cmp _ _ _ _ _ _ _ _ R) as Hcmp. unfold cmp_of in Hcmp. injection Hcmp as Q1 Q2 Q3.
    unfold do_compare, var_value. by rewrite Q1, Q2, Q3. }
  assert (get_ch s2 ch = Ret c2) as Hg2 by (apply (get_put _ _ c2 c2); [done|lia]).
  rewrite (wait_done (length e) s2 ch t e Stm FETCH_LEN _ 0 c2 s3 c3 Hg2); [|by rewrite (Hdo _ _ I2 Hg2), Hresp|done|done|by rewrite (Hdo _ _ I3 Hg3), Hr3].
  exists s2, s3. cbv zeta. split_and!; [done| |done|by eapply inv_weaken|done].
  intros i Hi. exists c2. split; [done|]. rewrite Hbuf. apply (lookup_replicate_2 23 1 i). done.
Qed.

(** Progress: when the packets of the wanted block
    arrive during the wait for the server's answer (all 23, in any order, with
    any repetitions and among any other sound datagrams), the call returns, with
    the bytes of the block, after that single wait. *)
Lemma internal_read_progress F s t e ch c :
  cli_ok s -> 0 <= ch < STB.MAX_STIOV3_CHANNEL -> get_ch s ch = Ret c -> opened F c ->
  blockwant c < blockcnt c -> 0 <= current_VODserver s ->
  good_env F ch (filecnt c) (t :: e) ->
  (forall i, (i < 23)%nat -> Exists (fun x => delivers ch (blockwant c) (filecnt c) (snd x) i) (t_dgrams t)) ->
  exists s' c', internal_read s (t :: e) ch =
      Ret (expect_len c, slice F (STB.BLOCK * blockwant c) (expect_len c), s', e) /\
    cli_ok s' /\ get_ch s' ch = Ret c' /\ blockwant c' = blockwant c + 1.
Proof.
  intros I Hch Hg O Hw Hv He Hall. destruct (opened_bounds F c O Hw) as (Hel & HF & Hu). pose proof (op_pos _ _ O) as HF0.
  destruct (internal_read_turn F s t e ch c 0 I Hch Hg O Hw Hv He ltac:(lia) (Hall 0%nat ltac:(lia))) as (s2 & s3 & I2 & _ & Hrun & I3 & ->).
  apply Forall_cons in He as [Ht He].
  destruct (run_dgrams_complete F ch (blockwant c) (filecnt c) (expect_len c) (rd_of c) (cut s) HF0 Hch ltac:(lia) true _ s2 (t_dgrams t) I2 Ht Hall)
    as (s3' & c3 & Hrun' & _ & Hg3 & Hz & _). rewrite Hrun in Hrun'. injection Hrun' as <-.
  cbn [data_loop]. rewrite Hg3. cbn [obind]. rewrite Hz. cbn [Z.eqb obind negb]. rewrite Hg3. cbn [obind].
  destruct (read_end F s3 ch c3 (expect_len c) (blockwant c) (filecnt c) (rd_of c) (cut s))
    as (Hroom & Hbytes & s4 & c4 & -> & I4 & Hg4 & Hbw & _); [done|done|done|done|by apply O|done|done|done|done|].
  rewrite (proj2 (Z.leb_le _ _) Hroom). cbn [obind]. rewrite Hbytes. by do 2 eexists.
Qed.

(** When one of the packets does not come, the call is still waiting. *)
Lemma internal_read_waits F s t ch c i j :
  cli_ok s -> 0 <= ch < STB.MAX_STIOV3_CHANNEL -> get_ch s ch = Ret c -> opened F c ->
  blockwant c < blockcnt c -> 0 <= current_VODserver s -> good_env F ch (filecnt c) [t] ->
  (j < 23)%nat -> Exists (fun x => delivers ch (blockwant c) (filecnt c) (snd x) j) (t_dgrams t) ->
  (i < 23)%nat -> Forall (fun x => other_than (snd x) i) (t_dgrams t) ->
  internal_read s [t] ch = Block.
Proof.
  intros I Hch Hg O Hw Hv He Hj Hdel Hi Hoth. destruct (opened_bounds F c O Hw) as (Hel & HF & Hu). pose proof (op_pos _ _ O) as HF0.
  destruct (internal_read_turn F s t [] ch c j I Hch Hg O Hw Hv He Hj Hdel) as (s2 & s3 & I2 & Hlk & Hrun & I3 & ->).
  apply Forall_cons in He as [Ht _].
  destruct (run_dgrams_lacks F ch (blockwant c) (filecnt c) (expect_len c) (rd_of c) (cut s) HF0 Hch ltac:(lia) true _ s2 (t_dgrams t) i I2 Ht Hoth (Hlk i Hi))
    as (s3' & Hrun' & _ & c3' & Hc3' & Hone). rewrite Hrun in Hrun'. injection Hrun' as <-.
  destruct (inv_get _ _ _ _ _ _ _ Hch _ _ _ I3) as (c3 & Hg3 & Hc3 & Hok3 & R3). rewrite Hc3 in Hc3'. injection Hc3' as <-.
  pose proof (ones_insert _ _ Hone) as Ho. pose proof (ones_bounds (<[i := 0]> (bufok c3))). pose proof (rv_cnt _ _ _ _ _ _ _ _ R3) as Hcnt.
  cbn [data_loop length]. rewrite Hg3. cbn [obind]. rewrite (proj2 (Z.eqb_neq (brcvcnt c3) 0)) by lia.
  match goal with |- context [put_ch s3 ch ?x] => set (c4 := x) end. rewrite (proj2 (get_put s3 ch c3 c4 Hc3 ltac:(lia))). cbn [obind].
  unfold send_and_wait, send_and_wait_1. set (s4 := set_chs _ s3).
  assert (chs s4 !! Z.to_nat ch = Some c4) as Hc4 by (apply list_lookup_insert_eq; by eapply lookup_lt_Some).
  rewrite (proj1 (get_put s4 ch c4 c4 Hc4 ltac:(lia))). cbn [obind]. set (c5 := set_compare c4 V_brcvcnt CMP_GT 0).
  rewrite (proj2 (get_put s4 ch c4 c5 Hc4 ltac:(lia))). cbn [obind wait_loop length].
  assert (chs (set_chs (<[Z.to_nat ch:=c5]> (chs s4)) s4) !! Z.to_nat ch = Some c5) as Hc5 by (apply list_lookup_insert_eq; by eapply lookup_lt_Some).
  rewrite (proj1 (get_put _ ch c5 c5 Hc5 ltac:(lia))). cbn [obind].
  assert (do_compare c5 = true) as ->; [|done]. unfold do_compare, var_value. change (brcvcnt c5) with (brcvcnt c3). cbn. rewrite Z.gtb_ltb. apply Z.ltb_lt. lia.
Qed.
End read.

Import VOD.

(** ** Example: a client with server 0, a file of three bytes open on all its
    channels *)
Definition zeros (n : Z) : list Z := replicate (Z.to_nat n) 0.
Lemma zlen_zeros n : 0 <= n -> zlen (zeros n) = n.
Proof. intros. unfold zeros. rewrite zlen_replicate. lia. Qed.

Definition ex_cchan : cchan :=
  mk_cchan 0 0 3 0 0 0 1 0 (replicate 23 0) (zeros 32775) 0 (zeros 2000) (zeros 32768) 0 0 0
    V_brcvcnt 0 0 (zeros 256) 37.
Definition ex_client : client (D := VOD.vodsvr) :=
  mk_client 1 0 0 1 60 0 0 0 UDP.ex_udp VOD.ex_vod 0
    [ex_cchan; ex_cchan; ex_cchan; ex_cchan; ex_cchan] 0 0 0 3 3 0 0 1 (-1) (zeros 2000).

Lemma ex_cchan_ok : chan_ok ex_cchan.
Proof.
  split; [reflexivity|exact (zlen_zeros 32775 ltac:(lia))|exact (zlen_zeros 2000 ltac:(lia))|
    exact (zlen_zeros 256 ltac:(lia))|vm_compute; discriminate|vm_compute; discriminate].
Qed.

Lemma ex_client_ok : cli_ok ex_client.
Proof.
  split; [exact (zlen_zeros 2000 ltac:(lia))|exact VOD.ex_vod_ok|exact UDP.ex_udp_ok|
    change (prefsvr_divider ex_client) with 1; unfold INT_MAX; lia|reflexivity|].
  pose proof ex_cchan_ok. repeat (apply Forall_cons; split; [done|]). by apply Forall_nil.
Qed.

Lemma ex_opened : opened [1; 2; 3] ex_cchan.
Proof. split; [reflexivity|vm_compute; by split|reflexivity|change (blockwant ex_cchan) with 0; lia|reflexivity]. Qed.
End RD.
