(* ===== verification/StioFile.v ===== *)
(** * StioFile.v: the file interface of the stream client, streamio_v3/client.c and
      streamio_v3/src.client/stio_eng.c

    Opening, seeking and reading a remote file as a byte stream, on top of the
    block reads of StioRead.v: a read that asks for less than a block keeps the
    rest of the block in [readbuffer] for the next one. *)

From S2P Require Import Prelude Interfaces Posix Udp Wire VodTable StbTable StioClient StioRead.

Module SF.
Import CLI RD.

Section file.
Context {D : Type} `{VD : VodDirectory D}.
Context (junk : list Z).
Abbreviation client := (CLI.client (D := D)).

Definition stiov3_start (s : client) : client := set_terminate 0 s.
Definition stiov3_stop (s : client) : client := set_terminate 1 s.

Definition stiov3_reopen (s : client) (ch : Z) : outcome (Z * client) :=
  let* c := get_ch s ch in
  let* s' := put_ch s ch (set_rdbuflen 0 (set_rdbufidx 0 (set_blockwant 0 c))) in
  Ret (1, s').

(** [pos] is an [off_t]; the block number is unsigned and its product with 32768
    is returned as an [int]. *)
Definition stiov3_seek (s : client) (ch pos : Z) : outcome (Z * client) :=
  let* c := get_ch s ch in
  let w := u32 (Z.quot pos STB.BLOCK) in
  let* s' := put_ch s ch (set_rdbuflen 0 (set_rdbufidx 0 (set_blockwant w c))) in
  Ret (to_int (w * STB.BLOCK), s').

Definition STIOV3_DEFAULT_FILENAME_LEN : Z := 6.

(** Lines 123-143: the open request in both PDUs of the channel. *)
Definition prepare_open (c : cchan) (ch : Z) (fname : path) : outcome cchan :=
  let len := zlen fname in
  let cnt := u32 (filecnt c + 1) in
  let b1 := put8 (put32 (stm_buffer c) o_cmd PDU_OPENFILE) o_channel ch in
  let* b2 := blit b1 o_file (fname ++ [0]) in
  let b3 := put32 (put8 b2 o_fnlen len) o_filecnt cnt in
  let plen := if STIOV3_DEFAULT_FILENAME_LEN <? len
              then SIZEOF_PDU - STIOV3_DEFAULT_FILENAME_LEN + len else SIZEOF_PDU in
  let* r := blit (reopen_pdu c) 0 (slice b3 0 plen) in
  Ret (set_reopen_pdu r (set_reopen_pdu_len plen
        (set_may_need_fix_filename (if ch =? 0 then 1 else 0) (set_stm_buffer b3 (set_filecnt cnt c))))).

Definition stiov3_openfile (s : client) (e : env) (ch : Z) (fname : path) : outcome (Z * client * env) :=
  if 100 <? zlen fname then Ret (-1, s, e)
  else
    let* c := get_ch s ch in
    let* c1 := prepare_open c ch fname in
    let* s1 := put_ch s ch c1 in
    let* r := stiov3_reopen (set_cut 0 s1) ch in
    internal_reopen_file junk (reopen_fuel e) (snd r) e ch.

Definition stiov3_filesize (s : client) (ch : Z) : outcome Z :=
  let* c := get_ch s ch in Ret (filesize c).

(** [stiov3_partial_read]: the result and the bytes written to [buffer]. *)
Definition stiov3_partial_read (s : client) (e : env) (ch len : Z)
  : outcome (Z * list Z * client * env) :=
  if len <=? 0 then Ret (len, [], s, e)
  else
    let* c := get_ch s ch in
    if 0 <? rdbuflen c then
      let rc := rdbuflen c in
      let n := if rc <=? len then rc else len in
      if (0 <=? rdbufidx c) && (rdbufidx c + n <=? zlen (readbuffer c)) then
        let bytes := slice (readbuffer c) (rdbufidx c) n in
        let c' := if rc <=? len then set_rdbufidx 0 (set_rdbuflen 0 c)
                  else set_rdbufidx (rdbufidx c + len) (set_rdbuflen (rc - len) c) in
        let* s' := put_ch s ch c' in
        Ret (n, bytes, s', e)
      else Fault OutOfBounds
    else if len <? STB.BLOCK then
      let* x := internal_read junk s e ch in
      let '(rc, data, s1, e1) := x in
      if 0 <? rc then
        let* c1 := get_ch s1 ch in
        let* rb := blit (readbuffer c1) 0 data in
        let c2 := set_readbuffer rb c1 in
        if rc <=? len then
          let* s2 := put_ch s1 ch c2 in Ret (rc, slice rb 0 rc, s2, e1)
        else
          let* s2 := put_ch s1 ch (set_rdbufidx len (set_rdbuflen (rc - len) c2)) in
          Ret (len, slice rb 0 len, s2, e1)
      else Ret (rc, [], s1, e1)
    else internal_read junk s e ch.

(** [stiov3_read]: repeat until [len] bytes are there or a read fails.  Every
    round that does not end the loop delivers at least one byte. *)
Fixpoint read_loop (fuel : nat) (s : client) (e : env) (ch explen : Z) (acc : list Z)
  : outcome (Z * list Z * client * env) :=
  match fuel with
  | O => Fault OutOfFuel
  | S fuel' =>
      if 0 <? explen then
        let* x := stiov3_partial_read s e ch explen in
        let '(rl, bytes, s1, e1) := x in
        if rl <=? 0 then Ret (zlen acc, acc, s1, e1)
        else read_loop fuel' s1 e1 ch (explen - rl) (acc ++ bytes)
      else Ret (zlen acc, acc, s, e)
  end.
Definition stiov3_read (s : client) (e : env) (ch len : Z) : outcome (Z * list Z * client * env) :=
  read_loop (S (Z.to_nat len)) s e ch len [].

Definition stiov3_closefile (s : client) (ch : Z) : Z := 0.
Definition stiov3_abort (s : client) : client := set_cut 1 s.
Definition stiov3_get_server (s : client) : Z * Z := (have_VODserver s, server_port s).
Definition stiov3_get_server_id (s : client) : Z := file_server s.

Definition DEFALUT_DELAY_OPENFILE : Z := 500000.
Definition DEFALUT_DELAY_RESPONSE : Z := 20000.
Definition DEFALUT_DELAY_SENDDATA : Z := 50000.

Definition new_delay (old usec dflt : Z) : Z :=
  if 0 <? usec then usec else if usec <? 0 then dflt else old.
Definition stiov3_set_delay (s : client) (which usec : Z) : Z * client :=
  if which =? 1 then
    (timeout_openfile s, set_timeout_openfile (new_delay (timeout_openfile s) usec DEFALUT_DELAY_OPENFILE) s)
  else if which =? 2 then
    (timeout_response s, set_timeout_response (new_delay (timeout_response s) usec DEFALUT_DELAY_RESPONSE) s)
  else if which =? 3 then
    (streamming_delay s, set_streamming_delay (new_delay (streamming_delay s) usec DEFALUT_DELAY_SENDDATA) s)
  else (0, s).

Definition stiov3_set_prefer_server (s : client) (id divider : Z) : Z * client :=
  let rc := prefsvr_id s in
  if (0 <=? id) && (id <? divider) then (rc, set_prefsvr_divider divider (set_prefsvr_id id s))
  else if (id =? divider) && (0 <? id) then
    (rc, set_prefsvr_divider divider
           (set_prefsvr_id (UDP.ntohl (UDP.udplib_get_myself (udp s)) mod divider) s))
  else (rc, s).

(** [new_streamming_io_v3_client]: [s0] and [c0] are the allocated memory, [r] the
    value of [rand ()], [u] the opened socket, [d] the fresh directory. *)
Definition new_cchan (c0 : cchan) : cchan :=
  mk_cchan 0 0 0 0 0 0 0 0 (bufok c0) (bbuf c0) 0 (stm_buffer c0) (readbuffer c0) 0 0
    (may_need_fix_filename c0) (compare_variable c0) (compare_operator c0) (compare_expect c0)
    (reopen_pdu c0) SIZEOF_PDU.
Definition new_client (s0 : client) (c0 : cchan) (prt r : Z) (u : UDP.udplib) (d : D) : client :=
  let s1 := mk_client (Z.rem r 8388608) prt (-1) 0 (qos_threshold s0) 0 0 0 u d (server_port s0)
    (replicate (Z.to_nat STB.MAX_STIOV3_CHANNEL) (new_cchan c0))
    DEFALUT_DELAY_OPENFILE DEFALUT_DELAY_RESPONSE DEFALUT_DELAY_SENDDATA 3 3 (-1) (prefsvr_id s0)
    (prefsvr_divider s0) (-1) (rxbuf s0) in
  snd (stiov3_set_prefer_server (snd (stiov3_set_prefer_server s1 0 1)) 2 2).

(** ** The engine callbacks of stio_eng.c *)
Fixpoint steng_loop (fuel : nat) (s : client) (e : env) (ch explen : Z) (acc : list Z)
  : outcome (Z * list Z * client * env) :=
  match fuel with
  | O => Fault OutOfFuel
  | S fuel' =>
      if 0 <? explen then
        let* x := stiov3_read s e ch explen in
        let '(rlen, bytes, s1, e1) := x in
        if rlen <=? 0 then Ret (zlen acc, acc, s1, e1)
        else steng_loop fuel' s1 e1 ch (explen - rlen) (acc ++ bytes)
      else Ret (zlen acc, acc, s, e)
  end.
Definition steng_read (s : client) (e : env) (ch len : Z) : outcome (Z * list Z * client * env) :=
  steng_loop (S (Z.to_nat len)) s e ch len [].
Definition steng_open (s : client) (e : env) (ch : Z) (fname : path) : outcome (Z * client * env) :=
  stiov3_openfile s e ch fname.
Definition steng_reset (s : client) (ch : Z) : outcome (Z * client) := stiov3_reopen s ch.
Definition steng_seek (s : client) (ch pos : Z) : outcome (Z * client) := stiov3_seek s ch pos.
Definition steng_close (s : client) (ch : Z) : client := s.
Definition steng_abort (s : client) (ch : Z) : client := steng_close (stiov3_abort s) ch.
Definition steng_filesize (s : client) (ch : Z) : outcome Z := stiov3_filesize s ch.
Definition cli_regist_stio (ch : Z) : Z :=
  if (ch <? 0) || (STB.MAX_STIOV3_CHANNEL <=? ch) then -1 else 1.

(** ** The byte stream *)

(** The channel is at byte [pos] of [F]: the blocks before [blockwant] were
    fetched, the last [rdbuflen] bytes of them are still in [readbuffer]. *)
Record stream_at (F : list Z) (pos : Z) (c : cchan) : Prop := {
  sa_open : opened F c;
  sa_buf : zlen (readbuffer c) = STB.BLOCK;
  sa_len : 0 <= rdbuflen c;
  sa_idx : 0 <= rdbufidx c;
  sa_room : rdbufidx c + rdbuflen c <= STB.BLOCK;
  sa_pos : pos = Z.min (STB.BLOCK * blockwant c) (zlen F) - rdbuflen c;
  sa_nonneg : 0 <= pos;
  sa_bytes : slice (readbuffer c) (rdbufidx c) (rdbuflen c) = slice F pos (rdbuflen c);
}.

(** The state between reads. *)
Definition at_pos (F : list Z) (ch fc pos : Z) (s : client) : Prop :=
  cli_ok s /\ exists c, get_ch s ch = Ret c /\ stream_at F pos c /\ filecnt c = fc.

Section stream.
Context (F : list Z) (ch fc : Z) (Hch : 0 <= ch < STB.MAX_STIOV3_CHANNEL).

Lemma put_at s c c' pos : cli_ok s -> get_ch s ch = Ret c -> chan_ok c' -> stream_at F pos c' -> filecnt c' = fc ->
  exists s', put_ch s ch c' = Ret s' /\ at_pos F ch fc pos s' /\ cut s' = cut s.
Proof.
  intros I Hg Hok Hs Hf. destruct (get_ch_ok s ch I Hch) as (c0 & Hg0 & Hc & _). rewrite Hg in Hg0. injection Hg0 as <-.
  rewrite (proj2 (get_put s ch c c' Hc ltac:(lia))). eexists. split_and!; [done| |done].
  split; [by apply cli_ok_put|]. exists c'. split_and!; [|done..].
  apply (get_put _ _ c' c'); [|lia]. simpl. apply list_lookup_insert_eq. by eapply lookup_lt_Some.
Qed.

Lemma slice_prefix (l k : list Z) a b n m :
  0 <= a -> 0 <= b -> 0 <= m <= n -> slice l a n = slice k b n -> slice l a m = slice k b m.
Proof.
  intros Ha Hb Hm E. pose proof (slice_slice l a n 0 m ltac:(lia) ltac:(lia) ltac:(lia) ltac:(lia)) as E1.
  pose proof (slice_slice k b n 0 m ltac:(lia) ltac:(lia) ltac:(lia) ltac:(lia)) as E2.
  rewrite E, E2, !Z.add_0_r in E1. done.
Qed.

Lemma slice_suffix (l k : list Z) a b n m :
  0 <= a -> 0 <= b -> 0 <= m <= n -> slice l a n = slice k b n -> slice l (a + m) (n - m) = slice k (b + m) (n - m).
Proof.
  intros Ha Hb Hm E. pose proof (slice_slice l a n m (n - m) ltac:(lia) ltac:(lia) ltac:(lia) ltac:(lia)) as E1.
  pose proof (slice_slice k b n m (n - m) ltac:(lia) ltac:(lia) ltac:(lia) ltac:(lia)) as E2.
  rewrite E, E2 in E1. done.
Qed.

(** What one partial read delivers. *)
Definition delivered (cut0 pos len rc : Z) (bytes : list Z) (s' : client) : Prop :=
  0 < rc <= len /\ zlen bytes = rc /\ bytes = slice F pos rc /\ at_pos F ch fc (pos + rc) s' \/
  rc = -1 /\ bytes = [] /\ (pos = zlen F /\ at_pos F ch fc pos s' \/ cut0 <> 0 /\ ch <> PUBLIC_CHANNEL).

(** The part served from [readbuffer]. *)
Lemma partial_buffered s e len pos c :
  cli_ok s -> get_ch s ch = Ret c -> stream_at F pos c -> filecnt c = fc -> 0 < len -> 0 < rdbuflen c ->
  exists rc bytes s', stiov3_partial_read s e ch len = Ret (rc, bytes, s', e) /\ cut s' = cut s /\
    delivered (cut s) pos len rc bytes s'.
Proof.
  intros I Hg [O A2 A3 A4 A5 A6 A7 A8] Hf Hl Hr. unfold stiov3_partial_read.
  rewrite (proj2 (Z.leb_gt _ _) Hl), Hg. cbn [obind]. rewrite (proj2 (Z.ltb_lt _ _) Hr).
  destruct (get_ch_ok s ch I Hch) as (c0 & Hg0 & _ & Hok). rewrite Hg in Hg0. injection Hg0 as <-.
  set (n := if rdbuflen c <=? len then rdbuflen c else len).
  assert (0 < n <= rdbuflen c /\ n <= len /\ ((rdbuflen c <=? len) = true -> n = rdbuflen c) /\
          ((rdbuflen c <=? len) = false -> n = len /\ len < rdbuflen c)) as (Hn & Hnl & Hn1 & Hn2).
  { unfold n. destruct (Z.leb_spec (rdbuflen c) len); split_and!; try done; lia. }
  rewrite (proj2 (Z.leb_le 0 _) A4), (proj2 (Z.leb_le (_ + n) _)) by lia. cbn [andb].
  match goal with |- context [put_ch _ _ ?x] => destruct (put_at s c x (pos + n) I Hg) as (s' & -> & Hat & Hcut) end.
  - destruct (rdbuflen c <=? len), Hok; by split.
  - destruct (rdbuflen c <=? len) eqn:E.
    + rewrite (Hn1 eq_refl). split; simpl; try lia; [destruct O; by split|done].
    + destruct (Hn2 eq_refl) as [-> Hlt]. split; simpl; try lia; [destruct O; by split|].
      apply slice_suffix; [lia|lia|lia|done].
  - by destruct (rdbuflen c <=? len).
  - cbn [obind]. do 3 eexists. split_and!; [done|done|]. left. split_and!; [lia|lia| | |done].
    + apply zlen_slice; lia.
    + eapply slice_prefix; [done|done| |exact A8]. lia.
Qed.

Lemma chan_ok_readbuffer c b i l : chan_ok c -> chan_ok (set_rdbufidx i (set_rdbuflen l (set_readbuffer b c))).
Proof. intros []. by split. Qed.

(** What the read of a whole block gives at position [pos], with nothing buffered:
    the bytes up to the end of the block, or a failure at the end of the file or
    after a cut. *)
Definition block_result (s : client) (pos : Z) (c : cchan) : Z * list Z * client * env -> Prop :=
  fun '(rc, bytes, s', e') =>
    cut s' = cut s /\ good_env F ch fc e' /\ cli_ok s' /\
    (0 < rc /\ rc = Z.min STB.BLOCK (zlen F - pos) /\ bytes = slice F pos rc /\
       (exists c', get_ch s' ch = Ret c' /\ blockwant c' = blockwant c + 1 /\ filecnt c' = fc /\ rd_of c' = rd_of c /\ opened F c')
     \/ rc = -1 /\ bytes = [] /\ (pos = zlen F /\ at_pos F ch fc pos s' \/ cut s <> 0 /\ ch <> PUBLIC_CHANNEL)).

Lemma block_read s e pos c :
  cli_ok s -> get_ch s ch = Ret c -> stream_at F pos c -> filecnt c = fc -> good_env F ch fc e -> rdbuflen c <= 0 ->
  safe (internal_read junk s e ch) (block_result s pos c).
Proof.
  intros I Hg A Hf He Hr. destruct (Z.lt_ge_cases (blockwant c) (blockcnt c)) as [Hw|Hw].
  - pose proof (proj1 (opened_in F c (sa_open _ _ _ A)) Hw) as Hin. unfold block_result. rewrite <- Hf in He |- *.
    assert (pos = STB.BLOCK * blockwant c) as -> by (rewrite (sa_pos _ _ _ A); pose proof (sa_len _ _ _ A); lia).
    eapply safe_mono; [apply (internal_read_run junk F s e ch c); [done..|by apply A|done|done]|].
    intros [[[rc bytes] s'] e'] (I' & _ & Hcut & He' & [Hx|(Hrc & -> & c' & Hg' & ?)]); split_and!; try done.
    + right. destruct Hx as (? & ? & ?). split_and!; [done..|]. by right.
    + left. split_and!; [unfold STB.BLOCK in *; lia|done..|]. by exists c'.
  - unfold internal_read. rewrite Hg. cbn [obind]. rewrite (proj2 (Z.leb_le _ _) Hw). simpl.
    split_and!; [done..|]. right. split_and!; [done..|]. left. split; [|split; [done|by exists c]].
    rewrite (sa_pos _ _ _ A). pose proof (sa_len _ _ _ A).
    assert (~ STB.BLOCK * blockwant c < zlen F) by (rewrite <- (opened_in F c (sa_open _ _ _ A)); lia). lia.
Qed.

(** A block read through the read buffer: [len] bytes are handed out, the rest is kept. *)
Lemma block_buffered (s s1 : client) (e1 : env) len pos c c1 rc bytes :
  cli_ok s1 -> get_ch s1 ch = Ret c1 -> stream_at F pos c -> rdbuflen c <= 0 -> 0 < len ->
  0 < rc -> rc = Z.min STB.BLOCK (zlen F - pos) -> bytes = slice F pos rc ->
  blockwant c1 = blockwant c + 1 -> filecnt c1 = fc -> rd_of c1 = rd_of c -> opened F c1 -> cut s1 = cut s ->
  exists rb n s2, blit (readbuffer c1) 0 bytes = Ret rb /\
    (if rc <=? len
     then let* s2 := put_ch s1 ch (set_readbuffer rb c1) in Ret (rc, slice rb 0 rc, s2, e1)
     else let* s2 := put_ch s1 ch (set_rdbufidx len (set_rdbuflen (rc - len) (set_readbuffer rb c1))) in
          Ret (len, slice rb 0 len, s2, e1)) = Ret (n, slice rb 0 n, s2, e1) /\
    cut s2 = cut s /\ delivered (cut s) pos len n (slice rb 0 n) s2.
Proof.
  intros I1 Hg1 [O A2 A3 A4 A5 A6 A7 A8] Hr Hl Hrc Hrc' Hb Hbw Hf1 Hrd O1 Hcut.
  assert (rdbuflen c = 0) as Hr0 by lia. rewrite Hr0, Z.sub_0_r in A6.
  unfold rd_of in Hrd. injection Hrd as R1 R2 R3.
  assert (zlen bytes = rc) as Hzb by (rewrite Hb; apply zlen_slice; unfold STB.BLOCK in *; lia).
  exists (patch (readbuffer c1) 0 bytes). set (rb := patch (readbuffer c1) 0 bytes).
  assert (zlen rb = STB.BLOCK) as Hzr by (unfold rb; rewrite zlen_patch; rewrite ?R1, ?A2; lia).
  assert (slice rb 0 rc = slice F pos rc) as Hs.
  { rewrite <- Hb. unfold rb. apply slice_patch_eq; rewrite ?R1, ?A2; lia. }
  destruct (get_ch_ok s1 ch I1 Hch) as (c0 & Hg0 & _ & Hok). rewrite Hg1 in Hg0. injection Hg0 as <-.
  assert (STB.BLOCK * blockwant c < zlen F) as Hin by (unfold STB.BLOCK in *; lia).
  destruct (Z.leb_spec rc len) as [Hle|Hgt].
  - destruct (put_at s1 c1 (set_readbuffer rb c1) (pos + rc) I1 Hg1) as (s2 & -> & Hat & Hcut2).
    + destruct Hok; by split.
    + split; simpl; rewrite ?R2, ?R3, ?Hr0, ?Hbw; try done; try (unfold STB.BLOCK in *; lia). destruct O1; by split.
    + done.
    + exists rc, s2. split_and!; [apply blit_patch; rewrite ?R1, ?A2; lia|done|congruence|]. left.
      split_and!; [lia|lia|by rewrite Hs, <- Hb|done..].
  - destruct (put_at s1 c1 (set_rdbufidx len (set_rdbuflen (rc - len) (set_readbuffer rb c1))) (pos + len) I1 Hg1) as (s2 & -> & Hat & Hcut2).
    + by apply chan_ok_readbuffer.
    + split; simpl; rewrite ?Hbw; try done; try (unfold STB.BLOCK in *; lia); [destruct O1; by split|].
      apply (slice_suffix rb F 0 pos rc len); [lia|lia|lia|done].
    + done.
    + exists len, s2. split_and!; [apply blit_patch; rewrite ?R1, ?A2; lia|done|congruence|]. left.
      split_and!; [lia|lia|apply zlen_slice; lia| |done]. eapply slice_prefix; [lia|done| |exact Hs]. lia.
Qed.

Lemma partial_read_ok s e len pos :
  at_pos F ch fc pos s -> good_env F ch fc e -> 0 < len ->
  safe (stiov3_partial_read s e ch len) (fun '(rc, bytes, s', e') =>
    cut s' = cut s /\ good_env F ch fc e' /\ delivered (cut s) pos len rc bytes s').
Proof.
  intros (I & c & Hg & A & Hf) He Hl. destruct (Z.lt_ge_cases 0 (rdbuflen c)) as [Hr|Hr].
  { destruct (partial_buffered s e len pos c) as (rc & bytes & s' & -> & Hcut & Hd); [done..|]. done. }
  unfold stiov3_partial_read. rewrite (proj2 (Z.leb_gt _ _) Hl), Hg. cbn [obind]. rewrite (proj2 (Z.ltb_ge _ _) Hr).
  pose proof (block_read s e pos c I Hg A Hf He Hr) as Hread.
  destruct (Z.ltb_spec len STB.BLOCK) as [Hlb|Hlb].
  - eapply safe_bind; [exact Hread|]. intros [[[rc bytes] s1] e1] (Hcut & He1 & I1 & [(Hrc & Hrc' & Hb & c1 & Hg1 & Hbw & Hf1 & Hrd & O1)|Hx]).
    2:{ destruct Hx as (-> & -> & Hx). simpl. split_and!; [done..|]. by right. }
    rewrite (proj2 (Z.ltb_lt _ _) Hrc), Hg1. cbn [obind].
    destruct (block_buffered s s1 e1 len pos c c1 rc bytes) as (rb & n & s2 & -> & Hrun & Hc2 & Hd); [done..|].
    cbn [obind]. rewrite Hrun. simpl. done.
  - eapply safe_mono; [exact Hread|]. destruct A as [O A2 A3 A4 A5 A6 A7 A8].
    assert (rdbuflen c = 0) as Hr0 by lia. rewrite Hr0, Z.sub_0_r in A6.
    intros [[[rc bytes] s1] e1] (Hcut & He1 & I1 & [(Hrc & Hrc' & Hb & c1 & Hg1 & Hbw & Hf1 & Hrd & O1)|Hx]);
      (split_and!; [done..|]); [left|by right].
    unfold rd_of in Hrd. injection Hrd as R1 R2 R3.
    split_and!; [lia|lia|rewrite Hb; apply zlen_slice; unfold STB.BLOCK in *; lia|done|].
    split; [done|]. exists c1. split_and!; [done| |done].
    split; rewrite ?R1, ?R2, ?R3, ?Hr0, ?Hbw; try done; unfold STB.BLOCK in *; lia.
Qed.

Lemma read_loop_ok fuel s e explen pos acc :
  at_pos F ch fc pos s -> good_env F ch fc e -> (Z.to_nat explen < fuel)%nat -> 0 <= pos ->
  safe (read_loop fuel s e ch explen acc) (fun '(rc, bytes, s', e') =>
    cut s' = cut s /\ good_env F ch fc e' /\ exists n, rc = zlen bytes /\ zlen bytes = zlen acc + n /\
      0 <= n <= Z.max 0 explen /\ bytes = acc ++ slice F pos n /\
      (at_pos F ch fc (pos + n) s' /\ (n = Z.max 0 explen \/ pos + n = zlen F) \/
       cut s <> 0 /\ ch <> PUBLIC_CHANNEL)).
Proof.
  revert s e explen pos acc. induction fuel as [|fuel IH]; intros s e explen pos acc A He Hf Hp; [lia|].
  cbn [read_loop]. destruct (Z.ltb_spec 0 explen) as [Hl|Hl].
  2:{ simpl. split_and!; [done..|]. exists 0. rewrite slice_nil, app_nil_r, !Z.add_0_r. split_and!; try done; try lia.
      left. split; [done|]. left. lia. }
  eapply safe_bind; [by apply (partial_read_ok s e explen pos)|].
  intros [[[rl bytes] s1] e1] (Hcut & He1 & [(Hrl & Hz & Hb & A1)|(-> & -> & Hend)]).
  - rewrite (proj2 (Z.leb_gt _ _) (proj1 Hrl)).
    eapply safe_mono; [apply (IH s1 e1 (explen - rl) (pos + rl) (acc ++ bytes)); [done|done|lia|lia]|].
    intros [[[rc bs] s'] e'] (Hcut' & He' & n & Hrc & Hzn & Hn & Hbs & Hor).
    split_and!; [congruence|done|]. exists (rl + n). rewrite zlen_app in Hzn.
    split_and!; [done|lia|lia|lia| |].
    + rewrite Hbs, Hb, <- app_assoc. f_equal. apply slice_app; lia.
    + destruct Hor as [[A' Ho]|?]; [left|right; by rewrite <- Hcut]. rewrite Z.add_assoc. split; [done|lia].
  - simpl. split_and!; [done..|]. exists 0. rewrite slice_nil, app_nil_r, !Z.add_0_r. split_and!; try done; try lia.
    destruct Hend as [[-> A1]|?]; [left|by right]. split; [done|]. by right.
Qed.
End stream.

(** C3: the remote file is a byte stream.  In every environment whose data
    packets carry the bytes of the file, a read of [len] bytes at position [pos]
    does not fault; when it returns, it has delivered the next bytes of the file,
    all [len] of them or, fewer, up to the end of the file, and the channel is at
    the position behind them; only a cut can end it earlier.  Block boundaries,
    partial blocks and the read buffer are invisible. *)
Theorem stiov3_read_stream F ch fc s e len pos :
  0 <= ch < STB.MAX_STIOV3_CHANNEL -> at_pos F ch fc pos s -> good_env F ch fc e -> 0 <= len -> 0 <= pos ->
  safe (stiov3_read s e ch len) (fun '(rc, bytes, s', e') =>
    rc = zlen bytes /\ 0 <= rc <= len /\ bytes = slice F pos rc /\
    (at_pos F ch fc (pos + rc) s' /\ (rc = len \/ pos + rc = zlen F) \/
     cut s <> 0 /\ ch <> PUBLIC_CHANNEL)).
Proof.
  intros Hch A He Hl Hp. unfold stiov3_read.
  eapply safe_mono; [apply (read_loop_ok F ch fc Hch _ s e len pos []); [done..|lia|done]|].
  intros [[[rc bytes] s'] e'] (_ & _ & n & -> & Hz & Hn & -> & Hor). rewrite zlen_nil, app_nil_l, Z.add_0_l in *.
  rewrite Hz. split_and!; [done|lia|lia|done|]. by rewrite Z.max_r in Hor by lia.
Qed.
End file.

(** ** Example: the client of StioRead.v at the start of its file *)
Import VOD.
Lemma ex_at_pos : at_pos [1; 2; 3] 0 0 0 ex_client.
Proof.
  split; [exact ex_client_ok|]. exists ex_cchan. split_and!; [reflexivity| |reflexivity].
  split; [exact ex_opened|exact (zlen_zeros 32768 ltac:(lia))|..]; try reflexivity;
    change (rdbuflen ex_cchan) with 0; change (rdbufidx ex_cchan) with 0; unfold STB.BLOCK; try lia.
Qed.
End SF.
