(* ===== verification/StioEnd.v ===== *)
(** * StioEnd.v: server and client together

    The packets a service turn of the server (StioServer.v) puts on the wire are
    what the client (StioRead.v) needs: the composition of the two sides gives
    the client the bytes of the file, whatever the network does to the order and
    number of the packets. *)

From S2P Require Import Prelude Interfaces Posix Udp Wire Mqueue VodTable StbTable StioServer StioClient StioRead.

Module E2E.

(** ** A data PDU as the client sees it *)
Lemma data_bytes_fields errb p buf :
  zlen errb = 4 -> zlen (STB.p_data p) = STB.p_len p -> STB.p_len p <= STB.PKT -> zlen buf = 2000 ->
  0 <= STB.p_channel p < 128 -> int_ok (STB.p_bid p) ->
  let d := SRV.data_bytes errb p in
  let b := rx buf d in
  zlen d = o_data + STB.p_len p /\ cksum_ok b (zlen d) = true /\ i32_at b o_cmd = PDU_FETCH /\
  char_at b o_channel = STB.p_channel p /\ u32_at b o_filecnt = u32 (STB.p_filecnt p) /\
  u32_at b o_block = u32 (STB.p_block p) /\ i32_at b o_bid = STB.p_bid p /\
  i32_at b o_len = STB.p_len p /\ slice b o_data (STB.p_len p) = STB.p_data p.
Proof.
  intros He Hd Hl Hb Hc Hi d b. pose proof (zlen_nonneg (STB.p_data p)).
  assert (zlen d = o_data + STB.p_len p) as Hz by (by apply SRV.zlen_data_bytes).
  assert (0 <= STB.p_len p <= 1425) as Hlen by (unfold STB.PKT in *; lia).
  assert (exists e0 e1 e2 e3, errb = [e0; e1; e2; e3]) as (e0 & e1 & e2 & e3 & ->).
  { destruct errb as [|e0 [|e1 [|e2 [|e3 [|]]]]]; unfold zlen in He; simpl in He; try lia. eauto. }
  unfold SRV.data_bytes in d. set (raw := _ ++ _) in d.
  assert (zlen raw = o_data + STB.p_len p) as Hzr.
  { unfold raw. autorewrite with katmai. rewrite !zlen_le32, Hd. unfold o_data. lia. }
  assert (forall o n, 4 <= o -> 0 <= n -> o + n <= zlen d -> slice b o n = slice raw o n) as Hs.
  { intros o n Ho Hn Hon. unfold b. rewrite slice_rx_in by fld. unfold d. apply slice_seal; fld. }
  assert (forall z, to_int (le_val (le32 z)) = to_int z) as Hle by (intros; by rewrite le_val_le32, to_int_u32).
  split_and!; [done| | | | | | | |].
  - unfold b. rewrite cksum_rx by fld. rewrite Hz. apply seal_ok. fld.
  - unfold i32_at. rewrite Hs by fld. apply (Hle PDU_FETCH).
  - unfold char_at. rewrite u8_slice, Hs by fld.
    change (slice raw o_channel 1) with [u8 (STB.p_channel p)]. cbn [lookup list_lookup default from_option id].
    unfold u8. rewrite Z.mod_small by lia. rewrite (proj2 (Z.ltb_lt _ _)) by lia. done.
  - unfold u32_at. rewrite Hs by fld. change (slice raw o_filecnt 4) with (le32 (STB.p_filecnt p)).
    rewrite le_val_le32. unfold u32. by rewrite Z.mod_mod.
  - unfold u32_at. rewrite Hs by fld. change (slice raw o_block 4) with (le32 (STB.p_block p)).
    rewrite le_val_le32. unfold u32. by rewrite Z.mod_mod.
  - unfold i32_at. rewrite Hs by fld. change (slice raw o_bid 4) with (le32 (STB.p_bid p)).
    rewrite Hle. by apply to_int_id.
  - unfold i32_at. rewrite Hs by fld. change (slice raw o_len 4) with (le32 (STB.p_len p)).
    rewrite Hle. apply to_int_id. int_lia.
  - rewrite Hs by fld. unfold slice. change (drop (Z.to_nat o_data) raw) with (STB.p_data p).
    apply take_ge. unfold zlen in *. lia.
Qed.

Section transfer.
Context {Q : Type} `{FQ : FifoQueue Q} {D : Type} `{VD : VodDirectory D}.

(** The length of a packet covers the bytes of the block that belong to it. *)
Lemma pkt_covers (tb : STB.stb (Q := Q)) c F b i q :
  STB.request_ok tb c F b -> 0 <= i -> 0 <= q < STB.PKT ->
  STB.PKT * i + q < Z.min STB.BLOCK (zlen F - STB.BLOCK * STB.request_block c) ->
  q < STB.pkt_len (STB.disk_len tb c F) i.
Proof.
  intros R Hi Hq Hlt. destruct (STB.request_disk _ _ _ _ R) as (H1 & H2 & H3 & H4).
  pose proof (STB.rq_best _ _ _ _ R) as Hbest.
  rewrite STB.pkt_len_eq by (unfold STB.BLOCK in *; lia).
  assert (STB.PKT * i + q < STB.disk_len tb c F) as HL.
  { unfold STB.disk_len. unfold STB.BLOCK in *. nia. }
  destruct (Z.ltb_spec i (STB.disk_len tb c F / STB.PKT)); [lia|].
  unfold STB.PKT in *. Z.div_mod_to_equations. lia.
Qed.

Lemma served_good tb c e ch F b p errb :
  STB.request_ok (Q := Q) tb c F b -> STB.served_pkt tb c e ch F p -> 0 <= STB.p_bid p < STB.NPKT ->
  0 <= ch < STB.MAX_STIOV3_CHANNEL -> 0 <= STB.filecount c < 2 ^ 32 -> zlen errb = 4 ->
  RD.good_dgram F ch (STB.filecount c) (SRV.data_bytes errb p) /\
  RD.delivers ch (STB.request_block c) (STB.filecount c) (SRV.data_bytes errb p) (Z.to_nat (STB.p_bid p)).
Proof.
  intros R [P1 P2 P3 P4 P5 P6 P7] Hi Hch Hfc He.
  destruct (STB.request_disk _ _ _ _ R) as (H1 & H2 & H3 & H4).
  pose proof (STB.rq_block _ _ _ _ R). pose proof (STB.rq_in_file _ _ _ _ R). pose proof (STB.rq_size _ _ _ _ R).
  assert (0 <= STB.disk_len tb c F) as HL by (unfold STB.BLOCK in *; lia).
  pose proof (STB.pkt_len_bounds _ (STB.p_bid p) HL) as Hlen. rewrite <- P5 in Hlen.
  assert (u32 (STB.request_block c) = STB.request_block c) as Hu
    by (apply u32_id; unfold STB.BLOCK, INT_MAX in *; lia).
  assert (forall buf, zlen buf = 2000 -> _) as Hf
    by exact (fun buf Hb => data_bytes_fields errb p buf He P6 (proj2 Hlen) Hb
                ltac:(rewrite P2; unfold STB.MAX_STIOV3_CHANNEL in *; lia)
                ltac:(unfold STB.NPKT in *; int_lia)).
  cbv zeta in Hf. rewrite P2, P3, P4, (u32_id (STB.filecount c)), Hu in Hf by done.
  assert (zlen (SRV.data_bytes errb p) = o_data + STB.p_len p) as Hz by (by apply SRV.zlen_data_bytes).
  split; split.
  - split; [rewrite Hz; unfold STB.PKT in *; fld|]. intros buf Hb. destruct (Hf buf Hb) as (_ & _ & E1 & E2 & E3 & E4 & E5 & E6 & E7).
    split; rewrite ?E1; intros ?; [by rewrite E2|done|by rewrite E5, E6].
  - intros buf Hb. destruct (Hf buf Hb) as (_ & _ & E1 & E2 & E3 & E4 & E5 & E6 & E7). split; [by rewrite E1|].
    intros _ _ _. cbv zeta. rewrite E4, E5, E6. intros q Hq Hlt.
    assert (Z.of_nat q < STB.p_len p) as Hql by (rewrite P5; eapply pkt_covers; [done|lia|lia|done]).
    split; [done|]. rewrite <- P7; [|done|lia|lia].
    rewrite <- E7, lookup_slice by fld. f_equal. fld.
  - rewrite Hz. unfold STB.PKT in *. fld.
  - intros buf Hb. destruct (Hf buf Hb) as (_ & E0 & E1 & E2 & E3 & E4 & E5 & E6 & E7). cbv zeta.
    rewrite E0, E1, E2, E3, E4, E5. split_and!; try done. by rewrite Z2Nat.id by lia.
Qed.

(** C1: a block goes through.  The client waits for a block of the file on a
    channel where the server has its request, with all 23 packets wanted.  Then the next
    service turn of the channel sends to the client's address packets such that, if every
    one of them arrives at least once, in whatever order, the client's read returns exactly
    the bytes of that block of the file.  There are two exceptions, both of the code: the
    turn reads past the disk buffer when the last packet of the block does not fit into it
    ([STB.overread]: the block is the last of a full buffer); and when the disk buffer holds
    a multiple of 1425 bytes but less than 23 packets, the last packet is not among those
    sent, and the client is still waiting when all of them have arrived. *)
Theorem block_transfer chunk errb junk s ch c e F b q cap n l a cs cc te tmo src :
  STB.netq (SRV.stb (Q := Q) s) !! Z.to_nat ch = Some q -> fq_rep q cap (n :: l) ->
  STB.get_chan (SRV.stb s) n ch = Ret c -> STB.stbent (SRV.stb s) !! Z.to_nat n = Some e ->
  STB.mutex c = false -> STB.request_ok (SRV.stb s) c F b ->
  UDP.book_ok (SRV.udp s) -> UDP.peer_at (SRV.udp s) (STB.udp e) = Some a -> zlen errb = 4 ->
  STB.map c = replicate 23 1 -> 0 <= STB.filecount c < 2 ^ 32 ->
  0 <= ch < STB.MAX_STIOV3_CHANNEL ->
  CLI.cli_ok (D := D) cs -> CLI.get_ch cs ch = Ret cc -> RD.opened F cc -> 0 <= CLI.current_VODserver cs ->
  CLI.blockwant cc = STB.request_block c -> CLI.filecnt cc = STB.filecount c ->
  RD.good_env F ch (CLI.filecnt cc) te ->
  let L := STB.disk_len (SRV.stb s) c F in
  if STB.overread (SRV.stb s) c F b then SRV.service_turn chunk errb s ch = Fault OutOfBounds
  else exists s' out, SRV.service_turn chunk errb s ch = Ret s' /\
    UDP.sent (SRV.udp s') = UDP.sent (SRV.udp s) ++ ((fun d => (a, d)) <$> out) /\
    forall arrived, (forall d, d ∈ arrived <-> d ∈ out) ->
      let t := RD.mk_turn ((fun d => (src, d)) <$> arrived) tmo in
      if decide (L mod STB.PKT = 0 /\ L < STB.PKT * STB.NPKT) then RD.internal_read junk cs [t] ch = Block
      else exists cs', RD.internal_read junk cs (t :: te) ch =
        Ret (RD.expect_len cc, slice F (STB.BLOCK * STB.request_block c) (RD.expect_len cc), cs', te).
Proof.
  intros Hq Hrep Hc He Hm R B Hp Herr Hmap Hfc Hch I Hg O Hv Hbw Hcnt Hte L.
  destruct (STB.overread (SRV.stb s) c F b) eqn:Hov; [by eapply SRV.service_turn_overread|].
  destruct (SRV.service_turn_run chunk errb s ch c e F b q cap n l a) as (pkts & s' & Hrun & Hsent & Hbids & Hpk); [done..|].
  destruct (STB.request_disk _ _ _ _ R) as (H1 & H2 & H3 & H4).
  assert (0 <= L) as HL0 by (unfold L, STB.BLOCK in *; lia).
  assert (Forall (fun p => 0 <= STB.p_bid p < STB.NPKT) pkts) as Hrange.
  { apply Forall_forall. intros p Hp'. assert (STB.p_bid p ∈ STB.p_bid <$> pkts) as Hx by (apply list_elem_of_fmap; eauto).
    rewrite Hbids in Hx. by apply list_elem_of_filter in Hx as [_ Hx%elem_of_seqZ]. }
  assert (forall p, p ∈ pkts -> RD.good_dgram F ch (CLI.filecnt cc) (SRV.data_bytes errb p) /\
    RD.delivers ch (CLI.blockwant cc) (CLI.filecnt cc) (SRV.data_bytes errb p) (Z.to_nat (STB.p_bid p))) as Hgd.
  { intros p Hp'. rewrite Hcnt, Hbw. eapply served_good; [done|by eapply Forall_forall in Hpk|by eapply Forall_forall in Hrange|done..]. }
  assert (CLI.blockwant cc < CLI.blockcnt cc) as Hw by (apply RD.opened_in with F; [done|]; rewrite Hbw; apply R).
  exists s', (SRV.data_bytes errb <$> pkts). split_and!; [done|by rewrite Hsent, <- list_fmap_compose|].
  intros arrived Harr t. rewrite <- Hbw.
  assert (forall e', RD.good_env F ch (CLI.filecnt cc) e' -> RD.good_env F ch (CLI.filecnt cc) (t :: e')) as Hge.
  { intros e' He'. constructor; [|done]. apply Forall_fmap, Forall_forall. by intros d (p & -> & Hp')%Harr%list_elem_of_fmap; apply Hgd. }
  assert (forall i : nat, Z.of_nat i ∈ STB.p_bid <$> pkts -> Exists (fun x => RD.delivers ch (CLI.blockwant cc) (CLI.filecnt cc) (snd x) i) (RD.t_dgrams t)) as Hdel.
  { intros i (p & Hpi & Hp')%list_elem_of_fmap. apply Exists_fmap, Exists_exists. exists (SRV.data_bytes errb p).
    split; [apply Harr, list_elem_of_fmap; eauto|]. simpl. replace i with (Z.to_nat (STB.p_bid p)) by lia. by apply Hgd. }
  rewrite Hmap in Hbids. case_decide as Hst.
  - destruct Hst as [Hmod Hlt]. rewrite STB.sent_from_eq in Hbids by done.
    assert (0 < L / STB.PKT < STB.NPKT) as HLp by (unfold L, STB.PKT, STB.NPKT, STB.BLOCK in *; Z.div_mod_to_equations; lia).
    apply (RD.internal_read_waits junk F cs t ch cc 22 0); try done; [by apply Hge; constructor|lia| |lia|].
    + apply Hdel. rewrite Hbids. apply list_elem_of_filter. split; [split; [done|intros _; exact (proj1 HLp)]|apply elem_of_seqZ; unfold STB.NPKT; lia].
    + apply Forall_fmap, Forall_forall. intros d (p & -> & Hp')%Harr%list_elem_of_fmap buf Hbuf. simpl.
      destruct (Hgd p Hp') as [_ [_ Hd]]. destruct (Hd buf Hbuf) as (_ & _ & _ & _ & _ & ->).
      assert (STB.p_bid p ∈ STB.p_bid <$> pkts) as Hx by (apply list_elem_of_fmap; eauto). rewrite Hbids in Hx.
      apply list_elem_of_filter in Hx as [[_ Hx] _]. specialize (Hx Hmod). unfold L, STB.NPKT in *. lia.
  - assert (L mod STB.PKT <> 0 \/ STB.PKT * STB.NPKT <= L) as Hfull.
    { destruct (Z.eq_dec (L mod STB.PKT) 0) as [E|E]; [right|by left]. destruct (Z.le_gt_cases (STB.PKT * STB.NPKT) L); [done|]. by destruct Hst. }
    rewrite STB.sent_all_eq in Hbids by done.
    destruct (RD.internal_read_progress junk F cs t te ch cc) as (cs' & ? & Hread & _); try done; [by apply Hge| |by exists cs'].
    intros i Hi. apply Hdel. rewrite Hbids. apply elem_of_seqZ. unfold STB.NPKT. lia.
Qed.
End transfer.

Import VOD MQ.

(** ** Witness: the server and the client of the other files; client 0 is queued *)
Definition ex_server : SRV.server :=
  SRV.set_stb (STB.set_netq [MQ.ex_mq1] SRV.ex_tab) SRV.ex_server.

Lemma ex_rep : MQ.fifo_rep MQ.ex_mq1 1 [0].
Proof. split_and!; [exact MQ.ex_mq1_inv|done|done|]. repeat constructor; lia. Qed.

Lemma ex_request : STB.request_ok (SRV.stb ex_server) (STB.ex_chan (Some STB.ex_buf) 0 0 0 1) [1; 2; 3] STB.ex_buf.
Proof. destruct (STB.ex_request_ok 0 1 [1; 2; 3]) as []; [done|vm_compute; discriminate|]. by split. Qed.
Lemma ex_no_overread : STB.overread (SRV.stb ex_server) (STB.ex_chan (Some STB.ex_buf) 0 0 0 1) [1; 2; 3] STB.ex_buf = false.
Proof. unfold STB.overread. rewrite STB.zlen_ex_buf. reflexivity. Qed.

(** The server's disk buffer has 1 MB; its packets arrive backwards and once more. *)
Lemma block_transfer_witness :
  exists s' out, SRV.service_turn STB.ex_chunk [0; 0; 0; 0] ex_server 0 = Ret s' /\
    UDP.sent (SRV.udp s') = (fun d => (UDP.mk_sockaddr 4 5, d)) <$> out /\
    exists cs', RD.internal_read [] RD.ex_client
        [RD.mk_turn ((fun d => (UDP.mk_sockaddr 7 7, d)) <$> reverse out ++ out) true] 0 =
      Ret (3, [1; 2; 3], cs', []).
Proof.
  pose proof (block_transfer STB.ex_chunk [0; 0; 0; 0] [] ex_server 0 (STB.ex_chan (Some STB.ex_buf) 0 0 0 1)
    (STB.mk_ent 0 0 0 0 true 77 0 (replicate 5 (STB.ex_chan (Some STB.ex_buf) 0 0 0 1))) [1; 2; 3] STB.ex_buf MQ.ex_mq1 1 0 []
    (UDP.mk_sockaddr 4 5) RD.ex_client RD.ex_cchan [] true (UDP.mk_sockaddr 7 7)) as T.
  specialize (T eq_refl ex_rep eq_refl eq_refl eq_refl ex_request UDP.ex_udp_ok eq_refl eq_refl eq_refl ltac:(simpl; lia)
    ltac:(unfold STB.MAX_STIOV3_CHANNEL; lia) RD.ex_client_ok eq_refl RD.ex_opened ltac:(change (CLI.current_VODserver RD.ex_client) with 0; lia)
    eq_refl eq_refl ltac:(by apply Forall_nil)). cbv zeta in T.
  rewrite ex_no_overread in T. destruct T as (s' & out & H1 & H2 & H3).
  destruct (H3 (reverse out ++ out)) as [cs' H4].
  { intros d. rewrite elem_of_app, elem_of_reverse. tauto. }
  exists s', out. split_and!; [exact H1|exact H2|exists cs'; exact H4].
Defined.
End E2E.
