(* ===== verification/StioRun.v ===== *)
(** * StioRun.v: runs of the client with packets of the server

    The theorems on reading (StioRead.v, StioFile.v) applied to an environment in which the
    23 packets of a block arrive, last packet first and each of them twice. *)

From S2P Require Import Prelude Interfaces Posix Udp Wire Mqueue VodTable StbTable StioServer StioClient StioRead StioFile StioEnd.

Module RUN.
Import VOD MQ.

(** The packets of the file of three bytes: each has three bytes, those of packet 0 are the
    file. *)
Definition ex_packet (i : Z) : STB.packet := STB.mk_packet 0 0 0 0 i 3 [1; 2; 3].
Definition ex_dgram (i : Z) : UDP.sockaddr * list Z := (UDP.mk_sockaddr 7 7, SRV.data_bytes [0; 0; 0; 0] (ex_packet i)).
Definition ex_ids : list Z := reverse (seqZ 0 23) ++ reverse (seqZ 0 23).
Definition ex_env : RD.env := [RD.mk_turn (ex_dgram <$> ex_ids) true].

Lemma ex_ids_range i : i ∈ ex_ids <-> 0 <= i < 23.
Proof. unfold ex_ids. rewrite elem_of_app, elem_of_reverse, elem_of_seqZ. lia. Qed.
Lemma ex_served i : 0 <= i < 23 -> STB.served_pkt (SRV.stb E2E.ex_server) (STB.ex_chan (Some STB.ex_buf) 0 0 0 1)
  (STB.mk_ent 0 0 0 0 true 77 0 (replicate 5 (STB.ex_chan (Some STB.ex_buf) 0 0 0 1))) 0 [1; 2; 3] (ex_packet i).
Proof.
  intros Hi. split; [done..| |done|].
  - simpl. change (STB.disk_len _ _ _) with 3. rewrite STB.pkt_len_eq by lia. rewrite (proj2 (Z.ltb_ge i _)); [done|]. change (3 / STB.PKT) with 0. lia.
  - intros q Hq Hb Hf. change (zlen [1; 2; 3]) with 3 in Hf. change (STB.p_len _) with 3 in Hq. change (STB.p_bid _) with i in *. change (STB.request_block _) with 0 in *.
    unfold STB.PKT, STB.BLOCK in *. assert (i = 0) as -> by lia. simpl. f_equal. lia.
Qed.
Lemma ex_good i : 0 <= i < 23 -> RD.good_dgram [1; 2; 3] 0 0 (snd (ex_dgram i)) /\ RD.delivers 0 0 0 (snd (ex_dgram i)) (Z.to_nat i).
Proof.
  intros Hi. pose proof (E2E.served_good _ _ _ 0 _ _ _ [0; 0; 0; 0] E2E.ex_request (ex_served i Hi)) as H.
  apply H; [done|unfold STB.MAX_STIOV3_CHANNEL; lia|simpl; lia|done].
Qed.
Lemma ex_env_good : RD.good_env [1; 2; 3] 0 0 ex_env.
Proof. constructor; [|constructor]. apply Forall_fmap, Forall_forall. intros i Hi%ex_ids_range. by apply ex_good. Qed.

(** The block arrives, and the client goes on to the next one. *)
Lemma internal_read_correct_witness :
  exists s' c', RD.internal_read [] RD.ex_client ex_env 0 = Ret (3, [1; 2; 3], s', []) /\
    CLI.cli_ok s' /\ CLI.get_ch s' 0 = Ret c' /\ CLI.blockwant c' = 1 /\ RD.opened [1; 2; 3] c'.
Proof.
  pose proof (RD.internal_read_correct [] [1; 2; 3] RD.ex_client ex_env 0 RD.ex_cchan RD.ex_client_ok ltac:(unfold STB.MAX_STIOV3_CHANNEL; lia)
    eq_refl RD.ex_opened eq_refl ex_env_good) as T.
  destruct (RD.internal_read_progress [] [1; 2; 3] RD.ex_client (RD.mk_turn (ex_dgram <$> ex_ids) true) [] 0 RD.ex_cchan)
    as (s' & c0 & E & _ & _ & _); [exact RD.ex_client_ok|unfold STB.MAX_STIOV3_CHANNEL; lia|reflexivity|exact RD.ex_opened|reflexivity|
      change (CLI.current_VODserver RD.ex_client) with 0; lia|exact ex_env_good| |].
  - intros i Hi. apply Exists_fmap, Exists_exists. exists (Z.of_nat i). split; [apply ex_ids_range; lia|].
    pose proof (proj2 (ex_good (Z.of_nat i) ltac:(lia))) as H. by rewrite Nat2Z.id in H.
  - unfold ex_env in T. rewrite E in T. destruct T as (I & _ & [(H & _)|(_ & _ & c' & Hg & Hb & _ & O)]); [discriminate H|].
    exists s', c'. split; [exact E|]. split; [exact I|]. split; [exact Hg|]. split; [exact Hb|exact O].
Defined.

(** A read of two bytes returns the first two and leaves the stream behind them. *)
Lemma stiov3_read_stream_witness :
  match SF.stiov3_read [] RD.ex_client ex_env 0 2 with
  | Ret (rc, bytes, s', _) => rc = 2 /\ bytes = [1; 2] /\ SF.at_pos [1; 2; 3] 0 0 2 s'
  | _ => False
  end.
Proof.
  pose proof (SF.stiov3_read_stream [] [1; 2; 3] 0 0 RD.ex_client ex_env 2 0 ltac:(unfold STB.MAX_STIOV3_CHANNEL; lia) SF.ex_at_pos ex_env_good
    ltac:(lia) ltac:(lia)) as T.
  assert (match SF.stiov3_read [] RD.ex_client ex_env 0 2 with Ret (rc, bytes, _, _) => Some (rc, bytes) | _ => None end = Some (2, [1; 2])) as E
    by (vm_compute; reflexivity).
  destruct (SF.stiov3_read [] RD.ex_client ex_env 0 2) as [[[[rc bytes] s'] e']| |]; [|discriminate E|discriminate E].
  injection E as -> ->. destruct T as (_ & _ & _ & [[A _]|[Hc _]]); [|by destruct Hc]. split; [reflexivity|]. split; [reflexivity|exact A].
Defined.
End RUN.
