(* ===== verification/BufferCache.v ===== *)
(** * BufferCache.v: the producer/consumer ring of disk buffers, buffer_cache/buffer_cache.c

    A producer asks for a free buffer, fills it and declares it ready; a consumer
    asks for the oldest ready buffer, uses it and releases it.  The code keeps
    only counters and two ring positions: which buffers a thread holds is not
    recorded anywhere.  The second half of the file adds the threads: a system
    with the contents of the buffers, the buffers each side holds and the history
    of values, whose steps are the calls in any interleaving; every property is
    an invariant of the reachable states.

    Each call runs under the mutex and is one step; waiting is [Block]. *)

From S2P Require Import Prelude Ring.

Module BC.

(** [struct buffer_cache_t]; of [dkbuf] only whether a buffer is allocated.  A
    pointer to [dkbuf[i]] is the number [i]. *)
Record buffer_cache := mk_bc {
  num : Z;
  bsize : Z;
  allocated : Z;
  buf_free : Z;
  buf_ready : Z;
  front : Z;
  rear : Z;
  top : Z;
  top_used : Z;
  dkbuf : list bool;
}.
Definition set_num (v : Z) (s : buffer_cache) : buffer_cache :=
  mk_bc v (bsize s) (allocated s) (buf_free s) (buf_ready s) (front s) (rear s) (top s) (top_used s) (dkbuf s).
Definition set_bsize (v : Z) (s : buffer_cache) : buffer_cache :=
  mk_bc (num s) v (allocated s) (buf_free s) (buf_ready s) (front s) (rear s) (top s) (top_used s) (dkbuf s).
Definition set_allocated (v : Z) (s : buffer_cache) : buffer_cache :=
  mk_bc (num s) (bsize s) v (buf_free s) (buf_ready s) (front s) (rear s) (top s) (top_used s) (dkbuf s).
Definition set_buf_free (v : Z) (s : buffer_cache) : buffer_cache :=
  mk_bc (num s) (bsize s) (allocated s) v (buf_ready s) (front s) (rear s) (top s) (top_used s) (dkbuf s).
Definition set_buf_ready (v : Z) (s : buffer_cache) : buffer_cache :=
  mk_bc (num s) (bsize s) (allocated s) (buf_free s) v (front s) (rear s) (top s) (top_used s) (dkbuf s).
Definition set_front (v : Z) (s : buffer_cache) : buffer_cache :=
  mk_bc (num s) (bsize s) (allocated s) (buf_free s) (buf_ready s) v (rear s) (top s) (top_used s) (dkbuf s).
Definition set_rear (v : Z) (s : buffer_cache) : buffer_cache :=
  mk_bc (num s) (bsize s) (allocated s) (buf_free s) (buf_ready s) (front s) v (top s) (top_used s) (dkbuf s).
Definition set_top (v : Z) (s : buffer_cache) : buffer_cache :=
  mk_bc (num s) (bsize s) (allocated s) (buf_free s) (buf_ready s) (front s) (rear s) v (top_used s) (dkbuf s).
Definition set_top_used (v : Z) (s : buffer_cache) : buffer_cache :=
  mk_bc (num s) (bsize s) (allocated s) (buf_free s) (buf_ready s) (front s) (rear s) (top s) v (dkbuf s).
Definition set_dkbuf (v : list bool) (s : buffer_cache) : buffer_cache :=
  mk_bc (num s) (bsize s) (allocated s) (buf_free s) (buf_ready s) (front s) (rear s) (top s) (top_used s) v.


Definition bc_num_buf_free (self : buffer_cache) : Z := buf_free self.

(** Lines 26-32: take the buffer at [front]. *)
Definition p_take (self : buffer_cache) : outcome (Z * buffer_cache) :=
  let* fr := ck (buf_free self - 1) in
  let* f1 := ck (front self + 1) in
  let* f' := crem f1 (num self) in
  Ret (front self, set_front f' (set_buf_free fr self)).

Definition bc_producer_request (self : buffer_cache) : outcome (Z * buffer_cache) :=
  if buf_free self =? 0 then Block else p_take self.

(** [None] is the NULL pointer. *)
Definition bc_producer_try_request (self : buffer_cache) : outcome (option Z * buffer_cache) :=
  if buf_free self =? 0 then Ret (None, self)
  else let* r := p_take self in Ret (Some (fst r), snd r).

Definition bc_producer_ready (self : buffer_cache) : outcome (Z * buffer_cache) :=
  let* r := ck (buf_ready self + 1) in Ret (0, set_buf_ready r self).

(** Lines 80-83: take the buffer at [rear]. *)
Definition c_take (self : buffer_cache) : outcome (Z * buffer_cache) :=
  let* r1 := ck (rear self + 1) in
  let* r' := crem r1 (num self) in
  let* n := ck (buf_ready self - 1) in
  Ret (rear self, set_buf_ready n (set_rear r' self)).

Definition bc_consumer_request (self : buffer_cache) : outcome (Z * buffer_cache) :=
  if buf_ready self =? 0 then Block else c_take self.

Definition bc_consumer_try_request (self : buffer_cache) : outcome (option Z * buffer_cache) :=
  if negb (buf_ready self =? 0) then let* r := c_take self in Ret (Some (fst r), snd r)
  else Ret (None, self).

Definition bc_consumer_release (self : buffer_cache) : outcome (Z * buffer_cache) :=
  let* f := ck (buf_free self + 1) in Ret (0, set_buf_free f self).

(** [while (c_tryreq () != NULL) c_release ();] needs one round per ready buffer. *)
Fixpoint flush_loop (fuel : nat) (self : buffer_cache) : outcome buffer_cache :=
  match fuel with
  | O => Fault OutOfFuel
  | S fuel' =>
      let* r := bc_consumer_try_request self in
      match fst r with
      | None => Ret (snd r)
      | Some _ => let* r2 := bc_consumer_release (snd r) in flush_loop fuel' (snd r2)
      end
  end.
Definition bc_flush (self : buffer_cache) : outcome (Z * buffer_cache) :=
  let* b := flush_loop (S (Z.to_nat (buf_ready self))) self in Ret (1, b).

Definition bc_cleanup (self : buffer_cache) : Z * buffer_cache :=
  (1, set_rear 0 (set_front 0 (set_buf_ready 0 (set_buf_free (num self) self)))).

Definition bc_setbuffer (self : buffer_cache) (nbuf : Z) : outcome (Z * buffer_cache) :=
  let n := if (nbuf <=? 0) || (allocated self <? nbuf) then allocated self else nbuf in
  let* r := bc_flush self in
  if negb (num self =? n) && (3 <? n) && (n <=? allocated self) then
    let b := snd (bc_cleanup (set_num n (snd r))) in Ret (num b, b)
  else Ret (num (snd r), snd r).

(** [bc_dispose]: the buffers that are freed. *)
Definition bc_dispose (self : buffer_cache) : list Z :=
  filter (fun i => dkbuf self !! Z.to_nat i = Some true) (seqZ 0 (num self)).

Definition bc_bufsize (self : buffer_cache) : Z := bsize self.

Definition bc_top_try_request (self : buffer_cache) : outcome (option Z * buffer_cache) :=
  if top_used self <? buf_ready self then
    let* t1 := ck (top self + 1) in
    let* t' := crem t1 (num self) in
    let* u := ck (top_used self + 1) in
    Ret (Some (top self), set_top_used u (set_top t' self))
  else Ret (None, self).

Definition bc_top_reset (self : buffer_cache) : buffer_cache :=
  set_top_used 0 (set_top (rear self) self).

(** [new_buffer_cache]: [m] is the memory of the structure ([bsize], [top] and
    [top_used] are not initialised); [ok i] tells whether the allocation of
    buffer [i] succeeds.  [None]: the constructor gave up. *)
Definition new_buffer_cache (m : buffer_cache) (ok : Z -> bool) (n : Z) : option buffer_cache :=
  if forallb ok (seqZ 0 n) then
    Some (snd (bc_cleanup (mk_bc n (bsize m) n (buf_free m) (buf_ready m) (front m) (rear m)
                (top m) (top_used m) (replicate (Z.to_nat n) true))))
  else None.

(** ** The system: two threads and the contents of the buffers *)
Section system.
Context {V : Type}.

Record sys := mk_sys {
  cache : buffer_cache;
  data : list V;          (* contents of dkbuf[0], dkbuf[1], ... *)
  p_held : list Z;        (* requested by the producer, oldest first *)
  c_held : list Z;        (* requested by the consumer, oldest first *)
  produced : list V;      (* values declared ready so far *)
  consumed : list V;      (* values handed to the consumer so far *)
}.

(** A thread calls an operation only as the protocol allows: the producer fills
    and declares buffers it holds, in the order it got them; the consumer
    releases buffers it holds. *)
Inductive step : sys -> sys -> Prop :=
  | S_p_request s k b :
      bc_producer_request (cache s) = Ret (k, b) ->
      step s (mk_sys b (data s) (p_held s ++ [k]) (c_held s) (produced s) (consumed s))
  | S_p_try s k b :
      bc_producer_try_request (cache s) = Ret (Some k, b) ->
      step s (mk_sys b (data s) (p_held s ++ [k]) (c_held s) (produced s) (consumed s))
  | S_write s i k v :
      p_held s !! i = Some k ->
      step s (mk_sys (cache s) (<[Z.to_nat k := v]> (data s)) (p_held s) (c_held s)
                (produced s) (consumed s))
  | S_p_ready s k ks rc b v :
      p_held s = k :: ks -> bc_producer_ready (cache s) = Ret (rc, b) ->
      data s !! Z.to_nat k = Some v ->
      step s (mk_sys b (data s) ks (c_held s) (produced s ++ [v]) (consumed s))
  | S_c_request s k b v :
      bc_consumer_request (cache s) = Ret (k, b) -> data s !! Z.to_nat k = Some v ->
      step s (mk_sys b (data s) (p_held s) (c_held s ++ [k]) (produced s) (consumed s ++ [v]))
  | S_c_release s k ks rc b :
      c_held s = k :: ks -> bc_consumer_release (cache s) = Ret (rc, b) ->
      step s (mk_sys b (data s) (p_held s) ks (produced s) (consumed s)).

Inductive reachable (n : Z) : sys -> Prop :=
  | R_new m ok b dat :
      new_buffer_cache m ok n = Some b -> zlen dat = n ->
      reachable n (mk_sys b dat [] [] [] [])
  | R_step s s' : reachable n s -> step s s' -> reachable n s'.

(** ** Invariant: from some position [B] on, the ring holds the buffers of the
    consumer, then the ready ones, then those of the producer *)
Definition slots (n start : Z) (k : nat) : list Z :=
  (fun i => (start + Z.of_nat i) mod n) <$> seq 0 k.

Record sys_inv (n : Z) (s : sys) : Prop := {
  si_num : num (cache s) = n /\ 0 < n < INT_MAX /\ zlen (data s) = n;
  si_ring : exists B cv rv pv,
    ring_rep (data s) B (cv ++ rv ++ pv) /\
    length (c_held s) = length cv /\ length (p_held s) = length pv /\
    buf_ready (cache s) = zlen rv /\
    buf_free (cache s) + zlen cv + zlen rv + zlen pv = n /\
    0 <= buf_free (cache s) /\
    c_held s = slots n B (length cv) /\
    rear (cache s) = (B + zlen cv) mod n /\
    p_held s = slots n (B + zlen cv + zlen rv) (length pv) /\
    front (cache s) = (B + zlen cv + zlen rv + zlen pv) mod n /\
    produced s = consumed s ++ rv /\
    (exists old, consumed s = old ++ cv);
}.

Lemma slots_cons n start k : slots n start (S k) = start mod n :: slots n (start + 1) k.
Proof.
  unfold slots. cbn [seq fmap list_fmap]. rewrite Z.add_0_r. f_equal.
  rewrite <- fmap_S_seq. fold (@fmap list list_fmap). rewrite <- list_fmap_compose.
  apply list_fmap_ext. intros i x _. unfold compose. f_equal. lia.
Qed.

Lemma slots_snoc n start k : slots n start (S k) = slots n start k ++ [(start + Z.of_nat k) mod n].
Proof. unfold slots. by rewrite seq_S, fmap_app. Qed.

Lemma slots_lookup n start k i : (i < k)%nat -> slots n start k !! i = Some ((start + Z.of_nat i) mod n).
Proof. intros H. unfold slots. by rewrite list_lookup_fmap, lookup_seq_lt by done. Qed.

Lemma slots_length n start k : length (slots n start k) = k.
Proof. unfold slots. by rewrite length_fmap, length_seq. Qed.

(** What the calls return on a well-formed structure. *)
Lemma p_take_run b n : num b = n -> 0 < n < INT_MAX -> 0 < buf_free b <= n -> 0 <= front b < n ->
  p_take b = Ret (front b, set_front ((front b + 1) mod n) (set_buf_free (buf_free b - 1) b)).
Proof. intros <- Hn Hf Hfr. unfold p_take. by crun. Qed.

Lemma c_take_run b n : num b = n -> 0 < n < INT_MAX -> 0 < buf_ready b <= n -> 0 <= rear b < n ->
  c_take b = Ret (rear b, set_buf_ready (buf_ready b - 1) (set_rear ((rear b + 1) mod n) b)).
Proof. intros <- Hn Hf Hfr. unfold c_take. by crun. Qed.

Lemma mod_range x n : 0 < n -> 0 <= x mod n < n.
Proof. apply Z.mod_pos_bound. Qed.

Lemma inv_p_take n s k b : sys_inv n s -> buf_free (cache s) <> 0 -> p_take (cache s) = Ret (k, b) ->
  sys_inv n (mk_sys b (data s) (p_held s ++ [k]) (c_held s) (produced s) (consumed s)).
Proof.
  intros [(Hn & Hr & Hd) (B & cv & rv & pv & R & Lc & Lp & Hrd & Hsum & Hf & Hc & Hre & Hp & Hfr & Hpr & Hold)] Hne Ht.
  pose proof (zlen_nonneg cv). pose proof (zlen_nonneg rv). pose proof (zlen_nonneg pv).
  rewrite (p_take_run _ n) in Ht; [|done|done|lia|rewrite Hfr; apply mod_range; lia].
  injection Ht as <- <-. split; [done|]. cbn [cache data p_held c_held produced consumed].
  assert (zlen (cv ++ rv ++ pv) = zlen cv + zlen rv + zlen pv) as Hz by (rewrite !zlen_app; lia).
  destruct (ring_rep_extend (data s) B (cv ++ rv ++ pv)) as (x & _ & R'); [lia|done|].
  exists B, cv, rv, (pv ++ [x]). rewrite <- !app_assoc in R'. autorewrite with katmai. rewrite !length_app.
  cbn [buf_free buf_ready rear front set_front set_buf_free length].
  split_and!; try done; try lia.
  - by rewrite Nat.add_1_r, slots_snoc, <- Hp, Hfr.
  - rewrite Hfr, Z.add_mod_idemp_l by lia. f_equal. lia.
Qed.

Lemma inv_write n s i k v : sys_inv n s -> p_held s !! i = Some k ->
  sys_inv n (mk_sys (cache s) (<[Z.to_nat k := v]> (data s)) (p_held s) (c_held s) (produced s) (consumed s)).
Proof.
  intros [(Hn & Hr & Hd) (B & cv & rv & pv & R & Lc & Lp & Hrd & Hsum & Hf & Hc & Hre & Hp & Hfr & Hpr & Hold)] Hi.
  split; cbn [cache data p_held c_held produced consumed]; [by rewrite zlen_insert|].
  assert (i < length pv)%nat as Hlt by (rewrite <- Lp; by eapply lookup_lt_Some).
  rewrite Hp, slots_lookup in Hi by done. injection Hi as <-.
  exists B, cv, rv, (<[i := v]> pv). rewrite zlen_insert, length_insert. split_and!; try done.
  pose proof (ring_rep_insert (data s) B (cv ++ rv ++ pv) (length cv + (length rv + i)) v) as R'.
  rewrite Hd in R'. unfold rslot in R'.
  replace (B + zlen cv + zlen rv + Z.of_nat i) with (B + Z.of_nat (length cv + (length rv + i))) by (unfold zlen; lia).
  rewrite !insert_app_r in R'. apply R'; [rewrite !length_app; lia|done].
Qed.

Lemma inv_p_ready n s k ks rc b v : sys_inv n s -> p_held s = k :: ks ->
  bc_producer_ready (cache s) = Ret (rc, b) -> data s !! Z.to_nat k = Some v ->
  sys_inv n (mk_sys b (data s) ks (c_held s) (produced s ++ [v]) (consumed s)).
Proof.
  intros [(Hn & Hr & Hd) (B & cv & rv & pv & R & Lc & Lp & Hrd & Hsum & Hf & Hc & Hre & Hp & Hfr & Hpr & Hold)] Hk Hb Hv.
  pose proof (zlen_nonneg cv). pose proof (zlen_nonneg rv). pose proof (zlen_nonneg pv).
  unfold bc_producer_ready in Hb. rewrite ck_Ret in Hb by int_lia. injection Hb as <- <-.
  destruct pv as [|v0 pv]; [by rewrite Hk in Lp|]. rewrite Hk in Hp. cbn [length] in Hp. rewrite slots_cons in Hp.
  injection Hp as -> ->. rewrite zlen_cons in *.
  assert (v0 = v) as ->.
  { destruct R as [_ R]. specialize (R (length cv + (length rv + 0))%nat v0). rewrite !lookup_app_r in R by lia.
    replace (length cv + (length rv + 0) - length cv - length rv)%nat with 0%nat in R by lia.
    specialize (R eq_refl). rewrite Hd in R. unfold rslot in R.
    replace (B + Z.of_nat (length cv + (length rv + 0))) with (B + zlen cv + zlen rv) in R by (unfold zlen; lia).
    congruence. }
  split; [done|]. cbn [cache data p_held c_held produced consumed].
  exists B, cv, (rv ++ [v]), pv. autorewrite with katmai. rewrite <- app_assoc.
  cbn [buf_free buf_ready rear front set_buf_ready]. split_and!; try done; try lia.
  - by rewrite slots_length.
  - f_equal. lia.
  - rewrite Hfr. f_equal. lia.
  - by rewrite Hpr, app_assoc.
Qed.

Lemma inv_c_request n s k b v : sys_inv n s -> bc_consumer_request (cache s) = Ret (k, b) ->
  data s !! Z.to_nat k = Some v ->
  sys_inv n (mk_sys b (data s) (p_held s) (c_held s ++ [k]) (produced s) (consumed s ++ [v])).
Proof.
  intros [(Hn & Hr & Hd) (B & cv & rv & pv & R & Lc & Lp & Hrd & Hsum & Hf & Hc & Hre & Hp & Hfr & Hpr & old & Hold)] Hb Hv.
  pose proof (zlen_nonneg cv). pose proof (zlen_nonneg rv). pose proof (zlen_nonneg pv).
  unfold bc_consumer_request in Hb. destruct (Z.eqb_spec (buf_ready (cache s)) 0) as [|Hne]; [done|].
  rewrite (c_take_run _ n) in Hb; [|done|done|lia|rewrite Hre; apply mod_range; lia]. injection Hb as <- <-.
  destruct rv as [|v0 rv]; [by rewrite zlen_nil in *|]. rewrite zlen_cons in *.
  assert (v0 = v) as ->.
  { destruct R as [_ R]. specialize (R (length cv) v0). rewrite lookup_app_r, Nat.sub_diag in R by lia.
    specialize (R eq_refl). rewrite Hd in R. unfold rslot in R. fold (zlen cv) in R. rewrite Hre in Hv. congruence. }
  split; [done|]. cbn [cache data p_held c_held produced consumed].
  exists B, (cv ++ [v]), rv, pv. autorewrite with katmai. rewrite !length_app, <- app_assoc.
  cbn [buf_free buf_ready rear front set_buf_ready set_rear length]. split_and!; try done; try lia.
  - by rewrite Nat.add_1_r, slots_snoc, <- Hc, Hre.
  - rewrite Hre, Z.add_mod_idemp_l by lia. f_equal. lia.
  - rewrite Hp. f_equal. lia.
  - rewrite Hfr. f_equal. lia.
  - by rewrite Hpr, <- app_assoc.
  - exists old. by rewrite Hold, app_assoc.
Qed.

Lemma inv_c_release n s k ks rc b : sys_inv n s -> c_held s = k :: ks ->
  bc_consumer_release (cache s) = Ret (rc, b) ->
  sys_inv n (mk_sys b (data s) (p_held s) ks (produced s) (consumed s)).
Proof.
  intros [(Hn & Hr & Hd) (B & cv & rv & pv & R & Lc & Lp & Hrd & Hsum & Hf & Hc & Hre & Hp & Hfr & Hpr & old & Hold)] Hk Hb.
  pose proof (zlen_nonneg cv). pose proof (zlen_nonneg rv). pose proof (zlen_nonneg pv).
  unfold bc_consumer_release in Hb. rewrite ck_Ret in Hb by int_lia. injection Hb as <- <-.
  destruct cv as [|v0 cv]; [by rewrite Hk in Lc|]. rewrite Hk in Hc. cbn [length] in Hc. rewrite slots_cons in Hc.
  injection Hc as -> ->. rewrite zlen_cons in *. cbn [app] in R.
  apply ring_rep_cons_inv in R as [_ R]; [|lia].
  split; [done|]. cbn [cache data p_held c_held produced consumed].
  exists (B + 1), cv, rv, pv. cbn [buf_free buf_ready rear front set_buf_free]. split_and!; try done; try lia.
  - by rewrite slots_length.
  - rewrite Hre. f_equal. lia.
  - rewrite Hp. f_equal. lia.
  - rewrite Hfr. f_equal. lia.
  - exists (old ++ [v0]). by rewrite Hold, <- app_assoc.
Qed.

Lemma step_inv n s s' : sys_inv n s -> step s s' -> sys_inv n s'.
Proof.
  intros I Hs. destruct Hs.
  - unfold bc_producer_request in H. destruct (Z.eqb_spec (buf_free (cache s)) 0); [done|]. by apply inv_p_take.
  - unfold bc_producer_try_request in H. destruct (Z.eqb_spec (buf_free (cache s)) 0); [done|].
    apply obind_Ret_inv in H as ([k' b'] & Ht & [= <- <-]). by apply inv_p_take.
  - by eapply inv_write.
  - by eapply inv_p_ready.
  - by eapply inv_c_request.
  - by eapply inv_c_release.
Qed.

Lemma reachable_inv n s : 0 < n < INT_MAX -> reachable n s -> sys_inv n s.
Proof.
  intros Hn Hr. induction Hr as [m ok b dat Hb Hd|s s' _ IH Hs]; [|by eapply step_inv].
  unfold new_buffer_cache in Hb. destruct (forallb ok (seqZ 0 n)); [|done]. injection Hb as <-.
  split; [done|]. exists 0, [], [], []. simpl. split_and!; try done; try lia.
  - apply ring_rep_nil.
  - rewrite zlen_nil. lia.
  - by exists [].
Qed.

(** The buffers a thread holds, and the ready ones, are different. *)
Lemma slots_disjoint n B (k : nat) : 0 < n -> Z.of_nat k <= n -> NoDup (slots n B k).
Proof.
  intros Hn Hk. apply NoDup_alt. intros i j x Hi Hj.
  assert (i < k /\ j < k)%nat as [Hik Hjk]
    by (apply lookup_lt_Some in Hi, Hj; by rewrite slots_length in Hi, Hj).
  rewrite slots_lookup in Hi, Hj by done. simplify_eq.
  assert (Z.of_nat j = Z.of_nat i) by (apply (mod_inj n B); [lia|lia|congruence]). lia.
Qed.

Lemma slots_app n B (j k : nat) : slots n B (j + k) = slots n B j ++ slots n (B + Z.of_nat j) k.
Proof.
  revert B. induction j as [|j IH]; intros B; [by rewrite Z.add_0_r|].
  rewrite Nat.add_succ_l, !slots_cons, IH. simpl. do 2 f_equal. f_equal. lia.
Qed.

(** C18: in every interleaving of the calls of a producer and a consumer, the
    consumer gets the values the producer declared ready, in order, each once and
    none invented ([consumed] is a prefix of [produced], short of it by exactly
    the [buf_ready] values that are waiting); the buffers it holds still contain the
    values it was given; and no buffer is held by two parties at once. *)
Theorem cache_fifo n s :
  0 < n < INT_MAX -> reachable n s ->
  (exists waiting, produced s = consumed s ++ waiting /\ zlen waiting = buf_ready (cache s)) /\
  (exists old vals, consumed s = old ++ vals /\ length vals = length (c_held s) /\
     forall i k v, c_held s !! i = Some k -> vals !! i = Some v -> data s !! Z.to_nat k = Some v) /\
  NoDup (c_held s ++ p_held s).
Proof.
  intros Hn Hr. destruct (reachable_inv n s Hn Hr) as
    [(Hnum & _ & Hd) (B & cv & rv & pv & R & Lc & Lp & Hrd & Hsum & Hf & Hc & Hre & Hp & Hfr & Hpr & old & Hold)].
  split_and!.
  - by exists rv.
  - exists old, cv. split_and!; [done..|]. intros i k v Hi Hv. rewrite Hc, slots_lookup in Hi by (by eapply lookup_lt_Some).
    injection Hi as <-. destruct R as [_ R]. specialize (R i v). rewrite lookup_app_l in R by (by eapply lookup_lt_Some).
    specialize (R Hv). by rewrite Hd in R.
  - pose proof (slots_disjoint n B (length cv + (length rv + length pv)) ltac:(lia)) as Hnd.
    rewrite !slots_app in Hnd. rewrite Hc, Hp. unfold zlen in *.
    apply NoDup_app in Hnd as (N1 & N2 & (N3 & N4 & N5)%NoDup_app); [|lia].
    apply NoDup_app. split_and!; [done| |done]. intros x Hx Hy. apply (N2 x Hx), elem_of_app. by right.
Qed.

End system.

(** ** Resizing *)
Lemma flush_run fuel b n : num b = n -> 0 < n < INT_MAX -> 0 <= buf_ready b <= n -> 0 <= rear b < n ->
  0 <= buf_free b -> buf_free b + buf_ready b <= n -> (Z.to_nat (buf_ready b) < fuel)%nat ->
  flush_loop fuel b = Ret (set_buf_free (buf_free b + buf_ready b) (set_buf_ready 0
    (set_rear ((rear b + buf_ready b) mod n) b))).
Proof.
  revert b. induction fuel as [|fuel IH]; intros b Hn Hr Hrd Hre Hf Hs Hfu; [lia|]. cbn [flush_loop].
  unfold bc_consumer_try_request. destruct (Z.eqb_spec (buf_ready b) 0) as [E|E]; cbn [negb obind fst snd].
  - rewrite E, Z.add_0_r, Z.add_0_r, Z.mod_small by lia. f_equal. destruct b. simpl in *. by subst.
  - rewrite (c_take_run b n) by (done || lia). cbn [obind fst snd].
    unfold bc_consumer_release. rewrite ck_Ret by (simpl; int_lia). cbn [obind snd].
    rewrite IH; simpl; try done; try lia; [|apply mod_range; lia].
    f_equal. unfold set_buf_free, set_buf_ready, set_rear. simpl. f_equal; [lia|].
    rewrite Z.add_mod_idemp_l by lia. f_equal. lia.
Qed.

(** Resizing.  When no thread holds a buffer, [setbuf] discards what is ready
    and leaves an empty cache of the requested size (of the allocated size when the
    request is out of range): every buffer free, and a new round of requests
    starts as after creation; sizes up to 3 are refused and only flush. *)
Theorem setbuffer_resizes b n nbuf :
  num b = n -> 0 < n < INT_MAX -> 0 <= rear b < n -> 0 <= buf_ready b -> 0 <= buf_free b ->
  buf_free b + buf_ready b = n -> n <= allocated b < INT_MAX ->
  exists b', bc_setbuffer b nbuf = Ret (num b', b') /\ buf_ready b' = 0 /\ buf_free b' = num b' /\
    num b' = (let want := if decide (0 < nbuf <= allocated b) then nbuf else allocated b in
              if decide (3 < want) then want else n) /\
    (num b' <> n -> front b' = 0 /\ rear b' = 0).
Proof.
  intros Hn Hr Hre Hrd Hf Hs Ha. unfold bc_setbuffer, bc_flush.
  rewrite (flush_run _ b n) by (done || lia). cbn [obind snd num set_buf_free set_buf_ready set_rear].
  set (want := if (nbuf <=? 0) || (allocated b <? nbuf) then allocated b else nbuf).
  assert ((if decide (0 < nbuf <= allocated b) then nbuf else allocated b) = want) as ->.
  { unfold want. destruct (Z.leb_spec nbuf 0), (Z.ltb_spec (allocated b) nbuf); simpl; case_decide; lia. }
  assert (want <= allocated b) as Hw.
  { unfold want. destruct (Z.leb_spec nbuf 0), (Z.ltb_spec (allocated b) nbuf); simpl; lia. }
  rewrite (proj2 (Z.leb_le _ _) Hw), andb_true_r, Hn. cbv zeta.
  destruct (Z.eqb_spec n want) as [->|Hne], (Z.ltb_spec 3 want) as [H3|H3]; simpl;
    match goal with |- exists b', Ret (_, ?x) = _ /\ _ => exists x end;
    (split; [simpl; congruence|]); simpl; split_and!; try done; try lia; case_decide; lia.
Qed.

Lemma setbuffer_shrink b n nbuf :
  num b = n -> 0 < n < INT_MAX -> 0 <= rear b < n -> 0 <= buf_ready b -> 0 <= buf_free b ->
  buf_free b + buf_ready b = n -> 3 < nbuf <= allocated b -> nbuf <> n ->
  bc_setbuffer b nbuf =
    Ret (nbuf, mk_bc nbuf (bsize b) (allocated b) nbuf 0 0 0 (top b) (top_used b) (dkbuf b)).
Proof.
  intros Hn Hr Hre Hrd Hf Hs Ha Hne. unfold bc_setbuffer, bc_flush. rewrite (flush_run _ b n) by (done || lia).
  cbn [obind snd num set_buf_free set_buf_ready set_rear].
  rewrite (proj2 (Z.leb_gt nbuf 0)), (proj2 (Z.ltb_ge _ nbuf)) by lia. cbn [orb].
  rewrite (proj2 (Z.eqb_neq _ nbuf)), (proj2 (Z.ltb_lt 3 nbuf)), (proj2 (Z.leb_le nbuf _)) by lia. done.
Qed.

(** [dispose] frees as many buffers as the cache currently uses, not as many
    as it allocated: after the cache was made smaller the others are leaked. *)
Theorem dispose_leaks m ok n nbuf b b' :
  new_buffer_cache m ok n = Some b -> 3 < nbuf < n -> n < INT_MAX ->
  bc_setbuffer b nbuf = Ret (nbuf, b') ->
  dkbuf b' = replicate (Z.to_nat n) true /\ forall i, nbuf <= i < n -> i ∉ bc_dispose b'.
Proof.
  intros Hnew Hnb Hn Hset. unfold new_buffer_cache in Hnew. destruct (forallb ok (seqZ 0 n)); [|done].
  injection Hnew as <-. rewrite (setbuffer_shrink _ n) in Hset; cbn [num rear buf_ready buf_free allocated bc_cleanup snd
    set_rear set_front set_buf_ready set_buf_free]; try lia.
  injection Hset as <-. split; [reflexivity|]. intros i Hi. unfold bc_dispose.
  rewrite list_elem_of_filter, elem_of_seqZ. cbn [num]. lia.
Qed.

(** ** Witnesses: a cache of five buffers with one value in flight *)
Definition ex_mem : buffer_cache := mk_bc 0 0 0 0 0 0 0 0 0 [].
Definition ex_bc : buffer_cache := mk_bc 5 0 5 5 0 0 0 0 0 (replicate 5 true).
Definition ex_sys : sys := mk_sys (mk_bc 5 0 5 4 1 1 0 0 0 (replicate 5 true)) [7; 0; 0; 0; 0] [] [] [7] [].
Lemma ex_reachable : reachable 5 ex_sys.
Proof.
  set (s0 := mk_sys ex_bc [0; 0; 0; 0; 0] [] [] [] []).
  set (b1 := mk_bc 5 0 5 4 0 1 0 0 0 (replicate 5 true)).
  set (s1 := mk_sys b1 [0; 0; 0; 0; 0] [0] [] [] []). set (s2 := mk_sys b1 [7; 0; 0; 0; 0] [0] [] [] []).
  apply (R_step 5 s2); [apply (R_step 5 s1); [apply (R_step 5 s0)|]|].
  - exact (R_new 5 ex_mem (fun _ => true) ex_bc [0; 0; 0; 0; 0] eq_refl eq_refl).
  - exact (S_p_request s0 0 b1 eq_refl).
  - exact (S_write s1 0 0 7 eq_refl).
  - exact (S_p_ready s2 0 [] 0 _ 7 eq_refl eq_refl eq_refl).
Qed.

Lemma cache_fifo_witness : NoDup (c_held ex_sys ++ p_held ex_sys).
Proof. apply (cache_fifo 5 ex_sys); [unfold INT_MAX; lia|exact ex_reachable]. Defined.


Lemma setbuffer_resizes_witness : exists b', bc_setbuffer ex_bc 4 = Ret (num b', b') /\ buf_free b' = num b'.
Proof.
  destruct (setbuffer_resizes ex_bc 5 4) as (b' & H1 & _ & H2 & _); simpl; unfold INT_MAX; try lia. by exists b'.
Defined.

Lemma dispose_leaks_witness :
  4 ∉ bc_dispose (mk_bc 4 0 5 4 0 0 0 0 0 (replicate 5 true)).
Proof.
  apply (dispose_leaks ex_mem (fun _ => true) 5 4 ex_bc); [reflexivity|lia|unfold INT_MAX; lia|reflexivity|lia].
Defined.
End BC.
