(* ===== verification/Xlist.v ===== *)
(** * Xlist.v: the double-ended list of play entries, xlist/xlist.c

    [new_xlist n ssize] builds one of two structures behind the same function
    pointers: for [n > 0] a ring of [n] preallocated entries ([xlv1_*]), for
    [n <= 0] a linked list of allocated nodes ([xlv2_*]).  An entry is a block of
    [ssize] bytes that [memcpy] copies as a whole; [V] is the type of blocks.

    Every operation takes the one mutex of the structure; it is created with
    default attributes, so a second [pthread_mutex_lock] by the thread that holds
    it never returns ([Fault Deadlock]). *)

From stdpp Require Import gmap.
From S2P Require Import Prelude Ring.

Module XL.

Section xlist.
Context {V : Type}.

(** [struct xlist_list_t] of the linked variant; a pointer is a location. *)
Definition loc := positive.
Record node := mk_node { ptr : V; prev : option loc; next : option loc }.

Inductive variant := V1 | V2.

(** [struct xlist_pd_t] with the function table ([impl]), the entries of [list]
    ([list_]) and the nodes the linked variant allocated ([heap]). *)
Record xlist := mk_xl {
  impl : variant;
  count : Z;
  ssize : Z;
  list_ : list V;
  head : option loc;
  tail : option loc;
  freelist : option loc;
  usecnt : Z;
  front : Z;
  rear : Z;
  mutex : bool;
  heap : gmap loc node;
}.
Definition set_impl (v : variant) (s : xlist) : xlist :=
  mk_xl v (count s) (ssize s) (list_ s) (head s) (tail s) (freelist s) (usecnt s) (front s) (rear s) (mutex s) (heap s).
Definition set_count (v : Z) (s : xlist) : xlist :=
  mk_xl (impl s) v (ssize s) (list_ s) (head s) (tail s) (freelist s) (usecnt s) (front s) (rear s) (mutex s) (heap s).
Definition set_ssize (v : Z) (s : xlist) : xlist :=
  mk_xl (impl s) (count s) v (list_ s) (head s) (tail s) (freelist s) (usecnt s) (front s) (rear s) (mutex s) (heap s).
Definition set_list_ (v : list V) (s : xlist) : xlist :=
  mk_xl (impl s) (count s) (ssize s) v (head s) (tail s) (freelist s) (usecnt s) (front s) (rear s) (mutex s) (heap s).
Definition set_head (v : option loc) (s : xlist) : xlist :=
  mk_xl (impl s) (count s) (ssize s) (list_ s) v (tail s) (freelist s) (usecnt s) (front s) (rear s) (mutex s) (heap s).
Definition set_tail (v : option loc) (s : xlist) : xlist :=
  mk_xl (impl s) (count s) (ssize s) (list_ s) (head s) v (freelist s) (usecnt s) (front s) (rear s) (mutex s) (heap s).
Definition set_freelist (v : option loc) (s : xlist) : xlist :=
  mk_xl (impl s) (count s) (ssize s) (list_ s) (head s) (tail s) v (usecnt s) (front s) (rear s) (mutex s) (heap s).
Definition set_usecnt (v : Z) (s : xlist) : xlist :=
  mk_xl (impl s) (count s) (ssize s) (list_ s) (head s) (tail s) (freelist s) v (front s) (rear s) (mutex s) (heap s).
Definition set_front (v : Z) (s : xlist) : xlist :=
  mk_xl (impl s) (count s) (ssize s) (list_ s) (head s) (tail s) (freelist s) (usecnt s) v (rear s) (mutex s) (heap s).
Definition set_rear (v : Z) (s : xlist) : xlist :=
  mk_xl (impl s) (count s) (ssize s) (list_ s) (head s) (tail s) (freelist s) (usecnt s) (front s) v (mutex s) (heap s).
Definition set_mutex (v : bool) (s : xlist) : xlist :=
  mk_xl (impl s) (count s) (ssize s) (list_ s) (head s) (tail s) (freelist s) (usecnt s) (front s) (rear s) v (heap s).
Definition set_heap (v : gmap loc node) (s : xlist) : xlist :=
  mk_xl (impl s) (count s) (ssize s) (list_ s) (head s) (tail s) (freelist s) (usecnt s) (front s) (rear s) (mutex s) v.

Definition lock (s : xlist) : outcome xlist :=
  if mutex s then Fault Deadlock else Ret (set_mutex true s).
Definition unlock (s : xlist) : xlist := set_mutex false s.

(** [if (data != NULL) memcpy (data, e, ssize)]: what the caller's buffer gets. *)
Definition copy_out (data : bool) (e : V) : option V := if data then Some e else None.

(** A call returns [rc], what was copied out, and the structure. *)
Definition result : Type := Z * option V.

(** ** The ring *)
Definition xlv1_front (self : xlist) (data : bool) : outcome (result * xlist) :=
  let* pd := lock self in
  if 0 <? usecnt pd then
    let* f1 := ck (front pd + 1) in
    let* i := crem f1 (count pd) in
    let* e := aget (list_ pd) i in
    Ret ((1, copy_out data e), unlock pd)
  else Ret ((0, None), unlock pd).

Definition xlv1_rear (self : xlist) (data : bool) : outcome (result * xlist) :=
  let* pd := lock self in
  if 0 <? usecnt pd then
    let* e := aget (list_ pd) (rear pd) in
    Ret ((1, copy_out data e), unlock pd)
  else Ret ((0, None), unlock pd).

Definition xlv1_push (self : xlist) (data : V) : outcome (result * xlist) :=
  let* pd := lock self in
  if usecnt pd <? count pd then
    let* r1 := ck (rear pd + 1) in
    let* i := crem r1 (count pd) in
    let pd := set_rear i pd in
    let* l := aset (list_ pd) i data in
    let* u := ck (usecnt pd + 1) in
    Ret ((1, None), unlock (set_usecnt u (set_list_ l pd)))
  else Ret ((0, None), unlock pd).

Definition xlv1_pop (self : xlist) (data : bool) : outcome (result * xlist) :=
  let* pd := lock self in
  if 0 <? usecnt pd then
    let i := rear pd in
    let* r1 := ck (rear pd + count pd) in
    let* r2 := ck (r1 - 1) in
    let* r := crem r2 (count pd) in
    let pd := set_rear r pd in
    let* e := aget (list_ pd) i in
    let* u := ck (usecnt pd - 1) in
    Ret ((1, copy_out data e), unlock (set_usecnt u pd))
  else Ret ((0, None), unlock pd).

Definition xlv1_unshift (self : xlist) (data : V) : outcome (result * xlist) :=
  let* pd := lock self in
  if usecnt pd <? count pd then
    let i := front pd in
    let* f1 := ck (front pd + count pd) in
    let* f2 := ck (f1 - 1) in
    let* f := crem f2 (count pd) in
    let pd := set_front f pd in
    let* l := aset (list_ pd) i data in
    let* u := ck (usecnt pd + 1) in
    Ret ((1, None), unlock (set_usecnt u (set_list_ l pd)))
  else Ret ((0, None), unlock pd).

Definition xlv1_shift (self : xlist) (data : bool) : outcome (result * xlist) :=
  let* pd := lock self in
  if 0 <? usecnt pd then
    let* f1 := ck (front pd + 1) in
    let* i := crem f1 (count pd) in
    let pd := set_front i pd in
    let* e := aget (list_ pd) i in
    let* u := ck (usecnt pd - 1) in
    Ret ((1, copy_out data e), unlock (set_usecnt u pd))
  else Ret ((0, None), unlock pd).

(** ** The linked list.  [deref] is [*p]; [mal] is what the two [malloc]s of
    [xlv2_malloc] give: a fresh location and the contents of its memory, or
    nothing when one of them fails. *)
Definition deref (s : xlist) (p : option loc) : outcome (loc * node) :=
  match p with
  | None => Fault NullDeref
  | Some l => match heap s !! l with Some n => Ret (l, n) | None => Fault NullDeref end
  end.
Definition store (l : loc) (n : node) (s : xlist) : xlist := set_heap (<[l := n]> (heap s)) s.

Definition xlv2_malloc (mal : option (loc * node)) (self : xlist) : outcome (option loc * xlist) :=
  let* s := lock self in
  match freelist s with
  | None =>
      match mal with
      | None => Ret (None, unlock s)
      | Some (l, n) => Ret (Some l, unlock (store l n s))
      end
  | Some l =>
      let* ln := deref s (Some l) in
      Ret (Some l, unlock (set_freelist (next (snd ln)) s))
  end.

Definition xlv2_free (self : xlist) (p : option loc) : outcome xlist :=
  let* s := lock self in
  let* ln := deref s p in
  let n := mk_node (ptr (snd ln)) (prev (snd ln)) (freelist s) in
  let s := store (fst ln) n s in
  Ret (unlock (set_freelist (next n) s)).

Definition xlv2_front (self : xlist) (data : bool) : outcome (result * xlist) :=
  let* pd := lock self in
  if 0 <? usecnt pd then
    let* ln := deref pd (head pd) in
    Ret ((1, copy_out data (ptr (snd ln))), unlock pd)
  else Ret ((0, None), unlock pd).

Definition xlv2_rear (self : xlist) (data : bool) : outcome (result * xlist) :=
  let* pd := lock self in
  if 0 <? usecnt pd then
    let* ln := deref pd (tail pd) in
    Ret ((1, copy_out data (ptr (snd ln))), unlock pd)
  else Ret ((0, None), unlock pd).

Definition xlv2_push (mal : option (loc * node)) (self : xlist) (data : V) : outcome (result * xlist) :=
  let* pd := lock self in
  let* r := xlv2_malloc mal pd in
  let pd := snd r in
  match fst r with
  | None => Ret ((0, None), unlock pd)
  | Some p =>
      let* u := ck (usecnt pd + 1) in
      if usecnt pd =? 0 then
        let pd := set_usecnt u (store p (mk_node data None None) pd) in
        Ret ((1, None), unlock (set_head (Some p) (set_tail (Some p) pd)))
      else
        let pd := set_usecnt u (store p (mk_node data (tail pd) None) pd) in
        Ret ((1, None), unlock (set_tail (Some p) pd))
  end.

Definition xlv2_pop (self : xlist) (data : bool) : outcome (result * xlist) :=
  let* pd := lock self in
  if 0 <? usecnt pd then
    let p := tail pd in
    let* u := ck (usecnt pd - 1) in
    let pd := set_usecnt u pd in
    let* pd :=
      if u =? 0 then Ret (set_head None (set_tail None pd))
      else
        let* ln := deref pd p in
        let pd := set_tail (prev (snd ln)) pd in
        let* tn := deref pd (tail pd) in
        Ret (store (fst tn) (mk_node (ptr (snd tn)) (prev (snd tn)) None) pd) in
    let* ln := deref pd p in
    let* pd := xlv2_free pd p in
    Ret ((1, copy_out data (ptr (snd ln))), unlock pd)
  else Ret ((0, None), unlock pd).

Definition xlv2_unshift (mal : option (loc * node)) (self : xlist) (data : V) : outcome (result * xlist) :=
  let* pd := lock self in
  let* r := xlv2_malloc mal pd in
  let pd := snd r in
  match fst r with
  | None => Ret ((0, None), unlock pd)
  | Some p =>
      let* u := ck (usecnt pd + 1) in
      if usecnt pd =? 0 then
        let pd := set_usecnt u (store p (mk_node data None None) pd) in
        Ret ((1, None), unlock (set_head (Some p) (set_tail (Some p) pd)))
      else
        let pd := set_usecnt u (store p (mk_node data None (head pd)) pd) in
        Ret ((1, None), unlock (set_head (Some p) pd))
  end.

Definition xlv2_shift (self : xlist) (data : bool) : outcome (result * xlist) :=
  let* pd := lock self in
  if 0 <? usecnt pd then
    let p := head pd in
    let* u := ck (usecnt pd - 1) in
    let pd := set_usecnt u pd in
    let* pd :=
      if u =? 0 then Ret (set_head None (set_tail None pd))
      else
        let* ln := deref pd p in
        let pd := set_head (next (snd ln)) pd in
        let* hn := deref pd (head pd) in
        Ret (store (fst hn) (mk_node (ptr (snd hn)) None (next (snd hn))) pd) in
    let* ln := deref pd p in
    let* pd := xlv2_free pd p in
    Ret ((1, copy_out data (ptr (snd ln))), unlock pd)
  else Ret ((0, None), unlock pd).

(** ** Both *)
Definition xl_count (self : xlist) : Z := if 0 <? count self then count self else 0.
Definition xl_freebuf (self : xlist) : outcome Z :=
  if 0 <? count self then ck (count self - usecnt self) else Ret 0.
Definition xl_usedbuf (self : xlist) : Z := usecnt self.

(** [for (p = ...; p != NULL; p = q) { q = p->next; free (p); }]: the nodes freed;
    a node met again is a use after free. *)
Fixpoint free_chain (fuel : nat) (h : gmap loc node) (p : option loc) : outcome (list loc * gmap loc node) :=
  match p with
  | None => Ret ([], h)
  | Some l =>
      match fuel, h !! l with
      | O, _ => Fault OutOfFuel
      | _, None => Fault NullDeref
      | S fuel', Some n =>
          let* r := free_chain fuel' (delete l h) (next n) in Ret (l :: fst r, snd r)
      end
  end.

(** [xl_dispose]: the entries and nodes it frees. *)
Definition xl_dispose (self : xlist) : outcome (list Z * list loc) :=
  if 0 <? count self then Ret (seqZ 0 (count self), [])
  else
    let fuel := size (heap self) in
    let* r := free_chain fuel (heap self) (head self) in
    let* r2 := free_chain fuel (snd r) (freelist self) in
    Ret ([], fst r ++ fst r2).

(** [new_xlist]: [zero] is the block [calloc] gives, [list0] the uninitialised
    [list] pointer of the linked variant, [ok_list] and [ok i] whether the
    allocations of the table and of entry [i] succeed.  [None] is NULL. *)
Definition new_xlist (zero : V) (ok_self ok_list : bool) (ok : Z -> bool) (n ssize : Z) : option xlist :=
  if negb ok_self then None
  else if n <=? 0 then
    Some (mk_xl V2 0 ssize [] None None None 0 0 0 false ∅)
  else if ok_list && forallb ok (seqZ 0 n) then
    Some (mk_xl V1 n ssize (replicate (Z.to_nat n) zero) None None None 0 0 0 false ∅)
  else None.

(** ** Calls through the function pointers *)
Inductive op :=
  | Push (v : V) | Pop (data : bool) | Shift (data : bool) | Unshift (v : V)
  | Front (data : bool) | Rear (data : bool) | Count | FreeBuf | UsedBuf.

Definition call (mal : option (loc * node)) (self : xlist) (o : op) : outcome (result * xlist) :=
  match o, impl self with
  | Push v, V1 => xlv1_push self v
  | Push v, V2 => xlv2_push mal self v
  | Pop d, V1 => xlv1_pop self d
  | Pop d, V2 => xlv2_pop self d
  | Shift d, V1 => xlv1_shift self d
  | Shift d, V2 => xlv2_shift self d
  | Unshift v, V1 => xlv1_unshift self v
  | Unshift v, V2 => xlv2_unshift mal self v
  | Front d, V1 => xlv1_front self d
  | Front d, V2 => xlv2_front self d
  | Rear d, V1 => xlv1_rear self d
  | Rear d, V2 => xlv2_rear self d
  | Count, _ => Ret ((xl_count self, None), self)
  | FreeBuf, _ => let* n := xl_freebuf self in Ret ((n, None), self)
  | UsedBuf, _ => Ret ((xl_usedbuf self, None), self)
  end.

Fixpoint calls (self : xlist) (os : list (option (loc * node) * op)) : outcome (list result) :=
  match os with
  | [] => Ret []
  | (mal, o) :: os =>
      let* r := call mal self o in
      let* rs := calls (snd r) os in
      Ret (fst r :: rs)
  end.

(** ** Specification: a deque of at most [n] blocks *)
Definition spec (n : Z) (l : list V) (o : op) : result * list V :=
  match o with
  | Push v => if zlen l <? n then ((1, None), l ++ [v]) else ((0, None), l)
  | Unshift v => if zlen l <? n then ((1, None), v :: l) else ((0, None), l)
  | Pop d => match last l with Some v => ((1, copy_out d v), take (length l - 1) l) | None => ((0, None), l) end
  | Shift d => match l with v :: l' => ((1, copy_out d v), l') | [] => ((0, None), l) end
  | Front d => match l with v :: _ => ((1, copy_out d v), l) | [] => ((0, None), l) end
  | Rear d => match last l with Some v => ((1, copy_out d v), l) | None => ((0, None), l) end
  | Count => ((n, None), l)
  | FreeBuf => ((n - zlen l, None), l)
  | UsedBuf => ((zlen l, None), l)
  end.

Fixpoint spec_run (n : Z) (l : list V) (os : list op) : list result :=
  match os with
  | [] => []
  | o :: os => fst (spec n l o) :: spec_run n (snd (spec n l o)) os
  end.

(** ** Representation: [front] is the slot before the first element, [rear] the
    slot of the last *)
Record rep (n : Z) (s : xlist) (l : list V) : Prop := {
  rp_impl : impl s = V1 /\ mutex s = false;
  rp_count : count s = n /\ 0 < n <= 2 ^ 30 /\ zlen (list_ s) = n;
  rp_front : 0 <= front s < n;
  rp_rear : rear s = (front s + zlen l) mod n;
  rp_used : usecnt s = zlen l;
  rp_ring : ring_rep (list_ s) (front s + 1) l;
}.

Lemma lock_free s : mutex s = false -> lock s = Ret (set_mutex true s).
Proof. unfold lock. by intros ->. Qed.

Lemma mod_pred a n : 0 < n -> ((a + n - 1) mod n + 1) mod n = a mod n.
Proof.
  intros. rewrite Z.add_mod_idemp_l by lia. replace (a + n - 1 + 1) with (a + 1 * n) by lia.
  by apply Z.mod_add; lia.
Qed.

Lemma ring_rep_congr (arr : list V) a b l :
  0 < zlen arr -> a mod zlen arr = b mod zlen arr -> ring_rep arr a l -> ring_rep arr b l.
Proof. intros Hn E R. apply ring_rep_mod; [done|]. rewrite <- E. by apply ring_rep_mod. Qed.

Ltac open_rep R := destruct R as [[Hi Hm] (Hc & Hn & Hl) Hf Hr Hu Hring];
  rewrite lock_free by done; cbn [obind usecnt count front rear list_ set_mutex].
Ltac close_rep := split; cbn [fst snd unlock impl mutex count front rear usecnt list_
    set_mutex set_front set_rear set_usecnt set_list_] in *; autorewrite with katmai in *; split_and?; try done; try lia.

Lemma push_rep n s l v : rep n s l ->
  exists s', xlv1_push s v = Ret (fst (spec n l (Push v)), s') /\ rep n s' (snd (spec n l (Push v))).
Proof.
  intros R. unfold xlv1_push. open_rep R. rewrite Hu, Hc. cbn [spec].
  destruct (Z.ltb_spec (zlen l) n) as [Hlt|Hge]; [|eexists; split; [done|by close_rep]].
  pose proof (Z.mod_pos_bound (front s + zlen l) n ltac:(lia)).
  pose proof (Z.mod_pos_bound (rear s + 1) n ltac:(lia)). pose proof (zlen_nonneg l). rewrite Hr in *.
  cbn [set_rear list_ usecnt]. crun. cbn [set_rear list_ usecnt set_mutex]. rewrite Hu. crun.
  eexists; split; [done|]. close_rep.
  - rewrite Z.add_mod_idemp_l by lia. f_equal. lia.
  - assert (rslot (zlen (list_ s)) (front s + 1 + zlen l) =
            Z.to_nat (((front s + zlen l) mod n + 1) mod n)) as <-.
    { unfold rslot. rewrite Hl, Z.add_mod_idemp_l by lia. do 2 f_equal. lia. }
    apply ring_rep_snoc; [lia|done].
Qed.

Lemma unshift_rep n s l v : rep n s l ->
  exists s', xlv1_unshift s v = Ret (fst (spec n l (Unshift v)), s') /\ rep n s' (snd (spec n l (Unshift v))).
Proof.
  intros R. unfold xlv1_unshift. open_rep R. rewrite Hu, Hc. cbn [spec].
  destruct (Z.ltb_spec (zlen l) n) as [Hlt|Hge]; [|eexists; split; [done|by close_rep]].
  pose proof (Z.mod_pos_bound (front s + n - 1) n ltac:(lia)) as Hb. pose proof (zlen_nonneg l).
  crun. cbn [set_front list_ usecnt set_mutex]. rewrite Hu. crun.
  eexists; split; [done|]. close_rep.
  - rewrite Hr, Z.add_mod_idemp_l by lia.
    replace (front s + n - 1 + (zlen l + 1)) with (front s + zlen l + 1 * n) by lia.
    by rewrite Z.mod_add by lia.
  - apply (ring_rep_congr _ (front s)); rewrite ?zlen_insert, ?Hl; [lia|by rewrite mod_pred by lia|].
    replace (Z.to_nat (front s)) with (rslot (zlen (list_ s)) (front s))
      by (unfold rslot; by rewrite Hl, Z.mod_small by lia).
    apply ring_rep_cons; [lia|done].
Qed.

Lemma pop_rep n s l d : rep n s l ->
  exists s', xlv1_pop s d = Ret (fst (spec n l (Pop d)), s') /\ rep n s' (snd (spec n l (Pop d))).
Proof.
  intros R. unfold xlv1_pop. open_rep R. rewrite Hu, Hc. cbn [spec].
  destruct l as [|v l _] using rev_ind; [eexists; split; [done|by close_rep]|].
  rewrite last_snoc, length_app. cbn [length]. rewrite Nat.add_sub, take_app_length, zlen_app in *.
  change (zlen [v]) with 1 in *. pose proof (zlen_nonneg l). rewrite (proj2 (Z.ltb_lt 0 _)) by lia.
  pose proof (proj1 Hring) as Hle. rewrite zlen_app in Hle. change (zlen [v]) with 1 in Hle.
  apply ring_rep_snoc_inv in Hring as [Hg Hring]; [|lia]. rewrite Hl in Hg.
  pose proof (Z.mod_pos_bound (front s + (zlen l + 1)) n ltac:(lia)). rewrite <- Hr in *.
  replace (front s + 1 + zlen l) with (front s + (zlen l + 1)) in Hg by lia. rewrite <- Hr in Hg.
  crun. cbn [set_rear list_ usecnt set_mutex]. rewrite Hu. crun.
  eexists; split; [done|]. close_rep.
  replace (rear s + n - 1) with (rear s + (n - 1)) by lia. rewrite Hr, Z.add_mod_idemp_l by lia.
  replace (front s + (zlen l + 1) + (n - 1)) with (front s + zlen l + 1 * n) by lia.
  by rewrite Z.mod_add by lia.
Qed.

Lemma shift_rep n s l d : rep n s l ->
  exists s', xlv1_shift s d = Ret (fst (spec n l (Shift d)), s') /\ rep n s' (snd (spec n l (Shift d))).
Proof.
  intros R. unfold xlv1_shift. open_rep R. rewrite Hu, Hc. cbn [spec].
  destruct l as [|v l]; [eexists; split; [done|by close_rep]|].
  rewrite zlen_cons in *. pose proof (zlen_nonneg l). rewrite (proj2 (Z.ltb_lt 0 _)) by lia.
  pose proof (proj1 Hring) as Hle. rewrite zlen_cons in Hle.
  apply ring_rep_cons_inv in Hring as [Hg Hring]; [|lia]. rewrite Hl in Hg.
  pose proof (Z.mod_pos_bound (front s + 1) n ltac:(lia)).
  crun. cbn [set_front list_ usecnt set_mutex]. rewrite Hu. crun.
  eexists; split; [done|]. close_rep.
  - rewrite Hr, Z.add_mod_idemp_l by lia. f_equal. lia.
  - eapply ring_rep_congr; [| |exact Hring]; rewrite Hl; [lia|]. by rewrite Z.add_mod_idemp_l by lia.
Qed.

Lemma front_rep n s l d : rep n s l -> xlv1_front s d = Ret (fst (spec n l (Front d)), s).
Proof.
  intros R. unfold xlv1_front. open_rep R. rewrite Hu, Hc. cbn [spec].
  assert (unlock (set_mutex true s) = s) as -> by (destruct s; cbn in *; by subst).
  destruct l as [|v l]; [done|]. rewrite zlen_cons in *. pose proof (zlen_nonneg l).
  rewrite (proj2 (Z.ltb_lt 0 _)) by lia. apply ring_rep_cons_inv in Hring as [Hg _]; [|lia].
  rewrite Hl in Hg. by crun.
Qed.

Lemma rear_rep n s l d : rep n s l -> xlv1_rear s d = Ret (fst (spec n l (Rear d)), s).
Proof.
  intros R. unfold xlv1_rear. open_rep R. rewrite Hu. cbn [spec].
  assert (unlock (set_mutex true s) = s) as -> by (destruct s; cbn in *; by subst).
  destruct l as [|v l _] using rev_ind; [done|]. rewrite last_snoc, zlen_app in *.
  change (zlen [v]) with 1 in *. pose proof (zlen_nonneg l). rewrite (proj2 (Z.ltb_lt 0 _)) by lia.
  apply ring_rep_snoc_inv in Hring as [Hg _]; [|lia].
  replace (front s + 1 + zlen l) with (front s + (zlen l + 1)) in Hg by lia.
  rewrite Hl, <- Hr in Hg. by crun.
Qed.

Lemma call_rep mal n s l o : rep n s l ->
  exists s', call mal s o = Ret (fst (spec n l o), s') /\ rep n s' (snd (spec n l o)).
Proof.
  intros R. pose proof R as [[Hi Hm] (Hc & Hn & Hl) Hf Hr Hu [Hle _]]. pose proof (zlen_nonneg l).
  destruct o as [v|d|d|v|d|d| | |]; unfold call; rewrite ?Hi.
  - by apply push_rep.
  - by apply pop_rep.
  - by apply shift_rep.
  - by apply unshift_rep.
  - exists s. split; [by apply front_rep|]. simpl. by destruct l.
  - exists s. split; [by apply rear_rep|]. simpl. by destruct (last l).
  - exists s. split; [|done]. unfold xl_count. by rewrite Hc, (proj2 (Z.ltb_lt 0 n)) by lia.
  - exists s. split; [|done]. unfold xl_freebuf. rewrite Hc, Hu, (proj2 (Z.ltb_lt 0 n)) by lia. by crun.
  - exists s. split; [|done]. unfold xl_usedbuf. by rewrite Hu.
Qed.

Lemma calls_rep n s l os : rep n s l -> calls s os = Ret (spec_run n l (snd <$> os)).
Proof.
  revert s l. induction os as [|[mal o] os IH]; intros s l R; [done|]. cbn [calls fmap list_fmap snd spec_run].
  destruct (call_rep mal n s l o R) as (s' & -> & R'). cbn [obind fst snd].
  by rewrite (IH _ _ R').
Qed.

Lemma new_rep zero ok n sz s : 0 < n <= 2 ^ 30 ->
  new_xlist zero true true ok n sz = Some s -> rep n s [].
Proof.
  intros Hn. unfold new_xlist. rewrite (proj2 (Z.leb_gt n 0)) by lia. cbn [negb andb].
  destruct (forallb ok _); [|done]. intros [= <-].
  split; cbn; autorewrite with katmai; split_and?; try done; try lia. apply ring_rep_nil.
Qed.

(** C20: the ring variant is a deque of at most [n] blocks: whatever calls are made
    on a new list of [n] entries, in any order, every return value and every block
    handed back are those of the deque, and no call faults. *)
Theorem xlist_deque zero ok n sz s os :
  0 < n <= 2 ^ 30 -> new_xlist zero true true ok n sz = Some s ->
  calls s os = Ret (spec_run n [] (snd <$> os)).
Proof. intros Hn Hs. eapply calls_rep, new_rep; done. Qed.

(** In the linked variant the first [push] or [unshift] never returns: it
    holds the mutex when it calls [xlv2_malloc], which locks it again. *)
Theorem xlist_linked_deadlocks zero ok_list ok n sz s mal v :
  n <= 0 -> new_xlist zero true ok_list ok n sz = Some s ->
  call mal s (Push v) = Fault Deadlock /\ call mal s (Unshift v) = Fault Deadlock.
Proof.
  intros Hn. unfold new_xlist. rewrite (proj2 (Z.leb_le n 0)) by lia. by intros [= <-].
Qed.
End xlist.
Arguments node : clear implicits.
Arguments xlist : clear implicits.
Arguments op : clear implicits.

Lemma xlist_deque_witness :
  exists s, new_xlist 0 true true (fun _ => true) 2 4 = Some s /\
    calls s ((fun o => (None, o)) <$> [Push 5; Unshift 6; Push 7; Rear true; Shift true; FreeBuf; Pop true; Pop true]) =
    Ret [(1, None); (1, None); (0, None); (1, Some 5); (1, Some 6); (1, None); (1, Some 5); (0, None)].
Proof.
  eexists. split; [reflexivity|]. etransitivity; [eapply (xlist_deque 0 (fun _ => true) 2 4)|].
  - lia.
  - reflexivity.
  - reflexivity.
Defined.

Lemma xlist_linked_deadlocks_witness :
  exists s, new_xlist 0 true true (fun _ => true) 0 4 = Some s /\ call None s (Push 1) = Fault Deadlock.
Proof.
  eexists. split; [reflexivity|].
  refine (proj1 (xlist_linked_deadlocks 0 true (fun _ => true) 0 4 _ None 1 _ _)); [lia|reflexivity].
Defined.

End XL.
