(* ===== verification/Pqueue.v ===== *)
(** * Pqueue.v: the priority queue of client numbers, pqueue/pqueue.c

    Without a callback the structure is a FIFO queue without duplicates in a ring
    of [n + 1] slots; with one it is meant to be a sorted array.  The FIFO mode
    is proved to meet the [FifoQueue] interface; of the priority mode it is proved
    that the second number enqueued is lost.

    A call runs under the mutex and is one step; waiting is [Block]. *)

From stdpp Require Import sorting.
From S2P Require Import Prelude Interfaces Ring.

Module PQ.

(** [struct priority_queue_t] without the callback. *)
Record pqueue := mk_pq {
  queue : list Z;
  count : Z;
  front : Z;
  rear : Z;
  use_cnt : Z;
}.
Definition set_queue (v : list Z) (s : pqueue) : pqueue :=
  mk_pq v (count s) (front s) (rear s) (use_cnt s).
Definition set_count (v : Z) (s : pqueue) : pqueue :=
  mk_pq (queue s) v (front s) (rear s) (use_cnt s).
Definition set_front (v : Z) (s : pqueue) : pqueue :=
  mk_pq (queue s) (count s) v (rear s) (use_cnt s).
Definition set_rear (v : Z) (s : pqueue) : pqueue :=
  mk_pq (queue s) (count s) (front s) v (use_cnt s).
Definition set_use_cnt (v : Z) (s : pqueue) : pqueue :=
  mk_pq (queue s) (count s) (front s) (rear s) v.

(** Lines 29-35: [do ... while (i != rear)]; one round per occupied slot. *)
Fixpoint scan (fuel : nat) (self : pqueue) (i n : Z) : outcome bool :=
  match fuel with
  | O => Fault OutOfFuel
  | S fuel' =>
      let* v := aget (queue self) i in
      if v =? n then Ret true
      else
        let* i1 := ck (i + 1) in
        let* i' := crem i1 (count self) in
        if i' =? rear self then Ret false else scan fuel' self i' n
  end.

(** Lines 39-42 (and 21-23): append at [rear]. *)
Definition put_rear (self : pqueue) (n : Z) : outcome pqueue :=
  let* q := aset (queue self) (rear self) n in
  let* r1 := ck (rear self + 1) in
  let* r := crem r1 (count self) in
  let* u := ck (use_cnt self + 1) in
  Ret (set_use_cnt u (set_rear r (set_queue q self))).

(** [bsearch] on the first [hi] elements. *)
Fixpoint bsearch (fuel : nat) (cmp : Z -> Z -> Z) (n : Z) (a : list Z) (lo hi : Z) : outcome bool :=
  match fuel with
  | O => Fault OutOfFuel
  | S fuel' =>
      if lo <? hi then
        let mid := (lo + hi) / 2 in
        let* v := aget a mid in
        let c := cmp n v in
        if c <? 0 then bsearch fuel' cmp n a lo mid
        else if 0 <? c then bsearch fuel' cmp n a (mid + 1) hi
        else Ret true
      else Ret false
  end.

Section pqueue.
(** [qsort] of the C library: it permutes its array so that [cmp] orders it (the
    order of equal elements is not specified). *)
Context (qsort : (Z -> Z -> Z) -> list Z -> list Z).

Definition pq_enqueue (callback : option (Z -> Z -> Z)) (self : pqueue) (n : Z) : outcome (Z * pqueue) :=
  match callback with
  | None =>
      if front self =? rear self then
        let* s := put_rear self n in Ret (1, s)
      else
        let* found := scan (length (queue self)) self (front self) n in
        if negb found then
          let* c1 := ck (count self - 1) in
          if use_cnt self <? c1 then
            let* s := put_rear self n in Ret (1, s)
          else Ret (0, self)
        else Ret (1, self)
  | Some cmp =>
      if use_cnt self =? 0 then
        let* q := aset (queue self) 0 n in
        let* u := ck (use_cnt self + 1) in
        Ret (1, set_use_cnt u (set_queue q self))
      else
        let* dup := bsearch (length (queue self)) cmp n (queue self) 0 (use_cnt self) in
        if dup : bool then Ret (1, self)
        else
          let* c1 := ck (count self - 1) in
          if use_cnt self <? c1 then
            let* u := ck (use_cnt self + 1) in
            let* q := aset (queue self) u n in
            let k := Z.to_nat u in
            Ret (1, set_use_cnt u (set_queue (qsort cmp (take k q) ++ drop k q) self))
          else Ret (0, self)
  end.

Definition pq_dequeue (callback : option (Z -> Z -> Z)) (self : pqueue) (wait : bool) : outcome (Z * pqueue) :=
  if wait && (use_cnt self =? 0) then Block
  else if use_cnt self =? 0 then Ret (-1, self)
  else
    match callback with
    | None =>
        let* rc := aget (queue self) (front self) in
        let* f1 := ck (front self + 1) in
        let* f := crem f1 (count self) in
        let* u := ck (use_cnt self - 1) in
        Ret (rc, set_use_cnt u (set_front f self))
    | Some _ =>
        let* u := ck (use_cnt self - 1) in
        let* rc := aget (queue self) u in
        Ret (rc, set_use_cnt u self)
    end.

Definition pq_is_empty (self : pqueue) : Z := b2z (use_cnt self =? 0).

(** [new_priority_queue], the allocations succeeding. *)
Definition new_priority_queue (n : Z) : pqueue :=
  mk_pq (replicate (Z.to_nat (n + 1)) 0) (n + 1) 0 0 0.

(** ** FIFO mode: a queue [l] of at most [n] distinct numbers *)
Record rep (n : Z) (s : pqueue) (l : list Z) : Prop := {
  rp_count : count s = n + 1 /\ 0 < n < INT_MAX /\ zlen (queue s) = n + 1;
  rp_front : 0 <= front s < n + 1;
  rp_rear : rear s = (front s + zlen l) mod (n + 1);
  rp_used : use_cnt s = zlen l /\ zlen l <= n;
  rp_nodup : NoDup l;
  rp_ring : ring_rep (queue s) (front s) l;
}.

Lemma rep_empty_iff n s l : rep n s l -> front s = rear s <-> l = [].
Proof.
  intros [(Hc & Hn & Hl) Hf Hr [Hu Hle] Hnd Hring]. pose proof (zlen_nonneg l). split.
  - intros E. destruct l as [|x l]; [done|exfalso]. rewrite zlen_cons in *. pose proof (zlen_nonneg l).
    assert ((front s + 0) mod (n + 1) = (front s + (zlen l + 1)) mod (n + 1)) as Em
      by (rewrite Z.add_0_r, (Z.mod_small (front s)) by lia; congruence).
    apply mod_inj in Em; lia.
  - intros ->. rewrite Hr, zlen_nil, Z.add_0_r, Z.mod_small; [done|lia].
Qed.

(** The search loop started [j] elements into the queue decides membership in the rest. *)
Lemma scan_run n s l x (j fuel : nat) :
  rep n s l -> (j < length l)%nat -> (length l - j <= fuel)%nat ->
  scan fuel s ((front s + Z.of_nat j) mod (n + 1)) x = Ret (bool_decide (x ∈ drop j l)).
Proof.
  intros R. pose proof R as [(Hc & Hn & Hl) Hf Hr [Hu Hle] Hnd Hring].
  revert j. induction fuel as [|fuel IH]; intros j Hj Hfuel; [lia|]. cbn [scan].
  destruct (lookup_lt_is_Some_2 l j Hj) as [v Hv].
  assert (0 < zlen (queue s)) as Hpos by lia.
  pose proof (ring_rep_lookup _ _ _ _ _ Hpos Hring Hv) as Hg. rewrite Hl in Hg. rewrite Hg. cbn [obind].
  rewrite (drop_S _ v) by done. destruct (Z.eqb_spec v x) as [->|Hne].
  { rewrite bool_decide_eq_true_2; [done|by left]. }
  pose proof (Z.mod_pos_bound (front s + Z.of_nat j) (n + 1) ltac:(lia)). rewrite Hc. crun.
  rewrite Z.add_mod_idemp_l by lia. unfold zlen in Hle.
  replace (front s + Z.of_nat j + 1) with (front s + Z.of_nat (S j)) by lia.
  assert (bool_decide (x ∈ v :: drop (S j) l) = bool_decide (x ∈ drop (S j) l)) as ->
    by (apply bool_decide_ext; rewrite elem_of_cons; split; [by intros [->|?]|by right]).
  rewrite Hr. destruct (Z.eqb_spec ((front s + Z.of_nat (S j)) mod (n + 1)) ((front s + zlen l) mod (n + 1))) as [E|E].
  - apply mod_inj in E; [|unfold zlen; lia..]. rewrite drop_ge by (unfold zlen in E; lia).
    rewrite bool_decide_eq_false_2; [done|]. apply not_elem_of_nil.
  - apply IH; [|lia]. unfold zlen in E. destruct (decide (S j = length l)) as [Ej|Ej]; [by rewrite Ej in E|lia].
Qed.

Lemma put_rear_rep n s l x : rep n s l -> zlen l < n -> x ∉ l ->
  exists s', put_rear s x = Ret s' /\ rep n s' (l ++ [x]).
Proof.
  intros [(Hc & Hn & Hl) Hf Hr [Hu Hle] Hnd Hring] Hlt Hx. pose proof (zlen_nonneg l).
  pose proof (Z.mod_pos_bound (front s + zlen l) (n + 1) ltac:(lia)). rewrite <- Hr in *.
  unfold put_rear. rewrite Hc, Hu. crun. eexists. split; [done|].
  split; cbn; autorewrite with katmai; split_and?; try done; try lia.
  - rewrite Hr, Z.add_mod_idemp_l by lia. f_equal. lia.
  - apply NoDup_app. split_and!; [done| |apply NoDup_singleton]; by intros y Hy ->%list_elem_of_singleton.
  - replace (Z.to_nat (rear s)) with (rslot (zlen (queue s)) (front s + zlen l))
      by (unfold rslot; by rewrite Hl, <- Hr).
    apply ring_rep_snoc; [lia|done].
Qed.

Lemma enqueue_rep n s l x : rep n s l ->
  exists s', pq_enqueue None s x = Ret (b2z (bool_decide (x ∈ l \/ zlen l < n)), s') /\
    rep n s' (if decide (x ∈ l \/ n <= zlen l) then l else l ++ [x]).
Proof.
  intros R. pose proof (rep_empty_iff _ _ _ R) as He.
  pose proof R as [(Hc & Hn & Hl) Hf Hr [Hu Hle] Hnd Hring]. pose proof (zlen_nonneg l).
  unfold pq_enqueue. destruct (Z.eqb_spec (front s) (rear s)) as [E|E].
  - rewrite He in E. subst l. destruct (put_rear_rep n s [] x) as (s' & -> & R'); [done|rewrite zlen_nil; lia|apply not_elem_of_nil|].
    exists s'. rewrite zlen_nil. rewrite bool_decide_eq_true_2 by (right; lia). split; [done|].
    rewrite decide_False; [done|]. intros [?%not_elem_of_nil|]; [done|]. lia.
  - assert (l <> []) as Hne by (by rewrite <- He). destruct l as [|y l]; [done|].
    pose proof (scan_run n s (y :: l) x 0 (length (queue s)) R ltac:(simpl; lia) ltac:(unfold zlen in *; lia)) as Hs.
    rewrite Z.add_0_r, Z.mod_small in Hs by lia. rewrite Hs. cbn [obind drop].
    destruct (decide (x ∈ y :: l)) as [Hin|Hin].
    + rewrite (bool_decide_eq_true_2 (_ ∈ _)), (bool_decide_eq_true_2 (_ \/ _)) by (done || by left).
      exists s. rewrite decide_True by (by left). done.
    + rewrite bool_decide_eq_false_2 by done. cbn [negb]. rewrite Hc. crun. rewrite Hu.
      replace (n + 1 - 1) with n by lia. destruct (Z.ltb_spec (zlen (y :: l)) n) as [Hlt|Hge].
      * destruct (put_rear_rep n s (y :: l) x R Hlt Hin) as (s' & -> & R'). exists s'.
        rewrite bool_decide_eq_true_2 by (by right). split; [done|].
        rewrite decide_False; [done|]. intros [?|?]; [done|lia].
      * exists s. rewrite bool_decide_eq_false_2 by (intros [?|?]; [done|lia]). split; [done|].
        rewrite decide_True by (right; lia). done.
Qed.

Lemma dequeue_rep n s l x w : rep n s (x :: l) ->
  exists s', pq_dequeue None s w = Ret (x, s') /\ rep n s' l.
Proof.
  intros [(Hc & Hn & Hl) Hf Hr [Hu Hle] Hnd Hring]. rewrite zlen_cons in *. pose proof (zlen_nonneg l).
  unfold pq_dequeue. rewrite (proj2 (Z.eqb_neq (use_cnt s) 0)) by lia. rewrite andb_false_r.
  apply ring_rep_cons_inv in Hring as [Hg Hring]; [|lia].
  rewrite Hl, Z.mod_small in Hg by lia. rewrite Hc, Hu. crun. eexists. split; [done|].
  pose proof (Z.mod_pos_bound (front s + 1) (n + 1) ltac:(lia)).
  split; cbn; autorewrite with katmai; split_and?; try done; try lia.
  - rewrite Hr, Z.add_mod_idemp_l by lia. f_equal. lia.
  - by apply NoDup_cons in Hnd as [_ ?].
  - rewrite <- Hl at 1. apply ring_rep_mod; [lia|done].
Qed.

Lemma dequeue_empty n s w : rep n s [] -> pq_dequeue None s w = if w then Block else Ret (-1, s).
Proof. intros [_ _ _ [Hu _] _ _]. unfold pq_dequeue. rewrite Hu. by destruct w. Qed.

Lemma is_empty_rep n s l : rep n s l -> pq_is_empty s = b2z (bool_decide (l = [])).
Proof.
  intros [_ _ _ [Hu _] _ _]. unfold pq_is_empty. rewrite Hu. f_equal.
  destruct l as [|x l]; [done|]. rewrite zlen_cons. pose proof (zlen_nonneg l).
  rewrite (proj2 (Z.eqb_neq _ 0)) by lia. by rewrite bool_decide_eq_false_2.
Qed.

Lemma pq_new_rep n : 0 < n < INT_MAX -> rep n (new_priority_queue n) [].
Proof.
  intros Hn. split; cbn; autorewrite with katmai; split_and?; try done; try lia.
  - constructor.
  - apply ring_rep_nil.
Qed.

(** The FIFO mode without a callback, as a run of calls. *)
Inductive op := Enq (n : Z) | Deq | IsEmpty.

Definition call (s : pqueue) (o : op) : outcome (Z * pqueue) :=
  match o with
  | Enq n => pq_enqueue None s n
  | Deq => pq_dequeue None s false
  | IsEmpty => Ret (pq_is_empty s, s)
  end.

Fixpoint calls (s : pqueue) (os : list op) : outcome (list Z) :=
  match os with
  | [] => Ret []
  | o :: os => let* r := call s o in let* rs := calls (snd r) os in Ret (fst r :: rs)
  end.

(** A FIFO set of at most [n] numbers. *)
Definition spec (n : Z) (l : list Z) (o : op) : Z * list Z :=
  match o with
  | Enq x => if decide (x ∈ l) then (1, l) else if zlen l <? n then (1, l ++ [x]) else (0, l)
  | Deq => match l with x :: l' => (x, l') | [] => (-1, []) end
  | IsEmpty => (b2z (bool_decide (l = [])), l)
  end.

Fixpoint spec_run (n : Z) (l : list Z) (os : list op) : list Z :=
  match os with
  | [] => []
  | o :: os => fst (spec n l o) :: spec_run n (snd (spec n l o)) os
  end.

Lemma pq_call_rep n s l o : rep n s l ->
  exists s', call s o = Ret (fst (spec n l o), s') /\ rep n s' (snd (spec n l o)).
Proof.
  intros R. destruct o as [x| |]; cbn [call spec].
  - destruct (enqueue_rep n s l x R) as (s' & -> & R'). exists s'. revert R'.
    destruct (decide (x ∈ l)) as [Hin|Hin]; [|destruct (Z.ltb_spec (zlen l) n)].
    + rewrite bool_decide_eq_true_2 by (by left). rewrite decide_True by (by left). done.
    + rewrite bool_decide_eq_true_2 by (by right). rewrite decide_False; [done|].
      intros [?|?]; [done|lia].
    + rewrite bool_decide_eq_false_2, decide_True; [done|by right; lia|]. intros [?|?]; [done|lia].
  - destruct l as [|x l].
    + rewrite (dequeue_empty n) by done. by exists s.
    + by apply dequeue_rep.
  - exists s. by rewrite (is_empty_rep n s l).
Qed.

Lemma pq_calls_rep n s l os : rep n s l -> calls s os = Ret (spec_run n l os).
Proof.
  revert s l. induction os as [|o os IH]; intros s l R; [done|]. cbn [calls spec_run].
  destruct (pq_call_rep n s l o R) as (s' & -> & R'). cbn [obind fst snd]. by rewrite (IH _ _ R').
Qed.

(** Without a callback the queue is a FIFO set of at most [n] numbers: whatever
    calls are made on a new queue, the results are those of the abstract queue
    ([enqueue] of a number already queued succeeds and changes nothing, [enqueue] on
    a full queue returns 0, [dequeue] on an empty one returns -1). *)
Theorem pq_fifo_correct n os :
  0 < n < INT_MAX -> calls (new_priority_queue n) os = Ret (spec_run n [] os).
Proof. intros Hn. by apply pq_calls_rep, pq_new_rep. Qed.

(** The state after two calls of the priority mode: the second number is in slot
    2, outside the two slots that are sorted. *)
Lemma priority_two (m : nat) cmp a b :
  Z.of_nat m + 2 < INT_MAX -> cmp b a <> 0 ->
  exists s1, pq_enqueue (Some cmp) (new_priority_queue (Z.of_nat m + 2)) a = Ret (1, s1) /\
    pq_enqueue (Some cmp) s1 b =
    Ret (1, mk_pq (qsort cmp [a; 0] ++ b :: replicate m 0) (Z.of_nat m + 3) 0 0 2).
Proof.
  intros Hm Hc. unfold new_priority_queue.
  replace (Z.of_nat m + 2 + 1) with (Z.of_nat m + 3) by lia.
  replace (Z.to_nat (Z.of_nat m + 3)) with (S (S (S m))) by lia.
  assert (bsearch (S (S (S m))) cmp b (a :: 0 :: 0 :: replicate m 0) 0 1 = Ret false) as Hs.
  { transitivity (if cmp b a <? 0 then Ret false else if 0 <? cmp b a then Ret false else Ret true); [reflexivity|].
    destruct (Z.ltb_spec (cmp b a) 0); [done|]. by rewrite (proj2 (Z.ltb_lt 0 (cmp b a))) by lia. }
  exists (mk_pq (a :: 0 :: 0 :: replicate m 0) (Z.of_nat m + 3) 0 0 1). split; [reflexivity|].
  unfold pq_enqueue. cbn [use_cnt queue count Z.eqb length].
  rewrite length_replicate, Hs. cbn [obind]. crun. rewrite (proj2 (Z.ltb_lt 1 _)) by lia.
  crun. rewrite aset_Ret by (unfold zlen; cbn [length]; lia). reflexivity.
Qed.

(** With a callback the second number enqueued is lost: [++use_cnt] skips slot
    1, so the sort and every later [dequeue] see the 0 that [calloc] left there in
    place of the new number. *)
Theorem pq_priority_loses (m : nat) cmp a b :
  Z.of_nat m + 2 < INT_MAX -> (forall l, qsort cmp l ≡ₚ l) -> cmp b a <> 0 ->
  exists s1 s2, pq_enqueue (Some cmp) (new_priority_queue (Z.of_nat m + 2)) a = Ret (1, s1) /\
    pq_enqueue (Some cmp) s1 b = Ret (1, s2) /\
  exists x y s3 s4, pq_dequeue (Some cmp) s2 false = Ret (x, s3) /\
    pq_dequeue (Some cmp) s3 false = Ret (y, s4) /\ pq_is_empty s4 = 1 /\ [x; y] ≡ₚ [a; 0].
Proof.
  intros Hm Hq Hc. destruct (priority_two m cmp a b Hm Hc) as (s1 & E1 & E2).
  exists s1. eexists. split; [done|]. split; [exact E2|]. pose proof (Hq [a; 0]) as Hp.
  pose proof (Permutation_length Hp) as Hl. destruct (qsort cmp [a; 0]) as [|y [|x [|]]]; try done.
  exists x, y. do 2 eexists. split; [reflexivity|]. split; [reflexivity|]. split; [reflexivity|].
  by rewrite <- Hp, Permutation_swap.
Qed.
End pqueue.

(** The queue serves as the stream server's queue of ready clients: with room for
    all [cap] client numbers it meets the interface.  [qsort] plays no part. *)
Section fifo.
Abbreviation enq := (pq_enqueue (fun _ l => l) None).

Lemma cap_room cap n (l : list Z) x : NoDup l -> Forall (fun v => 0 <= v < cap) l ->
  0 <= x < cap -> cap <= n -> x ∉ l -> zlen l < n.
Proof.
  intros Hnd Hall Hx Hn Hin.
  assert (NoDup (x :: l)) as Hnd2 by (by constructor).
  assert (x :: l ⊆ seqZ 0 cap) as Hsub.
  { intros y [->|Hy]%elem_of_cons; apply elem_of_seqZ; [lia|].
    rewrite Forall_forall in Hall. specialize (Hall y Hy). lia. }
  apply NoDup_submseteq in Hsub; [|done]. apply submseteq_length in Hsub.
  rewrite length_seqZ in Hsub. cbn in Hsub. unfold zlen. lia.
Qed.

#[refine, global] Instance pq_is_fifo : FifoQueue pqueue := {
  fq_push q n _ := enq q n;
  fq_pop q := pq_dequeue None q true;
  fq_is_empty q := pq_is_empty q;
  fq_rep q cap l := exists n, cap <= n /\ rep n q l /\ Forall (fun v => 0 <= v < cap) l;
}.
Proof.
  - intros q cap l x (n & Hn & R & Hall) Hx.
    destruct (enqueue_rep (fun _ l => l) n q l x R) as (q' & E & R'). exists q'. rewrite E.
    pose proof (rp_nodup _ _ _ R) as Hnd. destruct (decide (x ∈ l)) as [Hin|Hin].
    + rewrite bool_decide_eq_true_2 by (by left). rewrite decide_True in R' by (by left).
      split; [done|]. by exists n.
    + assert (zlen l < n) by (by eapply cap_room). rewrite bool_decide_eq_true_2 by (by right).
      rewrite decide_False in R' by (intros [?|?]; [done|lia]). split; [done|].
      exists n. split_and!; [done|done|]. apply Forall_app. split; [done|]. by apply Forall_singleton.
  - intros q cap l x (n & Hn & R & Hall). destruct (dequeue_rep n q l x true R) as (q' & E & R').
    exists q'. split; [done|]. apply Forall_cons in Hall as [_ Hall]. by exists n.
  - intros q cap (n & Hn & R & Hall). by rewrite (dequeue_empty n).
  - intros q cap l (n & Hn & R & Hall). by eapply is_empty_rep.
  - intros q cap l (n & Hn & R & Hall). split; [by eapply rp_nodup|done].
Defined.
End fifo.

Lemma pq_fifo_correct_witness :
  calls (fun _ l => l) (new_priority_queue 2) [Deq; Enq 7; Enq 3; Enq 7; Enq 5; Deq; Deq; IsEmpty] =
  Ret [-1; 1; 1; 1; 0; 7; 3; 1].
Proof.
  etransitivity; [apply (pq_fifo_correct (fun _ l => l) 2)|reflexivity]. unfold INT_MAX. lia.
Defined.

Definition merge_qsort (cmp : Z -> Z -> Z) (l : list Z) : list Z := @merge_sort Z (fun x y => cmp x y <= 0) (fun x y => decide _) l.

Lemma pq_priority_loses_witness :
  exists s1 s2, pq_enqueue merge_qsort (Some Z.sub) (new_priority_queue 3) 7 = Ret (1, s1) /\
    pq_enqueue merge_qsort (Some Z.sub) s1 9 = Ret (1, s2) /\
  exists x y s3 s4, pq_dequeue (Some Z.sub) s2 false = Ret (x, s3) /\
    pq_dequeue (Some Z.sub) s3 false = Ret (y, s4) /\ pq_is_empty s4 = 1 /\ [x; y] ≡ₚ [7; 0].
Proof.
  apply (pq_priority_loses merge_qsort 1 Z.sub 7 9); [reflexivity| |discriminate].
  intros l. apply merge_sort_Permutation.
Defined.

End PQ.
