(* ===== verification/Cstr.v ===== *)
(** * Cstr.v: strings in C buffers, misclib/chomp.c, ltrim.c, rtrim.c, strip_dos_eof.c

    A buffer is the list of its bytes; [cstr buf s] says that it holds the string
    [s], closed by a NUL inside the buffer.  The trimming functions edit a buffer
    in place and return the new length; each is proved to leave the string its name
    promises, whatever lies behind it in the buffer. *)

From S2P Require Import Prelude.

Module CS.

Definition NUL : Z := 0.
Definition TAB : Z := 9.
Definition LF : Z := 10.
Definition CR : Z := 13.
Definition EOF_DOS : Z := 26.
Definition SPC : Z := 32.

Fixpoint strlen (buf : list Z) : outcome Z :=
  match buf with
  | [] => Fault OutOfBounds
  | c :: buf' => if c =? NUL then Ret 0 else let* n := strlen buf' in Ret (n + 1)
  end.

(** ["%02x"] of a byte. *)
Definition hex_digit (d : Z) : Z := if d <? 10 then 48 + d else 87 + d.
Definition hex (b : Z) : list Z := [hex_digit (b / 16); hex_digit (b mod 16)].

Definition is_eol (c : Z) : bool := (c =? CR) || (c =? LF).
Definition is_blank (c : Z) : bool := (c =? SPC) || (c =? TAB).

(** [for (i = len - 1; i >= 0; i--) if (w (buffer[i])) buffer[len = i] = '\0'; else
    break;]: [k] is [i + 1]. *)
Fixpoint trim_loop (w : Z -> bool) (k : nat) (buf : list Z) (len : Z) : outcome (Z * list Z) :=
  match k with
  | O => Ret (len, buf)
  | S i =>
      let* c := aget buf (Z.of_nat i) in
      if w c then
        let* buf' := aset buf (Z.of_nat i) NUL in trim_loop w i buf' (Z.of_nat i)
      else Ret (len, buf)
  end.

Definition chomp (buf : list Z) : outcome (Z * list Z) :=
  let* n := strlen buf in let len := to_int n in trim_loop is_eol (Z.to_nat len) buf len.

Definition rtrim (buf : list Z) : outcome (Z * list Z) :=
  let* n := strlen buf in let len := to_int n in trim_loop is_blank (Z.to_nat len) buf len.

(** [for (i = 0; i < len; i++) if (! blank (buffer[i])) break;]: [k] is [len - i]. *)
Fixpoint skip_loop (k : nat) (buf : list Z) (i : Z) : outcome Z :=
  match k with
  | O => Ret i
  | S k' => let* c := aget buf i in if negb (is_blank c) then Ret i else skip_loop k' buf (i + 1)
  end.

(** [for (...; j <= len; i++, j++) buffer[j] = buffer[i];]: [k] is [len + 1 - j]. *)
Fixpoint move_loop (k : nat) (buf : list Z) (i j : Z) : outcome (list Z) :=
  match k with
  | O => Ret buf
  | S k' =>
      let* c := aget buf i in
      let* buf' := aset buf j c in
      move_loop k' buf' (i + 1) (j + 1)
  end.

Definition ltrim (buf : list Z) : outcome (Z * list Z) :=
  let* n := strlen buf in
  let len := to_int n in
  let* i := skip_loop (Z.to_nat len) buf 0 in
  if 0 <? i then
    let len := len - i in
    let* buf' := move_loop (Z.to_nat (len + 1)) buf i 0 in
    Ret (len, buf')
  else Ret (len, buf).

Definition strip_dos_eof (buf : list Z) : outcome (Z * list Z) :=
  let* n := strlen buf in
  let len := to_int n in
  if 0 <? len then
    let* c := aget buf (len - 1) in
    if c =? EOF_DOS then
      let* buf' := aset buf (len - 1) NUL in Ret (len - 1, buf')
    else Ret (len, buf)
  else Ret (len, buf).

(** [fgets (buffer, n + 1, fp)]: the bytes read and the rest of the file. *)
Fixpoint fgets_take (n : nat) (f : list Z) : list Z * list Z :=
  match n, f with
  | S n', c :: f' =>
      if c =? LF then ([c], f')
      else let r := fgets_take n' f' in (c :: fst r, snd r)
  | _, _ => ([], f)
  end.

(** The string at the start of a buffer. *)
Fixpoint cstring (buf : list Z) : list Z :=
  match buf with
  | c :: buf' => if c =? NUL then [] else c :: cstring buf'
  | [] => []
  end.

(** ** Specification *)
Fixpoint lstrip (w : Z -> bool) (s : list Z) : list Z :=
  match s with
  | c :: s' => if w c then lstrip w s' else s
  | [] => []
  end.
Definition rstrip (w : Z -> bool) (s : list Z) : list Z := reverse (lstrip w (reverse s)).

Definition nonul (s : list Z) : Prop := Forall (fun c => c <> NUL) s.

Definition cstr (buf s : list Z) : Prop :=
  nonul s /\ zlen buf <= INT_MAX /\ exists t, buf = s ++ NUL :: t.

(** A function that edits the string of a buffer as [f] does and returns the length. *)
Definition edits (op : list Z -> outcome (Z * list Z)) (f : list Z -> list Z) : Prop :=
  forall buf s, cstr buf s ->
    exists buf', op buf = Ret (zlen (f s), buf') /\ cstr buf' (f s) /\ zlen buf' = zlen buf.

Lemma rstrip_nil w : rstrip w [] = [].
Proof. done. Qed.
Lemma rstrip_snoc w s c : rstrip w (s ++ [c]) = if w c then rstrip w s else s ++ [c].
Proof.
  unfold rstrip. rewrite reverse_snoc. cbn [lstrip]. destruct (w c); [done|].
  by rewrite reverse_cons, reverse_involutive.
Qed.

(** The string with the characters [w] at its end, nothing else removed. *)
Lemma rstrip_split w s : exists t, s = rstrip w s ++ t /\ Forall (fun c => w c = true) t /\
  match last (rstrip w s) with Some c => w c = false | None => True end.
Proof.
  induction s as [|c s IH] using rev_ind; [by exists []|]. rewrite rstrip_snoc.
  destruct (w c) eqn:Hc.
  - destruct IH as (t & E & Ht & Hl). exists (t ++ [c]). rewrite app_assoc, <- E. split_and!; [done| |done].
    apply Forall_app. by rewrite Forall_singleton.
  - exists []. rewrite app_nil_r, last_snoc. done.
Qed.

Lemma lstrip_split w s : exists t, s = t ++ lstrip w s /\ Forall (fun c => w c = true) t /\
  match lstrip w s with c :: _ => w c = false | [] => True end.
Proof.
  induction s as [|c s IH]; [by exists []|]. cbn [lstrip]. destruct (w c) eqn:Hc.
  - destruct IH as (t & E & Ht & Hl). exists (c :: t). cbn. rewrite <- E. split_and!; [done|by constructor|done].
  - by exists [].
Qed.

Lemma rstrip_nonul w s : nonul s -> nonul (rstrip w s).
Proof. destruct (rstrip_split w s) as (t & E & _). rewrite E at 1. by intros [? _]%Forall_app. Qed.
Lemma lstrip_nonul w s : nonul s -> nonul (lstrip w s).
Proof. destruct (lstrip_split w s) as (t & E & _). rewrite E at 1. by intros [_ ?]%Forall_app. Qed.

Lemma to_int_small z : 0 <= z <= INT_MAX -> to_int z = z.
Proof.
  intros H. unfold to_int, u32, INT_MAX in *. rewrite Z.mod_small by lia. destruct (Z.ltb_spec z (2 ^ 31)); lia.
Qed.

Lemma strlen_run s t : nonul s -> strlen (s ++ NUL :: t) = Ret (zlen s).
Proof.
  induction 1 as [|c s Hc Hs IH]; [done|]. cbn [app strlen]. rewrite (proj2 (Z.eqb_neq _ _)) by done.
  rewrite IH. cbn [obind]. by rewrite zlen_cons.
Qed.

Lemma strlen_cstr buf s : cstr buf s -> strlen buf = Ret (zlen s) /\ to_int (zlen s) = zlen s.
Proof.
  intros (Hs & Hb & t & ->). split; [by apply strlen_run|]. autorewrite with katmai in Hb.
  pose proof (zlen_nonneg t). pose proof (zlen_nonneg s). apply to_int_small. lia.
Qed.

Lemma aget_mid {A} (s : list A) c t : aget (s ++ c :: t) (zlen s) = Ret c.
Proof. unfold zlen. apply aget_nat. by rewrite list_lookup_middle. Qed.
Lemma aset_mid {A} (s : list A) c t x : aset (s ++ c :: t) (zlen s) x = Ret (s ++ x :: t).
Proof.
  unfold zlen. rewrite aset_nat by (rewrite length_app; cbn; lia). by rewrite insert_app_r_alt, Nat.sub_diag by lia.
Qed.

Lemma rstrip_length w s : (length (rstrip w s) <= length s)%nat.
Proof. destruct (rstrip_split w s) as (t & E & _). rewrite E at 2. rewrite length_app. lia. Qed.

(** The removed characters become NULs. *)
Lemma trim_loop_run w s t :
  trim_loop w (length s) (s ++ NUL :: t) (zlen s) =
  Ret (zlen (rstrip w s), rstrip w s ++ replicate (length s - length (rstrip w s)) NUL ++ NUL :: t).
Proof.
  revert t. induction s as [|c s IH] using rev_ind; intros t; [done|].
  rewrite rstrip_snoc, length_app, Nat.add_1_r, <- app_assoc. cbn [trim_loop app].
  fold (zlen s). rewrite aget_mid, aset_mid. cbn [obind]. destruct (w c).
  - rewrite IH. pose proof (rstrip_length w s).
    rewrite Nat.sub_succ_l by done. by rewrite replicate_S_end, <- app_assoc.
  - rewrite length_app, Nat.add_1_r, Nat.sub_diag. cbn [replicate app]. by rewrite <- app_assoc.
Qed.

Lemma cstr_shrink buf s t s' : cstr buf s -> nonul s' -> zlen (s' ++ NUL :: t) = zlen buf -> cstr (s' ++ NUL :: t) s'.
Proof. intros (_ & Hb & _) Hs' E. split_and!; [done|lia|by exists t]. Qed.

Lemma trim_edits w (op : list Z -> outcome (Z * list Z)) :
  (forall buf, op buf = let* n := strlen buf in let len := to_int n in trim_loop w (Z.to_nat len) buf len) ->
  edits op (rstrip w).
Proof.
  intros Hop buf s H. rewrite Hop. destruct (strlen_cstr _ _ H) as [-> E]. cbn [obind]. rewrite E.
  pose proof H as (Hs & Hb & t & ->).
  replace (Z.to_nat (zlen s)) with (length s) by (unfold zlen; lia). rewrite trim_loop_run.
  eexists. split; [done|]. pose proof (rstrip_length w s) as Hle.
  set (r := replicate _ NUL). assert (r ++ NUL :: t = NUL :: r ++ t) as ->.
  { unfold r. generalize (length s - length (rstrip w s))%nat as n.
    induction n as [|n IH]; [done|]. cbn [replicate app]. by rewrite IH. }
  assert (zlen (rstrip w s ++ NUL :: r ++ t) = zlen (s ++ NUL :: t)) as Hz.
  { unfold r. autorewrite with katmai. unfold zlen. lia. }
  split; [|done]. eapply cstr_shrink; [done|by apply rstrip_nonul|done].
Qed.

Lemma skip_loop_run s p t :
  skip_loop (length s) (p ++ s ++ t) (zlen p) = Ret (zlen p + (zlen s - zlen (lstrip is_blank s))).
Proof.
  revert p. induction s as [|c s IH]; intros p; cbn [skip_loop length lstrip]; [by autorewrite with katmai; rewrite Z.sub_diag, Z.add_0_r|].
  cbn [app]. rewrite aget_mid. cbn [obind]. destruct (is_blank c); cbn [negb]; [|f_equal; lia].
  specialize (IH (p ++ [c])). rewrite <- app_assoc in IH. cbn [app] in IH.
  rewrite zlen_app in IH. change (zlen [c]) with 1 in IH. rewrite IH. f_equal. rewrite zlen_cons. lia.
Qed.

(** Moving [w] down by [i] bytes. *)
Lemma move_loop_run q w v (j : nat) i rest :
  length v = i -> (0 < i)%nat -> j = length q ->
  exists v', length v' = i /\
  move_loop (length w) (q ++ v ++ w ++ rest) (Z.of_nat (i + j)) (Z.of_nat j) = Ret (q ++ w ++ v' ++ rest).
Proof.
  revert q v j. induction w as [|c w IH]; intros q v j Hv Hi ->; [by exists v|].
  cbn [move_loop length]. destruct v as [|x v]; [cbn in *; lia|].
  replace (q ++ (x :: v) ++ (c :: w) ++ rest) with ((q ++ x :: v) ++ c :: w ++ rest) by (by rewrite <- app_assoc).
  assert (Z.of_nat (i + length q) = zlen (q ++ x :: v)) as -> by (unfold zlen; rewrite length_app; cbn in *; lia).
  rewrite aget_mid. cbn [obind]. rewrite <- app_assoc. cbn [app].
  change (Z.of_nat (length q)) with (zlen q). rewrite aset_mid. cbn [obind].
  destruct (IH (q ++ [c]) (v ++ [c]) (length (q ++ [c]))) as (v' & Hv' & E);
    [rewrite length_app; cbn in *; lia|done|done|].
  exists v'. split; [done|]. rewrite <- !app_assoc in E. cbn [app] in E. rewrite <- E.
  f_equal; unfold zlen; rewrite ?length_app; cbn in *; lia.
Qed.

Lemma chomp_edits : edits chomp (rstrip is_eol).
Proof. by apply trim_edits. Qed.
Lemma rtrim_edits : edits rtrim (rstrip is_blank).
Proof. by apply trim_edits. Qed.

Lemma ltrim_edits : edits ltrim (lstrip is_blank).
Proof.
  intros buf s H. unfold ltrim. destruct (strlen_cstr _ _ H) as [-> E]. cbn [obind]. rewrite E.
  pose proof H as (Hs & Hb & t & ->). pose proof (zlen_nonneg s).
  pose proof (skip_loop_run s [] (NUL :: t)) as Hk. cbn [app] in Hk. change (zlen (@nil Z)) with 0 in Hk.
  replace (Z.to_nat (zlen s)) with (length s) by (unfold zlen; lia). rewrite Hk. cbn [obind].
  destruct (lstrip_split is_blank s) as (p & Es & Hp & _).
  assert (zlen s = zlen p + zlen (lstrip is_blank s)) as Hz by (rewrite Es at 1; by rewrite zlen_app).
  pose proof (lstrip_nonul is_blank s Hs) as Hs'.
  set (s' := lstrip is_blank s) in *. clearbody s'. subst s.
  destruct (Z.ltb_spec 0 (0 + (zlen (p ++ s') - zlen s'))) as [Hlt|Hge].
  + destruct (move_loop_run [] (s' ++ [NUL]) p 0 (length p) t) as (v' & Hv & Hm); [done|unfold zlen in *; lia|done|].
    replace (Z.to_nat (zlen (p ++ s') - (0 + (zlen (p ++ s') - zlen s')) + 1)) with (length (s' ++ [NUL]))
      by (unfold zlen; rewrite length_app; cbn; lia).
    replace (0 + (zlen (p ++ s') - zlen s')) with (Z.of_nat (length p + 0)) by (unfold zlen in *; lia).
    replace ((p ++ s') ++ NUL :: t) with ([] ++ p ++ (s' ++ [NUL]) ++ t) in * by (by rewrite <- !app_assoc).
    change (Z.of_nat 0) with 0 in Hm. rewrite Hm. cbn [obind]. eexists. split; [do 2 f_equal; unfold zlen in *; lia|].
    assert (zlen (s' ++ NUL :: v' ++ t) = zlen ([] ++ p ++ (s' ++ [NUL]) ++ t)) as Hlen
      by (unfold zlen; rewrite !length_app; cbn; rewrite !length_app; lia).
    rewrite <- app_assoc. cbn [app] in *. split; [|done]. eapply cstr_shrink; [done|done|done].
  + assert (p = []) as -> by (apply length_zero_iff_nil; unfold zlen in *; lia). cbn [app] in *.
    eexists. split; [done|]. done.
Qed.

Definition strip_eof (s : list Z) : list Z :=
  if decide (last s = Some EOF_DOS) then take (length s - 1) s else s.

Lemma strip_edits : edits strip_dos_eof strip_eof.
Proof.
  intros buf s H. unfold strip_dos_eof, strip_eof. destruct (strlen_cstr _ _ H) as [-> E]. cbn [obind]. rewrite E.
  pose proof H as (Hs & Hb & t & ->). destruct s as [|c s _] using rev_ind; [by eexists|].
  rewrite last_snoc, zlen_app. change (zlen [c]) with 1. pose proof (zlen_nonneg s).
  rewrite (proj2 (Z.ltb_lt 0 _)) by lia. rewrite Z.add_simpl_r, <- app_assoc. cbn [app].
  rewrite aget_mid, aset_mid. cbn [obind]. destruct (Z.eqb_spec c EOF_DOS) as [->|Hne].
  + rewrite decide_True by done. rewrite length_app, Nat.add_sub, take_app_length. eexists. split; [done|].
    split; [|by autorewrite with katmai]. eapply cstr_shrink; [done|by apply Forall_app in Hs as [? _]|].
    autorewrite with katmai; lia.
  + rewrite decide_False by congruence. eexists. rewrite zlen_app. change (zlen [c]) with 1.
    rewrite <- app_assoc in H. done.
Qed.

Lemma cstring_cstr buf s : cstr buf s -> cstring buf = s.
Proof.
  intros (Hs & _ & t & ->). induction Hs as [|c s Hc Hs IH]; [done|]. cbn.
  rewrite (proj2 (Z.eqb_neq c NUL)) by done. by rewrite IH.
Qed.

Lemma cstring_nonul l : nonul (cstring l).
Proof.
  induction l as [|c l IH]; cbn; [constructor|]. destruct (Z.eqb_spec c NUL); [constructor|by constructor].
Qed.

Lemma cstr_fgets l t : zlen (l ++ NUL :: t) <= INT_MAX -> cstr (l ++ NUL :: t) (cstring l).
Proof.
  intros H. split_and!; [apply cstring_nonul|done|]. clear H. induction l as [|c l [t' IH]]; cbn.
  - by exists t.
  - destruct (Z.eqb_spec c NUL) as [->|]; [by eexists|]. exists t'. cbn. by rewrite IH.
Qed.

Lemma fgets_take_split n f : let r := fgets_take n f in
  f = fst r ++ snd r /\ (length (fst r) <= n)%nat /\ (f <> [] -> (0 < n)%nat -> fst r <> []).
Proof.
  revert f. induction n as [|n IH]; intros [|c f]; cbn; [split_and!; (done || lia)..|].
  destruct (c =? LF); cbn; [split_and!; [done|lia|done]|].
  destruct (IH f) as (E & Hl & _). cbn in *. split_and!; [by rewrite <- E|lia|done].
Qed.

Lemma fgets_line n w rest : LF ∉ w -> (length w < n)%nat ->
  fgets_take n (w ++ LF :: rest) = (w ++ [LF], rest).
Proof.
  revert n. induction w as [|c w IH]; intros [|n] Hw Hn; cbn in *; try lia; [done|].
  apply not_elem_of_cons in Hw as [Hc Hw]. rewrite (proj2 (Z.eqb_neq c LF)) by done. by rewrite IH by (done || lia).
Qed.

Lemma cstring_id s : nonul s -> cstring s = s.
Proof.
  induction 1 as [|c s Hc Hs IH]; cbn; [done|]. rewrite (proj2 (Z.eqb_neq c NUL)) by done. by rewrite IH.
Qed.
Lemma cstring_cstr_app s t : nonul s -> cstring (s ++ NUL :: t) = s.
Proof.
  induction 1 as [|c s Hc Hs IH]; cbn; [done|]. rewrite (proj2 (Z.eqb_neq c NUL)) by done. by rewrite IH.
Qed.
Lemma rstrip_id w s c : last s = Some c -> w c = false -> rstrip w s = s.
Proof.
  destruct s as [|x s _] using rev_ind; [done|]. rewrite last_snoc. intros [= ->] Hc.
  by rewrite rstrip_snoc, Hc.
Qed.
Lemma lstrip_id w s c : head s = Some c -> w c = false -> lstrip w s = s.
Proof. destruct s as [|x s]; cbn; [done|]. by intros [= ->] ->. Qed.
(** ** Reading a file line by line

    [while (fgets (buffer, lim + 1, fp) != NULL) body]: every round takes a byte of
    the file. *)
Section lines.
Context {A : Type} (lim : nat) (body : A -> list Z -> outcome (A * list Z)).

Fixpoint line_loop (fuel : nat) (a : A) (buf file : list Z) : outcome A :=
  match fuel with
  | O => Fault OutOfFuel
  | S fuel' =>
      match file with
      | [] => Ret a
      | _ =>
          let r := fgets_take lim file in
          let* x := body a (fst r ++ NUL :: drop (S (length (fst r))) buf) in
          line_loop fuel' (fst x) (snd x) (snd r)
      end
  end.

(** The file as [fgets] cuts it. *)
Fixpoint chunks_of (fuel : nat) (file : list Z) : list (list Z) :=
  match fuel, file with
  | S fuel', _ :: _ => let r := fgets_take lim file in fst r :: chunks_of fuel' (snd r)
  | _, _ => []
  end.
Definition chunks (file : list Z) : list (list Z) := chunks_of (length file) file.

Context (spec : A -> list Z -> outcome A).
Fixpoint fold_lines (a : A) (cs : list (list Z)) : outcome A :=
  match cs with
  | [] => Ret a
  | c :: cs => let* a := spec a c in fold_lines a cs
  end.

Lemma line_loop_cons fuel a buf c file :
  line_loop (S fuel) a buf (c :: file) =
  (let r := fgets_take lim (c :: file) in
   let* x := body a (fst r ++ NUL :: drop (S (length (fst r))) buf) in
   line_loop fuel (fst x) (snd x) (snd r)).
Proof. reflexivity. Qed.

(** A body that works on the string in the buffer gives the fold over the chunks. *)
Lemma line_loop_run size :
  (0 < lim)%nat -> Z.of_nat lim < size <= INT_MAX ->
  (forall a chunk buf, cstr buf (cstring chunk) -> exists buf', zlen buf' = zlen buf /\
     body a buf = (let* a' := spec a chunk in Ret (a', buf'))) ->
  forall fuel a buf file, zlen buf = size -> (length file <= fuel)%nat ->
  line_loop (S fuel) a buf file = fold_lines a (chunks_of fuel file).
Proof.
  intros Hlim Hsize Hbody. induction fuel as [|fuel IH]; intros a buf file Hb Hf.
  { destruct file; [done|cbn in Hf; lia]. }
  destruct file as [|c file]; [done|]. rewrite line_loop_cons. cbn [chunks_of].
  destruct (fgets_take_split lim (c :: file)) as (E & Hl & Hne).
  set (r := fgets_take lim (c :: file)) in *. clearbody r. cbn zeta. cbn [fold_lines].
  assert (zlen (fst r ++ NUL :: drop (S (length (fst r))) buf) = size) as Hlen.
  { unfold zlen in *. rewrite length_app. cbn [length]. rewrite length_drop. lia. }
  destruct (Hbody a (fst r) (fst r ++ NUL :: drop (S (length (fst r))) buf)) as (buf' & Hz & ->).
  { apply cstr_fgets. lia. }
  destruct (spec a (fst r)) as [a'| |]; [|done|done]. cbn [obind fst snd]. apply IH; [congruence|].
  assert (fst r <> []) as Hn by (by apply Hne).
  apply (f_equal length) in E. rewrite length_app in E. destruct (fst r); [done|]. cbn in *. lia.
Qed.

(** A file of short lines is cut at its line feeds. *)
Definition line_ok (w : list Z) : Prop := (LF ∉ w) /\ (length w < lim)%nat.
Definition file_lines (ws : list (list Z)) : list Z := mjoin ((fun w => w ++ [LF]) <$> ws).

Lemma chunks_lines ws fuel : Forall line_ok ws -> (length (file_lines ws) <= fuel)%nat ->
  chunks_of fuel (file_lines ws) = (fun w => w ++ [LF]) <$> ws.
Proof.
  intros Hws. revert fuel. induction Hws as [|w ws [Hlf Hl] Hws IH]; intros fuel Hf; [by destruct fuel|].
  change (file_lines (w :: ws)) with ((w ++ [LF]) ++ file_lines ws) in *. rewrite !length_app in Hf. cbn in Hf.
  destruct fuel as [|fuel]; [lia|]. rewrite fmap_cons, <- app_assoc. cbn [app].
  assert (fgets_take lim (w ++ LF :: file_lines ws) = (w ++ [LF], file_lines ws)) as Hg by (by apply fgets_line).
  destruct (w ++ LF :: file_lines ws) as [|c l] eqn:E; [by destruct w|].
  cbn [chunks_of]. rewrite Hg. cbn [fst snd]. f_equal. apply IH. lia.
Qed.
End lines.

(** [chomp] removes the line ends, [rtrim] the blanks at the end and [ltrim] the
    blanks at the start of the string in the buffer and return its new length; they
    stay inside the buffer, and [strip_dos_eof] drops one final control-Z. *)
Theorem trim_correct :
  edits chomp (rstrip is_eol) /\ edits rtrim (rstrip is_blank) /\ edits ltrim (lstrip is_blank) /\
  edits strip_dos_eof strip_eof.
Proof. split_and!; [apply chomp_edits|apply rtrim_edits|apply ltrim_edits|apply strip_edits]. Qed.

(** The buffer [" a\r\n"], with a byte behind the NUL. *)
Lemma trim_correct_witness :
  cstr [32; 97; 13; 10; 0; 7] [32; 97; 13; 10] /\
  exists buf', chomp [32; 97; 13; 10; 0; 7] = Ret (2, buf') /\ cstr buf' [32; 97].
Proof.
  assert (cstr [32; 97; 13; 10; 0; 7] [32; 97; 13; 10]) as H.
  { split; [repeat constructor; discriminate|]. split; [discriminate|]. exists [7]. reflexivity. }
  split; [exact H|]. destruct (proj1 trim_correct _ _ H) as (buf' & E & Hc & _). exists buf'. split; [exact E|exact Hc].
Defined.

End CS.
