(* ===== verification/Simconf.v ===== *)
(** * Simconf.v: configuration files, simconf/simconf.c

    [sc_load] reads lines [variable = value] into a linked list, newest first;
    values are classified by two regular expressions as integers, addresses or
    strings.  The file models the work on the 2048-byte line buffer byte by byte
    and proves it equal to a definition on strings; on top of that a file written
    from a list of settings is read back to those settings.

    The C library's [fgets], [strchr], [strcasecmp], [atoi] and the two fixed
    regular expressions are modelled; whether allocations ([mem]) and [regcomp]
    ([rx_ok]) succeed is a parameter. *)

From S2P Require Import Prelude Cstr.

Module SC.
Import CS.

Inductive vartype := VARTYPE_INT | VARTYPE_STRING | VARTYPE_IP.
#[global] Instance vartype_eq_dec : EqDecision vartype.
Proof. solve_decision. Defined.
Definition vartype_num (t : vartype) : Z :=
  match t with VARTYPE_INT => 1 | VARTYPE_STRING => 2 | VARTYPE_IP => 3 end.

(** What [value] points to. *)
Inductive value := PNull | PInt (n : Z) | PStr (s : list Z).

(** [struct simconf_data_t]; the chain of [next] pointers from [pd.data] is a list. *)
Record simconf_data := mk_data { str : list Z; type_ : vartype; val_ : value }.
Definition simconf := list simconf_data.

(** ** Library functions *)
Definition tolower (c : Z) : Z := if (65 <=? c) && (c <=? 90) then c + 32 else c.
(** [strcasecmp (a, b) == 0]. *)
Definition same_name (a b : list Z) : bool := bool_decide (tolower <$> a = tolower <$> b).

Definition is_digit (c : Z) : bool := (48 <=? c) && (c <=? 57).
Definition is_space (c : Z) : bool := (c =? 32) || ((9 <=? c) && (c <=? 13)).

Fixpoint split_on (d : Z) (s : list Z) : list (list Z) :=
  match s with
  | [] => [[]]
  | c :: s' =>
      if c =? d then [] :: split_on d s'
      else match split_on d s' with
           | p :: ps => (c :: p) :: ps
           | [] => [[c]]
           end
  end.

Definition digits (s : list Z) : bool := negb (bool_decide (s = [])) && forallb is_digit s.

(** The expressions of the table [vartype], compiled with REG_NEWLINE: they match
    when some line of the subject does. *)
Definition rx_int (s : list Z) : bool := existsb digits (split_on LF s).
Definition rx_ip (s : list Z) : bool :=
  existsb (fun l => let p := split_on 46 l in bool_decide (length p = 4%nat) && forallb digits p)
          (split_on LF s).

(** Digits are accumulated with the sign; a value outside [int] is undefined. *)
Fixpoint atoi_digits (sg acc : Z) (s : list Z) : outcome Z :=
  match s with
  | c :: s' => if is_digit c then let* a := ck (acc * 10 + sg * (c - 48)) in atoi_digits sg a s' else Ret acc
  | [] => Ret acc
  end.
Definition atoi (s : list Z) : outcome Z :=
  match lstrip is_space s with
  | 45 :: s' => atoi_digits (-1) 0 s'
  | 43 :: s' => atoi_digits 1 0 s'
  | s' => atoi_digits 1 0 s'
  end.

(** [strchr (buf, c)], as an index. *)
Fixpoint strchr (c : Z) (buf : list Z) : outcome (option Z) :=
  match buf with
  | [] => Fault OutOfBounds
  | x :: buf' =>
      if x =? c then Ret (Some 0)
      else if x =? NUL then Ret None
      else let* r := strchr c buf' in Ret (Z.succ <$> r)
  end.

Section simconf.
Context (mem : list Z -> list Z -> bool * bool) (rx_ok : vartype -> bool).

Definition sc_search_var (self : simconf) (var : list Z) : option simconf_data :=
  List.find (fun d => same_name (str d) var) self.

Definition sc_variable_type (self : simconf) (var : list Z) : Z :=
  match sc_search_var self var with None => -1 | Some d => vartype_num (type_ d) end.

Definition sc_getint (self : simconf) (var : list Z) : outcome Z :=
  match sc_search_var self var with
  | Some d =>
      match type_ d, val_ d with
      | VARTYPE_INT, PInt n => Ret n
      | VARTYPE_INT, _ => Fault NullDeref
      | _, _ => Ret (-1)
      end
  | None => Ret (-1)
  end.

Definition sc_getstr (self : simconf) (var : list Z) : value :=
  match sc_search_var self var with
  | Some d => if decide (type_ d <> VARTYPE_INT) then val_ d else PNull
  | None => PNull
  end.

Definition sc_getip (self : simconf) (var : list Z) : value :=
  match sc_search_var self var with
  | Some d => if decide (type_ d = VARTYPE_IP) then val_ d else PNull
  | None => PNull
  end.

(** Lines 184-200 and 204. *)
Definition classify (val : list Z) : vartype :=
  if rx_ok VARTYPE_INT && rx_int val then VARTYPE_INT
  else if rx_ok VARTYPE_IP && rx_ip val then VARTYPE_IP
  else VARTYPE_STRING.

(** [mem var val]: whether [sc_new_variables] gets its memory, and whether the
    allocation of the value succeeds. *)
Definition sc_add (self : simconf) (var val : list Z) : outcome (Z * simconf) :=
  if negb (sc_variable_type self var =? -1) then Ret (0, self)
  else
    let ty := classify val in
    if negb (fst (mem var val)) then Ret (0, self)
    else
      let* v :=
        match ty with
        | VARTYPE_INT => if snd (mem var val) then let* n := atoi val in Ret (PInt n) else Fault NullDeref
        | VARTYPE_IP | VARTYPE_STRING => Ret (if snd (mem var val) then PStr val else PNull)
        end in
      Ret (1, mk_data var ty v :: self).

Definition sc_clean (self : simconf) : simconf := [].

Definition new_simconf : simconf := [].

(** [for (i = 0; i < len; i++) ...]: [k] is [len - i]. *)
Fixpoint comment_loop (k : nat) (buf : list Z) (i : Z) : outcome (Z * list Z) :=
  match k with
  | O => Ret (i, buf)
  | S k' =>
      let* c := aget buf i in
      if (c =? 35) || (c =? 59) then let* buf' := aset buf i NUL in Ret (i, buf')
      else comment_loop k' buf (i + 1)
  end.
Definition strip_comments (buf : list Z) : outcome (Z * list Z) :=
  let* n := strlen buf in comment_loop (Z.to_nat (to_int n)) buf 0.

(** Lines 66-88: one line in the buffer. *)
Definition load_line (self : simconf) (buf : list Z) : outcome (simconf * list Z) :=
  let* r := chomp buf in
  let* r := strip_comments (snd r) in
  let* r := strip_dos_eof (snd r) in
  let* r := ltrim (snd r) in
  let* r := rtrim (snd r) in
  let len := fst r in let buf := snd r in
  if len =? 0 then Ret (self, buf)
  else
    let* p := strchr 61 buf in
    match p with
    | None => Ret (self, buf)
    | Some p =>
        let* buf := aset buf p NUL in
        let* r := rtrim buf in
        let buf := snd r in
        let k := Z.to_nat (p + 1) in
        let* r := ltrim (drop k buf) in
        let buf := take k buf ++ snd r in
        let* l := strlen buf in
        if l =? 0 then Ret (self, buf)
        else
          let* r := sc_add self (cstring buf) (cstring (drop k buf)) in
          Ret (snd r, buf)
    end.

Definition BUFSZ : nat := 2048.

Definition load_loop (fuel : nat) (self : simconf) (buf f : list Z) : outcome simconf :=
  line_loop (BUFSZ - 1) load_line fuel self buf f.

(** [sc_load]: [file] is the contents, or [None] when it cannot be opened; [buf0]
    is the stack memory of [buffer]. *)
Definition sc_load (self : simconf) (buf0 : list Z) (file : option (list Z)) : outcome (Z * simconf) :=
  match file with
  | None => Ret (-1, self)
  | Some f => let* s := load_loop (S (length f)) self buf0 f in Ret (0, s)
  end.

(** ** Specification on strings *)
Fixpoint before (w : Z -> bool) (s : list Z) : list Z :=
  match s with
  | c :: s' => if w c then [] else c :: before w s'
  | [] => []
  end.
Definition is_comment (c : Z) : bool := (c =? 35) || (c =? 59).

(** The text before and after the first [=]. *)
Fixpoint cut (s : list Z) : option (list Z * list Z) :=
  match s with
  | c :: s' => if c =? 61 then Some ([], s') else (fun p => (c :: fst p, snd p)) <$> cut s'
  | [] => None
  end.

(** The text of a line as the trimming leaves it. *)
Definition clean_line (chunk : list Z) : list Z :=
  rstrip is_blank (lstrip is_blank (strip_eof (before is_comment (rstrip is_eol (cstring chunk))))).

Definition spec_line (self : simconf) (chunk : list Z) : outcome simconf :=
  match cut (clean_line chunk) with
  | None => Ret self
  | Some (a, b) =>
      let var := rstrip is_blank a in
      let val := lstrip is_blank b in
      if decide (var = []) then Ret self
      else let* r := sc_add self var val in Ret (snd r)
  end.

(** The settings of the lines as [fgets] cuts them. *)
Definition spec_lines (self : simconf) (f : list Z) : outcome simconf :=
  fold_lines spec_line self (chunks (BUFSZ - 1) f).

(** *** The buffer operations *)
Lemma comment_loop_run s q t : nonul s ->
  exists t', zlen t' = zlen s - zlen (before is_comment s) + zlen t /\
  comment_loop (length s) (q ++ s ++ NUL :: t) (zlen q) =
  Ret (zlen q + zlen (before is_comment s), q ++ before is_comment s ++ NUL :: t').
Proof.
  intros Hs. revert q. induction Hs as [|c s Hc Hs IH]; intros q; cbn [comment_loop length before].
  - exists t. autorewrite with katmai. rewrite Z.sub_diag, !Z.add_0_r. done.
  - cbn [app]. rewrite aget_mid, aset_mid. cbn [obind]. change ((c =? 35) || (c =? 59)) with (is_comment c).
    destruct (is_comment c).
    + exists (s ++ NUL :: t). autorewrite with katmai. split; [lia|]. by rewrite Z.add_0_r.
    + destruct (IH (q ++ [c])) as (t' & Ht & Hrun). exists t'. rewrite <- app_assoc in Hrun. cbn [app] in Hrun.
      rewrite zlen_app in Hrun. change (zlen [c]) with 1 in Hrun. rewrite Hrun, <- app_assoc. autorewrite with katmai.
      split; [lia|]. do 2 f_equal. lia.
Qed.

Lemma before_nonul w s : nonul s -> nonul (before w s).
Proof. induction 1; cbn; [constructor|]. destruct (w x); by constructor. Qed.

Lemma comments_edits : edits strip_comments (before is_comment).
Proof.
  intros buf s H. unfold strip_comments. destruct (strlen_cstr _ _ H) as [-> E]. cbn [obind]. rewrite E.
  pose proof H as (Hs & Hb & t & ->). destruct (comment_loop_run s [] t Hs) as (t' & Ht & Hrun).
  replace (Z.to_nat (zlen s)) with (length s) by (unfold zlen; lia). cbn [app] in Hrun.
  change (zlen (@nil Z)) with 0 in Hrun. rewrite Hrun, Z.add_0_l. eexists. split; [done|].
  assert (zlen (before is_comment s ++ NUL :: t') = zlen (s ++ NUL :: t)) as Hz by (autorewrite with katmai; lia).
  split; [|done]. eapply cstr_shrink; [done|by apply before_nonul|done].
Qed.

Lemma cut_app s a b : cut s = Some (a, b) -> s = a ++ 61 :: b.
Proof.
  revert a b. induction s as [|c s IH]; intros a b; cbn; [done|].
  destruct (Z.eqb_spec c 61) as [->|]; [by intros [= <- <-]|].
  destruct (cut s) as [[a' b']|]; cbn; [|done]. intros [= <- <-]. by rewrite (IH a' b').
Qed.

Lemma strchr_run s t : nonul s ->
  strchr 61 (s ++ NUL :: t) = Ret ((fun p => zlen (fst p)) <$> cut s).
Proof.
  induction 1 as [|c s Hc Hs IH]; [done|]. cbn. destruct (Z.eqb_spec c 61) as [->|]; [done|].
  rewrite (proj2 (Z.eqb_neq c NUL)) by done. rewrite IH. cbn. destruct (cut s) as [[a b]|]; cbn; [|done].
  rewrite zlen_cons. do 2 f_equal; lia.
Qed.

Lemma rtrim_run s t : nonul s -> zlen (s ++ NUL :: t) <= INT_MAX ->
  rtrim (s ++ NUL :: t) = Ret (zlen (rstrip is_blank s),
    rstrip is_blank s ++ replicate (length s - length (rstrip is_blank s)) NUL ++ NUL :: t).
Proof.
  intros Hs Hb. assert (cstr (s ++ NUL :: t) s) as H by (split_and!; [done|done|by eexists]).
  unfold rtrim. destruct (strlen_cstr _ _ H) as [-> E]. cbn [obind]. rewrite E.
  replace (Z.to_nat (zlen s)) with (length s) by (unfold zlen; lia). apply trim_loop_run.
Qed.

Lemma cstring_replicate n s t : nonul s -> cstring (s ++ replicate n NUL ++ NUL :: t) = s.
Proof.
  intros Hs. induction Hs as [|c s Hc Hs IH]; cbn; [by destruct n|].
  rewrite (proj2 (Z.eqb_neq c NUL)) by done. by rewrite IH.
Qed.
Lemma strlen_replicate n s t : nonul s -> strlen (s ++ replicate n NUL ++ NUL :: t) = Ret (zlen s).
Proof. intros Hs. destruct n as [|n]; by apply strlen_run. Qed.

(** Lines 78-88 on a line [a = b]. *)
Lemma split_run self a b t : nonul (a ++ b) -> zlen (a ++ 61 :: b ++ NUL :: t) <= INT_MAX ->
  exists buf', zlen buf' = zlen (a ++ 61 :: b ++ NUL :: t) /\
  (let* buf := aset (a ++ 61 :: b ++ NUL :: t) (zlen a) NUL in
   let* r := rtrim buf in
   let buf := snd r in
   let k := Z.to_nat (zlen a + 1) in
   let* r := ltrim (drop k buf) in
   let buf := take k buf ++ snd r in
   let* l := strlen buf in
   if l =? 0 then Ret (self, buf)
   else
     let* r := sc_add self (cstring buf) (cstring (drop k buf)) in
     Ret (snd r, buf)) =
  let* s := (if decide (rstrip is_blank a = []) then Ret self
             else let* r := sc_add self (rstrip is_blank a) (lstrip is_blank b) in Ret (snd r)) in
  Ret (s, buf').
Proof.
  intros [Ha Hb]%Forall_app Hz. rewrite aset_mid. cbn [obind].
  rewrite rtrim_run; [|done|autorewrite with katmai in *; lia]. cbn [obind snd].
  set (v := rstrip is_blank a). set (n := (length a - length v)%nat).
  pose proof (rstrip_length is_blank a) as Hlv. fold v in Hlv.
  assert (length (v ++ replicate n NUL ++ [NUL]) = Z.to_nat (zlen a + 1)) as Hk.
  { rewrite !length_app, length_replicate. cbn. unfold n, zlen. lia. }
  replace (v ++ replicate n NUL ++ NUL :: b ++ NUL :: t) with ((v ++ replicate n NUL ++ [NUL]) ++ b ++ NUL :: t)
    by (by rewrite <- !app_assoc).
  rewrite <- Hk, drop_app_length, take_app_length.
  assert (cstr (b ++ NUL :: t) b) as Hcb.
  { split_and!; [done| |by eexists]. pose proof (zlen_nonneg a). autorewrite with katmai in *. lia. }
  destruct (ltrim_edits _ _ Hcb) as (buf' & -> & Hcb' & Hlen). cbn [obind snd].
  exists ((v ++ replicate n NUL ++ [NUL]) ++ buf'). split.
  { autorewrite with katmai in *. rewrite Hlen. unfold zlen, n in *. cbn. lia. }
  rewrite drop_app_length, <- !app_assoc. cbn [app].
  pose proof (rstrip_nonul is_blank a Ha) as Hv. fold v in Hv.
  rewrite strlen_replicate, cstring_replicate, (cstring_cstr _ _ Hcb') by done. cbn [obind].
  destruct (decide (v = [])) as [->|Hne]; [done|].
  rewrite (proj2 (Z.eqb_neq (zlen v) 0)) by (unfold zlen; destruct v; [done|cbn; lia]).
  by destruct (sc_add self v (lstrip is_blank b)).
Qed.

Lemma clean_nonul chunk : nonul (clean_line chunk).
Proof.
  unfold clean_line. apply rstrip_nonul, lstrip_nonul. unfold strip_eof.
  destruct (decide _); [apply Forall_take|]; apply before_nonul, rstrip_nonul, cstring_nonul.
Qed.

(** Lines 66-88 on any line. *)
Lemma load_line_run self chunk buf : cstr buf (cstring chunk) ->
  exists buf', zlen buf' = zlen buf /\
    load_line self buf = let* s := spec_line self chunk in Ret (s, buf').
Proof.
  intros H0. unfold load_line.
  destruct (chomp_edits _ _ H0) as (b1 & -> & H1 & L1). cbn [obind snd].
  destruct (comments_edits _ _ H1) as (b2 & -> & H2 & L2). cbn [obind snd].
  destruct (strip_edits _ _ H2) as (b3 & -> & H3 & L3). cbn [obind snd].
  destruct (ltrim_edits _ _ H3) as (b4 & -> & H4 & L4). cbn [obind snd].
  destruct (rtrim_edits _ _ H4) as (b5 & -> & H5 & L5). cbn [obind fst snd].
  fold (clean_line chunk) in *. unfold spec_line. pose proof (clean_nonul chunk) as Hc.
  generalize dependent (clean_line chunk). intros s H5 Hs. assert (zlen b5 = zlen buf) as L by congruence.
  clear L1 L2 L3 L4 L5 H1 H2 H3 H4. destruct (Z.eqb_spec (zlen s) 0) as [E|E].
  { assert (s = []) as -> by (apply length_zero_iff_nil; unfold zlen in E; lia). by exists b5. }
  destruct H5 as (_ & Hb & t & ->). rewrite strchr_run by done. cbn [obind].
  destruct (cut s) as [[a b]|] eqn:Ec; cbn [fmap option_fmap option_map fst]; [|by eexists].
  apply cut_app in Ec as ->. rewrite <- app_assoc in *. cbn [app] in *.
  destruct (split_run self a b t) as (buf' & Hz & Hrun); [|done|].
  { apply Forall_app in Hs as [? [_ ?]%Forall_cons]. by apply Forall_app. }
  exists buf'. split; [congruence|exact Hrun].
Qed.

Lemma BUFSZ_val : Z.of_nat BUFSZ = 2048.
Proof. reflexivity. Qed.
#[local] Opaque BUFSZ.

Lemma load_loop_run self buf f : zlen buf = Z.of_nat BUFSZ ->
  load_loop (S (length f)) self buf f = spec_lines self f.
Proof.
  intros Hb. pose proof BUFSZ_val. unfold load_loop, spec_lines, chunks.
  apply (line_loop_run _ _ _ (Z.of_nat BUFSZ)); [lia|unfold INT_MAX; lia|exact load_line_run|done|lia].
Qed.

(** C27: loading a file is exactly adding the settings of its lines, in order, as the
    definition on strings reads them: comments, line ends, a final control-Z and
    blanks removed, the name before the first [=] and the value after it.  The work
    on the fixed line buffer never leaves it, for any bytes in the file; lines over
    2047 bytes are cut as [fgets] cuts them. *)
Theorem sc_load_correct self buf0 f : zlen buf0 = Z.of_nat BUFSZ ->
  sc_load self buf0 (Some f) = let* s := spec_lines self f in Ret (0, s).
Proof. intros Hb. unfold sc_load. by rewrite load_loop_run. Qed.

(** ** Writing settings and reading them back *)
Definition render (e : list Z * list Z) : list Z := fst e ++ [32; 61; 32] ++ snd e ++ [LF].

Definition body_ok (s : list Z) : Prop := Forall (fun c => c <> NUL /\ c <> LF /\ is_comment c = false) s.
Definition edge_ok (s : list Z) : Prop :=
  match head s, last s with
  | Some a, Some b => is_blank a = false /\ is_blank b = false /\ is_eol b = false /\ b <> EOF_DOS
  | _, _ => False
  end.

(** A setting that can be written on one line: no comment sign, NUL or line feed,
    no blank or line-end character at its ends, no [=] in the name, at most 2047
    bytes together; an integer in range. *)
Record entry_ok (e : list Z * list Z) : Prop := {
  eo_var : body_ok (fst e) /\ edge_ok (fst e) /\ 61 ∉ fst e;
  eo_val : body_ok (snd e) /\ edge_ok (snd e);
  eo_len : (length (render e) <= BUFSZ - 1)%nat;
  eo_int : rx_int (snd e) = true -> returns (atoi (snd e));
}.

Lemma before_id w s : Forall (fun c => w c = false) s -> before w s = s.
Proof. induction 1 as [|c s Hc Hs IH]; cbn; [done|]. by rewrite Hc, IH. Qed.
Lemma cut_run a b : 61 ∉ a -> cut (a ++ 61 :: b) = Some (a, b).
Proof.
  induction a as [|c a IH]; intros Ha; [done|]. cbn. apply not_elem_of_cons in Ha as [Hc Ha].
  rewrite (proj2 (Z.eqb_neq c 61)) by done. by rewrite IH.
Qed.

Lemma render_body e : entry_ok e -> body_ok (fst e ++ [32; 61; 32] ++ snd e).
Proof.
  intros [(Hv & _) (Hx & _) _ _]. apply Forall_app. split; [done|].
  repeat (constructor; [done|]). exact Hx.
Qed.

Lemma render_clean e : entry_ok e -> clean_line (render e) = fst e ++ [32; 61; 32] ++ snd e.
Proof.
  intros H. pose proof (render_body e H) as Hb. destruct H as [(_ & Hve & _) (_ & Hxe) _ _].
  unfold clean_line, render. rewrite cstring_id; cycle 1.
  { apply Forall_app in Hb as [H1 H2]. unfold nonul.
    rewrite (app_assoc _ (snd e)). apply Forall_app. split; [by eapply Forall_impl; [done|intros ? []]|].
    apply Forall_app. split; [by eapply Forall_impl; [done|intros ? []]|]. by repeat constructor. }
  set (w := fst e ++ [32; 61; 32] ++ snd e) in *.
  replace (fst e ++ [32; 61; 32] ++ snd e ++ [LF]) with (w ++ [LF]) by (unfold w; by rewrite <- !app_assoc).
  rewrite rstrip_snoc. cbn [is_eol Z.eqb orb]. change (is_eol LF) with true. cbn match.
  unfold edge_ok in *. destruct (head (fst e)) as [h|] eqn:Eh; [|done]. destruct (last (fst e)); [|done].
  destruct (head (snd e)); [|done]. destruct (last (snd e)) as [d|] eqn:Ed; [|done].
  destruct Hve as (Hh & _), Hxe as (_ & Hd1 & Hd2 & Hd3).
  assert (last w = Some d) as Hlw by (unfold w; rewrite !last_app, Ed; done).
  assert (head w = Some h) as Hhw by (unfold w; destruct (fst e); done).
  rewrite (rstrip_id is_eol w d), before_id; [|by eapply Forall_impl; [done|intros ? (_ & _ & ?)]|done..].
  unfold strip_eof. rewrite decide_False by (rewrite Hlw; congruence).
  rewrite (lstrip_id _ w h) by done. by apply (rstrip_id _ w d).
Qed.

Lemma spec_line_render self e : entry_ok e ->
  spec_line self (render e) = let* r := sc_add self (fst e) (snd e) in Ret (snd r).
Proof.
  intros H. unfold spec_line. rewrite render_clean by done. destruct H as [(_ & Hve & Hn) (_ & Hxe) _ _].
  replace (fst e ++ [32; 61; 32] ++ snd e) with ((fst e ++ [32]) ++ 61 :: 32 :: snd e) by (by rewrite <- app_assoc).
  rewrite cut_run by (rewrite elem_of_app, list_elem_of_singleton; intros [?|?]; done).
  unfold edge_ok in *. destruct (head (fst e)) as [h|] eqn:Eh; [|done]. destruct (last (fst e)) as [l|] eqn:El; [|done].
  destruct (head (snd e)) as [g|] eqn:Eg; [|done]. destruct (last (snd e)); [|done].
  rewrite rstrip_snoc. change (is_blank 32) with true. cbn match.
  rewrite (rstrip_id _ _ l) by tauto. change (lstrip is_blank (32 :: snd e)) with (lstrip is_blank (snd e)).
  rewrite (lstrip_id _ _ g) by tauto. rewrite decide_False; [done|]. intros E. by rewrite E in Eh.
Qed.

Definition lname (e : list Z * list Z) : list Z := tolower <$> fst e.
Definition names (es : list (list Z * list Z)) : list (list Z) := lname <$> es.
Definition file_of (es : list (list Z * list Z)) : list Z := mjoin (render <$> es).

Fixpoint add_all (self : simconf) (es : list (list Z * list Z)) : outcome simconf :=
  match es with
  | [] => Ret self
  | e :: es => let* r := sc_add self (fst e) (snd e) in add_all (snd r) es
  end.

Lemma settings_lines self es : Forall entry_ok es -> spec_lines self (file_of es) = add_all self es.
Proof.
  intros Hes. unfold spec_lines, chunks.
  assert (file_of es = CS.file_lines ((fun e => fst e ++ [32; 61; 32] ++ snd e) <$> es)) as ->.
  { unfold file_of, CS.file_lines. f_equal. rewrite <- list_fmap_compose. apply list_fmap_ext.
    intros i e _. unfold render, compose. by rewrite <- !app_assoc. }
  rewrite chunks_lines; [|apply Forall_fmap; eapply Forall_impl; [exact Hes|]|done].
  - revert self. induction Hes as [|e es He Hes IH]; intros self; [done|]. rewrite !fmap_cons. cbn [fold_lines add_all].
    replace ((fst e ++ [32; 61; 32] ++ snd e) ++ [LF]) with (render e) by (unfold render; by rewrite <- !app_assoc).
    rewrite spec_line_render by done. destruct (sc_add self (fst e) (snd e)); [apply IH|done|done].
  - intros e He. split.
    + intros Hin. pose proof (render_body e He) as Hb. unfold body_ok in Hb. rewrite Forall_forall in Hb.
      by destruct (Hb _ Hin) as (_ & ? & _).
    + pose proof (eo_len e He) as Hl. unfold render in Hl. rewrite !length_app in *. cbn in *. lia.
Qed.

Lemma search_same self var d : sc_search_var self var = Some d ->
  d ∈ self /\ tolower <$> str d = tolower <$> var.
Proof.
  unfold sc_search_var. intros [Hin Hs]%List.find_some. split; [by apply list_elem_of_In|].
  unfold same_name in Hs. by apply bool_decide_eq_true in Hs.
Qed.

Section roundtrip.
Hypothesis mem_ok : forall var val, mem var val = (true, true).
Hypothesis regcomp_ok : forall t, rx_ok t = true.

Definition value_of (x : list Z) : value :=
  if rx_int x then match atoi x with Ret n => PInt n | _ => PNull end else PStr x.
Definition data_of (e : list Z * list Z) : simconf_data := mk_data (fst e) (classify (snd e)) (value_of (snd e)).

Lemma sc_add_new self e : entry_ok e -> (forall d, d ∈ self -> tolower <$> str d <> tolower <$> fst e) ->
  sc_add self (fst e) (snd e) = Ret (1, data_of e :: self).
Proof.
  intros He Hd. unfold sc_add, sc_variable_type.
  destruct (sc_search_var self (fst e)) as [d|] eqn:E; [by destruct (search_same _ _ _ E) as [? ?]; edestruct Hd|].
  rewrite mem_ok. unfold data_of, value_of, classify. rewrite !regcomp_ok. cbn [andb fst snd negb Z.eqb Z.opp].
  cbn [Pos.eqb negb]. destruct (rx_int (snd e)) eqn:Ei.
  - destruct (eo_int e He Ei) as [n ->]. done.
  - by destruct (rx_ip (snd e)).
Qed.

Lemma add_all_new self es : Forall entry_ok es -> NoDup (names es) ->
  (forall d e, d ∈ self -> e ∈ es -> tolower <$> str d <> tolower <$> fst e) ->
  add_all self es = Ret (reverse (data_of <$> es) ++ self).
Proof.
  intros Hes. revert self. induction Hes as [|e es He Hes IH]; intros self Hn Hd; [done|].
  cbn [add_all]. rewrite sc_add_new; [|done|intros d Hin; apply Hd; [done|by left]]. cbn [obind snd].
  cbn in Hn. apply NoDup_cons in Hn as [Hni Hn]. rewrite IH; [|done|].
  - by rewrite fmap_cons, reverse_cons, <- app_assoc.
  - intros d e' [->|Hin]%elem_of_cons He'; [|apply Hd; [done|by right]].
    intros E. apply Hni. change (lname e = lname e') in E. rewrite E. by apply (list_elem_of_fmap_2 lname).
Qed.

Lemma search_new es e : NoDup (names es) -> e ∈ es ->
  sc_search_var (reverse (data_of <$> es)) (fst e) = Some (data_of e).
Proof.
  intros Hn He. destruct (sc_search_var (reverse (data_of <$> es)) (fst e)) as [d|] eqn:E.
  - destruct (search_same _ _ _ E) as [Hin Hs]. rewrite elem_of_reverse in Hin.
    apply list_elem_of_fmap in Hin as (e' & -> & He'). do 2 f_equal.
    apply list_elem_of_lookup in He as [i Hi], He' as [j Hj].
    assert (i = j) as ->; [|congruence]. apply (NoDup_lookup (names es) i j (tolower <$> fst e)); [done| |];
      unfold names; rewrite list_lookup_fmap; [by rewrite Hi|rewrite Hj; cbn; by f_equal].
  - exfalso. unfold sc_search_var in E. pose proof (List.find_none _ _ E (data_of e)) as Hx.
    unfold same_name in Hx. cbn [data_of str] in Hx. rewrite bool_decide_eq_true_2 in Hx by done.
    assert (true = false) as Hf; [|done]. apply Hx.
    apply list_elem_of_In, elem_of_reverse. by apply (list_elem_of_fmap_2 data_of).
Qed.

(** C28: a file with one line [name = value] per setting, names distinct up to case,
    is loaded into a configuration in which every integer is returned by [getint],
    every other value by [getstr] and every address also by [getip], unchanged. *)
Theorem sc_load_roundtrip buf0 es :
  zlen buf0 = Z.of_nat BUFSZ -> Forall entry_ok es -> NoDup (names es) ->
  exists cfg, sc_load new_simconf buf0 (Some (file_of es)) = Ret (0, cfg) /\
    forall var val, (var, val) ∈ es ->
      if rx_int val then sc_getint cfg var = atoi val /\ sc_getstr cfg var = PNull
      else sc_getint cfg var = Ret (-1) /\ sc_getstr cfg var = PStr val /\
           sc_getip cfg var = if rx_ip val then PStr val else PNull.
Proof.
  intros Hb Hes Hn. exists (reverse (data_of <$> es)). split.
  - unfold sc_load. rewrite load_loop_run, settings_lines, add_all_new; try done.
    + cbn [obind]. by rewrite app_nil_r.
    + intros d e Hd. by apply not_elem_of_nil in Hd.
  - intros var val Hin. pose proof (search_new es (var, val) Hn Hin) as Hs. cbn [fst] in Hs.
    unfold sc_getint, sc_getstr, sc_getip. rewrite Hs. unfold data_of, value_of, classify. rewrite !regcomp_ok.
    cbn [andb fst snd type_ val_]. destruct (rx_int val) eqn:Ei; cbn [type_ val_].
    + rewrite Forall_forall in Hes. destruct (eo_int _ (Hes _ Hin) Ei) as [n Ha]. cbn [snd] in Ha. by rewrite Ha.
    + by destruct (rx_ip val).
Qed.
End roundtrip.
End simconf.

(** ["a = 12\nb = x y\n"]: an integer and a string. *)
Definition demo : list (list Z * list Z) := [([97], [49; 50]); ([98], [120; 32; 121])].

Lemma demo_ok : Forall entry_ok demo.
Proof.
  repeat constructor; cbn; try done; try (rewrite list_elem_of_singleton; done); try (apply leb_complete; vm_compute; done).
  by exists 12.
Qed.

Lemma sc_load_roundtrip_witness :
  exists cfg, sc_load (fun _ _ => (true, true)) (fun _ => true) new_simconf (replicate 2048 0)
      (Some (file_of demo)) = Ret (0, cfg) /\
    sc_getint cfg [97] = Ret 12 /\ sc_getstr cfg [98] = PStr [120; 32; 121].
Proof.
  destruct (sc_load_roundtrip (fun _ _ => (true, true)) (fun _ => true) (fun _ _ => eq_refl) (fun _ => eq_refl)
              (replicate 2048 0) demo) as (cfg & E & H).
  - vm_compute. reflexivity.
  - exact demo_ok.
  - apply (bool_decide_unpack _). vm_compute. exact I.
  - exists cfg. split; [exact E|]. split.
    + refine (proj1 (H [97] [49; 50] _)). left.
    + refine (proj1 (proj2 (H [98] [120; 32; 121] _))). right. left.
Defined.

Lemma sc_load_correct_witness :
  zlen (replicate 2048 0) = Z.of_nat BUFSZ /\
  sc_load (fun _ _ => (true, true)) (fun _ => true) new_simconf (replicate 2048 0)
    (Some [32; 120; 61; 53; 35; 99; 13; 10]) = Ret (0, [mk_data [120] VARTYPE_INT (PInt 5)]).
Proof.
  split; [vm_compute; reflexivity|].
  etransitivity; [apply sc_load_correct; vm_compute; reflexivity|vm_compute; reflexivity].
Defined.

End SC.
