(* ===== verification/Rc4.v ===== *)
(** * Rc4.v: the stream cipher of the media files, misclib/rc4encrypt.c

    [RC4_set_key] fills a table of 256 entries from a key; [RC4] runs the cipher
    over a buffer, eight bytes at a time and then the rest.  The table is proved to
    stay a permutation of 0..255, the unrolled loops to be one pass over the bytes,
    and the cipher to be its own inverse.  The players decrypt a file chunk by chunk
    in place ([indata] = [outdata]): every round reads its input byte before it writes
    the output byte at the same index, so input and output are two lists here. *)

From S2P Require Import Prelude.

Module RC.

(** [RC4_KEY]. *)
Record RC4_KEY := mk_key { x : Z; y : Z; data : list Z }.

(** The macro [LOOP]: the next table and positions, and the byte written. *)
Definition LOOP (k : RC4_KEY) (inb : Z) : outcome (RC4_KEY * Z) :=
  let x1 := Z.land (u32 (x k + 1)) 255 in
  let* tx := aget (data k) x1 in
  let y1 := Z.land (u32 (tx + y k)) 255 in
  let* ty := aget (data k) y1 in
  let* d := aset (data k) x1 ty in
  let* d := aset d y1 tx in
  let* b := aget d (Z.land (u32 (tx + ty)) 255) in
  Ret (mk_key x1 y1 d, u8 (Z.lxor b inb)).

(** [RC4_LOOP] [n] times on the pointers [indata] and [outdata]: the bytes written
    and what is left of the input; reading past the input is a fault. *)
Fixpoint RC4_LOOPs (n : nat) (k : RC4_KEY) (indata : list Z) : outcome (RC4_KEY * list Z * list Z) :=
  match n with
  | O => Ret (k, [], indata)
  | S n' =>
      match indata with
      | [] => Fault OutOfBounds
      | b :: rest =>
          let* r := LOOP k b in
          let* r2 := RC4_LOOPs n' (fst r) rest in
          Ret (fst (fst r2), snd r :: snd (fst r2), snd r2)
      end
  end.

(** [while (1) { eight times; if (--i == 0) break; }], for [i] rounds. *)
Fixpoint blocks (i : nat) (k : RC4_KEY) (indata : list Z) : outcome (RC4_KEY * list Z * list Z) :=
  match i with
  | O => Ret (k, [], indata)
  | S i' =>
      let* r := RC4_LOOPs 8 k indata in
      let* r2 := blocks i' (fst (fst r)) (snd r) in
      Ret (fst (fst r2), snd (fst r) ++ snd (fst r2), snd r2)
  end.

(** [RC4]: [len >> 3] is converted to [int]; a negative count would run into
    signed overflow. *)
Definition RC4 (key : RC4_KEY) (len : Z) (indata : list Z) : outcome (RC4_KEY * list Z) :=
  let i := to_int (Z.shiftr len 3) in
  if i <? 0 then Fault SignedOverflow
  else
    let* r := blocks (Z.to_nat i) key indata in
    let j := Z.land (to_int len) 7 in
    let* r2 := RC4_LOOPs (Z.to_nat j) (fst (fst r)) (snd r) in
    Ret (fst (fst r2), snd (fst r) ++ snd (fst r2)).

(** The macro [SK_LOOP] for slot [n]: table, [id1], [id2]. *)
Definition SK_LOOP (key : list Z) (len : Z) (s : list Z * Z * Z) (n : Z) : outcome (list Z * Z * Z) :=
  let '(d, id1, id2) := s in
  let* tmp := aget d n in
  let* kb := aget key id1 in
  let id2 := Z.land (u32 (kb + tmp + id2)) 255 in
  let* id1 := ck (id1 + 1) in
  let id1 := if id1 =? len then 0 else id1 in
  let* dv := aget d id2 in
  let* d := aset d n dv in
  let* d := aset d id2 tmp in
  Ret (d, id1, id2).

Fixpoint SK_LOOPs (key : list Z) (len : Z) (s : list Z * Z * Z) (ns : list Z) : outcome (list Z * Z * Z) :=
  match ns with
  | [] => Ret s
  | n :: ns => let* s := SK_LOOP key len s n in SK_LOOPs key len s ns
  end.

(** [RC4_set_key]; the loop takes the slots 0, 1, ..., 255 in order, four a round. *)
Definition RC4_set_key (len : Z) (key : list Z) : outcome RC4_KEY :=
  let d := seqZ 0 256 in
  let* s := SK_LOOPs key len (d, 0, 0) (seqZ 0 256) in
  Ret (mk_key 0 0 (fst (fst s))).

(** A published test vector: key "Key", text "Plaintext". *)
Example rc4_vector :
  (let* k := RC4_set_key 3 [75; 101; 121] in
   let* r := RC4 k 9 [80; 108; 97; 105; 110; 116; 101; 120; 116] in Ret (snd r)) =
  Ret [187; 243; 22; 232; 217; 64; 175; 10; 211].
Proof. vm_compute. reflexivity. Qed.

(** ** Invariant *)
Record key_ok (k : RC4_KEY) : Prop := {
  ko_x : 0 <= x k < 256;
  ko_y : 0 <= y k < 256;
  ko_d : data k ≡ₚ seqZ 0 256;
}.

Lemma perm_table d : d ≡ₚ seqZ 0 256 -> zlen d = 256 /\ Forall (fun v => 0 <= v < 256) d.
Proof.
  intros Hp. split; [unfold zlen; by rewrite Hp, length_seqZ|].
  apply Forall_forall. intros v. rewrite Hp, elem_of_seqZ. lia.
Qed.

Lemma land255 z : 0 <= Z.land z 255 < 256.
Proof. change 255 with (Z.ones 8). rewrite Z.land_ones by lia. by apply Z.mod_pos_bound. Qed.

Lemma table_get d i : d ≡ₚ seqZ 0 256 -> 0 <= i < 256 ->
  exists v, aget d i = Ret v /\ d !! Z.to_nat i = Some v /\ 0 <= v < 256.
Proof.
  intros Hp Hi. destruct (perm_table d Hp) as [Hl Hr]. destruct (aget_lt d i) as (v & E & Ev); [lia|].
  exists v. split_and!; [done|done|..]; by apply (Forall_lookup_1 _ _ _ _ Hr Ev).
Qed.

(** Exchanging two entries of the table. *)
Lemma table_swap d i j a b : d ≡ₚ seqZ 0 256 -> 0 <= i < 256 -> 0 <= j < 256 ->
  d !! Z.to_nat i = Some a -> d !! Z.to_nat j = Some b ->
  exists d', (let* d := aset d i b in aset d j a) = Ret d' /\ d' ≡ₚ seqZ 0 256.
Proof.
  intros Hp Hi Hj Ha Hb. destruct (perm_table d Hp) as [Hl _].
  rewrite aset_Ret by lia. cbn [obind]. rewrite aset_Ret by (rewrite zlen_insert; lia).
  eexists. split; [done|]. rewrite <- Hp. by apply Permutation_insert_swap.
Qed.
(** One round: the next state and the mask do not depend on the input byte. *)
Lemma LOOP_run k : key_ok k -> exists k' m, key_ok k' /\ 0 <= m < 256 /\
  forall b, LOOP k b = Ret (k', u8 (Z.lxor m b)).
Proof.
  intros [Hx Hy Hd]. unfold LOOP. set (x1 := Z.land (u32 (x k + 1)) 255). pose proof (land255 (u32 (x k + 1)) : 0 <= x1 < 256).
  destruct (table_get _ x1 Hd) as (tx & Etx & Ltx & Htx); [done|]. rewrite Etx. cbn [obind].
  set (y1 := Z.land (u32 (tx + y k)) 255). pose proof (land255 (u32 (tx + y k)) : 0 <= y1 < 256).
  destruct (table_get _ y1 Hd) as (ty & Ety & Lty & Hty); [done|]. rewrite Ety. cbn [obind].
  destruct (table_swap _ x1 y1 tx ty Hd) as (d' & Ed & Hd'); [done..|].
  destruct (aset (data k) x1 ty) as [d1| |]; [|done|done]. cbn [obind] in Ed |- *. rewrite Ed. cbn [obind].
  destruct (table_get d' (Z.land (u32 (tx + ty)) 255) Hd') as (m & Em & _ & Hm); [apply land255|].
  rewrite Em. exists (mk_key x1 y1 d'), m. split_and!; [done|lia|lia|done].
Qed.

Lemma LOOPs_app a b k l :
  RC4_LOOPs (a + b) k l =
  let* r := RC4_LOOPs a k l in
  let* r2 := RC4_LOOPs b (fst (fst r)) (snd r) in
  Ret (fst (fst r2), snd (fst r) ++ snd (fst r2), snd r2).
Proof.
  revert k l. induction a as [|a IH]; intros k l; cbn [RC4_LOOPs Nat.add obind fst snd app].
  - by destruct (RC4_LOOPs b k l) as [[[? ?] ?]| |].
  - destruct l as [|c l]; [done|]. destruct (LOOP k c) as [[k1 o]| |]; [|done|done]. cbn [obind fst snd].
    rewrite IH. destruct (RC4_LOOPs a k1 l) as [[[k2 o2] l2]| |]; [|done|done]. cbn [obind fst snd].
    by destruct (RC4_LOOPs b k2 l2) as [[[? ?] ?]| |].
Qed.

Lemma blocks_LOOPs i k l : blocks i k l = RC4_LOOPs (8 * i) k l.
Proof.
  revert k l. induction i as [|i IH]; intros k l; [done|]. cbn [blocks].
  replace (8 * S i)%nat with (8 + 8 * i)%nat by lia. rewrite LOOPs_app.
  destruct (RC4_LOOPs 8 k l) as [[[k1 o] l1]| |]; [|done|done]. cbn [obind fst snd]. by rewrite IH.
Qed.

(** The unrolled loops are one pass over [len] bytes. *)
Lemma RC4_pass k len l : 0 <= len < 2 ^ 31 ->
  RC4 k len l = let* r := RC4_LOOPs (Z.to_nat len) k l in Ret (fst r).
Proof.
  intros Hlen. unfold RC4. assert (Z.shiftr len 3 = len / 8) as -> by (by rewrite Z.shiftr_div_pow2).
  assert (forall z, 0 <= z < 2 ^ 31 -> to_int z = z) as Hti.
  { intros z Hz. unfold to_int, u32. rewrite Z.mod_small by lia. destruct (Z.ltb_spec z (2 ^ 31)); lia. }
  pose proof (Z.div_mod len 8 ltac:(lia)). pose proof (Z.mod_pos_bound len 8 ltac:(lia)).
  assert (0 <= len / 8) by (apply Z.div_pos; lia).
  rewrite (Hti (len / 8)), (Hti len) by lia. rewrite (proj2 (Z.ltb_ge _ 0)) by lia.
  change 7 with (Z.ones 3). rewrite Z.land_ones by lia. change (2 ^ 3) with 8.
  rewrite blocks_LOOPs. replace (Z.to_nat len) with (8 * Z.to_nat (len / 8) + Z.to_nat (len mod 8))%nat by lia.
  rewrite LOOPs_app. destruct (RC4_LOOPs _ k l) as [[[k1 o] l1]| |]; [|done|done]. cbn [obind fst snd].
  by destruct (RC4_LOOPs _ k1 l1) as [[[k2 o2] l2]| |].
Qed.

Definition bytes (l : list Z) : Prop := Forall (fun b => 0 <= b < 256) l.

Lemma u8_small z : 0 <= z < 256 -> u8 z = z.
Proof. intros. unfold u8. by rewrite Z.mod_small by lia. Qed.

Lemma lxor_byte a b : 0 <= a < 256 -> 0 <= b < 256 -> 0 <= Z.lxor a b < 256.
Proof.
  intros Ha Hb. assert (0 <= Z.lxor a b) as Hn by (apply Z.lxor_nonneg; lia). split; [done|].
  destruct (decide (Z.lxor a b = 0)) as [->|Hz]; [lia|].
  apply (Z.log2_lt_pow2 _ 8); [lia|].
  eapply Z.le_lt_trans; [apply Z.log2_lxor; lia|].
  assert (forall v, 0 <= v < 256 -> Z.log2 v < 8) as Hl.
  { intros v Hv. destruct (decide (v = 0)) as [->|]; [done|]. apply Z.log2_lt_pow2; lia. }
  apply Z.max_lub_lt; by apply Hl.
Qed.

(** A pass over bytes: it returns, keeps the invariant, and applied to its output
    with the same key it gives the input back. *)
Lemma LOOPs_run k l : key_ok k -> bytes l ->
  exists k' c, (forall rest, RC4_LOOPs (length l) k (l ++ rest) = Ret (k', c, rest)) /\ key_ok k' /\ bytes c /\
    length c = length l /\ (forall rest, RC4_LOOPs (length l) k (c ++ rest) = Ret (k', l, rest)).
Proof.
  intros Hk Hl. revert k Hk. induction Hl as [|b l Hb Hl IH]; intros k Hk.
  { exists k, []. split_and!; try done. constructor. }
  destruct (LOOP_run k Hk) as (k1 & m & Hk1 & Hm & Hrun). destruct (IH k1 Hk1) as (k' & c & E1 & Hk' & Hc & Hlen & E2).
  pose proof (lxor_byte m b Hm Hb) as Hx. exists k', (Z.lxor m b :: c). split_and!.
  - intros rest. cbn [RC4_LOOPs length app]. rewrite Hrun. cbn [obind fst snd]. rewrite E1. by rewrite u8_small.
  - done.
  - by constructor.
  - cbn. by rewrite Hlen.
  - intros rest. cbn [RC4_LOOPs length app]. rewrite Hrun. cbn [obind fst snd]. rewrite E2. cbn [obind fst snd].
    by rewrite <- Z.lxor_assoc, Z.lxor_nilpotent, Z.lxor_0_l, u8_small.
Qed.

Lemma SK_LOOP_run key len d id1 id2 n : d ≡ₚ seqZ 0 256 -> 0 < len <= zlen key -> len <= INT_MAX -> 0 <= id1 < len ->
  0 <= n < 256 ->
  exists d' id1' id2', SK_LOOP key len (d, id1, id2) n = Ret (d', id1', id2') /\ d' ≡ₚ seqZ 0 256 /\ 0 <= id1' < len.
Proof.
  intros Hd Hlen Hmax Hid Hn. unfold SK_LOOP. destruct (table_get d n Hd Hn) as (tmp & -> & Lt & _). cbn [obind].
  destruct (aget_lt key id1) as (kb & -> & _); [lia|]. cbn [obind]. rewrite ck_Ret by int_lia. cbn [obind].
  set (j := Z.land _ 255). assert (0 <= j < 256) as Hj by apply land255.
  destruct (table_get d j Hd Hj) as (dv & -> & Lv & _). cbn [obind].
  destruct (table_swap d n j tmp dv) as (d' & Ed & Hd'); [done..|].
  destruct (aset d n dv) as [d1| |]; [|done|done]. cbn [obind] in Ed |- *. rewrite Ed. cbn [obind].
  do 3 eexists. split_and!; [done|done|..]; destruct (Z.eqb_spec (id1 + 1) len); lia.
Qed.

Lemma SK_LOOPs_run key len ns d id1 id2 : d ≡ₚ seqZ 0 256 -> 0 < len <= zlen key -> len <= INT_MAX -> 0 <= id1 < len ->
  Forall (fun n => 0 <= n < 256) ns ->
  exists d' id1' id2', SK_LOOPs key len (d, id1, id2) ns = Ret (d', id1', id2') /\ d' ≡ₚ seqZ 0 256.
Proof.
  intros Hd Hlen Hmax Hid Hns. revert d id1 id2 Hd Hid. induction Hns as [|n ns Hn Hns IH]; intros d id1 id2 Hd Hid.
  { by do 3 eexists. }
  destruct (SK_LOOP_run key len d id1 id2 n) as (d1 & i1 & i2 & E & Hd1 & Hi1); [done..|].
  cbn [SK_LOOPs]. rewrite E. cbn [obind]. by apply IH.
Qed.

Lemma set_key_run key len : 0 < len <= zlen key -> len <= INT_MAX ->
  exists k, RC4_set_key len key = Ret k /\ key_ok k.
Proof.
  intros Hlen Hmax. unfold RC4_set_key.
  destruct (SK_LOOPs_run key len (seqZ 0 256) (seqZ 0 256) 0 0) as (d & i1 & i2 & E & Hd); [done|done|done|lia| |].
  { apply Forall_forall. intros n. rewrite elem_of_seqZ. lia. }
  rewrite E. eexists. split; [done|]. by split.
Qed.

(** With the key table set from the same key, decrypting what was encrypted gives
    the text back and leaves both tables in the same state; the calls return, stay
    inside the table and the buffers, and keep the table a permutation of 0..255. *)
Theorem rc4_roundtrip key len text : 0 < len <= zlen key -> len <= INT_MAX -> bytes text -> zlen text < 2 ^ 31 ->
  exists k k' cipher, RC4_set_key len key = Ret k /\
    RC4 k (zlen text) text = Ret (k', cipher) /\ zlen cipher = zlen text /\ bytes cipher /\
    RC4 k (zlen cipher) cipher = Ret (k', text) /\ key_ok k'.
Proof.
  intros Hlen Hmax Hb Ht. destruct (set_key_run key len Hlen Hmax) as (k & Ek & Hk).
  destruct (LOOPs_run k text Hk Hb) as (k' & c & E1 & Hk' & Hc & Hl & E2). specialize (E1 []). specialize (E2 []).
  rewrite !app_nil_r in *.
  assert (zlen c = zlen text) as Hz by (unfold zlen; by rewrite Hl). pose proof (zlen_nonneg text).
  exists k, k', c. rewrite Hz, !RC4_pass by lia.
  replace (Z.to_nat (zlen text)) with (length text) by (unfold zlen; lia). rewrite E1, E2. done.
Qed.

(** C36: the cipher is a stream: running it over a buffer in two calls, whatever the
    split, writes the same bytes and ends in the same state as one call. *)
Theorem rc4_stream k l1 l2 : key_ok k -> bytes l1 -> bytes l2 -> zlen (l1 ++ l2) < 2 ^ 31 ->
  exists k1 c1 k2 c2, RC4 k (zlen l1) l1 = Ret (k1, c1) /\ RC4 k1 (zlen l2) l2 = Ret (k2, c2) /\
    RC4 k (zlen (l1 ++ l2)) (l1 ++ l2) = Ret (k2, c1 ++ c2).
Proof.
  intros Hk H1 H2 Hlen. pose proof (zlen_nonneg l1). pose proof (zlen_nonneg l2). rewrite zlen_app in *.
  destruct (LOOPs_run k l1 Hk H1) as (k1 & c1 & E1 & Hk1 & _). destruct (LOOPs_run k1 l2 Hk1 H2) as (k2 & c2 & E2 & _).
  exists k1, c1, k2, c2. rewrite !RC4_pass by lia.
  replace (Z.to_nat (zlen l1)) with (length l1) by (unfold zlen; lia).
  replace (Z.to_nat (zlen l2)) with (length l2) by (unfold zlen; lia).
  replace (Z.to_nat (zlen l1 + zlen l2)) with (length l1 + length l2)%nat by (unfold zlen; lia).
  pose proof (E1 []) as E1'. specialize (E2 []). rewrite !app_nil_r in *.
  rewrite LOOPs_app, E1, E1', E2. cbn [obind fst snd]. by rewrite E2.
Qed.

Lemma rc4_roundtrip_witness :
  exists k k' cipher, RC4_set_key 2 [1; 255] = Ret k /\
    RC4 k 9 [1; 2; 3; 4; 5; 6; 7; 8; 255] = Ret (k', cipher) /\ zlen cipher = 9 /\ bytes cipher /\
    RC4 k (zlen cipher) cipher = Ret (k', [1; 2; 3; 4; 5; 6; 7; 8; 255]) /\ key_ok k'.
Proof.
  apply (rc4_roundtrip [1; 255] 2 [1; 2; 3; 4; 5; 6; 7; 8; 255]).
  - unfold zlen. cbn. lia.
  - discriminate.
  - repeat constructor; discriminate.
  - reflexivity.
Defined.

Lemma rc4_stream_witness :
  exists k1 c1 k2 c2, RC4 (mk_key 0 0 (seqZ 0 256)) 1 [9] = Ret (k1, c1) /\ RC4 k1 2 [8; 7] = Ret (k2, c2) /\
    RC4 (mk_key 0 0 (seqZ 0 256)) 3 [9; 8; 7] = Ret (k2, c1 ++ c2).
Proof.
  apply (rc4_stream (mk_key 0 0 (seqZ 0 256)) [9] [8; 7]).
  - split; [cbn; lia..|]. reflexivity.
  - repeat constructor; discriminate.
  - repeat constructor; discriminate.
  - reflexivity.
Defined.

End RC.
