(* ===== verification/Playlist.v ===== *)
(** * Playlist.v: play lists, playlist/playlist.c

    A list of file names with a cursor and two times.  [format_time] parses
    [YYYYMMDD-HHMM]; [pl_load_playlist] takes the times from the first two lines of
    a file and the names from the others; [pl_next] walks the list.

    [mktime], [time] and [localtime] are parameters; [mem] tells whether the
    allocation for a name succeeds. *)

From S2P Require Import Prelude Cstr.

Module PL.
Import CS.

(** The fields of [struct tm] that [format_time] sets ([tm_sec] and [tm_isdst] are 0). *)
Record tm := mk_tm { tm_year : Z; tm_mon : Z; tm_mday : Z; tm_hour : Z; tm_min : Z }.

(** [struct playlist_private_data_t]; the chain of [struct strlist_t] is a list of
    names and [pointer] an index into it. *)
Record playlist := mk_pl {
  start : Z;
  stop : Z;
  cnt : Z;
  list_ : list (list Z);
  loop_mode : Z;
  pointer : option nat;
  plfile : option (list Z);
  plrecfile : option (list Z);
}.
Definition set_start (v : Z) (s : playlist) : playlist :=
  mk_pl v (stop s) (cnt s) (list_ s) (loop_mode s) (pointer s) (plfile s) (plrecfile s).
Definition set_stop (v : Z) (s : playlist) : playlist :=
  mk_pl (start s) v (cnt s) (list_ s) (loop_mode s) (pointer s) (plfile s) (plrecfile s).
Definition set_cnt (v : Z) (s : playlist) : playlist :=
  mk_pl (start s) (stop s) v (list_ s) (loop_mode s) (pointer s) (plfile s) (plrecfile s).
Definition set_list_ (v : list (list Z)) (s : playlist) : playlist :=
  mk_pl (start s) (stop s) (cnt s) v (loop_mode s) (pointer s) (plfile s) (plrecfile s).
Definition set_loop_mode (v : Z) (s : playlist) : playlist :=
  mk_pl (start s) (stop s) (cnt s) (list_ s) v (pointer s) (plfile s) (plrecfile s).
Definition set_pointer (v : option nat) (s : playlist) : playlist :=
  mk_pl (start s) (stop s) (cnt s) (list_ s) (loop_mode s) v (plfile s) (plrecfile s).
Definition set_plfile (v : option (list Z)) (s : playlist) : playlist :=
  mk_pl (start s) (stop s) (cnt s) (list_ s) (loop_mode s) (pointer s) v (plrecfile s).
Definition set_plrecfile (v : option (list Z)) (s : playlist) : playlist :=
  mk_pl (start s) (stop s) (cnt s) (list_ s) (loop_mode s) (pointer s) (plfile s) v.

(** ** Times *)
Definition split : list nat := [4; 2; 2; 1; 2; 2]%nat.

(** Lines 29-44: field of width [m] at position [j]; [k] digits are left.  [None] is
    a return of -1. *)
Fixpoint read_field (m k : nat) (s : list Z) (j : nat) (v : Z) : outcome (option Z) :=
  match k with
  | O => Ret (Some v)
  | S k' =>
      let* c := aget s (Z.of_nat j) in
      if (m =? 1)%nat then
        if negb (c =? 45) then Ret None else read_field m k' s (S j) v
      else if (57 <? c) || (c <? 48) then Ret None
      else read_field m k' s (S j) (v * 10 + (c - 48))
  end.

(** Lines 46-84. *)
Definition set_field (i : nat) (v : Z) (t : tm) : option tm :=
  let '(mk_tm y mo d h mi) := t in
  match i with
  | 0%nat => if v <? 1900 then None else Some (mk_tm (v - 1900) mo d h mi)
  | 1%nat => if (v <? 1) || (12 <? v) then None else Some (mk_tm y (v - 1) d h mi)
  | 2%nat => if (v <? 1) || (31 <? v) then None else Some (mk_tm y mo v h mi)
  | 3%nat => Some t
  | 4%nat => if (v <? 0) || (23 <? v) then None else Some (mk_tm y mo d v mi)
  | 5%nat => if (v <? 0) || (59 <? v) then None else Some (mk_tm y mo d h v)
  | _ => Some t
  end.

Fixpoint read_fields (ms : list nat) (i j : nat) (s : list Z) (t : tm) : outcome (option tm) :=
  match ms with
  | [] => Ret (Some t)
  | m :: ms' =>
      let* v := read_field m m s j 0 in
      match v with
      | None => Ret None
      | Some v =>
          match set_field i v t with
          | None => Ret None
          | Some t' => read_fields ms' (S i) (j + m) s t'
          end
      end
  end.

(** [format_time] up to [mktime]: [t0] is the uninitialised structure, [buf] the
    memory of the string. *)
Definition format_tm (t0 : tm) (buf : list Z) : outcome (option tm) :=
  let* len := strlen buf in
  if negb (to_int len =? Z.of_nat (sum_list split)) then Ret None
  else read_fields split 0 0 buf t0.

Section times.
Context (t0 : tm).

(** ** The time format *)
Definition tm_valid (t : tm) : Prop :=
  0 <= tm_year t <= 8099 /\ 0 <= tm_mon t <= 11 /\ 1 <= tm_mday t <= 31 /\
  0 <= tm_hour t <= 23 /\ 0 <= tm_min t <= 59.

Definition digit (n : Z) : Z := 48 + n mod 10.
Definition two (n : Z) : list Z := [digit (n / 10); digit n].
(** [YYYYMMDD-HHMM]. *)
Definition print_tm (t : tm) : list Z :=
  two ((tm_year t + 1900) / 100) ++ two (tm_year t + 1900) ++ two (tm_mon t + 1) ++ two (tm_mday t) ++
  45 :: two (tm_hour t) ++ two (tm_min t).

Definition is_dig (c : Z) : bool := (48 <=? c) && (c <=? 57).

Lemma dig_test c : ((57 <? c) || (c <? 48)) = negb (is_dig c).
Proof. unfold is_dig. destruct (Z.ltb_spec 57 c), (Z.ltb_spec c 48), (Z.leb_spec 48 c), (Z.leb_spec c 57); done || lia. Qed.

Lemma read_two s j a b : s !! j = Some a -> s !! S j = Some b ->
  read_field 2 2 s j 0 = Ret (if is_dig a && is_dig b then Some ((a - 48) * 10 + (b - 48)) else None).
Proof.
  intros Ha Hb. cbn [read_field Nat.eqb]. rewrite (aget_nat _ _ _ Ha), (aget_nat _ _ _ Hb). cbn [obind].
  rewrite !dig_test. by destruct (is_dig a), (is_dig b).
Qed.

Lemma read_four s j a b c d : s !! j = Some a -> s !! S j = Some b -> s !! S (S j) = Some c -> s !! S (S (S j)) = Some d ->
  read_field 4 4 s j 0 =
  Ret (if is_dig a && is_dig b && is_dig c && is_dig d
       then Some ((((a - 48) * 10 + (b - 48)) * 10 + (c - 48)) * 10 + (d - 48)) else None).
Proof.
  intros Ha Hb Hc Hd. cbn [read_field Nat.eqb].
  rewrite (aget_nat _ _ _ Ha), (aget_nat _ _ _ Hb), (aget_nat _ _ _ Hc), (aget_nat _ _ _ Hd). cbn [obind].
  rewrite !dig_test. by destruct (is_dig a), (is_dig b), (is_dig c), (is_dig d).
Qed.

Lemma read_dash s j a : s !! j = Some a -> read_field 1 1 s j 0 = Ret (if a =? 45 then Some 0 else None).
Proof. intros Ha. cbn [read_field Nat.eqb]. rewrite (aget_nat _ _ _ Ha). cbn [obind]. by destruct (a =? 45). Qed.

Lemma two_value_range a b : is_dig a && is_dig b = true -> 0 <= (a - 48) * 10 + (b - 48) <= 99.
Proof. intros [Ha Hb]%andb_true_iff. unfold is_dig in *. lia. Qed.

Local Ltac refuse := split; [let E := fresh in intros E; cbn in E; discriminate E|intros; exfalso; intuition (congruence || lia)].

Local Ltac range E :=
  match goal with |- context [(?a <? ?b) || ?c] => destruct ((a <? b) || c) eqn:E end.

(** What the loops compute on thirteen characters. *)
Lemma fields_run c0 c1 c2 c3 c4 c5 c6 c7 c8 c9 c10 c11 c12 rest t :
  read_fields split 0 0 (c0 :: c1 :: c2 :: c3 :: c4 :: c5 :: c6 :: c7 :: c8 :: c9 :: c10 :: c11 :: c12 :: rest) t0 = Ret (Some t)
  <-> is_dig c0 && is_dig c1 && is_dig c2 && is_dig c3 = true /\ is_dig c4 && is_dig c5 = true /\
      is_dig c6 && is_dig c7 = true /\ c8 = 45 /\ is_dig c9 && is_dig c10 = true /\ is_dig c11 && is_dig c12 = true /\
      tm_valid t /\
      tm_year t + 1900 = (((c0 - 48) * 10 + (c1 - 48)) * 10 + (c2 - 48)) * 10 + (c3 - 48) /\
      tm_mon t + 1 = (c4 - 48) * 10 + (c5 - 48) /\ tm_mday t = (c6 - 48) * 10 + (c7 - 48) /\
      tm_hour t = (c9 - 48) * 10 + (c10 - 48) /\ tm_min t = (c11 - 48) * 10 + (c12 - 48).
Proof.
  assert (forall c, is_dig c = true -> 0 <= c - 48 <= 9) as Hd by (unfold is_dig; intros c; lia).
  pose proof two_value_range as Hd2.
  assert (is_dig c0 && is_dig c1 && is_dig c2 && is_dig c3 = true ->
    (((c0 - 48) * 10 + (c1 - 48)) * 10 + (c2 - 48)) * 10 + (c3 - 48) <= 9999) as Hd4
    by (intros [[[Ha%Hd Hb%Hd]%andb_true_iff Hc%Hd]%andb_true_iff He%Hd]%andb_true_iff; lia).
  destruct t0 as [y0 m0 d0 h0 n0], t as [y m d h n]. unfold split, tm_valid. cbn [read_fields].
  cbn [tm_year tm_mon tm_mday tm_hour tm_min].
  rewrite (read_four _ 0 c0 c1 c2 c3) by reflexivity. cbn [obind].
  destruct (is_dig c0 && is_dig c1 && is_dig c2 && is_dig c3) eqn:D0; [|refuse]. specialize (Hd4 eq_refl).
  cbn [set_field Nat.add]. set (yy := (((c0 - 48) * 10 + _) * 10 + _) * 10 + _) in *.
  destruct (Z.ltb_spec yy 1900); [refuse|]. rewrite (read_two _ 4 c4 c5) by reflexivity.
  cbn [obind]. destruct (is_dig c4 && is_dig c5) eqn:D1; [|refuse]. pose proof (Hd2 _ _ D1) as B1.
  cbn [set_field Nat.add]. range E1; [refuse|]. rewrite (read_two _ 6 c6 c7) by reflexivity.
  cbn [obind]. destruct (is_dig c6 && is_dig c7) eqn:D2; [|refuse]. pose proof (Hd2 _ _ D2) as B2.
  cbn [set_field Nat.add]. range E2; [refuse|]. rewrite (read_dash _ 8 c8) by reflexivity.
  cbn [obind]. destruct (Z.eqb_spec c8 45) as [->|]; [|refuse].
  cbn [set_field Nat.add]. rewrite (read_two _ 9 c9 c10) by reflexivity.
  cbn [obind]. destruct (is_dig c9 && is_dig c10) eqn:D4; [|refuse]. pose proof (Hd2 _ _ D4) as B4.
  cbn [set_field Nat.add]. range E4; [refuse|]. rewrite (read_two _ 11 c11 c12) by reflexivity.
  cbn [obind]. destruct (is_dig c11 && is_dig c12) eqn:D5; [|refuse]. pose proof (Hd2 _ _ D5) as B5.
  cbn [set_field]. range E5; [refuse|].
  split.
  - intros [= <- <- <- <- <-]. split_and!; try done; lia.
  - intros (_ & _ & _ & _ & _ & _ & _ & Hy & Hm & Hda & Hh & Hn). do 2 f_equal. f_equal; lia.
Qed.

Lemma digit_dig n : is_dig (digit n) = true.
Proof. unfold is_dig, digit. pose proof (Z.mod_pos_bound n 10 ltac:(lia)). lia. Qed.

Lemma two_digits a b n : is_dig a && is_dig b = true -> n = (a - 48) * 10 + (b - 48) -> [a; b] = two n.
Proof.
  intros [Ha Hb]%andb_true_iff ->. unfold is_dig, two, digit in *.
  assert (((a - 48) * 10 + (b - 48)) / 10 = a - 48) as -> by (symmetry; apply (Z.div_unique _ _ _ (b - 48)); lia).
  rewrite (Z.mod_small (a - 48)) by lia.
  rewrite <- (Z.mod_unique _ 10 (a - 48) (b - 48)) by lia. by rewrite !Zplus_minus.
Qed.

Lemma two_value n : 0 <= n <= 99 -> n = (digit (n / 10) - 48) * 10 + (digit n - 48).
Proof.
  intros Hn. unfold digit. rewrite (Z.mod_small (n / 10)) by (split; [apply Z.div_pos|apply Z.div_lt_upper_bound]; lia).
  pose proof (Z.div_mod n 10 ltac:(lia)). lia.
Qed.

Lemma two_mod n : two n = two (n mod 100).
Proof. unfold two, digit. f_equal; [|f_equal]; Z.to_euclidean_division_equations; lia. Qed.

Lemma year_split y : y = 100 * (y / 100) + y mod 100 /\ 0 <= y mod 100 <= 99.
Proof. pose proof (Z.div_mod y 100 ltac:(lia)). pose proof (Z.mod_pos_bound y 100 ltac:(lia)). lia. Qed.

Lemma format_tm_length buf s : cstr buf s -> length s <> 13%nat -> format_tm t0 buf = Ret None.
Proof.
  intros H Hl. unfold format_tm. destruct (strlen_cstr _ _ H) as [-> E]. cbn [obind]. rewrite E.
  change (Z.of_nat (sum_list split)) with 13. by rewrite (proj2 (Z.eqb_neq _ 13)) by (unfold zlen; lia).
Qed.

(** The time parser accepts exactly the strings [YYYYMMDD-HHMM] with a year from
    1900 and the other fields in range, and returns their fields; every other string
    is refused. *)
Theorem format_tm_iff buf s t : cstr buf s ->
  format_tm t0 buf = Ret (Some t) <-> tm_valid t /\ s = print_tm t.
Proof.
  intros H. destruct (decide (length s = 13%nat)) as [Hl|Hl]; cycle 1.
  { rewrite (format_tm_length buf s H Hl). split; [done|]. intros [_ ->]. by destruct t. }
  pose proof H as (Hs & _ & rest & ->). unfold format_tm. rewrite strlen_run by done.
  unfold zlen. rewrite Hl. cbn [obind]. change (negb _) with false. cbn match.
  do 13 (destruct s as [|? s]; [done|]). destruct s; [|done]. cbn [app]. rewrite fields_run. split.
  - intros (D0 & D1 & D2 & -> & D4 & D5 & Hv & Hy & Hm & Hd & Hh & Hn). split; [done|]. unfold print_tm.
    apply andb_true_iff in D0 as [D0 D03]. apply andb_true_iff in D0 as [D0 D02].
    assert (is_dig z1 && is_dig z2 = true) as D0' by (by rewrite D02, D03).
    pose proof (two_value_range _ _ D0') as B.
    rewrite <- (two_digits z3 z4 _ D1 Hm), <- (two_digits z5 z6 _ D2 Hd), <- (two_digits z8 z9 _ D4 Hh),
      <- (two_digits z10 z11 _ D5 Hn), (two_mod (tm_year t + 1900)).
    assert (((z - 48) * 10 + (z0 - 48)) = (tm_year t + 1900) / 100) as Eh
      by (apply (Z.div_unique _ _ _ ((z1 - 48) * 10 + (z2 - 48))); lia).
    assert ((z1 - 48) * 10 + (z2 - 48) = (tm_year t + 1900) mod 100) as El
      by (apply (Z.mod_unique _ _ ((z - 48) * 10 + (z0 - 48))); lia).
    by rewrite <- (two_digits z z0 _ D0 (eq_sym Eh)), <- (two_digits z1 z2 _ D0' (eq_sym El)).
  - intros [(Hy & Hm & Hd & Hh & Hn) E]. destruct (year_split (tm_year t + 1900)) as [Hys Hyl].
    assert (0 <= (tm_year t + 1900) / 100 <= 99) as Hyh by lia.
    unfold print_tm in E. rewrite (two_mod (tm_year t + 1900)) in E. injection E as -> -> -> -> -> -> -> -> -> -> -> -> ->.
    rewrite !digit_dig. cbn [andb]. split_and!; try done.
    + rewrite Hys at 1. rewrite (two_value _ Hyh) at 1. rewrite (two_value _ Hyl) at 1. lia.
    + apply two_value. lia.
    + apply two_value. lia.
    + apply two_value. lia.
    + apply two_value. lia.
Qed.
End times.

Section playlist.
Context (mktime : tm -> Z) (t0 : tm) (mem : list Z -> bool).

Definition format_time (buf : list Z) : outcome Z :=
  let* r := format_tm t0 buf in
  Ret (match r with None => -1 | Some t => mktime t end).

Definition pl_set_starttime (self : playlist) (buf : list Z) : outcome (Z * playlist) :=
  let* t := format_time buf in
  Ret (if t =? -1 then 0 else 1, set_start t self).

Definition pl_set_stoptime (self : playlist) (buf : list Z) : outcome (Z * playlist) :=
  let* t := format_time buf in
  Ret (if t =? -1 then 0 else 1, set_stop t self).

Definition pl_start_time (self : playlist) : Z := start self.
Definition pl_stop_time (self : playlist) : Z := stop self.

(** ** Names *)
Definition pl_add (self : playlist) (fname : list Z) : Z * playlist :=
  if mem fname then (1 + zlen (list_ self), set_list_ (list_ self ++ [fname]) self)
  else (-1, self).

Definition pl_clean (self : playlist) : playlist := set_pointer None (set_list_ [] self).

Definition pl_first (self : playlist) : playlist := set_pointer None self.

Definition pl_next (self : playlist) : option (list Z) * playlist :=
  match list_ self with
  | [] => (None, self)
  | l =>
      let p :=
        match pointer self with
        | None => Some 0%nat
        | Some i =>
            if (S i <? length l)%nat then Some (S i)
            else if negb (loop_mode self =? 0) then Some 0%nat else None
        end in
      (match p with Some i => l !! i | None => None end, set_pointer p self)
  end.

Definition pl_current (self : playlist) : option (list Z) :=
  match pointer self with None => None | Some i => list_ self !! i end.

Definition pl_looping (self : playlist) (mode : Z) : Z * playlist :=
  (loop_mode self, if 0 <=? mode then set_loop_mode (b2z (negb (mode =? 0))) self else self).

(** [sprintf] of [%0wd] and [%wd] (twenty digits hold every [int]). *)
Fixpoint dec (fuel : nat) (n : Z) : list Z :=
  match fuel with
  | O => []
  | S fuel' => if n <? 10 then [48 + n] else dec fuel' (n / 10) ++ [48 + n mod 10]
  end.
Definition fmt_0d (w : nat) (n : Z) : list Z :=
  let ds := dec 20 (Z.abs n) in
  if n <? 0 then 45 :: replicate (w - 1 - length ds) 48 ++ ds else replicate (w - length ds) 48 ++ ds.
Definition fmt_d (w : nat) (n : Z) : list Z :=
  let ds := (if n <? 0 then [45] else []) ++ dec 20 (Z.abs n) in replicate (w - length ds) 32 ++ ds.

(** ["%04d%02d%2d-%02d"] of [t] and [id], and the extension. *)
Definition day_file (t : tm) (id : Z) (ext : list Z) : outcome (list Z) :=
  let* y := ck (tm_year t + 1900) in
  let* mo := ck (tm_mon t + 1) in
  let* r := crem id 100 in
  Ret (fmt_0d 4 y ++ fmt_0d 2 mo ++ fmt_d 2 (tm_mday t) ++ 45 :: fmt_0d 2 r ++ ext).

(** [now] is the result of [localtime]. *)
Definition pl_playlist_file (now : tm) (self : playlist) (id : Z) : outcome (option (list Z) * playlist) :=
  let* f := day_file now id [46; 108; 115; 116] in
  let p := if mem f then Some f else None in
  Ret (p, set_plfile p self).

Definition pl_playrecord_file (now : tm) (self : playlist) (id : Z) : outcome (option (list Z) * playlist) :=
  let* f := day_file now id [46; 114; 101; 99] in
  let p := if mem f then Some f else None in
  Ret (p, set_plrecfile p self).

(** ** Loading *)
Definition BUFSZ : nat := 2048.

(** Lines 201-223: one line in the buffer; [line] counts the lines that are not empty. *)
Definition load_line (x : playlist * Z) (buf : list Z) : outcome (playlist * Z * list Z) :=
  let self := fst x in
  let line := snd x in
  let* r := chomp buf in
  let* r := rtrim (snd r) in
  let len := fst r in
  let buf := snd r in
  if len =? 0 then Ret (self, line, buf)
  else
    let* c := aget buf 0 in
    if (len =? 1) && (c =? EOF_DOS) then Ret (self, line, buf)
    else
      let* line := ck (line + 1) in
      if line =? 1 then let* s := pl_set_starttime self buf in Ret (snd s, line, buf)
      else if line =? 2 then let* s := pl_set_stoptime self buf in Ret (snd s, line, buf)
      else Ret (snd (pl_add self (cstring buf)), line, buf).

Definition load_loop (fuel : nat) (self : playlist) (line : Z) (buf f : list Z) : outcome playlist :=
  let* x := line_loop (BUFSZ - 1) load_line fuel (self, line) buf f in Ret (fst x).

Definition pl_load_playlist (self : playlist) (buf0 : list Z) (file : option (list Z)) : outcome (Z * playlist) :=
  match file with
  | None => Ret (0, self)
  | Some f => let* s := load_loop (S (length f)) (pl_clean self) 0 buf0 f in Ret (0, s)
  end.

(** [pl_auto_playlist]: [fs] gives the contents of a file. *)
Definition pl_auto_playlist (fs : list Z -> option (list Z)) (now : tm) (self : playlist) (buf0 : list Z) (id : Z)
    : outcome (Z * playlist) :=
  let* r := pl_playlist_file now self id in
  match fst r with
  | None => Fault NullDeref
  | Some f => pl_load_playlist (snd r) buf0 (fs f)
  end.

(** [new_playlist]: [start] and [stop] are not initialised. *)
Definition new_playlist (m : playlist) : playlist := mk_pl (start m) (stop m) 0 [] 0 None None None.

(** ** Walking the list *)
Fixpoint nexts (k : nat) (self : playlist) : list (option (list Z)) :=
  match k with
  | O => []
  | S k' => let r := pl_next self in fst r :: nexts k' (snd r)
  end.

(** The index the next call of [pl_next] returns; the length stands for NULL. *)
Definition next_idx (s : playlist) : nat :=
  match pointer s with
  | None => 0
  | Some j => if (S j <? length (list_ s))%nat then S j else if loop_mode s =? 0 then length (list_ s) else 0
  end.
Definition period (s : playlist) : nat :=
  if loop_mode s =? 0 then S (length (list_ s)) else length (list_ s).

Lemma advance n i (lm : Z) : (i < n)%nat ->
  (if (S i <? n)%nat then S i else if (lm =? 0)%Z then n else 0%nat) = (S i mod (if (lm =? 0)%Z then S n else n))%nat.
Proof.
  intros Hi. destruct (Nat.ltb_spec (S i) n), (Z.eqb_spec lm 0).
  - by rewrite Nat.mod_small by lia.
  - by rewrite Nat.mod_small by lia.
  - rewrite Nat.mod_small by lia. lia.
  - assert (S i = n) as -> by lia. by rewrite Nat.Div0.mod_same.
Qed.

Lemma pl_next_run s : list_ s <> [] ->
  pl_next s = (list_ s !! next_idx s, snd (pl_next s)) /\ list_ (snd (pl_next s)) = list_ s /\
  loop_mode (snd (pl_next s)) = loop_mode s /\ next_idx (snd (pl_next s)) = (S (next_idx s) mod period s)%nat.
Proof.
  intros Hne. unfold pl_next, next_idx, period. destruct s as [st sp cn l lm p pf pr].
  cbn [list_ loop_mode pointer set_pointer] in *. destruct l as [|x l]; [done|].
  cbn [list_ loop_mode pointer set_pointer fst snd]. set (n := length (x :: l)).
  assert (0 < n)%nat by (cbn; lia). split_and!; [|done|done|].
  - f_equal. destruct p as [i|]; [|done]. destruct (Nat.ltb_spec (S i) n); [done|].
    destruct (Z.eqb_spec lm 0); cbn [negb]; [|done]. symmetry. by apply lookup_ge_None.
  - destruct p as [i|]; [|by apply advance]. destruct (Nat.ltb_spec (S i) n); [by apply advance|].
    destruct (Z.eqb_spec lm 0) as [->|Hlm]; cbn [negb]; [by rewrite Nat.Div0.mod_same|].
    pose proof (advance n 0 lm) as Ha. rewrite (proj2 (Z.eqb_neq lm 0)) in Ha by done. by apply Ha.
Qed.

Lemma nexts_run k s i : list_ s <> [] -> (i < k)%nat ->
  nexts k s !! i = Some (list_ s !! ((next_idx s + i) mod period s)%nat).
Proof.
  revert s i. induction k as [|k IH]; intros s i Hne Hi; [lia|]. cbn [nexts].
  destruct (pl_next_run s Hne) as (E & Hl & Hm & Hx).
  assert (period (snd (pl_next s)) = period s) as Hp by (unfold period; by rewrite Hl, Hm).
  destruct i as [|i].
  - cbn. f_equal. rewrite E. cbn [fst]. f_equal. rewrite Nat.add_0_r, Nat.mod_small; [done|].
    unfold next_idx, period. destruct (list_ s) as [|x l]; [done|].
    destruct (pointer s) as [j|]; [destruct (Nat.ltb_spec (S j) (length (x :: l)))|];
      destruct (Z.eqb_spec (loop_mode s) 0); cbn in *; lia.
  - cbn [lookup list_lookup]. rewrite IH by (rewrite ?Hl; done || lia). rewrite Hp, Hl, Hx. do 2 f_equal.
    rewrite Nat.Div0.add_mod_idemp_l. f_equal. lia.
Qed.

(** From the start of the list, [pl_next] returns the names in order; in loop
    mode it starts again after the last, otherwise it returns NULL once at the end
    and then starts again. *)
Theorem pl_next_cycles s k i : list_ s <> [] -> (i < k)%nat ->
  nexts k (pl_first s) !! i = Some (list_ s !! (i mod period s)%nat).
Proof. intros Hne Hi. by rewrite (nexts_run k (pl_first s) i). Qed.

(** ** Loading *)
Lemma read_field_prefix m k s j v : (j + k <= length s)%nat ->
  exists o, forall rest, read_field m k (s ++ rest) j v = Ret o.
Proof.
  revert j v. induction k as [|k IH]; intros j v Hj; [by eexists|].
  destruct (lookup_lt_is_Some_2 s j) as [c Hc]; [lia|]. cbn [read_field].
  destruct (IH (S j) v) as [o1 H1]; [lia|]. destruct (IH (S j) (v * 10 + (c - 48))) as [o2 H2]; [lia|].
  exists (if (m =? 1)%nat then if negb (c =? 45) then None else o1
          else if (57 <? c) || (c <? 48) then None else o2).
  intros rest. rewrite (aget_nat _ _ c) by (by apply lookup_app_l_Some). cbn [obind]. rewrite H1, H2.
  destruct (m =? 1)%nat, (negb (c =? 45)), ((57 <? c) || (c <? 48)); done.
Qed.

Lemma read_fields_prefix ms i j s t : (j + sum_list ms <= length s)%nat ->
  exists o, forall rest, read_fields ms i j (s ++ rest) t = Ret o.
Proof.
  revert i j t. induction ms as [|m ms IH]; intros i j t Hj; [by eexists|]. cbn [sum_list fold_right read_fields] in *.
  destruct (read_field_prefix m m s j 0) as [v Hv]; [cbn in Hj; lia|].
  destruct v as [v|]; [|exists None; intros rest; by rewrite Hv].
  destruct (set_field i v t) as [t'|] eqn:E; [|exists None; intros rest; by rewrite Hv; cbn; rewrite E].
  destruct (IH (S i) (j + m)%nat t') as [o Ho]; [cbn in Hj; lia|].
  exists o. intros rest. rewrite Hv. cbn [obind]. rewrite E. apply Ho.
Qed.

(** The time of a string; it depends on nothing behind the string. *)
Definition time_of (s : list Z) : Z :=
  match format_time (s ++ [NUL]) with Ret v => v | _ => 0 end.

Lemma format_time_run buf s : cstr buf s -> format_time buf = Ret (time_of s).
Proof.
  intros H. pose proof H as (Hs & Hb & t & ->).
  assert (cstr (s ++ [NUL]) s) as H'.
  { split_and!; [done| |by exists []]. pose proof (zlen_nonneg t). autorewrite with katmai in *. lia. }
  unfold time_of, format_time. destruct (decide (length s = 13%nat)) as [Hl|Hl].
  - unfold format_tm. rewrite !strlen_run by done. cbn [obind]. unfold zlen. rewrite Hl.
    destruct (read_fields_prefix split 0 0 s t0) as [o Ho]; [by rewrite Hl|]. by rewrite !Ho.
  - by rewrite !(format_tm_length t0 _ s).
Qed.

Definition item (chunk : list Z) : list Z := rstrip is_blank (rstrip is_eol (cstring chunk)).
Definition is_item (s : list Z) : bool := negb (bool_decide (s = [])) && negb (bool_decide (s = [EOF_DOS])).

(** The effect of the item number [line + 1]. *)
Definition spec_item (self : playlist) (line : Z) (s : list Z) : playlist :=
  if line =? 0 then set_start (time_of s) self
  else if line =? 1 then set_stop (time_of s) self
  else snd (pl_add self s).

(** A line as the loop takes it. *)
Definition spec_line (x : playlist * Z) (chunk : list Z) : outcome (playlist * Z) :=
  if is_item (item chunk) then
    let* l := ck (snd x + 1) in Ret (spec_item (fst x) (snd x) (item chunk), l)
  else Ret x.

Lemma pl_load_line_run x chunk buf : cstr buf (cstring chunk) ->
  exists buf', zlen buf' = zlen buf /\ load_line x buf = (let* y := spec_line x chunk in Ret (y, buf')).
Proof.
  intros H0. destruct x as [self line]. unfold load_line, spec_line. cbn [fst snd].
  destruct (chomp_edits _ _ H0) as (b1 & -> & H1 & L1). cbn [obind snd].
  destruct (rtrim_edits _ _ H1) as (b2 & -> & H2 & L2). cbn [obind fst snd]. fold (item chunk) in *.
  set (s := item chunk) in *. clearbody s. exists b2. split; [congruence|]. unfold is_item.
  destruct s as [|c s]; [done|]. rewrite zlen_cons. pose proof (zlen_nonneg s).
  rewrite (proj2 (Z.eqb_neq _ 0)) by lia. pose proof H2 as (Hs & Hb & t & Eb).
  assert (aget b2 0 = Ret c) as -> by (by rewrite Eb). cbn [obind].
  rewrite (bool_decide_eq_false_2 (c :: s = [])) by done. cbn [negb andb].
  destruct (bool_decide_reflect (c :: s = [EOF_DOS])) as [[= -> ->]|Hne]; [done|]. cbn [negb].
  assert ((zlen s + 1 =? 1) && (c =? EOF_DOS) = false) as ->.
  { apply andb_false_iff. destruct s as [|d s]; [|left; rewrite zlen_cons; pose proof (zlen_nonneg s); lia].
    right. apply Z.eqb_neq. by intros ->. }
  destruct (ck (line + 1)) as [l| |] eqn:E; [|done|done]. apply ck_inv in E as [-> _]. cbn [obind].
  unfold spec_item, pl_set_starttime, pl_set_stoptime.
  rewrite (format_time_run b2 (c :: s)), (cstring_cstr _ _ H2) by done. cbn [obind snd].
  assert ((line + 1 =? 1) = (line =? 0)) as -> by lia. assert ((line + 1 =? 2) = (line =? 1)) as -> by lia.
  by destruct (line =? 0), (line =? 1).
Qed.

(** The items of a file, in order. *)
Definition items_in (cs : list (list Z)) : list (list Z) := filter (fun s => is_item s = true) (item <$> cs).
Definition items (f : list Z) : list (list Z) := items_in (chunks (BUFSZ - 1) f).

Fixpoint spec_items (self : playlist) (line : Z) (its : list (list Z)) : playlist :=
  match its with
  | [] => self
  | s :: its => spec_items (spec_item self line s) (line + 1) its
  end.

Lemma fold_items self line cs : 0 <= line -> line + zlen cs < INT_MAX ->
  exists l, fold_lines spec_line (self, line) cs = Ret (spec_items self line (items_in cs), l).
Proof.
  revert self line. induction cs as [|c cs IH]; intros self line H0 Hl; [by eexists|].
  rewrite zlen_cons in Hl. pose proof (zlen_nonneg cs). unfold items_in. rewrite fmap_cons. cbn [fold_lines].
  destruct (is_item (item c)) eqn:E.
  - assert (spec_line (self, line) c = Ret (spec_item self line (item c), line + 1)) as ->
      by (unfold spec_line; cbn [fst snd]; by rewrite E, ck_Ret by int_lia).
    rewrite filter_cons_True by done. cbn [obind spec_items]. apply IH; lia.
  - assert (spec_line (self, line) c = Ret (self, line)) as -> by (unfold spec_line; by rewrite E).
    rewrite filter_cons_False by (by rewrite E). cbn [obind]. apply IH; lia.
Qed.

Lemma pl_bufsz_val : Z.of_nat BUFSZ = 2048.
Proof. reflexivity. Qed.
#[local] Opaque BUFSZ.

Lemma chunks_of_length lim fuel f : (length (chunks_of lim fuel f) <= fuel)%nat.
Proof. revert f. induction fuel as [|fuel IH]; intros [|c f]; cbn; [lia..|]. specialize (IH (snd (fgets_take lim (c :: f)))). lia. Qed.

Lemma pl_load_loop_run self buf f : zlen buf = Z.of_nat BUFSZ -> zlen f < INT_MAX ->
  load_loop (S (length f)) self 0 buf f = Ret (spec_items self 0 (items f)).
Proof.
  intros Hb Hf. pose proof pl_bufsz_val. unfold load_loop.
  rewrite (line_loop_run _ _ spec_line (Z.of_nat BUFSZ)); [|lia|unfold INT_MAX; lia|exact pl_load_line_run|done|lia].
  fold (chunks (BUFSZ - 1) f). destruct (fold_items self 0 (chunks (BUFSZ - 1) f)) as [l ->]; [lia| |done].
  pose proof (chunks_of_length (BUFSZ - 1) (length f) f). unfold zlen in *. unfold chunks. lia.
Qed.

Lemma spec_items_names self line its : 2 <= line -> (forall s, mem s = true) ->
  spec_items self line its = set_list_ (list_ self ++ its) self.
Proof.
  intros Hl Hmem. revert self line Hl. induction its as [|s its IH]; intros self line Hl; cbn [spec_items].
  - destruct self. cbn. by rewrite app_nil_r.
  - rewrite IH by lia. unfold spec_item, pl_add. rewrite (proj2 (Z.eqb_neq line 0)), (proj2 (Z.eqb_neq line 1)) by lia.
    rewrite Hmem. destruct self. cbn. by rewrite <- app_assoc.
Qed.

(** Loading a file sets the start and stop times from its first two items and
    makes the others, in order, the new list, whatever the list was before, with the
    cursor at the start; an item is a line with line ends and trailing blanks
    removed, if that leaves something other than a control-Z. *)
Theorem pl_load_correct self buf0 f t1 t2 names :
  (forall s, mem s = true) -> zlen buf0 = Z.of_nat BUFSZ -> zlen f < INT_MAX -> items f = t1 :: t2 :: names ->
  pl_load_playlist self buf0 (Some f) =
  Ret (0, mk_pl (time_of t1) (time_of t2) (cnt self) names (loop_mode self) None (plfile self) (plrecfile self)).
Proof.
  intros Hmem Hb Hf Hi. unfold pl_load_playlist. rewrite pl_load_loop_run, Hi by done. cbn [spec_items obind]. rewrite spec_items_names by (done || lia). by destruct self.
Qed.
End playlist.

(** [20030102-0930]. *)
Definition demo_time : list Z := [50; 48; 48; 51; 48; 49; 48; 50; 45; 48; 57; 51; 48].
Definition tm0 : tm := mk_tm 0 0 0 0 0.
Definition empty_pl : playlist := mk_pl 0 0 0 [] 0 None None None.

Lemma demo_cstr : cstr (demo_time ++ [NUL]) demo_time.
Proof. split; [repeat constructor; discriminate|]. split; [discriminate|]. exists []. reflexivity. Qed.

Lemma format_tm_iff_witness :
  cstr (demo_time ++ [NUL]) demo_time /\ format_tm tm0 (demo_time ++ [NUL]) = Ret (Some (mk_tm 103 0 2 9 30)).
Proof.
  split; [exact demo_cstr|]. apply (format_tm_iff tm0 _ demo_time _ demo_cstr).
  split; [cbn; unfold tm_valid; cbn; lia|reflexivity].
Defined.

Lemma pl_next_cycles_witness :
  nexts 4 (pl_first (mk_pl 0 0 0 [[97]; [98]] 0 (Some 1%nat) None None)) !! 2%nat = Some None /\
  nexts 4 (pl_first (mk_pl 0 0 0 [[97]; [98]] 1 (Some 1%nat) None None)) !! 2%nat = Some (Some [97]).
Proof.
  split.
  - exact (pl_next_cycles (mk_pl 0 0 0 [[97]; [98]] 0 (Some 1%nat) None None) 4 2 ltac:(discriminate) ltac:(lia)).
  - exact (pl_next_cycles (mk_pl 0 0 0 [[97]; [98]] 1 (Some 1%nat) None None) 4 2 ltac:(discriminate) ltac:(lia)).
Defined.

(** Two times and the names [a] and [b], with an empty line and a control-Z. *)
Definition demo_file : list Z := demo_time ++ [13; 10] ++ demo_time ++ [10; 10; 97; 32; 10; 98; 10; 26].

Lemma pl_load_correct_witness :
  pl_load_playlist tm_min tm0 (fun _ => true) empty_pl (replicate 2048 0) (Some demo_file) =
  Ret (0, mk_pl 30 30 0 [[97]; [98]] 0 None None None).
Proof.
  refine (pl_load_correct tm_min tm0 (fun _ => true) empty_pl (replicate 2048 0) demo_file demo_time demo_time
            [[97]; [98]] _ _ _ _).
  - intros s0. reflexivity.
  - vm_compute. reflexivity.
  - vm_compute. reflexivity.
  - vm_compute. reflexivity.
Defined.

End PL.
