(* ===== verification/Cron.v ===== *)
(** * Cron.v: scheduled commands, cron/cronjob.c and cron/cron.c

    [parse_cron_string] is a state machine that turns the five time fields of a
    crontab line into bit masks; [cronjob_check_first] and [cronjob_check_next]
    enumerate the commands whose masks have the bits of a given time; the thread
    of cron.c does so at every time slot.  A line is written as a list of fields and
    proved to be started exactly at the times its fields match; where the parser goes
    wrong is proved too.

    Sleeping, thread creation and [system] are not modelled: one turn of the thread
    gives the commands it starts and the seconds it sleeps.  [mem] tells whether the
    [strdup] of a command succeeds. *)

From S2P Require Import Prelude Cstr.

Module CR.
Import CS.

(** [struct cronjob_table_data_t]; the chain of [next] pointers is a list. *)
Record entry := mk_entry {
  min : Z;
  hour : Z;
  day : Z;
  mon : Z;
  wday : Z;
  cmd : option (list Z);
}.
Definition set_min (v : Z) (s : entry) : entry :=
  mk_entry v (hour s) (day s) (mon s) (wday s) (cmd s).
Definition set_hour (v : Z) (s : entry) : entry :=
  mk_entry (min s) v (day s) (mon s) (wday s) (cmd s).
Definition set_day (v : Z) (s : entry) : entry :=
  mk_entry (min s) (hour s) v (mon s) (wday s) (cmd s).
Definition set_mon (v : Z) (s : entry) : entry :=
  mk_entry (min s) (hour s) (day s) v (wday s) (cmd s).
Definition set_wday (v : Z) (s : entry) : entry :=
  mk_entry (min s) (hour s) (day s) (mon s) v (cmd s).
Definition set_cmd (v : option (list Z)) (s : entry) : entry :=
  mk_entry (min s) (hour s) (day s) (mon s) (wday s) v.

(** The local variables of [parse_cron_string]. *)
Record pstate := mk_ps {
  state : Z;
  newfield : Z;
  f : Z;
  n : Z;
  m64 : Z;
  m32 : Z;
  i64 : Z;
  i32 : Z;
  tbl : entry;
}.
Definition set_state (v : Z) (s : pstate) : pstate :=
  mk_ps v (newfield s) (f s) (n s) (m64 s) (m32 s) (i64 s) (i32 s) (tbl s).
Definition set_newfield (v : Z) (s : pstate) : pstate :=
  mk_ps (state s) v (f s) (n s) (m64 s) (m32 s) (i64 s) (i32 s) (tbl s).
Definition set_f (v : Z) (s : pstate) : pstate :=
  mk_ps (state s) (newfield s) v (n s) (m64 s) (m32 s) (i64 s) (i32 s) (tbl s).
Definition set_n (v : Z) (s : pstate) : pstate :=
  mk_ps (state s) (newfield s) (f s) v (m64 s) (m32 s) (i64 s) (i32 s) (tbl s).
Definition set_m64 (v : Z) (s : pstate) : pstate :=
  mk_ps (state s) (newfield s) (f s) (n s) v (m32 s) (i64 s) (i32 s) (tbl s).
Definition set_m32 (v : Z) (s : pstate) : pstate :=
  mk_ps (state s) (newfield s) (f s) (n s) (m64 s) v (i64 s) (i32 s) (tbl s).
Definition set_i64 (v : Z) (s : pstate) : pstate :=
  mk_ps (state s) (newfield s) (f s) (n s) (m64 s) (m32 s) v (i32 s) (tbl s).
Definition set_i32 (v : Z) (s : pstate) : pstate :=
  mk_ps (state s) (newfield s) (f s) (n s) (m64 s) (m32 s) (i64 s) v (tbl s).
Definition set_tbl (v : entry) (s : pstate) : pstate :=
  mk_ps (state s) (newfield s) (f s) (n s) (m64 s) (m32 s) (i64 s) (i32 s) v.

Definition is_digit (c : Z) : bool := (48 <=? c) && (c <=? 57).

(** Lines 37-59: the mask of field [k] is stored. *)
Definition store_field (k : Z) (s : pstate) : entry :=
  if k =? 1 then set_min (i64 s) (tbl s)
  else if k =? 2 then set_hour (i32 s) (tbl s)
  else if k =? 3 then set_day (i32 s) (tbl s)
  else if k =? 4 then set_mon (i32 s) (tbl s)
  else if k =? 5 then set_wday (i32 s) (tbl s)
  else tbl s.

(** Lines 96-108.  [1 << 31] gives the sign bit (gcc gives the shift its two's
    complement value), which the mask takes as unsigned. *)
Definition set_masks (s : pstate) : pstate :=
  if n s =? 0 then set_m64 1 (set_m32 1 s)
  else if n s <? 32 then set_m64 (Z.shiftl 1 (n s)) (set_m32 (u32 (Z.shiftl 1 (n s))) s)
  else if n s <? 63 then set_m64 (Z.shiftl 1 (n s)) (set_m32 0 s)
  else set_m64 0 (set_m32 0 s).

(** Lines 147-154, for the [j] from [63 - k] on. *)
Fixpoint step_masks (k : nat) (j i : Z) (s : pstate) : outcome pstate :=
  match k with
  | O => Ret s
  | S k' =>
      let* r := crem j (n s) in
      let s1 := if r =? 0
                then set_i64 (Z.lor (i64 s) (m64 s)) (if i <? 32 then set_i32 (Z.lor (i32 s) (m32 s)) s else s)
                else s in
      step_masks k' (j + 1) i (set_m64 (u64 (Z.shiftl (m64 s1) 1)) (set_m32 (u32 (Z.shiftl (m32 s1) 1)) s1))
  end.

(** What a round of the loop does: go on with the next character, with the same one
    ([i--]), or return. *)
Inductive res := Go (s : pstate) | Redo (s : pstate) | Done (rc : Z) (t : entry).

Definition or_masks (s : pstate) : pstate :=
  set_i64 (Z.lor (i64 s) (m64 s)) (set_i32 (Z.lor (i32 s) (m32 s)) s).

(** Lines 66-78. *)
Definition start_field (c : Z) (s : pstate) : pstate :=
  let s := set_i64 0 (set_i32 0 s) in
  if is_blank c then s
  else if c =? 42 then set_state 1 s
  else if is_digit c then set_state 2 (set_n (c - 48) s)
  else set_state (-1) s.

Section cron.
Context (mem : list Z -> bool).

(** The body of the loop for character [c] at index [i]; [rest] is the string from
    there on. *)
Definition round (s : pstate) (i c : Z) (rest : list Z) : outcome res :=
  if state s =? 0 then
    if negb (newfield s =? 0) then
      let k := f s + 1 in
      let s1 := set_tbl (store_field k s) (set_f k (set_newfield 0 s)) in
      if k =? 5 then Ret (Redo (set_state 6 s1)) else Ret (Go (start_field c s1))
    else Ret (Go (start_field c s))
  else if state s =? 1 then
    if is_blank c then
      Ret (Go (set_state 0 (set_newfield 1 (set_i64 0x7fffffffffffffff (set_i32 0xffffffff s)))))
    else if c =? 47 then Ret (Go (set_state 3 (set_n 0 s)))
    else Ret (Go (set_state (-1) s))
  else if state s =? 2 then
    let s := set_masks s in
    if is_blank c then Ret (Go (set_state 0 (set_newfield 1 (or_masks s))))
    else if is_digit c then
      let* v := ck (n s * 10) in
      let* v := ck (v + (c - 48)) in
      Ret (Go (set_n v s))
    else if c =? 44 then Ret (Go (set_state 4 (or_masks s)))
    else Ret (Go s)
  else if state s =? 3 then
    if is_digit c then Ret (Go (set_state 5 (set_n (c - 48) s))) else Ret (Go (set_state (-1) s))
  else if state s =? 4 then
    if is_digit c then Ret (Go (set_state 2 (set_n (c - 48) s))) else Ret (Go (set_state (-1) s))
  else if state s =? 5 then
    if is_blank c then
      let* s := step_masks 63 0 i (set_m64 1 (set_m32 1 s)) in
      Ret (Go (set_newfield 1 (set_state 0 s)))
    else if is_digit c then
      let* v := ck (n s * 10) in
      let* v := ck (v + (c - 48)) in
      Ret (Go (set_n v s))
    else Ret (Go (set_state (-1) s))
  else if state s =? 6 then
    if is_blank c then Ret (Go s)
    else Ret (Done 1 (set_cmd (if mem rest then Some rest else None) (tbl s)))
  else Ret (Done 0 (tbl s)).

(** The loop; a character is taken up again at most once (state 6 goes on). *)
Fixpoint parse_loop (str : list Z) (i : Z) (s : pstate) : outcome (Z * entry) :=
  match str with
  | [] => Ret (0, tbl s)
  | c :: str' =>
      let* r := round s i c str in
      match r with
      | Go s1 => parse_loop str' (i + 1) s1
      | Done rc t => Ret (rc, t)
      | Redo s1 =>
          let* r := round s1 i c str in
          match r with
          | Go s2 => parse_loop str' (i + 1) s2
          | Done rc t => Ret (rc, t)
          | Redo _ => Fault OutOfFuel
          end
      end
  end.

(** [tbl0] is the uninitialised structure of the caller. *)
Definition parse_cron_string (tbl0 : entry) (str : list Z) : outcome (Z * entry) :=
  parse_loop str 0 (mk_ps 0 0 0 0 0 0 0 0 tbl0).
End cron.

(** ** The job list.  [findptr] points into the list: it is the rest from there on. *)
Record cronjob := mk_cj { jobs : list entry; cktbl : entry; findptr : list entry }.

(** The fields of [struct tm] that are used. *)
Record tm := mk_tm { tm_sec : Z; tm_min : Z; tm_hour : Z; tm_mday : Z; tm_mon : Z; tm_wday : Z }.

Section jobs.
Context (mem : list Z -> bool).

(** [ok]: the allocation of the entry succeeds. *)
Definition cronjob_add (ok : bool) (tbl0 : entry) (self : cronjob) (str : list Z) : outcome (Z * cronjob) :=
  let* r := parse_cron_string mem tbl0 str in
  if negb (fst r =? 0) then
    if ok then Ret (1, mk_cj (snd r :: jobs self) (cktbl self) (findptr self))
    else Ret (0, self)
  else Ret (0, self).

(** Lines 219-238: whether no [continue] is taken. *)
Definition due (ck p : entry) : bool :=
  negb (Z.land (wday ck) (wday p) =? 0) && negb (Z.land (mon ck) (mon p) =? 0) &&
  negb (Z.land (day ck) (day p) =? 0) && negb (Z.land (hour ck) (hour p) =? 0) &&
  negb (Z.land (min ck) (min p) =? 0).

(** The entry found, if any: [None] is the NULL at the end of the list. *)
Fixpoint find_due (ck : entry) (l : list entry) : option entry * list entry :=
  match l with
  | [] => (None, [])
  | p :: l' => if due ck p then (Some p, l') else find_due ck l'
  end.

Definition cronjob_check_next (self : cronjob) : option (list Z) * cronjob :=
  let r := find_due (cktbl self) (findptr self) in
  (match fst r with Some p => cmd p | None => None end, mk_cj (jobs self) (cktbl self) (snd r)).

Definition cronjob_check_first (self : cronjob) (t : tm) : option (list Z) * cronjob :=
  let ck := mk_entry (Z.shiftl 1 (tm_min t)) (u32 (Z.shiftl 1 (tm_hour t))) (u32 (Z.shiftl 1 (tm_mday t)))
              (u32 (Z.shiftl 1 (tm_mon t + 1))) (u32 (Z.shiftl 1 (tm_wday t))) (cmd (cktbl self)) in
  cronjob_check_next (mk_cj (jobs self) ck (jobs self)).

Definition new_cronjob (m : cronjob) : cronjob := mk_cj [] (cktbl m) (findptr m).

(** ** Loading a crontab (cron.c, lines 46-58); the buffer has 4096 bytes, of which
    [fgets] may use one less. *)
Definition CRONBUF : nat := 4096.

Definition cron_load_line (tbl0 : entry) (self : cronjob) (buf : list Z) : outcome (cronjob * list Z) :=
  let* r := chomp buf in
  let* r := rtrim (snd r) in
  let buf := snd r in
  let* len := strlen buf in
  if len =? 0 then Ret (self, buf)
  else
    let* c := aget buf 0 in
    if (c =? 35) || (c =? 59) then Ret (self, buf)
    else let* r := cronjob_add true tbl0 self (cstring buf) in Ret (snd r, buf).

Definition cron_load_crontable (tbl0 : entry) (self : cronjob) (buf0 : list Z) (file : option (list Z))
    : outcome (Z * cronjob) :=
  match file with
  | None => Ret (0, self)
  | Some f =>
      let* s := line_loop (CRONBUF - 2) (cron_load_line tbl0) (S (length f)) self buf0 f in Ret (1, s)
  end.

(** ** The thread.  Lines 109-120: the commands started in one slot. *)
Fixpoint run_rest (fuel : nat) (self : cronjob) (cmd : option (list Z)) : list (list Z) * cronjob :=
  match fuel, cmd with
  | S fuel', Some c =>
      let r := cronjob_check_next self in
      let r2 := run_rest fuel' (snd r) (fst r) in
      (c :: fst r2, snd r2)
  | _, _ => ([], self)
  end.

(** [do ... while]: every round uses up an entry of the list. *)
Definition run_slot (self : cronjob) (t : tm) : list (list Z) * cronjob :=
  let r := cronjob_check_first self t in
  run_rest (S (length (jobs self))) (snd r) (fst r).

(** One turn of the loop of [cron_main]: [t] and [t'] are the times read before and
    after the commands are started; the result has the commands and the seconds
    to sleep. *)
Definition cron_turn (timeslot : Z) (self : cronjob) (t t' : tm) : outcome (list (list Z) * Z * cronjob) :=
  let* r := crem (tm_min t) timeslot in
  let x := if r =? 0 then run_slot self t else ([], self) in
  let* q := crem (59 - tm_min t') timeslot in
  let* stime := ck (q * 60 + (60 - tm_sec t')) in
  Ret (fst x, stime, snd x).
End jobs.

(** [struct cron_private_data_t] without the thread; [callback] is the function that
    was set, if any. *)
Record cron := mk_cron { cj : cronjob; on_the_run : Z; timeslot : Z; terminate : Z; callback : option Z }.

Definition cron_set_timeslot (self : cron) (min : Z) : Z * cron :=
  let rc := timeslot self in
  if 60 <? min then (-1, self)
  else if 0 <? min then (rc, mk_cron (cj self) (on_the_run self) min (terminate self) (callback self))
  else (rc, self).

Definition cron_run (self : cron) : Z * cron :=
  if negb (on_the_run self =? 0) then (0, self)
  else (1, mk_cron (cj self) 1 (timeslot self) (terminate self) (callback self)).

(** [pthread_join] waits for the thread to end. *)
Definition cron_stop (self : cron) : Z * cron :=
  if on_the_run self =? 0 then (0, self)
  else (1, mk_cron (cj self) 0 (timeslot self) 1 (callback self)).

Definition cron_set_callback (self : cron) (func : option Z) : option Z * cron :=
  (callback self, mk_cron (cj self) (on_the_run self) (timeslot self) (terminate self) func).

Definition new_cron (m : cronjob) : cron := mk_cron (new_cronjob m) 0 1 0 None.

(** What the thread of a command does: it calls the callback with a string, hands
    the command to the shell, or nothing. *)
Inductive action := Call (func : Z) (arg : list Z) | Shell (cmd : list Z) | Nothing.

Definition default_callback (func : option Z) (cmd : list Z) : outcome action :=
  let len := zlen cmd in
  let* bracketed := (
    if 3 <? len then
      let* c := aget cmd 0 in
      if c =? 91 then let* d := aget cmd (len - 1) in Ret (d =? 93) else Ret false
    else Ret false : outcome bool) in
  if (bracketed : bool) then
    match func with
    | Some g => let* b := aset cmd (len - 1) NUL in Ret (Call g (cstring (drop 1 b)))
    | None => Ret Nothing
    end
  else Ret (Shell cmd).

(** ** Specification: fields as they are written.  A number is a list of digits. *)
Inductive field :=
  | Star
  | Step (ds : list Z)
  | Nums (ds : list Z) (more : list (list Z)).

Definition num_ok (ds : list Z) : Prop :=
  ds <> [] /\ (length ds <= 9)%nat /\ Forall (fun d => 0 <= d <= 9) ds.
Definition num_from (v : Z) (ds : list Z) : Z := fold_left (fun v d => v * 10 + d) ds v.
Definition num (ds : list Z) : Z := num_from 0 ds.

Definition field_ok (x : field) : Prop :=
  match x with
  | Star => True
  | Step ds => num_ok ds /\ num ds <> 0
  | Nums ds more => num_ok ds /\ Forall num_ok more
  end.

(** The times a field stands for. *)
Definition matches (x : field) (k : Z) : bool :=
  match x with
  | Star => true
  | Step ds => k mod num ds =? 0
  | Nums ds more => bool_decide (k ∈ num <$> ds :: more)
  end.

Definition show_num (ds : list Z) : list Z := (fun d => 48 + d) <$> ds.
Definition show_more (more : list (list Z)) : list Z := mjoin ((fun ds => 44 :: show_num ds) <$> more).
Definition show_field (x : field) : list Z :=
  match x with
  | Star => [42]
  | Step ds => 42 :: 47 :: show_num ds
  | Nums ds more => show_num ds ++ show_more more
  end.

(** The bits of the masks are the numbers in [p] ([p32] for the 32-bit mask). *)
Definition bits64 (s : pstate) (p : Z -> bool) : Prop := forall k, 0 <= k < 63 -> Z.testbit (i64 s) k = p k.
Definition bits32 (s : pstate) (p : Z -> bool) : Prop := forall k, 0 <= k < 32 -> Z.testbit (i32 s) k = p k.

(** What the rounds inside a field leave alone. *)
Definition frame (s s' : pstate) : Prop := newfield s' = newfield s /\ f s' = f s /\ tbl s' = tbl s.

Lemma frame_refl s : frame s s.
Proof. done. Qed.
Lemma frame_trans s1 s2 s3 : frame s1 s2 -> frame s2 s3 -> frame s1 s3.
Proof. intros (A & B & C) (A' & B' & C'). split_and!; congruence. Qed.

(** ** Bits *)
Lemma bit_one v k : 0 <= k -> 0 <= v -> Z.testbit (Z.shiftl 1 v) k = (k =? v).
Proof.
  intros Hk Hv. rewrite Z.shiftl_1_l. destruct (Z.eqb_spec k v) as [->|]; [by rewrite Z.pow2_bits_true|].
  by rewrite Z.pow2_bits_false by lia.
Qed.

Lemma bit_u32 v k : 0 <= k < 32 -> Z.testbit (u32 v) k = Z.testbit v k.
Proof. intros Hk. unfold u32. by rewrite Z.mod_pow2_bits_low by lia. Qed.

Lemma set_masks_frame s : frame s (set_masks s) /\ state (set_masks s) = state s /\ n (set_masks s) = n s /\
  i64 (set_masks s) = i64 s /\ i32 (set_masks s) = i32 s.
Proof. unfold set_masks. by destruct (n s =? 0), (n s <? 32), (n s <? 63). Qed.

Lemma set_masks_bits s : 0 <= n s ->
  (forall k, 0 <= k < 63 -> Z.testbit (m64 (set_masks s)) k = (k =? n s)) /\
  (forall k, 0 <= k < 32 -> Z.testbit (m32 (set_masks s)) k = (k =? n s)).
Proof.
  intros Hn. unfold set_masks.
  destruct (Z.eqb_spec (n s) 0) as [->|]; [|destruct (Z.ltb_spec (n s) 32); [|destruct (Z.ltb_spec (n s) 63)]];
    cbn [m64 m32 set_m64 set_m32]; split; intros k Hk.
  - change 1 with (Z.shiftl 1 0). apply bit_one; lia.
  - change 1 with (Z.shiftl 1 0). apply bit_one; lia.
  - apply bit_one; lia.
  - rewrite bit_u32 by lia. apply bit_one; lia.
  - apply bit_one; lia.
  - rewrite Z.bits_0. lia.
  - rewrite Z.bits_0. lia.
  - rewrite Z.bits_0. lia.
Qed.

Lemma or_masks_bits s p q : bits64 s p -> bits32 s p -> 0 <= n s ->
  (forall k, 0 <= k < 63 -> q k = p k || (k =? n s)) ->
  bits64 (or_masks (set_masks s)) q /\ bits32 (or_masks (set_masks s)) q.
Proof.
  intros H64 H32 Hn Hq. destruct (set_masks_bits s Hn) as [M64 M32].
  destruct (set_masks_frame s) as (_ & _ & _ & E64 & E32).
  unfold bits64, bits32, or_masks. cbn [i64 i32 m64 m32 set_i64 set_i32]. split; intros k Hk; rewrite Z.lor_spec, Hq by lia.
  - by rewrite E64, H64, M64 by lia.
  - by rewrite E32, H32, M32 by lia.
Qed.

Local Ltac bitcases :=
  rewrite ?Z.eqb_refl;
  repeat match goal with
  | |- context [Z.testbit ?a ?b] => destruct (Z.testbit a b)
  | |- context [?a <=? ?b] => destruct (Z.leb_spec a b)
  | |- context [?a =? ?b] => destruct (a =? b)
  end; done || lia.

(** The loop for [*/n]. *)
Lemma step_masks_run k j i s : 0 <= j -> j + Z.of_nat k = 63 -> 0 < n s ->
  m64 s = 2 ^ j -> m32 s = u32 (2 ^ j) ->
  exists s', step_masks k j i s = Ret s' /\ frame s s' /\ state s' = state s /\
    (forall b, 0 <= b < 63 -> Z.testbit (i64 s') b = Z.testbit (i64 s) b || ((j <=? b) && (b mod n s =? 0))) /\
    (i < 32 -> forall b, 0 <= b < 32 -> Z.testbit (i32 s') b = Z.testbit (i32 s) b || ((j <=? b) && (b mod n s =? 0))) /\
    (32 <= i -> i32 s' = i32 s).
Proof.
  revert j s. induction k as [|k IH]; intros j s Hj Hk Hn H64 H32; cbn [step_masks].
  - exists s. split_and!; try done; intros; (destruct (Z.leb_spec j b); [lia|]); by rewrite orb_false_r.
  - rewrite crem_Ret by lia. cbn [obind]. set (s1 := if j mod n s =? 0 then _ else s).
    set (s2 := set_m64 _ _). 
    assert (frame s s2 /\ state s2 = state s /\ n s2 = n s /\ i64 s2 = i64 s1 /\ i32 s2 = i32 s1 /\ m64 s1 = m64 s /\ m32 s1 = m32 s)
      as (Hf & Hst & Hns & E64 & E32 & EM & EM')
      by (unfold s2, s1; destruct (j mod n s =? 0), (i <? 32); done).
    destruct (IH (j + 1) s2) as (s' & E & Hf' & Hst' & B64 & B32 & BL).
    + lia.
    + lia.
    + lia.
    + unfold s2. cbn [m64 set_m64]. rewrite EM, H64, Z.shiftl_mul_pow2, <- Z.pow_add_r by lia.
      unfold u64. apply Z.mod_small. split; [lia|]. apply Z.pow_lt_mono_r; lia.
    + unfold s2. cbn [m32 set_m64 set_m32]. rewrite EM', H32, Z.shiftl_mul_pow2 by lia. unfold u32.
      by rewrite Z.mul_mod_idemp_l, <- Z.pow_add_r by lia.
    + exists s'. rewrite E, Hst', Hst. split_and!; [done|by eapply frame_trans|done| | |].
      * intros b Hb. rewrite B64, E64, Hns by done. unfold s1.
        destruct (Z.eqb_spec (j mod n s) 0) as [Ej|Ej]; cbn [i64 set_i64].
        -- rewrite Z.lor_spec, H64, <- Z.shiftl_1_l, bit_one by lia.
           destruct (Z.eqb_spec b j) as [->|]; [rewrite Ej|]; bitcases.
        -- destruct (Z.eqb_spec b j) as [->|]; [rewrite (proj2 (Z.eqb_neq (j mod n s) 0)) by done|]; bitcases.
      * intros Hi b Hb. rewrite B32, E32, Hns by done. unfold s1. rewrite (proj2 (Z.ltb_lt i 32)) by done.
        destruct (Z.eqb_spec (j mod n s) 0) as [Ej|Ej]; cbn [i32 set_i32 set_i64].
        -- rewrite Z.lor_spec, H32, bit_u32, <- Z.shiftl_1_l, bit_one by lia.
           destruct (Z.eqb_spec b j) as [->|]; [rewrite Ej|]; bitcases.
        -- destruct (Z.eqb_spec b j) as [->|]; [rewrite (proj2 (Z.eqb_neq (j mod n s) 0)) by done|]; bitcases.
      * intros Hi. rewrite BL, E32 by done. unfold s1. rewrite (proj2 (Z.ltb_ge i 32)) by done.
        by destruct (j mod n s =? 0).
Qed.

(** Ready for field [k + 1]: the first [k] fields are in [t], the last of them perhaps
    still to be stored. *)
Definition ready (k : Z) (t : entry) (s : pstate) : Prop :=
  state s = 0 /\
  (newfield s = 0 /\ f s = k /\ tbl s = t \/ newfield s = 1 /\ f s + 1 = k /\ store_field k s = t).

(** ** Reading a field *)
Section fields.
Context (mem : list Z -> bool).
Abbreviation parse := (parse_loop mem).

Lemma parse_go s i c rest s' :
  round mem s i c (c :: rest) = Ret (Go s') -> parse (c :: rest) i s = parse rest (i + 1) s'.
Proof. intros E. cbn [parse_loop]. by rewrite E. Qed.

Lemma digit_char d : 0 <= d <= 9 -> is_digit (48 + d) = true /\ is_blank (48 + d) = false /\ (48 + d =? 42) = false /\ (48 + d =? 44) = false.
Proof. intros Hd. unfold is_digit, is_blank, SPC, TAB. split_and!; lia. Qed.

Lemma blank_char c : is_blank c = true -> is_digit c = false /\ (c =? 42) = false /\ (c =? 44) = false /\ (c =? 47) = false.
Proof. unfold is_digit, is_blank, SPC, TAB. intros H. split_and!; lia. Qed.

(** The first character of a field. *)
Lemma start_run k t s i c rest : ready k t s -> 0 <= k < 5 ->
  exists s1, parse (c :: rest) i s = parse rest (i + 1) (start_field c s1) /\
    state s1 = 0 /\ newfield s1 = 0 /\ f s1 = k /\ tbl s1 = t.
Proof.
  intros (Hs & [(Hn & Hf & Ht)|(Hn & Hf & Ht)]) Hk.
  - exists s. split; [|done]. apply parse_go. unfold round. by rewrite Hs, Hn.
  - eexists. split; [apply parse_go; unfold round; rewrite Hs, Hn, Hf; cbn [Z.eqb negb]|].
    + rewrite (proj2 (Z.eqb_neq k 5)) by lia. cbn. reflexivity.
    + done.
Qed.

Lemma start_frame c s : frame s (start_field c s) /\ i64 (start_field c s) = 0 /\ i32 (start_field c s) = 0.
Proof. unfold start_field. by destruct (is_blank c), (c =? 42), (is_digit c). Qed.

(** Further digits of a number, in state 2 or 5. *)
Lemma digits_run st ds m s i rest : st = 2 \/ st = 5 -> state s = st -> Forall (fun d => 0 <= d <= 9) ds ->
  0 <= n s < 10 ^ m -> 0 <= m -> m + zlen ds <= 9 ->
  exists s', parse (show_num ds ++ rest) i s = parse rest (i + zlen ds) s' /\ state s' = st /\
    n s' = num_from (n s) ds /\ 0 <= n s' /\ frame s s' /\ i64 s' = i64 s /\ i32 s' = i32 s.
Proof.
  intros Hst Hs Hds. revert m s i Hs. induction Hds as [|d ds Hd Hds IH]; intros m s i Hs Hn Hm Hl.
  { exists s. rewrite zlen_nil, Z.add_0_r. split_and!; [done|done|done|lia|done..]. }
  rewrite zlen_cons in Hl. pose proof (zlen_nonneg ds). destruct (digit_char d Hd) as (D1 & D2 & D3 & D4).
  assert (10 ^ m * 10 = 10 ^ (m + 1)) as Hp by (by rewrite Z.pow_add_r, Z.pow_1_r by lia).
  assert (10 ^ (m + 1) <= 10 ^ 9) as Hp9 by (apply Z.pow_le_mono_r; lia). change (10 ^ 9) with 1000000000 in Hp9.
  assert (exists s1, round mem s i (48 + d) ((48 + d) :: show_num ds ++ rest) = Ret (Go s1) /\ state s1 = st /\
    n s1 = n s * 10 + d /\ frame s s1 /\ i64 s1 = i64 s /\ i32 s1 = i32 s) as (s1 & E & Hs1 & Hn1 & Hf1 & H64 & H32).
  { destruct (set_masks_frame s) as ((Fa & Fb & Fc) & Hsm & Hnm & H64 & H32).
    destruct Hst as [-> | ->]; unfold round; rewrite Hs; cbn [Z.eqb Pos.eqb]; rewrite D2, D1, ?Hnm.
    all: rewrite ck_Ret by int_lia; cbn [obind]; rewrite ck_Ret by int_lia; cbn [obind].
    all: replace (48 + d - 48) with d by lia; eexists; split; [reflexivity|].
    all: unfold frame; cbn [state n newfield f tbl i64 i32 set_n]; split_and!; congruence. }
  destruct (IH (m + 1) s1 (i + 1) Hs1) as (s' & E' & Hs' & Hn' & Hp' & Hf' & H64' & H32'); [lia|lia|lia|].
  exists s'. change (show_num (d :: ds) ++ rest) with ((48 + d) :: show_num ds ++ rest).
  rewrite (parse_go _ _ _ _ _ E), E', zlen_cons. split_and!; [f_equal; lia|done| |done|by eapply frame_trans|congruence..].
  rewrite Hn', Hn1. done.
Qed.

(** A whole number, its first digit already in [n]. *)
Lemma number_run st d ds s i rest : st = 2 \/ st = 5 -> state s = st -> num_ok (d :: ds) -> n s = d ->
  exists s', parse (show_num ds ++ rest) i s = parse rest (i + zlen ds) s' /\ state s' = st /\
    n s' = num (d :: ds) /\ 0 <= n s' /\ frame s s' /\ i64 s' = i64 s /\ i32 s' = i32 s.
Proof.
  intros Hst Hs (_ & Hl & [Hd Hds]%Forall_cons) Hn. cbn in Hl.
  destruct (digits_run st ds 1 s i rest) as (s' & E & ? & Hn' & ?); [done|done|done|change (10 ^ 1) with 10; lia|lia|unfold zlen; lia|].
  exists s'. split_and!; try tauto. rewrite Hn', Hn. done.
Qed.

Lemma in_snoc (acc : list Z) k v :
  bool_decide (k ∈ acc ++ [v]) = bool_decide (k ∈ acc) || (k =? v).
Proof.
  destruct (Z.eqb_spec k v) as [->|]; rewrite ?orb_true_r, ?orb_false_r.
  - apply bool_decide_eq_true_2, elem_of_app. right. by apply list_elem_of_singleton.
  - apply bool_decide_ext. rewrite elem_of_app, list_elem_of_singleton. tauto.
Qed.

Definition in_list (l : list Z) (k : Z) : bool := bool_decide (k ∈ l).

(** The rest of a list of numbers, up to the blank behind it. *)
Lemma nums_tail more s i sep rest acc : state s = 2 -> 0 <= n s -> Forall num_ok more -> is_blank sep = true ->
  bits64 s (in_list acc) -> bits32 s (in_list acc) ->
  exists s', parse (show_more more ++ sep :: rest) i s = parse rest (i + zlen (show_more more) + 1) s' /\
    state s' = 0 /\ newfield s' = 1 /\ f s' = f s /\ tbl s' = tbl s /\
    bits64 s' (in_list (acc ++ n s :: (num <$> more))) /\ bits32 s' (in_list (acc ++ n s :: (num <$> more))).
Proof.
  intros Hs Hn Hmore Hsep. revert s i acc Hs Hn. induction Hmore as [|ds more Hds Hmore IH]; intros s i acc Hs Hn H64 H32.
  all: destruct (set_masks_frame s) as ((F1 & F2 & F3) & _).
  all: destruct (or_masks_bits s (in_list acc) (in_list (acc ++ [n s]))) as [B64 B32]; [done..|by intros; apply in_snoc|].
  - change (show_more []) with (@nil Z). rewrite zlen_nil, Z.add_0_r.
    eexists. split; [apply parse_go; unfold round; rewrite Hs; cbn [Z.eqb Pos.eqb]; rewrite Hsep; reflexivity|].
    split_and!; [done|done|exact F2|exact F3|exact B64|exact B32].
  - destruct ds as [|d ds]; [by destruct Hds|]. pose proof Hds as (_ & _ & [Hd _]%Forall_cons).
    destruct (digit_char d Hd) as (D1 & D2 & D3 & D4).
    change (show_more ((d :: ds) :: more)) with ((44 :: (48 + d) :: show_num ds) ++ show_more more).
    rewrite <- app_assoc. cbn [app].
    erewrite parse_go by (unfold round; rewrite Hs; cbn; reflexivity).
    erewrite parse_go by (unfold round; cbn [state set_state Z.eqb Pos.eqb]; rewrite D1; reflexivity).
    match goal with |- context [parse _ _ ?x] => destruct (number_run 2 d ds x (i + 1 + 1) (show_more more ++ sep :: rest))
      as (s2 & E2 & Hs2 & Hn2 & Hp2 & (G1 & G2 & G3) & K64 & K32); [by left|done|done|cbn; lia|] end.
    rewrite E2. cbn in G1, G2, G3, K64, K32. 
    destruct (IH s2 (i + 1 + 1 + zlen ds) (acc ++ [n s]) Hs2 Hp2) as (s' & E' & ? & ? & Hf' & Ht' & P64 & P32).
    { unfold bits64. by rewrite K64. }
    { unfold bits32. by rewrite K32. }
    exists s'. rewrite E'. rewrite <- app_assoc, Hn2 in P64, P32. split_and!; [|done|done|congruence|congruence|exact P64|exact P32].
    f_equal. autorewrite with katmai. unfold show_num, zlen. rewrite length_fmap. lia.
Qed.

(** After a field: its masks are there, to be stored as field [k]; [i] is the index of
    the blank behind it, which the 32-bit mask of [*/n] depends on. *)
Record after (x : field) (k : Z) (t : entry) (i : Z) (s : pstate) : Prop := {
  af_state : state s = 0 /\ newfield s = 1 /\ f s + 1 = k /\ tbl s = t;
  af_64 : bits64 s (matches x);
  af_32 : i < 32 \/ (forall ds, x <> Step ds) -> bits32 s (matches x);
  af_late : forall ds, x = Step ds -> 32 <= i -> i32 s = 0;
}.

Lemma star_run k t s i sep rest : ready k t s -> 0 <= k < 5 -> is_blank sep = true ->
  exists s', parse (42 :: sep :: rest) i s = parse rest (i + 2) s' /\ after Star (k + 1) t (i + 1) s'.
Proof.
  intros Hr Hk Hsep. destruct (start_run k t s i 42 (sep :: rest) Hr Hk) as (s1 & -> & Hs1 & Hn1 & Hf1 & Ht1).
  erewrite parse_go by (unfold round; cbn; rewrite Hsep; reflexivity).
  eexists. split; [f_equal; lia|]. split.
  - cbn. split_and!; [done|done|lia|done].
  - intros b Hb. cbn [i64 set_state set_newfield set_i64]. change 0x7fffffffffffffff with (Z.ones 63).
    by rewrite Z.ones_spec_low by lia.
  - intros _ b Hb. cbn [i32 set_state set_newfield set_i64 set_i32]. change 0xffffffff with (Z.ones 32).
    by rewrite Z.ones_spec_low by lia.
  - done.
Qed.

Lemma step_run d ds k t s i sep rest : ready k t s -> 0 <= k < 5 -> is_blank sep = true ->
  num_ok (d :: ds) -> num (d :: ds) <> 0 ->
  exists s', parse (42 :: 47 :: (48 + d) :: show_num ds ++ sep :: rest) i s = parse rest (i + zlen ds + 4) s' /\
    after (Step (d :: ds)) (k + 1) t (i + zlen ds + 3) s'.
Proof.
  intros Hr Hk Hsep Hds Hnz. pose proof Hds as (_ & _ & [Hd _]%Forall_cons). destruct (digit_char d Hd) as (D1 & D2 & D3 & D4).
  destruct (start_run k t s i 42 (47 :: (48 + d) :: show_num ds ++ sep :: rest) Hr Hk) as (s1 & -> & Hs1 & Hn1 & Hf1 & Ht1).
  erewrite parse_go by (unfold round; cbn; reflexivity).
  erewrite parse_go by (unfold round; cbn [state set_state Z.eqb Pos.eqb]; rewrite D1; reflexivity).
  match goal with |- context [parse _ _ ?x] => destruct (number_run 5 d ds x (i + 1 + 1 + 1) (sep :: rest))
    as (s2 & E2 & Hs2 & Hn2 & Hp2 & (G1 & G2 & G3) & K64 & K32); [by right|done|done|cbn; lia|] end.
  rewrite E2. cbn in G1, G2, G3, K64, K32.
  destruct (step_masks_run 63 0 (i + zlen ds + 3) (set_m64 1 (set_m32 1 s2))) as (s3 & E3 & (F1 & F2 & F3) & _ & B64 & B32 & BL);
    [done|done|cbn; lia|done|done|].
  cbn [i64 i32 n set_m64 set_m32 f tbl] in *.
  erewrite parse_go; cycle 1.
  { unfold round. rewrite Hs2. cbn [Z.eqb Pos.eqb]. rewrite Hsep.
    replace (i + 1 + 1 + 1 + zlen ds) with (i + zlen ds + 3) by lia. rewrite E3. reflexivity. }
  eexists. split; [f_equal; lia|]. split.
  - cbn. split_and!; [done|done|lia|congruence].
  - intros b Hb. cbn [i64 set_newfield set_state matches]. rewrite B64, K64, Z.bits_0, Hn2 by done.
    by rewrite (proj2 (Z.leb_le 0 b)) by lia.
  - intros [Hi|Hno]; [|by destruct (Hno (d :: ds))]. intros b Hb. cbn [i32 set_newfield set_state matches].
    rewrite B32, K32, Z.bits_0, Hn2 by done. by rewrite (proj2 (Z.leb_le 0 b)) by lia.
  - intros _ _ Hi. cbn [i32 set_newfield set_state]. by rewrite BL, K32.
Qed.

Lemma nums_run d ds more k t s i sep rest : ready k t s -> 0 <= k < 5 -> is_blank sep = true ->
  num_ok (d :: ds) -> Forall num_ok more ->
  exists s', parse ((48 + d) :: show_num ds ++ show_more more ++ sep :: rest) i s =
      parse rest (i + zlen ds + zlen (show_more more) + 2) s' /\
    after (Nums (d :: ds) more) (k + 1) t (i + zlen ds + zlen (show_more more) + 1) s'.
Proof.
  intros Hr Hk Hsep Hds Hmore. pose proof Hds as (_ & _ & [Hd _]%Forall_cons). destruct (digit_char d Hd) as (D1 & D2 & D3 & D4).
  destruct (start_run k t s i (48 + d) (show_num ds ++ show_more more ++ sep :: rest) Hr Hk) as (s1 & -> & Hs1 & Hn1 & Hf1 & Ht1).
  destruct (start_frame (48 + d) s1) as ((F1 & F2 & F3) & Z64 & Z32).
  destruct (number_run 2 d ds (start_field (48 + d) s1) (i + 1) (show_more more ++ sep :: rest))
    as (s2 & E2 & Hs2 & Hn2 & Hp2 & (G1 & G2 & G3) & K64 & K32); [by left| |done| |].
  { unfold start_field. by rewrite D2, D3, D1. }
  { unfold start_field. rewrite D2, D3, D1. cbn. lia. }
  rewrite E2. destruct (nums_tail more s2 (i + 1 + zlen ds) sep rest []) as (s' & E' & ? & ? & Hf' & Ht' & P64 & P32); [done..| | |].
  { intros b Hb. by rewrite K64, Z64, Z.bits_0. }
  { intros b Hb. by rewrite K32, Z32, Z.bits_0. }
  rewrite E'. cbn [app] in P64, P32. rewrite Hn2 in P64, P32.
  exists s'. split; [f_equal; lia|]. split; [|exact P64|by intros _|done].
  split_and!; [done|done|lia|congruence].
Qed.

(** Any field. *)
Lemma field_run x k t s i sep rest : ready k t s -> 0 <= k < 5 -> is_blank sep = true -> field_ok x ->
  exists s', parse (show_field x ++ sep :: rest) i s = parse rest (i + zlen (show_field x) + 1) s' /\
    after x (k + 1) t (i + zlen (show_field x)) s'.
Proof.
  intros Hr Hk Hsep Hx. destruct x as [|ds|ds more].
  - destruct (star_run k t s i sep rest) as (s' & E & Ha); [done..|]. exists s'. cbn [show_field app].
    rewrite E. split; [f_equal; unfold zlen; cbn; lia|exact Ha].
  - destruct Hx as [Hds Hnz]. destruct ds as [|d ds]; [by destruct Hds|].
    destruct (step_run d ds k t s i sep rest) as (s' & E & Ha); [done..|]. exists s'.
    assert (zlen (show_field (Step (d :: ds))) = zlen ds + 3) as Hz
      by (unfold zlen; cbn; rewrite length_fmap; lia).
    rewrite Hz. split; [etransitivity; [exact E|f_equal; lia]|]. by rewrite Z.add_assoc.
  - destruct Hx as [Hds Hmore]. destruct ds as [|d ds]; [by destruct Hds|].
    destruct (nums_run d ds more k t s i sep rest) as (s' & E & Ha); [done..|]. exists s'.
    assert (zlen (show_field (Nums (d :: ds) more)) = zlen ds + zlen (show_more more) + 1) as Hz
      by (unfold zlen; cbn; rewrite length_app, length_fmap; lia).
    rewrite Hz. split; [|replace (i + (zlen ds + zlen (show_more more) + 1)) with (i + zlen ds + zlen (show_more more) + 1) by lia; exact Ha].
    cbn [show_field]. rewrite <- app_assoc. etransitivity; [exact E|f_equal; lia].
Qed.

(** Further blanks behind a field. *)
Lemma blanks_run bl k t s i rest : Forall (fun c => is_blank c = true) bl -> ready k t s -> 0 <= k < 5 ->
  exists s', parse (bl ++ rest) i s = parse rest (i + zlen bl) s' /\ ready k t s'.
Proof.
  intros Hbl. revert s i. induction Hbl as [|c bl Hc Hbl IH]; intros s i Hr Hk.
  { exists s. rewrite zlen_nil, Z.add_0_r. done. }
  cbn [app]. destruct (start_run k t s i c (bl ++ rest) Hr Hk) as (s1 & -> & Hs1 & Hn1 & Hf1 & Ht1).
  destruct (IH (start_field c s1) (i + 1)) as (s' & E & Hr'); [|done|].
  { unfold start_field. rewrite Hc. split; [done|]. by left. }
  exists s'. rewrite E, zlen_cons. split; [f_equal; lia|done].
Qed.

Lemma after_ready x k t i s : after x k t i s -> ready k (store_field k s) s.
Proof. intros [(Hs & Hn & Hf & Ht) _ _ _]. split; [done|]. by right. Qed.

(** The blanks behind the fifth field and the command. *)
Lemma command_run x t i0 s i bl c rest : after x 5 t i0 s -> Forall (fun c => is_blank c = true) bl -> is_blank c = false ->
  parse (bl ++ c :: rest) i s =
  Ret (1, set_cmd (if mem (c :: rest) then Some (c :: rest) else None) (store_field 5 s)).
Proof.
  intros [(Hs & Hn & Hf & Ht) _ _ _] Hbl Hc.
  set (s6 := set_state 6 (set_tbl (store_field 5 s) (set_f 5 (set_newfield 0 s)))).
  assert (forall c l, round mem s i c l = Ret (Redo s6)) as Hredo.
  { intros c' l. unfold round. rewrite Hs, Hn, Hf. reflexivity. }
  assert (forall bl i, Forall (fun c => is_blank c = true) bl -> parse (bl ++ c :: rest) i s6 =
    Ret (1, set_cmd (if mem (c :: rest) then Some (c :: rest) else None) (store_field 5 s))) as H6.
  { intros bl' i' Hb. revert i'. induction Hb as [|b bl' Hb Hbl' IH]; intros i'; cbn [app parse_loop]; unfold round; cbn [state s6 set_state Z.eqb Pos.eqb].
    - by rewrite Hc.
    - rewrite Hb. cbn [obind]. apply IH. }
  destruct bl as [|b bl]; cbn [app parse_loop]; rewrite Hredo; cbn [obind].
  - unfold round. cbn [state s6 set_state Z.eqb Pos.eqb]. by rewrite Hc.
  - apply Forall_cons in Hbl as [Hb Hbl]. unfold round. cbn [state s6 set_state Z.eqb Pos.eqb]. rewrite Hb. cbn [obind].
    by apply H6.
Qed.
End fields.

(** ** Lines *)
(** A field and the blanks behind it. *)
Definition seg : Type := field * list Z.
Definition seg_ok (x : seg) : Prop :=
  field_ok (fst x) /\ snd x <> [] /\ Forall (fun c => is_blank c = true) (snd x).
Definition show_seg (x : seg) : list Z := show_field (fst x) ++ snd x.

Record job := mk_job { j_min : seg; j_hour : seg; j_day : seg; j_mon : seg; j_wday : seg; j_cmd : list Z }.
Definition show_times (j : job) : list Z :=
  show_seg (j_min j) ++ show_seg (j_hour j) ++ show_seg (j_day j) ++ show_seg (j_mon j) ++ show_seg (j_wday j).
Definition show_job (j : job) : list Z := show_times j ++ j_cmd j.

(** A line the parser understands: five fields and a command. *)
Record job_ok (j : job) : Prop := {
  jo_segs : Forall seg_ok [j_min j; j_hour j; j_day j; j_mon j; j_wday j];
  jo_cmd : match j_cmd j with c :: _ => is_blank c = false | [] => False end;
}.

(** The column of the blank behind each field but the first. *)
Definition col_hour (j : job) : Z := zlen (show_seg (j_min j)) + zlen (show_field (fst (j_hour j))).
Definition col_day (j : job) : Z := zlen (show_seg (j_min j)) + zlen (show_seg (j_hour j)) + zlen (show_field (fst (j_day j))).
Definition col_mon (j : job) : Z :=
  zlen (show_seg (j_min j)) + zlen (show_seg (j_hour j)) + zlen (show_seg (j_day j)) + zlen (show_field (fst (j_mon j))).
Definition col_wday (j : job) : Z :=
  zlen (show_seg (j_min j)) + zlen (show_seg (j_hour j)) + zlen (show_seg (j_day j)) + zlen (show_seg (j_mon j)) + zlen (show_field (fst (j_wday j))).
(** A field [*/n] that ends at or behind column 32 has no mask: the parser tests the column
    in place of the bit number (line 149). *)
Definition no_mask (x : field) (col : Z) : bool := match x with Step _ => 32 <=? col | _ => false end.
Definition late (j : job) : bool :=
  no_mask (fst (j_hour j)) (col_hour j) || no_mask (fst (j_day j)) (col_day j) ||
  no_mask (fst (j_mon j)) (col_mon j) || no_mask (fst (j_wday j)) (col_wday j).

(** The entry of the table that stands for a line. *)
Record entry_for (j : job) (e : entry) : Prop := {
  ef_min : forall k, 0 <= k < 63 -> Z.testbit (min e) k = matches (fst (j_min j)) k;
  ef_hour : forall k, 0 <= k < 32 -> Z.testbit (hour e) k = negb (no_mask (fst (j_hour j)) (col_hour j)) && matches (fst (j_hour j)) k;
  ef_day : forall k, 0 <= k < 32 -> Z.testbit (day e) k = negb (no_mask (fst (j_day j)) (col_day j)) && matches (fst (j_day j)) k;
  ef_mon : forall k, 0 <= k < 32 -> Z.testbit (mon e) k = negb (no_mask (fst (j_mon j)) (col_mon j)) && matches (fst (j_mon j)) k;
  ef_wday : forall k, 0 <= k < 32 -> Z.testbit (wday e) k = negb (no_mask (fst (j_wday j)) (col_wday j)) && matches (fst (j_wday j)) k;
  ef_cmd : cmd e = Some (j_cmd j);
}.

Section lines.
Context (mem : list Z -> bool) (mem_ok : forall c, mem c = true).

(** A field with its blanks, not the last one. *)
Lemma seg_run x k t s i rest : ready k t s -> 0 <= k < 4 -> seg_ok x ->
  exists s1 s', parse_loop mem (show_seg x ++ rest) i s = parse_loop mem rest (i + zlen (show_seg x)) s' /\
    after (fst x) (k + 1) t (i + zlen (show_field (fst x))) s1 /\ ready (k + 1) (store_field (k + 1) s1) s'.
Proof.
  intros Hr Hk (Hx & Hne & Hbl). destruct x as [x bl]. cbn [fst snd] in *. destruct bl as [|b bl]; [done|].
  apply Forall_cons in Hbl as [Hb Hbl].
  destruct (field_run mem x k t s i b (bl ++ rest) Hr) as (s1 & E1 & Ha); [lia|done|done|].
  destruct (blanks_run mem bl (k + 1) (store_field (k + 1) s1) s1 (i + zlen (show_field x) + 1) rest Hbl) as (s' & E2 & Hr');
    [by eapply after_ready|lia|].
  exists s1, s'. split_and!; [|done|done]. unfold show_seg. cbn [fst snd]. rewrite <- app_assoc. cbn [app].
  rewrite E1, E2. f_equal. autorewrite with katmai. lia.
Qed.

(** The masks of a line with well-formed fields, wherever they end. *)
Lemma parse_masks tbl0 j : Forall seg_ok [j_min j; j_hour j; j_day j; j_mon j; j_wday j] ->
  match j_cmd j with c :: _ => is_blank c = false | [] => False end ->
  let z x := zlen (show_seg x) in
  let l x := zlen (show_field (fst x)) in
  exists a1 a2 a3 a4 a5 t1 t2 t3 t4 t5,
    parse_cron_string mem tbl0 (show_job j) =
      Ret (1, mk_entry (i64 a1) (i32 a2) (i32 a3) (i32 a4) (i32 a5) (Some (j_cmd j))) /\
    after (fst (j_min j)) 1 t1 (l (j_min j)) a1 /\
    after (fst (j_hour j)) 2 t2 (z (j_min j) + l (j_hour j)) a2 /\
    after (fst (j_day j)) 3 t3 (z (j_min j) + z (j_hour j) + l (j_day j)) a3 /\
    after (fst (j_mon j)) 4 t4 (z (j_min j) + z (j_hour j) + z (j_day j) + l (j_mon j)) a4 /\
    after (fst (j_wday j)) 5 t5 (z (j_min j) + z (j_hour j) + z (j_day j) + z (j_mon j) + l (j_wday j)) a5.
Proof.
  intros Hsegs Hcmd. destruct j as [x1 x2 x3 x4 [x5 bl] cm]. unfold show_job, show_times in *.
  cbn [j_min j_hour j_day j_mon j_wday j_cmd] in *.
  apply Forall_cons in Hsegs as [S1 Hsegs]. apply Forall_cons in Hsegs as [S2 Hsegs].
  apply Forall_cons in Hsegs as [S3 Hsegs]. apply Forall_cons in Hsegs as [S4 Hsegs].
  apply Forall_cons in Hsegs as [(Hx5 & Hne & Hbl) _]. cbn [fst snd] in *.
  destruct bl as [|b bl]; [done|]. apply Forall_cons in Hbl as [Hb Hbl]. destruct cm as [|c cm]; [done|].
  unfold parse_cron_string. rewrite <- !app_assoc.
  destruct (seg_run x1 0 tbl0 (mk_ps 0 0 0 0 0 0 0 0 tbl0) 0 (show_seg x2 ++ show_seg x3 ++ show_seg x4 ++ show_seg (x5, b :: bl) ++ c :: cm))
    as (a1 & s1 & E1 & A1 & R1); [|lia|done|].
  { split; [done|]. by left. }
  rewrite E1, Z.add_0_l in *.
  destruct (seg_run x2 _ _ _ (zlen (show_seg x1)) (show_seg x3 ++ show_seg x4 ++ show_seg (x5, b :: bl) ++ c :: cm) R1)
    as (a2 & s2 & E2 & A2 & R2); [lia|done|]. rewrite E2.
  destruct (seg_run x3 _ _ _ (zlen (show_seg x1) + zlen (show_seg x2)) (show_seg x4 ++ show_seg (x5, b :: bl) ++ c :: cm) R2)
    as (a3 & s3 & E3 & A3 & R3); [lia|done|]. rewrite E3.
  destruct (seg_run x4 _ _ _ (zlen (show_seg x1) + zlen (show_seg x2) + zlen (show_seg x3)) (show_seg (x5, b :: bl) ++ c :: cm) R3)
    as (a4 & s4 & E4 & A4 & R4); [lia|done|]. rewrite E4.
  destruct (field_run mem x5 _ _ _ (zlen (show_seg x1) + zlen (show_seg x2) + zlen (show_seg x3) + zlen (show_seg x4)) b (bl ++ c :: cm) R4)
    as (a5 & E5 & A5); [lia|done|done|].
  unfold show_seg at 1. cbn [fst snd]. rewrite <- app_assoc. cbn [app]. rewrite E5.
  rewrite (command_run mem x5 _ _ a5 _ bl c cm A5 Hbl Hcmd), mem_ok.
  exists a1, a2, a3, a4, a5. do 5 eexists. split_and!; [|exact A1|exact A2|exact A3|exact A4|exact A5].
  destruct A2 as [(_ & _ & _ & T2) _ _ _], A3 as [(_ & _ & _ & T3) _ _ _], A4 as [(_ & _ & _ & T4) _ _ _],
    A5 as [(_ & _ & _ & T5) _ _ _].
  unfold store_field in *. cbn [Z.eqb Pos.eqb Z.add Pos.add Pos.succ] in T2, T3, T4, T5 |- *.
  by rewrite T5, T4, T3, T2.
Qed.

Lemma after_bits x k t i s : after x k t i s -> forall b, 0 <= b < 32 -> Z.testbit (i32 s) b = negb (no_mask x i) && matches x b.
Proof.
  intros [_ _ H32 Hl] b Hb. destruct x as [|ds|ds more]; cbn [no_mask negb andb]; [by apply H32; [right|]| |by apply H32; [right|]].
  destruct (Z.leb_spec 32 i); cbn [negb andb]; [|apply H32; [by left|done]]. by rewrite (Hl ds eq_refl), Z.bits_0.
Qed.

Lemma parse_job tbl0 j : job_ok j ->
  exists e, parse_cron_string mem tbl0 (show_job j) = Ret (1, e) /\ entry_for j e.
Proof.
  intros [Hsegs Hcmd].
  destruct (parse_masks tbl0 j Hsegs Hcmd) as (a1 & a2 & a3 & a4 & a5 & ? & ? & ? & ? & ? & E & A1 & A2 & A3 & A4 & A5).
  eexists. split; [exact E|]. split; cbn [min hour day mon wday cmd];
    [apply A1|exact (after_bits _ _ _ _ _ A2)|exact (after_bits _ _ _ _ _ A3)|exact (after_bits _ _ _ _ _ A4)|exact (after_bits _ _ _ _ _ A5)|done].
Qed.

(** ** Which commands are started *)
Definition tm_ok (t : tm) : Prop :=
  0 <= tm_min t < 60 /\ 0 <= tm_hour t < 24 /\ 1 <= tm_mday t <= 31 /\ 0 <= tm_mon t < 12 /\ 0 <= tm_wday t < 7.

(** Whether a line is started at [t]: its fields match, and none of them has lost its mask. *)
Definition fires (t : tm) (j : job) : bool :=
  negb (late j) &&
  (matches (fst (j_wday j)) (tm_wday t) && matches (fst (j_mon j)) (tm_mon t + 1) && matches (fst (j_day j)) (tm_mday t) &&
   matches (fst (j_hour j)) (tm_hour t) && matches (fst (j_min j)) (tm_min t)).

Lemma land_bit v m : 0 <= v -> negb (Z.land (Z.shiftl 1 v) m =? 0) = Z.testbit m v.
Proof.
  intros Hv. destruct (Z.testbit m v) eqn:E.
  - apply negb_true_iff, Z.eqb_neq. intros H0. apply (f_equal (fun z => Z.testbit z v)) in H0.
    rewrite Z.land_spec, bit_one, Z.eqb_refl, E, Z.bits_0 in H0 by lia. done.
  - apply negb_false_iff, Z.eqb_eq, Z.bits_inj_0. intros k. rewrite Z.land_spec.
    destruct (Z.le_gt_cases 0 k) as [Hk|Hk]; [|by rewrite !Z.testbit_neg_r by lia].
    rewrite bit_one by lia. destruct (Z.eqb_spec k v) as [->|]; [by rewrite E|done].
Qed.

Lemma u32_shift v : 0 <= v < 32 -> u32 (Z.shiftl 1 v) = Z.shiftl 1 v.
Proof.
  intros Hv. unfold u32. rewrite Z.shiftl_1_l. apply Z.mod_small. split; [lia|]. apply Z.pow_lt_mono_r; lia.
Qed.

Definition check_entry (t : tm) (c : option (list Z)) : entry :=
  mk_entry (Z.shiftl 1 (tm_min t)) (u32 (Z.shiftl 1 (tm_hour t))) (u32 (Z.shiftl 1 (tm_mday t)))
    (u32 (Z.shiftl 1 (tm_mon t + 1))) (u32 (Z.shiftl 1 (tm_wday t))) c.

Lemma due_fires t c j e : tm_ok t -> entry_for j e -> due (check_entry t c) e = fires t j.
Proof.
  intros (Hm & Hh & Hd & Hmo & Hw) [E1 E2 E3 E4 E5 _]. unfold due, fires, check_entry. cbn [min hour day mon wday].
  rewrite !u32_shift, !land_bit by lia. rewrite E1, E2, E3, E4, E5 by lia. unfold late.
  destruct (no_mask (fst (j_hour j)) _), (no_mask (fst (j_day j)) _), (no_mask (fst (j_mon j)) _), (no_mask (fst (j_wday j)) _);
    cbn [negb andb orb]; by rewrite ?andb_false_r.
Qed.

Lemma find_due_run t c js es : tm_ok t -> Forall2 entry_for js es ->
  match filter (fun j => fires t j = true) js with
  | [] => fst (find_due (check_entry t c) es) = None
  | j :: rest => exists e js' es', find_due (check_entry t c) es = (Some e, es') /\ cmd e = Some (j_cmd j) /\
      Forall2 entry_for js' es' /\ filter (fun j => fires t j = true) js' = rest /\ (length js' < length js)%nat
  end.
Proof.
  intros Ht H. induction H as [|j e js es He Hes IH]; [done|]. cbn [find_due]. rewrite (due_fires t c j e Ht He).
  destruct (fires t j) eqn:E.
  - rewrite filter_cons_True by done. exists e, js, es. split_and!; [done|by apply He|done|done|cbn; lia].
  - rewrite filter_cons_False by (by rewrite E). destruct (filter _ js) as [|j0 rest]; [done|].
    destruct IH as (e0 & js' & es' & ? & ? & ? & ? & ?). exists e0, js', es'. split_and!; [done..|cbn; lia].
Qed.

Lemma run_rest_run t fuel js es self : tm_ok t -> Forall2 entry_for js es -> (length js < fuel)%nat ->
  findptr self = es -> (exists c, cktbl self = check_entry t c) ->
  fst (run_rest fuel (snd (cronjob_check_next self)) (fst (cronjob_check_next self))) =
  j_cmd <$> filter (fun j => fires t j = true) js.
Proof.
  intros Ht. revert js es self. induction fuel as [|fuel IH]; intros js es self Hes Hf Hp [c Hc]; [lia|].
  pose proof (find_due_run t c js es Ht Hes) as Hfd. unfold cronjob_check_next. rewrite Hp, Hc.
  destruct (filter _ js) as [|j rest].
  - rewrite Hfd. done.
  - destruct Hfd as (e & js' & es' & -> & He & Hes' & <- & Hl). cbn [fst snd]. rewrite He. cbn [run_rest fst].
    rewrite fmap_cons. f_equal. eapply (IH js' es'); [done|lia|done|by exists c].
Qed.

(** Adding the lines one after the other. *)
Fixpoint add_lines (tbl0 : entry) (self : cronjob) (ls : list (list Z)) : outcome cronjob :=
  match ls with
  | [] => Ret self
  | l :: ls => let* r := cronjob_add mem true tbl0 self l in add_lines tbl0 (snd r) ls
  end.

Lemma add_lines_run tbl0 js done_ self : Forall job_ok js -> Forall2 entry_for done_ (jobs self) ->
  exists self', add_lines tbl0 self (show_job <$> js) = Ret self' /\ Forall2 entry_for (reverse js ++ done_) (jobs self').
Proof.
  intros Hjs. revert done_ self. induction Hjs as [|j js Hj Hjs IH]; intros done_ self H; [by exists self|].
  rewrite fmap_cons. cbn [add_lines]. unfold cronjob_add. destruct (parse_job tbl0 j Hj) as (e & -> & He). cbn [obind fst snd negb Z.eqb].
  destruct (IH (j :: done_) (mk_cj (e :: jobs self) (cktbl self) (findptr self))) as (self' & E & H'); [by constructor|].
  exists self'. split; [done|]. by rewrite reverse_cons, <- app_assoc.
Qed.

Lemma add_lines_starts tbl0 m js t : Forall job_ok js -> tm_ok t ->
  exists self, add_lines tbl0 (new_cronjob m) (show_job <$> js) = Ret self /\
    fst (run_slot self t) = j_cmd <$> filter (fun j => fires t j = true) (reverse js).
Proof.
  intros Hjs Ht. destruct (add_lines_run tbl0 js [] (new_cronjob m) Hjs) as (self & E & H); [constructor|].
  rewrite app_nil_r in H. exists self. split; [done|]. unfold run_slot, cronjob_check_first.
  eapply (run_rest_run t _ (reverse js) (jobs self)); [done|done| |done|by eexists].
  apply Forall2_length in H. lia.
Qed.

(** ** Loading *)
Definition cron_item (chunk : list Z) : list Z := rstrip is_blank (rstrip is_eol (cstring chunk)).
Definition cron_spec_line (tbl0 : entry) (self : cronjob) (chunk : list Z) : outcome cronjob :=
  match cron_item chunk with
  | [] => Ret self
  | c :: _ =>
      if (c =? 35) || (c =? 59) then Ret self
      else let* r := cronjob_add mem true tbl0 self (cron_item chunk) in Ret (snd r)
  end.

Lemma cron_load_line_run tbl0 self chunk buf : cstr buf (cstring chunk) ->
  exists buf', zlen buf' = zlen buf /\
    cron_load_line mem tbl0 self buf = (let* s := cron_spec_line tbl0 self chunk in Ret (s, buf')).
Proof.
  intros H0. unfold cron_load_line, cron_spec_line.
  destruct (chomp_edits _ _ H0) as (b1 & -> & H1 & L1). cbn [obind snd].
  destruct (rtrim_edits _ _ H1) as (b2 & -> & H2 & L2). cbn [obind fst snd]. fold (cron_item chunk) in *.
  exists b2. split; [congruence|]. rewrite (proj1 (strlen_cstr _ _ H2)), (cstring_cstr _ _ H2). cbn [obind].
  destruct (cron_item chunk) as [|c s]; [done|]. rewrite zlen_cons. pose proof (zlen_nonneg s).
  rewrite (proj2 (Z.eqb_neq _ 0)) by lia. destruct H2 as (_ & _ & t & ->).
  change (aget ((c :: s) ++ NUL :: t) 0) with (Ret c). cbn [obind].
  destruct ((c =? 35) || (c =? 59)); [done|]. by destruct (cronjob_add mem true tbl0 self (c :: s)).
Qed.

(** Printable characters and tabs. *)
Definition plain (c : Z) : Prop := c = 9 \/ 32 <= c.

(** A line of a crontab: its text fits the buffer, the command is printable and does
    not end in a blank. *)
Record line_of (j : job) : Prop := {
  lo_job : job_ok j;
  lo_plain : Forall plain (j_cmd j);
  lo_last : match last (j_cmd j) with Some c => is_blank c = false | None => False end;
  lo_len : zlen (show_job j) < 4094;
}.

Lemma show_num_plain ds : Forall (fun d => 0 <= d <= 9) ds -> Forall plain (show_num ds).
Proof. intros H. apply Forall_fmap. eapply Forall_impl; [exact H|]. intros d Hd. right. change (32 <= 48 + d). destruct Hd. lia. Qed.

Lemma show_seg_plain x : seg_ok x -> Forall plain (show_seg x).
Proof.
  destruct x as [x bl]. intros (Hx & _ & Hbl). apply Forall_app. cbn [fst snd] in *. split.
  - destruct x as [|ds|ds more]; cbn.
    + apply Forall_singleton. right. lia.
    + constructor; [right; lia|]. constructor; [right; lia|]. apply show_num_plain, Hx.
    + destruct Hx as [Hds Hmore]. apply Forall_app. split; [apply show_num_plain, Hds|]. unfold show_more.
      induction Hmore as [|d more Hd Hmore IH]; [constructor|]. cbn. constructor; [right; lia|].
      apply Forall_app. split; [apply show_num_plain, Hd|exact IH].
  - eapply Forall_impl; [exact Hbl|]. intros c Hc. unfold is_blank, SPC, TAB, plain in *. lia.
Qed.

Lemma show_job_plain j : line_of j -> Forall plain (show_job j).
Proof.
  intros [[Hs _] Hp _ _]. unfold show_job, show_times. rewrite !Forall_app.
  repeat match goal with H : Forall seg_ok (_ :: _) |- _ => apply Forall_cons in H as [?%show_seg_plain H] end. done.
Qed.

(** The first character is a star or a digit. *)
Lemma show_job_head j : job_ok j -> exists c l, show_job j = c :: l /\ c <> 35 /\ c <> 59.
Proof.
  intros [[(Hx & _) _]%Forall_cons _]. unfold show_job, show_times, show_seg.
  destruct (j_min j) as [x bl]. cbn [fst snd] in *. destruct x as [|ds|ds more]; cbn.
  - by do 2 eexists.
  - by do 2 eexists.
  - destruct Hx as [(Hne & _ & Hd) _]. destruct ds as [|d ds]; [done|]. apply Forall_cons in Hd as [Hd _].
    do 2 eexists. split; [reflexivity|]. lia.
Qed.

Lemma cron_item_line j : line_of j -> cron_item (show_job j ++ [LF]) = show_job j.
Proof.
  intros H. pose proof (show_job_plain j H) as Hp. destruct H as [_ _ Hl _]. unfold cron_item.
  rewrite cstring_id; cycle 1.
  { apply Forall_app. split; [|by repeat constructor]. eapply Forall_impl; [exact Hp|]. unfold plain, NUL. intros c Hc. lia. }
  destruct (last (j_cmd j)) as [c|] eqn:E; [|done].
  assert (last (show_job j) = Some c) as Hlast by (unfold show_job; by rewrite last_app, E).
  assert (plain c) as Hc.
  { rewrite Forall_forall in Hp. apply Hp. apply last_Some in Hlast as [l' ->]. apply elem_of_app. right. by left. }
  rewrite rstrip_snoc. change (is_eol LF) with true. cbn match. rewrite (rstrip_id is_eol _ c), (rstrip_id is_blank _ c); try done.
  unfold is_eol, CR, LF. unfold plain in Hc. lia.
Qed.

Lemma cron_lines_add tbl0 self js : Forall line_of js ->
  fold_lines (cron_spec_line tbl0) self ((fun w => w ++ [LF]) <$> (show_job <$> js)) =
  add_lines tbl0 self (show_job <$> js).
Proof.
  intros H. revert self. induction H as [|j js Hj Hjs IH]; intros self; [done|]. rewrite !fmap_cons.
  cbn [fold_lines add_lines].
  assert (cron_spec_line tbl0 self (show_job j ++ [LF]) =
          (let* r := cronjob_add mem true tbl0 self (show_job j) in Ret (snd r))) as ->.
  { unfold cron_spec_line. rewrite cron_item_line by done.
    destruct (show_job_head j (lo_job j Hj)) as (c & l & E & H1 & H2). rewrite E.
    by rewrite (proj2 (Z.eqb_neq c 35)), (proj2 (Z.eqb_neq c 59)) by done. }
  destruct (cronjob_add mem true tbl0 self (show_job j)) as [r| |]; [|done|done]. apply IH.
Qed.

Lemma cronbuf_val : Z.of_nat CRONBUF = 4096.
Proof. reflexivity. Qed.
#[local] Opaque CRONBUF.

(** C15: from a crontab file to the commands.  A file has one job per line: five fields,
    each a star, a step [*/n] or a list of numbers, and a command.  After it has been
    loaded, the slot at time [t] starts exactly the commands of the lines whose five fields
    match [t], the newest first; except that a line is never started when its hour, day,
    month or weekday is a step [*/n] that ends at or behind column 32 of the line. *)
Theorem cron_starts tbl0 m buf0 js t : zlen buf0 = Z.of_nat CRONBUF -> Forall line_of js -> tm_ok t ->
  exists self, cron_load_crontable mem tbl0 (new_cronjob m) buf0 (Some (file_lines (show_job <$> js))) = Ret (1, self) /\
    fst (run_slot self t) = j_cmd <$> filter (fun j => negb (late j) &&
      (matches (fst (j_wday j)) (tm_wday t) && matches (fst (j_mon j)) (tm_mon t + 1) && matches (fst (j_day j)) (tm_mday t) &&
       matches (fst (j_hour j)) (tm_hour t) && matches (fst (j_min j)) (tm_min t)) = true) (reverse js).
Proof.
  intros Hb Hjs Ht. destruct (add_lines_starts tbl0 m js t) as (self & E & Hrun); [|done|].
  { eapply Forall_impl; [exact Hjs|]. by intros j []. }
  exists self. split; [|exact Hrun]. pose proof cronbuf_val. unfold cron_load_crontable.
  rewrite (line_loop_run _ _ (cron_spec_line tbl0) (Z.of_nat CRONBUF));
    [|lia|unfold INT_MAX; lia|exact (cron_load_line_run tbl0)|done|lia].
  rewrite chunks_lines; [|apply Forall_fmap; eapply Forall_impl; [exact Hjs|]|done].
  - by rewrite cron_lines_add, E.
  - intros j Hj. split; [|pose proof (lo_len j Hj) as Hl; unfold zlen in Hl; lia].
    intros Hin. pose proof (show_job_plain j Hj) as Hp. rewrite Forall_forall in Hp.
    specialize (Hp _ Hin). unfold plain, LF in Hp. lia.
Qed.

(** A line whose hour field is [*/n] and ends at or behind column 32 is accepted
    and never started: the parser tests the column in place of the bit number, so the
    mask of the field stays empty. *)
Theorem cron_late_step_never tbl0 m j ds t : Forall seg_ok [j_min j; j_hour j; j_day j; j_mon j; j_wday j] ->
  match j_cmd j with c :: _ => is_blank c = false | [] => False end ->
  fst (j_hour j) = Step ds -> 32 <= zlen (show_seg (j_min j)) + zlen (show_field (fst (j_hour j))) ->
  exists self, add_lines tbl0 (new_cronjob m) [show_job j] = Ret self /\ length (jobs self) = 1%nat /\
    fst (run_slot self t) = [].
Proof.
  intros Hsegs Hcmd Hx Hlate.
  destruct (parse_masks tbl0 j Hsegs Hcmd) as (a1 & a2 & a3 & a4 & a5 & ? & ? & ? & ? & ? & E & _ & A2 & _).
  cbn [add_lines]. unfold cronjob_add. rewrite E. cbn [obind fst snd negb Z.eqb]. eexists. split; [done|]. split; [done|].
  unfold run_slot, cronjob_check_first, cronjob_check_next. cbn [jobs findptr cktbl find_due new_cronjob].
  assert (forall ck, due ck (mk_entry (i64 a1) (i32 a2) (i32 a3) (i32 a4) (i32 a5) (Some (j_cmd j))) = false) as ->; [|done].
  intros ck. unfold due. cbn [hour]. rewrite (af_late _ _ _ _ _ A2 ds Hx Hlate), Z.land_0_r. cbn [Z.eqb negb].
  by rewrite andb_false_r, andb_false_l.
Qed.
End lines.

(** A command in brackets goes to the callback without them; one whose first or last
    character is no bracket goes to the shell. *)
Lemma default_callback_brackets g body : nonul body -> (2 <= length body)%nat ->
  default_callback (Some g) (91 :: body ++ [93]) = Ret (Call g body).
Proof.
  intros Hn Hl. unfold default_callback.
  assert (zlen (91 :: body ++ [93]) = zlen body + 2) as -> by (rewrite zlen_cons, zlen_app; change (zlen [93]) with 1; lia).
  assert (2 <= zlen body) by (unfold zlen; lia). rewrite (proj2 (Z.ltb_lt 3 _)) by lia. cbn [obind].
  change (aget (91 :: body ++ [93]) 0) with (Ret 91). cbn [obind]. rewrite Z.eqb_refl.
  replace (zlen body + 2 - 1) with (zlen (91 :: body)) by (rewrite zlen_cons; lia).
  change (91 :: body ++ [93]) with ((91 :: body) ++ 93 :: []). rewrite aget_mid, aset_mid. cbn [obind Z.eqb Pos.eqb].
  do 2 f_equal. cbn [app drop]. apply cstring_cstr_app. done.
Qed.

Lemma default_callback_shell func c cmd d : c <> 91 \/ d <> 93 ->
  default_callback func (c :: cmd ++ [d]) = Ret (Shell (c :: cmd ++ [d])).
Proof.
  intros H. unfold default_callback. destruct (3 <? _); [|done]. change (aget (c :: cmd ++ [d]) 0) with (Ret c). cbn [obind].
  destruct (Z.eqb_spec c 91) as [->|]; [|done].
  assert (zlen (91 :: cmd ++ [d]) - 1 = zlen (91 :: cmd)) as -> by (rewrite !zlen_cons, zlen_app; change (zlen [d]) with 1; lia).
  change (91 :: cmd ++ [d]) with ((91 :: cmd) ++ d :: []). rewrite aget_mid. cbn [obind].
  destruct (Z.eqb_spec d 93); [naive_solver|done].
Qed.

(** The thread sleeps until the next slot: if the slot length divides 60, it wakes
    up at second 0 of a minute that is a multiple of it, within one slot. *)
Theorem cron_sleep_aligned slot self t t' cmds stime self' :
  0 < slot -> (slot | 60) -> 0 <= tm_min t' < 60 -> 0 <= tm_sec t' < 60 ->
  cron_turn slot self t t' = Ret (cmds, stime, self') ->
  0 < stime <= slot * 60 /\ (tm_min t' * 60 + tm_sec t' + stime) mod (slot * 60) = 0.
Proof.
  intros Hs Hdiv Hm Hsec. unfold cron_turn. destruct (crem (tm_min t) slot) as [r| |]; [|done|done]. cbn [obind].
  rewrite crem_Ret by lia. cbn [obind]. pose proof (Z.mod_pos_bound (59 - tm_min t') slot Hs) as Hb.
  pose proof (Z.div_mod (59 - tm_min t') slot ltac:(lia)) as Hdm. pose proof (Z.divide_pos_le slot 60 ltac:(lia) Hdiv).
  set (q := (59 - tm_min t') mod slot) in *. rewrite ck_Ret by int_lia. intros [= _ <- _]. split; [lia|].
  destruct Hdiv as [c Hc]. apply Z.mod_divide; [lia|]. exists (c - (59 - tm_min t') / slot). nia.
Qed.


(** ["*/5 8,20 * * * go"], ["0,5,10,15,20,25,30,35,40,45,50,55 */2 * * * la"] (which also
    matches and is not started) and ["0 0 1 1 * ny"]. *)
Definition demo_jobs : list job :=
  [mk_job (Step [5], [32]) (Nums [8] [[2; 0]], [32]) (Star, [32]) (Star, [32]) (Star, [9; 32]) [103; 111];
   mk_job (Nums [0] [[5]; [1; 0]; [1; 5]; [2; 0]; [2; 5]; [3; 0]; [3; 5]; [4; 0]; [4; 5]; [5; 0]; [5; 5]], [32])
     (Step [2], [32]) (Star, [32]) (Star, [32]) (Star, [32]) [108; 97];
   mk_job (Nums [0] [], [32]) (Nums [0] [], [32]) (Nums [1] [], [32]) (Nums [1] [], [32]) (Star, [32]) [110; 121]].
Definition entry0 : entry := mk_entry 0 0 0 0 0 None.
Definition cron0 : cronjob := mk_cj [] entry0 [].

Lemma demo_jobs_ok : Forall line_of demo_jobs.
Proof.
  assert (Forall job_ok demo_jobs) as Hj by (repeat constructor; cbn; try done; try lia).
  apply Forall_cons in Hj as [H1 [H2 [H3 _]%Forall_cons]%Forall_cons].
  apply Forall_cons; split; [|apply Forall_cons; split; [|apply Forall_cons; split; [|apply Forall_nil; exact I]]].
  all: split; [assumption| |reflexivity|reflexivity].
  all: cbn; apply Forall_cons; split; [right; lia|]; apply Forall_cons; split; [right; lia|apply Forall_nil; exact I].
Qed.

Lemma cron_starts_witness :
  exists self, cron_load_crontable (fun _ => true) entry0 (new_cronjob cron0) (replicate 4096 0)
      (Some (file_lines (show_job <$> demo_jobs))) = Ret (1, self) /\
    fst (run_slot self (mk_tm 0 35 20 14 6 1)) = [[103; 111]].
Proof.
  destruct (cron_starts (fun _ => true) (fun _ => eq_refl) entry0 cron0 (replicate 4096 0) demo_jobs
              (mk_tm 0 35 20 14 6 1)) as (self & E & H).
  - vm_compute. reflexivity.
  - exact demo_jobs_ok.
  - unfold tm_ok. cbn. lia.
  - exists self. split; [exact E|]. etransitivity; [exact H|]. vm_compute. reflexivity.
Defined.

(** A range is not understood: the dash is skipped and ["1-5"] is read as 15. *)
Example cron_range_misread :
  (let* r := parse_cron_string (fun _ => true) entry0 [49; 45; 53; 32; 42; 32; 42; 32; 42; 32; 42; 32; 120] in
   Ret (fst r, min (snd r))) = Ret (1, Z.shiftl 1 15).
Proof. vm_compute. reflexivity. Qed.

(** ["*/0"] divides by zero. *)
Example cron_step_zero :
  parse_cron_string (fun _ => true) entry0 [42; 47; 48; 32; 42] = Fault DivByZero.
Proof. vm_compute. reflexivity. Qed.

Lemma cron_sleep_aligned_witness :
  cron_turn 5 cron0 (mk_tm 3 11 0 1 0 0) (mk_tm 4 11 0 1 0 0) = Ret ([], 236, cron0) /\
  (11 * 60 + 4 + 236) mod (5 * 60) = 0.
Proof.
  split; [reflexivity|].
  refine (proj2 (cron_sleep_aligned 5 cron0 (mk_tm 3 11 0 1 0 0) (mk_tm 4 11 0 1 0 0) [] 236 cron0 _ _ _ _ _)).
  - lia.
  - exists 12. reflexivity.
  - cbn. lia.
  - cbn. lia.
  - reflexivity.
Defined.

(** ["0,5,10,15,20,25,30,35,40,45,50,55 */2 * * * go"]. *)
Definition late_job : job :=
  mk_job (Nums [0] [[5]; [1; 0]; [1; 5]; [2; 0]; [2; 5]; [3; 0]; [3; 5]; [4; 0]; [4; 5]; [5; 0]; [5; 5]], [32])
    (Step [2], [32]) (Star, [32]) (Star, [32]) (Star, [32]) [103; 111].

Lemma late_job_ok : Forall seg_ok [j_min late_job; j_hour late_job; j_day late_job; j_mon late_job; j_wday late_job].
Proof. repeat constructor; cbn; try done; try lia. Qed.

Lemma cron_late_step_never_witness :
  exists self, add_lines (fun _ => true) entry0 (new_cronjob cron0) [show_job late_job] = Ret self /\
    length (jobs self) = 1%nat /\ fst (run_slot self (mk_tm 0 0 2 14 6 1)) = [].
Proof.
  apply (cron_late_step_never (fun _ => true) (fun _ => eq_refl) entry0 cron0 late_job [2]).
  - exact late_job_ok.
  - reflexivity.
  - reflexivity.
  - vm_compute. discriminate.
Defined.

End CR.
