(* ===== verification/Hdllio.v ===== *)
(** * Hdllio.v: the partition tables of a disk, hdllio/hdllio.c

    [hdll_open] reads the master boot record of a device, records the four primary
    partitions, and follows the chain of extended boot records for the logical ones.
    The sector buffers are a heap: buffer 0 is [MBRbuffer], each [malloc] of
    [read_pte] adds one.  A [struct partition *] is a buffer and a byte offset in it,
    so the four primary entries share one buffer as they do in the code.

    What the device answers is a parameter ([env]): its bytes, the sectors that cannot
    be read, and the results of the [ioctl] and [fstat] calls.  The printing functions
    are left out.

    The main theorem holds for every content of the disk: the table that is read is
    the one of a definition on sectors, and a chain that is too long or closed is cut
    after twelve logical partitions. *)

From stdpp Require Import strings.
From S2P Require Import Prelude.

Module HD.

Definition MAX_SECTOR_SIZE : Z := 2048.
Definition MAXIMUM_PARTS : Z := 16.
Definition DEFAULT_SECTOR_SIZE : Z := 512.

(** [struct partition *]: a buffer of the heap and a byte offset in it. *)
Definition ptr : Type := Z * Z.

(** [struct pte]; [changed] is never used. *)
Record pte := mk_pte {
  part_table : option ptr;
  ext_pointer : option ptr;
  offset : Z;
  sectorbuffer : option Z;
  start_sector : Z;
  num_of_sectors : Z;
}.
Definition set_part_table (v : option ptr) (s : pte) : pte :=
  mk_pte v (ext_pointer s) (offset s) (sectorbuffer s) (start_sector s) (num_of_sectors s).
Definition set_ext_pointer (v : option ptr) (s : pte) : pte :=
  mk_pte (part_table s) v (offset s) (sectorbuffer s) (start_sector s) (num_of_sectors s).
Definition set_offset (v : Z) (s : pte) : pte :=
  mk_pte (part_table s) (ext_pointer s) v (sectorbuffer s) (start_sector s) (num_of_sectors s).
Definition set_sectorbuffer (v : option Z) (s : pte) : pte :=
  mk_pte (part_table s) (ext_pointer s) (offset s) v (start_sector s) (num_of_sectors s).
Definition set_start_sector (v : Z) (s : pte) : pte :=
  mk_pte (part_table s) (ext_pointer s) (offset s) (sectorbuffer s) v (num_of_sectors s).
Definition set_num_of_sectors (v : Z) (s : pte) : pte :=
  mk_pte (part_table s) (ext_pointer s) (offset s) (sectorbuffer s) (start_sector s) v.

(** [struct hd_lowlevel_io_pd_t]; [bufs] is the heap, with [MBRbuffer] first. *)
Record hd := mk_hd {
  fd : Z;
  heads : Z;
  sectors : Z;
  cylinders : Z;
  sector_size : Z;
  sector_offset : Z;
  user_set_sector_size : Z;
  user_cylinders : Z;
  user_heads : Z;
  user_sectors : Z;
  dos_compatible_flag : Z;
  partitions : Z;
  ext_index : Z;
  extended_offset : Z;
  scsi_disk : Z;
  floppy : Z;
  bufs : list (list Z);
  ptes : list pte;
  disk_device : list Z;
  display_in_cyl_units : Z;
  units_per_sector : Z;
}.
Definition set_fd (v : Z) (s : hd) : hd :=
  mk_hd v (heads s) (sectors s) (cylinders s) (sector_size s) (sector_offset s) (user_set_sector_size s) (user_cylinders s) (user_heads s) (user_sectors s) (dos_compatible_flag s) (partitions s) (ext_index s) (extended_offset s) (scsi_disk s) (floppy s) (bufs s) (ptes s) (disk_device s) (display_in_cyl_units s) (units_per_sector s).
Definition set_heads (v : Z) (s : hd) : hd :=
  mk_hd (fd s) v (sectors s) (cylinders s) (sector_size s) (sector_offset s) (user_set_sector_size s) (user_cylinders s) (user_heads s) (user_sectors s) (dos_compatible_flag s) (partitions s) (ext_index s) (extended_offset s) (scsi_disk s) (floppy s) (bufs s) (ptes s) (disk_device s) (display_in_cyl_units s) (units_per_sector s).
Definition set_sectors (v : Z) (s : hd) : hd :=
  mk_hd (fd s) (heads s) v (cylinders s) (sector_size s) (sector_offset s) (user_set_sector_size s) (user_cylinders s) (user_heads s) (user_sectors s) (dos_compatible_flag s) (partitions s) (ext_index s) (extended_offset s) (scsi_disk s) (floppy s) (bufs s) (ptes s) (disk_device s) (display_in_cyl_units s) (units_per_sector s).
Definition set_cylinders (v : Z) (s : hd) : hd :=
  mk_hd (fd s) (heads s) (sectors s) v (sector_size s) (sector_offset s) (user_set_sector_size s) (user_cylinders s) (user_heads s) (user_sectors s) (dos_compatible_flag s) (partitions s) (ext_index s) (extended_offset s) (scsi_disk s) (floppy s) (bufs s) (ptes s) (disk_device s) (display_in_cyl_units s) (units_per_sector s).
Definition set_sector_size (v : Z) (s : hd) : hd :=
  mk_hd (fd s) (heads s) (sectors s) (cylinders s) v (sector_offset s) (user_set_sector_size s) (user_cylinders s) (user_heads s) (user_sectors s) (dos_compatible_flag s) (partitions s) (ext_index s) (extended_offset s) (scsi_disk s) (floppy s) (bufs s) (ptes s) (disk_device s) (display_in_cyl_units s) (units_per_sector s).
Definition set_sector_offset (v : Z) (s : hd) : hd :=
  mk_hd (fd s) (heads s) (sectors s) (cylinders s) (sector_size s) v (user_set_sector_size s) (user_cylinders s) (user_heads s) (user_sectors s) (dos_compatible_flag s) (partitions s) (ext_index s) (extended_offset s) (scsi_disk s) (floppy s) (bufs s) (ptes s) (disk_device s) (display_in_cyl_units s) (units_per_sector s).
Definition set_user_set_sector_size (v : Z) (s : hd) : hd :=
  mk_hd (fd s) (heads s) (sectors s) (cylinders s) (sector_size s) (sector_offset s) v (user_cylinders s) (user_heads s) (user_sectors s) (dos_compatible_flag s) (partitions s) (ext_index s) (extended_offset s) (scsi_disk s) (floppy s) (bufs s) (ptes s) (disk_device s) (display_in_cyl_units s) (units_per_sector s).
Definition set_user_cylinders (v : Z) (s : hd) : hd :=
  mk_hd (fd s) (heads s) (sectors s) (cylinders s) (sector_size s) (sector_offset s) (user_set_sector_size s) v (user_heads s) (user_sectors s) (dos_compatible_flag s) (partitions s) (ext_index s) (extended_offset s) (scsi_disk s) (floppy s) (bufs s) (ptes s) (disk_device s) (display_in_cyl_units s) (units_per_sector s).
Definition set_user_heads (v : Z) (s : hd) : hd :=
  mk_hd (fd s) (heads s) (sectors s) (cylinders s) (sector_size s) (sector_offset s) (user_set_sector_size s) (user_cylinders s) v (user_sectors s) (dos_compatible_flag s) (partitions s) (ext_index s) (extended_offset s) (scsi_disk s) (floppy s) (bufs s) (ptes s) (disk_device s) (display_in_cyl_units s) (units_per_sector s).
Definition set_user_sectors (v : Z) (s : hd) : hd :=
  mk_hd (fd s) (heads s) (sectors s) (cylinders s) (sector_size s) (sector_offset s) (user_set_sector_size s) (user_cylinders s) (user_heads s) v (dos_compatible_flag s) (partitions s) (ext_index s) (extended_offset s) (scsi_disk s) (floppy s) (bufs s) (ptes s) (disk_device s) (display_in_cyl_units s) (units_per_sector s).
Definition set_dos_compatible_flag (v : Z) (s : hd) : hd :=
  mk_hd (fd s) (heads s) (sectors s) (cylinders s) (sector_size s) (sector_offset s) (user_set_sector_size s) (user_cylinders s) (user_heads s) (user_sectors s) v (partitions s) (ext_index s) (extended_offset s) (scsi_disk s) (floppy s) (bufs s) (ptes s) (disk_device s) (display_in_cyl_units s) (units_per_sector s).
Definition set_partitions (v : Z) (s : hd) : hd :=
  mk_hd (fd s) (heads s) (sectors s) (cylinders s) (sector_size s) (sector_offset s) (user_set_sector_size s) (user_cylinders s) (user_heads s) (user_sectors s) (dos_compatible_flag s) v (ext_index s) (extended_offset s) (scsi_disk s) (floppy s) (bufs s) (ptes s) (disk_device s) (display_in_cyl_units s) (units_per_sector s).
Definition set_ext_index (v : Z) (s : hd) : hd :=
  mk_hd (fd s) (heads s) (sectors s) (cylinders s) (sector_size s) (sector_offset s) (user_set_sector_size s) (user_cylinders s) (user_heads s) (user_sectors s) (dos_compatible_flag s) (partitions s) v (extended_offset s) (scsi_disk s) (floppy s) (bufs s) (ptes s) (disk_device s) (display_in_cyl_units s) (units_per_sector s).
Definition set_extended_offset (v : Z) (s : hd) : hd :=
  mk_hd (fd s) (heads s) (sectors s) (cylinders s) (sector_size s) (sector_offset s) (user_set_sector_size s) (user_cylinders s) (user_heads s) (user_sectors s) (dos_compatible_flag s) (partitions s) (ext_index s) v (scsi_disk s) (floppy s) (bufs s) (ptes s) (disk_device s) (display_in_cyl_units s) (units_per_sector s).
Definition set_scsi_disk (v : Z) (s : hd) : hd :=
  mk_hd (fd s) (heads s) (sectors s) (cylinders s) (sector_size s) (sector_offset s) (user_set_sector_size s) (user_cylinders s) (user_heads s) (user_sectors s) (dos_compatible_flag s) (partitions s) (ext_index s) (extended_offset s) v (floppy s) (bufs s) (ptes s) (disk_device s) (display_in_cyl_units s) (units_per_sector s).
Definition set_floppy (v : Z) (s : hd) : hd :=
  mk_hd (fd s) (heads s) (sectors s) (cylinders s) (sector_size s) (sector_offset s) (user_set_sector_size s) (user_cylinders s) (user_heads s) (user_sectors s) (dos_compatible_flag s) (partitions s) (ext_index s) (extended_offset s) (scsi_disk s) v (bufs s) (ptes s) (disk_device s) (display_in_cyl_units s) (units_per_sector s).
Definition set_bufs (v : list (list Z)) (s : hd) : hd :=
  mk_hd (fd s) (heads s) (sectors s) (cylinders s) (sector_size s) (sector_offset s) (user_set_sector_size s) (user_cylinders s) (user_heads s) (user_sectors s) (dos_compatible_flag s) (partitions s) (ext_index s) (extended_offset s) (scsi_disk s) (floppy s) v (ptes s) (disk_device s) (display_in_cyl_units s) (units_per_sector s).
Definition set_ptes (v : list pte) (s : hd) : hd :=
  mk_hd (fd s) (heads s) (sectors s) (cylinders s) (sector_size s) (sector_offset s) (user_set_sector_size s) (user_cylinders s) (user_heads s) (user_sectors s) (dos_compatible_flag s) (partitions s) (ext_index s) (extended_offset s) (scsi_disk s) (floppy s) (bufs s) v (disk_device s) (display_in_cyl_units s) (units_per_sector s).
Definition set_disk_device (v : list Z) (s : hd) : hd :=
  mk_hd (fd s) (heads s) (sectors s) (cylinders s) (sector_size s) (sector_offset s) (user_set_sector_size s) (user_cylinders s) (user_heads s) (user_sectors s) (dos_compatible_flag s) (partitions s) (ext_index s) (extended_offset s) (scsi_disk s) (floppy s) (bufs s) (ptes s) v (display_in_cyl_units s) (units_per_sector s).
Definition set_display_in_cyl_units (v : Z) (s : hd) : hd :=
  mk_hd (fd s) (heads s) (sectors s) (cylinders s) (sector_size s) (sector_offset s) (user_set_sector_size s) (user_cylinders s) (user_heads s) (user_sectors s) (dos_compatible_flag s) (partitions s) (ext_index s) (extended_offset s) (scsi_disk s) (floppy s) (bufs s) (ptes s) (disk_device s) v (units_per_sector s).
Definition set_units_per_sector (v : Z) (s : hd) : hd :=
  mk_hd (fd s) (heads s) (sectors s) (cylinders s) (sector_size s) (sector_offset s) (user_set_sector_size s) (user_cylinders s) (user_heads s) (user_sectors s) (dos_compatible_flag s) (partitions s) (ext_index s) (extended_offset s) (scsi_disk s) (floppy s) (bufs s) (ptes s) (disk_device s) (display_in_cyl_units s) v.

(** What the system answers. *)
Record env := mk_env {
  e_open : Z;                        (* the descriptor, or -1 *)
  e_bytes : list Z;                  (* the contents of the device *)
  e_bad : Z -> bool;                 (* a read at this offset fails *)
  e_ssz : option Z;                  (* BLKSSZGET, if the kernel has it *)
  e_size : option Z;                 (* BLKGETSIZE *)
  e_geo_big : option (Z * Z);        (* HDIO_GETGEO_BIG: heads, sectors *)
  e_geo : option (Z * Z);            (* HDIO_GETGEO *)
  e_stat : option (bool * Z);        (* fstat: block device, st_rdev *)
  e_malloc : Z -> option (list Z);   (* a new buffer of that size and what is in it *)
}.

(** ** Bytes *)
Definition store4_little_endian (v : Z) : list Z :=
  [Z.land v 255; Z.land (Z.shiftr v 8) 255; Z.land (Z.shiftr v 16) 255; Z.land (Z.shiftr v 24) 255].
Definition read4_little_endian (c0 c1 c2 c3 : Z) : Z :=
  u32 (c0 + u32 (Z.shiftl c1 8) + u32 (Z.shiftl c2 16) + u32 (Z.shiftl c3 24)).

(** A byte of the structure [p] points to. *)
Definition pget (h : list (list Z)) (p : option ptr) (k : Z) : outcome Z :=
  match p with
  | None => Fault NullDeref
  | Some (b, o) => let* buf := aget h b in aget buf (o + k)
  end.
Definition get4 (h : list (list Z)) (p : option ptr) (k : Z) : outcome Z :=
  let* c0 := pget h p k in
  let* c1 := pget h p (k + 1) in
  let* c2 := pget h p (k + 2) in
  let* c3 := pget h p (k + 3) in
  Ret (read4_little_endian c0 c1 c2 c3).
Definition get_sys_ind (h : list (list Z)) (p : option ptr) : outcome Z := pget h p 4.
Definition get_start_sect (h : list (list Z)) (p : option ptr) : outcome Z := get4 h p 8.
Definition get_nr_sects (h : list (list Z)) (p : option ptr) : outcome Z := get4 h p 12.

Definition pt_offset (b : option Z) (n : Z) : option ptr :=
  match b with Some b => Some (b, 0x1be + n * 16) | None => None end.

Definition IS_EXTENDED (i : Z) : bool := (i =? 0x05) || (i =? 0x0f) || (i =? 0x85).

(** Writing a list of bytes at [p]. *)
Fixpoint put_bytes (buf : list Z) (o : Z) (l : list Z) : outcome (list Z) :=
  match l with
  | [] => Ret buf
  | c :: l => let* buf := aset buf o c in put_bytes buf (o + 1) l
  end.
Definition pput (h : list (list Z)) (p : ptr) (k : Z) (l : list Z) : outcome (list (list Z)) :=
  let* buf := aget h (fst p) in
  let* buf := put_bytes buf (snd p + k) l in
  aset h (fst p) buf.

Definition clear_partition (h : list (list Z)) (p : option ptr) : outcome (list (list Z)) :=
  match p with
  | None => Ret h
  | Some p =>
      let* h := pput h p 0 [0; 0; 0; 0; 0; 0; 0; 0] in
      let* h := pput h p 8 (store4_little_endian 0) in
      pput h p 12 (store4_little_endian 0)
  end.

Definition is_cleared_partition (h : list (list Z)) (p : option ptr) : outcome bool :=
  match p with
  | None => Ret false
  | Some _ =>
      let* a := pget h p 0 in let* b := pget h p 1 in let* c := pget h p 2 in let* d := pget h p 3 in
      let* e := pget h p 4 in let* f := pget h p 5 in let* g := pget h p 6 in let* i := pget h p 7 in
      let* s := get_start_sect h p in
      let* n := get_nr_sects h p in
      Ret (forallb (fun x => x =? 0) [a; b; c; d; e; f; g; i; s; n])
  end.

(** ** Sectors.  The bytes a [read] of [n] bytes at [off] puts into [buf]; the result
    says whether all of them came.  On an error the buffer keeps its contents. *)
Definition read_at (e : env) (off n : Z) (buf : list Z) : outcome (bool * list Z) :=
  if e_bad e off then Ret (false, buf)
  else
    let got := take (Z.to_nat n) (drop (Z.to_nat off) (e_bytes e)) in
    if zlen buf <? zlen got then Fault OutOfBounds
    else Ret (zlen got =? n, got ++ drop (length got) buf).

Definition read_sector (e : env) (self : hd) (secno : Z) (buf : list Z) : outcome (Z * list Z) :=
  let* r := read_at e (secno * sector_size self) (sector_size self) buf in
  Ret (b2z (fst r), snd r).

(** [expsize] is an [int]. *)
Definition read_sectors (e : env) (self : hd) (start_sec num_sec : Z) (buf : list Z) : outcome (Z * list Z) :=
  let expsize := to_int (num_sec * sector_size self) in
  if expsize <? 0 then Ret (0, buf)
  else let* r := read_at e (start_sec * sector_size self) expsize buf in Ret (b2z (fst r), snd r).

(** The device is open for reading only: [write] fails. *)
Definition write_sector (self : hd) (secno : Z) (buf : list Z) : Z := 0.
Definition write_sectors (self : hd) (start_sec num_sec : Z) (buf : list Z) : Z := 0.

(** ** Geometry *)
Definition IDE0_MAJOR : Z := 3.
Definition IDE1_MAJOR : Z := 22.
Definition FLOPPY_MAJOR : Z := 2.

Definition guess_device_type (e : env) (self : hd) : hd :=
  match e_stat e with
  | None => set_scsi_disk 0 (set_floppy 0 self)
  | Some (blk, rdev) =>
      let major := Z.shiftr rdev 8 in
      if blk && ((major =? IDE0_MAJOR) || (major =? IDE1_MAJOR)) then set_scsi_disk 0 (set_floppy 0 self)
      else if blk && (major =? FLOPPY_MAJOR) then set_scsi_disk 0 (set_floppy 1 self)
      else set_scsi_disk 1 (set_floppy 0 self)
  end.

Definition get_sectorsize (e : env) (self : hd) : hd :=
  if user_set_sector_size self =? 0 then
    match e_ssz e with Some n => set_sector_size n self | None => self end
  else self.

Definition update_units (self : hd) : hd :=
  let cyl_units := u32 (heads self * sectors self) in
  if negb (display_in_cyl_units self =? 0) && negb (cyl_units =? 0)
  then set_units_per_sector cyl_units self
  else set_units_per_sector 1 self.

(** Lines 387-405: the state and whether [res2] is 0 afterwards. *)
Definition take_geometry (e : env) (self : hd) : hd * bool :=
  let use (g : Z * Z) (ok : bool) :=
    let s := set_heads (fst g) (set_sectors (snd g) self) in
    if u32 (fst g * snd g) =? 0 then (s, false)
    else if negb (dos_compatible_flag s =? 0) then (set_sector_offset (sectors s) s, ok)
    else (s, ok) in
  match e_geo_big e, e_geo e with
  | Some g, _ => use g true
  | None, Some g => use g false
  | None, None => (self, false)
  end.

Definition internal_get_geometry (e : env) (self : hd) : outcome hd :=
  let s := get_sectorsize e self in
  let sec_fac := sector_size s / 512 in
  let s := guess_device_type e s in
  let s := set_heads 0 (set_cylinders 0 (set_sectors 0 s)) in
  let s := set_sector_offset 1 s in
  let g := take_geometry e s in
  let s := fst g in
  let res3 := match e_geo e with Some _ => true | None => false end in
  let* s :=
    match e_size e with
    | Some longsectors =>
        if snd g || res3 then
          let* c := cquot longsectors (u32 (heads s * sectors s)) in
          let* c := cquot (u32 c) sec_fac in
          Ret (set_cylinders c s)
        else
          let* n := cquot longsectors sec_fac in
          Ret (set_heads 1 (set_cylinders 1 (set_sectors (u32 n) s)))
    | None => Ret s
    end in
  let s := if sectors s =? 0 then set_sectors (user_sectors s) s else s in
  let s := if heads s =? 0 then set_heads (user_heads s) s else s in
  let s := if cylinders s =? 0 then set_cylinders (user_cylinders s) s else s in
  Ret s.

(** ** The chain of extended boot records *)
Definition read_pte (e : env) (self : hd) (pno off : Z) : outcome hd :=
  let* pe := aget (ptes self) pno in
  let pe := set_offset off pe in
  match e_malloc e (sector_size self) with
  | None => let* l := aset (ptes self) pno (set_sectorbuffer None pe) in Ret (set_ptes l self)
  | Some buf =>
      let* r := read_sector e self off buf in
      let pe := set_part_table None (set_ext_pointer None (set_sectorbuffer (Some (zlen (bufs self))) pe)) in
      let* l := aset (ptes self) pno pe in
      Ret (set_ptes l (set_bufs (bufs self ++ [snd r]) self))
  end.

(** Lines 499-534, the body of the loop over the four entries of a boot record. *)
Definition scan_slot (h : list (list Z)) (p : option ptr) (pe : pte) : outcome pte :=
  let* n := get_nr_sects h p in
  if n =? 0 then Ret pe
  else
    let* t := get_sys_ind h p in
    if IS_EXTENDED t then
      match ext_pointer pe with Some _ => Ret pe | None => Ret (set_ext_pointer p pe) end
    else if negb (t =? 0) then
      match part_table pe with
      | Some _ => Ret pe
      | None =>
          let pe := set_part_table p pe in
          let* s := get_start_sect h p in
          let pe := set_start_sector (u32 (start_sector pe + s)) pe in
          Ret (set_num_of_sectors n pe)
      end
    else Ret pe.

Fixpoint scan_slots (h : list (list Z)) (b : option Z) (ks : list Z) (pe : pte) : outcome pte :=
  match ks with
  | [] => Ret pe
  | i :: ks => let* pe := scan_slot h (pt_offset b i) pe in scan_slots h b ks pe
  end.

(** Lines 538-552. *)
Definition default_slots (b : option Z) (pe : pte) : pte :=
  let q := pt_offset b 0 in
  let q1 := pt_offset b 1 in
  let pe :=
    match part_table pe with
    | Some _ => pe
    | None => if bool_decide (q = ext_pointer pe) then set_part_table q1 pe else set_part_table q pe
    end in
  match ext_pointer pe with
  | Some _ => pe
  | None => if bool_decide (q = part_table pe) then set_ext_pointer q1 pe else set_ext_pointer q pe
  end.

(** The loop of lines 470-556; [p] is the entry that points to the next record. *)
Fixpoint ext_loop (fuel : nat) (e : env) (self : hd) (p : option ptr) : outcome hd :=
  match fuel with
  | O => Fault OutOfFuel
  | S fuel =>
      let* t := get_sys_ind (bufs self) p in
      if negb (IS_EXTENDED t) then Ret self
      else if MAXIMUM_PARTS <=? partitions self then
        let* pre := aget (ptes self) (partitions self - 1) in
        let* h := clear_partition (bufs self) (ext_pointer pre) in
        Ret (set_bufs h self)
      else
        let* s := get_start_sect (bufs self) p in
        let start := u32 (extended_offset self + s) in
        let* pe := aget (ptes self) (partitions self) in
        let* l := aset (ptes self) (partitions self) (set_start_sector start pe) in
        let* self := read_pte e (set_ptes l self) (partitions self) start in
        let self := if extended_offset self =? 0 then set_extended_offset s self else self in
        let* pe := aget (ptes self) (partitions self) in
        let* pe := scan_slots (bufs self) (sectorbuffer pe) [0; 1; 2; 3] pe in
        let pe := default_slots (sectorbuffer pe) pe in
        let* l := aset (ptes self) (partitions self) pe in
        ext_loop fuel e (set_partitions (partitions self + 1) (set_ptes l self)) (ext_pointer pe)
  end.

(** Lines 558-569 print the empty partitions: what they read. *)
Fixpoint report_empty (fuel : nat) (i : Z) (self : hd) : outcome unit :=
  match fuel with
  | O => Ret tt
  | S fuel =>
      let* pe := aget (ptes self) i in
      let* n := get_nr_sects (bufs self) (part_table pe) in
      let* _ :=
        if (n =? 0) && negb (5 <? partitions self) then
          let* p4 := aget (ptes self) 4 in get_sys_ind (bufs self) (part_table p4)
        else Ret 0 in
      report_empty fuel (i + 1) self
  end.

Definition read_extended (e : env) (self : hd) (ext : Z) : outcome hd :=
  let self := set_ext_index ext self in
  let* pex := aget (ptes self) ext in
  let* l := aset (ptes self) ext (set_ext_pointer (part_table pex) pex) in
  let self := set_ptes l self in
  let p := part_table pex in
  let* s := get_start_sect (bufs self) p in
  if s =? 0 then Ret self
  else
    let* self := ext_loop (S (Z.to_nat (MAXIMUM_PARTS - partitions self))) e self p in
    let* _ := report_empty (Z.to_nat (partitions self - 4)) 4 self in
    Ret self.

(** ** Opening *)
Definition hdll_close (self : hd) : hd := if 0 <=? fd self then set_fd (-1) self else self.

(** The loop of lines 622-644. *)
Fixpoint primary_loop (self : hd) (ks : list Z) : outcome hd :=
  match ks with
  | [] => Ret self
  | i :: ks =>
      let* pe := aget (ptes self) i in
      let p := pt_offset (Some 0) i in
      let* s := get_start_sect (bufs self) p in
      let* n := get_nr_sects (bufs self) p in
      let pe := mk_pte p None 0 (Some 0) s n in
      let* l := aset (ptes self) i pe in
      primary_loop (set_ptes l self) ks
  end.

(** The loop of lines 646-657. *)
Fixpoint extended_loop (e : env) (self : hd) (ks : list Z) : outcome hd :=
  match ks with
  | [] => Ret self
  | i :: ks =>
      let* pe := aget (ptes self) i in
      let* t := get_sys_ind (bufs self) (part_table pe) in
      let* self := (
        if IS_EXTENDED t then
          if negb (partitions self =? 4) then Ret self else read_extended e self i
        else Ret self : outcome hd) in
      extended_loop e self ks
  end.

(** [strcpy] into the 16 bytes of [disk_device]. *)
Definition hdll_open (e : env) (self : hd) (device : list Z) : outcome (Z * hd) :=
  if 16 <? zlen device + 1 then Fault OutOfBounds
  else
    let self := hdll_close (set_disk_device device self) in
    let self := set_fd (e_open e) self in
    if fd self <? 0 then Ret (0, self)
    else
      let* self := internal_get_geometry e self in
      let self := update_units self in
      let* mbr := aget (bufs self) 0 in
      let* r := read_at e 0 (sector_size self) mbr in
      let* h := aset (bufs self) 0 (snd r) in
      let self := set_bufs h self in
      if negb (fst r) then Ret (0, hdll_close self)
      else
        let* self := primary_loop self [0; 1; 2; 3] in
        let* self := extended_loop e self [0; 1; 2; 3] in
        Ret (1, self).

(** ** Queries *)
Definition get_geometry (self : hd) : Z * Z * Z := (heads self, sectors self, cylinders self).
Definition number_of_partitions (self : hd) : Z := partitions self.
Definition get_partition_entry (self : hd) (n : Z) : outcome pte := aget (ptes self) n.
Definition cylinder_size (self : hd) : Z := units_per_sector self.

Definition get_partition_start (self : hd) (pe : pte) : outcome Z :=
  let* s := get_start_sect (bufs self) (part_table pe) in Ret (u32 (offset pe + s)).

(** [i386_sys_types]. *)
Definition i386_sys_types : list (Z * string) :=
  [(0x00, "Empty"%string);
   (0x01, "FAT12"%string);
   (0x02, "XENIX root"%string);
   (0x03, "XENIX usr"%string);
   (0x04, "FAT16 <32M"%string);
   (0x05, "Extended"%string);
   (0x06, "FAT16"%string);
   (0x07, "HPFS/NTFS"%string);
   (0x08, "AIX"%string);
   (0x09, "AIX bootable"%string);
   (0x0a, "OS/2 Boot Manager"%string);
   (0x0b, "Win95 FAT32"%string);
   (0x0c, "Win95 FAT32 (LBA)"%string);
   (0x0e, "Win95 FAT16 (LBA)"%string);
   (0x0f, "Win95 Ext'd (LBA)"%string);
   (0x10, "OPUS"%string);
   (0x11, "Hidden FAT12"%string);
   (0x12, "Compaq diagnostics"%string);
   (0x14, "Hidden FAT16 <32M"%string);
   (0x16, "Hidden FAT16"%string);
   (0x17, "Hidden HPFS/NTFS"%string);
   (0x18, "AST SmartSleep"%string);
   (0x1b, "Hidden Win95 FAT32"%string);
   (0x1c, "Hidden Win95 FAT32 (LBA)"%string);
   (0x1e, "Hidden Win95 FAT16 (LBA)"%string);
   (0x24, "NEC DOS"%string);
   (0x39, "Plan 9"%string);
   (0x3c, "PartitionMagic recovery"%string);
   (0x40, "Venix 80286"%string);
   (0x41, "PPC PReP Boot"%string);
   (0x42, "SFS"%string);
   (0x4d, "QNX4.x"%string);
   (0x4e, "QNX4.x 2nd part"%string);
   (0x4f, "QNX4.x 3rd part"%string);
   (0x50, "OnTrack DM"%string);
   (0x51, "OnTrack DM6 Aux1"%string);
   (0x52, "CP/M"%string);
   (0x53, "OnTrack DM6 Aux3"%string);
   (0x54, "OnTrackDM6"%string);
   (0x55, "EZ-Drive"%string);
   (0x56, "Golden Bow"%string);
   (0x5c, "Priam Edisk"%string);
   (0x61, "SpeedStor"%string);
   (0x63, "GNU HURD or SysV"%string);
   (0x64, "Novell Netware 286"%string);
   (0x65, "Novell Netware 386"%string);
   (0x70, "DiskSecure Multi-Boot"%string);
   (0x75, "PC/IX"%string);
   (0x80, "Old Minix"%string);
   (0x81, "Minix / old Linux"%string);
   (0x82, "Linux swap"%string);
   (0x83, "Linux"%string);
   (0x84, "OS/2 hidden C: drive"%string);
   (0x85, "Linux extended"%string);
   (0x86, "NTFS volume set"%string);
   (0x87, "NTFS volume set"%string);
   (0x8e, "Linux LVM"%string);
   (0x93, "Amoeba"%string);
   (0x94, "Amoeba BBT"%string);
   (0x9f, "BSD/OS"%string);
   (0xa0, "IBM Thinkpad hibernation"%string);
   (0xa5, "FreeBSD"%string);
   (0xa6, "OpenBSD"%string);
   (0xa7, "NeXTSTEP"%string);
   (0xa9, "NetBSD"%string);
   (0xb7, "BSDI fs"%string);
   (0xb8, "BSDI swap"%string);
   (0xbb, "Boot Wizard hidden"%string);
   (0xc1, "DRDOS/sec (FAT-12)"%string);
   (0xc4, "DRDOS/sec (FAT-16 < 32M)"%string);
   (0xc6, "DRDOS/sec (FAT-16)"%string);
   (0xc7, "Syrinx"%string);
   (0xda, "Non-FS data"%string);
   (0xdb, "CP/M / CTOS / ..."%string);
   (0xde, "Dell Utility"%string);
   (0xdf, "BootIt"%string);
   (0xe1, "DOS access"%string);
   (0xe3, "DOS R/O"%string);
   (0xe4, "SpeedStor"%string);
   (0xeb, "BeOS fs"%string);
   (0xee, "EFI GPT"%string);
   (0xef, "EFI (FAT-12/16/32)"%string);
   (0xf0, "Linux/PA-RISC boot"%string);
   (0xf1, "SpeedStor"%string);
   (0xf4, "SpeedStor"%string);
   (0xf2, "DOS secondary"%string);
   (0xfd, "Linux raid autodetect"%string);
   (0xfe, "LANstep"%string);
   (0xff, "BBT"%string)].

Definition partition_type (type : Z) : option string :=
  match list_find (fun x => fst x = type) i386_sys_types with Some (_, x) => Some (snd x) | None => None end.
Definition partition_sysname (self : hd) (n : Z) : outcome (option string) :=
  let* pe := aget (ptes self) n in
  let* t := get_sys_ind (bufs self) (part_table pe) in
  Ret (partition_type t).

(** [m] is the structure as [malloc] gives it; its [MBRbuffer] has 2048 bytes, its
    table 16 entries. *)
Definition new_hd_lowlevel_io (m : hd) : hd :=
  mk_hd (-1) 0 0 0 DEFAULT_SECTOR_SIZE 1 0 (user_cylinders m) (user_heads m) (user_sectors m) (-1) 4 0 0 0 0
    (bufs m) (ptes m) (disk_device m) 1 1.

(** ** Specification: the table on the disk.  Fields of the entry at offset [o]. *)
Definition slot (i : Z) : Z := 0x1be + i * 16.
Definition byte (sec : list Z) (k : Z) : Z := default 0 (sec !! Z.to_nat k).
Definition le4 (sec : list Z) (k : Z) : Z :=
  read4_little_endian (byte sec k) (byte sec (k + 1)) (byte sec (k + 2)) (byte sec (k + 3)).
Definition sys (sec : list Z) (i : Z) : Z := byte sec (slot i + 4).
Definition start (sec : list Z) (i : Z) : Z := le4 sec (slot i + 8).
Definition nr (sec : list Z) (i : Z) : Z := le4 sec (slot i + 12).

Definition is_link (sec : list Z) (i : Z) : bool := negb (nr sec i =? 0) && IS_EXTENDED (sys sec i).
Definition is_data (sec : list Z) (i : Z) : bool :=
  negb (nr sec i =? 0) && negb (IS_EXTENDED (sys sec i)) && negb (sys sec i =? 0).

(** The entries of a boot record that stand for its partition and for the next record. *)
Definition data_slot (sec : list Z) : option Z := List.find (is_data sec) [0; 1; 2; 3].
Definition link_slot (sec : list Z) : option Z := List.find (is_link sec) [0; 1; 2; 3].
Definition part_slot (sec : list Z) : Z :=
  match data_slot sec with Some i => i | None => if bool_decide (link_slot sec = Some 0) then 1 else 0 end.
Definition next_slot (sec : list Z) : Z :=
  match link_slot sec with Some i => i | None => if part_slot sec =? 0 then 1 else 0 end.

(** A logical partition: its boot record, first sector, size (unless the record has
    no partition) and type. *)
Record logical := mk_logical { l_ebr : Z; l_start : Z; l_size : option Z; l_type : Z }.

Section disk.
Context (e : env) (ssz : Z).

(** What is in a new buffer after the sector has been read into it. *)
Definition sector (n : Z) : list Z :=
  match e_malloc e ssz with
  | None => []
  | Some buf =>
      if e_bad e (n * ssz) then buf
      else let got := take (Z.to_nat ssz) (drop (Z.to_nat (n * ssz)) (e_bytes e)) in got ++ drop (length got) buf
  end.

Definition logical_at (n : Z) : logical :=
  let sec := sector n in
  mk_logical n (match data_slot sec with Some i => u32 (n + start sec i) | None => n end)
    (nr sec <$> data_slot sec) (sys sec (part_slot sec)).

(** At most [k] records, the first at [base + s]; links are relative to the first. *)
Fixpoint chain (k : nat) (base s : Z) : list logical :=
  match k with
  | O => []
  | S k =>
      let n := u32 (base + s) in
      let sec := sector n in
      logical_at n ::
        (if IS_EXTENDED (sys sec (next_slot sec))
         then chain k (if base =? 0 then s else base) (start sec (next_slot sec)) else [])
  end.

(** The first extended partition of the master boot record with an offset is followed. *)
Definition logicals (mbr : list Z) : list logical :=
  match List.find (fun i => IS_EXTENDED (sys mbr i) && negb (start mbr i =? 0)) [0; 1; 2; 3] with
  | Some i => chain 12 0 (start mbr i)
  | None => []
  end.
End disk.

(** The little-endian fields round trip. *)
Lemma read4_store4 v : 0 <= v < 2 ^ 32 ->
  match store4_little_endian v with [a; b; c; d] => read4_little_endian a b c d = v | _ => False end.
Proof.
  intros Hv. unfold store4_little_endian, read4_little_endian, u32. change 255 with (Z.ones 8).
  rewrite !Z.land_ones, !Z.shiftr_div_pow2, !Z.shiftl_mul_pow2 by lia. Z.div_mod_to_equations. lia.
Qed.

(** ** Reading fields *)
Lemma byte_lookup sec k : 0 <= k < zlen sec -> aget sec k = Ret (byte sec k).
Proof.
  intros H. destruct (aget_lt sec k H) as (x & -> & E). unfold byte. by rewrite E.
Qed.

Section fields.
Context (h : list (list Z)) (b : nat) (sec : list Z) (i : Z).
Hypothesis (Hb : h !! b = Some sec) (Hi : 0 <= i <= 3) (Hl : 510 <= zlen sec).

Lemma pget_run k : 0 <= k < 16 -> pget h (Some (Z.of_nat b, slot i)) k = Ret (byte sec (slot i + k)).
Proof. intros Hk. unfold pget. rewrite (aget_nat _ _ _ Hb). cbn [obind]. apply byte_lookup. unfold slot. lia. Qed.

Lemma get_sys_ind_run : get_sys_ind h (Some (Z.of_nat b, slot i)) = Ret (sys sec i).
Proof. unfold get_sys_ind. by rewrite pget_run by lia. Qed.

Lemma get4_run k : 0 <= k <= 12 -> get4 h (Some (Z.of_nat b, slot i)) k = Ret (le4 sec (slot i + k)).
Proof. intros Hk. unfold get4, le4. rewrite !pget_run by lia. cbn [obind]. by rewrite !Z.add_assoc. Qed.

Lemma get_start_run : get_start_sect h (Some (Z.of_nat b, slot i)) = Ret (start sec i).
Proof. apply get4_run. lia. Qed.
Lemma get_nr_run : get_nr_sects h (Some (Z.of_nat b, slot i)) = Ret (nr sec i).
Proof. apply get4_run. lia. Qed.
End fields.

(** The classification of the entries of a record, one after the other. *)
Definition scan_spec (sec : list Z) (b : nat) (ks : list Z) (pe : pte) : pte :=
  let d := match part_table pe with Some _ => None | None => List.find (is_data sec) ks end in
  mk_pte (match d with Some i => Some (Z.of_nat b, slot i) | None => part_table pe end)
    (match ext_pointer pe with
     | Some p => Some p
     | None => (fun i => (Z.of_nat b, slot i)) <$> List.find (is_link sec) ks
     end)
    (offset pe) (sectorbuffer pe)
    (match d with Some i => u32 (start_sector pe + start sec i) | None => start_sector pe end)
    (match d with Some i => nr sec i | None => num_of_sectors pe end).

Lemma scan_slots_run h b sec ks pe : h !! b = Some sec -> 510 <= zlen sec -> Forall (fun i => 0 <= i <= 3) ks ->
  scan_slots h (Some (Z.of_nat b)) ks pe = Ret (scan_spec sec b ks pe).
Proof.
  intros Hb Hl His. revert pe. induction His as [|i ks Hi His IH]; intros [pt ex o sb st n].
  { unfold scan_spec. cbn. by destruct pt, ex. }
  cbn [scan_slots pt_offset]. fold (slot i). unfold scan_slot. rewrite (get_nr_run _ _ _ _ Hb Hi Hl). cbn [obind].
  unfold scan_spec, is_data, is_link. cbn [List.find]. fold (is_data sec) (is_link sec).
  destruct (nr sec i =? 0); cbn [negb andb obind]; [apply IH|].
  rewrite (get_sys_ind_run _ _ _ _ Hb Hi Hl). cbn [obind].
  destruct (IS_EXTENDED (sys sec i)); cbn [negb andb].
  - cbn [ext_pointer part_table]. destruct ex; cbn [obind]; rewrite IH; reflexivity.
  - destruct (sys sec i =? 0); cbn [negb obind]; [apply IH|].
    cbn [part_table]. destruct pt; cbn [obind].
    + rewrite IH. reflexivity.
    + rewrite (get_start_run _ _ _ _ Hb Hi Hl). cbn [obind]. rewrite IH. reflexivity.
Qed.

Lemma find_slot P i : List.find P [0; 1; 2; 3] = Some i -> 0 <= i <= 3 /\ P i = true.
Proof. intros [Hin HP]%List.find_some. split; [|done]. cbn in Hin. decompose [or] Hin; subst; lia. Qed.

Lemma part_slot_range sec : 0 <= part_slot sec <= 3.
Proof.
  unfold part_slot. destruct (data_slot sec) eqn:E; [by apply find_slot in E as [? _]|]. case_bool_decide; lia.
Qed.
Lemma next_slot_range sec : 0 <= next_slot sec <= 3.
Proof.
  unfold next_slot. destruct (link_slot sec) eqn:E; [by apply find_slot in E as [? _]|]. destruct (_ =? 0); lia.
Qed.
Lemma slots_differ sec : part_slot sec <> next_slot sec.
Proof.
  unfold next_slot. destruct (link_slot sec) as [j|] eqn:E; [|destruct (Z.eqb_spec (part_slot sec) 0); lia].
  unfold part_slot. destruct (data_slot sec) as [i|] eqn:E2.
  - apply find_slot in E as [_ E]. apply find_slot in E2 as [_ E2]. intros ->. unfold is_link, is_data in *.
    destruct (nr sec j =? 0), (IS_EXTENDED (sys sec j)); cbn in *; congruence.
  - rewrite E. case_bool_decide as H; [injection H as ->; lia|]. intros <-. by apply H.
Qed.

(** The entries after the defaults have been filled in. *)
Lemma default_slots_run sec b pe : part_table pe = None -> ext_pointer pe = None ->
  default_slots (Some (Z.of_nat b)) (scan_spec sec b [0; 1; 2; 3] pe) =
  mk_pte (Some (Z.of_nat b, slot (part_slot sec))) (Some (Z.of_nat b, slot (next_slot sec))) (offset pe) (sectorbuffer pe)
    (match data_slot sec with Some i => u32 (start_sector pe + start sec i) | None => start_sector pe end)
    (match data_slot sec with Some i => nr sec i | None => num_of_sectors pe end).
Proof.
  intros Hp He. unfold scan_spec. rewrite Hp, He. fold (data_slot sec) (link_slot sec).
  assert (forall i j, bool_decide (Some (Z.of_nat b, slot i) = Some (Z.of_nat b, slot j)) = (i =? j)) as Hbd.
  { intros i j. destruct (Z.eqb_spec i j) as [->|]; [by apply bool_decide_true|]. apply bool_decide_false.
    intros [= H]. unfold slot in H. lia. }
  unfold default_slots, next_slot, part_slot, pt_offset. change (0x1be + 0 * 16) with (slot 0). change (0x1be + 1 * 16) with (slot 1).
  destruct (data_slot sec) as [i|] eqn:Ed; destruct (link_slot sec) as [j|] eqn:El; cbn [part_table ext_pointer fmap option_fmap option_map].
  - done.
  - rewrite Hbd. by destruct (Z.eqb_spec 0 i), (Z.eqb_spec i 0); [|lia|lia|].
  - rewrite Hbd. destruct (Z.eqb_spec 0 j) as [<-|Hj]; cbn.
    + by rewrite bool_decide_true.
    + rewrite bool_decide_false; [done|]. intros [= ->]. lia.
  - rewrite bool_decide_false by done. cbn [part_table ext_pointer set_part_table]. rewrite Hbd.
    rewrite bool_decide_false by done. done.
Qed.

Lemma default_slots_run' sec b pe : part_table pe = None -> ext_pointer pe = None -> sectorbuffer pe = Some (Z.of_nat b) ->
  default_slots (sectorbuffer (scan_spec sec b [0; 1; 2; 3] pe)) (scan_spec sec b [0; 1; 2; 3] pe) =
  mk_pte (Some (Z.of_nat b, slot (part_slot sec))) (Some (Z.of_nat b, slot (next_slot sec))) (offset pe) (Some (Z.of_nat b))
    (match data_slot sec with Some i => u32 (start_sector pe + start sec i) | None => start_sector pe end)
    (match data_slot sec with Some i => nr sec i | None => num_of_sectors pe end).
Proof. intros H1 H2 H3. change (sectorbuffer (scan_spec sec b [0; 1; 2; 3] pe)) with (sectorbuffer pe). rewrite H3, default_slots_run by done. by rewrite H3. Qed.

(** ** Clearing an entry *)
Lemma put_bytes_run l : forall buf o, 0 <= o -> o + zlen l <= zlen buf -> exists buf', put_bytes buf o l = Ret buf' /\
  length buf' = length buf /\ forall k, 0 <= k -> ~ (o <= k < o + zlen l) -> byte buf' k = byte buf k.
Proof.
  induction l as [|c l IH]; intros buf o Ho Hl; [by exists buf|]. cbn [put_bytes]. rewrite zlen_cons in *.
  pose proof (zlen_nonneg l). rewrite aset_Ret by lia. cbn [obind].
  destruct (IH (<[Z.to_nat o := c]> buf) (o + 1)) as (buf' & E & L & Hk); [lia|rewrite zlen_insert; lia|].
  exists buf'. rewrite length_insert in L. split_and!; [done..|]. intros k Hk0 Hout. rewrite Hk by lia.
  unfold byte. by rewrite list_lookup_insert_ne by lia.
Qed.

(** [p] is in buffer [b], which is the only one changed, and only in the entry. *)
Lemma pput_run h b sec i k l : h !! b = Some sec -> 0 <= i <= 3 -> 510 <= zlen sec -> 0 <= k -> k + zlen l <= 16 ->
  exists sec', pput h (Z.of_nat b, slot i) k l = Ret (<[b := sec']> h) /\ length sec' = length sec /\
    forall m, 0 <= m -> ~ (slot i <= m < slot i + 16) -> byte sec' m = byte sec m.
Proof.
  intros Hb Hi Hl Hk Hkl. unfold pput. cbn [fst snd]. rewrite (aget_nat _ _ _ Hb). cbn [obind].
  destruct (put_bytes_run l sec (slot i + k)) as (sec' & -> & L & Hm); [unfold slot; lia|unfold slot; lia|]. cbn [obind].
  exists sec'. split_and!; [|done|intros m Hm0 Hout; apply Hm; lia]. apply aset_nat. by eapply lookup_lt_Some.
Qed.

Lemma clear_partition_run h b sec i : h !! b = Some sec -> 0 <= i <= 3 -> 510 <= zlen sec ->
  exists sec', clear_partition h (Some (Z.of_nat b, slot i)) = Ret (<[b := sec']> h) /\ zlen sec' = zlen sec /\
    forall m, 0 <= m -> ~ (slot i <= m < slot i + 16) -> byte sec' m = byte sec m.
Proof.
  intros Hb Hi Hl. pose proof (lookup_lt_Some _ _ _ Hb) as Hlt. cbn [clear_partition].
  destruct (pput_run h b sec i 0 [0; 0; 0; 0; 0; 0; 0; 0]) as (s1 & -> & L1 & K1); [done..|lia|done|]. cbn [obind].
  destruct (pput_run (<[b := s1]> h) b s1 i 8 (store4_little_endian 0)) as (s2 & -> & L2 & K2);
    [by apply list_lookup_insert_eq|done|unfold zlen in *; lia|lia|done|]. cbn [obind]. rewrite list_insert_insert_eq.
  destruct (pput_run (<[b := s2]> h) b s2 i 12 (store4_little_endian 0)) as (s3 & -> & L3 & K3);
    [by apply list_lookup_insert_eq|done|unfold zlen in *; lia|lia|done|]. rewrite list_insert_insert_eq.
  exists s3. split_and!; [done|unfold zlen; lia|]. intros m Hm Hout. by rewrite K3, K2, K1.
Qed.

(** ** The loop over the records *)
Section chain.
Context (e : env) (ssz : Z).
Hypothesis (Hssz : 512 <= ssz <= MAX_SECTOR_SIZE).
Hypothesis (Hmalloc : exists buf, e_malloc e ssz = Some buf /\ zlen buf = ssz).

Lemma zlen_take_le (l : list Z) n : zlen (take (Z.to_nat ssz) l) <= ssz /\ (n = zlen (take (Z.to_nat ssz) l) -> 0 <= n).
Proof. unfold zlen. rewrite length_take. lia. Qed.

Lemma sector_len n : zlen (sector e ssz n) = ssz.
Proof.
  unfold sector. destruct Hmalloc as (buf & -> & Hb). destruct (e_bad e _); [done|].
  pose proof (zlen_take_le (drop (Z.to_nat (n * ssz)) (e_bytes e)) 0) as [? _]. rewrite zlen_app.
  unfold zlen in *. rewrite length_drop. lia.
Qed.

Lemma read_sector_run self n buf : sector_size self = ssz -> e_malloc e ssz = Some buf -> zlen buf = ssz ->
  exists rc, read_sector e self n buf = Ret (rc, sector e ssz n).
Proof.
  intros Hs Hm Hb. unfold read_sector, sector, read_at. rewrite Hs, Hm.
  destruct (e_bad e _); [by eexists|]. pose proof (zlen_take_le (drop (Z.to_nat (n * ssz)) (e_bytes e)) 0) as [? _].
  rewrite (proj2 (Z.ltb_ge (zlen buf) _)) by lia. by eexists.
Qed.

(** The entry [pe] of the table stands for [l]; [b] is its buffer. *)
Definition entry_ok (h : list (list Z)) (b : nat) (pe : pte) (l : logical) : Prop :=
  exists sec i j, h !! b = Some sec /\ zlen sec = ssz /\ 0 <= i <= 3 /\ 0 <= j <= 3 /\ i <> j /\
    part_table pe = Some (Z.of_nat b, slot i) /\ ext_pointer pe = Some (Z.of_nat b, slot j) /\
    sys sec i = l_type l /\ offset pe = l_ebr l /\ start_sector pe = l_start l /\
    (forall n, l_size l = Some n -> num_of_sectors pe = n).

(** The table after the records [ls]; [top] are its primary entries, [old] the buffers
    from before. *)
Record table_ok (top : list pte) (old : list (list Z)) (ls : list logical) (self : hd) : Prop := {
  t_ssz : sector_size self = ssz;
  t_len : length (ptes self) = 16%nat;
  t_cnt : partitions self = 4 + zlen ls;
  t_max : (length ls <= 12)%nat;
  t_top : take 4 (ptes self) = top;
  t_bufs : length (bufs self) = (length old + length ls)%nat;
  t_old : take (length old) (bufs self) = old;
  t_ent : forall k l, ls !! k = Some l -> exists pe, ptes self !! (4 + k)%nat = Some pe /\
            entry_ok (bufs self) (length old + k) pe l;
}.

Lemma entry_ok_app h h' b pe l : entry_ok h b pe l -> entry_ok (h ++ h') b pe l.
Proof. intros (sec & i & j & Hb & H). exists sec, i, j. split; [|done]. by apply lookup_app_l_Some. Qed.

(** The state after one record has been read. *)
Definition after_record (self : hd) (s n : Z) (pe : pte) : hd :=
  let sec := sector e ssz n in
  let b := length (bufs self) in
  set_partitions (partitions self + 1)
    (set_ptes (<[Z.to_nat (partitions self) :=
        mk_pte (Some (Z.of_nat b, slot (part_slot sec))) (Some (Z.of_nat b, slot (next_slot sec))) n (Some (Z.of_nat b))
          (l_start (logical_at e ssz n)) (default (num_of_sectors pe) (l_size (logical_at e ssz n)))]> (ptes self))
    (set_extended_offset (if extended_offset self =? 0 then s else extended_offset self)
    (set_bufs (bufs self ++ [sec]) self))).

Lemma ext_round fuel top old ls self b i sec : table_ok top old ls self -> (length ls < 12)%nat ->
  bufs self !! b = Some sec -> 0 <= i <= 3 -> 510 <= zlen sec -> IS_EXTENDED (sys sec i) = true ->
  let n := u32 (extended_offset self + start sec i) in
  exists pe, ext_loop (S fuel) e self (Some (Z.of_nat b, slot i)) =
    ext_loop fuel e (after_record self (start sec i) n pe)
      (Some (Z.of_nat (length (bufs self)), slot (next_slot (sector e ssz n)))).
Proof.
  intros T Hlt Hb Hi Hl Ht n. destruct Hmalloc as (buf & Hm & Hbl).
  pose proof (t_cnt _ _ _ _ T) as Hc. pose proof (t_len _ _ _ _ T) as Hpl. pose proof (t_ssz _ _ _ _ T) as Hs.
  assert (0 <= partitions self < zlen (ptes self)) as Hin by (rewrite Hc; unfold zlen; rewrite Hpl; lia).
  destruct (aget_lt _ _ Hin) as (pe & Hpe & _). exists pe.
  cbn [ext_loop]. rewrite (get_sys_ind_run _ _ _ _ Hb Hi Hl). cbn [obind]. rewrite Ht. cbn [negb].
  rewrite (proj2 (Z.leb_gt _ _)) by (rewrite Hc; unfold MAXIMUM_PARTS, zlen; lia).
  rewrite (get_start_run _ _ _ _ Hb Hi Hl). cbn [obind]. rewrite Hpe. cbn [obind].
  rewrite aset_Ret by done. cbn [obind]. fold n. unfold read_pte. cbn [ptes set_ptes sector_size bufs].
  rewrite aget_insert by done. cbn [obind]. rewrite Hs, Hm.
  destruct (read_sector_run (set_ptes (<[Z.to_nat (partitions self) := set_start_sector n pe]> (ptes self)) self) n buf) as (rc & ->); [done..|].
  cbn [obind snd]. rewrite aset_Ret by (by rewrite zlen_insert). cbn [obind]. rewrite list_insert_insert_eq.
  match goal with |- context [if extended_offset ?x =? 0 then set_extended_offset ?s ?x else ?x] => set (s2 := x) end.
  assert ((if extended_offset s2 =? 0 then set_extended_offset (start sec i) s2 else s2) =
          set_extended_offset (if extended_offset self =? 0 then start sec i else extended_offset self) s2) as ->
    by (subst s2; cbn; by destruct (extended_offset self =? 0)).
  subst s2. cbn [ptes bufs partitions set_extended_offset set_ptes set_bufs].
  rewrite aget_insert by done. cbn [obind sectorbuffer set_ext_pointer set_part_table set_sectorbuffer].
  assert ((bufs self ++ [sector e ssz n]) !! length (bufs self) = Some (sector e ssz n)) as Hnew by (by apply list_lookup_middle).
  pose proof (sector_len n) as Hsl. unfold zlen at 1 2.
  rewrite (scan_slots_run _ _ _ _ _ Hnew); [|lia|by repeat constructor]. cbn [obind].
  rewrite default_slots_run' by done. rewrite aset_Ret by (by rewrite zlen_insert). cbn [obind].
  rewrite list_insert_insert_eq. unfold after_record, logical_at. cbv zeta.
  destruct (data_slot (sector e ssz n)); reflexivity.
Qed.

Lemma after_record_ok top old ls self s n pe : table_ok top old ls self -> (length ls < 12)%nat ->
  table_ok top old (ls ++ [logical_at e ssz n]) (after_record self s n pe).
Proof.
  intros [H1 H2 H3 H4 H5 H6 H7 H8] Hlt. assert (Z.to_nat (partitions self) = 4 + length ls)%nat as Hn by (rewrite H3; unfold zlen; lia).
  unfold after_record. rewrite Hn. split; cbn [sector_size ptes partitions bufs set_partitions set_ptes set_extended_offset set_bufs].
  - done.
  - by rewrite length_insert.
  - rewrite H3, zlen_app. change (zlen [_]) with 1. lia.
  - rewrite length_app. cbn. lia.
  - rewrite take_insert_ge by lia. done.
  - rewrite !length_app. cbn. lia.
  - by rewrite take_app_le by lia.
  - intros k l Hk. apply lookup_app_Some in Hk as [Hk|[Hge Hk]].
    + destruct (H8 k l Hk) as (pe' & Hpe' & Hok). apply lookup_lt_Some in Hk. exists pe'.
      rewrite list_lookup_insert_ne by lia. split; [done|]. by apply entry_ok_app.
    + apply list_lookup_singleton_Some in Hk as [Hk <-]. replace k with (length ls) by lia.
      eexists. split; [apply list_lookup_insert_eq; lia|]. pose proof (part_slot_range (sector e ssz n)).
      pose proof (next_slot_range (sector e ssz n)). pose proof (slots_differ (sector e ssz n)).
      exists (sector e ssz n), (part_slot (sector e ssz n)), (next_slot (sector e ssz n)).
      rewrite <- H6. split_and!; try lia; try done; [by apply list_lookup_middle|apply sector_len|].
      intros m Hm. cbn [num_of_sectors]. by rewrite Hm.
Qed.

(** Twelve logical partitions are there and one more is announced: its link is cleared. *)
Lemma clear_last_ok top old ls self : table_ok top old ls self -> length ls = 12%nat ->
  exists pre h, aget (ptes self) (partitions self - 1) = Ret pre /\ clear_partition (bufs self) (ext_pointer pre) = Ret h /\ table_ok top old ls (set_bufs h self).
Proof.
  intros [H1 H2 H3 H4 H5 H6 H7 H8] Hlen. destruct (lookup_lt_is_Some_2 ls 11) as [l Hl]; [lia|].
  destruct (H8 _ _ Hl) as (pre & Hpre & sec & i & j & Hb & Hsl & Hi & Hj & Hij & Hpt & Hep & Hrest).
  exists pre. destruct (clear_partition_run (bufs self) (length old + 11) sec j) as (sec' & Hc & Hl' & Hk); [done|done|lia|].
  exists (<[(length old + 11)%nat := sec']> (bufs self)). split_and!.
  - replace (partitions self - 1) with (Z.of_nat 15) by (rewrite H3; unfold zlen; lia). by apply aget_nat.
  - by rewrite Hep.
  - split; cbn [sector_size ptes partitions bufs set_bufs]; try done.
    + by rewrite length_insert.
    + by rewrite take_insert_ge by lia.
    + intros k lk Hlk. destruct (decide (k = 11%nat)) as [->|Hne].
      * exists pre. rewrite Hl in Hlk. injection Hlk as <-. split; [done|].
        exists sec', i, j. split_and!; try done; try lia; [apply list_lookup_insert_eq; by eapply lookup_lt_Some| |by apply Hrest..].
        destruct Hrest as [<- _]. unfold sys. apply Hk; unfold slot; lia.
      * destruct (H8 k lk Hlk) as (pe & Hpe & sec0 & i0 & j0 & Hb0 & H0). exists pe. split; [done|].
        exists sec0, i0, j0. split; [|done]. rewrite list_lookup_insert_ne by lia. done.
Qed.

(** From the entry that announces the next record to the end of the chain. *)
Lemma ext_loop_run top old k : forall ls self b i sec, table_ok top old ls self -> (length ls + k = 12)%nat ->
  bufs self !! b = Some sec -> 0 <= i <= 3 -> 510 <= zlen sec ->
  exists self', ext_loop (S k) e self (Some (Z.of_nat b, slot i)) = Ret self' /\ table_ok top old (ls ++ if IS_EXTENDED (sys sec i) then chain e ssz k (extended_offset self) (start sec i) else []) self'.
Proof.
  induction k as [|k IH]; intros ls self b i sec T Hlen Hb Hi Hl.
  all: destruct (IS_EXTENDED (sys sec i)) eqn:Ht; [|
    exists self; rewrite app_nil_r; split; [|done]; cbn [ext_loop];
    by rewrite (get_sys_ind_run _ _ _ _ Hb Hi Hl); cbn [obind]; rewrite Ht].
  - cbn [chain ext_loop]. rewrite app_nil_r, (get_sys_ind_run _ _ _ _ Hb Hi Hl). cbn [obind]. rewrite Ht. cbn [negb].
    destruct (clear_last_ok top old ls self T) as (pre & h & -> & Hc & T'); [lia|]. cbn [obind]. rewrite Hc. cbn [obind].
    rewrite (proj2 (Z.leb_le _ _)) by (rewrite (t_cnt _ _ _ _ T); unfold MAXIMUM_PARTS, zlen; lia). by eexists.
  - destruct (ext_round (S k) top old ls self b i sec T) as (pe & ->); [lia|done..|].
    set (n := u32 (extended_offset self + start sec i)).
    destruct (IH (ls ++ [logical_at e ssz n]) (after_record self (start sec i) n pe) (length (bufs self))
                (next_slot (sector e ssz n)) (sector e ssz n)) as (self' & E & T').
    + apply after_record_ok; [done|lia].
    + rewrite length_app. cbn. lia.
    + by apply list_lookup_middle.
    + apply next_slot_range.
    + rewrite sector_len. lia.
    + exists self'. split; [done|]. rewrite <- app_assoc in T'. exact T'.
Qed.

Lemma report_empty_run top old ls self : table_ok top old ls self -> ls <> [] -> forall fuel k, (k + fuel = length ls)%nat ->
  report_empty fuel (4 + Z.of_nat k) self = Ret tt.
Proof.
  intros T Hne fuel. assert (forall k, (k < length ls)%nat -> exists pe, aget (ptes self) (4 + Z.of_nat k) = Ret pe /\
    (exists n, get_nr_sects (bufs self) (part_table pe) = Ret n) /\ exists t, get_sys_ind (bufs self) (part_table pe) = Ret t) as H.
  { intros k Hk. destruct (lookup_lt_is_Some_2 ls k Hk) as [l Hl]. destruct (t_ent _ _ _ _ T _ _ Hl) as (pe & Hpe & Hok).
    destruct Hok as (sec & i & j & Hb & Hsl & Hi & _ & _ & Hpt & _). exists pe.
    replace (4 + Z.of_nat k) with (Z.of_nat (4 + k)) by lia. rewrite (aget_nat _ _ _ Hpe), Hpt. split_and!; [done|eexists..].
    - apply (get_nr_run _ _ _ _ Hb Hi). lia.
    - apply (get_sys_ind_run _ _ _ _ Hb Hi). lia. }
  induction fuel as [|fuel IH]; intros k Hk; [done|]. cbn [report_empty].
  destruct (H k) as (pe & -> & (n & Hn) & _); [lia|]. cbn [obind]. rewrite Hn. cbn [obind].
  destruct (H 0%nat) as (p4 & Hp4 & _ & (t & Ht)); [lia|]. change (4 + Z.of_nat 0) with 4 in Hp4.
  replace (4 + Z.of_nat k + 1) with (4 + Z.of_nat (S k)) by lia.
  destruct ((n =? 0) && negb (5 <? partitions self)); cbn [obind]; [rewrite Hp4; cbn [obind]; rewrite Ht; cbn [obind]|]; apply IH; lia.
Qed.

(** The primary entries. *)
Definition prim_ok (mbr : list Z) (i : Z) (pe : pte) : Prop :=
  part_table pe = Some (0, slot i) /\ offset pe = 0 /\ start_sector pe = start mbr i /\ num_of_sectors pe = nr mbr i.
Definition prims_ok (mbr : list Z) (top : list pte) : Prop :=
  length top = 4%nat /\ forall i, 0 <= i <= 3 -> exists pe, top !! Z.to_nat i = Some pe /\ prim_ok mbr i pe.

Lemma chain_nonempty k base s : chain e ssz (S k) base s <> [].
Proof. done. Qed.

Lemma top_lookup top old ls self i pe : table_ok top old ls self -> 0 <= i <= 3 -> top !! Z.to_nat i = Some pe ->
  aget (ptes self) i = Ret pe.
Proof. intros T Hi Htop. apply aget_Some; [lia|]. rewrite <- (t_top _ _ _ _ T) in Htop. by apply lookup_take_Some in Htop as [? _]. Qed.

Lemma set_top_ok top old ls self i pe : table_ok top old ls self -> 0 <= i <= 3 ->
  table_ok (<[Z.to_nat i := pe]> top) old ls (set_ptes (<[Z.to_nat i := pe]> (ptes self)) self).
Proof.
  intros [H1 H2 H3 H4 H5 H6 H7 H8] Hi. split; cbn [sector_size ptes partitions bufs set_ptes]; try done.
  - by rewrite length_insert.
  - rewrite <- H5. apply list_eq. intros k. destruct (decide (k < 4)%nat).
    + rewrite lookup_take_lt by lia. destruct (decide (k = Z.to_nat i)) as [->|].
      * rewrite !list_lookup_insert_eq; [done|rewrite length_take; lia|lia].
      * rewrite !list_lookup_insert_ne by lia. by rewrite lookup_take_lt by lia.
    + rewrite lookup_take_ge by lia. symmetry. apply lookup_ge_None. rewrite length_insert, length_take. lia.
  - intros k l Hk. destruct (H8 k l Hk) as (pe' & Hpe' & Hok). exists pe'. by rewrite list_lookup_insert_ne by lia.
Qed.

Lemma prims_set mbr top i pe p : prims_ok mbr top -> 0 <= i <= 3 -> top !! Z.to_nat i = Some pe ->
  prims_ok mbr (<[Z.to_nat i := set_ext_pointer p pe]> top).
Proof.
  intros [Hl Hp] Hi Hpe. split; [by rewrite length_insert|]. intros k Hk. destruct (decide (k = i)) as [->|].
  - exists (set_ext_pointer p pe). rewrite list_lookup_insert_eq by lia. split; [done|].
    destruct (Hp i Hi) as (pe' & Hpe' & Hok). by simplify_eq.
  - rewrite list_lookup_insert_ne by lia. by apply Hp.
Qed.

Section mbr.
Context (mbr : list Z) (old : list (list Z)).
Hypothesis (Hold : old !! 0%nat = Some mbr) (Hmbr : 510 <= zlen mbr).

Lemma old_lookup top ls self : table_ok top old ls self -> bufs self !! 0%nat = Some mbr.
Proof. intros T. rewrite <- (t_old _ _ _ _ T) in Hold. by apply lookup_take_Some in Hold as [? _]. Qed.

Lemma mbr_sys top ls self i : table_ok top old ls self -> 0 <= i <= 3 ->
  get_sys_ind (bufs self) (Some (0, slot i)) = Ret (sys mbr i).
Proof. intros T Hi. exact (get_sys_ind_run _ 0 _ _ (old_lookup _ _ _ T) Hi Hmbr). Qed.

Lemma read_extended_run top self i : table_ok top old [] self -> prims_ok mbr top -> extended_offset self = 0 -> 0 <= i <= 3 ->
  IS_EXTENDED (sys mbr i) = true ->
  exists top' self', read_extended e self i = Ret self' /\ prims_ok mbr top' /\
    (if start mbr i =? 0 then table_ok top' old [] self' /\ extended_offset self' = 0
     else table_ok top' old (chain e ssz 12 0 (start mbr i)) self').
Proof.
  intros T P He Hi Hx. destruct (proj2 P i Hi) as (pe & Hpe & Hprim). pose proof (old_lookup _ _ _ T) as Hb.
  assert (0 <= i < zlen (ptes self)) as Hin by (unfold zlen; rewrite (t_len _ _ _ _ T); lia).
  unfold read_extended. cbn [ptes set_ext_index]. rewrite (top_lookup _ _ _ _ _ _ T Hi Hpe). cbn [obind].
  rewrite aset_Ret by done. cbn [obind]. rewrite (proj1 Hprim). cbn [set_ptes bufs set_ext_index].
  change (get_start_sect (bufs self) (Some (0, slot i))) with (get_start_sect (bufs self) (Some (Z.of_nat 0, slot i))).
  rewrite (get_start_run _ _ _ _ Hb Hi Hmbr). cbn [obind].
  set (pe' := set_ext_pointer (Some (0, slot i)) pe). set (s1 := set_ptes _ _).
  assert (table_ok (<[Z.to_nat i := pe']> top) old [] s1) as T1 by (apply (set_top_ok _ _ _ (set_ext_index i self)); [by destruct T|done]).
  pose proof (prims_set mbr top i pe (Some (0, slot i)) P Hi Hpe) as P1. fold pe' in P1.
  exists (<[Z.to_nat i := pe']> top). destruct (start mbr i =? 0); [by exists s1|].
  rewrite (t_cnt _ _ _ _ T1). change (S (Z.to_nat (MAXIMUM_PARTS - (4 + zlen [])))) with 13%nat.
  destruct (ext_loop_run _ _ 12 [] s1 0 i mbr T1) as (self' & E & T'); [done|exact Hb|done|done|].
  change (Z.of_nat 0) with 0 in E. rewrite E. cbn [obind]. rewrite Hx in T'. change (extended_offset s1) with (extended_offset self) in T'.
  rewrite He, app_nil_l in T'. rewrite (t_cnt _ _ _ _ T').
  rewrite (report_empty_run _ _ _ _ T' (chain_nonempty _ _ _) _ 0); [by exists self'|unfold zlen; lia].
Qed.

(** Once logical partitions are there, further extended entries are skipped. *)
Lemma extended_loop_skip top ls self ks : table_ok top old ls self -> prims_ok mbr top -> ls <> [] ->
  Forall (fun i => 0 <= i <= 3) ks -> extended_loop e self ks = Ret self.
Proof.
  intros T P Hne. induction 1 as [|i ks Hi Hks IH]; [done|]. cbn [extended_loop].
  destruct (proj2 P i Hi) as (pe & Hpe & Hprim). rewrite (top_lookup _ _ _ _ _ _ T Hi Hpe). cbn [obind]. rewrite (proj1 Hprim).
  rewrite (mbr_sys _ _ _ _ T Hi). cbn [obind].
  assert ((partitions self =? 4) = false) as ->; [|by destruct (IS_EXTENDED _)].
  apply Z.eqb_neq. rewrite (t_cnt _ _ _ _ T). unfold zlen. destruct ls; [done|cbn; lia].
Qed.

Lemma extended_loop_run ks : Forall (fun i => 0 <= i <= 3) ks -> forall top self, table_ok top old [] self -> prims_ok mbr top ->
  extended_offset self = 0 ->
  exists top' self', extended_loop e self ks = Ret self' /\ prims_ok mbr top' /\
    table_ok top' old (match List.find (fun i => IS_EXTENDED (sys mbr i) && negb (start mbr i =? 0)) ks with
                       | Some i => chain e ssz 12 0 (start mbr i) | None => [] end) self'.
Proof.
  induction 1 as [|i ks Hi Hks IH]; intros top self T P He; [by exists top, self|]. cbn [extended_loop List.find].
  destruct (proj2 P i Hi) as (pe & Hpe & Hprim). rewrite (top_lookup _ _ _ _ _ _ T Hi Hpe). cbn [obind]. rewrite (proj1 Hprim).
  rewrite (mbr_sys _ _ _ _ T Hi). cbn [obind].
  destruct (IS_EXTENDED (sys mbr i)) eqn:Hx; cbn [andb obind]; [|by apply (IH top)].
  rewrite (t_cnt _ _ _ _ T). change (4 + zlen [] =? 4) with true. cbn [negb].
  destruct (read_extended_run top self i T P He Hi Hx) as (top' & self' & -> & P' & Hres). cbn [obind].
  destruct (start mbr i =? 0); cbn [negb].
  - destruct Hres as [T' He']. by apply (IH top').
  - exists top', self'. rewrite (extended_loop_skip top' (chain e ssz 12 0 (start mbr i)) self' ks Hres P'); [done|apply chain_nonempty|done].
Qed.
End mbr.
End chain.

(** ** The primary entries and the geometry *)
Definition prim (mbr : list Z) (i : Z) : pte := mk_pte (Some (0, slot i)) None 0 (Some 0) (start mbr i) (nr mbr i).

Lemma primary_loop_run mbr ks : Forall (fun i => 0 <= i <= 3) ks -> 510 <= zlen mbr -> forall self,
  bufs self !! 0%nat = Some mbr -> (4 <= length (ptes self))%nat ->
  primary_loop self ks = Ret (set_ptes (fold_left (fun l i => <[Z.to_nat i := prim mbr i]> l) ks (ptes self)) self).
Proof.
  intros Hks Hl. induction Hks as [|i ks Hi Hks IH]; intros self Hb Hn; [by destruct self|]. cbn [primary_loop fold_left].
  assert (0 <= i < zlen (ptes self)) as Hin by (unfold zlen; lia). destruct (aget_lt _ _ Hin) as (pe & -> & _). cbn [obind pt_offset].
  fold (slot i). rewrite (get_start_run _ 0 _ _ Hb Hi Hl : get_start_sect _ (Some (0, slot i)) = _). cbn [obind].
  rewrite (get_nr_run _ 0 _ _ Hb Hi Hl : get_nr_sects _ (Some (0, slot i)) = _). cbn [obind]. rewrite aset_Ret by done. cbn [obind].
  fold (prim mbr i). rewrite IH; [done|done|cbn; by rewrite length_insert].
Qed.

Lemma prims_fold mbr l : (4 <= length l)%nat ->
  exists l', fold_left (fun l i => <[Z.to_nat i := prim mbr i]> l) [0; 1; 2; 3] l = l' /\
    prims_ok mbr (take 4 l') /\ length l' = length l /\ drop 4 l' = drop 4 l.
Proof.
  intros H. destruct l as [|a [|b [|c [|d l]]]]; cbn in H; try lia. eexists. split; [reflexivity|].
  cbn [length]. split_and!; [|done|done]. split; [done|]. intros i Hi. exists (prim mbr i). split; [|done].
  assert (i = 0 \/ i = 1 \/ i = 2 \/ i = 3) as [->|[->|[->| ->]]] by lia; reflexivity.
Qed.

(** The fields the geometry does not touch. *)
Definition same_table (s s' : hd) : Prop :=
  bufs s' = bufs s /\ ptes s' = ptes s /\ partitions s' = partitions s /\ extended_offset s' = extended_offset s /\ fd s' = fd s.

Definition size_used (e : env) (self : hd) : Z :=
  if user_set_sector_size self =? 0 then default (sector_size self) (e_ssz e) else sector_size self.

(** The heads and sectors the system reports, if it does, are not 0. *)
Definition geo_ok (e : env) : Prop :=
  match e_geo_big e, e_geo e with
  | Some g, _ | None, Some g => u32 (fst g * snd g) <> 0
  | None, None => True
  end.

Lemma guess_device_type_same e self : same_table self (guess_device_type e self) /\
  sector_size (guess_device_type e self) = sector_size self.
Proof.
  unfold guess_device_type. destruct (e_stat e) as [[blk rdev]|]; [|done]. destruct (blk && _); [done|]. by destruct (blk && _).
Qed.

Lemma take_geometry_same e self : geo_ok e -> let r := take_geometry e self in
  same_table self (fst r) /\ sector_size (fst r) = sector_size self /\
  match e_geo_big e, e_geo e with
  | Some g, _ => heads (fst r) = fst g /\ sectors (fst r) = snd g /\ snd r = true
  | None, Some g => heads (fst r) = fst g /\ sectors (fst r) = snd g
  | None, None => snd r = false
  end.
Proof.
  unfold geo_ok, take_geometry. destruct (e_geo_big e) as [g|]; [|destruct (e_geo e) as [g|]; [|done]].
  all: intros Hg; cbn zeta; rewrite (proj2 (Z.eqb_neq _ 0)) by done; by destruct (negb _).
Qed.

Lemma internal_get_geometry_run e self : geo_ok e -> 512 <= size_used e self ->
  exists self', internal_get_geometry e self = Ret self' /\ same_table self self' /\ sector_size self' = size_used e self.
Proof.
  intros Hg Hs. unfold internal_get_geometry.
  assert (same_table self (get_sectorsize e self) /\ sector_size (get_sectorsize e self) = size_used e self) as [H1 E1].
  { unfold get_sectorsize, size_used. destruct (_ =? 0); [by destruct (e_ssz e)|done]. }
  set (s1 := get_sectorsize e self) in *. destruct (guess_device_type_same e s1) as [H2 E2].
  set (s2 := guess_device_type e s1) in *. set (s3 := set_sector_offset 1 _).
  destruct (take_geometry_same e s3 Hg) as (H4 & E4 & H5). set (s4 := fst (take_geometry e s3)) in *.
  assert (same_table self s4 /\ sector_size s4 = size_used e self) as [H6 E6].
  { unfold same_table in *. split; [|rewrite E4; change (sector_size s3) with (sector_size s2); congruence].
    destruct H4 as (-> & -> & -> & -> & ->). destruct H2 as (A & B & C & D & F), H1 as (A' & B' & C' & D' & F').
    cbn. by rewrite A, B, C, D, F. }
  assert (sector_size s1 / 512 <> 0) as Hfac by (rewrite E1; pose proof (Z.div_le_mono 512 _ 512 ltac:(lia) Hs); rewrite Z.div_same in *; lia).
  assert (exists s5, (match e_size e with
    | Some longsectors =>
        if snd (take_geometry e s3) || match e_geo e with Some _ => true | None => false end then
          let* c := cquot longsectors (u32 (heads s4 * sectors s4)) in
          let* c := cquot (u32 c) (sector_size s1 / 512) in
          Ret (set_cylinders c s4)
        else
          let* n := cquot longsectors (sector_size s1 / 512) in
          Ret (set_heads 1 (set_cylinders 1 (set_sectors (u32 n) s4)))
    | None => Ret s4
    end) = Ret s5 /\ same_table self s5 /\ sector_size s5 = size_used e self) as (s5 & -> & H7 & E7).
  { destruct (e_size e) as [n|]; [|by exists s4]. unfold cquot. rewrite (proj2 (Z.eqb_neq (sector_size s1 / 512) 0)) by done.
    unfold geo_ok in Hg. destruct (e_geo_big e) as [g|]; [|destruct (e_geo e) as [g|]].
    - destruct H5 as (-> & -> & ->). cbn [orb]. rewrite (proj2 (Z.eqb_neq _ 0)) by done. by eexists.
    - destruct H5 as (-> & ->). rewrite orb_true_r, (proj2 (Z.eqb_neq _ 0)) by done. by eexists.
    - rewrite H5. by eexists. }
  cbn [obind]. eexists. split; [reflexivity|]. repeat match goal with |- context [if ?c =? 0 then _ else _] => destruct (c =? 0) end; done.
Qed.

(** ** Opening a device *)

(** The device can be opened and its first sector read; [ssz] is the sector size. *)
Record ready (e : env) (self : hd) (device : list Z) (ssz : Z) : Prop := {
  r_name : zlen device <= 15;
  r_open : 0 <= e_open e;
  r_geo : geo_ok e;
  r_ssz : size_used e self = ssz;
  r_range : 512 <= ssz <= MAX_SECTOR_SIZE;
  r_good : e_bad e 0 = false;
  r_long : ssz <= zlen (e_bytes e);
  r_buf : exists buf rest, bufs self = buf :: rest /\ zlen buf = MAX_SECTOR_SIZE;
  r_ptes : length (ptes self) = 16%nat;
}.

Lemma hdll_open_prefix e self device ssz : ready e self device ssz ->
  exists mbr old s, hdll_open e self device = (let* s' := extended_loop e s [0; 1; 2; 3] in Ret (1, s')) /\
    bufs s = old /\ old !! 0%nat = Some mbr /\ zlen mbr = MAX_SECTOR_SIZE /\ sector_size s = ssz /\
    (forall k, 0 <= k < ssz -> byte mbr k = byte (e_bytes e) k) /\
    prims_ok mbr (take 4 (ptes s)) /\ length (ptes s) = 16%nat /\ drop 4 (ptes s) = drop 4 (ptes self) /\
    partitions s = partitions self /\ extended_offset s = extended_offset self.
Proof.
  intros [Hname Hopen Hgeo Hs Hr Hgood Hlong (buf & rest & Hb & Hbl) Hp]. unfold hdll_open.
  rewrite (proj2 (Z.ltb_ge 16 _)) by lia. set (s0 := set_fd (e_open e) (hdll_close (set_disk_device device self))).
  assert ((bufs s0 = bufs self /\ ptes s0 = ptes self /\ partitions s0 = partitions self /\
    extended_offset s0 = extended_offset self) /\ size_used e s0 = ssz) as [(A0 & B0 & C0 & D0) E0].
  { subst s0. unfold hdll_close. by destruct (0 <=? _). }
  change (fd s0) with (e_open e). rewrite (proj2 (Z.ltb_ge (e_open e) 0)) by done. clearbody s0.
  destruct (internal_get_geometry_run e s0 Hgeo) as (s1 & -> & H1 & E1); [lia|]. cbn [obind].
  assert (same_table s1 (update_units s1) /\ sector_size (update_units s1) = ssz) as [H2 E2].
  { unfold update_units. destruct (negb _ && _); by rewrite E0 in E1. }
  set (s2 := update_units s1) in *. unfold same_table in H1, H2.
  destruct H1 as (A1 & B1 & C1 & D1 & _), H2 as (A2 & B2 & C2 & D2 & _).
  assert (bufs s2 = buf :: rest) as A3 by congruence. rewrite A3. cbn [obind]. change (aget (buf :: rest) 0) with (Ret buf). cbn [obind].
  unfold read_at. rewrite Hgood, E2. change (drop (Z.to_nat 0) (e_bytes e)) with (e_bytes e).
  assert (zlen (take (Z.to_nat ssz) (e_bytes e)) = ssz) as Ht by (unfold zlen in *; rewrite length_take; lia).
  rewrite Ht, Hbl, (proj2 (Z.ltb_ge _ ssz)) by lia. cbn [obind fst snd]. rewrite Z.eqb_refl. cbn [negb].
  set (mbr := take _ _ ++ drop _ buf). change (aset (buf :: rest) 0 mbr) with (Ret (mbr :: rest)). cbn [obind].
  assert (zlen mbr = MAX_SECTOR_SIZE) as Hm by (subst mbr; unfold zlen in *; rewrite length_app, length_drop; lia).
  rewrite (primary_loop_run mbr [0; 1; 2; 3]); [|by repeat constructor|lia|done|cbn; rewrite B2, B1, B0, Hp; lia]. cbn [obind].
  cbn [ptes set_bufs]. destruct (prims_fold mbr (ptes s2)) as (l' & -> & P & L & D); [rewrite B2, B1, B0, Hp; lia|].
  eexists mbr, (mbr :: rest), _. split; [reflexivity|]. cbn [bufs ptes sector_size partitions extended_offset set_ptes set_bufs].
  split_and!; try done.
  all: try (rewrite ?L, ?C2, ?C1, ?C0, ?D2, ?D1, ?D0, ?D, ?B2, ?B1, ?B0, ?E2, ?L, ?Hp; reflexivity).
  intros k Hk. subst mbr. unfold byte.
  rewrite lookup_app_l by (unfold zlen in Ht; lia). by rewrite lookup_take_lt by lia.
Qed.

Lemma byte_fields ssz mbr sec i : 512 <= ssz -> (forall k, 0 <= k < ssz -> byte mbr k = byte sec k) -> 0 <= i <= 3 ->
  sys mbr i = sys sec i /\ start mbr i = start sec i /\ nr mbr i = nr sec i.
Proof. intros Hs Hk Hi. unfold sys, start, nr, le4, slot. rewrite !Hk by lia. done. Qed.

Lemma logicals_ext e ssz sec sec' :
  (forall i, 0 <= i <= 3 -> sys sec i = sys sec' i /\ start sec i = start sec' i) -> logicals e ssz sec = logicals e ssz sec'.
Proof.
  intros H. unfold logicals.
  assert (List.find (fun i => IS_EXTENDED (sys sec i) && negb (start sec i =? 0)) [0; 1; 2; 3] =
          List.find (fun i => IS_EXTENDED (sys sec' i) && negb (start sec' i =? 0)) [0; 1; 2; 3]) as ->.
  { cbn [List.find]. pose proof (H 0 ltac:(lia)) as [E0 F0]. pose proof (H 1 ltac:(lia)) as [E1 F1].
    pose proof (H 2 ltac:(lia)) as [E2 F2]. pose proof (H 3 ltac:(lia)) as [E3 F3].
    by rewrite E0, F0, E1, F1, E2, F2, E3, F3. }
  destruct (List.find _ _) as [i|] eqn:E; [|done]. apply find_slot in E as [Hi _]. by destruct (H i Hi) as [_ ->].
Qed.

(** The table of [self] is the one of a disk with first sector [mbr]. *)
Definition table_read (e : env) (ssz : Z) (self : hd) : Prop :=
    number_of_partitions self = 4 + zlen (logicals e ssz (e_bytes e)) /\
    (forall i, 0 <= i <= 3 -> exists pe, get_partition_entry self i = Ret pe /\
       start_sector pe = start (e_bytes e) i /\ num_of_sectors pe = nr (e_bytes e) i /\
       partition_sysname self i = Ret (partition_type (sys (e_bytes e) i))) /\
    (forall k l, logicals e ssz (e_bytes e) !! k = Some l -> exists pe, get_partition_entry self (4 + Z.of_nat k) = Ret pe /\
       start_sector pe = l_start l /\ (forall n, l_size l = Some n -> num_of_sectors pe = n) /\
       partition_sysname self (4 + Z.of_nat k) = Ret (partition_type (l_type l))).

Lemma hdll_open_run e m device ssz : ready e (new_hd_lowlevel_io m) device ssz ->
  (exists buf, e_malloc e ssz = Some buf /\ zlen buf = ssz) ->
  exists self, hdll_open e (new_hd_lowlevel_io m) device = Ret (1, self) /\ table_read e ssz self.
Proof.
  intros R Hm. destruct (hdll_open_prefix _ _ _ _ R) as (mbr & old & s & -> & Hold & Hb & Hml & Hs & Hbytes & P & Hl & Hd & Hn & He).
  pose proof (r_range _ _ _ _ R) as Hr. assert (510 <= zlen mbr) as Hml' by (rewrite Hml; unfold MAX_SECTOR_SIZE; lia).
  assert (forall i, 0 <= i <= 3 -> sys mbr i = sys (e_bytes e) i /\ start mbr i = start (e_bytes e) i /\ nr mbr i = nr (e_bytes e) i)
    as Hf by (intros i Hi; apply (byte_fields ssz); [lia|done|done]).
  destruct (extended_loop_run e ssz Hr Hm mbr old Hb Hml' [0; 1; 2; 3]) with (top := take 4 (ptes s)) (self := s)
    as (top & self & -> & P' & T); [by repeat constructor| |done|done|].
  { split; cbn; try done; try lia; rewrite ?Hold, ?Nat.add_0_r, ?firstn_all; done. }
  exists self. split; [done|]. unfold table_read.
  assert (logicals e ssz (e_bytes e) = logicals e ssz mbr) as ->.
  { symmetry. apply logicals_ext. intros i Hi. by destruct (Hf i Hi) as (-> & -> & _). }
  fold (logicals e ssz mbr) in T. split_and!.
  - apply (t_cnt _ _ _ _ _ T).
  - intros i Hi. destruct (proj2 P' i Hi) as (pe & Hpe & Hpt & _ & Hst & Hnr). exists pe. unfold get_partition_entry, partition_sysname.
    rewrite (top_lookup _ _ _ _ _ _ _ T Hi Hpe). cbn [obind]. rewrite Hpt, (mbr_sys _ _ _ Hb Hml' _ _ _ _ T Hi). cbn [obind].
    destruct (Hf i Hi) as (-> & <- & <-). done.
  - intros k l Hk. destruct (t_ent _ _ _ _ _ T k l Hk) as (pe & Hpe & sec & i & j & Hsec & Hsl & Hi & _ & _ & Hpt & _ & Hty & _ & Hst & Hnum).
    exists pe. unfold get_partition_entry, partition_sysname. replace (4 + Z.of_nat k) with (Z.of_nat (4 + k)) by lia.
    rewrite (aget_nat _ _ _ Hpe). cbn [obind]. rewrite Hpt, (get_sys_ind_run _ _ _ _ Hsec Hi); [|lia]. cbn [obind]. by rewrite Hty.
Qed.

(** C13: whatever is on the disk, opening it gives the four primary partitions of the
    first sector, and behind them the logical partitions of the chain of boot records,
    of which at most twelve are followed: their number, first sectors, sizes and types
    are the ones of the definition on sectors [logicals]. *)
Theorem hdll_open_reads e m device ssz : ready e (new_hd_lowlevel_io m) device ssz ->
  (exists buf, e_malloc e ssz = Some buf /\ zlen buf = ssz) ->
  exists self, hdll_open e (new_hd_lowlevel_io m) device = Ret (1, self) /\
    number_of_partitions self = 4 + zlen (logicals e ssz (e_bytes e)) /\
    (forall i, 0 <= i <= 3 -> exists pe, get_partition_entry self i = Ret pe /\
       start_sector pe = start (e_bytes e) i /\ num_of_sectors pe = nr (e_bytes e) i /\
       partition_sysname self i = Ret (partition_type (sys (e_bytes e) i))) /\
    (forall k l, logicals e ssz (e_bytes e) !! k = Some l -> exists pe, get_partition_entry self (4 + Z.of_nat k) = Ret pe /\
       start_sector pe = l_start l /\ (forall n, l_size l = Some n -> num_of_sectors pe = n) /\
       partition_sysname self (4 + Z.of_nat k) = Ret (partition_type (l_type l))).
Proof. apply hdll_open_run. Qed.

(** The conventional layout: a record with one partition (type, offset, size) and the
    link to the next one, or none. *)
Record ebr := mk_ebr { b_type : Z; b_off : Z; b_size : Z }.
Definition plain_ebr (sec : list Z) (x : ebr) : Prop :=
  sys sec 0 = b_type x /\ start sec 0 = b_off x /\ nr sec 0 = b_size x /\
  b_size x <> 0 /\ b_type x <> 0 /\ IS_EXTENDED (b_type x) = false /\ nr sec 2 = 0 /\ nr sec 3 = 0.
Fixpoint laid_out (e : env) (ssz base n : Z) (xs : list (Z * ebr)) : Prop :=
  match xs with
  | [] => False
  | (at_, x) :: xs =>
      at_ = n /\ plain_ebr (sector e ssz n) x /\
      match xs with
      | [] => nr (sector e ssz n) 1 = 0 /\ sys (sector e ssz n) 1 = 0
      | _ :: _ => nr (sector e ssz n) 1 <> 0 /\ IS_EXTENDED (sys (sector e ssz n) 1) = true /\
                  laid_out e ssz base (u32 (base + start (sector e ssz n) 1)) xs
      end
  end.
Definition of_ebr (x : Z * ebr) : logical :=
  mk_logical (fst x) (u32 (fst x + b_off (snd x))) (Some (b_size (snd x))) (b_type (snd x)).

Lemma plain_slots sec x : plain_ebr sec x -> data_slot sec = Some 0 /\ part_slot sec = 0 /\ next_slot sec = 1.
Proof.
  intros (H1 & H2 & H3 & H4 & H5 & H6 & H7 & H8).
  assert (is_data sec 0 = true) as Hd.
  { unfold is_data. rewrite H1, H3, H6, (proj2 (Z.eqb_neq (b_size x) 0)), (proj2 (Z.eqb_neq (b_type x) 0)) by done. done. }
  assert (data_slot sec = Some 0) as E by (unfold data_slot; cbn [List.find]; by rewrite Hd).
  assert (part_slot sec = 0) as E' by (unfold part_slot; by rewrite E). split_and!; [done..|].
  unfold next_slot, link_slot. cbn [List.find]. unfold is_link. rewrite H1, H6, andb_false_r, H7, H8. cbn [negb andb Z.eqb].
  destruct (_ && _); [done|]. by rewrite E'.
Qed.

(** Links are relative to the first record. *)
Lemma conventional_chain e ssz base n xs : forall k s, laid_out e ssz base n xs -> base <> 0 ->
  n = u32 (base + s) -> chain e ssz k base s = take k (of_ebr <$> xs).
Proof.
  intros k. revert n xs. induction k as [|k IH]; intros n [|[at_ x] xs] s H Hb ->; [done..|].
  destruct H as (-> & Hx & H). cbn [chain]. set (sec := sector e ssz _) in *.
  destruct (plain_slots _ _ Hx) as (E1 & E2 & E3). destruct Hx as (A & B & C & _).
  rewrite fmap_cons. cbn [take]. f_equal.
  - unfold logical_at. fold sec. rewrite E1, E2. unfold of_ebr. cbn. by rewrite A, B, C.
  - rewrite E3. destruct xs as [|y xs].
    + destruct H as [_ ->]. cbn. by destruct k.
    + destruct H as (_ & -> & H). rewrite (proj2 (Z.eqb_neq base 0)) by done. by apply (IH (u32 (base + start sec 1))).
Qed.

Lemma conventional_first e ssz s xs k : laid_out e ssz s (u32 s) xs -> s <> 0 ->
  chain e ssz k 0 s = take k (of_ebr <$> xs).
Proof.
  intros H Hs. rewrite <- (conventional_chain e ssz s (u32 s) xs k 0 H Hs) by (by rewrite Z.add_0_r). destruct k as [|k]; [done|].
  cbn [chain]. rewrite Z.add_0_l, Z.add_0_r. cbn [Z.eqb]. by rewrite (proj2 (Z.eqb_neq s 0)).
Qed.

(** Logical partitions laid out the conventional way (the first extended entry of
    the disk leads to a chain of records, each with its partition in the first entry
    and the link in the second) are found in order, up to twelve of them: each starts
    at the sector of its record plus its offset and has its size and type. *)
Theorem hdll_finds_conventional e m device ssz i s xs : ready e (new_hd_lowlevel_io m) device ssz ->
  (exists buf, e_malloc e ssz = Some buf /\ zlen buf = ssz) ->
  List.find (fun i => IS_EXTENDED (sys (e_bytes e) i) && negb (start (e_bytes e) i =? 0)) [0; 1; 2; 3] = Some i ->
  start (e_bytes e) i = s -> laid_out e ssz s (u32 s) xs ->
  exists self, hdll_open e (new_hd_lowlevel_io m) device = Ret (1, self) /\
    number_of_partitions self = 4 + Z.min 12 (zlen xs) /\
    forall k at_ x, (k < 12)%nat -> xs !! k = Some (at_, x) ->
      exists pe, get_partition_entry self (4 + Z.of_nat k) = Ret pe /\
        start_sector pe = u32 (at_ + b_off x) /\ num_of_sectors pe = b_size x /\
        partition_sysname self (4 + Z.of_nat k) = Ret (partition_type (b_type x)).
Proof.
  intros R Hm Hfind <- Hlay. destruct (hdll_open_run e m device ssz R Hm) as (self & E & N & _ & L). exists self. split; [done|].
  assert (start (e_bytes e) i <> 0) as Hs.
  { apply find_slot in Hfind as [_ Hx]. intros H0. by rewrite H0, andb_false_r in Hx. }
  assert (logicals e ssz (e_bytes e) = take 12 (of_ebr <$> xs)) as Hlog.
  { unfold logicals. rewrite Hfind. by apply conventional_first. }
  rewrite Hlog in N, L. split.
  - rewrite N. unfold zlen. rewrite length_take, length_fmap. lia.
  - intros k at_ x Hk Hx. destruct (L k (of_ebr (at_, x))) as (pe & Hpe & Hst & Hsz & Hty).
    { rewrite lookup_take_lt by done. by rewrite list_lookup_fmap, Hx. }
    exists pe. split_and!; [done|done|by apply Hsz|done].
Qed.

(** The number of partitions and the logical entries are not reset: a handle whose
    first device had logical partitions keeps them, whatever the next device holds. *)
Theorem hdll_reopen_stale e self device ssz : ready e self device ssz -> partitions self <> 4 ->
  exists self', hdll_open e self device = Ret (1, self') /\
    number_of_partitions self' = partitions self /\ drop 4 (ptes self') = drop 4 (ptes self).
Proof.
  intros R Hne. destruct (hdll_open_prefix _ _ _ _ R) as (mbr & old & s & -> & Hold & Hb & Hml & Hs & Hbytes & P & Hl & Hd & Hn & He).
  exists s. assert (extended_loop e s [0; 1; 2; 3] = Ret s) as ->; [|done].
  assert (forall ks, Forall (fun i => 0 <= i <= 3) ks -> extended_loop e s ks = Ret s) as H; [|apply H; by repeat constructor].
  induction 1 as [|i ks Hi Hks IH]; [done|]. cbn [extended_loop]. destruct (proj2 P i Hi) as (pe & Hpe & Hpt & _).
  rewrite (aget_Some _ i pe); [|lia|by apply lookup_take_Some in Hpe as [? _]]. cbn [obind]. rewrite Hpt.
  subst old. assert (510 <= zlen mbr) as Hl' by (rewrite Hml; unfold MAX_SECTOR_SIZE; lia).
  rewrite (get_sys_ind_run _ 0 _ _ Hb Hi Hl' : get_sys_ind _ (Some (0, slot i)) = _).
  cbn [obind]. rewrite Hn, (proj2 (Z.eqb_neq _ 4)) by done. by destruct (IS_EXTENDED _).
Qed.

(** ** A small disk: one primary partition, an extended one with two logical ones *)
Definition demo_entry (t st n : Z) : list Z :=
  [0; 0; 0; 0; t; 0; 0; 0] ++ store4_little_endian st ++ store4_little_endian n.
Definition demo_sector (es : list (list Z)) : list Z := replicate 446 0 ++ mjoin es ++ [85; 170].
Definition demo_null : list Z := demo_entry 0 0 0.
Definition demo_disk : list Z :=
  demo_sector [demo_entry 0x83 1 2; demo_entry 5 3 4; demo_null; demo_null] ++ replicate 1024 0 ++
  demo_sector [demo_entry 0x82 1 1; demo_entry 5 2 2; demo_null; demo_null] ++ replicate 512 0 ++
  demo_sector [demo_entry 0x83 1 1; demo_null; demo_null; demo_null] ++ replicate 512 0.
Definition demo_env : env :=
  mk_env 3 demo_disk (fun _ => false) None (Some 7) None (Some (2, 3)) (Some (true, 0x300)) (fun n => Some (replicate (Z.to_nat n) 0)).
Definition demo_pte : pte := mk_pte None None 0 None 0 0.
Definition demo_mem : hd := mk_hd 0 0 0 0 0 0 0 0 0 0 0 0 0 0 0 0 [replicate 2048 0] (replicate 16 demo_pte) [] 0 0.

Lemma demo_ready : ready demo_env (new_hd_lowlevel_io demo_mem) [47] 512.
Proof.
  split; try (vm_compute; reflexivity); try (vm_compute; discriminate).
  - vm_compute. split; discriminate.
  - exists (replicate 2048 0), []. split; vm_compute; reflexivity.
Qed.

Lemma hdll_open_reads_witness :
  logicals demo_env 512 demo_disk = [mk_logical 3 4 (Some 1) 0x82; mk_logical 5 6 (Some 1) 0x83] /\
  exists self, hdll_open demo_env (new_hd_lowlevel_io demo_mem) [47] = Ret (1, self) /\ number_of_partitions self = 6.
Proof.
  split; [vm_compute; reflexivity|].
  destruct (hdll_open_reads demo_env demo_mem [47] 512 demo_ready) as (self & E & N & _).
  - exists (replicate 512 0). split; vm_compute; reflexivity.
  - exists self. split; [exact E|]. etransitivity; [exact N|]. vm_compute. reflexivity.
Defined.

Lemma hdll_finds_conventional_witness :
  exists self, hdll_open demo_env (new_hd_lowlevel_io demo_mem) [47] = Ret (1, self) /\ number_of_partitions self = 6 /\
    exists pe, get_partition_entry self 5 = Ret pe /\ start_sector pe = 6 /\ num_of_sectors pe = 1.
Proof.
  destruct (hdll_finds_conventional demo_env demo_mem [47] 512 1 3 [(3, mk_ebr 0x82 1 1); (5, mk_ebr 0x83 1 1)] demo_ready)
    as (self & E & N & L).
  - exists (replicate 512 0). split; vm_compute; reflexivity.
  - vm_compute. reflexivity.
  - vm_compute. reflexivity.
  - cbn [laid_out]. unfold plain_ebr. repeat split; vm_compute; congruence.
  - exists self. split; [exact E|]. split; [exact N|].
    destruct (L 1%nat 5 (mk_ebr 0x83 1 1)) as (pe & A & B & C & _); [lia|reflexivity|].
    exists pe. split; [exact A|]. split; [exact B|exact C].
Defined.

(** The same handle on a disk of zeros still shows six partitions. *)
Definition demo_used : hd :=
  match hdll_open demo_env (new_hd_lowlevel_io demo_mem) [47] with Ret (_, s) => s | _ => demo_mem end.
Definition demo_blank : env :=
  mk_env 3 (replicate 512 0) (fun _ => false) None (Some 1) None (Some (2, 3)) None (fun n => Some (replicate (Z.to_nat n) 0)).

Lemma hdll_reopen_stale_witness :
  exists self', hdll_open demo_blank demo_used [47] = Ret (1, self') /\ number_of_partitions self' = 6 /\
    drop 4 (ptes self') = drop 4 (ptes demo_used).
Proof.
  refine (hdll_reopen_stale demo_blank demo_used [47] 512 _ _).
  - split; try (vm_compute; reflexivity); try (vm_compute; discriminate).
    + vm_compute. split; discriminate.
    + eexists _, _. split; vm_compute; reflexivity.
  - vm_compute. discriminate.
Defined.

(** A geometry of 0 heads divides by zero although the other call gave one. *)
Example hdll_geometry_zero :
  internal_get_geometry (mk_env 3 [] (fun _ => false) None (Some 7) (Some (0, 0)) (Some (2, 3)) None (fun _ => None))
    (new_hd_lowlevel_io demo_mem) = Fault DivByZero.
Proof. vm_compute. reflexivity. Qed.
End HD.
