(* ===== verification/Md5.v ===== *)
(** * Md5.v: the message digest of misclib/md5.c and md5sum/md5sum.c

    The digest is computed while bytes arrive: [md5_process_bytes] keeps up to 64 of
    them in the buffer of the context and hashes whole blocks.  However the bytes are
    cut into calls, the result is the digest of RFC 1321, whose description is the
    reference here: padding, one step per index with its function, word, shift and
    constant.

    Words are 32-bit and little-endian, as on the machine the code is written for. *)

From S2P Require Import Prelude Posix Wire Cstr.

Module MD.
Abbreviation hex := CS.hex.

Definition regs : Type := Z * Z * Z * Z.

(** [struct md5_ctx]. *)
Record ctx := mk_ctx {
  A : Z; B : Z; C : Z; D : Z;
  total0 : Z; total1 : Z;
  buflen : Z;
  buffer : list Z;
}.
Definition set_buflen (v : Z) (c : ctx) : ctx := mk_ctx (A c) (B c) (C c) (D c) (total0 c) (total1 c) v (buffer c).
Definition set_buffer (v : list Z) (c : ctx) : ctx := mk_ctx (A c) (B c) (C c) (D c) (total0 c) (total1 c) (buflen c) v.
Definition set_total (t0 t1 : Z) (c : ctx) : ctx := mk_ctx (A c) (B c) (C c) (D c) t0 t1 (buflen c) (buffer c).

Definition fillbuf : list Z := 0x80 :: replicate 63 0.

Definition md5_init_ctx (c : ctx) : ctx :=
  mk_ctx 0x67452301 0xefcdab89 0x98badcfe 0x10325476 0 0 0 (buffer c).
Definition md5_read_ctx (c : ctx) : list Z := le32 (A c) ++ le32 (B c) ++ le32 (C c) ++ le32 (D c).

(** ** One block *)
Definition not32 (d : Z) : Z := Z.lxor d 0xffffffff.
Definition FF (b c d : Z) : Z := Z.lxor d (Z.land b (Z.lxor c d)).
Definition FG (b c d : Z) : Z := FF d b c.
Definition FH (b c d : Z) : Z := Z.lxor (Z.lxor b c) d.
Definition FI (b c d : Z) : Z := Z.lxor c (Z.lor b (not32 d)).
Definition CYCLIC (w s : Z) : Z := Z.lor (u32 (Z.shiftl w s)) (Z.shiftr w (32 - s)).
Definition OP (f : Z -> Z -> Z -> Z) (a b c d w s T : Z) : Z :=
  let a := u32 (a + u32 (f b c d + w + T)) in
  let a := CYCLIC a s in
  u32 (a + b).

(** Four operations; the registers take turns. *)
Definition quad (f : Z -> Z -> Z -> Z) (st : regs) (o1 o2 o3 o4 : Z * Z * Z) : regs :=
  let '(A, B, C, D) := st in
  let '(w1, s1, T1) := o1 in
  let '(w2, s2, T2) := o2 in
  let '(w3, s3, T3) := o3 in
  let '(w4, s4, T4) := o4 in
  let A := OP f A B C D w1 s1 T1 in
  let D := OP f D A B C w2 s2 T2 in
  let C := OP f C D A B w3 s3 T3 in
  let B := OP f B C D A w4 s4 T4 in
  (A, B, C, D).

(** The body of the loop of [md5_process_block]; [x k] is [correct_words[k]]. *)
Definition block_ops (x : Z -> Z) (st : regs) : regs :=
  let st := quad FF st (x 0, 7, 0xd76aa478) (x 1, 12, 0xe8c7b756) (x 2, 17, 0x242070db) (x 3, 22, 0xc1bdceee) in
  let st := quad FF st (x 4, 7, 0xf57c0faf) (x 5, 12, 0x4787c62a) (x 6, 17, 0xa8304613) (x 7, 22, 0xfd469501) in
  let st := quad FF st (x 8, 7, 0x698098d8) (x 9, 12, 0x8b44f7af) (x 10, 17, 0xffff5bb1) (x 11, 22, 0x895cd7be) in
  let st := quad FF st (x 12, 7, 0x6b901122) (x 13, 12, 0xfd987193) (x 14, 17, 0xa679438e) (x 15, 22, 0x49b40821) in
  let st := quad FG st (x 1, 5, 0xf61e2562) (x 6, 9, 0xc040b340) (x 11, 14, 0x265e5a51) (x 0, 20, 0xe9b6c7aa) in
  let st := quad FG st (x 5, 5, 0xd62f105d) (x 10, 9, 0x02441453) (x 15, 14, 0xd8a1e681) (x 4, 20, 0xe7d3fbc8) in
  let st := quad FG st (x 9, 5, 0x21e1cde6) (x 14, 9, 0xc33707d6) (x 3, 14, 0xf4d50d87) (x 8, 20, 0x455a14ed) in
  let st := quad FG st (x 13, 5, 0xa9e3e905) (x 2, 9, 0xfcefa3f8) (x 7, 14, 0x676f02d9) (x 12, 20, 0x8d2a4c8a) in
  let st := quad FH st (x 5, 4, 0xfffa3942) (x 8, 11, 0x8771f681) (x 11, 16, 0x6d9d6122) (x 14, 23, 0xfde5380c) in
  let st := quad FH st (x 1, 4, 0xa4beea44) (x 4, 11, 0x4bdecfa9) (x 7, 16, 0xf6bb4b60) (x 10, 23, 0xbebfbc70) in
  let st := quad FH st (x 13, 4, 0x289b7ec6) (x 0, 11, 0xeaa127fa) (x 3, 16, 0xd4ef3085) (x 6, 23, 0x04881d05) in
  let st := quad FH st (x 9, 4, 0xd9d4d039) (x 12, 11, 0xe6db99e5) (x 15, 16, 0x1fa27cf8) (x 2, 23, 0xc4ac5665) in
  let st := quad FI st (x 0, 6, 0xf4292244) (x 7, 10, 0x432aff97) (x 14, 15, 0xab9423a7) (x 5, 21, 0xfc93a039) in
  let st := quad FI st (x 12, 6, 0x655b59c3) (x 3, 10, 0x8f0ccc92) (x 10, 15, 0xffeff47d) (x 1, 21, 0x85845dd1) in
  let st := quad FI st (x 8, 6, 0x6fa87e4f) (x 15, 10, 0xfe2ce6e0) (x 6, 15, 0xa3014314) (x 13, 21, 0x4e0811a1) in
  let st := quad FI st (x 4, 6, 0xf7537e82) (x 11, 10, 0xbd3af235) (x 2, 15, 0x2ad7d2bb) (x 9, 21, 0xeb86d391) in
  st.

Definition add_regs (s t : regs) : regs :=
  let '(a, b, c, d) := s in
  let '(a', b', c', d') := t in
  (u32 (a + a'), u32 (b + b'), u32 (c + c'), u32 (d + d')).

Definition word (block : list Z) (k : Z) : Z := le_val (slice block (4 * k) 4).

(** The loop: every round takes 16 words. *)
Fixpoint block_loop (fuel : nat) (st : regs) (data : list Z) : outcome regs :=
  match fuel with
  | O => Fault OutOfFuel
  | S fuel =>
      if zlen data =? 0 then Ret st
      else if zlen data <? 64 then Fault OutOfBounds
      else block_loop fuel (add_regs (block_ops (word (take 64 data)) st) st) (drop 64 data)
  end.

(** [data] are the [len] bytes at the pointer. *)
Definition md5_process_block (data : list Z) (c : ctx) : outcome ctx :=
  let len := zlen data in
  let t0 := u32 (total0 c + len) in
  let t1 := if t0 <? len then u32 (total1 c + 1) else total1 c in
  let* st := block_loop (S (length data)) (A c, B c, C c, D c) (take (Z.to_nat (4 * (len / 4))) data) in
  let '(a, b, cc, d) := st in
  Ret (mk_ctx a b cc d t0 t1 (buflen c) (buffer c)).

(** ** Bytes.  [x & ~63] and [x & 63]. *)
Definition whole (x : Z) : Z := Z.land x (Z.lnot 63).
Definition part (x : Z) : Z := Z.land x 63.

(** Lines 61-79: the buffer is filled up; the context and the bytes that are left. *)
Definition fill_buffer (data : list Z) (c : ctx) : outcome (ctx * list Z) :=
  if buflen c =? 0 then Ret (c, data)
  else
    let left_over := buflen c in
    let add := if zlen data <? 128 - left_over then zlen data else 128 - left_over in
    let* buf := blit (buffer c) left_over (take (Z.to_nat add) data) in
    let c := set_buflen (buflen c + add) (set_buffer buf c) in
    let n := left_over + add in
    let* c := (
      if 64 <? n then
        let* c := md5_process_block (slice (buffer c) 0 (whole n)) c in
        let* buf := blit (buffer c) 0 (slice (buffer c) (whole n) (part n)) in
        Ret (set_buflen (part n) (set_buffer buf c))
      else Ret c) in
    Ret (c, drop (Z.to_nat add) data).

Definition md5_process_bytes (data : list Z) (c : ctx) : outcome ctx :=
  let* r := fill_buffer data c in
  let c := fst r in
  let data := snd r in
  let* r := (
    if 64 <? zlen data then
      let* c := md5_process_block (take (Z.to_nat (whole (zlen data))) data) c in
      Ret (c, drop (Z.to_nat (whole (zlen data))) data)
    else Ret (c, data)) in
  let c := fst r in
  let data := snd r in
  if 0 <? zlen data then
    let* buf := blit (buffer c) 0 data in
    Ret (set_buflen (zlen data) (set_buffer buf c))
  else Ret c.

Definition md5_finish_ctx (c : ctx) : outcome (list Z * ctx) :=
  let n := buflen c in
  let t0 := u32 (total0 c + n) in
  let t1 := if t0 <? n then u32 (total1 c + 1) else total1 c in
  let c := set_total t0 t1 c in
  let pad := if 56 <=? n then 64 + 56 - n else 56 - n in
  if 64 <? pad then Fault OutOfBounds
  else
    let* buf := blit (buffer c) n (take (Z.to_nat pad) fillbuf) in
    let* buf := blit buf (n + pad) (le32 (Z.shiftl t0 3)) in
    let* buf := blit buf (n + pad + 4) (le32 (Z.lor (Z.shiftl t1 3) (Z.shiftr t0 29))) in
    let c := set_buffer buf c in
    let* c := md5_process_block (slice buf 0 (n + pad + 8)) c in
    Ret (md5_read_ctx c, c).

(** [c0] is the uninitialised context on the stack. *)
Definition md5sum (c0 : ctx) (data : list Z) : outcome (list Z) :=
  let* c := md5_process_bytes data (md5_init_ctx c0) in
  let* r := md5_finish_ctx c in
  Ret (fst r).

(** ** The object of md5sum.c *)
Record sum := mk_sum { s_ctx : ctx; s_md : list Z; s_msg : list Z; s_finished : Z }.

Definition md5sum_init (self : sum) : sum := mk_sum (md5_init_ctx (s_ctx self)) (s_md self) (s_msg self) 0.
Definition md5sum_process_bytes (self : sum) (data : list Z) : outcome sum :=
  let* c := md5_process_bytes data (s_ctx self) in Ret (mk_sum c (s_md self) (s_msg self) (s_finished self)).
Definition md5sum_finish (self : sum) : outcome sum :=
  let* r := md5_finish_ctx (s_ctx self) in Ret (mk_sum (snd r) (fst r) (s_msg self) 1).

Fixpoint print_loop (md : list Z) (j : Z) (msg : list Z) : outcome (list Z) :=
  match md with
  | [] => Ret msg
  | b :: md =>
      let* msg := blit msg j (CS.hex b ++ [0]) in
      print_loop md (j + 2) msg
  end.
Definition md5sum_md5 (self : sum) : outcome sum :=
  let* self := (if s_finished self =? 0 then md5sum_finish self else Ret self) in
  let* msg := print_loop (s_md self) 0 (s_msg self) in
  Ret (mk_sum (s_ctx self) (s_md self) msg (s_finished self)).
Definition new_md5sum (m : sum) : sum := md5sum_init m.

(** ** Reference: RFC 1321 *)
Definition rfc_f (i b c d : Z) : Z :=
  if i <? 16 then Z.lor (Z.land b c) (Z.ldiff d b)
  else if i <? 32 then Z.lor (Z.land b d) (Z.ldiff c d)
  else if i <? 48 then Z.lxor (Z.lxor b c) d
  else Z.lxor c (Z.lor b (not32 d)).
Definition rfc_k (i : Z) : Z :=
  if i <? 16 then i else if i <? 32 then (5 * i + 1) mod 16 else if i <? 48 then (3 * i + 5) mod 16 else (7 * i) mod 16.
Definition rfc_s (i : Z) : Z :=
  let pick (l : list Z) := default 0 (l !! Z.to_nat (i mod 4)) in
  if i <? 16 then pick [7; 12; 17; 22] else if i <? 32 then pick [5; 9; 14; 20]
  else if i <? 48 then pick [4; 11; 16; 23] else pick [6; 10; 15; 21].
(** The integer part of 2^32 times the absolute value of the sine of i + 1. *)
Definition rfc_T (i : Z) : Z := default 0 (
  [0xd76aa478; 0xe8c7b756; 0x242070db; 0xc1bdceee;
   0xf57c0faf; 0x4787c62a; 0xa8304613; 0xfd469501;
   0x698098d8; 0x8b44f7af; 0xffff5bb1; 0x895cd7be;
   0x6b901122; 0xfd987193; 0xa679438e; 0x49b40821;
   0xf61e2562; 0xc040b340; 0x265e5a51; 0xe9b6c7aa;
   0xd62f105d; 0x02441453; 0xd8a1e681; 0xe7d3fbc8;
   0x21e1cde6; 0xc33707d6; 0xf4d50d87; 0x455a14ed;
   0xa9e3e905; 0xfcefa3f8; 0x676f02d9; 0x8d2a4c8a;
   0xfffa3942; 0x8771f681; 0x6d9d6122; 0xfde5380c;
   0xa4beea44; 0x4bdecfa9; 0xf6bb4b60; 0xbebfbc70;
   0x289b7ec6; 0xeaa127fa; 0xd4ef3085; 0x04881d05;
   0xd9d4d039; 0xe6db99e5; 0x1fa27cf8; 0xc4ac5665;
   0xf4292244; 0x432aff97; 0xab9423a7; 0xfc93a039;
   0x655b59c3; 0x8f0ccc92; 0xffeff47d; 0x85845dd1;
   0x6fa87e4f; 0xfe2ce6e0; 0xa3014314; 0x4e0811a1;
   0xf7537e82; 0xbd3af235; 0x2ad7d2bb; 0xeb86d391] !! Z.to_nat i).

Definition rotl (w s : Z) : Z := Z.lor (u32 (Z.shiftl w s)) (Z.shiftr w (32 - s)).
Definition rfc_step (x : Z -> Z) (st : regs) (i : Z) : regs :=
  let '(a, b, c, d) := st in
  (d, u32 (rotl (u32 (a + u32 (rfc_f i b c d + x (rfc_k i) + rfc_T i))) (rfc_s i) + b), b, c).
Definition compress (st : regs) (block : list Z) : regs :=
  add_regs (fold_left (rfc_step (word block)) (seqZ 0 64) st) st.
Fixpoint hash_blocks (n : nat) (st : regs) (l : list Z) : regs :=
  match n with O => st | S n => hash_blocks n (compress st (take 64 l)) (drop 64 l) end.

Definition IV : regs := (0x67452301, 0xefcdab89, 0x98badcfe, 0x10325476).
Definition padding (len : Z) : list Z :=
  0x80 :: replicate (Z.to_nat ((55 - len) mod 64)) 0 ++ le32 (8 * len) ++ le32 (8 * len / 2 ^ 32).
Definition digest (msg : list Z) : list Z :=
  let p := msg ++ padding (zlen msg) in
  let '(a, b, c, d) := hash_blocks (length p / 64) IV p in
  le32 a ++ le32 b ++ le32 c ++ le32 d.

(** ** The unrolled block equals the reference *)
Lemma FF_rfc b c d : FF b c d = Z.lor (Z.land b c) (Z.ldiff d b).
Proof.
  unfold FF. apply Z.bits_inj'. intros n Hn. rewrite !Z.lxor_spec, Z.lor_spec, !Z.land_spec, Z.ldiff_spec, Z.lxor_spec.
  by destruct (Z.testbit b n), (Z.testbit c n), (Z.testbit d n).
Qed.
Lemma FG_rfc b c d : FG b c d = Z.lor (Z.land b d) (Z.ldiff c d).
Proof. unfold FG. by rewrite FF_rfc, (Z.land_comm d b). Qed.

Lemma quad_eq f x i1 i2 i3 i4 st :
  (forall i b c d, i ∈ [i1; i2; i3; i4] -> f b c d = rfc_f i b c d) ->
  quad f st (x (rfc_k i1), rfc_s i1, rfc_T i1) (x (rfc_k i2), rfc_s i2, rfc_T i2)
    (x (rfc_k i3), rfc_s i3, rfc_T i3) (x (rfc_k i4), rfc_s i4, rfc_T i4) =
  fold_left (rfc_step x) [i1; i2; i3; i4] st.
Proof.
  intros H. destruct st as [[[a b] c] d]. unfold quad, OP, CYCLIC. cbn [fold_left rfc_step]. unfold rotl. cbv zeta.
  rewrite <- !(H i1), <- !(H i2), <- !(H i3), <- !(H i4) by set_solver. reflexivity.
Qed.

(** Replaces the last four reference steps by a group of operations. *)
Ltac md5_quad f :=
  rewrite <- (quad_eq f) by
    (intros i b c d Hi; repeat (apply elem_of_cons in Hi as [->|Hi]; [first [apply FF_rfc|apply FG_rfc|reflexivity]|]);
     by apply not_elem_of_nil in Hi).

Lemma block_ops_rfc x st : block_ops x st = fold_left (rfc_step x) (seqZ 0 64) st.
Proof.
  change (seqZ 0 64) with ([0; 1; 2; 3] ++ [4; 5; 6; 7] ++ [8; 9; 10; 11] ++ [12; 13; 14; 15] ++ [16; 17; 18; 19] ++
    [20; 21; 22; 23] ++ [24; 25; 26; 27] ++ [28; 29; 30; 31] ++ [32; 33; 34; 35] ++ [36; 37; 38; 39] ++ [40; 41; 42; 43] ++
    [44; 45; 46; 47] ++ [48; 49; 50; 51] ++ [52; 53; 54; 55] ++ [56; 57; 58; 59] ++ [60; 61; 62; 63]).
  rewrite !fold_left_app. unfold block_ops. cbv zeta.
  do 4 md5_quad FI. do 4 md5_quad FH. do 4 md5_quad FG. do 4 md5_quad FF. reflexivity.
Qed.

(** ** Blocks *)
Lemma hash_blocks_app n m st p q : length p = (64 * n)%nat ->
  hash_blocks (n + m) st (p ++ q) = hash_blocks m (hash_blocks n st p) q.
Proof.
  revert st p. induction n as [|n IH]; intros st p Hp.
  { by destruct p. }
  cbn [Nat.add hash_blocks]. rewrite take_app_le, drop_app_le by lia. apply IH. rewrite length_drop. lia.
Qed.

Lemma block_loop_run n : forall fuel st data, length data = (64 * n)%nat -> (n < fuel)%nat ->
  block_loop fuel st data = Ret (hash_blocks n st data).
Proof.
  induction n as [|n IH]; intros [|fuel] st data Hl Hf; try lia; cbn [block_loop hash_blocks].
  { unfold zlen. rewrite Hl. done. }
  unfold zlen. rewrite Hl, (proj2 (Z.eqb_neq _ 0)), (proj2 (Z.ltb_ge _ 64)) by lia.
  unfold compress at 1. rewrite block_ops_rfc. apply IH; [rewrite length_drop; lia|lia].
Qed.

(** The 64-bit count of bytes. *)
Definition total (c : ctx) : Z := total0 c + 2 ^ 32 * total1 c.
Definition total_ok (c : ctx) : Prop := 0 <= total0 c < 2 ^ 32 /\ 0 <= total1 c < 2 ^ 32.

Lemma carry t0 t1 n : 0 <= t0 < 2 ^ 32 -> 0 <= t1 < 2 ^ 32 -> 0 <= n < 2 ^ 32 ->
  let u0 := u32 (t0 + n) in
  let u1 := if u0 <? n then u32 (t1 + 1) else t1 in
  (0 <= u0 < 2 ^ 32 /\ 0 <= u1 < 2 ^ 32) /\ u0 + 2 ^ 32 * u1 = u64 (t0 + 2 ^ 32 * t1 + n).
Proof.
  intros H0 H1 Hn. cbv zeta. unfold u32, u64.
  destruct (Z.ltb_spec ((t0 + n) mod 2 ^ 32) n); Z.div_mod_to_equations; lia.
Qed.

(** The context has hashed [p] and keeps [b]: together the message so far. *)
Record rep (c : ctx) (msg : list Z) : Prop := {
  r_len : zlen (buffer c) = 128;
  r_tok : total_ok c;
  r_msg : exists p b n, msg = p ++ b /\ length p = (64 * n)%nat /\ (A c, B c, C c, D c) = hash_blocks n IV p /\
            total c = u64 (zlen p) /\ buflen c = zlen b /\ zlen b <= 64 /\ slice (buffer c) 0 (zlen b) = b;
}.

(** Hashing [data], a number of whole blocks. *)
Definition hashed (c : ctx) (data : list Z) (m : nat) : ctx :=
  let '(a, b, cc, d) := hash_blocks m (A c, B c, C c, D c) data in
  let t0 := u32 (total0 c + zlen data) in
  mk_ctx a b cc d t0 (if t0 <? zlen data then u32 (total1 c + 1) else total1 c) (buflen c) (buffer c).

Lemma md5_process_block_run c data m : length data = (64 * m)%nat ->
  md5_process_block data c = Ret (hashed c data m).
Proof.
  intros Hl. unfold md5_process_block. assert (zlen data = 64 * Z.of_nat m) as Hz by (unfold zlen; lia).
  replace (4 * (zlen data / 4)) with (zlen data) by (rewrite Hz; Z.div_mod_to_equations; lia).
  rewrite take_ge by (unfold zlen; lia). rewrite (block_loop_run m) by lia. cbn [obind]. unfold hashed.
  by destruct (hash_blocks m _ data) as [[[a b] cc] d].
Qed.

Lemma hashed_regs c data m : let h := hashed c data m in (A h, B h, C h, D h) = hash_blocks m (A c, B c, C c, D c) data.
Proof. unfold hashed. by destruct (hash_blocks m _ data) as [[[a b] cc] d]. Qed.
Lemma hashed_total c data m : total_ok c -> zlen data < 2 ^ 32 ->
  total_ok (hashed c data m) /\ total (hashed c data m) = u64 (total c + zlen data).
Proof.
  intros [H0 H1] Hn. pose proof (zlen_nonneg data). destruct (carry (total0 c) (total1 c) (zlen data)) as [A1 A2]; [done|done|lia|].
  unfold hashed, total_ok, total. by destruct (hash_blocks m _ data) as [[[a b] cc] d].
Qed.
Lemma hashed_frame c data m : buflen (hashed c data m) = buflen c /\ buffer (hashed c data m) = buffer c.
Proof. unfold hashed. by destruct (hash_blocks m _ data) as [[[a b] cc] d]. Qed.

Lemma u64_add a b : u64 (u64 a + b) = u64 (a + b).
Proof. unfold u64. by rewrite Z.add_mod_idemp_l by lia. Qed.

(** The bytes in the buffer and [data] are hashed up to [q], of which [b'] is left. *)
Lemma rep_hashed c p b n data m : zlen (buffer c) = 128 -> total_ok c -> length p = (64 * n)%nat ->
  (A c, B c, C c, D c) = hash_blocks n IV p -> total c = u64 (zlen p) -> length data = (64 * m)%nat -> zlen data < 2 ^ 32 ->
  zlen b <= 64 ->
  forall buf, zlen buf = 128 -> slice buf 0 (zlen b) = b ->
  rep (set_buflen (zlen b) (set_buffer buf (hashed c data m))) (p ++ data ++ b).
Proof.
  intros Hl Ht Hp Hr Htot Hd Hd32 Hb buf Hbuf Hs. destruct (hashed_total c data m Ht Hd32) as [T1 T2].
  split; [done|exact T1|]. exists (p ++ data), b, (n + m)%nat. split_and!.
  - by rewrite app_assoc.
  - rewrite length_app. lia.
  - change (A (set_buflen _ _), _, _, _) with (A (hashed c data m), B (hashed c data m), C (hashed c data m), D (hashed c data m)).
    rewrite hashed_regs, Hr. by rewrite <- hash_blocks_app.
  - change (total (hashed c data m) = u64 (zlen (p ++ data))). by rewrite T2, Htot, u64_add, zlen_app.
  - done.
  - done.
  - done.
Qed.

Lemma whole_div n : 0 <= n -> whole n = 64 * (n / 64).
Proof.
  intros Hn. unfold whole. rewrite <- Z.ldiff_land. change 63 with (Z.ones 6). rewrite Z.ldiff_ones_r by lia.
  rewrite Z.shiftl_mul_pow2, Z.shiftr_div_pow2 by lia. change (2 ^ 6) with 64. lia.
Qed.
Lemma part_mod n : part n = n mod 64.
Proof. unfold part. change 63 with (Z.ones 6). by rewrite Z.land_ones by lia. Qed.

Lemma rep_same c msg : rep c msg -> rep (set_buflen (buflen c) (set_buffer (buffer c) c)) msg.
Proof. by destruct c. Qed.

(** The first part of [md5_process_bytes] takes [pre] off the data. *)
Lemma fill_buffer_run c msg data : rep c msg -> zlen data < 2 ^ 32 ->
  exists c' pre rest, fill_buffer data c = Ret (c', rest) /\ data = pre ++ rest /\ rep c' (msg ++ pre) /\
    (rest = [] \/ buflen c' = 0).
Proof.
  intros R Hd. pose proof R as [Hl Ht (p & b & n & -> & Hp & Hr & Htot & Hbl & Hb & Hs)]. unfold fill_buffer. rewrite Hbl.
  pose proof (zlen_nonneg b). pose proof (zlen_nonneg data).
  destruct (Z.eqb_spec (zlen b) 0) as [Hz|Hz].
  { exists c, [], data. rewrite app_nil_r. split_and!; [done..|]. right. by rewrite Hbl. }
  set (add := if zlen data <? 128 - zlen b then _ else _).
  assert (0 <= add <= zlen data /\ zlen b + add <= 128 /\ (add = zlen data \/ zlen b + add = 128)) as (Ha & Hn & Hcase)
    by (subst add; destruct (Z.ltb_spec (zlen data) (128 - zlen b)); lia).
  clearbody add. set (pre := take (Z.to_nat add) data).
  assert (zlen pre = add) as Hpre by (subst pre; unfold zlen in *; rewrite length_take; lia).
  assert (rest_nil : add = zlen data -> drop (Z.to_nat add) data = []) by (intros ->; unfold zlen; by rewrite Nat2Z.id, drop_all).
  rewrite blit_patch by lia. cbn [obind]. set (buf := patch (buffer c) (zlen b) pre).
  assert (zlen buf = 128) as Hbuf by (subst buf; rewrite zlen_patch; lia).
  assert (slice buf 0 (zlen b + add) = b ++ pre) as Hw by (subst buf; rewrite <- Hpre, slice_patch_prefix by lia; by rewrite Hs).
  cbn [buflen buffer set_buflen set_buffer]. destruct (Z.ltb_spec 64 (zlen b + add)) as [Hbig|Hsmall].
  - set (k := whole (zlen b + add)). assert (part (zlen b + add) = zlen b + add - k) as ->
      by (subst k; rewrite whole_div, part_mod by lia; Z.div_mod_to_equations; lia).
    assert (0 <= k <= zlen b + add /\ exists m, k = 64 * Z.of_nat m /\ zlen b + add - k < 64) as (Hk & m & Hkm & Hrest).
    { subst k. rewrite whole_div by lia. split; [Z.div_mod_to_equations; lia|]. exists (Z.to_nat ((zlen b + add) / 64)).
      Z.div_mod_to_equations. lia. }
    clearbody k. destruct (head_split buf _ _ Hk) as [S1 S2]. rewrite Hw in S1, S2. rewrite S1.
    assert (zlen (b ++ pre) = zlen b + add) as Hbp by (rewrite zlen_app; lia).
    rewrite (md5_process_block_run _ _ m) by (rewrite length_take; unfold zlen in *; lia). cbn [obind].
    rewrite (proj2 (hashed_frame _ _ _)). cbn [buffer set_buflen set_buffer]. rewrite S2.
    assert (zlen (drop (Z.to_nat k) (b ++ pre)) = zlen b + add - k) as Hdl by (unfold zlen in *; rewrite length_drop; lia).
    rewrite blit_patch by lia. cbn [obind]. eexists _, pre, _. split; [reflexivity|].
    split; [subst pre; by rewrite take_drop|]. split; [|destruct Hcase as [Hc|Hc]; [left; by apply rest_nil|right]].
    + replace ((p ++ b) ++ pre) with (p ++ take (Z.to_nat k) (b ++ pre) ++ drop (Z.to_nat k) (b ++ pre)) by (by rewrite take_drop, app_assoc).
      rewrite <- Hdl.
      apply (rep_hashed (set_buflen (zlen b + add) (set_buffer buf c)) p _ n); try done.
      * rewrite length_take. unfold zlen in *. lia.
      * unfold zlen in *. rewrite length_take. lia.
      * lia.
      * rewrite zlen_patch; lia.
      * apply slice_patch_eq; lia.
    + change (zlen b + add - k = 0). lia.
  - cbn [obind]. assert (add = zlen data) as Hall by lia. eexists _, pre, _. split; [reflexivity|]. split; [subst pre; by rewrite take_drop|].
    split; [|left; by apply rest_nil]. split; [done|done|]. exists p, (b ++ pre), n. rewrite zlen_app, Hpre.
    split_and!; [by rewrite app_assoc|done..| |done]. lia.
Qed.

Lemma hashed_nil c : total_ok c -> hashed c [] 0 = c.
Proof.
  intros [H0 H1]. unfold hashed. cbn [hash_blocks]. change (zlen []) with 0. rewrite Z.add_0_r, (u32_id _ H0).
  rewrite (proj2 (Z.ltb_ge _ 0)) by lia. by destruct c.
Qed.

(** The second part: the whole blocks of [data], if it is longer than one. *)
Lemma whole_blocks data c : total_ok c -> exists m tl, data = take (64 * m) data ++ tl /\ zlen tl <= 64 /\
  length (take (64 * m) data) = (64 * m)%nat /\
  (if 64 <? zlen data then
     let* c := md5_process_block (take (Z.to_nat (whole (zlen data))) data) c in
     Ret (c, drop (Z.to_nat (whole (zlen data))) data)
   else Ret (c, data)) = Ret (hashed c (take (64 * m) data) m, tl).
Proof.
  intros Ht. destruct (Z.ltb_spec 64 (zlen data)) as [Hbig|Hs]; cycle 1.
  { exists 0%nat, data. split_and!; [done..|]. cbn [Nat.mul take]. by rewrite hashed_nil. }
  set (m := Z.to_nat (zlen data / 64)). pose proof (Z.div_mod (zlen data) 64 ltac:(lia)). pose proof (Z.mod_pos_bound (zlen data) 64 ltac:(lia)).
  assert (Z.to_nat (whole (zlen data)) = (64 * m)%nat) as -> by (rewrite whole_div by lia; lia).
  assert (length (take (64 * m) data) = (64 * m)%nat) as Hl by (rewrite length_take; unfold zlen in *; lia).
  exists m, (drop (64 * m) data). rewrite take_drop. split_and!; [done|unfold zlen in *; rewrite length_drop; lia|done|].
  by rewrite (md5_process_block_run _ _ m).
Qed.

Lemma md5_process_bytes_run c msg data : rep c msg -> zlen data < 2 ^ 32 ->
  exists c', md5_process_bytes data c = Ret c' /\ rep c' (msg ++ data).
Proof.
  intros R Hd. destruct (fill_buffer_run c msg data R Hd) as (c1 & pre & rest & E & -> & R1 & Hrest).
  unfold md5_process_bytes. rewrite E. cbn [obind fst snd]. clear E R. rewrite app_assoc. set (m1 := msg ++ pre) in *. clearbody m1.
  rewrite zlen_app in Hd. pose proof (zlen_nonneg pre). destruct R1 as [Hl Ht Hm].
  destruct (whole_blocks rest c1 Ht) as (m & tl & Hsplit & Htl & Hlen & ->). cbn [obind fst snd].
  destruct (decide (rest = [])) as [->|Hne].
  { assert (m = 0%nat) as -> by (rewrite take_nil in Hlen; cbn in Hlen; lia). rewrite hashed_nil by done. cbn in Hsplit. subst tl.
    exists c1. rewrite app_nil_r. by split. }
  destruct Hrest as [->|Hb0]; [done|]. destruct Hm as (p & b & n & -> & Hp & Hr & Htot & Hbl & _ & _).
  assert (b = []) as -> by (apply length_zero_iff_nil; unfold zlen in *; lia). rewrite app_nil_r in *.
  destruct (hashed_frame c1 (take (64 * m) rest) m) as [F1 F2]. rewrite F2. pose proof (zlen_nonneg tl).
  assert (zlen (take (64 * m) rest) < 2 ^ 32) as Hd' by (unfold zlen in *; rewrite length_take; lia).
  pose proof (rep_hashed c1 p tl n (take (64 * m) rest) m Hl Ht Hp Hr Htot Hlen Hd' Htl) as Hrep. rewrite <- Hsplit in Hrep.
  destruct (Z.ltb_spec 0 (zlen tl)).
  - rewrite blit_patch by lia. cbn [obind]. eexists. split; [done|]. apply Hrep; [rewrite zlen_patch; lia|apply slice_patch_eq; lia].
  - assert (tl = []) as -> by (apply length_zero_iff_nil; unfold zlen in *; lia). eexists. split; [done|].
    specialize (Hrep (buffer c1) Hl eq_refl). change (zlen []) with 0 in Hrep. rewrite <- F2, <- Hb0, <- F1 in Hrep.
    by destruct (hashed c1 (take (64 * m) rest) m).
Qed.

(** ** The end of the message *)
Lemma le32_mod a b : u32 a = u32 b -> le32 a = le32 b.
Proof. unfold u32, le32, u8. intros H. repeat (apply (f_equal2 cons); [Z.div_mod_to_equations; lia|]). done. Qed.

Lemma lor_low t x : 0 <= x < 8 -> Z.lor (Z.shiftl t 3) x = 8 * t + x.
Proof.
  intros Hx. assert (Z.land (Z.shiftl t 3) x = 0) as Hl.
  { rewrite <- (Z.mod_small x (2 ^ 3)) by lia. rewrite <- Z.land_ones by lia.
    rewrite (Z.land_comm x), Z.land_assoc, Z.land_ones, Z.shiftl_mul_pow2 by lia. by rewrite Z.mod_mul by lia. }
  rewrite <- Z.lxor_lor, <- Z.add_nocarry_lxor by done. rewrite Z.shiftl_mul_pow2 by lia. lia.
Qed.

(** The count in bits, low and high word. *)
Lemma count_words t0 t1 len : 0 <= t0 < 2 ^ 32 -> 0 <= t1 < 2 ^ 32 -> t0 + 2 ^ 32 * t1 = u64 len ->
  le32 (Z.shiftl t0 3) = le32 (8 * len) /\ le32 (Z.lor (Z.shiftl t1 3) (Z.shiftr t0 29)) = le32 (8 * len / 2 ^ 32).
Proof.
  intros H0 H1 Ht. unfold u64 in Ht. rewrite Z.shiftr_div_pow2 by lia.
  rewrite lor_low by (Z.div_mod_to_equations; lia). rewrite Z.shiftl_mul_pow2 by lia.
  split; apply le32_mod; unfold u32; Z.div_mod_to_equations; lia.
Qed.

Lemma take_fillbuf k : 1 <= k <= 64 -> take (Z.to_nat k) fillbuf = 0x80 :: replicate (Z.to_nat (k - 1)) 0.
Proof.
  intros Hk. unfold fillbuf. replace (Z.to_nat k) with (S (Z.to_nat (k - 1))) by lia. cbn [take]. f_equal.
  rewrite take_replicate. f_equal. lia.
Qed.

Lemma md5_finish_run c msg : rep c msg -> exists c', md5_finish_ctx c = Ret (digest msg, c').
Proof.
  intros [Hl [H0 H1] (p & b & n & -> & Hp & Hr & Htot & Hbl & Hb & Hs)]. unfold md5_finish_ctx. rewrite Hbl. pose proof (zlen_nonneg b).
  destruct (carry (total0 c) (total1 c) (zlen b) H0 H1) as [[T0 T1] T]; [lia|]. fold (total c) in T.
  set (t0 := u32 _) in *. set (t1 := if t0 <? _ then _ else _) in *. rewrite Htot, u64_add in T.
  rewrite <- zlen_app in T. set (pad := if 56 <=? zlen b then _ else _).
  assert (1 <= pad <= 64 /\ zlen b + pad <= 120 /\ (zlen b + pad + 8 = 64 \/ zlen b + pad + 8 = 128)) as (Hpad & Hpb & Hm)
    by (subst pad; destruct (Z.leb_spec 56 (zlen b)); lia).
  clearbody pad. rewrite (proj2 (Z.ltb_ge 64 pad)) by lia. cbn [buffer set_total].
  destruct (count_words t0 t1 _ T0 T1 T) as [-> ->]. rewrite take_fillbuf by done.
  set (fill := 0x80 :: _). assert (zlen fill = pad) as Hfill by (subst fill; rewrite zlen_cons, zlen_replicate; lia).
  set (w0 := le32 (8 * _)). set (w1 := le32 (_ / _)). assert (zlen w0 = 4 /\ zlen w1 = 4) as [Hw0 Hw1] by done.
  rewrite blit_patch by lia. cbn [obind]. set (b1 := patch (buffer c) _ _).
  assert (zlen b1 = 128) as L1 by (subst b1; rewrite zlen_patch; lia).
  rewrite blit_patch by lia. cbn [obind]. set (b2 := patch b1 _ _). assert (zlen b2 = 128) as L2 by (subst b2; rewrite zlen_patch; lia).
  rewrite blit_patch by lia. cbn [obind]. set (b3 := patch b2 _ _).
  assert (slice b3 0 (zlen b + pad + 8) = b ++ fill ++ w0 ++ w1) as Hw.
  { replace (zlen b + pad + 8) with (zlen b + pad + 4 + zlen w1) by lia. subst b3. rewrite slice_patch_prefix by lia.
    replace (zlen b + pad + 4) with (zlen b + pad + zlen w0) by lia. subst b2. rewrite slice_patch_prefix by lia.
    replace (zlen b + pad) with (zlen b + zlen fill) by lia. subst b1. rewrite slice_patch_prefix by lia. rewrite Hs.
    by rewrite <- !app_assoc. }
  rewrite Hw. set (w := b ++ fill ++ w0 ++ w1). assert (zlen w = zlen b + pad + 8) as Lw by (subst w; rewrite !zlen_app; lia).
  assert (exists m, length w = (64 * m)%nat) as [m Hwm] by (destruct Hm as [Hm|Hm]; [exists 1%nat|exists 2%nat]; unfold zlen in *; lia).
  rewrite (md5_process_block_run _ _ m Hwm). cbn [obind]. eexists. do 2 f_equal.
  assert ((p ++ b) ++ padding (zlen (p ++ b)) = p ++ w) as Hpw.
  { unfold padding. fold w0 w1. rewrite <- app_assoc. f_equal. subst w. f_equal. subst fill. cbn [app]. do 4 f_equal.
    assert (zlen p = 64 * Z.of_nat n) by (unfold zlen; lia). rewrite zlen_app. Z.div_mod_to_equations. lia. }
  unfold digest. rewrite Hpw, length_app, Hp, Hwm, <- Nat.mul_add_distr_l, Nat.mul_comm, Nat.div_mul by done.
  rewrite hash_blocks_app, <- Hr by done. pose proof (hashed_regs (set_buffer b3 (set_total t0 t1 c)) w m) as Hh.
  change (A (set_buffer b3 (set_total t0 t1 c)), B (set_buffer b3 (set_total t0 t1 c)), C (set_buffer b3 (set_total t0 t1 c)),
    D (set_buffer b3 (set_total t0 t1 c))) with (A c, B c, C c, D c) in Hh.
  rewrite <- Hh. done.
Qed.

(** ** The printed digest *)
Definition hex_string (l : list Z) : list Z := mjoin (hex <$> l).

Lemma print_loop_run md : forall pre msg, md <> [] -> zlen msg = zlen pre + 2 * zlen md + 1 -> slice msg 0 (zlen pre) = pre ->
  print_loop md (zlen pre) msg = Ret (pre ++ hex_string md ++ [0]).
Proof.
  induction md as [|b md IH]; intros pre msg Hne Hl Hs; [done|]. rewrite zlen_cons in Hl. cbn [print_loop]. pose proof (zlen_nonneg md).
  pose proof (zlen_nonneg pre). assert (zlen (hex b ++ [0]) = 3) as H3 by done.
  rewrite blit_patch by lia. cbn [obind]. set (msg1 := patch _ _ _).
  assert (slice msg1 0 (zlen pre + 3) = pre ++ hex b ++ [0]) as H1 by (subst msg1; rewrite <- H3, slice_patch_prefix by lia; by rewrite Hs).
  assert (zlen msg1 = zlen msg) as L1 by (subst msg1; rewrite zlen_patch; lia).
  change (hex_string (b :: md)) with (hex b ++ hex_string md). destruct md as [|b' md].
  - cbn [print_loop]. f_equal. change (hex_string []) with (@nil Z). rewrite app_nil_r. rewrite <- H1. unfold slice.
    change (Z.to_nat 0) with 0%nat. rewrite drop_0, take_ge; [done|]. change (zlen []) with 0 in Hl. unfold zlen in *. lia.
  - replace (zlen pre + 2) with (zlen (pre ++ hex b)) by (rewrite zlen_app; change (zlen (hex b)) with 2; lia).
    rewrite (IH (pre ++ hex b)); [|done|rewrite zlen_app; change (zlen (hex b)) with 2; lia|].
    + by rewrite <- !app_assoc.
    + rewrite zlen_app. change (zlen (hex b)) with 2. rewrite (proj1 (head_split msg1 (zlen pre + 3) (zlen pre + 2) ltac:(lia))), H1.
      rewrite app_assoc, take_app_le by (rewrite length_app; unfold zlen; cbn; lia). apply take_ge. rewrite length_app. unfold zlen. cbn. lia.
Qed.

Lemma digest_length msg : zlen (digest msg) = 16.
Proof. unfold digest. by destruct (hash_blocks _ _ _) as [[[a b] c] d]. Qed.

(** Giving the pieces to the object one after the other. *)
Fixpoint process_all (self : sum) (pieces : list (list Z)) : outcome sum :=
  match pieces with
  | [] => Ret self
  | data :: pieces => let* self := md5sum_process_bytes self data in process_all self pieces
  end.

Lemma process_all_run pieces : Forall (fun l => zlen l < 2 ^ 32) pieces -> forall self msg, rep (s_ctx self) msg ->
  exists c, process_all self pieces = Ret (mk_sum c (s_md self) (s_msg self) (s_finished self)) /\ rep c (msg ++ mjoin pieces).
Proof.
  induction 1 as [|l pieces Hl Hp IH]; intros self msg R.
  { exists (s_ctx self). rewrite app_nil_r. by destruct self. }
  cbn [process_all]. unfold md5sum_process_bytes. destruct (md5_process_bytes_run _ _ _ R Hl) as (c & -> & R'). cbn [obind].
  destruct (IH (mk_sum c (s_md self) (s_msg self) (s_finished self)) _ R') as (c' & -> & R''). exists c'. split; [done|].
  rewrite <- app_assoc in R''. exact R''.
Qed.

Lemma rep_init c : zlen (buffer c) = 128 -> rep (md5_init_ctx c) [].
Proof. intros H. split; [exact H|done|]. by exists [], [], 0%nat. Qed.

(** C14: however a message is cut into pieces, the digest object yields its RFC 1321
    digest and the text of it in hexadecimal; neither the block buffer nor the text
    buffer is overrun. *)
Theorem md5sum_streams m pieces : zlen (buffer (s_ctx m)) = 128 -> zlen (s_msg m) = 33 ->
  Forall (fun l => zlen l < 2 ^ 32) pieces ->
  exists self self', process_all (new_md5sum m) pieces = Ret self /\ md5sum_md5 self = Ret self' /\
    s_md self' = digest (mjoin pieces) /\ s_msg self' = hex_string (digest (mjoin pieces)) ++ [0].
Proof.
  intros Hb Hm Hp. destruct (process_all_run pieces Hp (new_md5sum m) [] (rep_init _ Hb)) as (c & -> & R).
  destruct (md5_finish_run c _ R) as (c' & Hf). eexists _, _. split; [reflexivity|]. unfold md5sum_md5. cbn [s_finished new_md5sum md5sum_init Z.eqb]. unfold md5sum_finish. cbn [s_ctx].
  rewrite Hf. cbn [obind fst snd s_md s_msg].
  pose proof (digest_length (mjoin pieces)) as Hd. pose proof (zlen_nonneg (s_msg m)).
  assert (digest (mjoin pieces) <> []) as Hne by (intros E; by rewrite E in Hd).
  change ([] ++ mjoin pieces) with (mjoin pieces). change 0 with (zlen (@nil Z)) at 1.
  rewrite (print_loop_run (digest (mjoin pieces)) []); [|done|rewrite Hd; exact Hm|done].
  cbn [obind]. split_and!; reflexivity.
Qed.

(** The function [md5sum] is the same digest for a message in one piece. *)
Theorem md5sum_digest c0 data : zlen (buffer c0) = 128 -> zlen data < 2 ^ 32 -> md5sum c0 data = Ret (digest data).
Proof.
  intros Hb Hd. unfold md5sum. destruct (md5_process_bytes_run _ _ data (rep_init _ Hb) Hd) as (c & -> & R). cbn [obind].
  by destruct (md5_finish_run c _ R) as (c' & ->).
Qed.

Definition demo_sum : sum := mk_sum (mk_ctx 0 0 0 0 0 0 0 (replicate 128 7)) [] (replicate 33 0) 0.

(** ["abc"] in two pieces: 900150983cd24fb0d6963f7d28e17f72. *)
Lemma md5sum_streams_witness :
  exists self self', process_all (new_md5sum demo_sum) [[97]; [98; 99]] = Ret self /\ md5sum_md5 self = Ret self' /\
    s_md self' = [0x90; 0x01; 0x50; 0x98; 0x3c; 0xd2; 0x4f; 0xb0; 0xd6; 0x96; 0x3f; 0x7d; 0x28; 0xe1; 0x7f; 0x72].
Proof.
  destruct (md5sum_streams demo_sum [[97]; [98; 99]]) as (self & self' & A & B & C & _).
  - vm_compute. reflexivity.
  - vm_compute. reflexivity.
  - repeat constructor.
  - exists self, self'. split; [exact A|]. split; [exact B|]. etransitivity; [exact C|]. vm_compute. reflexivity.
Defined.

Lemma md5sum_digest_witness :
  md5sum (mk_ctx 0 0 0 0 0 0 0 (replicate 128 0)) [] =
  Ret [0xd4; 0x1d; 0x8c; 0xd9; 0x8f; 0x00; 0xb2; 0x04; 0xe9; 0x80; 0x09; 0x98; 0xec; 0xf8; 0x42; 0x7e].
Proof.
  etransitivity; [apply (md5sum_digest (mk_ctx 0 0 0 0 0 0 0 (replicate 128 0)) [])|].
  - vm_compute. reflexivity.
  - vm_compute. reflexivity.
  - vm_compute. reflexivity.
Defined.

(** The last test of RFC 1321: eighty digits. *)
Example md5_rfc_suite :
  digest (mjoin (replicate 8 [49; 50; 51; 52; 53; 54; 55; 56; 57; 48])) =
  [0x57; 0xed; 0xf4; 0xa2; 0x2b; 0xe3; 0xc9; 0x55; 0xac; 0x49; 0xda; 0x2e; 0x21; 0x07; 0xb6; 0x7a].
Proof. vm_compute. reflexivity. Qed.

End MD.
