(* ===== verification/Mactable.v ===== *)
(** * Mactable.v: hardware addresses of the stations, mactable/mactable.c

    A table of pairs of an IP and a hardware address, kept in a text file.
    [mac_address] prints an address, [macstr_pack] reads one; [mctbl_add] fills the
    table, [mctbl_save_table] and [mctbl_load_table] write and read the file, and
    [mctbl_verify] compares an entry with the answer of the [arp] command.

    The table is the list of its [num] entries.  [inet_aton] and [inet_ntoa] are
    parameters; the two regular expressions, whose neighbouring parts have no
    character in common, are functions that take the longest run for each part.
    The static result buffers are values here.  What [arp] prints is a parameter,
    and the commands that are run are a list. *)

From S2P Require Import Prelude Slots Cstr.

Module MAC.
Import CS.

(** ** Addresses as text *)
Definition mac_address (mac : list Z) : list Z :=
  match hex <$> mac with
  | [a; b; c; d; e; f] => a ++ 58 :: b ++ 58 :: c ++ 58 :: d ++ 58 :: e ++ 58 :: f
  | _ => []
  end.

(** The local variables of [macstr_pack]; [macv] has the [i] bytes stored so far. *)
Record pack := mk_pack { k : Z; v1 : Z; v2 : Z; macv : list Z }.

(** Lines 82-94; [k] is already incremented.  In case 3 control falls into case 2. *)
Definition pack_switch (p : pack) : pack :=
  if k p =? 1 then mk_pack 1 (v1 p) (v1 p) (macv p)
  else if k p =? 3 then mk_pack 0 0 0 (macv p ++ [v2 p])
  else if k p =? 2 then mk_pack 0 0 0 (macv p ++ [u8 (Z.shiftl (v2 p) 4 + v1 p)])
  else p.

(** What the classification of a character gives: go on in the switch with this
    state, [continue], take the character again ([j--]), or [return NULL]. *)
Inductive packed := Sw (p : pack) | Skip | Again (p : pack) | Bad.
Definition pack_char (p : pack) (c : Z) : packed :=
  let up kk v := mk_pack (kk + 1) v (v2 p) (macv p) in
  if (48 <=? c) && (c <=? 57) then Sw (up (k p) (c - 48))
  else if (97 <=? c) && (c <=? 102) then Sw (up (k p) (c - 97 + 10))
  else if (65 <=? c) && (c <=? 70) then Sw (up (k p) (c - 65 + 10))
  else if (c =? 58) || (c =? 45) then if k p =? 1 then Sw (up 2 (v1 p)) else Skip
  else if (zlen (macv p) =? 5) && (k p =? 1) then Again (up 2 (v1 p))
  else Bad.

(** The loop; [str] is the rest of the string with its closing NUL. *)
Fixpoint pack_loop (str : list Z) (p : pack) : outcome (option (list Z)) :=
  if negb (zlen (macv p) <? 6) then Ret (Some (macv p))
  else
    match str with
    | [] => Fault OutOfBounds
    | c :: str' =>
        match pack_char p c with
        | Sw p1 => pack_loop str' (pack_switch p1)
        | Skip => pack_loop str' p
        | Again p1 => let p2 := pack_switch p1 in
            if negb (zlen (macv p2) <? 6) then Ret (Some (macv p2)) else Fault OutOfFuel
        | Bad => Ret None
        end
    end.
Definition macstr_pack (str : list Z) : outcome (option (list Z)) :=
  pack_loop (str ++ [NUL]) (mk_pack 0 0 0 []).

(** ** The table *)
Record entry := mk_entry { ip : Z; mac : list Z; inuse : Z; verified : Z; idx : Z }.
Record table := mk_table { usecnt : Z; have_changed : Z; ipmac : list entry }.
Definition num (self : table) : Z := zlen (ipmac self).

Definition used (e : entry) : bool := negb (inuse e =? 0).
Definition set_ipmac (l : list entry) (self : table) : table := mk_table (usecnt self) (have_changed self) l.
Definition set_verified (v : Z) (e : entry) : entry := mk_entry (ip e) (mac e) (inuse e) v (idx e).

Definition clear_entry (e : entry) : entry := mk_entry (ip e) (mac e) 0 0 (-1).
Definition mctbl_clear_all (self : table) : table :=
  mk_table 0 (have_changed self) (clear_entry <$> ipmac self).

(** [calloc] gives [n] entries of zeros; [hc] is what [have_changed] happens to be. *)
Definition new_mac_table (n : nat) (hc : Z) : table :=
  mctbl_clear_all (mk_table 0 hc (replicate n (mk_entry 0 [0; 0; 0; 0; 0; 0] 0 0 0))).

Definition mctbl_is_changed (self : table) : Z := b2z (negb (have_changed self =? 0)).
Definition mctbl_clear_change (self : table) : table := mk_table (usecnt self) 0 (ipmac self).

Definition mctbl_is_verify (self : table) (n : Z) : outcome Z :=
  if (0 <=? n) && (n <? num self) then
    let* e := aget (ipmac self) n in
    Ret (if used e then b2z (negb (verified e =? 0)) else -1)
  else Ret (-1).

Definition mctbl_verified_cnt (self : table) : Z :=
  zlen (filter (fun e => used e && negb (verified e =? 0) = true) (ipmac self)).

Definition mctbl_unset_verify_all (self : table) : Z * table :=
  (mctbl_verified_cnt self,
   set_ipmac ((fun e => if used e && negb (verified e =? 0) then set_verified 0 e else e) <$> ipmac self) self).

(** ["ether-wake "] *)
Definition ether_wake (e : entry) : list Z := [101; 116; 104; 101; 114; 45; 119; 97; 107; 101; 32] ++ mac_address (mac e).
Definition mctbl_wakeup (self : table) (n : Z) : outcome (Z * list (list Z)) :=
  if (0 <=? n) && (n <? num self) then
    let* e := aget (ipmac self) n in
    if used e then Ret (1, [ether_wake e]) else Ret (0, [])
  else Ret (1, []).
Definition mctbl_wakeup_all (self : table) : Z * list (list Z) :=
  let es := filter (fun e => used e && (verified e =? 0) = true) (ipmac self) in
  (zlen es, ether_wake <$> es).

Definition mctbl_wakeup_unverify (self : table) : Z * list (list Z) := mctbl_wakeup_all self.

Section addresses.
Context (inet_aton : list Z -> option Z) (inet_ntoa : Z -> list Z).

(** [callback] gets the number, the two addresses as text and a pointer to [idx]. *)
Definition external_entry (callback : Z -> list Z -> list Z -> Z -> Z) (n : nat) (e : entry) : entry :=
  if used e then
    mk_entry (ip e) (mac e) (inuse e) (verified e)
      (callback (Z.of_nat n) (inet_ntoa (ip e)) (mac_address (mac e)) (idx e))
  else e.
Definition mctbl_external_call (callback : Z -> list Z -> list Z -> Z -> Z) (self : table) : table :=
  set_ipmac (imap (external_entry callback) (ipmac self)) self.

(** The loop of lines 393-412 is [scan]. *)
Definition mctbl_add (self : table) (ips : list Z) (m : option (list Z)) : outcome (Z * table) :=
  match m with
  | None => Ret (0, self)
  | Some m =>
      match inet_aton ips with
      | None => Ret (0, self)
      | Some inp =>
          let r := scan used (fun e => (ip e =? inp) && bool_decide (mac e = m)) (ipmac self) 0 (-1) in
          if fst r then Ret (0, self)
          else if 0 <=? snd r then
            let* l := aset (ipmac self) (snd r) (mk_entry inp m 1 0 (-1)) in
            let* n := ck (usecnt self + 1) in
            Ret (1, mk_table n (have_changed self) l)
          else Ret (0, self)
      end
  end.

(** ** The file *)
Definition is_ip (c : Z) : bool := (c =? 46) || ((48 <=? c) && (c <=? 57)).
Definition is_mac (c : Z) : bool :=
  (c =? 58) || ((48 <=? c) && (c <=? 57)) || ((97 <=? c) && (c <=? 102)) || ((65 <=? c) && (c <=? 70)).
Fixpoint run (w : Z -> bool) (l : list Z) : list Z * list Z :=
  match l with
  | c :: l' => if w c then let r := run w l' in (c :: fst r, snd r) else ([], l)
  | [] => ([], [])
  end.

(** [^([\.0-9]+)[ \t]+([:a-fA-F0-9]+)]: the two groups. *)
Definition match_line (s : list Z) : option (list Z * list Z) :=
  let a := run is_ip s in
  let b := run is_blank (snd a) in
  let c := run is_mac (snd b) in
  match fst a, fst b, fst c with
  | [], _, _ | _, [], _ | _, _, [] => None
  | x, _, y => Some (x, y)
  end.

Definition load_line (self : table) (buf : list Z) : outcome (table * list Z) :=
  let* r := chomp buf in
  let* r := rtrim (snd r) in
  let buf := snd r in
  let* c := aget buf 0 in
  if c =? NUL then Ret (self, buf)
  else if (c =? 35) || (c =? 59) then Ret (self, buf)
  else
    match match_line (cstring buf) with
    | None => Ret (self, buf)
    | Some (x, y) =>
        if (16 <=? zlen x) || (18 <=? zlen y) then Ret (self, buf)
        else
          let* m := macstr_pack y in
          let* r := mctbl_add self x m in
          Ret (snd r, buf)
    end.

Definition MACBUF : nat := 512.
(** [buf0] is the uninitialised line buffer; [None] is a file that cannot be opened. *)
Definition mctbl_load_table (self : table) (buf0 : list Z) (file : option (list Z)) : outcome (Z * table) :=
  match file with
  | None => Ret (0, self)
  | Some f =>
      let self := mctbl_clear_all self in
      let self := mk_table (usecnt self) 0 (ipmac self) in
      let* self := line_loop (MACBUF - 1) load_line (S (length f)) self buf0 f in
      Ret (1, self)
  end.

(** ["%-18s %s"]. *)
Definition pad18 (s : list Z) : list Z := s ++ replicate (18 - length s) SPC.
Definition show_entry (e : entry) : list Z := pad18 (inet_ntoa (ip e)) ++ SPC :: mac_address (mac e).

(** Lines 440-458, with [ok] whether the file can be opened: the text written, if any. *)
Definition save_entries (ok : bool) (self : table) : Z * option (list Z) :=
  let es := filter (fun e => used e = true) (ipmac self) in
  if zlen es =? 0 then (0, None)
  else if ok then (1, Some (file_lines (show_entry <$> es))) else (0, None).

(** ** Verification.  [\(([\.0-9]+)\) +at +([:a-fA-F0-9]+) +]: the second group at the
    first place where it matches. *)
Definition is_spc (c : Z) : bool := c =? SPC.
Definition match_arp_here (s : list Z) : option (list Z) :=
  match s with
  | 40 :: s =>
      let a := run is_ip s in
      match fst a, snd a with
      | _ :: _, 41 :: s =>
          let b := run is_spc s in
          match fst b, snd b with
          | _ :: _, 97 :: 116 :: s =>
              let c := run is_spc s in
              let d := run is_mac (snd c) in
              let e := run is_spc (snd d) in
              match fst c, fst d, fst e with
              | _ :: _, m :: ms, _ :: _ => Some (m :: ms)
              | _, _, _ => None
              end
          | _, _ => None
          end
      | _, _ => None
      end
  | _ => None
  end.
Fixpoint match_arp (s : list Z) : option (list Z) :=
  match match_arp_here s with
  | Some m => Some m
  | None => match s with [] => None | _ :: s => match_arp s end
  end.

(** Lines 256-287, for the lines the command prints: the new entry and whether it
    changed.  [macstr_pack] may give NULL, which [memcmp] then reads. *)
Fixpoint verify_lines (e : entry) (changed : Z) (lines : list (list Z)) : outcome (entry * Z) :=
  match lines with
  | [] => Ret (e, changed)
  | l :: lines =>
      match match_arp (rstrip is_eol (cstring l)) with
      | None => verify_lines e changed lines
      | Some y =>
          if 18 <=? zlen y then verify_lines e changed lines
          else
            let* m := macstr_pack y in
            match m with
            | None => Fault NullDeref
            | Some m =>
                if bool_decide (m = mac e) then Ret (set_verified 1 e, changed)
                else Ret (mk_entry (ip e) m (inuse e) 1 (idx e), 1)
            end
      end
  end.

(** [arp e] is what the command prints for an entry; [None]: it cannot be run. *)
Definition verify_entry (arp : Z -> option (list Z)) (e : entry) (changed : Z) : outcome (entry * Z) :=
  if used e then
    match arp (ip e) with
    | None => Ret (e, changed)
    | Some out => verify_lines e changed (chunks (MACBUF - 1) out)
    end
  else Ret (e, changed).

Definition mctbl_verify (arp : Z -> option (list Z)) (self : table) (n : Z) : outcome (Z * table) :=
  if (0 <=? n) && (n <? num self) then
    let* e := aget (ipmac self) n in
    let* r := verify_entry arp e (have_changed self) in
    let* l := aset (ipmac self) n (fst r) in
    Ret (0, mk_table (usecnt self) (snd r) l)
  else Ret (0, self).

(** The loop of [mctbl_verify_all]: the entries from [i] on. *)
Fixpoint verify_loop (arp : Z -> option (list Z)) (fuel : nat) (self : table) (i rc : Z) : outcome (Z * table) :=
  match fuel with
  | O => Ret (rc, self)
  | S fuel =>
      let* e := aget (ipmac self) i in
      if used e && (verified e =? 0) then
        let* r := mctbl_verify arp self i in
        let* e' := aget (ipmac (snd r)) i in
        verify_loop arp fuel (snd r) (i + 1) (if verified e' =? 0 then rc else rc + 1)
      else verify_loop arp fuel self (i + 1) rc
  end.
Definition mctbl_verify_all (arp : Z -> option (list Z)) (self : table) : outcome (Z * table) :=
  verify_loop arp (length (ipmac self)) self 0 0.

Definition mctbl_save_table (arp : Z -> option (list Z)) (ok : bool) (self : table) : outcome (Z * option (list Z) * table) :=
  let* r := mctbl_verify_all arp self in
  Ret (save_entries ok (snd r), snd r).
End addresses.

(** ** Text and bytes *)
Definition bytes (l : list Z) : Prop := Forall (fun b => 0 <= b < 256) l.

Lemma hex_digit_char d : 0 <= d < 16 ->
  (48 <= hex_digit d <= 57 /\ d = hex_digit d - 48) \/ (97 <= hex_digit d <= 102 /\ d = hex_digit d - 97 + 10).
Proof. intros H. unfold hex_digit. destruct (Z.ltb_spec d 10); lia. Qed.

Lemma pack_char_hex p d : 0 <= d < 16 -> pack_char p (hex_digit d) = Sw (mk_pack (k p + 1) d (v2 p) (macv p)).
Proof.
  intros H. unfold pack_char. destruct (hex_digit_char d H) as [[Hc Hd]|[Hc Hd]].
  - rewrite (proj2 (Z.leb_le 48 _)), (proj2 (Z.leb_le _ 57)) by lia. cbn [andb]. by rewrite <- Hd.
  - rewrite (proj2 (Z.leb_gt _ 57)), andb_false_r by lia. rewrite (proj2 (Z.leb_le 97 _)), (proj2 (Z.leb_le _ 102)) by lia.
    cbn [andb]. by rewrite <- Hd.
Qed.

Lemma pack_loop_hex p d s : 0 <= d < 16 -> zlen (macv p) < 6 ->
  pack_loop (hex_digit d :: s) p = pack_loop s (pack_switch (mk_pack (k p + 1) d (v2 p) (macv p))).
Proof. intros Hd Hm. cbn [pack_loop]. rewrite (proj2 (Z.ltb_lt _ 6)) by done. cbn [negb]. by rewrite pack_char_hex. Qed.

(** Two hexadecimal digits are one byte. *)
Lemma pack_hex b rest m : 0 <= b < 256 -> zlen m < 6 ->
  pack_loop (hex b ++ rest) (mk_pack 0 0 0 m) = pack_loop rest (mk_pack 0 0 0 (m ++ [b])).
Proof.
  intros Hb Hm. assert (0 <= b / 16 < 16 /\ 0 <= b mod 16 < 16) as [H1 H2] by (Z.div_mod_to_equations; lia).
  change (hex b ++ rest) with (hex_digit (b / 16) :: hex_digit (b mod 16) :: rest). rewrite pack_loop_hex by done.
  change (pack_switch _) with (mk_pack 1 (b / 16) (b / 16) m). rewrite pack_loop_hex by done.
  change (pack_switch _) with (mk_pack 0 0 0 (m ++ [u8 (Z.shiftl (b / 16) 4 + b mod 16)])).
  rewrite Z.shiftl_mul_pow2 by lia. change (2 ^ 4) with 16. unfold u8.
  rewrite Z.mod_small by (Z.div_mod_to_equations; lia). by replace (b / 16 * 16 + b mod 16) with b by (Z.div_mod_to_equations; lia).
Qed.

Lemma pack_colon rest m : zlen m < 6 -> pack_loop (58 :: rest) (mk_pack 0 0 0 m) = pack_loop rest (mk_pack 0 0 0 m).
Proof. intros Hm. cbn [pack_loop macv]. by rewrite (proj2 (Z.ltb_lt _ 6)). Qed.

Lemma macstr_pack_address m : bytes m -> length m = 6%nat -> macstr_pack (mac_address m) = Ret (Some m).
Proof.
  intros Hm Hl. destruct m as [|a [|b [|c [|d [|e [|f [|? ?]]]]]]]; cbn in Hl; try lia.
  unfold bytes in Hm. rewrite !Forall_cons in Hm. destruct Hm as (? & ? & ? & ? & ? & ? & _).
  unfold macstr_pack, mac_address. rewrite !fmap_cons, fmap_nil. repeat (rewrite <- ?app_assoc; rewrite <- ?app_comm_cons).
  repeat (first [rewrite pack_colon by reflexivity|rewrite pack_hex by (done || reflexivity)]; cbn [app]). reflexivity.
Qed.

(** The state inside a group of digits. *)
Definition pack_inv (p : pack) : Prop :=
  (k p = 0 \/ k p = 1) /\ 0 <= v1 p < 16 /\ 0 <= v2 p < 16 /\ bytes (macv p) /\ zlen (macv p) <= 6.

Lemma switch_inv kk a b m : kk = 1 \/ kk = 2 \/ kk = 3 -> 0 <= a < 16 -> 0 <= b < 16 -> bytes m -> zlen m < 6 ->
  pack_inv (pack_switch (mk_pack kk a b m)).
Proof.
  intros Hk Ha Hb Hm Hl. assert (forall x, 0 <= x < 256 -> pack_inv (mk_pack 0 0 0 (m ++ [x]))) as H.
  { intros x Hx. split_and!; cbn; try lia; [apply Forall_app; split; [done|by apply Forall_singleton]|].
    rewrite zlen_app. change (zlen [x]) with 1. lia. }
  destruct Hk as [->|[->| ->]]; unfold pack_switch; cbn.
  - split_and!; cbn; try done; try lia.
  - apply H. unfold u8. pose proof (Z.mod_pos_bound (Z.shiftl b 4 + a) (2 ^ 8)). lia.
  - apply H. lia.
Qed.

Lemma pack_inv_end p : pack_inv p -> (zlen (macv p) <? 6) = false -> bytes (macv p) /\ length (macv p) = 6%nat.
Proof. intros (_ & _ & _ & Hb & Hl) Hf%Z.ltb_ge. split; [done|]. unfold zlen in *. lia. Qed.

Lemma pack_loop_total str : forall p, pack_inv p ->
  exists r, pack_loop (str ++ [NUL]) p = Ret r /\ forall m, r = Some m -> bytes m /\ length m = 6%nat.
Proof.
  assert (forall p, pack_inv p -> forall s, (zlen (macv p) <? 6) = false ->
    exists r, pack_loop s p = Ret r /\ forall m, r = Some m -> bytes m /\ length m = 6%nat) as Hend.
  { intros p Hp s Hn. exists (Some (macv p)). split; [destruct s; cbn [pack_loop]; by rewrite Hn|].
    intros m [= <-]. by apply pack_inv_end. }
  assert (forall p c, pack_inv p -> (zlen (macv p) <? 6) = true ->
    match pack_char p c with
    | Sw p1 => pack_inv (pack_switch p1)
    | Again p1 => pack_inv (pack_switch p1) /\ (zlen (macv (pack_switch p1)) <? 6) = false
    | _ => True
    end) as Hstep.
  { intros [kk a b m] c (Hk & H1 & H2 & Hb & Hl) Hn%Z.ltb_lt. cbn [k v1 v2 macv] in *. unfold pack_char. cbn [k v1 v2 macv].
    destruct ((48 <=? c) && (c <=? 57)) eqn:E1; [apply switch_inv; lia || done|].
    destruct ((97 <=? c) && (c <=? 102)) eqn:E2; [apply switch_inv; lia || done|].
    destruct ((65 <=? c) && (c <=? 70)) eqn:E3; [apply switch_inv; lia || done|].
    destruct ((c =? 58) || (c =? 45)); [destruct (kk =? 1); [apply switch_inv; lia || done|done]|].
    destruct ((zlen m =? 5) && (kk =? 1)) eqn:E4; [|done]. apply andb_true_iff in E4 as [E4%Z.eqb_eq _].
    split; [apply switch_inv; lia || done|]. change (macv _) with (m ++ [b]). by rewrite zlen_app, E4. }
  induction str as [|c str IH]; intros p Hp; (destruct (zlen (macv p) <? 6) eqn:Hn; [|by apply Hend]); cbn [app pack_loop]; rewrite Hn; cbn [negb].
  - specialize (Hstep p NUL Hp Hn). change (pack_char p NUL) with
      (if (zlen (macv p) =? 5) && (k p =? 1) then Again (mk_pack 3 (v1 p) (v2 p) (macv p)) else Bad) in *.
    destruct (_ && _); [|by exists None]. destruct Hstep as [Hi Hf]. rewrite Hf. exists (Some (macv (pack_switch (mk_pack 3 (v1 p) (v2 p) (macv p))))).
    split; [done|]. intros m [= <-]. exact (pack_inv_end _ Hi Hf).
  - specialize (Hstep p c Hp Hn). destruct (pack_char p c) as [p1| |p1|]; [by apply IH|by apply IH| |by exists None].
    destruct Hstep as [Hi Hf]. rewrite Hf. exists (Some (macv (pack_switch p1))). split; [done|].
    intros m [= <-]. by apply pack_inv_end.
Qed.

(** An address that is printed is read back; and whatever the string, reading it
    stays inside it and ends, with six bytes or with NULL. *)
Theorem mac_text_roundtrip :
  (forall m, bytes m -> length m = 6%nat -> macstr_pack (mac_address m) = Ret (Some m)) /\
  (forall str, exists r, macstr_pack str = Ret r /\ forall m, r = Some m -> bytes m /\ length m = 6%nat).
Proof.
  split; [exact macstr_pack_address|]. intros str. apply pack_loop_total. split_and!; cbn; try done; try lia. constructor.
Qed.


(** ** Adding *)
Definition pair (e : entry) : Z * list Z := (ip e, mac e).
Definition pairs (self : table) : list (Z * list Z) := pair <$> filter (fun e => used e = true) (ipmac self).

Record table_ok (self : table) : Prop := {
  to_cnt : usecnt self = zlen (pairs self);
  to_num : num self < INT_MAX;
  to_dup : NoDup (pairs self);
}.

Lemma zlen_pairs self : zlen (pairs self) <= num self.
Proof.
  unfold pairs, num, zlen. rewrite length_fmap. pose proof (length_filter (fun e => used e = true) (ipmac self)). lia.
Qed.

(** Filling a free slot adds its pair at some place of the list. *)
Lemma pairs_fill l n e e' : l !! n = Some e -> used e = false -> used e' = true ->
  pair <$> filter (fun e => used e = true) (<[n := e']> l) ≡ₚ pair e' :: (pair <$> filter (fun e => used e = true) l).
Proof.
  intros Hn Hu Hu'. rewrite <- (take_drop_middle l n e) at 1 2 by done.
  assert (n < length l)%nat as Hlt by (by eapply lookup_lt_Some).
  rewrite insert_app_r_alt by (rewrite length_take; lia). rewrite length_take, Nat.min_l, Nat.sub_diag by lia. cbn [insert list_insert].
  rewrite !filter_app, filter_cons_True by done. rewrite filter_cons_False by (by rewrite Hu).
  rewrite !fmap_app, fmap_cons. by rewrite Permutation_middle.
Qed.

Section aton.
Context (inet_aton : list Z -> option Z).

(** What [mctbl_add] does with a pair of addresses. *)
Definition add_spec (self self' : table) (rc : Z) (p : Z * list Z) : Prop :=
  if bool_decide (p ∈ pairs self) then rc = 0 /\ self' = self
  else if zlen (pairs self) <? num self then
    rc = 1 /\ pairs self' ≡ₚ p :: pairs self /\ num self' = num self /\
    (forall k e, ipmac self !! k = Some e -> used e = true -> ipmac self' !! k = Some e)
  else rc = 0 /\ self' = self.

Lemma pairs_elem self p : p ∈ pairs self <-> exists k e, ipmac self !! k = Some e /\ used e = true /\ pair e = p.
Proof.
  unfold pairs. rewrite list_elem_of_fmap. split.
  - intros (e & -> & [Hu [k Hk]%list_elem_of_lookup]%list_elem_of_filter). by exists k, e.
  - intros (k & e & Hk & Hu & <-). exists e. split; [done|]. apply list_elem_of_filter. split; [done|]. by eapply list_elem_of_lookup_2.
Qed.

Lemma all_used_full (l : list entry) : (forall k x, l !! k = Some x -> used x = true) -> filter (fun e => used e = true) l = l.
Proof. intros H. apply filter_all. intros x [k Hk]%list_elem_of_lookup. by apply (H k). Qed.

Lemma free_slot_room (l : list entry) n e : l !! n = Some e -> used e = false ->
  (length (filter (fun e => used e = true) l) < length l)%nat.
Proof.
  intros Hn Hu. rewrite <- (take_drop_middle l n e) by done. rewrite filter_app, filter_cons_False by (by rewrite Hu).
  rewrite !length_app. cbn. pose proof (length_filter (fun e => used e = true) (take n l)).
  pose proof (length_filter (fun e => used e = true) (drop (S n) l)). lia.
Qed.

(** Adding an address: a pair that is there is not added again; otherwise the
    first free entry takes it, with the count kept right and every other entry left
    alone; in a full table nothing happens.  Bad input is refused. *)
Theorem mctbl_add_correct self ips inp m : table_ok self ->
  (inet_aton ips = Some inp -> exists rc self', mctbl_add inet_aton self ips (Some m) = Ret (rc, self') /\
     add_spec self self' rc (inp, m) /\ table_ok self') /\
  (inet_aton ips = None -> mctbl_add inet_aton self ips (Some m) = Ret (0, self)) /\
  mctbl_add inet_aton self ips None = Ret (0, self).
Proof.
  intros [Hc Hn Hd]. split_and!; [|unfold mctbl_add; by intros ->|done]. intros Ha. unfold mctbl_add. rewrite Ha.
  destruct (scan used _ (ipmac self) 0 (-1)) as [hit j] eqn:Hs. cbn [fst snd]. destruct hit.
  - apply scan_found in Hs as (_ & e & He & Hu & Hh). apply andb_true_iff in Hh as [Hip%Z.eqb_eq Hmac%bool_decide_eq_true].
    exists 0, self. split; [done|]. split; [|done]. unfold add_spec. rewrite bool_decide_true; [done|].
    apply pairs_elem. exists (Z.to_nat (j - 0)), e. split_and!; [done..|]. unfold pair. congruence.
  - assert ((inp, m) ∉ pairs self) as Hnin.
    { intros (k & e & Hk & Hu & Hp)%pairs_elem. pose proof (scan_not_found _ _ _ _ _ _ Hs k e Hk Hu) as Hh. injection Hp as Hp1 Hp2.
      cbn beta in Hh. by rewrite Hp1, Hp2, Z.eqb_refl, bool_decide_true in Hh. }
    unfold add_spec. rewrite bool_decide_false by done. pose proof (zlen_pairs self).
    apply scan_free in Hs as [[? _]|[(_ & Hj & (e & He & Hu) & _)|(_ & -> & Hfull)]]; [lia| | |lia].
    + rewrite Z.sub_0_r in He. rewrite (proj2 (Z.leb_le 0 j)) by lia. pose proof (lookup_lt_Some _ _ _ He).
      rewrite aset_Ret by (unfold zlen; lia). cbn [obind]. pose proof (free_slot_room _ _ _ He Hu) as Hroom.
      assert (zlen (pairs self) < num self) as Hlt by (unfold pairs, num, zlen; rewrite length_fmap; lia).
      rewrite ck_Ret by (rewrite Hc; pose proof (zlen_nonneg (pairs self)); int_lia). cbn [obind].
      rewrite (proj2 (Z.ltb_lt _ _) Hlt). set (e' := mk_entry inp m 1 0 (-1)).
      pose proof (pairs_fill (ipmac self) (Z.to_nat j) e e' He Hu eq_refl) as Hperm. eexists _, _. split; [done|].
      split_and!; [done|exact Hperm|unfold num; cbn; by rewrite zlen_insert| |].
      * intros k x Hk Hux. cbn. rewrite list_lookup_insert_ne; [done|]. intros <-. congruence.
      * split; [|unfold num; cbn; by rewrite zlen_insert|].
        -- unfold pairs at 1. cbn [ipmac usecnt]. unfold zlen. rewrite (Permutation_length Hperm). cbn [length]. unfold pairs, zlen in Hc. lia.
        -- unfold pairs. cbn [ipmac]. rewrite Hperm. by constructor.
    + cbn [Z.leb]. change (0 <=? -1) with false. cbn match. rewrite (proj2 (Z.ltb_ge _ _)); [by exists 0, self|].
      unfold pairs, num, zlen. rewrite length_fmap, all_used_full by done. lia.
Qed.
End aton.

(** ** The file *)
Lemma run_app w a b : Forall (fun c => w c = true) a -> match b with c :: _ => w c = false | [] => True end ->
  run w (a ++ b) = (a, b).
Proof.
  intros Ha Hb. induction Ha as [|c a Hc Ha IH]; cbn; [destruct b as [|c b]; [done|]; cbn; by rewrite Hb|]. by rewrite Hc, IH.
Qed.

Lemma mac_address_ok m : bytes m -> length m = 6%nat ->
  length (mac_address m) = 17%nat /\ Forall (fun c => is_mac c = true) (mac_address m).
Proof.
  intros Hm Hl. destruct m as [|a [|b [|c [|d [|e [|f [|? ?]]]]]]]; cbn in Hl; try lia. split; [done|].
  unfold bytes in Hm. rewrite !Forall_cons in Hm. destruct Hm as (? & ? & ? & ? & ? & ? & _).
  assert (forall x, 0 <= x < 256 -> Forall (fun c => is_mac c = true) (hex x)) as Hhex.
  { intros x Hx. assert (forall y, 0 <= y < 16 -> is_mac (hex_digit y) = true) as Hd.
    { intros y Hy. unfold is_mac. destruct (hex_digit_char y Hy) as [[Hc _]|[Hc _]]; lia. }
    repeat constructor; apply Hd; Z.div_mod_to_equations; lia. }
  unfold mac_address. rewrite !fmap_cons, fmap_nil.
  repeat first [apply Forall_app; split; [by apply Hhex|]|apply Forall_cons; split; [done|]|by apply Hhex].
Qed.

Lemma is_mac_plain c : is_mac c = true -> is_eol c = false /\ is_blank c = false /\ c <> NUL /\ c <> LF.
Proof. unfold is_mac, is_eol, is_blank, CR, LF, SPC, TAB, NUL. lia. Qed.

Section file.
Context (inet_aton : list Z -> option Z) (inet_ntoa : Z -> list Z).

(** The text of an IP address is what [inet_aton] reads: digits and dots, at most 15. *)
Definition addr_ok (a : Z) : Prop :=
  inet_aton (inet_ntoa a) = Some a /\ inet_ntoa a <> [] /\ (length (inet_ntoa a) <= 15)%nat /\
  Forall (fun c => is_ip c = true) (inet_ntoa a).
Definition entry_ok (e : entry) : Prop := addr_ok (ip e) /\ bytes (mac e) /\ length (mac e) = 6%nat.

Lemma is_ip_plain c : is_ip c = true -> is_eol c = false /\ is_blank c = false /\ c <> NUL /\ c <> LF /\ c <> 35 /\ c <> 59.
Proof. unfold is_ip, is_eol, is_blank, CR, LF, SPC, TAB, NUL. lia. Qed.

Lemma match_show e : entry_ok e -> match_line (show_entry inet_ntoa e) = Some (inet_ntoa (ip e), mac_address (mac e)).
Proof.
  intros ((_ & Hne & Hl & Hip) & Hm & Hml). destruct (mac_address_ok (mac e) Hm Hml) as [Hlen Hmac]. unfold match_line, show_entry, pad18.
  rewrite <- !app_assoc. rewrite run_app; [|done|by destruct (18 - length (inet_ntoa (ip e)))%nat]. cbn [fst snd].
  change (replicate (18 - length (inet_ntoa (ip e))) SPC ++ SPC :: mac_address (mac e)) with
    (replicate (18 - length (inet_ntoa (ip e))) SPC ++ [SPC] ++ mac_address (mac e)). rewrite app_assoc.
  destruct (mac_address (mac e)) as [|c s] eqn:E; [done|]. apply Forall_cons in Hmac as [Hc Hs].
  rewrite run_app; [|apply Forall_app; split; [by apply Forall_replicate|by repeat constructor]|apply (is_mac_plain c Hc)]. cbn [fst snd].
  assert (run is_mac (c :: s) = (c :: s, [])) as -> by (rewrite <- (app_nil_r (c :: s)) at 1; apply run_app; [by constructor|done]).
  cbn [fst]. destruct (inet_ntoa (ip e)) as [|x y]; [done|]. by destruct (18 - length (x :: y))%nat.
Qed.

Lemma show_plain e : entry_ok e -> Forall (fun c => c <> NUL /\ c <> LF) (show_entry inet_ntoa e) /\
  (length (show_entry inet_ntoa e) = 36)%nat /\
  (exists c l, show_entry inet_ntoa e = c :: l /\ is_ip c = true) /\
  exists c, last (show_entry inet_ntoa e) = Some c /\ is_mac c = true.
Proof.
  intros ((_ & Hne & Hl & Hip) & Hm & Hml). destruct (mac_address_ok (mac e) Hm Hml) as [Hlen Hmac]. unfold show_entry, pad18. split_and!.
  - rewrite !Forall_app. split_and!; [eapply Forall_impl; [exact Hip|]; intros c Hc; by destruct (is_ip_plain c Hc) as (_ & _ & ? & ? & _)|by apply Forall_replicate|].
    constructor; [done|]. eapply Forall_impl; [exact Hmac|]. intros c Hc. by destruct (is_mac_plain c Hc) as (_ & _ & ? & ?).
  - rewrite !length_app, length_replicate. cbn [length]. lia.
  - destruct (inet_ntoa (ip e)) as [|c l]; [done|]. apply Forall_cons in Hip as [Hc _]. by do 2 eexists.
  - rewrite last_app_cons. destruct (mac_address (mac e)) as [|c s _] eqn:E using rev_ind; [done|].
    rewrite app_comm_cons, last_snoc. exists c. split; [done|]. apply Forall_app in Hmac as [_ Hmac]. by apply Forall_cons in Hmac as [? _].
Qed.

(** Loading a line, on strings. *)
Definition mac_item (chunk : list Z) : list Z := rstrip is_blank (rstrip is_eol (cstring chunk)).
Definition load_spec (self : table) (chunk : list Z) : outcome table :=
  match mac_item chunk with
  | [] => Ret self
  | c :: _ =>
      if (c =? 35) || (c =? 59) then Ret self
      else
        match match_line (mac_item chunk) with
        | None => Ret self
        | Some (x, y) =>
            if (16 <=? zlen x) || (18 <=? zlen y) then Ret self
            else
              let* m := macstr_pack y in
              let* r := mctbl_add inet_aton self x m in
              Ret (snd r)
        end
  end.

Lemma mac_load_line_run self chunk buf : cstr buf (cstring chunk) ->
  exists buf', zlen buf' = zlen buf /\
    load_line inet_aton self buf = (let* s := load_spec self chunk in Ret (s, buf')).
Proof.
  intros H0. unfold load_line, load_spec.
  destruct (chomp_edits _ _ H0) as (b1 & -> & H1 & L1). cbn [obind snd].
  destruct (rtrim_edits _ _ H1) as (b2 & -> & H2 & L2). cbn [obind fst snd]. fold (mac_item chunk) in *.
  exists b2. split; [congruence|]. pose proof (cstring_cstr _ _ H2) as Hcs. destruct H2 as (Hn & _ & t & Hb2). rewrite Hcs.
  destruct (mac_item chunk) as [|c s]; [by rewrite Hb2|]. subst b2. change (aget ((c :: s) ++ NUL :: t) 0) with (Ret c). cbn [obind].
  apply Forall_cons in Hn as [Hc _]. rewrite (proj2 (Z.eqb_neq c NUL)) by done.
  destruct ((c =? 35) || (c =? 59)); [done|]. destruct (match_line (c :: s)) as [[x y]|]; [|done]. destruct (_ || _); [done|].
  destruct (macstr_pack y) as [m| |]; [|done|done]. cbn [obind]. by destruct (mctbl_add inet_aton self x m).
Qed.

Lemma load_spec_show self e : entry_ok e ->
  load_spec self (show_entry inet_ntoa e ++ [LF]) =
  (let* r := mctbl_add inet_aton self (inet_ntoa (ip e)) (Some (mac e)) in Ret (snd r)).
Proof.
  intros He. destruct (show_plain e He) as (Hpl & Hlen & (c & l & Hhd & Hc) & d & Hlast & Hd). unfold load_spec, mac_item.
  rewrite cstring_id; cycle 1.
  { apply Forall_app. split; [|by repeat constructor]. eapply Forall_impl; [exact Hpl|]. by intros ? []. }
  destruct (is_mac_plain d Hd) as (He1 & Hb1 & _).
  rewrite rstrip_snoc. change (is_eol LF) with true. cbn match. rewrite (rstrip_id is_eol _ d), (rstrip_id is_blank _ d) by done.
  rewrite match_show by done. rewrite Hhd. destruct (is_ip_plain c Hc) as (_ & _ & _ & _ & H35 & H59).
  rewrite (proj2 (Z.eqb_neq c 35)), (proj2 (Z.eqb_neq c 59)) by done. cbn [orb].
  destruct He as ((_ & _ & Hl & _) & Hm & Hml). destruct (mac_address_ok _ Hm Hml) as [Hal _].
  rewrite (proj2 (Z.leb_gt 16 _)), (proj2 (Z.leb_gt 18 _)) by (unfold zlen; lia). cbn [orb].
  by rewrite macstr_pack_address.
Qed.

(** A table whose first entries hold [ps] and whose other ones are free. *)
Definition fresh (p : Z * list Z) : entry := mk_entry (fst p) (snd p) 1 0 (-1).
Record compact (ps : list (Z * list Z)) (n : Z) (self : table) : Prop := {
  co_list : exists rest, ipmac self = (fresh <$> ps) ++ rest /\ Forall (fun e => used e = false) rest;
  co_cnt : usecnt self = zlen ps;
  co_num : num self = n;
  co_chg : have_changed self = 0;
}.

Lemma scan_compact ps rest hit : Forall (fun e => hit e = false) (fresh <$> ps) -> Forall (fun e => used e = false) rest ->
  rest <> [] -> forall i, 0 <= i -> scan used hit ((fresh <$> ps) ++ rest) i (-1) = (false, i + zlen ps).
Proof.
  intros Hps Hrest Hne. induction ps as [|p ps IH]; intros i Hi.
  - destruct rest as [|x rest]; [done|]. apply Forall_cons in Hrest as [Hx Hrest]. cbn. rewrite Hx. cbn [negb].
    assert (forall j, scan used hit rest j i = (false, i)) as ->; [|f_equal; rewrite zlen_nil; lia].
    clear Hne. induction Hrest as [|y rest Hy Hrest IH]; intros j; [done|]. cbn. rewrite Hy. cbn [negb].
    by rewrite (proj2 (Z.ltb_ge i 0)).
  - rewrite fmap_cons in Hps. apply Forall_cons in Hps as [Hp Hps]. rewrite fmap_cons. cbn [app scan]. rewrite Hp.
    change (used (fresh p)) with true. cbn [negb]. rewrite IH by (done || lia). f_equal. rewrite zlen_cons. lia.
Qed.

Lemma add_compact ps n self e : compact ps n self -> pair e ∉ ps -> zlen ps < n -> n < INT_MAX -> addr_ok (ip e) ->
  exists self', mctbl_add inet_aton self (inet_ntoa (ip e)) (Some (mac e)) = Ret (1, self') /\ compact (ps ++ [pair e]) n self'.
Proof.
  intros [(rest & Hl & Hrest) Hc Hn Hch] Hnew Hlt Hmax (Ha & _). unfold mctbl_add. rewrite Ha, Hl.
  destruct rest as [|x rest]; [exfalso; unfold num in Hn; rewrite Hl, app_nil_r in Hn; unfold zlen in *; rewrite length_fmap in Hn; lia|].
  rewrite scan_compact; [|apply Forall_fmap; apply Forall_forall; intros p Hp|done|done|done]; cycle 1.
  { cbn. destruct (Z.eqb_spec (fst p) (ip e)) as [E1|]; [|done]. destruct (decide (snd p = mac e)) as [E2|E2]; [|by rewrite bool_decide_false].
    exfalso. apply Hnew. destruct p. unfold pair. cbn in *. by subst. }
  cbn [fst snd]. pose proof (zlen_nonneg ps). rewrite (proj2 (Z.leb_le 0 _)) by lia.
  replace (0 + zlen ps) with (zlen (fresh <$> ps)) by (unfold zlen; rewrite length_fmap; lia). rewrite aset_mid. cbn [obind].
  rewrite ck_Ret by (rewrite Hc; int_lia). cbn [obind]. eexists. split; [done|]. apply Forall_cons in Hrest as [_ Hrest]. split; cbn.
  - exists rest. split; [|done]. by rewrite fmap_app, <- app_assoc.
  - rewrite Hc, zlen_app. done.
  - unfold num in *. cbn. rewrite <- Hn, Hl. by rewrite !zlen_app, !zlen_cons.
  - done.
Qed.

Lemma compact_view ps n self : compact ps n self -> pairs self = ps /\ mctbl_verified_cnt self = 0.
Proof.
  intros [(rest & Hl & Hrest) _ _ _]. unfold pairs, mctbl_verified_cnt. rewrite Hl, !filter_app. split.
  - rewrite (filter_all _ (fresh <$> ps)) by (by intros x (p & -> & _)%list_elem_of_fmap).
    rewrite (filter_reject_nil _ rest), app_nil_r.
    + rewrite <- list_fmap_compose. rewrite <- (list_fmap_id ps) at 2. apply list_fmap_ext. by intros ? [? ?] _.
    + rewrite Forall_forall in Hrest. intros x Hx. by rewrite (Hrest x Hx).
  - rewrite (filter_reject_nil _ rest), app_nil_r.
    + rewrite filter_reject_nil; [done|]. by intros x (p & -> & _)%list_elem_of_fmap.
    + rewrite Forall_forall in Hrest. intros x Hx. by rewrite (Hrest x Hx).
Qed.

Lemma load_entries es : Forall entry_ok es -> forall ps n self, compact ps n self -> NoDup (ps ++ (pair <$> es)) ->
  zlen ps + zlen es <= n -> n < INT_MAX ->
  exists self', fold_lines load_spec self ((fun w => w ++ [LF]) <$> (show_entry inet_ntoa <$> es)) = Ret self' /\
    compact (ps ++ (pair <$> es)) n self'.
Proof.
  induction 1 as [|e es He Hes IH]; intros ps n self Hc Hd Hle Hmax.
  { exists self. by rewrite app_nil_r. }
  rewrite zlen_cons in Hle. pose proof (zlen_nonneg es). rewrite !fmap_cons. cbn [fold_lines]. rewrite load_spec_show by done.
  destruct (add_compact ps n self e Hc) as (self1 & -> & Hc1); [|lia|done|by apply He|].
  { rewrite fmap_cons in Hd. apply NoDup_app in Hd as (_ & Hd & _). intros Hin. apply (Hd _ Hin). by left. }
  cbn [obind snd]. destruct (IH (ps ++ [pair e]) n self1 Hc1) as (self' & -> & Hc'); [by rewrite <- app_assoc|rewrite zlen_app; change (zlen [_]) with 1; lia|done|].
  exists self'. split; [done|]. by rewrite <- app_assoc in Hc'.
Qed.

Lemma macbuf_val : Z.of_nat MACBUF = 512.
Proof. reflexivity. Qed.
#[local] Opaque MACBUF.

(** What is saved is loaded: the file written for a table gives, loaded into any
    table with enough entries, the same pairs in the same order, packed to the
    front, not verified and with the right count. *)
Theorem mac_file_roundtrip self text self0 buf0 : save_entries inet_ntoa true self = (1, Some text) ->
  Forall entry_ok (filter (fun e => used e = true) (ipmac self)) -> NoDup (pairs self) ->
  zlen (pairs self) <= num self0 -> num self0 < INT_MAX -> zlen buf0 = Z.of_nat MACBUF ->
  exists self', mctbl_load_table inet_aton self0 buf0 (Some text) = Ret (1, self') /\
    pairs self' = pairs self /\ usecnt self' = zlen (pairs self) /\ num self' = num self0 /\
    mctbl_is_changed self' = 0 /\ mctbl_verified_cnt self' = 0.
Proof.
  intros Hsave Hes Hd Hle Hmax Hb. unfold save_entries in Hsave. destruct (_ =? 0) in Hsave; [done|]. injection Hsave as <-.
  set (es := filter _ (ipmac self)) in *. change (pairs self) with (pair <$> es) in *.
  unfold mctbl_load_table. set (s0 := mk_table _ 0 _).
  assert (compact [] (num self0) s0) as Hc0.
  { split; [|done|unfold num, zlen; cbn; by rewrite length_fmap|done]. exists (clear_entry <$> ipmac self0). split; [done|].
    apply Forall_fmap. by apply Forall_true. }
  pose proof macbuf_val. rewrite (line_loop_run _ _ load_spec (Z.of_nat MACBUF)); [|lia|unfold INT_MAX; lia|exact mac_load_line_run|done|lia].
  rewrite chunks_lines; [|apply Forall_fmap; eapply Forall_impl; [exact Hes|]|done]; cycle 1.
  { intros e He. destruct (show_plain e He) as (Hpl & Hlen & _). split; [|cbn; rewrite Hlen; lia]. intros Hin. rewrite Forall_forall in Hpl.
    by destruct (Hpl _ Hin). }
  destruct (load_entries es Hes [] (num self0) s0 Hc0) as (self' & E & Hc); [done|unfold zlen in *; rewrite length_fmap in Hle; cbn; lia|done|].
  rewrite E. cbn [obind]. exists self'. destruct (compact_view _ _ _ Hc) as [Hp Hv]. destruct Hc as [_ Hcnt Hnum Hch].
  split_and!; [done|done|done|done| |done]. unfold mctbl_is_changed. by rewrite Hch.
Qed.
End file.

(** ** Examples *)
Lemma mac_text_roundtrip_witness : macstr_pack (mac_address [0; 17; 34; 171; 205; 255]) = Ret (Some [0; 17; 34; 171; 205; 255]).
Proof.
  apply mac_text_roundtrip; [|reflexivity]. repeat (apply Forall_cons; split; [lia|]). apply Forall_nil. exact I.
Defined.

(** ["1.2.3.4"] is 67305985, a number of the machine's byte order. *)
Definition demo_text : list Z := [49; 46; 50; 46; 51; 46; 52].
Definition demo_aton (s : list Z) : option Z := if bool_decide (s = demo_text) then Some 67305985 else None.
Definition demo_ntoa (a : Z) : list Z := demo_text.
Definition demo_entry : entry := mk_entry 67305985 [0; 17; 34; 171; 205; 255] 1 0 (-1).
Definition demo_free : entry := mk_entry 0 [0; 0; 0; 0; 0; 0] 0 0 (-1).

Lemma mctbl_add_correct_witness :
  exists self', mctbl_add demo_aton (new_mac_table 2 0) demo_text (Some [1; 2; 3; 4; 5; 6]) = Ret (1, self') /\
    pairs self' ≡ₚ [(67305985, [1; 2; 3; 4; 5; 6])].
Proof.
  destruct (mctbl_add_correct demo_aton (new_mac_table 2 0) demo_text 67305985 [1; 2; 3; 4; 5; 6]) as [H _].
  - split; [reflexivity|reflexivity|]. apply NoDup_nil_2.
  - destruct (H eq_refl) as (rc & self' & E & Hs & _). vm_compute in Hs. destruct Hs as (-> & Hp & _). exists self'.
    split; [exact E|exact Hp].
Defined.

Lemma mac_file_roundtrip_witness :
  exists self', mctbl_load_table demo_aton (new_mac_table 3 7) (replicate 512 0)
      (Some (file_lines [show_entry demo_ntoa demo_entry])) = Ret (1, self') /\
    pairs self' = [(67305985, [0; 17; 34; 171; 205; 255])] /\ usecnt self' = 1.
Proof.
  destruct (mac_file_roundtrip demo_aton demo_ntoa (mk_table 1 0 [demo_free; demo_entry])
              (file_lines [show_entry demo_ntoa demo_entry]) (new_mac_table 3 7) (replicate 512 0)) as (self' & E & Hp & Hc & _).
  - reflexivity.
  - change (filter _ _) with [demo_entry]. apply Forall_singleton. split; [|split; [|reflexivity]].
    + split; [reflexivity|]. split; [discriminate|]. split; [vm_compute; lia|].
      repeat (apply Forall_cons; split; [reflexivity|]). apply Forall_nil. exact I.
    + repeat (apply Forall_cons; split; [lia|]). apply Forall_nil. exact I.
  - change (pairs _) with [pair demo_entry]. apply NoDup_singleton.
  - vm_compute. discriminate.
  - vm_compute. reflexivity.
  - vm_compute. reflexivity.
  - exists self'. split; [exact E|]. split; [exact Hp|exact Hc].
Defined.

(** The answer ["(1.2.3.4) at 00:11 "] has too few digits: [macstr_pack] gives NULL and
    the comparison reads it. *)
Example verify_short_answer :
  mctbl_verify (fun _ => Some ([40] ++ demo_text ++ [41; 32; 97; 116; 32; 48; 48; 58; 49; 49; 32; LF]))
    (mk_table 1 0 [demo_entry]) 0 = Fault NullDeref.
Proof. vm_compute. reflexivity. Qed.

End MAC.
