(* ===== verification/StioEngine.v ===== *)
(** * StioEngine.v: the reading engine for local files, stio_engine/stio_engine.c

    [fio_*] are the operations on an open file, [pub_*] the ones offered to the
    program: opening, reading with automatic repetition at the end of the file,
    seeking.  Files and descriptors are those of [Posix]; how [read] splits is the
    argument [chunk].

    A plug-in may change what was read; it is the argument [plugin], a function of the
    result and the bytes.  Calls of the plug-in without a buffer only tell it to start
    anew and are left out, as is the name of the engine. *)

From S2P Require Import Prelude Posix.

Module EN.

(** [struct stio_engine_pd_t], with the system's files. *)
Record engine := mk_engine {
  k : kernel;
  fd : Z;
  fsize : Z;
  fp_pos : Z;
  repeat_cnt : Z;
  abort_flag : Z;
  in_read : Z;
  end_of_prefetch : Z;
  in_pq_prefetch : Z;
  have_next_file : Z;
  have_next_precache : Z;
  current_file : list Z;
  next_file : list Z;
}.
Definition set_k (v : kernel) (s : engine) : engine :=
  mk_engine v (fd s) (fsize s) (fp_pos s) (repeat_cnt s) (abort_flag s) (in_read s) (end_of_prefetch s) (in_pq_prefetch s) (have_next_file s) (have_next_precache s) (current_file s) (next_file s).
Definition set_fd (v : Z) (s : engine) : engine :=
  mk_engine (k s) v (fsize s) (fp_pos s) (repeat_cnt s) (abort_flag s) (in_read s) (end_of_prefetch s) (in_pq_prefetch s) (have_next_file s) (have_next_precache s) (current_file s) (next_file s).
Definition set_fsize (v : Z) (s : engine) : engine :=
  mk_engine (k s) (fd s) v (fp_pos s) (repeat_cnt s) (abort_flag s) (in_read s) (end_of_prefetch s) (in_pq_prefetch s) (have_next_file s) (have_next_precache s) (current_file s) (next_file s).
Definition set_fp_pos (v : Z) (s : engine) : engine :=
  mk_engine (k s) (fd s) (fsize s) v (repeat_cnt s) (abort_flag s) (in_read s) (end_of_prefetch s) (in_pq_prefetch s) (have_next_file s) (have_next_precache s) (current_file s) (next_file s).
Definition set_repeat_cnt (v : Z) (s : engine) : engine :=
  mk_engine (k s) (fd s) (fsize s) (fp_pos s) v (abort_flag s) (in_read s) (end_of_prefetch s) (in_pq_prefetch s) (have_next_file s) (have_next_precache s) (current_file s) (next_file s).
Definition set_abort_flag (v : Z) (s : engine) : engine :=
  mk_engine (k s) (fd s) (fsize s) (fp_pos s) (repeat_cnt s) v (in_read s) (end_of_prefetch s) (in_pq_prefetch s) (have_next_file s) (have_next_precache s) (current_file s) (next_file s).
Definition set_in_read (v : Z) (s : engine) : engine :=
  mk_engine (k s) (fd s) (fsize s) (fp_pos s) (repeat_cnt s) (abort_flag s) v (end_of_prefetch s) (in_pq_prefetch s) (have_next_file s) (have_next_precache s) (current_file s) (next_file s).
Definition set_end_of_prefetch (v : Z) (s : engine) : engine :=
  mk_engine (k s) (fd s) (fsize s) (fp_pos s) (repeat_cnt s) (abort_flag s) (in_read s) v (in_pq_prefetch s) (have_next_file s) (have_next_precache s) (current_file s) (next_file s).
Definition set_in_pq_prefetch (v : Z) (s : engine) : engine :=
  mk_engine (k s) (fd s) (fsize s) (fp_pos s) (repeat_cnt s) (abort_flag s) (in_read s) (end_of_prefetch s) v (have_next_file s) (have_next_precache s) (current_file s) (next_file s).
Definition set_have_next_file (v : Z) (s : engine) : engine :=
  mk_engine (k s) (fd s) (fsize s) (fp_pos s) (repeat_cnt s) (abort_flag s) (in_read s) (end_of_prefetch s) (in_pq_prefetch s) v (have_next_precache s) (current_file s) (next_file s).
Definition set_have_next_precache (v : Z) (s : engine) : engine :=
  mk_engine (k s) (fd s) (fsize s) (fp_pos s) (repeat_cnt s) (abort_flag s) (in_read s) (end_of_prefetch s) (in_pq_prefetch s) (have_next_file s) v (current_file s) (next_file s).
Definition set_current_file (v : list Z) (s : engine) : engine :=
  mk_engine (k s) (fd s) (fsize s) (fp_pos s) (repeat_cnt s) (abort_flag s) (in_read s) (end_of_prefetch s) (in_pq_prefetch s) (have_next_file s) (have_next_precache s) v (next_file s).
Definition set_next_file (v : list Z) (s : engine) : engine :=
  mk_engine (k s) (fd s) (fsize s) (fp_pos s) (repeat_cnt s) (abort_flag s) (in_read s) (end_of_prefetch s) (in_pq_prefetch s) (have_next_file s) (have_next_precache s) (current_file s) v.

Section engine.
Context (chunk : Z -> Z -> Z).

(** The loop of lines 33-39; every [read] that goes on takes a byte. *)
Fixpoint fio_loop (fuel : nat) (kn : kernel) (fdn explen : Z) (acc : list Z) : outcome (list Z * kernel) :=
  match fuel with
  | O => Fault OutOfFuel
  | S fuel =>
      if 0 <? explen then
        let '(rlen, bytes, kn') := sys_read chunk kn fdn explen in
        if rlen <=? 0 then Ret (acc, kn')
        else fio_loop fuel kn' fdn (explen - rlen) (acc ++ bytes)
      else Ret (acc, kn)
  end.

(** The result and the bytes put into the buffer. *)
Definition fio_read (self : engine) (len : Z) : outcome (Z * list Z * engine) :=
  if fd self <? 0 then Ret (-1, [], self)
  else
    let* r := fio_loop (S (Z.to_nat len)) (k self) (fd self) len [] in
    Ret (zlen (fst r), fst r, set_k (snd r) self).

Definition fio_open_next (self : engine) : Z := 1.

Definition fio_close (self : engine) : engine :=
  if 0 <=? fd self then set_fsize 0 (set_fd (-1) (set_k (sys_close (k self) (fd self)) self)) else self.

(** [ok]: [fstat] succeeds. *)
Definition fio_open (ok : bool) (self : engine) (fname : list Z) : Z * engine :=
  let self := fio_close self in
  let r := sys_open (k self) fname in
  let self := set_k (snd r) self in
  if fst r <? 0 then (-1, self)
  else if ok then
    match get_file (k self) (fst r) with
    | Some f => (fst r, set_fd (fst r) (set_fsize (zlen (of_data f)) self))
    | None => (-1, self)
    end
  else (-1, set_k (sys_close (k self) (fst r)) self).

Definition fio_seek (self : engine) (pos : Z) : Z * engine :=
  if 0 <=? fd self then (1, set_k (sys_lseek (k self) (fd self) pos) self) else (0, self).
Definition fio_reset (self : engine) : Z * engine := fio_seek self 0.
Definition fio_filesize (self : engine) : Z := fsize self.

(** ** The operations of the program *)
Definition pub_set_repeat (self : engine) (r : Z) : Z * engine := (repeat_cnt self, set_repeat_cnt r self).

(** A counter that is not negative is counted down. *)
Definition count_repeat (self : engine) : outcome engine :=
  if 0 <? repeat_cnt self then let* r := ck (repeat_cnt self - 1) in Ret (set_repeat_cnt r self) else Ret self.

Definition pub_reset (self : engine) : Z * engine := fio_reset self.

Definition pub_read (plugin : option (Z -> list Z -> Z * list Z)) (self : engine) (len : Z) : outcome (Z * list Z * engine) :=
  let* r := fio_read self len in
  let '(rc, bytes, self) := r in
  let* r := (
    if rc <=? 0 then
      if (-1 <=? rc) && negb (repeat_cnt self =? 0) then
        let* self := count_repeat self in
        let self := snd (pub_reset self) in
        fio_read (set_fp_pos 0 self) len
      else Ret (rc, bytes, self)
    else let* p := ck (fp_pos self + rc) in Ret (rc, bytes, set_fp_pos p self)) in
  let '(rc, bytes, self) := r in
  match plugin with
  | Some f => let '(rc', bytes') := f rc bytes in Ret (rc', bytes', self)
  | None => Ret (rc, bytes, self)
  end.

(** [strncpy] of at most 127 characters. *)
Definition name127 (fname : list Z) : list Z := take 127 fname.
Definition pub_open_next (self : engine) (fname : list Z) : Z * engine :=
  (fio_open_next self, set_next_file (name127 fname) (set_have_next_file 1 self)).

Definition pub_open (ok : bool) (self : engine) (fname : list Z) : Z * engine :=
  let self := set_have_next_file 0 (set_current_file (name127 fname) self) in
  let r := fio_open ok self fname in
  let self := set_fp_pos 0 (snd r) in
  if 0 <=? fst r then (fst r, set_repeat_cnt 0 (set_end_of_prefetch 0 self))
  else (fst r, set_end_of_prefetch 1 self).

Definition pub_read_pos (self : engine) : Z := fp_pos self.
Definition pub_seek (self : engine) (pos : Z) : Z * engine :=
  let r := fio_seek self pos in
  if 0 <=? fst r then (fst r, set_fp_pos (fst r) (snd r)) else r.
Definition pub_close (self : engine) : engine := fio_close self.
Definition pub_filesize (self : engine) : Z := fio_filesize self.
Definition pub_end_of_prefetch (self : engine) : Z := b2z (negb (end_of_prefetch self =? 0)).

Definition new_stio_engine (m : engine) : engine :=
  mk_engine (k m) (-1) 0 0 0 0 0 1 0 0 0 (current_file m) (next_file m).
End engine.

(** ** Reading a file *)

(** The engine has [file] open and stands at [p]. *)
Definition opened (self : engine) (file : list Z) (p : Z) : Prop :=
  0 <= fd self /\ get_file (k self) (fd self) = Some (mk_ofile file p) /\ 0 <= p.

(** The bytes a read of [len] gets at [p]. *)
Definition avail (file : list Z) (p len : Z) : Z := Z.max 0 (Z.min len (zlen file - p)).

Lemma fio_loop_run chunk fuel : forall kn fdn file p len acc, 0 <= p -> get_file kn fdn = Some (mk_ofile file p) ->
  (Z.to_nat len < fuel)%nat ->
  exists kn', fio_loop chunk fuel kn fdn len acc = Ret (acc ++ slice file p (avail file p len), kn') /\
    get_file kn' fdn = Some (mk_ofile file (p + avail file p len)).
Proof.
  induction fuel as [|fuel IH]; intros kn fdn file p len acc Hp Hf Hfuel; [lia|]. cbn [fio_loop].
  destruct (Z.ltb_spec 0 len) as [Hl|Hl]; cycle 1.
  { exists kn. unfold avail. rewrite Z.max_l by lia. rewrite slice_nil, app_nil_r, Z.add_0_r. done. }
  destruct (Z.lt_ge_cases p (zlen file)) as [Hlt|Hge]; cycle 1.
  { rewrite (sys_read_eof chunk kn fdn (mk_ofile file p)) by done. cbn [Z.leb Z.compare]. exists kn. unfold avail. rewrite Z.max_l by lia.
    rewrite slice_nil, app_nil_r, Z.add_0_r. done. }
  destruct (sys_read_file chunk kn fdn (mk_ofile file p) len Hf Hp Hl Hlt) as (r & kn1 & -> & Hr & Hr2 & Hf1). cbn [of_data of_pos] in *.
  rewrite (proj2 (Z.leb_gt r 0)) by lia.
  destruct (IH kn1 fdn file (p + r) (len - r) (acc ++ slice file p r)) as (kn2 & -> & Hf2); [lia|done|lia|].
  assert (avail file p len = r + avail file (p + r) (len - r)) as E by (unfold avail; lia).
  exists kn2. split.
  - rewrite <- app_assoc, slice_app by (unfold avail; lia). by rewrite E.
  - rewrite E. by replace (p + (r + avail file (p + r) (len - r))) with (p + r + avail file (p + r) (len - r)) by lia.
Qed.

Lemma fio_read_run chunk self file p len : opened self file p ->
  exists kn, fio_read chunk self len = Ret (avail file p len, slice file p (avail file p len), set_k kn self) /\
    opened (set_k kn self) file (p + avail file p len).
Proof.
  intros (Hfd & Hf & Hp). unfold fio_read. rewrite (proj2 (Z.ltb_ge _ 0)) by done.
  destruct (fio_loop_run chunk (S (Z.to_nat len)) (k self) (fd self) file p len [] Hp Hf ltac:(lia)) as (kn & -> & Hf').
  cbn [obind fst snd app]. exists kn. split; [|split_and!; [done|done|unfold avail; lia]].
  do 3 f_equal. destruct (Z.eq_dec (avail file p len) 0) as [->|Hne]; [by rewrite slice_nil|]. apply zlen_slice; unfold avail in *; lia.
Qed.

Lemma fio_seek_run self file p q : opened self file p -> 0 <= q ->
  exists kn, fio_seek self q = (1, set_k kn self) /\ opened (set_k kn self) file q.
Proof.
  intros (Hfd & Hf & _) Hq. unfold fio_seek. rewrite (proj2 (Z.leb_le 0 _)) by done. eexists. split; [reflexivity|].
  split_and!; [done| |done]. cbn. unfold sys_lseek. rewrite Hf. by eapply get_file_set.
Qed.

(** ** Streams *)

(** What is still to come from position [p] with [r] repetitions left. *)
Definition to_come (file : list Z) (p : Z) (r : nat) : list Z := drop (Z.to_nat p) file ++ mjoin (replicate r file).

Record playing (self : engine) (file : list Z) (p : Z) (r : nat) : Prop := {
  pl_open : opened self file p;
  pl_end : p <= zlen file <= INT_MAX;
  pl_rep : repeat_cnt self = Z.of_nat r;
  pl_max : Z.of_nat r <= INT_MAX;
  pl_pos : 0 <= fp_pos self <= p;
}.

Lemma drop_slice (file : list Z) p n : 0 <= p -> 0 <= n -> drop (Z.to_nat p) file = slice file p n ++ drop (Z.to_nat (p + n)) file.
Proof. intros Hp Hn. unfold slice. rewrite Z2Nat.inj_add, <- drop_drop by lia. by rewrite take_drop. Qed.

(** One read: a piece of what is to come; nothing only at the very end. *)
Lemma pub_read_run chunk self file p r len : playing self file p r -> file <> [] -> 0 < len ->
  exists out self' p' r', pub_read chunk None self len = Ret (zlen out, out, self') /\ playing self' file p' r' /\
    to_come file p r = out ++ to_come file p' r' /\ zlen out <= len /\ (out = [] -> to_come file p r = []).
Proof.
  intros [Ho Hp Hr Hmax Hpos] Hne Hl. unfold pub_read. destruct (fio_read_run chunk self file p len Ho) as (kn & -> & Ho'). cbn [obind].
  set (n := avail file p len) in *. destruct (Z.leb_spec n 0) as [Hn|Hn].
  - assert (n = 0) as E by (subst n; unfold avail in *; lia). assert (p = zlen file) as -> by (subst n; unfold avail in *; lia).
    rewrite E. cbn [Z.leb Z.compare andb repeat_cnt set_k]. rewrite Hr.
    assert (drop (Z.to_nat (zlen file)) file = []) as Hd by (unfold zlen; by rewrite Nat2Z.id, drop_all).
    destruct r as [|r].
    + cbn [Z.of_nat Z.eqb negb obind]. rewrite slice_nil. exists [], (set_k kn self), (zlen file), 0%nat.
      rewrite E, Z.add_0_r in Ho'. split_and!; [done|by split|done|rewrite zlen_nil; lia|]. intros _. unfold to_come. by rewrite Hd.
    + rewrite (proj2 (Z.eqb_neq (Z.of_nat (S r)) 0)) by lia. cbn [negb]. unfold count_repeat. cbn [repeat_cnt set_k]. rewrite Hr.
      rewrite (proj2 (Z.ltb_lt 0 _)), ck_Ret by int_lia. cbn [obind]. unfold pub_reset, fio_reset.
      set (s1 := set_repeat_cnt _ (set_k kn self)).
      destruct (fio_seek_run s1 file (zlen file + n) 0) as (kn1 & -> & Ho1); [exact Ho'|lia|]. cbn [snd].
      destruct (fio_read_run chunk (set_fp_pos 0 (set_k kn1 s1)) file 0 len Ho1) as (kn2 & -> & Ho2). cbn [obind].
      pose proof (zlen_nonneg file). assert (0 < zlen file) by (destruct file; [done|rewrite zlen_cons; pose proof (zlen_nonneg file); lia]).
      set (m := avail file 0 len) in *. assert (0 < m <= zlen file /\ m <= len) as Hm by (subst m; unfold avail; lia).
      eexists (slice file 0 m), _, m, r. rewrite zlen_slice by lia. split_and!; [reflexivity| |unfold to_come; rewrite Hd|lia|].
      * split; cbn; try lia. exact Ho2.
      * cbn [replicate mjoin list_join app]. rewrite app_assoc. f_equal. apply (drop_slice file 0 m); lia.
      * intros Hs. assert (zlen (slice file 0 m) = m) by (apply zlen_slice; lia). rewrite Hs, zlen_nil in *. lia.
  - assert (p + n <= zlen file /\ n <= len) as Hn2 by (subst n; unfold avail in *; lia). destruct Ho as (? & ? & Hp0).
    rewrite ck_Ret by (cbn; int_lia). cbn [obind fp_pos set_k].
    eexists (slice file p n), _, (p + n), r. rewrite zlen_slice by lia. split_and!; [reflexivity| |unfold to_come|lia|].
    + split; cbn; try lia. exact Ho'.
    + rewrite app_assoc. f_equal. apply drop_slice; lia.
    + intros Hs. assert (zlen (slice file p n) = n) by (apply zlen_slice; lia). rewrite Hs, zlen_nil in *. lia.
Qed.

(** A read inside the file gets all it asks for. *)
Lemma pub_read_full chunk self file p len : playing self file p 0 -> 0 < len -> p + len <= zlen file ->
  exists self', pub_read chunk None self len = Ret (len, slice file p len, self') /\ playing self' file (p + len) 0.
Proof.
  intros [Ho Hp Hr Hmax Hpos] Hl Hle. unfold pub_read. destruct (fio_read_run chunk self file p len Ho) as (kn & -> & Ho'). cbn [obind].
  assert (avail file p len = len) as E by (unfold avail; lia). rewrite E in Ho' |- *. rewrite (proj2 (Z.leb_gt len 0)) by lia.
  destruct Ho as (_ & _ & Hp0). rewrite ck_Ret by (cbn; int_lia). cbn [obind fp_pos set_k]. eexists. split; [reflexivity|].
  split; cbn; try lia. exact Ho'.
Qed.

Lemma pub_open_run self0 fname file fdn self1 : k_fs (k (fio_close self0)) fname = Some (file, true) -> zlen file <= INT_MAX ->
  pub_open true self0 fname = (fdn, self1) -> 0 <= fdn /\ playing self1 file 0 0.
Proof.
  intros Hfs Hlen Hopen. unfold pub_open, fio_open in Hopen. set (s0 := set_have_next_file 0 _) in Hopen.
  assert (k (fio_close s0) = k (fio_close self0)) as E by (subst s0; unfold fio_close; cbn; by destruct (0 <=? fd self0)). rewrite E in Hopen.
  destruct (sys_open (k (fio_close self0)) fname) as [fd' kn] eqn:Ho. destruct (sys_open_get _ _ _ _ _ Hfs Ho) as [Hfd' Hget]. cbn [fst snd] in Hopen.
  rewrite (proj2 (Z.ltb_ge fd' 0)) in Hopen by done. cbn [k set_k] in Hopen. rewrite Hget in Hopen. cbn in Hopen. rewrite (proj2 (Z.leb_le 0 fd')) in Hopen by done.
  injection Hopen as <- <-. pose proof (zlen_nonneg file). split; [done|]. split; cbn; try lia. split_and!; cbn; [done|done|lia].
Qed.

Fixpoint reads (chunk : Z -> Z -> Z) (self : engine) (lens : list Z) : outcome (list (list Z) * engine) :=
  match lens with
  | [] => Ret ([], self)
  | len :: lens =>
      let* r := pub_read chunk None self len in
      let '(_, out, self) := r in
      let* rs := reads chunk self lens in
      Ret (out :: fst rs, snd rs)
  end.

Lemma reads_run chunk file lens : file <> [] -> Forall (fun n => 0 < n) lens -> forall self p r, playing self file p r ->
  exists outs self' rest, reads chunk self lens = Ret (outs, self') /\ to_come file p r = mjoin outs ++ rest /\
    ([] ∈ outs -> rest = []).
Proof.
  intros Hne. induction 1 as [|len lens Hl Hls IH]; intros self p r Hp.
  { exists [], self, (to_come file p r). split_and!; [done..|]. by intros ?%not_elem_of_nil. }
  cbn [reads]. destruct (pub_read_run chunk self file p r len Hp Hne Hl) as (out & self1 & p1 & r1 & -> & Hp1 & E & _ & Hz). cbn [obind].
  destruct (IH self1 p1 r1 Hp1) as (outs & self2 & rest & -> & E2 & Hz2). cbn [obind fst snd].
  exists (out :: outs), self2, rest. split; [done|]. rewrite E, E2. split; [cbn; by rewrite <- app_assoc|].
  intros [<-|Hin]%elem_of_cons; [|by apply Hz2]. rewrite (Hz eq_refl) in E. rewrite E2 in E. symmetry in E. cbn in E. by apply app_nil in E as [_ ->].
Qed.

(** C12: an engine that has opened a file and is told to repeat it [r] times delivers,
    whatever the sizes of the reads and however the system splits them, the bytes of
    the file [r + 1] times over, in order; a read returns nothing only when all of
    that has been delivered. *)
Theorem engine_streams chunk self0 fname file fdn self1 r self lens :
  k_fs (k self0) fname = Some (file, true) -> file <> [] -> zlen file <= INT_MAX -> fd self0 < 0 ->
  Z.of_nat r <= INT_MAX -> Forall (fun n => 0 < n) lens ->
  pub_open true self0 fname = (fdn, self1) -> snd (pub_set_repeat self1 (Z.of_nat r)) = self ->
  exists outs self' rest, reads chunk self lens = Ret (outs, self') /\
    mjoin (replicate (S r) file) = mjoin outs ++ rest /\ ([] ∈ outs -> rest = []).
Proof.
  intros Hfs Hne Hlen Hfd Hr Hlens Hopen <-. apply (reads_run chunk file lens Hne Hlens _ 0 r).
  assert (k (fio_close self0) = k self0) as E by (unfold fio_close; by rewrite (proj2 (Z.leb_gt 0 (fd self0)))).
  destruct (pub_open_run self0 fname file fdn self1) as [_ [H1 H2 H3 H4 H5]]; [by rewrite E|done|done|]. split; cbn; (done || lia).
Qed.

(** After a seek the position that is reported is 1, whatever the position: the
    result of [fio_seek], which only says that it succeeded, is stored as one. *)
Theorem pub_seek_position self pos : 0 <= fd self -> pub_read_pos (snd (pub_seek self pos)) = 1.
Proof. intros H. unfold pub_seek, fio_seek. by rewrite (proj2 (Z.leb_le 0 (fd self)) H). Qed.

(** ** Examples *)
Definition demo_file : list Z := [10; 20; 30; 40; 50].
Definition demo_kernel : kernel := mk_kernel (fun p => if bool_decide (p = [97]) then Some (demo_file, true) else None) [] 0.
Definition demo_engine : engine := new_stio_engine (mk_engine demo_kernel 0 0 0 0 0 0 0 0 0 0 [] []).

Lemma engine_streams_witness :
  exists outs self' rest,
    reads (fun _ _ => 2) (snd (pub_set_repeat (snd (pub_open true demo_engine [97])) 1)) [3; 3; 9; 9] = Ret (outs, self') /\
    mjoin (replicate 2 demo_file) = mjoin outs ++ rest /\ ([] ∈ outs -> rest = []).
Proof.
  apply (engine_streams (fun _ _ => 2) demo_engine [97] demo_file 0 (snd (pub_open true demo_engine [97])) 1).
  - reflexivity.
  - discriminate.
  - vm_compute. discriminate.
  - reflexivity.
  - vm_compute. discriminate.
  - repeat constructor.
  - reflexivity.
  - reflexivity.
Defined.

Lemma pub_seek_position_witness :
  pub_read_pos (snd (pub_seek (snd (pub_open true demo_engine [97])) 3)) = 1.
Proof. apply (pub_seek_position (snd (pub_open true demo_engine [97])) 3). vm_compute. discriminate. Defined.

End EN.
