(* ===== verification/Prefetch.v ===== *)
(** * Prefetch.v: reading ahead, stio_engine/prefetch.c

    A thread ([prefetch_main]) reads the file block by block into the ring of
    [BufferCache] while the program takes bytes from it ([pre_read]).  Two more caches
    may be involved: [kbc], meant to keep the first blocks for a restart, and [pbc],
    which a second thread ([prefetch_queue_main]) fills with the first blocks of the
    next file.

    The ring between the two threads is not modelled again: a turn of the thread gives
    the block it declares ready, [pre_read] takes blocks from a list, and [cache_fifo]'s
    invariant says that in every interleaving the one list is a prefix of the other.  The
    two other caches are used by one thread at a time and are run here, with the
    contents of their buffers.

    In the code the two threads share one structure, but the fields each writes are its
    own: the reader has [tmpbuff], [tmpbsize], [tmpbidx] and [in_read], the thread the
    rest.  The reader's state is therefore a copy of its own below.

    The flag by which another thread stops this one ([abort_flag], [stop_pq_prefetch]) is
    given for every round as an argument.  Starting and stopping the threads
    ([pre_open], [pre_close], [pre_reset]), messages and call-backs are left out. *)

From S2P Require Import Prelude Ring Posix Wire BufferCache StioEngine.

Module PF.
Import EN.

(** [struct disk_buffer_t]. *)
Record block := mk_block { bytes : list Z; dbflag : Z; rc : Z }.

(** A cache with the contents of its buffers. *)
Record cache := mk_cache { bc : BC.buffer_cache; blk : list block }.

(** [struct stio_engine_prefetch_t] without the main ring and the threads. *)
Record prefetch := mk_pch {
  kbc : option cache;
  pbc : option cache;
  nbuf : Z;
  knbuf : Z;
  pnbuf : Z;
  enable_kbuf : Z;
  enable_pbuf : Z;
  kbuf_pos : Z;
  bsize : Z;
  tmpbuff : list Z;
  tmpbsize : Z;
  tmpbidx : Z;
  in_running : Z;
  already_pq_prefetch : Z;
  need_reopen_old_file_if_reset : Z;
}.
Definition set_kbc (v : option cache) (s : prefetch) : prefetch :=
  mk_pch v (pbc s) (nbuf s) (knbuf s) (pnbuf s) (enable_kbuf s) (enable_pbuf s) (kbuf_pos s) (bsize s) (tmpbuff s) (tmpbsize s) (tmpbidx s) (in_running s) (already_pq_prefetch s) (need_reopen_old_file_if_reset s).
Definition set_pbc (v : option cache) (s : prefetch) : prefetch :=
  mk_pch (kbc s) v (nbuf s) (knbuf s) (pnbuf s) (enable_kbuf s) (enable_pbuf s) (kbuf_pos s) (bsize s) (tmpbuff s) (tmpbsize s) (tmpbidx s) (in_running s) (already_pq_prefetch s) (need_reopen_old_file_if_reset s).
Definition set_nbuf (v : Z) (s : prefetch) : prefetch :=
  mk_pch (kbc s) (pbc s) v (knbuf s) (pnbuf s) (enable_kbuf s) (enable_pbuf s) (kbuf_pos s) (bsize s) (tmpbuff s) (tmpbsize s) (tmpbidx s) (in_running s) (already_pq_prefetch s) (need_reopen_old_file_if_reset s).
Definition set_knbuf (v : Z) (s : prefetch) : prefetch :=
  mk_pch (kbc s) (pbc s) (nbuf s) v (pnbuf s) (enable_kbuf s) (enable_pbuf s) (kbuf_pos s) (bsize s) (tmpbuff s) (tmpbsize s) (tmpbidx s) (in_running s) (already_pq_prefetch s) (need_reopen_old_file_if_reset s).
Definition set_pnbuf (v : Z) (s : prefetch) : prefetch :=
  mk_pch (kbc s) (pbc s) (nbuf s) (knbuf s) v (enable_kbuf s) (enable_pbuf s) (kbuf_pos s) (bsize s) (tmpbuff s) (tmpbsize s) (tmpbidx s) (in_running s) (already_pq_prefetch s) (need_reopen_old_file_if_reset s).
Definition set_enable_kbuf (v : Z) (s : prefetch) : prefetch :=
  mk_pch (kbc s) (pbc s) (nbuf s) (knbuf s) (pnbuf s) v (enable_pbuf s) (kbuf_pos s) (bsize s) (tmpbuff s) (tmpbsize s) (tmpbidx s) (in_running s) (already_pq_prefetch s) (need_reopen_old_file_if_reset s).
Definition set_enable_pbuf (v : Z) (s : prefetch) : prefetch :=
  mk_pch (kbc s) (pbc s) (nbuf s) (knbuf s) (pnbuf s) (enable_kbuf s) v (kbuf_pos s) (bsize s) (tmpbuff s) (tmpbsize s) (tmpbidx s) (in_running s) (already_pq_prefetch s) (need_reopen_old_file_if_reset s).
Definition set_kbuf_pos (v : Z) (s : prefetch) : prefetch :=
  mk_pch (kbc s) (pbc s) (nbuf s) (knbuf s) (pnbuf s) (enable_kbuf s) (enable_pbuf s) v (bsize s) (tmpbuff s) (tmpbsize s) (tmpbidx s) (in_running s) (already_pq_prefetch s) (need_reopen_old_file_if_reset s).
Definition set_bsize (v : Z) (s : prefetch) : prefetch :=
  mk_pch (kbc s) (pbc s) (nbuf s) (knbuf s) (pnbuf s) (enable_kbuf s) (enable_pbuf s) (kbuf_pos s) v (tmpbuff s) (tmpbsize s) (tmpbidx s) (in_running s) (already_pq_prefetch s) (need_reopen_old_file_if_reset s).
Definition set_tmpbuff (v : list Z) (s : prefetch) : prefetch :=
  mk_pch (kbc s) (pbc s) (nbuf s) (knbuf s) (pnbuf s) (enable_kbuf s) (enable_pbuf s) (kbuf_pos s) (bsize s) v (tmpbsize s) (tmpbidx s) (in_running s) (already_pq_prefetch s) (need_reopen_old_file_if_reset s).
Definition set_tmpbsize (v : Z) (s : prefetch) : prefetch :=
  mk_pch (kbc s) (pbc s) (nbuf s) (knbuf s) (pnbuf s) (enable_kbuf s) (enable_pbuf s) (kbuf_pos s) (bsize s) (tmpbuff s) v (tmpbidx s) (in_running s) (already_pq_prefetch s) (need_reopen_old_file_if_reset s).
Definition set_tmpbidx (v : Z) (s : prefetch) : prefetch :=
  mk_pch (kbc s) (pbc s) (nbuf s) (knbuf s) (pnbuf s) (enable_kbuf s) (enable_pbuf s) (kbuf_pos s) (bsize s) (tmpbuff s) (tmpbsize s) v (in_running s) (already_pq_prefetch s) (need_reopen_old_file_if_reset s).
Definition set_in_running (v : Z) (s : prefetch) : prefetch :=
  mk_pch (kbc s) (pbc s) (nbuf s) (knbuf s) (pnbuf s) (enable_kbuf s) (enable_pbuf s) (kbuf_pos s) (bsize s) (tmpbuff s) (tmpbsize s) (tmpbidx s) v (already_pq_prefetch s) (need_reopen_old_file_if_reset s).
Definition set_already_pq_prefetch (v : Z) (s : prefetch) : prefetch :=
  mk_pch (kbc s) (pbc s) (nbuf s) (knbuf s) (pnbuf s) (enable_kbuf s) (enable_pbuf s) (kbuf_pos s) (bsize s) (tmpbuff s) (tmpbsize s) (tmpbidx s) (in_running s) v (need_reopen_old_file_if_reset s).
Definition set_need_reopen_old_file_if_reset (v : Z) (s : prefetch) : prefetch :=
  mk_pch (kbc s) (pbc s) (nbuf s) (knbuf s) (pnbuf s) (enable_kbuf s) (enable_pbuf s) (kbuf_pos s) (bsize s) (tmpbuff s) (tmpbsize s) (tmpbidx s) (in_running s) (already_pq_prefetch s) v.

(** The engine with its prefetcher. *)
Record st := mk_st {
  eng : engine;
  pch : prefetch;
}.
Definition set_eng (v : engine) (s : st) : st :=
  mk_st v (pch s).
Definition set_pch (v : prefetch) (s : st) : st :=
  mk_st (eng s) v.

(** The local variables of [prefetch_main] that live across rounds. *)
Record locals := mk_loc {
  use_prev_data : Z;
  kbc_state : Z;
  fp_off : Z;
  pbc_off : Z;
}.
Definition set_use_prev_data (v : Z) (s : locals) : locals :=
  mk_loc v (kbc_state s) (fp_off s) (pbc_off s).
Definition set_kbc_state (v : Z) (s : locals) : locals :=
  mk_loc (use_prev_data s) v (fp_off s) (pbc_off s).
Definition set_fp_off (v : Z) (s : locals) : locals :=
  mk_loc (use_prev_data s) (kbc_state s) v (pbc_off s).
Definition set_pbc_off (v : Z) (s : locals) : locals :=
  mk_loc (use_prev_data s) (kbc_state s) (fp_off s) v.

Definition upd_eng (f : engine -> engine) (s : st) : st := set_eng (f (eng s)) s.
Definition upd_pch (f : prefetch -> prefetch) (s : st) : st := set_pch (f (pch s)) s.

(** [memcpy (dk->buffer, src, n)]. *)
Definition copy_in (dk : block) (src : list Z) (n : Z) : outcome block :=
  if (n <? 0) || (zlen src <? n) then Fault OutOfBounds
  else let* b := blit (bytes dk) 0 (slice src 0 n) in Ret (mk_block b (dbflag dk) (rc dk)).
Definition with_rc (v : Z) (dk : block) : block := mk_block (bytes dk) (dbflag dk) v.

(** A buffer of a cache. *)
Definition block_at (c : cache) (i : Z) : outcome block := aget (blk c) i.

Section prefetch.
Context (chunk : Z -> Z -> Z).

(** [rlen = pd->read (self, dkptr->buffer, len)]. *)
Definition read_into (s : st) (dk : block) : outcome (Z * block * st) :=
  let* r := fio_read chunk (eng s) (bsize (pch s)) in
  let '(rlen, out, e) := r in
  let* b := blit (bytes dk) 0 out in
  Ret (rlen, mk_block b (dbflag dk) (rc dk), set_eng e s).

(** Lines 137-167. *)
Definition prefetch_begin (s : st) : outcome (locals * st) :=
  let s := upd_eng (set_end_of_prefetch 0) (upd_pch (set_in_running 1) s) in
  let prev := negb (already_pq_prefetch (pch s) =? 0) in
  let s := if prev then upd_pch (set_already_pq_prefetch 0) s else s in
  let l := mk_loc (b2z prev) 0 0 0 in
  let reset (c : option cache) : outcome (option cache) :=
    match c with
    | None => Fault NullDeref
    | Some c => Ret (Some (mk_cache (BC.bc_top_reset (bc c)) (blk c)))
    end in
  if enable_kbuf (pch s) =? 1 then
    let* c := reset (kbc (pch s)) in
    Ret (set_kbc_state 1 l, upd_pch (set_kbc c) s)
  else if enable_kbuf (pch s) =? 2 then
    let* c := reset (kbc (pch s)) in
    let s := upd_pch (set_kbc c) s in
    let s := set_eng (snd (fio_seek (eng s) (kbuf_pos (pch s)))) s in
    Ret (set_fp_off (kbuf_pos (pch s)) (set_kbc_state 3 l), s)
  else Ret (l, s).

(** Lines 176-189: a block of the keep buffer, if there is one. *)
Definition take_kept (s : st) (l : locals) (dk : block) : outcome (option (Z * block) * locals * st) :=
  if kbc_state l =? 3 then
    match kbc (pch s) with
    | None => Fault NullDeref
    | Some c =>
        let* r := BC.bc_top_try_request (bc c) in
        let s := upd_pch (set_kbc (Some (mk_cache (snd r) (blk c)))) s in
        match fst r with
        | Some i =>
            let* kb := block_at c i in
            let* dk := copy_in dk (bytes kb) (rc kb) in
            Ret (Some (rc kb, with_rc (rc kb) dk), l, s)
        | None => Ret (None, set_kbc_state 2 l, s)
        end
    end
  else Ret (None, l, s).

(** Lines 196-220: the next block, from [pbc] or from the file. *)
Definition next_block (s : st) (l : locals) (dk : block) : outcome (Z * block * locals * st) :=
  if negb (use_prev_data l =? 0) then
    match pbc (pch s) with
    | None => Fault NullDeref
    | Some c =>
        let* r := BC.bc_consumer_try_request (bc c) in
        let s := upd_pch (set_pbc (Some (mk_cache (snd r) (blk c)))) s in
        let* x := (
          match fst r with
          | Some i =>
              let* pb := block_at c i in
              if 0 <? rc pb then
                let* dk := copy_in dk (bytes pb) (rc pb) in
                Ret (rc pb, dk, set_pbc_off (pbc_off l + rc pb) l)
              else Ret (rc pb, dk, l)
          | None => Ret (0, dk, l)
          end) in
        let '(rlen, dk, l) := x in
        if rlen =? 0 then
          let s := set_eng (snd (fio_seek (eng s) (pbc_off l))) s in
          let* r := read_into s dk in
          let '(rlen, dk, s) := r in
          Ret (rlen, dk, set_use_prev_data 0 l, s)
        else Ret (rlen, dk, l, s)
    end
  else
    let* r := read_into s dk in
    let '(rlen, dk, s) := r in
    Ret (rlen, dk, l, s).

(** Lines 246-269: the block is kept, if [kbc] gives a buffer. *)
Definition keep_block (s : st) (l : locals) (dk : block) (rlen : Z) : outcome (locals * st) :=
  if kbc_state l =? 1 then
    match kbc (pch s) with
    | None => Fault NullDeref
    | Some c =>
        let* r := BC.bc_consumer_try_request (bc c) in
        match fst r with
        | Some i =>
            let* kb := block_at c i in
            let* kb := copy_in kb (bytes dk) rlen in
            let* bl := aset (blk c) i (with_rc rlen kb) in
            let* b := BC.bc_producer_ready (snd r) in
            let* b := BC.bc_consumer_release (snd b) in
            Ret (l, upd_pch (fun p => set_kbuf_pos (fp_off l) (set_kbc (Some (mk_cache (snd b) bl)) p)) s)
        | None => Ret (set_kbc_state 2 l, upd_pch (set_kbc (Some (mk_cache (snd r) (blk c)))) s)
        end
    end
  else Ret (l, s).

(** One round of the loop (lines 170-273): [dk] is the buffer the ring gave; the
    result is [rc], the block declared ready and the new state. *)
Definition prefetch_turn (s : st) (l : locals) (dk : block) : outcome (Z * block * locals * st) :=
  let dk := mk_block (bytes dk) 0 (rc dk) in
  let* x := take_kept s l dk in
  let '(kept, l, s) := x in
  match kept with
  | Some (r, dk) => Ret (r, dk, l, s)
  | None =>
      if negb (abort_flag (eng s) =? 0) then Ret (-1, with_rc (-1) dk, l, s)
      else
        let* x := next_block s l dk in
        let '(rlen, dk, l, s) := x in
        let dk := with_rc rlen dk in
        if (rlen =? 0) || (rlen =? -1) then
          if negb (repeat_cnt (eng s) =? 0) then
            let* e := count_repeat (eng s) in
            let s := set_eng (snd (fio_reset e)) s in
            let* x := read_into s dk in
            let '(rlen, dk, s) := x in
            Ret (rlen, mk_block (bytes dk) 1 rlen, l, s)
          else Ret (rlen, dk, l, s)
        else
          let l := set_fp_off (fp_off l + rlen) l in
          let* x := keep_block s l dk rlen in
          Ret (rlen, dk, fst x, snd x)
  end.

(** The rounds: [dks] are the buffers the ring gives, [ab i] is [abort_flag] in round
    [i].  The blocks declared ready. *)
Fixpoint prefetch_loop (fuel : nat) (ab : nat -> Z) (dks : nat -> block) (i : nat) (s : st) (l : locals)
    : outcome (list block * st) :=
  match fuel with
  | O => Fault OutOfFuel
  | S fuel =>
      let* x := prefetch_turn (upd_eng (set_abort_flag (ab i)) s) l (dks i) in
      let '(r, dk, l, s) := x in
      if 0 <? r then
        let* y := prefetch_loop fuel ab dks (S i) s l in
        Ret (dk :: fst y, snd y)
      else Ret ([dk], s)
  end.

Definition prefetch_main (fuel : nat) (ab : nat -> Z) (dks : nat -> block) (s : st) : outcome (list block * st) :=
  let* x := prefetch_begin s in
  let* y := prefetch_loop fuel ab dks 0 (snd x) (fst x) in
  Ret (fst y, upd_eng (set_end_of_prefetch 1) (upd_pch (set_in_running 0) (snd y))).

(** ** The thread for the next file (lines 84-102).  [stop i]: the flag after round [i].
    Every round takes a free buffer. *)
Fixpoint pq_loop (fuel : nat) (stop : nat -> bool) (i : nat) (s : st) (c : cache) : outcome (st * cache) :=
  match fuel with
  | O => Fault OutOfFuel
  | S fuel =>
      let* r := BC.bc_producer_try_request (bc c) in
      let c := mk_cache (snd r) (blk c) in
      match fst r with
      | None => Ret (s, c)
      | Some n =>
          let* dk := block_at c n in
          let* x := read_into s dk in
          let '(rlen, dk, s) := x in
          let s := upd_eng (set_have_next_precache 1) s in
          if rlen =? bsize (pch s) then
            let* bl := aset (blk c) n (with_rc rlen dk) in
            let* b := BC.bc_producer_ready (bc c) in
            let c := mk_cache (snd b) bl in
            if stop i then Ret (s, c) else pq_loop fuel stop (S i) s c
          else
            let* bl := aset (blk c) n (with_rc 0 dk) in
            Ret (s, mk_cache (bc c) bl)
      end
  end.

(** [stopped]: the flag at the end. *)
Definition prefetch_queue_main (ok : bool) (stop : nat -> bool) (stopped : bool) (s : st) : outcome st :=
  let s := upd_pch (set_already_pq_prefetch 0) s in
  let s := upd_eng (set_in_pq_prefetch 1) s in
  let* s := (
    if negb (have_next_file (eng s) =? 0) then
      let s := upd_pch (set_need_reopen_old_file_if_reset 1) (upd_eng (set_have_next_precache 0) s) in
      let r := fio_open ok (eng s) (next_file (eng s)) in
      let s := set_eng (snd r) s in
      if 0 <=? fst r then
        match pbc (pch s) with
        | None => Fault NullDeref
        | Some c =>
            let c := mk_cache (snd (BC.bc_cleanup (bc c))) (blk c) in
            let* x := pq_loop (S (S (Z.to_nat (BC.num (bc c))))) stop 0 s c in
            Ret (upd_pch (set_pbc (Some (snd x))) (fst x))
        end
      else Ret s
    else Ret s) in
  let s := upd_eng (set_in_pq_prefetch 0) s in
  Ret (if stopped then s else upd_pch (set_already_pq_prefetch 1) s).

(** ** Reading.  Lines 328-367: [q] are the blocks the ring hands out, one after the
    other; when there are no more the call waits. *)
Fixpoint pre_loop (plugin : option (Z -> list Z -> Z * list Z)) (q : list block) (s : st) (rlen : Z) (acc : list Z)
    : outcome (list Z * st * list block) :=
  if rlen <=? 0 then Ret (acc, s, q)
  else
    match q with
    | [] => Block
    | dk :: q =>
        if rc dk <=? 0 then Ret (acc, upd_pch (set_tmpbsize (-1)) s, q)
        else
          let '(n, data) := match plugin with Some f => f (rc dk) (bytes dk) | None => (rc dk, bytes dk) end in
          if n <=? 0 then Ret (acc, upd_pch (set_tmpbsize (-1)) s, q)
          else if zlen data <? n then Fault OutOfBounds
          else if rlen <? n then
            let* t := blit (tmpbuff (pch s)) 0 (slice data rlen (n - rlen)) in
            Ret (acc ++ slice data 0 rlen,
                 upd_pch (fun p => set_tmpbuff t (set_tmpbsize (n - rlen) (set_tmpbidx 0 p))) s, q)
          else pre_loop plugin q s (rlen - n) (acc ++ slice data 0 n)
    end.

(** [memcpy] of [n] bytes out of [tmpbuff]. *)
Definition from_tmp (p : prefetch) (n : Z) : outcome (list Z) :=
  if (0 <=? tmpbidx p) && (tmpbidx p + n <=? zlen (tmpbuff p)) then Ret (slice (tmpbuff p) (tmpbidx p) n)
  else Fault OutOfBounds.

Definition pre_read (plugin : option (Z -> list Z -> Z * list Z)) (s : st) (q : list block) (len : Z)
    : outcome (Z * list Z * st * list block) :=
  if negb (abort_flag (eng s) =? 0) then Ret (-1, [], s, q)
  else if tmpbsize (pch s) <? 0 then Ret (-1, [], s, q)
  else if (0 <? tmpbsize (pch s)) && (len <? tmpbsize (pch s)) then
    let* out := from_tmp (pch s) len in
    Ret (len, out, upd_pch (fun p => set_tmpbidx (tmpbidx p + len) (set_tmpbsize (tmpbsize p - len) p)) s, q)
  else
    let n := tmpbsize (pch s) in
    let* out := (if 0 <? n then from_tmp (pch s) n else Ret []) in
    let s := if 0 <? n then upd_pch (fun p => set_tmpbsize 0 (set_tmpbidx 0 p)) s else s in
    let* r := pre_loop plugin q (upd_eng (set_in_read 1) s) (len - n) out in
    let '(out, s, q) := r in
    Ret (zlen out, out, upd_eng (set_in_read 0) s, q).

(** ** Settings *)
Definition pub_prefetch_is_running (p : option prefetch) : Z := match p with Some p => in_running p | None => 0 end.
Definition pub_free_buffer (main : option BC.buffer_cache) : Z :=
  match main with Some b => BC.bc_num_buf_free b | None => 0 end.

(** The size of the main ring is changed only while the thread is not running. *)
Definition pub_set_buffer (p : option prefetch) (main : BC.buffer_cache) (n : Z) : outcome (Z * BC.buffer_cache) :=
  match p with
  | None => Ret (0, main)
  | Some p => if negb (in_running p =? 0) then Ret (0, main) else BC.bc_setbuffer main n
  end.

(** [c]: the new cache, if [new_buffer_cache] succeeds. *)
Definition pub_set_prefetch_buffer (p : prefetch) (n : Z) (c : option cache) : Z * prefetch :=
  match pbc p with
  | Some b =>
      if n <? 0 then (1, set_pbc (Some (mk_cache (snd (BC.bc_cleanup (bc b))) (blk b))) p)
      else (1, set_enable_pbuf (b2z (0 <? n)) p)
  | None =>
      if n <? 3 then (0, p)
      else if negb (in_running p =? 0) then (0, p)
      else match c with
           | None => (0, p)
           | Some b => (1, set_enable_pbuf 0 (set_pnbuf n (set_pbc (Some b) p)))
           end
  end.
Definition pub_set_keep_buffer (p : prefetch) (n : Z) (c : option cache) : Z * prefetch :=
  match kbc p with
  | Some b =>
      if n <? 0 then (1, set_kbc (Some (mk_cache (snd (BC.bc_cleanup (bc b))) (blk b))) p)
      else (1, set_enable_kbuf (b2z (0 <? n)) p)
  | None =>
      if n <? 3 then (0, p)
      else if negb (in_running p =? 0) then (0, p)
      else match c with
           | None => (0, p)
           | Some b => (1, set_enable_kbuf 0 (set_knbuf n (set_kbc (Some b) p)))
           end
  end.

(** The structure as [pub_prefetch] fills it; [tmp] is the buffer from [malloc], [m] the
    structure before. *)
Definition pub_prefetch (m : prefetch) (tmp : list Z) (n bs : Z) : prefetch :=
  mk_pch None None n 0 0 0 0 0 bs tmp 0 0 0 0 (need_reopen_old_file_if_reset m).
End prefetch.

(** ** Taking bytes *)
Definition data (b : block) : list Z := slice (bytes b) 0 (rc b).
Definition good (bs : Z) (b : block) : Prop := 0 < rc b <= bs /\ zlen (bytes b) = bs.

Lemma data_len bs b : good bs b -> zlen (data b) = rc b.
Proof. intros [H1 H2]. apply zlen_slice; lia. Qed.

(** The reader has [D] before it: in [tmpbuff] and in the blocks of [q], which end
    with one that says that the file is over. *)
Record live (bs : Z) (s : st) (q : list block) (D : list Z) : Prop := {
  lv_abort : abort_flag (eng s) = 0;
  lv_tmp : zlen (tmpbuff (pch s)) = bs;
  lv_idx : 0 <= tmpbidx (pch s) /\ 0 <= tmpbsize (pch s) /\ tmpbidx (pch s) + tmpbsize (pch s) <= bs;
  lv_q : exists ok e, q = ok ++ [e] /\ Forall (good bs) ok /\ rc e <= 0 /\
           D = slice (tmpbuff (pch s)) (tmpbidx (pch s)) (tmpbsize (pch s)) ++ mjoin (data <$> ok);
}.
Definition ended (s : st) : Prop := abort_flag (eng s) = 0 /\ tmpbsize (pch s) = -1.
Definition holds (bs : Z) (s : st) (q : list block) (D : list Z) : Prop := live bs s q D \/ (ended s /\ D = []).

Lemma take_split (a b : list Z) n : zlen a <= n ->
  take (Z.to_nat n) (a ++ b) = a ++ take (Z.to_nat (n - zlen a)) b /\ drop (Z.to_nat n) (a ++ b) = drop (Z.to_nat (n - zlen a)) b.
Proof.
  intros H. unfold zlen in *. rewrite take_app_ge, drop_app_ge by lia.
  replace (Z.to_nat n - length a)%nat with (Z.to_nat (n - Z.of_nat (length a))) by lia. done.
Qed.

Lemma pre_loop_run bs ok e : Forall (good bs) ok -> rc e <= 0 -> forall s rlen acc,
  abort_flag (eng s) = 0 -> zlen (tmpbuff (pch s)) = bs -> tmpbsize (pch s) = 0 -> 0 <= tmpbidx (pch s) <= bs ->
  0 <= rlen ->
  exists s' q', pre_loop None (ok ++ [e]) s rlen acc = Ret (acc ++ take (Z.to_nat rlen) (mjoin (data <$> ok)), s', q') /\
    holds bs s' q' (drop (Z.to_nat rlen) (mjoin (data <$> ok))).
Proof.
  intros Hok He. induction Hok as [|b ok Hb Hok IH]; intros s rlen acc Ha Ht Hz Hi Hr.
  - change (mjoin (data <$> [])) with (@nil Z). destruct (Z.leb_spec rlen 0) as [Hle|Hgt]; cbn [app pre_loop].
    + rewrite (proj2 (Z.leb_le rlen 0)) by done. exists s, [e]. rewrite take_nil, drop_nil, app_nil_r. split; [done|]. left.
      split; [done|done|lia|]. exists [], e. split_and!; [done|by constructor|done|]. by rewrite Hz, slice_nil.
    + rewrite (proj2 (Z.leb_gt rlen 0)), (proj2 (Z.leb_le (rc e) 0)) by done. eexists _, []. rewrite take_nil, drop_nil, app_nil_r.
      split; [reflexivity|]. right. split; [split; [exact Ha|done]|done].
  - cbn [app pre_loop]. destruct (Z.leb_spec rlen 0) as [Hle|Hgt].
    + replace rlen with 0 by lia. exists s, (b :: ok ++ [e]). rewrite app_nil_r. split; [done|]. left. rewrite drop_0.
      split; [done|done|lia|]. exists (b :: ok), e. split_and!; [done|by constructor|done|]. by rewrite Hz, slice_nil.
    + pose proof Hb as [Hrc Hlen]. rewrite (proj2 (Z.leb_gt (rc b) 0)), (proj2 (Z.ltb_ge (zlen (bytes b)) (rc b))) by lia.
      change (mjoin (data <$> b :: ok)) with (data b ++ mjoin (data <$> ok)). pose proof (data_len bs b Hb) as Hdl.
      destruct (Z.ltb_spec rlen (rc b)) as [Hlt|Hge].
      * assert (zlen (slice (bytes b) rlen (rc b - rlen)) = rc b - rlen) as Hsl by (apply zlen_slice; lia).
        rewrite blit_patch by lia. cbn [obind]. eexists _, _. split; [|left].
        -- do 3 f_equal. f_equal. rewrite take_app_le by (unfold zlen in Hdl; lia). unfold data, slice.
           change (Z.to_nat 0) with 0%nat. rewrite drop_0, take_take. by rewrite Nat.min_l by lia.
        -- split; cbn; [exact Ha|rewrite zlen_patch; lia|lia|]. exists ok, e. split_and!; [done..|].
           rewrite drop_app_le by (unfold zlen in Hdl; lia). f_equal. rewrite slice_patch_eq by lia.
           unfold data. rewrite (proj2 (head_split (bytes b) (rc b) rlen ltac:(lia))). done.
      * destruct (IH s (rlen - rc b) (acc ++ data b) Ha Ht Hz Hi ltac:(lia)) as (s' & q' & E & Hh).
        destruct (take_split (data b) (mjoin (data <$> ok)) rlen ltac:(lia)) as [-> ->]. rewrite Hdl. exists s', q'. split; [|done].
        rewrite <- app_assoc in E. exact E.
Qed.

Lemma from_tmp_run bs s q D n : live bs s q D -> 0 <= n <= tmpbsize (pch s) ->
  from_tmp (pch s) n = Ret (slice (tmpbuff (pch s)) (tmpbidx (pch s)) n).
Proof.
  intros [_ Ht Hi _] Hn. unfold from_tmp. rewrite (proj2 (Z.leb_le 0 _)), (proj2 (Z.leb_le (_ + n) _)) by lia. done.
Qed.

(** One read takes the next [len] bytes, or all that are left; at the end it returns
    0 once and -1 from then on. *)
Lemma pre_read_run bs s q D len : live bs s q D -> 0 < len ->
  exists s' q', pre_read None s q len = Ret (zlen (take (Z.to_nat len) D), take (Z.to_nat len) D, s', q') /\
    holds bs s' q' (drop (Z.to_nat len) D).
Proof.
  intros L Hl. pose proof L as [Ha Ht Hi (ok & e & -> & Hok & He & ->)]. unfold pre_read. rewrite Ha. cbn [Z.eqb negb].
  set (tmp := slice (tmpbuff (pch s)) (tmpbidx (pch s)) (tmpbsize (pch s))).
  assert (zlen tmp = tmpbsize (pch s)) as Htl by (apply zlen_slice; lia).
  rewrite (proj2 (Z.ltb_ge _ 0)) by lia. destruct (_ && _) eqn:Hc.
  - apply andb_true_iff in Hc as [H1%Z.ltb_lt H2%Z.ltb_lt]. rewrite (from_tmp_run bs s _ _ len L) by lia. cbn [obind].
    assert (take (Z.to_nat len) (tmp ++ mjoin (data <$> ok)) = slice (tmpbuff (pch s)) (tmpbidx (pch s)) len) as ->.
    { rewrite take_app_le by (unfold zlen in Htl; lia). unfold tmp, slice. rewrite take_take. by rewrite Nat.min_l by lia. }
    eexists _, _. rewrite zlen_slice by lia. split; [reflexivity|]. left. split; cbn; [done|done|lia|].
    exists ok, e. split_and!; [done..|]. rewrite drop_app_le by (unfold zlen in Htl; lia). f_equal. unfold tmp, slice.
    rewrite skipn_firstn_comm, drop_drop. f_equal; [lia|]. f_equal. lia.
  - assert (tmpbsize (pch s) <= len) as Hle.
    { apply andb_false_iff in Hc as [H%Z.ltb_ge|H%Z.ltb_ge]; lia. }
    assert ((if 0 <? tmpbsize (pch s) then from_tmp (pch s) (tmpbsize (pch s)) else Ret []) = Ret tmp) as ->.
    { destruct (Z.ltb_spec 0 (tmpbsize (pch s))); [apply (from_tmp_run bs s _ _ _ L); lia|].
      f_equal. unfold tmp. by replace (tmpbsize (pch s)) with 0 by lia. }
    cbn [obind]. set (s1 := upd_eng (set_in_read 1) (if 0 <? tmpbsize (pch s) then _ else _)).
    assert (abort_flag (eng s1) = 0 /\ zlen (tmpbuff (pch s1)) = bs /\ tmpbsize (pch s1) = 0 /\ 0 <= tmpbidx (pch s1) <= bs) as (A & B & C & D).
    { subst s1. destruct (Z.ltb_spec 0 (tmpbsize (pch s))); cbn; split_and!; try done; try lia. }
    destruct (pre_loop_run bs ok e Hok He s1 (len - tmpbsize (pch s)) tmp A B C D ltac:(lia)) as (s' & q' & -> & Hh). cbn [obind].
    destruct (take_split tmp (mjoin (data <$> ok)) len ltac:(lia)) as [-> ->]. rewrite Htl.
    eexists _, q'. split; [reflexivity|]. destruct Hh as [[h1 h2 h3 h4]|[[h1 h2] h3]]; [left; by split|right; done].
Qed.

Lemma pre_read_ended s q len : ended s -> pre_read None s q len = Ret (-1, [], s, q).
Proof. intros [Ha Ht]. unfold pre_read. by rewrite Ha, Ht. Qed.

Fixpoint pre_reads (s : st) (q : list block) (lens : list Z) : outcome (list (list Z) * st * list block) :=
  match lens with
  | [] => Ret ([], s, q)
  | len :: lens =>
      let* r := pre_read None s q len in
      let '(_, out, s, q) := r in
      let* rs := pre_reads s q lens in
      let '(outs, s, q) := rs in
      Ret (out :: outs, s, q)
  end.

Lemma pre_reads_run bs lens : Forall (fun n => 0 < n) lens -> forall s q D, holds bs s q D ->
  exists outs s' q' rest, pre_reads s q lens = Ret (outs, s', q') /\ D = mjoin outs ++ rest /\ ([] ∈ outs -> rest = []).
Proof.
  induction 1 as [|len lens Hl Hls IH]; intros s q D Hh.
  { exists [], s, q, D. split_and!; [done..|]. by intros ?%not_elem_of_nil. }
  cbn [pre_reads]. destruct Hh as [L|[E ->]].
  - destruct (pre_read_run bs s q D len L Hl) as (s1 & q1 & -> & Hh). cbn [obind].
    destruct (IH s1 q1 _ Hh) as (outs & s2 & q2 & rest & -> & HD & Hz). cbn [obind]. eexists (_ :: outs), s2, q2, rest. split; [reflexivity|].
    split; [change (mjoin (take (Z.to_nat len) D :: outs)) with (take (Z.to_nat len) D ++ mjoin outs); rewrite <- app_assoc, <- HD; by rewrite take_drop|]. intros [Hnil|Hin]%elem_of_cons; [|by apply Hz].
    assert (D = []) as ->.
    { destruct D as [|x D]; [done|]. replace (Z.to_nat len) with (S (Z.to_nat (len - 1))) in Hnil by lia. done. }
    rewrite drop_nil in HD. symmetry in HD. by apply app_nil in HD as [_ ->].
  - rewrite pre_read_ended by done. cbn [obind]. destruct (IH s q [] (or_intror (conj E eq_refl))) as (outs & s2 & q2 & rest & -> & HD & Hz).
    cbn [obind]. exists ([] :: outs), s2, q2, rest. split_and!; [done|done|]. intros _. symmetry in HD. by apply app_nil in HD as [_ ->].
Qed.

(** Blocks that have not been handed out do not matter to the reads that returned. *)
Lemma pre_loop_mono plugin q q2 : forall s rlen acc out s' q', pre_loop plugin q s rlen acc = Ret (out, s', q') ->
  pre_loop plugin (q ++ q2) s rlen acc = Ret (out, s', q' ++ q2).
Proof.
  induction q as [|b q IH]; intros s rlen acc out s' q'.
  - cbn [pre_loop]. destruct (rlen <=? 0) eqn:E; [|done]. intros [= <- <- <-]. cbn [app]. destruct q2; cbn [pre_loop]; by rewrite E.
  - cbn [app pre_loop]. destruct (rlen <=? 0); [by intros [= <- <- <-]|]. destruct (rc b <=? 0); [by intros [= <- <- <-]|].
    destruct (match plugin with Some f => f (rc b) (bytes b) | None => (rc b, bytes b) end) as [n dat].
    destruct (n <=? 0); [by intros [= <- <- <-]|]. destruct (zlen dat <? n); [done|]. destruct (rlen <? n); [|apply IH].
    destruct (blit _ _ _); cbn [obind]; [by intros [= <- <- <-]|done|done].
Qed.

Lemma pre_read_mono plugin s q q2 len r out s' q' : pre_read plugin s q len = Ret (r, out, s', q') ->
  pre_read plugin s (q ++ q2) len = Ret (r, out, s', q' ++ q2).
Proof.
  unfold pre_read. destruct (negb _); [by intros [= <- <- <- <-]|]. destruct (_ <? 0); [by intros [= <- <- <- <-]|].
  destruct (_ && _).
  { destruct (from_tmp _ _); cbn [obind]; [by intros [= <- <- <- <-]|done|done]. }
  destruct (if 0 <? tmpbsize (pch s) then from_tmp (pch s) (tmpbsize (pch s)) else Ret []) as [t| |]; cbn [obind]; [|done|done].
  destruct (pre_loop plugin q _ _ _) as [[[o1 s1] q1]| |] eqn:E; cbn [obind]; [|done|done].
  rewrite (pre_loop_mono _ _ q2 _ _ _ _ _ _ E). cbn [obind]. by intros [= <- <- <- <-].
Qed.

Lemma pre_reads_mono q2 lens : forall s q outs s' q', pre_reads s q lens = Ret (outs, s', q') ->
  pre_reads s (q ++ q2) lens = Ret (outs, s', q' ++ q2).
Proof.
  induction lens as [|len lens IH]; intros s q outs s' q'; cbn [pre_reads]; [by intros [= <- <- <-]|].
  destruct (pre_read None s q len) as [[[[r o] s1] q1]| |] eqn:E; cbn [obind]; [|done|done].
  rewrite (pre_read_mono _ _ _ q2 _ _ _ _ _ E). cbn [obind].
  destruct (pre_reads s1 q1 lens) as [[[os s2] q3]| |] eqn:E2; cbn [obind]; [|done|done].
  rewrite (IH _ _ _ _ _ E2). cbn [obind]. by intros [= <- <- <-].
Qed.

(** ** The thread that reads ahead *)

(** [pbc] holds blocks of [file] from [p] on. *)
Definition pbc_holds (bs : Z) (file : list Z) (p : Z) (c : cache) : Prop :=
  exists vals, BC.num (bc c) = zlen (blk c) /\ 0 < zlen (blk c) < INT_MAX /\ 0 <= BC.rear (bc c) < zlen (blk c) /\
    BC.buf_ready (bc c) = zlen vals /\ ring_rep (blk c) (BC.rear (bc c)) vals /\ p + bs * zlen vals <= zlen file /\
    forall j b, vals !! j = Some b -> rc b = bs /\ bytes b = slice file (p + bs * Z.of_nat j) bs.

(** The keep buffer has nothing to give. *)
Definition kept_none (l : locals) (kc : option cache) : Prop :=
  kbc_state l = 1 \/ kbc_state l = 3 ->
  exists c, kc = Some c /\ BC.buf_ready (bc c) = 0 /\ (kbc_state l = 3 -> BC.top_used (bc c) = 0).

(** The next block is the one at [p] of [file], with [r] repetitions to go. *)
Record source (bs : Z) (s : st) (l : locals) (file : list Z) (p : Z) (r : nat) : Prop := {
  so_size : bsize (pch s) = bs;
  so_len : 0 <= p <= zlen file /\ zlen file <= INT_MAX;
  so_rep : repeat_cnt (eng s) = Z.of_nat r /\ Z.of_nat r <= INT_MAX;
  so_keep : kept_none l (kbc (pch s));
  so_pos : (use_prev_data l = 0 /\ opened (eng s) file p) \/
           (use_prev_data l = 1 /\ pbc_off l = p /\ (exists q, opened (eng s) file q) /\
            exists c, pbc (pch s) = Some c /\ pbc_holds bs file p c);
}.

Lemma read_into_run chunk bs s dk file p : bsize (pch s) = bs -> 0 < bs -> opened (eng s) file p -> zlen (bytes dk) = bs ->
  let n := avail file p bs in
  exists b kn, read_into chunk s dk = Ret (n, mk_block b (dbflag dk) (rc dk), set_eng (set_k kn (eng s)) s) /\
    zlen b = bs /\ slice b 0 n = slice file p n /\ opened (set_k kn (eng s)) file (p + n).
Proof.
  intros Hs Hbs Ho Hdk n. unfold read_into. rewrite Hs. destruct (fio_read_run chunk (eng s) file p bs Ho) as (kn & -> & Ho'). cbn [obind].
  fold n. destruct Ho as (_ & _ & Hp). assert (0 <= n <= bs) as Hn by (subst n; unfold avail; lia).
  assert (zlen (slice file p n) = n) as Hl.
  { destruct (Z.eq_dec n 0) as [->|Hne]; [by rewrite slice_nil|]. apply zlen_slice; subst n; unfold avail in *; lia. }
  rewrite blit_patch by lia. cbn [obind]. eexists _, kn. split; [reflexivity|]. split_and!; [rewrite zlen_patch; lia| |done].
  apply slice_patch_eq; lia.
Qed.

Lemma pbc_next bs file p c : pbc_holds bs file p c -> 0 < bs -> 0 <= p ->
  exists c', (exists b i, BC.bc_consumer_try_request (bc c) = Ret (Some i, bc c') /\ blk c' = blk c /\ block_at c i = Ret b /\
      rc b = bs /\ bytes b = slice file p bs /\ p + bs <= zlen file /\ pbc_holds bs file (p + bs) c') \/
    (BC.bc_consumer_try_request (bc c) = Ret (None, bc c)).
Proof.
  intros (vals & Hnum & Hn & Hrear & Hrdy & Hring & Hlen & Hvals) Hbs Hp. unfold BC.bc_consumer_try_request. rewrite Hrdy.
  destruct vals as [|b vals]; [exists c; by right|]. rewrite zlen_cons in *. pose proof (zlen_nonneg vals).
  rewrite (proj2 (Z.eqb_neq _ 0)) by lia. cbn [negb]. destruct Hring as [Hrl Hrep]. rewrite zlen_cons in Hrl.
  rewrite (BC.c_take_run (bc c) (zlen (blk c))) by lia. cbn [obind fst snd]. set (b' := BC.set_buf_ready _ _). exists (mk_cache b' (blk c)). left.
  destruct (Hvals 0%nat b eq_refl) as [Hrc Hby]. rewrite Z.mul_0_r, Z.add_0_r in Hby.
  destruct (ring_rep_cons_inv (blk c) (BC.rear (bc c)) vals b) as [Hget Htl]; [lia|split; [rewrite zlen_cons; lia|done]|].
  rewrite Z.mod_small in Hget by lia. exists b, (BC.rear (bc c)). split_and!; [done|done|done|done|done|nia|].
  exists vals. cbn. split_and!; try done; try lia; [apply Z.mod_pos_bound; lia|apply Z.mod_pos_bound; lia|by apply ring_rep_mod; [lia|]|].
  intros j x Hj. destruct (Hvals (S j) x Hj) as [-> ->]. split; [done|]. f_equal. lia.
Qed.

Lemma avail_full file p bs : 0 <= p -> 0 < bs -> p + bs <= zlen file -> avail file p bs = bs.
Proof. unfold avail. lia. Qed.

Lemma next_block_run chunk bs s l dk file p r : source bs s l file p r -> 0 < bs -> zlen (bytes dk) = bs ->
  let n := avail file p bs in
  exists dk' l' s', next_block chunk s l dk = Ret (n, dk', l', s') /\ zlen (bytes dk') = bs /\ dbflag dk' = dbflag dk /\
    slice (bytes dk') 0 n = slice file p n /\ source bs s' l' file (p + n) r /\ abort_flag (eng s') = abort_flag (eng s) /\
    (n = 0 -> use_prev_data l' = 0).
Proof.
  intros [Hs Hlen Hr Hk Hpos] Hbs Hdk n. unfold next_block. destruct Hpos as [[Hu Ho]|(Hu & Hoff & (q & Ho) & c & Hc & Hh)].
  - rewrite Hu. cbn [Z.eqb negb]. destruct (read_into_run chunk bs s dk file p Hs Hbs Ho Hdk) as (b & kn & -> & Hb & Hsl & Ho'). cbn [obind].
    eexists _, l, _. split; [reflexivity|]. split_and!; [done|done|done| |done|done]. split; cbn; try done; [unfold avail in *; lia|by left].
  - rewrite Hu, Hc. cbn [Z.eqb negb]. destruct (pbc_next bs file p c Hh Hbs ltac:(lia)) as (c' & [(b & i & E & Hblk & Hget & Hrc & Hby & Hle & Hh')|E]).
    + rewrite E. cbn [obind fst snd]. rewrite Hget. cbn [obind]. rewrite Hrc, (proj2 (Z.ltb_lt 0 bs)) by lia. unfold copy_in.
      assert (zlen (bytes b) = bs) as Hbl by (rewrite Hby; apply zlen_slice; lia).
      rewrite Hbl, (proj2 (Z.ltb_ge bs 0)), (proj2 (Z.ltb_ge bs bs)) by lia. cbn [orb]. rewrite (slice_all_eq (bytes b)) by lia.
      rewrite blit_patch by lia. cbn [obind]. rewrite (proj2 (Z.eqb_neq bs 0)) by lia.
      assert (n = bs) as -> by (apply avail_full; lia). eexists _, _, _. split; [reflexivity|]. cbn [bytes dbflag].
      split_and!; [rewrite zlen_patch; lia|done|rewrite slice_patch_eq by lia; done| |done|lia].
      split; cbn; try done; [lia|]. right. split_and!; [done|lia|by exists q|]. exists (mk_cache (bc c') (blk c)). split; [done|].
      rewrite <- Hblk. by destruct c'.
    + rewrite E. cbn [obind fst snd Z.eqb]. rewrite Hoff. cbn [Z.eqb].
      set (s1 := upd_pch _ s). destruct (fio_seek_run (eng s1) file q p Ho ltac:(lia)) as (kn1 & -> & Ho1). cbn [snd].
      destruct (read_into_run chunk bs (set_eng (set_k kn1 (eng s1)) s1) dk file p Hs Hbs Ho1 Hdk) as (b & kn & -> & Hb & Hsl & Ho'). cbn [obind].
      eexists _, _, _. split; [reflexivity|]. split_and!; [done|done|done| |done|done]. split; cbn; try done; [unfold avail in *; lia|by left].
Qed.

(** The keep buffer gives nothing: only the state changes. *)
Lemma take_kept_run bs s l dk file p r : source bs s l file p r ->
  exists l' s', take_kept s l dk = Ret (None, l', s') /\ source bs s' l' file p r /\ eng s' = eng s /\ kbc_state l' <> 3.
Proof.
  intros Src. pose proof Src as [Hs Hlen Hr Hk Hpos]. unfold take_kept. destruct (Z.eqb_spec (kbc_state l) 3) as [E|E]; [|by exists l, s].
  destruct (Hk (or_intror E)) as (c & Hc & Hrdy & Htop). rewrite Hc. unfold BC.bc_top_try_request. rewrite (Htop E), Hrdy. cbn [Z.ltb Z.compare obind fst snd].
  eexists _, _. split; [reflexivity|]. split_and!; [|done|done]. split; cbn; try done. by intros [?|?].
Qed.

(** An empty keep buffer stays empty: the block is not stored, and no more is tried. *)
Lemma keep_block_empty s l dk n c : kbc_state l = 1 -> kbc (pch s) = Some c -> BC.buf_ready (bc c) = 0 ->
  keep_block s l dk n = Ret (set_kbc_state 2 l, upd_pch (set_kbc (Some (mk_cache (bc c) (blk c)))) s).
Proof. intros E Hc Hrdy. unfold keep_block. rewrite E, Hc. unfold BC.bc_consumer_try_request. by rewrite Hrdy. Qed.

Lemma keep_block_run bs s l dk n file p r : source bs s l file p r ->
  exists l' s', keep_block s l dk n = Ret (l', s') /\ source bs s' l' file p r.
Proof.
  intros Src. pose proof Src as [Hs Hlen Hr Hk Hpos]. destruct (Z.eq_dec (kbc_state l) 1) as [E|E].
  2: { exists l, s. unfold keep_block. by rewrite (proj2 (Z.eqb_neq _ 1)). }
  destruct (Hk (or_introl E)) as (c & Hc & Hrdy & _). rewrite (keep_block_empty s l dk n c) by done.
  eexists _, _. split; [reflexivity|]. split; cbn; try done. by intros [?|?].
Qed.

Lemma source_opened bs s l file p r : source bs s l file p r -> exists q, opened (eng s) file q.
Proof. intros [_ _ _ _ [[_ H]|(_ & _ & H & _)]]; [by exists p|done]. Qed.

(** One round: the block is the next piece of what is to come, empty only at the end. *)
Lemma prefetch_turn_run chunk bs s l dk file p r : source bs s l file p r -> abort_flag (eng s) = 0 -> 0 < bs ->
  zlen (bytes dk) = bs -> file <> [] ->
  exists n dk' l' s' p' r', prefetch_turn chunk s l dk = Ret (n, dk', l', s') /\ rc dk' = n /\ 0 <= n <= bs /\
    zlen (bytes dk') = bs /\ source bs s' l' file p' r' /\ to_come file p r = data dk' ++ to_come file p' r' /\
    (n = 0 -> to_come file p r = []).
Proof.
  intros Src Ha Hbs Hdk Hne. unfold prefetch_turn. destruct (take_kept_run bs s l (mk_block (bytes dk) 0 (rc dk)) file p r Src) as (l1 & s1 & -> & S1 & E1 & _).
  cbn [obind]. rewrite E1, Ha. cbn [Z.eqb negb].
  destruct (next_block_run chunk bs s1 l1 (mk_block (bytes dk) 0 (rc dk)) file p r S1 Hbs Hdk) as (dk2 & l2 & s2 & -> & Hb2 & _ & Hsl & S2 & _ & Hu).
  cbn [obind]. pose proof (so_len _ _ _ _ _ _ Src) as Hlen. set (n := avail file p bs) in *.
  assert (0 <= n <= bs /\ (n = 0 -> p = zlen file) /\ p + n <= zlen file) as (Hn & Hend & Hpn) by (subst n; unfold avail; lia).
  rewrite (proj2 (Z.eqb_neq n (-1))) by lia. rewrite orb_false_r. destruct (Z.eqb_spec n 0) as [E|E].
  - pose proof (so_rep _ _ _ _ _ _ S2) as [Hr Hmax]. rewrite Hr.
    assert (drop (Z.to_nat p) file = []) as Hd by (rewrite (Hend E); unfold zlen; by rewrite Nat2Z.id, drop_all).
    destruct r as [|r].
    + cbn [Z.of_nat Z.eqb negb]. eexists n, _, l2, s2, p, 0%nat. split; [reflexivity|]. cbn [rc with_rc bytes]. rewrite E, Z.add_0_r in S2.
      split_and!; [done|lia|lia|done|done| |]; unfold data; cbn [rc bytes with_rc]; rewrite ?E, ?slice_nil; [done|]. intros _. unfold to_come. by rewrite Hd.
    + rewrite (proj2 (Z.eqb_neq (Z.of_nat (S r)) 0)) by lia. cbn [negb]. unfold count_repeat. rewrite Hr, (proj2 (Z.ltb_lt 0 _)), ck_Ret by int_lia. cbn [obind].
      unfold fio_reset. set (e3 := set_repeat_cnt _ (eng s2)). destruct (source_opened _ _ _ _ _ _ S2) as (q & Hq).
      destruct (fio_seek_run e3 file q 0 Hq ltac:(lia)) as (kn & -> & Ho). cbn [snd].
      destruct (read_into_run chunk bs (set_eng (set_k kn e3) s2) (with_rc n dk2) file 0 (so_size _ _ _ _ _ _ S2) Hbs Ho Hb2) as (b & kn2 & -> & Hb & Hs3 & Ho3).
      cbn [obind]. set (m := avail file 0 bs) in *. assert (0 < zlen file) by (destruct file; [done|rewrite zlen_cons; pose proof (zlen_nonneg file); lia]).
      assert (0 < m <= bs /\ m <= zlen file) as Hm by (subst m; unfold avail; lia). cbn [bytes dbflag rc].
      eexists m, _, l2, _, m, r. split; [reflexivity|]. cbn [rc bytes]. split_and!; [done|lia|lia|done| | |lia].
      * destruct S2 as [h1 h2 h3 h4 h5]. split; cbn; try done; try lia. left. split; [by apply Hu|exact Ho3].
      * unfold data, to_come. cbn [rc bytes]. rewrite Hs3, Hd. cbn [replicate mjoin list_join app]. rewrite app_assoc. f_equal.
        apply (drop_slice file 0 m); lia.
  - destruct (keep_block_run bs s2 (set_fp_off (fp_off l2 + n) l2) (with_rc n dk2) n file (p + n) r) as (l3 & s3 & -> & S3).
    { destruct S2 as [h1 h2 h3 h4 h5]. by split. }
    cbn [obind fst snd]. eexists n, _, l3, s3, (p + n), r. split; [reflexivity|]. cbn [rc with_rc bytes]. split_and!; [done|lia|lia|done|done| |lia].
    unfold data, to_come. cbn [rc bytes with_rc]. rewrite Hsl, app_assoc. f_equal. apply drop_slice; lia.
Qed.

(** The blocks declared ready: the stream, then one block that says it is over. *)
Lemma prefetch_loop_run chunk bs file dks fuel : file <> [] -> 0 < bs -> (forall i, zlen (bytes (dks i)) = bs) -> forall i s l p r,
  source bs s l file p r -> (length (to_come file p r) < fuel)%nat ->
  exists ok e s', prefetch_loop chunk fuel (fun _ => 0) dks i s l = Ret (ok ++ [e], s') /\ Forall (good bs) ok /\ rc e = 0 /\
    mjoin (data <$> ok) = to_come file p r.
Proof.
  intros Hne Hbs Hdks. induction fuel as [|fuel IH]; intros i s l p r Src Hf; [lia|]. cbn [prefetch_loop].
  destruct (prefetch_turn_run chunk bs (upd_eng (set_abort_flag 0) s) l (dks i) file p r) as (n & dk & l1 & s1 & p1 & r1 & -> & Hrc & Hn & Hb & S1 & E & Hz).
  { destruct Src as [h1 h2 h3 h4 h5]. by split. } { done. } { done. } { done. } { done. }
  cbn [obind]. destruct (Z.ltb_spec 0 n) as [Hpos|Hle].
  - assert (good bs dk) as Hg by (split; lia). pose proof (data_len bs dk Hg) as Hdl.
    destruct (IH (S i) s1 l1 p1 r1 S1) as (ok & e & s2 & -> & Hok & He & HD).
    { rewrite E, length_app in Hf. unfold zlen in Hdl. lia. }
    cbn [obind fst snd]. exists (dk :: ok), e, s2. split_and!; [done|by constructor|done|]. rewrite fmap_cons.
    change (mjoin (data dk :: (data <$> ok))) with (data dk ++ mjoin (data <$> ok)). by rewrite HD, E.
  - exists [], dk, s1. split_and!; [done|by constructor|lia|]. by rewrite Hz by lia.
Qed.

(** ** The thread for the next file *)

(** After [vals] have been put into an emptied [pbc]. *)
Record filled (bs : Z) (file : list Z) (c : cache) (vals : list block) : Prop := {
  fi_num : BC.num (bc c) = zlen (blk c) /\ 0 < zlen (blk c) < INT_MAX;
  fi_cnt : BC.buf_ready (bc c) = zlen vals /\ BC.buf_free (bc c) = zlen (blk c) - zlen vals /\ BC.rear (bc c) = 0 /\
           BC.front (bc c) = zlen vals mod zlen (blk c);
  fi_ring : ring_rep (blk c) 0 vals;
  fi_size : Forall (fun b => zlen (bytes b) = bs) (blk c);
  fi_vals : bs * zlen vals <= zlen file /\
            forall j b, vals !! j = Some b -> rc b = bs /\ bytes b = slice file (bs * Z.of_nat j) bs;
}.

Lemma filled_holds bs file c vals : filled bs file c vals -> pbc_holds bs file 0 c.
Proof.
  intros [[Hn Hl] (Hr & Hf & Hre & Hfr) Hring _ [Hv1 Hv2]]. exists vals. rewrite Hre. split_and!; try done; lia.
Qed.

Lemma pq_loop_run chunk stop bs file fuel : 0 < bs -> forall i s c vals, bsize (pch s) = bs -> filled bs file c vals ->
  opened (eng s) file (bs * zlen vals) -> zlen (blk c) - zlen vals < Z.of_nat fuel ->
  exists s' c', pq_loop chunk fuel stop i s c = Ret (s', c') /\ pbc_holds bs file 0 c' /\ (exists q, opened (eng s') file q) /\
    repeat_cnt (eng s') = repeat_cnt (eng s) /\ pch s' = pch s.
Proof.
  intros Hbs. induction fuel as [|fuel IH]; intros i s c vals Hs Hfi Ho Hfuel; pose proof Hfi as [[Hn Hl] (Hr & Hf & Hre & Hfr) Hring Hsz [Hv1 Hv2]].
  { destruct Hring. lia. }
  pose proof (zlen_nonneg vals). cbn [pq_loop]. unfold BC.bc_producer_try_request. rewrite Hf.
  destruct (Z.eqb_spec (zlen (blk c) - zlen vals) 0) as [E|E]; cbn [obind fst snd].
  { exists s, c. split_and!; [by destruct c|by apply (filled_holds bs file c vals)|by eexists|done|done]. }
  assert (zlen vals < zlen (blk c)) as Hlt by (destruct Hring; lia).
  rewrite (BC.p_take_run (bc c) (zlen (blk c))) by (try lia; rewrite Hfr; apply Z.mod_pos_bound; lia). cbn [obind fst snd].
  rewrite Hfr, (Z.mod_small (zlen vals)) by lia. unfold block_at. cbn [blk].
  destruct (lookup_lt_is_Some_2 (blk c) (length vals)) as [dk Hdk]; [unfold zlen in Hlt; lia|].
  rewrite (aget_Some _ _ dk) by (unfold zlen; rewrite ?Nat2Z.id; done || lia). cbn [obind].
  pose proof (proj1 (Forall_lookup _ _) Hsz _ _ Hdk) as Hdkl.
  destruct (read_into_run chunk bs s dk file _ Hs Hbs Ho Hdkl) as (b & kn & -> & Hb & Hsl & Ho'). cbn [obind].
  set (n := avail file (bs * zlen vals) bs) in *. change (bsize (pch (upd_eng _ (set_eng _ s)))) with (bsize (pch s)). rewrite Hs.
  destruct (Z.eqb_spec n bs) as [En|En].
  - rewrite aset_Ret by lia. cbn [obind]. unfold BC.bc_producer_ready. cbn [BC.set_front BC.set_buf_free BC.buf_ready bc]. rewrite Hr, ck_Ret by int_lia. cbn [obind fst snd].
    set (x := with_rc n _). set (c' := mk_cache _ _).
    assert (bs * zlen vals + bs <= zlen file) as Hav by (subst n; unfold avail in *; lia).
    assert (filled bs file c' (vals ++ [x])) as Hc'.
    { split; subst c'; cbn; autorewrite with katmai.
      - done.
      - split_and!; [lia|lia|done|done].
      - pose proof (ring_rep_snoc (blk c) 0 vals x Hlt Hring) as R. unfold rslot in R. rewrite Z.add_0_l, Z.mod_small in R by lia. exact R.
      - apply Forall_insert; done.
      - split; [lia|]. intros j y Hj. apply lookup_app_Some in Hj as [Hj|[Hj1 Hj]]; [by apply Hv2|].
        apply list_lookup_singleton_Some in Hj as [Hj2 <-]. subst x. cbn [rc bytes with_rc]. split; [done|].
        rewrite En in Hsl. rewrite (slice_all_eq b) in Hsl by lia. rewrite Hsl. do 2 f_equal. unfold zlen. lia. }
    destruct (stop i).
    + eexists _, c'. split; [reflexivity|]. split_and!; [by eapply filled_holds|by eexists|done|by destruct s].
    + set (s2 := upd_eng _ _). destruct (IH (S i) s2 c' _ Hs Hc') as (s' & c2 & -> & H1 & H2 & H3 & H4).
      * rewrite zlen_app. change (zlen [x]) with 1. replace (bs * (zlen vals + 1)) with (bs * zlen vals + n) by lia. exact Ho'.
      * subst c'. cbn [blk]. rewrite zlen_insert, zlen_app. change (zlen [x]) with 1. lia.
      * exists s', c2. split_and!; [done..|]. rewrite H4. by destruct s.
  - rewrite aset_Ret by lia. cbn [obind]. eexists _, _. split; [reflexivity|]. split_and!; [|by eexists|done|by destruct s].
    exists vals. cbn. autorewrite with katmai. rewrite Hre. split_and!; try done; try lia.
    pose proof (ring_rep_frame (blk c) 0 vals (zlen vals) (with_rc 0 (mk_block b (dbflag dk) (rc dk))) ltac:(lia) Hring) as R.
    unfold rslot in R. rewrite Z.add_0_l, Z.mod_small in R by lia. exact R.
Qed.

(** ** The whole: thread, ring and reader *)

(** The thread is about to read [file], [r] repetitions asked for: the file is open at
    its start, or its first blocks are in [pbc]; nothing is kept. *)
Record starts (bs : Z) (s : st) (file : list Z) (r : nat) : Prop := {
  st_size : bsize (pch s) = bs /\ 0 < bs;
  st_len : file <> [] /\ zlen file <= INT_MAX;
  st_rep : repeat_cnt (eng s) = Z.of_nat r /\ Z.of_nat r <= INT_MAX;
  st_keep : enable_kbuf (pch s) = 0 \/
            (enable_kbuf (pch s) = 1 \/ enable_kbuf (pch s) = 2 /\ kbuf_pos (pch s) = 0) /\
            exists c, kbc (pch s) = Some c /\ BC.buf_ready (bc c) = 0;
  st_pos : (already_pq_prefetch (pch s) = 0 /\ opened (eng s) file 0) \/
           (already_pq_prefetch (pch s) = 1 /\ (exists q, opened (eng s) file q) /\
            exists c, pbc (pch s) = Some c /\ pbc_holds bs file 0 c);
}.

Lemma prefetch_begin_run bs s file r : starts bs s file r ->
  exists l s', prefetch_begin s = Ret (l, s') /\ source bs s' l file 0 r.
Proof.
  intros [[Hs _] [_ Hlen] Hr Hk Hpos]. unfold prefetch_begin.
  set (s1 := if negb _ then _ else _). set (l := mk_loc _ 0 0 0).
  assert (eng s1 = set_end_of_prefetch 0 (eng s) /\ bsize (pch s1) = bs /\ kbc (pch s1) = kbc (pch s) /\ pbc (pch s1) = pbc (pch s) /\
    enable_kbuf (pch s1) = enable_kbuf (pch s) /\ kbuf_pos (pch s1) = kbuf_pos (pch s)) as (E1 & E2 & E3 & E4 & E5 & E6).
  { subst s1. by destruct (negb _). }
  assert ((use_prev_data l = 0 /\ opened (eng s1) file 0) \/
    (use_prev_data l = 1 /\ pbc_off l = 0 /\ (exists q, opened (eng s1) file q) /\
     exists c, pbc (pch s1) = Some c /\ pbc_holds bs file 0 c)) as Hp1.
  { rewrite E1, E4. subst l. cbn [upd_eng upd_pch set_eng set_pch pch set_in_running already_pq_prefetch use_prev_data pbc_off].
    destruct Hpos as [[-> Ho]|[-> Ho]]; [by left|by right]. }
  assert (repeat_cnt (eng s1) = Z.of_nat r) as Hr1 by (rewrite E1; apply Hr). pose proof (zlen_nonneg file).
  rewrite E5, E3. destruct Hk as [->|[Hk (c & -> & Hc)]].
  - exists l, s1. split; [done|]. split; [done|done| |by intros [?|?]|done]. split; [done|lia].
  - destruct Hk as [->|[-> Hkp]]; cbn [Z.eqb obind Pos.eqb].
    + eexists _, _. split; [reflexivity|]. split; cbn; [done|done|split; [done|lia]| |done]. intros _. eexists. by split_and!.
    + assert (exists q, opened (eng s1) file q) as (q & Hq) by (destruct Hp1 as [[_ H1]|(_ & _ & H1 & _)]; [by exists 0|done]).
      set (s2 := upd_pch _ s1). assert (kbuf_pos (pch s2) = 0) as -> by (subst s2; cbn; congruence).
      destruct (fio_seek_run (eng s2) file q 0 Hq ltac:(lia)) as (kn & -> & Ho). cbn [snd].
      eexists _, _. split; [reflexivity|]. split; cbn; [done|done|split; [done|lia]|intros _; eexists; by split_and!|].
      destruct Hp1 as [[? _]|(? & ? & _ & ?)]; [by left|right; split_and!; [done|done|by eexists|done]].
Qed.

(** Preparing the next file.  The second thread opens the file the program has
    announced and puts its first whole blocks into the emptied [pbc], one per buffer,
    stopping early or not; if it was not told to stop the prefetching thread may start
    from there: [prefetch_streams] applies, and the new file is read from its first
    byte. *)
Theorem prefetch_queue_prepares chunk stop s c bs file r :
  have_next_file (eng s) <> 0 -> k_fs (k (fio_close (eng s))) (next_file (eng s)) = Some (file, true) ->
  bsize (pch s) = bs -> 0 < bs -> file <> [] -> zlen file <= INT_MAX -> repeat_cnt (eng s) = Z.of_nat r -> Z.of_nat r <= INT_MAX ->
  pbc (pch s) = Some c -> BC.num (bc c) = zlen (blk c) -> 0 < zlen (blk c) < INT_MAX ->
  Forall (fun b => zlen (bytes b) = bs) (blk c) -> enable_kbuf (pch s) = 0 ->
  exists s', prefetch_queue_main chunk true stop false s = Ret s' /\ starts bs s' file r /\ already_pq_prefetch (pch s') = 1.
Proof.
  intros Hnext Hfs Hs Hbs Hne Hlen Hr Hmax Hpbc Hnum Hbl Hsz Hkb. unfold prefetch_queue_main.
  change (have_next_file (eng (upd_eng (set_in_pq_prefetch 1) (upd_pch (set_already_pq_prefetch 0) s)))) with (have_next_file (eng s)).
  rewrite (proj2 (Z.eqb_neq (have_next_file (eng s)) 0)) by done. cbn [negb].
  set (s1 := upd_pch (set_need_reopen_old_file_if_reset 1) (upd_eng _ _)). unfold fio_open.
  assert (k (fio_close (eng s1)) = k (fio_close (eng s)) /\ repeat_cnt (fio_close (eng s1)) = repeat_cnt (eng s)) as [-> Hr1].
  { subst s1. unfold fio_close. cbn. by destruct (0 <=? fd (eng s)). }
  change (next_file (eng s1)) with (next_file (eng s)).
  destruct (sys_open (k (fio_close (eng s))) (next_file (eng s))) as [fdn kn] eqn:Eo. destruct (sys_open_get _ _ _ _ _ Hfs Eo) as [Hfd Hget].
  cbn [fst snd]. rewrite (proj2 (Z.ltb_ge fdn 0)) by lia. cbn [set_k k]. rewrite Hget. cbn [fst snd]. rewrite (proj2 (Z.leb_le 0 fdn)) by lia.
  set (s2 := set_eng _ s1). change (pbc (pch s2)) with (pbc (pch s)). rewrite Hpbc.
  set (c1 := mk_cache (snd (BC.bc_cleanup (bc c))) (blk c)).
  destruct (pq_loop_run chunk stop bs file (S (S (Z.to_nat (BC.num (bc c1))))) Hbs 0 s2 c1 [] Hs) as (s3 & c3 & -> & Hh & Ho & Hr3 & Hp3).
  - split; subst c1; [done| |apply ring_rep_nil|done|split; [rewrite zlen_nil; pose proof (zlen_nonneg file); lia|done]].
    split_and!; [done| |done|done]. change (BC.num (bc c) = zlen (blk c) - zlen (@nil block)). rewrite zlen_nil. lia.
  - rewrite zlen_nil, Z.mul_0_r. split_and!; [exact Hfd|exact Hget|lia].
  - subst c1. cbn [blk bc BC.bc_cleanup snd BC.set_rear BC.set_front BC.set_buf_ready BC.set_buf_free BC.num]. rewrite zlen_nil. lia.
  - cbn [obind fst snd]. eexists. split; [reflexivity|]. split; [|done]. subst s2 s1. split; cbn; rewrite ?Hp3; cbn; try done.
    + split; [|done]. rewrite Hr3. exact (eq_trans Hr1 Hr).
    + by left.
    + right. split_and!; [done|done|by exists c3].
Qed.

(** A reader that has taken nothing yet. *)
Definition fresh (bs : Z) (s : st) : Prop :=
  abort_flag (eng s) = 0 /\ zlen (tmpbuff (pch s)) = bs /\ tmpbsize (pch s) = 0 /\ tmpbidx (pch s) = 0.

Lemma fresh_live bs s ok e : 0 < bs -> fresh bs s -> Forall (good bs) ok -> rc e <= 0 -> live bs s (ok ++ [e]) (mjoin (data <$> ok)).
Proof.
  intros Hb (Ha & Ht & Hz & Hi) Hok He. split; [done|done|lia|]. exists ok, e. split_and!; [done..|]. by rewrite Hz, slice_nil.
Qed.

(** C11: reading ahead does not change what is read.  The thread ends, having declared
    ready a list [q] of blocks; whatever the interleaving of the two threads on a ring
    of any size, and however the program cuts its reads, the bytes it has been given
    are, in order, the beginning of the file read once and [r] times more (whether the
    first blocks came from the file or from [pbc]), and it is told of the end ([0]
    bytes) only when it has had them all.  Reads that have all of [q] before them
    return. *)
Theorem prefetch_streams chunk bs file r dks s :
  starts bs s file r -> (forall i, zlen (bytes (dks i)) = bs) ->
  exists q s', prefetch_main chunk (S (S r * length file)) (fun _ => 0) dks s = Ret (q, s') /\
    end_of_prefetch (eng s') = 1 /\
    forall rs lens, fresh bs rs -> Forall (fun n => 0 < n) lens ->
      (exists res, pre_reads rs q lens = Ret res) /\
      forall n t rest outs rs' q', 0 < n < INT_MAX -> BC.reachable n t -> q = BC.produced t ++ rest ->
        pre_reads rs (BC.consumed t) lens = Ret (outs, rs', q') ->
        exists left, mjoin (replicate (S r) file) = mjoin outs ++ left /\ ([] ∈ outs -> left = []).
Proof.
  intros St Hdks. pose proof St as [[_ Hbs] [Hne _] _ _ _]. unfold prefetch_main.
  destruct (prefetch_begin_run bs s file r St) as (l & s1 & -> & Hsrc). cbn [obind fst snd].
  assert (to_come file 0 r = mjoin (replicate (S r) file)) as HD by done.
  assert (length (mjoin (replicate (S r) file)) = S r * length file)%nat as Hlen.
  { clear. generalize (S r). intros m. induction m as [|m IH]; [done|]. change (mjoin (replicate (S m) file)) with (file ++ mjoin (replicate m file)).
    rewrite length_app, IH. lia. }
  destruct (prefetch_loop_run chunk bs file dks (S (S r * length file)) Hne Hbs Hdks 0 s1 l 0 r Hsrc) as (ok & e & s2 & -> & Hok & He & Hd).
  { rewrite HD, Hlen. lia. }
  cbn [obind fst snd]. eexists _, _. split; [reflexivity|]. split; [done|]. intros rs lens Hf Hl.
  pose proof (fresh_live bs rs ok e Hbs Hf Hok ltac:(lia)) as Hlive. rewrite Hd, HD in Hlive.
  destruct (pre_reads_run bs lens Hl rs _ _ (or_introl Hlive)) as (outs & s' & q' & left & E & HL & Hz). split; [by eexists|].
  intros n t rest outs2 rs' q2 Hn Ht Hq E2.
  destruct (BC.reachable_inv n t Hn Ht) as [_ (B & cv & rv & pv & H)]. assert (BC.produced t = BC.consumed t ++ rv) as Hp by tauto.
  rewrite Hq, Hp, <- app_assoc in E. rewrite (pre_reads_mono _ _ _ _ _ _ _ E2) in E. injection E as -> _ _. by exists left.
Qed.

(** ** Examples *)
Definition demo_opened : engine := snd (pub_set_repeat (snd (pub_open true demo_engine [97])) 1).
Definition demo_st : st := mk_st demo_opened (pub_prefetch (mk_pch None None 0 0 0 0 0 0 0 [] 0 0 0 0 0) [0; 0] 8 2).
Definition demo_dks (i : nat) : block := mk_block [7; 7] 5 9.

Lemma prefetch_streams_witness : exists q s',
  prefetch_main (fun _ _ => 2) 11 (fun _ => 0) demo_dks demo_st = Ret (q, s') /\ end_of_prefetch (eng s') = 1 /\
  exists res, pre_reads demo_st q [3; 1; 9; 9] = Ret res.
Proof.
  destruct (prefetch_streams (fun _ _ => 2) 2 demo_file 1 demo_dks demo_st) as (q & s' & E & E1 & H).
  - split.
    + split; [reflexivity|lia].
    + split; [discriminate|]. vm_compute. discriminate.
    + split; [reflexivity|]. vm_compute. discriminate.
    + left. reflexivity.
    + left. split; [reflexivity|]. split; [vm_compute; discriminate|]. split; [reflexivity|lia].
  - reflexivity.
  - exists q, s'. split; [exact E|]. split; [exact E1|]. apply (H demo_st [3; 1; 9; 9]).
    + split; [reflexivity|]. split; [reflexivity|]. split; reflexivity.
    + repeat constructor.
Defined.

Definition demo_next : st :=
  mk_st (set_next_file [97] (set_have_next_file 1 demo_engine))
    (set_pbc (Some (mk_cache (BC.mk_bc 3 2 3 3 0 0 0 0 0 [true; true; true]) (replicate 3 (demo_dks 0)))) (pch demo_st)).

Lemma prefetch_queue_prepares_witness : exists s',
  prefetch_queue_main (fun _ _ => 1) true (fun _ => false) false demo_next = Ret s' /\ starts 2 s' demo_file 0 /\
  already_pq_prefetch (pch s') = 1.
Proof.
  apply (prefetch_queue_prepares (fun _ _ => 1) (fun _ => false) demo_next
    (mk_cache (BC.mk_bc 3 2 3 3 0 0 0 0 0 [true; true; true]) (replicate 3 (demo_dks 0))) 2 demo_file 0);
    try reflexivity; try discriminate; try (vm_compute; discriminate); try (repeat constructor).
Defined.
End PF.
