(* ===== verification/Cmdlintf.v ===== *)
(** * Cmdlintf.v: the command line, cmdlintf/cmdlintf.c

    Commands of several words are kept in a tree: a node has a name and a list of
    subcommands.  A line is split into words, the tree is descended as far as the words
    go, and the function of the node reached gets the rest of the line.  A command may
    be executed by another process over a local socket: the client sends the line, the
    server collects the output in [bp_buffer] and sends back the result, the length and
    the output.

    A [char *] is the list of the characters before its NUL; the list of a node's
    subcommands is the chain of [next] pointers, with the newest first.  A command
    function takes the rest of the line and a world of any type [E], and gives the new
    world, what it printed and its result.  Memory is assumed to be available (the
    code does not test it) and strings to be shorter than 2^31.  The history commands
    and the interactive loop belong to the readline library and are left out. *)

From Stdlib Require Import Ascii String.
From S2P Require Import Prelude Posix Wire Cstr.
Open Scope list_scope.

Module CL.

Definition txt (s : string) : list Z := (fun a => Z.of_nat (nat_of_ascii a)) <$> list_ascii_of_string s.
Definition LF : Z := 10.

(** ["%d"]; an [int] has at most ten digits. *)
Fixpoint digits (fuel : nat) (n : Z) : list Z :=
  match fuel with
  | O => []
  | S fuel => if n <? 10 then [48 + n] else digits fuel (n / 10) ++ [48 + n mod 10]
  end.
Definition show_int (n : Z) : list Z := if n <? 0 then 45 :: digits 10 (- n) else digits 10 n.

(** readline's [whitespace]. *)
Definition whitespace (c : Z) : bool := (c =? 32) || (c =? 9).

Definition MAX_CMD_WORD_LEN : Z := 64.
Definition MAX_TRANSFER_BUFFER : Z := 10240.

(** ** Words *)
Fixpoint nthwordptr_loop (cmd : list Z) (n j m : Z) : option (list Z) :=
  match cmd with
  | [] => None
  | c :: rest =>
      if whitespace c then
        if 0 <? m then if j =? n then None else nthwordptr_loop rest n (j + 1) 0
        else nthwordptr_loop rest n j m
      else if j =? n then Some cmd else nthwordptr_loop rest n j (m + 1)
  end.
Definition nthwordptr (cmd : list Z) (n : Z) : option (list Z) := nthwordptr_loop cmd n 1 0.

(** [word] is what is in [word[idx]]; [k] is its length. *)
Fixpoint nthword_loop (cmd : list Z) (n j m : Z) (word : list Z) : list Z :=
  match cmd with
  | [] => word
  | c :: rest =>
      if whitespace c then
        if 0 <? m then if j =? n then word else nthword_loop rest n (j + 1) 0 word
        else nthword_loop rest n j m word
      else
        nthword_loop rest n j (m + 1)
          (if (j =? n) && (zlen word <? MAX_CMD_WORD_LEN - 1) then word ++ [c] else word)
  end.
Definition nthword (cmd : list Z) (n : Z) : option (list Z) :=
  let word := nthword_loop cmd n 1 0 [] in if zlen word =? 0 then None else Some word.

Fixpoint nofwords_loop (cmd : list Z) (j m : Z) : Z * Z :=
  match cmd with
  | [] => (j, m)
  | c :: rest =>
      if whitespace c then if 0 <? m then nofwords_loop rest (j + 1) 0 else nofwords_loop rest j m
      else nofwords_loop rest j (m + 1)
  end.
Definition nofwords (cmd : list Z) : Z :=
  let r := nofwords_loop cmd 0 0 in if 0 <? snd r then fst r + 1 else fst r.

Fixpoint skip_white (s : list Z) : list Z :=
  match s with c :: s' => if whitespace c then skip_white s' else s | [] => [] end.
(** [while (t > s && whitespace ( *t)) t--; *++t = '\0';]: [k] is [t - s]. *)
Fixpoint white_end (k : nat) (s : list Z) : list Z :=
  match k with
  | O => take 1 s
  | S k' => if whitespace (default 0 (s !! k)) then white_end k' s else take (S k) s
  end.
Definition stripwhite (string : list Z) : list Z :=
  let s := skip_white string in
  match s with [] => [] | _ :: s' => white_end (length s') s end.

(** ** The tree *)
Section cli.
Context {E : Type}.

Definition handler : Type := option (list Z) -> E -> E * list Z * Z.

(** [command_t]. *)
#[warnings="-register-all"]
Inductive command := mk_command {
  name : list Z;
  is_rmt : Z;
  func : option handler;
  cmd_type : Z;
  doc : option (list Z);
  nargs : Z;
  subcmd : list command;
}.
Definition set_subcmd (v : list command) (c : command) : command :=
  mk_command (name c) (is_rmt c) (func c) (cmd_type c) (doc c) (nargs c) v.

(** [for (q = ...; q != NULL; q = q->next) if (strcmp (word, q->name) == 0) break;] *)
Fixpoint find_name (word : list Z) (q : list command) : option command :=
  match q with
  | [] => None
  | c :: q' => if bool_decide (name c = word) then Some c else find_name word q'
  end.
(** That node changed in place. *)
Fixpoint upd_name (word : list Z) (v : command) (q : list command) : list command :=
  match q with
  | [] => []
  | c :: q' => if bool_decide (name c = word) then v :: q' else c :: upd_name word v q'
  end.

(** [mcnt - i + 1] rounds are left. *)
Fixpoint find_match_loop (todo : nat) (i : Z) (text : list Z) (ptr : command) (found : bool) : option command :=
  match todo with
  | O => if found then Some ptr else None
  | S todo =>
      match nthword text i with
      | None => if found then Some ptr else None
      | Some word =>
          match find_name word (subcmd ptr) with
          | Some q => find_match_loop todo (i + 1) text q true
          | None => None
          end
      end
  end.
Definition find_match_command (root : command) (text : list Z) (mcnt : Z) : option command :=
  find_match_loop (Z.to_nat mcnt) 1 text root false.

(** The result is [fptr] and [*mcnt]. *)
Fixpoint as_possible_loop (fuel : nat) (i : Z) (text : list Z) (ptr : command) (fptr : option command) (mcnt : Z)
    : outcome (option command * Z) :=
  match fuel with
  | O => Fault OutOfFuel
  | S fuel =>
      match nthword text i with
      | None => Ret (fptr, mcnt)
      | Some word =>
          match find_name word (subcmd ptr) with
          | Some q => as_possible_loop fuel (i + 1) text q (Some q) i
          | None => Ret (fptr, mcnt)
          end
      end
  end.
Definition find_match_as_possible (root : command) (text : list Z) (mcnt : Z) : outcome (option command * Z) :=
  as_possible_loop (S (length text)) 1 text root None mcnt.

(** [wds - level + 1] rounds are left; [ptr] is the node reached, which is changed. *)
Fixpoint addcmd_loop (todo : nat) (level wds : Z) (cmd : list Z) (rmt : Z) (cmdfunc : option handler)
    (dc : option (list Z)) (args cmdtype : Z) (ptr : command) : Z * command :=
  match todo with
  | O => (0, ptr)
  | S todo =>
      match nthword cmd level with
      | None => (0, ptr)
      | Some word =>
          match find_name word (subcmd ptr) with
          | Some q =>
              if level =? wds then (0, ptr)
              else
                let r := addcmd_loop todo (level + 1) wds cmd rmt cmdfunc dc args cmdtype q in
                (fst r, set_subcmd (upd_name word (snd r) (subcmd ptr)) ptr)
          | None =>
              if level =? wds then
                (1, set_subcmd (mk_command word rmt cmdfunc cmdtype dc args [] :: subcmd ptr) ptr)
              else
                let q := mk_command word rmt None cmdtype None 0 [] in
                let r := addcmd_loop todo (level + 1) wds cmd rmt cmdfunc dc args cmdtype q in
                (fst r, set_subcmd (snd r :: subcmd ptr) ptr)
          end
      end
  end.
Definition cli_addcmd (root : command) (cmd : list Z) (rmt : Z) (cmdfunc : option handler)
    (dc : option (list Z)) (args cmdtype : Z) : Z * command :=
  let wds := nofwords cmd in
  addcmd_loop (Z.to_nat wds) 1 wds cmd rmt cmdfunc dc args cmdtype root.

Definition root0 : command := mk_command [] 0 None 0 None 0 [].

(** ** Help and completion *)
Definition show_subcmd (c : command) : list Z :=
  mjoin ((fun q => [9] ++ name q ++ [LF]) <$> subcmd c).
Definition unrecognized : list Z := txt "% Unrecognized command" ++ [LF].
Definition find_match_commands (root : command) (cmd : list Z) : outcome (list Z) :=
  let* r := find_match_as_possible root cmd 0 in
  let '(c, i) := r in
  Ret (if bool_decide (cmd = []) && (i =? 0) then show_subcmd root
       else match c with
            | None => unrecognized
            | Some c =>
                match func c with
                | None => if i =? nofwords cmd then show_subcmd c else unrecognized
                | Some _ => []
                end
            end).

(** [strncmp (s, text, strlen (text)) == 0] *)
Fixpoint starts_with (text s : list Z) : bool :=
  match text, s with
  | [], _ => true
  | a :: text', b :: s' => (a =? b) && starts_with text' s'
  | _, [] => false
  end.

(** One call of a generator: the next match and the place to go on. *)
Fixpoint next_match (text : list Z) (cptr : list command) : option (list Z) * list command :=
  match cptr with
  | [] => (None, [])
  | c :: cptr' => if starts_with text (name c) then (Some (name c), cptr') else next_match text cptr'
  end.

(** [cptr]: the static variable, a place in a chain of nodes; [line] is readline's line.
    The last component is what is printed.  (A call that says NULL ends the generation:
    readline sets [state] to 0 at the next, so what [cptr] holds then is not used.) *)
Definition entry_completion (root : command) (line text : list Z) (state : Z) (cptr : list command)
    : option (list Z) * list command * list Z :=
  if negb (state =? 0) then (next_match text cptr, [])
  else
    let iwds := nofwords text in
    match find_match_command root line (nofwords line - iwds) with
    | None => (next_match text [], [])
    | Some c =>
        match subcmd c with
        | (_ :: _) as q => (next_match text q, [])
        | [] =>
            (None, [c],
             if iwds =? 0 then
               [LF] ++ txt "   " ++ (if nargs c =? 0 then txt "<cr>" else txt "[" ++ show_int (nargs c) ++ txt " args]") ++
               [9; 9] ++ default [] (doc c) ++ [LF]
             else [])
        end
    end.
Definition command_generator (root : command) (text : list Z) (state : Z) (ptr : list command)
    : option (list Z) * list command :=
  next_match text (if negb (state =? 0) then ptr else subcmd root).

(** ** Execution *)
Definition no_such (cmd : list Z) : list Z :=
  txt "% " ++ default (txt "(null)") (nthword cmd 1) ++ txt ": no such command" ++ [LF].
Definition incomplete (cmd : list Z) : list Z := txt "% " ++ cmd ++ txt ": Incomplete command." ++ [LF].

(** [rmt] is the exchange over [svc_fd], if there is one. *)
Definition execute_line (rmt : option (list Z -> outcome (list Z * Z))) (root : command) (cmd : list Z) (e : E)
    : outcome (E * list Z * Z) :=
  let* r := find_match_as_possible root cmd 0 in
  let '(c, i) := r in
  match c with
  | None => Ret (e, no_such cmd, 1)
  | Some c =>
      match func c with
      | None => Ret (e, incomplete cmd, 1)
      | Some f =>
          if is_rmt c =? 0 then Ret (f (nthwordptr cmd (i + 1)) e)
          else
            match rmt with
            | Some exchange => let* x := exchange cmd in Ret (e, fst x, snd x)
            | None => Ret (f (nthwordptr cmd (i + 1)) e)
            end
      end
  end.

Definition external_execute (root : command) (cmd : list Z) (cmdtype : Z) (e : E) : outcome (E * list Z * Z) :=
  let* r := find_match_as_possible root cmd 0 in
  let '(c, i) := r in
  match c with
  | None => Ret (e, no_such cmd, 1)
  | Some c =>
      match func c with
      | None => Ret (e, incomplete cmd, 1)
      | Some f => if cmdtype =? cmd_type c then Ret (f (nthwordptr cmd (i + 1)) e) else Ret (e, [], 1)
      end
  end.

(** [bprint]: the text and the NUL behind it go into [bp_buffer]. *)
Definition bprint (bp text : list Z) : outcome (list Z) :=
  if zlen bp + zlen text <? MAX_TRANSFER_BUFFER then Ret (bp ++ text) else Fault OutOfBounds.

(** One request in [accept_client]: [req] is what [read] gave (at most 4095 bytes).  The
    answer and whether the server goes on. *)
Definition accept_request (root : command) (req : list Z) (e : E) : outcome (E * list Z * bool) :=
  let buffer := CS.cstring (take 4095 req) in
  let* r := execute_line None root buffer e in
  let '(e, out, retval) := r in
  let* bp := bprint [] out in
  Ret (e, le32 retval ++ le32 (zlen bp) ++ bp, negb (retval =? 0)).

(** [read] on the socket: [s] are the bytes that are to come, [ch n] how many of [n] arrive
    together. *)
Definition sock_read (ch : Z -> Z) (s : list Z) (n : Z) : list Z * list Z :=
  let m := Z.to_nat (Z.min n (Z.max 1 (ch (zlen s)))) in (take m s, drop m s).
(** An [int] read by one [read]: bytes that did not come keep their value. *)
Definition read_int (ch : Z -> Z) (s : list Z) (v : Z) : Z * list Z :=
  let r := sock_read ch s 4 in (to_int (le_val (fst r ++ drop (length (fst r)) (le32 v))), snd r).

Fixpoint client_loop (fuel : nat) (ch : Z -> Z) (s : list Z) (len : Z) (out : list Z) : outcome (list Z) :=
  match fuel with
  | O => Fault OutOfFuel
  | S fuel =>
      if 0 <? len then
        let xlen := if 1023 <? len then 1023 else len in
        let r := sock_read ch s xlen in
        if zlen (fst r) <=? 0 then Ret out
        else client_loop fuel ch (snd r) (len - zlen (fst r)) (out ++ fst r)
      else Ret out
  end.
(** What the client does with the answer [ans]; [junk] is in [len] before. *)
Definition client_receive (ch : Z -> Z) (ans : list Z) (junk : Z) : outcome (list Z * Z) :=
  let '(retval, s) := read_int ch ans 1 in
  let '(len, s) := read_int ch s junk in
  let* out := client_loop (S (length s)) ch s len [] in
  Ret (out, retval).
(** The exchange over [svc_fd]: the client writes the line, the server's first [read] gives
    the first [k] bytes of it, and the client reads the answer. *)
Definition remote (ch : Z -> Z) (root : command) (e : E) (k : nat) (junk : Z) (cmd : list Z) : outcome (list Z * Z) :=
  let* r := accept_request root (take k cmd) e in
  let '(_, ans, _) := r in client_receive ch ans junk.

(** ** Other settings *)
Record cli := mk_cli { root : command; sockname : option (list Z); prompt : option (list Z); terminate : Z; have_precommand : Z }.
Definition cli_socket_name (c : cli) (filename : option (list Z)) : option (list Z) * cli :=
  let n := match filename with
           | None => sockname c
           | Some [] => None
           | Some f => Some f
           end in
  (n, mk_cli (root c) n (prompt c) (terminate c) (have_precommand c)).
Definition cli_set_prompt (c : cli) (p : list Z) : cli := mk_cli (root c) (sockname c) (Some p) (terminate c) (have_precommand c).
Definition external_terminate (c : cli) : cli := mk_cli (root c) (sockname c) (prompt c) 1 (have_precommand c).

(** [set] is the assignment of [terminate] in the world. *)
Definition cmd_terminate (set : E -> E) : handler := fun cmd e =>
  match cmd with
  | Some cmd => (e, txt "% Invalid input detected: " ++ [34] ++ cmd ++ [34; LF], 0)
  | None => (set e, [], 0)
  end.

(** The history functions are readline's. *)
Definition regist_default_command (cmd_history cmd_clear_history cmd_terminate : handler) (c : cli) : cli :=
  if have_precommand c =? 0 then
    let r := snd (cli_addcmd (root c) (txt "history") 0 (Some cmd_history) None 0 0) in
    let r := snd (cli_addcmd r (txt "clear history") 0 (Some cmd_clear_history) None 0 0) in
    let r := snd (cli_addcmd r (txt "terminate") 1 (Some cmd_terminate) None 0 0) in
    mk_cli r (sockname c) (prompt c) (terminate c) 1
  else c.
Definition init_cmdline_interface (old : option cli) : cli :=
  match old with Some c => c | None => mk_cli root0 None None 0 0 end.
End cli.
Arguments command : clear implicits.
Arguments handler : clear implicits.

(** ** The words of a line *)

(** A reference scanner: [cur] is the word under way. *)
Fixpoint scan (cur s : list Z) : list (list Z) :=
  match s with
  | [] => if bool_decide (cur = []) then [] else [cur]
  | c :: s' =>
      if whitespace c then if bool_decide (cur = []) then scan [] s' else cur :: scan [] s'
      else scan (cur ++ [c]) s'
  end.
Definition words (s : list Z) : list (list Z) := scan [] s.
Definition key (w : list Z) : list Z := take 63 w.

Lemma pos_nonempty (cur : list Z) : (0 <? zlen cur) = negb (bool_decide (cur = [])).
Proof. destruct cur as [|x cur]; [done|]. rewrite zlen_cons. pose proof (zlen_nonneg cur). by rewrite (proj2 (Z.ltb_lt _ _)) by lia. Qed.

Lemma zlen_snoc {A} (l : list A) x : zlen (l ++ [x]) = zlen l + 1.
Proof. by rewrite zlen_app, zlen_cons, zlen_nil. Qed.

Lemma snoc_ne (cur : list Z) c : bool_decide (cur ++ [c] = []) = false.
Proof. apply bool_decide_eq_false. by destruct cur. Qed.

Lemma nofwords_loop_run s : forall cur j,
  let r := nofwords_loop s j (zlen cur) in (if 0 <? snd r then fst r + 1 else fst r) = j + zlen (scan cur s).
Proof.
  induction s as [|c s IH]; intros cur j; cbn -[Z.ltb Z.add zlen].
  - rewrite pos_nonempty. destruct (bool_decide (cur = [])); cbn; rewrite ?zlen_cons, ?zlen_nil; lia.
  - destruct (whitespace c).
    + rewrite pos_nonempty. destruct (bool_decide (cur = [])) eqn:Ec; cbn [negb].
      * apply bool_decide_eq_true in Ec as ->. apply (IH []).
      * pose proof (IH [] (j + 1)) as H. rewrite zlen_nil in H. rewrite zlen_cons. cbn zeta in H. rewrite H. lia.
    + rewrite <- (zlen_snoc cur c). apply (IH (cur ++ [c])).
Qed.

Lemma nofwords_words s : nofwords s = zlen (words s).
Proof. exact (nofwords_loop_run s [] 0). Qed.

Lemma take_snoc_63 (cur : list Z) c :
  (if zlen (take 63 cur) <? MAX_CMD_WORD_LEN - 1 then take 63 cur ++ [c] else take 63 cur) = take 63 (cur ++ [c]).
Proof.
  unfold MAX_CMD_WORD_LEN. destruct (Z.ltb_spec (zlen (take 63 cur)) (64 - 1)) as [H|H]; unfold zlen in H; rewrite length_take in H.
  - rewrite (take_ge (cur ++ [c])) by (rewrite length_app; cbn; lia). by rewrite (take_ge cur) by lia.
  - by rewrite take_app_le by lia.
Qed.

Lemma nthword_loop_run s n : forall cur j word, 1 <= j <= n -> (j = n -> word = take 63 cur) -> (j < n -> word = []) ->
  nthword_loop s n j (zlen cur) word = take 63 (default [] (scan cur s !! Z.to_nat (n - j))).
Proof.
  induction s as [|c s IH]; intros cur j word Hj He Hl; cbn -[zlen Z.ltb].
  - destruct (Z.eq_dec j n) as [->|Hne].
    + rewrite Z.sub_diag, He by done. destruct (bool_decide (cur = [])) eqn:E; [by apply bool_decide_eq_true in E as ->|done].
    + rewrite Hl by lia. replace (Z.to_nat (n - j)) with (S (Z.to_nat (n - j - 1))) by lia. by destruct (bool_decide (cur = [])).
  - destruct (whitespace c).
    + rewrite pos_nonempty. destruct (bool_decide (cur = [])) eqn:E; cbn [negb].
      * apply bool_decide_eq_true in E as ->. by apply IH.
      * destruct (Z.eqb_spec j n) as [->|Hne]; [by rewrite Z.sub_diag, He by done|].
        replace (Z.to_nat (n - j)) with (S (Z.to_nat (n - (j + 1)))) by lia. cbn [lookup list_lookup].
        apply (IH []); [lia| |]; intros; by rewrite Hl by lia.
    + rewrite <- (zlen_snoc cur c). apply IH; [lia| |].
      * intros ->. rewrite Z.eqb_refl, He by done. apply take_snoc_63.
      * intros H. by rewrite (proj2 (Z.eqb_neq j n)), Hl by lia.
Qed.

Lemma scan_ne cur s : Forall (fun w => w <> []) (scan cur s).
Proof.
  revert cur. induction s as [|c s IH]; intros cur; cbn; [destruct (bool_decide (cur = [])) eqn:E; [done|]; apply bool_decide_eq_false in E; by constructor|].
  destruct (whitespace c); [|apply IH]. destruct (bool_decide (cur = [])) eqn:E; [apply IH|]. apply bool_decide_eq_false in E. by constructor.
Qed.

(** [nthword] is the word of that number, cut after 63 characters. *)
Lemma nthword_words s (n : nat) : nthword s (Z.of_nat (S n)) = key <$> words s !! n.
Proof.
  unfold nthword. rewrite <- (zlen_nil (A := Z)), (nthword_loop_run s _ [] 1) by (done || lia). fold (words s). rewrite zlen_nil.
  replace (Z.to_nat (Z.of_nat (S n) - 1)) with n by lia. destruct (words s !! n) as [w|] eqn:Ew; [|done].
  pose proof (proj1 (Forall_lookup _ _) (scan_ne [] s) _ _ Ew) as Hne. destruct w as [|x w]; [done|].
  change (take 63 (default [] (Some (x :: w)))) with (x :: take 62 w). rewrite zlen_cons. pose proof (zlen_nonneg (take 62 w)).
  by rewrite (proj2 (Z.eqb_neq _ 0)) by lia.
Qed.

(** [nthwordptr]: the line from that word on. *)
Lemma nthwordptr_loop_run s n : forall cur j, 1 <= j <= n -> (j = n -> cur = []) ->
  match nthwordptr_loop s n j (zlen cur) with
  | Some t => (exists pre, s = pre ++ t) /\ (exists c t', t = c :: t' /\ whitespace c = false) /\
      words t = drop (Z.to_nat (n - j)) (scan cur s)
  | None => (length (scan cur s) <= Z.to_nat (n - j))%nat
  end.
Proof.
  induction s as [|c s IH]; intros cur j Hj He; cbn [nthwordptr_loop scan].
  - destruct (bool_decide (cur = [])) eqn:E; cbn; [lia|]. apply bool_decide_eq_false in E. destruct (Z.eq_dec j n); [by specialize (He e)|lia].
  - destruct (whitespace c) eqn:Ew.
    + rewrite pos_nonempty. destruct (bool_decide (cur = [])) eqn:E; cbn [negb].
      * apply bool_decide_eq_true in E as ->. specialize (IH [] j Hj He). destruct (nthwordptr_loop s n j (zlen [])); [|done].
        destruct IH as ([pre ->] & H). split; [by exists (c :: pre)|done].
      * apply bool_decide_eq_false in E. destruct (Z.eqb_spec j n) as [->|Hne]; [by destruct (E (He eq_refl))|].
        specialize (IH [] (j + 1) ltac:(lia) ltac:(done)). rewrite zlen_nil in IH.
        replace (Z.to_nat (n - j)) with (S (Z.to_nat (n - (j + 1)))) by lia.
        destruct (nthwordptr_loop s n (j + 1) 0); [|cbn [length]; lia].
        destruct IH as ([pre ->] & H). split; [by exists (c :: pre)|done].
    + destruct (Z.eqb_spec j n) as [->|Hne].
      * rewrite (He eq_refl), Z.sub_diag. split; [by exists []|]. split; [by exists c, s|]. unfold words. cbn [scan]. by rewrite Ew.
      * rewrite <- (zlen_snoc cur c). specialize (IH (cur ++ [c]) j Hj ltac:(lia)).
        destruct (nthwordptr_loop s n j (zlen (cur ++ [c]))); [|done]. destruct IH as ([pre ->] & H). split; [by exists (c :: pre)|done].
Qed.

Lemma nthwordptr_words s (n : nat) :
  match nthwordptr s (Z.of_nat (S n)) with
  | Some t => (exists pre, s = pre ++ t) /\ (exists c t', t = c :: t' /\ whitespace c = false) /\ words t = drop n (words s)
  | None => (length (words s) <= n)%nat
  end.
Proof.
  unfold nthwordptr. pose proof (nthwordptr_loop_run s (Z.of_nat (S n)) [] 1 ltac:(lia) ltac:(done)) as H.
  replace (Z.to_nat (Z.of_nat (S n) - 1)) with n in H by lia. exact H.
Qed.

(** The scanner undoes the joining of words by blanks. *)
Definition word_ok (w : list Z) : Prop := w <> [] /\ Forall (fun c => whitespace c = false) w.
Fixpoint join (ws : list (list Z)) : list Z :=
  match ws with [] => [] | w :: ws' => w ++ (match ws' with [] => [] | _ => 32 :: join ws' end) end.

Lemma scan_word w : Forall (fun c => whitespace c = false) w -> forall cur s, scan cur (w ++ s) = scan (cur ++ w) s.
Proof.
  induction 1 as [|c w Hc Hw IH]; intros cur s; cbn [app]; [by rewrite app_nil_r|]. cbn [scan]. rewrite Hc, IH. by rewrite <- app_assoc.
Qed.

Lemma words_cons w s : word_ok w -> words (w ++ 32 :: s) = w :: words s.
Proof.
  intros [Hne Hw]. unfold words. rewrite scan_word by done. cbn [scan app]. rewrite bool_decide_eq_false_2 by done. done.
Qed.

Lemma words_join ws : Forall word_ok ws -> words (join ws) = ws.
Proof.
  induction 1 as [|w ws Hw Hws IH]; [done|]. cbn [join]. destruct ws as [|w2 ws].
  - destruct Hw as [Hne Hw]. unfold words. rewrite scan_word by done. cbn [scan app]. by rewrite bool_decide_eq_false_2.
  - rewrite words_cons by done. by rewrite IH.
Qed.

Lemma scan_blank_free cur s : Forall (fun c => whitespace c = false) cur -> Forall word_ok (scan cur s).
Proof.
  revert cur. induction s as [|c s IH]; intros cur Hc; cbn [scan].
  - destruct (bool_decide (cur = [])) eqn:E; [done|]. apply bool_decide_eq_false in E. repeat constructor; done.
  - destruct (whitespace c) eqn:Ew; [|apply IH; apply Forall_app; by repeat constructor].
    destruct (bool_decide (cur = [])) eqn:E; [by apply IH|]. apply bool_decide_eq_false in E. constructor; [done|by apply IH].
Qed.

Lemma scan_length cur s : (length (scan cur s) <= length cur + length s)%nat.
Proof.
  revert cur. induction s as [|c s IH]; intros cur; cbn [scan].
  - destruct cur; [cbn; lia|]. rewrite bool_decide_eq_false_2 by done. cbn. lia.
  - destruct (whitespace c); [|specialize (IH (cur ++ [c])); rewrite length_app in IH; cbn in *; lia].
    specialize (IH []). destruct cur as [|x cur]; [rewrite bool_decide_eq_true_2 by done; cbn in *; lia|].
    rewrite bool_decide_eq_false_2 by done. cbn in *. lia.
Qed.

(** *** The arguments of a command *)
Lemma nthwordptr_skip w n : Forall (fun c => whitespace c = false) w -> forall cur s j, j < n ->
  nthwordptr_loop (w ++ s) n j (zlen cur) = nthwordptr_loop s n j (zlen (cur ++ w)).
Proof.
  induction 1 as [|c w Hc Hw IH]; intros cur s j Hj; cbn [app]; [by rewrite app_nil_r|].
  cbn [nthwordptr_loop]. rewrite Hc, (proj2 (Z.eqb_neq j n)) by lia. rewrite <- (zlen_snoc cur c), IH by done. by rewrite <- app_assoc.
Qed.

Lemma nthwordptr_join args ws : Forall word_ok ws -> Forall word_ok args -> forall j n, n = j + zlen ws ->
  nthwordptr_loop (join (ws ++ args)) n j 0 = match args with [] => None | _ => Some (join args) end.
Proof.
  intros Hws Hargs. induction Hws as [|w ws [Hne Hw] Hws IH]; intros j n ->.
  - cbn [app]. rewrite zlen_nil, Z.add_0_r. destruct args as [|x args]; [done|]. apply Forall_cons in Hargs as [[Hx Hxw] _].
    destruct x as [|c x]; [done|]. apply Forall_cons in Hxw as [Hc _]. cbn [join app nthwordptr_loop]. by rewrite Hc, Z.eqb_refl.
  - rewrite zlen_cons. pose proof (zlen_nonneg ws). cbn [app join]. rewrite <- (zlen_nil (A := Z)) at 1. rewrite nthwordptr_skip by (done || lia). cbn [app].
    destruct (ws ++ args) as [|y ys] eqn:Ey.
    + apply app_nil in Ey as [-> ->]. done.
    + cbn [nthwordptr_loop]. change (whitespace 32) with true. cbn iota. rewrite pos_nonempty, bool_decide_eq_false_2 by done. cbn [negb].
      rewrite (proj2 (Z.eqb_neq j _)) by lia. rewrite IH by lia. done.
Qed.

(** The three scanners of a line agree with one reference scanner: [nofwords] is the
    number of words, [nthword] the word of a number cut after 63 characters, and
    [nthwordptr] the rest of the line from that word on. *)
Theorem words_of_line s (n : nat) :
  nofwords s = zlen (words s) /\ nthword s (Z.of_nat (S n)) = key <$> words s !! n /\
  match nthwordptr s (Z.of_nat (S n)) with
  | Some t => (exists pre, s = pre ++ t) /\ (exists c t', t = c :: t' /\ whitespace c = false) /\ words t = drop n (words s)
  | None => (length (words s) <= n)%nat
  end.
Proof. split_and!; [apply nofwords_words|apply nthword_words|apply nthwordptr_words]. Qed.

Lemma skip_white_run s : exists pre, s = pre ++ skip_white s /\ Forall (fun c => whitespace c = true) pre /\
  (forall c, head (skip_white s) = Some c -> whitespace c = false).
Proof.
  induction s as [|c s IH]; [by exists []|]. cbn [skip_white]. destruct (whitespace c) eqn:Ec.
  - destruct IH as (pre & E & Hp & Hh). exists (c :: pre). split; [cbn; by rewrite <- E|]. split; [by constructor|done].
  - exists []. split; [done|]. split; [done|]. intros x [= <-]. done.
Qed.

Lemma white_end_run s k : (k < length s)%nat -> (forall c, head s = Some c -> whitespace c = false) ->
  exists post, take (S k) s = white_end k s ++ post /\ Forall (fun c => whitespace c = true) post /\
    (forall c, last (white_end k s) = Some c -> whitespace c = false) /\ white_end k s <> [].
Proof.
  intros Hk Hh. induction k as [|k IH].
  - exists []. destruct s as [|c s]; [cbn in Hk; lia|]. cbn. split_and!; [done|done| |done]. intros x [= <-]. by apply Hh.
  - cbn [white_end]. destruct (lookup_lt_is_Some_2 s (S k) Hk) as [c Hc]. rewrite Hc. change (default 0 (Some c)) with c. rewrite (take_S_r _ _ _ Hc). destruct (whitespace c) eqn:Ec.
    + destruct (IH ltac:(lia)) as (post & E & Hp & Hl). exists (post ++ [c]). split; [by rewrite E, <- app_assoc|]. split; [|exact Hl].
      apply Forall_app. by repeat constructor.
    + exists []. rewrite app_nil_r. split_and!; [done|done| |by destruct (take (S k) s)]. intros x. rewrite last_snoc. by intros [= <-].
Qed.

(** [stripwhite] takes off exactly the blanks at both ends. *)
Lemma stripwhite_run s : exists pre post, s = pre ++ stripwhite s ++ post /\
  Forall (fun c => whitespace c = true) (pre ++ post) /\
  forall c, head (stripwhite s) = Some c \/ last (stripwhite s) = Some c -> whitespace c = false.
Proof.
  destruct (skip_white_run s) as (pre & Es & Hp & Hh). unfold stripwhite. destruct (skip_white s) as [|c t] eqn:Ek.
  - exists pre, []. split; [exact Es|]. split; [by rewrite app_nil_r|by intros c [|]].
  - destruct (white_end_run (c :: t) (length t)) as (post & E & Hpo & Hl & Hne); [cbn; lia|done|].
    rewrite take_ge in E by done. exists pre, post. split; [by rewrite <- E|]. split; [by apply Forall_app|].
    intros x [Hx|Hx]; [|by apply Hl]. apply Hh. rewrite E. destruct (white_end (length t) (c :: t)); [done|exact Hx].
Qed.

(** ** The tree as a directory of paths *)
Section tree.
Context {E : Type}.
Implicit Types (c q v ptr root : command E) (l : list (command E)) (p ws : list (list Z)).

Fixpoint clookup ptr (p : list (list Z)) : option (command E) :=
  match p with
  | [] => Some ptr
  | w :: p' => match find_name w (subcmd ptr) with Some q => clookup q p' | None => None end
  end.
(** A node without its subcommands. *)
Definition info c := (name c, is_rmt c, func c, cmd_type c, doc c, nargs c).
Definition path (cmd : list Z) : list (list Z) := key <$> words cmd.

Lemma nthword_path cmd (n : nat) : nthword cmd (Z.of_nat (S n)) = path cmd !! n.
Proof. rewrite nthword_words. unfold path. by rewrite list_lookup_fmap. Qed.

Lemma find_name_cons w q l : name q = w -> find_name w (q :: l) = Some q.
Proof. intros H. cbn. by rewrite bool_decide_eq_true_2. Qed.

Lemma find_name_skip w q l : name q <> w -> find_name w (q :: l) = find_name w l.
Proof. intros H. cbn. by rewrite bool_decide_eq_false_2. Qed.

Lemma find_upd_same w q v l : find_name w l = Some q -> name v = w -> find_name w (upd_name w v l) = Some v.
Proof.
  intros Hf Hv. induction l as [|x l IH]; [done|]. cbn [find_name upd_name] in *. destruct (bool_decide (name x = w)) eqn:Ex.
  - by apply find_name_cons.
  - cbn [find_name]. rewrite Ex. by apply IH.
Qed.

Lemma find_upd_other w w' v l : w' <> w -> name v = w -> find_name w' (upd_name w v l) = find_name w' l.
Proof.
  intros Hne Hv. induction l as [|x l IH]; [done|]. cbn [upd_name]. destruct (bool_decide (name x = w)) eqn:Ex.
  - apply bool_decide_eq_true in Ex. rewrite !find_name_skip by congruence. done.
  - cbn [find_name]. destruct (bool_decide (name x = w')); [done|]. apply IH.
Qed.

Lemma upd_same w q l : find_name w l = Some q -> upd_name w q l = l.
Proof.
  induction l as [|x l IH]; [done|]. cbn [find_name upd_name]. destruct (bool_decide (name x = w)); [by intros [= ->]|]. intros H. by rewrite IH.
Qed.

Lemma set_subcmd_same c : set_subcmd (subcmd c) c = c.
Proof. by destruct c. Qed.

Lemma find_name_name w q l : find_name w l = Some q -> name q = w /\ q ∈ l.
Proof.
  induction l as [|x l IH]; [done|]. cbn [find_name]. destruct (bool_decide (name x = w)) eqn:Ex.
  - apply bool_decide_eq_true in Ex. intros [= ->]. split; [done|]. apply elem_of_cons. by left.
  - intros H. destruct (IH H). split; [done|]. apply elem_of_cons. by right.
Qed.

(** *** Adding, by the path *)
Section add.
Context (rmt : Z) (f : option (handler E)) (d : option (list Z)) (a t : Z).

Definition leaf (w : list Z) : command E := mk_command w rmt f t d a [].
Definition inner (w : list Z) : command E := mk_command w rmt None t None 0 [].

Fixpoint add_path (ws : list (list Z)) ptr : Z * command E :=
  match ws with
  | [] => (0, ptr)
  | w :: ws' =>
      match find_name w (subcmd ptr) with
      | Some q =>
          match ws' with
          | [] => (0, ptr)
          | _ => let r := add_path ws' q in (fst r, set_subcmd (upd_name w (snd r) (subcmd ptr)) ptr)
          end
      | None =>
          match ws' with
          | [] => (1, set_subcmd (leaf w :: subcmd ptr) ptr)
          | _ => let r := add_path ws' (inner w) in (fst r, set_subcmd (snd r :: subcmd ptr) ptr)
          end
      end
  end.

Lemma addcmd_loop_path cmd todo : forall (lv : nat) ptr, (lv + todo = length (path cmd))%nat ->
  addcmd_loop todo (Z.of_nat (S lv)) (zlen (words cmd)) cmd rmt f d a t ptr = add_path (drop lv (path cmd)) ptr.
Proof.
  assert (zlen (words cmd) = Z.of_nat (length (path cmd))) as Hw by (unfold path, zlen; by rewrite length_fmap).
  induction todo as [|todo IH]; intros lv ptr Hl; cbn [addcmd_loop].
  - by rewrite drop_ge by lia.
  - rewrite nthword_path. destruct (lookup_lt_is_Some_2 (path cmd) lv) as [w Hlv]; [lia|]. rewrite Hlv, (drop_S _ _ _ Hlv). cbn [add_path].
    replace (Z.of_nat (S lv) + 1) with (Z.of_nat (S (S lv))) by lia. rewrite Hw in IH |- *.
    assert ((Z.of_nat (S lv) =? Z.of_nat (length (path cmd))) = bool_decide (drop (S lv) (path cmd) = [])) as ->.
    { destruct (Z.eqb_spec (Z.of_nat (S lv)) (Z.of_nat (length (path cmd)))) as [H|H]; symmetry.
      - apply bool_decide_eq_true. apply drop_ge. lia.
      - apply bool_decide_eq_false. intros H2. apply (f_equal length) in H2. rewrite length_drop in H2. cbn in H2. lia. }
    destruct (find_name w (subcmd ptr)) as [q|]; rewrite IH by lia; by destruct (drop (S lv) (path cmd)).
Qed.

Lemma addcmd_path root cmd : cli_addcmd root cmd rmt f d a t = add_path (path cmd) root.
Proof.
  unfold cli_addcmd. rewrite nofwords_words. rewrite <- (drop_0 (path cmd)). apply (addcmd_loop_path cmd _ 0).
  unfold path. rewrite length_fmap. unfold zlen. lia.
Qed.

Lemma add_path_dup ws : forall ptr, is_Some (clookup ptr ws) -> add_path ws ptr = (0, ptr).
Proof.
  induction ws as [|w ws IH]; intros ptr; [done|]. cbn [clookup add_path]. destruct (find_name w (subcmd ptr)) as [q|] eqn:Eq; [|by intros [? ?]].
  intros Hq. destruct ws as [|w2 ws]; [done|]. rewrite (IH q Hq). cbn [fst snd]. by rewrite upd_same, set_subcmd_same.
Qed.

Lemma add_path_name ws ptr : name (snd (add_path ws ptr)) = name ptr.
Proof. destruct ws as [|w ws]; [done|]. cbn [add_path]. destruct (find_name w (subcmd ptr)); by destruct ws. Qed.

(** What a path means after the addition of [ws], when it was not there. *)
Definition after_add ptr ws p : option (list Z * Z * option (handler E) * Z * option (list Z) * Z) :=
  if decide (p = ws) then Some (info (leaf (default [] (last p))))
  else match clookup ptr p with
       | Some c => Some (info c)
       | None => if decide (p `prefix_of` ws) then Some (info (inner (default [] (last p)))) else None
       end.

Lemma after_add_other ptr w w' ws p : w' <> w -> after_add ptr (w :: ws) (w' :: p) = info <$> clookup ptr (w' :: p).
Proof.
  intros Hne. unfold after_add. rewrite decide_False by congruence. destruct (clookup ptr (w' :: p)); [done|].
  rewrite decide_False; [done|]. intros H%prefix_cons_inv_1. congruence.
Qed.

Lemma add_path_lookup ws : forall ptr, clookup ptr ws = None ->
  fst (add_path ws ptr) = 1 /\ forall p, info <$> clookup (snd (add_path ws ptr)) p = after_add ptr ws p.
Proof.
  induction ws as [|w ws IH]; intros ptr Hno; [done|]. cbn [clookup] in Hno.
  assert (forall r, info (set_subcmd r ptr) = info ptr) as Hinfo by done.
  assert (forall r, clookup (set_subcmd r ptr) [] = Some (set_subcmd r ptr)) as Hnil by done.
  cbn [add_path]. destruct (find_name w (subcmd ptr)) as [q|] eqn:Eq.
  - destruct ws as [|w2 ws]; [done|]. destruct (IH q Hno) as [H1 H2]. split; [done|]. cbn [snd]. intros [|w' p]; [done|].
    pose proof (proj1 (find_name_name _ _ _ Eq)) as Hqn. pose proof (add_path_name (w2 :: ws) q) as Hrn. rewrite Hqn in Hrn.
    destruct (decide (w' = w)) as [->|Hne].
    + cbn [clookup]. unfold set_subcmd at 1. cbn [subcmd]. rewrite (find_upd_same w q) by done. rewrite H2. unfold after_add. cbn [clookup]. rewrite Eq.
      destruct (decide (p = w2 :: ws)) as [->|Hp]; [by rewrite decide_True by done|]. rewrite (decide_False (P := w :: p = _)) by congruence.
      destruct p as [|x p]; [done|]. destruct (clookup q (x :: p)); [done|].
      destruct (decide (x :: p `prefix_of` w2 :: ws)) as [Hpre|Hpre].
      * by rewrite decide_True by (by apply prefix_cons).
      * rewrite decide_False; [done|]. intros ?%prefix_cons_inv_2. done.
    + rewrite after_add_other by done. cbn [clookup]. unfold set_subcmd at 1. cbn [subcmd]. by rewrite find_upd_other by done.
  - assert (forall v p, name v = w -> clookup (set_subcmd (v :: subcmd ptr) ptr) (w :: p) = clookup v p) as Hsame.
    { intros v p Hv. cbn [clookup set_subcmd subcmd]. by rewrite find_name_cons. }
    assert (forall v w' p, name v = w -> w' <> w -> clookup (set_subcmd (v :: subcmd ptr) ptr) (w' :: p) = clookup ptr (w' :: p)) as Hother.
    { intros v w' p Hv Hne. cbn [clookup set_subcmd subcmd]. by rewrite find_name_skip by congruence. }
    destruct ws as [|w2 ws].
    + split; [done|]. cbn [snd]. intros [|w' p]; [done|]. destruct (decide (w' = w)) as [->|Hne]; [|by rewrite after_add_other, Hother].
      rewrite Hsame by done. unfold after_add. cbn [clookup]. rewrite Eq. destruct p as [|x p]; [by rewrite decide_True by done|]. rewrite !decide_False; [done| |congruence].
      intros H%prefix_cons_inv_2. by apply prefix_nil_inv in H.
    + destruct (IH (inner w) eq_refl) as [H1 H2]. split; [done|]. cbn [snd].
      pose proof (add_path_name (w2 :: ws) (inner w)) as Hrn. change (name (inner w)) with w in Hrn.
      intros [|w' p]; [done|]. destruct (decide (w' = w)) as [->|Hne]; [|by rewrite after_add_other, Hother].
      rewrite Hsame by done. rewrite H2. unfold after_add. cbn [clookup]. rewrite Eq.
      destruct (decide (p = w2 :: ws)) as [->|Hp]; [by rewrite decide_True by done|]. rewrite (decide_False (P := w :: p = _)) by congruence.
      destruct p as [|x p]; [cbn [clookup]; by rewrite decide_True by (apply prefix_cons, prefix_nil)|]. cbn [clookup inner subcmd find_name].
      destruct (decide (x :: p `prefix_of` w2 :: ws)) as [Hpre|Hpre].
      * by rewrite decide_True by (by apply prefix_cons).
      * rewrite decide_False; [done|]. intros ?%prefix_cons_inv_2. done.
Qed.
End add.

(** *** Well-formed trees: names are words of at most 63 characters, different among
    siblings *)
Inductive wf : command E -> Prop :=
  | wf_node c : NoDup (name <$> subcmd c) -> Forall (fun q => word_ok (name q) /\ zlen (name q) <= 63) (subcmd c) ->
      (forall q, q ∈ subcmd c -> wf q) -> wf c.

Lemma path_ok cmd : Forall (fun w => word_ok w /\ zlen w <= 63) (path cmd).
Proof.
  unfold path. apply Forall_fmap. eapply Forall_impl; [apply (scan_blank_free [] cmd); constructor|]. intros w [Hne Hw]. unfold key, compose. split.
  - split; [by destruct w|by apply Forall_take].
  - unfold zlen. rewrite length_take. lia.
Qed.

Lemma find_name_notin w l : find_name w l = None -> w ∉ name <$> l.
Proof.
  induction l as [|x l IH]; cbn; [intros _; apply not_elem_of_nil|]. destruct (bool_decide (name x = w)) eqn:Ex; [done|].
  apply bool_decide_eq_false in Ex. intros H. apply not_elem_of_cons. split; [congruence|by apply IH].
Qed.

Lemma upd_name_names w q v l : find_name w l = Some q -> name v = w -> name <$> upd_name w v l = name <$> l.
Proof.
  intros Hf Hv. induction l as [|x l IH]; [done|]. cbn [find_name upd_name] in *. destruct (bool_decide (name x = w)) eqn:Ex.
  - apply bool_decide_eq_true in Ex. rewrite !fmap_cons. congruence.
  - rewrite !fmap_cons. by rewrite IH.
Qed.

Lemma upd_name_elem w v l q : q ∈ upd_name w v l -> q = v \/ q ∈ l.
Proof.
  induction l as [|x l IH]; cbn [upd_name]; [by intros ?%not_elem_of_nil|]. rewrite elem_of_cons. destruct (bool_decide (name x = w)).
  - intros [->|H]%elem_of_cons; [by left|right; by right].
  - intros [->|H]%elem_of_cons; [right; by left|]. destruct (IH H); [by left|right; by right].
Qed.

Lemma names_ok l l' : name <$> l = name <$> l' -> Forall (fun q => word_ok (name q) /\ zlen (name q) <= 63) l ->
  Forall (fun q => word_ok (name q) /\ zlen (name q) <= 63) l'.
Proof.
  intros He H. apply (Forall_fmap name (fun w => word_ok w /\ zlen w <= 63) l'). rewrite <- He. by apply Forall_fmap.
Qed.

Lemma wf_new w v ptr : wf ptr -> wf v -> name v = w -> find_name w (subcmd ptr) = None -> word_ok w -> zlen w <= 63 ->
  wf (set_subcmd (v :: subcmd ptr) ptr).
Proof.
  intros [c Hnd Hok Hsub] Hv Hn Hf Hw Hl. constructor; cbn [subcmd set_subcmd].
  - rewrite fmap_cons. constructor; [rewrite Hn; by apply find_name_notin|done].
  - constructor; [by rewrite Hn|done].
  - intros q [->|Hq]%elem_of_cons; [done|by apply Hsub].
Qed.

Lemma add_path_wf rmt f d a t ws : Forall (fun w => word_ok w /\ zlen w <= 63) ws -> forall ptr, wf ptr -> wf (snd (add_path rmt f d a t ws ptr)).
Proof.
  assert (forall w g dd aa, wf (mk_command w rmt g t dd aa [])) as Hempty.
  { intros. constructor; cbn; [constructor|constructor|by intros ? ?%not_elem_of_nil]. }
  induction 1 as [|w ws [Hw Hl] Hws IH]; intros ptr Hptr; [done|]. cbn [add_path]. destruct (find_name w (subcmd ptr)) as [q|] eqn:Eq.
  - destruct ws as [|w2 ws]; [done|]. cbn [snd]. destruct (find_name_name _ _ _ Eq) as [Hn Hin].
    pose proof (add_path_name rmt f d a t (w2 :: ws) q) as Hrn. rewrite Hn in Hrn. destruct Hptr as [c Hnd Hok Hsub].
    pose proof (upd_name_names w q _ (subcmd c) Eq Hrn) as Hnames.
    constructor; cbn [subcmd set_subcmd]; [by rewrite Hnames|by apply (names_ok (subcmd c))|].
    intros x [->|Hx]%upd_name_elem; [by apply IH, Hsub|by apply Hsub].
  - destruct ws as [|w2 ws]; cbn [snd]; refine (wf_new w _ ptr Hptr _ _ Eq Hw Hl);
      [apply Hempty|reflexivity|apply IH, Hempty|apply add_path_name].
Qed.

(** *** Finding *)
Lemma clookup_app p p2 : forall ptr, clookup ptr (p ++ p2) = clookup ptr p ≫= (fun c => clookup c p2).
Proof. induction p as [|w p IH]; intros ptr; [done|]. cbn [app clookup]. destruct (find_name w (subcmd ptr)); [apply IH|done]. Qed.

Lemma as_possible_run text fuel : forall (lv : nat) ptr fptr mcnt, (lv <= length (path text) < lv + fuel)%nat ->
  exists (c : option (command E)) i n, as_possible_loop fuel (Z.of_nat (S lv)) text ptr fptr mcnt = Ret (c, i) /\
    let p := drop lv (path text) in (n <= length p)%nat /\ (n = 0%nat -> c = fptr /\ i = mcnt) /\
    ((0 < n)%nat -> c = clookup ptr (take n p) /\ is_Some c /\ i = Z.of_nat (lv + n)) /\
    ((n < length p)%nat -> clookup ptr (take (S n) p) = None).
Proof.
  induction fuel as [|fuel IH]; intros lv ptr fptr mcnt Hf.
  { exfalso. lia. }
  cbn [as_possible_loop]. rewrite nthword_path. destruct (path text !! lv) as [w|] eqn:Ew.
  2: { exists fptr, mcnt, 0%nat. apply lookup_ge_None_1 in Ew. rewrite drop_ge by done. cbn. split_and!; [done|lia|done|lia|lia]. }
  pose proof (lookup_lt_Some _ _ _ Ew) as Hlt. rewrite (drop_S _ _ _ Ew). destruct (find_name w (subcmd ptr)) as [q|] eqn:Eq.
  - replace (Z.of_nat (S lv) + 1) with (Z.of_nat (S (S lv))) by lia.
    destruct (IH (S lv) q (Some q) (Z.of_nat (S lv)) ltac:(lia)) as (c & i & n & -> & Hn & H0 & H1 & H2).
    exists c, i, (S n). split; [done|]. cbn zeta in *. cbn [length]. split; [lia|]. split; [lia|]. split; intros Hx.
    + cbn [take clookup]. rewrite Eq. destruct n as [|n]; [destruct (H0 eq_refl) as [-> ->]; split_and!; [done|done|lia]|].
      destruct (H1 ltac:(lia)) as (H3 & H4 & H5). split_and!; [done|done|lia].
    + destruct (decide (n < length (drop (S lv) (path text)))%nat) as [Hlt2|Hge].
      * specialize (H2 Hlt2). revert H2. change (take (S (S n)) (w :: ?l)) with (w :: take (S n) l). cbn [clookup]. by rewrite Eq.
      * exfalso. lia.
  - exists fptr, mcnt, 0%nat. split; [done|]. cbn zeta. split; [lia|]. split; [done|]. split; [lia|]. intros _. cbn [take clookup]. by rewrite Eq.
Qed.

Lemma find_as_possible_run root text mcnt : exists (c : option (command E)) i n, find_match_as_possible root text mcnt = Ret (c, i) /\
  (n <= length (path text))%nat /\ (n = 0%nat -> c = None /\ i = mcnt) /\
  ((0 < n)%nat -> c = clookup root (take n (path text)) /\ is_Some c /\ i = Z.of_nat n) /\
  ((n < length (path text))%nat -> clookup root (take (S n) (path text)) = None).
Proof.
  unfold find_match_as_possible. destruct (as_possible_run text (S (length text)) 0 root None mcnt) as (c & i & n & H).
  - unfold path. rewrite length_fmap. pose proof (scan_length [] text). unfold words. cbn in *. lia.
  - rewrite drop_0 in H. by exists c, i, n.
Qed.

(** C17: the command tree.  After [cli_addcmd] of a line whose words (cut after 63
    characters) are [path cmd]: if that path was there the tree is unchanged and 0 is
    returned; otherwise 1 is returned, the path leads to the new command, the paths on
    the way that did not exist are incomplete commands, and every other path means
    what it did. *)
Theorem cli_addcmd_correct root cmd rmt (f : option (handler E)) d a t :
  let r := cli_addcmd root cmd rmt f d a t in
  (is_Some (clookup root (path cmd)) -> r = (0, root)) /\
  (clookup root (path cmd) = None -> fst r = 1 /\ forall p, info <$> clookup (snd r) p =
     if decide (p = path cmd) then Some (default [] (last p), rmt, f, t, d, a)
     else match clookup root p with
          | Some c => Some (info c)
          | None => if decide (p `prefix_of` path cmd) then Some (default [] (last p), rmt, None, t, None, 0) else None
          end).
Proof. rewrite addcmd_path. split; [apply add_path_dup|apply add_path_lookup]. Qed.

(** C38: the tree stays well formed: whatever is added, siblings have different names and
    every name is a word of 1 to 63 characters without blanks. *)
Theorem cli_tree_wf root cmd rmt (f : option (handler E)) d a t : wf root ->
  wf (snd (cli_addcmd root cmd rmt f d a t)).
Proof. intros H. rewrite addcmd_path. by apply add_path_wf, H; first apply path_ok. Qed.

Lemma path_join ws : Forall word_ok ws -> Forall (fun w => zlen w <= 63) ws -> path (join ws) = ws.
Proof.
  intros H1 H2. unfold path. rewrite words_join by done. clear H1. induction H2 as [|w ws Hw Hws IH]; [done|]. rewrite fmap_cons, IH. f_equal.
  apply take_ge. unfold zlen in Hw. lia.
Qed.

(** *** A sequence of registrations *)
Record reg := mk_reg { r_cmd : list Z; r_rmt : Z; r_func : option (handler E); r_doc : option (list Z); r_args : Z; r_type : Z }.
Definition add_reg root (r : reg) : command E := snd (cli_addcmd root (r_cmd r) (r_rmt r) (r_func r) (r_doc r) (r_args r) (r_type r)).
Definition register (regs : list reg) : command E := foldl add_reg root0 regs.

(** The first registration whose words begin with [p]. *)
Definition begins (p : list (list Z)) (r : reg) : Prop := p `prefix_of` path (r_cmd r).
#[global] Instance begins_dec p r : Decision (begins p r).
Proof. unfold begins. apply _. Defined.
Fixpoint first_reg (regs : list reg) (p : list (list Z)) : option reg :=
  match regs with [] => None | r :: regs => if decide (begins p r) then Some r else first_reg regs p end.
(** The most of the first [n] words of [ws] that begin a registered command. *)
Fixpoint deepest (regs : list reg) (ws : list (list Z)) (n : nat) : option (nat * reg) :=
  match n with
  | O => None
  | S m => match first_reg regs (take n ws) with Some r => Some (n, r) | None => deepest regs ws m end
  end.

Lemma first_reg_snoc regs r p : first_reg (regs ++ [r]) p =
  match first_reg regs p with Some r0 => Some r0 | None => if decide (begins p r) then Some r else None end.
Proof. induction regs as [|x regs IH]; [done|]. cbn [app first_reg]. destruct (decide (begins p x)); [done|exact IH]. Qed.
Lemma first_reg_prefix regs p p2 : is_Some (first_reg regs p2) -> p `prefix_of` p2 -> is_Some (first_reg regs p).
Proof.
  intros H Hp. induction regs as [|x regs IH]; [by destruct H|]. cbn [first_reg] in *. destruct (decide (begins p x)) as [|Hno]; [by eexists|].
  rewrite decide_False in H; [by apply IH|]. intros Hb. apply Hno. unfold begins in *. by etransitivity.
Qed.

(** The node a path leads to is made by the first registration whose words begin with it;
    it has that one's function if the words are all of its words, and none otherwise. *)
Lemma register_lookup regs p : p <> [] ->
  info <$> clookup (register regs) p = (fun r => if decide (p = path (r_cmd r)) then (default [] (last p), r_rmt r, r_func r, r_type r, r_doc r, r_args r)
                                                  else (default [] (last p), r_rmt r, None, r_type r, None, 0)) <$> first_reg regs p.
Proof.
  induction regs as [|r regs IH] using rev_ind in p |- *; intros Hp; [by destruct p|]. unfold register. rewrite foldl_snoc. fold (register regs).
  rewrite first_reg_snoc. unfold add_reg. rewrite addcmd_path. destruct (clookup (register regs) (path (r_cmd r))) as [c|] eqn:Ec.
  - rewrite add_path_dup by by eexists. cbn [snd]. rewrite (IH p Hp). destruct (first_reg regs p) eqn:Ef; [done|]. rewrite decide_False; [done|]. intros Hb.
    assert (path (r_cmd r) <> []) as Hne by (intros E0; unfold begins in Hb; rewrite E0 in Hb; by apply prefix_nil_inv in Hb).
    pose proof (IH _ Hne) as H. rewrite Ec in H. assert (is_Some (first_reg regs (path (r_cmd r)))) as Hs by (destruct (first_reg regs (path (r_cmd r))); [by eexists|done]).
    destruct (first_reg_prefix regs p _ Hs Hb). congruence.
  - destruct (add_path_lookup (r_rmt r) (r_func r) (r_doc r) (r_args r) (r_type r) (path (r_cmd r)) (register regs) Ec) as [_ H]. rewrite H. unfold after_add.
    pose proof (IH p Hp) as Hl. destruct (decide (p = path (r_cmd r))) as [->|Hne].
    + rewrite Ec in Hl. destruct (first_reg regs _); [done|]. rewrite decide_True by (unfold begins; done). cbn. by rewrite decide_True by done.
    + destruct (clookup (register regs) p) as [c|]; destruct (first_reg regs p) as [r0|]; try done.
      destruct (decide (p `prefix_of` path (r_cmd r))); [rewrite (decide_True (P := begins p r)) by done|by rewrite (decide_False (P := begins p r))]. cbn. by rewrite decide_False by done.
Qed.

Lemma register_some regs p : p <> [] -> (is_Some (clookup (register regs) p) <-> is_Some (first_reg regs p)).
Proof. intros Hp. pose proof (register_lookup regs p Hp) as H. by destruct (clookup (register regs) p), (first_reg regs p). Qed.

(** How deep a line goes. *)
Lemma deepest_run regs ws n : (n <= length ws)%nat -> ((n < length ws)%nat -> clookup (register regs) (take (S n) ws) = None) ->
  ((0 < n)%nat -> is_Some (clookup (register regs) (take n ws))) ->
  deepest regs ws (length ws) = r ← first_reg regs (take n ws); if decide (n = 0%nat) then None else Some (n, r).
Proof.
  intros Hn Hno Hyes. assert (forall m, (n <= m <= length ws)%nat -> deepest regs ws m = deepest regs ws n) as Hd.
  { induction m as [|m IH]; intros Hm; [by replace n with 0%nat by lia|]. destruct (decide (n = S m)) as [->|Hne]; [done|]. cbn [deepest].
    destruct (first_reg regs (take (S m) ws)) eqn:Ef; [|apply IH; lia]. exfalso. assert (is_Some (first_reg regs (take (S n) ws))) as Hs.
    { apply (first_reg_prefix regs _ (take (S m) ws)); [by eexists|]. exists (drop (S n) (take (S m) ws)). rewrite <- (take_drop (S n) (take (S m) ws)) at 1.
      by rewrite take_take, Nat.min_l by lia. }
    apply register_some in Hs; [|destruct ws; [cbn in Hm; lia|done]]. rewrite Hno in Hs by lia. by destruct Hs. }
  rewrite Hd by lia. destruct n as [|n]; [by destruct (first_reg regs (take 0 ws))|]. cbn [deepest].
  assert (is_Some (first_reg regs (take (S n) ws))) as [r ->] by (apply register_some; [destruct ws; [cbn in Hn; lia|done]|apply Hyes; lia]). done.
Qed.

(** C16: which function a line calls.  Let any commands have been registered, in any order.
    A line is looked up by as many of its words (cut after 63 characters) as begin a
    registered command.  If not even the first word does, the line is an unknown command.
    Otherwise the first registration these words begin decides: if they are all its words
    and it has a function, this is called with the line from the next word on (NULL if
    there is none), and its output and result are those of the line; if they are not, the
    line is an incomplete command.  (So a longer command takes a line from a shorter one,
    and a command that was registered after a longer one it begins is never called.) *)
Theorem cli_executes (regs : list reg) (text : list Z) (e : E) :
  match deepest regs (path text) (length (path text)) with
  | None => execute_line None (register regs) text e = Ret (e, no_such text, 1)
  | Some (n, r) =>
      match (if decide (take n (path text) = path (r_cmd r)) then r_func r else None) with
      | None => execute_line None (register regs) text e = Ret (e, incomplete text, 1)
      | Some f =>
          exists arg, execute_line None (register regs) text e = Ret (f arg e) /\
            match arg with
            | None => length (words text) = n
            | Some t => (exists pre, text = pre ++ t) /\ (exists ch t', t = ch :: t' /\ whitespace ch = false) /\ words t = drop n (words text)
            end
      end
  end.
Proof.
  unfold execute_line. destruct (find_as_possible_run (register regs) text 0) as (c & i & n & -> & Hn & H0 & H1 & H2). cbn [obind].
  rewrite (deepest_run regs (path text) n Hn H2); [|intros Hx; destruct (H1 Hx) as (<- & ? & _); done]. destruct (decide (n = 0%nat)) as [->|Hnz].
  { destruct (H0 eq_refl) as [-> _]. by destruct (first_reg regs (take 0 (path text))). }
  destruct (H1 ltac:(lia)) as (Ec & [c0 ->] & ->). assert (take n (path text) <> []) as Hp by (destruct n; [done|]; destruct (path text); [cbn in Hn; lia|done]).
  pose proof (register_lookup regs _ Hp) as Hl. rewrite <- Ec in Hl. destruct (first_reg regs (take n (path text))) as [r|]; [|done]. cbn [mbind option_bind].
  assert (func c0 = if decide (take n (path text) = path (r_cmd r)) then r_func r else None) as Hf by (cbn in Hl; case_decide; injection Hl; done).
  rewrite <- Hf. destruct (func c0) as [f|]; [|done]. pose proof (nthwordptr_words text n) as Hw. rewrite Nat2Z.inj_succ in Hw. unfold Z.succ in Hw.
  exists (nthwordptr text (Z.of_nat n + 1)). split; [by destruct (is_rmt c0 =? 0)|]. destruct (nthwordptr text (Z.of_nat n + 1)); [done|].
  unfold path in Hn. rewrite length_fmap in Hn. lia.
Qed.

(** The other order of registration fails: a command whose words begin a longer one that
    is already there is called a duplicate, although nothing has been registered under
    its words. *)
Lemma prefix_refused root ws ws2 rmt f d a t rmt' f' d' a' t' :
  Forall word_ok (ws ++ ws2) -> Forall (fun w => zlen w <= 63) (ws ++ ws2) -> clookup root (ws ++ ws2) = None ->
  let root' := snd (cli_addcmd root (join (ws ++ ws2)) rmt f d a t) in
  cli_addcmd root' (join ws) rmt' f' d' a' t' = (0, root').
Proof.
  intros Hw Hl Hno root'. subst root'. rewrite !addcmd_path, !path_join by (try done; by apply Forall_app in Hw as [? _], Hl as [? _]).
  destruct (add_path_lookup rmt f d a t (ws ++ ws2) root Hno) as [_ H]. specialize (H ws). apply add_path_dup.
  destruct (clookup (snd (add_path rmt f d a t (ws ++ ws2) root)) ws); [by eexists|]. cbn in H. unfold after_add in H.
  destruct (decide (ws = ws ++ ws2)); [done|]. destruct (clookup root ws); [done|]. rewrite decide_True in H; [done|]. by exists ws2.
Qed.

(** *** Remote execution *)
Lemma sock_read_split ch (s : list Z) n : zlen s <> 0 -> 0 < n ->
  exists x y, sock_read ch s n = (x, y) /\ s = x ++ y /\ 0 < zlen x <= n.
Proof.
  intros Hs Hn. unfold sock_read. set (m := Z.to_nat _). exists (take m s), (drop m s). split; [done|]. rewrite take_drop. split; [done|].
  unfold zlen in *. rewrite length_take. subst m. lia.
Qed.

Lemma client_loop_run ch fuel : forall s out, (length s < fuel)%nat -> client_loop fuel ch s (zlen s) out = Ret (out ++ s).
Proof.
  induction fuel as [|fuel IH]; intros s out Hf; [lia|]. cbn [client_loop]. destruct (Z.ltb_spec 0 (zlen s)) as [Hp|Hz].
  - set (xlen := if 1023 <? zlen s then 1023 else zlen s). assert (0 < xlen) by (subst xlen; destruct (Z.ltb_spec 1023 (zlen s)); lia).
    destruct (sock_read_split ch s xlen ltac:(lia) ltac:(lia)) as (x & y & -> & -> & Hx). cbn [fst snd].
    rewrite (proj2 (Z.leb_gt (zlen x) 0)) by lia. rewrite zlen_app. replace (zlen x + zlen y - zlen x) with (zlen y) by lia.
    rewrite IH by (rewrite length_app in Hf; unfold zlen in Hx; lia). by rewrite <- app_assoc.
  - destruct s as [|c s]; [by rewrite app_nil_r|]. rewrite zlen_cons in Hz. pose proof (zlen_nonneg s). lia.
Qed.

Lemma read_int_run ch (v : Z) rest old : 4 <= ch (zlen (le32 v ++ rest)) -> INT_MIN <= v <= INT_MAX ->
  read_int ch (le32 v ++ rest) old = (v, rest).
Proof.
  intros Hch Hv. unfold read_int, sock_read. rewrite Z.min_l by lia.
  change (take (Z.to_nat 4) (le32 v ++ rest)) with (le32 v). change (drop (Z.to_nat 4) (le32 v ++ rest)) with rest.
  change (drop (length (le32 v)) (le32 old)) with (@nil Z). cbn [fst snd]. by rewrite app_nil_r, le_val_le32, to_int_u32, to_int_id.
Qed.

(** C33: executing a command in the other process is the same as executing it there.  The
    client sends the line; the server executes the part [got] of it that its one [read]
    gives (at most 4095 bytes, the whole line if it is not cut on the way), which prints
    [out] and returns [rv]; the client then prints [out] and returns [rv], and the server
    goes on unless the result is 0.  The output may be cut into pieces of any size, but
    the numbers in front of it must each come in one piece ([remote_cut_number]); and an
    output that does not fit [bp_buffer] is written past its end. *)
Theorem remote_equals_local ch root_c root_s cmd k (e e' ec : E) out rv junk c i f :
  CS.nonul cmd -> find_match_as_possible root_c cmd 0 = Ret (Some c, i) -> func c = Some f -> is_rmt c <> 0 ->
  let got := take 4095 (take k cmd) in
  execute_line None root_s got e = Ret (e', out, rv) -> INT_MIN <= rv <= INT_MAX ->
  4 <= ch (8 + zlen out) -> 4 <= ch (4 + zlen out) ->
  if zlen out <? MAX_TRANSFER_BUFFER then
    execute_line (Some (remote ch root_s e k junk)) root_c cmd ec = Ret (ec, out, rv) /\
    exists ans, accept_request root_s (take k cmd) e = Ret (e', ans, negb (rv =? 0))
  else accept_request root_s (take k cmd) e = Fault OutOfBounds.
Proof.
  intros Hn Hfind Hf Hr got Hex Hrv Hch1 Hch2. unfold execute_line at 1. rewrite Hfind. cbn [obind]. rewrite Hf, (proj2 (Z.eqb_neq _ 0)) by done.
  unfold remote, accept_request. rewrite CS.cstring_id by (by apply Forall_take, Forall_take). fold got. rewrite Hex. cbn [obind].
  unfold bprint. change (zlen (@nil Z)) with 0. rewrite Z.add_0_l. destruct (zlen out <? MAX_TRANSFER_BUFFER) eqn:Hout; [|done]. apply Z.ltb_lt in Hout. cbn [obind app].
  split; [|by eexists]. unfold client_receive. pose proof (zlen_nonneg out). unfold MAX_TRANSFER_BUFFER in Hout.
  rewrite read_int_run; [|replace (zlen (le32 rv ++ le32 (zlen out) ++ out)) with (8 + zlen out) by (rewrite !zlen_app, !zlen_le32; lia); done|done].
  rewrite read_int_run; [|replace (zlen (le32 (zlen out) ++ out)) with (4 + zlen out) by (rewrite zlen_app, zlen_le32; lia); done|int_lia].
  rewrite client_loop_run by lia. done.
Qed.

(** *** Completion *)
Fixpoint collect (fuel : nat) (call : Z -> list (command E) -> option (list Z) * list (command E)) (state : Z) (cptr : list (command E))
    : outcome (list (list Z)) :=
  match fuel with
  | O => Fault OutOfFuel
  | S fuel =>
      match call state cptr with
      | (None, _) => Ret []
      | (Some m, cptr) => let* ms := collect fuel call 1 cptr in Ret (m :: ms)
      end
  end.

Lemma next_match_run text l :
  match next_match text l with
  | (None, _) => filter (starts_with text) (name <$> l) = []
  | (Some m, rest) => filter (starts_with text) (name <$> l) = m :: filter (starts_with text) (name <$> rest) /\ (length rest < length l)%nat
  end.
Proof.
  induction l as [|c l IH]; [done|]. cbn [next_match]. rewrite fmap_cons, filter_cons. destruct (starts_with text (name c)) eqn:Es.
  - rewrite decide_True by done. cbn [length]. split; [done|lia].
  - rewrite decide_False by (by intros []). destruct (next_match text l) as [[m|] rest]; [|done]. cbn [length]. destruct IH; split; [done|lia].
Qed.

Lemma collect_run text (call : Z -> list (command E) -> option (list Z) * list (command E)) fuel :
  (forall l, call 1 l = next_match text l) -> forall l state cptr, (length l < fuel)%nat -> call state cptr = next_match text l ->
  collect fuel call state cptr = Ret (filter (starts_with text) (name <$> l)).
Proof.
  intros Hcall. induction fuel as [|fuel IH]; intros l state cptr Hf H1; [lia|]. cbn [collect]. rewrite H1. pose proof (next_match_run text l) as Hn.
  destruct (next_match text l) as [[m|] rest]; [|by rewrite Hn]. destruct Hn as [-> Hlt]. by rewrite (IH rest 1 rest) by (done || lia).
Qed.

Lemma starts_with_spec text s : starts_with text s = true <-> exists rest, s = text ++ rest.
Proof.
  revert s. induction text as [|a text IH]; intros s; cbn [starts_with]; [split; [by exists s|done]|]. destruct s as [|b s]; [by split; [|intros [? ?]]|].
  rewrite andb_true_iff, Z.eqb_eq, IH. split; [intros [-> [rest ->]]; by exists rest|intros [rest [= -> ->]]; by split; [|exists rest]].
Qed.

Lemma find_match_loop_run text todo : forall (lv : nat) ptr,
  find_match_loop todo (Z.of_nat (S lv)) text ptr true = clookup ptr (take todo (drop lv (path text))).
Proof.
  induction todo as [|todo IH]; intros lv ptr; cbn [find_match_loop]; [done|]. rewrite nthword_path. destruct (path text !! lv) as [w|] eqn:Ew.
  - rewrite (drop_S _ _ _ Ew). cbn [take clookup]. destruct (find_name w (subcmd ptr)); [|done].
    replace (Z.of_nat (S lv) + 1) with (Z.of_nat (S (S lv))) by lia. apply IH.
  - apply lookup_ge_None_1 in Ew. by rewrite drop_ge by done.
Qed.

Lemma find_match_run root text n : (0 < n)%nat -> path text <> [] ->
  find_match_command root text (Z.of_nat n) = clookup root (take n (path text)).
Proof.
  intros Hn Hp. unfold find_match_command. rewrite Nat2Z.id. destruct n as [|n]; [lia|]. cbn [find_match_loop].
  change 1 with (Z.of_nat 1). rewrite nthword_path. destruct (path text) as [|w p] eqn:Ep; [done|]. cbn [lookup list_lookup take clookup].
  destruct (find_name w (subcmd root)) as [q|]; [|done]. change (Z.of_nat 1 + Z.of_nat 1) with (Z.of_nat 2). rewrite find_match_loop_run, Ep. done.
Qed.

(** Completion.  readline's calls (state 0, then 1 until NULL) give, in order and
    once each, the names that begin with what is typed: of all commands for the first
    word, and of the subcommands of the [n] words before it otherwise. *)
Theorem completion_lists root line text cptr c n fuel :
  nofwords line - nofwords text = Z.of_nat n -> (0 < n)%nat -> path line <> [] ->
  clookup root (take n (path line)) = Some c -> subcmd c <> [] ->
  (length (subcmd c) < fuel)%nat -> (length (subcmd root) < fuel)%nat ->
  collect fuel (fun state l => fst (entry_completion root line text state l)) 0 cptr =
    Ret (filter (starts_with text) (name <$> subcmd c)) /\
  collect fuel (command_generator root text) 0 cptr = Ret (filter (starts_with text) (name <$> subcmd root)) /\
  forall s, starts_with text s = true <-> exists rest, s = text ++ rest.
Proof.
  intros Hw Hn Hp Hc Hne Hf1 Hf2. split_and!; [| |apply starts_with_spec].
  - apply (collect_run text); [done|done|]. unfold entry_completion. cbn [Z.eqb negb].
    rewrite Hw, find_match_run, Hc by done. by destruct (subcmd c).
  - by apply (collect_run text).
Qed.
End tree.

(** ** Examples *)
Definition echo : handler (list Z) := fun arg e => (e ++ [1], default [] arg, 7).
Definition demo_root : command (list Z) :=
  snd (cli_addcmd (snd (cli_addcmd root0 (txt "show version") 0 (Some echo) None 0 0)) (txt "set  time") 1 (Some echo) None 1 0).

Lemma cli_tree_wf_witness : wf (snd (cli_addcmd root0 (txt "show version") 0 (Some echo) None 0 0)).
Proof.
  apply cli_tree_wf. constructor; cbn; [constructor|constructor|]. intros q Hq. inversion Hq.
Defined.

(** "show clock" takes the line from "show"; "set", registered after "set time", is never called. *)
Definition demo_regs : list reg :=
  [mk_reg (txt "show") 0 (Some echo) None 0 0; mk_reg (txt "show clock") 0 (Some (fun arg e => (e ++ [2], default [] arg, 8))) None 0 0;
   mk_reg (txt "set  time") 1 (Some echo) None 1 0; mk_reg (txt "set") 0 (Some echo) None 1 0].
Example cli_examples :
  execute_line None (register demo_regs) (txt "show clock utc") [5] = Ret ([5; 2], txt "utc", 8) /\
  execute_line None (register demo_regs) (txt "show date") [5] = Ret ([5; 1], txt "date", 7) /\
  execute_line None (register demo_regs) (txt "set date") [5] = Ret ([5], incomplete (txt "set date"), 1).
Proof. vm_compute. done. Qed.

Lemma remote_equals_local_witness :
  execute_line (Some (remote (fun n => if n <? 5 then 1 else 5) demo_root [5] 20 3)) demo_root (txt "set time 12:00") [8] = Ret ([8], txt "12:00", 7) /\
  exists ans, accept_request demo_root (take 20 (txt "set time 12:00")) [5] = Ret ([5; 1], ans, true).
Proof.
  apply (remote_equals_local (fun n => if n <? 5 then 1 else 5) demo_root demo_root (txt "set time 12:00") 20 [5] [5; 1] [8] (txt "12:00") 7 3
    (mk_command (txt "time") 1 (Some echo) 0 None 1 []) 2 echo).
  - repeat constructor; discriminate.
  - vm_compute. reflexivity.
  - reflexivity.
  - discriminate.
  - vm_compute. reflexivity.
  - vm_compute. split; discriminate.
  - vm_compute. discriminate.
  - vm_compute. discriminate.
Defined.

(** A number that comes in two pieces is not put together: the client takes what came of it
    and reads the rest as the next number. *)
Example remote_cut_number :
  execute_line None demo_root (txt "set time 12:00") [5] = Ret ([5; 1], txt "12:00", 7) /\
  execute_line (Some (remote (fun _ => 3) demo_root [5] 20 0)) demo_root (txt "set time 12:00") [8] = Ret ([8], [0; 0] ++ txt "12:00", 7).
Proof. vm_compute. done. Qed.

Lemma completion_lists_witness :
  collect 5 (fun state l => fst (entry_completion demo_root (txt "show ve") (txt "ve") state l)) 0 [] = Ret [txt "version"].
Proof.
  apply (completion_lists demo_root (txt "show ve") (txt "ve") [] (mk_command (txt "show") 0 None 0 None 0
    [mk_command (txt "version") 0 (Some echo) 0 None 0 []]) 1 5); vm_compute; try reflexivity; try discriminate; lia.
Defined.

Lemma cli_addcmd_correct_witness : cli_addcmd demo_root (txt "show") 0 (Some echo) None 0 0 = (0, demo_root).
Proof. apply (cli_addcmd_correct demo_root (txt "show") 0 (Some echo) None 0 0). vm_compute. eexists. reflexivity. Defined.
End CL.
