(* ===== verification/Genpdu.v ===== *)
(** * Genpdu.v: generic PDUs and their dispatch, genpdu/genpdu.c

    A packet begins with a checksum, a command, a length and a flag.  [pack] fills them
    in; [do_cmd] checks length and sum and calls the function registered for the
    command.  The table of functions is an array of [num] entries of which the first
    [real_num] are used; it is proved to be a finite map with a bound.  Functions are
    values of any type [F]; [call] runs one. *)

From S2P Require Import Prelude Posix Wire.

Module GP.

(** [struct generic_pdu_t]: [o_cksum], [o_cmd] are as in [Wire]. *)
Definition SIZEOF_GENERIC : Z := 16.
Definition o_len : Z := 8.
Definition o_flag : Z := 12.

(** A structure is laid over the buffer. *)
Definition as_pdu (pdu : list Z) : outcome unit := if zlen pdu <? SIZEOF_GENERIC then Fault OutOfBounds else Ret tt.

(** [for (i = sizeof p->cksum; i < len; i++)]: [n] rounds are left. *)
Fixpoint cksum_loop (n : nat) (q : list Z) (i sum : Z) : outcome Z :=
  match n with
  | O => Ret sum
  | S n => let* b := aget q i in cksum_loop n q (i + 1) (Z.land (u32 (sum + b)) 268435455)
  end.
Definition genpdu_cksum (pdu : list Z) (rlen : Z) : outcome Z :=
  let* _ := as_pdu pdu in
  let len := i32_at pdu o_len in
  if (SIZEOF_GENERIC <=? u32 rlen) && negb (rlen =? len) then Ret (u32 (u32_at pdu o_cksum + 1))
  else cksum_loop (Z.to_nat (len - 4)) pdu 4 0.

Definition genpdu_mkcksum (pdu : list Z) : outcome (list Z) :=
  let* c := genpdu_cksum pdu 0 in Ret (put32 pdu o_cksum c).

Section table.
Context {F : Type}.

(** [struct genpdu_private_data_t]; an entry is [cmd] and [func]. *)
Record genpdu := mk_genpdu { num : Z; real_num : Z; handler : list (Z * option F); flag_callback : option Z }.

(** [for (i = 0; i < real_num; i++) if (hdr[i].cmd == cmd)]: [n] rounds are left. *)
Fixpoint find_cmd (n : nat) (hdr : list (Z * option F)) (i cmd : Z) : outcome (option (option F)) :=
  match n with
  | O => Ret None
  | S n => let* h := aget hdr i in if fst h =? cmd then Ret (Some (snd h)) else find_cmd n hdr (i + 1) cmd
  end.

Definition genpdu_add (self : genpdu) (cmd : Z) (func : F) : outcome (Z * genpdu) :=
  let* x := find_cmd (Z.to_nat (real_num self)) (handler self) 0 cmd in
  match x with
  | Some _ => Ret (-1, self)
  | None =>
      let i := real_num self in
      if num self <=? i then Ret (-1, self)
      else
        let* h := aset (handler self) i (cmd, Some func) in
        Ret (i, mk_genpdu (num self) (i + 1) h (flag_callback self))
  end.

(** The list up to its entry without a function. *)
Fixpoint genpdu_addlist (self : genpdu) (list_ : list (Z * F)) (rc : Z) : outcome (Z * genpdu) :=
  match list_ with
  | [] => Ret (rc, self)
  | (cmd, func) :: rest =>
      let* r := genpdu_add self cmd func in
      if fst r <? 0 then Ret (rc, snd r) else genpdu_addlist (snd r) rest (rc + 1)
  end.

Definition genpdu_clear (self : genpdu) : genpdu := mk_genpdu (num self) 0 (handler self) (flag_callback self).
Definition genpdu_set_flag_callback (self : genpdu) (cbk : option Z) : genpdu :=
  mk_genpdu (num self) (real_num self) (handler self) cbk.

(** The value of [*cmd], if it is set, and the result. *)
Definition genpdu_do_cmd (call : F -> Z) (self : genpdu) (pdu : list Z) (len : Z) : outcome (option Z * Z) :=
  let* cksum := genpdu_cksum pdu len in
  if negb (cksum =? u32_at pdu o_cksum) then Ret (None, -1)
  else
    let c := i32_at pdu o_cmd in
    let* x := find_cmd (Z.to_nat (real_num self)) (handler self) 0 c in
    match x with
    | Some (Some f) => Ret (Some c, call f)
    | Some None => Fault NullDeref
    | None => Ret (None, -1)
    end.

(** The call-back is a function of the structure; its value is given. *)
Definition genpdu_pack (self : genpdu) (pdu : list Z) (cmd len : Z) : outcome (list Z) :=
  let* _ := as_pdu pdu in
  let pdu := match flag_callback self with Some v => put32 pdu o_flag v | None => pdu end in
  genpdu_mkcksum (put32 (put32 pdu o_cmd cmd) o_len len).

(** [mem]: [calloc] succeeds. *)
Definition new_genpdu (mem : bool) (n : Z) : option genpdu :=
  if mem then Some (mk_genpdu n 0 (replicate (Z.to_nat n) (0, None)) None) else None.
End table.
Arguments genpdu : clear implicits.

(** ** The checksum: the same sum as that of [Wire] *)
Lemma cksum_loop_run q n : forall i sum, bytes q -> 0 <= i -> i + Z.of_nat n <= zlen q -> 0 <= sum < 2 ^ 28 ->
  cksum_loop n q i sum = Ret (Wire.cksum_loop (slice q i (Z.of_nat n)) sum).
Proof.
  induction n as [|n IH]; intros i sum Hb Hi Hn Hs; cbn [cksum_loop]; [done|].
  destruct (aget_lt q i) as (b & Eb & Hl); [lia|]. rewrite Eb. cbn [obind].
  pose proof (proj1 (Forall_lookup _ _) Hb _ _ Hl) as Hbb. unfold byte in Hbb.
  assert (u32 (sum + b) = sum + b) as -> by (unfold u32; apply Z.mod_small; lia).
  assert (0 <= Z.land (sum + b) 268435455 < 2 ^ 28).
  { change 268435455 with (Z.ones 28). rewrite Z.land_ones by lia. apply Z.mod_pos_bound. lia. }
  rewrite IH by (done || lia). f_equal. unfold slice. rewrite (drop_S q b (Z.to_nat i)) by done.
  replace (Z.to_nat (Z.of_nat (S n))) with (S n) by lia. cbn [take Wire.cksum_loop].
  replace (Z.to_nat (i + 1)) with (S (Z.to_nat i)) by lia. by rewrite Nat2Z.id.
Qed.

Lemma genpdu_cksum_run pdu rlen : bytes pdu -> SIZEOF_GENERIC <= zlen pdu ->
  let len := i32_at pdu o_len in
  len <= zlen pdu -> rlen = 0 \/ rlen = len -> genpdu_cksum pdu rlen = Ret (stiov3_cs_cksum pdu len).
Proof.
  intros Hb Hsz len Hlen Hr. unfold genpdu_cksum, as_pdu. rewrite (proj2 (Z.ltb_ge (zlen pdu) _)) by done. cbn [obind]. fold len.
  assert ((SIZEOF_GENERIC <=? u32 rlen) && negb (rlen =? len) = false) as ->.
  { destruct Hr as [->| ->]; [done|]. by rewrite Z.eqb_refl, andb_false_r. }
  unfold SIZEOF_GENERIC in Hsz. rewrite cksum_loop_run by (try done; lia). unfold stiov3_cs_cksum, slice. by rewrite Nat2Z.id.
Qed.

Lemma genpdu_cksum_refuses pdu rlen : SIZEOF_GENERIC <= zlen pdu -> SIZEOF_GENERIC <= rlen <= INT_MAX -> rlen <> i32_at pdu o_len ->
  genpdu_cksum pdu rlen = Ret (u32 (u32_at pdu o_cksum + 1)).
Proof.
  intros Hsz Hr Hne. unfold genpdu_cksum, as_pdu. rewrite (proj2 (Z.ltb_ge (zlen pdu) _)) by done. cbn [obind].
  assert (u32 rlen = rlen) as -> by (unfold u32, SIZEOF_GENERIC in *; apply Z.mod_small; int_lia).
  by rewrite (proj2 (Z.leb_le _ rlen)), (proj2 (Z.eqb_neq rlen _)) by lia.
Qed.

(** ** The table *)
Section table_proofs.
Context {F : Type}.
Implicit Types (self : genpdu F) (m : list (Z * F)).

(** [m]: what is registered, oldest first. *)
Record holds self m : Prop := {
  ho_num : num self = zlen (handler self) /\ num self <= INT_MAX;
  ho_real : real_num self = zlen m;
  ho_used : exists rest, handler self = ((fun x => (fst x, Some (snd x))) <$> m) ++ rest;
  ho_nodup : NoDup (fst <$> m);
}.
Fixpoint assoc m (cmd : Z) : option F :=
  match m with [] => None | (c, f) :: m' => if c =? cmd then Some f else assoc m' cmd end.

Lemma find_cmd_run m cmd : forall pre rest,
  find_cmd (length m) (pre ++ ((fun x => (fst x, Some (snd x))) <$> m) ++ rest) (zlen pre) cmd = Ret (Some <$> assoc m cmd).
Proof.
  induction m as [|[c f] m IH]; intros pre rest; [done|]. cbn [length find_cmd]. rewrite fmap_cons. cbn [app].
  rewrite (aget_Some _ _ (c, Some f)); [|apply zlen_nonneg|].
  2: { unfold zlen. by rewrite Nat2Z.id, list_lookup_middle. }
  cbn [obind fst snd assoc]. destruct (c =? cmd); [done|].
  specialize (IH (pre ++ [(c, Some f)]) rest). rewrite zlen_app, zlen_cons, zlen_nil, <- app_assoc in IH. exact IH.
Qed.

Lemma find_holds self m cmd : holds self m -> find_cmd (Z.to_nat (real_num self)) (handler self) 0 cmd = Ret (Some <$> assoc m cmd).
Proof.
  intros [_ -> (rest & ->) _]. unfold zlen. rewrite Nat2Z.id. exact (find_cmd_run m cmd [] rest).
Qed.

Lemma assoc_None m cmd : assoc m cmd = None <-> cmd ∉ fst <$> m.
Proof.
  induction m as [|[c f] m IH]; cbn; [split; [intros _; apply not_elem_of_nil|done]|]. rewrite not_elem_of_cons. destruct (Z.eqb_spec c cmd); [split; [done|]; intros []; congruence|].
  rewrite IH. split; [intros; split; [congruence|done]|by intros []].
Qed.

(** The table of commands is a finite map of bounded size.  Adding a command that is
    there, or to a full table, returns -1 and changes nothing; otherwise the command is
    mapped to its function, the rest as before, and the number of its entry is
    returned. *)
Theorem genpdu_add_correct self m cmd f : holds self m ->
  (is_Some (assoc m cmd) \/ zlen m = num self -> genpdu_add self cmd f = Ret (-1, self)) /\
  (assoc m cmd = None -> zlen m < num self ->
     exists self', genpdu_add self cmd f = Ret (zlen m, self') /\ holds self' (m ++ [(cmd, f)]) /\
       forall c, assoc (m ++ [(cmd, f)]) c = if c =? cmd then Some f else assoc m c).
Proof.
  intros H. pose proof H as [[Hnum Hmax] Hreal (rest & Hh) Hnd]. unfold genpdu_add. rewrite (find_holds self m) by done. cbn [obind]. split.
  - intros [[x ->]|Hfull]; [done|]. destruct (assoc m cmd); [done|]. by rewrite Hreal, Hfull, (proj2 (Z.leb_le _ _)) by lia.
  - intros Hno Hlt. rewrite Hno. cbn [fmap option_fmap option_map]. rewrite Hreal, (proj2 (Z.leb_gt _ _)) by lia.
    pose proof (zlen_nonneg m). rewrite aset_Ret by lia. cbn [obind]. eexists. split; [reflexivity|]. split.
    + split; cbn [num real_num handler]; [by rewrite zlen_insert|by rewrite zlen_app| |].
      * destruct rest as [|x rest]; [rewrite Hnum, Hh, app_nil_r in Hlt; unfold zlen in Hlt; rewrite length_fmap in Hlt; lia|].
        exists rest. rewrite Hh, fmap_app, <- app_assoc. unfold zlen. rewrite Nat2Z.id. rewrite insert_app_r_alt by (by rewrite length_fmap).
        by rewrite length_fmap, Nat.sub_diag.
      * rewrite fmap_app. apply NoDup_app. split_and!; [done| |apply NoDup_singleton]. apply assoc_None in Hno.
        intros x Hx Hy. apply list_elem_of_singleton in Hy. cbn in Hy. congruence.
    + intros c. clear -Hno. induction m as [|[c' f'] m IH]; cbn in *; [by rewrite Z.eqb_sym|].
      destruct (Z.eqb_spec c' cmd); [done|]. destruct (Z.eqb_spec c' c); [destruct (Z.eqb_spec c cmd); [congruence|done]|]. by apply IH.
Qed.

(** The check and the dispatch, for a packet of [len] bytes whose length field is right. *)
Lemma do_cmd_run (call : F -> Z) self m pdu : holds self m -> bytes pdu -> SIZEOF_GENERIC <= zlen pdu ->
  let len := i32_at pdu o_len in
  len <= zlen pdu -> stiov3_cs_cksum pdu len = u32_at pdu o_cksum ->
  genpdu_do_cmd call self pdu len =
    Ret (match assoc m (i32_at pdu o_cmd) with Some f => (Some (i32_at pdu o_cmd), call f) | None => (None, -1) end).
Proof.
  intros H Hb Hsz len Hlen Hck. unfold genpdu_do_cmd. rewrite genpdu_cksum_run by (done || by right). cbn [obind].
  subst len. rewrite Hck, Z.eqb_refl. cbn [negb]. rewrite (find_holds self m) by done. cbn [obind]. by destruct (assoc m (i32_at pdu o_cmd)).
Qed.

Lemma bytes_put32 buf o z : bytes buf -> bytes (put32 buf o z).
Proof. intros. by apply bytes_patch, bytes_le32. Qed.

Lemma u32_cksum buf len : u32 (stiov3_cs_cksum buf len) = stiov3_cs_cksum buf len.
Proof. pose proof (cs_cksum_range buf len). unfold u32. apply Z.mod_small. lia. Qed.

(** A packet as [genpdu_pack] leaves it. *)
Definition packed (pdu : list Z) (cmd len : Z) : Prop :=
  bytes pdu /\ SIZEOF_GENERIC <= len <= zlen pdu /\ i32_at pdu o_cmd = cmd /\ i32_at pdu o_len = len /\
  stiov3_cs_cksum pdu len = u32_at pdu o_cksum.

Lemma pack_run self pdu cmd len : bytes pdu -> SIZEOF_GENERIC <= len <= zlen pdu -> len <= INT_MAX -> int_ok cmd ->
  exists pdu', genpdu_pack self pdu cmd len = Ret pdu' /\ packed pdu' cmd len /\ zlen pdu' = zlen pdu /\
    slice pdu' 16 (len - 16) = slice pdu 16 (len - 16).
Proof.
  intros Hb Hlen Hmax Hcmd. unfold SIZEOF_GENERIC in Hlen. unfold genpdu_pack, as_pdu, SIZEOF_GENERIC.
  rewrite (proj2 (Z.ltb_ge (zlen pdu) 16)) by lia. cbn [obind].
  set (p1 := match flag_callback self with Some v => put32 pdu o_flag v | None => pdu end).
  assert (bytes p1 /\ zlen p1 = zlen pdu /\ slice p1 16 (len - 16) = slice pdu 16 (len - 16)) as (B1 & L1 & S1).
  { subst p1. destruct (flag_callback self); [|done]. unfold o_flag. rewrite zlen_put32 by lia. split_and!; [by apply bytes_put32|done|].
    unfold put32. apply slice_patch_ne; rewrite ?zlen_le32; lia. }
  set (p2 := put32 (put32 p1 o_cmd cmd) o_len len). unfold o_cmd, o_len in p2.
  assert (zlen (put32 p1 4 cmd) = zlen pdu) as L1' by (rewrite zlen_put32; lia).
  assert (zlen p2 = zlen pdu) as L2 by (subst p2; rewrite zlen_put32; lia).
  assert (bytes p2) as B2 by (by do 2 apply bytes_put32).
  assert (i32_at p2 8 = len) as E8 by (subst p2; apply i32_put32; int_lia).
  assert (i32_at p2 4 = cmd) as E4 by (subst p2; rewrite i32_put32_ne by lia; apply i32_put32; (lia || done)).
  unfold genpdu_mkcksum. rewrite genpdu_cksum_run; [|done|unfold SIZEOF_GENERIC; lia|unfold o_len; lia|by left].
  unfold o_len. rewrite E8. cbn [obind]. eexists. split; [reflexivity|]. fold (seal p2 len). unfold packed, SIZEOF_GENERIC, o_cmd, o_len.
  rewrite zlen_seal, !i32_seal, cksum_seal by lia. split_and!; try done; try lia.
  - by apply bytes_put32.
  - unfold seal. rewrite u32_put32, u32_cksum by (unfold o_cksum; lia). done.
  - rewrite slice_seal by lia. subst p2. unfold put32. rewrite !slice_patch_ne by (rewrite ?zlen_le32; rewrite ?zlen_patch; rewrite ?zlen_le32; lia). done.
Qed.

(** C31: from [pack] to the function.  A packet that one side packs is accepted by the
    other, which calls the function registered for its command (none: -1); the payload
    is what it was. *)
Theorem pack_dispatches (call : F -> Z) self peer m pdu cmd len :
  holds peer m -> bytes pdu -> SIZEOF_GENERIC <= len <= zlen pdu -> len <= INT_MAX -> int_ok cmd ->
  exists pdu', genpdu_pack self pdu cmd len = Ret pdu' /\ slice pdu' 16 (len - 16) = slice pdu 16 (len - 16) /\
    genpdu_do_cmd call peer pdu' len = Ret (match assoc m cmd with Some f => (Some cmd, call f) | None => (None, -1) end).
Proof.
  intros H Hb Hl Hmax Hc. destruct (pack_run self pdu cmd len Hb Hl Hmax Hc) as (p & E & (B & L & E4 & E8 & Ck) & Lp & Hs).
  exists p. split_and!; [done|done|]. rewrite <- E8, <- E4. apply do_cmd_run; try done; unfold SIZEOF_GENERIC in *; try lia. by rewrite E8.
Qed.

(** A field of four bytes, one of which is changed, has another value. *)
Lemma field_flip buf o p b : bytes buf -> 0 <= o -> o <= p < o + 4 -> o + 4 <= zlen buf -> byte b -> b <> u8_at buf p ->
  u32_at (patch buf p [b]) o <> u32_at buf o /\ i32_at (patch buf p [b]) o <> i32_at buf o.
Proof.
  intros Hb Ho Hp Hl Hbb Hne. assert (forall i, 0 <= i < zlen buf -> exists x, buf !! Z.to_nat i = Some x /\ byte x) as Hget.
  { intros i Hi. destruct (lookup_lt_is_Some_2 buf (Z.to_nat i)) as [x Hx]; [unfold zlen in Hi; lia|]. exists x. split; [done|]. by eapply Forall_lookup_1 in Hx. }
  assert (forall l i0 i1 i2 i3, l !! Z.to_nat o = Some i0 -> l !! Z.to_nat (o + 1) = Some i1 -> l !! Z.to_nat (o + 2) = Some i2 ->
    l !! Z.to_nat (o + 3) = Some i3 -> slice l o 4 = [i0; i1; i2; i3]) as Hsl.
  { intros l i0 i1 i2 i3 H0 H1 H2 H3. unfold slice. change (Z.to_nat 4) with 4%nat. rewrite (drop_S _ _ _ H0).
    replace (Z.to_nat (o + 1)) with (S (Z.to_nat o)) in H1 by lia. rewrite (drop_S _ _ _ H1).
    replace (Z.to_nat (o + 2)) with (S (S (Z.to_nat o))) in H2 by lia. rewrite (drop_S _ _ _ H2).
    replace (Z.to_nat (o + 3)) with (S (S (S (Z.to_nat o)))) in H3 by lia. by rewrite (drop_S _ _ _ H3). }
  destruct (Hget o) as (x0 & X0 & ?), (Hget (o + 1)) as (x1 & X1 & ?), (Hget (o + 2)) as (x2 & X2 & ?), (Hget (o + 3)) as (x3 & X3 & ?); try lia.
  set (y i x := if Z.eq_dec i p then b else x).
  assert (forall i x, 0 <= i -> buf !! Z.to_nat i = Some x -> patch buf p [b] !! Z.to_nat i = Some (y i x)) as Hpl.
  { intros i x Hi Hx. rewrite lookup_patch by (autorewrite with katmai; lia). change (zlen [b]) with 1. unfold y. destruct (Z.eq_dec i p) as [->|Hn].
    - rewrite decide_True by lia. by rewrite Nat.sub_diag.
    - by rewrite decide_False by lia. }
  unfold u32_at, i32_at. rewrite (Hsl buf _ _ _ _ X0 X1 X2 X3).
  rewrite (Hsl (patch buf p [b]) _ _ _ _ (Hpl o _ ltac:(lia) X0) (Hpl (o + 1) _ ltac:(lia) X1) (Hpl (o + 2) _ ltac:(lia) X2) (Hpl (o + 3) _ ltac:(lia) X3)).
  assert (u8_at buf p = if Z.eq_dec o p then x0 else if Z.eq_dec (o + 1) p then x1 else if Z.eq_dec (o + 2) p then x2 else x3) as E.
  { unfold u8_at. repeat (destruct (Z.eq_dec _ _); [subst p; by simplify_option_eq|]). assert (p = o + 3) as -> by lia. by rewrite X3. }
  rewrite E in Hne. set (A := le_val _). set (B := le_val [x0; x1; x2; x3]).
  assert (0 <= A < 2 ^ 32 /\ 0 <= B < 2 ^ 32 /\ A <> B) as (HA & HB & HAB).
  { subst A B. unfold y, byte in *. cbn [le_val]. revert Hne. repeat destruct (Z.eq_dec _ _); lia. }
  clearbody A B. clear -HA HB HAB. unfold to_int, u32. rewrite !(Z.mod_small A), !(Z.mod_small B) by lia. split; [done|].
  destruct (Z.ltb_spec A (2 ^ 31)), (Z.ltb_spec B (2 ^ 31)); lia.
Qed.

Lemma do_cmd_refuses (call : F -> Z) self pdu len c : genpdu_cksum pdu len = Ret c -> c <> u32_at pdu o_cksum ->
  genpdu_do_cmd call self pdu len = Ret (None, -1).
Proof. intros E Hne. unfold genpdu_do_cmd. rewrite E. cbn [obind]. by rewrite (proj2 (Z.eqb_neq _ _)). Qed.

(** C32: a packet damaged in one byte, anywhere in its length, is refused: no function is
    called and -1 is returned. *)
Theorem genpdu_detects (call : F -> Z) self pdu cmd len p b :
  packed pdu cmd len -> len <= INT_MAX -> 0 <= p < len -> byte b -> b <> u8_at pdu p ->
  genpdu_do_cmd call self (patch pdu p [b]) len = Ret (None, -1).
Proof.
  intros (B & L & E4 & E8 & Ck) Hmax Hp Hb Hne. unfold SIZEOF_GENERIC in L. change (zlen [b]) with 1 in *.
  assert (zlen (patch pdu p [b]) = zlen pdu) as Lp by (apply zlen_patch; change (zlen [b]) with 1; lia).
  assert (bytes (patch pdu p [b])) as Bp by (apply bytes_patch; [done|by apply Forall_singleton]).
  assert (forall o n, 0 <= o -> p + 1 <= o \/ o + n <= p -> slice (patch pdu p [b]) o n = slice pdu o n) as Hout.
  { intros o n Ho Hcase. apply slice_patch_ne; change (zlen [b]) with 1; lia. }
  destruct (Z.lt_ge_cases p 8) as [H8|H8]; [|destruct (Z.lt_ge_cases p 12) as [H12|H12]].
  2: { (* the length *)
    apply (do_cmd_refuses _ _ _ _ (u32 (u32_at (patch pdu p [b]) o_cksum + 1))).
    - apply genpdu_cksum_refuses; unfold SIZEOF_GENERIC; [lia|lia|].
      rewrite <- E8 at 1. intros H. symmetry in H. revert H. apply (proj2 (field_flip pdu o_len p b B ltac:(unfold o_len; lia) ltac:(unfold o_len; lia) ltac:(unfold o_len; lia) Hb Hne)).
    - unfold u32_at, u32. Z.div_mod_to_equations. lia. }
  all: assert (i32_at (patch pdu p [b]) o_len = len) as E8' by (unfold i32_at, o_len in *; by rewrite Hout by lia).
  all: pose proof (genpdu_cksum_run (patch pdu p [b]) len Bp ltac:(unfold SIZEOF_GENERIC; lia) ltac:(lia) ltac:(right; lia)) as Hck.
  all: rewrite E8' in Hck; apply (do_cmd_refuses _ _ _ _ _ Hck).
  - destruct (Z.lt_ge_cases p 4) as [H4|H4].
    + (* the sum itself *)
      assert (stiov3_cs_cksum (patch pdu p [b]) len = stiov3_cs_cksum pdu len) as -> by (unfold stiov3_cs_cksum; by rewrite Hout by lia).
      rewrite Ck. intros H. symmetry in H. revert H. apply (field_flip pdu o_cksum p b); unfold o_cksum; try done; lia.
    + unfold u32_at, o_cksum in *. rewrite Hout by lia. rewrite <- Ck. apply cksum_flip; (done || lia).
  - unfold u32_at, o_cksum in *. rewrite Hout by lia. rewrite <- Ck. apply cksum_flip; (done || lia).
Qed.

(** C39: no packet of at least 16 received bytes makes [do_cmd] read outside them, whatever
    its length field says; shorter ones are not checked, and their length field leads
    the sum beyond the buffer. *)
Theorem genpdu_do_cmd_safe (call : F -> Z) self m pdu rlen :
  holds self m -> bytes pdu -> SIZEOF_GENERIC <= zlen pdu ->
  (SIZEOF_GENERIC <= rlen <= zlen pdu -> rlen <= INT_MAX -> safe (genpdu_do_cmd call self pdu rlen) (fun _ => True)) /\
  (0 <= rlen < SIZEOF_GENERIC -> zlen pdu < i32_at pdu o_len -> genpdu_do_cmd call self pdu rlen = Fault OutOfBounds).
Proof.
  intros H Hb Hsz. split.
  - intros Hr Hmax. assert (exists c, genpdu_cksum pdu rlen = Ret c) as [c Hc].
    { destruct (Z.eq_dec rlen (i32_at pdu o_len)) as [E|E]; eexists; [apply genpdu_cksum_run; [done|done|lia|by right]|apply genpdu_cksum_refuses; (done || lia)]. }
    unfold genpdu_do_cmd. rewrite Hc. cbn [obind]. destruct (negb _); [done|]. rewrite (find_holds self m) by done. cbn [obind].
    by destruct (assoc m (i32_at pdu o_cmd)).
  - intros Hr Hlen. unfold genpdu_do_cmd, genpdu_cksum, as_pdu, SIZEOF_GENERIC in *. rewrite (proj2 (Z.ltb_ge (zlen pdu) 16)) by done. cbn [obind].
    assert (u32 rlen = rlen) as -> by (unfold u32; apply Z.mod_small; lia). rewrite (proj2 (Z.leb_gt 16 rlen)) by lia. cbn [andb].
    assert (forall n i sum, 0 <= i -> zlen pdu < i + Z.of_nat n -> i <= zlen pdu -> cksum_loop n pdu i sum = Fault OutOfBounds) as Hoob.
    { induction n as [|n IH]; intros i sum Hi Hn Hi2; [lia|]. cbn [cksum_loop]. destruct (Z.lt_ge_cases i (zlen pdu)) as [Hlt|Hge].
      - destruct (aget_lt pdu i) as (x & -> & _); [lia|]. cbn [obind]. apply IH; lia.
      - by rewrite aget_OOB by lia. }
    by rewrite Hoob by lia.
Qed.
End table_proofs.

(** ** Examples *)
Definition demo : genpdu Z := mk_genpdu 2 1 [(65, Some 7); (0, None)] None.
Definition demo_pdu : list Z := [79; 0; 0; 0; 65; 0; 0; 0; 20; 0; 0; 0; 0; 0; 0; 0; 1; 2; 3; 4].
Lemma demo_holds : holds demo [(65, 7)].
Proof. split; [split; [done|vm_compute; discriminate]|done|by exists [(0, None)]|apply NoDup_singleton]. Qed.
Lemma demo_packed : packed (put32 demo_pdu 0 95) 65 20.
Proof. split; [unfold bytes, byte; vm_compute; repeat constructor; discriminate|]. split_and!; vm_compute; try done; discriminate. Qed.

Lemma genpdu_add_correct_witness : genpdu_add demo 65 9 = Ret (-1, demo).
Proof. apply (genpdu_add_correct demo [(65, 7)] 65 9 demo_holds). left. by eexists. Defined.
Lemma pack_dispatches_witness : exists pdu', genpdu_pack demo demo_pdu 65 20 = Ret pdu' /\
  genpdu_do_cmd (fun f => f) demo pdu' 20 = Ret (Some 65, 7).
Proof.
  destruct (pack_dispatches (fun f => f) demo demo [(65, 7)] demo_pdu 65 20 demo_holds) as (p & E & _ & H).
  - unfold bytes, byte, demo_pdu. repeat constructor; discriminate.
  - vm_compute. split; discriminate.
  - vm_compute. discriminate.
  - vm_compute. split; discriminate.
  - exists p. split; [exact E|exact H].
Defined.
Lemma genpdu_detects_witness : genpdu_do_cmd (fun f => f) demo (patch (put32 demo_pdu 0 95) 17 [9]) 20 = Ret (None, -1).
Proof.
  apply (genpdu_detects (fun f => f) demo (put32 demo_pdu 0 95) 65 20 17 9 demo_packed).
  - vm_compute. discriminate.
  - lia.
  - unfold byte. lia.
  - vm_compute. discriminate.
Defined.
Lemma genpdu_do_cmd_safe_witness : genpdu_do_cmd (fun f => f) demo (put32 demo_pdu 8 1000) 15 = Fault OutOfBounds.
Proof.
  apply (genpdu_do_cmd_safe (fun f => f) demo [(65, 7)] (put32 demo_pdu 8 1000) 15 demo_holds).
  - unfold bytes, byte. vm_compute. repeat constructor; discriminate.
  - vm_compute. discriminate.
  - vm_compute. split; [discriminate|reflexivity].
  - vm_compute. reflexivity.
Defined.
End GP.
