(* ===== verification/ThreadSvc.v ===== *)
(** * ThreadSvc.v: a service thread and its switch, thread_svc/thread_svc.c

    A [thread_svc] runs a function again and again in a thread of its own; the owner
    starts, stops, pauses and continues it through four flags that both sides read and
    write without a lock.  The model interleaves the two sides at every access to a
    flag: [worker] is one access of [thread_svc_main], [owner] one of the calls
    [thrsvc_start], [thrsvc_stop], [thrsvc_pause], [thrsvc_conti].  The owner is one
    thread, and what the function does is left open (it returns 0 or not). *)

From S2P Require Import Prelude.

Module TS.

(** Where a thread is in [thread_svc_main]. *)
Inductive phase :=
  | New        (* created; about to set have_thr and need_join *)
  | Check      (* if (pd->in_wait) *)
  | Locked     (* while (pd->in_wait), with the mutex *)
  | Decided    (* has read in_wait; about to call pthread_cond_wait *)
  | Asleep     (* in pthread_cond_wait *)
  | Loop       (* while (! pd->terminate) *)
  | Handler    (* in the function *)
  | Leaving    (* pd->have_thr = 0 *)
  | Exit       (* pthread_exit *)
  | Dead.      (* can be joined *)

(** Where the owner is. *)
Inductive call :=
  | Idle
  | StartJoin  (* thrsvc_start: pthread_join *)
  | StopConti  (* thrsvc_stop: terminate is set, in conti before in_wait = 0 *)
  | StopSignal (* thrsvc_stop: in conti before the signal *)
  | StopTest   (* thrsvc_stop: if (pd->need_join) *)
  | StopJoin   (* thrsvc_stop: pthread_join *)
  | ContiSignal. (* thrsvc_conti: before the signal *)

(** [struct thread_svc_pd_t]; [cur] is the thread [thr] names, [old] are the threads it
    named before. *)
Record svc := mk_svc {
  have_thr : bool; need_join : bool; terminate : bool; in_wait : bool;
  cur : option phase; old : list phase; main : call;
}.

(** One access of a thread at [ph]: the new flags and the new place. *)
Definition with_cur (ph : phase) (s : svc) : svc :=
  mk_svc (have_thr s) (need_join s) (terminate s) (in_wait s) (Some ph) (old s) (main s).
Inductive worker : svc -> svc -> Prop :=
  | W_new s : cur s = Some New ->
      worker s (mk_svc true true (terminate s) (in_wait s) (Some Check) (old s) (main s))
  | W_check s : cur s = Some Check -> worker s (with_cur (if in_wait s then Locked else Loop) s)
  | W_locked s : cur s = Some Locked -> worker s (with_cur (if in_wait s then Decided else Loop) s)
  | W_sleep s : cur s = Some Decided -> worker s (with_cur Asleep s)
  | W_loop s : cur s = Some Loop -> worker s (with_cur (if terminate s then Leaving else Handler) s)
  | W_handler s (zero : bool) : cur s = Some Handler -> worker s (with_cur (if zero then Loop else Leaving) s)
  | W_leave s : cur s = Some Leaving ->
      worker s (mk_svc false (need_join s) (terminate s) (in_wait s) (Some Exit) (old s) (main s))
  | W_exit s : cur s = Some Exit -> worker s (with_cur Dead s).

(** [pthread_cond_signal] wakes a thread that is in [pthread_cond_wait]. *)
Definition signal (s : svc) : svc := match cur s with Some Asleep => with_cur Locked s | _ => s end.
Definition at_call (m : call) (s : svc) : svc :=
  mk_svc (have_thr s) (need_join s) (terminate s) (in_wait s) (cur s) (old s) m.
Definition joining (m : call) (s : svc) : svc :=
  mk_svc (have_thr s) false (terminate s) (in_wait s) (cur s) (old s) m.

(** The end of [thrsvc_start]; [ok]: [pthread_create] succeeds.  No other thread can
    see the flags in between. *)
Definition create (ok : bool) (s : svc) : svc :=
  if ok then mk_svc true (need_join s) false (in_wait s) (Some New) (old s ++ option_list (cur s)) Idle
  else mk_svc false (need_join s) false (in_wait s) (cur s) (old s) Idle.

Inductive owner : svc -> svc -> Prop :=
  | O_start_busy s : main s = Idle -> have_thr s = true -> owner s s
  | O_start_join s : main s = Idle -> have_thr s = false -> need_join s = true -> owner s (joining StartJoin s)
  | O_start s ok : main s = Idle -> have_thr s = false -> need_join s = false -> owner s (create ok s)
  | O_start_joined s ok : main s = StartJoin -> cur s = Some Dead -> owner s (create ok s)
  | O_stop s : main s = Idle -> have_thr s = true ->
      owner s (mk_svc (have_thr s) (need_join s) true (in_wait s) (cur s) (old s) StopConti)
  | O_stop_none s : main s = Idle -> have_thr s = false -> owner s (at_call StopTest s)
  | O_stop_conti s : main s = StopConti ->
      owner s (mk_svc (have_thr s) (need_join s) (terminate s) false (cur s) (old s) StopSignal)
  | O_stop_signal s : main s = StopSignal -> owner s (at_call StopTest (if have_thr s then signal s else s))
  | O_stop_join s : main s = StopTest -> need_join s = true -> owner s (joining StopJoin s)
  | O_stop_return0 s : main s = StopTest -> need_join s = false -> owner s (at_call Idle s)
  | O_stop_return1 s : main s = StopJoin -> cur s = Some Dead -> owner s (at_call Idle s)
  | O_pause s : main s = Idle -> owner s (mk_svc (have_thr s) (need_join s) (terminate s) true (cur s) (old s) Idle)
  | O_conti s : main s = Idle ->
      owner s (mk_svc (have_thr s) (need_join s) (terminate s) false (cur s) (old s) ContiSignal)
  | O_conti_signal s : main s = ContiSignal -> owner s (at_call Idle (if have_thr s then signal s else s)).

Inductive step : svc -> svc -> Prop :=
  | S_worker s s' : worker s s' -> step s s'
  | S_owner s s' : owner s s' -> step s s'
  | S_spurious s : cur s = Some Asleep -> step s (with_cur Locked s).

Definition new_thread_svc : svc := mk_svc false false false false None [] Idle.
Definition thrsvc_is_running (s : svc) : Z := b2z (have_thr s).
Inductive reachable : svc -> Prop :=
  | R_new : reachable new_thread_svc
  | R_step s s' : reachable s -> step s s' -> reachable s'.

(** [thrsvc_set_handler]: a NULL pointer stands for [dummy_null_loop]; the old function is
    returned. *)
Definition thrsvc_set_handler {F} (dummy_null_loop : F) (handler : F) (ptr : option F) : F * F :=
  (handler, default dummy_null_loop ptr).

(** ** The invariant *)
Definition gone (c : option phase) : Prop := c = Some Exit \/ c = Some Dead.
Definition joins (m : call) : Prop := m = StartJoin \/ m = StopJoin.

Record inv (s : svc) : Prop := {
  in_old : Forall (fun p => p = Dead) (old s);
  in_none : cur s = None -> have_thr s = false /\ need_join s = false /\ ~ joins (main s);
  in_have : have_thr s = false -> cur s = None \/ gone (cur s);
  in_new : cur s = Some New -> need_join s = false /\ ~ joins (main s);
  in_joined : need_join s = false -> ~ joins (main s) -> cur s = None \/ cur s = Some New \/ cur s = Some Dead;
  in_joining : joins (main s) -> need_join s = false;
  in_start : main s = StartJoin -> have_thr s = false;
  in_nowait : main s = StopSignal -> in_wait s = false;
  in_stop : main s = StopConti \/ main s = StopSignal -> terminate s = true;
  in_test : main s = StopTest \/ main s = StopJoin -> gone (cur s) \/ cur s = None \/ (terminate s = true /\ in_wait s = false);
}.

Lemma worker_inv s s' : inv s -> worker s s' -> inv s'.
Proof.
  intros [I1 I2 I3 I4 I5 I5' I6 I7 I8 I9] Hw. destruct Hw; split; cbn; unfold gone, joins in *; try done;
    repeat match goal with |- context [if ?b then _ else _] => destruct b eqn:? end; try rewrite H in *; intuition congruence.
Qed.

Lemma signal_cases s : signal s = s \/ (cur s = Some Asleep /\ signal s = with_cur Locked s).
Proof. unfold signal. destruct (cur s) as [[]|]; auto. Qed.

Lemma signal_inv m s : inv s -> main s = StopSignal \/ main s = ContiSignal -> m = Idle \/ m = StopTest -> (m = StopTest -> main s = StopSignal) ->
  inv (at_call m (if have_thr s then signal s else s)).
Proof.
  intros [I1 I2 I3 I4 I5 I5' I6 I7 I8 I9] Hm Hm2 Hm3. destruct (have_thr s) eqn:Hh; [destruct (signal_cases s) as [->|[Hc ->]]|];
    (split; cbn; unfold gone, joins in *; try done; try rewrite Hc in *; intuition congruence).
Qed.

Lemma create_inv ok s : inv s -> have_thr s = false -> need_join s = false -> cur s = None \/ cur s = Some Dead -> inv (create ok s).
Proof.
  intros [I1 I2 I3 I4 I5 I5' I6 I7 I8 I9] Hh Hn Hc. destruct ok; (split; cbn; unfold gone, joins in *; try done; try intuition congruence).
  destruct Hc as [->| ->]; cbn; rewrite ?app_nil_r; [done|]. apply Forall_app. by repeat constructor.
Qed.

Lemma owner_inv s s' : inv s -> owner s s' -> inv s'.
Proof.
  intros I Ho. pose proof I as [I1 I2 I3 I4 I5 I5' I6 I7 I8 I9]. unfold gone, joins in *. destruct Ho; try done;
    try (apply signal_inv; (done || intuition congruence)); try (apply create_inv; (done || intuition congruence));
    (split; cbn; unfold gone, joins; try done; intuition congruence).
Qed.

Lemma svc_reachable_inv s : reachable s -> inv s.
Proof.
  induction 1 as [|s s' _ IH Hs]; [split; cbn; unfold gone, joins; try done; intuition congruence|]. destruct Hs as [s s' Hw|s s' Ho|s Hc].
  - by eapply worker_inv.
  - by eapply owner_inv.
  - destruct IH as [I1 I2 I3 I4 I5 I5' I6 I7 I8 I9]. split; cbn; unfold gone, joins in *; try done; rewrite Hc in *; intuition congruence.
Qed.

(** ** Properties *)

(** How far a thread is from its end, once it is told to stop. *)
Definition rank (ph : phase) : nat :=
  match ph with New => 7 | Check | Locked | Handler => 5 | Loop => 4 | Leaving => 3 | Exit => 2 | Decided | Asleep => 1 | Dead => 0 end.
Definition waits (ph : phase) : Prop := ph = Decided \/ ph = Asleep.

(** C29: one thread at a time.  In every interleaving of the owner's calls and the threads,
    all threads but the one last created have ended and been waited for, and when the
    flag [have_thr] is clear that one has left its loop too. *)
Theorem thread_svc_one s : reachable s ->
  Forall (fun ph => ph = Dead) (old s) /\ (thrsvc_is_running s = 0 -> cur s = None \/ gone (cur s)).
Proof.
  intros H%svc_reachable_inv. split; [apply (in_old _ H)|]. intros Hr. apply (in_have _ H). unfold thrsvc_is_running in Hr. by destruct (have_thr s).
Qed.

(** C30: stopping ends.  While [thrsvc_stop] waits for the thread and the thread is not
    itself waiting, the thread can move until it has ended, at each of its moves comes
    nearer to its end (so at most four are left, the function included), and then the call
    returns with every thread ended. *)
Theorem thread_stop_ends s ph : reachable s -> main s = StopJoin -> cur s = Some ph -> ~ waits ph ->
  (rank ph <= 5)%nat /\
  (ph <> Dead -> exists s', worker s s') /\
  (forall s', worker s s' -> exists ph', cur s' = Some ph' /\ main s' = StopJoin /\ ~ waits ph' /\ (rank ph' < rank ph)%nat) /\
  (ph = Dead -> owner s (at_call Idle s) /\ Forall (fun p => p = Dead) (old s)).
Proof.
  intros Hr%svc_reachable_inv Hm Hc Hw. pose proof (in_test _ Hr (or_intror Hm)) as Ht. pose proof (in_new _ Hr) as Hn. unfold waits, gone, joins in *. split_and!.
  - destruct ph; cbn; try lia. rewrite Hc, Hm in *. intuition congruence.
  - intros Hd. destruct ph; try done; try (exfalso; intuition congruence);
      solve [eexists; exact (W_handler s true Hc)|eexists; econstructor; exact Hc].
  - intros s' Hs. destruct Hs; rewrite Hc in *; simplify_eq; cbn; try (exfalso; intuition congruence); eexists; (split; [reflexivity|]); (split; [done|]);
      destruct Ht as [Ht|[Ht|[Ht1 Ht2]]]; try (exfalso; intuition congruence); rewrite ?Ht1, ?Ht2; try (destruct zero); cbn; split; try (intros [|]; congruence); lia.
  - intros ->. split; [by constructor|apply (in_old _ Hr)].
Qed.

(** ** Two races *)

(** Running the steps one after the other. *)
Lemma run_steps s l s' : reachable s -> Forall2 (fun a b => step a b) (s :: l) (l ++ [s']) -> reachable s'.
Proof.
  revert s. induction l as [|x l IH]; intros s Hr H; cbn in H; inversion_clear H as [|? ? ? ? H1 H2].
  - by apply (R_step s).
  - apply (IH x); [by apply (R_step s)|done].
Qed.

(** [thrsvc_stop] may wait for ever.  If the thread has just read [in_wait] in its wait
    loop when [thrsvc_conti] clears the flag and signals (without the mutex), the signal
    is lost: the thread sleeps, the owner waits for it in [pthread_join], and nothing but
    a spurious wake-up can happen any more. *)
Theorem thread_stop_deadlocks : exists s, reachable s /\ main s = StopJoin /\ cur s = Some Asleep /\
  (forall s', ~ worker s s') /\ (forall s', ~ owner s s').
Proof.
  exists (mk_svc true false true false (Some Asleep) [] StopJoin). split; [|split_and!; [done|done| |]].
  - set (w ph m t i n := mk_svc true n t i (Some ph) [] m).
    apply (run_steps new_thread_svc [mk_svc false false false true None [] Idle; w New Idle false true false; w Check Idle false true true;
      w Locked Idle false true true; w Decided Idle false true true; w Decided StopConti true true true; w Decided StopSignal true false true;
      w Decided StopTest true false true; w Asleep StopTest true false true]); [constructor|]. cbn [app].
    constructor; [apply S_owner, (O_pause new_thread_svc eq_refl)|].
    constructor; [apply S_owner, (O_start (mk_svc false false false true None [] Idle) true eq_refl eq_refl eq_refl)|].
    constructor; [apply S_worker, (W_new (w New Idle false true false) eq_refl)|].
    constructor; [apply S_worker, (W_check (w Check Idle false true true) eq_refl)|].
    constructor; [apply S_worker, (W_locked (w Locked Idle false true true) eq_refl)|].
    constructor; [apply S_owner, (O_stop (w Decided Idle false true true) eq_refl eq_refl)|].
    constructor; [apply S_owner, (O_stop_conti (w Decided StopConti true true true) eq_refl)|].
    constructor; [apply S_owner, (O_stop_signal (w Decided StopSignal true false true) eq_refl)|].
    constructor; [apply S_worker, (W_sleep (w Decided StopTest true false true) eq_refl)|].
    constructor; [apply S_owner, (O_stop_join (w Asleep StopTest true false true) eq_refl eq_refl)|]. constructor.
  - intros s' H. inversion H; done.
  - intros s' H. inversion H; done.
Qed.

(** [thrsvc_stop] may return, without having waited, before the thread has begun: it is
    [thread_svc_main] that sets [need_join].  [thrsvc_dispose] then frees the structure
    the thread is about to use. *)
Lemma thread_stop_misses : exists s s', reachable s /\ owner s s' /\ main s = StopTest /\ main s' = Idle /\ cur s' = Some New.
Proof.
  set (w m t := mk_svc true false t false (Some New) [] m). exists (w StopTest true), (w Idle true). split_and!; [|apply (O_stop_return0 (w StopTest true)); done|done..].
  apply (run_steps new_thread_svc [w Idle false; w StopConti true; w StopSignal true]); [constructor|]. cbn [app].
  constructor; [apply S_owner, (O_start new_thread_svc true eq_refl eq_refl eq_refl)|].
  constructor; [apply S_owner, (O_stop (w Idle false) eq_refl eq_refl)|].
  constructor; [apply S_owner, (O_stop_conti (w StopConti true) eq_refl)|].
  constructor; [apply S_owner, (O_stop_signal (w StopSignal true) eq_refl)|]. constructor.
Qed.

(** A thread has ended by itself, the next start has waited for it and made a second one,
    and that one has just cleared [have_thr]. *)
Definition demo_second : svc := mk_svc false true false false (Some Exit) [Dead] Idle.
Lemma demo_second_reachable : reachable demo_second.
Proof.
  set (w h n ph o m := mk_svc h n false false (Some ph) o m).
  assert (Hw : forall o, Forall2 (fun a b => step a b) [w true false New o Idle; w true true Check o Idle; w true true Loop o Idle; w true true Handler o Idle; w true true Leaving o Idle]
                                   [w true true Check o Idle; w true true Loop o Idle; w true true Handler o Idle; w true true Leaving o Idle; w false true Exit o Idle]).
  { intros o. repeat (apply Forall2_cons; split); [apply S_worker..|by constructor].
    - apply (W_new (w true false New o Idle) eq_refl).
    - apply (W_check (w true true Check o Idle) eq_refl).
    - apply (W_loop (w true true Loop o Idle) eq_refl).
    - apply (W_handler (w true true Handler o Idle) false eq_refl).
    - apply (W_leave (w true true Leaving o Idle) eq_refl). }
  apply (run_steps (w true false New [Dead] Idle) [w true true Check [Dead] Idle; w true true Loop [Dead] Idle; w true true Handler [Dead] Idle; w true true Leaving [Dead] Idle]); [|apply (Hw [Dead])].
  apply (R_step (w false false Dead [] StartJoin)); [|apply S_owner, (O_start_joined (w false false Dead [] StartJoin) true eq_refl eq_refl)].
  apply (R_step (w false true Dead [] Idle)); [|apply S_owner, (O_start_join (w false true Dead [] Idle) eq_refl eq_refl eq_refl)].
  apply (R_step (w false true Exit [] Idle)); [|apply S_worker, (W_exit (w false true Exit [] Idle) eq_refl)].
  apply (run_steps (w true false New [] Idle) [w true true Check [] Idle; w true true Loop [] Idle; w true true Handler [] Idle; w true true Leaving [] Idle]); [|apply (Hw [])].
  apply (R_step new_thread_svc); [constructor|]. apply S_owner, (O_start new_thread_svc true eq_refl eq_refl eq_refl).
Qed.
Lemma thread_svc_one_witness : reachable demo_second /\ old demo_second = [Dead] /\ thrsvc_is_running demo_second = 0 /\
  Forall (fun ph => ph = Dead) (old demo_second) /\ (cur demo_second = None \/ gone (cur demo_second)).
Proof.
  split; [exact demo_second_reachable|]. split; [reflexivity|]. split; [reflexivity|].
  destruct (thread_svc_one demo_second demo_second_reachable) as [H1 H2]. split; [exact H1|apply H2; reflexivity].
Defined.

Definition demo_stopping : svc := mk_svc true false true false (Some Check) [] StopJoin.
Lemma demo_reachable : reachable demo_stopping.
Proof.
  set (w ph m t n := mk_svc true n t false (Some ph) [] m).
  apply (run_steps new_thread_svc [w New Idle false false; w Check Idle false true; w Check StopConti true true; w Check StopSignal true true; w Check StopTest true true]); [constructor|]. cbn [app].
  constructor; [apply S_owner, (O_start new_thread_svc true eq_refl eq_refl eq_refl)|].
  constructor; [apply S_worker, (W_new (w New Idle false false) eq_refl)|].
  constructor; [apply S_owner, (O_stop (w Check Idle false true) eq_refl eq_refl)|].
  constructor; [apply S_owner, (O_stop_conti (w Check StopConti true true) eq_refl)|].
  constructor; [apply S_owner, (O_stop_signal (w Check StopSignal true true) eq_refl)|].
  constructor; [apply S_owner, (O_stop_join (w Check StopTest true true) eq_refl eq_refl)|]. constructor.
Qed.
Lemma thread_stop_ends_witness : exists s', worker demo_stopping s'.
Proof.
  apply (thread_stop_ends demo_stopping Check demo_reachable eq_refl eq_refl); [|discriminate]. intros [H|H]; discriminate.
Defined.
End TS.
