(* ===== verification/Autofree.v ===== *)
(** * Autofree.v: deferred freeing, autofree/autofree.c

    [af_free] is meant to keep the last [mbuf_len] pointers it was given and to free each
    one when its place is needed again, [af_free_all] to free what is kept.  The model
    follows the code, with the list of pointers that were passed to [free]; the theorems
    say what the code does: while the table exists nothing is ever kept or freed. *)

From S2P Require Import Prelude.

Module AF.

(** The static variables; [freed] are the pointers given to [free], oldest first. *)
Record state := mk_state {
  intf : bool;
  mbuf : option (list (option Z));
  mbuf_len : Z;
  mbuf_idx : Z;
  reference_count : Z;
  freed : list Z;
}.
Definition set_mbuf (v : option (list (option Z))) (s : state) : state :=
  mk_state (intf s) v (mbuf_len s) (mbuf_idx s) (reference_count s) (freed s).
Definition set_idx (v : Z) (s : state) : state :=
  mk_state (intf s) (mbuf s) (mbuf_len s) v (reference_count s) (freed s).
Definition free (ptr : option Z) (s : state) : state :=
  mk_state (intf s) (mbuf s) (mbuf_len s) (mbuf_idx s) (reference_count s) (freed s ++ option_list ptr).

Definition af_free (ptr : option Z) (s : state) : outcome state :=
  match mbuf s, ptr with
  | None, _ => Ret (free ptr s)
  | Some _, None => Ret s
  | Some m, Some _ =>
      let i := mbuf_idx s in
      let* n1 := ck (mbuf_idx s + 1) in
      let* n := crem n1 (mbuf_len s) in
      let s := set_idx n s in
      let* p := aget m i in
      let s := match p with Some _ => free p s | None => s end in
      let* m := aset m i None in
      Ret (set_mbuf (Some m) s)
  end.

(** [for (i = 0; i < mbuf_len; i++)]: [n] rounds are left. *)
Fixpoint free_all_loop (n : nat) (i : Z) (m : list (option Z)) (s : state) : outcome state :=
  match n with
  | O => Ret (set_mbuf (Some m) s)
  | S n =>
      let* p := aget m i in
      let s := match p with None => free p s | Some _ => s end in
      let* m := aset m i None in
      free_all_loop n (i + 1) m s
  end.
Definition af_free_all (s : state) : outcome state :=
  if negb (intf s) then Ret s
  else
    match mbuf s with
    | Some m => free_all_loop (Z.to_nat (mbuf_len s)) 0 m s
    | None => if 0 <? mbuf_len s then Fault NullDeref else Ret s
    end.

Definition af_dispose (s : state) : outcome state :=
  if negb (intf s) then Ret s
  else
    let* r := ck (reference_count s - 1) in
    let s := mk_state (intf s) (mbuf s) (mbuf_len s) (mbuf_idx s) r (freed s) in
    if 0 <? r then Ret s
    else let* s := af_free_all s in Ret (set_mbuf None s).

(** [for (i = mbuf_len; i < len; i++) mbuf[i].ptr = NULL;]: [n] rounds are left. *)
Fixpoint clear_loop (n : nat) (i : Z) (m : list (option Z)) : outcome (list (option Z)) :=
  match n with
  | O => Ret m
  | S n => let* m := aset m i None in clear_loop n (i + 1) m
  end.

(** [mem]: the allocation succeeds; [junk]: what it contains; [psz]: the size of a pointer.
    [realloc] is asked for [len] bytes, not [len] pointers. *)
Definition init_autofree_interface (mem : bool) (junk : list (option Z)) (psz : Z) (s : state) (buflen : Z) : outcome state :=
  let len := if buflen <=? 10 then 10 else buflen in
  let* s := (
    if negb (intf s) then
      if mem then
        let* m := clear_loop (Z.to_nat len) 0 (take (Z.to_nat len) junk) in
        Ret (mk_state true (Some m) len 0 (reference_count s) (freed s))
      else Ret (mk_state true None 0 0 (reference_count s) (freed s))
    else if mbuf_len s <? len then
      if mem then
        let got := Z.to_nat (len / psz) in
        let* m := clear_loop (Z.to_nat (len - mbuf_len s)) (mbuf_len s) (take got (default [] (mbuf s) ++ junk)) in
        Ret (mk_state true (Some m) len (mbuf_idx s) (reference_count s) (freed s))
      else Ret s
    else Ret s) in
  let* r := ck (reference_count s + 1) in
  Ret (mk_state (intf s) (mbuf s) (mbuf_len s) (mbuf_idx s) r (freed s)).

(** ** What it does *)

(** The table exists and every place is NULL. *)
Definition empty_table (s : state) (m : list (option Z)) : Prop :=
  intf s = true /\ mbuf s = Some m /\ 0 < mbuf_len s < INT_MAX /\ zlen m = mbuf_len s /\ 0 <= mbuf_idx s < mbuf_len s /\
  Forall (fun p => p = None) m.

Lemma insert_none m i : Forall (fun p : option Z => p = None) m -> 0 <= i < zlen m -> <[Z.to_nat i := None]> m = m.
Proof.
  intros H Hi. apply list_insert_id. destruct (lookup_lt_is_Some_2 m (Z.to_nat i)) as [x Hx]; [unfold zlen in Hi; lia|].
  by rewrite Hx, (proj1 (Forall_lookup _ _) H _ _ Hx).
Qed.

Lemma none_at m i : Forall (fun p : option Z => p = None) m -> 0 <= i < zlen m -> aget m i = Ret None.
Proof. intros H Hi. destruct (aget_lt m i Hi) as (x & -> & Hx). by rewrite (proj1 (Forall_lookup _ _) H _ _ Hx). Qed.

Lemma af_free_run s m ptr : empty_table s m -> exists s', af_free ptr s = Ret s' /\ empty_table s' m /\ freed s' = freed s /\
  reference_count s' = reference_count s.
Proof.
  intros (Hi & Hm & Hl & Hz & Hx & Hn). unfold af_free. rewrite Hm. destruct ptr as [p|]; [|by exists s].
  unfold crem. rewrite ck_Ret by int_lia. cbn [obind]. rewrite (proj2 (Z.eqb_neq (mbuf_len s) 0)) by lia. cbn [obind].
  rewrite none_at by (done || lia). cbn [obind]. rewrite aset_Ret, insert_none by (done || lia). cbn [obind]. eexists. split; [reflexivity|]. split; [|done].
  unfold empty_table. cbn. split_and!; try done; try lia; rewrite Z.rem_mod_nonneg by lia; apply Z.mod_pos_bound; lia.
Qed.

Lemma free_all_run m : Forall (fun p : option Z => p = None) m -> forall n i s, 0 <= i -> i + Z.of_nat n <= zlen m ->
  exists s', free_all_loop n i m s = Ret s' /\ freed s' = freed s /\ mbuf s' = Some m /\ reference_count s' = reference_count s.
Proof.
  intros Hn n. induction n as [|n IH]; intros i s Hi Hle; cbn [free_all_loop]; [by eexists|].
  rewrite none_at by (done || lia). cbn [obind]. rewrite aset_Ret, insert_none by (done || lia). cbn [obind].
  destruct (IH (i + 1) (free None s) ltac:(lia) ltac:(lia)) as (s' & -> & Hf & Hm & Hr). exists s'. split_and!; [done| |done|done].
  rewrite Hf. cbn. by rewrite app_nil_r.
Qed.

Lemma clear_loop_run n : forall i (m : list (option Z)), 0 <= i -> i + Z.of_nat n = zlen m -> Forall (fun p => p = None) (take (Z.to_nat i) m) ->
  exists m', clear_loop n i m = Ret m' /\ zlen m' = zlen m /\ Forall (fun p => p = None) m'.
Proof.
  induction n as [|n IH]; intros i m Hi Hle Hp; cbn [clear_loop].
  - exists m. split_and!; [done|done|]. rewrite take_ge in Hp by (unfold zlen in Hle; lia). done.
  - rewrite aset_Ret by lia. cbn [obind]. destruct (IH (i + 1) (<[Z.to_nat i := None]> m)) as (m' & -> & Hz & Hall).
    + lia.
    + rewrite zlen_insert. lia.
    + replace (Z.to_nat (i + 1)) with (S (Z.to_nat i)) by lia. rewrite (take_S_r _ _ None); [apply Forall_app; split; [by rewrite take_insert_ge by lia|by repeat constructor]|].
      apply list_lookup_insert_eq. unfold zlen in Hle. lia.
    + exists m'. rewrite zlen_insert in Hz. done.
Qed.

Fixpoint frees (ptrs : list Z) (s : state) : outcome state :=
  match ptrs with [] => Ret s | p :: ptrs => let* s := af_free (Some p) s in frees ptrs s end.

Lemma frees_run m ptrs : forall s, empty_table s m -> exists s', frees ptrs s = Ret s' /\ empty_table s' m /\ freed s' = freed s /\
  reference_count s' = reference_count s.
Proof.
  induction ptrs as [|p ptrs IH]; intros s He; cbn [frees]; [by exists s|].
  destruct (af_free_run s m (Some p) He) as (s1 & -> & He1 & Hf1 & Hr1). cbn [obind]. destruct (IH s1 He1) as (s2 & -> & He2 & Hf2 & Hr2). exists s2. split_and!; congruence.
Qed.

(** Nothing given to this module is freed.  After the first initialisation with any
    size, whatever pointers are passed to [af_free] and however often the table is
    emptied by [af_free_all] or given up by [af_dispose], no pointer reaches [free]; and
    asking for a larger table writes outside the memory that [realloc] returned. *)
Theorem autofree_leaks (junk : list (option Z)) (psz buflen larger : Z) (ptrs : list Z) :
  let len := Z.max 10 buflen in
  len < INT_MAX -> len <= zlen junk -> 2 <= psz ->
  let s0 := mk_state false None 0 0 0 [] in
  exists s1 s2 s3 s4, init_autofree_interface true junk psz s0 buflen = Ret s1 /\ frees ptrs s1 = Ret s2 /\
    af_free_all s2 = Ret s3 /\ af_dispose s2 = Ret s4 /\ freed s3 = [] /\ freed s4 = [] /\
    (len < larger <= INT_MAX -> init_autofree_interface true junk psz s1 larger = Fault OutOfBounds).
Proof.
  intros len Hmax Hjunk Hpsz s0. assert ((if buflen <=? 10 then 10 else buflen) = len) as Elen by (subst len; destruct (Z.leb_spec buflen 10); lia).
  subst s0. unfold init_autofree_interface at 1. rewrite Elen. cbn [intf negb].
  assert (zlen (take (Z.to_nat len) junk) = len) as Ht by (unfold zlen in *; rewrite length_take; lia).
  destruct (clear_loop_run (Z.to_nat len) 0 (take (Z.to_nat len) junk)) as (m & -> & Hz & Hnone); [lia|lia|constructor|]. cbn [obind reference_count freed].
  cbn [intf mbuf mbuf_len mbuf_idx]. change (0 + 1) with 1. rewrite ck_Ret by int_lia. cbn [obind]. set (s1 := mk_state true (Some m) len 0 1 []).
  assert (empty_table s1 m) as He by (unfold empty_table; cbn; split_and!; try done; lia).
  destruct (frees_run m ptrs s1 He) as (s2 & Hs2 & He2 & Hf2 & Hr2). pose proof He2 as (H1 & H2 & H3 & H4 & H5 & H6).
  change (freed s1) with (@nil Z) in Hf2. change (reference_count s1) with 1 in Hr2.
  assert (forall s, intf s = true -> mbuf s = Some m -> mbuf_len s = zlen m -> exists s', af_free_all s = Ret s' /\ freed s' = freed s /\ reference_count s' = reference_count s) as Hall.
  { intros s Hi Hm Hl. unfold af_free_all. rewrite Hi, Hm, Hl. cbn [negb]. destruct (free_all_run m H6 (Z.to_nat (zlen m)) 0 s) as (s' & -> & Hf & _ & Hr); [lia|lia|]. by exists s'. }
  destruct (Hall s2 H1 H2 (eq_sym H4)) as (s3 & Hs3 & Hf3 & _).
  destruct (Hall (mk_state (intf s2) (mbuf s2) (mbuf_len s2) (mbuf_idx s2) 0 (freed s2)) H1 H2 (eq_sym H4)) as (s4 & Hs4 & Hf4 & Hr4).
  exists s1, s2, s3, (set_mbuf None s4). split_and!; [done|done|done| |congruence|cbn in *; congruence|].
  - unfold af_dispose. rewrite H1, Hr2. cbn [negb]. rewrite ck_Ret by int_lia. cbn [obind]. change (1 - 1) with 0. cbn [Z.ltb Z.compare].
    rewrite H1 in Hs4. rewrite Hs4. done.
  - intros Hlg. unfold init_autofree_interface. rewrite (proj2 (Z.leb_gt larger 10)) by lia. cbn [s1 intf mbuf_len negb mbuf default].
    rewrite (proj2 (Z.ltb_lt len larger)) by lia. set (arr := take _ _).
    assert (zlen arr <= larger / 2) as Harr.
    { subst arr. unfold zlen. rewrite length_take. pose proof (Z.div_le_compat_l larger 2 psz ltac:(lia) ltac:(lia)). pose proof (Z.div_pos larger psz ltac:(lia) ltac:(lia)). lia. }
    assert (forall n i (a : list (option Z)), zlen a < i + Z.of_nat n -> (0 < n)%nat -> 0 <= i -> clear_loop n i a = Fault OutOfBounds) as Hoob.
    { induction n as [|n IH]; intros i a Hn Hp Hi; [lia|]. cbn [clear_loop]. destruct (Z.lt_ge_cases i (zlen a)) as [Hlt|Hge].
      - rewrite aset_Ret by lia. cbn [obind]. apply IH; rewrite ?zlen_insert; try lia.
      - by rewrite aset_OOB by lia. }
    rewrite Hoob; [done| |lia|lia]. pose proof (Z.div_lt larger 2 ltac:(lia) ltac:(lia)). lia.
Qed.

Lemma autofree_leaks_witness : exists s1 s2 s3 s4,
  init_autofree_interface true (replicate 40 (Some 99)) 4 (mk_state false None 0 0 0 []) 12 = Ret s1 /\ frees [1; 2; 3] s1 = Ret s2 /\
  af_free_all s2 = Ret s3 /\ af_dispose s2 = Ret s4 /\ freed s3 = [] /\ freed s4 = [] /\
  (12 < 20 <= INT_MAX -> init_autofree_interface true (replicate 40 (Some 99)) 4 s1 20 = Fault OutOfBounds).
Proof. apply (autofree_leaks (replicate 40 (Some 99)) 4 12 20 [1; 2; 3]); vm_compute; [reflexivity|discriminate|discriminate]. Defined.
End AF.
