(* ===== verification/Koklib.v ===== *)
(** * Koklib.v: karaoke song files, koklib/koklib.c

    A song file is a header, the lines of the lyrics, a banner picture and the pictures
    of the lines, read through [stio_engine].  The header and the lines are packed
    structures laid over their bytes.  The products with 0.5 are exact in [double]: they
    are sixteenths of integers below 2^21, truncated by the conversion to [int]. *)

From S2P Require Import Prelude Posix Wire StioEngine.

Module KOK.
Import EN.

Definition KOK_BANNER_IMAGE_WIDTH : Z := 600.
Definition KOK_BANNER_IMAGE_HEIGHT : Z := 180.

(** [struct koklib_hdr_ds_t] and [struct koklib_lyricspara_t], packed. *)
Definition SIZEOF_HDR : Z := 267.
Definition SIZEOF_PARA : Z := 158.
Definition h_lyricspara (h : list Z) : Z := s16_at h 5.
Definition h_realsizes (h : list Z) : Z := char_at h 7.
Definition h_song : Z := 9.
Definition h_singer : Z := 71.
Definition h_orgb : Z := 203.
Definition h_rgb : Z := 235.
Definition p_sentence : Z := 1.
Definition p_length (p : list Z) : Z := char_at p 26.
Definition p_updown (p : list Z) : Z := char_at p 157.

(** [struct koklib_pd_t]; [idx] is [idx[0]], [idx[1]]. *)
Record koklib := mk_kok {
  stio : engine;
  header : list Z;
  lptr : option (list (list Z));
  lidx : Z;
  bidx : Z;
  idx : Z * Z;
  banner : list Z;
  banner_size : Z;
  banner_width : Z;
}.
Definition set_stio (v : engine) (s : koklib) : koklib :=
  mk_kok v (header s) (lptr s) (lidx s) (bidx s) (idx s) (banner s) (banner_size s) (banner_width s).
Definition set_header (v : list Z) (s : koklib) : koklib :=
  mk_kok (stio s) v (lptr s) (lidx s) (bidx s) (idx s) (banner s) (banner_size s) (banner_width s).
Definition set_lptr (v : option (list (list Z))) (s : koklib) : koklib :=
  mk_kok (stio s) (header s) v (lidx s) (bidx s) (idx s) (banner s) (banner_size s) (banner_width s).
Definition set_lidx (v : Z) (s : koklib) : koklib :=
  mk_kok (stio s) (header s) (lptr s) v (bidx s) (idx s) (banner s) (banner_size s) (banner_width s).
Definition set_bidx (v : Z) (s : koklib) : koklib :=
  mk_kok (stio s) (header s) (lptr s) (lidx s) v (idx s) (banner s) (banner_size s) (banner_width s).
Definition set_idx (v : Z * Z) (s : koklib) : koklib :=
  mk_kok (stio s) (header s) (lptr s) (lidx s) (bidx s) v (banner s) (banner_size s) (banner_width s).
Definition set_banner (v : list Z) (s : koklib) : koklib :=
  mk_kok (stio s) (header s) (lptr s) (lidx s) (bidx s) (idx s) v (banner_size s) (banner_width s).
Definition set_banner_width (v : Z) (s : koklib) : koklib :=
  mk_kok (stio s) (header s) (lptr s) (lidx s) (bidx s) (idx s) (banner s) (banner_size s) v.

Definition lyricspara (s : koklib) : Z := h_lyricspara (header s).

Definition kok_cleanup (s : koklib) : koklib := set_lptr None s.
Definition kok_close (s : koklib) : koklib := set_stio (pub_close (stio s)) s.
Definition kok_reset (s : koklib) : koklib := set_lidx 0 (set_bidx 0 (set_idx (0, 0) s)).

(** The two strings are closed. *)
Definition closed_header (h : list Z) : list Z := put8 (put8 h (h_song + 61) 0) (h_singer + 31) 0.

Section kok.
Context (chunk : Z -> Z -> Z).

(** [stio->read (stio, buf, len)]. *)
Definition stio_read (e : engine) (buf : list Z) (len : Z) : outcome (list Z * engine) :=
  let* r := pub_read chunk None e len in
  let '(_, out, e) := r in
  let* b := blit buf 0 out in Ret (b, e).

(** [for (i = 0; i < lyricspara; i++)]: the records still to be read. *)
Fixpoint load_paras (e : engine) (ps : list (list Z)) : outcome (list (list Z) * engine) :=
  match ps with
  | [] => Ret ([], e)
  | p :: ps =>
      let* r := stio_read e p SIZEOF_PARA in
      let* rs := load_paras (snd r) ps in
      Ret (fst r :: fst rs, snd rs)
  end.

(** [ok]: [fstat] succeeds; [mem]: [calloc] does.  A negative number of lines is a huge
    number of bytes, which [calloc] refuses. *)
Definition kok_load (ok mem : bool) (s : koklib) (fname : list Z) : outcome (Z * koklib) :=
  let s := kok_close (kok_cleanup s) in
  let r := pub_open ok (stio s) fname in
  let s := set_stio (snd r) s in
  if fst r <=? 0 then Ret (-1, s)
  else
    let s := kok_reset s in
    let* h := stio_read (stio s) (header s) SIZEOF_HDR in
    let s := set_stio (snd h) (set_header (closed_header (fst h)) s) in
    if negb mem || (lyricspara s <? 0) then Ret (-1, set_lptr None s)
    else
      let* ps := load_paras (stio s) (replicate (Z.to_nat (lyricspara s)) (replicate (Z.to_nat SIZEOF_PARA) 0)) in
      let s := set_stio (snd ps) (set_lptr (Some (fst ps)) s) in
      let* b := stio_read (stio s) (banner s) (banner_size s) in
      Ret (lyricspara s, set_stio (snd b) (set_banner (fst b) s)).

Definition kok_get_banner (s : koklib) : list Z * (Z * Z * Z) :=
  (banner s, (banner_width s, KOK_BANNER_IMAGE_HEIGHT, KOK_BANNER_IMAGE_WIDTH)).

(** The width in bytes of a row: [aa] and [w] are the two expressions of the code. *)
Definition width_array (aa w : Z) : Z := if Z.rem aa 800 =? 0 then w else (Z.quot w 4 + 1) * 4.
Definition banner_width_array : Z :=
  width_array (Z.quot KOK_BANNER_IMAGE_WIDTH 8 * 200) (Z.quot KOK_BANNER_IMAGE_WIDTH 8).
Definition kok_read_banner (s : koklib) (bitmap : option (list Z)) : outcome (Z * option (list Z) * koklib) :=
  let len := banner_width_array * KOK_BANNER_IMAGE_HEIGHT in
  let* r := (
    match bitmap with
    | Some b => let* r := stio_read (stio s) b len in Ret (Some (fst r), snd r)
    | None => Ret (None, stio s)
    end) in
  Ret (len, fst r, set_banner_width banner_width_array (set_stio (snd r) s)).

(** [aa = 0.5 * length * realsizes / 8 * 200] and [0.5 * length * realsizes / 8]. *)
Definition bitmap_width (length_ realsizes : Z) : Z :=
  width_array (Z.quot (length_ * realsizes * 200) 16) (Z.quot (length_ * realsizes) 16).

(** [struct koklib_bitmap_t]. *)
Record bitmap := mk_bitmap { size : Z; width : Z; height : Z; real_width : Z; bmp : list Z }.

(** [p] is not NULL; [buf len] is the memory [malloc] returns, if it does. *)
Definition kok_read_bitmap (buf : Z -> option (list Z)) (s : koklib) : outcome (Z * option bitmap * koklib) :=
  if lyricspara s <=? bidx s then Ret (-1, None, s)
  else
    match lptr s with
    | None => Fault NullDeref
    | Some l =>
        let* lp := aget l (bidx s) in
        let realsizes := h_realsizes (header s) in
        let w := bitmap_width (p_length lp) realsizes in
        let* len := ck (w * realsizes) in
        match buf len with
        | None => Ret (-1, None, s)
        | Some b =>
            let* r := stio_read (stio s) b len in
            Ret (1, Some (mk_bitmap len w realsizes (Z.quot (p_length lp * realsizes) 2) (fst r)),
                 set_bidx (bidx s + 1) (set_stio (snd r) s))
        end
    end.

(** [for (...; idx[i] < lyricspara; idx[i]++)]; the result is the line and its number. *)
Fixpoint get_loop (fuel : nat) (l : list (list Z)) (n i j : Z) : outcome (option (list Z * Z) * Z) :=
  match fuel with
  | O => Fault OutOfFuel
  | S fuel =>
      if j <? n then
        let* p := aget l j in
        if p_updown p =? i then Ret (Some (p, j), j + 1) else get_loop fuel l n i (j + 1)
      else Ret (None, j)
  end.
Definition kok_get (s : koklib) (n : Z) : outcome (option (list Z * Z) * koklib) :=
  match lptr s with
  | None => Ret (None, s)
  | Some l =>
      let i := if n =? 0 then 0 else 1 in
      let j := if n =? 0 then fst (idx s) else snd (idx s) in
      let* r := get_loop (S (Z.to_nat (lyricspara s - j))) l (lyricspara s) i j in
      Ret (fst r, set_idx (if n =? 0 then (snd r, snd (idx s)) else (fst (idx s), snd r)) s)
  end.

(** The value returned at the end is not initialised: [junk]. *)
Definition kok_read_para (junk : Z) (s : koklib) : outcome (Z * koklib) :=
  match lptr s with
  | None => Ret (-1, s)
  | Some l =>
      if lyricspara s <=? lidx s then Ret (-1, s)
      else
        let* lp := aget l (lidx s) in
        let* l := aset l (lidx s) (put8 lp (p_sentence + 24) 0) in
        Ret (junk, set_lidx (lidx s + 1) (set_lptr (Some l) s))
  end.

(** Eight colours. *)
Definition kok_get_RGB (s : koklib) (flag : Z) : list Z :=
  let o := if flag =? 0 then h_orgb else h_rgb in (fun i => i32_at (header s) (o + 4 * i)) <$> seqZ 0 8.

(** [hdr]: the uninitialised header; [bn]: the memory of the banner, if there is any. *)
Definition new_koklib (e : engine) (hdr : list Z) (bn : Z -> option (list Z)) : option koklib :=
  let len := banner_width_array * KOK_BANNER_IMAGE_HEIGHT in
  match bn len with
  | Some b => Some (mk_kok e hdr None 0 0 (0, 0) b len banner_width_array)
  | None => None
  end.
End kok.

(** ** Loading *)
Lemma stio_read_run chunk e file p buf len : playing e file p 0 -> 0 < len -> p + len <= zlen file -> zlen buf = len ->
  exists e', stio_read chunk e buf len = Ret (slice file p len, e') /\ playing e' file (p + len) 0.
Proof.
  intros Hp Hl Hle Hb. unfold stio_read. destruct (pub_read_full chunk e file p len Hp Hl Hle) as (e' & -> & Hp'). cbn [obind].
  destruct Hp as [(_ & _ & Hp0) _ _ _ _]. assert (zlen (slice file p len) = len) as Hs by (apply zlen_slice; lia).
  rewrite blit_patch by lia. cbn [obind]. exists e'. split; [|done]. do 2 f_equal.
  unfold patch. change (Z.to_nat 0) with 0%nat. cbn [take app]. rewrite drop_ge by (unfold zlen in *; lia). by rewrite app_nil_r.
Qed.

Lemma load_paras_run chunk file n : forall e p, playing e file p 0 -> p + SIZEOF_PARA * Z.of_nat n <= zlen file ->
  exists e', load_paras chunk e (replicate n (replicate (Z.to_nat SIZEOF_PARA) 0)) =
    Ret ((fun i => slice file (p + SIZEOF_PARA * Z.of_nat i) SIZEOF_PARA) <$> seq 0 n, e') /\ playing e' file (p + SIZEOF_PARA * Z.of_nat n) 0.
Proof.
  unfold SIZEOF_PARA. induction n as [|n IH]; intros e p Hp Hle; [exists e; split; [done|]; by rewrite Z.mul_0_r, Z.add_0_r|].
  cbn [replicate load_paras].
  destruct (stio_read_run chunk e file p (replicate (Z.to_nat 158) 0) 158 Hp ltac:(lia) ltac:(lia) eq_refl) as (e1 & E1 & Hp1).
  unfold SIZEOF_PARA. rewrite E1. cbn [obind fst snd]. destruct (IH e1 (p + 158) Hp1 ltac:(lia)) as (e2 & -> & Hp2). cbn [obind fst snd].
  exists e2. split; [|by replace (p + 158 * Z.of_nat (S n)) with (p + 158 + 158 * Z.of_nat n) by lia].
  cbn [seq]. rewrite fmap_cons, Z.mul_0_r, Z.add_0_r, <- fmap_S_seq, <- list_fmap_compose. do 3 f_equal. apply list_fmap_ext. intros i x _. unfold compose. f_equal. lia.
Qed.

Lemma closed_header_at h o n : zlen h = SIZEOF_HDR -> 0 <= o -> (o + n <= 70 \/ 71 <= o) -> (o + n <= 102 \/ 103 <= o) ->
  slice (closed_header h) o n = slice h o n.
Proof.
  intros Hl Ho H1 H2. unfold closed_header, put8, h_song, h_singer, SIZEOF_HDR in *. change (9 + 61) with 70. change (71 + 31) with 102.
  rewrite !slice_patch_ne; try done; rewrite ?zlen_patch; change (zlen [u8 0]) with 1; lia.
Qed.

(** C35: a song file is read as it is laid out.  If it holds a header that announces [n]
    lines, [n] records and a banner, [kok_load] returns [n], with the header (the title
    and the singer closed by a NUL), the records in order, the banner, and the file
    positioned at the first picture; a file that cannot be opened gives -1 and no lines. *)
Theorem kok_load_reads chunk s fname file fdn e1 :
  k_fs (k (fio_close (stio s))) fname = Some (file, true) -> zlen file <= INT_MAX ->
  pub_open true (pub_close (stio s)) fname = (fdn, e1) -> 0 < fdn -> zlen (header s) = SIZEOF_HDR -> zlen (banner s) = banner_size s -> 0 < banner_size s ->
  let hdr := slice file 0 SIZEOF_HDR in
  let n := h_lyricspara hdr in
  let b := SIZEOF_HDR + SIZEOF_PARA * n in
  0 <= n -> b + banner_size s <= zlen file ->
  (exists s', kok_load chunk true true s fname = Ret (n, s') /\ header s' = closed_header hdr /\
     lptr s' = Some ((fun i => slice file (SIZEOF_HDR + SIZEOF_PARA * Z.of_nat i) SIZEOF_PARA) <$> seq 0 (Z.to_nat n)) /\
     banner s' = slice file b (banner_size s) /\ playing (stio s') file (b + banner_size s) 0 /\ lidx s' = 0 /\ bidx s' = 0 /\ idx s' = (0, 0)) /\
  (forall bad, k_fs (k (fio_close (stio s))) bad = None -> exists s', kok_load chunk true true s bad = Ret (-1, s') /\ lptr s' = None).
Proof.
  intros Hfs Hlen Hopen Hfd Hh Hb Hb0 hdr n b Hn Hfit. assert (SIZEOF_HDR <= b) as Hb1 by (subst b; unfold SIZEOF_PARA; lia).
  assert (forall e, fd (fio_close e) < 0 -> fio_close (fio_close e) = fio_close e) as Hcc.
  { intros e He. unfold fio_close at 1. by rewrite (proj2 (Z.leb_gt 0 _)). }
  assert (fd (fio_close (stio s)) < 0) as Hfdc by (unfold fio_close; destruct (Z.leb_spec 0 (fd (stio s))); cbn; lia).
  split.
  - destruct (pub_open_run (pub_close (stio s)) fname file fdn e1) as [_ Hp]; [unfold pub_close; by rewrite Hcc|done|done|].
    unfold kok_load. cbn [stio kok_close kok_cleanup set_stio set_lptr]. rewrite Hopen. cbn [fst snd]. rewrite (proj2 (Z.leb_gt fdn 0)) by lia.
    cbn [stio header kok_reset set_stio set_lidx set_bidx set_idx kok_close kok_cleanup set_lptr].
    destruct (stio_read_run chunk e1 file 0 (header s) SIZEOF_HDR Hp ltac:(unfold SIZEOF_HDR; lia) ltac:(lia) Hh) as (e2 & -> & Hp2).
    cbn [obind fst snd stio set_stio set_header]. fold hdr.
    assert (zlen hdr = SIZEOF_HDR) as Hhl by (apply zlen_slice; unfold SIZEOF_HDR in *; lia).
    assert (h_lyricspara (closed_header hdr) = n) as Hny.
    { subst n. unfold h_lyricspara, s16_at, u16_at. rewrite closed_header_at by (try done; lia). done. }
    unfold lyricspara. cbn [header set_stio set_header]. rewrite Hny. rewrite (proj2 (Z.ltb_ge n 0)) by done. cbn [negb orb].
    destruct (load_paras_run chunk file (Z.to_nat n) e2 SIZEOF_HDR Hp2) as (e3 & -> & Hp3); [subst b; lia|].
    cbn [obind fst snd stio set_stio set_lptr banner banner_size header]. rewrite Z2Nat.id in Hp3 by done. fold b in Hp3.
    destruct (stio_read_run chunk e3 file b (banner s) (banner_size s) Hp3 ltac:(lia) ltac:(lia) Hb) as (e4 & E4 & Hp4).
    cbn [kok_reset set_lidx set_bidx set_idx kok_close kok_cleanup banner banner_size set_stio set_lptr set_header]. rewrite E4. cbn [obind fst snd].
    eexists. split; [exact (f_equal (fun z => Ret (z, _)) Hny)|]. by split_and!.
  - intros bad Hbad. unfold kok_load. cbn [stio kok_close kok_cleanup set_stio set_lptr].
    assert (exists e, pub_open true (pub_close (stio s)) bad = (-1, e)) as (e & ->).
    { unfold pub_open, fio_open. set (s0 := set_have_next_file 0 _).
      assert (k (fio_close s0) = k (fio_close (stio s))) as -> by (subst s0; unfold pub_close; unfold fio_close at 1; cbn [fd set_have_next_file set_current_file]; by rewrite (proj2 (Z.leb_gt 0 _))).
      unfold sys_open. rewrite Hbad. by eexists. }
    cbn [fst snd Z.leb Z.compare]. by eexists.
Qed.

(** ** The lines of one side of the screen *)
Fixpoint lines_from (i j : Z) (l : list (list Z)) : list (list Z * Z) :=
  match l with
  | [] => []
  | p :: l' => if p_updown p =? i then (p, j) :: lines_from i (j + 1) l' else lines_from i (j + 1) l'
  end.

Lemma get_loop_run i rest : forall fuel pre, (length rest < fuel)%nat ->
  exists r j rest2, get_loop fuel (pre ++ rest) (zlen (pre ++ rest)) i (zlen pre) = Ret (r, j) /\
    lines_from i (zlen pre) rest = option_list r ++ lines_from i j rest2 /\
    (exists pre2, pre ++ rest = pre2 ++ rest2 /\ zlen pre2 = j) /\ (r = None -> rest2 = []) /\ (r <> None -> (length rest2 < length rest)%nat).
Proof.
  induction rest as [|p rest IH]; intros fuel pre Hf; (destruct fuel as [|fuel]; [cbn in Hf; lia|]); cbn [get_loop lines_from].
  - rewrite app_nil_r, Z.ltb_irrefl. exists None, (zlen pre), []. split_and!; try done. exists pre. by rewrite app_nil_r.
  - rewrite (proj2 (Z.ltb_lt (zlen pre) _)) by (rewrite zlen_app, zlen_cons; pose proof (zlen_nonneg rest); lia).
    rewrite (aget_Some _ _ p); [|apply zlen_nonneg|unfold zlen; by rewrite Nat2Z.id, list_lookup_middle]. cbn [obind].
    assert (pre ++ p :: rest = (pre ++ [p]) ++ rest /\ zlen (pre ++ [p]) = zlen pre + 1) as [E El] by (rewrite <- app_assoc, zlen_app, zlen_cons, zlen_nil; split; [done|lia]).
    destruct (p_updown p =? i).
    + exists (Some (p, zlen pre)), (zlen pre + 1), rest. split_and!; try done; [by exists (pre ++ [p])|]. cbn. lia.
    + destruct (IH fuel (pre ++ [p])) as (r & j & rest2 & H1 & H2 & H3 & H4 & H5); [cbn in Hf; lia|]. rewrite <- E, El in H1. rewrite El in H2. rewrite <- E in H3.
      exists r, j, rest2. split_and!; try done. intros Hr. specialize (H5 Hr). cbn. lia.
Qed.

Fixpoint gets (fuel : nat) (s : koklib) (n : Z) : outcome (list (list Z * Z) * koklib) :=
  match fuel with
  | O => Fault OutOfFuel
  | S fuel =>
      let* r := kok_get s n in
      match fst r with
      | None => Ret ([], snd r)
      | Some x => let* rs := gets fuel (snd r) n in Ret (x :: fst rs, snd rs)
      end
  end.

Definition side (s : koklib) (n : Z) : Z := if n =? 0 then fst (idx s) else snd (idx s).

Lemma gets_run n l fuel : forall s pre rest, lptr s = Some l -> lyricspara s = zlen l -> l = pre ++ rest -> side s n = zlen pre ->
  (length rest < fuel)%nat ->
  exists s', gets fuel s n = Ret (lines_from (if n =? 0 then 0 else 1) (zlen pre) rest, s') /\ lptr s' = Some l /\
    side s' (1 - n) = side s (1 - n) \/ (n <> 0 /\ n <> 1).
Proof.
  destruct (decide (n = 0 \/ n = 1)) as [Hn|Hn]; [|intros s pre rest; exists s; right; lia].
  induction fuel as [|fuel IH]; intros s pre rest Hl Hny El Hs Hf; [lia|]. cbn [gets]. unfold kok_get. rewrite Hl, Hny. fold (side s n).
  change (if n =? 0 then fst (idx s) else snd (idx s)) with (side s n). rewrite Hs.
  destruct (get_loop_run (if n =? 0 then 0 else 1) rest (S (Z.to_nat (zlen l - zlen pre))) pre) as (r & j & rest2 & H1 & H2 & (pre2 & H3 & H3') & H4 & H5).
  { rewrite El, zlen_app. unfold zlen. lia. }
  rewrite <- El in H1. rewrite H1. cbn [obind fst snd]. set (s1 := set_idx _ s).
  assert (side s1 n = j /\ side s1 (1 - n) = side s (1 - n)) as [Hs1 Hs2].
  { subst s1. unfold side. destruct Hn as [->| ->]; done. }
  destruct r as [x|].
  - destruct (IH s1 pre2 rest2) as (s2 & [(E & Hl2 & Hs3)|?]); [done|done|congruence|congruence|specialize (H5 ltac:(done)); lia| |lia].
    rewrite E. cbn [obind fst snd]. exists s2. left. rewrite H2, H3'. split_and!; [done|done|congruence].
  - exists s1. left. rewrite H2, (H4 eq_refl). by split_and!.
Qed.

(** The two lines of the display.  Asked again and again for one side (0: upper, 1:
    lower), [kok_get] gives every line of that side with its number, in order and once
    each, then NULL; the position on the other side does not move. *)
Theorem kok_get_enumerates s l n : n = 0 \/ n = 1 -> lptr s = Some l -> lyricspara s = zlen l -> side s n = 0 ->
  exists s', gets (S (length l)) s n = Ret (lines_from n 0 l, s') /\ side s' (1 - n) = side s (1 - n).
Proof.
  intros Hn Hl Hny Hs. destruct (gets_run n l (S (length l)) s [] l Hl Hny eq_refl Hs ltac:(lia)) as (s' & [(E & _ & H)|?]); [|lia].
  exists s'. split; [|done]. rewrite E. by destruct Hn as [->| ->].
Qed.

(** The rows of a picture.  For a line of [l] half-width characters of height [r] the
    row has the least multiple of four bytes that holds its [l * r / 2] pixels; so a
    picture takes [4 * ceil (l * r / 64) * r] bytes, at most 128524 for any header, and
    the banner 13680. *)
Theorem bitmap_width_aligned l r : 0 <= l <= 127 -> 0 <= r <= 127 ->
  bitmap_width l r = 4 * ((l * r + 63) / 64) /\ l * r / 2 <= 8 * bitmap_width l r /\
  0 <= bitmap_width l r * r <= 128524 /\ banner_width_array * KOK_BANNER_IMAGE_HEIGHT = 13680.
Proof.
  intros Hl Hr. assert (0 <= l * r <= 16129) as Hx by nia. unfold bitmap_width, width_array.
  assert ((if Z.rem (Z.quot (l * r * 200) 16) 800 =? 0 then Z.quot (l * r) 16 else (Z.quot (Z.quot (l * r) 16) 4 + 1) * 4) = 4 * ((l * r + 63) / 64)) as ->.
  { revert Hx. generalize (l * r). intros x Hx. rewrite !Z.quot_div_nonneg, Z.rem_mod_nonneg by (try lia; apply Z.div_pos; lia).
    pose proof (Z.div_mod x 64 ltac:(lia)) as E. pose proof (Z.mod_pos_bound x 64 ltac:(lia)) as Ht. set (q := x / 64) in *. set (t := x mod 64) in *.
    assert (x * 200 / 16 = 800 * q + t * 200 / 16) as -> by (rewrite E; replace ((64 * q + t) * 200) with (t * 200 + (800 * q) * 16) by lia; rewrite Z.div_add by lia; lia).
    assert ((800 * q + t * 200 / 16) mod 800 = t * 200 / 16) as ->.
    { replace (800 * q + t * 200 / 16) with (t * 200 / 16 + q * 800) by lia. rewrite Z.mod_add by lia. apply Z.mod_small. split; [apply Z.div_pos; lia|apply Z.div_lt_upper_bound; lia]. }
    destruct (Z.eqb_spec (t * 200 / 16) 0) as [H|H].
    - assert (t = 0) as Et by (assert (~ 1 <= t) by (intros Hg; pose proof (Z.div_le_mono 200 (t * 200) 16 ltac:(lia) ltac:(lia)) as H2; change (200 / 16) with 12 in H2; lia); lia). Z.div_mod_to_equations. lia.
    - assert (t <> 0) by (intros Et; rewrite Et in H; done). assert (x / 16 / 4 = q) as -> by (by rewrite Z.div_div by lia).
      assert ((x + 63) / 64 = q + 1) as -> by (symmetry; apply (Z.div_unique _ _ _ (t - 1)); lia). lia. }
  assert (0 <= (l * r + 63) / 64 <= 253) by (split; [apply Z.div_pos; lia|apply Z.div_le_upper_bound; lia]).
  split_and!; [done|revert Hx; generalize (l * r); intros x Hx; Z.div_mod_to_equations; lia|nia|nia|done].
Qed.

(** ** Examples *)
Definition demo_hdr : list Z := [2; 0; 0; 0; 0; 2; 0; 16; 1] ++ replicate 258 65.
Definition demo_para (b : Z) : list Z := replicate 157 3 ++ [b].
Definition demo_song : list Z := demo_hdr ++ demo_para 0 ++ demo_para 1 ++ [8; 9].
Definition demo_kernel : kernel := mk_kernel (fun p => if bool_decide (p = [97]) then Some (demo_song, true) else None) [Some (mk_ofile [] 0)] 0.
Definition demo_kok : koklib :=
  mk_kok (new_stio_engine (mk_engine demo_kernel 0 0 0 0 0 0 0 0 0 0 [] [])) (replicate 267 7) None 3 3 (4, 4) [0] 1 76.

Lemma kok_load_reads_witness :
  exists s', kok_load (fun _ _ => 50) true true demo_kok [98] = Ret (-1, s') /\ lptr s' = None.
Proof.
  apply (kok_load_reads (fun _ _ => 50) demo_kok [97] demo_song 1 (snd (pub_open true (pub_close (stio demo_kok)) [97])));
    vm_compute; try reflexivity; discriminate.
Defined.

Lemma kok_get_enumerates_witness : exists s',
  gets 3 (mk_kok (stio demo_kok) demo_hdr (Some [demo_para 0; demo_para 1]) 0 0 (0, 0) [0] 1 76) 1 = Ret ([(demo_para 1, 1)], s') /\
  side s' 0 = 0.
Proof.
  apply (kok_get_enumerates (mk_kok (stio demo_kok) demo_hdr (Some [demo_para 0; demo_para 1]) 0 0 (0, 0) [0] 1 76) [demo_para 0; demo_para 1] 1);
    [right; reflexivity|reflexivity|vm_compute; reflexivity|reflexivity].
Defined.

Lemma bitmap_width_aligned_witness : bitmap_width 20 32 = 40.
Proof. apply (bitmap_width_aligned 20 32); lia. Defined.
End KOK.
