(* ===== verification/Rbmcast.v ===== *)
(** * Rbmcast.v: the reliable multicast, rbmcast/

    A server announces nothing; a client multicasts a CONNECT packet, the server enters
    it into a table of addresses and answers with a client number, and from then on the
    client waits for numbered data packets.  Retransmission and [rbm_recv] are not
    written yet in the source; what is there is modelled: the packets and their sum, the
    table, the handling of one packet by [listen_main], the window of buffers and
    [rbm_send].  A [sockaddr_in] is a pair of address and port; the packets sent are a
    log. *)

From S2P Require Import Prelude Posix Wire Slots.

Module RBM.

Definition RBMCMD_CONNECT : Z := 1.
Definition RBMCMD_NOT_ALLOW : Z := 2.
Definition RBMCMD_CONN_FULL : Z := 4.
Definition RBMCMD_CONN_OK : Z := 5.
Definition RBMCMD_DATA : Z := 6.
Definition RBMST_INIT : Z := 0.
Definition RBMST_LISTEN : Z := 1.
Definition RBMST_TRANSMIT : Z := 2.
Definition RBMST_CONNECT : Z := 4.
Definition RBMST_WAIT_DATA : Z := 5.
Definition RBMERR_BUFFER_FULL : Z := 1.
Definition RBMERR_BUFFER_NOT_READY : Z := 2.
Definition RBMERR_DUPLICATE_SEQ : Z := 3.
Definition RBM_MAX_WIN_BUFFER : Z := 256.
Definition RBM_MAX_TRANSMIT_DATA : Z := 1400.

(** [struct rbmc_header_pdu_t], packed. *)
Definition SIZEOF_HDR : Z := 20.
Definition o_length : Z := 2.
Definition o_magic_id : Z := 4.
Definition o_seq : Z := 8.
Definition o_server_id : Z := 12.
Definition o_client_id : Z := 14.
Definition o_cmd : Z := 16.
Definition o_win : Z := 18.

(** [for (i = 2; i < pktlen; i++)] over bytes that are there. *)
Fixpoint cksum_loop (q : list Z) (sum : Z) : Z :=
  match q with [] => sum | b :: q => cksum_loop q (u32 (sum + b) mod 65536) end.
Definition rbm_cksum (packet : list Z) (pktlen : Z) : Z := cksum_loop (slice packet 2 (pktlen - 2)) 0 mod 65536.

Definition sockaddr : Type := Z * Z.
Record client := mk_client { addruse : Z; addr : sockaddr }.
Inductive dest := Unicast (a : sockaddr) | Multicast | Broadcast.
Record win_buffer := mk_wb { w_pdu : list Z; ready : Z; w_len : Z }.

(** [struct rbmcast_lib_pd_t] without the socket and the threads. *)
Record rbm := mk_rbm {
  magic_id : Z;
  server_id : Z;
  client_id : Z;
  port : Z;
  seq : Z;
  stage : Z;
  is_server : Z;
  use_broadcast : Z;
  addrcnt : Z;
  addruse_cnt : Z;
  clients : list client;
  expect_seq : Z;
  max_expect_seq : Z;
  wbuf : option (list win_buffer);
  wb_rear : Z;
  wb_ptr : Z;
  wb_cnt : Z;
  winsize : Z;
  errcode : Z;
  sent : list (dest * list Z);
}.
Definition set_server_id (v : Z) (s : rbm) : rbm :=
  mk_rbm (magic_id s) v (client_id s) (port s) (seq s) (stage s) (is_server s) (use_broadcast s) (addrcnt s) (addruse_cnt s) (clients s) (expect_seq s) (max_expect_seq s) (wbuf s) (wb_rear s) (wb_ptr s) (wb_cnt s) (winsize s) (errcode s) (sent s).
Definition set_client_id (v : Z) (s : rbm) : rbm :=
  mk_rbm (magic_id s) (server_id s) v (port s) (seq s) (stage s) (is_server s) (use_broadcast s) (addrcnt s) (addruse_cnt s) (clients s) (expect_seq s) (max_expect_seq s) (wbuf s) (wb_rear s) (wb_ptr s) (wb_cnt s) (winsize s) (errcode s) (sent s).
Definition set_port (v : Z) (s : rbm) : rbm :=
  mk_rbm (magic_id s) (server_id s) (client_id s) v (seq s) (stage s) (is_server s) (use_broadcast s) (addrcnt s) (addruse_cnt s) (clients s) (expect_seq s) (max_expect_seq s) (wbuf s) (wb_rear s) (wb_ptr s) (wb_cnt s) (winsize s) (errcode s) (sent s).
Definition set_seq (v : Z) (s : rbm) : rbm :=
  mk_rbm (magic_id s) (server_id s) (client_id s) (port s) v (stage s) (is_server s) (use_broadcast s) (addrcnt s) (addruse_cnt s) (clients s) (expect_seq s) (max_expect_seq s) (wbuf s) (wb_rear s) (wb_ptr s) (wb_cnt s) (winsize s) (errcode s) (sent s).
Definition set_stage (v : Z) (s : rbm) : rbm :=
  mk_rbm (magic_id s) (server_id s) (client_id s) (port s) (seq s) v (is_server s) (use_broadcast s) (addrcnt s) (addruse_cnt s) (clients s) (expect_seq s) (max_expect_seq s) (wbuf s) (wb_rear s) (wb_ptr s) (wb_cnt s) (winsize s) (errcode s) (sent s).
Definition set_is_server (v : Z) (s : rbm) : rbm :=
  mk_rbm (magic_id s) (server_id s) (client_id s) (port s) (seq s) (stage s) v (use_broadcast s) (addrcnt s) (addruse_cnt s) (clients s) (expect_seq s) (max_expect_seq s) (wbuf s) (wb_rear s) (wb_ptr s) (wb_cnt s) (winsize s) (errcode s) (sent s).
Definition set_addrcnt (v : Z) (s : rbm) : rbm :=
  mk_rbm (magic_id s) (server_id s) (client_id s) (port s) (seq s) (stage s) (is_server s) (use_broadcast s) v (addruse_cnt s) (clients s) (expect_seq s) (max_expect_seq s) (wbuf s) (wb_rear s) (wb_ptr s) (wb_cnt s) (winsize s) (errcode s) (sent s).
Definition set_addruse_cnt (v : Z) (s : rbm) : rbm :=
  mk_rbm (magic_id s) (server_id s) (client_id s) (port s) (seq s) (stage s) (is_server s) (use_broadcast s) (addrcnt s) v (clients s) (expect_seq s) (max_expect_seq s) (wbuf s) (wb_rear s) (wb_ptr s) (wb_cnt s) (winsize s) (errcode s) (sent s).
Definition set_clients (v : list client) (s : rbm) : rbm :=
  mk_rbm (magic_id s) (server_id s) (client_id s) (port s) (seq s) (stage s) (is_server s) (use_broadcast s) (addrcnt s) (addruse_cnt s) v (expect_seq s) (max_expect_seq s) (wbuf s) (wb_rear s) (wb_ptr s) (wb_cnt s) (winsize s) (errcode s) (sent s).
Definition set_wbuf (v : option (list win_buffer)) (s : rbm) : rbm :=
  mk_rbm (magic_id s) (server_id s) (client_id s) (port s) (seq s) (stage s) (is_server s) (use_broadcast s) (addrcnt s) (addruse_cnt s) (clients s) (expect_seq s) (max_expect_seq s) v (wb_rear s) (wb_ptr s) (wb_cnt s) (winsize s) (errcode s) (sent s).
Definition set_wb_rear (v : Z) (s : rbm) : rbm :=
  mk_rbm (magic_id s) (server_id s) (client_id s) (port s) (seq s) (stage s) (is_server s) (use_broadcast s) (addrcnt s) (addruse_cnt s) (clients s) (expect_seq s) (max_expect_seq s) (wbuf s) v (wb_ptr s) (wb_cnt s) (winsize s) (errcode s) (sent s).
Definition set_wb_ptr (v : Z) (s : rbm) : rbm :=
  mk_rbm (magic_id s) (server_id s) (client_id s) (port s) (seq s) (stage s) (is_server s) (use_broadcast s) (addrcnt s) (addruse_cnt s) (clients s) (expect_seq s) (max_expect_seq s) (wbuf s) (wb_rear s) v (wb_cnt s) (winsize s) (errcode s) (sent s).
Definition set_wb_cnt (v : Z) (s : rbm) : rbm :=
  mk_rbm (magic_id s) (server_id s) (client_id s) (port s) (seq s) (stage s) (is_server s) (use_broadcast s) (addrcnt s) (addruse_cnt s) (clients s) (expect_seq s) (max_expect_seq s) (wbuf s) (wb_rear s) (wb_ptr s) v (winsize s) (errcode s) (sent s).
Definition set_errcode (v : Z) (s : rbm) : rbm :=
  mk_rbm (magic_id s) (server_id s) (client_id s) (port s) (seq s) (stage s) (is_server s) (use_broadcast s) (addrcnt s) (addruse_cnt s) (clients s) (expect_seq s) (max_expect_seq s) (wbuf s) (wb_rear s) (wb_ptr s) (wb_cnt s) (winsize s) v (sent s).
Definition set_sent (v : list (dest * list Z)) (s : rbm) : rbm :=
  mk_rbm (magic_id s) (server_id s) (client_id s) (port s) (seq s) (stage s) (is_server s) (use_broadcast s) (addrcnt s) (addruse_cnt s) (clients s) (expect_seq s) (max_expect_seq s) (wbuf s) (wb_rear s) (wb_ptr s) (wb_cnt s) (winsize s) (errcode s) v.
Definition set_magic_id (v : Z) (s : rbm) : rbm :=
  mk_rbm v (server_id s) (client_id s) (port s) (seq s) (stage s) (is_server s) (use_broadcast s) (addrcnt s) (addruse_cnt s) (clients s) (expect_seq s) (max_expect_seq s) (wbuf s) (wb_rear s) (wb_ptr s) (wb_cnt s) (winsize s) (errcode s) (sent s).

(** ** Set-up *)

(** [rnd]: [rand ()]; [mem]: what [malloc] gives for the table, if it succeeds. *)
Definition rbm_bind (rnd : Z) (mem : Z -> option (list client)) (bind_ok : bool) (self : rbm) (prt magic is_srv : Z) : Z * rbm :=
  let s := set_magic_id magic (set_port (prt - Z.rem prt 2) self) in
  let '(ok, s) :=
    if 0 <? is_srv then
      let s := set_is_server 1 (set_server_id (Z.rem rnd 65530 + 1) s) in
      let n := if 512 <? is_srv then 512 else is_srv in
      let s := set_addrcnt n s in
      match mem n with
      | None => (false, s)
      | Some t => (true, set_addruse_cnt 0 (set_clients ((fun c => mk_client 0 (addr c)) <$> t) s))
      end
    else (true, set_is_server 0 (set_server_id 0 s)) in
  if negb ok then (-1, s) else if bind_ok then (1, s) else (-1, s).

Definition in_use (c : client) : bool := negb (addruse c =? 0).
Definition same_ip (a : sockaddr) (c : client) : bool := fst (addr c) =? fst a.

Definition regist_client (self : rbm) (from : sockaddr) : outcome (Z * rbm) :=
  match scan in_use (same_ip from) (clients self) 0 (-1) with
  | (true, i) => Ret (i, self)
  | (false, f) =>
      if 0 <=? f then
        let* t := aset (clients self) f (mk_client 1 from) in
        let* n := ck (addruse_cnt self + 1) in
        Ret (f, set_addruse_cnt n (set_clients t self))
      else Ret (f, self)
  end.

Definition allocate_win_buffer (mem : option (list win_buffer)) (self : rbm) : Z * rbm :=
  match wbuf self with
  | Some _ => (0, self)
  | None =>
      match mem with
      | None => (0, self)
      | Some w =>
          (1, set_wb_cnt 0 (set_wb_rear 0 (set_wbuf (Some ((fun b => mk_wb (w_pdu b) 0 (w_len b)) <$> w)) self)))
      end
  end.

(** [dataok j]: the field of that name of buffer [j], which the code reads and the
    structure does not declare.  The result is the number of the buffer. *)
Definition take_win_buf (self : rbm) : outcome (option Z * rbm) :=
  match wbuf self with
  | None => Fault NullDeref
  | Some w =>
      let* b := aget w (wb_rear self) in
      let* w := aset w (wb_rear self) (mk_wb (w_pdu b) 0 (w_len b)) in
      let* r := crem (wb_rear self + 1) RBM_MAX_WIN_BUFFER in
      let* n := ck (wb_cnt self + 1) in
      Ret (Some (wb_rear self), set_wb_cnt n (set_wb_ptr r (set_wb_rear r (set_wbuf (Some w) self))))
  end.
Definition rbm_get_free_win_buf (dataok : Z -> bool) (self : rbm) (sq : Z) : outcome (option Z * rbm) :=
  if negb (sq =? 0) then
    if sq =? expect_seq self then
      if wb_cnt self <? RBM_MAX_WIN_BUFFER then Ret (None, set_errcode RBMERR_BUFFER_FULL self) else take_win_buf self
    else if max_expect_seq self <? sq then Ret (None, set_errcode RBMERR_BUFFER_NOT_READY self)
    else if sq <? expect_seq self then Ret (None, set_errcode RBMERR_DUPLICATE_SEQ self)
    else
      let* t := ck (wb_rear self + to_int (sq - expect_seq self)) in
      let* j := crem t RBM_MAX_WIN_BUFFER in
      if dataok j then Ret (None, set_errcode RBMERR_DUPLICATE_SEQ self) else Ret (Some j, self)
  else if wb_cnt self <? RBM_MAX_WIN_BUFFER then Block
  else take_win_buf self.

(** ** One packet in [listen_main]: [pkt] is what [recvfrom] gave, at most 2000 bytes *)
Definition acceptable (self : rbm) (pkt : list Z) : bool :=
  (SIZEOF_HDR <=? zlen pkt) && (i32_at pkt o_magic_id =? magic_id self) && (u16_at pkt 0 =? rbm_cksum pkt (zlen pkt)).

(** [pdu->cksum = rbm_cksum (pdu, n)]. *)
Definition sealed (pdu : list Z) (n : Z) : list Z := put16 pdu 0 (rbm_cksum pdu n).

Definition on_connect (self : rbm) (from : sockaddr) (pkt : list Z) : outcome rbm :=
  let pdu := put16 (slice pkt 0 SIZEOF_HDR) o_server_id (server_id self) in
  let* r := (
    if stage self =? RBMST_LISTEN then
      let* r := regist_client self from in
      if 0 <=? fst r then Ret (put16 (put16 pdu o_cmd RBMCMD_CONN_OK) o_client_id (fst r), snd r)
      else Ret (put16 pdu o_cmd RBMCMD_CONN_FULL, snd r)
    else Ret (put16 pdu o_cmd RBMCMD_NOT_ALLOW, self)) in
  let '(pdu, s) := r in
  Ret (set_sent (sent s ++ [(Unicast from, sealed pdu SIZEOF_HDR)]) s).

Definition listen_one (dataok : Z -> bool) (self : rbm) (from : sockaddr) (pkt : list Z) : outcome rbm :=
  if negb (acceptable self pkt) then Ret self
  else
    let cmd := s16_at pkt o_cmd in
    if cmd =? RBMCMD_CONNECT then on_connect self from pkt
    else if cmd =? RBMCMD_CONN_OK then
      if negb (stage self =? RBMST_CONNECT) then Ret self
      else Ret (set_stage RBMST_WAIT_DATA (set_client_id (s16_at pkt o_client_id) (set_server_id (u16_at pkt o_server_id) self)))
    else if cmd =? RBMCMD_DATA then
      let sq := u32 (i32_at pkt o_seq) in
      if negb (stage self =? RBMST_WAIT_DATA) then Ret self
      else if sq <? expect_seq self then Ret self
      else if max_expect_seq self <? sq then Ret self
      else let* r := rbm_get_free_win_buf dataok self sq in Ret (snd r)
    else Ret self.

Definition rbm_listen (mem : option (list win_buffer)) (thr : bool) (self : rbm) : Z * rbm :=
  if thr then (0, self)
  else if negb (is_server self =? 0) then
    let r := allocate_win_buffer mem self in
    if fst r =? 0 then (0, snd r) else (1, set_stage RBMST_LISTEN (snd r))
  else (1, self).

Definition to_all (self : rbm) : dest := if negb (use_broadcast self =? 0) then Broadcast else Multicast.

(** The first part of [rbm_connect], up to the wait: [junk] is what is in [hdr] before. *)
Definition rbm_connect (mem : option (list win_buffer)) (thr : bool) (junk : list Z) (self : rbm) : Z * rbm :=
  let r := if thr then (1, self) else allocate_win_buffer mem self in
  if fst r =? 0 then (0, snd r)
  else
    let s := set_stage RBMST_CONNECT (snd r) in
    let hdr := put16 (put16 (put16 (put32 junk o_magic_id (magic_id s)) o_cmd RBMCMD_CONNECT) o_server_id 0) o_length 0 in
    (1, set_sent (sent s ++ [(to_all s, sealed hdr SIZEOF_HDR)]) s).
(** Its result, after the wait. *)
Definition connected (self : rbm) : Z := b2z (stage self =? RBMST_WAIT_DATA).

(** ** Sending.  The [memcpy] copies [len] bytes from the start of [buf] in every round. *)
Definition send_round (self : rbm) (buf : list Z) (len restlen : Z) : outcome (Z * rbm) :=
  let* r := rbm_get_free_win_buf (fun _ => false) self 0 in
  let '(i, s) := r in
  match i, wbuf s with
  | Some i, Some w =>
      let* b := aget w i in
      let s := set_seq (u32 (seq s + 1)) s in
      let pdu := put16 (put16 (put32 (w_pdu b) o_magic_id (magic_id s)) o_server_id (server_id s)) o_client_id (client_id s) in
      let pdu := put16 (put32 (put16 pdu o_cmd RBMCMD_DATA) o_seq (seq s)) o_win (winsize s) in
      let n := if RBM_MAX_TRANSMIT_DATA <? restlen then RBM_MAX_TRANSMIT_DATA else restlen in
      if zlen buf <? len then Fault OutOfBounds
      else
        let* pdu := blit pdu SIZEOF_HDR (slice buf 0 len) in
        let pdu := put16 pdu o_length n in
        let pdu := sealed pdu (SIZEOF_HDR + RBM_MAX_TRANSMIT_DATA) in
        let* w := aset w i (mk_wb pdu 1 (SIZEOF_HDR + n)) in
        Ret (restlen - n, set_wbuf (Some w) (set_sent (sent s ++ [(to_all s, slice pdu 0 (SIZEOF_HDR + n))]) s))
  | _, _ => Fault NullDeref
  end.
Fixpoint send_loop (fuel : nat) (self : rbm) (buf : list Z) (len restlen : Z) : outcome rbm :=
  match fuel with
  | O => Fault OutOfFuel
  | S fuel =>
      if 0 <? restlen then let* r := send_round self buf len restlen in send_loop fuel (snd r) buf len (fst r)
      else Ret self
  end.
Definition rbm_send (self : rbm) (buf : list Z) (len : Z) : outcome (Z * rbm) :=
  if negb ((stage self =? RBMST_LISTEN) || (stage self =? RBMST_TRANSMIT)) then Ret (0, self)
  else
    let s := if stage self =? RBMST_LISTEN then set_stage RBMST_TRANSMIT self else self in
    let* s := send_loop (S (Z.to_nat len)) s buf len len in Ret (1, s).

Definition rbm_num_of_client (self : rbm) : Z := addruse_cnt self.
Definition rbm_mtu : Z := RBM_MAX_TRANSMIT_DATA.
Definition new_rbmcast (m : rbm) : rbm :=
  mk_rbm 0 0 (-1) 0 0 RBMST_INIT 0 0 0 0 [] 1 RBM_MAX_WIN_BUFFER None 0 0 0 1 0 (sent m).

(** ** Packets *)
Lemma rbm_cksum_range p n : 0 <= rbm_cksum p n < 65536.
Proof. apply Z.mod_pos_bound. lia. Qed.

Lemma sealed_len p n : SIZEOF_HDR <= zlen p -> zlen (sealed p n) = zlen p.
Proof. unfold SIZEOF_HDR. intros. apply zlen_put16; lia. Qed.

Lemma sealed_at p n o k : SIZEOF_HDR <= zlen p -> 2 <= o -> slice (sealed p n) o k = slice p o k.
Proof. unfold SIZEOF_HDR. intros. apply slice_put16_ne; lia. Qed.

(** The receiver's test, on a header that was sealed. *)
Lemma sealed_acceptable self p : zlen p = SIZEOF_HDR -> i32_at p o_magic_id = magic_id self -> acceptable self (sealed p SIZEOF_HDR) = true.
Proof.
  intros Hl Hm. unfold acceptable. rewrite sealed_len by lia. rewrite Hl, Z.leb_refl. cbn [andb].
  assert (i32_at (sealed p SIZEOF_HDR) o_magic_id = i32_at p o_magic_id) as -> by (unfold i32_at; by rewrite sealed_at by (unfold o_magic_id; lia)).
  rewrite Hm, Z.eqb_refl. cbn [andb]. apply Z.eqb_eq. unfold sealed at 1. rewrite u16_put16 by (unfold SIZEOF_HDR in Hl; lia).
  unfold u16. rewrite Z.mod_small by (pose proof (rbm_cksum_range p SIZEOF_HDR); lia).
  unfold rbm_cksum. by rewrite sealed_at by lia.
Qed.

(** Reading a field that was put, past later puts of other fields. *)
Lemma s16_other p o z q : 0 <= o -> o + 2 <= zlen p -> 0 <= q -> (q + 2 <= o \/ o + 2 <= q) -> s16_at (put16 p o z) q = s16_at p q.
Proof. intros. unfold s16_at, u16_at. by rewrite slice_put16_ne by lia. Qed.
Lemma i32_other p o z q : 0 <= o -> o + 2 <= zlen p -> 0 <= q -> (q + 4 <= o \/ o + 2 <= q) -> i32_at (put16 p o z) q = i32_at p q.
Proof. intros. unfold i32_at. by rewrite slice_put16_ne by lia. Qed.
Lemma u16_other p o z q : 0 <= o -> o + 2 <= zlen p -> 0 <= q -> (q + 2 <= o \/ o + 2 <= q) -> u16_at (put16 p o z) q = u16_at p q.
Proof. intros. unfold u16_at. by rewrite slice_put16_ne by lia. Qed.
Lemma i32_sealed p n q : SIZEOF_HDR <= zlen p -> 2 <= q -> i32_at (sealed p n) q = i32_at p q.
Proof. intros. unfold i32_at. by rewrite sealed_at by lia. Qed.
Lemma s16_sealed p n q : SIZEOF_HDR <= zlen p -> 2 <= q -> s16_at (sealed p n) q = s16_at p q.
Proof. intros. unfold s16_at, u16_at. by rewrite sealed_at by lia. Qed.
Lemma u16_sealed p n q : SIZEOF_HDR <= zlen p -> 2 <= q -> u16_at (sealed p n) q = u16_at p q.
Proof. intros. unfold u16_at. by rewrite sealed_at by lia. Qed.

(** ** The table of clients *)
Lemma regist_found self a j c : zlen (clients self) <= 512 -> 0 <= addruse_cnt self < INT_MAX ->
  clients self !! j = Some c -> in_use c = false \/ same_ip a c = true ->
  exists i s', regist_client self a = Ret (i, s') /\ 0 <= i < 512 /\
    (exists c', clients s' !! Z.to_nat i = Some c' /\ in_use c' = true /\ same_ip a c' = true) /\
    (forall k, k <> Z.to_nat i -> clients s' !! k = clients self !! k) /\ (forall k d, clients self !! k = Some d -> in_use d = true -> clients s' !! k = Some d) /\
    magic_id s' = magic_id self /\ server_id s' = server_id self /\ stage s' = stage self /\ sent s' = sent self /\ wb_cnt s' = wb_cnt self.
Proof.
  intros Hz Hcnt Hj Hc. unfold regist_client. destruct (scan in_use (same_ip a) (clients self) 0 (-1)) as [b i] eqn:Es. destruct b.
  - destruct (scan_found _ _ _ _ _ _ Es) as (Hi & x & Hx & Hu & Hh). rewrite Z.sub_0_r in Hx. pose proof (lookup_lt_Some _ _ _ Hx) as Hlt. unfold zlen in Hz.
    exists i, self. split; [done|]. split; [lia|]. split; [by exists x|]. by split_and!.
  - destruct (scan_free in_use (same_ip a) (clients self) 0 (-1) i ltac:(lia) Es) as [[? _]|[(_ & Hi & (x & Hx & Hu) & _)|(_ & -> & Hall)]]; [lia| |].
    + rewrite Z.sub_0_r in Hx. pose proof (lookup_lt_Some _ _ _ Hx) as Hlt. unfold zlen in Hz. rewrite (proj2 (Z.leb_le 0 i)) by lia.
      rewrite aset_Ret by (unfold zlen; lia). cbn [obind]. rewrite ck_Ret by int_lia. cbn [obind]. eexists i, _. split; [reflexivity|]. split; [lia|]. cbn [clients set_addruse_cnt set_clients].
      split; [exists (mk_client 1 a); rewrite list_lookup_insert_eq by done; split_and!; [done|done|unfold same_ip; by rewrite Z.eqb_refl]|].
      split; [intros k Hk; by rewrite list_lookup_insert_ne|]. split; [|done].
      intros k d Hd Hud. rewrite list_lookup_insert_ne; [done|]. intros <-. congruence.
    + exfalso. pose proof (Hall _ _ Hj) as Hu. destruct Hc as [?|Hc]; [congruence|].
      pose proof (scan_not_found _ _ _ _ _ _ Es _ _ Hj Hu). congruence.
Qed.

Definition connect_header (junk : list Z) (magic : Z) : list Z :=
  put16 (put16 (put16 (put32 junk o_magic_id magic) o_cmd RBMCMD_CONNECT) o_server_id 0) o_length 0.

Lemma connect_header_run junk magic : zlen junk = SIZEOF_HDR -> int_ok magic ->
  zlen (connect_header junk magic) = SIZEOF_HDR /\ i32_at (connect_header junk magic) o_magic_id = magic /\ s16_at (connect_header junk magic) o_cmd = RBMCMD_CONNECT.
Proof.
  intros Hz Hm. unfold connect_header, SIZEOF_HDR, o_magic_id, o_cmd, o_server_id, o_length, RBMCMD_CONNECT in *.
  assert (zlen (put32 junk 4 magic) = 20) as L1 by (rewrite zlen_put32; lia).
  assert (zlen (put16 (put32 junk 4 magic) 16 1) = 20) as L2 by (rewrite zlen_put16; lia).
  assert (zlen (put16 (put16 (put32 junk 4 magic) 16 1) 12 0) = 20) as L3 by (rewrite zlen_put16; lia).
  split_and!; [by rewrite zlen_put16; lia| |].
  - rewrite !i32_other by lia. apply i32_put32; (done || lia).
  - rewrite !s16_other by lia. apply s16_put16; lia.
Qed.

(** The answer to a header [p] with command [cmd]. *)
Lemma reply_run p sid cmd : zlen p = SIZEOF_HDR -> 0 <= sid < 65536 -> 0 <= cmd < 10 ->
  let q := put16 (put16 p o_server_id sid) o_cmd cmd in
  zlen q = SIZEOF_HDR /\ i32_at q o_magic_id = i32_at p o_magic_id /\ s16_at q o_cmd = cmd /\ u16_at q o_server_id = sid.
Proof.
  intros Hz Hs Hc q. subst q. unfold SIZEOF_HDR, o_magic_id, o_cmd, o_server_id in *.
  assert (zlen (put16 p 12 sid) = 20) as L1 by (rewrite zlen_put16; lia).
  split_and!; [by rewrite zlen_put16; lia|by rewrite !i32_other by lia|apply s16_put16; lia|].
  rewrite u16_other, u16_put16 by lia. unfold u16. apply Z.mod_small. lia.
Qed.

(** What the server does with a CONNECT packet of its own magic number, while it listens. *)
Lemma on_connect_run dataok srv a p i srv1 : stage srv = RBMST_LISTEN -> zlen p = SIZEOF_HDR -> i32_at p o_magic_id = magic_id srv ->
  s16_at p o_cmd = RBMCMD_CONNECT -> 0 <= server_id srv < 65536 -> regist_client srv a = Ret (i, srv1) -> 0 <= i < 512 ->
  exists q, listen_one dataok srv a (sealed p SIZEOF_HDR) = Ret (set_sent (sent srv1 ++ [(Unicast a, sealed q SIZEOF_HDR)]) srv1) /\
    zlen q = SIZEOF_HDR /\ i32_at q o_magic_id = magic_id srv /\ s16_at q o_cmd = RBMCMD_CONN_OK /\ u16_at q o_server_id = server_id srv /\
    s16_at q o_client_id = i.
Proof.
  intros Hst Hl Hm Hc Hsid Hreg Hi. unfold listen_one. rewrite sealed_acceptable by done. cbn [negb]. rewrite s16_sealed, Hc by (unfold o_cmd; lia).
  cbn [Z.eqb RBMCMD_CONNECT Pos.eqb]. unfold on_connect. rewrite Hst, Z.eqb_refl, Hreg. cbn [obind fst snd]. rewrite (proj2 (Z.leb_le 0 i)) by lia. cbn [obind].
  rewrite slice_all_eq by (rewrite sealed_len; lia).
  destruct (reply_run (sealed p SIZEOF_HDR) (server_id srv) RBMCMD_CONN_OK) as (H1 & H2 & H3 & H4); [by rewrite sealed_len by lia|done|unfold RBMCMD_CONN_OK; lia|].
  set (q := put16 (put16 _ o_server_id _) o_cmd _) in *. exists (put16 q o_client_id i). split; [done|]. unfold SIZEOF_HDR, o_client_id, o_magic_id, o_cmd, o_server_id in *.
  rewrite zlen_put16, i32_other, s16_other, u16_other, s16_put16 by lia. rewrite H2, i32_sealed by (unfold SIZEOF_HDR; lia). done.
Qed.

(** The connection is made.  A client sends its CONNECT packet (whatever was on its
    stack); a listening server with the same magic number, whose table has a free place or
    knows the address already, enters the address and answers; when the answer arrives
    the client is connected and has the server's number and, as its own, the place it has
    in the server's table. *)
Theorem rbm_handshake dataok mem srv cli junk a b j c :
  stage srv = RBMST_LISTEN -> magic_id srv = magic_id cli -> int_ok (magic_id cli) -> 0 <= server_id srv < 65536 ->
  zlen junk = SIZEOF_HDR -> zlen (clients srv) <= 512 -> 0 <= addruse_cnt srv < INT_MAX ->
  clients srv !! j = Some c -> in_use c = false \/ same_ip a c = true ->
  let cli1 := snd (rbm_connect mem true junk cli) in
  exists p srv' reply cli',
    sent cli1 = sent cli ++ [(to_all cli, p)] /\ listen_one dataok srv a p = Ret srv' /\
    sent srv' = sent srv ++ [(Unicast a, reply)] /\ listen_one dataok cli1 b reply = Ret cli' /\
    connected cli' = 1 /\ server_id cli' = server_id srv /\
    exists d, clients srv' !! Z.to_nat (client_id cli') = Some d /\ in_use d = true /\ same_ip a d = true.
Proof.
  intros Hst Hmg Hint Hsid Hj Hz Hcnt Hc Hfree cli1.
  destruct (connect_header_run junk (magic_id cli) Hj Hint) as (L & Em & Ec). set (h := connect_header junk (magic_id cli)) in *.
  destruct (regist_found srv a j c Hz Hcnt Hc Hfree) as (i & s' & Hreg & Hi & Hd & _ & _ & _ & _ & _ & Hsent & _).
  destruct (on_connect_run dataok srv a h i s' Hst L ltac:(congruence) Ec Hsid Hreg Hi) as (q & E & Lq & Mq & Cq & Sq & Iq).
  exists (sealed h SIZEOF_HDR). eexists. exists (sealed q SIZEOF_HDR). eexists. split; [done|]. split; [exact E|]. split; [cbn; by rewrite Hsent|]. split.
  - unfold listen_one. rewrite sealed_acceptable; [|done|cbn; congruence]. cbn [negb].
    rewrite !s16_sealed, u16_sealed by (unfold o_cmd, o_client_id, o_server_id; lia). rewrite Cq. cbn [Z.eqb RBMCMD_CONN_OK RBMCMD_CONNECT Pos.eqb].
    change (stage cli1) with RBMST_CONNECT. cbn [Z.eqb RBMST_CONNECT Pos.eqb negb]. rewrite Sq, Iq. reflexivity.
  - split; [done|]. split; [done|exact Hd].
Qed.

(** A server that is not listening (it has begun to send) refuses, and the client stays
    unconnected. *)
Lemma rbm_late_refused dataok srv a p : stage srv <> RBMST_LISTEN -> zlen p = SIZEOF_HDR -> i32_at p o_magic_id = magic_id srv ->
  s16_at p o_cmd = RBMCMD_CONNECT -> 0 <= server_id srv < 65536 ->
  exists q, listen_one dataok srv a (sealed p SIZEOF_HDR) = Ret (set_sent (sent srv ++ [(Unicast a, sealed q SIZEOF_HDR)]) srv) /\
    forall cli b, magic_id cli = magic_id srv -> listen_one dataok cli b (sealed q SIZEOF_HDR) = Ret cli.
Proof.
  intros Hst Hl Hm Hc Hsid. unfold listen_one at 1. rewrite sealed_acceptable by done. cbn [negb]. rewrite s16_sealed, Hc by (unfold o_cmd; lia).
  cbn [Z.eqb RBMCMD_CONNECT Pos.eqb]. unfold on_connect. rewrite (proj2 (Z.eqb_neq _ _)) by done. cbn [obind].
  rewrite slice_all_eq by (rewrite sealed_len; lia).
  destruct (reply_run (sealed p SIZEOF_HDR) (server_id srv) RBMCMD_NOT_ALLOW) as (H1 & H2 & H3 & H4); [by rewrite sealed_len by lia|done|unfold RBMCMD_NOT_ALLOW; lia|].
  set (q := put16 (put16 _ o_server_id _) o_cmd _) in *. exists q. split; [done|]. intros cli b Hmc. unfold listen_one.
  rewrite sealed_acceptable; [|done|rewrite H2, i32_sealed by (unfold o_magic_id; lia); congruence]. cbn [negb].
  rewrite s16_sealed, H3 by (unfold o_cmd; lia). done.
Qed.

(** Nothing is ever sent.  The test for a free buffer is the wrong way round: with
    fewer than 256 buffers in use [rbm_send] waits for one, and no packet that arrives
    changes the number in use, so the wait never ends. *)
Theorem rbm_send_blocks self buf len : wb_cnt self < RBM_MAX_WIN_BUFFER -> 0 < len ->
  stage self = RBMST_LISTEN \/ stage self = RBMST_TRANSMIT ->
  rbm_send self buf len = Block /\
  forall dataok from pkt s', listen_one dataok self from pkt = Ret s' -> wb_cnt s' = wb_cnt self.
Proof.
  intros Hw Hl Hst. split.
  - unfold rbm_send. assert ((stage self =? RBMST_LISTEN) || (stage self =? RBMST_TRANSMIT) = true) as -> by (destruct Hst as [->| ->]; done). cbn [negb].
    set (s1 := if stage self =? RBMST_LISTEN then set_stage RBMST_TRANSMIT self else self). assert (wb_cnt s1 = wb_cnt self) as E by (subst s1; by destruct (stage self =? RBMST_LISTEN)).
    cbn [send_loop]. rewrite (proj2 (Z.ltb_lt 0 len)) by done. unfold send_round, rbm_get_free_win_buf. cbn [Z.eqb negb]. by rewrite E, (proj2 (Z.ltb_lt (wb_cnt self) RBM_MAX_WIN_BUFFER) Hw).
  - intros dataok from pkt s'. unfold listen_one. destruct (negb _); [by intros [= <-]|]. destruct (_ =? RBMCMD_CONNECT).
    { unfold on_connect. destruct (stage self =? RBMST_LISTEN); [|by intros [= <-]]. unfold regist_client.
      destruct (scan in_use (same_ip from) (clients self) 0 (-1)) as [[] i]; cbn [obind fst snd]; [destruct (0 <=? i); by intros [= <-]|].
      destruct (0 <=? i) eqn:Ei; [|cbn [obind fst snd]; rewrite Ei; by intros [= <-]]. destruct (aset _ _ _) as [t| |]; cbn [obind]; [|done|done].
      destruct (ck _) as [n| |]; cbn [obind fst snd]; [|done|done]. rewrite Ei. by intros [= <-]. }
    destruct (_ =? RBMCMD_CONN_OK); [destruct (negb _); by intros [= <-]|]. destruct (_ =? RBMCMD_DATA); [|by intros [= <-]].
    destruct (negb _); [by intros [= <-]|]. destruct (_ <? _); [by intros [= <-]|]. destruct (_ <? _); [by intros [= <-]|].
    unfold rbm_get_free_win_buf. rewrite (proj2 (Z.ltb_lt _ _) Hw). destruct (negb _); [|done]. destruct (_ =? expect_seq self); [by intros [= <-]|].
    destruct (_ <? _); [by intros [= <-]|]. destruct (_ <? _); [by intros [= <-]|]. destruct (ck _) as [t| |]; cbn [obind]; [|done|done].
    destruct (crem _ _) as [k| |]; cbn [obind]; [|done|done]. destruct (dataok k); by intros [= <-].
Qed.

(** ** Examples *)
Definition demo_srv : rbm :=
  set_stage RBMST_LISTEN (snd (rbm_bind 41 (fun n => Some (replicate (Z.to_nat n) (mk_client 7 (0, 0)))) true (new_rbmcast (mk_rbm 0 0 0 0 0 0 0 0 0 0 [] 0 0 None 0 0 0 0 0 [])) 2001 77 3)).
Definition demo_cli : rbm := snd (rbm_bind 0 (fun _ => None) true (new_rbmcast demo_srv) 2001 77 0).

Lemma rbm_handshake_witness :
  let cli1 := snd (rbm_connect None true (replicate 20 9) demo_cli) in
  exists p srv' reply cli',
    sent cli1 = sent demo_cli ++ [(to_all demo_cli, p)] /\ listen_one (fun _ => false) demo_srv (5, 6) p = Ret srv' /\
    sent srv' = sent demo_srv ++ [(Unicast (5, 6), reply)] /\ listen_one (fun _ => false) cli1 (8, 9) reply = Ret cli' /\
    connected cli' = 1 /\ server_id cli' = server_id demo_srv /\
    exists d, clients srv' !! Z.to_nat (client_id cli') = Some d /\ in_use d = true /\ same_ip (5, 6) d = true.
Proof.
  apply (rbm_handshake (fun _ => false) None demo_srv demo_cli (replicate 20 9) (5, 6) (8, 9) 0 (mk_client 0 (0, 0))); try reflexivity.
  - vm_compute. split; discriminate.
  - vm_compute. split; [discriminate|reflexivity].
  - vm_compute. discriminate.
  - vm_compute. split; [discriminate|reflexivity].
  - left. reflexivity.
Defined.

Lemma rbm_send_blocks_witness : rbm_send demo_srv [1; 2; 3] 3 = Block.
Proof. apply (rbm_send_blocks demo_srv [1; 2; 3] 3); [reflexivity|reflexivity|left; reflexivity]. Defined.
End RBM.
