(* ===== verification/XObject.v ===== *)
(** * XObject.v: dynamically typed objects, x_object/x_object.c

    An object is a number, a string, a list of strings or of objects, or a table from
    strings to strings; lists and tables are linked nodes.  All operations work on one
    heap of blocks (objects, nodes, strings, pointer arrays), which [malloc] and [free]
    change, so that sharing, leaks and dangling pointers are visible: a [free] removes
    the block, and any later access to it is [Fault UseAfterFree].

    [malloc] is any function that gives a location outside the heap or fails; [junk] is
    what the memory of a new object contains, and [double] the type of C doubles.
    Strings passed by the caller are their characters; [None] is NULL. *)

From stdpp Require Import gmap.
From S2P Require Import Prelude Cstr Autofree.
Import CS.

Module XO.

Definition loc := positive.

(** The [X_OBJECT_TYPE_*] numbers. *)
Inductive otype := EMPTY | INTEGER | REAL | STRING | STRING_LIST | LIST | HASH | STRING_HASH.
#[global] Instance otype_eq_dec : EqDecision otype.
Proof. solve_decision. Defined.
Definition otype_num (t : otype) : Z :=
  match t with EMPTY => 0 | INTEGER => 1 | REAL => 2 | STRING => 3 | STRING_LIST => 4 | LIST => 5 | HASH => 6 | STRING_HASH => 7 end.

(** [struct x_object_list_t]; [xobj] points to an object or, cast, to a string. *)
Record lnode := mk_node { key : option loc; xobj : option loc; next : option loc; prev : option loc }.

Section x_object.
Context {double : Type} (zero : double).

(** The union [val], with the member that was stored last. *)
Inductive uval := VInt (i : Z) | VReal (d : double) | VStr (p : option loc) | VList (p : option loc).

(** [struct x_object_t] *)
Record xobject := mk_obj {
  obj_type : otype;
  val : uval;
  tail : option loc;
  read_ptr : option loc;
  list_count : Z;
  strlist : option loc;
  strlist_ok : bool;
  strlist_cnt : Z;
}.
Definition set_type (v : otype) (o : xobject) : xobject :=
  mk_obj v (val o) (tail o) (read_ptr o) (list_count o) (strlist o) (strlist_ok o) (strlist_cnt o).
Definition set_val (v : uval) (o : xobject) : xobject :=
  mk_obj (obj_type o) v (tail o) (read_ptr o) (list_count o) (strlist o) (strlist_ok o) (strlist_cnt o).
Definition set_tail (v : option loc) (o : xobject) : xobject :=
  mk_obj (obj_type o) (val o) v (read_ptr o) (list_count o) (strlist o) (strlist_ok o) (strlist_cnt o).
Definition set_read (v : option loc) (o : xobject) : xobject :=
  mk_obj (obj_type o) (val o) (tail o) v (list_count o) (strlist o) (strlist_ok o) (strlist_cnt o).
Definition set_count (v : Z) (o : xobject) : xobject :=
  mk_obj (obj_type o) (val o) (tail o) (read_ptr o) v (strlist o) (strlist_ok o) (strlist_cnt o).
Definition set_strlist (v : option loc) (o : xobject) : xobject :=
  mk_obj (obj_type o) (val o) (tail o) (read_ptr o) (list_count o) v (strlist_ok o) (strlist_cnt o).
Definition set_ok (v : bool) (o : xobject) : xobject :=
  mk_obj (obj_type o) (val o) (tail o) (read_ptr o) (list_count o) (strlist o) v (strlist_cnt o).
Definition set_cnt (v : Z) (o : xobject) : xobject :=
  mk_obj (obj_type o) (val o) (tail o) (read_ptr o) (list_count o) (strlist o) (strlist_ok o) v.
Definition set_next (v : option loc) (n : lnode) : lnode := mk_node (key n) (xobj n) v (prev n).
Definition set_prev (v : option loc) (n : lnode) : lnode := mk_node (key n) (xobj n) (next n) v.
Definition set_xobj (v : option loc) (n : lnode) : lnode := mk_node (key n) v (next n) (prev n).

(** A block of memory; a string is its buffer, the terminating NUL included. *)
Inductive block := Obj (o : xobject) | Node (n : lnode) | Str (buf : list Z) | Arr (a : list (option loc)).

(** The memory, [object_count], the state of autofree, and whether [autofree_intf] is set. *)
Record state := mk_state {
  heap : gmap loc block;
  object_count : Z;
  autofree : AF.state;
  autofree_intf : bool;
}.
Definition set_heap (h : gmap loc block) (s : state) : state := mk_state h (object_count s) (autofree s) (autofree_intf s).
Definition set_objects (n : Z) (s : state) : state := mk_state (heap s) n (autofree s) (autofree_intf s).

Context (malloc : gmap loc block -> option loc) (junk : xobject).

(** ** State and failure *)
Definition M (A : Type) : Type := state -> outcome (A * state).
#[global] Instance M_ret : MRet M := fun A a s => Ret (a, s).
#[global] Instance M_bind : MBind M := fun A B k m s => let* r := m s in k (fst r) (snd r).

Definition fail {A} (f : fault) : M A := fun _ => Fault f.
Definition lift {A} (r : outcome A) : M A := fun s => let* a := r in Ret (a, s).

Definition load (p : option loc) : M block := fun s =>
  match p with
  | None => Fault NullDeref
  | Some l => match heap s !! l with Some b => Ret (b, s) | None => Fault UseAfterFree end
  end.
(** A pointer to a block of another kind is a pointer to memory that was freed and reused. *)
Definition get_obj (p : option loc) : M xobject := b ← load p; match b with Obj o => mret o | _ => fail UseAfterFree end.
Definition get_node (p : option loc) : M lnode := b ← load p; match b with Node n => mret n | _ => fail UseAfterFree end.
Definition get_buf (p : option loc) : M (list Z) := b ← load p; match b with Str s => mret s | _ => fail UseAfterFree end.
Definition get_arr (p : option loc) : M (list (option loc)) := b ← load p; match b with Arr a => mret a | _ => fail UseAfterFree end.
Definition put_block (p : option loc) (b : block) : M unit := fun s =>
  match p with
  | None => Fault NullDeref
  | Some l => match heap s !! l with Some _ => Ret (tt, set_heap (<[l := b]> (heap s)) s) | None => Fault UseAfterFree end
  end.
Definition upd_obj (p : option loc) (f : xobject -> xobject) : M unit := o ← get_obj p; put_block p (Obj (f o)).
Definition upd_node (p : option loc) (f : lnode -> lnode) : M unit := n ← get_node p; put_block p (Node (f n)).

Definition alloc (b : block) : M (option loc) := fun s =>
  match malloc (heap s) with
  | Some l => Ret (Some l, set_heap (<[l := b]> (heap s)) s)
  | None => Ret (None, s)
  end.
Definition free (p : option loc) : M unit := fun s =>
  match p with
  | None => Ret (tt, s)
  | Some l => match heap s !! l with Some _ => Ret (tt, set_heap (delete l (heap s)) s) | None => Fault UseAfterFree end
  end.
Definition strdup (s : list Z) : M (option loc) := alloc (Str (s ++ [NUL])).

(** [self->val.list] and [self->val.string]. *)
Definition val_list (o : xobject) : M (option loc) := match val o with VList p => mret p | _ => fail Uninit end.
Definition val_string (o : xobject) : M (option loc) := match val o with VStr p => mret p | _ => fail Uninit end.

(** The string in a buffer; [memcpy (p, value, n)] from a string [value] of the caller. *)
Definition cstr_of (buf : list Z) : M (list Z) := n ← lift (strlen buf); mret (take (Z.to_nat n) buf).
Definition memcpy (p : option loc) (value : list Z) (n : Z) : M unit :=
  buf ← get_buf p;
  if (0 <=? n) && (n <=? zlen buf) && (n <=? zlen value + 1)
  then put_block p (Str (take (Z.to_nat n) (value ++ [NUL]) ++ drop (Z.to_nat n) buf))
  else fail OutOfBounds.

(** [object_count++] and [object_count--]. *)
Definition count_objects (d : Z) : M unit := fun s => let* n := ck (object_count s + d) in Ret (tt, set_objects n s).

(** ** Creating and destroying *)
Definition xobj_new : M (option loc) :=
  pd ← alloc (Obj junk);
  match pd with
  | None => mret None
  | Some _ =>
      upd_obj pd (set_type EMPTY);;
      upd_obj pd (set_count 0);;
      upd_obj pd (set_strlist None);;
      upd_obj pd (set_cnt 0);;
      upd_obj pd (set_ok false);;
      count_objects 1;;
      mret pd
  end.

Definition internal_free_list_obj_entry (p : option loc) : M unit := free p.

(** [objptr->dispose] calls [objptr->empty], which calls it back for the members of a list. *)
Definition dispose_with (empty : option loc -> M unit) (self : option loc) : M unit :=
  empty self;;
  free self;;
  count_objects (-1).

Fixpoint empty_fuel (fuel : nat) (self : option loc) : M unit :=
  match fuel with
  | O => fail OutOfFuel
  | S fuel =>
      o ← get_obj self;
      upd_obj self (set_type EMPTY);;
      match obj_type o with
      | EMPTY | INTEGER | REAL => mret tt
      | STRING => p ← val_string o; free p
      | LIST | STRING_LIST | HASH | STRING_HASH =>
          list ← val_list o;
          free_loop fuel (obj_type o) list;;
          upd_obj self (fun o => set_ok false (set_cnt 0 o));;
          o ← get_obj self;
          free (strlist o);;
          upd_obj self (set_strlist None)
      end
  end
(** The loop over the nodes of a list of type [otype]. *)
with free_loop (fuel : nat) (otype : otype) (list : option loc) : M unit :=
  match list with
  | None => mret tt
  | Some _ =>
      match fuel with
      | O => fail OutOfFuel
      | S fuel =>
          n ← get_node list;
          match otype with
          | LIST => dispose_with (empty_fuel fuel) (xobj n)
          | STRING_LIST => free (xobj n)
          | HASH => free (key n);; dispose_with (empty_fuel fuel) (xobj n)
          | STRING_HASH => free (key n);; free (xobj n)
          | _ => mret tt
          end;;
          internal_free_list_obj_entry list;;
          free_loop fuel otype (next n)
      end
  end.

(** Fuel: an object that is emptied becomes EMPTY and a node that is passed is freed, so
    four rounds for each block of the heap are enough ([empty_terminates]). *)
Definition fuel_of (s : state) : nat := 4 * size (heap s) + 2.
Definition xobj_empty (self : option loc) : M unit := fun s => empty_fuel (fuel_of s) self s.
Definition xobj_dispose (self : option loc) : M unit := dispose_with xobj_empty self.

(** ** Copies *)

(** A new node for [xobj], or for the string [str] and the key [skey].  Without
    [duplicate] the node takes over the pointers [pkey] and [pstr] themselves. *)
Definition internal_new_list_obj_entry (clone : option loc -> M (option loc)) (xobj : option loc)
    (skey str : option (list Z)) (pkey pstr : option loc) (duplicate : bool) : M (option loc) :=
  list ← alloc (Node (mk_node None None None None));
  match list with
  | None => mret None
  | Some _ =>
      ok ← (if duplicate then
              match xobj with
              | Some _ =>
                  c ← clone xobj;
                  match c with
                  | None => free list;; mret false
                  | Some _ => upd_node list (set_xobj c);; mret true
                  end
              | None =>
                  match str with
                  | None => upd_node list (set_xobj None)
                  | Some str => p ← strdup str; upd_node list (set_xobj p)
                  end;;
                  match skey with
                  | None => mret true
                  | Some skey => p ← strdup skey; upd_node list (fun n => mk_node p (XO.xobj n) (next n) (prev n));; mret true
                  end
              end
            else
              match xobj with
              | Some _ => upd_node list (set_xobj xobj);; mret true
              | None =>
                  upd_node list (set_xobj pstr);;
                  match skey with
                  | None => mret true
                  | Some _ => upd_node list (fun n => mk_node pkey (XO.xobj n) (next n) (prev n));; mret true
                  end
              end);
      if (ok : bool) then upd_node list (fun n => set_next None (set_prev None n));; mret list
      else mret None
  end.

Definition copy_with (clone : option loc -> M (option loc)) (self srcobj : option loc) : M Z :=
  src ← get_obj srcobj;
  if decide (obj_type src = LIST) then mret 0
  else
    xobj_empty self;;
    src ← get_obj srcobj;
    upd_obj self (fun _ => src);;
    upd_obj self (fun o => set_strlist None o);;
    upd_obj self (fun o => set_cnt 0 o);;
    o ← get_obj self;
    match obj_type o with
    | STRING =>
        src ← get_obj srcobj;
        p ← val_string src;
        buf ← get_buf p;
        txt ← cstr_of buf;
        c ← strdup txt;
        upd_obj self (set_val (VStr c));;
        match c with
        | None => xobj_empty self;; mret 0
        | Some _ =>
            buf ← get_buf c;
            n ← lift (strlen buf);
            upd_obj self (set_count (to_int n));; mret 1
        end
    | LIST =>
        list ← internal_new_list_obj_entry clone self None None None None true;
        match list with
        | None => xobj_empty self;; mret 0
        | Some _ => mret 1
        end
    | _ => mret 1
    end.

(** [xobj_clone] does not look at what [objptr->copy] returns.  [copy_with] clones only
    an object that became a list after it was found not to be one, so fuel 2 is enough. *)
Fixpoint clone_fuel (fuel : nat) (self : option loc) : M (option loc) :=
  match fuel with
  | O => fail OutOfFuel
  | S fuel =>
      xobj ← xobj_new;
      match xobj with
      | None => mret None
      | Some _ => copy_with (clone_fuel fuel) xobj self;; mret xobj
      end
  end.
Definition xobj_clone (self : option loc) : M (option loc) := clone_fuel 2 self.
Definition xobj_copy (self srcobj : option loc) : M Z := copy_with xobj_clone self srcobj.

(** ** Lists *)
Definition incr_count (self : option loc) : M unit :=
  o ← get_obj self; n ← lift (ck (list_count o + 1)); upd_obj self (set_count n).
Definition decr_count (self : option loc) : M unit :=
  o ← get_obj self; n ← lift (ck (list_count o - 1)); upd_obj self (set_count n).

(** [self->tail->next = list; list->prev = self->tail; self->tail = list;] *)
Definition link_tail (self list : option loc) : M unit :=
  o ← get_obj self;
  upd_node (tail o) (set_next list);;
  upd_node list (set_prev (tail o));;
  upd_obj self (set_tail list).

Definition xobj_internal_push (self xobj : option loc) (str : option (list Z)) (pstr : option loc) (duplicate : bool) : M Z :=
  upd_obj self (set_ok false);;
  o ← get_obj self;
  if match obj_type o with EMPTY => true | LIST => bool_decide (xobj <> None) | STRING_LIST => bool_decide (xobj = None) | _ => false end then
    list ← internal_new_list_obj_entry xobj_clone xobj None str None pstr duplicate;
    match list with
    | None => mret 0
    | Some _ =>
        match obj_type o with
        | EMPTY =>
            upd_obj self (set_type (match xobj with Some _ => LIST | None => STRING_LIST end));;
            upd_obj self (set_val (VList list));;
            upd_obj self (set_tail list);;
            upd_obj self (set_count 1)
        | LIST => link_tail self list;; incr_count self
        | STRING_LIST => link_tail self list;; upd_obj self (set_read None);; incr_count self
        | _ => mret tt
        end;;
        mret 1
    end
  else mret 0.

Definition xobj_push (self xobj : option loc) : M Z := xobj_internal_push self xobj None None true.
Definition xobj_Push (self xobj : option loc) : M Z := xobj_internal_push self xobj None None false.
Definition xobj_str_push (self : option loc) (str : option (list Z)) : M Z := xobj_internal_push self None str None true.

(** [autofree_intf->free (str)]: the blocks autofree passes to [free] go. *)
Definition free_ptrs (ptrs : list Z) (s : state) : outcome state :=
  foldl (fun r p => let* s := r in let* u := free (Some (Z.to_pos p)) s in Ret (snd u)) (Ret s) ptrs.
Definition autofree_free (p : option loc) : M unit := fun s =>
  if autofree_intf s then
    let* af := AF.af_free (Zpos <$> p) (autofree s) in
    let* s' := free_ptrs (drop (length (AF.freed (autofree s))) (AF.freed af)) s in
    Ret (tt, mk_state (heap s') (object_count s') af (autofree_intf s'))
  else Fault NullDeref.

(** What [xobj_str_pop], [xobj_pop] and, without the update of [tail], [xobj_shift] do. *)
Definition take_tail (t : otype) (set_t : bool) (self : option loc) : M (option (option loc)) :=
  upd_obj self (set_ok false);;
  o ← get_obj self;
  if negb (bool_decide (obj_type o = t)) then mret None
  else if list_count o =? 0 then upd_obj self (set_type EMPTY);; mret None
  else if list_count o =? 1 then
    upd_obj self (set_count 0);;
    list ← val_list o;
    upd_obj self (set_val (VList None));;
    n ← get_node list;
    internal_free_list_obj_entry list;;
    mret (Some (xobj n))
  else
    decr_count self;;
    n ← get_node (tail o);
    upd_node (prev n) (set_next None);;
    (if set_t then upd_obj self (set_tail (prev n)) else mret tt);;
    n' ← get_node (tail o);
    internal_free_list_obj_entry (tail o);;
    mret (Some (xobj n')).

Definition xobj_str_pop (self : option loc) : M (option loc) :=
  r ← take_tail STRING_LIST true self;
  match r with
  | None => mret None
  | Some str => autofree_free str;; mret str
  end.
Definition xobj_pop (pd : option loc) : M (option loc) := r ← take_tail LIST true pd; mret (default None r).
Definition xobj_shift (pd : option loc) : M (option loc) := r ← take_tail LIST false pd; mret (default None r).

Definition xobj_internal_unshift (pd xobj : option loc) (duplicate : bool) : M Z :=
  upd_obj pd (set_ok false);;
  o ← get_obj pd;
  if match obj_type o with EMPTY | LIST => true | _ => false end then
    list ← internal_new_list_obj_entry xobj_clone xobj None None None None duplicate;
    match list with
    | None => mret 0
    | Some _ =>
        match obj_type o with
        | EMPTY =>
            upd_obj pd (set_type LIST);;
            upd_obj pd (set_val (VList list));;
            upd_obj pd (set_count 1);;
            upd_obj pd (set_tail list)
        | LIST =>
            first ← val_list o;
            upd_node first (set_prev list);;
            upd_node list (set_next first);;
            upd_obj pd (set_val (VList list));;
            incr_count pd
        | _ => mret tt
        end;;
        mret 0
    end
  else mret 0.
Definition xobj_unshift (self xobj : option loc) : M Z := xobj_internal_unshift self xobj true.
Definition xobj_Unshift (self xobj : option loc) : M Z := xobj_internal_unshift self xobj false.

(** ** Numbers and strings *)
Definition xobj_type_of (self : option loc) : M Z := o ← get_obj self; mret (otype_num (obj_type o)).
Definition xobj_is_array (self : option loc) : M Z := o ← get_obj self; mret (b2z (bool_decide (obj_type o = LIST))).
Definition xobj_is_empty (self : option loc) : M Z := o ← get_obj self; mret (b2z (bool_decide (obj_type o = EMPTY))).
Definition xobj_intval (self : option loc) : M Z :=
  o ← get_obj self;
  match obj_type o with
  | INTEGER => match val o with VInt i => mret i | _ => fail Uninit end
  | LIST | STRING_LIST | HASH | STRING_HASH => mret (list_count o)
  | _ => mret 0
  end.
Definition xobj_count (self : option loc) : M Z :=
  o ← get_obj self;
  match obj_type o with
  | LIST | STRING_LIST | HASH | STRING_HASH => mret (list_count o)
  | _ => mret 0
  end.
Definition xobj_realnum (self : option loc) : M double :=
  o ← get_obj self;
  match obj_type o with
  | REAL => match val o with VReal d => mret d | _ => fail Uninit end
  | _ => mret zero
  end.
Definition xobj_string (self : option loc) : M (option loc) :=
  o ← get_obj self;
  match obj_type o with STRING => val_string o | _ => mret None end.

Definition xobj_setint (self : option loc) (value : Z) : M unit :=
  xobj_empty self;; upd_obj self (set_type INTEGER);; upd_obj self (set_val (VInt value)).
Definition xobj_setreal (self : option loc) (value : double) : M unit :=
  xobj_empty self;; upd_obj self (set_type REAL);; upd_obj self (set_val (VReal value)).
Definition xobj_setstr (self : option loc) (value : option (list Z)) : M unit :=
  match value with
  | None =>
      xobj_empty self;;
      upd_obj self (set_val (VStr None));;
      upd_obj self (set_count 0)
  | Some value =>
      let len := to_int (zlen value) in
      o ← get_obj self;
      if bool_decide (obj_type o = STRING) && (len <=? list_count o) then
        p ← val_string o; memcpy p value (zlen value + 1)
      else
        xobj_empty self;;
        p ← strdup value;
        upd_obj self (set_val (VStr p));;
        match p with
        | None => mret tt
        | Some _ => upd_obj self (set_type STRING);; upd_obj self (set_count len)
        end
  end.

(** ** The strings of a list as an array *)

(** [for (i = 0; i < len; i++)]: [n] rounds are left. *)
Fixpoint strlist_loop (n : nat) (i : Z) (t : otype) (arr list : option loc) : M unit :=
  match n with
  | O => mret tt
  | S n =>
      a ← get_arr arr;
      match list with
      | None => a ← lift (aset a i None); put_block arr (Arr a)
      | Some _ =>
          e ← get_node list;
          p ← (if decide (t = LIST) then xobj_string (xobj e) else mret (xobj e));
          a ← lift (aset a i p);
          put_block arr (Arr a);;
          strlist_loop n (i + 1) t arr (next e)
      end
  end.

Definition internal_gen_strlist (self : option loc) : M Z :=
  o ← get_obj self;
  if negb (bool_decide (obj_type o = LIST) || bool_decide (obj_type o = STRING_LIST)) then mret 0
  else
    let len := list_count o in
    (if strlist_cnt o <? len then
       free (strlist o);; upd_obj self (fun o => set_strlist None (set_cnt 0 (set_ok false o)))
     else mret tt);;
    o ← get_obj self;
    arr ← match strlist o with
          | None => p ← alloc (Arr (replicate (Z.to_nat len) None)); upd_obj self (set_strlist p);; mret p
          | Some _ => mret (strlist o)
          end;
    match arr with
    | None => upd_obj self (fun o => set_cnt 0 (set_ok false o));; mret 0
    | Some _ =>
        o ← get_obj self;
        if strlist_ok o then mret 1
        else
          list ← val_list o;
          strlist_loop (Z.to_nat len) 0 (obj_type o) arr list;;
          upd_obj self (fun o => set_cnt len (set_ok true o));;
          mret 1
    end.

Definition xobj_string_array (self : option loc) : M (option loc) :=
  o ← get_obj self;
  if negb (bool_decide (obj_type o = LIST) || bool_decide (obj_type o = STRING_LIST)) then mret None
  else
    r ← internal_gen_strlist self;
    if r =? 0 then mret None else o ← get_obj self; mret (strlist o).

(** ** Tables *)

(** [strcmp (keystr, key) == 0] *)
Definition same_key (keystr : option (list Z)) (key : option loc) : M bool :=
  match keystr with
  | None => fail NullDeref
  | Some k => buf ← get_buf key; t ← cstr_of buf; mret (bool_decide (k = t))
  end.

Fixpoint get_loop (fuel : nat) (keystr : option (list Z)) (list : option loc) : M (option loc) :=
  match list with
  | None => mret None
  | Some _ =>
      match fuel with
      | O => fail OutOfFuel
      | S fuel =>
          n ← get_node list;
          b ← match key n with Some _ => same_key keystr (key n) | None => mret false end;
          if (b : bool) then mret list else get_loop fuel keystr (next n)
      end
  end.
(** The loop passes each node once: the number of blocks is enough. *)
Definition find_entry (keystr : option (list Z)) (list : option loc) : M (option loc) := fun s =>
  get_loop (size (heap s)) keystr list s.
Definition xobj_internal_get (self : option loc) (keystr : option (list Z)) : M (option loc) :=
  o ← get_obj self;
  if negb (bool_decide (obj_type o = STRING_HASH)) then mret None
  else list ← val_list o; find_entry keystr list.

(** The value's pointer, or the address of [nullstr]. *)
Inductive strptr := NULL | Nullstr | Ptr (l : loc).
Definition xobj_get (self : option loc) (keystr : option (list Z)) : M strptr :=
  list ← xobj_internal_get self keystr;
  match list with
  | None => mret NULL
  | Some _ => n ← get_node list; mret (match xobj n with None => Nullstr | Some l => Ptr l end)
  end.

(** [self->tail->next = list; self->tail = list; list->prev = self->tail;] *)
Definition link_entry (self list : option loc) : M unit :=
  o ← get_obj self;
  upd_node (tail o) (set_next list);;
  upd_obj self (set_tail list);;
  o ← get_obj self;
  upd_node list (set_prev (tail o)).

Definition replace_value (value : list Z) (self list : option loc) : M Z :=
  let len := to_int (zlen value) in
  n ← get_node list;
  match xobj n with
  | Some _ =>
      buf ← get_buf (xobj n);
      old ← lift (strlen buf);
      if u64 len <=? old then memcpy (xobj n) value (len + 1);; mret 1
      else
        free (xobj n);;
        p ← strdup value;
        upd_node list (set_xobj p);;
        upd_obj self (set_ok false);;
        mret 1
  | None =>
      p ← strdup value;
      upd_node list (set_xobj p);;
      upd_obj self (set_ok false);;
      mret 1
  end.

Definition xobj_internal_put (self : option loc) (duplicate : bool) (xobj : option loc)
    (keystr : option (list Z)) (value : list Z) (pkey pvalue : option loc) : M Z :=
  match keystr with
  | None => mret 0
  | Some _ =>
      o ← get_obj self;
      found ← match obj_type o with
              | EMPTY | HASH => mret (Some None)
              | STRING_HASH =>
                  if xobj is Some _ then mret None
                  else l ← xobj_internal_get self keystr; mret (Some l)
              | _ => mret None
              end;
      match found with
      | None => mret 0
      | Some (Some l) => replace_value value self (Some l)
      | Some None =>
          list ← internal_new_list_obj_entry xobj_clone xobj keystr (Some value) pkey pvalue duplicate;
          match list with
          | None => mret 0
          | Some _ =>
              upd_obj self (set_ok false);;
              upd_obj self (set_read None);;
              match obj_type o with
              | EMPTY =>
                  upd_obj self (set_type (match xobj with Some _ => HASH | None => STRING_HASH end));;
                  upd_obj self (set_val (VList list));;
                  upd_obj self (set_tail list);;
                  upd_obj self (set_count 1)
              | HASH | STRING_HASH => link_entry self list;; incr_count self
              | _ => mret tt
              end;;
              mret 1
          end
      end
  end.
Definition xobj_put (self : option loc) (keystr value : option (list Z)) : M Z :=
  match keystr, value with
  | Some _, Some value => xobj_internal_put self true None keystr value None None
  | _, _ => mret 0
  end.

Definition xobj_del (self : option loc) (keystr : option (list Z)) : M Z :=
  o ← get_obj self;
  if negb (bool_decide (obj_type o = STRING_HASH) || bool_decide (obj_type o = HASH)) then mret 0
  else
    list ← xobj_internal_get self keystr;
    match list with
    | None => mret 1
    | Some _ =>
        (if decide (read_ptr o = list) then upd_obj self (set_read None) else mret tt);;
        if list_count o =? 1 then
          upd_obj self (fun o => set_val (VList None) (set_tail None o));;
          upd_obj self (set_count 0);;
          mret 1
        else
          first ← val_list o;
          (if decide (first = list) then
             n ← get_node list;
             upd_obj self (set_val (VList (next n)));;
             upd_node (next n) (set_prev None)
           else if decide (tail o = list) then
             n ← get_node list;
             upd_obj self (set_tail (prev n));;
             upd_node (prev n) (set_next None)
           else mret tt);;
          decr_count self;;
          n ← get_node list;
          free (key n);;
          match obj_type o with
          | STRING_HASH => free (xobj n)
          | _ => xobj_dispose (xobj n)
          end;;
          internal_free_list_obj_entry list;;
          mret 1
    end.

Definition xobj_is_exist (self : option loc) (key : option (list Z)) : M Z :=
  p ← xobj_get self key; mret (match p with NULL => 0 | _ => 1 end).

(** [get_first] and [get_next]: the key and the value stored for the caller, or 0. *)
Definition read_entry (self list : option loc) : M (option (option loc * option loc)) :=
  match list with
  | None => mret None
  | Some _ => n ← get_node list; upd_obj self (set_read (next n));; mret (Some (key n, xobj n))
  end.
Definition xobj_get_first (self : option loc) : M (option (option loc * option loc)) :=
  o ← get_obj self;
  if negb (bool_decide (obj_type o = STRING_HASH)) then mret None
  else upd_obj self (set_read None);; list ← val_list o; read_entry self list.
Definition xobj_get_next (self : option loc) : M (option (option loc * option loc)) :=
  o ← get_obj self;
  if negb (bool_decide (obj_type o = STRING_HASH)) then mret None
  else read_entry self (read_ptr o).

Definition xobj_cleanup : M unit := fun s =>
  if autofree_intf s then
    let* af := AF.af_dispose (autofree s) in
    let* s' := free_ptrs (drop (length (AF.freed (autofree s))) (AF.freed af)) s in
    Ret (tt, mk_state (heap s') (object_count s') af false)
  else Ret (tt, s).
(** [psz]: the size of a pointer; [mem], [mjunk]: the table autofree allocates. *)
Definition init_x_object_interface (mem : bool) (mjunk : list (option Z)) (psz : Z) : M unit := fun s =>
  if autofree_intf s then Ret (tt, s)
  else
    let* af := AF.init_autofree_interface mem mjunk psz (autofree s) 60 in
    Ret (tt, mk_state (heap s) (object_count s) af true).

(** ** Running *)
Definition wr (l : loc) (b : block) (s : state) : state := set_heap (<[l := b]> (heap s)) s.
Definition rm (l : loc) (s : state) : state := set_heap (delete l (heap s)) s.

Lemma bind_Ret {A B} (m : M A) (k : A -> M B) s a s' : m s = Ret (a, s') -> (m ≫= k) s = k a s'.
Proof. unfold mbind, M_bind. by intros ->. Qed.
Lemma bind_Fault {A B} (m : M A) (k : A -> M B) s f : m s = Fault f -> (m ≫= k) s = Fault f.
Proof. unfold mbind, M_bind. by intros ->. Qed.
Lemma bind_inv {A B} (m : M A) (k : A -> M B) s r : (m ≫= k) s = Ret r -> exists a s', m s = Ret (a, s') /\ k a s' = Ret r.
Proof. unfold mbind, M_bind. destruct (m s) as [[a s']| |]; cbn; intros E; [by exists a, s'|done|done]. Qed.
Lemma bind_assoc {A B C} (m : M A) (k : A -> M B) (k' : B -> M C) s : ((m ≫= k) ≫= k') s = (m ≫= (fun a => k a ≫= k')) s.
Proof. unfold mbind, M_bind. by destruct (m s). Qed.
Lemma mret_bind {A B} (a : A) (k : A -> M B) s : (mret a ≫= k) s = k a s.
Proof. done. Qed.

Lemma load_run s l b : heap s !! l = Some b -> load (Some l) s = Ret (b, s).
Proof. unfold load. by intros ->. Qed.
Lemma get_obj_run s l o : heap s !! l = Some (Obj o) -> get_obj (Some l) s = Ret (o, s).
Proof. intros H. unfold get_obj. by rewrite (bind_Ret _ _ _ _ _ (load_run _ _ _ H)). Qed.
Lemma get_node_run s l n : heap s !! l = Some (Node n) -> get_node (Some l) s = Ret (n, s).
Proof. intros H. unfold get_node. by rewrite (bind_Ret _ _ _ _ _ (load_run _ _ _ H)). Qed.
Lemma get_node_gone s l : heap s !! l = None -> get_node (Some l) s = Fault UseAfterFree.
Proof. intros H. apply bind_Fault. unfold load. by rewrite H. Qed.
Lemma get_buf_run s l b : heap s !! l = Some (Str b) -> get_buf (Some l) s = Ret (b, s).
Proof. intros H. unfold get_buf. by rewrite (bind_Ret _ _ _ _ _ (load_run _ _ _ H)). Qed.
Lemma get_arr_run s l a : heap s !! l = Some (Arr a) -> get_arr (Some l) s = Ret (a, s).
Proof. intros H. unfold get_arr. by rewrite (bind_Ret _ _ _ _ _ (load_run _ _ _ H)). Qed.
Lemma put_block_run s l b b' : heap s !! l = Some b' -> put_block (Some l) b s = Ret (tt, wr l b s).
Proof. unfold put_block. by intros ->. Qed.
Lemma upd_obj_run s l o f : heap s !! l = Some (Obj o) -> upd_obj (Some l) f s = Ret (tt, wr l (Obj (f o)) s).
Proof. intros H. unfold upd_obj. rewrite (bind_Ret _ _ _ _ _ (get_obj_run _ _ _ H)). by eapply put_block_run. Qed.
Lemma upd_node_run s l n f : heap s !! l = Some (Node n) -> upd_node (Some l) f s = Ret (tt, wr l (Node (f n)) s).
Proof. intros H. unfold upd_node. rewrite (bind_Ret _ _ _ _ _ (get_node_run _ _ _ H)). by eapply put_block_run. Qed.
Lemma upd_node_bad s l f : match heap s !! l with Some (Node _) => False | _ => True end -> upd_node (Some l) f s = Fault UseAfterFree.
Proof. intros H. unfold upd_node, get_node, load, mbind, M_bind. destruct (heap s !! l) as [[]|]; done. Qed.
Lemma free_run s l b : heap s !! l = Some b -> free (Some l) s = Ret (tt, rm l s).
Proof. unfold free. by intros ->. Qed.
Lemma free_null s : free None s = Ret (tt, s).
Proof. done. Qed.
Lemma alloc_run s l b : malloc (heap s) = Some l -> alloc b s = Ret (Some l, wr l b s).
Proof. unfold alloc. by intros ->. Qed.
Lemma lift_run {A} (r : outcome A) a s : r = Ret a -> lift r s = Ret (a, s).
Proof. unfold lift. by intros ->. Qed.
Lemma count_run d s : int_ok (object_count s + d) -> count_objects d s = Ret (tt, set_objects (object_count s + d) s).
Proof. intros H. unfold count_objects. by rewrite ck_Ret. Qed.
Lemma heap_wr l b s : heap (wr l b s) = <[l := b]> (heap s).
Proof. done. Qed.
Lemma heap_rm l s : heap (rm l s) = delete l (heap s).
Proof. done. Qed.
Lemma cstr_of_run buf t s : cstr buf t -> cstr_of buf s = Ret (t, s).
Proof.
  intros (Hn & _ & r & ->). unfold cstr_of. rewrite (bind_Ret _ _ _ _ _ (lift_run _ _ s (strlen_run t r Hn))).
  unfold zlen. rewrite Nat2Z.id. by rewrite take_app_length.
Qed.

(** ** Termination of [empty] and [dispose], whatever the heap contains *)
Definition weight (b : block) : nat := match b with Obj o => if decide (obj_type o = EMPTY) then 1 else 2 | _ => 1 end.
Definition total (h : gmap loc block) : nat := sum_list_with (fun x => weight (snd x)) (map_to_list h).

Lemma total_delete h l b : h !! l = Some b -> total h = (weight b + total (delete l h))%nat.
Proof. intros H. unfold total. rewrite <- (map_to_list_delete h l b H). done. Qed.
Lemma total_insert h l b b' : h !! l = Some b -> (total (<[l := b']> h) + weight b = total h + weight b')%nat.
Proof.
  intros H. rewrite (total_delete h l b H), (total_delete (<[l := b']> h) l b') by apply lookup_insert_eq.
  rewrite delete_insert_eq. lia.
Qed.
Lemma weight_pos b : (1 <= weight b <= 2)%nat.
Proof. destruct b; cbn; try lia. case_decide; lia. Qed.
Lemma total_size h : (total h <= 2 * size h)%nat.
Proof.
  unfold total. rewrite <- length_map_to_list. induction (map_to_list h) as [|x l IH]; cbn [sum_list_with length]; [lia|].
  pose proof (weight_pos (snd x)). lia.
Qed.

(** [m] does not run out of fuel from [s], and from there the weight does not grow. *)
Definition ends {A} (m : M A) (s : state) : Prop :=
  match m s with Ret (_, s') => (total (heap s') <= total (heap s))%nat | Fault OutOfFuel => False | _ => True end.
Lemma ends_bind {A B} (m : M A) (k : A -> M B) s : ends m s ->
  (forall a s', m s = Ret (a, s') -> (total (heap s') <= total (heap s))%nat -> ends (k a) s') -> ends (m ≫= k) s.
Proof.
  unfold ends, mbind, M_bind. destruct (m s) as [[a s']| |f]; cbn [obind fst snd]; [|done|done]. intros Hm Hk. specialize (Hk a s' eq_refl Hm).
  destruct (k a s') as [[b s'']| |]; [lia|done|done].
Qed.
Lemma ends_mret {A} (a : A) s : ends (mret a) s.
Proof. unfold ends. cbn. lia. Qed.
Lemma load_ends p s : ends (load p) s.
Proof. unfold ends, load. destruct p as [l|]; [|done]. destruct (heap s !! l); [lia|done]. Qed.
Lemma get_obj_ends p s : ends (get_obj p) s.
Proof. apply ends_bind; [apply load_ends|]. intros [] s' _ _; done || apply ends_mret. Qed.
Lemma get_node_ends p s : ends (get_node p) s.
Proof. apply ends_bind; [apply load_ends|]. intros [] s' _ _; done || apply ends_mret. Qed.
Lemma get_obj_inv p s o s' : get_obj p s = Ret (o, s') -> s' = s /\ exists l, p = Some l /\ heap s !! l = Some (Obj o).
Proof.
  intros H. apply bind_inv in H as (b & s1 & H1 & H2). unfold load in H1. destruct p as [l|]; [|done].
  destruct (heap s !! l) as [b'|] eqn:E; [|done]. simplify_eq. destruct b; cbn in H2; try done. unfold mret, M_ret in H2. simplify_eq. eauto.
Qed.
Lemma free_ends p s : ends (free p) s.
Proof.
  unfold ends, free. destruct p as [l|]; [|lia]. destruct (heap s !! l) as [b|] eqn:E; [|done]. cbn. rewrite (total_delete _ _ _ E). lia.
Qed.
Lemma free_shrinks l s s' : free (Some l) s = Ret (tt, s') -> (total (heap s') < total (heap s))%nat.
Proof.
  unfold free. destruct (heap s !! l) as [b|] eqn:E; [|done]. intros [= <-]. cbn. rewrite (total_delete _ _ _ E). pose proof (weight_pos b). lia.
Qed.
Lemma count_ends d s : ends (count_objects d) s.
Proof. unfold ends, count_objects, ck. destruct (int_okb _); cbn; [lia|done]. Qed.
(** An update of an object that leaves its type, or makes it EMPTY. *)
Lemma upd_obj_ends p f s : (forall o, obj_type (f o) = obj_type o \/ obj_type (f o) = EMPTY) -> ends (upd_obj p f) s.
Proof.
  intros Hf. unfold ends, upd_obj. destruct (get_obj p s) as [[o s']| |] eqn:E.
  - rewrite (bind_Ret _ _ _ _ _ E). apply get_obj_inv in E as (-> & l & -> & Hl). rewrite (put_block_run _ _ _ _ Hl). cbn.
    pose proof (total_insert _ _ _ (Obj (f o)) Hl) as Ht. cbn in Ht. destruct (Hf o) as [E|E]; rewrite E in Ht; repeat case_decide; try done; lia.
  - unfold mbind, M_bind. by rewrite E.
  - pose proof (get_obj_ends p s) as Hg. unfold ends in Hg. unfold mbind, M_bind. by rewrite E in *.
Qed.

Lemma type_empty_shrinks p s o s1 u s2 : get_obj p s = Ret (o, s1) -> obj_type o <> EMPTY ->
  upd_obj p (set_type EMPTY) s1 = Ret (u, s2) -> (total (heap s2) < total (heap s))%nat.
Proof.
  intros Hg Ht Hu. apply get_obj_inv in Hg as (-> & l & -> & Hl). rewrite (upd_obj_run _ _ _ _ Hl) in Hu. simplify_eq. cbn.
  pose proof (total_insert _ _ _ (Obj (set_type EMPTY o)) Hl) as Hw. cbn in Hw. repeat case_decide; try done; lia.
Qed.

Lemma dispose_ends f p s : ends (f p) s -> ends (dispose_with f p) s.
Proof.
  intros H. apply ends_bind; [done|]. intros _ s1 _ _. apply ends_bind; [apply free_ends|]. intros _ s2 _ _. apply count_ends.
Qed.

Lemma fuel_ends fuel :
  (forall p s, (2 * total (heap s) + 1 <= fuel)%nat -> ends (empty_fuel fuel p) s) /\
  (forall t p s, (2 * total (heap s) + 2 <= fuel)%nat -> ends (free_loop fuel t p) s).
Proof.
  induction fuel as [|fuel [IHe IHl]]; split; [intros; lia|intros; lia| |].
  - intros p s Hf. cbn [empty_fuel]. apply ends_bind; [apply get_obj_ends|]. intros o s1 Hg Hle1.
    apply ends_bind; [apply upd_obj_ends; auto|]. intros u s2 Hu Hle2.
    assert (obj_type o <> EMPTY -> forall list, ends (free_loop fuel (obj_type o) list;;
      upd_obj p (fun o => set_ok false (set_cnt 0 o));; o ← get_obj p; free (strlist o);; upd_obj p (set_strlist None)) s2) as Hlist.
    { intros Ht list. pose proof (type_empty_shrinks _ _ _ _ _ _ Hg Ht Hu). apply ends_bind; [apply IHl; lia|]. intros _ s3 _ _.
      apply ends_bind; [apply upd_obj_ends; auto|]. intros _ s4 _ _. apply ends_bind; [apply get_obj_ends|]. intros o' s5 _ _.
      apply ends_bind; [apply free_ends|]. intros _ s6 _ _. apply upd_obj_ends; auto. }
    unfold val_string, val_list. destruct (obj_type o) eqn:Et; try apply ends_mret; destruct (val o);
      (apply ends_bind; [first [apply ends_mret|done]|]); intros x s3; try done; intros [= <- <-] _; first [by apply Hlist|apply free_ends].
  - intros t p s Hf. destruct p as [l|]; [|apply ends_mret]. cbn [free_loop]. apply ends_bind; [apply get_node_ends|]. intros n s1 _ Hle1.
    apply ends_bind.
    { destruct t; try apply ends_mret; try apply free_ends.
      - apply dispose_ends, IHe. lia.
      - apply ends_bind; [apply free_ends|]. intros _ s2 _ Hle2. apply dispose_ends, IHe. lia.
      - apply ends_bind; [apply free_ends|]. intros _ s2 _ Hle2. apply free_ends. }
    intros _ s2 _ Hle2. apply ends_bind; [apply free_ends|]. intros [] s3 Hfr _. apply free_shrinks in Hfr. apply IHl. lia.
Qed.

(** C40: [xobj_empty] and [xobj_dispose] return or fault on every heap, lists that contain
    themselves, shared nodes and dangling pointers included: the recursion through the
    members of a list never runs forever, since an object is marked EMPTY before its
    members are visited and every node passed is freed. *)
Theorem empty_terminates (self : option loc) (s : state) :
  xobj_empty self s <> Fault OutOfFuel /\ xobj_dispose self s <> Fault OutOfFuel.
Proof.
  assert (ends (xobj_empty self) s) as He.
  { pose proof (total_size (heap s)). apply (proj1 (fuel_ends (fuel_of s))). unfold fuel_of. lia. }
  assert (ends (xobj_dispose self) s) as Hd by exact (dispose_ends _ _ _ He).
  unfold ends in *. split; intros E; [by rewrite E in He|by rewrite E in Hd].
Qed.

(** ** Linked nodes *)

(** A node with the buffers of its key and its value. *)
Record entry := mk_entry { e_node : loc; e_key : option (loc * list Z); e_val : option (loc * list Z) }.
Definition str_locs (x : option (loc * list Z)) : list loc := option_list (fst <$> x).
Definition locs (e : entry) : list loc := e_node e :: str_locs (e_key e) ++ str_locs (e_val e).
Lemma node_in_locs e : e_node e ∈ locs e.
Proof. constructor. Qed.
Lemma key_in_locs e x : x ∈ str_locs (e_key e) -> x ∈ locs e.
Proof. intros H. apply list_elem_of_further, elem_of_app. by left. Qed.
Lemma val_in_locs e x : x ∈ str_locs (e_val e) -> x ∈ locs e.
Proof. intros H. apply list_elem_of_further, elem_of_app. by right. Qed.
Definition foot (es : list entry) : list loc := es ≫= locs.
Definition str_at (h : gmap loc block) (x : option (loc * list Z)) : Prop :=
  match x with Some (l, buf) => h !! l = Some (Str buf) /\ exists t, cstr buf t | None => True end.
Definition lnode_of (e : entry) (nx pv : option loc) : lnode := mk_node (fst <$> e_key e) (fst <$> e_val e) nx pv.

(** The nodes from [p] to [q] hold [es], the node before [p] is [pv].  [link_tail] sets
    [prev] to the node before, [link_entry] ([own]) to the node itself. *)
Definition prev_of (own : bool) (pv : option loc) (e : entry) : option loc :=
  match pv with None => None | Some l => Some (if own then e_node e else l) end.
Fixpoint chain (own : bool) (h : gmap loc block) (p pv : option loc) (es : list entry) (q : option loc) : Prop :=
  match es with
  | [] => p = q
  | e :: es =>
      p = Some (e_node e) /\ exists nx, h !! e_node e = Some (Node (lnode_of e nx (prev_of own pv e))) /\
        str_at h (e_key e) /\ str_at h (e_val e) /\ chain own h nx (Some (e_node e)) es q
  end.

Lemma str_at_frame h h' x : (forall l, l ∈ str_locs x -> h' !! l = h !! l) -> str_at h x -> str_at h' x.
Proof. destruct x as [[l b]|]; [|done]. intros H [Hl Hc]. cbn. rewrite H by (cbn; by constructor). done. Qed.

Lemma chain_frame own h h' es : forall p pv q, (forall l, l ∈ foot es -> h' !! l = h !! l) -> chain own h p pv es q -> chain own h' p pv es q.
Proof.
  induction es as [|e es IH]; intros p pv q Hf; [done|]. cbn [chain foot] in *. intros (-> & nx & Hn & Hk & Hv & Hc).
  change (foot (e :: es)) with (locs e ++ foot es) in Hf. split; [done|]. exists nx. split_and!.
  - rewrite Hf; [done|]. apply elem_of_app. left. apply node_in_locs.
  - eapply str_at_frame; [|done]. intros l Hl. apply Hf, elem_of_app. left. by apply key_in_locs.
  - eapply str_at_frame; [|done]. intros l Hl. apply Hf, elem_of_app. left. by apply val_in_locs.
  - eapply IH; [|done]. intros l Hl. apply Hf, elem_of_app. by right.
Qed.

(** The node before the end of [es]. *)
Definition last_node (pv : option loc) (es : list entry) : option loc := match last es with Some e => Some (e_node e) | None => pv end.
Lemma last_node_cons pv e es : last_node pv (e :: es) = last_node (Some (e_node e)) es.
Proof. unfold last_node. rewrite last_cons. by destruct (last es). Qed.

Lemma chain_app own h es1 es2 : forall p pv q, chain own h p pv (es1 ++ es2) q <->
  exists r, chain own h p pv es1 r /\ chain own h r (last_node pv es1) es2 q.
Proof.
  induction es1 as [|e es1 IH]; intros p pv q.
  - cbn. split; [intros H; by exists p|by intros (r & -> & H)].
  - rewrite last_node_cons. cbn [chain app]. split.
    + intros (-> & nx & Hn & Hk & Hv & Hc). apply IH in Hc as (r & H1 & H2). exists r. split; [eauto 10|done].
    + intros (r & (-> & nx & Hn & Hk & Hv & Hc) & H2). split; [done|]. exists nx. split_and!; try done. apply IH. by exists r.
Qed.

Lemma foot_app es1 es2 : foot (es1 ++ es2) = foot es1 ++ foot es2.
Proof. apply bind_app. Qed.
Lemma foot_cons e es : foot (e :: es) = locs e ++ foot es.
Proof. done. Qed.
Lemma node_in_foot e es : e ∈ es -> e_node e ∈ foot es.
Proof. intros H. apply list_elem_of_bind. exists e. split; [|done]. apply list_elem_of_here. Qed.
Lemma chain_dom own h es : forall p pv q, chain own h p pv es q -> forall l, l ∈ foot es -> is_Some (h !! l).
Proof.
  induction es as [|e es IH]; intros p pv q; cbn [chain]; [intros _ l Hl; by apply not_elem_of_nil in Hl|].
  intros (-> & nx & Hn & Hk & Hv & Hc) l. rewrite foot_cons, elem_of_app. intros [Hl|Hl]; [|by eapply IH].
  unfold locs in Hl. rewrite elem_of_cons, elem_of_app in Hl. destruct Hl as [->|[Hl|Hl]]; [by eexists| |].
  - destruct (e_key e) as [[k b]|]; cbn in *; [|by apply not_elem_of_nil in Hl]. apply list_elem_of_singleton in Hl as ->. by destruct Hk as [-> _].
  - destruct (e_val e) as [[k b]|]; cbn in *; [|by apply not_elem_of_nil in Hl]. apply list_elem_of_singleton in Hl as ->. by destruct Hv as [-> _].
Qed.

(** Distinct live locations are at most as many as the blocks. *)
Lemma size_bound (h : gmap loc block) (ls : list loc) : NoDup ls -> (forall l, l ∈ ls -> is_Some (h !! l)) -> (length ls <= size h)%nat.
Proof.
  intros Hn Hd. rewrite <- (size_list_to_set (C := gset loc) ls Hn), <- (size_dom h). apply subseteq_size. intros l Hl.
  apply elem_of_list_to_set in Hl. by apply elem_of_dom, Hd.
Qed.
Lemma foot_length es : (length es <= length (foot es))%nat.
Proof. induction es as [|e es IH]; [done|]. rewrite foot_cons, length_app. cbn. lia. Qed.

(** ** New nodes *)
Definition text (x : option (loc * list Z)) : option (list Z) := cstring ∘ snd <$> x.
Definition c_text (s : list Z) : Prop := nonul s /\ zlen s < INT_MAX.
Definition same_rest (s s' : state) : Prop :=
  object_count s' = object_count s /\ autofree s' = autofree s /\ autofree_intf s' = autofree_intf s.
Definition ext (s s' : state) : Prop := (forall l b, heap s !! l = Some b -> heap s' !! l = Some b) /\ same_rest s s'.

Lemma same_rest_trans s1 s2 s3 : same_rest s1 s2 -> same_rest s2 s3 -> same_rest s1 s3.
Proof. intros (A & B & C) (A' & B' & C'). split_and!; congruence. Qed.
Lemma same_rest_wr l b s : same_rest s (wr l b s).
Proof. done. Qed.
Lemma cstr_new t : c_text t -> cstr (t ++ [NUL]) t.
Proof. intros [Hn Hl]. split_and!; [done|rewrite zlen_app; change (zlen [NUL]) with 1; lia|by exists []]. Qed.
Lemma text_cstr l buf t : cstr buf t -> text (Some (l, buf)) = Some t.
Proof. intros H. cbn. f_equal. by apply cstring_cstr. Qed.

(** The calls that follow a known block. *)
Ltac mrun1 :=
  rewrite ?bind_assoc, ?mret_bind; cbv beta;
  match goal with
  | |- context [(?m ≫= ?k) ?s] =>
      first
        [ erewrite (bind_Ret m k s) by (apply get_obj_run; cbn [heap wr rm set_heap]; by simplify_map_eq)
        | erewrite (bind_Ret m k s) by (apply upd_obj_run; cbn [heap wr rm set_heap]; by simplify_map_eq)
        | erewrite (bind_Ret m k s) by (apply get_node_run; cbn [heap wr rm set_heap]; by simplify_map_eq)
        | erewrite (bind_Ret m k s) by (apply upd_node_run; cbn [heap wr rm set_heap]; by simplify_map_eq)
        | erewrite (bind_Ret m k s) by (eapply free_run; cbn [heap wr rm set_heap]; by simplify_map_eq)
        | erewrite (bind_Ret m k s) by (apply lift_run, ck_Ret; int_lia)
        | erewrite (bind_Ret m k s) by (by apply alloc_run) ]
  end.
Ltac mrun := repeat mrun1; rewrite ?mret_bind.
Ltac xo := cbn [obj_type val tail read_ptr list_count strlist strlist_ok strlist_cnt set_type set_val set_tail set_read set_count set_strlist set_ok set_cnt
  key xobj next prev set_next set_prev set_xobj lnode_of] in *.

(** Freeing the blocks at [ls]. *)
Definition rms (ls : list loc) (s : state) : state := set_heap (foldr delete (heap s) ls) s.
Lemma lookup_rms ls s x : x ∉ ls -> heap (rms ls s) !! x = heap s !! x.
Proof.
  cbn. induction ls as [|l ls IH]; [done|]. cbn. intros H. rewrite lookup_delete_ne by (intros ->; set_solver). apply IH. set_solver.
Qed.
Lemma free_str_run s x : str_at (heap s) x -> free (fst <$> x) s = Ret (tt, rms (str_locs x) s).
Proof. destruct x as [[l b]|]; [|by destruct s]. intros [H _]. cbn [fmap option_fmap option_map fst]. by rewrite (free_run _ _ _ H). Qed.
Lemma str_at_rms s ls x : (forall l, l ∈ str_locs x -> l ∉ ls) -> str_at (heap s) x -> str_at (heap (rms ls s)) x.
Proof. intros H. apply str_at_frame. intros l Hl. by apply lookup_rms, H. Qed.

(** [free (list->key); free (list->xobj); free (list);] *)
Lemma free_entry_run s e n : str_at (heap s) (e_key e) -> str_at (heap s) (e_val e) -> heap s !! e_node e = Some n -> NoDup (locs e) ->
  exists s', (forall A (K : M A), (free (fst <$> e_key e);; free (fst <$> e_val e);; internal_free_list_obj_entry (Some (e_node e));; K) s = K s') /\
    same_rest s s' /\ (forall x, x ∉ locs e -> heap s' !! x = heap s !! x) /\ (forall x, x ∈ locs e -> heap s' !! x = None).
Proof.
  clear malloc. intros Hk Hv Hn Hnd. unfold locs in *. apply NoDup_cons in Hnd as [Hni Hnd]. apply NoDup_app in Hnd as (_ & Hd & _). rewrite elem_of_app in Hni.
  assert (forall (ls : list loc) (h : gmap loc block) x, x ∈ ls -> foldr delete h ls !! x = None) as Hdel.
  { induction ls as [|l ls IH]; intros h x Hx; [by apply not_elem_of_nil in Hx|]. cbn. destruct (decide (x = l)) as [->|]; [apply lookup_delete_eq|].
    rewrite lookup_delete_ne by done. apply IH. set_solver. }
  eexists. split.
  { intros A K. rewrite (bind_Ret _ _ _ _ _ (free_str_run s _ Hk)).
    rewrite (bind_Ret _ _ _ _ _ (free_str_run (rms (str_locs (e_key e)) s) (e_val e) ltac:(apply str_at_rms; [intros l Hl Hl'; by apply (Hd l)|done]))).
    unfold internal_free_list_obj_entry. erewrite bind_Ret by (eapply free_run; rewrite !lookup_rms by tauto; exact Hn). reflexivity. }
  split_and!; [done| |].
  - intros x Hx. rewrite heap_rm, lookup_delete_ne by (intros <-; set_solver). by rewrite !lookup_rms by set_solver.
  - intros x Hx. rewrite heap_rm. destruct (decide (x = e_node e)) as [->|Hxe]; [apply lookup_delete_eq|]. rewrite lookup_delete_ne by done.
    destruct (decide (x ∈ str_locs (e_val e))); [by apply Hdel|]. rewrite lookup_rms by done. apply Hdel. set_solver.
Qed.

Section allocator.
Hypothesis malloc_fresh : forall h l, malloc h = Some l -> h !! l = None.
Hypothesis malloc_ok : forall h, is_Some (malloc h).

(** [e] was added to the heap of [s], which otherwise stays as it was. *)
Record fresh_entry (s s' : state) (e : entry) : Prop := {
  f_node : heap s' !! e_node e = Some (Node (lnode_of e None None));
  f_key : str_at (heap s') (e_key e);
  f_val : str_at (heap s') (e_val e);
  f_nodup : NoDup (locs e);
  f_fresh : forall l, l ∈ locs e -> heap s !! l = None;
  f_ext : ext s s';
}.

Lemma new_entry_run clone skey str pk pv s :
  c_text str -> (forall k, skey = Some k -> c_text k) ->
  exists e s', internal_new_list_obj_entry clone None skey (Some str) pk pv true s = Ret (Some (e_node e), s') /\
    fresh_entry s s' e /\ text (e_key e) = skey /\ text (e_val e) = Some str.
Proof.
  intros Hs Hk. unfold internal_new_list_obj_entry, strdup.
  destruct (malloc_ok (heap s)) as [a Ha]. pose proof (malloc_fresh _ _ Ha) as Fa. mrun.
  set (s1 := wr a _ s). destruct (malloc_ok (heap s1)) as [b Hb]. pose proof (malloc_fresh _ _ Hb) as Fb.
  assert (b <> a) as Hba by (intros ->; cbn in Fb; by rewrite lookup_insert_eq in Fb).
  assert (heap s !! b = None) as Fb' by (cbn in Fb; by rewrite lookup_insert_ne in Fb).
  assert (heap s1 !! a = Some (Node (mk_node None None None None))) as H1 by (cbn; by simplify_map_eq).
  mrun. set (s2 := wr a _ _). assert (heap s2 !! a = Some (Node (mk_node None (Some b) None None))) as H2 by (cbn; by simplify_map_eq).
  assert (heap s2 !! b = Some (Str (str ++ [NUL]))) as H2b by (cbn; by simplify_map_eq).
  assert (forall l c, heap s !! l = Some c -> l <> a /\ l <> b /\ heap s2 !! l = Some c) as H2o.
  { intros l c Hl. assert (l <> a /\ l <> b) as [] by (split; intros ->; congruence). cbn. by simplify_map_eq. }
  destruct skey as [k|].
  - destruct (malloc_ok (heap s2)) as [d Hd]. pose proof (malloc_fresh _ _ Hd) as Fd.
    assert (d <> a /\ d <> b) as [Hda Hdb] by (split; intros ->; congruence).
    assert (heap s !! d = None) as Fd' by (destruct (heap s !! d) eqn:E; [apply H2o in E as (_ & _ & E); congruence|done]).
    rewrite bind_assoc. rewrite (bind_Ret _ _ _ _ _ (alloc_run _ _ _ Hd)). mrun. eexists (mk_entry a (Some (d, k ++ [NUL])) (Some (b, str ++ [NUL]))), _.
    pose proof (cstr_new _ (Hk _ eq_refl)). pose proof (cstr_new _ Hs). split; [reflexivity|]. cbn [e_key e_val].
    rewrite (text_cstr _ _ k), (text_cstr _ _ str) by done.
    split; [|done]. split; cbn [heap wr set_heap e_node e_key e_val]; try (by simplify_map_eq); try (split; [by simplify_map_eq|by eexists]).
    + repeat constructor; set_solver.
    + intros l. unfold locs. cbn. rewrite !elem_of_cons. intros [->|[->|[->|Hl]]]; [done..|set_solver].
    + split; [|done]. intros l c Hl. cbn [heap wr set_heap]. pose proof (H2o _ _ Hl) as (? & ? & ?). assert (l <> d) by congruence. by simplify_map_eq.
  - mrun. eexists (mk_entry a None (Some (b, str ++ [NUL]))), _. pose proof (cstr_new _ Hs). split; [reflexivity|]. cbn [e_key e_val].
    rewrite (text_cstr _ _ str) by done.
    split; [|done]. split; cbn [heap wr set_heap e_node e_key e_val]; try (by simplify_map_eq); try (split; [by simplify_map_eq|by eexists]).
    + repeat constructor; set_solver.
    + intros l. unfold locs. cbn. rewrite !elem_of_cons. intros [->|[->|Hl]]; [done..|set_solver].
    + split; [|done]. intros l c Hl. cbn [heap wr set_heap]. pose proof (H2o _ _ Hl) as (? & ? & ?). by simplify_map_eq.
Qed.

(** ** Tables: what the nodes hold *)
Lemma key_match_run s k x : str_at (heap s) x ->
  match fst <$> x with Some _ => same_key (Some k) (fst <$> x) | None => mret false end s = Ret (bool_decide (text x = Some k), s).
Proof.
  destruct x as [[l buf]|]; cbn [fmap option_fmap option_map fst]; [|done]. intros (Hl & t & Ht). unfold same_key.
  rewrite (bind_Ret _ _ _ _ _ (get_buf_run _ _ _ Hl)), (bind_Ret _ _ _ _ _ (cstr_of_run _ _ _ Ht)).
  rewrite (text_cstr l buf t Ht). unfold mret, M_ret. do 2 f_equal. apply bool_decide_ext. split; congruence.
Qed.
Definition has_key (k : list Z) (e : entry) : Prop := text (e_key e) = Some k.
#[local] Instance has_key_dec k e : Decision (has_key k e).
Proof. unfold has_key. apply _. Defined.

Lemma get_loop_finds own k es : forall fuel p pv s, chain own (heap s) p pv es None -> (length es <= fuel)%nat ->
  get_loop fuel (Some k) p s = Ret (e_node ∘ snd <$> list_find (has_key k) es, s).
Proof.
  induction es as [|e es IH]; intros fuel p pv s; cbn [chain]; [intros -> _; by destruct fuel|].
  intros (-> & nx & Hn & Hk & Hv & Hc) Hf. destruct fuel as [|fuel]; [cbn in Hf; lia|]. cbn [get_loop list_find length] in *.
  mrun. cbn [key lnode_of next]. rewrite (bind_Ret _ _ s (bool_decide (text (e_key e) = Some k)) s).
  - case_bool_decide; destruct (decide (has_key k e)); try done. rewrite (IH fuel nx (Some (e_node e))) by (done || lia).
    by destruct (list_find _ es) as [[]|].
  - by apply key_match_run.
Qed.

(** The object [self] is a table with the nodes [es], and the cursor of [get_next] is
    before entry [c]. *)
Record table (h : gmap loc block) (self : loc) (o : xobject) (es : list entry) (c : nat) : Prop := {
  t_obj : h !! self = Some (Obj o);
  t_type : obj_type o = STRING_HASH;
  t_val : val o = VList (e_node <$> head es);
  t_tail : tail o = last_node None es;
  t_read : read_ptr o = e_node <$> es !! c;
  t_count : list_count o = zlen es;
  t_chain : chain true h (e_node <$> head es) None es None;
  t_nodup : NoDup (self :: foot es);
  t_nonempty : es <> [];
  t_strlist : strlist o = None;
}.

Lemma chain_length own h es p pv : chain own h p pv es None -> NoDup (foot es) -> (length es <= size h)%nat.
Proof. intros Hc Hn. pose proof (foot_length es). pose proof (size_bound h (foot es) Hn (chain_dom own h es p pv None Hc)). lia. Qed.

Lemma internal_get_run s self o es c k : table (heap s) self o es c ->
  xobj_internal_get (Some self) (Some k) s = Ret (e_node ∘ snd <$> list_find (has_key k) es, s).
Proof.
  intros T. destruct T. unfold xobj_internal_get. mrun. rewrite bool_decide_true by done. cbn [negb]. unfold val_list. rewrite t_val0.
  mrun. unfold find_entry. eapply get_loop_finds; [done|]. eapply chain_length; [done|]. by apply NoDup_cons in t_nodup0 as [_ ?].
Qed.

Lemma find_split k es i e : list_find (has_key k) es = Some (i, e) -> exists es2, es = take i es ++ e :: es2 /\ has_key k e /\ length (take i es) = i.
Proof.
  intros H. apply list_find_Some in H as (Hl & Hk & _). exists (drop (S i) es). split_and!; [by rewrite take_drop_middle|done|].
  apply lookup_lt_Some in Hl. rewrite length_take. lia.
Qed.

Lemma chain_mid own h es1 e es2 p : chain own h p None (es1 ++ e :: es2) None ->
  exists nx, h !! e_node e = Some (Node (lnode_of e nx (prev_of own (last_node None es1) e))) /\ str_at h (e_key e) /\ str_at h (e_val e) /\
    chain own h p None es1 (Some (e_node e)) /\ chain own h nx (Some (e_node e)) es2 None.
Proof. intros H. apply chain_app in H as (r & H1 & -> & nx & H2 & H3 & H4 & H5). eauto 10. Qed.

Lemma get_run s self o es c k : table (heap s) self o es c ->
  xobj_get (Some self) (Some k) s = Ret (match list_find (has_key k) es with
    | Some (_, e) => match e_val e with Some (l, _) => Ptr l | None => Nullstr end | None => NULL end, s).
Proof.
  intros T. unfold xobj_get. rewrite (bind_Ret _ _ _ _ _ (internal_get_run s self o es c k T)).
  destruct (list_find (has_key k) es) as [[i e]|] eqn:E; cbn [fmap option_fmap option_map]; [|done].
  destruct (find_split _ _ _ _ E) as (es2 & Hes & _ & _). destruct T. rewrite Hes in t_chain0.
  apply chain_mid in t_chain0 as (nx & Hn & _). cbn [compose snd]. mrun. cbn. by destruct (e_val e) as [[]|].
Qed.

(** Replacing the value of one entry; the heap changes only there. *)
Lemma chain_update own h h' es1 e es2 p v : NoDup (foot (es1 ++ e :: es2)) ->
  let e' := mk_entry (e_node e) (e_key e) v in
  chain own h p None (es1 ++ e :: es2) None ->
  (forall nx pv, h !! e_node e = Some (Node (lnode_of e nx pv)) -> h' !! e_node e = Some (Node (lnode_of e' nx pv))) ->
  str_at h' v -> (forall l, l ∈ foot (es1 ++ e :: es2) -> l <> e_node e -> l ∉ str_locs (e_val e) -> h' !! l = h !! l) ->
  chain own h' p None (es1 ++ e' :: es2) None.
Proof.
  intros Hnd e' Hc Hn Hv Hf. apply chain_mid in Hc as (nx & H1 & H2 & H3 & H4 & H5). rewrite foot_app, foot_cons in *.
  apply NoDup_app in Hnd as (_ & Hd1 & Hnd). apply NoDup_app in Hnd as (Hnl & Hd2 & _). unfold locs in *.
  apply chain_app. exists (Some (e_node e)). split; [|split; [done|]].
  - eapply chain_frame; [|done]. intros l Hl. pose proof (Hd1 l Hl). apply Hf; set_solver.
  - exists nx. split_and!; [by apply Hn| |done|].
    + cbn. eapply str_at_frame; [|done]. intros l Hl. apply NoDup_cons in Hnl as [Hni Hnl]. apply NoDup_app in Hnl as (_ & Hd & _).
      apply Hf; [set_solver|set_solver|by apply Hd].
    + eapply chain_frame; [|done]. intros l Hl. apply Hf; [set_solver|intros ->; apply (Hd2 (e_node e)); [constructor|done]|].
      intros Hin. apply (Hd2 l); [|done]. set_solver.
Qed.

(** The head, the tail and the cursor depend only on the addresses of the nodes. *)
Lemma nodes_head (es es' : list entry) : e_node <$> es = e_node <$> es' -> e_node <$> head es = e_node <$> head es'.
Proof. destruct es, es'; cbn; congruence. Qed.
Lemma nodes_last (es es' : list entry) : e_node <$> es = e_node <$> es' -> last_node None es = last_node None es'.
Proof.
  intros H. assert (forall l, last_node None l = last (e_node <$> l)) as E by (intros l; unfold last_node; rewrite fmap_last; by destruct (last l)).
  by rewrite !E, H.
Qed.
Lemma nodes_lookup (es es' : list entry) (c : nat) : e_node <$> es = e_node <$> es' -> e_node <$> es !! c = e_node <$> es' !! c.
Proof. intros H. rewrite <- !list_lookup_fmap. by rewrite H. Qed.

Lemma table_update h h' self o o' es1 e es2 c v : table h self o (es1 ++ e :: es2) c ->
  let es' := es1 ++ mk_entry (e_node e) (e_key e) v :: es2 in
  h' !! self = Some (Obj o') -> (o' = o \/ o' = set_ok false o) -> chain true h' (e_node <$> head es') None es' None -> NoDup (self :: foot es') ->
  table h' self o' es' c.
Proof.
  intros [] es' Ho Hs Hc Hn. assert (e_node <$> es' = e_node <$> es1 ++ e :: es2) as E by (unfold es'; by rewrite !fmap_app).
  assert (zlen es' = zlen (es1 ++ e :: es2)) as El by (unfold es'; by rewrite !zlen_app, !zlen_cons).
  split; try done; try (by destruct Hs; subst o'); destruct Hs; subst o'; cbn; try (by unfold es'; destruct es1);
    rewrite ?(nodes_head _ _ E), ?(nodes_last _ _ E), ?(nodes_lookup _ _ c E), ?El; done.
Qed.

Lemma nodup_swap {A} (l1 l2 : list A) a b : NoDup (l1 ++ a :: l2) -> (b = a \/ b ∉ l1 ++ a :: l2) -> NoDup (l1 ++ b :: l2).
Proof.
  intros H [->|Hb]; [done|]. rewrite <- Permutation_middle in *. apply NoDup_cons in H as [_ H]. constructor; [set_solver|done].
Qed.

Lemma memcpy_run s l buf v : heap s !! l = Some (Str buf) -> c_text v -> zlen v + 1 <= zlen buf <= INT_MAX ->
  exists r, memcpy (Some l) v (zlen v + 1) s = Ret (tt, wr l (Str r) s) /\ cstr r v /\ zlen r = zlen buf.
Proof.
  intros Hl [Hv Hz] Hle. unfold memcpy. rewrite (bind_Ret _ _ _ _ _ (get_buf_run _ _ _ Hl)). pose proof (zlen_nonneg v).
  rewrite (proj2 (Z.leb_le 0 (zlen v + 1))), (proj2 (Z.leb_le (zlen v + 1) (zlen buf))), (proj2 (Z.leb_le (zlen v + 1) (zlen v + 1))) by lia.
  cbn [andb]. rewrite (take_ge (v ++ [NUL])) by (rewrite length_app; cbn; unfold zlen; lia). rewrite (put_block_run _ _ _ _ Hl).
  eexists. split; [done|]. assert (zlen ((v ++ [NUL]) ++ drop (Z.to_nat (zlen v + 1)) buf) = zlen buf) as E.
  { rewrite !zlen_app. change (zlen [NUL]) with 1. unfold zlen in *. rewrite length_drop. lia. }
  split; [|exact E]. split_and!; [done|lia|rewrite <- app_assoc; by eexists].
Qed.

(** What is known of an entry of a table that has a value. *)
Lemma table_mid h self o es1 e es2 c l buf : table h self o (es1 ++ e :: es2) c -> e_val e = Some (l, buf) ->
  exists nx t, h !! e_node e = Some (Node (lnode_of e nx (prev_of true (last_node None es1) e))) /\ h !! l = Some (Str buf) /\ cstr buf t /\
    e_node e <> self /\ l <> self /\ e_node e <> l /\
    foot (es1 ++ e :: es2) = (foot es1 ++ e_node e :: str_locs (e_key e)) ++ l :: foot es2.
Proof.
  intros T Ev. pose proof T as [Ho _ _ _ _ _ Hc Hnd _ _].
  pose proof (chain_mid _ _ _ _ _ _ Hc) as (nx & Hn & _ & Hval & _). rewrite Ev in Hval. destruct Hval as (Hl & t & Ht).
  assert (foot (es1 ++ e :: es2) = (foot es1 ++ e_node e :: str_locs (e_key e)) ++ l :: foot es2) as Ef.
  { rewrite foot_app, foot_cons. unfold locs. rewrite Ev. cbn. rewrite <- !app_assoc. cbn. by rewrite <- ?app_assoc. }
  exists nx, t. split_and!; [done|done|done|by intros E; rewrite E in Hn; simplify_map_eq|by intros ->; simplify_map_eq|by intros E; rewrite E in Hn; simplify_map_eq|done].
Qed.

Lemma table_set_value h h' self o o' es1 e es2 c l buf nx pv l' r v : table h self o (es1 ++ e :: es2) c -> e_val e = Some (l, buf) ->
  h' !! self = Some (Obj o') -> (o' = o \/ o' = set_ok false o) -> h !! e_node e = Some (Node (lnode_of e nx pv)) ->
  h' !! e_node e = Some (Node (set_xobj (Some l') (lnode_of e nx pv))) -> h' !! l' = Some (Str r) -> cstr r v -> (l' = l \/ h !! l' = None) ->
  (forall x, x ∈ foot (es1 ++ e :: es2) -> x <> e_node e -> x <> l -> h' !! x = h !! x) ->
  table h' self o' (es1 ++ mk_entry (e_node e) (e_key e) (Some (l', r)) :: es2) c.
Proof.
  intros T Ev Ho Hs Hn Hn' Hl' Hr Hor Hf. destruct (table_mid _ _ _ _ _ _ _ _ _ T Ev) as (_ & _ & _ & _ & _ & _ & _ & _ & Ef).
  pose proof T as [Hob _ _ _ _ _ Hc Hnd _ _]. pose proof (proj2 (proj1 (NoDup_cons _ _) Hnd)) as Hnf.
  eapply table_update; [done|done|done| |].
  - assert (e_node <$> head (es1 ++ mk_entry (e_node e) (e_key e) (Some (l', r)) :: es2) = e_node <$> head (es1 ++ e :: es2)) as -> by (by destruct es1).
    eapply chain_update; [done|done| | |].
    + intros nx' pv' H'. rewrite Hn in H'. simplify_eq. done.
    + split; [done|by eexists].
    + intros x Hx Hxn Hxv. apply Hf; [done|done|]. rewrite Ev in Hxv. cbn in Hxv. set_solver.
  - replace (foot (es1 ++ mk_entry _ _ _ :: es2)) with ((foot es1 ++ e_node e :: str_locs (e_key e)) ++ l' :: foot es2)
      by (rewrite foot_app, foot_cons; unfold locs; cbn; rewrite <- !app_assoc; cbn; by rewrite <- ?app_assoc).
    rewrite app_comm_cons. rewrite Ef, app_comm_cons in Hnd. apply (nodup_swap _ _ l); [done|]. destruct Hor as [->|Hno]; [by left|right].
    rewrite <- app_comm_cons, <- Ef. intros Hin. apply elem_of_cons in Hin as [->|Hin]; [by rewrite Hob in Hno|].
    destruct (chain_dom _ _ _ _ _ _ Hc l' Hin) as [? Hx]. by rewrite Hx in Hno.
Qed.

Lemma replace_run s self o es1 e es2 c l buf v :
  table (heap s) self o (es1 ++ e :: es2) c -> e_val e = Some (l, buf) -> c_text v ->
  exists s' o' x, replace_value v (Some self) (Some (e_node e)) s = Ret (1, s') /\
    table (heap s') self o' (es1 ++ mk_entry (e_node e) (e_key e) (Some x) :: es2) c /\ text (Some x) = Some v /\ same_rest s s'.
Proof.
  intros T Ev Hv. pose proof (t_obj _ _ _ _ _ T) as Ho. unfold replace_value.
  destruct (table_mid _ _ _ _ _ _ _ _ _ T Ev) as (nx & t & Hn & Hl & Ht & Hns & Hls & Hnl & _).
  mrun. cbn [xobj lnode_of]. rewrite Ev. cbn [fmap option_fmap option_map fst].
  rewrite (bind_Ret _ _ _ _ _ (get_buf_run _ _ _ Hl)), (bind_Ret _ _ _ _ _ (lift_run _ _ s (proj1 (strlen_cstr _ _ Ht)))).
  pose proof (zlen_nonneg v). destruct Hv as [Hv1 Hv2]. rewrite to_int_small by lia.
  assert (u64 (zlen v) = zlen v) as -> by (unfold u64; apply Z.mod_small; unfold INT_MAX in *; lia).
  destruct (Z.leb_spec (zlen v) (zlen t)) as [Hle|Hgt].
  - pose proof Ht as (_ & Hbmax & rest & Hbuf). destruct (memcpy_run s l buf v Hl (conj Hv1 Hv2)) as (r & Hm & Hr & _);
      [split; [|done]; rewrite Hbuf, zlen_app, zlen_cons; pose proof (zlen_nonneg rest); lia|]. rewrite (bind_Ret _ _ _ _ _ Hm).
    eexists _, o, (l, r). split; [reflexivity|]. split_and!; [|by apply text_cstr|done]. rewrite heap_wr.
    eapply table_set_value; try done; [by simplify_map_eq|by left| |by simplify_map_eq|by left|].
    + rewrite lookup_insert_ne, Hn by done. do 2 f_equal. unfold lnode_of, set_xobj. cbn. by rewrite Ev.
    + intros x _ _ Hx. by apply lookup_insert_ne.
  - mrun. unfold strdup. set (s1 := rm l s). destruct (malloc_ok (heap s1)) as [b Hb]. pose proof (malloc_fresh _ _ Hb) as Fb. cbn in Fb.
    assert (b = l \/ heap s !! b = None) as Hbl by (destruct (decide (b = l)); [by left|right]; by rewrite lookup_delete_ne in Fb).
    assert (b <> self /\ b <> e_node e) as [Hbs Hbn] by (destruct Hbl as [->|Hbl]; [done|split; intros ->; congruence]).
    rewrite (bind_Ret _ _ _ _ _ (alloc_run _ _ _ Hb)). pose proof (cstr_new v (conj Hv1 Hv2)) as Hr.
    mrun. eexists _, _, (b, v ++ [NUL]). split; [reflexivity|]. split_and!; [|by apply text_cstr|done]. cbn [heap wr rm set_heap s1].
    eapply table_set_value; try done; [by simplify_map_eq|by right|by simplify_map_eq|by simplify_map_eq|].
    intros x Hx Hxn Hxl. assert (x <> self) by (intros ->; by apply (proj1 (NoDup_cons _ _) (t_nodup _ _ _ _ _ T))).
    assert (x <> b). { intros ->. destruct Hbl as [->|Hbl]; [done|]. destruct (chain_dom _ _ _ _ _ _ (t_chain _ _ _ _ _ T) b Hx). congruence. }
    by simplify_map_eq.
Qed.

Lemma chain_snoc own h h' p es1 z e : NoDup (foot (es1 ++ [z])) -> chain own h p None (es1 ++ [z]) None ->
  (forall pv, h !! e_node z = Some (Node (lnode_of z None pv)) -> h' !! e_node z = Some (Node (lnode_of z (Some (e_node e)) pv))) ->
  h' !! e_node e = Some (Node (lnode_of e None (prev_of own (Some (e_node z)) e))) -> str_at h' (e_key e) -> str_at h' (e_val e) ->
  (forall x, x ∈ foot (es1 ++ [z]) -> x <> e_node z -> h' !! x = h !! x) -> chain own h' p None ((es1 ++ [z]) ++ [e]) None.
Proof.
  intros Hnd Hc Hz He Hk Hv Hf. apply chain_mid in Hc as (nx & H1 & H2 & H3 & H4 & H5). cbn in H5. subst nx.
  rewrite foot_app, foot_cons, app_nil_r in *. apply NoDup_app in Hnd as (_ & Hd1 & Hnd). unfold locs in *. apply NoDup_cons in Hnd as [Hni _].
  rewrite <- app_assoc. apply chain_app. exists (Some (e_node z)). split.
  - eapply chain_frame; [|done]. intros x Hx. pose proof (Hd1 x Hx). apply Hf; set_solver.
  - split; [done|]. exists (Some (e_node e)). split_and!; [by apply Hz| | |].
    + eapply str_at_frame; [|done]. intros x Hx. apply Hf; set_solver.
    + eapply str_at_frame; [|done]. intros x Hx. apply Hf; set_solver.
    + split; [done|]. by exists None.
Qed.

(** The new node is not among the old ones. *)
Lemma foot_snoc s s' self es e : NoDup (self :: foot es) -> (forall l, l ∈ self :: foot es -> is_Some (heap s !! l)) ->
  fresh_entry s s' e -> NoDup (self :: foot (es ++ [e])).
Proof.
  intros Hn Hd [_ _ _ He Hf _]. rewrite foot_app, foot_cons, app_nil_r, app_comm_cons. apply NoDup_app. split_and!; [done| |done].
  intros l Hl Hl'. destruct (Hd l Hl) as [b Hb]. by rewrite (Hf l Hl') in Hb.
Qed.

(** Appending the new node [e] after [z] when only these two nodes and the object change. *)
Lemma link_chain own s s1 h' self p pv es1 z e : NoDup (self :: foot (es1 ++ [z])) -> is_Some (heap s !! self) ->
  chain own (heap s) p None (es1 ++ [z]) None -> fresh_entry s s1 e -> heap s !! e_node z = Some (Node (lnode_of z None pv)) ->
  h' !! e_node z = Some (Node (lnode_of z (Some (e_node e)) pv)) ->
  h' !! e_node e = Some (Node (lnode_of e None (prev_of own (Some (e_node z)) e))) ->
  (forall x, x <> self -> x <> e_node z -> x <> e_node e -> h' !! x = heap s1 !! x) ->
  chain own h' p None ((es1 ++ [z]) ++ [e]) None.
Proof.
  intros Hn [b Hs] Hc [F1 F2 F3 F4 F5 [F6 _]] Hz Hz' He Hf. pose proof (proj1 (NoDup_cons _ _) Hn) as [Hself Hnf].
  assert (forall x, x ∈ locs e -> x <> self /\ x <> e_node z) as Hne. { intros x Hx. pose proof (F5 _ Hx). split; intros ->; congruence. }
  assert (forall x, x ∈ str_locs (e_key e) ++ str_locs (e_val e) -> h' !! x = heap s1 !! x) as Hse.
  { intros x Hx. assert (x ∈ locs e) as Hxe by by apply list_elem_of_further. pose proof (Hne x Hxe) as []. apply Hf; [done|done|].
    intros ->. unfold locs in F4. by apply NoDup_cons in F4 as [F4 _]. }
  eapply chain_snoc; [done|done| |done| | |].
  - intros pv' H'. rewrite Hz in H'. simplify_eq. done.
  - eapply str_at_frame; [|done]. intros x Hx. apply Hse, elem_of_app. by left.
  - eapply str_at_frame; [|done]. intros x Hx. apply Hse, elem_of_app. by right.
  - intros x Hx Hxz. destruct (chain_dom _ _ _ _ _ _ Hc x Hx) as [bx Hb]. rewrite Hb. rewrite Hf; [by apply F6|by intros ->|done|].
    intros ->. assert (heap s !! e_node e = None) by (apply F5; constructor). congruence.
Qed.

Lemma table_dom h self o es c : table h self o es c -> forall l, l ∈ self :: foot es -> is_Some (h !! l).
Proof. intros [] l Hl. apply elem_of_cons in Hl as [->|Hl]; [by eexists|by eapply chain_dom]. Qed.

(** The node of a new entry is neither the object nor an old node. *)
Lemma fresh_ne s s1 e l b : fresh_entry s s1 e -> heap s !! l = Some b -> e_node e <> l /\ heap s1 !! l = Some b.
Proof.
  intros [_ _ _ _ F5 [F6 _]] Hl. split; [|by apply F6]. intros <-. assert (heap s !! e_node e = None) by (apply F5; constructor). congruence.
Qed.

Lemma put_new_run s self o es c k v : table (heap s) self o es c -> c_text k -> c_text v -> zlen es < INT_MAX ->
  list_find (has_key k) es = None ->
  exists s' o' e, xobj_put (Some self) (Some k) (Some v) s = Ret (1, s') /\ table (heap s') self o' (es ++ [e]) (S (length es)) /\
    text (e_key e) = Some k /\ text (e_val e) = Some v /\ same_rest s s'.
Proof.
  intros T Hk Hv Hmax Hnone. unfold xobj_put, xobj_internal_put. pose proof (t_obj _ _ _ _ _ T) as Ho. mrun.
  rewrite (t_type _ _ _ _ _ T), bind_assoc, (bind_Ret _ _ _ _ _ (internal_get_run s self o es c k T)), Hnone. cbn [fmap option_fmap option_map]. rewrite mret_bind.
  destruct (new_entry_run xobj_clone (Some k) v None None s Hv) as (e & s1 & He & F & Htk & Htv); [by intros k' [= <-]|].
  rewrite (bind_Ret _ _ _ _ _ He). destruct es as [|z es1 _] using rev_ind; [by destruct (t_nonempty _ _ _ _ _ T)|].
  pose proof (chain_mid _ _ _ _ _ _ (t_chain _ _ _ _ _ T)) as (nx & Hz & _ & _ & _ & Hnx). cbn in Hnx. subst nx.
  assert (tail o = Some (e_node z)) as Etl by (rewrite (t_tail _ _ _ _ _ T); unfold last_node; by rewrite last_snoc).
  assert (e_node z <> self) as Hzs by (intros E; rewrite E in Hz; congruence).
  destruct (fresh_ne _ _ _ _ _ F Ho) as [Hes Ho1]. destruct (fresh_ne _ _ _ _ _ F Hz) as [Hez Hz1]. pose proof (f_node _ _ _ F).
  unfold link_entry, incr_count. mrun. cbn [tail set_ok set_read]. rewrite Etl. mrun. cbn [list_count set_ok set_read set_tail]. rewrite (t_count _ _ _ _ _ T).
  pose proof (zlen_nonneg (es1 ++ [z])). mrun. eexists _, _, e. split; [reflexivity|]. split_and!; [|done|done|apply (f_ext _ _ _ F)]. cbn [heap wr set_heap].
  split; [by simplify_map_eq|..]; xo; rewrite ?(t_type _ _ _ _ _ T), ?(t_val _ _ _ _ _ T), ?(t_strlist _ _ _ _ _ T); try done.
  - by destruct es1.
  - unfold last_node. by rewrite last_snoc.
  - by rewrite (lookup_ge_None_2 ((es1 ++ [z]) ++ [e])) by (rewrite (length_app _ [e]); cbn; lia).
  - by rewrite (zlen_app _ [e]).
  - assert (e_node <$> head ((es1 ++ [z]) ++ [e]) = e_node <$> head (es1 ++ [z])) as -> by (by destruct es1).
    eapply (link_chain true s s1); [exact (t_nodup _ _ _ _ _ T)|by eexists|exact (t_chain _ _ _ _ _ T)|done|exact Hz|by simplify_map_eq|by simplify_map_eq|].
    intros x Hx1 Hx2 Hx3. by simplify_map_eq.
  - by eapply (foot_snoc s s1); [exact (t_nodup _ _ _ _ _ T)|exact (table_dom _ _ _ _ _ T)|].
  - by destruct es1.
Qed.

Lemma put_first_run s self o k v : heap s !! self = Some (Obj o) -> obj_type o = EMPTY -> strlist o = None -> c_text k -> c_text v ->
  exists s' o' e, xobj_put (Some self) (Some k) (Some v) s = Ret (1, s') /\ table (heap s') self o' [e] 1 /\
    text (e_key e) = Some k /\ text (e_val e) = Some v /\ same_rest s s'.
Proof.
  intros Ho Ht Hsl Hk Hv. unfold xobj_put, xobj_internal_put. mrun. rewrite Ht, mret_bind.
  destruct (new_entry_run xobj_clone (Some k) v None None s Hv) as (e & s1 & He & F & Htk & Htv); [by intros k' [= <-]|].
  rewrite (bind_Ret _ _ _ _ _ He). destruct (fresh_ne _ _ _ _ _ F Ho) as [Hes Ho1]. pose proof F as [F1 F2 F3 F4 F5 F6].
  mrun. eexists _, _, e. split; [reflexivity|]. split_and!; [|done|done|apply F6]. cbn [heap wr set_heap].
  assert (self ∉ locs e) as Hni by (intros Hin; apply F5 in Hin; congruence).
  assert (forall x, x ∈ locs e -> <[self:=Obj (set_count 1 (set_tail (Some (e_node e)) (set_val (VList (Some (e_node e))) (set_type STRING_HASH (set_read None (set_ok false o))))))]>
    (heap s1) !! x = heap s1 !! x) as Hfr by (intros x Hx; rewrite lookup_insert_ne; [done|by intros ->]).
  rewrite !insert_insert_eq. split; [by simplify_map_eq|..]; xo; rewrite ?Hsl; try done.
  - split; [done|]. exists None. unfold locs in Hfr. split_and!; [by rewrite Hfr by constructor| | |done]; (eapply str_at_frame; [|done]; intros x Hx; apply Hfr; set_solver).
  - rewrite foot_cons, app_nil_r. by constructor.
Qed.

(** The first entry of a table, the second one, and the rest. *)
Lemma table_two h self o e e2 es c : table h self o (e :: e2 :: es) c ->
  exists nx2, h !! e_node e = Some (Node (lnode_of e (Some (e_node e2)) None)) /\ str_at h (e_key e) /\ str_at h (e_val e) /\
    h !! e_node e2 = Some (Node (lnode_of e2 nx2 (Some (e_node e2)))) /\ str_at h (e_key e2) /\ str_at h (e_val e2) /\
    chain true h nx2 (Some (e_node e2)) es None /\ NoDup (locs e) /\ self ∉ locs e /\ (forall x, x ∈ locs e -> x ∉ foot (e2 :: es)) /\ NoDup (self :: foot (e2 :: es)).
Proof.
  intros [Ho _ _ _ _ _ Hch Hnd _ _]. cbn [chain] in Hch. destruct Hch as (_ & nx & Hn & Hke & Hve & -> & nx2 & Hn2 & Hke2 & Hve2 & Hch).
  rewrite foot_cons in Hnd. apply NoDup_cons in Hnd as [Hself Hnd]. apply NoDup_app in Hnd as (Hl & Hd & Hnd). rewrite elem_of_app in Hself.
  exists nx2. split_and!; try done; [tauto|]. constructor; [tauto|done].
Qed.

Lemma table_behead h h2 self o o' e e2 es c c' : table h self o (e :: e2 :: es) c -> h2 !! self = Some (Obj o') ->
  obj_type o' = STRING_HASH -> val o' = VList (Some (e_node e2)) -> tail o' = tail o -> read_ptr o' = e_node <$> (e2 :: es) !! c' -> list_count o' = zlen es + 1 ->
  strlist o' = None -> (forall n, h !! e_node e2 = Some (Node n) -> h2 !! e_node e2 = Some (Node (set_prev None n))) ->
  (forall x, x ∈ foot (e2 :: es) -> x <> e_node e2 -> h2 !! x = h !! x) -> table h2 self o' (e2 :: es) c'.
Proof.
  intros T Ho' Hty Hvl Htl Hrd Hct Hsl Hn' Hf. destruct (table_two _ _ _ _ _ _ _ T) as (nx2 & _ & _ & _ & Hn2 & Hk2 & Hv2 & Hch & _ & _ & _ & Hnd).
  pose proof (proj2 (proj1 (NoDup_cons _ _) Hnd)) as Hnf. rewrite foot_cons in Hnf. apply NoDup_app in Hnf as (Hl2 & Hd2 & _). unfold locs in Hl2. apply NoDup_cons in Hl2 as [Hl2 _].
  rewrite elem_of_app in Hl2. split; try done.
  - rewrite Htl, (t_tail _ _ _ _ _ T). by rewrite !last_node_cons.
  - by rewrite zlen_cons.
  - split; [done|]. exists nx2. split_and!; [by rewrite (Hn' _ Hn2)| | |].
    + eapply str_at_frame; [|exact Hk2]. intros x Hx. apply Hf; [apply elem_of_app; left; by apply key_in_locs|intros ->; tauto].
    + eapply str_at_frame; [|exact Hv2]. intros x Hx. apply Hf; [apply elem_of_app; left; by apply val_in_locs|intros ->; tauto].
    + eapply chain_frame; [|exact Hch]. intros x Hx. apply Hf; [apply elem_of_app; by right|]. intros ->. apply (Hd2 (e_node e2)); [constructor|done].
Qed.

(** The cursor is at the first entry only if it is before it. *)
Lemma cursor_first h self o e e2 es c : table h self o (e :: e2 :: es) c -> read_ptr o = Some (e_node e) <-> c = 0%nat.
Proof.
  intros T. destruct (table_two _ _ _ _ _ _ _ T) as (nx2 & _ & _ & _ & _ & _ & _ & _ & _ & _ & Hd & _). rewrite (t_read _ _ _ _ _ T). split; [|by intros ->].
  destruct c as [|c]; [done|]. cbn. intros H. exfalso. destruct ((e2 :: es) !! c) as [x|] eqn:Ex; [|done].
  cbn in H. injection H as E. apply (Hd (e_node e)); [constructor|]. rewrite <- E. apply node_in_foot. by eapply list_elem_of_lookup_2.
Qed.

(** Deleting the first of several entries. *)
Lemma del_head_run s self o e e2 es c k : table (heap s) self o (e :: e2 :: es) c -> has_key k e -> zlen (e :: e2 :: es) <= INT_MAX ->
  exists s' o', xobj_del (Some self) (Some k) s = Ret (1, s') /\ table (heap s') self o' (e2 :: es) (if decide (c = 0%nat) then S (length es) else c - 1)%nat /\ same_rest s s'.
Proof.
  intros T Hk Hmax. unfold xobj_del. pose proof T as [Ho Hty Hvl Htl Hrd Hct _ _ _ Hsl]. pose proof (cursor_first _ _ _ _ _ _ _ T) as Hc0.
  destruct (table_two _ _ _ _ _ _ _ T) as (nx2 & Hn & Hke & Hve & Hn2 & _ & _ & _ & Hl & Hself & Hd & Hnd). rewrite foot_cons in Hd, Hnd.
  apply NoDup_cons in Hnd as [Hself2 _]. rewrite elem_of_app in Hself2.
  assert (e_node e <> self /\ e_node e2 <> self /\ e_node e <> e_node e2) as (H1 & H2 & H3).
  { split_and!; [intros <-; by apply Hself, node_in_locs|intros <-; apply Hself2; left; apply node_in_locs|]. intros E. apply (Hd (e_node e)); [apply node_in_locs|].
    rewrite E. apply elem_of_app. left. apply node_in_locs. }
  mrun. rewrite (bool_decide_true (obj_type o = STRING_HASH)) by done. cbn [negb orb].
  rewrite (bind_Ret _ _ _ _ _ (internal_get_run s self o _ c k T)). cbn [list_find]. rewrite decide_True by done. cbn [fmap option_fmap option_map compose snd].
  set (o0 := if decide (read_ptr o = Some (e_node e)) then set_read None o else o). rewrite (bind_Ret _ _ s tt (wr self (Obj o0) s)).
  2: { unfold o0. case_decide; [by apply upd_obj_run|]. unfold wr. rewrite insert_id by done. by destruct s. }
  rewrite !zlen_cons in *. pose proof (zlen_nonneg es). rewrite Hct, (proj2 (Z.eqb_neq (zlen es + 1 + 1) 1)) by lia. unfold val_list. rewrite Hvl, mret_bind.
  cbn [head fmap option_fmap option_map]. rewrite decide_True by done. unfold decr_count. mrun. xo.
  assert (list_count o0 = zlen es + 1 + 1) as Hc0' by (unfold o0; case_decide; xo; rewrite Hct; done). rewrite Hc0'. mrun. xo. rewrite Hty.
  set (s1 := wr self _ (wr (e_node e2) _ _)).
  assert (forall x, x <> self -> x <> e_node e2 -> heap s1 !! x = heap s !! x) as Hs1 by (intros x Hx1 Hx2; cbn [s1 heap wr set_heap]; by rewrite !lookup_insert_ne by done).
  assert (forall x, x ∈ locs e -> heap s1 !! x = heap s !! x) as Hle.
  { intros x Hx. apply Hs1; [by intros ->|]. intros ->. apply (Hd _ Hx), elem_of_app. left. apply node_in_locs. }
  destruct (free_entry_run s1 e (Node (lnode_of e (Some (e_node e2)) None))) as (s2 & Hrun & Hr2 & Hkeep & _);
    [eapply str_at_frame; [|done]; intros x Hx; by apply Hle, key_in_locs|eapply str_at_frame; [|done]; intros x Hx; by apply Hle, val_in_locs|
     rewrite Hle; [done|apply node_in_locs]|done|].
  rewrite Hrun. eexists _, _. split; [reflexivity|]. split; [|by eapply same_rest_trans; [|done]].
  eapply table_behead; [exact T|rewrite Hkeep by done; cbn [s1 heap wr set_heap]; by simplify_map_eq|..]; xo; try done; try (by unfold o0; case_decide); try lia.
  - unfold o0. destruct (decide (c = 0%nat)) as [->|Hne].
    + rewrite decide_True by (by apply Hc0). by rewrite (lookup_ge_None_2 (e2 :: es)) by (cbn; lia).
    + rewrite decide_False by (by rewrite Hc0). rewrite Hrd. destruct c as [|c]; [done|]. cbn [lookup list_lookup]. by rewrite Nat.sub_1_r.
  - intros n Hn'. rewrite Hkeep by (intros Hin; apply (Hd _ Hin), elem_of_app; left; apply node_in_locs). cbn [s1 heap wr set_heap]. by simplify_map_eq.
  - intros x Hx Hx2. rewrite Hkeep by (intros Hin; by apply (Hd x)). apply Hs1; [|done]. intros ->. apply Hself2. by apply elem_of_app.
Qed.

(** ** Tables: specification *)

(** Calls on a table; the strings behind returned pointers are read at once. *)
Inductive top := Put (k v : option (list Z)) | Get (k : list Z) | Exist (k : list Z) | Size | First | Next | Del (k : list Z).
Inductive tres := RInt (z : Z) | RStr (s : option (list Z)) | REnt (e : option (list Z * list Z)).

Definition c_read (p : option loc) : M (list Z) := buf ← get_buf p; cstr_of buf.
Definition read_ent (e : option (option loc * option loc)) : M tres :=
  match e with
  | None => mret (REnt None)
  | Some (kp, vp) => k ← c_read kp; v ← c_read vp; mret (REnt (Some (k, v)))
  end.
Definition tcall (self : option loc) (op : top) : M tres :=
  match op with
  | Put k v => r ← xobj_put self k v; mret (RInt r)
  | Get k =>
      p ← xobj_get self (Some k);
      match p with
      | NULL => mret (RStr None)
      | Nullstr => mret (RStr (Some []))
      | Ptr l => t ← c_read (Some l); mret (RStr (Some t))
      end
  | Exist k => r ← xobj_is_exist self (Some k); mret (RInt r)
  | Size => r ← xobj_count self; mret (RInt r)
  | First => e ← xobj_get_first self; read_ent e
  | Next => e ← xobj_get_next self; read_ent e
  | Del k => r ← xobj_del self (Some k); mret (RInt r)
  end.
Fixpoint tcalls (self : option loc) (ops : list top) : M (list tres) :=
  match ops with
  | [] => mret []
  | op :: ops => r ← tcall self op; rs ← tcalls self ops; mret (r :: rs)
  end.

(** What the calls do, as a specification.  [Tab kvs c]: the entries in the order of their
    first insertion, and how many of them the enumeration has passed; [Hollow]: the only
    entry was deleted, the object is still a table and has neither entries nor a tail. *)
Notation kvs_t := (list (list Z * list Z)).
Inductive tst := Tab (kvs : kvs_t) (c : nat) | Hollow.
(** [Goes r st]: the call returns [r] and leaves [st]; [Crashes]: it goes through a null
    pointer; [Dangles kvs]: it returns 1 and leaves a freed entry linked behind [kvs]. *)
Inductive tnext := Goes (r : tres) (st : tst) | Crashes | Dangles (kvs : kvs_t).
Definition kv_find (k : list Z) (kvs : kvs_t) : option (nat * (list Z * list Z)) := list_find (fun kv => kv.1 = k) kvs.
Definition tspec (st : tst) (op : top) : tnext :=
  match st with
  | Tab kvs c =>
      match op with
      | Put (Some k) (Some v) =>
          Goes (RInt 1) (match kv_find k kvs with Some (i, _) => Tab (<[i := (k, v)]> kvs) c | None => Tab (kvs ++ [(k, v)]) (S (length kvs)) end)
      | Put _ _ => Goes (RInt 0) st
      | Get k => Goes (RStr (snd ∘ snd <$> kv_find k kvs)) st
      | Exist k => Goes (RInt (match kv_find k kvs with Some _ => 1 | None => 0 end)) st
      | Size => Goes (RInt (zlen kvs)) st
      | First => match kvs with [] => Goes (REnt None) st | kv :: _ => Goes (REnt (Some kv)) (Tab kvs 1) end
      | Next => match kvs !! c with None => Goes (REnt None) st | Some kv => Goes (REnt (Some kv)) (Tab kvs (S c)) end
      | Del k =>
          match kvs with
          | [] => Goes (RInt 0) st
          | _ :: rest =>
              match kv_find k kvs with
              | None => Goes (RInt 1) st
              | Some (O, _) => Goes (RInt 1) (if decide (rest = []) then Hollow else Tab rest (if decide (c = 0%nat) then length rest else (c - 1)%nat))
              | Some (S i, _) => Dangles (take (S i) kvs)
              end
          end
      end
  | Hollow =>
      match op with
      | Put (Some _) (Some _) => Crashes
      | Put _ _ | Exist _ | Size => Goes (RInt 0) st
      | Get _ => Goes (RStr None) st
      | First | Next => Goes (REnt None) st
      | Del _ => Goes (RInt 1) st
      end
  end.

(** A sequence of calls: all return; one goes through a null pointer; or the [n]-th call
    leaves a freed entry linked behind [kvs], and the results so far are [rs]. *)
Inductive tend := Returns (rs : list tres) | NullPtr | Freed (n : nat) (rs : list tres) (kvs : kvs_t).
Definition tcons (r : tres) (e : tend) : tend :=
  match e with Returns rs => Returns (r :: rs) | NullPtr => NullPtr | Freed n rs kvs => Freed (S n) (r :: rs) kvs end.
Fixpoint tspec_run (st : tst) (ops : list top) : tend :=
  match ops with
  | [] => Returns []
  | op :: ops =>
      match tspec st op with
      | Goes r st' => tcons r (tspec_run st' ops)
      | Crashes => NullPtr
      | Dangles kvs => Freed 1 [RInt 1] kvs
      end
  end.

(** The object [self] in [s] is the table [kvs] with the cursor [c]. *)
Definition holds (e : entry) (kv : list Z * list Z) : Prop := text (e_key e) = Some kv.1 /\ text (e_val e) = Some kv.2.
Definition is_table (s : state) (self : loc) (kvs : kvs_t) (c : nat) : Prop :=
  (kvs = [] /\ exists o, heap s !! self = Some (Obj o) /\ obj_type o = EMPTY /\ strlist o = None) \/
  (exists o es, table (heap s) self o es c /\ Forall2 holds es kvs).

Definition hollow (s : state) (self : loc) : Prop :=
  exists o, heap s !! self = Some (Obj o) /\ obj_type o = STRING_HASH /\ val o = VList None /\ tail o = None /\ list_count o = 0 /\ read_ptr o = None.
Definition is_tst (s : state) (self : loc) (st : tst) : Prop := match st with Tab kvs c => is_table s self kvs c | Hollow => hollow s self end.

Lemma find_kv_holds es kvs k : Forall2 holds es kvs ->
  match list_find (has_key k) es, kv_find k kvs with
  | Some (i, e), Some (j, kv) => i = j /\ holds e kv
  | None, None => True
  | _, _ => False
  end.
Proof.
  unfold kv_find. induction 1 as [|e kv es kvs [Hk Hv] H IH]; [done|]. cbn [list_find].
  destruct (decide (has_key k e)) as [E|E], (decide (kv.1 = k)) as [E'|E']; try (by unfold has_key in *; congruence); [done|].
  destruct (list_find (has_key k) es) as [[i e']|], (list_find _ kvs) as [[j kv']|]; try done. destruct IH as [-> ?]. done.
Qed.

Lemma c_read_run s x t : str_at (heap s) x -> text x = Some t -> c_read (fst <$> x) s = Ret (t, s).
Proof.
  destruct x as [[l buf]|]; [|done]. intros (Hl & t' & Ht). rewrite (text_cstr _ _ _ Ht). intros [= ->].
  unfold c_read. cbn [fmap option_fmap option_map fst]. rewrite (bind_Ret _ _ _ _ _ (get_buf_run _ _ _ Hl)). by apply cstr_of_run.
Qed.

Lemma read_ent_run s e kv : str_at (heap s) (e_key e) -> str_at (heap s) (e_val e) -> holds e kv ->
  read_ent (Some (fst <$> e_key e, fst <$> e_val e)) s = Ret (REnt (Some kv), s).
Proof.
  intros Hk Hv [Tk Tv]. unfold read_ent. rewrite (bind_Ret _ _ _ _ _ (c_read_run _ _ _ Hk Tk)), (bind_Ret _ _ _ _ _ (c_read_run _ _ _ Hv Tv)). by destruct kv.
Qed.

(** Reading entry [i] and moving the cursor behind it. *)
Lemma read_entry_run s self o es c i e kv : table (heap s) self o es c -> es !! i = Some e -> holds e kv ->
  exists s' o', (x ← read_entry (Some self) (e_node <$> es !! i); read_ent x) s = Ret (REnt (Some kv), s') /\ table (heap s') self o' es (S i) /\ same_rest s s'.
Proof.
  intros T Hi Hh. pose proof T as [Ho Hty Hvl Htl Hrd Hct Hch Hnd Hne Hsl]. rewrite <- (take_drop_middle _ _ _ Hi) in Hch.
  apply chain_mid in Hch as (nx & Hn & Hk & Hv & _ & Hc2). rewrite Hi. cbn [fmap option_fmap option_map read_entry].
  assert (nx = e_node <$> es !! S i) as ->.
  { rewrite <- (Nat.add_0_r (S i)), <- lookup_drop. destruct (drop (S i) es) as [|x r]; cbn in Hc2 |- *; [done|by destruct Hc2]. }
  mrun. xo. assert (forall x, x ∈ foot es -> heap (wr self (Obj (set_read (e_node <$> es !! S i) o)) s) !! x = heap s !! x) as Hfr.
  { intros x Hx. cbn [heap wr set_heap]. apply lookup_insert_ne. intros ->. by apply NoDup_cons in Hnd as [? _]. }
  assert (e ∈ es) as Hin by by eapply list_elem_of_lookup_2. assert (forall x, x ∈ locs e -> x ∈ foot es) as Hlo by (intros x Hx; apply list_elem_of_bind; eauto).
  rewrite (read_ent_run _ e kv); [|eapply str_at_frame; [|done]; intros x Hx; by apply Hfr, Hlo, key_in_locs|eapply str_at_frame; [|done]; intros x Hx; by apply Hfr, Hlo, val_in_locs|done].
  eexists _, _. split; [reflexivity|]. split; [|done]. split; [cbn [heap wr set_heap]; by simplify_map_eq|..]; try done.
  eapply chain_frame; [exact Hfr|]. by apply (t_chain _ _ _ _ _ T).
Qed.

Definition text_ok (x : option (list Z)) : Prop := match x with Some t => c_text t | None => True end.
Definition op_ok (op : top) : Prop := match op with Put k v => text_ok k /\ text_ok v | _ => True end.

Lemma step_put s self o es c kvs k v : table (heap s) self o es c -> Forall2 holds es kvs -> c_text k -> c_text v -> zlen kvs < INT_MAX ->
  exists s' kvs' c', tcall (Some self) (Put (Some k) (Some v)) s = Ret (RInt 1, s') /\ is_table s' self kvs' c' /\ same_rest s s' /\
    Tab kvs' c' = match kv_find k kvs with Some (i, _) => Tab (<[i := (k, v)]> kvs) c | None => Tab (kvs ++ [(k, v)]) (S (length kvs)) end.
Proof.
  intros T HF Hk Hv Hmax. pose proof (find_kv_holds _ _ k HF) as Hfind. pose proof (Forall2_length _ _ _ HF) as Hlen. cbn [tcall].
  destruct (list_find (has_key k) es) as [[i e]|] eqn:Ei, (kv_find k kvs) as [[j kv]|] eqn:Ej; try done.
  - destruct Hfind as [<- Hh]. destruct (find_split _ _ _ _ Ei) as (es2 & Hes & Hkey & Hti). unfold xobj_put, xobj_internal_put.
    pose proof (t_obj _ _ _ _ _ T) as Ho. mrun. rewrite (t_type _ _ _ _ _ T), !bind_assoc, (bind_Ret _ _ _ _ _ (internal_get_run s self o es c k T)), Ei.
    cbn [fmap option_fmap option_map compose snd]. rewrite mret_bind. rewrite Hes in T. destruct Hh as [Hh1 Hh2]. destruct (e_val e) as [[l buf]|] eqn:Ev; [|done].
    destruct (replace_run s self o _ e es2 c l buf v T Ev Hv) as (s' & o' & x & Hrun & T' & Hx & Hr). rewrite (bind_Ret _ _ _ _ _ Hrun).
    eexists s', _, c. split; [done|]. split; [|done]. right. eexists o', _. split; [exact T'|].
    rewrite <- Hti at 2. rewrite Hes in HF. apply Forall2_app_inv_l in HF as (k1 & k2 & HF1 & HF2 & ->). apply Forall2_cons_inv_l in HF2 as (kv' & k2' & Hh' & HF2 & ->).
    rewrite (Forall2_length _ _ _ HF1), insert_app_r_alt, Nat.sub_diag by lia. cbn [insert list_insert]. apply Forall2_app; [done|]. constructor; [|done]. split; [exact Hkey|exact Hx].
  - destruct (put_new_run s self o es c k v T Hk Hv) as (s' & o' & e & Hrun & T' & Htk & Htv & Hr); [unfold zlen in *; lia|done|].
    rewrite (bind_Ret _ _ _ _ _ Hrun). eexists s', _, _. split; [done|]. split; [|split; [done|reflexivity]]. right. exists o', (es ++ [e]). rewrite <- Hlen.
    split; [done|]. apply Forall2_app; [done|]. by repeat constructor.
Qed.

Lemma step_lookup s self o es c kvs k : table (heap s) self o es c -> Forall2 holds es kvs ->
  tcall (Some self) (Get k) s = Ret (RStr (snd ∘ snd <$> kv_find k kvs), s) /\
  tcall (Some self) (Exist k) s = Ret (RInt (match kv_find k kvs with Some _ => 1 | None => 0 end), s).
Proof.
  intros T HF. pose proof (find_kv_holds _ _ k HF) as Hfind. cbn [tcall]. unfold xobj_is_exist. rewrite !bind_assoc, !(bind_Ret _ _ _ _ _ (get_run _ _ _ _ _ k T)), mret_bind.
  destruct (list_find (has_key k) es) as [[i e]|] eqn:Ei, (kv_find k kvs) as [[j kv]|]; try done. destruct Hfind as (_ & _ & Hv).
  destruct (find_split _ _ _ _ Ei) as (es2 & Hes & _). pose proof (t_chain _ _ _ _ _ T) as Hc. rewrite Hes in Hc. apply chain_mid in Hc as (nx & _ & _ & Hs & _).
  destruct (e_val e) as [[l buf]|]; [|done]. split; [|done]. by rewrite (bind_Ret _ _ _ _ _ (c_read_run _ _ _ Hs Hv)).
Qed.

(** ** Deletions that leave the table broken *)
Lemma get_loop_skip own k es : forall fuel p pv q s, chain own (heap s) p pv es q -> list_find (has_key k) es = None ->
  get_loop (length es + fuel) (Some k) p s = get_loop fuel (Some k) q s.
Proof.
  induction es as [|e es IH]; intros fuel p pv q s; cbn [chain list_find]; [by intros -> _|].
  intros (-> & nx & Hn & Hk & Hv & Hc). destruct (decide (has_key k e)) as [|Hno]; [done|]. intros Hf. cbn [length Nat.add get_loop].
  mrun. cbn [key lnode_of next]. rewrite (bind_Ret _ _ _ _ _ (key_match_run s k (e_key e) Hk)), bool_decide_false by exact Hno.
  apply (IH fuel nx (Some (e_node e))); [done|]. by destruct (list_find _ es) as [[]|].
Qed.

(** [self->tail = list->prev; self->tail->next = NULL;] when [prev] is the node itself. *)
Lemma del_tail_run s self o o0 e nx : heap s !! self = Some (Obj o0) -> heap s !! e_node e = Some (Node (lnode_of e nx (Some (e_node e)))) -> e_node e <> self ->
  exists s1 o1 nx', (if decide (tail o = Some (e_node e)) then
      n ← get_node (Some (e_node e)); upd_obj (Some self) (set_tail (prev n));; upd_node (prev n) (set_next None) else mret tt) s = Ret (tt, s1) /\
    heap s1 !! self = Some (Obj o1) /\ (obj_type o1 = obj_type o0 /\ val o1 = val o0 /\ list_count o1 = list_count o0) /\
    heap s1 !! e_node e = Some (Node (lnode_of e nx' (Some (e_node e)))) /\ (forall x, x <> self -> x <> e_node e -> heap s1 !! x = heap s !! x).
Proof.
  intros Ho Hn Hne. case_decide; [|by exists s, o0, nx]. mrun. xo. erewrite upd_node_run by (cbn [heap wr set_heap]; by simplify_map_eq).
  eexists _, _, None. split; [reflexivity|]. cbn [heap wr set_heap]. split_and!; [by simplify_map_eq|done..|by simplify_map_eq|]. intros x Hx1 Hx2. by simplify_map_eq.
Qed.

(** What [xobj_del] does to an entry that is not the first: the node is freed and stays linked. *)
Lemma del_inner_run s self o z es1 e es2 c k : let es1' := z :: es1 in
  table (heap s) self o (es1' ++ e :: es2) c -> list_find (has_key k) (es1' ++ e :: es2) = Some (length es1', e) -> zlen (es1' ++ e :: es2) <= INT_MAX ->
  exists s' o', xobj_del (Some self) (Some k) s = Ret (1, s') /\ heap s' !! e_node e = None /\ heap s' !! self = Some (Obj o') /\
    obj_type o' = STRING_HASH /\ val o' = val o /\ chain true (heap s') (Some (e_node z)) None es1' (Some (e_node e)).
Proof.
  intros es1' T Hfind Hmax. pose proof T as [Ho Hty Hvl Htl Hrd Hct Hch Hnd _ Hsl]. apply chain_mid in Hch as (nx & Hn & Hke & Hve & Hc1 & _).
  assert (prev_of true (last_node None es1') e = Some (e_node e)) as Epv by (unfold es1'; rewrite last_node_cons; unfold last_node; by destruct (last es1)). rewrite Epv in Hn.
  rewrite foot_app, foot_cons in Hnd. apply NoDup_cons in Hnd as [Hself Hnd]. apply NoDup_app in Hnd as (_ & Hd & Hnd). apply NoDup_app in Hnd as (Hl & _ & _).
  rewrite !elem_of_app in Hself. assert (e_node e <> self) as Hes by (intros <-; apply Hself; right; left; apply node_in_locs).
  assert (forall x, x ∈ foot es1' -> x ∉ locs e) as Hd' by (intros x Hx Hx'; apply (Hd x Hx), elem_of_app; by left).
  unfold xobj_del. mrun. rewrite (bool_decide_true (obj_type o = STRING_HASH)) by done. cbn [negb orb].
  rewrite (bind_Ret _ _ _ _ _ (internal_get_run s self o _ c k T)), Hfind. cbn [fmap option_fmap option_map compose snd].
  set (o0 := if decide (read_ptr o = Some (e_node e)) then set_read None o else o). rewrite (bind_Ret _ _ s tt (wr self (Obj o0) s)).
  2: { unfold o0. case_decide; [by apply upd_obj_run|]. unfold wr. rewrite insert_id by done. by destruct s. }
  assert (obj_type o0 = obj_type o /\ val o0 = val o /\ list_count o0 = list_count o) as (Hty0 & Hvl0 & Hct0) by (unfold o0; by case_decide).
  assert (2 <= zlen (es1' ++ e :: es2)) as Hlen by (unfold es1'; rewrite zlen_app, !zlen_cons; pose proof (zlen_nonneg es1); pose proof (zlen_nonneg es2); lia).
  rewrite Hct, (proj2 (Z.eqb_neq (zlen (es1' ++ e :: es2)) 1)) by lia. unfold val_list. rewrite Hvl, mret_bind. cbn [es1' app head fmap option_fmap option_map].
  rewrite (decide_False (P := Some (e_node z) = _)) by (intros [= E]; apply (Hd' (e_node z)); [apply node_in_foot; constructor|rewrite E; apply node_in_locs]).
  destruct (del_tail_run (wr self (Obj o0) s) self o o0 e nx) as (s1 & o1 & nx' & Hrun & Ho1 & (Ht1 & Hv1 & Hc1') & Hn1 & Hk1);
    [cbn [heap wr set_heap]; by simplify_map_eq|cbn [heap wr set_heap]; by simplify_map_eq|done|]. rewrite (bind_Ret _ _ _ _ _ Hrun). clear Hrun.
  assert (forall x, x <> self -> x <> e_node e -> heap s1 !! x = heap s !! x) as Hk1' by (intros x Hx1 Hx2; rewrite Hk1 by done; cbn [heap wr set_heap]; by simplify_map_eq).
  unfold decr_count. mrun. rewrite Hc1', Hct0, Hct. mrun. xo. rewrite Hty. set (s2 := wr self _ s1).
  assert (forall x, x <> self -> x <> e_node e -> heap s2 !! x = heap s !! x) as Hk2 by (intros x Hx1 Hx2; cbn [s2 heap wr set_heap]; rewrite lookup_insert_ne by done; by apply Hk1').
  assert (forall x, x ∈ str_locs (e_key e) ++ str_locs (e_val e) -> heap s2 !! x = heap s !! x) as Hstr.
  { intros x Hx. apply Hk2; intros ->; [apply Hself; right; left; by apply list_elem_of_further|]. unfold locs in Hl. by apply NoDup_cons in Hl as [? _]. }
  destruct (free_entry_run s2 e (Node (lnode_of e nx' (Some (e_node e))))) as (s3 & Hrun & _ & Hkeep & Hgone);
    [eapply str_at_frame; [|done]; intros x Hx; apply Hstr, elem_of_app; by left|eapply str_at_frame; [|done]; intros x Hx; apply Hstr, elem_of_app; by right|
     cbn [s2 heap wr set_heap]; by simplify_map_eq|done|].
  rewrite Hrun. eexists _, _. split; [reflexivity|]. split; [apply Hgone, node_in_locs|].
  split; [rewrite Hkeep by tauto; cbn [s2 heap wr set_heap]; by simplify_map_eq|]. xo. split; [congruence|]. split; [rewrite Hv1, Hvl0; first [exact Hvl|done]|].
  eapply chain_frame; [|exact Hc1]. intros x Hx. rewrite Hkeep by by apply Hd'. apply Hk2; intros ->; [by apply Hself; left|]. apply (Hd' (e_node e) Hx), node_in_locs.
Qed.

(** Deleting an entry other than the first is not safe: [xobj_del] reports success and
    frees the entry's node, but its predecessor still points to it, so the next search
    that passes the place, such as [get] of an absent key, reads freed memory. *)
Theorem del_dangles (s : state) (self : loc) (kvs : kvs_t) (c i : nat) (k v : list Z) :
  is_table s self kvs c -> zlen kvs <= INT_MAX -> kv_find k kvs = Some (S i, (k, v)) ->
  exists s', tcall (Some self) (Del k) s = Ret (RInt 1, s') /\
    forall k', kv_find k' (take (S i) kvs) = None -> tcall (Some self) (Get k') s' = Fault UseAfterFree.
Proof.
  intros [(-> & _)|(o & es & T & HF)] Hmax Hk; [done|]. pose proof (find_kv_holds _ _ k HF) as Hfind. rewrite Hk in Hfind.
  destruct (list_find (has_key k) es) as [[j e]|] eqn:Ej; [|done]. destruct Hfind as [-> _].
  pose proof (Forall2_take _ _ _ (S i) HF) as HFt.
  destruct (find_split _ _ _ _ Ej) as (es2 & Hes & _ & Hlen). destruct (take (S i) es) as [|z es1] eqn:Etk; [done|]. rewrite Hes in T, Ej. rewrite <- Hlen in Ej.
  destruct (del_inner_run s self o z es1 e es2 c k T Ej) as (s' & o' & Hrun & Hgone & Ho' & Ht' & Hv' & Hch).
  { rewrite <- Hes. unfold zlen in *. rewrite (Forall2_length _ _ _ HF). done. }
  cbn [tcall]. rewrite (bind_Ret _ _ _ _ _ Hrun). exists s'. split; [done|]. intros k' Hk'. pose proof (find_kv_holds _ _ k' HFt) as Hfind'. rewrite Hk' in Hfind'.
  destruct (list_find (has_key k') (z :: es1)) as [[]|] eqn:Ej'; [done|]. unfold xobj_get, xobj_internal_get. mrun. rewrite bool_decide_true by done. cbn [negb].
  unfold val_list. rewrite Hv', (t_val _ _ _ _ _ T). mrun. cbn [app head fmap option_fmap option_map].
  assert (find_entry (Some k') (Some (e_node z)) s' = Fault UseAfterFree) as Hfe; [|by rewrite ?bind_assoc, ?mret_bind, (bind_Fault _ _ _ _ Hfe)].
  unfold find_entry. assert (S (length (z :: es1)) <= size (heap s'))%nat as Hsz.
  { pose proof (foot_length (z :: es1)). pose proof (t_nodup _ _ _ _ _ T) as Hnd. rewrite foot_app, app_comm_cons in Hnd. apply NoDup_app in Hnd as [Hnd _].
    pose proof (size_bound (heap s') _ Hnd) as Hb. cbn [length] in Hb. etransitivity; [|apply Hb; intros l Hl; apply elem_of_cons in Hl as [->|Hl]; [by eexists|by eapply chain_dom]]. cbn [length] in *. lia. }
  replace (size (heap s')) with (length (z :: es1) + S (size (heap s') - S (length (z :: es1))))%nat by lia.
  rewrite (get_loop_skip true k' (z :: es1) _ _ None (Some (e_node e))); [|done|done]. cbn [get_loop]. by apply bind_Fault, get_node_gone.
Qed.

(** Deleting the only entry keeps its node and strings in memory and leaves a table
    without a tail. *)
Lemma del_last_run s self o e c k : table (heap s) self o [e] c -> has_key k e ->
  exists s', xobj_del (Some self) (Some k) s = Ret (1, s') /\ size (heap s') = size (heap s) /\ hollow s' self /\ same_rest s s'.
Proof.
  intros T Hk. pose proof T as [Ho Hty Hvl Htl Hrd Hct Hch Hnd _ Hsl]. unfold xobj_del. mrun. rewrite (bool_decide_true (obj_type o = STRING_HASH)) by done. cbn [negb orb].
  rewrite (bind_Ret _ _ _ _ _ (internal_get_run s self o _ c k T)). cbn [list_find]. rewrite decide_True by exact Hk. cbn [fmap option_fmap option_map compose snd].
  set (o0 := if decide (read_ptr o = Some (e_node e)) then set_read None o else o). rewrite (bind_Ret _ _ s tt (wr self (Obj o0) s)).
  2: { unfold o0. case_decide; [by apply upd_obj_run|]. unfold wr. rewrite insert_id by done. by destruct s. }
  rewrite Hct. change (zlen [e] =? 1) with true. cbn iota. mrun. eexists. split; [reflexivity|].
  cbn [heap wr set_heap]. rewrite !insert_insert_eq. split; [by rewrite map_size_insert_Some|]. split; [|done].
  eexists. split; [cbn [heap wr set_heap]; by simplify_map_eq|]. xo. split_and!; try done; unfold o0; case_decide as E; try done.
  rewrite Hrd in *. destruct c; [done|by destruct c].
Qed.

Lemma hollow_get s self k : hollow s self -> xobj_internal_get (Some self) (Some k) s = Ret (None, s).
Proof.
  intros (o & Ho & Ht & Hv & _). unfold xobj_internal_get. mrun. rewrite bool_decide_true by done. cbn [negb]. unfold val_list. rewrite Hv, ?mret_bind.
  unfold find_entry. by destruct (size (heap s)).
Qed.

(** The next [put] goes through the null pointer. *)
Lemma hollow_put s self k v : hollow s self -> c_text k -> c_text v -> tcall (Some self) (Put (Some k) (Some v)) s = Fault NullDeref.
Proof.
  intros Hh Hk Hv. pose proof (hollow_get s self k Hh) as Hg. destruct Hh as (o & Ho & Ht & Hvl & Hl & _). cbn [tcall]. unfold xobj_put, xobj_internal_put. mrun. rewrite Ht.
  rewrite ?bind_assoc, (bind_Ret _ _ _ _ _ Hg), ?mret_bind.
  destruct (new_entry_run xobj_clone (Some k) v None None s Hv) as (e' & s2 & He & F & _); [by intros ? [= <-]|]. rewrite bind_assoc, (bind_Ret _ _ _ _ _ He).
  destruct (fresh_ne _ _ _ _ _ F Ho) as [_ Ho2]. unfold link_entry. mrun. xo. rewrite Hl. apply bind_Fault. done.
Qed.

(** Deleting the only entry leaves an object that is still of the table type but has no
    tail: the entry's node and strings are not freed, and the next [put] goes through a
    null pointer. *)
Theorem del_last_faults (s : state) (self : loc) (k v k' v' : list Z) (c : nat) :
  is_table s self [(k, v)] c -> c_text k' -> c_text v' ->
  exists s', tcall (Some self) (Del k) s = Ret (RInt 1, s') /\ size (heap s') = size (heap s) /\
    tcall (Some self) (Put (Some k') (Some v')) s' = Fault NullDeref.
Proof.
  intros [(? & _)|(o & es & T & HF)] Hk' Hv'; [done|]. apply Forall2_cons_inv_r in HF as (e & es0 & [Hk Hv] & HF & ->). apply Forall2_nil_inv_r in HF as ->.
  destruct (del_last_run s self o e c k T Hk) as (s' & Hrun & Hs & Hh & _). cbn [tcall]. rewrite (bind_Ret _ _ _ _ _ Hrun). exists s'. split; [done|]. split; [done|].
  by apply (hollow_put s' self k' v').
Qed.

(** ** The calls against the specification *)
Lemma step_del s self o es c kvs k r st' : table (heap s) self o es c -> Forall2 holds es kvs -> zlen kvs <= INT_MAX ->
  tspec (Tab kvs c) (Del k) = Goes r st' -> exists s', tcall (Some self) (Del k) s = Ret (r, s') /\ is_tst s' self st' /\ same_rest s s'.
Proof.
  intros T HF Hmax. pose proof (find_kv_holds _ _ k HF) as Hfind. pose proof (t_nonempty _ _ _ _ _ T) as Hne. pose proof (Forall2_length _ _ _ HF) as Hlen.
  destruct HF as [|e kv es kvs Hh HF]; [done|]. cbn [tspec tcall].
  destruct (kv_find k (kv :: kvs)) as [[[|i] kv']|] eqn:Ej; [|done|].
  - destruct HF as [|e2 kv2 es kvs Hh2 HF].
    { rewrite decide_True by done. intros [= <- <-]. destruct (list_find (has_key k) [e]) as [[i e']|] eqn:Ei; [|done]. destruct Hfind as [-> _].
      apply list_find_Some in Ei as ([= ->] & Hkey & _). destruct (del_last_run s self o e' c k T Hkey) as (s' & Hrun & _ & Hho & Hr).
      rewrite (bind_Ret _ _ _ _ _ Hrun). by exists s'. }
    rewrite decide_False by done. intros [= <- <-].
    destruct (list_find (has_key k) (e :: e2 :: es)) as [[i e']|] eqn:Ei; [|done]. destruct Hfind as [-> _].
    apply list_find_Some in Ei as ([= ->] & Hkey & _).
    destruct (del_head_run s self o e' e2 es c k T Hkey) as (s' & o' & Hrun & T' & Hr); [unfold zlen in *; cbn in *; lia|].
    rewrite (bind_Ret _ _ _ _ _ Hrun). exists s'. split; [done|]. split; [|done]. right. exists o', (e2 :: es). cbn [length].
    rewrite <- (Forall2_length _ _ _ HF). split; [exact T'|by constructor].
  - intros [= <- <-]. destruct (list_find (has_key k) (e :: es)) as [[i e']|] eqn:Ei; [done|]. unfold xobj_del. pose proof (t_obj _ _ _ _ _ T) as Ho. mrun.
    rewrite (bool_decide_true (obj_type o = STRING_HASH)) by apply (t_type _ _ _ _ _ T). cbn [negb orb].
    rewrite bind_assoc, (bind_Ret _ _ _ _ _ (internal_get_run s self o _ c k T)), Ei. exists s. split; [done|]. split; [|done]. right. exists o, (e :: es). split; [done|by constructor].
Qed.

Lemma step_empty s self o c op r st' : heap s !! self = Some (Obj o) -> obj_type o = EMPTY -> strlist o = None -> op_ok op ->
  tspec (Tab [] c) op = Goes r st' -> exists s', tcall (Some self) op s = Ret (r, s') /\ is_tst s' self st' /\ same_rest s s'.
Proof.
  intros Ho Ht Hs Hok. assert (is_table s self [] c) as Hi by (left; eauto).
  assert (forall k, xobj_internal_get (Some self) (Some k) s = Ret (None, s)) as Hg by (intros k; unfold xobj_internal_get; mrun; by rewrite bool_decide_false by congruence).
  destruct op as [[k|] [v|]|k|k| | | |k]; cbn [tspec kv_find list_find lookup list_lookup length]; intros [= <- <-]; cbn [tcall];
    try (exists s; split; [|done]; unfold xobj_is_exist, xobj_get, xobj_count, xobj_get_first, xobj_get_next, xobj_del; rewrite ?bind_assoc, ?(bind_Ret _ _ _ _ _ (Hg k)); mrun;
         rewrite ?Ht, ?bool_decide_false by congruence; done).
  destruct Hok as [Hk Hv]. destruct (put_first_run s self o k v Ho Ht Hs Hk Hv) as (s' & o' & e & Hrun & T' & Htk & Htv & Hr).
  rewrite (bind_Ret _ _ _ _ _ Hrun). exists s'. split; [done|]. split; [|done]. right. exists o', [e]. split; [done|]. by repeat constructor.
Qed.

Lemma step_table s self kvs c op r st' : is_table s self kvs c -> op_ok op -> zlen kvs < INT_MAX -> tspec (Tab kvs c) op = Goes r st' ->
  exists s', tcall (Some self) op s = Ret (r, s') /\ is_tst s' self st' /\ same_rest s s'.
Proof.
  intros Hi Hok Hmax. pose proof Hi as [(-> & o & Ho & Ht & Hs)|(o & es & T & HF)]; [by apply (step_empty s self o)|].
  pose proof (t_obj _ _ _ _ _ T) as Ho. pose proof (t_type _ _ _ _ _ T) as Ht. pose proof (step_lookup s self o es c kvs) as Hlk.
  destruct op as [[k|] [v|]|k|k| | | |k]; cbn [tspec]; try (intros [= <- <-]; by exists s).
  - intros [= <- <-]. destruct Hok as [Hk Hv]. destruct (step_put s self o es c kvs k v T HF Hk Hv Hmax) as (s' & kvs' & c' & Hrun & Hi' & Hr & E).
    exists s'. rewrite <- E. done.
  - intros [= <- <-]. exists s. split; [|done]. by apply Hlk.
  - intros [= <- <-]. exists s. split; [|done]. by apply Hlk.
  - intros [= <- <-]. exists s. split; [|done]. cbn [tcall]. unfold xobj_count. mrun. rewrite Ht, mret_bind, (t_count _ _ _ _ _ T). unfold zlen. by rewrite (Forall2_length _ _ _ HF).
  - destruct HF as [|e kv es kvs Hh HF]; [by destruct (t_nonempty _ _ _ _ _ T)|]. intros [= <- <-]. cbn [tcall]. unfold xobj_get_first. mrun.
    rewrite bool_decide_true by done. cbn [negb]. mrun. unfold val_list. rewrite (t_val _ _ _ _ _ T), ?bind_assoc, mret_bind.
    set (s1 := wr self _ s). assert (table (heap s1) self (set_read None o) (e :: es) (length (e :: es))) as T1.
    { destruct T. split; try done; [cbn; by simplify_map_eq|by rewrite lookup_ge_None_2 by done|]. eapply chain_frame; [|done].
      intros x Hx. cbn [s1 heap wr set_heap]. apply lookup_insert_ne. intros ->. by apply NoDup_cons in t_nodup0 as [? _]. }
    destruct (read_entry_run s1 self _ _ _ 0 e kv T1 eq_refl Hh) as (s' & o' & Hrun & T' & Hr). exists s'. split; [exact Hrun|]. split; [|done]. right.
    exists o', (e :: es). split; [exact T'|by constructor].
  - cbn [tcall]. unfold xobj_get_next. mrun. rewrite bool_decide_true by done. cbn [negb]. rewrite (t_read _ _ _ _ _ T).
    destruct (kvs !! c) as [kv|] eqn:Ec; intros [= <- <-].
    + destruct (Forall2_lookup_r _ _ _ _ _ HF Ec) as (e & He & Hh). destruct (read_entry_run s self o es c c e kv T He Hh) as (s' & o' & Hrun & T' & Hr).
      exists s'. split; [exact Hrun|]. split; [|done]. right. by exists o', es.
    + exists s. split; [|done]. rewrite (lookup_ge_None_2 es) by (apply lookup_ge_None in Ec; rewrite (Forall2_length _ _ _ HF); lia). done.
  - apply (step_del s self o es c kvs k r st' T HF). lia.
Qed.

Lemma step_hollow s self op : hollow s self -> op_ok op ->
  match tspec Hollow op with
  | Goes r st' => exists s', tcall (Some self) op s = Ret (r, s') /\ is_tst s' self st'
  | Crashes => tcall (Some self) op s = Fault NullDeref
  | Dangles _ => False
  end.
Proof.
  intros Hh Hok. pose proof (fun k => hollow_get s self k Hh) as Hg. pose proof Hh as (o & Ho & Ht & Hv & Hl & Hc & Hr).
  destruct op as [[k|] [v|]|k|k| | | |k]; cbn [tspec]; try (by exists s).
  - destruct Hok. by apply hollow_put.
  - exists s. split; [|done]. cbn [tcall]. unfold xobj_get. by rewrite bind_assoc, (bind_Ret _ _ _ _ _ (Hg k)).
  - exists s. split; [|done]. cbn [tcall]. unfold xobj_is_exist, xobj_get. by rewrite !bind_assoc, (bind_Ret _ _ _ _ _ (Hg k)).
  - exists s. split; [|done]. cbn [tcall]. unfold xobj_count. mrun. by rewrite Ht, mret_bind, Hc.
  - cbn [tcall]. unfold xobj_get_first. mrun. rewrite bool_decide_true by done. cbn [negb]. mrun. unfold val_list. rewrite Hv, ?bind_assoc, mret_bind.
    eexists. split; [reflexivity|]. exists (set_read None o). split; [cbn [heap wr set_heap]; by simplify_map_eq|done].
  - exists s. split; [|done]. cbn [tcall]. unfold xobj_get_next. mrun. rewrite bool_decide_true by done. cbn [negb]. by rewrite Hr.
  - exists s. split; [|done]. cbn [tcall]. unfold xobj_del. mrun. rewrite (bool_decide_true (obj_type o = STRING_HASH)) by done. cbn [negb orb].
    by rewrite bind_assoc, (bind_Ret _ _ _ _ _ (Hg k)).
Qed.

Definition entries (st : tst) : kvs_t := match st with Tab kvs _ => kvs | Hollow => [] end.
Lemma tspec_length st op r st' : tspec st op = Goes r st' -> zlen (entries st') <= zlen (entries st) + 1.
Proof.
  destruct st as [kvs c|].
  2: { destruct op as [[k|] [v|]|k|k| | | |k]; cbn [tspec]; intros Hx; simplify_eq; cbn [entries]; lia. }
  destruct op as [[k|] [v|]|k|k| | | |k]; cbn [tspec]; try (intros [= <- <-]; cbn [entries]; lia).
  - intros [= <- <-]. destruct (kv_find k kvs) as [[]|]; cbn [entries]; rewrite ?zlen_insert, ?zlen_app; [lia|done].
  - destruct kvs; intros [= <- <-]; cbn [entries]; lia.
  - destruct (kvs !! c); intros [= <- <-]; cbn [entries]; lia.
  - destruct kvs as [|kv kvs]; [intros [= <- <-]; cbn [entries]; lia|]. pose proof (zlen_nonneg kvs).
    destruct (kv_find k (kv :: kvs)) as [[[] ?]|]; intros Hx; simplify_eq; try case_decide; cbn [entries]; rewrite ?zlen_cons, ?zlen_nil; lia.
Qed.

(** One call, in every state. *)
Lemma step_tst s self st op : is_tst s self st -> op_ok op -> zlen (entries st) < INT_MAX ->
  match tspec st op with
  | Goes r st' => exists s', tcall (Some self) op s = Ret (r, s') /\ is_tst s' self st'
  | Crashes => tcall (Some self) op s = Fault NullDeref
  | Dangles kvs => exists s', tcall (Some self) op s = Ret (RInt 1, s') /\ forall k, kv_find k kvs = None -> tcall (Some self) (Get k) s' = Fault UseAfterFree
  end.
Proof.
  destruct st as [kvs c|]; cbn [is_tst entries]; intros Hi Hok Hmax; [|pose proof (step_hollow s self op Hi Hok) as H; by destruct (tspec Hollow op)].
  pose proof (fun r st' => step_table s self kvs c op r st' Hi Hok Hmax) as Hs. destruct (tspec (Tab kvs c) op) as [r st'| |kvs'] eqn:E.
  - destruct (Hs r st' eq_refl) as (s' & H1 & H2 & _). by exists s'.
  - exfalso. destruct op as [[k|] [v|]|k|k| | | |k]; cbn [tspec] in E; repeat case_match; done.
  - destruct op as [[k|] [v|]|k|k| | | |k]; cbn [tspec] in E; try (repeat case_match; done). destruct kvs as [|kv kvs]; [done|].
    destruct (kv_find k (kv :: kvs)) as [[[|i] [k0 v]]|] eqn:Ek; [done| |done]. injection E as <-.
    assert (k0 = k) as -> by (apply list_find_Some in Ek as (_ & E & _); exact E). apply (del_dangles s self (kv :: kvs) c i k v Hi); [lia|exact Ek].
Qed.

(** What a run of the calls [ops] is, given its specification. *)
Definition tran (self : option loc) (ops : list top) (s : state) (e : tend) : Prop :=
  match e with
  | Returns rs => exists s', tcalls self ops s = Ret (rs, s')
  | NullPtr => tcalls self ops s = Fault NullDeref
  | Freed n rs kvs => exists s', tcalls self (take n ops) s = Ret (rs, s') /\
      forall k, kv_find k kvs = None -> tcall self (Get k) s' = Fault UseAfterFree
  end.
Lemma tcalls_run ops : forall s self st, is_tst s self st -> Forall op_ok ops -> zlen (entries st) + zlen ops <= INT_MAX -> tran (Some self) ops s (tspec_run st ops).
Proof.
  induction ops as [|op ops IH]; intros s self st Hi Hok Hmax; cbn [tspec_run]; [by exists s|].
  apply Forall_cons in Hok as [Hop Hok]. rewrite zlen_cons in Hmax. pose proof (zlen_nonneg ops). pose proof (step_tst s self st op Hi Hop ltac:(lia)) as Hst.
  destruct (tspec st op) as [r st'| |kvs] eqn:Es.
  - destruct Hst as (s' & Hrun & Hi'). pose proof (tspec_length _ _ _ _ Es). specialize (IH s' self st' Hi' Hok ltac:(lia)).
    destruct (tspec_run st' ops) as [rs| |n rs kvs]; cbn [tcons tran tcalls take] in *.
    + destruct IH as (s'' & IH). rewrite (bind_Ret _ _ _ _ _ Hrun), (bind_Ret _ _ _ _ _ IH). by exists s''.
    + rewrite (bind_Ret _ _ _ _ _ Hrun). by apply bind_Fault.
    + destruct IH as (s'' & IH & Hf). rewrite (bind_Ret _ _ _ _ _ Hrun), (bind_Ret _ _ _ _ _ IH). by exists s''.
  - cbn [tran tcalls]. by apply bind_Fault.
  - destruct Hst as (s' & Hrun & Hf). exists s'. cbn [take tcalls]. by rewrite (bind_Ret _ _ _ _ _ Hrun).
Qed.

Lemma new_run s : int_ok (object_count s + 1) -> exists self s', xobj_new s = Ret (Some self, s') /\ heap s !! self = None /\
  (exists o, heap s' !! self = Some (Obj o) /\ obj_type o = EMPTY /\ strlist o = None /\ strlist_cnt o = 0 /\ strlist_ok o = false) /\
  (forall x, x <> self -> heap s' !! x = heap s !! x) /\ object_count s' = object_count s + 1 /\ autofree s' = autofree s /\ autofree_intf s' = autofree_intf s.
Proof.
  intros Hc. unfold xobj_new. destruct (malloc_ok (heap s)) as [self Hm]. pose proof (malloc_fresh _ _ Hm). mrun. cbn iota. mrun.
  erewrite (bind_Ret (count_objects 1)) by (apply count_run; exact Hc).
  exists self. eexists. split; [reflexivity|]. split; [done|]. cbn [heap object_count autofree autofree_intf set_objects wr set_heap]. rewrite !insert_insert_eq. split_and!; try done.
  - eexists. split; [apply lookup_insert_eq|]. done.
  - intros x Hx. by apply lookup_insert_ne.
Qed.

(** C21: a new object used as a table.  For every sequence of [put], [get], [is_exist],
    [count], [get_first], [get_next] and [del] the calls do what the specification on the
    list of entries says.  [put] replaces the value of a key or appends the pair, the
    enumeration gives the entries oldest first, and the first of several entries can be
    deleted.  The other two deletions break the table: after the only entry is deleted the
    calls see an empty table until the next [put], which goes through a null pointer; and
    after an entry behind the first is deleted, a search for any key that is not in front
    of it reads freed memory. *)
Theorem table_refines (s : state) (ops : list top) :
  int_ok (object_count s + 1) -> Forall op_ok ops -> zlen ops <= INT_MAX ->
  exists self s1, xobj_new s = Ret (Some self, s1) /\ tran (Some self) ops s1 (tspec_run (Tab [] 0) ops).
Proof.
  intros Hc Hok Hmax. destruct (new_run s Hc) as (self & s1 & Hrun & _ & (o & Ho & Ht & Hl & _) & _). exists self, s1. split; [done|].
  apply tcalls_run; [left; eauto|done|done].
Qed.

(** ** Lists of strings *)

(** The array of [str_array]: when it is marked as valid it holds the values of [es]. *)
Definition array_ok (h : gmap loc block) (self : loc) (o : xobject) (es : list entry) : Prop :=
  match strlist o with
  | None => strlist_cnt o = 0
  | Some a => a ∉ self :: foot es /\ exists arr, h !! a = Some (Arr arr) /\ 0 <= strlist_cnt o <= zlen arr /\
      (strlist_ok o = true -> strlist_cnt o = zlen es /\ exists rest, arr = ((fun e => fst <$> e_val e) <$> es) ++ rest)
  end.

(** The object [self] is a list of the strings of [es]; the tail of an empty list is not known. *)
Record slist (h : gmap loc block) (self : loc) (o : xobject) (es : list entry) : Prop := {
  l_obj : h !! self = Some (Obj o);
  l_type : obj_type o = STRING_LIST;
  l_val : val o = VList (e_node <$> head es);
  l_tail : es <> [] -> tail o = last_node None es;
  l_count : list_count o = zlen es;
  l_chain : chain false h (e_node <$> head es) None es None;
  l_nodup : NoDup (self :: foot es);
  l_array : array_ok h self o es;
}.
Lemma slist_dom h self o es : slist h self o es -> forall l, l ∈ self :: foot es -> is_Some (h !! l).
Proof. intros [] l Hl. apply elem_of_cons in Hl as [->|Hl]; [by eexists|by eapply chain_dom]. Qed.

(** An array that is marked as not valid stays usable while its block is kept. *)
Lemma array_keep h h' self o o' es es' : array_ok h self o es -> strlist o' = strlist o -> strlist_cnt o' = strlist_cnt o -> strlist_ok o' = false ->
  (forall x, x ∉ self :: foot es -> is_Some (h !! x) -> x ∉ foot es' /\ h' !! x = h !! x) -> array_ok h' self o' es'.
Proof.
  unfold array_ok. intros H -> -> -> Hx. destruct (strlist o) as [a|]; [|done]. destruct H as (Ha & arr & Harr & Hc & _).
  destruct (Hx a Ha) as [H1 H2]; [by rewrite Harr|]. split; [|exists arr; split_and!; [congruence|lia|lia|done]].
  intros Hin. apply elem_of_cons in Hin as [->|Hin]; [by apply Ha; left|done].
Qed.

Lemma str_push_run s self o es v : slist (heap s) self o es -> es <> [] -> c_text v -> zlen es < INT_MAX ->
  exists s' o' e, xobj_str_push (Some self) (Some v) s = Ret (1, s') /\ slist (heap s') self o' (es ++ [e]) /\ text (e_val e) = Some v /\ same_rest s s'.
Proof.
  intros L Hne Hv Hmax. pose proof L as [Ho Hty Hvl Htl Hct Hch Hnd Har]. unfold xobj_str_push, xobj_internal_push. mrun. xo. rewrite Hty, bool_decide_true by done.
  set (s0 := wr self (Obj (set_ok false o)) s). assert (forall x, x <> self -> heap s0 !! x = heap s !! x) as H0 by (intros x Hx; cbn [s0 heap wr set_heap]; by rewrite lookup_insert_ne).
  assert (heap s0 !! self = Some (Obj (set_ok false o))) as Ho0 by (cbn [s0 heap wr set_heap]; by simplify_map_eq).
  assert (chain false (heap s0) (e_node <$> head es) None es None) as Hch0 by (eapply chain_frame; [|exact Hch]; intros x Hx; apply H0; intros ->; by apply NoDup_cons in Hnd as [? _]).
  destruct (new_entry_run xobj_clone None v None None s0 Hv) as (e & s1 & He & F & Htk & Htv); [done|]. rewrite (bind_Ret _ _ _ _ _ He).
  destruct es as [|z es1 _] using rev_ind; [done|]. pose proof (chain_mid _ _ _ _ _ _ Hch0) as (nx & Hz & _ & _ & _ & Hnx). cbn in Hnx. subst nx.
  assert (tail o = Some (e_node z)) as Etl by (rewrite Htl by done; unfold last_node; by rewrite last_snoc).
  assert (e_node z <> self) as Hzs by (intros E; rewrite E in Hz; congruence).
  destruct (fresh_ne _ _ _ _ _ F Ho0) as [Hes Ho1]. destruct (fresh_ne _ _ _ _ _ F Hz) as [Hez Hz1]. pose proof (f_node _ _ _ F).
  unfold link_tail, incr_count. mrun. xo. rewrite Etl. mrun. xo. rewrite Hct. pose proof (zlen_nonneg (es1 ++ [z])). mrun.
  eexists _, _, e. split; [reflexivity|]. split_and!; [|done|by eapply same_rest_trans; [|apply (f_ext _ _ _ F)]]. cbn [heap wr set_heap].
  split; [by simplify_map_eq|..]; xo; try done.
  - rewrite Hvl. by destruct es1.
  - intros _. unfold last_node. by rewrite last_snoc.
  - by rewrite (zlen_app _ [e]).
  - assert (e_node <$> head ((es1 ++ [z]) ++ [e]) = e_node <$> head (es1 ++ [z])) as -> by (by destruct es1).
    eapply (link_chain false s0 s1); [done|by eexists|done|done|exact Hz|by simplify_map_eq|by simplify_map_eq|]. intros x Hx1 Hx2 Hx3. by simplify_map_eq.
  - eapply (foot_snoc s0 s1); [done| |done]. intros x Hx. apply elem_of_cons in Hx as [->|Hx]; [by eexists|by eapply chain_dom].
  - eapply array_keep; [exact Har|done..|]. intros x Hx [b Hb]. rewrite elem_of_cons in Hx. assert (x <> self) by tauto.
    assert (heap s0 !! x = Some b) as Hb0 by by rewrite H0. assert (x ∉ locs e) as Hxe by (intros Hin; apply (f_fresh _ _ _ F) in Hin; congruence).
    split; [rewrite foot_app, foot_cons, app_nil_r, elem_of_app; tauto|].
    assert (x <> e_node e) by (intros ->; apply Hxe, node_in_locs). assert (x <> e_node z) by (intros ->; apply Hx; right; apply node_in_foot, elem_of_app; right; constructor).
    rewrite Hb. pose proof (proj1 (f_ext _ _ _ F) _ _ Hb0). by simplify_map_eq.
Qed.

(** An object without contents that may still own an array. *)
Definition bare (s : state) (self : loc) : Prop :=
  exists o, heap s !! self = Some (Obj o) /\ obj_type o = EMPTY /\ array_ok (heap s) self (set_ok false o) [].

Lemma str_push_first s self v : bare s self -> c_text v ->
  exists s' o' e, xobj_str_push (Some self) (Some v) s = Ret (1, s') /\ slist (heap s') self o' [e] /\ text (e_val e) = Some v /\ same_rest s s'.
Proof.
  intros (o & Ho & Ht & Har) Hv. unfold xobj_str_push, xobj_internal_push. mrun. xo. rewrite Ht.
  set (s0 := wr self (Obj (set_ok false o)) s). assert (heap s0 !! self = Some (Obj (set_ok false o))) as Ho0 by (cbn [s0 heap wr set_heap]; by simplify_map_eq).
  destruct (new_entry_run xobj_clone None v None None s0 Hv) as (e & s1 & He & F & Htk & Htv); [done|]. rewrite (bind_Ret _ _ _ _ _ He).
  destruct (fresh_ne _ _ _ _ _ F Ho0) as [Hes Ho1]. pose proof F as [F1 F2 F3 F4 F5 [F6 F7]]. cbn iota. mrun.
  assert (self ∉ locs e) as Hni by (intros Hin; apply F5 in Hin; congruence).
  eexists _, _, e. split; [reflexivity|]. split_and!; [|done|by eapply same_rest_trans; [|done]]. cbn [heap wr set_heap]. rewrite !insert_insert_eq.
  set (o' := set_count 1 _). assert (forall x, x ∈ locs e -> <[self := Obj o']> (heap s1) !! x = heap s1 !! x) as Hfr by (intros x Hx; rewrite lookup_insert_ne; [done|by intros ->]).
  split; [by simplify_map_eq|done..| | |].
  - split; [done|]. exists None. split_and!; [by rewrite Hfr by apply node_in_locs| | |done]; (eapply str_at_frame; [|done]; intros x Hx; apply Hfr); [by apply key_in_locs|by apply val_in_locs].
  - rewrite foot_cons, app_nil_r. by constructor.
  - eapply array_keep; [exact Har|done..|]. intros x Hx [b Hb]. rewrite elem_of_cons in Hx. assert (x <> self) by tauto.
    assert (heap s0 !! x = Some b) as Hb0 by (cbn [s0 heap wr set_heap]; by rewrite lookup_insert_ne). split; [|rewrite lookup_insert_ne by done; rewrite Hb; by apply F6].
    rewrite foot_cons, app_nil_r. intros Hin. apply F5 in Hin. congruence.
Qed.

Lemma chain_unsnoc own h h' p es1 y z : NoDup (foot ((es1 ++ [y]) ++ [z])) -> chain own h p None ((es1 ++ [y]) ++ [z]) None ->
  (forall n, h !! e_node y = Some (Node n) -> h' !! e_node y = Some (Node (set_next None n))) ->
  (forall x, x ∈ foot (es1 ++ [y]) -> x <> e_node y -> h' !! x = h !! x) -> chain own h' p None (es1 ++ [y]) None.
Proof.
  intros Hnd Hc Hy Hf. rewrite foot_app in Hnd. apply NoDup_app in Hnd as (Hnd & _ & _). apply chain_app in Hc as (r & Hc & _).
  rewrite foot_app, foot_cons, app_nil_r in *. apply NoDup_app in Hnd as (_ & Hd & Hl). apply chain_app in Hc as (r' & Hc1 & -> & nx & Hn & Hk & Hv & _).
  unfold locs in Hl. apply NoDup_cons in Hl as [Hl _]. rewrite elem_of_app in Hl.
  apply chain_app. exists (Some (e_node y)). split.
  - eapply chain_frame; [|exact Hc1]. intros x Hx. apply Hf; [apply elem_of_app; by left|]. intros ->. apply (Hd _ Hx), node_in_locs.
  - split; [done|]. exists None. split_and!; [by rewrite (Hy _ Hn)| | |done].
    + eapply str_at_frame; [|exact Hk]. intros x Hx. apply Hf; [apply elem_of_app; right; by apply key_in_locs|intros ->; tauto].
    + eapply str_at_frame; [|exact Hv]. intros x Hx. apply Hf; [apply elem_of_app; right; by apply val_in_locs|intros ->; tauto].
Qed.

(** The last entry of a list and its place in the heap. *)
Lemma slist_last h self o es z : slist h self o (es ++ [z]) ->
  h !! e_node z = Some (Node (lnode_of z None (prev_of false (last_node None es) z))) /\ str_at h (e_val z) /\ e_node z <> self /\ self ∉ foot es /\ NoDup (foot es) /\
  (forall x, x ∈ foot es -> x ∉ locs z) /\ (forall x, x ∈ str_locs (e_val z) -> x <> self /\ x <> e_node z /\ x ∉ foot es).
Proof.
  intros [Ho _ _ _ _ Hch Hnd _]. pose proof (chain_mid _ _ _ _ _ _ Hch) as (nx & Hz & _ & Hzv & _ & Hnx). cbn in Hnx. subst nx.
  rewrite foot_app, foot_cons, app_nil_r in Hnd. apply NoDup_cons in Hnd as [Hself Hnd]. rewrite elem_of_app in Hself. apply NoDup_app in Hnd as (Hnes & Hd & Hlz).
  split_and!; try done; [intros E; rewrite E in Hz; congruence|tauto|]. intros x Hx. pose proof (val_in_locs z x Hx) as Hxl. unfold locs in Hlz. apply NoDup_cons in Hlz as [Hlz _].
  split_and!; [intros ->; tauto|intros ->; apply Hlz, elem_of_app; by right|]. intros Hin. by apply (Hd x).
Qed.

(** Removing the only entry: [tail] is not touched. *)
Lemma take_tail_one s self o z : slist (heap s) self o [z] ->
  exists s' o', take_tail STRING_LIST true (Some self) s = Ret (Some (fst <$> e_val z), s') /\ slist (heap s') self o' [] /\ str_at (heap s') (e_val z) /\ same_rest s s' /\
    tail o' = Some (e_node z) /\ heap s' !! e_node z = None.
Proof.
  intros L. pose proof L as [Ho Hty Hvl Htl Hct Hch Hnd Har]. destruct (slist_last _ _ _ [] z L) as (Hz & Hzv & Hzs & _ & _ & _ & Hval).
  unfold take_tail. mrun. xo. rewrite bool_decide_true by done. cbn [negb]. rewrite Hct. change (zlen [z] =? 0) with false. change (zlen [z] =? 1) with true. cbn iota.
  unfold val_list. xo. rewrite Hvl. cbn [head fmap option_fmap option_map]. unfold internal_free_list_obj_entry. mrun. xo.
  eexists _, (set_val (VList None) (set_count 0 (set_ok false o))). split; [reflexivity|]. cbn [heap wr rm set_heap]. rewrite !insert_insert_eq. split_and!; [|eapply str_at_frame; [|exact Hzv]; intros x Hx; destruct (Hval x Hx) as (? & ? & ?); by simplify_map_eq|done|xo; by rewrite Htl|by rewrite lookup_delete_eq].
  split; [by simplify_map_eq|done..| |].
  - constructor; [apply not_elem_of_nil|constructor].
  - eapply array_keep; [exact Har|done..|]. intros x Hx [b Hb]. split; [apply not_elem_of_nil|]. rewrite elem_of_cons in Hx.
    assert (x <> self) by tauto. assert (x <> e_node z) by (intros ->; apply Hx; right; apply node_in_foot; constructor). by simplify_map_eq.
Qed.

(** Removing the last of several. *)
Lemma take_tail_more s self o es y z : slist (heap s) self o ((es ++ [y]) ++ [z]) -> zlen ((es ++ [y]) ++ [z]) <= INT_MAX ->
  exists s' o', take_tail STRING_LIST true (Some self) s = Ret (Some (fst <$> e_val z), s') /\ slist (heap s') self o' (es ++ [y]) /\ str_at (heap s') (e_val z) /\ same_rest s s'.
Proof.
  intros L Hmax. pose proof L as [Ho Hty Hvl Htl Hct Hch Hnd Har]. destruct (slist_last _ _ _ _ z L) as (Hz & Hzv & Hzs & Hself & Hnf & Hd & Hval).
  assert (prev_of false (last_node None (es ++ [y])) z = Some (e_node y)) as Epv by (unfold last_node; by rewrite last_snoc). rewrite Epv in Hz.
  pose proof Hch as Hc'. apply chain_app in Hc' as (r & Hc' & _). apply chain_app in Hc' as (r' & _ & _ & ny & Hy & _).
  assert (e_node y ∈ foot (es ++ [y])) as Hyin by (apply node_in_foot, elem_of_app; right; constructor).
  assert (e_node y <> self /\ e_node z <> e_node y) as [Hys Hzy] by (split; [intros E; by rewrite E in Hyin|intros E; apply (Hd _ Hyin); rewrite <- E; apply node_in_locs]).
  pose proof (zlen_nonneg es). rewrite !zlen_app in Hct, Hmax. change (zlen [z]) with 1 in *. change (zlen [y]) with 1 in *.
  unfold take_tail. mrun. xo. rewrite bool_decide_true by done. cbn [negb]. rewrite Hct, (proj2 (Z.eqb_neq (zlen es + 1 + 1) 0)), (proj2 (Z.eqb_neq (zlen es + 1 + 1) 1)) by lia.
  assert (tail o = Some (e_node z)) as Etl by (rewrite Htl by (by destruct es); unfold last_node; by rewrite last_snoc).
  unfold decr_count, internal_free_list_obj_entry. rewrite Etl. mrun. xo. rewrite Hct. mrun. xo. mrun. eexists _, _. split; [reflexivity|]. cbn [heap wr rm set_heap].
  split_and!; [|eapply str_at_frame; [|exact Hzv]; intros x Hx; destruct (Hval x Hx) as (? & ? & ?); assert (x <> e_node y) by (by intros ->); by simplify_map_eq|done].
  split; [by simplify_map_eq|..]; xo; try done.
  - rewrite Hvl. by destruct es.
  - intros _. unfold last_node. by rewrite last_snoc.
  - rewrite zlen_app. change (zlen [y]) with 1. lia.
  - assert (e_node <$> head (es ++ [y]) = e_node <$> head ((es ++ [y]) ++ [z])) as -> by (by destruct es).
    eapply chain_unsnoc; [by apply NoDup_cons in Hnd as [_ Hnd]|exact Hch| |].
    + intros n Hn. by simplify_map_eq.
    + intros x Hx Hxy. assert (x <> self) by (by intros ->). assert (x <> e_node z) by (intros ->; apply (Hd _ Hx), node_in_locs). by simplify_map_eq.
  - by constructor.
  - eapply array_keep; [exact Har|done..|]. intros x Hx [b Hb]. rewrite foot_app, foot_cons, app_nil_r, elem_of_cons, elem_of_app in Hx.
    split; [tauto|]. assert (x <> self) by tauto. assert (x <> e_node y) by (intros ->; tauto). assert (x <> e_node z) by (intros ->; apply Hx; right; right; apply node_in_locs). by simplify_map_eq.
Qed.

(** *** Specification: a stack of strings *)
Inductive sop := SPush (v : list Z) | SPop | SCount.
Definition scall (self : option loc) (op : sop) : M tres :=
  match op with
  | SPush v => r ← xobj_str_push self (Some v); mret (RInt r)
  | SPop =>
      p ← xobj_str_pop self;
      match p with None => mret (RStr None) | Some _ => t ← c_read p; mret (RStr (Some t)) end
  | SCount => r ← xobj_count self; mret (RInt r)
  end.
Fixpoint scalls (self : option loc) (ops : list sop) : M (list tres) :=
  match ops with
  | [] => mret []
  | op :: ops => r ← scall self op; rs ← scalls self ops; mret (r :: rs)
  end.

(** [None] is an object without contents, [Some l] a list with its last string at the end
    of [l].  A push onto the list that the last pop left empty is not supported
    ([drained_push_faults]); one more pop, which returns NULL, makes the object usable. *)
Definition sspec (st : option (list (list Z))) (op : sop) : option (tres * option (list (list Z))) :=
  match op, st with
  | SPush v, None => Some (RInt 1, Some [v])
  | SPush _, Some [] => None
  | SPush v, Some l => Some (RInt 1, Some (l ++ [v]))
  | SPop, None => Some (RStr None, None)
  | SPop, Some l => Some (RStr (last l), match l with [] => None | _ => Some (removelast l) end)
  | SCount, None => Some (RInt 0, st)
  | SCount, Some l => Some (RInt (zlen l), st)
  end.
Fixpoint sspec_run (st : option (list (list Z))) (ops : list sop) : option (list tres) :=
  match ops with
  | [] => Some []
  | op :: ops => r ← sspec st op; rs ← sspec_run (snd r) ops; Some (fst r :: rs)
  end.

(** The table of autofree exists, so that it keeps (and never frees) the popped strings. *)
Definition af_ok (s : state) : Prop := autofree_intf s = true /\ exists m, AF.empty_table (autofree s) m.
Definition is_stack (s : state) (self : loc) (st : option (list (list Z))) : Prop :=
  af_ok s /\ match st with
  | None => bare s self
  | Some l => exists o es, slist (heap s) self o es /\ Forall2 (fun e v => text (e_val e) = Some v) es l
  end.

Lemma af_ok_rest s s' : same_rest s s' -> af_ok s -> af_ok s'.
Proof. intros (_ & A & B) [H1 (m & H2)]. split; [congruence|]. exists m. congruence. Qed.
Lemma autofree_free_run s p : af_ok s -> exists s', autofree_free p s = Ret (tt, s') /\ heap s' = heap s /\ af_ok s'.
Proof.
  intros [Hi (m & Hm)]. unfold autofree_free. rewrite Hi. destruct (AF.af_free_run (autofree s) m (Zpos <$> p) Hm) as (a & -> & Ha & Hf & _). cbn [obind].
  rewrite Hf, drop_all. cbn. eexists. split; [reflexivity|]. split; [done|]. split; [done|by exists m].
Qed.

Lemma bare_of_slist s s' self o : slist (heap s) self o [] -> heap s' !! self = Some (Obj (set_type EMPTY (set_ok false o))) ->
  (forall x, x <> self -> heap s' !! x = heap s !! x) -> bare s' self.
Proof.
  intros [Ho _ _ _ _ _ _ Har] Ho' Hf. eexists. split; [exact Ho'|]. split; [done|].
  eapply array_keep; [exact Har|done..|]. intros x Hx _. split; [apply not_elem_of_nil|]. apply Hf. intros ->. apply Hx. by left.
Qed.

Lemma str_pop_read s self es z v s1 o1 :
  take_tail STRING_LIST true (Some self) s = Ret (Some (fst <$> e_val z), s1) -> slist (heap s1) self o1 es -> str_at (heap s1) (e_val z) -> same_rest s s1 ->
  af_ok s -> text (e_val z) = Some v ->
  exists s', scall (Some self) SPop s = Ret (RStr (Some v), s') /\ slist (heap s') self o1 es /\ af_ok s'.
Proof.
  intros Hrun L Hs Hr Haf Hv. cbn [scall]. unfold xobj_str_pop. rewrite bind_assoc, (bind_Ret _ _ _ _ _ Hrun).
  destruct (autofree_free_run s1 (fst <$> e_val z) (af_ok_rest _ _ Hr Haf)) as (s2 & Hf & Hh & Haf2). rewrite bind_assoc, (bind_Ret _ _ _ _ _ Hf), mret_bind.
  rewrite <- Hh in Hs, L. pose proof (c_read_run s2 (e_val z) v Hs Hv) as Hread. destruct (e_val z) as [[l b]|]; [|done].
  cbn [fmap option_fmap option_map fst] in *. rewrite (bind_Ret _ _ _ _ _ Hread). by exists s2.
Qed.

Lemma step_pop s self l : is_stack s self (Some l) -> zlen l <= INT_MAX ->
  exists s', scall (Some self) SPop s = Ret (RStr (last l), s') /\ is_stack s' self (match l with [] => None | _ => Some (removelast l) end).
Proof.
  intros [Haf (o & es & L & HF)] Hmax. destruct l as [|v l _] using rev_ind.
  - apply Forall2_nil_inv_r in HF as ->. pose proof L as [Ho Hty _ _ Hct _ _ _]. cbn [scall]. unfold xobj_str_pop, take_tail. mrun. xo.
    rewrite bool_decide_true by done. cbn [negb]. rewrite Hct. change (zlen [] =? 0) with true. cbn iota. mrun.
    eexists. split; [reflexivity|]. split; [exact Haf|]. eapply bare_of_slist; [exact L|cbn [heap wr set_heap]; by simplify_map_eq|]. intros x Hx. cbn [heap wr set_heap]. by simplify_map_eq.
  - apply Forall2_app_inv_r in HF as (es1 & es2 & HF1 & HF2 & ->). apply Forall2_cons_inv_r in HF2 as (z & es3 & Hz & HF3 & ->). apply Forall2_nil_inv_r in HF3 as ->.
    assert (exists s1 o1, take_tail STRING_LIST true (Some self) s = Ret (Some (fst <$> e_val z), s1) /\ slist (heap s1) self o1 es1 /\ str_at (heap s1) (e_val z) /\ same_rest s s1)
      as (s1 & o1 & Hrun & L1 & Hs1 & Hr1).
    { destruct es1 as [|y es1 _] using rev_ind; [destruct (take_tail_one s self o z L) as (s1 & o1 & ? & ? & ? & ? & _); by exists s1, o1|].
      apply (take_tail_more s self o es1 y z L). pose proof (Forall2_length _ _ _ HF1). unfold zlen in *. rewrite !length_app in *. cbn [length] in *. lia. }
    destruct (str_pop_read s self es1 z v s1 o1 Hrun L1 Hs1 Hr1 Haf Hz) as (s' & Hpop & L' & Haf'). exists s'. rewrite last_snoc, removelast_last. split; [done|].
    replace (match l ++ [v] with [] => None | _ => Some l end) with (Some l) by (by destruct l). split; [done|]. by exists o1, es1.
Qed.

Lemma step_stack s self st op r st' : is_stack s self st -> match op with SPush v => c_text v | _ => True end ->
  zlen (default [] st) < INT_MAX -> sspec st op = Some (r, st') -> exists s', scall (Some self) op s = Ret (r, s') /\ is_stack s' self st'.
Proof.
  intros Hi Hok Hmax. destruct op as [v| |]; cbn [sspec].
  - destruct st as [[|v0 l]|]; [done|..]; intros [= <- <-]; destruct Hi as [Haf Hi]; cbn [scall].
    + destruct Hi as (o & es & L & HF). destruct (str_push_run s self o es v L) as (s' & o' & e & Hrun & L' & Hv & Hr); [by inversion HF|done|by unfold zlen in *; rewrite (Forall2_length _ _ _ HF)|].
      rewrite (bind_Ret _ _ _ _ _ Hrun). exists s'. split; [done|]. split; [by eapply af_ok_rest|]. exists o', (es ++ [e]). split; [done|].
      rewrite app_comm_cons. apply Forall2_app; [done|by repeat constructor].
    + destruct (str_push_first s self v Hi Hok) as (s' & o' & e & Hrun & L' & Hv & Hr). rewrite (bind_Ret _ _ _ _ _ Hrun). exists s'. split; [done|].
      split; [by eapply af_ok_rest|]. exists o', [e]. split; [done|by repeat constructor].
  - destruct st as [l|]; intros [= <- <-]; [apply step_pop; [done|cbn in Hmax; lia]|]. destruct Hi as [Haf (o & Ho & Ht & Har)]. cbn [scall]. unfold xobj_str_pop, take_tail.
    mrun. xo. rewrite bool_decide_false by congruence. cbn [negb]. mrun. eexists. split; [reflexivity|]. split; [exact Haf|].
    eexists. split; [cbn [heap wr set_heap]; by simplify_map_eq|]. split; [done|]. eapply array_keep; [exact Har|done..|]. intros x Hx _. split; [apply not_elem_of_nil|].
    cbn [heap wr set_heap]. apply lookup_insert_ne. intros <-. apply Hx. by left.
  - cbn [scall]. unfold xobj_count. destruct st as [l|]; intros [= <- <-]; exists s; (split; [|done]); destruct Hi as [_ Hi].
    + destruct Hi as (o & es & [Ho Hty _ _ Hct _ _ _] & HF). mrun. rewrite Hty, mret_bind, Hct. unfold zlen. by rewrite (Forall2_length _ _ _ HF).
    + destruct Hi as (o & Ho & Ht & _). mrun. by rewrite Ht.
Qed.

Lemma sspec_length st op r st' : sspec st op = Some (r, st') -> zlen (default [] st') <= zlen (default [] st) + 1.
Proof.
  destruct op as [v| |], st as [l|]; cbn [sspec]; try (intros [= <- <-]; unfold zlen; cbn; lia).
  - destruct l; intros [= <- <-]. unfold default, id. rewrite app_comm_cons, zlen_app. change (zlen [v]) with 1. lia.
  - destruct l as [|v l _] using rev_ind; intros [= <- <-]; [unfold zlen; cbn; lia|]. rewrite removelast_last. unfold default, id. rewrite zlen_app. change (zlen [v]) with 1.
    destruct l as [|x l]; cbn [app]; [unfold zlen; cbn; lia|pose proof (zlen_nonneg l); rewrite ?zlen_cons; lia].
Qed.

Lemma scalls_run ops : forall s self st rs, is_stack s self st -> Forall (fun op => match op with SPush v => c_text v | _ => True end) ops ->
  zlen (default [] st) + zlen ops <= INT_MAX -> sspec_run st ops = Some rs -> exists s', scalls (Some self) ops s = Ret (rs, s').
Proof.
  induction ops as [|op ops IH]; intros s self st rs Hi Hok Hmax; cbn [sspec_run scalls]; [intros [= <-]; by exists s|].
  destruct (sspec st op) as [[r st']|] eqn:Es; [|done]. cbn [mbind option_bind snd fst]. destruct (sspec_run st' ops) as [rs'|] eqn:Er; [|done].
  cbn [mbind option_bind]. intros [= <-]. apply Forall_cons in Hok as [Hop Hok]. rewrite zlen_cons in Hmax. pose proof (zlen_nonneg ops).
  destruct (step_stack s self st op r st' Hi Hop ltac:(lia) Es) as (s' & Hrun & Hi'). rewrite (bind_Ret _ _ _ _ _ Hrun).
  pose proof (sspec_length _ _ _ _ Es). destruct (IH s' self st' rs' Hi' Hok ltac:(lia) Er) as (s'' & Hrun'). rewrite (bind_Ret _ _ _ _ _ Hrun'). by exists s''.
Qed.

(** A new object used with [str_push] and [str_pop] is a stack of strings: for every
    sequence of pushes, pops and counts, each pop returns the string pushed last and not
    yet popped, NULL when there is none, and the returned string is still readable.  The
    sequence may not push onto the list from which the only string was just popped. *)
Theorem stack_refines (s : state) (ops : list sop) (rs : list tres) :
  af_ok s -> int_ok (object_count s + 1) -> Forall (fun op => match op with SPush v => c_text v | _ => True end) ops -> zlen ops <= INT_MAX ->
  sspec_run None ops = Some rs -> exists s', (self ← xobj_new; scalls self ops) s = Ret (rs, s').
Proof.
  intros Haf Hc Hok Hmax Hs. destruct (new_run s Hc) as (self & s1 & Hrun & _ & (o & Ho & Ht & Hl & Hcnt & _) & _ & _ & Ha & Hb). rewrite (bind_Ret _ _ _ _ _ Hrun).
  apply (scalls_run ops s1 self None); [|done|done|done]. split; [destruct Haf as [H1 (m & H2)]; split; [congruence|exists m; congruence]|].
  exists o. split_and!; [done|done|]. unfold array_ok. cbn. by rewrite Hl.
Qed.

(** After the only string was popped the object keeps its type and a tail that points to
    the freed node.  Whatever address the allocator gives out next, a push onto it either
    writes to freed memory, or returns 1 with the string out of reach: the pop that
    follows goes through a null pointer. *)
Theorem drained_push_faults (s : state) (self : loc) (v w : list Z) : is_stack s self (Some [v]) -> c_text w ->
  exists s', scall (Some self) SPop s = Ret (RStr (Some v), s') /\
    (scall (Some self) (SPush w) s' = Fault UseAfterFree \/
     exists s'', scall (Some self) (SPush w) s' = Ret (RInt 1, s'') /\ scall (Some self) SPop s'' = Fault NullDeref).
Proof.
  intros [Haf (o & es & L & HF)] Hw. apply Forall2_cons_inv_r in HF as (z & es0 & Hz & HF & ->). apply Forall2_nil_inv_r in HF as ->.
  destruct (take_tail_one s self o z L) as (s1 & o1 & Hrun & L1 & Hs1 & Hr1 & Htl & Hgone).
  destruct (str_pop_read s self [] z v s1 o1 Hrun L1 Hs1 Hr1 Haf Hz) as (s2 & Hpop & L2 & Haf2). exists s2. split; [done|].
  pose proof L2 as [Ho Hty Hvl _ Hct _ _ _]. cbn [scall]. unfold xobj_str_push, xobj_internal_push. mrun. xo. rewrite Hty, bool_decide_true by done.
  set (s3 := wr self (Obj (set_ok false o1)) s2). assert (heap s3 !! self = Some (Obj (set_ok false o1))) as Ho3 by (cbn [s3 heap wr set_heap]; by simplify_map_eq).
  destruct (new_entry_run xobj_clone None w None None s3 Hw) as (e & s4 & He & F & Htk & Htv); [done|]. rewrite bind_assoc, (bind_Ret _ _ _ _ _ He).
  destruct (fresh_ne _ _ _ _ _ F Ho3) as [Hes Ho4]. unfold link_tail, incr_count. mrun. xo. rewrite Htl.
  destruct (heap s4 !! e_node z) as [[|n| |]|] eqn:Ez;
    rewrite ?bind_assoc; try (left; apply bind_Fault, upd_node_bad; by rewrite Ez).
  right. assert (e_node z <> self) by (intros E; rewrite E in Ez; congruence). pose proof (f_node _ _ _ F) as Hn.
  erewrite (bind_Ret (upd_node (Some (e_node z)) _)) by (by apply upd_node_run). set (s5 := wr (e_node z) _ s4).
  assert (exists n', heap s5 !! e_node e = Some (Node n')) as (n' & Hn') by (cbn [s5 heap wr set_heap]; destruct (decide (e_node e = e_node z)) as [->|]; simplify_map_eq; eauto).
  assert (heap s5 !! self = Some (Obj (set_ok false o1))) as Ho5 by (cbn [s5 heap wr set_heap]; by simplify_map_eq). clearbody s5.
  mrun. xo. rewrite Hct. change (zlen [] + 1) with 1. mrun. eexists. split; [reflexivity|]. unfold xobj_str_pop, take_tail. mrun. xo.
  rewrite bool_decide_true by done. cbn [negb Z.eqb Pos.eqb]. mrun. unfold val_list. xo. rewrite Hvl. mrun. rewrite ?bind_assoc, ?mret_bind. mrun. rewrite ?bind_assoc. by apply bind_Fault.
Qed.

(** ** Destroying a table *)
Lemma free_loop_run own es : forall fuel p pv s, chain own (heap s) p pv es None -> NoDup (foot es) -> (length es <= fuel)%nat ->
  exists s', free_loop fuel STRING_HASH p s = Ret (tt, s') /\ same_rest s s' /\
    (forall x, x ∉ foot es -> heap s' !! x = heap s !! x) /\ (forall x, x ∈ foot es -> heap s' !! x = None).
Proof.
  clear malloc_fresh malloc_ok malloc. induction es as [|e es IH]; intros fuel p pv s; cbn [chain].
  { intros -> _ _. exists s. split; [by destruct fuel|]. split_and!; try done. intros x Hx. by apply not_elem_of_nil in Hx. }
  intros (-> & nx & Hn & Hk & Hv & Hc) Hnd Hf. destruct fuel as [|fuel]; [cbn in Hf; lia|]. rewrite foot_cons in Hnd |- *. apply NoDup_app in Hnd as (Hl & Hd & Hnd).
  cbn [free_loop]. mrun. xo. destruct (free_entry_run s e _ Hk Hv Hn Hl) as (s1 & Hrun & Hr1 & Hkeep & Hgone). rewrite bind_assoc. rewrite Hrun.
  assert (forall x, x ∈ foot es -> heap s1 !! x = heap s !! x) as Hsame by (intros x Hx; apply Hkeep; intros Hx'; by apply (Hd x)).
  destruct (IH fuel nx (Some (e_node e)) s1) as (s2 & Hrun2 & Hr2 & Hkeep2 & Hgone2); [by eapply chain_frame|done|cbn in Hf; lia|].
  exists s2. split; [done|]. split; [by eapply same_rest_trans|]. split.
  - intros x Hx. rewrite elem_of_app in Hx. rewrite Hkeep2, Hkeep by tauto. done.
  - intros x Hx. apply elem_of_app in Hx as [Hx|Hx]; [|by apply Hgone2]. rewrite Hkeep2; [by apply Hgone|by apply Hd].
Qed.

Lemma table_empty_run s self o es c : table (heap s) self o es c ->
  exists s' o', xobj_empty (Some self) s = Ret (tt, s') /\ same_rest s s' /\ heap s' !! self = Some (Obj o') /\ obj_type o' = EMPTY /\ strlist o' = None /\
    (forall x, x ∉ self :: foot es -> heap s' !! x = heap s !! x) /\ (forall x, x ∈ foot es -> heap s' !! x = None).
Proof.
  clear malloc_fresh malloc_ok malloc. intros T. pose proof T as [Ho Hty Hvl _ _ _ Hch Hnd _ Hsl]. pose proof (chain_length _ _ _ _ _ Hch (proj2 (proj1 (NoDup_cons _ _) Hnd))) as Hlen.
  unfold xobj_empty. replace (fuel_of s) with (S (4 * size (heap s) + 1)) by (unfold fuel_of; lia). cbn [empty_fuel]. mrun. rewrite Hty. unfold val_list. rewrite Hvl, mret_bind.
  set (s1 := wr self _ s). assert (forall x, x <> self -> heap s1 !! x = heap s !! x) as H1 by (intros x Hx; cbn [s1 heap wr set_heap]; by rewrite lookup_insert_ne).
  apply NoDup_cons in Hnd as [Hself Hnd].
  destruct (free_loop_run true es (4 * size (heap s) + 1) (e_node <$> head es) None s1) as (s2 & Hrun & Hr & Hkeep & Hgone); [|done|lia|].
  { eapply chain_frame; [|exact Hch]. intros x Hx. apply H1. by intros ->. }
  rewrite (bind_Ret _ _ _ _ _ Hrun). assert (heap s2 !! self = Some (Obj (set_type EMPTY o))) as Ho2 by (rewrite Hkeep by done; cbn [s1 heap wr set_heap]; by simplify_map_eq).
  mrun. xo. rewrite Hsl. rewrite (bind_Ret _ _ _ _ _ (free_null _)). erewrite upd_obj_run by (cbn [heap wr set_heap]; by simplify_map_eq).
  eexists _, _. split; [reflexivity|]. split; [exact Hr|]. cbn [heap wr set_heap]. split; [by simplify_map_eq|]. split_and!; [done|done| |].
  - intros x Hx. rewrite elem_of_cons in Hx. rewrite !lookup_insert_ne by (intros <-; tauto). rewrite Hkeep by tauto. apply H1. tauto.
  - intros x Hx. rewrite !lookup_insert_ne by (intros <-; done). by apply Hgone.
Qed.

Lemma size_minus (h h' : gmap loc block) (ls : list loc) : NoDup ls -> (forall x, x ∈ ls -> is_Some (h !! x)) -> (forall x, x ∈ ls -> h' !! x = None) ->
  (forall x, x ∉ ls -> h' !! x = h !! x) -> size h = (size h' + length ls)%nat.
Proof.
  clear malloc_fresh malloc_ok malloc. intros Hn Hs Hg Hk. rewrite <- (size_list_to_set (C := gset loc) ls Hn), <- !size_dom, <- size_union by (intros x Hx Hx'; apply elem_of_dom in Hx as [b Hb]; apply elem_of_list_to_set in Hx'; rewrite Hg in Hb; done).
  f_equal. apply set_eq. intros x. rewrite elem_of_union, elem_of_list_to_set, !elem_of_dom. destruct (decide (x ∈ ls)) as [Hx|Hx].
  - split; [by right|]. intros _. by apply Hs.
  - rewrite (Hk x Hx). tauto.
Qed.

Lemma holds_foot es kvs : Forall2 holds es kvs -> length (foot es) = (3 * length kvs)%nat.
Proof.
  induction 1 as [|e kv es kvs [Hk Hv] _ IH]; [done|]. rewrite foot_cons, length_app, IH. unfold locs. destruct (e_key e) as [[]|], (e_val e) as [[]|]; try done. cbn. lia.
Qed.

(** [dispose] of a table releases all it owns and nothing else: the object and, for each
    of its entries, the node and the two strings are freed, once each, and every other
    block of the heap is as it was. *)
Theorem table_dispose (s : state) (self : loc) (kvs : kvs_t) (c : nat) : is_table s self kvs c -> kvs <> [] -> int_ok (object_count s - 1) ->
  exists s', xobj_dispose (Some self) s = Ret (tt, s') /\ heap s' !! self = None /\ object_count s' = object_count s - 1 /\
    (forall x b, heap s' !! x = Some b -> heap s !! x = Some b) /\ size (heap s) = (size (heap s') + 1 + 3 * length kvs)%nat.
Proof.
  clear malloc_fresh malloc_ok malloc. intros [(-> & _)|(o & es & T & HF)] Hne Hc; [done|]. destruct (table_empty_run s self o es c T) as (s1 & o1 & Hrun & (Hr & _) & Ho1 & _ & _ & Hkeep & Hgone).
  unfold xobj_dispose, dispose_with. rewrite (bind_Ret _ _ _ _ _ Hrun), (bind_Ret _ _ _ _ _ (free_run _ _ _ Ho1)).
  rewrite count_run by (cbn [object_count rm set_heap]; rewrite Hr; exact Hc). eexists. split; [reflexivity|]. cbn [heap object_count set_objects rm set_heap].
  assert (forall x, x ∈ self :: foot es -> delete self (heap s1) !! x = None) as Hall.
  { intros x Hx. destruct (decide (x = self)) as [->|]; [apply lookup_delete_eq|]. rewrite lookup_delete_ne by done. apply Hgone. by apply elem_of_cons in Hx as [->|]. }
  assert (forall x, x ∉ self :: foot es -> delete self (heap s1) !! x = heap s !! x) as Hsame.
  { intros x Hx. rewrite lookup_delete_ne by (intros <-; apply Hx; by left). by apply Hkeep. }
  split_and!; [apply lookup_delete_eq|lia| |].
  - intros x b Hb. destruct (decide (x ∈ self :: foot es)) as [Hx|Hx]; [by rewrite Hall in Hb|by rewrite <- Hsame].
  - rewrite (size_minus _ _ _ (t_nodup _ _ _ _ _ T) (table_dom _ _ _ _ _ T) Hall Hsame). cbn [length]. rewrite (holds_foot _ _ HF). lia.
Qed.

(** ** Numbers and strings *)
Inductive scalar := NoVal | IntVal (i : Z) | RealVal (d : double) | StrVal (t : list Z).
Inductive vop := SetInt (i : Z) | SetReal (d : double) | SetStr (t : option (list Z)) | GetInt | GetReal | GetStr | TypeOf.
Inductive vres := VUnit | VNum (z : Z) | VDouble (d : double) | VText (t : option (list Z)).

Definition vcall (self : option loc) (op : vop) : M vres :=
  match op with
  | SetInt i => xobj_setint self i;; mret VUnit
  | SetReal d => xobj_setreal self d;; mret VUnit
  | SetStr t => xobj_setstr self t;; mret VUnit
  | GetInt => z ← xobj_intval self; mret (VNum z)
  | GetReal => d ← xobj_realnum self; mret (VDouble d)
  | GetStr => p ← xobj_string self; match p with None => mret (VText None) | Some _ => t ← c_read p; mret (VText (Some t)) end
  | TypeOf => z ← xobj_type_of self; mret (VNum z)
  end.
Fixpoint vcalls (self : option loc) (ops : list vop) : M (list vres) :=
  match ops with
  | [] => mret []
  | op :: ops => r ← vcall self op; rs ← vcalls self ops; mret (r :: rs)
  end.

Definition vspec (v : scalar) (op : vop) : vres * scalar :=
  match op with
  | SetInt i => (VUnit, IntVal i)
  | SetReal d => (VUnit, RealVal d)
  | SetStr None => (VUnit, NoVal)
  | SetStr (Some t) => (VUnit, StrVal t)
  | GetInt => (VNum (match v with IntVal i => i | _ => 0 end), v)
  | GetReal => (VDouble (match v with RealVal d => d | _ => zero end), v)
  | GetStr => (VText (match v with StrVal t => Some t | _ => None end), v)
  | TypeOf => (VNum (match v with NoVal => 0 | IntVal _ => 1 | RealVal _ => 2 | StrVal _ => 3 end), v)
  end.
Fixpoint vspec_run (v : scalar) (ops : list vop) : list vres :=
  match ops with [] => [] | op :: ops => fst (vspec v op) :: vspec_run (snd (vspec v op)) ops end.

(** A string object owns a buffer of [list_count + 1] bytes. *)
Definition is_scalar (s : state) (self : loc) (v : scalar) : Prop :=
  exists o, heap s !! self = Some (Obj o) /\
  match v with
  | NoVal => obj_type o = EMPTY
  | IntVal i => obj_type o = INTEGER /\ val o = VInt i
  | RealVal d => obj_type o = REAL /\ val o = VReal d
  | StrVal t => obj_type o = STRING /\ exists l buf, val o = VStr (Some l) /\ l <> self /\ heap s !! l = Some (Str buf) /\ cstr buf t /\ zlen buf = list_count o + 1
  end.

Lemma scalar_empty_run s self v : is_scalar s self v -> exists s' o, xobj_empty (Some self) s = Ret (tt, s') /\ heap s' !! self = Some (Obj o) /\ obj_type o = EMPTY.
Proof.
  intros (o & Ho & Hv). unfold xobj_empty. replace (fuel_of s) with (S (4 * size (heap s) + 1)) by (unfold fuel_of; lia). cbn [empty_fuel]. mrun.
  destruct v; [rewrite Hv|destruct Hv as [-> _]|destruct Hv as [-> _]|destruct Hv as (-> & l & buf & Hvl & Hne & Hl & _)].
  1-3: eexists _, _; split; [reflexivity|]; cbn [heap wr set_heap]; by simplify_map_eq.
  unfold val_string. rewrite Hvl, mret_bind. erewrite free_run by (cbn [heap wr set_heap]; by simplify_map_eq).
  eexists _, _. split; [reflexivity|]. cbn [heap wr rm set_heap]. split; [by simplify_map_eq|done].
Qed.

Lemma setstr_run s self v t : is_scalar s self v -> c_text t -> exists s', xobj_setstr (Some self) (Some t) s = Ret (tt, s') /\ is_scalar s' self (StrVal t).
Proof.
  intros Hv Ht. pose proof (scalar_empty_run s self v Hv) as (s1 & o1 & Hem & Ho1 & _). destruct Hv as (o & Ho & Hv). unfold xobj_setstr. pose proof Ht as [Ht1 Ht2].
  pose proof (zlen_nonneg t). rewrite to_int_small by lia. mrun. destruct (bool_decide (obj_type o = STRING) && (zlen t <=? list_count o)) eqn:E.
  - apply andb_true_iff in E as [E1 E2]. apply bool_decide_eq_true in E1. apply Z.leb_le in E2.
    destruct v; [congruence|destruct Hv as [Hv _]; congruence|destruct Hv as [Hv _]; congruence|]. destruct Hv as (_ & l & buf & Hvl & Hne & Hl & (_ & Hmax & _) & Hz).
    unfold val_string. rewrite Hvl, mret_bind. destruct (memcpy_run s l buf t Hl Ht ltac:(lia)) as (r & -> & Hr & Hzr). eexists. split; [reflexivity|].
    exists o. split; [cbn [heap wr set_heap]; by simplify_map_eq|]. split; [done|]. exists l, r. split_and!; try done; [cbn [heap wr set_heap]; by simplify_map_eq|lia].
  - rewrite (bind_Ret _ _ _ _ _ Hem). unfold strdup. destruct (malloc_ok (heap s1)) as [l Hl]. pose proof (malloc_fresh _ _ Hl). assert (l <> self) by (intros ->; congruence).
    mrun. cbn iota. mrun. erewrite upd_obj_run by (cbn [heap wr set_heap]; by simplify_map_eq). eexists. split; [reflexivity|].
    eexists. split; [cbn [heap wr set_heap]; by simplify_map_eq|]. split; [done|]. exists l, (t ++ [NUL]). xo. split_and!; try done; [cbn [heap wr set_heap]; by simplify_map_eq|by apply cstr_new|].
    rewrite zlen_app. done.
Qed.

Lemma step_scalar s self v op : is_scalar s self v -> match op with SetStr (Some t) => c_text t | _ => True end ->
  exists s', vcall (Some self) op s = Ret (fst (vspec v op), s') /\ is_scalar s' self (snd (vspec v op)).
Proof.
  intros Hv Hok. pose proof (scalar_empty_run s self v Hv) as (s1 & o1 & Hem & Ho1 & Ht1). destruct op as [i|d|[t|]| | | |]; cbn [vcall vspec fst snd].
  - unfold xobj_setint. rewrite bind_assoc, (bind_Ret _ _ _ _ _ Hem). mrun. eexists. split; [reflexivity|]. eexists. split; [cbn [heap wr set_heap]; by simplify_map_eq|done].
  - unfold xobj_setreal. rewrite bind_assoc, (bind_Ret _ _ _ _ _ Hem). mrun. eexists. split; [reflexivity|]. eexists. split; [cbn [heap wr set_heap]; by simplify_map_eq|done].
  - destruct (setstr_run s self v t Hv Hok) as (s' & Hrun & Hs). rewrite (bind_Ret _ _ _ _ _ Hrun). by exists s'.
  - unfold xobj_setstr. rewrite bind_assoc, (bind_Ret _ _ _ _ _ Hem). mrun. eexists. split; [reflexivity|]. eexists. split; [cbn [heap wr set_heap]; by simplify_map_eq|done].
  - exists s. split; [|done]. destruct Hv as (o & Ho & Hv). unfold xobj_intval. mrun. destruct v; [rewrite Hv|destruct Hv as [-> ->]|destruct Hv as [-> _]|destruct Hv as (-> & _)]; done.
  - exists s. split; [|done]. destruct Hv as (o & Ho & Hv). unfold xobj_realnum. mrun. destruct v; [rewrite Hv|destruct Hv as [-> _]|destruct Hv as [-> ->]|destruct Hv as (-> & _)]; done.
  - exists s. split; [|done]. destruct Hv as (o & Ho & Hv). unfold xobj_string. mrun. destruct v; [rewrite Hv|destruct Hv as [-> _]|destruct Hv as [-> _]|]; try done.
    destruct Hv as (-> & l & buf & Hvl & _ & Hl & Hc & _). unfold val_string. rewrite Hvl, mret_bind.
    by rewrite (bind_Ret _ _ _ _ _ (c_read_run s (Some (l, buf)) t (conj Hl (ex_intro _ _ Hc)) (text_cstr _ _ _ Hc))).
  - exists s. split; [|done]. destruct Hv as (o & Ho & Hv). unfold xobj_type_of. mrun. destruct v; [rewrite Hv|destruct Hv as [-> _]|destruct Hv as [-> _]|destruct Hv as (-> & _)]; done.
Qed.

(** A new object holds the number or the string stored last: after any sequence of
    [setint], [setreal] and [setstr], each getter gives the value if it is of its type
    and 0 or NULL otherwise.  A string that fits is copied into the old buffer, which is
    never overrun. *)
Theorem scalar_refines (s : state) (ops : list vop) : int_ok (object_count s + 1) -> Forall (fun op => match op with SetStr (Some t) => c_text t | _ => True end) ops ->
  exists s', (self ← xobj_new; vcalls self ops) s = Ret (vspec_run NoVal ops, s').
Proof.
  intros Hc Hok. destruct (new_run s Hc) as (self & s1 & Hrun & _ & (o & Ho & Ht & _) & _). rewrite (bind_Ret _ _ _ _ _ Hrun). clear Hrun.
  assert (is_scalar s1 self NoVal) as Hv by (by exists o). clear Ho Ht Hc s. revert s1 Hv. generalize NoVal as v. induction Hok as [|op ops Hop Hok IH]; intros v s1 Hv; [by exists s1|].
  cbn [vcalls vspec_run]. destruct (step_scalar s1 self v op Hv Hop) as (s2 & Hrun & Hv2). rewrite (bind_Ret _ _ _ _ _ Hrun).
  destruct (IH _ s2 Hv2) as (s3 & Hrun3). rewrite (bind_Ret _ _ _ _ _ Hrun3). by exists s3.
Qed.

(** ** Copies *)
Lemma empty_empty_run s self o : heap s !! self = Some (Obj o) -> obj_type o = EMPTY -> xobj_empty (Some self) s = Ret (tt, wr self (Obj (set_type EMPTY o)) s).
Proof.
  intros Ho Ht. unfold xobj_empty. replace (fuel_of s) with (S (4 * size (heap s) + 1)) by (unfold fuel_of; lia). cbn [empty_fuel]. mrun. by rewrite Ht.
Qed.

(** [copy] of a table gives an object with the same entries and the same nodes: both can
    be read, but when one of them is disposed of the other is left with freed nodes, and
    disposing of it too frees them again. *)
Theorem copy_shares (s : state) (dst src : loc) (o : xobject) (kvs : kvs_t) (c : nat) :
  is_table s src kvs c -> kvs <> [] -> heap s !! dst = Some (Obj o) -> obj_type o = EMPTY -> dst <> src -> int_ok (object_count s - 1) ->
  exists s', xobj_copy (Some dst) (Some src) s = Ret (1, s') /\ is_table s' src kvs c /\
    (forall k, exists s'', tcall (Some dst) (Get k) s' = Ret (RStr (snd ∘ snd <$> kv_find k kvs), s'')) /\
    exists s'', xobj_dispose (Some src) s' = Ret (tt, s'') /\ xobj_dispose (Some dst) s'' = Fault UseAfterFree.
Proof.
  intros [(-> & _)|(os & es & T & HF)] Hne Ho Ht Hds Hc; [done|]. pose proof T as [Hs Hty Hvl _ _ _ Hch Hnd Hnes Hsl]. unfold xobj_copy, copy_with. mrun.
  rewrite decide_False by congruence. rewrite (bind_Ret _ _ _ _ _ (empty_empty_run s dst o Ho Ht)). mrun. xo. rewrite Hty.
  set (od := set_cnt 0 (set_strlist None os)). set (s' := wr dst (Obj od) _). exists s'. split; [reflexivity|].
  assert (heap s' !! dst = Some (Obj od)) as Hod by (cbn [s' heap wr set_heap]; by simplify_map_eq).
  assert (forall x, x <> dst -> heap s' !! x = heap s !! x) as Hk by (intros x Hx; cbn [s' heap wr set_heap]; by rewrite !lookup_insert_ne).
  assert (object_count s' = object_count s) as Hcs by done. clearbody s'. apply NoDup_cons in Hnd as [Hself Hnd].
  assert (dst ∉ foot es) as Hdf.
  { intros Hin. apply list_elem_of_bind in Hin as (e & Hin & He). apply list_elem_of_lookup in He as [i He]. rewrite <- (take_drop_middle _ _ _ He) in Hch.
    apply chain_mid in Hch as (nx & Hn & Hke & Hve & _). unfold locs in Hin. apply elem_of_cons in Hin as [->|Hin]; [congruence|]. apply elem_of_app in Hin as [Hin|Hin].
    - destruct (e_key e) as [[l b]|]; [|by apply not_elem_of_nil in Hin]. apply list_elem_of_singleton in Hin as ->. destruct Hke. cbn in *. congruence.
    - destruct (e_val e) as [[l b]|]; [|by apply not_elem_of_nil in Hin]. apply list_elem_of_singleton in Hin as ->. destruct Hve. cbn in *. congruence. }
  assert (chain true (heap s') (e_node <$> head es) None es None) as Hch' by (eapply chain_frame; [|exact Hch]; intros x Hx; apply Hk; by intros ->).
  assert (table (heap s') src os es c) as T1 by (destruct T; split; try done; by rewrite Hk).
  assert (table (heap s') dst od es c) as T2 by (destruct T; split; try done; by constructor).
  split; [right; by exists os, es|]. split; [intros k; exists s'; by apply (step_lookup s' dst od es c kvs k)|].
  destruct (table_empty_run s' src os es c T1) as (s1 & o1 & Hrun & (Hr & _) & Ho1 & _ & _ & Hkeep & Hgone).
  unfold xobj_dispose at 1. unfold dispose_with. rewrite (bind_Ret _ _ _ _ _ Hrun), (bind_Ret _ _ _ _ _ (free_run _ _ _ Ho1)).
  rewrite count_run by (cbn [object_count rm set_heap]; rewrite Hr, Hcs; exact Hc). eexists. split; [reflexivity|]. set (s2 := set_objects _ _).
  assert (heap s2 !! dst = Some (Obj od)) as Hd2 by (cbn [s2 heap set_objects rm set_heap]; rewrite lookup_delete_ne by done; rewrite Hkeep; [done|]; rewrite elem_of_cons; tauto).
  unfold xobj_dispose, dispose_with. apply bind_Fault. unfold xobj_empty. replace (fuel_of s2) with (S (S (4 * size (heap s2)))) by (unfold fuel_of; lia). cbn [empty_fuel].
  mrun. change (obj_type od) with (obj_type os). rewrite Hty. unfold val_list. change (val od) with (val os). rewrite Hvl, mret_bind. destruct es as [|e es]; [done|].
  cbn [head fmap option_fmap option_map]. apply bind_Fault. cbn [free_loop]. apply bind_Fault, get_node_gone. cbn [heap wr set_heap s2 set_objects rm].
  assert (e_node e ∈ foot (e :: es)) as Hin by (apply node_in_foot; constructor). rewrite lookup_insert_ne by (by intros ->). rewrite lookup_delete_ne by (by intros ->). by apply Hgone.
Qed.

(** The clone of a list of objects is an empty object: [copy] refuses lists and
    [xobj_clone] does not look at its answer.  So [push], which stores a clone, stores an
    empty object for every list that is pushed. *)
Theorem clone_list_empty (s : state) (src : loc) (o : xobject) : heap s !! src = Some (Obj o) -> obj_type o = LIST -> int_ok (object_count s + 1) ->
  exists c oc s', xobj_clone (Some src) s = Ret (Some c, s') /\ c <> src /\ heap s' !! c = Some (Obj oc) /\ obj_type oc = EMPTY /\ heap s' !! src = Some (Obj o).
Proof.
  intros Ho Ht Hc. unfold xobj_clone. cbn [clone_fuel]. destruct (new_run s Hc) as (c & s1 & Hrun & Hf & (oc & Hoc & Htc & _) & Hk & _). rewrite (bind_Ret _ _ _ _ _ Hrun).
  assert (c <> src) by (intros ->; congruence). assert (heap s1 !! src = Some (Obj o)) by (rewrite Hk by done; done).
  unfold copy_with. mrun. rewrite decide_True by done. mrun. by exists c, oc, s1.
Qed.
End allocator.
End x_object.

(** ** Examples *)
Section examples.
#[local] Notation blk := (@block Z).

(** An allocator that takes any address not in use, and memory full of rubbish. *)
Definition ex_malloc (h : gmap loc blk) : option loc := Some (fresh (dom h)).
Definition ex_junk : @xobject Z := mk_obj HASH (VInt 7) (Some 9%positive) (Some 9%positive) 5 (Some 9%positive) true 5.
Lemma ex_fresh h l : ex_malloc h = Some l -> h !! l = None.
Proof. intros [= <-]. apply not_elem_of_dom, is_fresh. Qed.
Lemma ex_ok h : is_Some (ex_malloc h).
Proof. by eexists. Qed.

(** An object without contents, a table with two entries and one with one. *)
Definition ex_af : AF.state := AF.mk_state true (Some [None]) 1 0 1 [].
Definition ex_s0 : @state Z := mk_state ∅ 0 ex_af true.
Definition ex_obj : @xobject Z := mk_obj STRING_HASH (VList (Some 2%positive)) (Some 5%positive) None 2 None false 0.
Definition ex_e1 : entry := mk_entry 2%positive (Some (3%positive, [97; 0])) (Some (4%positive, [65; 0])).
Definition ex_e2 : entry := mk_entry 5%positive (Some (6%positive, [98; 0])) (Some (7%positive, [66; 0])).
Definition ex_table : @state Z := mk_state (list_to_map [
  (1%positive, Obj ex_obj); (2%positive, Node (lnode_of ex_e1 (Some 5%positive) None)); (3%positive, Str [97; 0]); (4%positive, Str [65; 0]);
  (5%positive, Node (lnode_of ex_e2 None (Some 5%positive))); (6%positive, Str [98; 0]); (7%positive, Str [66; 0]);
  (8%positive, Obj (mk_obj EMPTY (VInt 0) None None 0 None false 0))]) 2 ex_af true.
Definition ex_one : @state Z := mk_state (list_to_map [
  (1%positive, Obj (mk_obj STRING_HASH (VList (Some 2%positive)) (Some 2%positive) None 1 None false 0));
  (2%positive, Node (lnode_of ex_e1 None None)); (3%positive, Str [97; 0]); (4%positive, Str [65; 0])]) 1 ex_af true.

Lemma ex_cstr c : c <> NUL -> cstr [c; 0] [c].
Proof. intros H. split_and!; [by constructor|vm_compute; discriminate|by exists []]. Qed.
Lemma ex_str_at (h : gmap loc blk) l c : h !! l = Some (Str [c; 0]) -> c <> NUL -> str_at h (Some (l, [c; 0])).
Proof. intros H Hc. split; [done|]. exists [c]. by apply ex_cstr. Qed.

Lemma ex_is_table : is_table ex_table 1%positive [([97], [65]); ([98], [66])] 2.
Proof.
  right. exists ex_obj, [ex_e1; ex_e2]. split; [|by repeat constructor]. split; try (vm_compute; reflexivity); [|by apply (bool_decide_unpack _)|done].
  cbn [chain]. split; [done|]. eexists. split; [vm_compute; reflexivity|]. split_and!; try (apply ex_str_at; [vm_compute; reflexivity|done]); [done|].
  eexists. split_and!; [vm_compute; reflexivity|apply ex_str_at; [vm_compute; reflexivity|done]..|done].
Qed.
Lemma ex_is_one : is_table ex_one 1%positive [([97], [65])] 1.
Proof.
  right. eexists _, [ex_e1]. split; [|by repeat constructor]. split; try (vm_compute; reflexivity); [|by apply (bool_decide_unpack _)|done].
  split; [done|]. eexists. split_and!; [vm_compute; reflexivity|apply ex_str_at; [vm_compute; reflexivity|done]..|done].
Qed.

Ltac ex_text := split; [repeat constructor; discriminate|vm_compute; reflexivity].

(** A use that keeps the table; the deletion of the only entry; a deletion behind the first. *)
Definition ex_ops : list top :=
  [Put (Some [97]) (Some [65]); Put (Some [98]) (Some [66]); Put (Some [97]) (Some [67; 68]); Get [97]; First; Del [97]; Next; Next; Get [97]; Size].
Definition ex_hollow_ops : list top := [Put (Some [97]) (Some [65]); Del [97]; Size; Put (Some [98]) (Some [66])].
Definition ex_freed_ops : list top := [Put (Some [97]) (Some [65]); Put (Some [98]) (Some [66]); Del [98]; Get [99]].
Lemma ex_ops_ok : Forall op_ok ex_ops /\ Forall op_ok ex_hollow_ops /\ Forall op_ok ex_freed_ops.
Proof. split_and!; repeat constructor; try discriminate; vm_compute; reflexivity. Qed.
Lemma table_refines_witness :
  (exists self s1 s', xobj_new ex_malloc ex_junk ex_s0 = Ret (Some self, s1) /\ tcalls ex_malloc ex_junk (Some self) ex_ops s1 =
    Ret ([RInt 1; RInt 1; RInt 1; RStr (Some [67; 68]); REnt (Some ([97], [67; 68])); RInt 1; REnt (Some ([98], [66])); REnt None; RStr None; RInt 1], s')) /\
  (exists self s1, xobj_new ex_malloc ex_junk ex_s0 = Ret (Some self, s1) /\ tcalls ex_malloc ex_junk (Some self) ex_hollow_ops s1 = Fault NullDeref) /\
  (exists self s1 s', xobj_new ex_malloc ex_junk ex_s0 = Ret (Some self, s1) /\
    tcalls ex_malloc ex_junk (Some self) (take 3 ex_freed_ops) s1 = Ret ([RInt 1; RInt 1; RInt 1], s') /\
    tcall ex_malloc ex_junk (Some self) (Get [99]) s' = Fault UseAfterFree).
Proof.
  pose proof ex_ops_ok as (H1 & H2 & H3). split; [|split].
  - destruct (table_refines ex_malloc ex_junk ex_fresh ex_ok ex_s0 ex_ops ltac:(by vm_compute) H1 ltac:(by vm_compute)) as (self & s1 & Hn & s' & Hr).
    exists self, s1, s'. split; [exact Hn|exact Hr].
  - destruct (table_refines ex_malloc ex_junk ex_fresh ex_ok ex_s0 ex_hollow_ops ltac:(by vm_compute) H2 ltac:(by vm_compute)) as (self & s1 & Hn & Hr).
    exists self, s1. split; [exact Hn|exact Hr].
  - destruct (table_refines ex_malloc ex_junk ex_fresh ex_ok ex_s0 ex_freed_ops ltac:(by vm_compute) H3 ltac:(by vm_compute)) as (self & s1 & Hn & s' & Hr & Hf).
    exists self, s1, s'. split; [exact Hn|]. split; [exact Hr|]. apply Hf. vm_compute. reflexivity.
Defined.

Lemma del_dangles_witness : exists s', tcall ex_malloc ex_junk (Some 1%positive) (Del [98]) ex_table = Ret (RInt 1, s') /\
  tcall ex_malloc ex_junk (Some 1%positive) (Get [99]) s' = Fault UseAfterFree.
Proof.
  destruct (del_dangles ex_malloc ex_junk ex_table 1%positive _ 2%nat 0%nat [98] [66] ex_is_table) as (s' & H1 & H2); [vm_compute; discriminate|vm_compute; reflexivity|].
  exists s'. split; [exact H1|]. apply H2. vm_compute. reflexivity.
Defined.

Lemma del_last_faults_witness : exists s', tcall ex_malloc ex_junk (Some 1%positive) (Del [97]) ex_one = Ret (RInt 1, s') /\ size (heap s') = size (heap ex_one) /\
  tcall ex_malloc ex_junk (Some 1%positive) (Put (Some [98]) (Some [66])) s' = Fault NullDeref.
Proof. apply (del_last_faults ex_malloc ex_junk ex_fresh ex_ok ex_one 1%positive [97] [65] [98] [66] 1%nat ex_is_one); ex_text. Defined.

Lemma ex_af_ok h n : af_ok (mk_state (double := Z) h n ex_af true).
Proof. split; [done|]. exists [None]. split_and!; try done. by repeat constructor. Qed.

Lemma stack_refines_witness : exists s',
  (self ← xobj_new ex_malloc ex_junk; scalls ex_malloc ex_junk self [SPush [97]; SPush [98]; SPop; SPush [99; 99]; SCount; SPop; SPop; SPop; SPush [100]]) ex_s0 =
  Ret ([RInt 1; RInt 1; RStr (Some [98]); RInt 1; RInt 2; RStr (Some [99; 99]); RStr (Some [97]); RStr None; RInt 1], s').
Proof.
  apply (stack_refines ex_malloc ex_junk ex_fresh ex_ok ex_s0); [apply ex_af_ok|by vm_compute| |by vm_compute|vm_compute; reflexivity].
  repeat constructor; try discriminate; vm_compute; reflexivity.
Defined.

(** A list with the one string "A". *)
Definition ex_list : @state Z := mk_state (list_to_map [
  (1%positive, Obj (mk_obj STRING_LIST (VList (Some 2%positive)) (Some 2%positive) None 1 None false 0));
  (2%positive, Node (mk_node None (Some 4%positive) None None)); (4%positive, Str [65; 0])]) 1 ex_af true.
Lemma ex_is_list : is_stack ex_list 1%positive (Some [[65]]).
Proof.
  split; [apply ex_af_ok|]. eexists _, [mk_entry 2%positive None (Some (4%positive, [65; 0]))]. split; [|by repeat constructor].
  split; try (intros; vm_compute; reflexivity); [|by apply (bool_decide_unpack _)]. split; [done|]. eexists. split_and!; [vm_compute; reflexivity|done|apply ex_str_at; [vm_compute; reflexivity|done]|done].
Qed.
Lemma drained_push_faults_witness : exists s', scall ex_malloc ex_junk (Some 1%positive) SPop ex_list = Ret (RStr (Some [65]), s') /\
  (scall ex_malloc ex_junk (Some 1%positive) (SPush [66]) s' = Fault UseAfterFree \/
   exists s'', scall ex_malloc ex_junk (Some 1%positive) (SPush [66]) s' = Ret (RInt 1, s'') /\ scall ex_malloc ex_junk (Some 1%positive) SPop s'' = Fault NullDeref).
Proof. apply (drained_push_faults ex_malloc ex_junk ex_fresh ex_ok ex_list 1%positive [65] [66] ex_is_list). ex_text. Defined.

Lemma table_dispose_witness : exists s', xobj_dispose (Some 1%positive) ex_table = Ret (tt, s') /\ heap s' !! 1%positive = None /\ object_count s' = object_count ex_table - 1 /\
  (forall x b, heap s' !! x = Some b -> heap ex_table !! x = Some b) /\ size (heap ex_table) = (size (heap s') + 1 + 3 * 2)%nat.
Proof. apply (table_dispose ex_table 1%positive [([97], [65]); ([98], [66])] 2%nat ex_is_table); [discriminate|by vm_compute]. Defined.

Lemma scalar_refines_witness : exists s',
  (self ← xobj_new ex_malloc ex_junk; vcalls 0 ex_malloc self [SetInt 5; GetInt; SetStr (Some [97; 98; 99]); GetStr; GetInt; SetStr (Some [100]); GetStr; SetReal 3; GetStr; GetReal]) ex_s0 =
  Ret ([VUnit; VNum 5; VUnit; VText (Some [97; 98; 99]); VNum 0; VUnit; VText (Some [100]); VUnit; VText None; VDouble 3], s').
Proof.
  apply (scalar_refines 0 ex_malloc ex_junk ex_fresh ex_ok ex_s0 [SetInt 5; GetInt; SetStr (Some [97; 98; 99]); GetStr; GetInt; SetStr (Some [100]); GetStr; SetReal 3; GetStr; GetReal]);
    [by vm_compute|]. repeat constructor; try discriminate; vm_compute; reflexivity.
Defined.

Lemma copy_shares_witness : exists s', xobj_copy ex_malloc ex_junk (Some 8%positive) (Some 1%positive) ex_table = Ret (1, s') /\ is_table s' 1%positive [([97], [65]); ([98], [66])] 2 /\
  (forall k, exists s'', tcall ex_malloc ex_junk (Some 8%positive) (Get k) s' = Ret (RStr (snd ∘ snd <$> kv_find k [([97], [65]); ([98], [66])]), s'')) /\
  exists s'', xobj_dispose (Some 1%positive) s' = Ret (tt, s'') /\ xobj_dispose (Some 8%positive) s'' = Fault UseAfterFree.
Proof. by eapply (copy_shares ex_malloc ex_junk ex_table 8%positive 1%positive _ _ 2%nat ex_is_table); [|vm_compute; reflexivity|..]. Defined.

Lemma clone_list_empty_witness : exists c oc s', xobj_clone ex_malloc ex_junk (Some 1%positive) (mk_state {[1%positive := Obj (mk_obj LIST (VList None) None None 0 None false 0)]} 1 ex_af true) =
  Ret (Some c, s') /\ c <> 1%positive /\ heap s' !! c = Some (Obj oc) /\ obj_type oc = EMPTY /\ heap s' !! 1%positive = Some (Obj (mk_obj LIST (VList None) None None 0 None false 0)).
Proof. by apply (clone_list_empty ex_malloc ex_junk ex_fresh ex_ok). Defined.
End examples.
End XO.
