(* ===== verification/Session.v ===== *)
(** * Session.v: two programs at the ends of a byte stream

    A program that talks over a connected TCP socket is a [proc]: a tree of [read] and
    [write] calls with a result at the end.  Two of them run concurrently: a [write] puts
    its bytes into the stream, a [read] of at most [n] bytes takes some of the bytes that
    have arrived, as many as the network pleases, waits when there are none, and returns
    nothing when the other end is closed.  The networks are numbered: network [small] does
    not split a [read] of at most [small] bytes, so network 0 splits every one.  The sources
    read integers, and once a digest, with one call and do not look at how much they got,
    so what they promise depends on this number.

    A program conforms to a conversation, a list of bytes with their directions, when it
    reads and writes just these bytes however its reads are split.  If both ends conform to
    one conversation then every run of the pair ends, with the results stated, without a
    deadlock and with nothing left in the stream ([conversation]). *)

From Stdlib Require Import Relations.Relation_Operators Wellfounded.Lexicographic_Product.
From Stdlib Require Import FunctionalExtensionality.
From stdpp Require Import relations.
From S2P Require Import Prelude.

Module SES.

Inductive proc (R : Type) :=
  | Done (r : R)
  | Read (n : Z) (k : list Z -> proc R)
  | Write (b : list Z) (k : proc R)
  | Crash (f : fault).
Arguments Done {R} r.
Arguments Read {R} n k.
Arguments Write {R} b k.
Arguments Crash {R} f.

#[global] Instance proc_ret : MRet proc := fun R r => Done r.
Fixpoint proc_bind_ {A B} (k : A -> proc B) (p : proc A) : proc B :=
  match p with
  | Done r => k r
  | Read n c => Read n (fun x => proc_bind_ k (c x))
  | Write b c => Write b (proc_bind_ k c)
  | Crash f => Crash f
  end.
#[global] Instance proc_bind : MBind proc := fun A B => proc_bind_.

Definition read (n : Z) : proc (list Z) := Read n Done.
Definition write (b : list Z) : proc unit := Write b (Done tt).
Definition lift {A} (r : outcome A) : proc A :=
  match r with Ret a => Done a | Block => Crash Deadlock | Fault f => Crash f end.

Section network.
Context {small : Z}.

Definition chunk_ok (n : Z) (c : list Z) : Prop := 0 < zlen c <= n /\ (n <= small -> zlen c = n).

(** What [read] returns when the other end is closed: all that is left. *)
Definition drained (n : Z) (q : list Z) : Prop := q = [] \/ (n <= small /\ zlen q < n).

Section pair.
Context {A B : Type}.

(** ** The two programs and the bytes on the way *)
Record config := mk_config { cl : proc A; sv : proc B; c2s : list Z; s2c : list Z }.

Inductive step : config -> config -> Prop :=
  | st_cw b k s q1 q2 : step (mk_config (Write b k) s q1 q2) (mk_config k s (q1 ++ b) q2)
  | st_sw c b k q1 q2 : step (mk_config c (Write b k) q1 q2) (mk_config c k q1 (q2 ++ b))
  | st_cr n k s q1 x q2 : chunk_ok n x -> step (mk_config (Read n k) s q1 (x ++ q2)) (mk_config (k x) s q1 q2)
  | st_sr c n k x q1 q2 : chunk_ok n x -> step (mk_config c (Read n k) (x ++ q1) q2) (mk_config c (k x) q1 q2)
  | st_ce n k r q1 q2 : drained n q2 -> step (mk_config (Read n k) (Done r) q1 q2) (mk_config (k q2) (Done r) q1 [])
  | st_se r n k q1 q2 : drained n q1 -> step (mk_config (Done r) (Read n k) q1 q2) (mk_config (Done r) (k q1) [] q2).

(** Every run from [c] ends, and with the results [a] and [b]. *)
Inductive ends (a : A) (b : B) : config -> Prop :=
  | ends_done : ends a b (mk_config (Done a) (Done b) [] [])
  | ends_step c : (exists c', step c c') -> (forall c', step c c' -> ends a b c') -> ends a b c.
End pair.

(** ** Conversations *)
Definition tag (d : bool) (b : list Z) : list (bool * Z) := (fun x => (d, x)) <$> b.

Inductive conf {R} (me : bool) : proc R -> list (bool * Z) -> R -> Prop :=
  | conf_done r : conf me (Done r) [] r
  | conf_write b k L r : conf me k L r -> conf me (Write b k) (tag me b ++ L) r
  | conf_read n k L r : (exists x L', L = tag (negb me) x ++ L' /\ chunk_ok n x) ->
      (forall x L', L = tag (negb me) x ++ L' -> chunk_ok n x -> conf me (k x) L' r) -> conf me (Read n k) L r.

Lemma tag_app d a b : tag d (a ++ b) = tag d a ++ tag d b.
Proof. apply fmap_app. Qed.
Lemma tag_nil_inv d a L : [] = tag d a ++ L -> a = [] /\ L = [].
Proof. destruct a; [done|discriminate]. Qed.
Lemma tag_clash d a b L L' : tag d a ++ L = tag (negb d) b ++ L' -> a = [] \/ b = [].
Proof. destruct a as [|x a], b as [|y b]; try tauto. cbn. intros [= H]. by destruct d. Qed.

(** The part of [L] that two prefixes of one direction share. *)
Lemma tag_prefix d a b L L' : tag d a ++ L = tag d b ++ L' ->
  (exists e, a = b ++ e /\ L' = tag d e ++ L) \/ (exists e, b = a ++ e /\ L = tag d e ++ L').
Proof.
  revert b. induction a as [|x a IH]; intros b; [cbn; intros ->; right; by exists b|].
  destruct b as [|y b]; [cbn; intros <-; left; by exists (x :: a)|]. cbn. intros [= -> H].
  destruct (IH b H) as [(e & -> & ->)|(e & -> & ->)]; [left|right]; by exists e.
Qed.

Section adequacy.
Context {A B : Type} (a : A) (b : B).

(** The client is at [LC], the server at [LS]; the bytes between are on the way. *)
Definition between (LC LS : list (bool * Z)) (q1 q2 : list Z) : Prop :=
  (q2 = [] /\ LS = tag true q1 ++ LC) \/ (q1 = [] /\ LC = tag false q2 ++ LS).
Definition inv (c : @config A B) : Prop :=
  exists LC LS, conf true (cl c) LC a /\ conf false (sv c) LS b /\ between LC LS (c2s c) (s2c c).

Lemma conf_write_inv {R} me w (k : proc R) L r : conf me (Write w k) L r -> exists L', L = tag me w ++ L' /\ conf me k L' r.
Proof. intros H. inversion H; subst. by eexists. Qed.
Lemma conf_read_inv {R} me n (k : list Z -> proc R) L r : conf me (Read n k) L r ->
  (exists x L', L = tag (negb me) x ++ L' /\ chunk_ok n x) /\ (forall x L', L = tag (negb me) x ++ L' -> chunk_ok n x -> conf me (k x) L' r).
Proof. intros H. by inversion H; subst. Qed.
Lemma conf_done_inv {R} me (x : R) L r : conf me (Done x) L r -> L = [] /\ x = r.
Proof. intros H. by inversion H; subst. Qed.
Lemma chunk_ne n x : chunk_ok n x -> x <> [].
Proof. intros [[H _] _] ->. by cbn in H. Qed.
Lemma read_needs {R} me n (k : list Z -> proc R) r : ~ conf me (Read n k) [] r.
Proof. intros H. apply conf_read_inv in H as [(x & L' & E & Hx) _]. apply tag_nil_inv in E as [-> _]. by apply chunk_ne in Hx. Qed.

Lemma drained_stuck {R} me n (k : list Z -> proc R) q r : drained n q -> ~ conf me (Read n k) (tag (negb me) q) r.
Proof.
  intros Hd H. apply conf_read_inv in H as [(x & L' & E & Hx) _]. destruct Hd as [->|[Hs Hn]]; [apply tag_nil_inv in E as [-> _]; by apply chunk_ne in Hx|].
  apply (f_equal length) in E. unfold tag in E. rewrite length_app, !length_fmap in E. destruct Hx as [_ Hx]. specialize (Hx Hs). unfold zlen in *. lia.
Qed.

Lemma inv_step c c' : inv c -> step c c' -> inv c'.
Proof.
  intros (LC & LS & HC & HS & Hb) Hst. destruct Hst as [w k s q1 q2|c w k q1 q2|n k s q1 x q2 Hx|c n k x q1 q2 Hx|n k r q1 q2 Hn|r n k q1 q2 Hn]; cbn [cl sv c2s s2c] in *; unfold inv; cbn [cl sv c2s s2c].
  - apply conf_write_inv in HC as (L' & -> & HC). exists L', LS. split_and!; [done..|]. destruct Hb as [[-> ->]|[-> E]].
    + left. by rewrite tag_app, <- app_assoc.
    + destruct (tag_clash true w q2 _ _ E) as [->| ->]; [right; cbn in E; by subst L'|left]. cbn in *. by rewrite <- E.
  - apply conf_write_inv in HS as (L' & -> & HS). exists LC, L'. split_and!; [done..|]. destruct Hb as [[-> E]|[-> ->]].
    + destruct (tag_clash false w q1 _ _ E) as [->| ->]; [left; cbn in E; by subst L'|right]. cbn in *. by rewrite <- E.
    + right. by rewrite tag_app, <- app_assoc.
  - apply conf_read_inv in HC as [_ HC]. destruct Hb as [[E _]|[-> ->]]; [apply app_eq_nil in E as [-> _]; by apply chunk_ne in Hx|].
    exists (tag false q2 ++ LS), LS. split_and!; [|done|by right]. apply HC; [|done]. by rewrite tag_app, <- app_assoc.
  - apply conf_read_inv in HS as [_ HS]. destruct Hb as [[-> ->]|[E _]]; [|apply app_eq_nil in E as [-> _]; by apply chunk_ne in Hx].
    exists LC, (tag true q1 ++ LC). split_and!; [done| |by left]. apply HS; [|done]. by rewrite tag_app, <- app_assoc.
  - apply conf_done_inv in HS as [-> <-]. exfalso. destruct Hb as [[-> E]|[-> ->]].
    + apply tag_nil_inv in E as [_ ->]. by apply read_needs in HC.
    + rewrite app_nil_r in HC. by apply (drained_stuck true n k q2 a Hn).
  - apply conf_done_inv in HC as [-> <-]. exfalso. destruct Hb as [[-> ->]|[-> E]].
    + rewrite app_nil_r in HS. by apply (drained_stuck false n k q1 b Hn).
    + apply tag_nil_inv in E as [_ ->]. by apply read_needs in HS.
Qed.

Lemma sender_moves {R} me (p : proc R) e L r : conf me p (tag me e ++ L) r -> e <> [] -> exists w k, p = Write w k.
Proof.
  intros H He. destruct p as [x|n k|w k|f]; [| |by exists w, k|by inversion H].
  - apply conf_done_inv in H as [H _]. symmetry in H. by apply tag_nil_inv in H as [-> _].
  - apply conf_read_inv in H as [(x & L' & E & Hx) _]. destruct (tag_clash _ _ _ _ _ E) as [-> | ->]; [done|by apply chunk_ne in Hx].
Qed.

(** A reader that is owed no more than [q] before it must write can read from [q]. *)
Lemma reader_moves {R} me n (k : list Z -> proc R) q L r : conf me (Read n k) (tag (negb me) q ++ L) r ->
  (L = [] \/ exists x L', x <> [] /\ L = tag me x ++ L') -> exists y q', q = y ++ q' /\ chunk_ok n y.
Proof.
  intros H HL. apply conf_read_inv in H as [(y & L' & E & Hy) _]. destruct (tag_prefix _ _ _ _ _ E) as [(e & -> & _)|(e & -> & E')]; [by exists y, e|].
  assert (e = []) as ->; [|rewrite app_nil_r in Hy; exists q, []; by rewrite app_nil_r].
  destruct HL as [->|(x & L2 & Hx & ->)]; [by apply tag_nil_inv in E' as [-> _]|]. by destruct (tag_clash _ _ _ _ _ E') as [-> | ->].
Qed.

(** A pair that has not ended can go on. *)
Lemma inv_progress c : inv c -> c = mk_config (Done a) (Done b) [] [] \/ exists c', step c c'.
Proof.
  intros (LC & LS & HC & HS & Hb). destruct c as [pc ps q1 q2]. cbn [cl sv c2s s2c] in *.
  destruct ps as [rs|ns ks|ws ks|fs]; [| |right; eexists; constructor|by inversion HS]; (destruct pc as [rc|nc kc|wc kc|fc]; [| |right; eexists; constructor|by inversion HC]).
  - apply conf_done_inv in HC as [-> ->], HS as [-> ->]. left. destruct Hb as [[-> E]|[-> E]]; apply tag_nil_inv in E as [-> _]; done.
  - apply conf_done_inv in HS as [-> ->]. destruct Hb as [[-> E]|[-> ->]]; [apply tag_nil_inv in E as [-> ->]; by apply read_needs in HC|].
    destruct (reader_moves true nc kc q2 [] a HC) as (y & q' & -> & Hy); [by left|]. right. eexists. by constructor.
  - apply conf_done_inv in HC as [-> ->]. destruct Hb as [[-> ->]|[-> E]]; [|apply tag_nil_inv in E as [-> ->]; by apply read_needs in HS].
    destruct (reader_moves false ns ks q1 [] b HS) as (y & q' & -> & Hy); [by left|]. right. eexists. by constructor.
  - right. destruct Hb as [[-> ->]|[-> ->]].
    + pose proof (conf_read_inv _ _ _ _ _ HC) as [(x & L' & -> & Hx) _].
      destruct (reader_moves false ns ks q1 _ b HS) as (y & q' & -> & Hy); [right; exists x, L'; split; [by eapply chunk_ne|done]|]. eexists. by constructor.
    + pose proof (conf_read_inv _ _ _ _ _ HS) as [(x & L' & -> & Hx) _].
      destruct (reader_moves true nc kc q2 _ a HC) as (y & q' & -> & Hy); [right; exists x, L'; split; [by eapply chunk_ne|done]|]. eexists. by constructor.
Qed.

(** Every step goes down in one of the two trees. *)
Inductive child {R} : proc R -> proc R -> Prop :=
  | child_write b k : child k (Write b k)
  | child_read n k x : child (k x) (Read n k).
Lemma child_wf {R} : well_founded (@child R).
Proof. intros p. induction p as [r|n k IH|w k IH|f]; constructor; intros q Hq; inversion Hq; subst; auto. Qed.

Lemma inv_ends c : inv c -> ends a b c.
Proof.
  assert (forall cs q1 q2, inv (mk_config (fst cs) (snd cs) q1 q2) -> ends a b (mk_config (fst cs) (snd cs) q1 q2)) as H; [|destruct c as [pc ps q1 q2]; apply (H (pc, ps))].
  intros cs. induction (wf_symprod _ _ _ _ (@child_wf A) (@child_wf B) cs) as [[c1 s1] _ IH]. intros q1 q2 Hi. cbn [fst snd] in *.
  destruct (inv_progress _ Hi) as [->|Hex]; [constructor|]. constructor; [done|]. intros c' Hst. pose proof (inv_step _ _ Hi Hst) as Hi'. destruct c' as [c2 s2 q1' q2'].
  apply (IH (c2, s2)); [|done]. inversion Hst; subst; (apply left_sym + apply right_sym); constructor.
Qed.
End adequacy.

(** Two programs that conform to the same conversation: every run of the pair ends, both
    give their results and the stream is empty. *)
Lemma conversation {A B} (p : proc A) (q : proc B) L a b : conf true p L a -> conf false q L b -> ends a b (mk_config p q [] []).
Proof. intros Hp Hq. apply inv_ends. exists L, L. split_and!; [done..|by left]. Qed.

(** ** One run, to look at examples: the client goes first, reads take all they can, up to
    [lim] bytes *)
Section run.
Context {A B : Type} (lim : Z).
Definition takes (n : Z) (q : list Z) : option nat :=
  let m := Z.min (Z.min n lim) (zlen q) in if (0 <? m) && ((small <? n) || (m =? n)) then Some (Z.to_nat m) else None.
Definition step1 (c : @config A B) : option config :=
  match c with
  | mk_config (Write b k) s q1 q2 => Some (mk_config k s (q1 ++ b) q2)
  | mk_config p (Write b k) q1 q2 => Some (mk_config p k q1 (q2 ++ b))
  | mk_config p s q1 q2 =>
      match p, takes (match p with Read n _ => n | _ => 0 end) q2, s, takes (match s with Read n _ => n | _ => 0 end) q1 with
      | Read n k, Some m, _, _ => Some (mk_config (k (take m q2)) s q1 (drop m q2))
      | _, _, Read n k, Some m => Some (mk_config p (k (take m q1)) (drop m q1) q2)
      | _, _, _, _ => None
      end
  end.
Fixpoint run (fuel : nat) (c : config) : config :=
  match fuel with O => c | S fuel => match step1 c with Some c' => run fuel c' | None => c end end.

Lemma takes_ok n q m : takes n q = Some m -> chunk_ok n (take m q).
Proof.
  unfold takes. set (m0 := Z.min (Z.min n lim) (zlen q)). destruct (Z.ltb_spec 0 m0) as [H0|]; [|done]. cbn [andb]. destruct ((small <? n) || (m0 =? n)) eqn:E; [|done]. intros [= <-].
  assert (zlen (take (Z.to_nat m0) q) = m0) as Hz by (unfold zlen in *; rewrite length_take; lia). split; [lia|]. intros Hs.
  apply orb_true_iff in E as [E|E]; [apply Z.ltb_lt in E; lia|apply Z.eqb_eq in E; lia].
Qed.
Lemma step1_step c c' : step1 c = Some c' -> step c c'.
Proof.
  destruct c as [[r|n k|b k|f] [r'|n' k'|b' k'|f'] q1 q2]; cbn [step1]; try done; try (intros [= <-]; constructor);
    try (destruct (takes n q2) as [m|] eqn:E; [intros [= <-]; rewrite <- (take_drop m q2) at 1; constructor; by apply takes_ok|]);
    try (destruct (takes n' q1) as [m'|] eqn:E'; [|by destruct (takes 0 q2)]; destruct (takes 0 q2); intros [= <-]; rewrite <- (take_drop m' q1) at 1; constructor; by apply takes_ok);
    try (destruct (takes n' q1) as [m'|] eqn:E'; [|done]; intros [= <-]; rewrite <- (take_drop m' q1) at 1; constructor; by apply takes_ok);
    try done.
  all: destruct (takes 0 q2), (takes 0 q1); done.
Qed.
Lemma prun_steps fuel : forall c, rtc step c (run fuel c).
Proof.
  induction fuel as [|fuel IH]; intros c; cbn [run]; [constructor|]. destruct (step1 c) as [c'|] eqn:E; [|constructor]. eapply rtc_l; [by apply step1_step|apply IH].
Qed.
(** Both ends wait for bytes that never come. *)
Definition hangs (c : @config A B) : Prop := (exists n k n' k', c = mk_config (Read n k) (Read n' k') [] []) /\ forall c', ~ step c c'.
Lemma hangs_intro n k n' k' : hangs (mk_config (Read n k) (Read n' k') [] []).
Proof.
  split; [by exists n, k, n', k'|]. intros c' H. inversion H as [| | ? ? ? ? x ? Hx E|? ? ? x ? ? Hx E| |]; subst.
  - match goal with E : _ ++ _ = [] |- _ => apply app_eq_nil in E as [-> _] end. by apply chunk_ne in Hx.
  - match goal with E : _ ++ _ = [] |- _ => apply app_eq_nil in E as [-> _] end. by apply chunk_ne in Hx.
Qed.
Definition both_wait (c : @config A B) : bool :=
  match c with mk_config (Read _ _) (Read _ _) [] [] => true | _ => false end.
Lemma both_wait_hangs c : both_wait c = true -> hangs c.
Proof. destruct c as [[] [] [] []]; try discriminate. intros _. apply hangs_intro. Qed.
End run.

(** ** Programs that read a given number of bytes *)
Lemma pbind_assoc {A B C} (p : proc A) (f : A -> proc B) (g : B -> proc C) : (p ≫= f) ≫= g = p ≫= (fun x => f x ≫= g).
Proof.
  induction p as [r|n k IH|b k IH|e]; [done| |cbn; f_equal; exact IH|done]. cbn. f_equal. apply functional_extensionality. intros x. apply IH.
Qed.

Lemma bind_Done {A B} (a : A) (k : A -> proc B) : Done a ≫= k = k a.
Proof. done. Qed.
Lemma bind_lift {A B} (x : outcome A) a (k : A -> proc B) : x = Ret a -> lift x ≫= k = k a.
Proof. by intros ->. Qed.

(** [write (fd, b, len)] *)
Lemma conf_write_bind {R} me b (k : unit -> proc R) L r : conf me (k tt) L r -> conf me (write b ≫= k) (tag me b ++ L) r.
Proof. cbn. apply conf_write. Qed.

(** A [read] of at most [small] bytes. *)
Lemma conf_read_small {R} me n x (k : list Z -> proc R) L r : zlen x = n -> 0 < n <= small -> conf me (k x) L r -> conf me (read n ≫= k) (tag (negb me) x ++ L) r.
Proof.
  intros Hx Hn Hk. constructor; [exists x, L; split; [done|]; split; [lia|done]|]. intros y L' E [Hy Hs]. specialize (Hs (proj2 Hn)).
  assert (y = x /\ L' = L) as [-> ->]; [|done]. destruct (tag_prefix _ _ _ _ _ E) as [(e & -> & ->)|(e & -> & ->)]; rewrite zlen_app in *; assert (e = []) as ->
    by (apply nil_length_inv; unfold zlen in *; lia); by rewrite ?app_nil_r.
Qed.

(** [while (explen > 0) { if ((len = read (fd, &buffer[rdlen], explen)) <= 0) break; explen -= len; rdlen += len; }]:
    [got] are the bytes in the buffer; the result is [None] when the loop is left early. *)
Fixpoint read_loop (fuel : nat) (explen : Z) (got : list Z) : proc (option (list Z)) :=
  if explen <=? 0 then Done (Some got)
  else
    match fuel with
    | O => Crash OutOfFuel
    | S fuel => x ← read explen; match x with [] => Done None | _ => read_loop fuel (explen - zlen x) (got ++ x) end
    end.
Definition read_exactly (n : Z) : proc (option (list Z)) := read_loop (Z.to_nat n) n [].

Lemma conf_read_loop {R} me fuel : forall n x got (k : option (list Z) -> proc R) L r, zlen x = n -> n <= Z.of_nat fuel ->
  conf me (k (Some (got ++ x))) L r -> conf me (read_loop fuel n got ≫= k) (tag (negb me) x ++ L) r.
Proof.
  induction fuel as [|fuel IH]; intros n x got k L r Hx Hf Hk; cbn [read_loop]; pose proof (zlen_nonneg x); destruct (Z.leb_spec n 0) as [Hn|Hn]; try lia;
    try (assert (x = []) as -> by (apply nil_length_inv; unfold zlen in *; lia); rewrite app_nil_r in Hk; exact Hk).
  rewrite pbind_assoc. constructor; [exists x, L; split; [done|]; split; [lia|done]|]. intros y L' E Hy. pose proof (chunk_ne _ _ Hy) as Hne.
  destruct (tag_prefix _ _ _ _ _ E) as [(e & -> & ->)|(e & -> & ->)].
  - rewrite zlen_app in *. destruct y as [|y0 y]; [done|]. apply (IH (n - zlen (y0 :: y))); [lia|rewrite zlen_cons in *; pose proof (zlen_nonneg y); lia|by rewrite <- app_assoc].
  - destruct Hy as [[_ Hy] _]. rewrite zlen_app in Hy. assert (e = []) as -> by (apply nil_length_inv; unfold zlen in *; lia). cbn [tag fmap list_fmap app].
    rewrite app_nil_r in *. destruct x as [|x0 x]; [done|]. replace (n - zlen (x0 :: x)) with 0 by lia. destruct fuel; exact Hk.
Qed.
Lemma conf_read_exactly {R} me n x (k : option (list Z) -> proc R) L r : zlen x = n -> conf me (k (Some x)) L r ->
  conf me (read_exactly n ≫= k) (tag (negb me) x ++ L) r.
Proof. intros Hx Hk. apply conf_read_loop; [done|pose proof (zlen_nonneg x); lia|done]. Qed.
End network.
Arguments chunk_ok : clear implicits.
Arguments step small {A B} _ _.
Arguments ends small {A B} _ _ _.
Arguments conf small {R} _ _ _ _.
Arguments hangs small {A B} _.
Arguments run small {A B} _ _ _.
End SES.
