(* ===== verification/MiniFx.v ===== *)
(** * MiniFx.v: the mini file exchange, mini_filexchg/mini_filexchg.c

    A server process per connection and its clients: [mfc_ftpget] fetches a file,
    [mfc_ftpput] stores one, [mfc_gettimeofday] asks for the time; the receiver of the data
    sends or checks its MD5 sum.  Each is a [proc] of [Session.v] over the connected socket.
    [write] on the socket writes all it is given; files are what they contain: the results
    of the successive [read]s of a local file are a list of pieces.

    The functions keep their [buffer] of 1280 bytes; an integer in it is read through
    [int *intptr = buffer].  What the memory contains at first is a parameter ([junk]). *)

From stdpp Require Import relations.
From S2P Require Import Prelude Posix Wire Cstr Md5 Session.
Import CS SES.

Module FX.

Definition BEST_BUFFER_SIZE : Z := 1280.
Definition MD5_LENGTH : Z := 16.

(** A [char *]: NULL, a string, or one whose memory was freed. *)
Inductive dirptr := NoDir | Dir (d : list Z) | Freed.

(** [struct mini_filexchg_pd_t] without the socket library. *)
Record mfx := mk_mfx {
  exportdir : dirptr;
  uploaddir : dirptr;
  request : option (list Z);
  response : option (list Z);
}.

(** The system: what a file that is opened for reading returns piece by piece; whether
    [fstat] works on it; the error of creating a file, 0 for none; the bytes of the time of
    day; and whether memory for the digest is there, and what it contains. *)
Record env := mk_env {
  e_open : list Z -> option (list (list Z));
  e_fstat : list Z -> bool;
  e_creat : list Z -> Z;
  e_time : option (list Z * list Z);
  e_md5 : option MD.sum;
}.

(** What became of a request: the file it created and its contents, and the verdict. *)
Record result := mk_result { r_file : option (list Z * list Z); r_ok : bool }.
Definition failed : result := mk_result None false.

(** [len = read (fd, buffer, sizeof (int))]: [None] for 0 or less. *)
Definition read_int (buf : list Z) : proc (option (Z * list Z)) :=
  x ← read 4;
  match x with
  | [] => Done None
  | _ => buf ← lift (blit buf 0 x); Done (Some (zlen x, buf))
  end.
(** [*intptr = v; write (fd, buffer, sizeof (int));] *)
Definition write_int (v : Z) (buf : list Z) : proc (list Z) := let buf := put32 buf 0 v in write (take 4 buf);; Done buf.

(** [strstr (buffer, "..") != NULL] *)
Fixpoint dotdot (s : list Z) : bool :=
  match s with
  | c :: s' => ((c =? 46) && match s' with d :: _ => d =? 46 | [] => false end) || dotdot s'
  | [] => false
  end.
(** [sprintf (filename, "%s/%s", dir, buffer)] *)
Definition in_dir (dir name : list Z) : list Z := dir ++ 47 :: name.

(** The name of the file, at the start of both transfers; [None] when the server gives up. *)
Definition get_name (buf : list Z) : proc (option (list Z * list Z)) :=
  r ← read_int buf;
  match r with
  | None => Done None
  | Some (_, buf) =>
      let filename_len := i32_at buf 0 in
      if 1000 <? filename_len then Done None
      else
        d ← read_exactly filename_len;
        match d with
        | None => Done None
        | Some d =>
            buf ← lift (blit buf 0 d);
            buf ← lift (aset buf filename_len 0);
            if dotdot (cstring buf) then write_int (-1) buf;; Done None
            else Done (Some (cstring buf, buf))
        end
  end.

(** [while ((len = read (ffd, buffer, sizeof buffer)) > 0) { md5->process; write it to the socket }] *)
Fixpoint send_file (pieces : list (list Z)) (md5 : MD.sum) (total : Z) (buf : list Z) : proc (MD.sum * Z * list Z) :=
  match pieces with
  | [] => Done (md5, total, buf)
  | p :: pieces =>
      buf ← lift (blit buf 0 p);
      md5 ← lift (MD.md5sum_process_bytes md5 p);
      write p;;
      send_file pieces md5 (total - zlen p) buf
  end.

Definition same_sum (a b : list Z) : bool := bool_decide (take 16 a = take 16 b).

Definition for_download (self : mfx) (E : env) (junk : list Z) : proc result :=
  match e_md5 E with
  | None => Done failed
  | Some m =>
      let md5 := MD.new_md5sum m in
      n ← get_name junk;
      match n with
      | None => Done failed
      | Some (name, buf) =>
          filename ← match exportdir self with NoDir => Done name | Dir dir => Done (in_dir dir name) | Freed => Crash UseAfterFree end;
          match e_open E filename with
          | None => write_int (-1) buf;; Done failed
          | Some pieces =>
              if negb (e_fstat E filename) then write_int (-1) buf;; Done failed
              else
                let st_size := zlen (mjoin pieces) in
                buf ← write_int st_size buf;
                if st_size <=? 0 then Done failed
                else
                  r ← send_file pieces md5 (i32_at buf 0) buf;
                  let '(md5, total_len, buf) := r in
                  if negb (total_len =? 0) then Done failed
                  else
                    d ← read_exactly MD5_LENGTH;
                    match d with
                    | None => Done failed
                    | Some d =>
                        buf ← lift (blit buf 0 d);
                        md5 ← lift (MD.md5sum_finish md5);
                        let ok := same_sum (MD.s_md md5) buf in
                        write_int (b2z ok) buf;;
                        Done (mk_result None ok)
                    end
          end
      end
  end.

(** [while (total_len > 0)]: receive, digest and write to the file; [file] is what it contains. *)
Fixpoint recv_file (fuel : nat) (md5 : MD.sum) (total : Z) (buf file : list Z) : proc (MD.sum * Z * list Z * list Z) :=
  if total <=? 0 then Done (md5, total, buf, file)
  else
    match fuel with
    | O => Crash OutOfFuel
    | S fuel =>
        x ← read (if BEST_BUFFER_SIZE <? total then BEST_BUFFER_SIZE else total);
        match x with
        | [] => Done (md5, total, buf, file)
        | _ =>
            buf ← lift (blit buf 0 x);
            md5 ← lift (MD.md5sum_process_bytes md5 x);
            recv_file fuel md5 (total - zlen x) buf (file ++ x)
        end
    end.

(** [fjunk]: the uninitialised [filesize]. *)
Definition for_upload (self : mfx) (E : env) (junk fjunk : list Z) : proc result :=
  match e_md5 E with
  | None => Done failed
  | Some m =>
      let md5 := MD.new_md5sum m in
      n ← get_name junk;
      match n with
      | None => Done failed
      | Some (name, buf) =>
          match uploaddir self with
          | NoDir => Done failed
          | Freed => Crash UseAfterFree
          | Dir dir =>
              let filename := in_dir dir name in
              if negb (e_creat E filename =? 0) then write_int (e_creat E filename) buf;; Done failed
              else
                buf ← write_int 0 buf;
                x ← read 4;
                fsz ← lift (blit fjunk 0 x);
                let filesize := i32_at fsz 0 in
                if filesize <=? 0 then Done (mk_result (Some (filename, [])) false)
                else
                  r ← recv_file (Z.to_nat filesize) md5 filesize buf [];
                  let '(md5, total_len, buf, file) := r in
                  if negb (total_len =? 0) then Done (mk_result (Some (filename, file)) false)
                  else
                    md5 ← lift (MD.md5sum_finish md5);
                    write (MD.s_md md5);;
                    x ← read 4;
                    buf ← lift (blit buf 0 x);
                    Done (mk_result (Some (filename, file)) (i32_at buf 0 =? 1))
          end
      end
  end.

Definition for_gettimeofday (E : env) : proc result :=
  match e_md5 E with
  | None => Done failed
  | Some m =>
      let md5 := MD.new_md5sum m in
      match e_time E with
      | None => Done failed
      | Some (tv, tz) =>
          write tv;;
          write tz;;
          md5 ← lift (MD.md5sum_process_bytes md5 tv);
          md5 ← lift (MD.md5sum_process_bytes md5 tz);
          md5 ← lift (MD.md5sum_finish md5);
          write (MD.s_md md5);;
          Done (mk_result None true)
      end
  end.

(** [sjunk]: the uninitialised [sel]. *)
Definition fchg_server (self : mfx) (E : env) (junk fjunk sjunk : list Z) : proc result :=
  ok ← match request self with
       | None => Done true
       | Some q => d ← read_exactly (zlen q); Done (bool_decide (d = Some q))
       end;
  if negb (ok : bool) then Done failed
  else
    match response self with None => Done tt | Some a => write a end;;
    x ← read 4;
    match x with
    | [] => Done failed
    | _ =>
        s ← lift (blit sjunk 0 x);
        let sel := i32_at s 0 in
        if sel =? 0 then for_download self E junk
        else if sel =? 1 then
          let sel := match uploaddir self with NoDir => 0 | _ => 1 end in
          write (le32 sel);;
          if sel =? 0 then Done failed else for_upload self E junk fjunk
        else if sel =? 2 then for_gettimeofday E
        else Done failed
    end.

(** ** The clients.  [conn]: [tcp->connect] gives a socket. *)

(** The greeting: the request is sent and the response compared; [None] to give up.  With
    the buffer comes the last value of [len], which was [len] before. *)
Fixpoint read_loop_len (fuel : nat) (explen len : Z) (got : list Z) : proc (option (list Z * Z)) :=
  if explen <=? 0 then Done (Some (got, len))
  else
    match fuel with
    | O => Crash OutOfFuel
    | S fuel => x ← read explen; match x with [] => Done None | _ => read_loop_len fuel (explen - zlen x) (zlen x) (got ++ x) end
    end.
Definition greet (self : mfx) (len : Z) (buf : list Z) : proc (option (list Z * Z)) :=
  match request self with None => Done tt | Some q => write q end;;
  match response self with
  | None => Done (Some (buf, len))
  | Some a =>
      d ← read_loop_len (length a) (zlen a) len [];
      match d with
      | None => Done None
      | Some (d, len) =>
          buf ← lift (blit buf 0 d);
          Done (if decide (take (length a) buf = a) then Some (buf, len) else None)
      end
  end.

(** [while (filelen > 0)] of [mfc_ftpget]: whole buffers are read. *)
Fixpoint fetch_loop (fuel : nat) (md5 : MD.sum) (filelen : Z) (buf file : list Z) : proc (MD.sum * Z * list Z * list Z) :=
  if filelen <=? 0 then Done (md5, filelen, buf, file)
  else
    match fuel with
    | O => Crash OutOfFuel
    | S fuel =>
        x ← read BEST_BUFFER_SIZE;
        match x with
        | [] => Done (md5, filelen, buf, file)
        | _ =>
            buf ← lift (blit buf 0 x);
            md5 ← lift (MD.md5sum_process_bytes md5 x);
            fetch_loop fuel md5 (filelen - zlen x) buf (file ++ x)
        end
    end.

(** The value is what [lcfile] contains afterwards and whether 1 is returned. *)
Definition mfc_ftpget (self : mfx) (E : env) (conn : bool) (rmfile : option (list Z)) (lcfile : list Z) (junk : list Z) : proc result :=
  match rmfile with
  | None => Done failed
  | Some rmfile =>
      let fnlen := to_int (zlen rmfile) in
      if fnlen =? 0 then Done failed
      else if negb (e_creat E lcfile =? 0) then Done failed
      else if negb conn then Done (mk_result (Some (lcfile, [])) false)
      else
        let fail file := Done (mk_result (Some (lcfile, file)) false) in
        g ← greet self 0 junk;
        match g with
        | None => fail []
        | Some (buf, _) =>
            buf ← write_int 0 buf;
            write (le32 fnlen);;
            write rmfile;;
            r ← read_int buf;
            match r with
            | None => fail []
            | Some (_, buf) =>
                let filelen := i32_at buf 0 in
                if filelen <=? 0 then fail []
                else
                  match e_md5 E with
                  | None => fail []
                  | Some m =>
                      r ← fetch_loop (Z.to_nat filelen) (MD.new_md5sum m) filelen buf [];
                      let '(md5, filelen, buf, file) := r in
                      if 0 <? filelen then fail file
                      else
                        md5 ← lift (MD.md5sum_finish md5);
                        write (MD.s_md md5);;
                        r ← read_int buf;
                        match r with
                        | None => fail file
                        | Some (_, buf) => Done (mk_result (Some (lcfile, file)) (i32_at buf 0 =? 1))
                        end
                  end
            end
        end
  end.

(** [while ((len = read (lfd, buffer, sizeof buffer)) > 0)] of [mfc_ftpput] is [send_file]. *)
Definition mfc_ftpput (self : mfx) (E : env) (conn : bool) (rmfile : option (list Z)) (lcfile : list Z) (junk : list Z) : proc result :=
  match rmfile with
  | None => Done failed
  | Some rmfile =>
      let len := to_int (zlen rmfile) in
      if len =? 0 then Done failed
      else
        match e_open E lcfile with
        | None => Done failed
        | Some pieces =>
            if negb (e_fstat E lcfile) || (zlen (mjoin pieces) <=? 0) || negb conn then Done failed
            else
              g ← greet self len junk;
              match g with
              | None => Done failed
              | Some (buf, _) =>
                  buf ← write_int 1 buf;
                  r ← read_int buf;
                  match r with
                  | None => Done failed
                  | Some (len, buf) =>
                      if i32_at buf 0 =? 0 then Done failed
                      else
                        buf ← write_int len buf;
                        write rmfile;;
                        r ← read_int buf;
                        match r with
                        | None => Done failed
                        | Some (_, buf) =>
                            if negb (i32_at buf 0 =? 0) then Done failed
                            else
                              buf ← write_int (zlen (mjoin pieces)) buf;
                              match e_md5 E with
                              | None => Done failed
                              | Some m =>
                                  r ← send_file pieces (MD.new_md5sum m) 0 buf;
                                  let '(md5, _, buf) := r in
                                  x ← read MD5_LENGTH;
                                  buf ← lift (blit buf 0 x);
                                  md5 ← lift (MD.md5sum_finish md5);
                                  let ok := same_sum (MD.s_md md5) buf in
                                  write_int (b2z ok) buf;;
                                  Done (mk_result None ok)
                              end
                        end
                  end
              end
        end
  end.

(** [sz_tv], [sz_tz]: the sizes of the structures; the value is their contents. *)
Definition mfc_gettimeofday (self : mfx) (E : env) (conn : bool) (sz_tv sz_tz : Z) (junk : list Z) : proc (option (list Z * list Z * bool)) :=
  match e_md5 E with
  | None => Done None
  | Some m =>
      let md5 := MD.new_md5sum m in
      if negb conn then Done None
      else
        g ← greet self 0 junk;
        match g with
        | None => Done None
        | Some (buf, _) =>
            buf ← write_int 2 buf;
            d ← read_exactly (sz_tv + sz_tz + MD5_LENGTH);
            match d with
            | None => Done None
            | Some d =>
                buf ← lift (blit buf 0 d);
                let tv := slice buf 0 sz_tv in
                let tz := slice buf sz_tv sz_tz in
                md5 ← lift (MD.md5sum_process_bytes md5 tv);
                md5 ← lift (MD.md5sum_process_bytes md5 tz);
                md5 ← lift (MD.md5sum_finish md5);
                Done (Some (tv, tz, bool_decide (slice buf (sz_tv + sz_tz) MD5_LENGTH = take 16 (MD.s_md md5))))
            end
        end
  end.

(** [settimeofday]: [set_ok] is whether it succeeds. *)
Definition mfc_rdate (self : mfx) (E : env) (conn set_ok : bool) (sz_tv sz_tz : Z) (junk : list Z) : proc Z :=
  r ← mfc_gettimeofday self E conn sz_tv sz_tz junk;
  match r with
  | Some (_, _, true) => Done (b2z set_ok)
  | _ => Done 0
  end.

(** The settings; [strdup] is taken to succeed.  [mfc_uploads] and [mfc_exports] leave the
    freed pointer in place when the new path is NULL. *)
Definition set_dir (path : option (list Z)) (d : dirptr) : outcome dirptr :=
  match d, path with
  | Freed, _ => Fault UseAfterFree
  | _, Some p => Ret (Dir p)
  | NoDir, None => Ret NoDir
  | Dir _, None => Ret Freed
  end.
Definition mfc_uploads (path : option (list Z)) (self : mfx) : outcome mfx :=
  let* d := set_dir path (uploaddir self) in Ret (mk_mfx (exportdir self) d (request self) (response self)).
Definition mfc_exports (path : option (list Z)) (self : mfx) : outcome mfx :=
  let* d := set_dir path (exportdir self) in Ret (mk_mfx d (uploaddir self) (request self) (response self)).
Definition mfc_set_request (r : option (list Z)) (self : mfx) : mfx := mk_mfx (exportdir self) (uploaddir self) r (response self).
Definition mfc_set_response (r : option (list Z)) (self : mfx) : mfx := mk_mfx (exportdir self) (uploaddir self) (request self) r.
(** [uploaddir] is not freed. *)
Definition mfc_dispose (self : mfx) : outcome unit :=
  match exportdir self with Freed => Fault UseAfterFree | _ => Ret tt end.
Definition new_mini_filexchg : mfx := mk_mfx NoDir NoDir None None.

(** ** Building blocks *)

(** The networks that do not split an integer (and may split a buffer). *)
Class Whole (small : Z) := whole_int : 4 <= small < BEST_BUFFER_SIZE.
#[export] Instance whole_4 : Whole 4.
Proof. by vm_compute. Qed.
#[export] Instance whole_16 : Whole 16.
Proof. by vm_compute. Qed.

Section blocks.
Context {R : Type} {small : Z} {Hsmall : Whole small} (me : bool).
Implicit Types (k : list Z -> proc R) (L : list (bool * Z)) (r : R).

Definition sz (buf : list Z) : Prop := zlen buf = BEST_BUFFER_SIZE.
Lemma sz_put buf v : sz buf -> sz (put32 buf 0 v).
Proof. unfold sz, BEST_BUFFER_SIZE. intros H. rewrite zlen_put32; lia. Qed.
Lemma sz_blit buf d : sz buf -> zlen d <= BEST_BUFFER_SIZE -> exists buf', blit buf 0 d = Ret buf' /\ sz buf' /\ exists t, buf' = d ++ t.
Proof.
  unfold sz. intros H Hd. unfold blit. rewrite (proj2 (Z.leb_le 0 0)), (proj2 (Z.leb_le (0 + zlen d) (zlen buf))) by lia. cbn [andb]. eexists. split; [reflexivity|].
  cbn [Z.to_nat take app]. split; [|by eexists]. unfold zlen in *. rewrite ?length_app, ?length_take, ?length_drop. lia.
Qed.
Lemma i32_le32 v t : int_ok v -> i32_at (le32 v ++ t) 0 = v.
Proof.
  intros Hv. unfold i32_at, slice. change (Z.to_nat 0) with 0%nat. change (Z.to_nat 4) with (length (le32 v)). rewrite drop_0, take_app_length. rewrite le_val_le32, to_int_u32. by apply to_int_id.
Qed.
Lemma put32_head buf v : 4 <= zlen buf -> take 4 (put32 buf 0 v) = le32 v.
Proof. intros H. pose proof (slice_patch_eq buf 0 (le32 v) 4). unfold put32. unfold slice in *. cbn in *. apply H0; [lia|rewrite zlen_le32; lia|by rewrite zlen_le32]. Qed.

Lemma conf_read_int buf v (k : option (Z * list Z) -> proc R) L r : sz buf -> int_ok v ->
  (forall buf', sz buf' -> i32_at buf' 0 = v -> conf small me (k (Some (4, buf'))) L r) -> conf small me (read_int buf ≫= k) (tag (negb me) (le32 v) ++ L) r.
Proof.
  intros Hb Hv Hk. unfold read_int. rewrite pbind_assoc. pose proof whole_int. apply conf_read_small; [apply zlen_le32|lia|].
  destruct (sz_blit buf (le32 v) Hb) as (buf' & E & Hb' & t & ->); [by vm_compute|]. 
  change (conf small me ((b ← lift (blit buf 0 (le32 v)); Done (Some (4, b))) ≫= k) L r). rewrite E. apply Hk; [done|by apply i32_le32].
Qed.
Lemma conf_write_int buf v k L r : sz buf -> conf small me (k (put32 buf 0 v)) L r -> conf small me (write_int v buf ≫= k) (tag me (le32 v) ++ L) r.
Proof.
  intros Hb Hk. unfold write_int. rewrite pbind_assoc, put32_head by (unfold sz, BEST_BUFFER_SIZE in Hb; lia). by apply conf_write_bind.
Qed.

Lemma conf_get_name buf name (k : option (list Z * list Z) -> proc R) L r : sz buf -> nonul name -> zlen name <= 1000 -> dotdot name = false ->
  (forall buf', sz buf' -> conf small me (k (Some (name, buf'))) L r) -> conf small me (get_name buf ≫= k) (tag (negb me) (le32 (zlen name)) ++ tag (negb me) name ++ L) r.
Proof.
  intros Hb Hn Hl Hd Hk. pose proof (zlen_nonneg name). unfold get_name. rewrite pbind_assoc. apply conf_read_int; [done|int_lia|]. intros b1 Hb1 E1. cbn [i32_at]. rewrite E1.
  rewrite (proj2 (Z.ltb_ge 1000 (zlen name))) by lia. rewrite pbind_assoc. apply conf_read_exactly; [done|].
  destruct (sz_blit b1 name Hb1) as (b2 & E2 & Hb2 & t & ->); [unfold BEST_BUFFER_SIZE; lia|]. rewrite pbind_assoc, (bind_lift _ _ _ E2).
  unfold sz, BEST_BUFFER_SIZE in Hb2. rewrite zlen_app in Hb2. destruct t as [|c t]; [change (zlen (@nil Z)) with 0 in Hb2; lia|]. rewrite pbind_assoc, (bind_lift _ _ _ (aset_mid name c t 0)).
  assert (cstring (name ++ 0 :: t) = name) as -> by (by apply cstring_cstr_app). rewrite Hd. apply Hk. unfold sz, BEST_BUFFER_SIZE. rewrite zlen_app, zlen_cons in *. lia.
Qed.

Lemma conf_bad_name buf name (k : option (list Z * list Z) -> proc R) L r : sz buf -> nonul name -> zlen name <= 1000 -> dotdot name = true ->
  conf small me (k None) L r -> conf small me (get_name buf ≫= k) (tag (negb me) (le32 (zlen name)) ++ tag (negb me) name ++ tag me (le32 (-1)) ++ L) r.
Proof.
  intros Hb Hn Hl Hd Hk. pose proof (zlen_nonneg name). unfold get_name. rewrite pbind_assoc. apply conf_read_int; [done|int_lia|]. intros b1 Hb1 E1. rewrite E1.
  rewrite (proj2 (Z.ltb_ge 1000 (zlen name))) by lia. rewrite pbind_assoc. apply conf_read_exactly; [done|].
  destruct (sz_blit b1 name Hb1) as (b2 & E2 & Hb2 & t & ->); [unfold BEST_BUFFER_SIZE; lia|]. rewrite pbind_assoc, (bind_lift _ _ _ E2).
  unfold sz, BEST_BUFFER_SIZE in Hb2. rewrite zlen_app in Hb2. destruct t as [|c t]; [change (zlen (@nil Z)) with 0 in Hb2; lia|]. rewrite pbind_assoc, (bind_lift _ _ _ (aset_mid name c t 0)).
  assert (cstring (name ++ 0 :: t) = name) as -> by (by apply cstring_cstr_app). rewrite Hd, pbind_assoc. apply conf_write_int; [|exact Hk].
  unfold sz, BEST_BUFFER_SIZE. rewrite zlen_app, zlen_cons in *. lia.
Qed.
Lemma blit_int junk v : zlen junk = 4 -> blit junk 0 (le32 v) = Ret (le32 v).
Proof.
  intros Hj. unfold blit. rewrite zlen_le32, Hj. cbn [andb Z.leb Z.add Z.compare]. change (Z.to_nat 0) with 0%nat. rewrite take_0, drop_ge by (unfold zlen in Hj; lia). by rewrite app_nil_r.
Qed.

(** The digest object has taken [msg]. *)
Definition sums (md5 : MD.sum) (msg : list Z) : Prop := MD.rep (MD.s_ctx md5) msg.
Lemma sums_new m : zlen (MD.buffer (MD.s_ctx m)) = 128 -> sums (MD.new_md5sum m) [].
Proof. apply MD.rep_init. Qed.
Lemma sums_process md5 msg d : sums md5 msg -> zlen d <= BEST_BUFFER_SIZE -> exists md5', MD.md5sum_process_bytes md5 d = Ret md5' /\ sums md5' (msg ++ d).
Proof.
  intros H Hd. unfold MD.md5sum_process_bytes. destruct (MD.md5_process_bytes_run _ _ d H) as (c & -> & Hc); [unfold BEST_BUFFER_SIZE in Hd; lia|]. by eexists.
Qed.
Lemma sums_finish md5 msg : sums md5 msg -> exists md5', MD.md5sum_finish md5 = Ret md5' /\ MD.s_md md5' = MD.digest msg.
Proof. intros H. unfold MD.md5sum_finish. destruct (MD.md5_finish_run _ _ H) as (c & ->). by eexists. Qed.
Lemma sums_two m a b : zlen (MD.buffer (MD.s_ctx m)) = 128 -> zlen a + zlen b <= 1000 ->
  exists m1 m2 m3, MD.md5sum_process_bytes (MD.new_md5sum m) a = Ret m1 /\ MD.md5sum_process_bytes m1 b = Ret m2 /\ MD.md5sum_finish m2 = Ret m3 /\ MD.s_md m3 = MD.digest (a ++ b).
Proof.
  intros Hm Hl. pose proof (zlen_nonneg a). pose proof (zlen_nonneg b). destruct (sums_process _ [] a (sums_new m Hm)) as (m1 & E1 & H1); [unfold BEST_BUFFER_SIZE; lia|].
  destruct (sums_process _ _ b H1) as (m2 & E2 & H2); [unfold BEST_BUFFER_SIZE; lia|]. destruct (sums_finish _ _ H2) as (m3 & E3 & H3). by exists m1, m2, m3.
Qed.
Lemma slice_head (a t : list Z) : slice (a ++ t) 0 (zlen a) = a.
Proof. unfold slice, zlen. change (Z.to_nat 0) with 0%nat. by rewrite Nat2Z.id, drop_0, take_app_length. Qed.
Lemma slice_mid (a b t : list Z) n : zlen b = n -> slice (a ++ b ++ t) (zlen a) n = b.
Proof. intros <-. unfold slice, zlen. by rewrite !Nat2Z.id, drop_app_length, take_app_length. Qed.
Lemma same_sum_digest msg t : same_sum (MD.digest msg) (MD.digest msg ++ t) = true.
Proof.
  pose proof (MD.digest_length msg) as H. apply bool_decide_eq_true. unfold zlen in H. rewrite (take_ge (MD.digest msg)) by lia. by rewrite take_app_length' by lia.
Qed.

Lemma tag_split d n data M : tag d data ++ M = tag d (take n data) ++ tag d (drop n data) ++ M.
Proof. by rewrite app_assoc, <- (tag_app d (take n data)), take_drop. Qed.

Lemma conf_send_file pieces : forall md5 msg total buf (k : MD.sum * Z * list Z -> proc R) L r, sums md5 msg -> sz buf -> Forall (fun p => zlen p <= BEST_BUFFER_SIZE) pieces ->
  (forall md5' buf', sums md5' (msg ++ mjoin pieces) -> sz buf' -> conf small me (k (md5', total - zlen (mjoin pieces), buf')) L r) ->
  conf small me (send_file pieces md5 total buf ≫= k) (tag me (mjoin pieces) ++ L) r.
Proof.
  induction pieces as [|p pieces IH]; intros md5 msg total buf k L r Hm Hb Hp Hk; cbn [send_file mjoin list_join].
  - rewrite bind_Done. cbn [tag fmap list_fmap app] in *. specialize (Hk md5 buf). cbn [mjoin list_join] in Hk. rewrite app_nil_r in Hk. change (zlen (@nil Z)) with 0 in Hk. rewrite Z.sub_0_r in Hk. by apply Hk.
  - apply Forall_cons in Hp as [Hp1 Hp]. destruct (sz_blit buf p Hb Hp1) as (b1 & E1 & Hb1 & _). rewrite pbind_assoc, (bind_lift _ _ _ E1).
    destruct (sums_process md5 msg p Hm Hp1) as (m1 & E2 & Hm1). rewrite pbind_assoc, (bind_lift _ _ _ E2), pbind_assoc.
    rewrite tag_app, <- app_assoc. apply conf_write_bind. apply (IH m1 (msg ++ p)); [done|done|done|]. intros md5' buf' H1 H2. rewrite <- Z.sub_add_distr, <- zlen_app.
    rewrite <- app_assoc in H1. by apply Hk.
Qed.

(** Receiving with reads of a whole buffer: nothing else may follow before this side writes. *)
Lemma conf_fetch_loop fuel : forall md5 msg data buf file (k : MD.sum * Z * list Z * list Z -> proc R) x L r, sums md5 msg -> sz buf -> x <> [] -> zlen data <= Z.of_nat fuel ->
  (forall md5' buf', sums md5' (msg ++ data) -> sz buf' -> conf small me (k (md5', 0, buf', file ++ data)) (tag me x ++ L) r) ->
  conf small me (fetch_loop fuel md5 (zlen data) buf file ≫= k) (tag (negb me) data ++ tag me x ++ L) r.
Proof.
  induction fuel as [|fuel IH]; intros md5 msg data buf file k x L r Hm Hb Hx Hf Hk; cbn [fetch_loop]; pose proof (zlen_nonneg data);
    destruct (Z.leb_spec (zlen data) 0) as [Hn|Hn]; try lia;
    try (assert (data = []) as -> by (apply nil_length_inv; unfold zlen in *; lia); rewrite !app_nil_r in Hk; by apply Hk).
  rewrite pbind_assoc. constructor.
  { exists (take 1280 data), (tag (negb me) (drop 1280 data) ++ tag me x ++ L). split; [by rewrite <- tag_split|].
    split; [unfold zlen, BEST_BUFFER_SIZE in *; rewrite length_take; lia|pose proof (whole_int (small := small)); lia]. }
  intros y L' E Hy. pose proof (chunk_ne _ _ Hy) as Hne. destruct Hy as [Hy _].
  assert (exists e, data = y ++ e /\ L' = tag (negb me) e ++ tag me x ++ L) as (e & -> & ->).
  { destruct (tag_prefix _ _ _ _ _ E) as [H'|(e & -> & E')]; [done|]. destruct (tag_clash _ _ _ _ _ E') as [->| ->]; [done|].
    exists []. rewrite !app_nil_r. cbn in E'. by rewrite <- E'. }
  destruct (sz_blit buf y Hb) as (b1 & E1 & Hb1 & _); [lia|]. destruct (sums_process md5 msg y Hm) as (m1 & E2 & Hm1); [lia|].
  destruct y as [|y0 y]; [done|]. cbn [proc_bind_]. rewrite pbind_assoc, (bind_lift _ _ _ E1), pbind_assoc, (bind_lift _ _ _ E2). rewrite zlen_app.
  replace (zlen (y0 :: y) + zlen e - zlen (y0 :: y)) with (zlen e) by lia. apply (IH m1 (msg ++ y0 :: y)); [done|done|done|rewrite zlen_app, zlen_cons in Hf; pose proof (zlen_nonneg y); lia|].
  intros md5' buf' H1 H2. rewrite <- app_assoc in H1 |- *. by apply Hk.
Qed.

(** Receiving with reads of at most what is still to come. *)
Lemma conf_recv_file fuel : forall md5 msg data buf file (k : MD.sum * Z * list Z * list Z -> proc R) L r, sums md5 msg -> sz buf -> zlen data <= Z.of_nat fuel ->
  (forall md5' buf', sums md5' (msg ++ data) -> sz buf' -> conf small me (k (md5', 0, buf', file ++ data)) L r) ->
  conf small me (recv_file fuel md5 (zlen data) buf file ≫= k) (tag (negb me) data ++ L) r.
Proof.
  induction fuel as [|fuel IH]; intros md5 msg data buf file k L r Hm Hb Hf Hk; cbn [recv_file]; pose proof (zlen_nonneg data);
    destruct (Z.leb_spec (zlen data) 0) as [Hn|Hn]; try lia;
    try (assert (data = []) as -> by (apply nil_length_inv; unfold zlen in *; lia); rewrite !app_nil_r in Hk; by apply Hk).
  set (n := if BEST_BUFFER_SIZE <? zlen data then BEST_BUFFER_SIZE else zlen data). assert (0 < n <= zlen data /\ n <= BEST_BUFFER_SIZE) as [Hnd Hnb] by (unfold n, BEST_BUFFER_SIZE; destruct (Z.ltb_spec 1280 (zlen data)); lia).
  rewrite pbind_assoc. constructor.
  { exists (take (Z.to_nat n) data), (tag (negb me) (drop (Z.to_nat n) data) ++ L). split; [by rewrite <- tag_split|].
    assert (zlen (take (Z.to_nat n) data) = n) as Hz by (unfold zlen in *; rewrite length_take; lia). split; [lia|done]. }
  intros y L' E Hy. pose proof (chunk_ne _ _ Hy) as Hne. destruct Hy as [Hy _].
  assert (exists e, data = y ++ e /\ L' = tag (negb me) e ++ L) as (e & -> & ->).
  { destruct (tag_prefix _ _ _ _ _ E) as [H'|(e & -> & ->)]; [done|]. rewrite zlen_app in Hy. exists []. assert (e = []) as -> by (apply nil_length_inv; unfold zlen in *; lia). by rewrite !app_nil_r. }
  destruct (sz_blit buf y Hb) as (b1 & E1 & Hb1 & _); [lia|]. destruct (sums_process md5 msg y Hm) as (m1 & E2 & Hm1); [lia|].
  destruct y as [|y0 y]; [done|]. cbn [proc_bind_]. rewrite pbind_assoc, (bind_lift _ _ _ E1), pbind_assoc, (bind_lift _ _ _ E2). rewrite zlen_app.
  replace (zlen (y0 :: y) + zlen e - zlen (y0 :: y)) with (zlen e) by lia. apply (IH m1 (msg ++ y0 :: y)); [done|done|rewrite zlen_app, zlen_cons in Hf; pose proof (zlen_nonneg y); lia|].
  intros md5' buf' H1 H2. rewrite <- app_assoc in H1 |- *. by apply Hk.
Qed.
End blocks.

(** ** The greeting *)
Definition otag (d : bool) (s : option (list Z)) : list (bool * Z) := match s with Some s => tag d s | None => [] end.
Definition greeting (self : mfx) : list (bool * Z) := otag true (request self) ++ otag false (response self).

Lemma conf_read_loop_len {R small} me fuel : forall n x len got (k : option (list Z * Z) -> proc R) L r, zlen x = n -> n <= Z.of_nat fuel ->
  (forall len', conf small me (k (Some (got ++ x, len'))) L r) -> conf small me (read_loop_len fuel n len got ≫= k) (tag (negb me) x ++ L) r.
Proof.
  induction fuel as [|fuel IH]; intros n x len got k L r Hx Hf Hk; cbn [read_loop_len]; pose proof (zlen_nonneg x); destruct (Z.leb_spec n 0) as [Hn|Hn]; try lia;
    try (assert (x = []) as -> by (apply nil_length_inv; unfold zlen in *; lia); rewrite app_nil_r in Hk; by apply Hk).
  rewrite pbind_assoc. constructor; [exists x, L; split; [done|]; split; [lia|done]|]. intros y L' E Hy. pose proof (chunk_ne _ _ Hy) as Hne.
  assert (exists e, x = y ++ e /\ L' = tag (negb me) e ++ L) as (e & -> & ->).
  { destruct (tag_prefix _ _ _ _ _ E) as [H'|(e & -> & ->)]; [done|]. destruct Hy as [[_ Hy] _]. rewrite zlen_app in Hy. exists [].
    assert (e = []) as -> by (apply nil_length_inv; unfold zlen in *; lia). by rewrite !app_nil_r. }
  rewrite zlen_app in *. destruct y as [|y0 y]; [done|]. apply (IH (n - zlen (y0 :: y))); [lia|rewrite zlen_cons in *; pose proof (zlen_nonneg y); lia|]. intros len'. by rewrite <- app_assoc.
Qed.

Lemma conf_greet {R small} self len buf (k : option (list Z * Z) -> proc R) L r : sz buf -> zlen (default [] (response self)) <= BEST_BUFFER_SIZE ->
  (forall buf' len', sz buf' -> conf small true (k (Some (buf', len'))) L r) -> conf small true (greet self len buf ≫= k) (greeting self ++ L) r.
Proof.
  intros Hb Ha Hk. unfold greet, greeting. rewrite <- app_assoc, pbind_assoc. assert (conf small true ((match response self with None => Done (Some (buf, len)) | Some a =>
      d ← read_loop_len (length a) (zlen a) len []; match d with None => Done None | Some (d, len) => buf ← lift (blit buf 0 d);
        Done (if decide (take (length a) buf = a) then Some (buf, len) else None) end end) ≫= k) (otag false (response self) ++ L) r) as H.
  { destruct (response self) as [a|]; [|by apply Hk]. rewrite pbind_assoc. apply (conf_read_loop_len true); [done|unfold zlen; lia|]. intros len'. cbn [app].
    destruct (sz_blit buf a Hb Ha) as (b1 & E1 & Hb1 & t & ->). rewrite pbind_assoc, (bind_lift _ _ _ E1), bind_Done. rewrite decide_True by apply take_app_length. by apply Hk. }
  destruct (request self) as [q|]; [by apply conf_write_bind|exact H].
Qed.

(** The server's side of the greeting, and the number of the service. *)
Lemma conf_served {small : Z} {Hsmall : Whole small} self E junk fjunk sjunk (v : Z) L r : zlen sjunk = 4 -> int_ok v ->
  conf small false (if v =? 0 then for_download self E junk
    else if v =? 1 then let sel := match uploaddir self with NoDir => 0 | _ => 1 end in write (le32 sel);; if sel =? 0 then Done failed else for_upload self E junk fjunk
    else if v =? 2 then for_gettimeofday E else Done failed) L r ->
  conf small false (fchg_server self E junk fjunk sjunk) (greeting self ++ tag true (le32 v) ++ L) r.
Proof.
  intros Hj Hv Hk. unfold fchg_server, greeting. rewrite <- app_assoc. set (rest := fun ok : bool => _).
  assert (conf small false (rest true) (otag false (response self) ++ tag true (le32 v) ++ L) r) as H.
  { unfold rest. cbn [negb]. set (rest2 := fun _ : unit => _). assert (conf small false (rest2 tt) (tag true (le32 v) ++ L) r) as H2.
    { unfold rest2. pose proof (whole_int (small := small)). apply (conf_read_small false); [apply zlen_le32|lia|]. change (conf small false (s ← lift (blit sjunk 0 (le32 v)); let sel := i32_at s 0 in
        if sel =? 0 then for_download self E junk else if sel =? 1 then let sel := match uploaddir self with NoDir => 0 | _ => 1 end in write (le32 sel);;
          if sel =? 0 then Done failed else for_upload self E junk fjunk else if sel =? 2 then for_gettimeofday E else Done failed) L r).
      rewrite (bind_lift _ _ _ (blit_int sjunk v Hj)). rewrite <- (app_nil_r (le32 v)), i32_le32 by done. exact Hk. }
    destruct (response self) as [a|]; [by apply conf_write_bind|exact H2]. }
  destruct (request self) as [q|]; [|exact H]. rewrite pbind_assoc. apply (conf_read_exactly false); [done|]. rewrite bind_Done, bool_decide_true by done. exact H.
Qed.

(** ** Fetching a file *)
Definition get_conv (self : mfx) (name data : list Z) : list (bool * Z) :=
  greeting self ++ tag true (le32 0) ++ tag true (le32 (zlen name)) ++ tag true name ++
  tag false (le32 (zlen data)) ++ (if decide (data = []) then [] else tag false data ++ tag true (MD.digest data) ++ tag false (le32 1)).
Definition file_at (self : mfx) (name : list Z) : list Z := match exportdir self with Dir dir => in_dir dir name | _ => name end.

Section get.
Context {small : Z} {Hsmall : Whole small} (self : mfx) (E Ec : env) (m mc : MD.sum) (name data : list Z) (pieces : list (list Z)) (junk fjunk sjunk cjunk lcfile : list Z).
Hypothesis (Hm : e_md5 E = Some m) (Hmb : zlen (MD.buffer (MD.s_ctx m)) = 128).
Hypothesis (Hmc : e_md5 Ec = Some mc) (Hmcb : zlen (MD.buffer (MD.s_ctx mc)) = 128).
Hypothesis (Hj : sz junk) (Hcj : sz cjunk) (Hsj : zlen sjunk = 4).
Hypothesis (Hname : nonul name) (Hnl : 0 < zlen name <= 1000) (Hdd : dotdot name = false) (Hdir : exportdir self <> Freed).
Hypothesis (Hresp : zlen (default [] (response self)) <= BEST_BUFFER_SIZE).
Hypothesis (Hopen : e_open E (file_at self name) = Some pieces) (Hstat : e_fstat E (file_at self name) = true).
Hypothesis (Hpc : Forall (fun p => zlen p <= BEST_BUFFER_SIZE) pieces) (Hdata : mjoin pieces = data) (Hsize : zlen data <= INT_MAX).

Lemma server_sends : conf small false (fchg_server self E junk fjunk sjunk) (get_conv self name data) (mk_result None (0 <? zlen data)).
Proof.
  unfold get_conv. apply conf_served; [done|int_lia|]. change (0 =? 0) with true. cbn iota. unfold for_download. rewrite Hm.
  apply (conf_get_name false); [done|done|lia|done|]. intros b1 Hb1.
  assert (match exportdir self with NoDir => Done name | Dir dir => Done (in_dir dir name) | Freed => Crash UseAfterFree end = Done (file_at self name)) as ->
    by (unfold file_at; by destruct (exportdir self)). rewrite bind_Done, Hopen, Hstat. cbn [negb]. rewrite Hdata.
  pose proof (zlen_nonneg data) as Hnn. apply conf_write_int; [done|]. destruct (decide (data = [])) as [->|Hne]; [constructor|].
  assert (0 < zlen data) as Hpos by (destruct data; [done|rewrite zlen_cons; pose proof (zlen_nonneg l); lia]). rewrite (proj2 (Z.ltb_lt 0 _)), (proj2 (Z.leb_gt (zlen data) 0)) by lia. rewrite i32_put32 by (unfold sz, BEST_BUFFER_SIZE in Hb1; lia || int_lia).
  rewrite <- Hdata at 3. apply (conf_send_file false _ _ []); [by apply sums_new|by apply sz_put|done|]. intros md b2 Hmd Hb2. rewrite Hdata in *. rewrite Z.sub_diag. cbn [Z.eqb negb].
  apply (conf_read_exactly false); [apply MD.digest_length|]. destruct (sz_blit b2 (MD.digest data) Hb2) as (b3 & E3 & Hb3 & t & ->); [by rewrite MD.digest_length|].
  rewrite (bind_lift _ _ _ E3). destruct (sums_finish _ _ Hmd) as (md' & Ef & Es). rewrite (bind_lift _ _ _ Ef), Es. cbn [app]. rewrite same_sum_digest.
  rewrite <- (app_nil_r (tag false (le32 1))). apply conf_write_int; [done|constructor].
Qed.

Lemma client_gets : e_creat Ec lcfile = 0 -> conf small true (mfc_ftpget self Ec true (Some name) lcfile cjunk) (get_conv self name data) (mk_result (Some (lcfile, data)) (0 <? zlen data)).
Proof.
  intros Hc. unfold mfc_ftpget, get_conv. rewrite to_int_small by (unfold INT_MAX; lia). rewrite (proj2 (Z.eqb_neq (zlen name) 0)), Hc by lia. cbn [negb Z.eqb].
  apply conf_greet; [done|done|]. intros b1 _ Hb1. apply conf_write_int; [done|]. apply conf_write_bind, conf_write_bind.
  pose proof (zlen_nonneg data) as Hnn. apply (conf_read_int true); [by apply sz_put|int_lia|]. intros b2 Hb2 E2. rewrite E2. destruct (decide (data = [])) as [->|Hne]; [constructor|].
  assert (0 < zlen data) as Hpos by (destruct data; [done|rewrite zlen_cons; pose proof (zlen_nonneg l); lia]). rewrite (proj2 (Z.ltb_lt 0 _)), (proj2 (Z.leb_gt (zlen data) 0)), Hmc by lia.
  apply (conf_fetch_loop true _ _ []); [by apply sums_new|done|intros H; pose proof (MD.digest_length data) as Hd; by rewrite H in Hd|lia|]. intros md b3 Hmd Hb3. cbn [Z.ltb Z.compare].
  destruct (sums_finish _ _ Hmd) as (md' & Ef & Es). rewrite (bind_lift _ _ _ Ef), Es. apply conf_write_bind. cbn [app].
  rewrite <- (app_nil_r (tag false (le32 1))). apply (conf_read_int true); [done|int_lia|]. intros b4 Hb4 E4. rewrite E4. constructor.
Qed.
End get.

(** C34: a file that is fetched arrives.  When the server exports a file of that name, the
    client's local file holds its bytes and the call returns 1, or 0 if the file is empty,
    which the program takes for a failure.  This holds in whatever order the two processes
    run, however the server's [read] cuts the file and however the network cuts the
    stream, as long as it does not cut the integers, that is a [read] of at most 4 bytes
    (when it does the transfer can fail, [get_cut_fails]); both ends finish and nothing is
    left unread. *)
Theorem get_delivers (self : mfx) (E Ec : env) (m mc : MD.sum) (name data : list Z) (pieces : list (list Z)) (junk fjunk sjunk cjunk lcfile : list Z) :
  e_md5 E = Some m -> zlen (MD.buffer (MD.s_ctx m)) = 128 -> e_md5 Ec = Some mc -> zlen (MD.buffer (MD.s_ctx mc)) = 128 ->
  sz junk -> sz cjunk -> zlen sjunk = 4 ->
  nonul name -> 0 < zlen name <= 1000 -> dotdot name = false -> exportdir self <> Freed -> zlen (default [] (response self)) <= BEST_BUFFER_SIZE ->
  e_open E (file_at self name) = Some pieces -> e_fstat E (file_at self name) = true -> Forall (fun p => zlen p <= BEST_BUFFER_SIZE) pieces ->
  mjoin pieces = data -> zlen data <= INT_MAX -> e_creat Ec lcfile = 0 ->
  ends 4 (mk_result (Some (lcfile, data)) (0 <? zlen data)) (mk_result None (0 <? zlen data))
    (mk_config (mfc_ftpget self Ec true (Some name) lcfile cjunk) (fchg_server self E junk fjunk sjunk) [] []).
Proof.
  intros. apply (conversation _ _ (get_conv self name data)); [by eapply client_gets|by eapply server_sends].
Qed.

(** A name with ".." in it, or of a file that cannot be opened, is refused: the client
    returns 0 with an empty local file, and no file is read. *)
Theorem get_refused (self : mfx) (E Ec : env) (m : MD.sum) (name : list Z) (junk fjunk sjunk cjunk lcfile : list Z) :
  e_md5 E = Some m -> sz junk -> sz cjunk -> zlen sjunk = 4 -> nonul name -> 0 < zlen name <= 1000 -> exportdir self <> Freed ->
  zlen (default [] (response self)) <= BEST_BUFFER_SIZE -> dotdot name = true \/ e_open E (file_at self name) = None -> e_creat Ec lcfile = 0 ->
  ends 4 (mk_result (Some (lcfile, [])) false) failed
    (mk_config (mfc_ftpget self Ec true (Some name) lcfile cjunk) (fchg_server self E junk fjunk sjunk) [] []).
Proof.
  intros Hm Hj Hcj Hsj Hn Hl Hdir Hr Hor Hc.
  apply (conversation _ _ (greeting self ++ tag true (le32 0) ++ tag true (le32 (zlen name)) ++ tag true name ++ tag false (le32 (-1)))).
  - unfold mfc_ftpget. rewrite to_int_small by (unfold INT_MAX; lia). rewrite (proj2 (Z.eqb_neq (zlen name) 0)), Hc by lia. cbn [negb Z.eqb].
    apply conf_greet; [done|done|]. intros b1 _ Hb1. apply conf_write_int; [done|]. apply conf_write_bind, conf_write_bind. rewrite <- (app_nil_r (tag false (le32 (-1)))).
    apply (conf_read_int true); [by apply sz_put|int_lia|]. intros b2 Hb2 E2. rewrite E2. constructor.
  - apply conf_served; [done|int_lia|]. change (0 =? 0) with true. cbn iota. unfold for_download. rewrite Hm. rewrite <- (app_nil_r (tag false (le32 (-1)))).
    destruct (dotdot name) eqn:Ed; [apply (conf_bad_name false); [done|done|lia|done|constructor]|]. destruct Hor as [?|Ho]; [done|]. apply (conf_get_name false); [done|done|lia|done|]. intros b1 Hb1.
    assert (match exportdir self with NoDir => Done name | Dir dir => Done (in_dir dir name) | Freed => Crash UseAfterFree end = Done (file_at self name)) as ->
      by (unfold file_at; by destruct (exportdir self)). rewrite bind_Done, Ho. apply conf_write_int; [done|constructor].
Qed.

(** ** Storing a file *)
Definition put_conv (self : mfx) (name data : list Z) : list (bool * Z) :=
  greeting self ++ tag true (le32 1) ++ tag false (le32 1) ++ tag true (le32 4) ++ tag true name ++ tag false (le32 0) ++
  tag true (le32 (zlen data)) ++ tag true data ++ tag false (MD.digest data) ++ tag true (le32 1).

(** [mfc_ftpput] sends 4, the length of the integer it has just read, as the length of the
    name.  With a name of four characters the upload works: the server's file holds the
    bytes of the local one, and both sides report success. *)
Theorem put_delivers (self : mfx) (E Ec : env) (m mc : MD.sum) (dir name data : list Z) (pieces : list (list Z)) (junk fjunk sjunk cjunk lcfile : list Z) :
  e_md5 E = Some m -> zlen (MD.buffer (MD.s_ctx m)) = 128 -> e_md5 Ec = Some mc -> zlen (MD.buffer (MD.s_ctx mc)) = 128 ->
  sz junk -> sz cjunk -> zlen sjunk = 4 -> zlen fjunk = 4 ->
  nonul name -> zlen name = 4 -> dotdot name = false -> uploaddir self = Dir dir -> zlen (default [] (response self)) <= BEST_BUFFER_SIZE ->
  e_creat E (in_dir dir name) = 0 -> e_open Ec lcfile = Some pieces -> e_fstat Ec lcfile = true -> Forall (fun p => zlen p <= BEST_BUFFER_SIZE) pieces ->
  mjoin pieces = data -> 0 < zlen data <= INT_MAX ->
  ends 16 (mk_result None true) (mk_result (Some (in_dir dir name, data)) true)
    (mk_config (mfc_ftpput self Ec true (Some name) lcfile cjunk) (fchg_server self E junk fjunk sjunk) [] []).
Proof.
  intros Hm Hmb Hmc Hmcb Hj Hcj Hsj Hfj Hn Hl Hdd Hdir Hr Hcr Ho Hst Hpc Hdata Hsize. apply (conversation _ _ (put_conv self name data)); unfold put_conv.
  - unfold mfc_ftpput. rewrite to_int_small by (unfold INT_MAX; lia). rewrite Hl, Ho, Hst, Hdata. cbn [Z.eqb]. rewrite (proj2 (Z.leb_gt (zlen data) 0)) by lia. cbn [negb orb].
    apply conf_greet; [done|done|]. intros b1 l1 Hb1. apply conf_write_int; [done|]. apply (conf_read_int true); [by apply sz_put|int_lia|]. intros b2 Hb2 E2. rewrite E2. cbn [Z.eqb].
    apply conf_write_int; [done|]. apply conf_write_bind. apply (conf_read_int true); [by apply sz_put|int_lia|]. intros b3 Hb3 E3. rewrite E3. cbn [Z.eqb negb].
    apply conf_write_int; [done|]. rewrite Hmc. rewrite <- Hdata at 2. apply (conf_send_file true _ _ []); [by apply sums_new|by apply sz_put|done|]. intros md b4 Hmd Hb4. rewrite Hdata in *.
    apply (conf_read_small true); [apply MD.digest_length|by vm_compute|]. destruct (sz_blit b4 (MD.digest data) Hb4) as (b5 & E5 & Hb5 & t & ->); [by rewrite MD.digest_length|].
    rewrite (bind_lift _ _ _ E5). destruct (sums_finish _ _ Hmd) as (md' & Ef & Es). rewrite (bind_lift _ _ _ Ef), Es. cbn [app]. rewrite same_sum_digest.
    rewrite <- (app_nil_r (tag true (le32 1))). apply conf_write_int; [done|constructor].
  - apply conf_served; [done|int_lia|]. cbn [Z.eqb Pos.eqb]. rewrite Hdir. apply conf_write_bind. cbn [Z.eqb]. unfold for_upload. rewrite Hm. rewrite <- Hl at 1.
    apply (conf_get_name false); [done|done|lia|done|]. intros b1 Hb1. rewrite Hdir, Hcr. cbn [Z.eqb negb]. apply conf_write_int; [done|].
    apply (conf_read_small false); [apply zlen_le32|by vm_compute|].
    rewrite (bind_lift _ _ _ (blit_int fjunk (zlen data) Hfj)).
    rewrite <- (app_nil_r (le32 (zlen data))), i32_le32 by int_lia. rewrite (proj2 (Z.leb_gt (zlen data) 0)) by lia.
    apply (conf_recv_file false _ _ []); [by apply sums_new|by apply sz_put|lia|]. intros md b2 Hmd Hb2. cbn [Z.eqb negb].
    destruct (sums_finish _ _ Hmd) as (md' & Ef & Es). rewrite (bind_lift _ _ _ Ef), Es. apply conf_write_bind. cbn [app].
    rewrite <- (app_nil_r (tag true (le32 1))). apply (conf_read_small false); [apply zlen_le32|by vm_compute|].
    destruct (sz_blit b2 (le32 1) Hb2) as (b3 & E3 & Hb3 & t & ->); [by vm_compute|]. rewrite (bind_lift _ _ _ E3), i32_le32 by int_lia. constructor.
Qed.

(** ** The time of day *)

(** The client receives the time the server read, and finds its digest right. *)
Theorem time_delivers (self : mfx) (E Ec : env) (m mc : MD.sum) (tv tz junk fjunk sjunk cjunk : list Z) :
  e_md5 E = Some m -> zlen (MD.buffer (MD.s_ctx m)) = 128 -> e_md5 Ec = Some mc -> zlen (MD.buffer (MD.s_ctx mc)) = 128 ->
  sz cjunk -> zlen sjunk = 4 -> zlen (default [] (response self)) <= BEST_BUFFER_SIZE -> e_time E = Some (tv, tz) -> zlen tv + zlen tz <= 1000 ->
  ends 4 (Some (tv, tz, true)) (mk_result None true)
    (mk_config (mfc_gettimeofday self Ec true (zlen tv) (zlen tz) cjunk) (fchg_server self E junk fjunk sjunk) [] []).
Proof.
  intros Hm Hmb Hmc Hmcb Hcj Hsj Hr Ht Hz. pose proof (zlen_nonneg tv). pose proof (zlen_nonneg tz). pose proof (MD.digest_length (tv ++ tz)) as Hd.
  assert (exists m1 m2 m3, MD.md5sum_process_bytes (MD.new_md5sum m) tv = Ret m1 /\ MD.md5sum_process_bytes m1 tz = Ret m2 /\ MD.md5sum_finish m2 = Ret m3 /\ MD.s_md m3 = MD.digest (tv ++ tz))
    as (m1 & m2 & m3 & E1 & E2 & E3 & E4) by (by apply sums_two).
  assert (exists m1 m2 m3, MD.md5sum_process_bytes (MD.new_md5sum mc) tv = Ret m1 /\ MD.md5sum_process_bytes m1 tz = Ret m2 /\ MD.md5sum_finish m2 = Ret m3 /\ MD.s_md m3 = MD.digest (tv ++ tz))
    as (c1 & c2 & c3 & F1 & F2 & F3 & F4) by (by apply sums_two).
  apply (conversation _ _ (greeting self ++ tag true (le32 2) ++ tag false (tv ++ tz ++ MD.digest (tv ++ tz)))).
  - unfold mfc_gettimeofday. rewrite Hmc. cbn [negb]. apply conf_greet; [done|done|]. intros b1 _ Hb1. apply conf_write_int; [done|].
    rewrite <- (app_nil_r (tag false _)). apply (conf_read_exactly true); [rewrite !zlen_app, Hd; unfold MD5_LENGTH; lia|].
    destruct (sz_blit (put32 b1 0 2) (tv ++ tz ++ MD.digest (tv ++ tz))) as (b2 & Eb & _ & t & ->); [by apply sz_put|rewrite !zlen_app, Hd; unfold BEST_BUFFER_SIZE; lia|].
    rewrite (bind_lift _ _ _ Eb). rewrite <- !app_assoc. rewrite (slice_head tv), (slice_mid tv tz) by done. rewrite (bind_lift _ _ _ F1), (bind_lift _ _ _ F2), (bind_lift _ _ _ F3), F4.
    rewrite app_assoc, <- zlen_app, slice_mid by (by rewrite Hd). rewrite bool_decide_true; [constructor|]. unfold zlen in Hd. by rewrite take_ge by lia.
  - apply conf_served; [done|int_lia|]. cbn [Z.eqb Pos.eqb]. unfold for_gettimeofday. rewrite Hm, Ht. rewrite !tag_app. apply conf_write_bind, conf_write_bind.
    rewrite (bind_lift _ _ _ E1), (bind_lift _ _ _ E2), (bind_lift _ _ _ E3), E4. rewrite <- (app_nil_r (tag false _)). apply conf_write_bind. constructor.
Qed.

(** ** Defects *)

(** The length of the name comes from the network as a signed integer and only its upper
    bound is checked: after a negative one the server writes a NUL in front of its buffer. *)
Theorem negative_name_crashes (self : mfx) (E : env) (m : MD.sum) (junk : list Z) (n : Z) : e_md5 E = Some m -> sz junk -> INT_MIN <= n < 0 ->
  exists k, for_download self E junk = Read 4 k /\ k (le32 n) = Crash OutOfBounds.
Proof.
  intros Hm Hj Hn. unfold for_download, get_name, read_int. rewrite Hm, !pbind_assoc. eexists. split; [reflexivity|].
  destruct (sz_blit junk (le32 n) Hj) as (b1 & E1 & Hb1 & t & ->); [by vm_compute|]. destruct (sz_blit (le32 n ++ t) [] Hb1) as (b2 & E2 & Hb2 & _); [by vm_compute|].
  assert (i32_at (le32 n ++ t) 0 = n) as Hi by (apply i32_le32; int_lia). cbv beta. revert E1 E2 Hi. destruct (le32 n) as [|x l] eqn:El; [discriminate El|]. intros E1 E2 Hi.
  rewrite !pbind_assoc, (bind_lift _ _ _ E1), !bind_Done, Hi. rewrite (proj2 (Z.ltb_ge 1000 n)) by lia. unfold read_exactly. replace (Z.to_nat n) with 0%nat by lia. cbn [read_loop].
  rewrite (proj2 (Z.leb_le n 0)) by lia. rewrite !pbind_assoc, !bind_Done, !pbind_assoc, (bind_lift _ _ _ E2). rewrite aset_OOB by lia. done.
Qed.

(** *** Examples: a server that exports and accepts files, and a client *)
Definition ex_sum : MD.sum := MD.mk_sum (MD.mk_ctx 0 0 0 0 0 0 0 (replicate 128 7)) [] (replicate 33 0) 0.
Definition ex_junk : list Z := replicate 1280 9.
Definition ex_self : mfx := mk_mfx (Dir [101]) (Dir [117]) (Some [72; 73]) (Some [79; 75]).
(** Only ["e/a"] can be read, and only ["u/note"] created. *)
Definition ex_env : env := mk_env (fun p => if decide (p = [101; 47; 97]) then Some [[1; 2]; [3]] else None) (fun _ => true)
  (fun p => if decide (p = [117; 47; 110; 111; 116; 101]) then 0 else 13) (Some ([1; 2; 3; 4], [5; 6])) (Some ex_sum).
Definition ex_client : env := mk_env (fun p => if decide (p = [108]) then Some [[1; 2]; [3]] else None) (fun _ => true) (fun _ => 0) None (Some ex_sum).

(** Storing a file under a longer name, here "notes": the server takes the first four
    letters for the name and creates ["note"] in its directory, takes the last letter and
    three bytes of the size for the size of the file, and waits for as many bytes; the client
    waits for the digest. *)
Theorem put_longer_hangs : exists c,
  rtc (step 16) (mk_config (mfc_ftpput ex_self ex_client true (Some [110; 111; 116; 101; 115]) [108] ex_junk) (fchg_server ex_self ex_env ex_junk [9; 9; 9; 9] [9; 9; 9; 9]) [] []) c /\
  hangs 16 c.
Proof.
  eexists. split; [apply (prun_steps BEST_BUFFER_SIZE 60)|]. apply both_wait_hangs. by vm_compute.
Qed.

(** On a network that splits every [read] the number of the service may come byte by byte:
    the server takes the first byte with what was in its memory for the number, and gives up. *)
Theorem get_cut_fails : exists c,
  rtc (step 0) (mk_config (mfc_ftpget ex_self ex_client true (Some [97]) [108] ex_junk) (fchg_server ex_self ex_env ex_junk [9; 9; 9; 9] [9; 9; 9; 9]) [] []) c /\
  sv c = Done failed.
Proof. eexists. split; [apply (prun_steps 1 60)|]. by vm_compute. Qed.

(** *** Witnesses *)
Lemma get_delivers_witness :
  ends 4 (mk_result (Some ([108], [1; 2; 3])) true) (mk_result None true)
    (mk_config (mfc_ftpget ex_self ex_client true (Some [97]) [108] ex_junk) (fchg_server ex_self ex_env ex_junk [9; 9; 9; 9] [9; 9; 9; 9]) [] []).
Proof. apply (get_delivers ex_self ex_env ex_client ex_sum ex_sum [97] [1; 2; 3] [[1; 2]; [3]]); first [done | by vm_compute | by repeat constructor]. Defined.
Lemma get_refused_witness :
  ends 4 (mk_result (Some ([108], [])) false) failed
    (mk_config (mfc_ftpget ex_self ex_client true (Some [46; 46; 47; 97]) [108] ex_junk) (fchg_server ex_self ex_env ex_junk [9; 9; 9; 9] [9; 9; 9; 9]) [] []).
Proof. apply (get_refused ex_self ex_env ex_client ex_sum [46; 46; 47; 97]); first [done | by left | by vm_compute | by repeat constructor]. Defined.
Lemma put_delivers_witness :
  ends 16 (mk_result None true) (mk_result (Some ([117; 47; 110; 111; 116; 101], [1; 2; 3])) true)
    (mk_config (mfc_ftpput ex_self ex_client true (Some [110; 111; 116; 101]) [108] ex_junk) (fchg_server ex_self ex_env ex_junk [9; 9; 9; 9] [9; 9; 9; 9]) [] []).
Proof. apply (put_delivers ex_self ex_env ex_client ex_sum ex_sum [117] [110; 111; 116; 101] [1; 2; 3] [[1; 2]; [3]]); first [done | by vm_compute | by repeat constructor]. Defined.
Lemma time_delivers_witness :
  ends 4 (Some ([1; 2; 3; 4], [5; 6], true)) (mk_result None true)
    (mk_config (mfc_gettimeofday ex_self ex_client true 4 2 ex_junk) (fchg_server ex_self ex_env ex_junk [9; 9; 9; 9] [9; 9; 9; 9]) [] []).
Proof. apply (time_delivers ex_self ex_env ex_client ex_sum ex_sum [1; 2; 3; 4] [5; 6]); first [done | by vm_compute | by repeat constructor]. Defined.
Lemma negative_name_witness : exists k, for_download ex_self ex_env ex_junk = Read 4 k /\ k [255; 255; 255; 255] = Crash OutOfBounds.
Proof. apply (negative_name_crashes ex_self ex_env ex_sum ex_junk (-1)); first [done | by vm_compute]. Defined.
End FX.
