(* ===== verification/StioV2Server.v ===== *)
(** * StioV2Server.v: the stream server of protocol version 2, streamio_v2/server.c and
      streamio_v2/client_entry.c

    The main thread of the server answers searches and registrations; each registered
    client is then served by a thread and a socket of its own, its [client_entry_t].
    A request for a block of a file is answered at once with the wanted packets.

    [ce_svc_main_1] and [streamio_v2_main_1] are one turn of the loops of the two kinds of
    thread, for one datagram.  The machine and the packed structures are as in [Wire.v]. *)

From S2P Require Import Prelude Posix Udp Wire.

Module S2.

(** ** The packets, streamio_v2_pdu.h *)
Definition MAXIMUM_STIOV2_SERVICES : Z := 4.
Definition STIOV2_PROTOCOL_VERSION : Z := 2.
Definition MAXIMUM_STIOV2_FILENAME_LEN : Z := 63.
Definition CMD_ERROR : Z := 0.
Definition CMD_FINDSERVER : Z := 1.
Definition CMD_REGIST : Z := 2.
Definition CMD_OPENFILE : Z := 3.
Definition CMD_FETCH : Z := 4.
Definition ERR_REOPEN : Z := 1.
Definition CARRY : Z := 1439.
Definition MAX_PACKET_MAP : Z := 23.
Definition MAX_TRANS_BUFSIZE : Z := 32768.
Definition DEFAULT_DISKIO_BUFFER_FAVIOR : Z := 1048576.
Definition DEFAULT_STIOV2_TRANS_BUFSIZE : Z := 32768.
Definition DEFAULT_STIOV2_DISKNET_FACTOR : Z := 32.
Definition DEFAULT_STIOV2_PACKET_MAP : Z := 23.

(** Offsets: the generic header, then those of the structures that follow it. *)
Definition q_cksum : Z := 0.
Definition q_sn : Z := 4.
Definition q_cmd : Z := 8.
Definition q_channel : Z := 9.
Definition q_port : Z := 10.
Definition q_protocol_version : Z := 14.
Definition q_filecnt : Z := 10.
Definition q_filename : Z := 14.
Definition q_filesize : Z := 14.
Definition q_disk_bufsize : Z := 18.
Definition q_net_bufsize : Z := 22.
Definition q_disknet_fact : Z := 26.
Definition q_packet_map : Z := 30.
Definition q_ndcnt : Z := 14.
Definition q_len : Z := 18.
Definition q_reqmap : Z := 22.
Definition q_map : Z := 18.
Definition q_data : Z := 19.
Definition q_orgcmd : Z := 10.
Definition q_errcode : Z := 11.
Definition q_lerrno : Z := 15.
Definition SIZEOF_PDU2 : Z := 30.
Definition SIZEOF_OPEN : Z := 78.
Definition SIZEOF_OK : Z := 34.
Definition SIZEOF_REQ : Z := 45.
Definition SIZEOF_DATA : Z := 1458.
Definition SIZEOF_ERROR : Z := 19.

(** common/cksum.c: the sum of the bytes behind the checksum, masked after every addition. *)
Definition stiov2_cs_cksum (buf : list Z) (len : Z) : Z := cksum_loop (slice buf 4 (len - 4)) 0.
(** [ptr->cksum = self->cksum (ptr, len)] *)
Definition seal2 (buf : list Z) (len : Z) : list Z := put32 buf q_cksum (stiov2_cs_cksum buf len).
Definition cksum2_ok (buf : list Z) (len : Z) : bool := i32_at buf q_cksum =? stiov2_cs_cksum buf len.

(** ** State *)

(** [struct stio_v2_server_local_t]: the file on one channel. *)
Record local := mk_local {
  fd : Z;
  filecnt : Z;
  filesize : Z;
  last_fptr : Z;
  curr_fptr : Z;
  buffer : option (list Z);
  blkcnt : Z;
  bufsize : Z;
  buflen : Z;
}.
Definition l_set_fd (v : Z) (s : local) : local :=
  mk_local v (filecnt s) (filesize s) (last_fptr s) (curr_fptr s) (buffer s) (blkcnt s) (bufsize s) (buflen s).

(** [struct client_entry_t], with the buffer of its thread. *)
Record entry := mk_entry {
  e_udp : UDP.udplib;
  e_port : Z;
  e_sn : Z;
  inuse : Z;
  lastuse : Z;
  e_addr : Z;
  e_terminate : Z;
  in_services : Z;
  e_sl : list local;
  e_buf : list Z;
}.
Definition set_e_udp (v : UDP.udplib) (s : entry) : entry :=
  mk_entry v (e_port s) (e_sn s) (inuse s) (lastuse s) (e_addr s) (e_terminate s) (in_services s) (e_sl s) (e_buf s).
Definition set_e_port (v : Z) (s : entry) : entry :=
  mk_entry (e_udp s) v (e_sn s) (inuse s) (lastuse s) (e_addr s) (e_terminate s) (in_services s) (e_sl s) (e_buf s).
Definition set_e_sn (v : Z) (s : entry) : entry :=
  mk_entry (e_udp s) (e_port s) v (inuse s) (lastuse s) (e_addr s) (e_terminate s) (in_services s) (e_sl s) (e_buf s).
Definition set_inuse (v : Z) (s : entry) : entry :=
  mk_entry (e_udp s) (e_port s) (e_sn s) v (lastuse s) (e_addr s) (e_terminate s) (in_services s) (e_sl s) (e_buf s).
Definition set_lastuse (v : Z) (s : entry) : entry :=
  mk_entry (e_udp s) (e_port s) (e_sn s) (inuse s) v (e_addr s) (e_terminate s) (in_services s) (e_sl s) (e_buf s).
Definition set_e_addr (v : Z) (s : entry) : entry :=
  mk_entry (e_udp s) (e_port s) (e_sn s) (inuse s) (lastuse s) v (e_terminate s) (in_services s) (e_sl s) (e_buf s).
Definition set_in_services (v : Z) (s : entry) : entry :=
  mk_entry (e_udp s) (e_port s) (e_sn s) (inuse s) (lastuse s) (e_addr s) (e_terminate s) v (e_sl s) (e_buf s).
Definition set_e_sl (v : list local) (s : entry) : entry :=
  mk_entry (e_udp s) (e_port s) (e_sn s) (inuse s) (lastuse s) (e_addr s) (e_terminate s) (in_services s) v (e_buf s).
Definition set_e_buf (v : list Z) (s : entry) : entry :=
  mk_entry (e_udp s) (e_port s) (e_sn s) (inuse s) (lastuse s) (e_addr s) (e_terminate s) (in_services s) (e_sl s) v.

(** [struct streamming_io_v2_server_pd_t], with the buffer of the main thread; no [fopen]
    is [dummy_fopen]. *)
Record server := mk_server {
  cli : list (option entry);
  terminate : Z;
  udp : UDP.udplib;
  maxclient : Z;
  port : Z;
  stop_services : Z;
  already_started : Z;
  disk_bufsize : list Z;
  net_bufsize : list Z;
  disknet_fact : list Z;
  packet_map : list Z;
  fopen : option (kernel -> Z -> path -> Z * kernel);
  m_buf : list Z;
}.
Definition set_cli (v : list (option entry)) (s : server) : server :=
  mk_server v (terminate s) (udp s) (maxclient s) (port s) (stop_services s) (already_started s) (disk_bufsize s) (net_bufsize s) (disknet_fact s) (packet_map s) (fopen s) (m_buf s).
Definition set_terminate (v : Z) (s : server) : server :=
  mk_server (cli s) v (udp s) (maxclient s) (port s) (stop_services s) (already_started s) (disk_bufsize s) (net_bufsize s) (disknet_fact s) (packet_map s) (fopen s) (m_buf s).
Definition set_udp (v : UDP.udplib) (s : server) : server :=
  mk_server (cli s) (terminate s) v (maxclient s) (port s) (stop_services s) (already_started s) (disk_bufsize s) (net_bufsize s) (disknet_fact s) (packet_map s) (fopen s) (m_buf s).
Definition set_stop_services (v : Z) (s : server) : server :=
  mk_server (cli s) (terminate s) (udp s) (maxclient s) (port s) v (already_started s) (disk_bufsize s) (net_bufsize s) (disknet_fact s) (packet_map s) (fopen s) (m_buf s).
Definition set_already_started (v : Z) (s : server) : server :=
  mk_server (cli s) (terminate s) (udp s) (maxclient s) (port s) (stop_services s) v (disk_bufsize s) (net_bufsize s) (disknet_fact s) (packet_map s) (fopen s) (m_buf s).
Definition set_m_buf (v : list Z) (s : server) : server :=
  mk_server (cli s) (terminate s) (udp s) (maxclient s) (port s) (stop_services s) (already_started s) (disk_bufsize s) (net_bufsize s) (disknet_fact s) (packet_map s) (fopen s) v.

Section server.
(** The system: how [read] splits a file, what memory of a given size contains ([None]:
    there is none), the time, and the sockets. *)
Context (chunk : Z -> Z -> Z) (malloc : Z -> option (list Z)) (now : Z).

(** ** client_entry.c *)
Definition ENOMEM : Z := 12.

(** [errpdu->orgcmd = errpdu->cmd; errpdu->cmd = STIOV2_CMD_ERROR], checksum and [udp->send]. *)
Definition send_error (s : entry) (b : list Z) : entry :=
  let b := put8 (put8 b q_orgcmd (u8_at b q_cmd)) q_cmd CMD_ERROR in
  let b := seal2 b SIZEOF_ERROR in
  set_e_udp (UDP.udplib_send (e_udp s) b SIZEOF_ERROR) (set_e_buf b s).

Definition dummy_fopen (k : kernel) (i : Z) (fname : path) : Z * kernel := sys_open k fname.
Definition do_fopen (svr : server) : kernel -> Z -> path -> Z * kernel := default dummy_fopen (fopen svr).

(** [fullread] from [rc] on; [explen] bytes are still wanted. *)
Fixpoint fullread_loop (fuel : nat) (k : kernel) (fdn : Z) (buf : list Z) (explen rc : Z) : outcome (Z * list Z * kernel) :=
  if explen <=? 0 then Ret (rc, buf, k)
  else
    match fuel with
    | O => Fault OutOfFuel
    | S fuel =>
        let '(rlen, d, k) := sys_read chunk k fdn explen in
        if 0 <? rlen then
          let* buf := blit buf rc d in
          fullread_loop fuel k fdn buf (explen - rlen) (rc + rlen)
        else Ret (rc, buf, k)
    end.
Definition fullread (k : kernel) (fdn : Z) (buf : list Z) (bufsiz cptr fsize : Z) : outcome (Z * list Z * kernel) :=
  let* rlen := ck (fsize - cptr) in
  let explen := if rlen <? bufsiz then rlen else bufsiz in
  fullread_loop (Z.to_nat explen) k fdn buf explen 0.

(** The buffer of a channel, allocated when there is none; the error otherwise. *)
Definition get_buffer (sl : local) (disk : Z) : option (list Z * Z) :=
  match buffer sl with
  | Some b => Some (b, bufsize sl)
  | None => (fun b => (b, disk)) <$> malloc disk
  end.

(** [close (sl->fd)] of the file that was open on the channel. *)
Definition close_old (k : kernel) (sl : local) : local * kernel :=
  if 0 <=? fd sl then (l_set_fd (-1) sl, sys_close k (fd sl)) else (sl, k).

(** The reply to a successful open. *)
Definition ok_pdu (svr : server) (ch size : Z) (b : list Z) : outcome (list Z) :=
  let* disk := aget (disk_bufsize svr) ch in
  let* net := aget (net_bufsize svr) ch in
  let* fact := aget (disknet_fact svr) ch in
  let* pmap := aget (packet_map svr) ch in
  let b := put32 b q_filesize size in
  let b := put32 (put32 b q_disk_bufsize disk) q_net_bufsize net in
  let b := put32 (put32 b q_disknet_fact fact) q_packet_map pmap in
  Ret (seal2 b SIZEOF_OK).

(** The body of [while (sl->fd < 0)], which is run once: [None] stands for a [break]. *)
Definition remote_openfile (svr : server) (k : kernel) (s : entry) (ch : Z) : outcome (entry * kernel) :=
  let b := e_buf s in
  let* sl := aget (e_sl s) ch in
  let '(sl, k) := close_old k sl in
  let* disk := aget (disk_bufsize svr) ch in
  match get_buffer sl disk with
  | None =>
      let* l := aset (e_sl s) ch sl in
      Ret (send_error (set_e_sl l s) (put32 b q_lerrno ENOMEM), set_errno k ENOMEM)
  | Some (dbuf, dsize) =>
      let sl := mk_local (fd sl) (filecnt sl) (filesize sl) (last_fptr sl) (curr_fptr sl) (Some dbuf) (blkcnt sl) dsize (buflen sl) in
      match cstr_at b q_filename with
      | None => Fault OutOfBounds
      | Some fname =>
          let '(fdn, k) := do_fopen svr k ch fname in
          if fdn <? 0 then
            let* l := aset (e_sl s) ch sl in
            Ret (send_error (set_e_sl l s) (put32 b q_lerrno (k_errno k)), k)
          else
            match get_file k fdn with
            | None =>
                let* l := aset (e_sl s) ch sl in
                Ret (send_error (set_e_sl l s) (put32 b q_lerrno EBADF), set_errno k EBADF)
            | Some f =>
                let size := to_int (zlen (of_data f)) in
                let sl := mk_local fdn (filecnt sl) size 0 0 (Some dbuf) (-1) dsize (buflen sl) in
                let* l := aset (e_sl s) ch sl in
                let* b := ok_pdu svr ch size b in
                let s := set_e_buf b (set_lastuse now (set_e_sl l s)) in
                Ret (set_e_udp (UDP.udplib_send (e_udp s) b SIZEOF_OK) s, k)
            end
      end
  end.

(** The disk block [blk] is put into the channel's buffer, unless it is there. *)
Definition load_block (svr : server) (k : kernel) (sl : local) (ch blk : Z) : outcome (local * kernel) :=
  if blk =? blkcnt sl then Ret (sl, k)
  else
    let* next := ck (blkcnt sl + 1) in
    let* disk := aget (disk_bufsize svr) ch in
    let* k := (if blk =? next then Ret k
               else let* off := ck (blk * disk) in Ret (if off <? 0 then k else sys_lseek k (fd sl) off)) in
    match buffer sl with
    | None => Fault NullDeref
    | Some dbuf =>
        let* r := fullread k (fd sl) dbuf (bufsize sl) (curr_fptr sl) (filesize sl) in
        let '(n, dbuf, k) := r in
        Ret (mk_local (fd sl) (filecnt sl) (filesize sl) (last_fptr sl) (curr_fptr sl) (Some dbuf) blk (bufsize sl) n, k)
    end.

(** [for (i = j = 0; i < svr->packet_map[channel]; i++)] with [n] rounds left; [b] is the
    buffer the packets are built in. *)
Fixpoint send_packets (n : nat) (i pmap net blkent : Z) (map dbuf b : list Z) (u : UDP.udplib) : outcome (list Z * UDP.udplib) :=
  match n with
  | O => Ret (b, u)
  | S n =>
      let* w := aget map i in
      if w =? 0 then send_packets n (i + 1) pmap net blkent map dbuf b u
      else
        let* base := ck (blkent * net) in
        let* idx := ck (base + i * CARRY) in
        let clen := if i =? pmap - 1 then net - i * CARRY else CARRY in
        if (0 <=? clen) && (0 <=? idx) && (idx + clen <=? zlen dbuf) then
          let* b := blit (put8 b q_map i) q_data (slice dbuf idx clen) in
          let b := seal2 b SIZEOF_DATA in
          send_packets n (i + 1) pmap net blkent map dbuf b (UDP.udplib_send u b SIZEOF_DATA)
        else Fault OutOfBounds
  end.

Definition remote_fetch_file (svr : server) (k : kernel) (s : entry) (ch : Z) : outcome (entry * kernel) :=
  let b := e_buf s in
  let* sl := aget (e_sl s) ch in
  if fd sl <? 0 then
    Ret (send_error s (put32 (put32 b q_lerrno EBADF) q_errcode ERR_REOPEN), k)
  else
    let map := slice b q_reqmap MAX_PACKET_MAP in
    let ndcnt := i32_at b q_ndcnt in
    let* fact := aget (disknet_fact svr) ch in
    let* blk := cquot ndcnt fact in
    let* blkent := crem ndcnt fact in
    let* r := load_block svr k sl ch blk in
    let '(sl, k) := r in
    let* l := aset (e_sl s) ch sl in
    let* pmap := aget (packet_map svr) ch in
    let* net := aget (net_bufsize svr) ch in
    match buffer sl with
    | None => Fault NullDeref
    | Some dbuf =>
        let* r := send_packets (Z.to_nat pmap) 0 pmap net blkent map dbuf b (e_udp s) in
        let '(b, u) := r in
        Ret (set_e_udp u (set_e_buf b (set_e_sl l s)), k)
    end.

(** One turn of [ce_svc_main]: the datagram [d] from [a]. *)
Definition ce_svc_main_1 (svr : server) (k : kernel) (s : entry) (a : UDP.sockaddr) (d : list Z) : outcome (entry * kernel) :=
  let '(len, b, u) := UDP.udplib_receive (e_udp s) (e_buf s) a d in
  let s := set_e_udp u (set_e_buf b s) in
  let ch := char_at b q_channel in
  if len <=? 0 then Ret (s, k)
  else if negb (stop_services svr =? 0) then Ret (s, k)
  else if negb (e_addr s =? UDP.udplib_get_remote u) then Ret (s, k)
  else if negb (cksum2_ok b len) then Ret (s, k)
  else if (ch <? 0) || (MAXIMUM_STIOV2_SERVICES <=? ch) then Ret (s, k)
  else if negb (i32_at b q_sn =? e_sn s) then Ret (s, k)
  else if char_at b q_cmd =? CMD_OPENFILE then remote_openfile svr k s ch
  else if char_at b q_cmd =? CMD_FETCH then remote_fetch_file svr k s ch
  else Ret (s, k).
End server.

(** ** Registration of a client *)
Section regist.
(** What the system calls of [udp->open] answer. *)
Context (os : UDP.os_socket).

Definition ce_is_inuse (s : entry) : Z := inuse s.
Definition ce_unuse (s : entry) : entry := set_e_udp (UDP.udplib_close (e_udp s)) (set_inuse 0 s).

(** The thread is started; the caller waits until it runs ([in_services]).  When the socket
    cannot be opened the value of [rc] is not set. *)
Definition ce_regist (s : entry) (addr sn : Z) : outcome (Z * entry) :=
  let '(rc, s) :=
    if inuse s =? 0 then (None, s)
    else if e_addr s =? addr then
      (Some (e_port s), if e_sn s =? sn then s else set_e_sn sn s)
    else (None, ce_unuse s) in
  let '(rc, s) :=
    if inuse s =? 0 then
      let s := set_e_sn sn (set_e_addr addr (set_inuse 1 s)) in
      let '(r, u) := UDP.udplib_open (e_udp s) os 0 false false in
      let s := set_e_udp u s in
      if 0 <=? r then (Some (UDP.myport u), set_in_services 1 (set_e_port (UDP.myport u) s)) else (rc, s)
    else (rc, s) in
  match rc with Some rc => Ret (rc, s) | None => Fault Uninit end.

(** [cli[n]] is read before [n] is checked. *)
Definition stiov2_regist (s : server) (addr n sn : Z) : outcome (Z * server) :=
  let* c := aget (cli s) n in
  if (n <? 0) || (maxclient s <=? n) then Ret (-1, s)
  else
    match c with
    | None => Fault NullDeref
    | Some e =>
        let* r := ce_regist e addr sn in
        let '(rc, e) := r in
        let* l := aset (cli s) n (Some e) in
        Ret (rc, set_cli l s)
    end.

(** One turn of [streamio_v2_main] for the datagram [d] from [a]; [false]: the loop is left. *)
Definition streamio_v2_main_1 (s : server) (a : UDP.sockaddr) (d : list Z) : outcome (bool * server) :=
  let '(len, b, u) := UDP.udplib_receive (udp s) (m_buf s) a d in
  let s := set_udp u (set_m_buf b s) in
  if len =? 0 then Ret (true, s)
  else if negb (cksum2_ok b len) then Ret (false, s)
  else if negb (stop_services s =? 0) then Ret (false, s)
  else if char_at b q_cmd =? CMD_FINDSERVER then
    Ret (true, if i32_at b q_protocol_version =? STIOV2_PROTOCOL_VERSION then set_udp (UDP.udplib_send u b len) s else s)
  else if char_at b q_cmd =? CMD_REGIST then
    let* r := UDP.udplib_regist_ipaddr u in
    let '(i, u) := r in
    let s := set_udp u s in
    if i <? 0 then Ret (true, s)
    else
      let* r := stiov2_regist s (UDP.udplib_get_remote u) i (i32_at b q_sn) in
      let '(port, s) := r in
      if port <? 0 then Ret (true, s)
      else
        let b := seal2 (put32 b q_port port) len in
        Ret (true, set_udp (UDP.udplib_send (udp s) b len) (set_m_buf b s))
  else Ret (true, s).

(** The loop of the main thread; the sockets the registrations open are answered alike. *)
Fixpoint streamio_v2_main (s : server) (ds : list (UDP.sockaddr * list Z)) : outcome server :=
  match ds with
  | [] => Ret s
  | (a, d) :: ds =>
      if negb (terminate s =? 0) then Ret s
      else let* r := streamio_v2_main_1 s a d in let '(go, s) := r in if go : bool then streamio_v2_main s ds else Ret s
  end.
End regist.

(** ** The interface of the server *)

(** The value is that of [thr->start]. *)
Definition stiov2_start (thr_start : Z) (s : server) : Z * server := (thr_start, set_terminate 0 (set_already_started 1 s)).
Definition stiov2_stop (thr_stop : Z) (s : server) : Z * server := (thr_stop, set_terminate 1 s).
Definition stiov2_pause (s : server) (p : Z) : Z * server :=
  (stop_services s, if 0 <=? p then set_stop_services (if p =? 0 then 0 else 1) s else s).
Definition stiov2_set_fopen (f : option (kernel -> Z -> path -> Z * kernel)) (s : server) : server :=
  mk_server (cli s) (terminate s) (udp s) (maxclient s) (port s) (stop_services s) (already_started s)
    (disk_bufsize s) (net_bufsize s) (disknet_fact s) (packet_map s) f (m_buf s).

Definition stiov2_set_parameter (s : server) (ch diskbuf netbuf : Z) : outcome (Z * server) :=
  if negb (already_started s =? 0) then Ret (0, s)
  else if (ch <? 0) || (MAXIMUM_STIOV2_SERVICES <? ch) then Ret (0, s)
  else if (diskbuf <? 4096) || (DEFAULT_DISKIO_BUFFER_FAVIOR <? diskbuf) then Ret (0, s)
  else if (netbuf <? 4096) || (MAX_TRANS_BUFSIZE <? netbuf) then Ret (0, s)
  else if negb (Z.rem netbuf 1024 =? 0) then Ret (0, s)
  else if negb (Z.rem diskbuf netbuf =? 0) then Ret (0, s)
  else
    let* l1 := aset (disk_bufsize s) ch diskbuf in
    let* l2 := aset (net_bufsize s) ch netbuf in
    let* l3 := aset (disknet_fact s) ch (Z.quot diskbuf netbuf) in
    let* l4 := aset (packet_map s) ch (Z.quot netbuf CARRY + (if 0 <? Z.rem netbuf CARRY then 1 else 0)) in
    Ret (1, mk_server (cli s) (terminate s) (udp s) (maxclient s) (port s) (stop_services s) (already_started s)
              l1 l2 l3 l4 (fopen s) (m_buf s)).

(** ** Creation and disposal *)

(** What [new_client_entry] gets from the system: memory for the structure with what it
    contains, the channels, the thread and the socket. *)
Record entry_mem := mk_emem { em_self : option entry; em_sl : bool; em_thr : bool; em_udp : option UDP.udplib; em_buf : list Z }.

(** [inuse], [sn], [port], [lastuse] and [addr] are not initialised; [calloc] clears the
    channels.  The thread's buffer comes with the entry here. *)
Definition new_local : local := mk_local (-1) (-1) 0 0 0 None 0 0 0.
Definition new_client_entry (m : entry_mem) : option entry :=
  match em_self m with
  | None => None
  | Some g =>
      if negb (em_sl m) then None
      else if negb (em_thr m) then None
      else match em_udp m with
           | None => None
           | Some u0 =>
               Some (mk_entry (UDP.new_udplib u0 0) (e_port g) (e_sn g) (inuse g) (lastuse g) (e_addr g) 0 0
                       (replicate 4 new_local) (em_buf m))
           end
  end.

(** Whether [ce_dispose] frees the buffer of a channel: only that of the first. *)
Definition ce_dispose (s : entry) : list bool :=
  imap (fun i sl => bool_decide (i = 0%nat) && bool_decide (buffer sl <> None)) (e_sl s).

(** The system's answers in [new_streamming_io_v2_server]. *)
Record server_mem := mk_smem { sm_self : bool; sm_thr : bool; sm_cli : bool; sm_entries : list entry_mem; sm_udp : option UDP.udplib; sm_os : UDP.os_socket; sm_buf : list Z }.

(** [for (i = 0; i < maxclient; i++)]: the entries up to the first failure; the others stay NULL. *)
Fixpoint new_entries (l : list entry_mem) : list (option entry) :=
  match l with
  | [] => []
  | m :: l => match new_client_entry m with Some e => Some e :: new_entries l | None => None :: ((fun _ => None) <$> l) end
  end.

(** [cli[i]->dispose (cli[i])] for every entry; the value is what they free. *)
Fixpoint dispose_entries (l : list (option entry)) : outcome (list (list bool)) :=
  match l with
  | [] => Ret []
  | None :: _ => Fault NullDeref
  | Some e :: l => let* r := dispose_entries l in Ret (ce_dispose e :: r)
  end.
Definition stiov2_dispose (s : server) : outcome (list (list bool)) := dispose_entries (cli s).

(** [None] is NULL.  Without a thread, disposal stops a NULL thread.  [initok] is set again
    behind the entries, so that entries that could not be made do not count: the server is
    returned with NULL entries. *)
Definition new_streamming_io_v2_server (m : server_mem) (maxclient port : Z) : outcome (option server) :=
  if negb (sm_self m) then Ret None
  else if negb (sm_thr m) then Fault NullDeref
  else if negb (sm_cli m) then Ret None
  else
    let es := new_entries (take (Z.to_nat maxclient) (sm_entries m)) in
    let opened :=
      match sm_udp m with
      | None => None
      | Some u0 =>
          let '(r, u) := UDP.udplib_open (UDP.new_udplib u0 maxclient) (sm_os m) port false false in
          if r <? 0 then None else Some (snd (UDP.udplib_set_recvflag (snd (UDP.udplib_set_sendflag u 0)) 0))
      end in
    match opened with
    | None => let* _ := dispose_entries es in Ret None
    | Some u =>
        Ret (Some (mk_server es 0 u maxclient port 0 0
               (replicate 4 DEFAULT_DISKIO_BUFFER_FAVIOR) (replicate 4 DEFAULT_STIOV2_TRANS_BUFSIZE)
               (replicate 4 DEFAULT_STIOV2_DISKNET_FACTOR) (replicate 4 DEFAULT_STIOV2_PACKET_MAP) None (sm_buf m)))
    end.

(** ** Facts about the packets *)
Ltac q2 :=
  unfold q_cksum, q_sn, q_cmd, q_channel, q_port, q_protocol_version, q_filecnt, q_filename, q_filesize, q_disk_bufsize,
    q_net_bufsize, q_disknet_fact, q_packet_map, q_ndcnt, q_len, q_reqmap, q_map, q_data, q_orgcmd, q_errcode, q_lerrno,
    SIZEOF_PDU2, SIZEOF_OPEN, SIZEOF_OK, SIZEOF_REQ, SIZEOF_DATA, SIZEOF_ERROR, MAX_PACKET_MAP, CARRY, MAX_TRANS_BUFSIZE,
    MAXIMUM_STIOV2_SERVICES, MAXIMUM_STIOV2_FILENAME_LEN in *; lia.

Lemma seal2_seal b len : seal2 b len = seal b len.
Proof. done. Qed.
Lemma cksum2_seal b len : 4 <= zlen b -> cksum2_ok (seal2 b len) len = true.
Proof. intros H. unfold cksum2_ok. rewrite Z.eqb_sym. apply (seal_ok b len H). Qed.
Lemma zlen_seal2 b len : 4 <= zlen b -> zlen (seal2 b len) = zlen b.
Proof. apply zlen_seal. Qed.
Lemma slice_seal2 b len p n : 4 <= zlen b -> 4 <= p -> slice (seal2 b len) p n = slice b p n.
Proof. apply slice_seal. Qed.
(** The test is made on the bytes of the datagram. *)
Lemma cksum2_rx buf d : 4 <= zlen d <= zlen buf -> cksum2_ok (rx buf d) (zlen d) = cksum2_ok d (zlen d).
Proof. intros H. unfold cksum2_ok, stiov2_cs_cksum, i32_at, q_cksum. by rewrite !slice_rx_in by lia. Qed.
Lemma cksum2_slice b n : 4 <= n <= zlen b -> cksum2_ok (slice b 0 n) n = cksum2_ok b n.
Proof. intros H. unfold cksum2_ok, stiov2_cs_cksum, i32_at, q_cksum. by rewrite !slice_slice by lia. Qed.

Lemma zlen_put8 b o v : 0 <= o < zlen b -> zlen (put8 b o v) = zlen b.
Proof. intros. apply zlen_patch; autorewrite with katmai; lia. Qed.
Lemma u8_put8 b o v : 0 <= o < zlen b -> u8_at (put8 b o v) o = u8 v.
Proof.
  intros. unfold u8_at, put8. rewrite lookup_patch by (autorewrite with katmai; lia). rewrite decide_True by (autorewrite with katmai; lia). by rewrite Nat.sub_diag.
Qed.
Lemma slice_put8_ne b o v p n : 0 <= o < zlen b -> 0 <= p -> p + n <= o \/ o + 1 <= p -> slice (put8 b o v) p n = slice b p n.
Proof. intros. unfold put8. apply slice_patch_ne; autorewrite with katmai; lia. Qed.
Lemma slice_put32_ne b o v p n : 0 <= o -> o + 4 <= zlen b -> 0 <= p -> p + n <= o \/ o + 4 <= p -> slice (put32 b o v) p n = slice b p n.
Proof. intros. unfold put32. apply slice_patch_ne; rewrite ?zlen_le32; lia. Qed.
Lemma char_u8 b b' o : u8_at b o = u8_at b' o -> char_at b o = char_at b' o.
Proof. unfold char_at. by intros ->. Qed.
(** A field is determined by a run of bytes that contains it. *)
Lemma u8_run b b' p n o : slice b p n = slice b' p n -> 0 <= p <= o -> o + 1 <= p + n -> u8_at b o = u8_at b' o.
Proof.
  intros E Hp Ho. rewrite !u8_slice by lia. replace o with (p + (o - p)) by lia. rewrite <- !(slice_slice _ p n) by lia. by rewrite E.
Qed.
Lemma i32_run b b' p n o : slice b p n = slice b' p n -> 0 <= p <= o -> o + 4 <= p + n -> i32_at b o = i32_at b' o.
Proof.
  intros E Hp Ho. unfold i32_at. replace o with (p + (o - p)) by lia. rewrite <- !(slice_slice _ p n) by lia. by rewrite E.
Qed.

(** ** The parameters of a channel *)

(** A disk block is a whole number of network blocks, and these are cut into at most 23
    packets. *)
Record params_ok (svr : server) (ch disk net fact pmap : Z) : Prop := {
  pr_disk : aget (disk_bufsize svr) ch = Ret disk;
  pr_net : aget (net_bufsize svr) ch = Ret net;
  pr_fact : aget (disknet_fact svr) ch = Ret fact;
  pr_pmap : aget (packet_map svr) ch = Ret pmap;
  pr_mul : disk = fact * net;
  pr_range : 0 < fact /\ 4096 <= net <= MAX_TRANS_BUFSIZE /\ disk <= DEFAULT_DISKIO_BUFFER_FAVIOR;
  pr_ceil : (pmap - 1) * CARRY < net <= pmap * CARRY;
}.
Definition all_params (svr : server) : Prop :=
  forall ch, 0 <= ch < MAXIMUM_STIOV2_SERVICES -> exists disk net fact pmap, params_ok svr ch disk net fact pmap.

Lemma pmap_range svr ch disk net fact pmap : params_ok svr ch disk net fact pmap -> 0 < pmap <= MAX_PACKET_MAP.
Proof. intros P. pose proof (pr_range _ _ _ _ _ _ P). pose proof (pr_ceil _ _ _ _ _ _ P). q2. Qed.

Definition lens (svr : server) : Prop :=
  zlen (disk_bufsize svr) = 4 /\ zlen (net_bufsize svr) = 4 /\ zlen (disknet_fact svr) = 4 /\ zlen (packet_map svr) = 4.

Lemma ceil_packets net : 0 < net -> let p := Z.quot net CARRY + (if 0 <? Z.rem net CARRY then 1 else 0) in (p - 1) * CARRY < net <= p * CARRY.
Proof.
  intros H. cbv zeta. rewrite Z.quot_div_nonneg, Z.rem_mod_nonneg by q2. unfold CARRY. destruct (Z.ltb_spec 0 (net mod 1439)); Z.div_mod_to_equations; lia.
Qed.

Lemma aget_insert_ne {A} (l : list A) i j x : 0 <= i -> 0 <= j -> i <> j -> aget (<[Z.to_nat i := x]> l) j = aget l j.
Proof. intros. unfold aget. by rewrite list_lookup_insert_ne by lia. Qed.

Definition settable (s : server) (disk net : Z) : Prop :=
  already_started s = 0 /\ 4096 <= disk <= DEFAULT_DISKIO_BUFFER_FAVIOR /\ 4096 <= net <= MAX_TRANS_BUFSIZE /\ (1024 | net) /\ (net | disk).
#[local] Instance settable_dec s disk net : Decision (settable s disk net).
Proof.
  unfold settable. assert (forall a b, Decision (a | b)) by (intros a b; destruct (Znumtheory.Zdivide_dec a b); [by left|by right]). apply _.
Qed.
(** Setting the parameters of a channel keeps those of every channel consistent; they are
    stored exactly when the server has not been started, the sizes are in range and the disk
    buffer is a multiple of the network buffer. *)
Theorem set_parameter_ok (s : server) (ch disk net : Z) : lens s -> all_params s -> 0 <= ch < MAXIMUM_STIOV2_SERVICES ->
  exists rc s', stiov2_set_parameter s ch disk net = Ret (rc, s') /\ lens s' /\ all_params s' /\
    (settable s disk net -> rc = 1 /\ exists fact pmap, params_ok s' ch disk net fact pmap) /\
    (~ settable s disk net -> rc = 0 /\ s' = s).
Proof.
  intros (L1 & L2 & L3 & L4) HP Hch. unfold stiov2_set_parameter. destruct (decide (settable s disk net)) as [Hc|Hc].
  - pose proof Hc as (Hst & Hd & Hn & D1 & D2). unfold MAXIMUM_STIOV2_SERVICES, DEFAULT_DISKIO_BUFFER_FAVIOR, MAX_TRANS_BUFSIZE in *.
    rewrite Hst, (proj2 (Z.ltb_ge ch 0)), (proj2 (Z.ltb_ge 4 ch)), (proj2 (Z.ltb_ge disk 4096)), (proj2 (Z.ltb_ge 1048576 disk)), (proj2 (Z.ltb_ge net 4096)), (proj2 (Z.ltb_ge 32768 net)) by lia.
    rewrite !Z.rem_mod_nonneg by lia. rewrite (proj2 (Z.mod_divide net 1024 ltac:(lia)) D1), (proj2 (Z.mod_divide disk net ltac:(lia)) D2). cbn [negb orb Z.eqb].
    rewrite !aset_Ret by lia. cbn [obind]. destruct D2 as [fact ->]. rewrite Z.quot_mul by lia.
    match goal with |- context [Ret (1, ?x)] => set (s' := x); exists 1, s' end. split; [done|]. split; [unfold lens, s'; cbn; by rewrite !zlen_insert|].
    assert (params_ok s' ch (fact * net) net fact (Z.quot net CARRY + (if 0 <? Z.rem net CARRY then 1 else 0))) as P.
    { split; [unfold s'; cbn; apply aget_insert; lia..|done| |apply ceil_packets; lia]. unfold MAX_TRANS_BUFSIZE, DEFAULT_DISKIO_BUFFER_FAVIOR. nia. }
    split; [|split; [by eauto|done]]. intros c Hcc. destruct (decide (c = ch)) as [->|Hne]; [by eauto|]. destruct (HP c Hcc) as (a1 & a2 & a3 & a4 & [Q1 Q2 Q3 Q4 Q5 Q6 Q7]).
    exists a1, a2, a3, a4. split; [unfold s'; cbn; rewrite aget_insert_ne by lia; done..|done|done|done].
  - exists 0, s. split; [|done]. unfold MAXIMUM_STIOV2_SERVICES, DEFAULT_DISKIO_BUFFER_FAVIOR, MAX_TRANS_BUFSIZE in *.
    rewrite (proj2 (Z.ltb_ge ch 0)), (proj2 (Z.ltb_ge 4 ch)) by lia. cbn [orb].
    destruct (Z.eqb_spec (already_started s) 0); [|done]. cbn [negb]. destruct (Z.ltb_spec disk 4096), (Z.ltb_spec 1048576 disk); try done. cbn [orb].
    destruct (Z.ltb_spec net 4096), (Z.ltb_spec 32768 net); try done. cbn [orb]. rewrite !Z.rem_mod_nonneg by lia.
    destruct (Z.eqb_spec (net mod 1024) 0) as [E1|]; [|done]. destruct (Z.eqb_spec (disk mod net) 0) as [E2|]; [|done]. exfalso. apply Hc.
    unfold settable, DEFAULT_DISKIO_BUFFER_FAVIOR, MAX_TRANS_BUFSIZE. split_and!; first [lia | by apply Z.mod_divide; [lia|]].
Qed.

(** The bound of the channel is off by one: channel 4 is accepted, and the parameters are
    written behind the arrays. *)
Theorem set_parameter_overruns (s : server) : lens s -> already_started s = 0 ->
  stiov2_set_parameter s 4 DEFAULT_DISKIO_BUFFER_FAVIOR DEFAULT_STIOV2_TRANS_BUFSIZE = Fault OutOfBounds.
Proof. intros (L1 & _) Hst. unfold stiov2_set_parameter. rewrite Hst, (aset_OOB (disk_bufsize s) 4) by lia. done. Qed.

(** ** The disk buffer *)
Lemma copied (buf1 : list Z) rc D p len : 0 <= rc -> 0 <= p -> slice buf1 rc len = slice D p len ->
  forall i : nat, rc <= Z.of_nat i < rc + len -> buf1 !! i = D !! Z.to_nat (p + (Z.of_nat i - rc)).
Proof.
  intros Hr Hp E i Hi. apply (f_equal (.!! Z.to_nat (Z.of_nat i - rc))) in E. rewrite !lookup_slice in E by lia.
  replace (Z.to_nat rc + Z.to_nat (Z.of_nat i - rc))%nat with i in E by lia. rewrite E. f_equal. lia.
Qed.

(** Files other than [fdn] are left alone. *)
Definition others (fdn : Z) (k k' : kernel) : Prop := k_fs k' = k_fs k /\ forall f, f <> fdn -> get_file k' f = get_file k f.
Lemma others_refl fdn k : others fdn k k.
Proof. done. Qed.
Lemma others_trans fdn k1 k2 k3 : others fdn k1 k2 -> others fdn k2 k3 -> others fdn k1 k3.
Proof. intros [A1 A2] [B1 B2]. split; [congruence|]. intros f Hf. by rewrite B2, A2. Qed.
Lemma others_set fdn k f : 0 <= fdn -> others fdn k (set_file k fdn f).
Proof. intros H. split; [done|]. intros g Hg. apply get_file_set_ne; [done|congruence]. Qed.

Lemma get_file_nonneg k fdn f : get_file k fdn = Some f -> 0 <= fdn.
Proof. unfold get_file. destruct (Z.ltb_spec fdn 0); [done|lia]. Qed.

Lemma sys_read_others chunk k fdn n : others fdn k (snd (sys_read chunk k fdn n)).
Proof.
  unfold sys_read. destruct (get_file k fdn) as [f|] eqn:E; [|by split]. destruct (_ <=? 0); [by split|]. apply others_set. by eapply get_file_nonneg.
Qed.

Section disk.
Context (chunk : Z -> Z -> Z).

(** However [read] splits the file, [fullread] gets all that is wanted and there. *)
Lemma fullread_loop_spec fuel : forall k fdn buf explen rc D p,
  get_file k fdn = Some (mk_ofile D p) -> 0 <= p -> 0 <= rc -> rc + explen <= zlen buf -> explen <= Z.of_nat fuel ->
  let t := Z.max 0 (Z.min explen (zlen D - p)) in
  exists buf' k', fullread_loop chunk fuel k fdn buf explen rc = Ret (rc + t, buf', k') /\ zlen buf' = zlen buf /\ others fdn k k' /\
    get_file k' fdn = Some (mk_ofile D (p + t)) /\ (forall i, Z.of_nat i < rc -> buf' !! i = buf !! i) /\
    (forall i, rc <= Z.of_nat i < rc + t -> buf' !! i = D !! Z.to_nat (p + (Z.of_nat i - rc))).
Proof.
  induction fuel as [|fuel IH]; intros k fdn buf explen rc D p Hf Hp Hr Hb Hfu t; cbn [fullread_loop]; destruct (Z.leb_spec explen 0) as [He|He]; try lia;
    try (replace t with 0 by lia; exists buf, k; rewrite !Z.add_0_r; split_and!; try done; intros; lia).
  destruct (Z.le_gt_cases (zlen D) p) as [Hd|Hd].
  - rewrite (sys_read_eof chunk k fdn _ explen Hf) by (simpl; lia). replace t with 0 by lia. exists buf, k. rewrite !Z.add_0_r. split_and!; try done; intros; lia.
  - pose proof (sys_read_others chunk k fdn explen) as Ho. destruct (sys_read_file chunk k fdn _ explen Hf) as (len & k' & E & Hlen & Hle & Hf'); simpl in *; [lia..|].
    rewrite E in *. cbn [snd] in Ho. rewrite (proj2 (Z.ltb_lt 0 len)) by lia. assert (zlen (slice D p len) = len) as Hsl by (apply zlen_slice; lia).
    destruct (blit_Ret buf rc (slice D p len)) as (buf1 & -> & Hz1 & Hs1 & Hk1); [lia|lia|]. rewrite Hsl in *. cbn [obind].
    pose proof (copied buf1 rc D p len Hr Hp Hs1) as Hcopy.
    destruct (IH k' fdn buf1 (explen - len) (rc + len) D (p + len)) as (buf2 & k2 & H1 & H2 & H3 & H4 & H5 & H6); [done|lia..|].
    rewrite H1. replace (Z.max 0 (Z.min (explen - len) (zlen D - (p + len)))) with (t - len) in * by lia.
    exists buf2, k2. split; [do 3 f_equal; lia|]. split; [lia|]. split; [by eapply others_trans|]. split; [rewrite H4; do 2 f_equal; lia|]. split.
    + intros i Hi. rewrite H5 by lia. apply Hk1. lia.
    + intros i Hi. destruct (Z.lt_ge_cases (Z.of_nat i) (rc + len)).
      * rewrite H5 by lia. apply Hcopy. lia.
      * rewrite H6 by lia. f_equal. lia.
Qed.

(** The file [F] is open on a channel with disk blocks of [disk] bytes: the buffer holds
    block [blkcnt], and reading goes on behind it. *)
Record holds (disk : Z) (F : list Z) (k : kernel) (sl : local) : Prop := {
  ho_fd : 0 <= fd sl;
  ho_size : filesize sl = zlen F;
  ho_max : zlen F <= INT_MAX;
  ho_curr : curr_fptr sl = 0;
  ho_bufsize : bufsize sl = disk;
  ho_blk : -1 <= blkcnt sl < INT_MAX;
  ho_buf : exists dbuf, buffer sl = Some dbuf /\ zlen dbuf = disk /\
    (0 <= blkcnt sl -> forall j : nat, Z.of_nat j < disk -> blkcnt sl * disk + Z.of_nat j < zlen F -> dbuf !! j = F !! Z.to_nat (blkcnt sl * disk + Z.of_nat j));
  ho_pos : exists p, get_file k (fd sl) = Some (mk_ofile F p) /\ 0 <= p /\ (p = (blkcnt sl + 1) * disk \/ zlen F <= p /\ zlen F <= (blkcnt sl + 1) * disk);
}.

Lemma load_block_spec svr ch disk net fact pmap F k sl blk : params_ok svr ch disk net fact pmap -> holds disk F k sl -> 0 <= blk -> blk * disk <= INT_MAX ->
  exists sl' k', load_block chunk svr k sl ch blk = Ret (sl', k') /\ holds disk F k' sl' /\ blkcnt sl' = blk /\ fd sl' = fd sl /\ others (fd sl) k k'.
Proof.
  intros P H Hb Hov. pose proof (pr_range _ _ _ _ _ _ P) as (Hfact & Hnet & Hdisk). pose proof (pr_mul _ _ _ _ _ _ P) as Hmul. unfold load_block.
  destruct (Z.eqb_spec blk (blkcnt sl)) as [->|Hne]; [by exists sl, k|]. destruct H as [H1 H2 H3 H4 H5 H6 (dbuf & H7 & H8 & H9) (p & Hp & Hp0 & Hp1)].
  rewrite (ck_Ret (blkcnt sl + 1)) by int_lia. cbn [obind]. rewrite (pr_disk _ _ _ _ _ _ P). cbn [obind].
  assert (blk < INT_MAX) as Hbi by (assert (blk * 4096 <= blk * disk) by nia; int_lia).
  assert (exists k1 p1, (if blk =? blkcnt sl + 1 then Ret k else let* off := ck (blk * disk) in Ret (if off <? 0 then k else sys_lseek k (fd sl) off)) = Ret k1 /\
    others (fd sl) k k1 /\ get_file k1 (fd sl) = Some (mk_ofile F p1) /\ 0 <= p1 /\ (p1 = blk * disk \/ zlen F <= p1 /\ zlen F <= blk * disk)) as (k1 & p1 & -> & O1 & G1 & Hp1' & Hc).
  { destruct (Z.eqb_spec blk (blkcnt sl + 1)) as [->|]; [by exists k, p|]. rewrite ck_Ret by (assert (0 <= blk * disk) by nia; int_lia). cbn [obind].
    rewrite (proj2 (Z.ltb_ge (blk * disk) 0)) by nia. unfold sys_lseek. rewrite Hp. eexists _, (blk * disk). split; [done|].
    split; [by apply others_set|]. split; [by eapply get_file_set|]. split; [nia|by left]. }
  cbn [obind]. rewrite H7. unfold fullread. rewrite H4, H2, H5, Z.sub_0_r, ck_Ret by (pose proof (zlen_nonneg F); int_lia). cbn [obind].
  set (ex := if zlen F <? disk then zlen F else disk). assert (ex = Z.min (zlen F) disk) as Hex by (unfold ex; destruct (Z.ltb_spec (zlen F) disk); lia).
  pose proof (zlen_nonneg F). destruct (fullread_loop_spec (Z.to_nat ex) k1 (fd sl) dbuf ex 0 F p1) as (buf' & k' & E & Z1 & O2 & G2 & _ & C2); [done|lia..|].
  rewrite E. cbn [obind]. eexists _, k'. split; [done|]. cbn [blkcnt fd]. split; [|split; [done|split; [done|by eapply others_trans]]].
  split; cbn [fd filesize curr_fptr bufsize blkcnt buffer]; [done|done|done|done|done|lia| |].
  - exists buf'. split; [done|]. split; [lia|]. intros _ j Hj1 Hj2. destruct Hc as [->|Hc]; [|lia]. rewrite C2 by lia. f_equal. lia.
  - eexists. split; [exact G2|]. split; [lia|]. rewrite Z.add_0_l in *. nia.
Qed.
End disk.

(** ** Answering a request *)
Definition packet_len (net pmap i : Z) : Z := if i =? pmap - 1 then net - i * CARRY else CARRY.
(** The packets the client asks for: those its map marks. *)
Definition wanted (map : list Z) (i n : Z) : list Z := filter (fun j => aget map j <> Ret 0) (seqZ i n).

(** Packet [i] as a datagram, cut from the disk buffer at [base]. *)
Definition is_packet (hdr dbuf : list Z) (base net pmap i : Z) (d : list Z) : Prop :=
  0 <= i < pmap /\ zlen d = SIZEOF_DATA /\ cksum2_ok d SIZEOF_DATA = true /\ slice d q_sn 14 = hdr /\ u8_at d q_map = i /\
  slice d q_data (packet_len net pmap i) = slice dbuf (base + i * CARRY) (packet_len net pmap i).

(** [udp->send] of several packets. *)
Definition emits (u : UDP.udplib) (ds : list (list Z)) : UDP.udplib := foldl (fun u d => UDP.emit (UDP.rmaddr u) d u) u ds.
Lemma emits_fields ds : forall u, UDP.rmaddr (emits u ds) = UDP.rmaddr u /\ UDP.myport (emits u ds) = UDP.myport u /\
  UDP.sent (emits u ds) = UDP.sent u ++ ((UDP.rmaddr u,.) <$> ds).
Proof.
  induction ds as [|d ds IH]; intros u; [by rewrite app_nil_r|]. destruct (IH (UDP.emit (UDP.rmaddr u) d u)) as (A & B & C). split_and!; [exact A|exact B|].
  change (emits u (d :: ds)) with (emits (UDP.emit (UDP.rmaddr u) d u) ds). rewrite C. cbn. by rewrite <- app_assoc.
Qed.

Lemma packet_len_range net pmap i : (pmap - 1) * CARRY < net <= pmap * CARRY -> 0 <= i < pmap -> 0 < packet_len net pmap i <= CARRY /\ i * CARRY + packet_len net pmap i <= net.
Proof. intros H Hi. unfold packet_len, CARRY in *. destruct (Z.eqb_spec i (pmap - 1)); nia. Qed.

(** One packet, as the loop builds it. *)
Lemma build_packet b dbuf idx i n : zlen b = 2000 -> 0 <= i < 128 -> 0 <= n <= CARRY -> 0 <= idx -> idx + n <= zlen dbuf ->
  exists b', blit (put8 b q_map i) q_data (slice dbuf idx n) = Ret b' /\ zlen b' = 2000 /\ slice b' q_sn 14 = slice b q_sn 14 /\ u8_at b' q_map = i /\
    slice b' q_data n = slice dbuf idx n.
Proof.
  intros Hb Hi Hn Hx Hd. assert (zlen (slice dbuf idx n) = n) as Hs by (apply zlen_slice; lia). assert (zlen (put8 b q_map i) = 2000) as Hz by (rewrite zlen_put8; q2).
  rewrite blit_patch by (rewrite ?Hs, ?Hz; q2). eexists. split; [done|]. split; [rewrite zlen_patch; rewrite ?Hs, ?Hz; q2|]. split; [|split].
  - rewrite slice_patch_ne by (rewrite ?Hs, ?Hz; q2). apply slice_put8_ne; q2.
  - rewrite (u8_run _ (put8 b q_map i) q_map 1) by (first [q2 | apply slice_patch_ne; rewrite ?Hs, ?Hz; q2]). rewrite u8_put8 by q2. unfold u8. apply Z.mod_small. lia.
  - apply slice_patch_eq; rewrite ?Hs, ?Hz; q2.
Qed.

Section packets.
Context (net pmap fact blkent : Z) (map dbuf : list Z) (Hc : (pmap - 1) * CARRY < net <= pmap * CARRY) (Hp : 0 < pmap <= MAX_PACKET_MAP) (Hn : net <= MAX_TRANS_BUFSIZE).
Context (Hm : zlen map = MAX_PACKET_MAP) (Hb : 0 <= blkent < fact) (Hd : zlen dbuf = fact * net) (Hdm : fact * net <= DEFAULT_DISKIO_BUFFER_FAVIOR).

Lemma send_packets_spec n : forall i b u, 0 <= i -> i + Z.of_nat n = pmap -> zlen b = 2000 ->
  exists b' u' ds, send_packets n i pmap net blkent map dbuf b u = Ret (b', u') /\ zlen b' = 2000 /\ slice b' q_sn 14 = slice b q_sn 14 /\
    u' = emits u ds /\
    Forall2 (is_packet (slice b q_sn 14) dbuf (blkent * net) net pmap) (wanted map i (Z.of_nat n)) ds.
Proof.
  induction n as [|n IH]; intros i b u Hi Hin Hzb; cbn [send_packets].
  { exists b, u, []. by split_and!. }
  destruct (aget_lt map i) as (w & Ew & _); [q2|]. rewrite Ew. cbn [obind]. unfold wanted. rewrite seqZ_cons by lia. replace (Z.pred (Z.of_nat (S n))) with (Z.of_nat n) by lia. cbn [filter list_filter].
  destruct (Z.eqb_spec w 0) as [->|Hw].
  { destruct (IH (i + 1) b u) as (b' & u' & ds & E & R); [lia|lia|done|]. rewrite decide_False by (intros H; by apply H). exists b', u', ds. split; [done|]. exact R. }
  rewrite decide_True by (rewrite Ew; congruence). destruct (packet_len_range net pmap i Hc ltac:(lia)) as [Hl1 Hl2].
  assert (0 < net) by q2. assert (0 <= blkent * net /\ blkent * net + net <= fact * net) as [B1 B2] by nia. unfold DEFAULT_DISKIO_BUFFER_FAVIOR in *.
  rewrite (ck_Ret (blkent * net)) by int_lia. cbn [obind]. rewrite (ck_Ret (blkent * net + i * CARRY)) by (unfold CARRY in *; int_lia). cbn [obind]. fold (packet_len net pmap i).
  rewrite (proj2 (Z.leb_le 0 (packet_len net pmap i))), (proj2 (Z.leb_le 0 (blkent * net + i * CARRY))), (proj2 (Z.leb_le _ (zlen dbuf))) by (unfold CARRY in *; lia). cbn [andb].
  destruct (build_packet b dbuf (blkent * net + i * CARRY) i (packet_len net pmap i)) as (b1 & -> & Z1 & S1 & U1 & D1); [done|q2|lia|q2|lia|]. cbn [obind].
  pose proof (zlen_seal2 b1 SIZEOF_DATA ltac:(lia)) as Zs. destruct (IH (i + 1) (seal2 b1 SIZEOF_DATA) (UDP.udplib_send u (seal2 b1 SIZEOF_DATA) SIZEOF_DATA))
    as (b' & u' & ds & E & R1 & R2 & R4 & R5); [lia|lia|lia|]. rewrite slice_seal2, S1 in R2, R5 by q2.
  exists b', u', (slice (seal2 b1 SIZEOF_DATA) 0 SIZEOF_DATA :: ds). split; [exact E|]. split; [done|]. split; [done|]. split; [exact R4|].
  constructor; [|exact R5]. split; [lia|]. split; [apply zlen_slice; q2|]. split; [rewrite cksum2_slice by q2; apply cksum2_seal; lia|].
    split; [rewrite slice_slice, slice_seal2 by q2; exact S1|]. split.
  - rewrite u8_slice, slice_slice, slice_seal2 by q2. replace (0 + q_map) with q_map by lia. by rewrite <- u8_slice by q2.
  - rewrite slice_slice, slice_seal2 by q2. exact D1.
Qed.
End packets.

(** Packet [i] of network block [nd] of the file, in answer to the request [b]. *)
Definition data_packet (F b : list Z) (net pmap nd i : Z) (d : list Z) : Prop :=
  0 <= i < pmap /\ zlen d = SIZEOF_DATA /\ cksum2_ok d SIZEOF_DATA = true /\ slice d q_sn 14 = slice b q_sn 14 /\ u8_at d q_map = i /\
  forall q : nat, Z.of_nat q < packet_len net pmap i -> nd * net + i * CARRY + Z.of_nat q < zlen F ->
    d !! Z.to_nat (q_data + Z.of_nat q) = F !! Z.to_nat (nd * net + i * CARRY + Z.of_nat q).

(** What serving a request leaves as it is. *)
Definition same_client (s s' : entry) : Prop :=
  e_sn s' = e_sn s /\ e_addr s' = e_addr s /\ inuse s' = inuse s /\ e_port s' = e_port s /\ zlen (e_buf s') = zlen (e_buf s) /\
  UDP.rmaddr (e_udp s') = UDP.rmaddr (e_udp s) /\ UDP.myport (e_udp s') = UDP.myport (e_udp s).

Section serve.
Context (chunk : Z -> Z -> Z) (malloc : Z -> option (list Z)) (now : Z).
Context (svr : server) (ch disk net fact pmap : Z) (P : params_ok svr ch disk net fact pmap).

Lemma fetch_serves (F : list Z) (k : kernel) (s : entry) (sl : local) :
  aget (e_sl s) ch = Ret sl -> holds disk F k sl -> zlen (e_buf s) = 2000 -> let nd := i32_at (e_buf s) q_ndcnt in 0 <= nd -> nd * net <= INT_MAX ->
  exists s' k' sl' ds, remote_fetch_file chunk svr k s ch = Ret (s', k') /\ same_client s s' /\
    e_sl s' = <[Z.to_nat ch := sl']> (e_sl s) /\ holds disk F k' sl' /\ others (fd sl) k k' /\
    UDP.sent (e_udp s') = UDP.sent (e_udp s) ++ ((UDP.rmaddr (e_udp s),.) <$> ds) /\
    Forall2 (data_packet F (e_buf s) net pmap nd) (wanted (slice (e_buf s) q_reqmap MAX_PACKET_MAP) 0 pmap) ds.
Proof.
  intros Hsl H Hb nd Hnd Hov. pose proof (pr_range _ _ _ _ _ _ P) as (Hfact & Hnet & Hdisk). pose proof (pr_mul _ _ _ _ _ _ P) as Hmul. pose proof (pmap_range _ _ _ _ _ _ P) as Hpm.
  unfold remote_fetch_file. rewrite Hsl. cbn [obind]. rewrite (proj2 (Z.ltb_ge (fd sl) 0)) by apply H. fold nd. rewrite (pr_fact _ _ _ _ _ _ P). cbn [obind].
  rewrite cquot_Ret, crem_Ret by lia. cbn [obind]. assert (nd = fact * (nd / fact) + nd mod fact) as Hdm by (apply Z.div_mod; lia). assert (0 <= nd mod fact < fact) as Hr by (apply Z.mod_pos_bound; lia).
  assert (0 <= nd / fact) by (apply Z.div_pos; lia). set (q := nd / fact) in *. set (r := nd mod fact) in *. assert (q * disk = nd * net - r * net) as Hqd by nia. assert (0 <= r * net) by nia.
  destruct (load_block_spec chunk svr ch disk net fact pmap F k sl q P H) as (sl' & k' & -> & H' & Eb & Ef & Ho); [lia|lia|]. cbn [obind].
  destruct (aget_inv _ _ _ Hsl) as [Hch _]. rewrite aset_Ret by lia. cbn [obind]. rewrite (pr_pmap _ _ _ _ _ _ P), (pr_net _ _ _ _ _ _ P). cbn [obind].
  destruct (ho_buf _ _ _ _ H') as (dbuf & Ed & Hzd & Hcont). rewrite Ed. rewrite Eb in *.
  destruct (send_packets_spec net pmap fact r (slice (e_buf s) q_reqmap MAX_PACKET_MAP) dbuf) with (n := Z.to_nat pmap) (i := 0) (b := e_buf s) (u := e_udp s)
    as (b' & u' & ds & E & Z1 & S1 & R2 & R3); [apply P|done|lia|apply zlen_slice; q2|done|lia|lia|lia|q2|done|]. rewrite Z2Nat.id in R3 by lia.
  rewrite E. cbn [obind]. eexists _, k', sl', ds. split; [done|]. split; [|split; [done|split; [done|split; [done|split; [cbn; rewrite R2; apply emits_fields|]]]]].
  - unfold same_client. cbn. rewrite R2. destruct (emits_fields ds (e_udp s)) as (A1 & A2 & _). split_and!; try done. lia.
  - eapply Forall2_impl; [exact R3|]. intros i d (D1 & D2 & D3 & D4 & D5 & D6). split_and!; try done; try lia. intros j Hj Hf. destruct (packet_len_range net pmap i (pr_ceil _ _ _ _ _ _ P) D1) as [L1 L2].
    apply (f_equal (.!! j)) in D6. rewrite !lookup_slice in D6 by q2. replace (Z.to_nat (q_data + Z.of_nat j)) with (Z.to_nat q_data + j)%nat by q2. rewrite D6.
    assert (0 <= i * CARRY) by q2. rewrite Hcont by nia. f_equal. nia.
Qed.

(** ** Opening a file *)

(** The buffer of a channel, if there is one, has the size of its disk blocks. *)
Definition chan_mem (sl : local) : Prop := match buffer sl with Some b => zlen b = disk /\ bufsize sl = disk | None => True end.
Lemma holds_mem F k sl : holds disk F k sl -> chan_mem sl.
Proof. intros H. destruct (ho_buf _ _ _ _ H) as (b & E & Hz & _). unfold chan_mem. rewrite E. split; [done|apply H]. Qed.

(** The reply to an open request [b] for a file of [size] bytes. *)
Definition ok_packet (b : list Z) (size : Z) (d : list Z) : Prop :=
  zlen d = SIZEOF_OK /\ cksum2_ok d SIZEOF_OK = true /\ slice d q_sn 10 = slice b q_sn 10 /\ i32_at d q_filesize = size /\
  i32_at d q_disk_bufsize = disk /\ i32_at d q_net_bufsize = net /\ i32_at d q_disknet_fact = fact /\ i32_at d q_packet_map = pmap.

Lemma ok_pdu_spec b size : zlen b = 2000 -> int_ok size -> exists b', ok_pdu svr ch size b = Ret b' /\ zlen b' = 2000 /\ ok_packet b size (slice b' 0 SIZEOF_OK).
Proof.
  intros Hb Hs. pose proof (pr_range _ _ _ _ _ _ P) as (Hfact & Hnet & Hdisk). pose proof (pr_mul _ _ _ _ _ _ P) as Hmul. pose proof (pmap_range _ _ _ _ _ _ P) as Hpm.
  unfold DEFAULT_DISKIO_BUFFER_FAVIOR, MAX_TRANS_BUFSIZE, MAX_PACKET_MAP in *. assert (fact <= disk) by nia.
  unfold ok_pdu. rewrite (pr_disk _ _ _ _ _ _ P), (pr_net _ _ _ _ _ _ P), (pr_fact _ _ _ _ _ _ P), (pr_pmap _ _ _ _ _ _ P). cbn [obind]. eexists. split; [done|].
  set (b1 := put32 b q_filesize size). set (b2 := put32 b1 q_disk_bufsize disk). set (b3 := put32 b2 q_net_bufsize net). set (b4 := put32 b3 q_disknet_fact fact). set (b5 := put32 b4 q_packet_map pmap).
  assert (zlen b1 = 2000) as Z1 by (unfold b1; rewrite zlen_put32; q2). assert (zlen b2 = 2000) as Z2 by (unfold b2; rewrite zlen_put32; q2).
  assert (zlen b3 = 2000) as Z3 by (unfold b3; rewrite zlen_put32; q2). assert (zlen b4 = 2000) as Z4 by (unfold b4; rewrite zlen_put32; q2).
  assert (zlen b5 = 2000) as Z5 by (unfold b5; rewrite zlen_put32; q2). assert (zlen (seal2 b5 SIZEOF_OK) = 2000) as Z6 by (rewrite zlen_seal2; lia).
  split; [done|]. assert (forall p, 4 <= p -> p + 4 <= SIZEOF_OK -> i32_at (slice (seal2 b5 SIZEOF_OK) 0 SIZEOF_OK) p = i32_at b5 p) as HI.
  { intros p H1 H2. unfold i32_at. by rewrite slice_slice, slice_seal2 by q2. }
  split; [apply zlen_slice; q2|]. split; [rewrite cksum2_slice by q2; apply cksum2_seal; lia|]. split; [rewrite slice_slice, slice_seal2 by q2|].
  - unfold b5. rewrite slice_put32_ne by q2. unfold b4. rewrite slice_put32_ne by q2. unfold b3. rewrite slice_put32_ne by q2. unfold b2. rewrite slice_put32_ne by q2.
    unfold b1. by rewrite slice_put32_ne by q2.
  - rewrite !HI by q2. unfold b5. rewrite (i32_put32 b4) by (q2 || int_lia). rewrite !(i32_put32_ne b4) by q2. unfold b4. rewrite (i32_put32 b3) by (q2 || int_lia). rewrite !(i32_put32_ne b3) by q2.
    unfold b3. rewrite (i32_put32 b2) by (q2 || int_lia). rewrite !(i32_put32_ne b2) by q2. unfold b2. rewrite (i32_put32 b1) by (q2 || int_lia). rewrite !(i32_put32_ne b1) by q2.
    unfold b1. by rewrite (i32_put32 b) by (q2 || int_lia).
Qed.

Lemma close_old_spec k sl : k_fs (snd (close_old k sl)) = k_fs k /\ buffer (fst (close_old k sl)) = buffer sl /\ bufsize (fst (close_old k sl)) = bufsize sl.
Proof. unfold close_old. destruct (0 <=? fd sl); [|done]. cbn. unfold sys_close. by destruct (get_file k (fd sl)). Qed.

Lemma open_serves (F : list Z) (k : kernel) (s : entry) (sl : local) (name m : list Z) :
  aget (e_sl s) ch = Ret sl -> chan_mem sl -> malloc disk = Some m -> zlen m = disk -> zlen (e_buf s) = 2000 -> fopen svr = None ->
  cstr_at (e_buf s) q_filename = Some name -> k_fs k name = Some (F, true) -> zlen F <= INT_MAX ->
  exists s' k' sl' d, remote_openfile malloc now svr k s ch = Ret (s', k') /\ same_client s s' /\
    e_sl s' = <[Z.to_nat ch := sl']> (e_sl s) /\ holds disk F k' sl' /\ k_fs k' = k_fs k /\
    UDP.sent (e_udp s') = UDP.sent (e_udp s) ++ [(UDP.rmaddr (e_udp s), d)] /\ ok_packet (e_buf s) (zlen F) d.
Proof.
  intros Hsl Hm Hma Hzm Hb Hfo Hn Hfs HF. pose proof (zlen_nonneg F). pose proof (pr_range _ _ _ _ _ _ P) as (Hfact & Hnet & Hdisk).
  unfold remote_openfile. rewrite Hsl. cbn [obind]. destruct (close_old_spec k sl) as (C1 & C2 & C3). destruct (close_old k sl) as [sl1 k1]. cbn [fst snd] in *.
  rewrite (pr_disk _ _ _ _ _ _ P). cbn [obind].
  assert (exists dbuf, get_buffer malloc sl1 disk = Some (dbuf, disk) /\ zlen dbuf = disk) as (dbuf & -> & Hzd).
  { unfold get_buffer, chan_mem in *. rewrite C2, C3. destruct (buffer sl) as [b|]; [exists b; by destruct Hm as [? ->]|exists m; by rewrite Hma]. }
  rewrite Hn. unfold do_fopen. rewrite Hfo. cbn [default]. unfold dummy_fopen. destruct (sys_open k1 name) as [fdn k2] eqn:Eo.
  destruct (sys_open_get k1 name F fdn k2) as [Hf0 Hg]; [by rewrite C1|done|]. rewrite (proj2 (Z.ltb_ge fdn 0)) by done. rewrite Hg. cbn [of_data].
  rewrite to_int_id by int_lia. destruct (aget_inv _ _ _ Hsl) as [Hch _]. rewrite aset_Ret by lia. cbn [obind].
  destruct (ok_pdu_spec (e_buf s) (zlen F)) as (b' & -> & Zb & Hok); [done|int_lia|]. cbn [obind].
  eexists _, k2, _, _. split; [done|]. split; [unfold same_client; cbn; split_and!; try done; lia|]. split; [done|]. split; [|split; [|split; [done|done]]].
  - split; cbn; [done|done|lia|done|done|int_lia| |].
    + exists dbuf. split; [done|]. split; [done|]. lia.
    + exists 0. split; [done|]. split; [lia|]. left. lia.
  - unfold sys_open in Eo. rewrite C1, Hfs in Eo. injection Eo as <- <-. done.
Qed.
End serve.

(** ** A turn of a service thread *)

(** A request as the client [a] registered in [s] sends it. *)
Record request (s : entry) (a : UDP.sockaddr) (ch cmd : Z) (d : list Z) : Prop := {
  rq_len : 20 <= zlen d <= 2000;
  rq_cksum : cksum2_ok d (zlen d) = true;
  rq_addr : UDP.sin_addr a = e_addr s;
  rq_sn : i32_at d q_sn = e_sn s;
  rq_ch : char_at d q_channel = ch;
  rq_cmd : char_at d q_cmd = cmd;
}.
(** The entry that has received [d]. *)
Definition received (s : entry) (a : UDP.sockaddr) (d : list Z) : entry :=
  set_e_udp (UDP.set_rmaddr a (e_udp s)) (set_e_buf (rx (e_buf s) d) s).

Lemma i32_rx buf d o : 0 <= o -> o + 4 <= zlen d -> zlen d <= zlen buf -> i32_at (rx buf d) o = i32_at d o.
Proof. intros. unfold i32_at. by rewrite slice_rx_in by lia. Qed.
Lemma u8_rx buf d o : 0 <= o < zlen d -> zlen d <= zlen buf -> u8_at (rx buf d) o = u8_at d o.
Proof. intros. rewrite !u8_slice by lia. by rewrite slice_rx_in by lia. Qed.
Lemma char_rx buf d o : 0 <= o < zlen d -> zlen d <= zlen buf -> char_at (rx buf d) o = char_at d o.
Proof. intros. apply char_u8. by apply u8_rx. Qed.

Section turn.
Context (chunk : Z -> Z -> Z) (malloc : Z -> option (list Z)) (now : Z).

Lemma svc_dispatch svr k s a ch cmd d : stop_services svr = 0 -> zlen (e_buf s) = 2000 -> 0 <= ch < 4 -> request s a ch cmd d ->
  ce_svc_main_1 chunk malloc now svr k s a d =
    (if cmd =? CMD_OPENFILE then remote_openfile malloc now svr k (received s a d) ch
     else if cmd =? CMD_FETCH then remote_fetch_file chunk svr k (received s a d) ch else Ret (received s a d, k)).
Proof.
  intros Hst Hb Hch [R1 R2 R3 R4 R5 R6]. unfold ce_svc_main_1, UDP.udplib_receive. rewrite (take_ge d) by (unfold zlen in *; lia).
  assert (d ++ drop (length d) (e_buf s) = rx (e_buf s) d) as E by (unfold rx; by rewrite take_ge by (unfold zlen in *; lia)). rewrite E.
  rewrite (proj2 (Z.leb_gt (zlen d) 0)) by lia. rewrite Hst. cbn [negb Z.eqb]. unfold UDP.udplib_get_remote. cbn [e_addr set_e_udp set_e_buf UDP.rmaddr UDP.set_rmaddr e_sn].
  rewrite R3, Z.eqb_refl. cbn [negb]. rewrite cksum2_rx, R2 by lia. cbn [negb]. rewrite char_rx by q2. rewrite R5. rewrite (proj2 (Z.ltb_ge ch 0)), (proj2 (Z.leb_gt _ ch)) by q2. cbn [orb].
  rewrite i32_rx by q2. rewrite R4, Z.eqb_refl. cbn [negb]. rewrite char_rx by q2. by rewrite R6.
Qed.

Context (svr : server) (ch disk net fact pmap : Z) (P : params_ok svr ch disk net fact pmap) (Hrun : stop_services svr = 0) (Hch : 0 <= ch < 4).

(** A fetch request is answered with the wanted packets of the block. *)
Lemma svc_fetch (F : list Z) (k : kernel) (s : entry) (sl : local) (a : UDP.sockaddr) (d : list Z) :
  aget (e_sl s) ch = Ret sl -> holds disk F k sl -> zlen (e_buf s) = 2000 -> request s a ch CMD_FETCH d -> zlen d = SIZEOF_REQ ->
  let nd := i32_at d q_ndcnt in 0 <= nd -> nd * net <= INT_MAX ->
  exists s' k' sl' ds, ce_svc_main_1 chunk malloc now svr k s a d = Ret (s', k') /\ same_client (received s a d) s' /\
    e_sl s' = <[Z.to_nat ch := sl']> (e_sl s) /\ holds disk F k' sl' /\ others (fd sl) k k' /\
    UDP.sent (e_udp s') = UDP.sent (e_udp s) ++ ((a,.) <$> ds) /\
    Forall2 (data_packet F d net pmap nd) (wanted (slice d q_reqmap MAX_PACKET_MAP) 0 pmap) ds.
Proof.
  intros Hsl H Hb R Hd nd H1 H2. rewrite (svc_dispatch svr k s a ch CMD_FETCH d) by done. cbn [Z.eqb CMD_FETCH CMD_OPENFILE Pos.eqb].
  destruct (fetch_serves chunk svr ch disk net fact pmap P F k (received s a d) sl) as (s' & k' & sl' & ds & E & A); cbn [received e_sl e_buf set_e_udp set_e_buf e_udp UDP.set_rmaddr UDP.rmaddr UDP.sent] in *;
    rewrite ?zlen_rx, ?i32_rx by q2; [done|done|done|lia|lia|]. rewrite i32_rx in A by q2. rewrite slice_rx_in in A by q2.
  exists s', k', sl', ds. split; [done|]. destruct A as (A1 & A2 & A3 & A4 & A5 & A6). split_and!; try done. eapply Forall2_impl; [exact A6|].
  intros i x (D1 & D2 & D3 & D4 & D5 & D6). rewrite slice_rx_in in D4 by q2. exact (conj D1 (conj D2 (conj D3 (conj D4 (conj D5 D6))))).
Qed.

Lemma svc_open (F : list Z) (k : kernel) (s : entry) (sl : local) (name m : list Z) (a : UDP.sockaddr) (d : list Z) :
  aget (e_sl s) ch = Ret sl -> chan_mem disk sl -> malloc disk = Some m -> zlen m = disk -> zlen (e_buf s) = 2000 -> fopen svr = None ->
  request s a ch CMD_OPENFILE d -> zlen d = SIZEOF_OPEN -> cstr_at d q_filename = Some name -> k_fs k name = Some (F, true) -> zlen F <= INT_MAX ->
  exists s' k' sl' r, ce_svc_main_1 chunk malloc now svr k s a d = Ret (s', k') /\ same_client (received s a d) s' /\
    e_sl s' = <[Z.to_nat ch := sl']> (e_sl s) /\ holds disk F k' sl' /\ k_fs k' = k_fs k /\
    UDP.sent (e_udp s') = UDP.sent (e_udp s) ++ [(a, r)] /\ ok_packet disk net fact pmap d (zlen F) r.
Proof.
  intros Hsl Hm Hma Hzm Hb Hfo R Hd Hn Hfs HF. rewrite (svc_dispatch svr k s a ch CMD_OPENFILE d) by done. cbn [Z.eqb CMD_OPENFILE Pos.eqb].
  assert (cstr_at (rx (e_buf s) d) q_filename = Some name) as Hn'.
  { unfold cstr_at, rx in *. rewrite take_ge by (unfold zlen in *; q2). rewrite drop_app_le by (unfold zlen in *; q2). revert Hn. generalize (drop (Z.to_nat q_filename) d).
    revert name Hfs. clear. intros name _ l. revert name. induction l as [|x l IH]; intros name; [done|]. cbn. destruct (x =? 0); [done|].
    destruct (cstr l) as [n|]; [|done]. intros [= <-]. by rewrite (IH n). }
  destruct (open_serves malloc now svr ch disk net fact pmap P F k (received s a d) sl name m) as (s' & k' & sl' & r & E & A); cbn [received e_sl e_buf set_e_udp set_e_buf e_udp UDP.set_rmaddr UDP.rmaddr UDP.sent] in *;
    rewrite ?zlen_rx by q2; try done.
  exists s', k', sl', r. split; [done|]. destruct A as (A1 & A2 & A3 & A4 & A5 & A6). split_and!; try done. destruct A6 as (B1 & B2 & B3 & B4). rewrite slice_rx_in in B3 by q2. exact (conj B1 (conj B2 (conj B3 B4))).
Qed.
End turn.

(** ** Registration *)
Definition os_good (os : UDP.os_socket) : Prop := 0 <= UDP.os_socket_fd os /\ UDP.os_bind_ok os = true.

Lemma ce_regist_spec os e addr sn : os_good os -> exists port e', ce_regist os e addr sn = Ret (port, e') /\
  inuse e' <> 0 /\ e_addr e' = addr /\ e_sn e' = sn /\ e_port e' = port /\ e_sl e' = e_sl e /\ e_buf e' = e_buf e /\ UDP.sent (e_udp e') = UDP.sent (e_udp e) /\
  (inuse e <> 0 /\ e_addr e = addr /\ port = e_port e \/ (inuse e = 0 \/ e_addr e <> addr) /\ in_services e' = 1 /\ port = UDP.htons (UDP.os_name_port os)).
Proof.
  intros [O1 O2]. unfold ce_regist. destruct (Z.eqb_spec (inuse e) 0) as [E0|E0].
  - rewrite E0. cbn [Z.eqb]. unfold UDP.udplib_open. rewrite (proj2 (Z.ltb_ge _ 0)) by done. destruct (UDP.os_ifaddr os), (UDP.os_bcast os); rewrite O2; rewrite (proj2 (Z.leb_le 0 _)) by done;
      (do 2 eexists; split; [done|]; cbn; split_and!; try done; right; split_and!; try done; by left).
  - destruct (Z.eqb_spec (e_addr e) addr) as [Ea|Ea].
    + assert (forall e', inuse e' = inuse e -> (inuse e' =? 0) = false) as Hz by (intros e' ->; by apply Z.eqb_neq).
      exists (e_port e). destruct (Z.eqb_spec (e_sn e) sn) as [Es|Es]; rewrite Hz by done; eexists; (split; [done|]); cbn; split_and!; try done; by left.
    + cbn [ce_unuse inuse set_e_udp set_inuse Z.eqb]. unfold UDP.udplib_open. rewrite (proj2 (Z.ltb_ge _ 0)) by done.
      destruct (UDP.os_ifaddr os), (UDP.os_bcast os); rewrite O2; rewrite (proj2 (Z.leb_le 0 _)) by done; (do 2 eexists; split; [done|]; cbn; split_and!; try done; right; split_and!; try done; by right).
Qed.

(** The table of clients and the address book of the main socket belong together. *)
Record table_ok (s : server) : Prop := {
  tb_cli : zlen (cli s) = maxclient s;
  tb_book : UDP.listcnt (udp s) = zlen (UDP.addrlist (udp s)) /\ UDP.listcnt (udp s) = maxclient s;
  tb_ent : forall i e, cli s !! i = Some e -> exists c, e = Some c /\ (inuse c <> 0 -> 0 <= e_port c);
  tb_buf : zlen (m_buf s) = 2000;
}.
(** There is a slot for the address. *)
Definition room (u : UDP.udplib) (ip : Z) : Prop := exists p, p ∈ UDP.addrlist u /\ (UDP.use p = false \/ UDP.sin_addr (UDP.sa p) = ip).

Lemma regist_ipaddr_spec u : UDP.listcnt u = zlen (UDP.addrlist u) -> room u (UDP.udplib_get_remote u) ->
  exists i u', UDP.udplib_regist_ipaddr u = Ret (i, u') /\ 0 <= i < UDP.listcnt u /\ UDP.rmaddr u' = UDP.rmaddr u /\ UDP.sent u' = UDP.sent u /\
    UDP.listcnt u' = UDP.listcnt u /\ zlen (UDP.addrlist u') = zlen (UDP.addrlist u) /\ room u' (UDP.udplib_get_remote u).
Proof.
  intros Hl Hroom. pose proof Hroom as (p & Hp & Hor). unfold UDP.udplib_regist_ipaddr, UDP.regist_by. rewrite take_ge by (unfold zlen in *; lia).
  destruct (Slots.scan_cases UDP.use (fun p => UDP.sin_addr (UDP.sa p) =? UDP.sin_addr (UDP.rmaddr u)) (UDP.addrlist u)) as [(i & q & -> & Hq & Hu & _)|(Hno & [(i & q & -> & Hq & Hu & _)|[-> Hfull]])].
  - rewrite (proj2 (Z.leb_le 0 _)) by lia. crun. rewrite Hu. pose proof (lookup_lt_Some _ _ _ Hq). exists (Z.of_nat i), u. split_and!; try done; unfold zlen in *; lia.
  - rewrite (proj2 (Z.leb_le 0 _)) by lia. pose proof (lookup_lt_Some _ _ _ Hq). crun. rewrite Hu. crun. do 2 eexists. split; [done|]. cbn. rewrite zlen_insert. split; [unfold zlen in *; lia|]. split_and!; try done.
    exists (UDP.mk_peer true (UDP.rmaddr u)). split; [|by right]. apply list_elem_of_lookup. exists i. by apply list_lookup_insert_eq.
  - exfalso. apply list_elem_of_lookup in Hp as [j Hj]. destruct Hor as [Hor|Hor]; [by rewrite (Hfull _ _ Hj) in Hor|]. specialize (Hno _ _ Hj (Hfull _ _ Hj)). apply Z.eqb_neq in Hno. done.
Qed.

Lemma patch_app d r o new : 0 <= o -> o + zlen new <= zlen d -> patch (d ++ r) o new = patch d o new ++ r.
Proof.
  intros H1 H2. pose proof (zlen_nonneg new). unfold patch, zlen in *. rewrite take_app_le, drop_app_le by lia. by rewrite <- !app_assoc.
Qed.
(** A reply that changes a field of the request in the receive buffer is the request with
    the field changed. *)
Lemma reply_patch buf d o new : 4 <= o -> o + zlen new <= zlen d -> zlen d <= zlen buf ->
  slice (seal2 (patch (rx buf d) o new) (zlen d)) 0 (zlen d) = seal2 (patch d o new) (zlen d).
Proof.
  intros H1 H2 H3. pose proof (zlen_nonneg new). unfold rx. rewrite take_ge by (unfold zlen in *; lia). set (r := drop (length d) buf). rewrite patch_app by lia.
  assert (zlen (patch d o new) = zlen d) as Hz by (apply zlen_patch; lia). generalize dependent (patch d o new). intros x Hz.
  assert (stiov2_cs_cksum (x ++ r) (zlen d) = stiov2_cs_cksum x (zlen d)) as Ec.
  { unfold stiov2_cs_cksum, slice. rewrite drop_app_le by (unfold zlen in *; lia). by rewrite take_app_le by (rewrite length_drop; unfold zlen in *; lia). }
  unfold seal2, put32. rewrite patch_app by (rewrite ?zlen_le32; q2). rewrite Ec. set (y := patch x _ _). assert (zlen y = zlen d) as Hy by (unfold y; rewrite zlen_patch; rewrite ?zlen_le32; q2).
  unfold slice. rewrite drop_0, take_app_le by (unfold zlen in *; lia). apply take_ge. unfold zlen in *. lia.
Qed.

(** The configuration, which the main thread does not change. *)
Definition same_cfg (s s' : server) : Prop :=
  disk_bufsize s' = disk_bufsize s /\ net_bufsize s' = net_bufsize s /\ disknet_fact s' = disknet_fact s /\ packet_map s' = packet_map s /\
  fopen s' = fopen s /\ stop_services s' = stop_services s /\ maxclient s' = maxclient s /\ terminate s' = terminate s.
Lemma params_cfg s s' ch disk net fact pmap : same_cfg s s' -> params_ok s ch disk net fact pmap -> params_ok s' ch disk net fact pmap.
Proof. intros (E1 & E2 & E3 & E4 & _) [A1 A2 A3 A4 A5 A6 A7]. split; [by rewrite E1|by rewrite E2|by rewrite E3|by rewrite E4|done..]. Qed.

Lemma main_regist os (s : server) (a : UDP.sockaddr) (d : list Z) :
  os_good os -> table_ok s -> room (udp s) (UDP.sin_addr a) -> stop_services s = 0 -> 14 <= zlen d <= 2000 -> cksum2_ok d (zlen d) = true -> char_at d q_cmd = CMD_REGIST ->
  exists s' i e e' port, streamio_v2_main_1 os s a d = Ret (true, s') /\ table_ok s' /\ same_cfg s s' /\ 0 <= i < maxclient s /\ cli s !! Z.to_nat i = Some (Some e) /\
    cli s' = <[Z.to_nat i := Some e']> (cli s) /\ ce_regist os e (UDP.sin_addr a) (i32_at d q_sn) = Ret (port, e') /\
    room (udp s') (UDP.sin_addr a) /\ UDP.sent (udp s') = UDP.sent (udp s) ++ [(a, seal2 (put32 d q_port (e_port e')) (zlen d))].
Proof.
  intros Ho T Hroom Hst Hd Hck Hcmd. unfold streamio_v2_main_1, UDP.udplib_receive. destruct T as [T1 [T2 T3] T4 T5]. rewrite (take_ge d) by (unfold zlen in *; lia).
  assert (d ++ drop (length d) (m_buf s) = rx (m_buf s) d) as -> by (unfold rx; by rewrite take_ge by (unfold zlen in *; lia)).
  rewrite (proj2 (Z.eqb_neq (zlen d) 0)) by lia. rewrite cksum2_rx, Hck by lia. cbn [negb stop_services set_udp set_m_buf]. rewrite Hst. cbn [Z.eqb negb]. rewrite char_rx by q2. rewrite Hcmd.
  cbn [Z.eqb CMD_REGIST CMD_FINDSERVER Pos.eqb]. destruct (regist_ipaddr_spec (UDP.set_rmaddr a (udp s))) as (i & u & -> & Hi & U1 & U2 & U3 & U4 & U5); [exact T2|exact Hroom|]. cbn [UDP.set_rmaddr UDP.listcnt UDP.rmaddr UDP.sent UDP.addrlist] in *.
  cbn [obind]. rewrite (proj2 (Z.ltb_ge i 0)) by lia. unfold stiov2_regist, UDP.udplib_get_remote. cbn [cli set_udp set_m_buf maxclient]. rewrite U1.
  destruct (aget_lt (cli s) i) as (c & Ec & Hc); [lia|]. rewrite Ec. cbn [obind]. rewrite (proj2 (Z.ltb_ge i 0)), (proj2 (Z.leb_gt (maxclient s) i)) by lia. cbn [orb].
  destruct (T4 _ _ Hc) as (e & -> & Hport). rewrite i32_rx by q2. destruct (ce_regist_spec os e (UDP.sin_addr a) (i32_at d q_sn) Ho) as (port & e' & Er & E1 & E2 & E3 & E4 & _ & _ & _ & E5). rewrite Er. cbn [obind].
  rewrite aset_Ret by lia. cbn [obind]. assert (0 <= port) as Hpn.
  { destruct E5 as [(? & _ & ->)|(_ & _ & ->)]; [by apply Hport|]. unfold UDP.htons. Z.div_mod_to_equations. lia. }
  rewrite (proj2 (Z.ltb_ge port 0)) by done. eexists _, i, e, e', port. split; [done|]. cbn [udp set_udp set_m_buf set_cli UDP.udplib_send UDP.emit UDP.sent cli UDP.addrlist].
  split; [|split; [done|split; [lia|split; [done|split; [done|split; [done|split; [exact U5|]]]]]]].
  - split; cbn; [by rewrite zlen_insert|by rewrite U4, U3| |].
    + intros j x Hj. destruct (decide (j = Z.to_nat i)) as [->|Hne]; [|rewrite list_lookup_insert_ne in Hj by done; by apply (T4 j)].
      rewrite list_lookup_insert_eq in Hj by (by eapply lookup_lt_Some). injection Hj as <-. exists e'. split; [done|]. intros _. lia.
    + rewrite zlen_seal2; rewrite zlen_put32; rewrite ?zlen_rx; q2.
  - rewrite U1, U2, E4. do 3 f_equal. apply reply_patch; rewrite ?zlen_le32; q2.
Qed.

(** A registration is answered with the port of the client's own socket, whose thread then
    serves exactly that address and serial number; the other clients are not affected. *)
Theorem regist_answers os (s : server) (a : UDP.sockaddr) (d : list Z) :
  os_good os -> table_ok s -> room (udp s) (UDP.sin_addr a) -> stop_services s = 0 -> 14 <= zlen d <= 2000 -> cksum2_ok d (zlen d) = true -> char_at d q_cmd = CMD_REGIST ->
  exists s' i e', streamio_v2_main_1 os s a d = Ret (true, s') /\ table_ok s' /\ 0 <= i /\ cli s' = <[Z.to_nat i := Some e']> (cli s) /\
    inuse e' <> 0 /\ e_addr e' = UDP.sin_addr a /\ e_sn e' = i32_at d q_sn /\
    UDP.sent (udp s') = UDP.sent (udp s) ++ [(a, seal2 (put32 d q_port (e_port e')) (zlen d))].
Proof.
  intros Ho T Hr Hst Hd Hck Hcmd. destruct (main_regist os s a d Ho T Hr Hst Hd Hck Hcmd) as (s' & i & e & e' & port & A1 & A2 & _ & A3 & _ & A4 & A5 & _ & A6).
  destruct (ce_regist_spec os e (UDP.sin_addr a) (i32_at d q_sn) Ho) as (p & e2 & E & B1 & B2 & B3 & _). rewrite A5 in E. injection E as <- <-. exists s', i, e'. split_and!; try done. lia.
Qed.

(** A search with the right protocol version is echoed to the client. *)
Lemma find_answers os (s : server) (a : UDP.sockaddr) (d : list Z) :
  zlen (m_buf s) = 2000 -> stop_services s = 0 -> 18 <= zlen d <= 2000 -> cksum2_ok d (zlen d) = true -> char_at d q_cmd = CMD_FINDSERVER ->
  i32_at d q_protocol_version = STIOV2_PROTOCOL_VERSION ->
  exists s', streamio_v2_main_1 os s a d = Ret (true, s') /\ UDP.sent (udp s') = UDP.sent (udp s) ++ [(a, d)] /\ cli s' = cli s /\ same_cfg s s' /\
    UDP.addrlist (udp s') = UDP.addrlist (udp s) /\ UDP.listcnt (udp s') = UDP.listcnt (udp s) /\ zlen (m_buf s') = 2000.
Proof.
  intros Hb Hst Hd Hck Hcmd Hv. unfold streamio_v2_main_1, UDP.udplib_receive. rewrite (take_ge d) by (unfold zlen in *; lia).
  assert (d ++ drop (length d) (m_buf s) = rx (m_buf s) d) as -> by (unfold rx; by rewrite take_ge by (unfold zlen in *; lia)).
  rewrite (proj2 (Z.eqb_neq (zlen d) 0)) by lia. rewrite cksum2_rx, Hck by lia. cbn [negb stop_services set_udp set_m_buf]. rewrite Hst. cbn [Z.eqb negb]. rewrite char_rx, i32_rx by q2. rewrite Hcmd, Hv.
  cbn [Z.eqb CMD_FINDSERVER Pos.eqb STIOV2_PROTOCOL_VERSION]. eexists. split; [done|]. split; [cbn; do 3 f_equal; apply slice_rx; lia|]. split_and!; try done. cbn. by rewrite zlen_rx.
Qed.

(** ** Defects *)

(** One datagram with a wrong checksum, from anybody, ends the main thread: whatever arrives
    later is not answered. *)
Theorem corrupt_ends_server os (s : server) (a : UDP.sockaddr) (d : list Z) (later : list (UDP.sockaddr * list Z)) :
  zlen (m_buf s) = 2000 -> terminate s = 0 -> 4 <= zlen d <= 2000 -> cksum2_ok d (zlen d) = false ->
  exists s', streamio_v2_main os s ((a, d) :: later) = Ret s' /\ UDP.sent (udp s') = UDP.sent (udp s) /\ cli s' = cli s.
Proof.
  intros Hb Ht Hd Hck. cbn [streamio_v2_main]. rewrite Ht. cbn [Z.eqb negb]. unfold streamio_v2_main_1, UDP.udplib_receive. rewrite (take_ge d) by (unfold zlen in *; lia).
  assert (d ++ drop (length d) (m_buf s) = rx (m_buf s) d) as -> by (unfold rx; by rewrite take_ge by (unfold zlen in *; lia)).
  rewrite (proj2 (Z.eqb_neq (zlen d) 0)) by lia. rewrite cksum2_rx, Hck by lia. cbn [negb obind]. by eexists.
Qed.

(** The block number of a request is a signed integer that is not checked: block -1 is
    looked for in front of the disk buffer. *)
Theorem negative_block_faults chunk (svr : server) (ch disk net fact pmap : Z) (F : list Z) (k : kernel) (s : entry) (sl : local) :
  params_ok svr ch disk net fact pmap -> 1 < fact -> aget (e_sl s) ch = Ret sl -> holds disk F k sl -> zlen (e_buf s) = 2000 ->
  i32_at (e_buf s) q_ndcnt = -1 -> u8_at (e_buf s) q_reqmap <> 0 -> remote_fetch_file chunk svr k s ch = Fault OutOfBounds.
Proof.
  intros P Hf Hsl H Hb Hnd Hm. pose proof (pr_range _ _ _ _ _ _ P) as (_ & Hnet & _). pose proof (pmap_range _ _ _ _ _ _ P) as Hpm. unfold MAX_TRANS_BUFSIZE in *.
  unfold remote_fetch_file. rewrite Hsl. cbn [obind]. rewrite (proj2 (Z.ltb_ge (fd sl) 0)) by apply H. rewrite Hnd, (pr_fact _ _ _ _ _ _ P). cbn [obind].
  unfold cquot, crem. rewrite (proj2 (Z.eqb_neq fact 0)) by lia. cbn [obind]. replace (Z.quot (-1) fact) with 0 by (change (-1) with (- (1)); rewrite Z.quot_opp_l, Z.quot_small by lia; done).
  replace (Z.rem (-1) fact) with (-1) by (change (-1) with (- (1)) at 2; rewrite Z.rem_opp_l, Z.rem_small by lia; done).
  destruct (load_block_spec chunk svr ch disk net fact pmap F k sl 0 P H) as (sl' & k' & -> & H' & _); [lia|int_lia|]. cbn [obind]. destruct (aget_inv _ _ _ Hsl) as [Hch _].
  rewrite aset_Ret by lia. cbn [obind]. rewrite (pr_pmap _ _ _ _ _ _ P), (pr_net _ _ _ _ _ _ P). cbn [obind]. destruct (ho_buf _ _ _ _ H') as (dbuf & -> & _).
  destruct (Z.to_nat pmap) as [|n] eqn:En; [lia|]. cbn [send_packets]. assert (aget (slice (e_buf s) q_reqmap MAX_PACKET_MAP) 0 = Ret (u8_at (e_buf s) q_reqmap)) as ->.
  { destruct (aget_lt (slice (e_buf s) q_reqmap MAX_PACKET_MAP) 0) as (x & -> & Hx); [rewrite zlen_slice; q2|]. rewrite lookup_slice in Hx by q2. change (Z.to_nat 0) with 0%nat in Hx. rewrite Nat.add_0_r in Hx.
    unfold u8_at. by rewrite Hx. }
  cbn [obind]. rewrite (proj2 (Z.eqb_neq _ 0)) by done. rewrite (ck_Ret (-1 * net)) by int_lia. cbn [obind]. rewrite (ck_Ret (-1 * net + 0 * CARRY)) by int_lia. cbn [obind].
  rewrite (proj2 (Z.leb_gt 0 (-1 * net + 0 * CARRY))) by lia. by rewrite andb_false_r.
Qed.

(** Only the buffer of channel 0 is freed with a client. *)
Lemma ce_dispose_leaks (s : entry) (i : nat) (sl : local) : e_sl s !! i = Some sl -> (0 < i)%nat -> ce_dispose s !! i = Some false.
Proof. intros H Hi. unfold ce_dispose. rewrite list_lookup_imap, H. cbn. by rewrite bool_decide_false by lia. Qed.

(** When an entry cannot be made, the server is returned all the same, and is not usable. *)
Theorem missing_entry_faults (m : server_mem) (e : entry_mem) (u0 : UDP.udplib) os (addr sn : Z) :
  sm_self m = true -> sm_thr m = true -> sm_cli m = true -> sm_entries m = [e] -> new_client_entry e = None -> sm_udp m = Some u0 -> os_good (sm_os m) ->
  exists s, new_streamming_io_v2_server m 1 0 = Ret (Some s) /\ stiov2_regist os s addr 0 sn = Fault NullDeref /\ stiov2_dispose s = Fault NullDeref.
Proof.
  intros H0 H1 H2 H3 H4 H5 [O1 O2]. unfold new_streamming_io_v2_server. rewrite H0, H1, H2, H3, H5. destruct (UDP.udplib_open (UDP.new_udplib u0 1) (sm_os m) 0 false false) as [r u] eqn:E.
  assert (0 <= r) as Hr. { unfold UDP.udplib_open in E. rewrite (proj2 (Z.ltb_ge _ 0)), O2 in E by done. destruct (UDP.os_ifaddr _), (UDP.os_bcast _); by injection E as <- _. }
  rewrite (proj2 (Z.ltb_ge r 0)) by done. cbn [negb]. change (take (Z.to_nat 1) [e]) with [e]. cbn [new_entries]. rewrite H4. eexists. split; [done|]. done.
Qed.

(** A server that is just made is consistent, and serves every channel with blocks of 32768
    bytes in 23 packets. *)
Lemma new_server_ok m maxclient port s : new_streamming_io_v2_server m maxclient port = Ret (Some s) -> lens s /\ all_params s.
Proof.
  unfold new_streamming_io_v2_server. destruct (sm_self m), (sm_thr m), (sm_cli m); try done. cbn [negb]. intros H.
  match type of H with match ?o with _ => _ end = _ => destruct o as [u|] end; [|by destruct (dispose_entries _)]. injection H as <-. split; [done|].
  intros ch Hch. exists DEFAULT_DISKIO_BUFFER_FAVIOR, DEFAULT_STIOV2_TRANS_BUFSIZE, DEFAULT_STIOV2_DISKNET_FACTOR, DEFAULT_STIOV2_PACKET_MAP.
  assert (ch = 0 \/ ch = 1 \/ ch = 2 \/ ch = 3) as Hc by q2. by destruct Hc as [->|[->|[->| ->]]]; split.
Qed.

End S2.
