(* ===== verification/StioV2Client.v ===== *)
(** * StioV2Client.v: the stream client of protocol version 2, streamio_v2/client.c and
      streamio_v2/client/internal.c, compare.c, stio_eng.c

    The client searches a server with a broadcast on one socket, registers with the server
    that answers, and then asks the server's thread for it on another socket.  A call sends
    its request and waits until the client's own thread ([client_main]) has changed the
    variable it watches.

    What happens during the waits is given by a schedule, a list whose elements are
    interpreted by [act]: it sees what the client has sent on its two sockets and says which
    datagrams arrive meanwhile, whether [abort] is called, and whether the wait ends by a
    timeout; it has a state [W] of its own.  In [StioV2End.v] that state is the server.  A
    call that would wait when no element is left is [Block]. *)

From S2P Require Import Prelude Posix Udp Wire StioV2Server.
Import S2.

Module C2.

(** What [compare_variable] points to. *)
Inductive cmp_variable := V_need_filesize | V_request_map.
Definition CMP_GT : Z := 1.
Definition CMP_GE : Z := 2.
Definition CMP_LT : Z := 3.
Definition CMP_LE : Z := 4.
Definition CMP_EQ : Z := 5.
Definition CMP_NE : Z := 6.

(** [struct stio_v2_client_local_t] without the saved [stio_engine_t]. *)
Record clocal := mk_clocal {
  channel : Z;
  fsize : Z;
  c_filecnt : Z;
  fopen_pdu : list Z;
  fread_pdu : list Z;
  need_filesize : Z;
  compare_variable : cmp_variable;
  compare_operator : Z;
  compare_expect : Z;
  have_file : Z;
  need_reopen : Z;
  c_buffer : list Z;
  bidx : Z;
  blen : Z;
  request_map : Z;
  ndtotal : Z;
  ndcnt : Z;
  errcode : Z;
  c_disk : Z;
  c_net : Z;
  c_fact : Z;
  c_pmap : Z;
}.
Definition set_fsize (v : Z) (s : clocal) : clocal :=
  mk_clocal (channel s) v (c_filecnt s) (fopen_pdu s) (fread_pdu s) (need_filesize s) (compare_variable s) (compare_operator s) (compare_expect s) (have_file s) (need_reopen s) (c_buffer s) (bidx s) (blen s) (request_map s) (ndtotal s) (ndcnt s) (errcode s) (c_disk s) (c_net s) (c_fact s) (c_pmap s).
Definition set_c_filecnt (v : Z) (s : clocal) : clocal :=
  mk_clocal (channel s) (fsize s) v (fopen_pdu s) (fread_pdu s) (need_filesize s) (compare_variable s) (compare_operator s) (compare_expect s) (have_file s) (need_reopen s) (c_buffer s) (bidx s) (blen s) (request_map s) (ndtotal s) (ndcnt s) (errcode s) (c_disk s) (c_net s) (c_fact s) (c_pmap s).
Definition set_fopen_pdu (v : list Z) (s : clocal) : clocal :=
  mk_clocal (channel s) (fsize s) (c_filecnt s) v (fread_pdu s) (need_filesize s) (compare_variable s) (compare_operator s) (compare_expect s) (have_file s) (need_reopen s) (c_buffer s) (bidx s) (blen s) (request_map s) (ndtotal s) (ndcnt s) (errcode s) (c_disk s) (c_net s) (c_fact s) (c_pmap s).
Definition set_fread_pdu (v : list Z) (s : clocal) : clocal :=
  mk_clocal (channel s) (fsize s) (c_filecnt s) (fopen_pdu s) v (need_filesize s) (compare_variable s) (compare_operator s) (compare_expect s) (have_file s) (need_reopen s) (c_buffer s) (bidx s) (blen s) (request_map s) (ndtotal s) (ndcnt s) (errcode s) (c_disk s) (c_net s) (c_fact s) (c_pmap s).
Definition set_need_filesize (v : Z) (s : clocal) : clocal :=
  mk_clocal (channel s) (fsize s) (c_filecnt s) (fopen_pdu s) (fread_pdu s) v (compare_variable s) (compare_operator s) (compare_expect s) (have_file s) (need_reopen s) (c_buffer s) (bidx s) (blen s) (request_map s) (ndtotal s) (ndcnt s) (errcode s) (c_disk s) (c_net s) (c_fact s) (c_pmap s).
Definition set_compare_variable (v : cmp_variable) (s : clocal) : clocal :=
  mk_clocal (channel s) (fsize s) (c_filecnt s) (fopen_pdu s) (fread_pdu s) (need_filesize s) v (compare_operator s) (compare_expect s) (have_file s) (need_reopen s) (c_buffer s) (bidx s) (blen s) (request_map s) (ndtotal s) (ndcnt s) (errcode s) (c_disk s) (c_net s) (c_fact s) (c_pmap s).
Definition set_compare_operator (v : Z) (s : clocal) : clocal :=
  mk_clocal (channel s) (fsize s) (c_filecnt s) (fopen_pdu s) (fread_pdu s) (need_filesize s) (compare_variable s) v (compare_expect s) (have_file s) (need_reopen s) (c_buffer s) (bidx s) (blen s) (request_map s) (ndtotal s) (ndcnt s) (errcode s) (c_disk s) (c_net s) (c_fact s) (c_pmap s).
Definition set_compare_expect (v : Z) (s : clocal) : clocal :=
  mk_clocal (channel s) (fsize s) (c_filecnt s) (fopen_pdu s) (fread_pdu s) (need_filesize s) (compare_variable s) (compare_operator s) v (have_file s) (need_reopen s) (c_buffer s) (bidx s) (blen s) (request_map s) (ndtotal s) (ndcnt s) (errcode s) (c_disk s) (c_net s) (c_fact s) (c_pmap s).
Definition set_have_file (v : Z) (s : clocal) : clocal :=
  mk_clocal (channel s) (fsize s) (c_filecnt s) (fopen_pdu s) (fread_pdu s) (need_filesize s) (compare_variable s) (compare_operator s) (compare_expect s) v (need_reopen s) (c_buffer s) (bidx s) (blen s) (request_map s) (ndtotal s) (ndcnt s) (errcode s) (c_disk s) (c_net s) (c_fact s) (c_pmap s).
Definition set_need_reopen (v : Z) (s : clocal) : clocal :=
  mk_clocal (channel s) (fsize s) (c_filecnt s) (fopen_pdu s) (fread_pdu s) (need_filesize s) (compare_variable s) (compare_operator s) (compare_expect s) (have_file s) v (c_buffer s) (bidx s) (blen s) (request_map s) (ndtotal s) (ndcnt s) (errcode s) (c_disk s) (c_net s) (c_fact s) (c_pmap s).
Definition set_c_buffer (v : list Z) (s : clocal) : clocal :=
  mk_clocal (channel s) (fsize s) (c_filecnt s) (fopen_pdu s) (fread_pdu s) (need_filesize s) (compare_variable s) (compare_operator s) (compare_expect s) (have_file s) (need_reopen s) v (bidx s) (blen s) (request_map s) (ndtotal s) (ndcnt s) (errcode s) (c_disk s) (c_net s) (c_fact s) (c_pmap s).
Definition set_bidx (v : Z) (s : clocal) : clocal :=
  mk_clocal (channel s) (fsize s) (c_filecnt s) (fopen_pdu s) (fread_pdu s) (need_filesize s) (compare_variable s) (compare_operator s) (compare_expect s) (have_file s) (need_reopen s) (c_buffer s) v (blen s) (request_map s) (ndtotal s) (ndcnt s) (errcode s) (c_disk s) (c_net s) (c_fact s) (c_pmap s).
Definition set_blen (v : Z) (s : clocal) : clocal :=
  mk_clocal (channel s) (fsize s) (c_filecnt s) (fopen_pdu s) (fread_pdu s) (need_filesize s) (compare_variable s) (compare_operator s) (compare_expect s) (have_file s) (need_reopen s) (c_buffer s) (bidx s) v (request_map s) (ndtotal s) (ndcnt s) (errcode s) (c_disk s) (c_net s) (c_fact s) (c_pmap s).
Definition set_request_map (v : Z) (s : clocal) : clocal :=
  mk_clocal (channel s) (fsize s) (c_filecnt s) (fopen_pdu s) (fread_pdu s) (need_filesize s) (compare_variable s) (compare_operator s) (compare_expect s) (have_file s) (need_reopen s) (c_buffer s) (bidx s) (blen s) v (ndtotal s) (ndcnt s) (errcode s) (c_disk s) (c_net s) (c_fact s) (c_pmap s).
Definition set_ndtotal (v : Z) (s : clocal) : clocal :=
  mk_clocal (channel s) (fsize s) (c_filecnt s) (fopen_pdu s) (fread_pdu s) (need_filesize s) (compare_variable s) (compare_operator s) (compare_expect s) (have_file s) (need_reopen s) (c_buffer s) (bidx s) (blen s) (request_map s) v (ndcnt s) (errcode s) (c_disk s) (c_net s) (c_fact s) (c_pmap s).
Definition set_ndcnt (v : Z) (s : clocal) : clocal :=
  mk_clocal (channel s) (fsize s) (c_filecnt s) (fopen_pdu s) (fread_pdu s) (need_filesize s) (compare_variable s) (compare_operator s) (compare_expect s) (have_file s) (need_reopen s) (c_buffer s) (bidx s) (blen s) (request_map s) (ndtotal s) v (errcode s) (c_disk s) (c_net s) (c_fact s) (c_pmap s).
Definition set_errcode (v : Z) (s : clocal) : clocal :=
  mk_clocal (channel s) (fsize s) (c_filecnt s) (fopen_pdu s) (fread_pdu s) (need_filesize s) (compare_variable s) (compare_operator s) (compare_expect s) (have_file s) (need_reopen s) (c_buffer s) (bidx s) (blen s) (request_map s) (ndtotal s) (ndcnt s) v (c_disk s) (c_net s) (c_fact s) (c_pmap s).
Definition set_c_disk (v : Z) (s : clocal) : clocal :=
  mk_clocal (channel s) (fsize s) (c_filecnt s) (fopen_pdu s) (fread_pdu s) (need_filesize s) (compare_variable s) (compare_operator s) (compare_expect s) (have_file s) (need_reopen s) (c_buffer s) (bidx s) (blen s) (request_map s) (ndtotal s) (ndcnt s) (errcode s) v (c_net s) (c_fact s) (c_pmap s).
Definition set_c_net (v : Z) (s : clocal) : clocal :=
  mk_clocal (channel s) (fsize s) (c_filecnt s) (fopen_pdu s) (fread_pdu s) (need_filesize s) (compare_variable s) (compare_operator s) (compare_expect s) (have_file s) (need_reopen s) (c_buffer s) (bidx s) (blen s) (request_map s) (ndtotal s) (ndcnt s) (errcode s) (c_disk s) v (c_fact s) (c_pmap s).
Definition set_c_fact (v : Z) (s : clocal) : clocal :=
  mk_clocal (channel s) (fsize s) (c_filecnt s) (fopen_pdu s) (fread_pdu s) (need_filesize s) (compare_variable s) (compare_operator s) (compare_expect s) (have_file s) (need_reopen s) (c_buffer s) (bidx s) (blen s) (request_map s) (ndtotal s) (ndcnt s) (errcode s) (c_disk s) (c_net s) v (c_pmap s).
Definition set_c_pmap (v : Z) (s : clocal) : clocal :=
  mk_clocal (channel s) (fsize s) (c_filecnt s) (fopen_pdu s) (fread_pdu s) (need_filesize s) (compare_variable s) (compare_operator s) (compare_expect s) (have_file s) (need_reopen s) (c_buffer s) (bidx s) (blen s) (request_map s) (ndtotal s) (ndcnt s) (errcode s) (c_disk s) (c_net s) (c_fact s) v.

(** [struct streamming_io_v2_client_pd_t], with the receive buffer of [client_main] and the
    static [find_server_pdu]. *)
Record client := mk_client {
  sudp : UDP.udplib;
  rudp : UDP.udplib;
  c_port : Z;
  c_terminate : Z;
  have_server : Z;
  c_sn : Z;
  cls : list clocal;
  abort : Z;
  server_ip : list Z;
  server_port : Z;
  server_id : Z;
  c_rx : list Z;
  find_server_pdu : list Z;
}.
Definition set_sudp (v : UDP.udplib) (s : client) : client :=
  mk_client v (rudp s) (c_port s) (c_terminate s) (have_server s) (c_sn s) (cls s) (abort s) (server_ip s) (server_port s) (server_id s) (c_rx s) (find_server_pdu s).
Definition set_rudp (v : UDP.udplib) (s : client) : client :=
  mk_client (sudp s) v (c_port s) (c_terminate s) (have_server s) (c_sn s) (cls s) (abort s) (server_ip s) (server_port s) (server_id s) (c_rx s) (find_server_pdu s).
Definition set_c_terminate (v : Z) (s : client) : client :=
  mk_client (sudp s) (rudp s) (c_port s) v (have_server s) (c_sn s) (cls s) (abort s) (server_ip s) (server_port s) (server_id s) (c_rx s) (find_server_pdu s).
Definition set_have_server (v : Z) (s : client) : client :=
  mk_client (sudp s) (rudp s) (c_port s) (c_terminate s) v (c_sn s) (cls s) (abort s) (server_ip s) (server_port s) (server_id s) (c_rx s) (find_server_pdu s).
Definition set_cls (v : list clocal) (s : client) : client :=
  mk_client (sudp s) (rudp s) (c_port s) (c_terminate s) (have_server s) (c_sn s) v (abort s) (server_ip s) (server_port s) (server_id s) (c_rx s) (find_server_pdu s).
Definition set_abort (v : Z) (s : client) : client :=
  mk_client (sudp s) (rudp s) (c_port s) (c_terminate s) (have_server s) (c_sn s) (cls s) v (server_ip s) (server_port s) (server_id s) (c_rx s) (find_server_pdu s).
Definition set_server_ip (v : list Z) (s : client) : client :=
  mk_client (sudp s) (rudp s) (c_port s) (c_terminate s) (have_server s) (c_sn s) (cls s) (abort s) v (server_port s) (server_id s) (c_rx s) (find_server_pdu s).
Definition set_server_port (v : Z) (s : client) : client :=
  mk_client (sudp s) (rudp s) (c_port s) (c_terminate s) (have_server s) (c_sn s) (cls s) (abort s) (server_ip s) v (server_id s) (c_rx s) (find_server_pdu s).
Definition set_server_id (v : Z) (s : client) : client :=
  mk_client (sudp s) (rudp s) (c_port s) (c_terminate s) (have_server s) (c_sn s) (cls s) (abort s) (server_ip s) (server_port s) v (c_rx s) (find_server_pdu s).
Definition set_c_rx (v : list Z) (s : client) : client :=
  mk_client (sudp s) (rudp s) (c_port s) (c_terminate s) (have_server s) (c_sn s) (cls s) (abort s) (server_ip s) (server_port s) (server_id s) v (find_server_pdu s).

(** What happens to a client that waits: a datagram from [a] on the socket [rudp] ([true])
    or [sudp], or a call of [abort]. *)
Inductive event := Dgram (onr : bool) (a : UDP.sockaddr) (d : list Z) | AbortCall.

(** Which packet of a channel is sent. *)
Inductive pdu_ref := P_open | P_read.

Definition get_cl (s : client) (ch : Z) : outcome clocal := aget (cls s) ch.
Definition put_cl (s : client) (ch : Z) (c : clocal) : outcome client := let* l := aset (cls s) ch c in Ret (set_cls l s).

Section client.
(** The text of an address, and the address of a text. *)
Context (inet_ntoa : Z -> list Z) (resolve : path -> option Z).

(** ** client.c: the thread of the client *)

(** [self->pd.server_ip[strlen (self->pd.server_ip) - 1] - '0') % 2] *)
Definition id_of (ip : list Z) : outcome Z :=
  match cstr ip with
  | None => Fault OutOfBounds
  | Some t => let* c := aget ip (zlen t - 1) in crem (c - 48) 2
  end.

Definition take_server (s : client) (port : Z) : outcome client :=
  let ip := inet_ntoa (UDP.udplib_get_remote (sudp s)) in
  let* u := UDP.udplib_unregist (rudp s) 0 in
  let* r := UDP.udplib_regist_addr resolve u ip port in
  let* txt := blit (server_ip s) 0 (ip ++ [0]) in
  let* id := id_of txt in
  Ret (set_have_server 1 (set_server_id id (set_server_ip txt (set_server_port port (set_rudp (snd r) s))))).

Definition cs_generic (s : client) (len : Z) : outcome client :=
  let b := c_rx s in
  if negb (cksum2_ok b len) then Ret s
  else if negb (i32_at b q_sn =? c_sn s) then Ret s
  else if char_at b q_cmd =? CMD_FINDSERVER then
    if have_server s =? 0 then
      let b := seal2 (put8 b q_cmd CMD_REGIST) len in
      Ret (set_sudp (UDP.udplib_send (sudp s) b len) (set_c_rx b s))
    else Ret s
  else if char_at b q_cmd =? CMD_REGIST then
    if have_server s =? 0 then take_server s (i32_at b q_port) else Ret s
  else Ret s.

(** A reply to an open request. *)
Definition on_error (b : list Z) (c : clocal) : clocal :=
  let org := char_at b q_orgcmd in
  if org =? CMD_OPENFILE then
    if need_filesize c =? 0 then c else set_errcode (i32_at b q_lerrno) (set_fsize 0 (set_need_filesize 0 c))
  else if org =? CMD_FETCH then
    if i32_at b q_errcode =? ERR_REOPEN then set_need_reopen 1 c else c
  else c.
Definition on_openfile (b : list Z) (c : clocal) : clocal :=
  if need_filesize c =? 0 then c
  else
    let c := set_need_reopen 0 (set_fsize (i32_at b q_filesize) (set_need_filesize 0 c)) in
    set_c_pmap (i32_at b q_packet_map) (set_c_fact (i32_at b q_disknet_fact)
      (set_c_net (i32_at b q_net_bufsize) (set_c_disk (i32_at b q_disk_bufsize) c))).

(** A data packet: first it is marked as received and counted, [on_data_mark], then its
    bytes are copied, [on_data_copy]; neither is done under the lock. *)
Definition on_data_mark (b : list Z) (c : clocal) : outcome (option clocal) :=
  if 0 <? request_map c then
    let i := char_at b q_map in
    let* m := aget (slice (fread_pdu c) q_reqmap MAX_PACKET_MAP) i in
    if m =? 0 then Ret None
    else Ret (Some (set_request_map (request_map c - 1) (set_fread_pdu (put8 (fread_pdu c) (q_reqmap + i) 0) c)))
  else Ret None.
Definition on_data_copy (b : list Z) (c : clocal) : outcome clocal :=
  let i := char_at b q_map in
  let k := i * CARRY in
  let* j := (if i =? c_pmap c - 1 then ck (c_net c - k) else Ret CARRY) in
  if (0 <=? j) && (q_data + j <=? zlen b) then
    let* buf := blit (c_buffer c) k (slice b q_data j) in Ret (set_c_buffer buf c)
  else Fault OutOfBounds.
Definition on_data (b : list Z) (c : clocal) : outcome clocal :=
  let* r := on_data_mark b c in match r with None => Ret c | Some c => on_data_copy b c end.

Definition response (s : client) (cmd ch : Z) : outcome client :=
  let b := c_rx s in
  let* c := get_cl s ch in
  if cmd =? CMD_ERROR then put_cl s ch (on_error b c)
  else if cmd =? CMD_OPENFILE then put_cl s ch (on_openfile b c)
  else if cmd =? CMD_FETCH then let* c := on_data b c in put_cl s ch c
  else Ret s.

(** One datagram in [client_main]. *)
Definition client_main_1 (s : client) (onr : bool) (a : UDP.sockaddr) (d : list Z) : outcome client :=
  if onr then
    let '(len, b, u) := UDP.udplib_receive (rudp s) (c_rx s) a d in
    let s := set_rudp u (set_c_rx b s) in
    let ch := char_at b q_channel in
    if len <=? 0 then Ret s
    else if negb (cksum2_ok b len) then Ret s
    else if (ch <? 0) || (MAXIMUM_STIOV2_SERVICES <=? ch) then Ret s
    else response s (char_at b q_cmd) ch
  else
    let '(len, b, u) := UDP.udplib_receive (sudp s) (c_rx s) a d in
    let s := set_sudp u (set_c_rx b s) in
    if len <=? 0 then Ret s else cs_generic s len.

Definition cli_abort (s : client) : client := set_abort 1 s.
Fixpoint run_events (s : client) (evs : list event) : outcome client :=
  match evs with
  | [] => Ret s
  | Dgram onr a d :: evs => let* s := client_main_1 s onr a d in run_events s evs
  | AbortCall :: evs => run_events (cli_abort s) evs
  end.

(** ** compare.c *)
Definition set_compare (v : cmp_variable) (op exp : Z) (c : clocal) : clocal :=
  set_compare_expect exp (set_compare_operator op (set_compare_variable v c)).
Definition var_value (c : clocal) : Z := match compare_variable c with V_need_filesize => need_filesize c | V_request_map => request_map c end.
Definition do_compare (c : clocal) : bool :=
  let v := var_value c in
  let e := compare_expect c in
  let op := compare_operator c in
  if op =? CMP_GT then v >? e
  else if op =? CMP_GE then v >=? e
  else if op =? CMP_LT then v <? e
  else if op =? CMP_LE then v <=? e
  else if op =? CMP_EQ then v =? e
  else if op =? CMP_NE then negb (v =? e)
  else false.

(** ** internal.c *)
Definition internal_unset_server (s : client) : client := if have_server s =? 0 then s else set_have_server 0 s.
Definition cli_find_server (s : client) : client :=
  if have_server s =? 0 then set_sudp (UDP.udplib_bsend (sudp s) (c_port s) (find_server_pdu s) SIZEOF_PDU2) s else s.

Definition get_pdu (r : pdu_ref) (c : clocal) : list Z := match r with P_open => fopen_pdu c | P_read => fread_pdu c end.
Definition set_pdu (r : pdu_ref) (b : list Z) (c : clocal) : clocal := match r with P_open => set_fopen_pdu b c | P_read => set_fread_pdu b c end.
Definition pdu_len (r : pdu_ref) : Z := match r with P_open => SIZEOF_OPEN | P_read => SIZEOF_REQ end.

Section waiting.
Context {W T : Type} (act : W -> T -> list (UDP.sockaddr * list Z) -> list (UDP.sockaddr * list Z) -> outcome (list event * bool * W)).

(** A wait: the datagrams are handled, [true] tells a timeout. *)
Definition wait1 (s : client) (w : W) (t : T) : outcome (client * bool * W) :=
  let* x := act w t (UDP.sent (sudp s)) (UDP.sent (rudp s)) in
  let '(evs, tmo, w) := x in
  let* s := run_events s evs in Ret (s, tmo, w).

(** The packet gets its checksum and is sent. *)
Definition send_now (s : client) (ch : Z) (r : pdu_ref) : outcome client :=
  let* c := get_cl s ch in
  let b := seal2 (get_pdu r c) (pdu_len r) in
  let* s := put_cl s ch (set_pdu r b c) in
  let* x := UDP.udplib_sendto (rudp s) 0 b (pdu_len r) in
  Ret (set_rudp (snd x) s).

Fixpoint internal_send (s : client) (w : W) (e : list T) (ch : Z) (r : pdu_ref) : outcome (Z * client * W * list T) :=
  if negb (have_server s =? 0) then let* s := send_now s ch r in Ret (1, s, w, e)
  else
    let s := cli_find_server s in
    match e with
    | [] => Block
    | t :: e =>
        let* x := wait1 s w t in
        let '(s, _, w) := x in
        if negb (abort s =? 0) then Ret (-1, s, w, e) else internal_send s w e ch r
    end.

(** [while (do_compare (cl))] of [internal_sendwait]. *)
Fixpoint wait_loop (fuel : nat) (s : client) (w : W) (e : list T) (ch : Z) (r : pdu_ref) (retry count : Z) : outcome (Z * client * W * list T) :=
  match fuel with
  | O => Fault OutOfFuel
  | S fuel =>
      let* c := get_cl s ch in
      if do_compare c then
        match e with
        | [] => Block
        | t :: e =>
            let* x := wait1 s w t in
            let '(s, tmo, w) := x in
            let* c := get_cl s ch in
            if do_compare c then
              if negb (need_reopen c =? 0) then let* s := put_cl s ch (set_need_reopen 0 c) in Ret (1, s, w, e)
              else if tmo : bool then
                if retry =? 0 then Ret (2, s, w, e)
                else
                  let giveup := retry <=? count + 1 in
                  let s := if giveup then internal_unset_server s else s in
                  let* x := internal_send s w e ch r in
                  let '(rc, s, w, e) := x in
                  if rc <? 0 then Ret (-1, s, w, e)
                  else wait_loop fuel s w e ch r retry (if giveup then 0 else count + 1)
              else wait_loop fuel s w e ch r retry count
            else wait_loop fuel s w e ch r retry count
        end
      else Ret (0, s, w, e)
  end.

(** [internal_sendwait] up to the reopening at its end.  Every round of the loop uses an
    element of the schedule. *)
Definition sendwait_1 (s : client) (w : W) (e : list T) (ch : Z) (r : pdu_ref) (v : cmp_variable) (op unexpect : Z) (wf : bool) (retry : Z) : outcome (Z * client * W * list T) :=
  let* c := get_cl s ch in
  let* s := put_cl s ch (set_compare v op unexpect c) in
  if wf then wait_loop (S (length e)) s w e ch r retry 0
  else
    let* x := internal_send s w e ch r in
    let '(rc, s, w, e) := x in
    if rc <? 0 then Ret (-1, s, w, e) else wait_loop (S (length e)) s w e ch r retry 0.

(** [internal_reopen], with the [internal_sendwait] it repeats, which reopens again when
    the server asks for it. *)
Fixpoint internal_reopen (fuel : nat) (s : client) (w : W) (e : list T) (ch : Z) : outcome (Z * client * W * list T) :=
  match fuel with
  | O => Fault OutOfFuel
  | S fuel =>
      let* c := get_cl s ch in
      let* s := put_cl s ch (set_need_filesize 1 (set_fsize 0 c)) in
      reopen_wait fuel s w e ch
  end
with reopen_wait (fuel : nat) (s : client) (w : W) (e : list T) (ch : Z) : outcome (Z * client * W * list T) :=
  match fuel with
  | O => Fault OutOfFuel
  | S fuel =>
      let* x := sendwait_1 s w e ch P_open V_need_filesize CMP_EQ 1 false 3 in
      let '(rc, s, w, e) := x in
      let* y := (if rc =? 1 then internal_reopen fuel s w e ch else Ret (0, s, w, e)) in
      let '(_, s, w, e) := y in
      if negb (rc =? 0) then if negb (abort s =? 0) then Ret (-1, s, w, e) else reopen_wait fuel s w e ch
      else let* c := get_cl s ch in Ret (if 0 <? fsize c then fsize c else -1, s, w, e)
  end.
(** Each of these rounds uses at least one element of the schedule. *)
Definition reopen_fuel (e : list T) : nat := 3 + 3 * length e.

Definition internal_sendwait (s : client) (w : W) (e : list T) (ch : Z) (r : pdu_ref) (v : cmp_variable) (op unexpect : Z) (wf : bool) (retry : Z) : outcome (Z * client * W * list T) :=
  let* x := sendwait_1 s w e ch r v op unexpect wf retry in
  let '(rc, s, w, e) := x in
  if rc =? 1 then let* y := internal_reopen (reopen_fuel e) s w e ch in let '(_, s, w, e) := y in Ret (1, s, w, e)
  else Ret (rc, s, w, e).

(** The request for the next block: which packets are wanted, and the length of the block. *)
Definition start_read (s : client) (c : clocal) : outcome (Z * clocal) :=
  let b := put8 (put8 (fread_pdu c) q_cmd CMD_FETCH) q_channel (channel c) in
  let b := put32 (put32 (put32 b q_sn (c_sn s)) q_filecnt (c_filecnt c)) q_ndcnt (ndcnt c) in
  let* off := ck (ndcnt c * c_net c) in
  let* len := ck (fsize c - off) in
  let '(rc, n) :=
    if c_net c <=? len then (c_net c, c_pmap c)
    else (len, Z.quot len CARRY + (if Z.rem len CARRY =? 0 then 0 else 1)) in
  let b := put32 b q_len rc in
  let* map := blit (slice b q_reqmap MAX_PACKET_MAP) 0 (replicate (Z.to_nat n) 1 ++ replicate (Z.to_nat (c_pmap c - Z.max 0 n)) 0) in
  Ret (rc, set_fread_pdu (patch b q_reqmap map) (set_request_map n c)).

(** [while (internal_sendwait (...) != 0) if (self->pd.abort) return -1;] *)
Fixpoint fetch_wait (fuel : nat) (s : client) (w : W) (e : list T) (ch : Z) : outcome (bool * client * W * list T) :=
  match fuel with
  | O => Fault OutOfFuel
  | S fuel =>
      let* x := internal_sendwait s w e ch P_read V_request_map CMP_NE 0 false 3 in
      let '(rc, s, w, e) := x in
      if rc =? 0 then Ret (true, s, w, e)
      else if negb (abort s =? 0) then Ret (false, s, w, e) else fetch_wait fuel s w e ch
  end.

Definition internal_read (s : client) (w : W) (e : list T) (ch : Z) : outcome (Z * client * W * list T) :=
  let* c := get_cl s ch in
  let* x := start_read s c in
  let '(rc, c) := x in
  let* s := put_cl s ch c in
  let* y := fetch_wait (S (length e)) s w e ch in
  let '(ok, s, w, e) := y in
  Ret (if ok : bool then rc else -1, s, w, e).

(** ** client.c: the interface *)
Definition bad_channel (ch : Z) : bool := (ch <? 0) || (MAXIMUM_STIOV2_SERVICES <=? ch).

(** [strncpy (filename, fname, 63); filename[63] = '\0'] *)
Definition name_field (fname : list Z) : list Z := let t := take 63 fname in t ++ replicate (64 - length t) 0.

Definition open_pdu (s : client) (ch : Z) (fname : list Z) (c : clocal) : list Z :=
  let b := put8 (put8 (fopen_pdu c) q_cmd CMD_OPENFILE) q_channel ch in
  patch (put32 (put32 b q_sn (c_sn s)) q_filecnt (c_filecnt c)) q_filename (name_field fname).

(** The value that is returned; [errno] is [errcode] when it is not positive. *)
Definition cli_openfile (s : client) (w : W) (e : list T) (ch : Z) (fname : list Z) : outcome (Z * client * W * list T) :=
  if bad_channel ch then Ret (-1, s, w, e)
  else
    let s := set_abort 0 s in
    let* c := get_cl s ch in
    let* n := ck (c_filecnt c + 1) in
    let c := set_c_filecnt n c in
    let c := set_fopen_pdu (open_pdu s ch fname c) (set_blen 0 (set_bidx 0 (set_ndtotal 0 (set_ndcnt 0 c)))) in
    let* s := put_cl s ch c in
    let* x := internal_reopen (reopen_fuel e) s w e ch in
    let '(rc, s, w, e) := x in
    if 0 <? rc then
      let* c := get_cl s ch in
      let* q := cquot (fsize c) (c_net c) in
      let* m := crem (fsize c) (c_net c) in
      let* s := put_cl s ch (set_ndtotal (if m =? 0 then q else q + 1) (set_have_file 1 c)) in
      Ret (rc, s, w, e)
    else Ret (rc, s, w, e).

Definition cli_reopen (s : client) (ch : Z) : outcome (Z * client) :=
  if bad_channel ch then Ret (-1, s)
  else let* c := get_cl s ch in let* s := put_cl s ch (set_blen 0 (set_bidx 0 (set_ndcnt 0 c))) in Ret (1, s).

(** [have_file] is set, not cleared. *)
Definition cli_closefile (s : client) (ch : Z) : outcome (Z * client) :=
  if bad_channel ch then Ret (-1, s)
  else let* c := get_cl s ch in let* s := put_cl s ch (set_have_file 1 c) in Ret (0, s).

Definition cli_filesize (s : client) (ch : Z) : outcome Z :=
  if bad_channel ch then Ret (-1) else let* c := get_cl s ch in Ret (fsize c).

(** The bytes that are copied from the channel's buffer. *)
Definition take_bytes (c : clocal) (len : Z) : outcome (Z * list Z * clocal) :=
  if 0 <? blen c then
    let rc := if len <=? blen c then len else blen c in
    if (0 <=? rc) && (0 <=? bidx c) && (bidx c + rc <=? zlen (c_buffer c)) then
      Ret (rc, slice (c_buffer c) (bidx c) rc, set_bidx (bidx c + rc) (set_blen (blen c - rc) c))
    else Fault OutOfBounds
  else Ret (-1, [], c).

Definition cli_read (s : client) (w : W) (e : list T) (ch len : Z) : outcome (Z * list Z * client * W * list T) :=
  if bad_channel ch then Ret (-1, [], s, w, e)
  else
    let* c := get_cl s ch in
    if have_file c =? 0 then Ret (-1, [], s, w, e)
    else
      let copy s w e :=
        let* c := get_cl s ch in
        let* r := take_bytes c len in
        let '(rc, bytes, c) := r in
        let* s := put_cl s ch c in Ret (rc, bytes, s, w, e) in
      if blen c <=? 0 then
        if ndtotal c <=? ndcnt c then Ret (-1, [], s, w, e)
        else
          let* s := put_cl s ch (set_bidx 0 c) in
          let* x := internal_read s w e ch in
          let '(rc, s, w, e) := x in
          let* c := get_cl s ch in
          let* s := put_cl s ch (set_ndcnt (ndcnt c + 1) (set_blen rc c)) in
          copy s w e
      else copy s w e.

(** ** stio_eng.c: the client behind the interface of [stio_engine_t] *)
Fixpoint steng_read_loop (fuel : nat) (s : client) (w : W) (e : list T) (ch explen : Z) (got : list Z) : outcome (list Z * client * W * list T) :=
  if explen <=? 0 then Ret (got, s, w, e)
  else
    match fuel with
    | O => Fault OutOfFuel
    | S fuel =>
        let* x := cli_read s w e ch explen in
        let '(rlen, bytes, s, w, e) := x in
        if rlen <=? 0 then Ret (got, s, w, e) else steng_read_loop fuel s w e ch (explen - rlen) (got ++ bytes)
    end.
(** The value is the length of the bytes. *)
Definition steng_read (s : client) (w : W) (e : list T) (ch len : Z) : outcome (list Z * client * W * list T) :=
  steng_read_loop (Z.to_nat (to_int len)) s w e ch (to_int len) [].
Definition steng_open (s : client) (w : W) (e : list T) (ch : Z) (fname : list Z) : outcome (Z * client * W * list T) := cli_openfile s w e ch fname.
Definition steng_reset (s : client) (ch : Z) : outcome (Z * client) := cli_reopen s ch.
Definition steng_close (s : client) (ch : Z) : outcome client := let* r := cli_closefile s ch in Ret (snd r).
Definition steng_abort (s : client) (ch : Z) : outcome client := steng_close (cli_abort s) ch.
Definition steng_filesize (s : client) (ch : Z) : outcome Z := cli_filesize s ch.
Definition steng_dispose (s : client) (ch : Z) : outcome client := steng_close s ch.
End waiting.

(** [server] and [port] point into the structure. *)
Definition cli_get_server (s : client) : list Z * Z * Z := (server_ip s, server_port s, have_server s).
Definition cli_get_server_id (s : client) : Z := server_id s.
(** The thread is told to end, and everything is freed. *)
Definition cli_dispose (s : client) : client := set_c_terminate 1 s.

(** ** Creation *)

(** [find_server_pdu] as the first client makes it; it is static, and a later client takes
    it as it is, with the serial number of the first. *)
Definition make_find_pdu (sn : Z) : list Z :=
  seal2 (put32 (put32 (put8 (replicate 30 0) q_cmd CMD_FINDSERVER) q_sn sn) q_protocol_version STIOV2_PROTOCOL_VERSION) SIZEOF_PDU2.

Definition new_clocal (i : Z) : clocal :=
  mk_clocal i (-1) 0 (put8 (replicate 78 0) q_channel i) (replicate 45 0) 0 V_need_filesize 0 0 0 0 (replicate 32768 0) 0 0 0 0 0 0 0 0 0 0.

(** What the system gives: memory (with the former contents of [server_ip]), the channels,
    the thread, whose pointer is not checked, the two sockets, and the time. *)
Record client_mem := mk_cmem { cm_self : option (list Z); cm_cl : bool; cm_thr : bool; cm_sudp : option UDP.udplib; cm_rudp : option UDP.udplib; cm_os1 : UDP.os_socket; cm_os2 : UDP.os_socket; cm_time : Z; cm_rx : list Z }.
Definition open_eth (u0 : option UDP.udplib) (n : Z) (os : UDP.os_socket) : option UDP.udplib :=
  match u0 with
  | None => None
  | Some u0 => let '(r, u) := UDP.udplib_open (UDP.new_udplib u0 n) os 0 true true in if r <? 0 then None else Some u
  end.
Definition new_streamming_io_v2_client (m : client_mem) (pdu : option (list Z)) (port : Z) : outcome (option (client * list Z)) :=
  match cm_self m with
  | None => Ret None
  | Some ip =>
      let* ip := aset ip 15 0 in
      let* ip := aset ip 0 0 in
      if negb (cm_cl m) then Ret None
      else
        match open_eth (cm_sudp m) 0 (cm_os1 m), open_eth (cm_rudp m) 1 (cm_os2 m) with
        | Some su, Some ru =>
            let pdu := match pdu with None => make_find_pdu (cm_time m) | Some p => p end in
            if negb (cm_thr m) then Fault NullDeref
            else Ret (Some (mk_client su ru port 0 0 (cm_time m) [new_clocal 0; new_clocal 1; new_clocal 2; new_clocal 3] 0 ip 0 0 (cm_rx m) pdu, pdu))
        | _, _ => Ret None
        end
  end.
End client.

(** ** Receiving a block *)
Definition rmap (c : clocal) : list Z := slice (fread_pdu c) q_reqmap MAX_PACKET_MAP.

(** The sizes of the arrays of a channel. *)
Record sizes (c : clocal) : Prop := { si_open : zlen (fopen_pdu c) = SIZEOF_OPEN; si_read : zlen (fread_pdu c) = SIZEOF_REQ; si_buf : zlen (c_buffer c) = MAX_TRANS_BUFSIZE }.

Lemma elem_wanted map i n j : j ∈ wanted map i n <-> (i <= j < i + n) /\ aget map j <> Ret 0.
Proof. unfold wanted. rewrite list_elem_of_filter, elem_of_seqZ. tauto. Qed.
Lemma wanted_nodup map i n : NoDup (wanted map i n).
Proof. apply NoDup_filter, NoDup_seqZ. Qed.

(** Clearing an entry of the map takes one packet out of those wanted. *)
Lemma wanted_clear map n i : 0 <= i < zlen map -> i ∈ wanted map 0 n ->
  (forall j, j ∈ wanted (<[Z.to_nat i := 0]> map) 0 n <-> j ∈ wanted map 0 n /\ j <> i) /\ zlen (wanted (<[Z.to_nat i := 0]> map) 0 n) = zlen (wanted map 0 n) - 1.
Proof.
  intros Hi Hw. assert (forall j, j ∈ wanted (<[Z.to_nat i := 0]> map) 0 n <-> j ∈ wanted map 0 n /\ j <> i) as Hj.
  { intros j. rewrite !elem_wanted. destruct (decide (j = i)) as [->|Hne]; [rewrite aget_insert by done; naive_solver|].
    destruct (Z.lt_ge_cases j 0); [lia|]. rewrite aget_insert_ne by lia. naive_solver. }
  split; [done|]. assert (wanted map 0 n ≡ₚ i :: wanted (<[Z.to_nat i := 0]> map) 0 n) as HP.
  { apply NoDup_Permutation; [apply wanted_nodup| |].
    - apply NoDup_cons. split; [|apply wanted_nodup]. rewrite Hj. naive_solver.
    - intros j. rewrite elem_of_cons, Hj. destruct (decide (j = i)); naive_solver. }
  apply Permutation_length in HP. unfold zlen. rewrite HP. cbn. lia.
Qed.

Lemma rmap_clear c i : zlen (fread_pdu c) = SIZEOF_REQ -> 0 <= i < MAX_PACKET_MAP ->
  slice (put8 (fread_pdu c) (q_reqmap + i) 0) q_reqmap MAX_PACKET_MAP = <[Z.to_nat i := 0]> (rmap c).
Proof.
  intros Hz Hi. unfold rmap. assert (zlen (slice (fread_pdu c) q_reqmap MAX_PACKET_MAP) = MAX_PACKET_MAP) as Hs by (apply zlen_slice; q2).
  apply list_eq. intros j. destruct (Z.lt_ge_cases (Z.of_nat j) MAX_PACKET_MAP) as [Hj|Hj].
  - rewrite lookup_slice by q2. unfold put8. rewrite lookup_patch by (autorewrite with katmai; q2). destruct (decide (j = Z.to_nat i)) as [->|Hne].
    + rewrite decide_True by (autorewrite with katmai; q2). rewrite list_lookup_insert_eq by (unfold zlen in *; q2). replace (_ - _)%nat with 0%nat by q2. done.
    + rewrite decide_False by (autorewrite with katmai; q2). rewrite list_lookup_insert_ne by done. by rewrite lookup_slice by q2.
  - rewrite lookup_slice_ge by done. symmetry. apply lookup_ge_None. rewrite length_insert. unfold zlen in *. lia.
Qed.

(** Block [nd] of [F] is being received: [n] of its packets were asked for; those no longer
    wanted are in the buffer. *)
Section receiving.
Context (F : list Z) (nd net pmap n : Z).
Context (Hpm : (pmap - 1) * CARRY < net <= pmap * CARRY) (Hp : 0 < pmap <= MAX_PACKET_MAP) (Hnet : net <= MAX_TRANS_BUFSIZE) (Hn : n <= pmap).
Definition row_ok (buf : list Z) (i : Z) : Prop :=
  forall q : nat, Z.of_nat q < packet_len net pmap i -> nd * net + i * CARRY + Z.of_nat q < zlen F ->
    buf !! Z.to_nat (i * CARRY + Z.of_nat q) = F !! Z.to_nat (nd * net + i * CARRY + Z.of_nat q).

Record rcv (c : clocal) : Prop := {
  rc_net : c_net c = net;
  rc_pmap : c_pmap c = pmap;
  rc_cnt : request_map c = zlen (wanted (rmap c) 0 pmap);
  rc_in : forall i, i ∈ wanted (rmap c) 0 pmap -> i < n;
  rc_rows : forall i, 0 <= i < n -> i ∉ wanted (rmap c) 0 pmap -> row_ok (c_buffer c) i;
}.

(** What a data packet may change. *)
Definition same_call (c c' : clocal) : Prop :=
  fsize c' = fsize c /\ need_filesize c' = need_filesize c /\ compare_variable c' = compare_variable c /\ compare_operator c' = compare_operator c /\
  compare_expect c' = compare_expect c /\ need_reopen c' = need_reopen c /\ have_file c' = have_file c /\ ndtotal c' = ndtotal c /\ ndcnt c' = ndcnt c /\
  fopen_pdu c' = fopen_pdu c /\ slice (fread_pdu c') 0 q_reqmap = slice (fread_pdu c) 0 q_reqmap /\ c_disk c' = c_disk c /\ c_fact c' = c_fact c /\
  c_net c' = c_net c /\ c_pmap c' = c_pmap c /\ blen c' = blen c /\ bidx c' = bidx c /\ channel c' = channel c /\ c_filecnt c' = c_filecnt c.

Lemma packet_char d i : u8_at d q_map = i -> 0 <= i < pmap -> char_at d q_map = i.
Proof. intros <- H. unfold char_at. rewrite (proj2 (Z.ltb_lt _ 128)) by q2. done. Qed.

Lemma on_data_spec c b buf d i : sizes c -> rcv c -> zlen buf = 2000 -> data_packet F b net pmap nd i d ->
  exists c', on_data (rx buf d) c = Ret c' /\ sizes c' /\ rcv c' /\ same_call c c' /\
    (forall j, j ∈ wanted (rmap c') 0 pmap <-> j ∈ wanted (rmap c) 0 pmap /\ j <> i).
Proof.
  intros [S1 S2' S3] [R1 R2 R3 R4 R5] Hbuf (D1 & D2 & D3 & D4 & D5 & D6). assert (zlen (rmap c) = MAX_PACKET_MAP) as Hm by (apply zlen_slice; q2).
  assert (char_at (rx buf d) q_map = i) as Hi by (rewrite char_rx by q2; by apply packet_char). unfold on_data, on_data_mark. rewrite Hi.
  destruct (Z.ltb_spec 0 (request_map c)) as [H0|H0].
  2:{ exists c. split; [done|]. split; [by split|]. split; [by split|]. split; [by unfold same_call|]. intros j. destruct (wanted (rmap c) 0 pmap) as [|x l] eqn:E; [set_solver|].
      rewrite zlen_cons in R3. pose proof (zlen_nonneg l). lia. }
  destruct (aget_lt (rmap c) i) as (m & Em & _); [q2|]. unfold rmap in Em at 1. rewrite Em. cbn [obind]. destruct (Z.eqb_spec m 0) as [->|Hm0].
  { exists c. split; [done|]. split; [by split|]. split; [by split|]. split; [by unfold same_call|]. intros j. split; [|tauto]. intros Hj. split; [done|]. intros ->. apply elem_wanted in Hj as [_ Hj]. by apply Hj. }
  assert (i ∈ wanted (rmap c) 0 pmap) as Hw by (apply elem_wanted; split; [q2|]; unfold rmap; rewrite Em; congruence).
  destruct (wanted_clear (rmap c) pmap i) as [Hwc Hwl]; [q2|done|]. cbn [obind]. unfold on_data_copy. rewrite Hi. cbn [c_pmap c_net set_request_map set_fread_pdu].
  rewrite R1, R2. destruct (packet_len_range net pmap i Hpm D1) as [L1 L2].
  assert ((if i =? pmap - 1 then ck (net - i * CARRY) else Ret CARRY) = Ret (packet_len net pmap i)) as ->.
  { unfold packet_len in *. destruct (i =? pmap - 1); [apply ck_Ret|done]. unfold CARRY, MAX_TRANS_BUFSIZE in *. int_lia. }
  cbn [obind]. rewrite (proj2 (Z.leb_le 0 _)), (proj2 (Z.leb_le (q_data + _) _)) by (rewrite ?zlen_rx; q2). cbn [andb c_buffer set_request_map set_fread_pdu].
  rewrite slice_rx_in by q2. assert (zlen (slice d q_data (packet_len net pmap i)) = packet_len net pmap i) as Hsl by (apply zlen_slice; q2).
  rewrite blit_patch by (rewrite ?Hsl; q2). cbn [obind]. eexists. split; [done|]. cbn [set_c_buffer set_request_map set_fread_pdu fread_pdu].
  assert (rmap (set_c_buffer (patch (c_buffer c) (i * CARRY) (slice d q_data (packet_len net pmap i))) (set_request_map (request_map c - 1) (set_fread_pdu (put8 (fread_pdu c) (q_reqmap + i) 0) c))) = <[Z.to_nat i := 0]> (rmap c)) as Hr
    by (unfold rmap at 1; cbn; apply rmap_clear; [done|q2]).
  split; [|split; [|split]].
  - split; cbn; [done|rewrite zlen_put8; q2|rewrite zlen_patch; rewrite ?Hsl; q2].
  - split; cbn; [done|done|rewrite Hr; lia|rewrite Hr; intros j Hj; apply R4; by apply Hwc|]. rewrite Hr. intros j Hj Hjw q Hq Hf.
    destruct (packet_len_range net pmap j Hpm ltac:(lia)) as [J1 J2]. rewrite lookup_patch by (rewrite ?Hsl; q2). rewrite Hsl. destruct (decide (j = i)) as [->|Hne].
    + rewrite decide_True by q2. rewrite lookup_slice by q2. rewrite <- D6 by done. f_equal. q2.
    + rewrite decide_False by (unfold CARRY in *; lia). apply R5; [done| |done|done]. intros Hj2. apply Hjw, Hwc. done.
  - unfold same_call. cbn. split_and!; try done. apply slice_put8_ne; q2.
  - intros j. rewrite Hr. apply Hwc.
Qed.

(** When no packet is missing the buffer holds the block. *)
Lemma block_done c len : rcv c -> request_map c = 0 -> sizes c -> 0 <= nd -> 0 <= len <= net -> len <= n * CARRY -> nd * net + len <= zlen F ->
  slice (c_buffer c) 0 len = slice F (nd * net) len.
Proof.
  intros [R1 R2 R3 R4 R5] H0 [_ _ S3] Hnd Hl Hln HF. apply list_eq. intros j. destruct (Z.lt_ge_cases (Z.of_nat j) len) as [Hj|Hj]; [|by rewrite !lookup_slice_ge by lia].
  assert (0 < net) by q2. rewrite !lookup_slice by nia. set (i := Z.of_nat j / CARRY). assert (0 <= i < n /\ Z.of_nat j = i * CARRY + Z.of_nat (j - Z.to_nat (i * CARRY)) /\ Z.of_nat (j - Z.to_nat (i * CARRY)) < CARRY) as (Hi & Hji & Hq).
  { unfold i, CARRY in *. Z.div_mod_to_equations. lia. }
  assert (i ∉ wanted (rmap c) 0 pmap) as Hw. { intros Hw. destruct (wanted (rmap c) 0 pmap) as [|x l]; [set_solver|]. rewrite zlen_cons in R3. pose proof (zlen_nonneg l). lia. }
  set (q := (j - Z.to_nat (i * CARRY))%nat) in *. assert (0 <= nd * net) by nia. specialize (R5 i Hi Hw q). replace (Z.to_nat 0 + j)%nat with (Z.to_nat (i * CARRY + Z.of_nat q)) by lia.
  rewrite R5; [f_equal; lia| |lia]. unfold packet_len. destruct (Z.eqb_spec i (pmap - 1)); lia.
Qed.
End receiving.

(** ** The request for a block *)
Definition npackets (len : Z) : Z := (len + (CARRY - 1)) / CARRY.
Lemma npackets_spec len : 0 < len -> 0 < npackets len /\ (npackets len - 1) * CARRY < len <= npackets len * CARRY.
Proof. intros H. unfold npackets, CARRY. Z.div_mod_to_equations. lia. Qed.

Lemma ceil_unique p len : (p - 1) * CARRY < len <= p * CARRY -> p = npackets len.
Proof. intros H. unfold npackets, CARRY in *. Z.div_mod_to_equations. lia. Qed.

Lemma wanted_fresh n pmap rest : 0 <= n <= pmap -> wanted (replicate (Z.to_nat n) 1 ++ replicate (Z.to_nat (pmap - n)) 0 ++ rest) 0 pmap = seqZ 0 n.
Proof.
  intros H. unfold wanted. assert (seqZ 0 pmap = seqZ 0 n ++ seqZ (0 + n) (pmap - n)) as -> by (rewrite <- seqZ_app by lia; f_equal; lia). rewrite filter_app. rewrite filter_all, filter_reject_nil; [by rewrite app_nil_r| |].
  - intros j Hj. apply elem_of_seqZ in Hj. intros Hne. apply Hne. apply aget_Some; [lia|]. rewrite lookup_app_r by (rewrite length_replicate; lia). rewrite lookup_app_l by (rewrite !length_replicate; lia).
    rewrite lookup_replicate. split; [done|]. rewrite length_replicate. lia.
  - intros j Hj. apply elem_of_seqZ in Hj. intros Hne. assert (aget (replicate (Z.to_nat n) 1 ++ replicate (Z.to_nat (pmap - n)) 0 ++ rest) j = Ret 1) as E; [|by rewrite E in Hne].
    apply aget_Some; [lia|]. rewrite lookup_app_l by (rewrite length_replicate; lia). rewrite lookup_replicate. split; [done|lia].
Qed.

(** The fields of a fetch request. *)
Record fetch_pdu (ch sn nd : Z) (b : list Z) : Prop := { fp_cmd : char_at b q_cmd = CMD_FETCH; fp_ch : char_at b q_channel = ch; fp_sn : i32_at b q_sn = sn; fp_nd : i32_at b q_ndcnt = nd }.
Lemma fetch_pdu_head ch sn nd b b' : fetch_pdu ch sn nd b -> slice b' 4 (q_reqmap - 4) = slice b 4 (q_reqmap - 4) -> fetch_pdu ch sn nd b'.
Proof.
  intros [A1 A2 A3 A4] E. split; [rewrite <- A1|rewrite <- A2|rewrite <- A3|rewrite <- A4]; first [apply char_u8, (u8_run _ _ _ _ _ E); q2 | apply (i32_run _ _ _ _ _ E); q2].
Qed.
Lemma char_put8 b o v : 0 <= o < zlen b -> 0 <= v < 128 -> char_at (put8 b o v) o = v.
Proof. intros. unfold char_at. rewrite u8_put8 by done. unfold u8. rewrite Z.mod_small by lia. by rewrite (proj2 (Z.ltb_lt v 128)) by lia. Qed.
Lemma char_put8_ne b o v p : 0 <= o < zlen b -> 0 <= p -> p <> o -> char_at (put8 b o v) p = char_at b p.
Proof. intros. apply char_u8, (u8_run _ _ p 1); [apply slice_put8_ne; lia|lia..]. Qed.
Lemma char_put32_ne b o v p : 0 <= o -> o + 4 <= zlen b -> 0 <= p -> p < o \/ o + 4 <= p -> char_at (put32 b o v) p = char_at b p.
Proof. intros. apply char_u8, (u8_run _ _ p 1); [apply slice_put32_ne; lia|lia..]. Qed.

Lemma start_read_spec F nd net pmap s c : (pmap - 1) * CARRY < net <= pmap * CARRY -> 0 < pmap <= MAX_PACKET_MAP -> net <= MAX_TRANS_BUFSIZE ->
  sizes c -> c_net c = net -> c_pmap c = pmap -> ndcnt c = nd -> fsize c = zlen F -> zlen F <= INT_MAX -> 0 <= nd -> nd * net < zlen F -> 0 <= channel c < 4 -> int_ok (c_sn s) ->
  let len := Z.min net (zlen F - nd * net) in
  exists c', start_read s c = Ret (len, c') /\ sizes c' /\ rcv F nd net pmap (npackets len) c' /\ request_map c' = npackets len /\ fetch_pdu (channel c) (c_sn s) nd (fread_pdu c') /\
    c' = set_fread_pdu (fread_pdu c') (set_request_map (request_map c') c).
Proof.
  intros Hc Hp Hnet [S1 S2' S3] N1 N2 N3 N4 HF Hnd Hlt Hch Hsn len. assert (0 < net) by q2. assert (0 < len) as Hlen by lia. destruct (npackets_spec len Hlen) as [P0 P1]. set (n := npackets len) in *.
  assert (n <= pmap) as Hnp by (unfold len in *; unfold CARRY in *; nia). assert (0 <= nd * net) by nia. unfold start_read. rewrite N1, N2, N3, N4. rewrite ck_Ret by int_lia. cbn [obind]. rewrite ck_Ret by int_lia. cbn [obind].
  assert ((if net <=? zlen F - nd * net then (net, pmap) else (zlen F - nd * net, Z.quot (zlen F - nd * net) CARRY + (if Z.rem (zlen F - nd * net) CARRY =? 0 then 0 else 1))) = (len, n)) as ->.
  { destruct (Z.leb_spec net (zlen F - nd * net)); [f_equal; [lia|]; apply ceil_unique; unfold len; rewrite Z.min_l; lia|]. f_equal; [lia|]. apply ceil_unique. replace len with (zlen F - nd * net) by lia.
    rewrite Z.quot_div_nonneg, Z.rem_mod_nonneg by q2. unfold CARRY. destruct (Z.eqb_spec ((zlen F - nd * net) mod 1439) 0); Z.div_mod_to_equations; lia. }
  set (b1 := put8 (fread_pdu c) q_cmd CMD_FETCH). set (b2 := put8 b1 q_channel (channel c)). set (b3 := put32 b2 q_sn (c_sn s)). set (b4 := put32 b3 q_filecnt (c_filecnt c)). set (b5 := put32 b4 q_ndcnt nd). set (b6 := put32 b5 q_len len).
  assert (zlen b1 = 45) as Z1 by (unfold b1; rewrite zlen_put8; q2). assert (zlen b2 = 45) as Z2 by (unfold b2; rewrite zlen_put8; q2). assert (zlen b3 = 45) as Z3 by (unfold b3; rewrite zlen_put32; q2).
  assert (zlen b4 = 45) as Z4 by (unfold b4; rewrite zlen_put32; q2). assert (zlen b5 = 45) as Z5 by (unfold b5; rewrite zlen_put32; q2). assert (zlen b6 = 45) as Z6 by (unfold b6; rewrite zlen_put32; q2).
  set (m := replicate (Z.to_nat n) 1 ++ replicate (Z.to_nat (pmap - Z.max 0 n)) 0). assert (zlen m = pmap) as Zm by (unfold m; rewrite zlen_app, !zlen_replicate; lia).
  assert (zlen (slice b6 q_reqmap MAX_PACKET_MAP) = 23) as Zs by (rewrite zlen_slice; q2). rewrite blit_patch by (rewrite ?Zm, ?Zs; q2). cbn [obind]. set (map := patch (slice b6 q_reqmap MAX_PACKET_MAP) 0 m).
  assert (zlen map = 23) as Zmap by (unfold map; rewrite zlen_patch; rewrite ?Zm, ?Zs; q2). assert (zlen (patch b6 q_reqmap map) = 45) as Z7 by (rewrite zlen_patch; rewrite ?Zmap; q2).
  assert (wanted map 0 pmap = seqZ 0 n) as Hw.
  { unfold map, patch, m. change (Z.to_nat 0) with 0%nat. rewrite take_0. cbn [app]. rewrite <- app_assoc. rewrite Z.max_r by lia. apply wanted_fresh. lia. }
  eexists. split; [done|]. cbn [fread_pdu set_fread_pdu request_map set_request_map]. split; [by split|].
  assert (rmap (set_fread_pdu (patch b6 q_reqmap map) (set_request_map n c)) = map) as Hrm by (unfold rmap; cbn; apply slice_patch_eq; rewrite ?Zmap; q2). split; [|split; [done|split; [|done]]].
  - split; cbn; [done|done|rewrite Hrm, Hw; unfold zlen; rewrite length_seqZ; lia|rewrite Hrm, Hw; intros i Hi%elem_of_seqZ; lia|rewrite Hrm, Hw; intros i Hi Hni; exfalso; apply Hni, elem_of_seqZ; lia].
  - apply (fetch_pdu_head _ _ _ b6); [|apply slice_patch_ne; rewrite ?Zmap; q2]. assert (0 <= nd <= INT_MAX) by int_lia.
    split; unfold b6; [rewrite char_put32_ne by q2|rewrite char_put32_ne by q2|rewrite i32_put32_ne by q2|rewrite i32_put32_ne by q2]; unfold b5;
      [rewrite char_put32_ne by q2|rewrite char_put32_ne by q2|rewrite i32_put32_ne by q2|rewrite i32_put32 by (q2 || int_lia); done]; unfold b4;
      [rewrite char_put32_ne by q2|rewrite char_put32_ne by q2|rewrite i32_put32_ne by q2]; unfold b3; [rewrite char_put32_ne by q2|rewrite char_put32_ne by q2|by rewrite i32_put32 by (q2 || int_lia)];
      unfold b2; [rewrite char_put8_ne by q2|by rewrite char_put8 by q2]. unfold b1. rewrite char_put8; [done|q2|vm_compute; intuition discriminate].
Qed.

(** ** The thread of the client *)
Section thread.
Context (inet_ntoa : Z -> list Z) (resolve : path -> option Z).
Definition recv_r (s : client) (a : UDP.sockaddr) (d : list Z) : client := set_rudp (UDP.set_rmaddr a (rudp s)) (set_c_rx (rx (c_rx s) d) s).
Definition recv_s (s : client) (a : UDP.sockaddr) (d : list Z) : client := set_sudp (UDP.set_rmaddr a (sudp s)) (set_c_rx (rx (c_rx s) d) s).

Lemma main_r s a d : zlen (c_rx s) = 2000 -> 10 <= zlen d <= 2000 -> cksum2_ok d (zlen d) = true -> 0 <= char_at d q_channel < 4 ->
  client_main_1 inet_ntoa resolve s true a d = response (recv_r s a d) (char_at d q_cmd) (char_at d q_channel).
Proof.
  intros Hb Hd Hck Hch. unfold client_main_1, UDP.udplib_receive. rewrite (take_ge d) by (unfold zlen in *; lia).
  assert (d ++ drop (length d) (c_rx s) = rx (c_rx s) d) as -> by (unfold rx; by rewrite take_ge by (unfold zlen in *; lia)).
  rewrite (proj2 (Z.leb_gt (zlen d) 0)) by lia. rewrite cksum2_rx, Hck by lia. cbn [negb]. rewrite !char_rx by q2. rewrite (proj2 (Z.ltb_ge _ 0)), (proj2 (Z.leb_gt _ (char_at d q_channel))) by q2. done.
Qed.
Lemma main_s s a d : zlen (c_rx s) = 2000 -> 0 < zlen d <= 2000 -> client_main_1 inet_ntoa resolve s false a d = cs_generic inet_ntoa resolve (recv_s s a d) (zlen d).
Proof.
  intros Hb Hd. unfold client_main_1, UDP.udplib_receive. rewrite (take_ge d) by (unfold zlen in *; lia).
  assert (d ++ drop (length d) (c_rx s) = rx (c_rx s) d) as -> by (unfold rx; by rewrite take_ge by (unfold zlen in *; lia)). by rewrite (proj2 (Z.leb_gt (zlen d) 0)) by lia.
Qed.
End thread.

(** ** Defects *)

(** Nothing in a data packet but its number and its data is looked at: a packet of another
    block, or of another file, is taken for one of the block being read. *)
Theorem data_unchecked (c : clocal) (b b' : list Z) : zlen b = 2000 -> zlen b' = 2000 -> slice b q_map (SIZEOF_DATA - q_map) = slice b' q_map (SIZEOF_DATA - q_map) ->
  (packet_len (c_net c) (c_pmap c) (char_at b q_map) <= CARRY) -> on_data b c = on_data b' c.
Proof.
  intros Hb Hb' E Hl. assert (char_at b q_map = char_at b' q_map) as Ec by (apply char_u8, (u8_run _ _ _ _ _ E); q2). unfold on_data, on_data_mark. rewrite <- Ec.
  destruct (0 <? request_map c); [|done]. destruct (aget _ _) as [m| |]; [|done|done]. cbn [obind]. destruct (m =? 0); [done|]. cbn [obind]. unfold on_data_copy. rewrite <- Ec. cbn [c_pmap c_net set_request_map set_fread_pdu].
  unfold packet_len in Hl. set (i := char_at b q_map) in *. destruct (if i =? c_pmap c - 1 then ck (c_net c - i * CARRY) else Ret CARRY) as [j| |] eqn:Ej; [|done|done]. cbn [obind].
  assert (j <= CARRY) as Hj. { destruct (i =? c_pmap c - 1); [apply ck_inv in Ej as [-> _]; done|]. injection Ej as <-. done. }
  rewrite Hb, Hb'. destruct (Z.leb_spec 0 j); [|done]. cbn [andb]. destruct (q_data + j <=? 2000); [|done].
  replace (slice b' q_data j) with (slice b q_data j); [done|]. replace q_data with (q_map + 1) by done. rewrite <- (slice_slice b q_map (SIZEOF_DATA - q_map) 1 j), <- (slice_slice b' q_map (SIZEOF_DATA - q_map) 1 j) by q2. by rewrite E.
Qed.

(** The last missing packet is counted before it is copied, without the lock: a caller that
    looks in between finds its block complete while the bytes are not there. *)
Theorem counted_before_copied (c c' : clocal) (b : list Z) :
  on_data_mark b c = Ret (Some c') -> request_map c = 1 -> (compare_variable c, compare_operator c, compare_expect c) = (V_request_map, CMP_NE, 0) ->
  do_compare c' = false /\ c_buffer c' = c_buffer c.
Proof.
  intros E H1 [= Hv Ho He]. unfold on_data_mark in E. destruct (0 <? request_map c); [|done]. destruct (aget _ _) as [m| |]; [|done|done]. cbn [obind] in E. destruct (m =? 0); [done|]. injection E as <-.
  split; [|done]. unfold do_compare, var_value. cbn. rewrite Hv, Ho, He, H1. done.
Qed.

(** The search packet is static: a second client with another serial number sends that of
    the first, and does not recognise the answer. *)
Theorem second_client_deaf inet_ntoa resolve (s : client) (a : UDP.sockaddr) (sn : Z) :
  zlen (c_rx s) = 2000 -> int_ok sn -> find_server_pdu s = make_find_pdu sn -> sn <> c_sn s ->
  exists s', client_main_1 inet_ntoa resolve s false a (find_server_pdu s) = Ret s' /\ have_server s' = have_server s /\ UDP.sent (sudp s') = UDP.sent (sudp s).
Proof.
  intros Hb Hi -> Hne. assert (zlen (make_find_pdu sn) = 30) as Hz by done. rewrite main_s by lia. unfold cs_generic, recv_s. cbn [c_rx set_c_rx set_sudp c_sn]. rewrite Hz.
  destruct (negb (cksum2_ok _ _)); [by eexists|]. rewrite i32_rx by q2. assert (i32_at (make_find_pdu sn) q_sn = sn) as ->; [|rewrite (proj2 (Z.eqb_neq sn _)) by done; by eexists].
  unfold make_find_pdu. set (x := put8 (replicate 30 0) q_cmd CMD_FINDSERVER). assert (zlen x = 30) as Hx by done. set (y := put32 x q_sn sn). assert (zlen y = 30) as Hy by (unfold y; rewrite zlen_put32; q2).
  rewrite seal2_seal, i32_seal by (rewrite ?zlen_put32; q2). rewrite i32_put32_ne by q2. unfold y. apply i32_put32; [q2|q2|done].
Qed.

(** Closing a file leaves it open for reading. *)
Lemma close_keeps_file s ch rc s' : cli_closefile s ch = Ret (rc, s') -> bad_channel ch = false -> exists c, get_cl s' ch = Ret c /\ have_file c = 1.
Proof.
  unfold cli_closefile. intros E Hbc. rewrite Hbc in E. destruct (get_cl s ch) as [c| |] eqn:Ec; [|done|done]. cbn [obind] in E. unfold put_cl in E. destruct (aget_inv _ _ _ Ec) as [Hch _]. rewrite aset_Ret in E by lia. cbn [obind] in E.
  injection E as <- <-. exists (set_have_file 1 c). split; [|done]. unfold get_cl. cbn. by apply aget_insert.
Qed.

End C2.
