(* ===== verification/StioV2End.v ===== *)
(** * StioV2End.v: client and server of protocol version 2 together

    The network between one client and a server made for one client.  During each wait of the
    client the schedule says which of the client's requests reach the server and which of the
    server's replies reach the client, in which order and how often: what was sent since the
    last wait, or any selection of everything ever sent, so that packets are lost, repeated,
    reordered and delayed over any number of waits; and it says whether the wait times out.
    One kind of packet can be kept out, data of another block than the one asked for last:
    the client does not compare the block's number ([C2.data_unchecked]), and [late_corrupts]
    is a run in which such a packet ends up in the caller's bytes. *)

From S2P Require Import Prelude Posix Udp Wire StioV2Server StioV2Client.
Import S2 C2.

Module E2.

(** The server with its files; [wns] and [wnr] are the numbers of datagrams of the client's
    two sockets at the last turn, [wfs] and [wfr] those at the start; [wold] are the replies
    made so far, [wup] says that the server's main thread runs. *)
Record world := mk_world { wsrv : server; wk : kernel; wfs : nat; wfr : nat; wns : nat; wnr : nat; wold : list event; wup : bool }.

(** Which packets arrive: those that are new, or, of all that were ever sent, those with the
    given numbers, in that order. *)
Inductive delivery := All | Only (l : list nat).
Definition pick {A} (d : delivery) (old new : list A) : list A := match d with All => new | Only l => omap (fun i => old !! i) l end.
(** What arrives at the server's main socket, at the entry's socket, at the client, and
    whether a wait without a signal times out. *)
Record turn := mk_turn { t_s : delivery; t_r : delivery; t_del : delivery; t_tmo : bool }.
Definition lossless (t : turn) : Prop := t_s t = All /\ t_r t = All /\ t_del t = All.

(** The block that a fetch request or a data packet is about, and the last one asked for. *)
Definition block (d : list Z) : option Z := if char_at d q_cmd =? CMD_FETCH then Some (i32_at d q_ndcnt) else None.
Definition last_block (reqs : list (UDP.sockaddr * list Z)) : option Z := last (omap (fun x => block (snd x)) reqs).
Definition fits (b : option Z) (ev : event) : bool :=
  match ev with Dgram true _ d => match block d with Some nd => bool_decide (b = Some nd) | None => true end | _ => true end.

Section system.
Context (inet_ntoa : Z -> list Z) (resolve : path -> option Z) (chunk : Z -> Z -> Z) (malloc : Z -> option (list Z)) (now : Z) (os : UDP.os_socket).
(** The addresses of the client's two sockets and of the server's main socket. *)
Context (cs cr ss : UDP.sockaddr).

(** The socket of the client's entry. *)
Definition entry_addr (e : entry) : UDP.sockaddr := UDP.mk_sockaddr (UDP.sin_addr ss) (UDP.htons (e_port e)).

Fixpoint serve_main (s : server) (up : bool) (ds : list (UDP.sockaddr * list Z)) : outcome (server * bool) :=
  match ds with
  | [] => Ret (s, up)
  | (_, d) :: ds => if up then let* r := streamio_v2_main_1 os s cs d in let '(up, s) := r in serve_main s up ds else Ret (s, false)
  end.
Fixpoint serve_client (s : server) (k : kernel) (e : entry) (ds : list (UDP.sockaddr * list Z)) : outcome (entry * kernel) :=
  match ds with
  | [] => Ret (e, k)
  | (dst, d) :: ds =>
      if decide (dst = entry_addr e /\ inuse e <> 0) then let* r := ce_svc_main_1 chunk malloc now s k e cr d in let '(e, k) := r in serve_client s k e ds
      else serve_client s k e ds
  end.

(** What [sent] has got since it was [old]. *)
Definition news (old new : UDP.udplib) : list (list Z) := (drop (length (UDP.sent old)) (UDP.sent new)).*2.

(** With [late], data of another block than the last one asked for arrives as well. *)
Definition net_turn (late : bool) (w : world) (t : turn) (ssent rsent : list (UDP.sockaddr * list Z)) : outcome (list event * bool * world) :=
  let* r := serve_main (wsrv w) (wup w) (pick (t_s t) (drop (wfs w) ssent) (drop (wns w) ssent)) in
  let '(s, up) := r in
  let* c := aget (cli s) 0 in
  match c with
  | None => Fault NullDeref
  | Some e =>
      let* r := serve_client s (wk w) e (pick (t_r t) (drop (wfr w) rsent) (drop (wnr w) rsent)) in
      let '(e', k) := r in
      let reps := (Dgram false ss <$> news (udp (wsrv w)) (udp s)) ++ (Dgram true (entry_addr e) <$> news (e_udp e) (e_udp e')) in
      let evs := pick (t_del t) (wold w ++ reps) reps in
      Ret (if late then evs else filter (fits (last_block (drop (wfr w) rsent))) evs, t_tmo t,
           mk_world (set_cli (<[0%nat := Some e']> (cli s)) s) k (wfs w) (wfr w) (length ssent) (length rsent) (wold w ++ reps) up)
  end.

(** ** The server's side *)
Context (ch disk net fact pmap sn : Z) (name F m : list Z).
Context (Hos : os_good os) (Hip : UDP.sin_addr cr = UDP.sin_addr cs) (Hch : 0 <= ch < 4) (Hsn : int_ok sn).
Context (Hm : malloc disk = Some m) (Hzm : zlen m = disk) (HF : 0 < zlen F <= INT_MAX).

(** The file is open on the channel. *)
Definition opened (k : kernel) (e : entry) : Prop := exists sl, aget (e_sl e) ch = Ret sl /\ holds disk F k sl.

Record ent_inv (k : kernel) (e : entry) : Prop := {
  en_buf : zlen (e_buf e) = 2000;
  en_sl : exists sl, aget (e_sl e) ch = Ret sl /\ chan_mem disk sl;
  en_fs : k_fs k name = Some (F, true);
  en_reg : inuse e <> 0 -> e_addr e = UDP.sin_addr cs /\ e_sn e = sn;
  en_port : 0 <= e_port e < 65536 \/ inuse e = 0;
}.
Record main_inv (s : server) : Prop := {
  ma_table : table_ok s;
  ma_one : maxclient s = 1;
  ma_room : room (udp s) (UDP.sin_addr cs);
  ma_run : stop_services s = 0;
  ma_fopen : fopen s = None;
  ma_params : params_ok s ch disk net fact pmap;
}.

(** *** Searching and registering *)
Definition find_pdu : list Z := make_find_pdu sn.
Definition regist_pdu : list Z := seal2 (put8 find_pdu q_cmd CMD_REGIST) SIZEOF_PDU2.
Definition regist_reply (port : Z) : list Z := seal2 (put32 regist_pdu q_port port) SIZEOF_PDU2.

(** A search packet: its fields, which [put8] of the command and [put32] of the port keep. *)
Record ctrl (cmd : Z) (d : list Z) : Prop := {
  ct_len : zlen d = 30;
  ct_cksum : cksum2_ok d 30 = true;
  ct_cmd : char_at d q_cmd = cmd;
  ct_sn : i32_at d q_sn = sn;
  ct_ver : i32_at d q_protocol_version = 2;
}.
Lemma i32_seal2 b len p : 4 <= zlen b -> 4 <= p -> i32_at (seal2 b len) p = i32_at b p.
Proof. apply i32_seal. Qed.
Lemma char_seal2 b len p : 4 <= zlen b -> 4 <= p -> char_at (seal2 b len) p = char_at b p.
Proof. apply char_seal. Qed.
Lemma i32_put8_ne b o v p : 0 <= o < zlen b -> 0 <= p -> p + 4 <= o \/ o + 1 <= p -> i32_at (put8 b o v) p = i32_at b p.
Proof. intros. unfold i32_at. by rewrite slice_put8_ne by lia. Qed.

Lemma find_ctrl : ctrl CMD_FINDSERVER find_pdu.
Proof.
  unfold find_pdu, make_find_pdu. set (x := put8 (replicate 30 0) q_cmd CMD_FINDSERVER). assert (zlen x = 30) as Hx by done. set (y := put32 x q_sn sn). assert (zlen y = 30) as Hy by (unfold y; rewrite zlen_put32; q2).
  set (z := put32 y q_protocol_version STIOV2_PROTOCOL_VERSION). assert (zlen z = 30) as Hz by (unfold z; rewrite zlen_put32; q2).
  split; [by rewrite zlen_seal2; lia|apply cksum2_seal; lia|rewrite char_seal2 by q2|rewrite i32_seal2 by q2|rewrite i32_seal2 by q2]; unfold z.
  - rewrite char_put32_ne by q2. unfold y. rewrite char_put32_ne by q2. done.
  - rewrite i32_put32_ne by q2. unfold y. apply i32_put32; [q2|q2|done].
  - apply i32_put32; [q2|q2|by vm_compute].
Qed.
Lemma regist_ctrl : ctrl CMD_REGIST regist_pdu.
Proof.
  destruct find_ctrl as [A1 A2 A3 A4 A5]. unfold regist_pdu. assert (zlen (put8 find_pdu q_cmd CMD_REGIST) = 30) as Hz by (rewrite zlen_put8; q2).
  split; [by rewrite zlen_seal2; lia|apply cksum2_seal; lia|rewrite char_seal2 by q2|rewrite i32_seal2, i32_put8_ne by q2; done..]. apply char_put8; [q2|vm_compute; intuition discriminate].
Qed.
Lemma reply_ctrl port : 0 <= port < 65536 -> ctrl CMD_REGIST (regist_reply port) /\ i32_at (regist_reply port) q_port = port.
Proof.
  intros Hp. destruct regist_ctrl as [A1 A2 A3 A4 A5]. unfold regist_reply. assert (zlen (put32 regist_pdu q_port port) = 30) as Hz by (rewrite zlen_put32; q2).
  split; [split; [by rewrite zlen_seal2; lia|apply cksum2_seal; lia|rewrite char_seal2, char_put32_ne by q2; done|rewrite i32_seal2, i32_put32_ne by q2; done..]|].
  rewrite i32_seal2 by q2. apply i32_put32; [q2|q2|int_lia].
Qed.

(** What handling a search or a registration does to the client's entry. *)
Definition kept (e e' : entry) : Prop :=
  e_sl e' = e_sl e /\ UDP.sent (e_udp e') = UDP.sent (e_udp e) /\ (inuse e <> 0 -> inuse e' <> 0 /\ e_port e' = e_port e).
Lemma kept_trans e1 e2 e3 : kept e1 e2 -> kept e2 e3 -> kept e1 e3.
Proof. intros (A1 & A2 & A3) (B1 & B2 & B3). split; [congruence|]. split; [congruence|]. intros H. destruct (A3 H) as [C1 C2]. destruct (B3 C1). split; [done|congruence]. Qed.

Definition is_ctrl (d : list Z) : Prop := d = find_pdu \/ d = regist_pdu.
Definition main_reply (e : entry) (r : list Z) : Prop := r = find_pdu \/ inuse e <> 0 /\ r = regist_reply (e_port e).
Lemma main_reply_kept e e' r : kept e e' -> main_reply e r -> main_reply e' r.
Proof. intros (_ & _ & K) [->|[Hi ->]]; [by left|]. destruct (K Hi) as [H1 H2]. right. by rewrite H2. Qed.

Lemma htons_range p : 0 <= UDP.htons p < 65536.
Proof. unfold UDP.htons. Z.div_mod_to_equations. lia. Qed.
Lemma one_client (s : server) (e : entry) : cli s = [Some e] -> main_inv s -> forall i c, 0 <= i < maxclient s -> cli s !! Z.to_nat i = Some c -> i = 0 /\ c = Some e.
Proof. intros E M i c Hi Hc. rewrite (ma_one _ M) in Hi. assert (i = 0) as -> by lia. rewrite E in Hc. cbn in Hc. by injection Hc as <-. Qed.

Lemma main_step s k e d : main_inv s -> cli s = [Some e] -> ent_inv k e -> is_ctrl d ->
  exists s' e' r, streamio_v2_main_1 os s cs d = Ret (true, s') /\ main_inv s' /\ cli s' = [Some e'] /\ ent_inv k e' /\ kept e e' /\
    UDP.sent (udp s') = UDP.sent (udp s) ++ [(cs, r)] /\ main_reply e' r /\ (d = find_pdu -> r = find_pdu) /\ (d = regist_pdu -> inuse e' <> 0 /\ r = regist_reply (e_port e')).
Proof.
  intros M Hc I Hd. destruct (decide (d = find_pdu)) as [->|Hnf].
  - destruct find_ctrl as [C1 C2' C3 C4 C5]. destruct (find_answers os s cs find_pdu) as (s' & E & S1 & S2' & S3 & S4 & S5 & S6); [apply M|apply M|lia|by rewrite C1|done|done|].
    exists s', e, find_pdu. split; [done|]. split.
    { destruct M as [[T1 [T2 T3] T4 T5] M2 M3 M4 M5 M6]. pose proof S3 as (_ & _ & _ & _ & G1 & G2 & G3 & _). split; [|by rewrite G3| |by rewrite G2|by rewrite G1|by eapply params_cfg].
      - split; [by rewrite S2', G3|by rewrite S5, S4, G3|by rewrite S2'|done].
      - unfold room in *. by rewrite S4. }
    split; [congruence|]. split; [done|]. split; [done|]. split; [done|]. split; [by left|]. split; [done|]. intros E2. exfalso. pose proof (ct_cmd _ _ regist_ctrl) as Hr. rewrite <- E2, C3 in Hr. done.
  - destruct Hd as [->| ->]; [done|]. destruct regist_ctrl as [C1 C2' C3 C4 C5].
    destruct (main_regist os s cs regist_pdu Hos) as (s' & i & e0 & e' & port & E & T & G & Hi & L0 & L1 & R & Ro & S); [apply M|apply M|apply M|lia|by rewrite C1|done|].
    destruct (one_client s e Hc M i _ Hi L0) as [-> [= ->]]. rewrite Hc in L1. cbn in L1. destruct (ce_regist_spec os e (UDP.sin_addr cs) sn Hos) as (p & e2 & R2 & B1 & B2 & B3 & B4 & B5 & B6 & B7 & B8).
    rewrite C4, R2 in R. injection R as -> ->. assert (kept e e' /\ 0 <= port < 65536) as [K Hport].
    { destruct I as [_ _ _ I4 I5]. destruct B8 as [(U & _ & ->)|([U|U] & _ & ->)].
      - split; [split; [done|split; [done|intros _; split; [done|congruence]]]|]. by destruct I5.
      - split; [split; [done|split; [done|done]]|apply htons_range].
      - split; [|apply htons_range]. split; [done|]. split; [done|]. intros Hu. destruct (I4 Hu). congruence. }
    exists s', e', (regist_reply (e_port e')). split; [done|]. split.
    { destruct M as [M1 M2 M3 M4 M5 M6]. pose proof G as (_ & _ & _ & _ & G1 & G2 & G3 & _). split; [done|by rewrite G3|done|by rewrite G2|by rewrite G1|by eapply params_cfg]. }
    split; [done|]. split.
    { destruct I as [I1 (sl & I2 & I2') I3 I4 I5]. split; [by rewrite B6|exists sl; by rewrite B5|done|by rewrite B2, B3|left; lia]. }
    split; [done|]. split; [rewrite S; unfold regist_reply; by rewrite C1|]. split; [by right|]. split; [done|done].
Qed.

Lemma serve_main_spec k ds : forall s e, main_inv s -> cli s = [Some e] -> ent_inv k e -> Forall (fun x => is_ctrl (snd x)) ds ->
  exists s' e' rs, serve_main s true ds = Ret (s', true) /\ main_inv s' /\ cli s' = [Some e'] /\ ent_inv k e' /\ kept e e' /\
    UDP.sent (udp s') = UDP.sent (udp s) ++ ((cs,.) <$> rs) /\ Forall (main_reply e') rs /\
    (find_pdu ∈ ds.*2 -> find_pdu ∈ rs) /\ (regist_pdu ∈ ds.*2 -> inuse e' <> 0 /\ regist_reply (e_port e') ∈ rs).
Proof.
  induction ds as [|[a d] ds IH]; intros s e M Hc I Hd; cbn [serve_main].
  { exists s, e, []. rewrite app_nil_r. split_and!; try done; by intros ?%elem_of_nil. }
  apply Forall_cons in Hd as [Hd Hds]. cbn in Hd. destruct (main_step s k e d M Hc I Hd) as (s1 & e1 & r & -> & M1 & Hc1 & I1 & K1 & S1 & R1 & F1 & G1). cbn [obind].
  destruct (IH s1 e1 M1 Hc1 I1 Hds) as (s2 & e2 & rs & E & M2 & Hc2 & I2 & K2 & S2' & R2 & F2 & G2). exists s2, e2, (r :: rs). split; [done|]. split; [done|]. split; [done|]. split; [done|].
  split; [by eapply kept_trans|]. split; [rewrite S2', S1, <- app_assoc; done|]. split; [constructor; [by eapply main_reply_kept|done]|]. cbn. rewrite !elem_of_cons. split.
  - intros [Hf|Hf]; [left; by rewrite F1|right; by apply F2].
  - intros [Hf|Hf]; [|destruct (G2 Hf); split; [done|by right]]. destruct (G1 (eq_sym Hf)) as [Hu ->]. destruct K2 as (_ & _ & K2). destruct (K2 Hu) as [Hu2 ->]. split; [done|by left].
Qed.

(** *** Serving the client *)
Inductive phase := Opening | Reading (nd : Z).

(** The request of a phase, and the replies to it. *)
Definition req_ok (ph : phase) (d : list Z) : Prop :=
  cksum2_ok d (zlen d) = true /\
  match ph with
  | Opening => zlen d = SIZEOF_OPEN /\ char_at d q_cmd = CMD_OPENFILE /\ char_at d q_channel = ch /\ i32_at d q_sn = sn /\ cstr_at d q_filename = Some name
  | Reading nd => zlen d = SIZEOF_REQ /\ fetch_pdu ch sn nd d
  end.
Definition rep_ok (ph : phase) (r : list Z) : Prop :=
  exists b, req_ok ph b /\ match ph with Opening => ok_packet disk net fact pmap b (zlen F) r | Reading nd => exists i, data_packet F b net pmap nd i r end.
Definition ph_ok (ph : phase) : Prop := match ph with Opening => True | Reading nd => 0 <= nd /\ nd * net < zlen F end.

(** Every request is answered in full. *)
Definition answered (ph : phase) (d : list Z) (rs : list (list Z)) : Prop :=
  match ph with
  | Opening => exists r, r ∈ rs /\ rep_ok ph r
  | Reading nd => forall i, i ∈ wanted (slice d q_reqmap MAX_PACKET_MAP) 0 pmap -> exists r, r ∈ rs /\ rep_ok ph r /\ u8_at r q_map = i
  end.
Lemma answered_mono ph d rs rs' : rs ⊆ rs' -> answered ph d rs -> answered ph d rs'.
Proof.
  intros H. destruct ph; cbn; [intros (r & Hr & R); exists r; split; [by apply H|done]|]. intros A i Hi. destruct (A i Hi) as (r & Hr & R). exists r. split; [by apply H|done].
Qed.

(** The block of a request tells its phase. *)
Definition blk (ph : phase) : option Z := match ph with Opening => None | Reading nd => Some nd end.
Lemma blk_inj ph ph' : blk ph = blk ph' -> ph = ph'.
Proof. destruct ph, ph'; cbn; congruence. Qed.
Lemma req_block ph d : req_ok ph d -> block d = blk ph.
Proof. intros [_ H]. unfold block. destruct ph as [|nd]; [destruct H as (_ & -> & _)|destruct H as (_ & [Q1 Q2 Q3 Q4]); rewrite ?Q1, ?Q2, ?Q3, ?Q4]; done. Qed.

Lemma client_step s ph k e d : main_inv s -> ent_inv k e -> inuse e <> 0 -> ph_ok ph -> (ph <> Opening -> opened k e) -> req_ok ph d ->
  exists e' k' rs, ce_svc_main_1 chunk malloc now s k e cr d = Ret (e', k') /\ ent_inv k' e' /\ inuse e' = inuse e /\ e_port e' = e_port e /\
    UDP.sent (e_udp e') = UDP.sent (e_udp e) ++ ((cr,.) <$> rs) /\ Forall (rep_ok ph) rs /\ opened k' e' /\ answered ph d rs.
Proof.
  intros M I Hu Hph Hop Hreq. destruct (en_reg _ _ I Hu) as [Ha Hs]. pose proof (ma_params _ M) as P. pose proof I as [I1 (sl0 & I2 & I2') I3 I4 I5]. pose proof Hreq as Hreq0. destruct Hreq as [Hck Hreq].
  assert (forall cmd, 20 <= zlen d <= 2000 -> i32_at d q_sn = sn -> char_at d q_channel = ch -> char_at d q_cmd = cmd -> request e cr ch cmd d) as HR by (intros cmd ? ? ? ?; split; congruence || done).
  assert (forall e' k' sl', same_client (received e cr d) e' -> e_sl e' = <[Z.to_nat ch := sl']> (e_sl e) -> holds disk F k' sl' -> k_fs k' = k_fs k ->
    ent_inv k' e' /\ inuse e' = inuse e /\ e_port e' = e_port e /\ opened k' e') as HE.
  { intros e' k' sl' (C1 & C2' & C3 & C4 & C5 & _) Hsl Hh Hfs. cbn in C1, C2', C3, C4, C5. destruct (aget_inv _ _ _ I2) as [Hc4 _].
    assert (aget (e_sl e') ch = Ret sl') as Hg by (rewrite Hsl; apply aget_insert; lia).
    split; [|split; [done|split; [done|by exists sl']]]. split; [rewrite C5, zlen_rx; lia|exists sl'; split; [done|by eapply holds_mem]|by rewrite Hfs|by rewrite C3, C1, C2'|by rewrite C4, C3]. }
  destruct ph as [|nd].
  - destruct Hreq as (Q1 & Q2 & Q3 & Q4 & Q5).
    destruct (svc_open chunk malloc now s ch disk net fact pmap P (ma_run _ M) Hch F k e sl0 name m cr d) as (e' & k' & sl' & r & E & A1 & A2 & A3 & A4 & A5 & A6);
      [done|done|done|done|done|apply M|apply HR; [q2|done..]|done|done|done|lia|].
    destruct (HE e' k' sl') as (H1 & H2 & H3 & H4); [done..|]. exists e', k', [r]. assert (rep_ok Opening r) by (by exists d). split_and!; try done; [by constructor|]. exists r. split; [by left|done].
  - destruct Hreq as (Q1 & Q2). destruct Hph as [N1 N2]. destruct (Hop ltac:(done)) as (sl & L1 & L2). pose proof Q2 as [P1 P2 P3 P4]. 
    destruct (svc_fetch chunk malloc now s ch disk net fact pmap P (ma_run _ M) Hch F k e sl cr d) as (e' & k' & sl' & rs & E & A1 & A2 & A3 & A4 & A5 & A6);
      [done|done|done|apply HR; [q2|done..]|done|lia|rewrite P4; lia|].
    destruct (HE e' k' sl') as (H1 & H2 & H3 & H4); [done|done|done|apply A4|]. exists e', k', rs. rewrite P4 in A6. split_and!; try done.
    + apply Forall_forall. intros r [j Hr]%list_elem_of_lookup. destruct (Forall2_lookup_r _ _ _ _ _ A6 Hr) as (i & _ & Hi). exists d. split; [done|]. by exists i.
    + intros i Hi. apply list_elem_of_lookup in Hi as [j Hj]. destruct (Forall2_lookup_l _ _ _ _ _ A6 Hj) as (r & Hr & D). exists r. split; [by apply list_elem_of_lookup_2 with j|]. split; [exists d; split; [done|]; by exists i|].
      by destruct D as (_ & _ & _ & _ & -> & _).
Qed.

(** A request that the client has sent at some time, and a reply that it can get at some time. *)
Definition old_req (k : kernel) (e : entry) (x : UDP.sockaddr * list Z) : Prop :=
  fst x = entry_addr e /\ inuse e <> 0 /\ exists ph, ph_ok ph /\ req_ok ph (snd x) /\ (ph <> Opening -> opened k e).
Definition old_reply (k : kernel) (e : entry) (ev : event) : Prop :=
  (exists r, ev = Dgram false ss r /\ main_reply e r) \/ (exists a r ph, ev = Dgram true a r /\ rep_ok ph r /\ opened k e).

(** What a turn does to the entry and its files. *)
Definition grown (k : kernel) (e : entry) (k' : kernel) (e' : entry) : Prop :=
  (inuse e <> 0 -> inuse e' <> 0 /\ e_port e' = e_port e) /\ (opened k e -> opened k' e').
Lemma grown_trans k1 e1 k2 e2 k3 e3 : grown k1 e1 k2 e2 -> grown k2 e2 k3 e3 -> grown k1 e1 k3 e3.
Proof. intros [A1 A2] [B1 B2]. split; [|by auto]. intros H. destruct (A1 H) as [C1 C2]. destruct (B1 C1). split; [done|congruence]. Qed.
Lemma grown_kept k e e' : kept e e' -> grown k e k e'.
Proof. intros (K1 & _ & K3). split; [done|]. unfold opened. by rewrite K1. Qed.
Lemma old_req_grown k e k' e' x : grown k e k' e' -> old_req k e x -> old_req k' e' x.
Proof. intros [G1 G2] (H1 & H2 & ph & H3 & H4 & H5). destruct (G1 H2) as [U P]. split; [unfold entry_addr; by rewrite P|]. split; [done|]. exists ph. naive_solver. Qed.
Lemma old_reply_grown k e k' e' ev : grown k e k' e' -> old_reply k e ev -> old_reply k' e' ev.
Proof.
  intros [G1 G2] [(r & -> & Hr)|(a & r & ph & -> & H1 & H2)]; [left|right; exists a, r, ph; naive_solver]. exists r. split; [done|]. destruct Hr as [->|[U ->]]; [by left|]. destruct (G1 U) as [U' P]. right. by rewrite P.
Qed.

Lemma serve_client_spec s ds : forall k e, main_inv s -> ent_inv k e -> Forall (old_req k e) ds ->
  exists e' k' rs, serve_client s k e ds = Ret (e', k') /\ ent_inv k' e' /\ inuse e' = inuse e /\ e_port e' = e_port e /\
    UDP.sent (e_udp e') = UDP.sent (e_udp e) ++ ((cr,.) <$> rs) /\ Forall (fun r => exists ph, rep_ok ph r) rs /\ (opened k e \/ rs <> [] -> opened k' e') /\
    forall x ph, x ∈ ds -> req_ok ph (snd x) -> answered ph (snd x) rs.
Proof.
  induction ds as [|[a d] ds IH]; intros k e M I Hd; cbn [serve_client].
  { exists e, k, []. rewrite app_nil_r. split_and!; try done; [naive_solver|]. by intros x ph ?%elem_of_nil. }
  apply Forall_cons in Hd as [(Hd1 & Hu & ph1 & Hd2 & Hd3 & Hd4) Hds]. cbn in Hd1, Hd3. rewrite decide_True by done. destruct (client_step s ph1 k e d) as (e1 & k1 & r1 & -> & I1 & U1 & P1 & S1 & R1 & O1 & A1); [done..|]. cbn [obind].
  assert (grown k e k1 e1) as G by (split; [intros _; split; [congruence|done]|done]).
  destruct (IH k1 e1) as (e2 & k2 & r2 & E & I2 & U2 & P2 & S2' & R2 & O2 & A2); [done|done|eapply Forall_impl; [done|]; intros x; by apply old_req_grown|]. exists e2, k2, (r1 ++ r2).
  split; [done|]. split; [done|]. split; [congruence|]. split; [congruence|]. split; [rewrite S2', S1, fmap_app, app_assoc; done|].
  split; [apply Forall_app; split; [eapply Forall_impl; [done|]; intros r Hr; by exists ph1|done]|]. split; [naive_solver|].
  intros x ph [->|Hx]%elem_of_cons Hq; cbn in *.
  - assert (ph = ph1) as -> by (apply blk_inj; rewrite <- (req_block _ _ Hq); by apply req_block). eapply answered_mono; [|exact A1]. set_solver.
  - eapply answered_mono; [|by apply (A2 x)]. set_solver.
Qed.

(** The server between two turns. *)
Record winv (w : world) (e : entry) : Prop := {
  wi_main : main_inv (wsrv w); wi_cli : cli (wsrv w) = [Some e]; wi_ent : ent_inv (wk w) e; wi_up : wup w = true; wi_old : Forall (old_reply (wk w) e) (wold w);
}.

(** What can arrive at the client. *)
Definition ev_ok (ph : phase) (k : kernel) (e : entry) (ev : event) : Prop :=
  (exists r, ev = Dgram false ss r /\ main_reply e r) \/ (exists a r ph', ev = Dgram true a r /\ rep_ok ph' r /\ opened k e /\ (ph' = Opening \/ ph' = ph)).

Lemma news_app u u' a rs : UDP.sent u' = UDP.sent u ++ ((a,.) <$> rs) -> news u u' = rs.
Proof.
  intros E. unfold news. rewrite E, drop_app_length. clear E. induction rs as [|r rs IH]; [done|]. cbn. f_equal. exact IH.
Qed.
Lemma pick_ok {A} (P : A -> Prop) d old new : Forall P old -> Forall P new -> Forall P (pick d old new).
Proof.
  intros H H'. destruct d as [|l]; [done|]. cbn. apply Forall_forall. intros x (i & _ & Hi)%list_elem_of_omap. exact (Forall_lookup_1 _ _ _ _ H Hi).
Qed.

(** A turn, before the network looks at the blocks. *)
Lemma net_turn_spec w e t ssent rsent : winv w e -> (wfs w <= wns w)%nat -> (wfr w <= wnr w)%nat ->
  Forall (fun x => is_ctrl (snd x)) (drop (wfs w) ssent) -> Forall (old_req (wk w) e) (drop (wfr w) rsent) ->
  exists reps w' e' rs, net_turn false w t ssent rsent = Ret (filter (fits (last_block (drop (wfr w) rsent))) (pick (t_del t) (wold w ++ reps) reps), t_tmo t, w') /\ winv w' e' /\ wns w' = length ssent /\ wnr w' = length rsent /\
    wfs w' = wfs w /\ wfr w' = wfr w /\ grown (wk w) e (wk w') e' /\ Forall (old_reply (wk w') e') (wold w ++ reps) /\
    (t_s t = All -> (find_pdu ∈ (drop (wns w) ssent).*2 -> Dgram false ss find_pdu ∈ reps) /\ (regist_pdu ∈ (drop (wns w) ssent).*2 -> inuse e' <> 0 /\ Dgram false ss (regist_reply (e_port e')) ∈ reps)) /\
    (forall r, r ∈ rs -> exists a, Dgram true a r ∈ reps) /\ (t_r t = All -> forall x ph, x ∈ drop (wnr w) rsent -> req_ok ph (snd x) -> answered ph (snd x) rs).
Proof.
  intros [W1 W2 W3 W4 W5] Hfs Hfr Hcs Hcr. unfold net_turn. rewrite W4.
  assert (Forall (fun x => is_ctrl (snd x)) (drop (wns w) ssent)) as Hcs' by (replace (wns w) with (wfs w + (wns w - wfs w))%nat by lia; rewrite <- drop_drop; by apply Forall_drop).
  assert (Forall (old_req (wk w) e) (drop (wnr w) rsent)) as Hcr' by (replace (wnr w) with (wfr w + (wnr w - wfr w))%nat by lia; rewrite <- drop_drop; by apply Forall_drop).
  destruct (serve_main_spec (wk w) _ (wsrv w) e W1 W2 W3 (pick_ok _ (t_s t) _ _ Hcs Hcs')) as (s' & e1 & r1 & -> & M1 & C1 & I1 & K & S1 & R1 & F1 & G1). cbn [obind].
  rewrite C1. cbn [aget]. change (aget [Some e1] 0) with (Ret (Some e1)). cbn [obind]. pose proof (grown_kept (wk w) _ _ K) as GK.
  destruct (serve_client_spec s' (pick (t_r t) (drop (wfr w) rsent) (drop (wnr w) rsent)) (wk w) e1) as (e2 & k2 & rs & -> & I2 & U2 & P2 & S2' & R2 & O2 & A2); [done|done|eapply Forall_impl; [by apply pick_ok|]; intros x; by apply old_req_grown|].
  cbn [obind]. rewrite (news_app _ _ _ _ S1), (news_app _ _ _ _ S2'). eexists _, _, e2, rs. split; [done|]. cbn [wsrv wk wns wnr wup wfs wfr wold].
  assert (grown (wk w) e k2 e2) as G by (eapply grown_trans; [exact GK|]; split; [intros; split; congruence|naive_solver]).
  assert (main_inv (set_cli (<[0%nat := Some e2]> (cli s')) s')) as M2.
  { destruct M1 as [[T1 T2 T4 T5] M2 M3 M4 M5 M6]. split; [|done|done|done|done|by apply (params_cfg s')]. split; cbn; [by rewrite zlen_insert|done| |done].
    rewrite C1. intros [|i] x Hx; cbn in Hx; [|done]. injection Hx as <-. exists e2. split; [done|]. intros Hu. destruct (en_port _ _ I2); [lia|done]. }
  match goal with |- context [Forall (old_reply k2 e2) ?l] => assert (Forall (old_reply k2 e2) l) as Hreps end.
  { apply Forall_app. split; [eapply Forall_impl; [exact W5|]; intros ev; by apply old_reply_grown|]. apply Forall_app. split; apply Forall_fmap, Forall_forall; intros r Hr; cbn.
    - left. exists r. split; [done|]. rewrite Forall_forall in R1. destruct (R1 r Hr) as [->|[Hu ->]]; [by left|right; rewrite U2, P2; done].
    - right. rewrite Forall_forall in R2. destruct (R2 r Hr) as [ph Hph]. eexists _, r, ph. split; [done|]. split; [done|]. apply O2. right. by intros ->; apply elem_of_nil in Hr. }
  rewrite C1 in M2. split; [by split|].
  split; [done|]. split; [done|]. split; [done|]. split; [done|]. split; [done|]. split; [done|]. split; [|split].
  - intros Hall. rewrite Hall in F1, G1. cbn [pick] in F1, G1. split; [intros Hf; apply elem_of_app; left; apply list_elem_of_fmap; eauto|].
    intros Hf; destruct (G1 Hf) as [Hu Hin]; split; [congruence|]; apply elem_of_app; left; rewrite P2; apply list_elem_of_fmap; eauto.
  - intros r Hr; eexists; apply elem_of_app; right; apply list_elem_of_fmap; by exists r.
  - intros Hall. by rewrite Hall in A2.
Qed.

(** ** The client's side *)
Context (Hres : resolve (inet_ntoa (UDP.sin_addr ss)) = Some (UDP.sin_addr ss)) (Hip1 : 0 < zlen (inet_ntoa (UDP.sin_addr ss)) <= 15) (Hip2 : Forall (fun c => c <> 0) (inet_ntoa (UDP.sin_addr ss))).
Context (Hpm : (pmap - 1) * CARRY < net <= pmap * CARRY) (Hp : 0 < pmap <= MAX_PACKET_MAP) (Hnet : 0 < net <= MAX_TRANS_BUFSIZE).

(** The client between two turns: a server that it has is the entry [e]. *)
Record base (s : client) (e : entry) : Prop := {
  ba_rx : zlen (c_rx s) = 2000;
  ba_ip : zlen (server_ip s) = 16;
  ba_abort : abort s = 0;
  ba_sn : c_sn s = sn;
  ba_find : find_server_pdu s = find_pdu;
  ba_book : UDP.listcnt (rudp s) = 1 /\ exists p, UDP.addrlist (rudp s) = [p];
  ba_conn : have_server s <> 0 -> inuse e <> 0 /\ UDP.addrlist (rudp s) = [UDP.mk_peer true (entry_addr e)];
}.

Definition known (c : clocal) : Prop := fsize c = zlen F /\ c_disk c = disk /\ c_net c = net /\ c_fact c = fact /\ c_pmap c = pmap.
Definition frame (c : clocal) := (blen c, bidx c, ndcnt c, ndtotal c, have_file c).
Definition blk_len (nd : Z) : Z := Z.min net (zlen F - nd * net).
(** The comparison the caller waits for. *)
Definition cmp_ok (ph : phase) (c : clocal) : Prop :=
  (compare_variable c, compare_operator c, compare_expect c) = match ph with Opening => (V_need_filesize, CMP_EQ, 1) | Reading _ => (V_request_map, CMP_NE, 0) end.

Record chan_inv (ph : phase) (fr : Z * Z * Z * Z * Z) (c : clocal) : Prop := {
  ci_sizes : sizes c;
  ci_ch : channel c = ch;
  ci_reopen : need_reopen c = 0;
  ci_frame : frame c = fr;
  ci_ph : match ph with
          | Opening => (need_filesize c = 1 \/ need_filesize c = 0 /\ known c) /\ char_at (fopen_pdu c) q_cmd = CMD_OPENFILE /\
              char_at (fopen_pdu c) q_channel = ch /\ i32_at (fopen_pdu c) q_sn = sn /\ cstr_at (fopen_pdu c) q_filename = Some name
          | Reading nd => need_filesize c = 0 /\ known c /\ rcv F nd net pmap (npackets (blk_len nd)) c /\ fetch_pdu ch sn nd (fread_pdu c)
          end;
}.

(** What only goes one way during the waits of a call. *)
Definition closer (ph : phase) (s s' : client) (c c' : clocal) : Prop :=
  (have_server s <> 0 -> have_server s' <> 0) /\ (cmp_ok ph c -> cmp_ok ph c') /\
  match ph with
  | Opening => need_filesize c = 0 -> need_filesize c' = 0
  | Reading _ => forall i, i ∈ wanted (rmap c') 0 pmap -> i ∈ wanted (rmap c) 0 pmap
  end.
Lemma closer_refl ph s c : closer ph s s c c.
Proof. by destruct ph. Qed.
Lemma closer_trans ph s1 s2 s3 c1 c2 c3 : closer ph s1 s2 c1 c2 -> closer ph s2 s3 c2 c3 -> closer ph s1 s3 c1 c3.
Proof. intros (A1 & A2 & A3) (B1 & B2 & B3). split; [by auto|]. split; [by auto|]. destruct ph; naive_solver. Qed.

(** What has happened once an event was handled. *)
Definition effect (N : nat) (ph : phase) (ev : event) (s : client) (c : clocal) : Prop :=
  match ev with
  | Dgram false _ r => (r = find_pdu -> have_server s <> 0 \/ regist_pdu ∈ (drop N (UDP.sent (sudp s))).*2) /\ (r <> find_pdu -> have_server s <> 0)
  | Dgram true _ r => rep_ok ph r -> match ph with Opening => need_filesize c = 0 | Reading _ => u8_at r q_map ∉ wanted (rmap c) 0 pmap end
  | AbortCall => True
  end.

Lemma chan_get_put s c c' : get_cl s ch = Ret c -> put_cl s ch c' = Ret (set_cls (<[Z.to_nat ch := c']> (cls s)) s) /\ get_cl (set_cls (<[Z.to_nat ch := c']> (cls s)) s) ch = Ret c'.
Proof.
  intros E. destruct (aget_inv _ _ _ E) as [H _]. unfold put_cl, get_cl. rewrite aset_Ret by done. split; [done|]. cbn. by apply aget_insert.
Qed.

(** *** Replies of the main thread *)
Lemma cstr_app (l r : list Z) : Forall (fun c => c <> 0) l -> cstr (l ++ 0 :: r) = Some l.
Proof. induction 1 as [|x l Hx _ IH]; [done|]. cbn. rewrite (proj2 (Z.eqb_neq x 0)) by done. by rewrite IH. Qed.

Lemma take_server_spec s a port : UDP.sin_addr a = UDP.sin_addr ss -> UDP.rmaddr (sudp s) = a -> zlen (server_ip s) = 16 -> UDP.listcnt (rudp s) = 1 -> (exists p, UDP.addrlist (rudp s) = [p]) ->
  exists ip id ru, take_server inet_ntoa resolve s port = Ret (set_have_server 1 (set_server_id id (set_server_ip ip (set_server_port port (set_rudp ru s))))) /\ zlen ip = 16 /\
    UDP.listcnt ru = 1 /\ UDP.addrlist ru = [UDP.mk_peer true (UDP.mk_sockaddr (UDP.sin_addr ss) (UDP.htons port))] /\ UDP.sent ru = UDP.sent (rudp s).
Proof.
  intros Ha Hr Hz Hl [p Hb]. unfold take_server, UDP.udplib_get_remote. rewrite Hr, Ha. unfold UDP.udplib_unregist, UDP.in_list. rewrite Hl, Hb. cbn [Z.leb Z.ltb Z.compare andb].
  change (aget [p] 0) with (Ret p). cbn [obind]. change (aset [p] 0 (UDP.mk_peer false (UDP.sa p))) with (Ret [UDP.mk_peer false (UDP.sa p)]). cbn [obind].
  unfold UDP.udplib_regist_addr, UDP.internal_find_free. cbn [UDP.listcnt UDP.set_addrs UDP.addrlist]. rewrite Hl. change (take (Z.to_nat 1) [UDP.mk_peer false (UDP.sa p)]) with [UDP.mk_peer false (UDP.sa p)]. cbn [UDP.find_free UDP.use Z.ltb Z.compare].
  change (aget [UDP.mk_peer false (UDP.sa p)] 0) with (Ret (UDP.mk_peer false (UDP.sa p))). cbn [obind UDP.sa]. change (aset [UDP.mk_peer false (UDP.sa p)] 0 (UDP.mk_peer true (UDP.sa p))) with (Ret [UDP.mk_peer true (UDP.sa p)]). cbn [obind UDP.addrlist UDP.set_addrs].
  cbn [Z.ltb Z.compare]. rewrite Hres. match goal with |- context [aset [?x] 0 ?y] => change (aset [x] 0 y) with (Ret [y]) end. cbn [obind snd].
  set (ip := inet_ntoa (UDP.sin_addr ss)) in *. assert (zlen (ip ++ [0]) = zlen ip + 1) as Hza by (rewrite zlen_app; done). rewrite blit_patch by (rewrite ?Hza; lia). cbn [obind].
  assert (patch (server_ip s) 0 (ip ++ [0]) = ip ++ 0 :: drop (Z.to_nat (0 + zlen (ip ++ [0]))) (server_ip s)) as Hpat by (unfold patch; change (Z.to_nat 0) with 0%nat; rewrite take_0; cbn [app]; by rewrite <- app_assoc).
  unfold id_of. rewrite Hpat, cstr_app by done. rewrite <- Hpat. destruct (aget_lt (patch (server_ip s) 0 (ip ++ [0])) (zlen ip - 1)) as (x & -> & _); [rewrite zlen_patch; rewrite ?Hza; lia|]. cbn [obind]. unfold crem. cbn [Z.eqb obind].
  do 3 eexists. split; [done|]. cbn. rewrite zlen_patch by (rewrite ?Hza; lia). done.
Qed.

Lemma ctrl_event N ph fr s c k e r : (N <= length (UDP.sent (sudp s)))%nat -> base s e -> get_cl s ch = Ret c -> chan_inv ph fr c -> ent_inv k e -> main_reply e r ->
  exists s', client_main_1 inet_ntoa resolve s false ss r = Ret s' /\ base s' e /\ cls s' = cls s /\ UDP.sent (rudp s') = UDP.sent (rudp s) /\
    (exists l, UDP.sent (sudp s') = UDP.sent (sudp s) ++ l /\ Forall (fun x => is_ctrl (snd x)) l) /\ closer ph s s' c c /\ effect N ph (Dgram false ss r) s' c.
Proof.
  intros HN B Hc C I Hr. destruct B as [B1 B2 B3 B4 B5 [B6 B6'] B7].
  assert (exists cmd, ctrl cmd r) as (cmd & [T1 T2 T3 T4 T5]). { destruct Hr as [->|[Hu ->]]; [eexists; apply find_ctrl|]. destruct (en_port _ _ I) as [Hpo|]; [|done]. eexists. by apply reply_ctrl. }
  rewrite main_s by lia. unfold cs_generic, recv_s. cbn [c_rx set_c_rx set_sudp c_sn have_server]. rewrite T1. pose proof (cksum2_rx (c_rx s) r ltac:(lia)) as Hck. rewrite T1 in Hck. rewrite Hck, T2. cbn [negb]. rewrite i32_rx by q2. rewrite T4, B4, Z.eqb_refl. cbn [negb].
  rewrite char_rx by q2. destruct Hr as [->|[Hu ->]].
  - rewrite (ct_cmd _ _ find_ctrl). cbn [Z.eqb CMD_FINDSERVER Pos.eqb]. destruct (Z.eqb_spec (have_server s) 0) as [H0|H0].
    + eexists. split; [done|]. split; [split; cbn; try done; rewrite zlen_seal2; rewrite zlen_put8; rewrite ?zlen_rx; q2|]. split; [done|]. split; [done|]. cbn [sudp set_sudp set_c_rx UDP.udplib_send UDP.emit UDP.sent UDP.rmaddr UDP.set_rmaddr].
      assert (slice (seal2 (put8 (rx (c_rx s) find_pdu) q_cmd CMD_REGIST) 30) 0 30 = regist_pdu) as Hreq.
      { unfold regist_pdu, put8, SIZEOF_PDU2. rewrite <- T1 at 1 2 3. apply reply_patch; autorewrite with katmai; q2. }
      rewrite Hreq. split; [eexists; split; [done|]; by constructor; [right|]|]. split; [by destruct ph|]. split; [|done]. intros _. right. cbn. rewrite Hreq, drop_app_le, fmap_app by done. apply elem_of_app. right. by left.
    + eexists. split; [done|]. split; [split; cbn; try done; by rewrite zlen_rx|]. split; [done|]. split; [done|]. split; [exists []; by rewrite app_nil_r|]. split; [by destruct ph|]. split; [by left|done].
  - destruct (en_port _ _ I) as [Hpo|]; [|done]. destruct (reply_ctrl (e_port e) Hpo) as [RC1 RC2]. rewrite (ct_cmd _ _ RC1). cbn [Z.eqb CMD_FINDSERVER CMD_REGIST Pos.eqb]. destruct (Z.eqb_spec (have_server s) 0) as [H0|H0].
    + rewrite i32_rx by q2. rewrite RC2. match goal with |- context [take_server _ _ ?x _] => destruct (take_server_spec x ss (e_port e)) as (ip & id & ru & -> & U1 & U2 & U3 & U4); [done|done|done|done|done|] end.
      eexists. split; [done|]. split; [split; cbn; try done; [by rewrite zlen_rx|split; [done|by eexists]]|]. split; [done|]. split; [exact U4|]. split; [exists []; by rewrite app_nil_r|]. split; [by destruct ph|]. split; [by left|done].
    + eexists. split; [done|]. split; [split; cbn; try done; by rewrite zlen_rx|]. split; [done|]. split; [done|]. split; [exists []; by rewrite app_nil_r|]. split; [by destruct ph|]. split; [by left|done].
Qed.

(** *** Replies of the client's thread on the server *)
Lemma cmd_of_reply ph b r n : req_ok ph b -> slice r q_sn n = slice b q_sn n -> 10 <= n ->
  char_at r q_channel = ch /\ char_at r q_cmd = match ph with Opening => CMD_OPENFILE | Reading _ => CMD_FETCH end.
Proof.
  intros [_ Hb] E Hn. assert (char_at r q_channel = char_at b q_channel) as -> by (apply char_u8, (u8_run _ _ _ _ _ E); q2). assert (char_at r q_cmd = char_at b q_cmd) as -> by (apply char_u8, (u8_run _ _ _ _ _ E); q2).
  destruct ph; [naive_solver|]. destruct Hb as [_ []]. done.
Qed.

Lemma rep_block ph r : rep_ok ph r -> block r = blk ph.
Proof.
  intros (b & Hb & Hr). pose proof (req_block _ _ Hb) as E. unfold block in *. destruct ph as [|nd].
  - destruct Hr as (_ & _ & K & _). destruct (cmd_of_reply _ b r 10 Hb K) as [_ ->]; [lia|done].
  - destruct Hr as (i & _ & _ & _ & K & _). destruct (cmd_of_reply _ b r 14 Hb K) as [_ ->]; [lia|]. destruct Hb as [_ [_ [B1 _ _ B4]]]. cbn. f_equal. rewrite <- B4. apply (i32_run _ _ _ _ _ K); q2.
Qed.

Lemma base_recv s a r l e : base s e -> base (set_cls l (recv_r s a r)) e.
Proof. intros [B1 B2 B3 B4 B5 B6 B7]. split; cbn; try done. by rewrite zlen_rx. Qed.

(** A reply to the opening that comes when the size is known changes nothing. *)
Lemma open_late s c e a r : base s e -> get_cl s ch = Ret c -> need_filesize c = 0 -> rep_ok Opening r ->
  exists s', client_main_1 inet_ntoa resolve s true a r = Ret s' /\ base s' e /\ get_cl s' ch = Ret c /\ UDP.sent (rudp s') = UDP.sent (rudp s) /\ UDP.sent (sudp s') = UDP.sent (sudp s) /\ have_server s' = have_server s.
Proof.
  intros B Hc H0 (b & Hb & K1 & K2 & K3 & K4 & K5 & K6 & K7 & K8). destruct (cmd_of_reply _ b r 10 Hb K3) as [D1 D2]; [lia|]. pose proof (ba_rx _ _ B) as Hrx.
  rewrite main_r by (rewrite ?D1, ?K1; done || q2). rewrite D1, D2. unfold response. cbn [Z.eqb CMD_OPENFILE CMD_ERROR Pos.eqb]. change (get_cl (recv_r s a r) ch) with (get_cl s ch). rewrite Hc. cbn [obind c_rx recv_r set_rudp set_c_rx].
  unfold on_openfile. rewrite H0. cbn [Z.eqb]. destruct (chan_get_put (recv_r s a r) c c Hc) as [G1 G2]. rewrite G1. eexists. split; [done|]. split; [by apply base_recv|]. by split_and!.
Qed.

Lemma open_reply fr s c e a r : base s e -> get_cl s ch = Ret c -> chan_inv Opening fr c -> rep_ok Opening r ->
  exists s' c', client_main_1 inet_ntoa resolve s true a r = Ret s' /\ base s' e /\ get_cl s' ch = Ret c' /\ chan_inv Opening fr c' /\ UDP.sent (rudp s') = UDP.sent (rudp s) /\ UDP.sent (sudp s') = UDP.sent (sudp s) /\
    closer Opening s s' c c' /\ need_filesize c' = 0.
Proof.
  intros B Hc [C1 C2' C3 C4 [C5 C6]] Hrep. destruct (Z.eqb_spec (need_filesize c) 0) as [H0|H0].
  { destruct (open_late s c e a r B Hc H0 Hrep) as (s' & -> & A1 & A2 & A3 & A4 & A5). exists s', c. split_and!; try done. split; [by rewrite A5|done]. }
  destruct Hrep as (b & Hb & K1 & K2 & K3 & K4 & K5 & K6 & K7 & K8). destruct (cmd_of_reply _ b r 10 Hb K3) as [D1 D2]; [lia|]. pose proof (ba_rx _ _ B) as Hrx.
  rewrite main_r by (rewrite ?D1, ?K1; done || q2). rewrite D1, D2. unfold response. cbn [Z.eqb CMD_OPENFILE CMD_ERROR Pos.eqb]. change (get_cl (recv_r s a r) ch) with (get_cl s ch). rewrite Hc. cbn [obind c_rx recv_r set_rudp set_c_rx].
  assert (get_cl (recv_r s a r) ch = Ret c) as Hc' by done. unfold on_openfile. rewrite !i32_rx by q2. rewrite K4, K5, K6, K7, K8. rewrite (proj2 (Z.eqb_neq _ 0)) by done.
  match goal with |- context [put_cl _ ch ?x] => set (c' := x) end. destruct (chan_get_put (recv_r s a r) c c' Hc') as [G1 G2]. rewrite G1. eexists _, c'. split; [done|]. split; [by apply base_recv|]. split; [exact G2|].
  split; [|by split_and!]. destruct C1 as [X1 X2 X3]. split; [by split|done|done|done|]. split; [right; by split_and!|done].
Qed.

Lemma data_reply nd fr s c e a r : ph_ok (Reading nd) -> base s e -> get_cl s ch = Ret c -> chan_inv (Reading nd) fr c -> rep_ok (Reading nd) r ->
  exists s' c', client_main_1 inet_ntoa resolve s true a r = Ret s' /\ base s' e /\ get_cl s' ch = Ret c' /\ chan_inv (Reading nd) fr c' /\ UDP.sent (rudp s') = UDP.sent (rudp s) /\ UDP.sent (sudp s') = UDP.sent (sudp s) /\
    closer (Reading nd) s s' c c' /\ u8_at r q_map ∉ wanted (rmap c') 0 pmap.
Proof.
  intros [Hn0 Hn1] B Hc [C1 C2' C3 C4 (C5 & C6 & C7 & C8)] (b & Hb & i & D). pose proof D as (K0 & K1 & K2 & K3 & K4 & K5). destruct (cmd_of_reply _ b r 14 Hb K3) as [D1 D2]; [lia|]. pose proof (ba_rx _ _ B) as Hrx.
  rewrite main_r by (rewrite ?D1, ?K1; done || q2). rewrite D1, D2. unfold response. cbn [Z.eqb CMD_OPENFILE CMD_ERROR CMD_FETCH Pos.eqb]. change (get_cl (recv_r s a r) ch) with (get_cl s ch). rewrite Hc. cbn [obind c_rx recv_r set_rudp set_c_rx].
  assert (npackets (blk_len nd) <= pmap) as Hnp. { destruct (npackets_spec (blk_len nd)) as [_ Q]; [unfold blk_len; lia|]. unfold blk_len, CARRY in *. nia. }
  destruct (on_data_spec F nd net pmap (npackets (blk_len nd)) Hpm Hp (proj2 Hnet) Hnp c b (c_rx s) r i C1 C7 Hrx D) as (c' & -> & S1 & R1 & SC & HW). cbn [obind].
  destruct (chan_get_put (recv_r s a r) c c' Hc) as [G1 G2]. rewrite G1. destruct SC as (E1 & E2 & E3 & E4 & E5 & E6 & E7 & E8 & E9 & E10 & E11 & E12 & E13 & E14 & E15 & E16 & E17 & E18 & E19).
  eexists _, c'. split; [done|]. split; [by apply base_recv|]. split; [exact G2|]. split; [|split; [done|split; [done|split; [|rewrite K4; by rewrite HW; naive_solver]]]].
  - split; [done|congruence|congruence|unfold frame in *; congruence|]. split; [congruence|]. split; [unfold known in *; intuition congruence|]. split; [done|].
    apply (fetch_pdu_head _ _ _ (fread_pdu c)); [done|]. apply (f_equal (fun x => slice x 4 (q_reqmap - 4))) in E11. rewrite !slice_slice in E11 by q2. exact E11.
  - split; [done|]. split; [unfold cmp_ok; by rewrite E3, E4, E5|]. intros j Hj. by apply HW.
Qed.

(** *** A turn *)
Lemma effect_later N ph ev s s' c c' l : effect N ph ev s c -> closer ph s s' c c' -> UDP.sent (sudp s') = UDP.sent (sudp s) ++ l -> (N <= length (UDP.sent (sudp s)))%nat -> effect N ph ev s' c'.
Proof.
  intros E (L1 & _ & L2) Hs HN. destruct ev as [[] a r|]; [|split|done]; cbn in *.
  - intros Hr. specialize (E Hr). destruct ph; naive_solver.
  - intros ->. destruct (proj1 E eq_refl) as [H|H]; [left; by apply L1|right]. rewrite Hs, drop_app_le, fmap_app by done. set_solver.
  - intros H. apply L1. by apply E.
Qed.

Lemma run_events_spec N ph fr k e evs : ph_ok ph -> forall s c, (N <= length (UDP.sent (sudp s)))%nat -> base s e -> get_cl s ch = Ret c -> chan_inv ph fr c -> ent_inv k e -> Forall (ev_ok ph k e) evs ->
  exists s' c', run_events inet_ntoa resolve s evs = Ret s' /\ base s' e /\ get_cl s' ch = Ret c' /\ chan_inv ph fr c' /\ UDP.sent (rudp s') = UDP.sent (rudp s) /\
    (exists l, UDP.sent (sudp s') = UDP.sent (sudp s) ++ l /\ Forall (fun x => is_ctrl (snd x)) l) /\ closer ph s s' c c' /\ (need_filesize c' = 0 -> need_filesize c = 0 \/ opened k e) /\ (forall ev, ev ∈ evs -> effect N ph ev s' c').
Proof.
  intros Hph. induction evs as [|ev evs IH]; intros s c HN B Hc C I He; cbn [run_events].
  { exists s, c. split_and!; try done; [exists []; by rewrite app_nil_r|apply closer_refl|by left|by intros ev ?%elem_of_nil]. }
  apply Forall_cons in He as [He Hes].
  assert (exists s1 c1, run_events inet_ntoa resolve s (ev :: evs) = run_events inet_ntoa resolve s1 evs /\ base s1 e /\ get_cl s1 ch = Ret c1 /\ chan_inv ph fr c1 /\ UDP.sent (rudp s1) = UDP.sent (rudp s) /\
    (exists l, UDP.sent (sudp s1) = UDP.sent (sudp s) ++ l /\ Forall (fun x => is_ctrl (snd x)) l) /\ closer ph s s1 c c1 /\ (need_filesize c1 = 0 -> need_filesize c = 0 \/ opened k e) /\ effect N ph ev s1 c1) as (s1 & c1 & E1 & B1 & G1 & C1 & S1 & (l1 & L1 & F1) & K1 & Y1 & X1).
  { destruct He as [(r & -> & Hr)|(a & r & ph' & -> & Hr & Ho & Hp')]; cbn [run_events].
    - destruct (ctrl_event N ph fr s c k e r HN B Hc C I Hr) as (s1 & -> & A1 & A2 & A3 & A4 & A5 & A6). exists s1, c. cbn [obind]. split; [done|]. split; [done|]. split; [unfold get_cl; by rewrite A2|]. split_and!; try done. by left.
    - destruct ph as [|nd]; [assert (ph' = Opening) as -> by (by destruct Hp'); destruct (open_reply fr s c e a r B Hc C Hr) as (s1 & c1 & -> & A1 & A2 & A3 & A4 & A5 & A6 & A7)|destruct Hp' as [->| ->]].
      1,3: try destruct (data_reply nd fr s c e a r Hph B Hc C Hr) as (s1 & c1 & -> & A1 & A2 & A3 & A4 & A5 & A6 & A7); exists s1, c1; (split; [done|]); split_and!; try done; first [by right | exists []; by rewrite app_nil_r | intros _; exact A7].
      destruct (open_late s c e a r B Hc (proj1 (ci_ph _ _ _ C)) Hr) as (s1 & -> & A1 & A2 & A3 & A4 & A5). exists s1, c. split; [done|]. split_and!; try done; [exists []; by rewrite app_nil_r|split; [by rewrite A5|done]|by left|].
      intros Hr'. pose proof (rep_block _ _ Hr) as E. by rewrite (rep_block _ _ Hr') in E. }
  change (match ev with Dgram onr a d => let* s0 := client_main_1 inet_ntoa resolve s onr a d in run_events inet_ntoa resolve s0 evs | AbortCall => run_events inet_ntoa resolve (cli_abort s) evs end) with (run_events inet_ntoa resolve s (ev :: evs)).
  rewrite E1. destruct (IH s1 c1) as (s2 & c2 & E2 & B2 & G2 & C2' & S2' & (l2 & L2 & F2) & K2 & Y2 & X2); [rewrite L1, length_app; lia|done..|].
  exists s2, c2. split; [done|]. split; [done|]. split; [done|]. split; [done|]. split; [congruence|]. split; [exists (l1 ++ l2); rewrite L2, L1, app_assoc; split; [done|by apply Forall_app]|]. split; [by eapply closer_trans|]. split; [naive_solver|].
  intros ev' [->|Hin]%elem_of_cons; [|by apply X2]. eapply effect_later; [done|done|done|]. rewrite L1, length_app. lia.
Qed.

(** ** The system between two turns of a call *)
Definition pend_s (s : client) (w : world) := drop (wns w) (UDP.sent (sudp s)).
Definition pend_r (s : client) (w : world) := drop (wnr w) (UDP.sent (rudp s)).
Definition reqs (s : client) (w : world) := drop (wfr w) (UDP.sent (rudp s)).

(** The requests made so far, each for the entry. *)
Record past (s : client) (w : world) (e : entry) : Prop := {
  pa_fs : (wfs w <= wns w <= length (UDP.sent (sudp s)))%nat;
  pa_fr : (wfr w <= wnr w <= length (UDP.sent (rudp s)))%nat;
  pa_s : Forall (fun x => is_ctrl (snd x)) (drop (wfs w) (UDP.sent (sudp s)));
  pa_r : Forall (old_req (wk w) e) (reqs s w);
}.

Record sys (ph : phase) (fr : Z * Z * Z * Z * Z) (s : client) (w : world) (e : entry) (c : clocal) : Prop := {
  sy_w : winv w e;
  sy_b : base s e;
  sy_c : get_cl s ch = Ret c;
  sy_ci : chan_inv ph fr c;
  sy_ph : ph_ok ph;
  sy_op : ph <> Opening \/ need_filesize c = 0 -> opened (wk w) e;
  sy_pa : past s w e;
}.

(** The request that was made last is one of this phase. *)
Definition asks (ph : phase) (s : client) (w : world) : Prop := last_block (reqs s w) = blk ph.

(** A request has been answered, and all answers have arrived. *)
Definition arrived (ph : phase) (d : list Z) (c : clocal) : Prop :=
  match ph with Opening => need_filesize c = 0 | Reading _ => forall i, i ∈ wanted (slice d q_reqmap MAX_PACKET_MAP) 0 pmap -> i ∉ wanted (rmap c) 0 pmap end.

Lemma base_entry s e e' : base s e -> (inuse e <> 0 -> inuse e' <> 0 /\ e_port e' = e_port e) -> base s e'.
Proof.
  intros [B1 B2 B3 B4 B5 B6 B7] K. split; try done. intros H. destruct (B7 H) as [U A]. destruct (K U) as [U' P']. split; [done|]. unfold entry_addr. by rewrite P'.
Qed.
Lemma reply_not_find port : 0 <= port < 65536 -> regist_reply port <> find_pdu.
Proof. intros Hpo E. destruct (reply_ctrl port Hpo) as [[_ _ C _ _] _]. rewrite E, (ct_cmd _ _ find_ctrl) in C. done. Qed.

(** What was asked for, or an old answer that does no harm. *)
Lemma fits_ok ph k e ev : old_reply k e ev -> fits (blk ph) ev = true -> ev_ok ph k e ev.
Proof.
  intros [H|(a & r & ph' & -> & Hr & Ho)] Hf; [by left|right]. exists a, r, ph'. split; [done|]. split; [done|]. split; [done|]. cbn in Hf. rewrite (rep_block _ _ Hr) in Hf.
  destruct ph' as [|nd]; [by left|right]. apply bool_decide_eq_true in Hf. by apply blk_inj.
Qed.
Lemma past_turn s s' w w' e e' l : past s w e -> grown (wk w) e (wk w') e' -> wfs w' = wfs w -> wfr w' = wfr w -> wns w' = length (UDP.sent (sudp s)) -> wnr w' = length (UDP.sent (rudp s)) ->
  UDP.sent (rudp s') = UDP.sent (rudp s) -> UDP.sent (sudp s') = UDP.sent (sudp s) ++ l -> Forall (fun x => is_ctrl (snd x)) l -> past s' w' e'.
Proof.
  intros [P1 P2 P3 P4] G E1 E2 E3 E4 R L Fl. split; [rewrite E1, E3, L, length_app; lia|rewrite E2, E4, R; lia| |].
  - rewrite E1, L, drop_app_le by lia. by apply Forall_app.
  - unfold reqs. rewrite E2, R. eapply Forall_impl; [done|]. intros x. by apply old_req_grown.
Qed.

Abbreviation wait1' := (wait1 inet_ntoa resolve (net_turn false)).
Lemma wait1_spec ph fr s w e c t : sys ph fr s w e c -> asks ph s w ->
  exists s' w' e' c', wait1' s w t = Ret (s', t_tmo t, w') /\ sys ph fr s' w' e' c' /\ asks ph s' w' /\ closer ph s s' c c' /\
    (lossless t -> (find_pdu ∈ (pend_s s w).*2 -> have_server s' <> 0 \/ regist_pdu ∈ (pend_s s' w').*2) /\ (regist_pdu ∈ (pend_s s w).*2 -> have_server s' <> 0) /\
      forall x, x ∈ pend_r s w -> req_ok ph (snd x) -> arrived ph (snd x) c').
Proof.
  intros [W B Hc C Hph Ho Pa] Ha. unfold wait1.
  destruct (net_turn_spec w e t (UDP.sent (sudp s)) (UDP.sent (rudp s))) as (reps & w' & e' & rs & -> & W' & E1 & E2 & E3 & E4 & G & R & Fs & Fd & Fa); [done|apply Pa..|]. cbn [obind]. unfold asks, reqs in Ha. rewrite Ha.
  set (evs := filter _ _). assert (Forall (ev_ok ph (wk w') e') evs) as Hev.
  { apply Forall_forall. intros ev [Hf Hin]%list_elem_of_filter. apply fits_ok; [|by apply Is_true_eq_true]. revert ev Hf Hin. apply Forall_app in R as [R1 R2]. pose proof (pick_ok _ (t_del t) _ _ (proj2 (Forall_app _ _ _) (conj R1 R2)) R2) as R3.
    rewrite Forall_forall in R3. auto. }
  destruct (run_events_spec (wns w') ph fr (wk w') e' evs Hph s c) as (s' & c' & Er & B' & G' & C' & S' & (l & L & Fl) & Cl & Y & X); [by rewrite E1|eapply base_entry; [done|apply G]|done|done|apply W'|done|]. rewrite Er. cbn [obind].
  exists s', w', e', c'. split; [done|]. split; [|split; [unfold asks, reqs; by rewrite S', E4|split; [done|]]].
  - split; [exact W'|exact B'|exact G'|exact C'|exact Hph| |by eapply past_turn].
    intros Hor. destruct ph as [|nd]; [|apply G, Ho; by left]. destruct Hor as [|H0]; [done|]. destruct (Y H0) as [H1|H1]; [apply G, Ho; by right|done].
  - intros (A1 & A2 & A3). destruct (Fs A1) as [Ff Fr]. specialize (Fa A2). assert (forall ev, ev ∈ reps -> fits (blk ph) ev = true -> effect (wns w') ph ev s' c') as HX.
    { intros ev Hin Hf. apply X. unfold evs. rewrite A3. apply list_elem_of_filter. split; [by apply Is_true_eq_left|done]. }
    assert (forall r, r ∈ rs -> rep_ok ph r -> match ph with Opening => need_filesize c' = 0 | Reading _ => u8_at r q_map ∉ wanted (rmap c') 0 pmap end) as HD.
    { intros r Hr Hok. destruct (Fd r Hr) as [a Hin]. apply (HX _ Hin); [|done]. cbn. rewrite (rep_block _ _ Hok). by destruct ph as [|nd]; [|apply bool_decide_eq_true]. }
    split; [|split].
    + intros Hf. destruct (HX _ (Ff Hf) eq_refl) as [X1 _]. by apply X1.
    + intros Hf. destruct (Fr Hf) as [Hu Hin]. destruct (HX _ Hin eq_refl) as [_ X2]. apply X2. apply reply_not_find. destruct (en_port _ _ (wi_ent _ _ W')); [done|done].
    + intros x Hx Hq. specialize (Fa x ph Hx Hq). destruct ph as [|nd]; cbn in *; [destruct Fa as (r & Hr & Hok); by apply (HD r)|].
      intros i Hi. destruct (Fa i Hi) as (r & Hr & Hok & <-). by apply HD.
Qed.

(** *** Sending a request *)
Definition ref (ph : phase) : pdu_ref := match ph with Opening => P_open | Reading _ => P_read end.
Definition fresh (ph : phase) (d : list Z) (c : clocal) : Prop :=
  match ph with Opening => True | Reading _ => forall i, i ∈ wanted (rmap c) 0 pmap -> i ∈ wanted (slice d q_reqmap MAX_PACKET_MAP) 0 pmap end.
Definition asked (ph : phase) (s : client) (w : world) (c : clocal) : Prop := have_server s <> 0 /\ asks ph s w /\ exists x, x ∈ pend_r s w /\ req_ok ph (snd x) /\ fresh ph (snd x) c.

Lemma cstr_run (b b' : list Z) p : 4 <= p -> zlen b = zlen b' -> slice b 4 (zlen b - 4) = slice b' 4 (zlen b - 4) -> cstr_at b p = cstr_at b' p.
Proof.
  intros Hp4 Hz E. unfold cstr_at. f_equal. apply list_eq. intros i. rewrite !lookup_drop. destruct (Z.lt_ge_cases (p + Z.of_nat i) (zlen b)) as [Hi|Hi].
  - apply (f_equal (.!! (Z.to_nat (p - 4) + i)%nat)) in E. rewrite !lookup_slice in E by lia. replace (Z.to_nat p + i)%nat with (Z.to_nat 4 + (Z.to_nat (p - 4) + i))%nat by lia. exact E.
  - rewrite !(proj2 (lookup_ge_None _ _)); [done|unfold zlen in *; lia..].
Qed.

Lemma sealed_req ph fr c : chan_inv ph fr c -> ph_ok ph -> req_ok ph (seal2 (get_pdu (ref ph) c) (pdu_len (ref ph))) /\ zlen (get_pdu (ref ph) c) = pdu_len (ref ph).
Proof.
  intros [[S1 S2' S3] C2' C3 C4 C5] Hph. destruct ph as [|nd]; cbn in *.
  - destruct C5 as (_ & D1 & D2 & D3 & D4). split; [|done]. assert (zlen (seal2 (fopen_pdu c) SIZEOF_OPEN) = SIZEOF_OPEN) as Hz by (rewrite zlen_seal2; q2). split; [rewrite Hz; apply cksum2_seal; q2|].
    split; [done|]. rewrite !char_seal2, i32_seal2 by q2. split_and!; try done. rewrite <- D4. apply cstr_run; [q2|q2|]. rewrite Hz. apply slice_seal2; q2.
  - destruct C5 as (_ & _ & _ & D). split; [|done]. assert (zlen (seal2 (fread_pdu c) SIZEOF_REQ) = SIZEOF_REQ) as Hz by (rewrite zlen_seal2; q2). split; [rewrite Hz; apply cksum2_seal; q2|].
    split; [done|]. eapply fetch_pdu_head; [done|]. apply slice_seal2; q2.
Qed.

Lemma sealed_chan ph fr c : chan_inv ph fr c -> let c' := set_pdu (ref ph) (seal2 (get_pdu (ref ph) c) (pdu_len (ref ph))) c in chan_inv ph fr c' /\ rmap c' = rmap c /\ need_filesize c' = need_filesize c.
Proof.
  intros C. pose proof C as [[S1 S2' S3] C2' C3 C4 C5]. destruct ph as [|nd]; cbn in *.
  - split; [|done]. destruct C5 as (D0 & D1 & D2 & D3 & D4). split; cbn; [split; cbn; [rewrite zlen_seal2; q2|done|done]|done|done|done|]. split; [done|]. rewrite !char_seal2, i32_seal2 by q2. split_and!; try done.
    rewrite <- D4. assert (zlen (seal2 (fopen_pdu c) SIZEOF_OPEN) = SIZEOF_OPEN) as Hz by (rewrite zlen_seal2; q2). apply cstr_run; [q2|q2|]. rewrite Hz. apply slice_seal2; q2.
  - assert (rmap (set_fread_pdu (seal2 (fread_pdu c) SIZEOF_REQ) c) = rmap c) as Hr by (unfold rmap; cbn; apply slice_seal2; q2). split; [|done]. destruct C5 as (D0 & D1 & [R1 R2 R3 R4 R5] & D3).
    split; cbn; [split; cbn; [done|rewrite zlen_seal2; q2|done]|done|done|done|]. split; [done|]. split; [done|]. split; [|eapply fetch_pdu_head; [done|]; apply slice_seal2; q2].
    split; cbn; [done|done|by rewrite Hr|by rewrite Hr|by rewrite Hr].
Qed.

Lemma last_block_snoc ph l x : last_block l = blk ph \/ ph <> Opening -> req_ok ph (snd x) -> last_block (l ++ [x]) = blk ph.
Proof.
  intros Hl Hq. unfold last_block in *. rewrite omap_app. cbn. rewrite (req_block _ _ Hq). destruct ph as [|nd]; cbn; [|by rewrite last_snoc]. rewrite app_nil_r. by destruct Hl.
Qed.

Lemma send_now_spec ph fr s w e c : sys ph fr s w e c -> have_server s <> 0 -> asks ph s w \/ ph <> Opening ->
  exists s' c', send_now s ch (ref ph) = Ret s' /\ sys ph fr s' w e c' /\ asked ph s' w c' /\ closer ph s s' c c' /\ have_server s' = have_server s /\ rmap c' = rmap c /\ need_filesize c' = need_filesize c.
Proof.
  intros [W B Hc C Hph Ho Pa] Hh. unfold send_now. rewrite Hc. cbn [obind]. destruct (sealed_req ph fr c C Hph) as [Q1 Q2]. destruct (sealed_chan ph fr c C) as (C' & HR & HN).
  set (b := seal2 (get_pdu (ref ph) c) (pdu_len (ref ph))) in *. set (c' := set_pdu (ref ph) b c) in *. destruct (chan_get_put s c c' Hc) as [G1 G2]. rewrite G1. cbn [obind rudp set_cls].
  destruct (ba_conn _ _ B Hh) as [Hu Ha]. destruct (ba_book _ _ B) as [Hl _]. unfold UDP.udplib_sendto, UDP.in_list. rewrite Hl, Ha. cbn [Z.leb Z.ltb Z.compare andb]. change (aget [UDP.mk_peer true (entry_addr e)] 0) with (Ret (UDP.mk_peer true (entry_addr e))).
  cbn [obind UDP.use UDP.sa snd]. assert (slice b 0 (pdu_len (ref ph)) = b) as Hsl. { apply slice_all. unfold b. rewrite zlen_seal2; [done|]. rewrite Q2. by destruct ph. }
  rewrite Hsl. eexists _, c'. split; [done|]. match goal with |- sys _ _ ?x _ _ _ /\ _ => set (s' := x) end.
  destruct Pa as [N1 N2 Ps Pr]. assert (pend_r s' w = pend_r s w ++ [(entry_addr e, b)]) as Hpr by (unfold pend_r, s'; cbn; by rewrite drop_app_le by lia).
  assert (reqs s' w = reqs s w ++ [(entry_addr e, b)]) as Hre by (unfold reqs, s'; cbn; by rewrite drop_app_le by lia).
  split; [|split; [|split; [|done]]].
  - split; [exact W| |exact G2|exact C'|exact Hph|by rewrite HN|]; [destruct B as [B1 B2 B3 B4 B5 B6 B7]; by split|]. split; [exact N1|unfold s'; cbn; rewrite length_app; lia|exact Ps|]. rewrite Hre. apply Forall_app. split; [done|].
    constructor; [|constructor]. split; [done|]. split; [done|]. exists ph. split; [done|]. split; [done|]. intros. apply Ho. by left.
  - split; [done|]. split; [unfold asks; rewrite Hre; by apply last_block_snoc|]. exists (entry_addr e, b). split; [rewrite Hpr; apply elem_of_app; right; by left|]. split; [done|].
    destruct ph as [|nd]; [done|]. cbn [snd fresh]. intros i Hi. unfold rmap, c' in Hi. cbn in Hi. exact Hi.
  - split; [done|]. split; [by destruct ph|]. destruct ph as [|nd]; [by rewrite HN|by rewrite HR].
Qed.

(** *** Schedules that let a call finish *)

(** [live el2 k el]: the next [k] turns of [el] lose nothing, or somewhere three turns in a
    row do; [el2] is what is left behind them. *)
Inductive live (el2 : list turn) : nat -> list turn -> Prop :=
  | live_0 e1 : live el2 0 (e1 ++ el2)
  | live_all k t el : lossless t -> live el2 k el -> live el2 (S k) (t :: el)
  | live_skip k t el : live el2 3 el -> live el2 k (t :: el).

Lemma live_suffix el2 k el : live el2 k el -> exists e1, el = e1 ++ el2.
Proof. induction 1 as [e1|k t el Ha H [e1 ->]|k t el H [e1 ->]]; [by exists e1|by exists (t :: e1)..]. Qed.
Lemma live_cons el2 k t el : live el2 k el -> live el2 0 (t :: el).
Proof. intros [e1 ->]%live_suffix. apply (live_0 el2 (t :: e1)). Qed.
Lemma live_mono el2 k j el : live el2 k el -> (j <= k)%nat -> live el2 j el.
Proof.
  intros H. revert j. induction H as [e1|k t el Ha H IH|k t el H IH]; intros j Hj; [replace j with 0%nat by lia; constructor| |by apply live_skip].
  destruct j as [|j]; [by eapply live_cons|]. apply live_all; [done|]. apply IH. lia.
Qed.
Lemma live_turn el2 k t el : live el2 (S k) (t :: el) -> (k <= 2)%nat -> live el2 3 el \/ lossless t /\ live el2 k el.
Proof. intros H Hk. inversion H; subst; [by right|by left]. Qed.
Lemma live_nil el2 k : ~ live el2 (S k) [].
Proof. intros H. inversion H. Qed.
Lemma live_more el2 p el : live el2 3 el -> live el2 3 (p ++ el).
Proof. intros H. induction p as [|t p IH]; [done|]. by apply live_skip. Qed.

(** Enough for [n] calls. *)
Fixpoint fair (n : nat) (el : list turn) : Prop := match n with O => True | S n => exists el2, live el2 3 el /\ fair n el2 end.
Lemma fair_more n p el : fair n el -> fair n (p ++ el).
Proof. destruct n as [|n]; [done|]. intros (el2 & H & Hf). exists el2. split; [by apply live_more|done]. Qed.
(** Every wait that brings no signal times out. *)
Definition patient (el : list turn) : Prop := Forall (fun t => t_tmo t = true) el.

(** *** Waiting *)
Abbreviation send' := (internal_send inet_ntoa resolve (net_turn false)).
Abbreviation loop' := (wait_loop inet_ntoa resolve (net_turn false)).

(** A client without a server searches; [k] turns without loss will find it. *)
Definition finds (k : nat) (s : client) (w : world) : Prop :=
  have_server s <> 0 /\ (1 <= k)%nat \/ have_server s = 0 /\ (k = 3%nat \/ k = 2%nat /\ regist_pdu ∈ (pend_s s w).*2).

Lemma sys_find ph fr s w e c : sys ph fr s w e c -> have_server s = 0 ->
  sys ph fr (cli_find_server s) w e c /\ find_pdu ∈ (pend_s (cli_find_server s) w).*2 /\ (regist_pdu ∈ (pend_s s w).*2 -> regist_pdu ∈ (pend_s (cli_find_server s) w).*2) /\
  closer ph s (cli_find_server s) c c /\ reqs (cli_find_server s) w = reqs s w.
Proof.
  intros [W B Hc C Hph Ho [N1 N2 Ps Pr]] H0. unfold cli_find_server. rewrite H0. cbn [Z.eqb]. rewrite (ba_find _ _ B). assert (slice find_pdu 0 SIZEOF_PDU2 = find_pdu) as Hsl by (apply slice_all; apply find_ctrl).
  match goal with |- sys _ _ ?x _ _ _ /\ _ => set (s' := x) end.
  assert (pend_s s' w = pend_s s w ++ [(UDP.mk_sockaddr (UDP.sin_addr (UDP.bcaddr (sudp s))) (UDP.htons (c_port s)), find_pdu)]) as Hps by (unfold pend_s, s'; cbn; rewrite Hsl; by rewrite drop_app_le by lia).
  split; [|rewrite Hps, fmap_app; split; [set_solver|split; [set_solver|split; [by destruct ph|done]]]].
  split; [exact W|destruct B as [B1 B2 B3 B4 B5 B6 B7]; by split|exact Hc|exact C|exact Hph|exact Ho|]. split; [unfold s'; cbn; rewrite length_app; lia|exact N2| |exact Pr].
  unfold s'. cbn. rewrite Hsl, drop_app_le by lia. apply Forall_app. split; [done|]. constructor; [by left|constructor].
Qed.

(** What [internal_send] leaves: the request is on its way. *)
Definition sent_post (ph : phase) (fr : Z * Z * Z * Z * Z) (s : client) (c : clocal) (el : list turn) (x : Z * client * world * list turn) : Prop :=
  let '(rc, s', w', el') := x in rc = 1 /\ exists e' c', sys ph fr s' w' e' c' /\ asked ph s' w' c' /\ closer ph s s' c c' /\ exists p, el = p ++ el'.
(** The client has a server, or what it asked for last is what it is waiting for. *)
Definition linked (ph : phase) (s : client) (w : world) : Prop := asks ph s w \/ have_server s <> 0 /\ ph <> Opening.

Lemma internal_send_spec ph fr el : forall s w e c, sys ph fr s w e c -> linked ph s w ->
  match send' s w el ch (ref ph) with
  | Ret x => sent_post ph fr s c el x /\ (forall el2 k, live el2 k el -> finds k s w -> (k <= 3)%nat -> live el2 1 (snd x))
  | Block => forall el2 k, live el2 k el -> finds k s w -> (k <= 3)%nat -> False
  | Fault _ => False
  end.
Proof.
  induction el as [|t el IH]; intros s w e c Y Hl0; cbn [internal_send]; destruct (Z.eqb_spec (have_server s) 0) as [H0|H0]; cbn [negb].
  2,4: destruct (send_now_spec ph fr s w e c Y H0) as (s' & c' & -> & Y' & A & K & _ & Z1 & Z2); [destruct Hl0 as [?|[_ ?]]; [by left|by right]|]; cbn [obind]; (split; [split; [done|]; exists e, c'; split_and!; try done; by exists []|]);
    intros el2 k Hl Hf Hk; cbn [snd]; eapply live_mono; [done|]; destruct Hf as [[_ ?]|[? _]]; [lia|done].
  - intros el2 k Hl Hf Hk. destruct k as [|k]; [|by apply live_nil in Hl]. destruct Hf as [[_ ?]|[_ [?|[? _]]]]; lia.
  - destruct Hl0 as [Ha|[? _]]; [|done]. destruct (sys_find ph fr s w e c Y H0) as (Y1 & F1 & G1 & K1 & Pe). assert (asks ph (cli_find_server s) w) as Ha1 by (unfold asks; by rewrite Pe).
    destruct (wait1_spec ph fr _ w e c t Y1 Ha1) as (s2 & w2 & e2 & c2 & -> & Y2 & P2 & K2 & L2). cbn [obind].
    rewrite (ba_abort _ _ (sy_b _ _ _ _ _ _ Y2)). cbn [Z.eqb negb]. specialize (IH s2 w2 e2 c2 Y2 (or_introl P2)).
    assert (forall el2 k, live el2 k (t :: el) -> finds k s w -> (k <= 3)%nat -> exists k', live el2 k' el /\ finds k' s2 w2 /\ (k' <= 3)%nat) as Hstep.
    { intros el2 k Hl Hf Hk. destruct k as [|k]; [destruct Hf as [[_ ?]|[_ [?|[? _]]]]; lia|]. destruct (live_turn el2 k t el Hl ltac:(lia)) as [H3|[Hall Hl']].
      - exists 3%nat. split; [done|]. split; [|lia]. destruct (decide (have_server s2 = 0)); [right; split; [done|by left]|left; split; [done|lia]].
      - destruct (L2 Hall) as (X1 & X2 & _). exists k. split; [done|]. split; [|lia]. destruct Hf as [[? _]|[_ [Hk3|[Hk2 Hr]]]]; [done| |].
        + destruct (decide (have_server s2 = 0)) as [E|E]; [|left; split; [done|lia]]. right. split; [done|]. right. split; [lia|]. destruct (X1 F1); [done|done].
        + left. split; [by apply X2, G1|lia]. }
    destruct (send' s2 w2 el ch (ref ph)) as [[[[rc s3] w3] el3]| |]; [| |done].
    + destruct IH as [(-> & e3 & c3 & Q1 & Q2 & Q3 & p & ->) IH]. split; [split; [done|]; exists e3, c3; split_and!; try done; [by eapply closer_trans; [|eapply closer_trans]|by exists (t :: p)]|].
      intros el2 k Hl Hf Hk. destruct (Hstep el2 k Hl Hf Hk) as (k' & ? & ? & ?). by eapply IH.
    + intros el2 k Hl Hf Hk. destruct (Hstep el2 k Hl Hf Hk) as (k' & ? & ? & ?). by eapply IH.
Qed.

Lemma compares ph fr c : chan_inv ph fr c -> cmp_ok ph c -> do_compare c = match ph with Opening => need_filesize c =? 1 | Reading _ => negb (request_map c =? 0) end.
Proof. intros _ H. unfold cmp_ok in H. unfold do_compare, var_value. destruct ph; injection H as -> -> ->; done. Qed.

(** A turn without loss that answers the request ends the wait. *)
Lemma done_after ph fr s s' c c' d : chan_inv ph fr c -> chan_inv ph fr c' -> cmp_ok ph c' -> closer ph s s' c c' -> fresh ph d c -> arrived ph d c' -> do_compare c' = false.
Proof.
  intros C C' Hc (_ & _ & K) Hf Ha. rewrite (compares ph fr c' C' Hc). destruct ph as [|nd]; cbn in *; [by rewrite Ha|]. destruct (ci_ph _ _ _ C') as (_ & _ & R & _). rewrite (rc_cnt _ _ _ _ _ _ R).
  destruct (wanted (rmap c') 0 pmap) as [|i l] eqn:E; [done|]. exfalso. assert (i ∈ wanted (rmap c') 0 pmap) as Hi by (rewrite E; by left). rewrite <- E in *. by apply (Ha i); [apply Hf, K|].
Qed.

(** The state when a wait has ended. *)
Definition wait_post (ph : phase) (fr : Z * Z * Z * Z * Z) (el : list turn) (x : Z * client * world * list turn) : Prop :=
  let '(rc, s', w', el') := x in rc = 0 /\ exists e' c', sys ph fr s' w' e' c' /\ have_server s' <> 0 /\ (cmp_ok ph c' /\ do_compare c' = false) /\ exists p, el = p ++ el'.

Lemma sys_unset ph fr s w e c : sys ph fr s w e c -> sys ph fr (internal_unset_server s) w e c /\ reqs (internal_unset_server s) w = reqs s w.
Proof.
  intros [W B Hc C Hph Ho [N1 N2 Ps Pr]]. unfold internal_unset_server. destruct (Z.eqb_spec (have_server s) 0); [by split|]. split; [|done].
  split; try done. destruct B as [B1 B2 B3 B4 B5 B6 B7]. by split.
Qed.
Lemma finds_any s w : finds 3 s w.
Proof. destruct (decide (have_server s = 0)); [right; split; [done|by left]|left; split; [done|lia]]. Qed.

Lemma wait_loop_spec ph fr retry fuel : 0 < retry -> forall el s w e c count, (length el < fuel)%nat -> sys ph fr s w e c -> cmp_ok ph c -> asks ph s w -> have_server s <> 0 ->
  match loop' fuel s w el ch (ref ph) retry count with
  | Ret x => wait_post ph fr el x /\ (forall el2 k, patient el -> live el2 k el -> (do_compare c = true -> asked ph s w c /\ k = 1%nat) -> live el2 0 (snd x))
  | Block => forall el2 k, patient el -> live el2 k el -> (do_compare c = true -> asked ph s w c /\ k = 1%nat) -> False
  | Fault _ => False
  end.
Proof.
  intros Hre. induction fuel as [|fuel IH]; intros el s w e c count Hfu Y Hcmp Has Hsv; [lia|]. cbn [wait_loop]. rewrite (sy_c _ _ _ _ _ _ Y). cbn [obind]. destruct (do_compare c) eqn:Ed.
  2:{ split; [split; [done|]; exists e, c; exact (conj Y (conj Hsv (conj (conj Hcmp Ed) (ex_intro _ [] eq_refl))))|]. intros el2 k _ Hl _. eapply live_mono; [done|lia]. }
  destruct el as [|t el]; [intros el2 k _ Hl Ha; destruct (Ha eq_refl) as [_ ->]; by apply live_nil in Hl|]. cbn [length] in Hfu.
  destruct (wait1_spec ph fr s w e c t Y Has) as (s1 & w1 & e1 & c1 & -> & Y1 & P1 & K1 & L1). cbn [obind]. rewrite (sy_c _ _ _ _ _ _ Y1). cbn [obind]. pose proof K1 as (Ks & Kc & _). specialize (Kc Hcmp). specialize (Ks Hsv).
  assert (forall el2 k, live el2 k (t :: el) -> (true = true -> asked ph s w c /\ k = 1%nat) -> do_compare c1 = false \/ live el2 3 el) as Hstep.
  { intros el2 k Hl Ha. destruct (Ha eq_refl) as [(_ & _ & x & Hx & Hq & Hf) ->]. destruct (live_turn el2 0 t el Hl ltac:(lia)) as [H3|[Hall _]]; [by right|]. left. destruct (L1 Hall) as (_ & _ & L). eapply done_after; [exact (sy_ci _ _ _ _ _ _ Y)|exact (sy_ci _ _ _ _ _ _ Y1)|done|done|done|by apply L]. }
  assert (forall el2 k, live el2 k (t :: el) -> (true = true -> asked ph s w c /\ k = 1%nat) -> live el2 0 el) as Hstep0.
  { intros el2 k Hl Ha. destruct (Ha eq_refl) as [_ ->]. destruct (live_turn el2 0 t el Hl ltac:(lia)) as [H3|[_ H]]; [|done]. eapply live_mono; [done|lia]. }
  destruct (do_compare c1) eqn:Ed1.
  2:{ specialize (IH el s1 w1 e1 c1 count ltac:(lia) Y1 Kc P1 Ks). destruct (loop' fuel s1 w1 el ch (ref ph) retry count) as [[[[rc s2] w2] el3]| |]; [| |done].
      - destruct IH as [(-> & e2 & c2 & Q1 & Q2 & [Q3 Q4] & p & ->) IH]. split; [split; [done|]; exists e2, c2; split_and!; try done; by exists (t :: p)|]. intros el2 k Hpa Hl Ha. apply Forall_cons in Hpa as [_ Hpa].
        eapply (IH el2 0%nat Hpa); [by eapply Hstep0|congruence].
      - intros el2 k Hpa Hl Ha. apply Forall_cons in Hpa as [_ Hpa]. eapply (IH el2 0%nat Hpa); [by eapply Hstep0|congruence]. }
  rewrite (ci_reopen _ _ _ (sy_ci _ _ _ _ _ _ Y1)). cbn [Z.eqb negb]. destruct (t_tmo t) eqn:Et.
  2:{ specialize (IH el s1 w1 e1 c1 count ltac:(lia) Y1 Kc P1 Ks). destruct (loop' fuel s1 w1 el ch (ref ph) retry count) as [[[[rc s2] w2] el3]| |]; [| |done].
      - destruct IH as [(-> & e2 & c2 & Q1 & Q2 & [Q3 Q4] & p & ->) IH]. split; [split; [done|]; exists e2, c2; split_and!; try done; by exists (t :: p)|]. intros el2 k Hpa. apply Forall_cons in Hpa as [Hpa _]. congruence.
      - intros el2 k Hpa. apply Forall_cons in Hpa as [Hpa _]. congruence. }
  rewrite (proj2 (Z.eqb_neq retry 0)) by lia. set (gu := retry <=? count + 1). set (s2 := if gu then internal_unset_server s1 else s1).
  assert (sys ph fr s2 w1 e1 c1 /\ asks ph s2 w1) as [Y2 P2]. { unfold s2. destruct gu; [|done]. destruct (sys_unset _ _ _ _ _ _ Y1) as [U1 U2]. split; [done|]. unfold asks. by rewrite U2. }
  pose proof (internal_send_spec ph fr el s2 w1 e1 c1 Y2 (or_introl P2)) as HS. destruct (send' s2 w1 el ch (ref ph)) as [[[[rc s3] w3] el3]| |]; [| |done]; cbn [obind].
  2:{ intros el2 k Hpa Hl Ha. destruct (Hstep el2 k Hl Ha) as [|H3]; [done|]. eapply (HS el2 3%nat); [done|apply finds_any|done]. }
  destruct HS as [(-> & e3 & c3 & Y3 & A3 & K3 & p & ->) HS]. cbn [Z.ltb Z.compare]. pose proof K3 as (_ & Kc3 & _). specialize (Kc3 Kc). rewrite length_app in Hfu. pose proof A3 as (A31 & A32 & _).
  specialize (IH el3 s3 w3 e3 c3 (if gu then 0 else count + 1) ltac:(lia) Y3 Kc3 A32 A31). destruct (loop' fuel s3 w3 el3 ch (ref ph) retry (if gu then 0 else count + 1)) as [[[[rc4 s4] w4] el4]| |]; [| |done].
  - destruct IH as [(-> & e4 & c4 & Q1 & Q2 & [Q3 Q4] & p4 & ->) IH]. split; [split; [done|]; exists e4, c4; split_and!; try done; exists (t :: p ++ p4); cbn; by rewrite <- app_assoc|]. intros el2 k Hpa Hl Ha. apply Forall_cons in Hpa as [_ [_ Hpa]%Forall_app].
    eapply (IH el2 1%nat Hpa); [|done]. destruct (Hstep el2 k Hl Ha) as [|H3]; [done|]. eapply HS; [done|apply finds_any|done].
  - intros el2 k Hpa Hl Ha. apply Forall_cons in Hpa as [_ [_ Hpa]%Forall_app]. eapply (IH el2 1%nat Hpa); [|done]. destruct (Hstep el2 k Hl Ha) as [|H3]; [done|]. eapply HS; [done|apply finds_any|done].
Qed.

(** ** Calls *)

(** The system between two calls. *)
Record quiet (s : client) (w : world) (e : entry) (c : clocal) : Prop := {
  qu_w : winv w e;
  qu_b : base s e;
  qu_c : get_cl s ch = Ret c;
  qu_sizes : sizes c;
  qu_ch : channel c = ch;
  qu_reopen : need_reopen c = 0;
  qu_pa : past s w e;
}.
Definition with_chan (s : client) (c : clocal) : client := set_cls (<[Z.to_nat ch := c]> (cls s)) s.

Lemma quiet_put s w e c c' : quiet s w e c -> sizes c' -> channel c' = ch -> need_reopen c' = 0 -> put_cl s ch c' = Ret (with_chan s c') /\ quiet (with_chan s c') w e c'.
Proof.
  intros [W B Hc S1 C1 R1 [N1 N2 Ps Pr]] S2' C2' R2. destruct (chan_get_put s c c' Hc) as [G1 G2]. split; [done|]. split; try done. destruct B as [B1 B2 B3 B4 B5 B6 B7]. by split.
Qed.
Lemma quiet_sys ph fr s w e c : quiet s w e c -> chan_inv ph fr c -> ph_ok ph -> (ph <> Opening \/ need_filesize c = 0 -> opened (wk w) e) -> sys ph fr s w e c.
Proof. intros [W B Hc S1 C1 R1 Pa] C Hph Ho. by split. Qed.
Lemma sys_quiet ph fr s w e c : sys ph fr s w e c -> quiet s w e c.
Proof. intros [W B Hc C Hph Ho Pa]. split; try done; apply C. Qed.

(** A call on the schedule [el]: it never faults, what it returns satisfies [Q], and it
    returns when the schedule is live. *)
Definition runs {A} (el : list turn) (m : outcome (A * client * world * list turn)) (Q : A -> client -> world -> Prop) : Prop :=
  match m with
  | Ret (a, s, w, el') => (exists p, el = p ++ el') /\ Q a s w /\ (forall el2, patient el -> live el2 3 el -> live el2 0 el')
  | Block => forall el2, patient el -> ~ live el2 3 el
  | Fault _ => False
  end.

Definition cmp_of (ph : phase) : cmp_variable * Z * Z := match ph with Opening => (V_need_filesize, CMP_EQ, 1) | Reading _ => (V_request_map, CMP_NE, 0) end.
Lemma chan_inv_cmp ph fr c v op x : chan_inv ph fr c -> chan_inv ph fr (set_compare v op x c).
Proof.
  intros [[S1 S2' S3] C2' C3 C4 C5]. split; [by split|done|done|done|]. destruct ph as [|nd]; [done|]. destruct C5 as (D1 & D2 & [R1 R2 R3 R4 R5] & D4). split; [done|]. split; [done|]. split; [by split|done].
Qed.

Lemma sendwait_spec ph fr s w e c el : sys ph fr s w e c -> linked ph s w ->
  runs el (let '(v, op, x) := cmp_of ph in sendwait_1 inet_ntoa resolve (net_turn false) s w el ch (ref ph) v op x false 3)
    (fun rc s' w' => rc = 0 /\ exists e' c', sys ph fr s' w' e' c' /\ have_server s' <> 0 /\ match ph with Opening => need_filesize c' = 0 | Reading _ => request_map c' = 0 end).
Proof.
  intros Y Hli. pose proof (sys_quiet _ _ _ _ _ _ Y) as Q. destruct (cmp_of ph) as [[v op] x] eqn:Ecmp. unfold sendwait_1. rewrite (qu_c _ _ _ _ Q). cbn [obind]. pose proof (sy_ci _ _ _ _ _ _ Y) as C.
  pose proof (chan_inv_cmp ph fr c v op x C) as C1. destruct (quiet_put s w e c (set_compare v op x c) Q) as [-> Q1]; [apply C1..|]. cbn [obind].
  assert (sys ph fr (with_chan s (set_compare v op x c)) w e (set_compare v op x c)) as Y1 by (apply quiet_sys; [done|done|apply Y|intros H; apply Y; exact H]).
  assert (cmp_ok ph (set_compare v op x c)) as Hc1 by (unfold cmp_ok; by destruct ph; injection Ecmp as <- <- <-).
  pose proof (internal_send_spec ph fr el _ w e _ Y1 Hli) as HS.
  destruct (send' (with_chan s (set_compare v op x c)) w el ch (ref ph)) as [[[[rc s2] w2] el2]| |]; [| |done]; cbn [obind]; [|intros el2 _ Hl; eapply (HS el2 3%nat); [done|apply finds_any|done]].
  destruct HS as [(-> & e2 & c2 & Y2 & A2 & (_ & K2 & _) & p & ->) HL]. specialize (K2 Hc1). cbn [Z.ltb Z.compare]. pose proof A2 as (A21 & A22 & _).
  pose proof (wait_loop_spec ph fr 3 (S (length el2)) ltac:(lia) el2 s2 w2 e2 c2 0 ltac:(lia) Y2 K2 A22 A21) as HW.
  destruct (loop' (S (length el2)) s2 w2 el2 ch (ref ph) 3 0) as [[[[rc s3] w3] el3]| |]; [| |done]; cbn.
  - destruct HW as [(-> & e3 & c3 & Y3 & P3 & [D2 D3] & p3 & ->) HW]. split; [exists (p ++ p3); by rewrite <- app_assoc|]. split.
    + split; [done|]. exists e3, c3. split; [done|]. split; [done|]. rewrite (compares ph fr c3 (sy_ci _ _ _ _ _ _ Y3) D2) in D3. destruct (sy_ci _ _ _ _ _ _ Y3) as [_ _ _ _ C5]. destruct ph as [|nd]; [apply Z.eqb_neq in D3; destruct C5 as [[?|[? _]] _]; done|].
      by apply negb_false_iff, Z.eqb_eq in D3.
    + intros el2' Hpa Hl. apply Forall_app in Hpa as [_ Hpa]. eapply (HW el2' 1%nat Hpa); [|done]. eapply HL; [done|apply finds_any|done].
  - intros el2' Hpa Hl. apply Forall_app in Hpa as [_ Hpa]. eapply (HW el2' 1%nat Hpa); [|done]. eapply HL; [done|apply finds_any|done].
Qed.

Lemma runs_then {A B} el (o : outcome (A * client * world * list turn)) (f : A * client * world * list turn -> outcome (B * client * world * list turn)) (Q : A -> client -> world -> Prop) (Q' : B -> client -> world -> Prop) :
  runs el o Q -> (forall a s w el', Q a s w -> exists b s' w', f (a, s, w, el') = Ret (b, s', w', el') /\ Q' b s' w') -> runs el (obind f o) Q'.
Proof.
  destruct o as [[[[a s] w] el']| |]; cbn; [|done|done]. intros (Hp' & HQ & HL) Hf. destruct (Hf a s w el' HQ) as (b & s' & w' & -> & HQ'). done.
Qed.

(** *** Opening the file *)

(** The channel of an open file. *)
Record ready (w : world) (e : entry) (c : clocal) : Prop := { rd_op : opened (wk w) e; rd_known : known c; rd_nf : need_filesize c = 0 }.

Lemma opening_inv c : sizes c -> channel c = ch -> need_reopen c = 0 -> char_at (fopen_pdu c) q_cmd = CMD_OPENFILE -> char_at (fopen_pdu c) q_channel = ch -> i32_at (fopen_pdu c) q_sn = sn ->
  cstr_at (fopen_pdu c) q_filename = Some name -> chan_inv Opening (frame c) (set_need_filesize 1 (set_fsize 0 c)).
Proof. intros [S1 S2' S3] H1 H2 H3 H4 H5 H6. split; [by split|done|done|done|]. split; [by left|done]. Qed.

Lemma reopen_spec fuel s w e c el : quiet s w e c -> asks Opening s w -> char_at (fopen_pdu c) q_cmd = CMD_OPENFILE -> char_at (fopen_pdu c) q_channel = ch -> i32_at (fopen_pdu c) q_sn = sn ->
  cstr_at (fopen_pdu c) q_filename = Some name ->
  runs el (internal_reopen inet_ntoa resolve (net_turn false) (S (S fuel)) s w el ch) (fun rc s' w' => rc = zlen F /\ exists e' c', quiet s' w' e' c' /\ have_server s' <> 0 /\ ready w' e' c' /\ frame c' = frame c).
Proof.
  intros Q Has H3 H4 H5 H6. cbn [internal_reopen]. rewrite (qu_c _ _ _ _ Q). cbn [obind]. pose proof (opening_inv c (qu_sizes _ _ _ _ Q) (qu_ch _ _ _ _ Q) (qu_reopen _ _ _ _ Q) H3 H4 H5 H6) as C1.
  destruct (quiet_put s w e c (set_need_filesize 1 (set_fsize 0 c)) Q) as [-> Q1]; [apply C1..|]. cbn [obind reopen_wait].
  pose proof (quiet_sys Opening (frame c) _ w e _ Q1 C1 I ltac:(by intros [?|?])) as Y1. pose proof (sendwait_spec Opening (frame c) _ w e _ el Y1 (or_introl Has)) as HS. cbn [cmp_of ref] in HS.
  eapply runs_then; [exact HS|]. intros rc s2 w2 el2 (-> & e2 & c2 & Y2 & P2 & N2). cbn [Z.eqb obind negb]. rewrite (sy_c _ _ _ _ _ _ Y2). cbn [obind].
  pose proof (sy_ci _ _ _ _ _ _ Y2) as C2. destruct (ci_ph _ _ _ C2) as [[?|[_ K]] _]; [lia|]. eexists _, s2, w2. split; [done|]. destruct K as (K1 & K2). rewrite K1, (proj2 (Z.ltb_lt 0 (zlen F))) by lia.
  split; [done|]. exists e2, c2. split; [by eapply sys_quiet|]. split; [done|]. split; [split; [by apply Y2; right|done|done]|apply C2].
Qed.

Context (Hname1 : zlen name <= 63) (Hname2 : Forall (fun c => c <> 0) name).

Lemma name_field_spec : zlen (name_field name) = 64 /\ exists r, name_field name = name ++ 0 :: r.
Proof.
  unfold name_field. rewrite take_ge by (unfold zlen in *; lia). split; [rewrite zlen_app; unfold zlen in *; rewrite length_replicate; lia|]. exists (replicate (63 - length name) 0).
  replace (64 - length name)%nat with (S (63 - length name)) by (unfold zlen in *; lia). done.
Qed.
Lemma open_pdu_spec s c : sizes c -> c_sn s = sn -> let b := open_pdu s ch name c in
  zlen b = SIZEOF_OPEN /\ char_at b q_cmd = CMD_OPENFILE /\ char_at b q_channel = ch /\ i32_at b q_sn = sn /\ cstr_at b q_filename = Some name.
Proof.
  intros [S1 _ _] Es b. destruct name_field_spec as [N1 (r & N2)]. unfold b, open_pdu. set (b1 := put8 (fopen_pdu c) q_cmd CMD_OPENFILE). set (b2 := put8 b1 q_channel ch). set (b3 := put32 b2 q_sn (c_sn s)). set (b4 := put32 b3 q_filecnt (c_filecnt c)).
  assert (zlen b1 = 78) as Z1 by (unfold b1; rewrite zlen_put8; q2). assert (zlen b2 = 78) as Z2 by (unfold b2; rewrite zlen_put8; q2). assert (zlen b3 = 78) as Z3 by (unfold b3; rewrite zlen_put32; q2). assert (zlen b4 = 78) as Z4 by (unfold b4; rewrite zlen_put32; q2).
  assert (slice (patch b4 q_filename (name_field name)) 4 (q_filename - 4) = slice b4 4 (q_filename - 4)) as Hh by (apply slice_patch_ne; rewrite ?N1; q2).
  split; [rewrite zlen_patch; rewrite ?N1; q2|]. split; [|split; [|split]].
  - transitivity (char_at b4 q_cmd); [apply char_u8, (u8_run _ _ _ _ _ Hh); q2|]. unfold b4. rewrite char_put32_ne by q2. unfold b3. rewrite char_put32_ne by q2. unfold b2. rewrite char_put8_ne by q2. unfold b1. rewrite char_put8; [done|q2|vm_compute; intuition discriminate].
  - transitivity (char_at b4 q_channel); [apply char_u8, (u8_run _ _ _ _ _ Hh); q2|]. unfold b4. rewrite char_put32_ne by q2. unfold b3. rewrite char_put32_ne by q2. unfold b2. by rewrite char_put8 by q2.
  - transitivity (i32_at b4 q_sn); [apply (i32_run _ _ _ _ _ Hh); q2|]. unfold b4. rewrite i32_put32_ne by q2. unfold b3. rewrite i32_put32; [done|q2|q2|by rewrite Es].
  - unfold cstr_at, patch. rewrite drop_app_length' by (rewrite length_take; unfold zlen in *; q2). rewrite N2, <- app_assoc. cbn. by apply cstr_app.
Qed.

Definition nblocks : Z := (zlen F + net - 1) / net.
Lemma nblocks_spec : 0 < nblocks /\ (nblocks - 1) * net < zlen F <= nblocks * net.
Proof. unfold nblocks. Z.div_mod_to_equations. nia. Qed.
Lemma nblocks_unique q : (q - 1) * net < zlen F <= q * net -> q = nblocks.
Proof. pose proof nblocks_spec. nia. Qed.

(** The stream is open at position [pos]: either the next byte is the first of the next
    block, or the buffer holds what is left of the last one. *)
Record stream (pos : Z) (s : client) (w : world) (e : entry) (c : clocal) : Prop := {
  st_quiet : quiet s w e c;
  st_server : have_server s <> 0;
  st_ready : ready w e c;
  st_file : have_file c = 1;
  st_total : ndtotal c = nblocks;
  st_nd : 0 <= ndcnt c <= nblocks;
  st_pos : blen c = 0 /\ pos = Z.min (ndcnt c * net) (zlen F) \/
           0 < blen c /\ 0 <= bidx c /\ 1 <= ndcnt c /\ pos = (ndcnt c - 1) * net + bidx c /\ bidx c + blen c = blk_len (ndcnt c - 1) /\
             slice (c_buffer c) 0 (bidx c + blen c) = slice F ((ndcnt c - 1) * net) (bidx c + blen c);
}.

Lemma quiet_abort s w e c : quiet s w e c -> quiet (set_abort 0 s) w e c.
Proof. intros [W B Hc S1 C1 R1 [N1 N2 Ps Pr]]. split; try done. destruct B as [B1 B2 B3 B4 B5 B6 B7]. by split. Qed.

Lemma openfile_spec s w e c el : quiet s w e c -> asks Opening s w -> int_ok (c_filecnt c + 1) ->
  runs el (cli_openfile inet_ntoa resolve (net_turn false) s w el ch name) (fun rc s' w' => rc = zlen F /\ exists e' c', stream 0 s' w' e' c' /\ ndcnt c' = 0).
Proof.
  intros Q Has Hfc. unfold cli_openfile, bad_channel. rewrite (proj2 (Z.ltb_ge ch 0)), (proj2 (Z.leb_gt _ ch)) by q2. cbn [orb]. apply quiet_abort in Q. set (s0 := set_abort 0 s) in *.
  rewrite (qu_c _ _ _ _ Q). cbn [obind]. rewrite ck_Ret by done. cbn [obind].
  set (c1 := set_c_filecnt (c_filecnt c + 1) c). destruct (open_pdu_spec s0 c1) as (O1 & O2 & O3 & O4 & O5); [destruct (qu_sizes _ _ _ _ Q); by split|apply Q|]. match goal with |- context [put_cl s0 ch ?x] => set (c2 := x) end.
  destruct (quiet_put s0 w e c c2 Q) as [-> Q2]; [destruct (qu_sizes _ _ _ _ Q); by split|apply Q|apply Q|]. cbn [obind]. change (reopen_fuel el) with (S (S (1 + 3 * length el))).
  eapply runs_then; [by eapply reopen_spec|]. intros rc s3 w3 el3 (-> & e3 & c3 & Q3 & Hsv & [R1 R2 R3] & Fr). rewrite (proj2 (Z.ltb_lt 0 _)) by lia. rewrite (qu_c _ _ _ _ Q3). cbn [obind]. pose proof R2 as (K1 & _ & K3 & _).
  rewrite K1, K3. rewrite cquot_Ret by lia. cbn [obind]. rewrite crem_Ret by lia. cbn [obind].
  assert ((if zlen F mod net =? 0 then zlen F / net else zlen F / net + 1) = nblocks) as Hnb by (apply nblocks_unique; destruct (Z.eqb_spec (zlen F mod net) 0); Z.div_mod_to_equations; nia).
  rewrite Hnb.
  match goal with |- context [put_cl s3 ch ?x] => set (c4 := x) end. destruct (quiet_put s3 w3 e3 c3 c4 Q3) as [-> Q4]; [destruct (qu_sizes _ _ _ _ Q3); by split|apply Q3|apply Q3|]. cbn [obind].
  eexists _, _, w3. split; [done|]. split; [done|]. exists e3, c4. pose proof nblocks_spec. injection Fr as F1 F2 F3 F4 F5. split; [|done]. split; [done|done|by split|done|done|cbn; lia|left; cbn; lia].
Qed.

(** *** Reading *)
Lemma blk_len_spec nd : 0 <= nd -> nd * net < zlen F -> 0 < blk_len nd <= net /\ nd * net + blk_len nd = Z.min ((nd + 1) * net) (zlen F).
Proof. unfold blk_len. nia. Qed.
Lemma npackets_le nd : 0 <= nd -> nd * net < zlen F -> npackets (blk_len nd) <= pmap.
Proof. intros H1 H2. destruct (blk_len_spec nd H1 H2) as [H3 _]. destruct (npackets_spec (blk_len nd)) as [_ H]; [lia|]. unfold CARRY in *. nia. Qed.

Lemma read_spec s w e c el nd : quiet s w e c -> have_server s <> 0 -> ready w e c -> ndcnt c = nd -> 0 <= nd -> nd * net < zlen F ->
  runs el (internal_read inet_ntoa resolve (net_turn false) s w el ch) (fun rc s' w' => rc = blk_len nd /\
    exists e' c', quiet s' w' e' c' /\ have_server s' <> 0 /\ ready w' e' c' /\ frame c' = frame c /\ slice (c_buffer c') 0 (blk_len nd) = slice F (nd * net) (blk_len nd)).
Proof.
  intros Q Hsv [R1 R2 R3] Hnd H0 Hlt. unfold internal_read. rewrite (qu_c _ _ _ _ Q). cbn [obind]. pose proof R2 as (K1 & K2 & K3 & K4 & K5). pose proof (qu_ch _ _ _ _ Q) as Ech. pose proof (ba_sn _ _ (qu_b _ _ _ _ Q)) as Esn.
  destruct (start_read_spec F nd net pmap s c) as (c1 & -> & S1 & RC & RM & FP & Ec1); [done|done|lia|apply Q|done|done|done|done|lia|done|done|lia|by rewrite Esn|]. fold (blk_len nd) in *. cbn [obind]. rewrite Ech, Esn in FP.
  destruct (blk_len_spec nd H0 Hlt) as [HB _]. destruct (npackets_spec (blk_len nd) ltac:(lia)) as [HP HPn].
  assert (channel c1 = ch /\ need_reopen c1 = 0 /\ frame c1 = frame c /\ known c1 /\ need_filesize c1 = 0) as (E1 & E2 & E3 & E4 & E5) by (rewrite Ec1; unfold known; cbn; split_and!; try done; apply Q).
  destruct (quiet_put s w e c c1 Q) as [-> Q1]; [done..|]. cbn [obind]. assert (chan_inv (Reading nd) (frame c) c1) as C1 by (by split).
  pose proof (quiet_sys (Reading nd) (frame c) _ w e c1 Q1 C1 (conj H0 Hlt) (fun _ => R1)) as Y1. assert (linked (Reading nd) (with_chan s c1) w) as Hli by (by right). pose proof (sendwait_spec (Reading nd) (frame c) _ w e c1 el Y1 Hli) as HS. cbn [cmp_of ref] in HS.
  eapply (runs_then el _ _ (fun b s' w' => b = true /\ exists e' c', sys (Reading nd) (frame c) s' w' e' c' /\ have_server s' <> 0 /\ request_map c' = 0)).
  - cbn [fetch_wait]. match type of HS with runs _ _ ?P => eapply (runs_then el _ _ P) end; [unfold internal_sendwait; eapply (runs_then el _ _ _ _ HS)|];
      intros rc s2 w2 el2 (-> & HQ); eexists _, s2, w2; (split; [done|]); exact (conj eq_refl HQ).
  - intros b s2 w2 el2 (-> & e2 & c2 & Y2 & P2 & N2). eexists _, s2, w2. split; [done|]. split; [done|]. exists e2, c2. pose proof (sy_ci _ _ _ _ _ _ Y2) as C2. destruct (ci_ph _ _ _ C2) as (D1 & D2 & D3 & D4).
    split; [by eapply sys_quiet|]. split; [done|]. split; [split; [by apply Y2; left|done|done]|]. split; [apply C2|]. apply (block_done F nd net pmap (npackets (blk_len nd))); [done|done|lia|by apply npackets_le|done|done|apply C2|done|lia|lia|].
    unfold blk_len. lia.
Qed.

(** A sequence of calls on the schedule [el]: with [n] calls that wait ahead, it returns when
    the schedule is fair, and is then fair enough for those that are left. *)
Definition serves {A} (n : nat) (el : list turn) (o : outcome (A * client * world * list turn)) (Q : A -> client -> world -> nat -> Prop) : Prop :=
  match o with
  | Ret (a, s, w, el') => (exists p, el = p ++ el') /\ exists n', Q a s w n' /\ (patient el -> fair n el -> fair n' el')
  | Block => patient el -> ~ fair n el
  | Fault _ => False
  end.
Lemma serves_ret {A} n el (a : A) s w (Q : A -> client -> world -> nat -> Prop) : Q a s w n -> serves n el (Ret (a, s, w, el)) Q.
Proof. intros H. split; [by exists []|]. by exists n. Qed.
Lemma serves_runs {A} n el (o : outcome (A * client * world * list turn)) Q : runs el o Q -> serves (S n) el o (fun a s w n' => Q a s w /\ n' = n).
Proof.
  destruct o as [[[[a s] w] el']| |]; cbn; [|intros H Hpa (el2 & Hl & _); by apply (H el2)|done]. intros (Hp' & HQ & HL). split; [done|]. exists n. split; [done|]. intros Hpa (el2 & Hl & Hf).
  destruct (live_suffix el2 0 el') as [e1 ->]; [by apply HL|]. by apply fair_more.
Qed.
Lemma serves_bind {A B} n el (o : outcome (A * client * world * list turn)) (f : A * client * world * list turn -> outcome (B * client * world * list turn)) Q Q' :
  serves n el o Q -> (forall a s w el' n', Q a s w n' -> serves n' el' (f (a, s, w, el')) Q') -> serves n el (obind f o) Q'.
Proof.
  destruct o as [[[[a s] w] el']| |]; cbn; [|done|done]. intros ((p & ->) & n' & HQ & HL) Hf. specialize (Hf a s w el' n' HQ). destruct (f (a, s, w, el')) as [[[[b s'] w'] el'']| |]; [|intros Hpa Hfa|done].
  - destruct Hf as ((p' & ->) & n'' & HQ' & HL'). split; [exists (p ++ p'); by rewrite app_assoc|]. exists n''. split; [done|]. intros Hpa Hfa. apply HL'; [by apply Forall_app in Hpa as [_ ?]|by apply HL].
  - eapply Hf; [by apply Forall_app in Hpa as [_ ?]|by apply HL].
Qed.

Definition left_nd (c : clocal) : nat := Z.to_nat (nblocks - ndcnt c).

(** A read of at least one byte: some of the next bytes, or [-1] at the end. *)
Definition read_post (pos len : Z) (x : Z * list Z) (s : client) (w : world) (n : nat) : Prop :=
  exists e c, stream (pos + zlen (snd x)) s w e c /\ n = left_nd c /\ snd x = slice F pos (zlen (snd x)) /\ pos + zlen (snd x) <= zlen F /\ zlen (snd x) <= len /\
    (if pos <? zlen F then 0 < fst x /\ fst x = zlen (snd x) else x = (-1, [])).

Lemma stream_pos pos s w e c : stream pos s w e c -> 0 <= pos <= zlen F /\ (pos < zlen F <-> 0 < blen c \/ ndcnt c < nblocks).
Proof.
  intros [_ _ _ _ _ Hnd Hpos]. pose proof nblocks_spec as (N1 & N2 & N3). destruct Hpos as [[H1 ->]|(H1 & H2 & H3 & -> & H4 & _)].
  - split; [nia|]. split; [|intros [?|?]; nia]. intros H. right. nia.
  - destruct (blk_len_spec (ndcnt c - 1)) as [_ HB]; [lia|nia|]. split; [nia|]. split; [by left|]. intros _; nia.
Qed.

Lemma take_spec pos s w e c len el : stream pos s w e c -> 0 < blen c -> 0 < len ->
  serves (left_nd c) el (let* r := take_bytes c len in let '(rc, bytes, c) := r in let* s := put_cl s ch c in Ret (rc, bytes, s, w, el)) (read_post pos len).
Proof.
  intros T Hb Hl. destruct (stream_pos _ _ _ _ _ T) as [Hp1 Hp2]. pose proof T as [Q Hsv R Hf Ht Hnd Hpos]. destruct Hpos as [[H1 _]|(_ & H2 & H3 & -> & H4 & H5)]; [lia|].
  pose proof nblocks_spec as (N1 & N2 & N3). destruct (blk_len_spec (ndcnt c - 1)) as [B1 B2]; [lia|nia|]. pose proof (qu_sizes _ _ _ _ Q) as [S1 S2' S3].
  unfold take_bytes. rewrite (proj2 (Z.ltb_lt 0 _)) by done. assert ((if len <=? blen c then len else blen c) = Z.min len (blen c)) as -> by (destruct (Z.leb_spec len (blen c)); lia). set (n := Z.min len (blen c)).
  rewrite (proj2 (Z.leb_le 0 n)), (proj2 (Z.leb_le 0 (bidx c))), (proj2 (Z.leb_le (bidx c + n) _)) by lia. cbn [andb obind].
  match goal with |- context [put_cl s ch ?x] => set (c' := x) end. destruct (quiet_put s w e c c' Q) as [-> Q']; [by split|apply Q|apply Q|]. cbn [obind].
  assert (slice (c_buffer c) (bidx c) n = slice F ((ndcnt c - 1) * net + bidx c) n) as Hsl.
  { rewrite <- (slice_slice F ((ndcnt c - 1) * net) (bidx c + blen c) (bidx c) n), <- H5 by nia. rewrite slice_slice by lia. done. }
  assert (zlen (slice (c_buffer c) (bidx c) n) = n) as Hzn by (apply zlen_slice; lia).
  apply serves_ret. exists e, c'. cbn [fst snd]. rewrite Hzn. split; [|split; [done|split; [done|split; [nia|split; [lia|]]]]].
  - split; [done|done|destruct R; by split|done|done|done|]. unfold c'. cbn. destruct (Z.eq_dec (blen c - n) 0) as [E|E]; [left; split; [done|nia]|right]. replace (bidx c + n + (blen c - n)) with (bidx c + blen c) by lia. split_and!; try done; lia.
  - rewrite (proj2 (Z.ltb_lt _ (zlen F))) by (apply Hp2; by left). lia.
Qed.

Lemma cli_read_spec pos s w e c len el : stream pos s w e c -> 0 < len -> serves (left_nd c) el (cli_read inet_ntoa resolve (net_turn false) s w el ch len) (read_post pos len).
Proof.
  intros T Hl. destruct (stream_pos _ _ _ _ _ T) as [Hp1 Hp2]. pose proof T as [Q Hsv R Hf Ht Hnd Hpos]. unfold cli_read, bad_channel. rewrite (proj2 (Z.ltb_ge ch 0)), (proj2 (Z.leb_gt _ ch)) by q2. cbn [orb].
  rewrite (qu_c _ _ _ _ Q). cbn [obind]. rewrite Hf. cbn [Z.eqb]. destruct (Z.leb_spec (blen c) 0) as [Hb|Hb]; [|by eapply take_spec].
  destruct Hpos as [[H1 Hpo]|(? & _)]; [|lia]. rewrite Ht. destruct (Z.leb_spec nblocks (ndcnt c)) as [Hn|Hn].
  { apply serves_ret. exists e, c. cbn [fst snd]. change (zlen []) with 0. rewrite Z.add_0_r. split; [done|]. split; [done|]. split; [done|]. split; [lia|]. split; [lia|]. rewrite (proj2 (Z.ltb_ge pos _)); [done|]. destruct (Z.le_gt_cases (zlen F) pos) as [|Hc]; [done|]. apply Hp2 in Hc. lia. }
  pose proof nblocks_spec as (N1 & N2 & N3). assert (ndcnt c * net < zlen F) as Hlt by nia. destruct (quiet_put s w e c (set_bidx 0 c) Q) as [-> Q1]; [destruct (qu_sizes _ _ _ _ Q); by split|apply Q|apply Q|]. cbn [obind].
  assert (left_nd c = S (Z.to_nat (nblocks - (ndcnt c + 1)))) as -> by (unfold left_nd; lia).
  eapply serves_bind; [apply serves_runs, (read_spec _ w e (set_bidx 0 c) el (ndcnt c) Q1 Hsv); [destruct R; by split|done|lia|done]|].
  intros rc s2 w2 el2 n' ((-> & e2 & c2 & Q2 & Hsv2 & R2 & Fr & Hsl) & ->). rewrite (qu_c _ _ _ _ Q2). cbn [obind]. injection Fr as F1 F2 F3 F4 F5. cbn in F1, F2, F3, F4, F5.
  match goal with |- context [put_cl s2 ch ?x] => set (c3 := x) end. destruct (quiet_put s2 w2 e2 c2 c3 Q2) as [-> Q3]; [destruct (qu_sizes _ _ _ _ Q2); by split|apply Q2|apply Q2|]. cbn [obind]. rewrite (qu_c _ _ _ _ Q3). cbn [obind].
  destruct (blk_len_spec (ndcnt c)) as [B1 B2]; [lia|done|]. assert (stream pos (with_chan s2 c3) w2 e2 c3) as T3.
  { split; [done|done|destruct R2; by split|cbn; congruence|cbn; congruence|cbn; lia|]. right. unfold c3. cbn. rewrite F2, F3. replace (ndcnt c + 1 - 1) with (ndcnt c) by lia. rewrite Z.add_0_l. split_and!; try done; lia. }
  assert (Z.to_nat (nblocks - (ndcnt c + 1)) = left_nd c3) as -> by (unfold left_nd, c3; cbn; by rewrite F3). eapply take_spec; [done|cbn; lia|done].
Qed.

(** [steng_read]: the next [len] bytes, fewer only at the end of the file. *)
Lemma steng_loop_spec fuel : forall pos s w e c explen got el, stream pos s w e c -> explen <= Z.of_nat fuel ->
  serves (left_nd c) el (steng_read_loop inet_ntoa resolve (net_turn false) fuel s w el ch explen got) (fun bytes s' w' n =>
    bytes = got ++ slice F pos (Z.max 0 (Z.min explen (zlen F - pos))) /\ exists e' c', stream (pos + Z.max 0 (Z.min explen (zlen F - pos))) s' w' e' c' /\ n = left_nd c').
Proof.
  induction fuel as [|fuel IH]; intros pos s w e c explen got el T Hfu; cbn [steng_read_loop]; destruct (Z.leb_spec explen 0) as [Hx|Hx]; try lia.
  1,2: rewrite Z.max_l by lia; apply serves_ret; change (slice F pos 0) with (@nil Z); rewrite app_nil_r, Z.add_0_r; (split; [done|]); by exists e, c.
  destruct (stream_pos _ _ _ _ _ T) as [Hp1 _]. eapply serves_bind; [by eapply cli_read_spec|]. intros [rc bytes] s2 w2 el2 n' (e2 & c2 & T2 & -> & Hb & Hle & Hbl & Hrc). cbn [fst snd] in *. destruct (Z.ltb_spec pos (zlen F)) as [Hlt|Hge].
  - destruct Hrc as [Hr0 ->]. rewrite (proj2 (Z.leb_gt (zlen bytes) 0)) by done. specialize (IH (pos + zlen bytes) s2 w2 e2 c2 (explen - zlen bytes) (got ++ bytes) el2 T2 ltac:(lia)).
    set (n := zlen bytes) in *. replace (Z.max 0 (Z.min explen (zlen F - pos))) with (n + Z.max 0 (Z.min (explen - n) (zlen F - (pos + n)))) by lia.
    set (k := Z.max 0 (Z.min (explen - n) (zlen F - (pos + n)))) in *. rewrite <- slice_app by lia. rewrite <- Hb, app_assoc. rewrite Z.add_assoc. exact IH.
  - injection Hrc as -> ->. cbn [Z.leb Z.compare]. rewrite Z.max_l by lia. apply serves_ret. change (slice F pos 0) with (@nil Z). rewrite app_nil_r, Z.add_0_r. cbn in T2. rewrite Z.add_0_r in T2. split; [done|]. by exists e2, c2.
Qed.

(** ** A session *)

(** A caller that opens the file and then reads: the values it gets. *)
Fixpoint read_all (late : bool) (s : client) (w : world) (el : list turn) (lens : list Z) : outcome (list (list Z) * client * world * list turn) :=
  match lens with
  | [] => Ret ([], s, w, el)
  | len :: lens =>
      let* x := steng_read inet_ntoa resolve (net_turn late) s w el ch len in
      let '(bytes, s, w, el) := x in
      let* y := read_all late s w el lens in
      let '(rest, s, w, el) := y in Ret (bytes :: rest, s, w, el)
  end.
Definition session (late : bool) (s : client) (w : world) (el : list turn) (lens : list Z) : outcome (Z * list (list Z) * client * world * list turn) :=
  let* x := steng_open inet_ntoa resolve (net_turn late) s w el ch name in
  let '(rc, s, w, el) := x in
  let* y := read_all late s w el lens in
  let '(out, s, w, el) := y in Ret (rc, out, s, w, el).

(** The pieces of [l] of the given lengths; the last ones are short when [l] ends. *)
Fixpoint pieces (l : list Z) (lens : list Z) : list (list Z) :=
  match lens with [] => [] | n :: lens => take (Z.to_nat n) l :: pieces (drop (Z.to_nat n) l) lens end.

Lemma piece_spec (l : list Z) pos len : 0 <= pos <= zlen l -> let k := Z.max 0 (Z.min len (zlen l - pos)) in
  slice l pos k = take (Z.to_nat len) (drop (Z.to_nat pos) l) /\ drop (Z.to_nat (pos + k)) l = drop (Z.to_nat len) (drop (Z.to_nat pos) l).
Proof.
  intros Hpos k. unfold slice. destruct (Z.le_gt_cases len (zlen l - pos)) as [Hc|Hc].
  - replace (Z.to_nat k) with (Z.to_nat len) by lia. split; [done|]. rewrite drop_drop. f_equal. lia.
  - split; [|rewrite drop_drop, !drop_ge; [done|unfold zlen in *; lia..]]. rewrite !take_ge; [done|rewrite length_drop; unfold zlen in *; lia..].
Qed.

Lemma read_all_spec lens : Forall int_ok lens -> forall pos s w e c el, stream pos s w e c ->
  serves (left_nd c) el (read_all false s w el lens) (fun out _ _ _ => out = pieces (drop (Z.to_nat pos) F) lens).
Proof.
  induction 1 as [|len lens Hlen _ IH]; intros pos s w e c el T; cbn [read_all pieces]; [by apply serves_ret|]. destruct (stream_pos _ _ _ _ _ T) as [Hp1 _]. destruct (piece_spec F pos len Hp1) as [H1 H2].
  unfold steng_read. rewrite to_int_id by done. eapply serves_bind; [eapply steng_loop_spec; [done|lia]|]. cbn beta. intros bytes s2 w2 el2 n (-> & e2 & c2 & T2 & ->). eapply serves_bind; [by eapply IH|]. cbn beta.
  intros rest s3 w3 el3 n' ->. apply serves_ret. cbn [app]. by rewrite H1, H2.
Qed.

Lemma session_spec s w e c lens el : quiet s w e c -> asks Opening s w -> int_ok (c_filecnt c + 1) -> Forall int_ok lens ->
  serves (S (Z.to_nat nblocks)) el (session false s w el lens) (fun x _ _ _ => x = (zlen F, pieces F lens)).
Proof.
  intros Q Has Hfc Hl. unfold session, steng_open. eapply serves_bind; [by eapply serves_runs, openfile_spec|]. cbn beta. intros rc s2 w2 el2 n ((-> & e2 & c2 & T & Hn) & ->).
  replace (Z.to_nat nblocks) with (left_nd c2) by (unfold left_nd; f_equal; lia). eapply serves_bind; [by eapply read_all_spec|]. cbn beta. intros out s3 w3 el3 n' ->. by apply serves_ret.
Qed.
End system.

(** ** The start *)

(** The world in which the server [sv] has just been started, and nothing that the client's
    sockets were made with counts as sent. *)
Definition started (sv : server) (k : kernel) (cl : client) : world :=
  let ns := length (UDP.sent (sudp cl)) in let nr := length (UDP.sent (rudp cl)) in mk_world (snd (stiov2_start 0 sv)) k ns nr ns nr [] true.

Lemma open_eth_Some u0 n o u : open_eth u0 n o = Some u -> UDP.listcnt u = Z.max 0 n /\ UDP.addrlist u = replicate (Z.to_nat n) (UDP.mk_peer false (UDP.mk_sockaddr 0 0)).
Proof. unfold open_eth, UDP.udplib_open. intros H. repeat case_match; by simplify_eq/=. Qed.

(** What [new_streamming_io_v2_client] makes. *)
Lemma new_client_inv cm port c0 pdu ip : new_streamming_io_v2_client cm None port = Ret (Some (c0, pdu)) -> cm_self cm = Some ip -> zlen ip = 16 ->
  zlen (server_ip c0) = 16 /\ abort c0 = 0 /\ c_sn c0 = cm_time cm /\ find_server_pdu c0 = make_find_pdu (cm_time cm) /\ have_server c0 = 0 /\ c_rx c0 = cm_rx cm /\
  cls c0 = [new_clocal 0; new_clocal 1; new_clocal 2; new_clocal 3] /\ UDP.listcnt (rudp c0) = 1 /\ exists p, UDP.addrlist (rudp c0) = [p].
Proof.
  unfold new_streamming_io_v2_client. intros H Hs Hip. rewrite Hs in H. rewrite aset_Ret in H by lia. cbn [obind] in H. rewrite aset_Ret in H by (rewrite zlen_insert; lia). cbn [obind] in H.
  destruct (cm_cl cm); [|done]. cbn [negb] in H. destruct (open_eth (cm_sudp cm) 0 (cm_os1 cm)) as [su|]; [|done]. destruct (open_eth (cm_rudp cm) 1 (cm_os2 cm)) as [ru|] eqn:Er; [|done].
  destruct (open_eth_Some _ _ _ _ Er) as [E1 E2]. destruct (cm_thr cm); [|done]. cbn [negb] in H. injection H as <- _. cbn. rewrite !zlen_insert. split_and!; try done. eexists. exact E2.
Qed.

Lemma aset_inv {A} (l l' : list A) i x : aset l i x = Ret l' -> 0 <= i < zlen l /\ l' = <[Z.to_nat i := x]> l.
Proof. unfold aset. destruct (Z.leb_spec 0 i), (Z.ltb_spec i (zlen l)); intros [= <-]; split; [lia|done]. Qed.

Definition same_but_params (s s' : server) : Prop :=
  cli s' = cli s /\ udp s' = udp s /\ maxclient s' = maxclient s /\ stop_services s' = stop_services s /\ fopen s' = fopen s /\ m_buf s' = m_buf s.
Lemma set_parameter_inv s ch disk net s1 : stiov2_set_parameter s ch disk net = Ret (1, s1) -> exists fact pmap, params_ok s1 ch disk net fact pmap /\ same_but_params s s1.
Proof.
  unfold stiov2_set_parameter, DEFAULT_DISKIO_BUFFER_FAVIOR, MAX_TRANS_BUFSIZE. destruct (Z.eqb_spec (already_started s) 0); [|done]. cbn [negb]. destruct (Z.ltb_spec ch 0); [done|]. destruct (_ <? ch); [done|]. cbn [orb].
  destruct (Z.ltb_spec disk 4096), (Z.ltb_spec 1048576 disk); try done. cbn [orb]. destruct (Z.ltb_spec net 4096), (Z.ltb_spec 32768 net); try done. cbn [orb]. rewrite !Z.rem_mod_nonneg by lia.
  destruct (Z.eqb_spec (net mod 1024) 0); [|done]. destruct (Z.eqb_spec (disk mod net) 0) as [E2|]; [|done]. cbn [negb].
  destruct (aset (disk_bufsize s) ch _) as [l1| |] eqn:A1; [|done|done]. cbn [obind]. destruct (aset (net_bufsize s) ch _) as [l2| |] eqn:A2; [|done|done]. cbn [obind].
  destruct (aset (disknet_fact s) ch _) as [l3| |] eqn:A3; [|done|done]. cbn [obind]. destruct (aset (packet_map s) ch _) as [l4| |] eqn:A4; [|done|done]. cbn [obind]. intros [= <-].
  apply aset_inv in A1 as [? ->], A2 as [? ->], A3 as [? ->], A4 as [? ->]. apply Z.mod_divide in E2 as [fact ->]; [|lia]. rewrite Z.quot_mul by lia.
  eexists fact, _. split; [|done]. split; [apply aget_insert; lia..|done| |apply ceil_packets; lia]. unfold MAX_TRANS_BUFSIZE, DEFAULT_DISKIO_BUFFER_FAVIOR. nia.
Qed.

(** What [new_streamming_io_v2_server] makes for one client. *)
Lemma new_server_inv sm em port s0 e0 : new_streamming_io_v2_server sm 1 port = Ret (Some s0) -> sm_entries sm = [em] -> new_client_entry em = Some e0 ->
  cli s0 = [Some e0] /\ UDP.listcnt (udp s0) = 1 /\ UDP.addrlist (udp s0) = [UDP.mk_peer false (UDP.mk_sockaddr 0 0)] /\ maxclient s0 = 1 /\ stop_services s0 = 0 /\ fopen s0 = None /\ m_buf s0 = sm_buf sm.
Proof.
  unfold new_streamming_io_v2_server. intros H Hem He. rewrite Hem in H. destruct (sm_self sm), (sm_thr sm), (sm_cli sm); try done. cbn [negb] in H. change (take (Z.to_nat 1) [em]) with [em] in H. cbn [new_entries] in H. rewrite He in H.
  destruct (sm_udp sm) as [u0|]; [|done]. unfold UDP.udplib_open in H. repeat case_match; by simplify_eq/=.
Qed.

(** The client's entry on a server that has just been made. *)
Lemma new_entry_inv em e0 : new_client_entry em = Some e0 -> e_sl e0 = replicate 4 new_local.
Proof. unfold new_client_entry. intros H. by repeat case_match; simplify_eq/=. Qed.

Section start.
Context (sm : server_mem) (em : entry_mem) (cm : client_mem) (sport cport ch disk net : Z) (s0 sv : server) (e0 : entry) (cl : client) (pdu ip : list Z) (k : kernel) (name F : list Z) (cs : UDP.sockaddr).
Context (Hs0 : new_streamming_io_v2_server sm 1 sport = Ret (Some s0)) (Hem : sm_entries sm = [em]) (He0 : new_client_entry em = Some e0) (Hfree : inuse e0 = 0).
Context (Hset : stiov2_set_parameter s0 ch disk net = Ret (1, sv)) (Hb1 : zlen (sm_buf sm) = 2000) (Hb2 : zlen (e_buf e0) = 2000).
Context (Hcl : new_streamming_io_v2_client cm None cport = Ret (Some (cl, pdu))) (Hip : cm_self cm = Some ip) (Hipz : zlen ip = 16) (Hrx : zlen (cm_rx cm) = 2000) (Hch : 0 <= ch < 4).
Context (Hfs : k_fs k name = Some (F, true)).

Lemma start_main fact pmap : params_ok sv ch disk net fact pmap -> main_inv cs ch disk net fact pmap (snd (stiov2_start 0 sv)) /\ cli (snd (stiov2_start 0 sv)) = [Some e0].
Proof.
  intros P. destruct (new_server_inv _ _ _ _ _ Hs0 Hem He0) as (C1 & C2 & C3 & C4 & C5 & C6 & C7). destruct (set_parameter_inv _ _ _ _ _ Hset) as (? & ? & _ & E1 & E2 & E3 & E4 & E5 & E6). cbn.
  split; [|congruence]. split; cbn; [|congruence| |congruence|congruence|destruct P; by split].
  - split; cbn; [by rewrite E1, E3, C1, C4|by rewrite E2, E3, C2, C3, C4| |by rewrite E6, C7]. rewrite E1, C1. intros [|i] y Hy; [|done]. injection Hy as <-. exists e0. split; [done|]. by rewrite Hfree.
  - unfold room. rewrite E2, C3. eexists. split; [by left|]. by left.
Qed.

Lemma start_chan : get_cl cl ch = Ret (new_clocal ch).
Proof.
  destruct (new_client_inv _ _ _ _ _ Hcl Hip Hipz) as (_ & _ & _ & _ & _ & _ & C & _). unfold get_cl. rewrite C. assert (ch = 0 \/ ch = 1 \/ ch = 2 \/ ch = 3) as [->|[->|[->| ->]]] by lia; done.
Qed.
Lemma start_sizes : sizes (new_clocal ch).
Proof. split; unfold new_clocal; cbn [fopen_pdu fread_pdu c_buffer]; [by rewrite zlen_put8|done|by rewrite zlen_replicate]. Qed.

Lemma start_quiet fact pmap ss : params_ok sv ch disk net fact pmap -> quiet cs ss ch disk net fact pmap (cm_time cm) name F cl (started sv k cl) e0 (new_clocal ch).
Proof.
  intros P. destruct (start_main fact pmap P) as [M C]. destruct (new_client_inv _ _ _ _ _ Hcl Hip Hipz) as (C1 & C2 & C3 & C4 & C5 & C6 & C7 & C8).
  split; [|split; try done; by rewrite C6|apply start_chan|apply start_sizes|done|done|].
  - split; [exact M|exact C| |done|constructor]. split; [done| |done|by rewrite Hfree|by right]. exists new_local. split; [|done]. rewrite (new_entry_inv _ _ He0). assert (ch = 0 \/ ch = 1 \/ ch = 2 \/ ch = 3) as [->|[->|[->| ->]]] by lia; done.
  - split; [cbn; lia|cbn; lia|cbn; by rewrite drop_ge by lia|unfold reqs; cbn; by rewrite drop_ge by lia].
Qed.
Lemma start_asks : asks Opening cl (started sv k cl).
Proof. unfold asks, reqs. cbn. by rewrite drop_ge by lia. Qed.
End start.

(** ** The stream is right *)


(** Blocks of 4096 bytes, a file of three; the search is lost, then repeated; before the block
    arrives the server gets the old request to open once more, and the client the old replies. *)
Definition wit_os : UDP.os_socket := UDP.mk_os 3 true None None 1000 0.
Definition wit_udp : UDP.udplib := UDP.new_udplib (UDP.mk_udp 0 (UDP.mk_sockaddr 0 0) (UDP.mk_sockaddr 0 0) (UDP.mk_sockaddr 0 0) [] 0 0 0 0 0 0 []) 0.
Definition wit_em : entry_mem := mk_emem (Some (mk_entry wit_udp 0 0 0 0 0 0 0 [] [])) true true (Some wit_udp) (replicate 2000 0).
Definition wit_sm : server_mem := mk_smem true true true [wit_em] (Some wit_udp) wit_os (replicate 2000 0).
Definition wit_cm : client_mem := mk_cmem (Some (replicate 16 0)) true true (Some wit_udp) (Some wit_udp) wit_os wit_os 77 (replicate 2000 0).
Definition wit_s0 : server := match new_streamming_io_v2_server wit_sm 1 5000 with Ret (Some s) => s | _ => mk_server [] 0 wit_udp 0 0 0 0 [] [] [] [] None [] end.
Definition wit_sv : server := match stiov2_set_parameter wit_s0 2 4096 4096 with Ret (_, s) => s | _ => wit_s0 end.
Definition wit_e0 : entry := mk_entry wit_udp 0 0 0 0 0 0 0 (replicate 4 new_local) (replicate 2000 0).
Definition wit_cl : client := match new_streamming_io_v2_client wit_cm None 5000 with Ret (Some (c, _)) => c | _ => mk_client wit_udp wit_udp 0 0 0 0 [] 0 [] 0 0 [] [] end.
Definition wit_k : kernel := mk_kernel (fun p => if decide (p = [97]) then Some ([1; 2; 3], true) else None) [] 0.
Definition wit_ntoa (a : Z) : list Z := [49].
Definition wit_resolve (p : path) : option Z := Some 16.
Definition wit_malloc (n : Z) : option (list Z) := Some (replicate (Z.to_nat n) 0).
Definition whole : turn := mk_turn All All All true.
Definition wit_el : list turn :=
  [mk_turn (Only []) All All true; mk_turn (Only [0; 0]%nat) All (Only [1]%nat) true; whole; whole; whole; mk_turn All (Only [0]%nat) (Only [3; 0; 1]%nat) true; whole; whole; whole].

Lemma wit_s0_eq : new_streamming_io_v2_server wit_sm 1 5000 = Ret (Some wit_s0).
Proof. reflexivity. Qed.
Lemma wit_sv_eq : stiov2_set_parameter wit_s0 2 4096 4096 = Ret (1, wit_sv).
Proof. reflexivity. Qed.
Lemma wit_cl_eq : new_streamming_io_v2_client wit_cm None 5000 = Ret (Some (wit_cl, make_find_pdu 77)).
Proof. reflexivity. Qed.
Lemma wit_os_good : os_good wit_os.
Proof. by split. Qed.
Lemma wit_ip_len : 0 < zlen (wit_ntoa 16) <= 15.
Proof. by vm_compute. Qed.
Lemma wit_ip_text : Forall (fun c => c <> 0) (wit_ntoa 16).
Proof. by repeat constructor. Qed.
Lemma wit_time : int_ok 77.
Proof. by vm_compute. Qed.
Lemma wit_ch : 0 <= 2 < 4.
Proof. lia. Qed.
Lemma wit_size : 0 < zlen [1; 2; 3] <= INT_MAX.
Proof. by vm_compute. Qed.
Lemma wit_name : zlen [97] <= 63.
Proof. by vm_compute. Qed.
Lemma wit_name_text : Forall (fun c => c <> 0) [97].
Proof. by repeat constructor. Qed.
Lemma wit_lens : Forall int_ok [2; 5; 4].
Proof. by repeat constructor. Qed.
Lemma wit_fair : patient wit_el /\ fair 2 wit_el.
Proof.
  assert (lossless whole) as Hw by done. split; [by repeat constructor|]. exists (drop 5 wit_el). split; [do 2 apply live_skip|exists []; split; [apply live_skip|done]]; repeat (apply live_all; [done|]); [apply (live_0 _ [])|apply (live_0 [] [])].
Qed.


(** What is kept out, and why: in the wait for the second of two blocks a packet of the first
    arrives again, and the client puts it into the block it is reading.  Without it the same
    schedule delivers the file. *)
Definition two_blocks : list Z := replicate 4096 1 ++ replicate 4096 2.
Definition two_k : kernel := mk_kernel (fun p => if decide (p = [97]) then Some (two_blocks, true) else None) [] 0.
Definition late_el : list turn := [whole; whole; whole; whole; mk_turn All All (Only [4]%nat) true; whole].
Definition two_read (late : bool) : option (list (list Z)) :=
  match session wit_ntoa wit_resolve (fun _ n => n) wit_malloc 0 wit_os (UDP.mk_sockaddr 8 1) (UDP.mk_sockaddr 8 2) (UDP.mk_sockaddr 16 3) 2 [97] late wit_cl (started wit_sv two_k wit_cl) late_el [8192] with
  | Ret (_, out, _, _, _) => Some out
  | _ => None
  end.
Example late_corrupts : two_read false = Some [two_blocks] /\ two_read true = Some [replicate (4096 + Z.to_nat CARRY) 1 ++ replicate (4096 - Z.to_nat CARRY) 2].
Proof. split; vm_compute; reflexivity. Qed.

End E2.
