(* ===== verification/SysConf.v ===== *)
(** * SysConf.v: system settings, sys_conf/sys_conf.c

    The settings that a configuration file makes: a linked list of entries with a key and
    one of four kinds of values, newest first, searched without regard to case.  The file
    itself is read by the parser of [SysLang.v], which calls the functions here.

    [mem] tells for which keys [malloc] gives an entry; [strdup] is taken to succeed.  An
    array of numbers is its contents; the strings of a list of strings are pointers into
    the heap of the parser. *)

From stdpp Require Import gmap.
From S2P Require Import Prelude Posix Cstr Simconf.

Module SY.
Import SC.

(** [struct sysconf_entry_t]; [next] is the rest of the list. *)
Record entry := mk_entry { key : list Z; ivalue : Z; value : option (list Z); ilist : option (list Z); slist : option (list (option nat)) }.
Definition set_ivalue (n : Z) (e : entry) : entry := mk_entry (key e) n (value e) (ilist e) (slist e).
Definition set_ilist (l : option (list Z)) (e : entry) : entry := mk_entry (key e) (ivalue e) (value e) l (slist e).
Definition set_slist (l : option (list (option nat))) (e : entry) : entry := mk_entry (key e) (ivalue e) (value e) (ilist e) l.

(** The static variables.  A pointer to an entry is the length of the list that starts with
    it, so that it stays the same when entries are put in front. *)
Record sysconf := mk_sysconf { ents : list entry; key_pointer : option nat; sstru : list (Z * Z); initialized : bool }.
Definition MAX_SPECIAL_STUDENT_RULES_ENTRY : nat := 127.
Definition sysconf0 : sysconf := mk_sysconf [] None (replicate MAX_SPECIAL_STUDENT_RULES_ENTRY (0, 0)) false.
Definition set_ents (l : list entry) (s : sysconf) : sysconf := mk_sysconf l (key_pointer s) (sstru s) (initialized s).
Definition set_keyp (p : option nat) (s : sysconf) : sysconf := mk_sysconf (ents s) p (sstru s) (initialized s).
Definition set_sstru (l : list (Z * Z)) (s : sysconf) : sysconf := mk_sysconf (ents s) (key_pointer s) l (initialized s).

Definition deref (s : sysconf) (p : nat) : option entry := ents s !! (length (ents s) - p)%nat.
Definition update (s : sysconf) (p : nat) (f : entry -> entry) : sysconf := set_ents (alter f (length (ents s) - p)%nat (ents s)) s.

(** ** Looking up *)
Fixpoint find_key (k : list Z) (l : list entry) : option nat :=
  match l with [] => None | e :: l' => if same_name k (key e) then Some (length l) else find_key k l' end.
Definition sysconf_ptr (s : sysconf) (k : list Z) : option nat := find_key k (ents s).
Definition get_entry (s : sysconf) (k : list Z) : option entry := p ← sysconf_ptr s k; deref s p.

Definition sysconf_str (s : sysconf) (k : list Z) : option (list Z) := e ← get_entry s k; value e.
Definition sysconf_int (s : sysconf) (k : list Z) : Z := match get_entry s k with Some e => ivalue e | None => -1 end.
Definition sysconf_get_int_list (s : sysconf) (k : list Z) : option (list Z) * Z :=
  match get_entry s k with Some e => (ilist e, ivalue e) | None => (None, 0) end.
Definition sysconf_get_str_list (s : sysconf) (k : list Z) : option (list (option nat)) * Z :=
  match get_entry s k with Some e => (slist e, ivalue e) | None => (None, 0) end.

Definition sysconf_get_first_key (s : sysconf) : option (list Z) * sysconf :=
  match ents s with
  | [] => (None, set_keyp None s)
  | e :: _ => (Some (key e), set_keyp (Some (length (ents s))) s)
  end.
Definition sysconf_get_next_key (s : sysconf) : option (list Z) * sysconf :=
  match key_pointer s with
  | None => (None, s)
  | Some p =>
      match drop (length (ents s) - (p - 1)) (ents s) with
      | [] => (None, set_keyp None s)
      | e :: _ => (Some (key e), set_keyp (Some (p - 1)%nat) s)
      end
  end.

(** ** Adding *)

(** [strncpy (buffer, &qst[1], 4095)], and the last character goes. *)
Definition strip_qstring (qst : list Z) : list Z := let b := take 4095 (drop 1 qst) in take (length b - 1) b.

Definition new_value (v : option (list Z)) : option (list Z) :=
  match v with
  | None => None
  | Some (34 :: _ as v) => match strip_qstring v with [] => None | b => Some b end
  | Some v => Some v
  end.

Section adding.
Context (mem : list Z -> bool).

Definition addentry_string (s : sysconf) (k : list Z) (v : option (list Z)) : option nat * sysconf :=
  let '(p, s) :=
    match sysconf_ptr s k with
    | None => if mem k then (Some (S (length (ents s))), set_ents (mk_entry k 0 None None None :: ents s) s) else (None, s)
    | Some p => (Some p, s)
    end in
  match p with
  | None => (None, s)
  | Some p => (Some p, update s p (fun e => mk_entry (key e) (-1) (new_value v) None None))
  end.

(** What the functions do with the entry they get. *)
Definition with_entry (r : option nat * sysconf) (f : entry -> entry) : option nat * sysconf :=
  match r with (Some p, s) => (Some p, update s p f) | _ => r end.

Definition addentry_int (s : sysconf) (k : list Z) (n : Z) := with_entry (addentry_string s k None) (set_ivalue n).
Definition addentry_integer (s : sysconf) (k v : list Z) : outcome (option nat * sysconf) := let* n := atoi v in Ret (addentry_int s k n).
Definition addentry_flag_on (s : sysconf) (k : list Z) := with_entry (addentry_string s k None) (set_ivalue 1).
Definition addentry_flag_off (s : sysconf) (k : list Z) := with_entry (addentry_string s k None) (set_ivalue 0).
Definition addentry_intlist (s : sysconf) (k : list Z) (l : option (list Z)) (len : Z) :=
  with_entry (addentry_string s k None) (fun e => set_ilist l (set_ivalue len e)).
Definition addentry_strlist (s : sysconf) (k : list Z) (l : option (list (option nat))) (len : Z) :=
  with_entry (addentry_string s k None) (fun e => set_slist l (set_ivalue len e)).

(** The rules; a [char] is signed, and the case is not ignored. *)
Definition sysconf_add_special (s : sysconf) (k flag pc : Z) : Z * sysconf :=
  (0, if (0 <=? k) && (k <? Z.of_nat MAX_SPECIAL_STUDENT_RULES_ENTRY) then set_sstru (<[Z.to_nat k := (flag, pc)]> (sstru s)) s else s).
(** The flag, and the percentage when it is stored. *)
Definition sysconf_get_special (s : sysconf) (k : Z) : Z * option Z :=
  if (0 <=? k) && (k <? Z.of_nat MAX_SPECIAL_STUDENT_RULES_ENTRY) then
    match sstru s !! Z.to_nat k with Some (flag, pc) => (flag, Some pc) | None => (0, None) end
  else (0, None).

(** ** Reading a file *)
Definition default_cfg_dir : list Z := [47; 117; 115; 114; 47; 108; 111; 99; 97; 108; 47; 101; 116; 99].

(** The name under which the file is looked for. *)
Definition config_name (k : kernel) (file : list Z) : list Z :=
  match k_fs k file with
  | Some (_, true) => file
  | _ => if bool_decide (47 ∈ file) then file else default_cfg_dir ++ 47 :: file
  end.

Definition init_module (s : sysconf) : sysconf :=
  if initialized s then s else mk_sysconf (ents s) (key_pointer s) ((fun r => (0, snd r)) <$> sstru s) true.

(** [yyparse] is given with the contents of the file: its value, or [None] when the file
    calls [exit], and what else it leaves.  [true] is the module, [false] NULL. *)
Definition initial_sysconf_module {X} (yyparse : sysconf -> list Z -> outcome (option Z * sysconf * X)) (k : kernel) (s : sysconf)
    (file : option (list Z)) (variable : list Z) (n : Z) : outcome (option bool * sysconf * option X) :=
  let s := init_module s in
  match file with
  | None => Ret (Some true, s, None)
  | Some file =>
      let name := config_name k file in
      let s := snd (addentry_int s variable n) in
      match k_fs k name with
      | Some (text, true) => let* r := yyparse s text in let '(rc, s, x) := r in Ret ((fun rc => rc =? 0) <$> rc, s, Some x)
      | _ => Ret (Some false, s, None)
      end
  end.
End adding.

(** ** The settings are a map from keys without case *)
Definition lower (k : list Z) : list Z := tolower <$> k.
Abbreviation cell := (Z * option (list Z) * option (list Z) * option (list (option nat)))%type.
Definition cell_of (e : entry) : cell := (ivalue e, value e, ilist e, slist e).
Definition keys (s : sysconf) : list (list Z) := key <$> ents s.
Definition abs (s : sysconf) : gmap (list Z) cell := list_to_map ((fun e => (lower (key e), cell_of e)) <$> ents s).
Definition wf (s : sysconf) : Prop := NoDup (lower <$> keys s).

Lemma same_name_true a b : same_name a b = true <-> lower a = lower b.
Proof. unfold same_name. rewrite bool_decide_eq_true. done. Qed.

(** The first entry with the key, with its position. *)
Lemma find_key_spec k l : match find_key k l with
  | Some p => exists i e, l !! i = Some e /\ lower (key e) = lower k /\ p = (length l - i)%nat /\ forall j e', (j < i)%nat -> l !! j = Some e' -> lower (key e') <> lower k
  | None => forall e, e ∈ l -> lower (key e) <> lower k end.
Proof.
  induction l as [|e l IH]; cbn [find_key]; [by intros e ?%elem_of_nil|]. destruct (same_name k (key e)) eqn:E.
  - apply same_name_true in E. exists 0%nat, e. cbn. split_and!; try done; lia.
  - assert (lower (key e) <> lower k) as Hne by (intros H; assert (same_name k (key e) = true) by (by apply same_name_true); congruence). destruct (find_key k l) as [p|].
    + destruct IH as (i & e0 & H1 & H2 & -> & H3). exists (S i), e0. cbn. split_and!; try done. intros [|j] e' Hj He'; cbn in He'; [by injection He' as <-|]. apply (H3 j); [lia|done].
    + intros e' [->|H]%elem_of_cons; [done|by apply IH].
Qed.

Definition row (e : entry) : list Z * cell := (lower (key e), cell_of e).
Lemma abs_rows s : wf s -> NoDup ((row <$> ents s).*1).
Proof. unfold wf, keys. rewrite <- !list_fmap_compose. done. Qed.

Lemma get_entry_abs s k : wf s -> abs s !! lower k = cell_of <$> get_entry s k.
Proof.
  intros W. unfold get_entry, sysconf_ptr. pose proof (find_key_spec k (ents s)) as H. destruct (find_key k (ents s)) as [p|]; cbn.
  - destruct H as (i & e & Hi & He & -> & _). unfold deref. pose proof (lookup_lt_Some _ _ _ Hi). replace (_ - _)%nat with i by lia. rewrite Hi. cbn. apply elem_of_list_to_map_1; [by apply abs_rows|].
    rewrite <- He. change (lower (key e), cell_of e) with (row e). apply list_elem_of_fmap_2. by eapply list_elem_of_lookup_2.
  - apply not_elem_of_list_to_map_1. intros (x & Hx & (e & -> & He)%list_elem_of_fmap)%list_elem_of_fmap. apply (H e He). done.
Qed.

Lemma elem_split_at {A} (l : list A) i x : l !! i = Some x -> exists l1 l2, l = l1 ++ x :: l2 /\ length l1 = i.
Proof. intros H. exists (take i l), (drop (S i) l). split; [by rewrite take_drop_middle|]. pose proof (lookup_lt_Some _ _ _ H). rewrite length_take. lia. Qed.

(** Storing the values of a cell under a key. *)
Definition store (mem : list Z -> bool) (c : cell) (k : list Z) (s : sysconf) : sysconf :=
  let '(n, v, l, sl) := c in
  snd (with_entry (addentry_string mem s k None) (fun e => mk_entry (key e) n v l sl)).

Lemma replace_row (l1 l2 : list (list Z * cell)) k (c c0 : cell) : NoDup ((l1 ++ (k, c0) :: l2).*1) ->
  list_to_map (M := gmap (list Z) cell) (l1 ++ (k, c) :: l2) = <[k := c]> (list_to_map (l1 ++ (k, c0) :: l2)).
Proof.
  intros HN. assert (forall c', NoDup ((l1 ++ (k, c') :: l2).*1)) as HN' by (intros c'; rewrite fmap_app in *; exact HN).
  rewrite (list_to_map_proper _ ((k, c) :: l1 ++ l2)); [|by apply HN'|by rewrite <- Permutation_middle]. rewrite (list_to_map_proper (l1 ++ (k, c0) :: l2) ((k, c0) :: l1 ++ l2)); [|by apply HN'|by rewrite <- Permutation_middle].
  cbn. by rewrite insert_insert_eq.
Qed.

Lemma update_update s p f g : update (update s p f) p g = update s p (g ∘ f).
Proof. unfold update. cbn. rewrite length_alter. by rewrite list_alter_alter_eq. Qed.

Section stores.
Context (mem : list Z -> bool).
Implicit Types (s : sysconf) (k : list Z).

(** Every function that adds is such a store. *)
Lemma string_store s k v : snd (addentry_string mem s k v) = store mem (-1, new_value v, None, None) k s.
Proof.
  unfold store, addentry_string. destruct (sysconf_ptr s k) as [p|]; [|destruct (mem k); [|done]]; cbn [with_entry snd]; by rewrite update_update.
Qed.
Lemma with_store s k f n v l sl : (forall e, f (mk_entry (key e) (-1) None None None) = mk_entry (key e) n v l sl) -> snd (with_entry (addentry_string mem s k None) f) = store mem (n, v, l, sl) k s.
Proof.
  intros Hf. unfold store, addentry_string. destruct (sysconf_ptr s k) as [p|]; [|destruct (mem k); [|done]]; cbn [with_entry snd]; rewrite !update_update; unfold update; f_equal; apply list_alter_ext; try done; intros e _; apply Hf.
Qed.

(** What a store does: an entry with the key gets the cell, and a new key comes in front. *)
Lemma store_spec s k c : wf s -> wf (store mem c k s) /\ sstru (store mem c k s) = sstru s /\ initialized (store mem c k s) = initialized s /\ key_pointer (store mem c k s) = key_pointer s /\
  (if decide (is_Some (abs s !! lower k)) then abs (store mem c k s) = <[lower k := c]> (abs s) /\ keys (store mem c k s) = keys s
   else if mem k then abs (store mem c k s) = <[lower k := c]> (abs s) /\ keys (store mem c k s) = k :: keys s
   else store mem c k s = s).
Proof.
  intros W. pose proof (get_entry_abs s k W) as HG. pose proof (find_key_spec k (ents s)) as HF. unfold get_entry, sysconf_ptr in HG. destruct c as [[[n v] l] sl]. unfold store, addentry_string, sysconf_ptr. destruct (find_key k (ents s)) as [p|] eqn:Ep.
  - destruct HF as (i & e & Hi & He & -> & _). pose proof (lookup_lt_Some _ _ _ Hi) as Hlt. cbn [with_entry snd]. rewrite update_update. unfold deref in HG. cbn in HG. replace (length (ents s) - (length (ents s) - i))%nat with i in HG by lia. rewrite Hi in HG.
    rewrite decide_True by (rewrite HG; by eexists). set (f := _ ∘ _). destruct (elem_split_at _ _ _ Hi) as (l1 & l2 & El & Hl1).
    assert (ents (update s (length (ents s) - i) f) = l1 ++ f e :: l2) as Eu by (unfold update; cbn; replace (_ - _)%nat with i by lia; rewrite El, <- Hl1, <- (Nat.add_0_r (length l1)), alter_app_r; done).
    assert (keys (update s (length (ents s) - i) f) = keys s) as Hk by (unfold keys; rewrite Eu, El, !fmap_app; done).
    split; [unfold wf; by rewrite Hk|]. split; [done|]. split; [done|]. split; [done|]. split; [|done]. pose proof (abs_rows s W) as HN. unfold abs. fold row. rewrite Eu. rewrite El in HN |- *. rewrite fmap_app in HN. rewrite !fmap_app, !fmap_cons. rewrite <- He. exact (replace_row (row <$> l1) (row <$> l2) (lower (key e)) (n, v, l, sl) (cell_of e) HN).
  - cbn in HG. rewrite decide_False by (rewrite HG; by intros [? ?]). destruct (mem k) eqn:Em; [|done]. cbn [with_entry snd]. rewrite update_update. unfold update. cbn [set_ents ents]. replace (length (_ :: ents s) - S (length (ents s)))%nat with 0%nat by (cbn; lia). cbn.
    split; [|done]. unfold wf, keys. cbn. apply NoDup_cons. split; [|done]. intros (x & Hx & (e & -> & He)%list_elem_of_fmap)%list_elem_of_fmap. by apply (HF e He).
Qed.
End stores.

(** ** Any sequence of additions *)

(** The calls of the module that add, with the key. *)
Inductive addition := Addint (v : list Z) | Addint_x (n : Z) | Addstr (v : option (list Z)) | Addflag_on | Addflag_off
  | Add_int_list (l : option (list Z)) (len : Z) | Add_str_list (l : option (list (option nat))) (len : Z).

(** What is then stored under the key; the text of a number may be out of range. *)
Definition cell_for (a : addition) : outcome cell :=
  match a with
  | Addint v => let* n := atoi v in Ret (n, None, None, None)
  | Addint_x n => Ret (n, None, None, None)
  | Addstr v => Ret (-1, new_value v, None, None)
  | Addflag_on => Ret (1, None, None, None)
  | Addflag_off => Ret (0, None, None, None)
  | Add_int_list l len => Ret (len, None, l, None)
  | Add_str_list l len => Ret (len, None, None, l)
  end.

Lemma atoi_digits_returns sg v : forall acc, atoi_digits sg acc v <> Block.
Proof. induction v as [|c v IH]; intros acc; cbn; [done|]. destruct (is_digit c); [|done]. unfold ck. destruct (int_okb _); [apply IH|done]. Qed.
Lemma atoi_returns v : atoi v <> Block.
Proof. unfold atoi. repeat case_match; apply atoi_digits_returns. Qed.
Lemma cell_for_returns a : cell_for a <> Block.
Proof. destruct a; cbn; try done. pose proof (atoi_returns v). by destruct (atoi v). Qed.

Section additions.
Context (mem : list Z -> bool).

Definition add1 (s : sysconf) (k : list Z) (a : addition) : outcome sysconf :=
  match a with
  | Addint v => let* r := addentry_integer mem s k v in Ret (snd r)
  | Addint_x n => Ret (snd (addentry_int mem s k n))
  | Addstr v => Ret (snd (addentry_string mem s k v))
  | Addflag_on => Ret (snd (addentry_flag_on mem s k))
  | Addflag_off => Ret (snd (addentry_flag_off mem s k))
  | Add_int_list l len => Ret (snd (addentry_intlist mem s k l len))
  | Add_str_list l len => Ret (snd (addentry_strlist mem s k l len))
  end.
Fixpoint adds (s : sysconf) (l : list (list Z * addition)) : outcome sysconf :=
  match l with [] => Ret s | (k, a) :: l => let* s := add1 s k a in adds s l end.

(** The same on the map: a key that is new needs memory. *)
Definition put (m : gmap (list Z) cell) (k : list Z) (c : cell) : gmap (list Z) cell :=
  if decide (is_Some (m !! lower k) \/ mem k = true) then <[lower k := c]> m else m.
Fixpoint puts (m : gmap (list Z) cell) (l : list (list Z * addition)) : outcome (gmap (list Z) cell) :=
  match l with [] => Ret m | (k, a) :: l => let* c := cell_for a in puts (put m k c) l end.

Lemma add1_store s k a : add1 s k a = (let* c := cell_for a in Ret (store mem c k s)).
Proof.
  destruct a as [v|n|v| | |l len|l len]; cbn [add1 cell_for obind].
  - unfold addentry_integer. destruct (atoi v) as [n| |]; [|done|done]. cbn [obind snd]. f_equal. by apply with_store.
  - f_equal. by apply with_store.
  - f_equal. apply string_store.
  - f_equal. by apply with_store.
  - f_equal. by apply with_store.
  - f_equal. by apply with_store.
  - f_equal. by apply with_store.
Qed.
Lemma store_abs s k c : wf s -> wf (store mem c k s) /\ abs (store mem c k s) = put (abs s) k c.
Proof.
  intros W. destruct (store_spec mem s k c W) as (H1 & _ & _ & _ & H). split; [done|]. unfold put. destruct (decide (is_Some (abs s !! lower k))) as [Hs|Hs]; [rewrite decide_True by (by left); apply H|].
  destruct (mem k) eqn:Em; [rewrite decide_True by (by right); apply H|]. rewrite decide_False by (intros [?|?]; done). by rewrite H.
Qed.

Lemma adds_refine l : forall s, wf s -> match adds s l, puts (abs s) l with Ret s', Ret m => wf s' /\ abs s' = m | Fault f, Fault g => f = g | _, _ => False end.
Proof.
  induction l as [|[k a] l IH]; intros s W; cbn [adds puts]; [done|]. rewrite add1_store. pose proof (cell_for_returns a).
  destruct (cell_for a) as [c| |]; [|done|done]. cbn [obind]. destruct (store_abs s k c W) as [W' <-]. by apply IH.
Qed.
End additions.

(** ** Observing *)
Definition o_str (m : gmap (list Z) cell) (k : list Z) : option (list Z) := '(_, v, _, _) ← m !! lower k; v.
Definition o_int (m : gmap (list Z) cell) (k : list Z) : Z := match m !! lower k with Some (n, _, _, _) => n | None => -1 end.
Definition o_ints (m : gmap (list Z) cell) (k : list Z) : option (list Z) * Z := match m !! lower k with Some (n, _, l, _) => (l, n) | None => (None, 0) end.
Definition o_strs (m : gmap (list Z) cell) (k : list Z) : option (list (option nat)) * Z := match m !! lower k with Some (n, _, _, l) => (l, n) | None => (None, 0) end.

Lemma gets s k : wf s -> sysconf_str s k = o_str (abs s) k /\ sysconf_int s k = o_int (abs s) k /\ sysconf_get_int_list s k = o_ints (abs s) k /\ sysconf_get_str_list s k = o_strs (abs s) k.
Proof.
  intros W. unfold sysconf_str, sysconf_int, sysconf_get_int_list, sysconf_get_str_list, o_str, o_int, o_ints, o_strs. pose proof (get_entry_abs s k W) as HG. destruct (get_entry s k) as [e|]; cbn in HG |- *; rewrite HG; done.
Qed.

(** The keys that [next_key] still gives; [fuel] calls of it. *)
Fixpoint next_keys (fuel : nat) (s : sysconf) : list (list Z) :=
  match fuel with
  | O => []
  | S fuel => match sysconf_get_next_key s with (Some k, s) => k :: next_keys fuel s | (None, _) => [] end
  end.
Definition walk (s : sysconf) : list (list Z) :=
  match sysconf_get_first_key s with (Some k, s) => k :: next_keys (length (ents s)) s | (None, _) => [] end.

Lemma next_keys_spec s : forall fuel p, key_pointer s = Some p -> (1 <= p <= length (ents s))%nat -> (p <= fuel)%nat -> next_keys fuel s = drop (length (ents s) - (p - 1)) (keys s).
Proof.
  intros fuel. revert s. induction fuel as [|fuel IH]; intros s p Hp Hr Hf; [lia|]. cbn [next_keys]. unfold sysconf_get_next_key. rewrite Hp. unfold keys. rewrite <- fmap_drop.
  destruct (drop (length (ents s) - (p - 1)) (ents s)) as [|e l] eqn:E; [done|]. cbn. f_equal. assert (length (e :: l) = (p - 1)%nat) as Hl by (rewrite <- E, length_drop; lia). cbn in Hl.
  destruct (decide (p - 1 = 1)%nat) as [E1|E1].
  - destruct l; [|cbn in Hl; lia]. destruct fuel as [|fuel]; [done|]. cbn [next_keys]. unfold sysconf_get_next_key. cbn [key_pointer set_keyp ents]. rewrite E1. rewrite drop_ge by lia. done.
  - rewrite (IH _ (p - 1)%nat); [|done|cbn; lia|lia]. unfold keys. cbn [ents set_keyp]. rewrite <- fmap_drop. f_equal. replace (length (ents s) - (p - 1 - 1))%nat with (length (ents s) - (p - 1) + 1)%nat by lia. rewrite <- drop_drop, E. done.
Qed.
Lemma walk_keys s : walk s = keys s.
Proof.
  unfold walk, sysconf_get_first_key. destruct (ents s) as [|e l] eqn:E; [unfold keys; by rewrite E|]. rewrite (next_keys_spec _ _ (length (ents s))); cbn [key_pointer set_keyp ents]; [|by rewrite E|rewrite E; cbn; lia|rewrite E; cbn; lia].
  unfold keys. cbn [ents set_keyp]. rewrite E. replace (_ - _)%nat with 1%nat by (cbn; lia). done.
Qed.

Lemma keys_dom s k : (exists k', k' ∈ keys s /\ lower k' = lower k) <-> is_Some (abs s !! lower k).
Proof.
  unfold abs. split.
  - intros (k' & (e & -> & He)%list_elem_of_fmap & Hl). rewrite <- Hl. destruct (list_to_map (M := gmap (list Z) cell) (row <$> ents s) !! lower (key e)) eqn:E; [by eexists|]. apply not_elem_of_list_to_map_2 in E. exfalso. apply E. rewrite <- list_fmap_compose.
    apply list_elem_of_fmap. by exists e.
  - intros [c Hc]. apply elem_of_list_to_map_2, list_elem_of_fmap in Hc as (e & [= E1 _] & He). exists (key e). split; [apply list_elem_of_fmap; eauto|done].
Qed.

(** C26: whatever is added, in which order and how often, the settings are a map from keys
    without case to the value added last: the four ways of reading give what that map has,
    walking with [first_key] and [next_key] meets every key of the map once, and a number
    out of range is the only fault.  A key for which there is no memory is left out. *)
Theorem settings_refine mem (s : sysconf) (l : list (list Z * addition)) : wf s ->
  match adds mem s l, puts mem (abs s) l with
  | Ret s', Ret m =>
      wf s' /\ (forall k, sysconf_str s' k = o_str m k /\ sysconf_int s' k = o_int m k /\ sysconf_get_int_list s' k = o_ints m k /\ sysconf_get_str_list s' k = o_strs m k) /\
      NoDup (lower <$> walk s') /\ (forall k, (exists k', k' ∈ walk s' /\ lower k' = lower k) <-> is_Some (m !! lower k))
  | Fault f, Fault g => f = g
  | _, _ => False
  end.
Proof.
  intros W. pose proof (adds_refine mem l s W) as H. destruct (adds mem s l) as [s'| |], (puts mem (abs s) l) as [m| |]; try done. destruct H as [W' <-]. rewrite walk_keys. split; [done|]. split; [intros k; by apply gets|]. split; [done|apply keys_dom].
Qed.
Lemma settings_refine_witness : match adds (fun _ => true) sysconf0 [([65], Addint [52; 50]); ([98], Addstr (Some [120])); ([97], Addflag_on)] with
  | Ret s => sysconf_int s [97] = 1 /\ sysconf_str s [66] = Some [120] /\ NoDup (lower <$> walk s) | _ => False end.
Proof.
  pose proof (settings_refine (fun _ => true) sysconf0 [([65], Addint [52; 50]); ([98], Addstr (Some [120])); ([97], Addflag_on)] ltac:(by apply NoDup_nil)) as H.
  destruct (adds _ _ _) as [s| |] eqn:E; [|done|done]. destruct (puts _ _ _) as [m| |] eqn:Em; [|done|done]. destruct H as (_ & H2 & H3 & _). vm_compute in Em. injection Em as <-.
  destruct (H2 [97]) as (_ & -> & _), (H2 [66]) as (-> & _). split; [reflexivity|]. split; [reflexivity|exact H3].
Defined.

(** An entry keeps its place in the walk while others are added. *)
Lemma next_key_stable mem s k c p : wf s -> key_pointer s = Some p -> (p <= length (ents s))%nat -> fst (sysconf_get_next_key (store mem c k s)) = fst (sysconf_get_next_key s).
Proof.
  intros W Hp Hle. destruct (store_spec mem s k c W) as (_ & _ & _ & Hk & H). unfold sysconf_get_next_key. rewrite Hk, Hp.
  assert (forall s', fst match drop (length (ents s') - (p - 1)) (ents s') with [] => (None, set_keyp None s') | e :: _ => (Some (key e), set_keyp (Some (p - 1)%nat) s') end = head (drop (length (keys s') - (p - 1)) (keys s'))) as Hh.
  { intros s'. unfold keys. rewrite length_fmap, <- fmap_drop. by destruct (drop _ (ents s')). }
  rewrite !Hh. destruct (decide (is_Some _)); [by destruct H as [_ ->]|]. destruct (mem k); [|by rewrite H]. destruct H as [_ ->]. cbn [length]. assert (length (keys s) = length (ents s)) as Hl by (unfold keys; by rewrite length_fmap).
  destruct p as [|p]; [rewrite !drop_ge by (cbn; lia); done|]. replace (S (length (keys s)) - (S p - 1))%nat with (S (length (keys s) - (S p - 1))) by lia. done.
Qed.
End SY.
