(* ===== verification/SysLang.v ===== *)
(** * SysLang.v: the language of configuration files, sys_conf/lexer.l and parser.y

    A configuration file is a program: assignments of numbers, strings, flags and lists,
    [if]/[else-if]/[else] and [switch] on earlier settings, [print], [exit], and a table of
    special rules.  The scanner and the grammar are written here as functions on bytes and
    tokens; the grammar's actions run in the order in which the generated parser
    (y.tab.c) reduces, on its static variables: the conditional statements only set the flags [iftrue],
    [ifevertrue] and [sw_tf], and assignments look at [iftrue].

    The texts of tokens live in a heap, since the actions free them; the value of a token
    that has none is what [yylval] happens to be, as in the generated parser.  Memory for
    tokens is taken to be found; [cmem] tells whether the array of a list is.  A file has no
    NUL bytes.  After a syntax error the parser's own variables are not followed further. *)

From stdpp Require Import gmap.
From S2P Require Import Prelude Posix Cstr Simconf SysConf.

Module SL.
Import CS SC SY.

(** ** lexer.l *)
Inductive token :=
  | RW_FLAG_ON | RW_FLAG_OFF | RW_IF | RW_ELSE | RW_ELSE_IF | IDENTIFIER (t : list Z) | DIGIT (t : list Z) | QSTRING (t : list Z)
  | RW_INCREASE | RW_LOWER | RW_NORMAL | SQ_CHARACTER (c : Z) | PERCENT (t : list Z) | RW_SPEICAL_STDRULE
  | RW_SWITCH | RW_CASE | RW_BREAK | RW_DEFAULT | RW_PRINT | RW_EXIT | CH (c : Z).
#[global] Instance token_eq_dec : EqDecision token.
Proof. solve_decision. Defined.

Definition is_ws (c : Z) : bool := (c =? 32) || (c =? 9).
Definition id_start (c : Z) : bool := (c =? 95) || ((97 <=? c) && (c <=? 122)) || ((65 <=? c) && (c <=? 90)).
Definition id_char (c : Z) : bool := id_start c || is_digit c || (c =? 45).
Definition in_string (c : Z) : bool := negb (c =? 34) && negb (c =? LF).
Definition not_eol (c : Z) : bool := negb (c =? LF).

(** The longest run of characters of a class, and what follows. *)
Fixpoint span (p : Z -> bool) (l : list Z) : list Z * list Z :=
  match l with
  | [] => ([], [])
  | c :: l' => if p c then let '(a, b) := span p l' in (c :: a, b) else ([], l)
  end.

(** The reserved words, which come before {id} in the file. *)
Definition keywords : list (list Z * token) :=
  [([105; 102], RW_IF); ([101; 108; 115; 101], RW_ELSE); ([101; 108; 115; 101; 45; 105; 102], RW_ELSE_IF); ([111; 110], RW_FLAG_ON); ([111; 102; 102], RW_FLAG_OFF);
   ([115; 112; 101; 99; 105; 97; 108; 45; 115; 116; 117; 100; 101; 110; 116; 45; 114; 117; 108; 101; 115], RW_SPEICAL_STDRULE);
   ([105; 110; 99; 114; 101; 97; 115; 101], RW_INCREASE); ([108; 111; 119; 101; 114], RW_LOWER); ([110; 111; 114; 109; 97; 108], RW_NORMAL);
   ([115; 119; 105; 116; 99; 104], RW_SWITCH); ([99; 97; 115; 101], RW_CASE); ([98; 114; 101; 97; 107], RW_BREAK); ([100; 101; 102; 97; 117; 108; 116], RW_DEFAULT);
   ([112; 114; 105; 110; 116], RW_PRINT); ([101; 120; 105; 116], RW_EXIT)].
Fixpoint assoc (w : list Z) (l : list (list Z * token)) : option token :=
  match l with [] => None | (k, t) :: l => if decide (k = w) then Some t else assoc w l end.
Definition word (w : list Z) : token := match assoc w keywords with Some t => t | None => IDENTIFIER w end.

(** One match of the scanner: nothing at the end of the input, which is also where a
    character that is not positive as a [char] would be returned as a token. *)
Definition lex1 (l : list Z) : option (option token * list Z) :=
  match l with
  | [] => None
  | c :: r =>
      if is_ws c then Some (None, snd (span is_ws r))
      else if (c =? 35) || (c =? 47) && bool_decide (head r = Some 47) then Some (None, snd (span not_eol r))
      else if (c =? LF) || (c =? 26) || (c =? 13) then Some (None, r)
      else if id_start c then let '(w, r) := span id_char l in Some (Some (word w), r)
      else if is_digit c then
        let '(w, r) := span is_digit l in
        match r with
        | 37 :: r' => if (length w <=? 3)%nat then Some (Some (PERCENT (w ++ [37])), r') else Some (Some (DIGIT w), r)
        | _ => Some (Some (DIGIT w), r)
        end
      else if c =? 39 then
        match r with
        | x :: y :: r' => if (y =? 39) && (7 <=? x) && (x <=? 122) then Some (Some (SQ_CHARACTER x), r') else Some (Some (CH c), r)
        | _ => Some (Some (CH c), r)
        end
      else if c =? 34 then match span in_string r with (w, 34 :: r') => Some (Some (QSTRING w), r') | _ => Some (Some (CH c), r) end
      else if (0 <? c) && (c <? 128) then Some (Some (CH c), r) else None
  end.
Fixpoint lex_loop (fuel : nat) (l : list Z) : list token :=
  match fuel with
  | O => []
  | S fuel => match lex1 l with None => [] | Some (Some t, r) => t :: lex_loop fuel r | Some (None, r) => lex_loop fuel r end
  end.
(** Every match takes at least one character. *)
Definition yylex (l : list Z) : list token := lex_loop (length l) l.

(** ** The variables of the parser *)
Inductive stk := SInt (n : Z) | SStr (p : option nat).
Record pst := mk_pst { conf : sysconf; heap : list (option (list Z)); yylval : option nat; iftrue : Z; ifevertrue : Z; intstk : Z; sw_value : Z; sw_tf : Z; gstk : list stk; out : list Z }.
Definition set_conf (v : sysconf) (s : pst) := mk_pst v (heap s) (yylval s) (iftrue s) (ifevertrue s) (intstk s) (sw_value s) (sw_tf s) (gstk s) (out s).
Definition set_heap (v : list (option (list Z))) (s : pst) := mk_pst (conf s) v (yylval s) (iftrue s) (ifevertrue s) (intstk s) (sw_value s) (sw_tf s) (gstk s) (out s).
Definition set_yylval (v : option nat) (s : pst) := mk_pst (conf s) (heap s) v (iftrue s) (ifevertrue s) (intstk s) (sw_value s) (sw_tf s) (gstk s) (out s).
Definition set_iftrue (v : Z) (s : pst) := mk_pst (conf s) (heap s) (yylval s) v (ifevertrue s) (intstk s) (sw_value s) (sw_tf s) (gstk s) (out s).
Definition set_ifevertrue (v : Z) (s : pst) := mk_pst (conf s) (heap s) (yylval s) (iftrue s) v (intstk s) (sw_value s) (sw_tf s) (gstk s) (out s).
Definition set_intstk (v : Z) (s : pst) := mk_pst (conf s) (heap s) (yylval s) (iftrue s) (ifevertrue s) v (sw_value s) (sw_tf s) (gstk s) (out s).
Definition set_sw_value (v : Z) (s : pst) := mk_pst (conf s) (heap s) (yylval s) (iftrue s) (ifevertrue s) (intstk s) v (sw_tf s) (gstk s) (out s).
Definition set_sw_tf (v : Z) (s : pst) := mk_pst (conf s) (heap s) (yylval s) (iftrue s) (ifevertrue s) (intstk s) (sw_value s) v (gstk s) (out s).
Definition set_gstk (v : list stk) (s : pst) := mk_pst (conf s) (heap s) (yylval s) (iftrue s) (ifevertrue s) (intstk s) (sw_value s) (sw_tf s) v (out s).
Definition set_out (v : list Z) (s : pst) := mk_pst (conf s) (heap s) (yylval s) (iftrue s) (ifevertrue s) (intstk s) (sw_value s) (sw_tf s) (gstk s) v.
Definition pst0 (c : sysconf) : pst := mk_pst c [] None 1 0 1 0 0 [] [].

(** A token with a text, as the scanner makes it; an empty string is NULL. *)
Definition token_text (s : pst) (t : list Z) : option nat * pst := let p := length (heap s) in (Some p, set_yylval (Some p) (set_heap (heap s ++ [Some t]) s)).
Definition qstring_text (s : pst) (t : list Z) : option nat * pst := match t with [] => (None, set_yylval None s) | _ => token_text s t end.

Definition text (s : pst) (p : option nat) : outcome (list Z) :=
  match p with
  | None => Fault NullDeref
  | Some i => match heap s !! i with Some (Some t) => Ret t | Some None => Fault UseAfterFree | None => Fault OutOfBounds end
  end.
Definition free (s : pst) (p : option nat) : outcome pst :=
  match p with None => Ret s | Some i => let* _ := text s p in Ret (set_heap (<[i := None]> (heap s)) s) end.

Section parsing.
Context (mem : list Z -> bool) (cmem : nat -> bool).

Definition MAX_INT_STK_LEN : nat := 64.
Definition push (x : stk) (s : pst) : pst := if (length (gstk s) <? MAX_INT_STK_LEN)%nat then set_gstk (x :: gstk s) s else s.
Definition push_int (n : Z) (s : pst) : pst := push (SInt n) s.
Definition push_str (p : option nat) (s : pst) : pst := push (SStr p) s.
Definition intstack_clear (s : pst) : pst := set_gstk [] s.
Definition intstack_size (s : pst) : nat := length (gstk s).
(** The union holds what was put into it last; reading the other member is not given a meaning. *)
Definition pop_int (s : pst) : outcome (Z * pst) :=
  match gstk s with [] => Ret (0, s) | SInt n :: l => Ret (n, set_gstk l s) | SStr _ :: _ => Fault Uninit end.
Definition pop_str (s : pst) : outcome (option nat * pst) :=
  match gstk s with [] => Ret (None, s) | SStr p :: l => Ret (p, set_gstk l s) | SInt _ :: _ => Fault Uninit end.
Fixpoint pops {A} (pop : pst -> outcome (A * pst)) (n : nat) (s : pst) : outcome (list A * pst) :=
  match n with
  | O => Ret ([], s)
  | S n => let* r := pop s in let '(x, s) := r in let* r := pops pop n s in let '(l, s) := r in Ret (x :: l, s)
  end.

Definition add_tag_percent (s : pst) (tag : list Z) (f : Z) (per : list Z) : outcome pst :=
  let buffer := take 9 per in
  match buffer with
  | [] => Ret s
  | _ => let* n := atoi (take (length buffer - 1) buffer) in
         let* c := match tag !! 1%nat with Some c => Ret c | None => Fault OutOfBounds end in
         Ret (set_conf (snd (sysconf_add_special (conf s) c f n)) s)
  end.

(** [getint] of a token's text; NULL is compared with the keys that there are. *)
Definition getint (s : pst) (p : option nat) : outcome Z :=
  match p with
  | None => match ents (conf s) with [] => Ret (-1) | _ => Fault NullDeref end
  | Some _ => let* k := text s p in Ret (sysconf_int (conf s) k)
  end.

(** *** The actions *)
Definition on (s : pst) : bool := negb (iftrue s =? 0).

Definition act_assign (s : pst) (p : option nat) (add : sysconf -> list Z -> outcome (option nat * sysconf)) : outcome pst :=
  if on s then let* k := text s p in let* r := add (conf s) k in Ret (set_conf (snd r) s) else Ret s.
Definition free2 (s : pst) (p q : option nat) : outcome pst := let* s := free s p in free s q.
Definition act_int (s : pst) (p q : option nat) : outcome pst :=
  let* s := act_assign s p (fun c k => let* v := text s q in addentry_integer mem c k v) in free2 s p q.
Definition act_str (s : pst) (p q : option nat) : outcome pst :=
  let* s := act_assign s p (fun c k =>
    match q with None => Ret (addentry_string mem c k None) | Some _ => let* v := text s q in Ret (addentry_string mem c k (Some v)) end) in free2 s p q.
Definition act_on (s : pst) (p : option nat) : outcome pst := let* s := act_assign s p (fun c k => Ret (addentry_flag_on mem c k)) in free s p.
Definition act_off (s : pst) (p : option nat) : outcome pst := let* s := act_assign s p (fun c k => Ret (addentry_flag_off mem c k)) in free s p.

(** An element of a list; the last one is reduced first. *)
Definition act_number (s : pst) (p : option nat) : outcome pst :=
  let* s := (if on s then let* t := text s p in let* n := atoi t in Ret (push_int n s) else Ret s) in free s p.
Definition act_string (s : pst) (p : option nat) : pst := if on s then push_str p s else s.

Definition act_list (s : pst) (p : option nat) : outcome pst :=
  let len := intstack_size s in
  let* s :=
    (if on s && (intstk s =? 1) then
       let* r := (if cmem len then let* r := pops pop_int len s in let '(l, s) := r in Ret (Some l, s) else Ret (None, s)) in
       let '(l, s) := r in act_assign s p (fun c k => Ret (addentry_intlist mem c k l (Z.of_nat len)))
     else if on s && (intstk s =? 0) then
       let* r := (if cmem len then let* r := pops pop_str len s in let '(l, s) := r in Ret (Some l, s) else Ret (None, s)) in
       let '(l, s) := r in act_assign s p (fun c k => Ret (addentry_strlist mem c k l (Z.of_nat len)))
     else Ret s) in
  free (intstack_clear s) p.

(** The escapes of a [print]; a backslash before another character goes with it. *)
Fixpoint unescape (k : bool) (l : list Z) : list Z :=
  match l with
  | [] => []
  | c :: l =>
      if k then (if c =? 110 then [LF] else if c =? 114 then [13] else if c =? 92 then [92] else []) ++ unescape false l
      else if c =? 92 then unescape true l
      else c :: unescape false l
  end.
Definition act_print (s : pst) (p : option nat) : outcome pst :=
  let* s := (if on s then let* t := text s p in Ret (set_out (out s ++ unescape false t) s) else Ret s) in free s p.

Definition act_if (s : pst) (p : option nat) : outcome pst :=
  let* n := getint s p in
  let t := if 0 <? n then 1 else 0 in
  free (set_ifevertrue t (set_iftrue t s)) p.
(** [p] is the value of [$3], the parenthesis. *)
Definition act_elif (s : pst) (p : option nat) : outcome pst :=
  if ifevertrue s =? 0 then
    let* n := getint s p in
    let t := if 0 <? n then 1 else 0 in
    let* s := free (set_iftrue t s) p in Ret (set_ifevertrue t s)
  else Ret (set_iftrue 0 s).
Definition act_else (s : pst) : pst := set_iftrue (if ifevertrue s =? 0 then 1 else 0) s.
Definition act_endif (s : pst) : pst := set_iftrue 1 s.
Definition act_endelse (s : pst) : pst := set_ifevertrue 0 (set_iftrue 1 s).
Definition act_switch (s : pst) (p : option nat) : outcome pst :=
  let* n := getint s p in free (set_sw_tf 0 (set_iftrue 0 (set_sw_value n s))) p.
Definition act_case (s : pst) (p : option nat) : outcome pst :=
  let* t := text s p in let* n := atoi t in Ret (if sw_value s =? n then set_sw_tf 1 (set_iftrue 1 s) else s).
Definition act_default (s : pst) : pst := if sw_tf s =? 0 then set_iftrue 1 s else s.
Definition act_break (s : pst) : pst := set_iftrue 0 s.
Definition act_tag (s : pst) (p : option nat) (f : Z) (q : option nat) : outcome pst :=
  let* tag := text s p in let* per := text s q in let* s := add_tag_percent s tag f per in free2 s p q.
Definition act_tag0 (s : pst) (p : option nat) : outcome pst :=
  let* tag := text s p in let* s := add_tag_percent s tag 3 [48; 37] in free s p.

(** *** The grammar *)

(** A part of the file was read, there is a syntax error, or the file called [exit]. *)
Inductive res := Ok (s : pst) (r : list token) | Err (s : pst) | Exited (s : pst).
Definition rbind (m : outcome res) (f : pst -> list token -> outcome res) : outcome res :=
  let* x := m in match x with Ok s r => f s r | Err s => Ret (Err s) | Exited s => Ret (Exited s) end.
Definition orerr (o : option (list token)) (s : pst) (k : list token -> outcome res) : outcome res := match o with Some r => k r | None => Ret (Err s) end.
Definition ch (c : Z) (ts : list token) : option (list token) := match ts with CH d :: r => if d =? c then Some r else None | _ => None end.
Definition rw (t : token) (ts : list token) : option (list token) := match ts with u :: r => if decide (u = t) then Some r else None | [] => None end.
(** The rest of a rule that ends with the character [c], and its action. *)
Definition finish (c : Z) (s : pst) (r : list token) (a : pst -> outcome pst) : outcome res := orerr (ch c r) s (fun r => let* s := a s in Ret (Ok s r)).

(** One or more: the next part is taken when its first token says so. *)
Fixpoint many1 (start : list token -> bool) (p : pst -> list token -> outcome res) (fuel : nat) (s : pst) (ts : list token) : outcome res :=
  match fuel with
  | O => Fault OutOfFuel
  | S fuel => rbind (p s ts) (fun s r => if start r then many1 start p fuel s r else Ret (Ok s r))
  end.

(** [comma_list_number] and [comma_list_string] with the bracket behind them. *)
Fixpoint p_numbers (s : pst) (ts : list token) : option (list (option nat) * pst * list token) :=
  match ts with
  | DIGIT t :: CH c :: r =>
      let '(p, s) := token_text s t in
      if c =? 93 then Some ([p], s, r)
      else if c =? 44 then '(ps, s, r) ← p_numbers s r; Some (p :: ps, s, r) else None
  | _ => None
  end.
Fixpoint p_strings (s : pst) (ts : list token) : option (list (option nat) * pst * list token) :=
  match ts with
  | QSTRING t :: CH c :: r =>
      let '(p, s) := qstring_text s t in
      if c =? 93 then Some ([p], s, r)
      else if c =? 44 then '(ps, s, r) ← p_strings s r; Some (p :: ps, s, r) else None
  | _ => None
  end.
Definition reduce_numbers (s : pst) (ps : list (option nat)) : outcome pst := foldr (fun p m => let* s := m in act_number s p) (Ret s) ps.
Definition reduce_strings (s : pst) (ps : list (option nat)) : pst := foldr (fun p s => act_string s p) s ps.
Definition p_list (s : pst) (p : option nat) (ts : list token) : outcome res :=
  match ts with
  | DIGIT _ :: _ =>
      match p_numbers s ts with
      | None => Ret (Err s)
      | Some (ps, s, r) => let* s := reduce_numbers s ps in finish 59 (set_intstk 1 s) r (fun s => act_list s p)
      end
  | _ =>
      match p_strings s ts with
      | None => Ret (Err s)
      | Some (ps, s, r) => finish 59 (set_intstk 0 (reduce_strings s ps)) r (fun s => act_list s p)
      end
  end.

Definition variable_definition (s : pst) (ts : list token) : outcome res :=
  match ts with
  | IDENTIFIER id :: r =>
      let '(p, s) := token_text s id in
      orerr (ch 61 r) s (fun r =>
        match r with
        | DIGIT t :: r => let '(q, s) := token_text s t in finish 59 s r (fun s => act_int s p q)
        | QSTRING t :: r => let '(q, s) := qstring_text s t in finish 59 s r (fun s => act_str s p q)
        | RW_FLAG_ON :: r => finish 59 s r (fun s => act_on s p)
        | RW_FLAG_OFF :: r => finish 59 s r (fun s => act_off s p)
        | _ => orerr (ch 91 r) s (fun r => p_list s p r)
        end)
  | RW_PRINT :: QSTRING t :: r => let '(p, s) := qstring_text s t in finish 59 s r (fun s => act_print s p)
  | RW_EXIT :: r => orerr (ch 59 r) s (fun r => if on s then Ret (Exited s) else Ret (Ok s r))
  | _ => Ret (Err s)
  end.
Definition starts_var (ts : list token) : bool := match ts with (IDENTIFIER _ | RW_PRINT | RW_EXIT) :: _ => true | _ => false end.
Definition variable_definitions (s : pst) (ts : list token) : outcome res := many1 starts_var variable_definition (S (length ts)) s ts.

(** [KEYWORD '(' IDENTIFIER ')' '{'] behind the keyword: the action gets the value of the
    token numbered [$3]. *)
Definition condition (s : pst) (ts : list token) (a : pst -> option nat -> outcome pst) (third : bool) : outcome res :=
  let q := yylval s in
  orerr (ch 40 ts) s (fun r =>
    match r with
    | IDENTIFIER id :: r => let '(p, s) := token_text s id in orerr (ch 41 r) s (fun r => finish 123 s r (fun s => a s (if third then p else q)))
    | _ => Ret (Err s)
    end).

Definition else_part (s : pst) (ts : list token) : outcome res :=
  rbind (finish 123 s ts (fun s => Ret (act_else s))) (fun s r => rbind (variable_definitions s r) (fun s r => finish 125 s r (fun s => Ret (act_endelse s)))).
Definition ifstm_definition (s : pst) (ts : list token) : outcome res :=
  orerr (rw RW_IF ts) s (fun r =>
  rbind (condition s r act_if true) (fun s r =>
  rbind (variable_definitions s r) (fun s r =>
  orerr (ch 125 r) s (fun r =>
    match r with
    | RW_ELSE_IF :: r =>
        rbind (condition s r act_elif false) (fun s r =>
        rbind (variable_definitions s r) (fun s r =>
        orerr (ch 125 r) s (fun r => orerr (rw RW_ELSE r) s (fun r => else_part s r))))
    | RW_ELSE :: r => else_part s r
    | _ => Ret (Ok (act_endif s) r)
    end)))).

Definition case_label (s : pst) (ts : list token) : outcome res :=
  match ts with
  | RW_CASE :: DIGIT t :: r => let '(p, s) := token_text s t in finish 58 s r (fun s => act_case s p)
  | _ => Ret (Err s)
  end.
Definition starts_case (ts : list token) : bool := match ts with RW_CASE :: _ => true | _ => false end.
Definition break_stm (s : pst) (ts : list token) : outcome res := orerr (rw RW_BREAK ts) s (fun r => finish 59 s r (fun s => Ret (act_break s))).
(** The definitions may be missing. *)
Definition opt_definitions (s : pst) (ts : list token) : outcome res := if starts_var ts then variable_definitions s ts else Ret (Ok s ts).
Definition default_part (s : pst) (ts : list token) : outcome res :=
  rbind (finish 58 s ts (fun s => Ret (act_default s))) (fun s r => rbind (opt_definitions s r) break_stm).

(** [case_statements]: a [default] is the last. *)
Fixpoint case_statements (fuel : nat) (s : pst) (ts : list token) : outcome res :=
  match fuel with
  | O => Fault OutOfFuel
  | S fuel =>
      match ts with
      | RW_DEFAULT :: r => default_part s r
      | _ =>
          rbind (many1 starts_case case_label (S (length ts)) s ts) (fun s r =>
          match r with
          | RW_DEFAULT :: r => default_part s r
          | _ =>
              rbind (if starts_var r then
                       rbind (variable_definitions s r) (fun s r => match r with RW_BREAK :: _ => break_stm s r | _ => Ret (Ok s r) end)
                     else break_stm s r) (fun s r =>
              match r with (RW_CASE | RW_DEFAULT) :: _ => case_statements fuel s r | _ => Ret (Ok s r) end)
          end)
      end
  end.
Definition switch_definition (s : pst) (ts : list token) : outcome res :=
  orerr (rw RW_SWITCH ts) s (fun r =>
  rbind (condition s r act_switch true) (fun s r =>
  rbind (case_statements (S (length r)) s r) (fun s r => finish 125 s r (fun s => Ret (act_endif s))))).

Definition statement_definition (s : pst) (ts : list token) : outcome res :=
  match ts with RW_IF :: _ => ifstm_definition s ts | RW_SWITCH :: _ => switch_definition s ts | _ => variable_definition s ts end.
Definition starts_stm (ts : list token) : bool := match ts with (RW_IF | RW_SWITCH) :: _ => true | _ => starts_var ts end.

Definition tag_definition (s : pst) (ts : list token) : outcome res :=
  match ts with
  | RW_FLAG_ON :: SQ_CHARACTER c :: RW_NORMAL :: r => let '(p, s) := token_text s [39; c; 39] in finish 59 s r (fun s => act_tag0 s p)
  | RW_FLAG_ON :: SQ_CHARACTER c :: RW_INCREASE :: PERCENT t :: r =>
      let '(p, s) := token_text s [39; c; 39] in let '(q, s) := token_text s t in finish 59 s r (fun s => act_tag s p 1 q)
  | RW_FLAG_ON :: SQ_CHARACTER c :: RW_LOWER :: PERCENT t :: r =>
      let '(p, s) := token_text s [39; c; 39] in let '(q, s) := token_text s t in finish 59 s r (fun s => act_tag s p 2 q)
  | _ => Ret (Err s)
  end.
Definition starts_tag (ts : list token) : bool := match ts with RW_FLAG_ON :: _ => true | _ => false end.
Definition special_definition (s : pst) (ts : list token) : outcome res :=
  orerr (ch 123 ts) s (fun r => rbind (many1 starts_tag tag_definition (S (length r)) s r) (fun s r => finish 125 s r Ret)).

Definition full_definition (s : pst) (ts : list token) : outcome res :=
  rbind (many1 starts_stm statement_definition (S (length ts)) s ts) (fun s r =>
  match r with
  | RW_SPEICAL_STDRULE :: r => rbind (special_definition s r) opt_definitions
  | _ => Ret (Ok s r)
  end).

(** The value 0 when the file was read to its end; what has been printed and the texts
    that the settings point to are left. *)
Definition yyparse (c : sysconf) (file : list Z) : outcome (option Z * sysconf * (list Z * list (option (list Z)))) :=
  let* x := full_definition (pst0 c) (yylex file) in
  Ret match x with
      | Ok s [] => (Some 0, conf s, (out s, heap s))
      | Ok s _ | Err s => (Some 1, conf s, (out s, heap s))
      | Exited s => (None, conf s, (out s, heap s))
      end.
End parsing.
End SL.
