(* ===== verification/SysMean.v ===== *)
(** * SysMean.v: what a configuration file means

    The statements of the language of [SysLang.v] with their tokens and their meaning on a
    plain map of settings, and that reading a file gives this meaning: the parser's state,
    with its flags, its stack and the texts it allocates and frees, is related to the map
    ([rel]), and every part of the grammar keeps the relation ([agrees]).  At the end, that
    the scanner reads back the tokens of a file, and the defect of [else-if]. *)

From stdpp Require Import strings gmap.
From S2P Require Import Prelude Posix Cstr Simconf SysConf SysLang.

Module SM.
Import CS SC SY SL.

(** ** What a file means *)

(** The statements of the language. *)
Inductive vstm := VInt (id t : list Z) | VStr (id t : list Z) | VOn (id : list Z) | VOff (id : list Z)
  | VInts (id : list Z) (l : list (list Z)) | VStrs (id : list Z) (l : list (list Z)) | VPrint (t : list Z) | VExit.
(** The labels, the body, and whether a [break] ends it. *)
Record clause := mk_clause { labels : list (list Z); body : list vstm; breaks : bool }.
(** A [default] always ends with a [break]. *)
Record dclause := mk_dclause { dlabels : list (list Z); dbody : list vstm }.
Inductive stm := SVar (v : vstm) | SIf (id : list Z) (b : list vstm) | SIfElse (id : list Z) (b b' : list vstm)
  | SIfElif (id : list Z) (b : list vstm) (id' : list Z) (b' b'' : list vstm) | SSwitch (id : list Z) (cs : list clause) (d : option dclause).
Inductive rule := Increase (c : Z) (t : list Z) | Lower (c : Z) (t : list Z) | Normal (c : Z).
Record prog := mk_prog { stms : list stm; rules : option (list rule * list vstm) }.

(** Their tokens. *)
Definition comma_sep (tk : list Z -> token) (l : list (list Z)) : list token :=
  match l with [] => [] | x :: l => tk x :: concat ((fun x => [CH 44; tk x]) <$> l) end.
Definition pr_v (v : vstm) : list token :=
  match v with
  | VInt id t => [IDENTIFIER id; CH 61; DIGIT t; CH 59]
  | VStr id t => [IDENTIFIER id; CH 61; QSTRING t; CH 59]
  | VOn id => [IDENTIFIER id; CH 61; RW_FLAG_ON; CH 59]
  | VOff id => [IDENTIFIER id; CH 61; RW_FLAG_OFF; CH 59]
  | VInts id l => [IDENTIFIER id; CH 61; CH 91] ++ comma_sep DIGIT l ++ [CH 93; CH 59]
  | VStrs id l => [IDENTIFIER id; CH 61; CH 91] ++ comma_sep QSTRING l ++ [CH 93; CH 59]
  | VPrint t => [RW_PRINT; QSTRING t; CH 59]
  | VExit => [RW_EXIT; CH 59]
  end.
Definition pr_vs (l : list vstm) : list token := concat (pr_v <$> l).
Definition pr_label (t : list Z) : list token := [RW_CASE; DIGIT t; CH 58].
Definition pr_labels (l : list (list Z)) : list token := concat (pr_label <$> l).
Definition pr_clause (c : clause) : list token := pr_labels (labels c) ++ pr_vs (body c) ++ (if breaks c then [RW_BREAK; CH 59] else []).
Definition pr_dclause (d : dclause) : list token := pr_labels (dlabels d) ++ [RW_DEFAULT; CH 58] ++ pr_vs (dbody d) ++ [RW_BREAK; CH 59].
Definition pr_cond (id : list Z) : list token := [CH 40; IDENTIFIER id; CH 41; CH 123].
Definition pr_default (d : option dclause) : list token := match d with Some d => pr_dclause d | None => [] end.
Definition pr_stm (x : stm) : list token :=
  match x with
  | SVar v => pr_v v
  | SIf id b => RW_IF :: pr_cond id ++ pr_vs b ++ [CH 125]
  | SIfElse id b b' => RW_IF :: pr_cond id ++ pr_vs b ++ [CH 125; RW_ELSE; CH 123] ++ pr_vs b' ++ [CH 125]
  | SIfElif id b id' b' b'' => RW_IF :: pr_cond id ++ pr_vs b ++ [CH 125; RW_ELSE_IF] ++ pr_cond id' ++ pr_vs b' ++ [CH 125; RW_ELSE; CH 123] ++ pr_vs b'' ++ [CH 125]
  | SSwitch id cs d => RW_SWITCH :: pr_cond id ++ concat (pr_clause <$> cs) ++ pr_default d ++ [CH 125]
  end.
Definition pr_rule (x : rule) : list token :=
  match x with
  | Increase c t => [RW_FLAG_ON; SQ_CHARACTER c; RW_INCREASE; PERCENT t; CH 59]
  | Lower c t => [RW_FLAG_ON; SQ_CHARACTER c; RW_LOWER; PERCENT t; CH 59]
  | Normal c => [RW_FLAG_ON; SQ_CHARACTER c; RW_NORMAL; CH 59]
  end.
Definition pr_prog (p : prog) : list token :=
  concat (pr_stm <$> stms p) ++
  match rules p with None => [] | Some (l, vs) => [RW_SPEICAL_STDRULE; CH 123] ++ concat (pr_rule <$> l) ++ [CH 125] ++ pr_vs vs end.

(** Lists and bodies are not empty where the grammar asks for it. *)
Definition wf_v (v : vstm) : Prop := match v with VInts _ l | VStrs _ l => l <> [] | _ => True end.
Definition wf_vs (l : list vstm) : Prop := l <> [] /\ Forall wf_v l.
Definition wf_clause (c : clause) : Prop := labels c <> [] /\ Forall wf_v (body c) /\ (body c <> [] \/ breaks c = true).
Definition wf_stm (x : stm) : Prop :=
  match x with
  | SVar v => wf_v v
  | SIf _ b => wf_vs b
  | SIfElse _ b b' => wf_vs b /\ wf_vs b'
  | SIfElif _ b _ b' b'' => wf_vs b /\ wf_vs b' /\ wf_vs b''
  | SSwitch _ cs d => Forall wf_clause cs /\ (cs <> [] \/ d <> None) /\ match d with Some d => Forall wf_v (dbody d) | None => True end
  end.
Definition wf_prog (p : prog) : Prop := stms p <> [] /\ Forall wf_stm (stms p) /\ match rules p with Some (l, vs) => l <> [] /\ Forall wf_v vs | None => True end.

Abbreviation scell := (Z * option (list Z) * option (list Z) * option (list (option (list Z))))%type.
(** The settings with the texts of lists, the rules, and what has been printed. *)
Record env := mk_env { smap : gmap (list Z) scell; srules : list (Z * Z); sout : list Z }.
Definition env0 : env := mk_env ∅ (replicate MAX_SPECIAL_STUDENT_RULES_ENTRY (0, 0)) [].

Section meaning.
Context (mem : list Z -> bool) (cmem : nat -> bool).

Definition assign (id : list Z) (c : scell) (e : env) : env :=
  if decide (is_Some (smap e !! lower id) \/ mem id = true) then mk_env (<[lower id := c]> (smap e)) (srules e) (sout e) else e.
Definition value_of (e : env) (id : list Z) : Z := match smap e !! lower id with Some (n, _, _, _) => n | None => -1 end.

Definition nonempty (t : list Z) : option (list Z) := match t with [] => None | _ => Some t end.
(** A list keeps its last 64 elements. *)
Definition last64 {A} (l : list A) : list A := drop (length l - MAX_INT_STK_LEN) l.
Fixpoint atois (l : list (list Z)) : outcome (list Z) := match l with [] => Ret [] | t :: l => let* ns := atois l in let* n := atoi t in Ret (n :: ns) end.
(** The value of a list, if there is memory for it. *)
Definition listval {A} (l : list A) : option (list A) := if cmem (length l) then Some l else None.

(** [true] when the file calls [exit]. *)
Definition sbind (x : outcome (bool * env)) (f : env -> outcome (bool * env)) : outcome (bool * env) :=
  let* y := x in let '(b, e) := y in if b : bool then Ret (true, e) else f e.

(** One after the other. *)
Fixpoint semseq {A} (sem : A -> env -> outcome (bool * env)) (l : list A) (e : env) : outcome (bool * env) :=
  match l with [] => Ret (false, e) | x :: l => sbind (sem x e) (semseq sem l) end.

Definition sem_v (v : vstm) (e : env) : outcome (bool * env) :=
  match v with
  | VInt id t => let* n := atoi t in Ret (false, assign id (n, None, None, None) e)
  | VStr id t => Ret (false, assign id (-1, new_value (nonempty t), None, None) e)
  | VOn id => Ret (false, assign id (1, None, None, None) e)
  | VOff id => Ret (false, assign id (0, None, None, None) e)
  | VInts id l => let* ns := atois l in let ns := last64 ns in Ret (false, assign id (Z.of_nat (length ns), None, listval ns, None) e)
  | VStrs id l => let ts := last64 (nonempty <$> l) in Ret (false, assign id (Z.of_nat (length ts), None, None, listval ts) e)
  | VPrint [] => Fault NullDeref
  | VPrint t => Ret (false, mk_env (smap e) (srules e) (sout e ++ unescape false t))
  | VExit => Ret (true, e)
  end.
Definition sem_vs : list vstm -> env -> outcome (bool * env) := semseq sem_v.

(** Whether [n] is one of the labels, which must be in range. *)
Fixpoint hits (n : Z) (l : list (list Z)) : outcome bool :=
  match l with [] => Ret false | t :: l => let* m := atoi t in let* h := hits n l in Ret ((n =? m) || h) end.
(** The clauses in order: [run] tells whether statements count, [hit] whether a label has
    matched.  A matching label sets both, a [break] ends the run, and the default counts
    when the run has come to it or nothing has matched. *)
Fixpoint sem_cases (n : Z) (run hit : bool) (cs : list clause) (d : option dclause) (e : env) : outcome (bool * env) :=
  match cs with
  | [] => match d with
          | None => Ret (false, e)
          | Some d => let* h := hits n (dlabels d) in if negb (h || hit) || (h || run) then sem_vs (dbody d) e else Ret (false, e)
          end
  | c :: cs => let* h := hits n (labels c) in
               sbind (if h || run then sem_vs (body c) e else Ret (false, e)) (fun e => sem_cases n (negb (breaks c) && (h || run)) (h || hit) cs d e)
  end.

(** What the value of the last token with a text is when the statements of a skipped body
    have been read: its text was freed, it is NULL, or it is an element of a list. *)
Inductive lasttext := Gone | Null | Elem (t : list Z).
Definition elem_of_text (t : list Z) : lasttext := match t with [] => Null | _ => Elem t end.
Definition last_v (x : lasttext) (v : vstm) : lasttext :=
  match v with
  | VStr _ [] | VPrint [] => Null
  | VStrs _ l => elem_of_text (default [] (last l))
  | VExit => x
  | _ => Gone
  end.
(** The number an [else-if] tests: the setting not of its own name, but of that text. *)
Definition elif_value (b : list vstm) (e : env) : outcome Z :=
  match foldl last_v Gone b with
  | Gone => Fault UseAfterFree
  | Null => if decide (smap e = ∅) then Ret (-1) else Fault NullDeref
  | Elem t => Ret (value_of e t)
  end.

Definition sem_stm (x : stm) (e : env) : outcome (bool * env) :=
  match x with
  | SVar v => sem_v v e
  | SIf id b => if 0 <? value_of e id then sem_vs b e else Ret (false, e)
  | SIfElse id b b' => if 0 <? value_of e id then sem_vs b e else sem_vs b' e
  | SIfElif id b id' b' b'' => if 0 <? value_of e id then sem_vs b e else let* n := elif_value b e in if 0 <? n then sem_vs b' e else sem_vs b'' e
  | SSwitch id cs d => sem_cases (value_of e id) false false cs d e
  end.
Definition sem_stms : list stm -> env -> outcome (bool * env) := semseq sem_stm.

Definition set_rule (c f n : Z) (e : env) : env :=
  if (0 <=? c) && (c <? Z.of_nat MAX_SPECIAL_STUDENT_RULES_ENTRY) then mk_env (smap e) (<[Z.to_nat c := (f, n)]> (srules e)) (sout e) else e.
Definition percent (t : list Z) : outcome Z := atoi (take (length t - 1) t).
Definition sem_rule (x : rule) (e : env) : outcome (bool * env) :=
  match x with
  | Increase c t => let* n := percent t in Ret (false, set_rule c 1 n e)
  | Lower c t => let* n := percent t in Ret (false, set_rule c 2 n e)
  | Normal c => Ret (false, set_rule c 3 0 e)
  end.
Definition sem_rules : list rule -> env -> outcome (bool * env) := semseq sem_rule.
Definition sem_prog (p : prog) (e : env) : outcome (bool * env) :=
  sbind (sem_stms (stms p) e) (fun e => match rules p with None => Ret (false, e) | Some (l, vs) => sbind (sem_rules l e) (sem_vs vs) end).
End meaning.

(** ** The parser's state and the meaning *)

(** What a cell with pointers stands for, and that the pointers are good. *)
Definition deref_p (h : list (option (list Z))) (p : option nat) : option (list Z) := p ≫= fun i => mjoin (h !! i).
Definition resolve (h : list (option (list Z))) (c : cell) : scell := let '(n, v, l, sl) := c in (n, v, l, fmap (M := option) (fmap (M := list) (deref_p h)) sl).
Definition good_p (h : list (option (list Z))) (p : option nat) : Prop := match p with None => True | Some i => exists t, h !! i = Some (Some t) end.
Definition good (h : list (option (list Z))) (c : cell) : Prop := let '(_, _, _, sl) := c in match sl with Some ps => Forall (good_p h) ps | None => True end.

Record rel (s : pst) (e : env) : Prop := {
  re_wf : wf (conf s);
  re_map : smap e = resolve (heap s) <$> abs (conf s);
  re_good : map_Forall (fun _ c => good (heap s) c) (abs (conf s));
  re_rules : srules e = sstru (conf s);
  re_out : sout e = out s;
}.

(** More texts. *)
Definition hx (s : pst) (h : list (option (list Z))) (y : option nat) : pst :=
  mk_pst (conf s) (heap s ++ h) y (iftrue s) (ifevertrue s) (intstk s) (sw_value s) (sw_tf s) (gstk s) (out s).
Lemma hx_nil s : s = hx s [] (yylval s).
Proof. unfold hx. rewrite app_nil_r. by destruct s. Qed.
Lemma good_p_app h h' p : good_p h p -> good_p (h ++ h') p /\ deref_p (h ++ h') p = deref_p h p.
Proof. destruct p as [i|]; [|done]. intros [t Ht]. cbn. rewrite (lookup_app_l_Some _ _ _ _ Ht), Ht. split; [by eexists|done]. Qed.
Lemma good_app h h' c : good h c -> good (h ++ h') c /\ resolve (h ++ h') c = resolve h c.
Proof.
  destruct c as [[[n v] l] [ps|]]; [|done]. cbn. intros H. split; [eapply Forall_impl; [done|]; intros p Hp; by apply good_p_app|]. do 2 f_equal. apply list_fmap_ext. intros i p Hp. apply good_p_app. by eapply Forall_lookup_1.
Qed.
Lemma rel_hx s e h y : rel s e -> rel (hx s h y) e.
Proof.
  intros [R1 R2 R3 R4 R5]. split; cbn; try done.
  - rewrite R2. apply map_fmap_ext. intros k c Hc. symmetry. apply good_app. by apply (R3 k).
  - intros k c Hc. apply good_app. by apply (R3 k).
Qed.

Lemma hx_token s h y t : token_text (hx s h y) t = (Some (length (heap s) + length h)%nat, hx s (h ++ [Some t]) (Some (length (heap s) + length h)%nat)).
Proof. unfold token_text, hx. cbn. by rewrite length_app, <- app_assoc. Qed.
Lemma hx_text s h y i t : h !! i = Some (Some t) -> text (hx s h y) (Some (length (heap s) + i)%nat) = Ret t.
Proof. intros H. cbn. rewrite lookup_app_r by lia. replace (_ + i - _)%nat with i by lia. by rewrite H. Qed.
Lemma hx_free s h y i t : h !! i = Some (Some t) -> free (hx s h y) (Some (length (heap s) + i)%nat) = Ret (hx s (<[i := None]> h) y).
Proof. intros H. unfold free. rewrite (hx_text _ _ _ _ _ H). cbn [obind]. unfold set_heap, hx. cbn. do 2 f_equal. rewrite insert_app_r. done. Qed.

Definition same (s s' : pst) : Prop := iftrue s' = iftrue s /\ ifevertrue s' = ifevertrue s /\ sw_value s' = sw_value s /\ sw_tf s' = sw_tf s /\ gstk s' = [].

(** The parser has read a part and stands at [r], in a state that satisfies [Q], as the
    meaning says. *)
Definition agrees (Q : pst -> Prop) (r : list token) (m : outcome res) (x : outcome (bool * env)) : Prop :=
  match m, x with
  | Ret (Ok s r'), Ret (false, e) => r' = r /\ rel s e /\ Q s
  | Ret (Exited s), Ret (true, e) => rel s e
  | Fault f, Fault g => f = g
  | _, _ => False
  end.
Lemma agrees_bind Q1 Q2 r1 r2 m x f g : agrees Q1 r1 m x -> (forall s e, Q1 s -> rel s e -> agrees Q2 r2 (f s r1) (g e)) -> agrees Q2 r2 (rbind m f) (sbind x g).
Proof. destruct m as [[s r|s|s]| |], x as [[[|] e]| |]; cbn; try done. intros (-> & R & HQ) Hf. by apply Hf. Qed.
Lemma agrees_mono (Q1 Q2 : pst -> Prop) r m x : agrees Q1 r m x -> (forall s, Q1 s -> Q2 s) -> agrees Q2 r m x.
Proof. destruct m as [[s r'|s|s]| |], x as [[[|] e]| |]; cbn; try done. intros (-> & R & HQ) H. auto. Qed.
Lemma ch_eq c r : ch c (CH c :: r) = Some r.
Proof. cbn. by rewrite Z.eqb_refl. Qed.
Lemma finish_eq c s r a : finish c s (CH c :: r) a = (let* s := a s in Ret (Ok s r)).
Proof. unfold finish. by rewrite ch_eq. Qed.

Section simulation.
Context (mem : list Z -> bool) (cmem : nat -> bool).
Abbreviation store' := (store mem).

Lemma rel_store s e id c : rel s e -> good (heap s) c -> rel (set_conf (store' c id (conf s)) s) (assign mem id (resolve (heap s) c) e).
Proof.
  intros [R1 R2 R3 R4 R5] Hg. destruct (store_spec mem (conf s) id c R1) as (W & E1 & _). destruct (store_abs mem (conf s) id c R1) as [_ Ea].
  assert (is_Some (smap e !! lower id) <-> is_Some (abs (conf s) !! lower id)) as Hi by (rewrite R2, lookup_fmap; by rewrite fmap_is_Some). unfold assign, put in *.
  destruct (decide (is_Some (smap e !! lower id) \/ mem id = true)) as [H|H].
  - rewrite decide_True in Ea by (rewrite <- Hi; done). split; cbn; try done; [by rewrite Ea, fmap_insert, R2|rewrite Ea; by apply map_Forall_insert_2|congruence].
  - rewrite decide_False in Ea by (rewrite <- Hi; done). split; cbn; try done; [by rewrite Ea|by rewrite Ea|congruence].
Qed.

Lemma on_hx s h y : on (hx s h y) = on s.
Proof. done. Qed.

(** An assignment whose cell is known. *)
Lemma assign_spec s h y i id add c e : rel s e -> h !! i = Some (Some id) -> good (heap s ++ h) c ->
  (on s = true -> exists r, add (conf s) id = Ret r /\ snd r = store' c id (conf s)) ->
  exists s', act_assign (hx s h y) (Some (length (heap s) + i)%nat) add = Ret (hx s' h y) /\ heap s' = heap s /\ iftrue s' = iftrue s /\ ifevertrue s' = ifevertrue s /\ sw_value s' = sw_value s /\ sw_tf s' = sw_tf s /\ gstk s' = gstk s /\
    (forall h' y', good (heap s ++ h') c -> resolve (heap s ++ h') c = resolve (heap s ++ h) c -> rel (hx s' h' y') (if on s then assign mem id (resolve (heap s ++ h) c) e else e)).
Proof.
  intros R Hi Hg Ha. unfold act_assign. rewrite on_hx. destruct (on s) eqn:E.
  - rewrite (hx_text _ _ _ _ _ Hi). cbn [obind]. destruct (Ha eq_refl) as (r & Hr & Hs). change (conf (hx s h y)) with (conf s). rewrite Hr. cbn [obind]. rewrite Hs. exists (set_conf (store' c id (conf s)) s). split; [done|]. split_and!; try done.
    intros h' y' Hg' He. rewrite <- He. pose proof (rel_hx s e h' y' R) as R'. exact (rel_store (hx s h' y') e id c R' Hg').
  - exists s. split_and!; try done. intros h' y' _ _. by apply rel_hx.
Qed.

(** The meaning of a part that is skipped when the flag is off. *)
Definition when (s : pst) (x : outcome (bool * env)) (e : env) : outcome (bool * env) := if on s then x else Ret (false, e).

(** What remains of [assign_spec] for cells without pointers. *)
Lemma simple_spec s h y i id add n v l e : rel s e -> h !! i = Some (Some id) ->
  (on s = true -> exists r, add (conf s) id = Ret r /\ snd r = store' (n, v, l, None) id (conf s)) ->
  exists s', act_assign (hx s h y) (Some (length (heap s) + i)%nat) add = Ret (hx s' h y) /\ heap s' = heap s /\ (gstk s = [] -> forall h' y', same s (hx s' h' y')) /\
    (forall h' y', rel (hx s' h' y') (if on s then assign mem id (n, v, l, None) e else e)).
Proof.
  intros R Hi Ha. destruct (assign_spec s h y i id add (n, v, l, None) e R Hi I Ha) as (s' & E & H1 & H2 & H3 & H4 & H5 & H6 & H7). exists s'. split; [done|]. split; [done|]. split; [|intros h' y'; by apply H7].
  intros Hg h' y'. unfold same. cbn. split_and!; congruence.
Qed.

Lemma hx_free' s s0 h y i t : heap s = heap s0 -> h !! i = Some (Some t) -> free (hx s h y) (Some (length (heap s0) + i)%nat) = Ret (hx s (<[i := None]> h) y).
Proof. intros <-. apply hx_free. Qed.

Lemma agrees_when s r e s' id c : rel s' (if on s then assign mem id c e else e) -> same s s' -> agrees (same s) r (Ret (Ok s' r)) (when s (Ret (false, assign mem id c e)) e).
Proof. intros R HS. unfold when. by destruct (on s). Qed.

Lemma flag_spec s e r id t : rel s e -> gstk s = [] -> (t = RW_FLAG_ON \/ t = RW_FLAG_OFF) ->
  agrees (same s) r (variable_definition mem cmem s (IDENTIFIER id :: CH 61 :: t :: CH 59 :: r)) (when s (Ret (false, assign mem id (if decide (t = RW_FLAG_ON) then 1 else 0, None, None, None) e)) e).
Proof.
  intros R Hg Ht. unfold variable_definition. rewrite (hx_nil s) at 2. rewrite hx_token. cbn [app length orerr]. rewrite ch_eq. cbn [orerr].
  destruct Ht as [-> | ->]; rewrite finish_eq; [unfold act_on|unfold act_off].
  - destruct (simple_spec s [Some id] (Some (length (heap s) + 0)%nat) 0 id (fun c k => Ret (addentry_flag_on mem c k)) 1 None None e R eq_refl) as (s' & -> & Hh & HS & HR); [intros _; eexists; split; [done|by apply with_store]|].
    cbn [obind]. rewrite (hx_free' s' s _ _ 0 id) by done. cbn [obind]. apply agrees_when; [apply HR|by apply HS].
  - destruct (simple_spec s [Some id] (Some (length (heap s) + 0)%nat) 0 id (fun c k => Ret (addentry_flag_off mem c k)) 0 None None e R eq_refl) as (s' & -> & Hh & HS & HR); [intros _; eexists; split; [done|by apply with_store]|].
    cbn [obind]. rewrite (hx_free' s' s _ _ 0 id) by done. cbn [obind]. apply agrees_when; [apply HR|by apply HS].
Qed.

Lemma int_spec s e r id t : rel s e -> gstk s = [] -> agrees (same s) r (variable_definition mem cmem s (pr_v (VInt id t) ++ r)) (when s (sem_v mem cmem (VInt id t) e) e).
Proof.
  intros R Hg. cbn [pr_v app]. unfold variable_definition. rewrite (hx_nil s) at 2. rewrite hx_token. cbn [app length]. rewrite ch_eq. cbn [orerr]. rewrite hx_token. cbn [app length]. rewrite finish_eq. unfold act_int. cbn [sem_v].
  destruct (atoi t) as [n| |f] eqn:Ea.
  - match goal with |- context [act_assign _ _ ?a] => destruct (simple_spec s [Some id; Some t] (Some (length (heap s) + 1)%nat) 0 id a n None None e R eq_refl) as (s' & -> & Hh & HS & HR) end.
    { intros _. eexists. rewrite (hx_text s _ _ 1 t) by done. cbn [obind]. unfold addentry_integer. rewrite Ea. cbn [obind]. split; [done|]. by apply with_store. }
    cbn [obind]. unfold free2. rewrite (hx_free' s' s _ _ 0 id) by done. cbn [obind]. rewrite (hx_free' s' s _ _ 1 t) by done. cbn [obind]. apply agrees_when; [apply HR|by apply HS].
  - by apply atoi_returns in Ea.
  - unfold act_assign, when. rewrite on_hx. destruct (on s); [|cbn [obind]; unfold free2; rewrite (hx_free s _ _ 0 id) by done; cbn [obind]; rewrite (hx_free s _ _ 1 t) by done; cbn [obind]; split; [done|]; split; [by apply rel_hx|done]].
    rewrite (hx_text s _ _ 0 id) by done. cbn [obind]. rewrite (hx_text s _ _ 1 t) by done. cbn [obind]. unfold addentry_integer. by rewrite Ea.
Qed.

Lemma str_spec s e r id t : rel s e -> gstk s = [] -> agrees (same s) r (variable_definition mem cmem s (pr_v (VStr id t) ++ r)) (when s (sem_v mem cmem (VStr id t) e) e).
Proof.
  intros R Hg. cbn [pr_v app]. unfold variable_definition. rewrite (hx_nil s) at 2. rewrite hx_token. cbn [app length]. rewrite ch_eq. cbn [orerr sem_v].
  destruct t as [|x t]; cbn [qstring_text nonempty].
  - rewrite finish_eq. unfold act_str. change (set_yylval None (hx s [Some id] (Some (length (heap s) + 0)%nat))) with (hx s [Some id] None).
    match goal with |- context [act_assign _ _ ?a] => destruct (simple_spec s [Some id] None 0 id a (-1) None None e R eq_refl) as (s' & -> & Hh & HS & HR) end; [intros _; eexists; split; [done|apply string_store]|].
    cbn [obind]. unfold free2. rewrite (hx_free' s' s _ _ 0 id) by done. cbn [obind free]. apply agrees_when; [apply HR|by apply HS].
  - rewrite hx_token. cbn [app length]. rewrite finish_eq. unfold act_str.
    match goal with |- context [act_assign _ _ ?a] => destruct (simple_spec s [Some id; Some (x :: t)] (Some (length (heap s) + 1)%nat) 0 id a (-1) (new_value (Some (x :: t))) None e R eq_refl) as (s' & -> & Hh & HS & HR) end.
    { intros _. eexists. rewrite (hx_text s _ _ 1 (x :: t)) by done. cbn [obind]. split; [done|apply string_store]. }
    cbn [obind]. unfold free2. rewrite (hx_free' s' s _ _ 0 id) by done. cbn [obind]. rewrite (hx_free' s' s _ _ 1 (x :: t)) by done. cbn [obind]. apply agrees_when; [apply HR|by apply HS].
Qed.

Lemma print_spec s e r t : rel s e -> gstk s = [] -> agrees (same s) r (variable_definition mem cmem s (pr_v (VPrint t) ++ r)) (when s (sem_v mem cmem (VPrint t) e) e).
Proof.
  intros R Hg. cbn [pr_v app]. unfold variable_definition, when. destruct t as [|x t]; cbn [qstring_text sem_v].
  - rewrite finish_eq. unfold act_print. change (on (set_yylval None s)) with (on s). destruct (on s); [done|]. cbn [obind free]. split; [done|]. split; [|done]. destruct R; by split.
  - rewrite (hx_nil s) at 2. rewrite hx_token. cbn [app length]. rewrite finish_eq. unfold act_print. rewrite on_hx. destruct (on s).
    + rewrite (hx_text s _ _ 0 (x :: t)) by done. cbn [obind]. change (set_out ?o (hx s ?h ?y)) with (hx (set_out o s) h y). rewrite (hx_free' (set_out _ s) s _ _ 0 (x :: t)) by done. cbn [obind]. split; [done|]. split; [|done].
      pose proof (rel_hx s e [None] (Some (length (heap s) + 0)%nat) R) as [R1 R2 R3 R4 R5]. split; cbn in *; try done. by rewrite R5.
    + cbn [obind]. rewrite (hx_free s _ _ 0 (x :: t)) by done. cbn [obind]. split; [done|]. split; [by apply rel_hx|done].
Qed.
Lemma exit_spec s e r : rel s e -> gstk s = [] -> agrees (same s) r (variable_definition mem cmem s (pr_v VExit ++ r)) (when s (sem_v mem cmem VExit e) e).
Proof. intros R Hg. cbn [pr_v app]. unfold variable_definition, when. rewrite ch_eq. cbn [orerr sem_v]. by destruct (on s). Qed.

(** *** Lists *)
Definition ptrs (a n : nat) : list (option nat) := Some <$> seq a n.
Lemma p_numbers_spec l : forall t s h y r,
  p_numbers (hx s h y) (comma_sep DIGIT (t :: l) ++ CH 93 :: r) = Some (ptrs (length (heap s) + length h) (length (t :: l)), hx s (h ++ (Some <$> t :: l)) (Some (length (heap s) + (length h + length l))%nat), r).
Proof.
  induction l as [|t' l IH]; intros t s h y r.
  - cbn [comma_sep fmap list_fmap concat app p_numbers]. rewrite hx_token, Z.eqb_refl. cbn [length]. by rewrite Nat.add_0_r.
  - change (comma_sep DIGIT (t :: t' :: l) ++ CH 93 :: r) with (DIGIT t :: CH 44 :: (comma_sep DIGIT (t' :: l) ++ CH 93 :: r)). cbn [p_numbers]. rewrite hx_token. cbn [Z.eqb Pos.eqb].
    rewrite (IH t' s (h ++ [Some t])). rewrite length_app, <- app_assoc. cbn [length]. replace (length (heap s) + (length h + 1))%nat with (S (length (heap s) + length h)) by lia.
    replace (length h + 1 + length l)%nat with (length h + S (length l))%nat by lia. done.
Qed.

Lemma last64_cons {A} (x : A) l : last64 (x :: l) = if (length (last64 l) <? MAX_INT_STK_LEN)%nat then x :: last64 l else last64 l.
Proof.
  unfold last64, MAX_INT_STK_LEN. rewrite length_drop. cbn [length]. destruct (Nat.ltb_spec (length l - (length l - 64)) 64).
  - replace (S (length l) - 64)%nat with 0%nat by lia. replace (length l - 64)%nat with 0%nat by lia. done.
  - replace (S (length l) - 64)%nat with (S (length l - 64)) by lia. done.
Qed.
Lemma push_last64 {A} (f : A -> stk) (x : A) l s : gstk s = f <$> last64 l -> push (f x) s = set_gstk (f <$> last64 (x :: l)) s.
Proof. intros E. unfold push. rewrite E, length_fmap, last64_cons. destruct (_ <? _)%nat; [done|]. rewrite <- E. by destruct s. Qed.

Lemma act_number_spec s h y i t : h !! i = Some (Some t) ->
  act_number (hx s h y) (Some (length (heap s) + i)%nat) = (if on s then let* n := atoi t in Ret (hx (push_int n s) (<[i := None]> h) y) else Ret (hx s (<[i := None]> h) y)).
Proof.
  intros Hi. unfold act_number. rewrite on_hx. destruct (on s); [|cbn [obind]; by apply hx_free with t]. rewrite (hx_text _ _ _ _ _ Hi). cbn [obind]. destruct (atoi t) as [n| |]; [|done|done]. cbn [obind].
  assert (push_int n (hx s h y) = hx (push_int n s) h y /\ heap (push_int n s) = heap s) as [-> <-] by (unfold push_int, push; change (gstk (hx s h y)) with (gstk s); destruct (length (gstk s) <? MAX_INT_STK_LEN)%nat; split; done). by apply hx_free with t.
Qed.

Lemma reduce_numbers_spec l : forall s h y, gstk s = [] -> reduce_numbers (hx s (h ++ (Some <$> l)) y) (ptrs (length (heap s) + length h) (length l)) =
  if on s then let* ns := atois l in Ret (hx (set_gstk (SInt <$> last64 ns) s) (h ++ replicate (length l) None) y) else Ret (hx s (h ++ replicate (length l) None) y).
Proof.
  induction l as [|t l IH]; intros s h y Hg.
  - cbn. rewrite !app_nil_r. destruct (on s); [|done]. cbn. rewrite <- Hg. by destruct s.
  - assert (h ++ (Some <$> t :: l) = (h ++ [Some t]) ++ (Some <$> l)) as -> by (by rewrite <- app_assoc). cbn [length ptrs seq fmap list_fmap reduce_numbers foldr].
    replace (S (length (heap s) + length h)) with (length (heap s) + length (h ++ [Some t]))%nat by (rewrite length_app; cbn; lia). specialize (IH s (h ++ [Some t]) y Hg). unfold reduce_numbers, ptrs in IH. rewrite IH.
    assert (forall k, ((h ++ [Some t]) ++ replicate k None) !! length h = Some (Some t)) as Hi by (intros k; rewrite <- app_assoc, lookup_app_r, Nat.sub_diag by lia; done).
    assert (forall k, <[length h := None]> ((h ++ [Some t]) ++ replicate k None) = h ++ replicate (S k) (@None (list Z))) as Hu by (intros k; rewrite <- app_assoc, <- (Nat.add_0_r (length h)), insert_app_r; done).
    cbn [atois]. destruct (on s) eqn:Eo.
    + destruct (atois l) as [ns| |]; [|done|done]. cbn [obind]. pose proof (act_number_spec (set_gstk (SInt <$> last64 ns) s) ((h ++ [Some t]) ++ replicate (length l) None) y (length h) t (Hi _)) as HA. cbn [heap set_gstk] in HA. rewrite HA.
      change (on (set_gstk (SInt <$> last64 ns) s)) with (on s). rewrite Eo. destruct (atoi t) as [n| |]; [|done|done]. cbn [obind]. unfold push_int. rewrite (push_last64 SInt n ns) by done. by rewrite Hu.
    + cbn [obind]. rewrite (act_number_spec s _ _ _ t (Hi _)), Eo. by rewrite Hu.
Qed.

Lemma pops_ints ns : forall s, gstk s = SInt <$> ns -> pops pop_int (length ns) s = Ret (ns, set_gstk [] s).
Proof.
  induction ns as [|n ns IH]; intros s E; cbn in E; cbn [length pops]; [destruct s; cbn in E; by subst|]. assert (pop_int s = Ret (n, set_gstk (SInt <$> ns) s)) as -> by (unfold pop_int; by rewrite E). cbn [obind]. by rewrite (IH (set_gstk (SInt <$> ns) s)).
Qed.
Lemma pops_strs ps : forall s, gstk s = SStr <$> ps -> pops pop_str (length ps) s = Ret (ps, set_gstk [] s).
Proof.
  induction ps as [|p ps IH]; intros s E; cbn in E; cbn [length pops]; [destruct s; cbn in E; by subst|]. assert (pop_str s = Ret (p, set_gstk (SStr <$> ps) s)) as -> by (unfold pop_str; by rewrite E). cbn [obind]. by rewrite (IH (set_gstk (SStr <$> ps) s)).
Qed.

(** A state that differs in the list stack only. *)
Lemma rel_gstk s e g k : rel s e -> rel (set_intstk k (set_gstk g s)) e.
Proof. intros [R1 R2 R3 R4 R5]. by split. Qed.

(** The end of a list statement: the cell is stored, the stack cleared, the name freed. *)
Lemma list_end s g k h y id c e add : rel s e -> on s = true -> h !! 0%nat = Some (Some id) -> good (heap s ++ h) c -> good (heap s ++ <[0%nat := None]> h) c -> resolve (heap s ++ <[0%nat := None]> h) c = resolve (heap s ++ h) c ->
  (forall cf, snd (add cf id) = store' c id cf) ->
  exists s', (let* s1 := act_assign (hx (set_intstk k (set_gstk g s)) h y) (Some (length (heap s) + 0)%nat) (fun c k => Ret (add c k)) in free (intstack_clear s1) (Some (length (heap s) + 0)%nat)) = Ret s' /\
    same s s' /\ rel s' (assign mem id (resolve (heap s ++ h) c) e).
Proof.
  intros R Eo Hh G1 G2 Er Ha. set (s1 := set_intstk k (set_gstk g s)). destruct (assign_spec s1 h y 0 id (fun c k => Ret (add c k)) c e (rel_gstk s e g k R) Hh G1) as (s' & E & H1 & H2 & H3 & H4 & H5 & H6 & H7); [intros _; eexists; split; [done|apply Ha]|].
  change (heap s1) with (heap s) in *. rewrite E. cbn [obind]. change (intstack_clear (hx s' h y)) with (hx (intstack_clear s') h y). rewrite (hx_free' (intstack_clear s') s h y 0 id) by done. eexists. split; [done|]. split; [by unfold same; cbn; split_and!|].
  specialize (H7 (<[0%nat := None]> h) y G2 Er). change (on s1) with (on s) in H7. rewrite Eo in H7. destruct H7 as [R1 R2 R3 R4 R5]. by split.
Qed.

Lemma atois_returns l : atois l <> Block.
Proof. induction l as [|t l IH]; [done|]. cbn. destruct (atois l); [|done|done]. cbn. pose proof (atoi_returns t). by destruct (atoi t). Qed.

Lemma ints_spec s e r id t l : rel s e -> gstk s = [] -> agrees (same s) r (variable_definition mem cmem s (pr_v (VInts id (t :: l)) ++ r)) (when s (sem_v mem cmem (VInts id (t :: l)) e) e).
Proof.
  intros R Hg. cbn [pr_v]. rewrite <- !app_assoc. change ([IDENTIFIER id; CH 61; CH 91] ++ ?x) with (IDENTIFIER id :: CH 61 :: CH 91 :: x). change ([CH 93; CH 59] ++ r) with (CH 93 :: CH 59 :: r).
  unfold variable_definition. rewrite (hx_nil s) at 2. rewrite hx_token. change (length (heap s) + length [])%nat with (length (heap s) + 0)%nat. rewrite ch_eq. cbn [orerr]. rewrite ch_eq. cbn [orerr].
  match goal with |- context [p_list _ _ ?a ?p ?ts] => change (p_list mem cmem a p ts) with (match p_numbers a ts with None => Ret (Err a) | Some (ps, s, r) => let* s := reduce_numbers s ps in finish 59 (set_intstk 1 s) r (fun s => act_list mem cmem s p) end) end.
  rewrite (p_numbers_spec l t s ([] ++ [Some id]) (Some (length (heap s) + 0)%nat) (CH 59 :: r)). generalize (Some (length (heap s) + (length ([] ++ [Some id]) + length l))%nat) as y'. intros y'. rewrite (reduce_numbers_spec (t :: l) s ([] ++ [Some id]) y' Hg). cbn [app]. unfold when. cbn [sem_v].
  set (h := Some id :: replicate (length (t :: l)) None). assert (h !! 0%nat = Some (Some id)) as Hh by done. destruct (on s) eqn:Eo.
  - pose proof (atois_returns (t :: l)) as Hnb. destruct (atois (t :: l)) as [ns| |]; [|done|done]. cbn [obind]. rewrite finish_eq. set (N := last64 ns). set (s1 := set_intstk 1 (set_gstk (SInt <$> N) s)). change (set_intstk 1 (hx (set_gstk (SInt <$> N) s) h y')) with (hx s1 h y').
    assert (intstack_size (hx s1 h y') = length N) as HL by (unfold intstack_size, s1; cbn; by rewrite length_fmap).
    assert (exists s2, (if cmem (length N) then let* r := pops pop_int (length N) (hx s1 h y') in let '(l, s) := r in Ret (Some l, s) else Ret (None, hx s1 h y')) = Ret (listval cmem N, hx s2 h y') /\ (exists g, s2 = set_intstk 1 (set_gstk g s))) as (s2 & E2 & g & ->).
    { unfold listval. destruct (cmem (length N)); [|exists s1; split; [done|by eexists]]. rewrite (pops_ints N) by done. exists (set_gstk [] s1). split; [done|]. by exists []. }
    unfold act_list. rewrite HL. change (on (hx s1 h y')) with (on s). rewrite Eo. change (intstk (hx s1 h y')) with 1. cbn [andb Z.eqb Pos.eqb]. rewrite E2. cbn [obind].
    destruct (list_end s g 1 h y' id (Z.of_nat (length N), None, listval cmem N, None) e (fun c k => addentry_intlist mem c k (listval cmem N) (Z.of_nat (length N))) R Eo Hh I I eq_refl) as (s' & E & HS & HR); [intros cf; by apply with_store|].
    rewrite E. cbn [obind]. done.
  - cbn [obind]. rewrite finish_eq. unfold act_list. change (on (set_intstk 1 (hx s h y'))) with (on s). rewrite Eo. cbn [andb obind]. change (intstack_clear (set_intstk 1 (hx s h y'))) with (hx (set_intstk 1 (set_gstk [] s)) h y').
    rewrite (hx_free' (set_intstk 1 (set_gstk [] s)) s h y' 0 id) by done. cbn [obind]. split; [done|]. split; [by apply rel_hx, rel_gstk|done].
Qed.

(** The pointers of a list of strings, in every heap in which their texts come last. *)
Definition points (base : nat) (h' : list (option (list Z))) (ps : list (option nat)) (l : list (list Z)) : Prop :=
  forall hh, length hh = base -> Forall (good_p (hh ++ h')) ps /\ deref_p (hh ++ h') <$> ps = nonempty <$> l.

(** Where the value of the last token with a text points, in a heap whose texts from [base]
    on are [h]. *)
Definition yl (base : nat) (h : list (option (list Z))) (y : option nat) (x : lasttext) : Prop :=
  match x with
  | Gone => exists i, y = Some (base + i)%nat /\ h !! i = Some None
  | Null => y = None
  | Elem t => exists i, y = Some (base + i)%nat /\ h !! i = Some (Some t)
  end.
Lemma yl_app base h1 h2 y x : yl (base + length h1) h2 y x -> yl base (h1 ++ h2) y x.
Proof.
  destruct x as [| |t]; cbn; [|done|]; intros (i & -> & H); exists (length h1 + i)%nat; (split; [f_equal; lia|]); rewrite lookup_app_r by lia; by replace (length h1 + i - length h1)%nat with i by lia.
Qed.

Lemma qstring_spec t s h y : exists p h1 y1, qstring_text (hx s h y) t = (p, hx s (h ++ h1) y1) /\ points (length (heap s) + length h) h1 [p] [t] /\ yl (length (heap s) + length h) h1 y1 (elem_of_text t).
Proof.
  destruct t as [|x t]; cbn [qstring_text].
  - exists None, [], None. split; [unfold hx, set_yylval; cbn; by rewrite app_nil_r|]. split; [|done]. intros hh _. split; [by repeat constructor|done].
  - rewrite hx_token. eexists _, [Some (x :: t)], _. split; [done|]. split; [|exists 0%nat; split; [f_equal; lia|done]]. intros hh Hl. cbn. rewrite <- Hl, lookup_app_r, Nat.sub_diag by lia. cbn. split; [|done]. constructor; [|constructor]. cbn. rewrite lookup_app_r, Nat.sub_diag by lia. by eexists.
Qed.
Lemma points_cons base h1 h2 p ps t l : points base h1 [p] [t] -> points (base + length h1) h2 ps l -> points base (h1 ++ h2) (p :: ps) (t :: l).
Proof.
  intros H1 H2 hh Hl. rewrite app_assoc. destruct (H1 hh Hl) as [G1 D1]. apply Forall_cons in G1 as [G1 _]. injection D1 as D1. destruct (good_p_app (hh ++ h1) h2 p G1) as [G1' D1'].
  destruct (H2 (hh ++ h1)) as [G2 D2]; [rewrite length_app; lia|]. split; [by constructor|]. cbn. rewrite D1', D1. f_equal. exact D2.
Qed.

Lemma p_strings_spec l : forall t s h y r, exists ps h' y',
  p_strings (hx s h y) (comma_sep QSTRING (t :: l) ++ CH 93 :: r) = Some (ps, hx s (h ++ h') y', r) /\ points (length (heap s) + length h) h' ps (t :: l) /\
  yl (length (heap s) + length h) h' y' (elem_of_text (default [] (last (t :: l)))).
Proof.
  induction l as [|t' l IH]; intros t s h y r; destruct (qstring_spec t s h y) as (p & h1 & y1 & Eq & Hp & Hy).
  - change (comma_sep QSTRING [t] ++ CH 93 :: r) with (QSTRING t :: CH 93 :: r). cbn [p_strings]. rewrite Eq, Z.eqb_refl. by eexists _, h1, y1.
  - change (comma_sep QSTRING (t :: t' :: l) ++ CH 93 :: r) with (QSTRING t :: CH 44 :: (comma_sep QSTRING (t' :: l) ++ CH 93 :: r)). cbn [p_strings]. rewrite Eq. cbn [Z.eqb Pos.eqb].
    destruct (IH t' s (h ++ h1) y1 r) as (ps & h2 & y2 & -> & Hps & Hy2). rewrite length_app, Nat.add_assoc in Hps, Hy2. eexists _, (h1 ++ h2), y2. rewrite app_assoc. split; [done|]. split; [by apply points_cons|]. by apply yl_app.
Qed.

Lemma reduce_strings_spec ps : forall s, gstk s = [] -> on s = true -> reduce_strings s ps = set_gstk (SStr <$> last64 ps) s.
Proof.
  induction ps as [|p ps IH]; intros s Hg Eo; cbn; [rewrite <- Hg; by destruct s|]. unfold reduce_strings in IH. rewrite IH by done. unfold act_string. change (on (set_gstk (SStr <$> last64 ps) s)) with (on s). rewrite Eo. unfold push_str. by rewrite (push_last64 SStr p ps).
Qed.
Lemma reduce_strings_off ps s : on s = false -> reduce_strings s ps = s.
Proof. intros Eo. induction ps as [|p ps IH]; [done|]. cbn. unfold reduce_strings in IH. rewrite IH. unfold act_string. by rewrite Eo. Qed.

Lemma last64_fmap {A B} (f : A -> B) l : f <$> last64 l = last64 (f <$> l).
Proof. unfold last64. by rewrite length_fmap, fmap_drop. Qed.

Lemma strs_spec s e r id t l : rel s e -> gstk s = [] -> agrees (same s) r (variable_definition mem cmem s (pr_v (VStrs id (t :: l)) ++ r)) (when s (sem_v mem cmem (VStrs id (t :: l)) e) e).
Proof.
  intros R Hg. cbn [pr_v]. rewrite <- !app_assoc. change ([IDENTIFIER id; CH 61; CH 91] ++ ?x) with (IDENTIFIER id :: CH 61 :: CH 91 :: x). change ([CH 93; CH 59] ++ r) with (CH 93 :: CH 59 :: r).
  unfold variable_definition. rewrite (hx_nil s) at 2. rewrite hx_token. change (length (heap s) + length [])%nat with (length (heap s) + 0)%nat. rewrite ch_eq. cbn [orerr]. rewrite ch_eq. cbn [orerr].
  match goal with |- context [p_list _ _ ?a ?p ?ts] => change (p_list mem cmem a p ts) with (match p_strings a ts with None => Ret (Err a) | Some (ps, s, r) => finish 59 (set_intstk 0 (reduce_strings s ps)) r (fun s => act_list mem cmem s p) end) end.
  destruct (p_strings_spec l t s ([] ++ [Some id]) (Some (length (heap s) + 0)%nat) (CH 59 :: r)) as (ps & h' & y' & -> & Hps & _). rewrite finish_eq. cbn [app length] in *. set (h := Some id :: h'). assert (h !! 0%nat = Some (Some id)) as Hh by done. unfold when.
  destruct (on s) eqn:Eo.
  - rewrite (reduce_strings_spec ps (hx s h y')) by done. set (P := last64 ps). set (s1 := set_intstk 0 (set_gstk (SStr <$> P) s)). change (set_intstk 0 (set_gstk (SStr <$> P) (hx s h y'))) with (hx s1 h y').
    assert (intstack_size (hx s1 h y') = length P) as HL by (unfold intstack_size, s1; cbn; by rewrite length_fmap).
    assert (exists s2, (if cmem (length P) then let* r := pops pop_str (length P) (hx s1 h y') in let '(l, s) := r in Ret (Some l, s) else Ret (None, hx s1 h y')) = Ret (listval cmem P, hx s2 h y') /\ (exists g, s2 = set_intstk 0 (set_gstk g s))) as (s2 & E2 & g & ->).
    { unfold listval. destruct (cmem (length P)); [|exists s1; split; [done|by eexists]]. rewrite (pops_strs P) by done. exists (set_gstk [] s1). split; [done|]. by exists []. }
    unfold act_list. rewrite HL. change (on (hx s1 h y')) with (on s). rewrite Eo. change (intstk (hx s1 h y')) with 0. cbn [andb Z.eqb]. rewrite E2. cbn [obind].
    set (c := (Z.of_nat (length P), None, None, listval cmem P) : cell). assert (forall z, good (heap s ++ z :: h') c /\ resolve (heap s ++ z :: h') c = (Z.of_nat (length (last64 (nonempty <$> t :: l))), None, None, listval cmem (last64 (nonempty <$> t :: l)))) as HC.
    { intros z. destruct (Hps (heap s ++ [z])) as [G D]; [rewrite length_app; cbn; lia|]. rewrite <- app_assoc in G, D. cbn [app] in G, D. rewrite <- D, <- last64_fmap. fold P. unfold c, listval. rewrite !length_fmap. destruct (cmem (length P)); [|done]. cbn. split; [|done].
      unfold P, last64. by apply Forall_drop. }
    destruct (HC (Some id)) as [G1 D1], (HC None) as [G2 D2]. destruct (list_end s g 0 h y' id c e (fun cf k => addentry_strlist mem cf k (listval cmem P) (Z.of_nat (length P))) R Eo Hh G1 G2) as (s' & E & HS & HR); [exact (eq_trans D2 (eq_sym D1))|intros cf; by apply with_store|].
    rewrite E. cbn [obind sem_v]. assert (resolve (heap s ++ h) c = _) as D3 by exact D1. rewrite D3 in HR. done.
  - rewrite reduce_strings_off by done. unfold act_list. change (on (set_intstk 0 (hx s h y'))) with (on s). rewrite Eo. cbn [andb obind]. change (intstack_clear (set_intstk 0 (hx s h y'))) with (hx (set_intstk 0 (set_gstk [] s)) h y').
    rewrite (hx_free' (set_intstk 0 (set_gstk [] s)) s h y' 0 id) by done. cbn [obind]. split; [done|]. split; [by apply rel_hx, rel_gstk|done].
Qed.

Lemma var_spec s e r v : rel s e -> gstk s = [] -> wf_v v -> agrees (same s) r (variable_definition mem cmem s (pr_v v ++ r)) (when s (sem_v mem cmem v e) e).
Proof.
  intros R Hg Hv. destruct v as [id t|id t|id|id|id l|id l|t|]; [by apply int_spec|by apply str_spec| | | | |by apply print_spec|by apply exit_spec].
  - apply (flag_spec s e r id RW_FLAG_ON); [done|done|by left].
  - apply (flag_spec s e r id RW_FLAG_OFF); [done|done|by right].
  - destruct l as [|t l]; [done|]. by apply ints_spec.
  - destruct l as [|t l]; [done|]. by apply strs_spec.
Qed.

(** *** Sequences *)
Lemma many1_spec {A} start p (pr : A -> list token) sem (I : pst -> Prop) (ok : list token -> Prop) r (xs : list A) : forall fuel s e,
  (forall x s e r', x ∈ xs -> I s -> rel s e -> ok r' -> agrees I r' (p s (pr x ++ r')) (sem x e)) -> (forall x r', x ∈ xs -> start (pr x ++ r') = true /\ ok (pr x ++ r')) -> start r = false -> ok r ->
  xs <> [] -> (length xs <= fuel)%nat -> I s -> rel s e -> agrees I r (many1 start p fuel s (concat (pr <$> xs) ++ r)) (semseq sem xs e).
Proof.
  induction xs as [|x xs IH]; intros fuel s e Hp Hs Hr Hok Hne Hf HI HR; [done|]. destruct fuel as [|fuel]; [cbn in Hf; lia|]. cbn [fmap list_fmap concat many1 semseq]. rewrite <- app_assoc.
  assert (xs <> [] -> start (concat (pr <$> xs) ++ r) = true /\ ok (concat (pr <$> xs) ++ r)) as Hx.
  { destruct xs as [|x' xs]; [done|]. intros _. cbn [fmap list_fmap concat]. rewrite <- app_assoc. apply Hs. right. by left. }
  eapply agrees_bind; [apply Hp; [by left|done|done|]|].
  - destruct xs as [|x' xs]; [done|]. by apply Hx.
  - cbn beta. intros s1 e1 HI1 HR1. destruct xs as [|x' xs]; [cbn; by rewrite Hr|]. destruct Hx as [Hx _]; [done|]. cbn [fmap list_fmap concat] in *. rewrite Hx. apply IH; try done; [|intros ? ? ?; apply Hs; by right|cbn in *; lia]. intros y s2 e2 r' Hy. apply Hp. by right.
Qed.
Lemma semseq_when {A} (b : bool) (sem : A -> env -> outcome (bool * env)) l e : semseq (fun x e => if b then sem x e else Ret (false, e)) l e = if b then semseq sem l e else Ret (false, e).
Proof. destruct b; [done|]. induction l as [|x l IH]; [done|]. cbn. exact IH. Qed.

Lemma concat_length {A B} (pr : A -> list B) l r : (forall x, x ∈ l -> pr x <> []) -> (length l <= length (concat (pr <$> l) ++ r))%nat.
Proof.
  intros H. induction l as [|x l IH]; cbn; [lia|]. rewrite <- app_assoc, length_app. specialize (IH ltac:(intros y Hy; apply H; by right)). assert (pr x <> []) as Hx by (apply H; by left). destruct (pr x); [done|]. cbn. lia.
Qed.
Lemma pr_v_start v r : starts_var (pr_v v ++ r) = true.
Proof. by destruct v. Qed.
Lemma pr_v_ne v : pr_v v <> [].
Proof. by destruct v. Qed.

Lemma same_refl s : gstk s = [] -> same s s.
Proof. intros H. unfold same. by split_and!. Qed.
Lemma same_on s s' : same s s' -> on s' = on s.
Proof. intros (H & _). unfold on. by rewrite H. Qed.
Lemma same_trans s1 s2 s3 : same s1 s2 -> same s2 s3 -> same s1 s3.
Proof. intros (A1 & A2 & A3 & A4 & A5) (B1 & B2 & B3 & B4 & B5). unfold same. split_and!; congruence. Qed.

Lemma vars_spec s e r l : rel s e -> gstk s = [] -> wf_vs l -> starts_var r = false -> agrees (same s) r (variable_definitions mem cmem s (pr_vs l ++ r)) (when s (sem_vs mem cmem l e) e).
Proof.
  intros R Hg [Hne Hwf] Hr. unfold variable_definitions, pr_vs, when, sem_vs. rewrite <- semseq_when. apply (many1_spec _ _ pr_v _ (same s) (fun _ => True)); [|intros x r' _; split; [apply pr_v_start|done]|done|done|done| |by apply same_refl|done].
  - intros v s1 e1 r' Hv HI HR _. rewrite <- (same_on _ _ HI). rewrite Forall_forall in Hwf. eapply agrees_mono; [apply (var_spec s1 e1 r' v HR); [apply HI|by apply Hwf]|]. intros s2 H2. by eapply same_trans.
  - apply Nat.le_le_succ_r, concat_length. intros x _. apply pr_v_ne.
Qed.
Lemma opt_spec s e r l : rel s e -> gstk s = [] -> Forall wf_v l -> starts_var r = false -> agrees (same s) r (opt_definitions mem cmem s (pr_vs l ++ r)) (when s (sem_vs mem cmem l e) e).
Proof.
  intros R Hg Hwf Hr. unfold opt_definitions. destruct l as [|v l].
  - cbn [pr_vs fmap list_fmap concat app]. rewrite Hr. unfold when, sem_vs. cbn. destruct (on s); (split; [done|split; [done|by apply same_refl]]).
  - assert (starts_var (pr_vs (v :: l) ++ r) = true) as -> by (unfold pr_vs; cbn [fmap list_fmap concat]; rewrite <- app_assoc; apply pr_v_start). by apply vars_spec.
Qed.

(** *** Conditions *)
Lemma value_spec s e id : rel s e -> sysconf_int (conf s) id = value_of e id.
Proof.
  intros [R1 R2 _ _ _]. destruct (gets (conf s) id R1) as (_ & -> & _). unfold o_int, value_of. rewrite R2, lookup_fmap. by destruct (abs (conf s) !! lower id) as [[[[n v] l] sl]|].
Qed.
Lemma token_first s t : token_text s t = (Some (length (heap s) + 0)%nat, hx s [Some t] (Some (length (heap s) + 0)%nat)).
Proof. rewrite (hx_nil s) at 1. apply hx_token. Qed.
(** The condition of [if] and [switch] is read, and its name freed. *)
Lemma condition_spec s e id r a f : rel s e -> (forall n s p, a s p = (let* n := getint s p in free (f n s) p) /\ (forall h y, f n (hx s h y) = hx (f n s) h y) /\ heap (f n s) = heap s /\ conf (f n s) = conf s /\ out (f n s) = out s) ->
  exists s', condition s (pr_cond id ++ r) a true = Ret (Ok s' r) /\ rel s' e /\ s' = hx (f (value_of e id) s) [None] (Some (length (heap s) + 0)%nat).
Proof.
  intros R Ha. unfold condition, pr_cond. cbn [app]. rewrite ch_eq. cbn [orerr]. rewrite token_first. rewrite ch_eq. cbn [orerr]. rewrite finish_eq. destruct (Ha 0 (hx s [Some id] (Some (length (heap s) + 0)%nat)) (Some (length (heap s) + 0)%nat)) as [-> _].
  cbn [getint]. rewrite (hx_text s _ _ 0 id) by done. cbn [obind]. change (conf (hx s ?h ?y)) with (conf s). rewrite (value_spec s e id R). destruct (Ha (value_of e id) s None) as (_ & -> & Hh & Hc & Ho). rewrite (hx_free' _ s _ _ 0 id) by done. cbn [obind]. eexists. split; [done|].
  split; [|done]. apply rel_hx. destruct R as [R1 R2 R3 R4 R5]. split; [by rewrite Hc|by rewrite Hh, Hc|by rewrite Hh, Hc|by rewrite Hc|by rewrite Ho].
Qed.

(** *** [if] *)
Definition top (s : pst) : Prop := iftrue s = 1 /\ gstk s = [].
Definition no_else (ts : list token) : Prop := match ts with (RW_ELSE | RW_ELSE_IF) :: _ => False | _ => True end.
Lemma sbind_ret x : sbind x (fun e => Ret (false, e)) = x.
Proof. by destruct x as [[[|] e]| |]. Qed.
Lemma on_top s : iftrue s = 1 -> on s = true.
Proof. unfold on. by intros ->. Qed.

Lemma else_spec s e r b : rel s e -> gstk s = [] -> wf_vs b ->
  agrees top r (else_part mem cmem s (CH 123 :: pr_vs b ++ CH 125 :: r)) (if ifevertrue s =? 0 then sem_vs mem cmem b e else Ret (false, e)).
Proof.
  intros R Hg Hb. unfold else_part. rewrite finish_eq. cbn [obind rbind]. set (s1 := act_else s). assert (rel s1 e) as R1 by (destruct R; by split). assert (on s1 = (ifevertrue s =? 0)) as Ho by (unfold on, s1, act_else; cbn; by destruct (ifevertrue s =? 0)).
  rewrite <- sbind_ret. rewrite <- Ho. eapply agrees_bind; [apply (vars_spec s1 e (CH 125 :: r) b R1 Hg Hb eq_refl)|]. cbn beta. intros s2 e2 (_ & _ & _ & _ & Hg2) R2. rewrite finish_eq. cbn [obind]. split; [done|]. split; [destruct R2; by split|done].
Qed.

Lemma if_cond s e id r : rel s e -> exists s', condition s (pr_cond id ++ r) act_if true = Ret (Ok s' r) /\ rel s' e /\ gstk s' = gstk s /\ on s' = (0 <? value_of e id) /\ (ifevertrue s' =? 0) = negb (0 <? value_of e id) /\
  exists s0, s' = hx s0 [None] (Some (length (heap s0) + 0)%nat) /\ rel s0 e /\ heap s0 = heap s.
Proof.
  intros R. destruct (condition_spec s e id r act_if (fun n s => let t := if 0 <? n then 1 else 0 in set_ifevertrue t (set_iftrue t s)) R) as (s' & E & R' & Hs); [by intros n s0 p|]. exists s'. split; [done|]. split; [done|]. rewrite Hs. split_and!; [done|unfold on; cbn; by destruct (0 <? value_of e id)|cbn; by destruct (0 <? value_of e id)|]. exists (let t := if 0 <? value_of e id then 1 else 0 in set_ifevertrue t (set_iftrue t s)). split; [reflexivity|]. split; [destruct R; by split|done].
Qed.

(** *** A body that is skipped, and what its last text is *)
Lemma lookup_mid {A} (h h2 : list A) x : (h ++ x :: h2) !! length h = Some x.
Proof. by rewrite lookup_app_r, Nat.sub_diag by lia. Qed.
Lemma insert_mid {A} (h h2 : list A) x z : <[length h := z]> (h ++ x :: h2) = h ++ z :: h2.
Proof. rewrite <- (Nat.add_0_r (length h)). by rewrite insert_app_r. Qed.
Lemma free_mid s h h2 y t : free (hx s (h ++ Some t :: h2) y) (Some (length (heap s) + length h)%nat) = Ret (hx s (h ++ None :: h2) y).
Proof. rewrite (hx_free _ _ _ _ t) by apply lookup_mid. by rewrite insert_mid. Qed.
Lemma intstk_same s : set_intstk (intstk s) s = s.
Proof. by destruct s. Qed.
Lemma act_assign_off s p add : on s = false -> act_assign s p add = Ret s.
Proof. unfold act_assign. by intros ->. Qed.

Definition skipped (s : pst) (r : list token) (x : lasttext) (m : outcome res) : Prop :=
  exists k h y, m = Ret (Ok (hx (set_intstk k s) h y) r) /\ yl (length (heap s)) h y x.
Lemma skipped_intro s r x h y : yl (length (heap s)) h y x -> skipped s r x (Ret (Ok (hx s h y) r)).
Proof. intros H. exists (intstk s), h, y. by rewrite intstk_same. Qed.

Lemma off_one s h y id t r : on s = false -> (t = RW_FLAG_ON \/ t = RW_FLAG_OFF) -> skipped s r Gone (variable_definition mem cmem (hx s h y) (IDENTIFIER id :: CH 61 :: t :: CH 59 :: r)).
Proof.
  intros Ho Ht. unfold variable_definition. rewrite hx_token, ch_eq. cbn [orerr]. destruct Ht as [-> | ->]; rewrite finish_eq; [unfold act_on|unfold act_off]; rewrite act_assign_off by done; cbn [obind]; rewrite free_mid; cbn [obind];
    apply skipped_intro; exists (length h); (split; [done|apply lookup_mid]).
Qed.
(** Two texts, both freed. *)
Lemma free2_off s h y id t : free2 (hx s ((h ++ [Some id]) ++ [Some t]) y) (Some (length (heap s) + length h)%nat) (Some (length (heap s) + length (h ++ [Some id]))%nat) = Ret (hx s ((h ++ [None]) ++ [None]) y).
Proof.
  unfold free2. rewrite <- app_assoc. cbn [app]. rewrite free_mid. cbn [obind]. replace (h ++ [None; Some t]) with ((h ++ [None]) ++ Some t :: []) by (by rewrite <- app_assoc).
  replace (length (h ++ [Some id])) with (length (h ++ [@None (list Z)])) by (by rewrite !length_app). by rewrite free_mid.
Qed.
Lemma off_two s h y id t r tk : on s = false -> (tk = DIGIT t \/ (tk = QSTRING t /\ t <> [])) -> skipped s r Gone (variable_definition mem cmem (hx s h y) (IDENTIFIER id :: CH 61 :: tk :: CH 59 :: r)).
Proof.
  intros Ho Ht. unfold variable_definition. rewrite hx_token, ch_eq. cbn [orerr].
  assert (forall m, m = Ret (hx s ((h ++ [None]) ++ [None]) (Some (length (heap s) + length (h ++ [Some id]))%nat)) -> skipped s r Gone (let* s := m in Ret (Ok s r))) as Hend.
  { intros m ->. cbn [obind]. apply skipped_intro. exists (length (h ++ [@None (list Z)])). split; [by rewrite !length_app|apply lookup_mid]. }
  destruct Ht as [-> |[-> Hne]]; [|destruct t as [|x t]; [done|]; cbn [qstring_text]]; rewrite hx_token, finish_eq; apply Hend; [unfold act_int|unfold act_str]; rewrite act_assign_off by done; cbn [obind]; apply free2_off.
Qed.
Lemma off_empty s h y id r : on s = false -> skipped s r Null (variable_definition mem cmem (hx s h y) (IDENTIFIER id :: CH 61 :: QSTRING [] :: CH 59 :: r)).
Proof.
  intros Ho. unfold variable_definition. rewrite hx_token, ch_eq. cbn [orerr qstring_text]. rewrite finish_eq. unfold act_str. rewrite act_assign_off by done. cbn [obind]. unfold free2. change (set_yylval None (hx s ?h ?y)) with (hx s h None).
  rewrite free_mid. cbn [obind free]. by apply skipped_intro.
Qed.
Lemma off_list s k h h2 y id r x : on s = false -> gstk s = [] -> yl (length (heap s) + length (h ++ [Some id])) h2 y x ->
  skipped s r x (let* s := act_list mem cmem (set_intstk k (hx s (h ++ Some id :: h2) y)) (Some (length (heap s) + length h)%nat) in Ret (Ok s r)).
Proof.
  intros Ho Hg Hy. unfold act_list. change (on (set_intstk k (hx s ?h ?y))) with (on s). rewrite Ho. cbn [andb obind].
  change (intstack_clear (set_intstk k (hx s ?h ?y))) with (hx (set_intstk k (set_gstk [] s)) h y). change (length (heap s)) with (length (heap (set_intstk k (set_gstk [] s)))) at 1. rewrite free_mid. cbn [obind].
  exists k, (h ++ None :: h2), y. replace (set_gstk [] s) with s by (rewrite <- Hg; by destruct s). split; [done|]. rewrite (cons_middle None h h2), app_assoc. apply yl_app. rewrite length_app in *. exact Hy.
Qed.

Lemma off_var s h y x v r : on s = false -> gstk s = [] -> wf_v v -> yl (length (heap s)) h y x -> skipped s r (last_v x v) (variable_definition mem cmem (hx s h y) (pr_v v ++ r)).
Proof.
  intros Ho Hg Hw Hy. destruct v as [id t|id t|id|id|id l|id l|t|]; cbn [last_v pr_v].
  - apply (off_two s h y id t); [done|by left].
  - destruct t as [|c t]; [by apply off_empty|]. apply (off_two s h y id (c :: t)); [done|by right].
  - apply (off_one s h y id RW_FLAG_ON); [done|by left].
  - apply (off_one s h y id RW_FLAG_OFF); [done|by right].
  - destruct l as [|t l]; [done|]. rewrite <- !app_assoc. change ([IDENTIFIER id; CH 61; CH 91] ++ ?z) with (IDENTIFIER id :: CH 61 :: CH 91 :: z). change ([CH 93; CH 59] ++ r) with (CH 93 :: CH 59 :: r).
    unfold variable_definition. rewrite hx_token, ch_eq. cbn [orerr]. rewrite ch_eq. cbn [orerr].
    match goal with |- context [p_list _ _ ?a ?p ?ts] => change (p_list mem cmem a p ts) with (match p_numbers a ts with None => Ret (Err a) | Some (ps, s, r) => let* s := reduce_numbers s ps in finish 59 (set_intstk 1 s) r (fun s => act_list mem cmem s p) end) end.
    rewrite p_numbers_spec, reduce_numbers_spec, Ho by done. cbn [obind]. rewrite finish_eq, <- app_assoc. cbn [app]. apply off_list; [done|done|]. exists (length l). split; [f_equal; lia|]. cbn [length]. by apply lookup_replicate_2; lia.
  - destruct l as [|t l]; [done|]. rewrite <- !app_assoc. change ([IDENTIFIER id; CH 61; CH 91] ++ ?z) with (IDENTIFIER id :: CH 61 :: CH 91 :: z). change ([CH 93; CH 59] ++ r) with (CH 93 :: CH 59 :: r).
    unfold variable_definition. rewrite hx_token, ch_eq. cbn [orerr]. rewrite ch_eq. cbn [orerr].
    match goal with |- context [p_list _ _ ?a ?p ?ts] => change (p_list mem cmem a p ts) with (match p_strings a ts with None => Ret (Err a) | Some (ps, s, r) => finish 59 (set_intstk 0 (reduce_strings s ps)) r (fun s => act_list mem cmem s p) end) end.
    destruct (p_strings_spec l t s (h ++ [Some id]) (Some (length (heap s) + length h)%nat) (CH 59 :: r)) as (ps & h2 & y2 & -> & _ & Hy2). rewrite finish_eq, reduce_strings_off, <- app_assoc by done. cbn [app]. by apply off_list.
  - unfold variable_definition. cbn [app]. destruct t as [|c t]; cbn [qstring_text].
    + rewrite finish_eq. unfold act_print. change (on (set_yylval None (hx s h y))) with (on s). rewrite Ho. cbn [obind free]. by apply (skipped_intro s r Null h None).
    + rewrite hx_token, finish_eq. unfold act_print. rewrite on_hx, Ho. cbn [obind]. rewrite free_mid. cbn [obind]. apply skipped_intro. exists (length h). split; [done|apply lookup_mid].
  - unfold variable_definition. cbn [app]. rewrite ch_eq. cbn [orerr]. rewrite on_hx, Ho. by apply skipped_intro.
Qed.
Lemma off_vars l : forall fuel s h y x r, l <> [] -> (length l <= fuel)%nat -> starts_var r = false -> on s = false -> gstk s = [] -> Forall wf_v l -> yl (length (heap s)) h y x ->
  skipped s r (foldl last_v x l) (many1 starts_var (variable_definition mem cmem) fuel (hx s h y) (pr_vs l ++ r)).
Proof.
  induction l as [|v l IH]; intros fuel s h y x r Hne Hf Hr Ho Hg Hw Hy; [done|]. destruct fuel as [|fuel]; [cbn in Hf; lia|]. apply Forall_cons in Hw as [Hv Hw]. unfold pr_vs. cbn [fmap list_fmap concat many1 foldl]. rewrite <- app_assoc. fold (pr_vs l).
  destruct (off_var s h y x v (pr_vs l ++ r) Ho Hg Hv Hy) as (k & h1 & y1 & -> & Hy1). cbn [rbind obind]. destruct l as [|v' l]; [cbn [pr_vs fmap list_fmap concat app foldl]; rewrite Hr; by exists k, h1, y1|].
  assert (starts_var (pr_vs (v' :: l) ++ r) = true) as -> by (unfold pr_vs; cbn [fmap list_fmap concat]; rewrite <- app_assoc; apply pr_v_start).
  destruct (IH fuel (set_intstk k s) h1 y1 (last_v x v) r ltac:(done) ltac:(cbn in *; lia) Hr Ho Hg Hw Hy1) as (k2 & h2 & y2 & E & Hy2). by exists k2, h2, y2.
Qed.

Lemma rel_empty s e : rel s e -> (smap e = ∅ <-> ents (conf s) = []).
Proof.
  intros [_ R2 _ _ _]. rewrite R2, fmap_empty_iff. unfold abs. split; [|by intros ->]. destruct (ents (conf s)) as [|x l]; [done|]. rewrite fmap_cons, list_to_map_cons. by intros H%insert_non_empty.
Qed.
(** The test of an [else-if] when the first condition was true, and when it was not. *)
Lemma elif_skip s e id r : rel s e -> gstk s = [] -> (ifevertrue s =? 0) = false ->
  exists s', condition s (pr_cond id ++ r) act_elif false = Ret (Ok s' r) /\ rel s' e /\ gstk s' = [] /\ on s' = false /\ (ifevertrue s' =? 0) = false.
Proof.
  intros R Hg He. unfold condition, pr_cond. cbn [app]. rewrite ch_eq. cbn [orerr]. rewrite token_first, ch_eq. cbn [orerr]. rewrite finish_eq. unfold act_elif. change (ifevertrue (hx s ?h ?y)) with (ifevertrue s). rewrite He. cbn [obind].
  eexists. split; [done|]. split; [|done]. pose proof (rel_hx s e [Some id] (Some (length (heap s) + 0)%nat) R) as []. by split.
Qed.
Lemma elif_test s e id r h y b : rel s e -> gstk s = [] -> (ifevertrue s =? 0) = true -> yl (length (heap s)) h y (foldl last_v Gone b) ->
  match elif_value b e with
  | Ret n => exists s', condition (hx s h y) (pr_cond id ++ r) act_elif false = Ret (Ok s' r) /\ rel s' e /\ gstk s' = [] /\ on s' = (0 <? n) /\ (ifevertrue s' =? 0) = negb (0 <? n)
  | Fault f => condition (hx s h y) (pr_cond id ++ r) act_elif false = Fault f
  | Block => False
  end.
Proof.
  intros R Hg He Hy. unfold condition, pr_cond, elif_value. cbn [app]. rewrite ch_eq. cbn [orerr]. rewrite hx_token, ch_eq. cbn [orerr]. rewrite finish_eq. unfold act_elif. change (ifevertrue (hx s ?h ?y)) with (ifevertrue s). rewrite He. change (yylval (hx s h y)) with y.
  assert (forall n h' y', rel (set_ifevertrue n (hx (set_iftrue n s) h' y')) e) as HR.
  { intros n h' y'. pose proof (rel_hx s e h' y' R) as []. by split. }
  destruct (foldl last_v Gone b) as [| |t]; cbn [yl] in Hy.
  - destruct Hy as (i & -> & Hi). cbn [getint text heap hx]. rewrite lookup_app_r by lia. replace (length (heap s) + i - length (heap s))%nat with i by lia. by rewrite (lookup_app_l_Some _ _ _ _ Hi).
  - subst y. cbn [getint]. change (conf (hx s ?h ?y)) with (conf s). pose proof (rel_empty s e R) as Hem. destruct (decide (smap e = ∅)) as [E|E]; destruct (ents (conf s)) eqn:Ee; try (exfalso; naive_solver); [|done].
    cbn [obind free]. eexists. split; [done|]. split; [exact (HR 0 _ _)|done].
  - destruct Hy as (i & -> & Hi). assert ((h ++ [Some id]) !! i = Some (Some t)) as Hi' by by apply lookup_app_l_Some. cbn [getint]. rewrite (hx_text s _ _ i t Hi'). cbn [obind]. change (conf (hx s ?h ?y)) with (conf s). rewrite (value_spec s e t R).
    set (z := if 0 <? value_of e t then 1 else 0). change (set_iftrue z (hx s ?h ?y)) with (hx (set_iftrue z s) h y). rewrite (hx_free' (set_iftrue z s) s _ _ i t) by done. cbn [obind]. eexists. split; [done|]. split; [apply HR|]. split; [done|]. unfold on, z. cbn. by destruct (0 <? value_of e t).
Qed.

(** The end of an [if] with two or three bodies. *)
Lemma else_end s e r b : rel s e -> gstk s = [] -> wf_vs b ->
  agrees top r (orerr (ch 125 (CH 125 :: RW_ELSE :: CH 123 :: pr_vs b ++ CH 125 :: r)) s (fun r => orerr (rw RW_ELSE r) s (fun r => else_part mem cmem s r))) (if ifevertrue s =? 0 then sem_vs mem cmem b e else Ret (false, e)).
Proof. intros R Hg Hb. rewrite ch_eq. cbn [orerr rw]. rewrite decide_True by done. cbn [orerr]. by apply else_spec. Qed.

Lemma elif_spec s e r id b id' b' b'' : rel s e -> top s -> wf_vs b -> wf_vs b' -> wf_vs b'' ->
  agrees top r (ifstm_definition mem cmem s (pr_stm (SIfElif id b id' b' b'') ++ r)) (sem_stm mem cmem (SIfElif id b id' b' b'') e).
Proof.
  intros R [Ht Hg] Hb Hb' Hb''. unfold ifstm_definition. cbn [pr_stm app rw orerr sem_stm]. rewrite decide_True by done. cbn [orerr]. rewrite <- !app_assoc. cbn [app].
  set (rest := pr_cond id' ++ _). destruct (if_cond s e id (pr_vs b ++ CH 125 :: RW_ELSE_IF :: rest ++ r) R) as (s1 & E1 & R1 & Hg1 & Ho & Hev & Hs1).
  assert (rest ++ r = pr_cond id' ++ pr_vs b' ++ CH 125 :: RW_ELSE :: CH 123 :: pr_vs b'' ++ CH 125 :: r) as Hrest by (unfold rest; repeat (rewrite <- app_assoc; cbn [app]); done).
  rewrite E1. cbn [obind rbind]. rewrite Hrest. clear rest Hrest E1. destruct (0 <? value_of e id) eqn:Ev.
  - rewrite <- (sbind_ret (sem_vs mem cmem b e)). pose proof (vars_spec s1 e (CH 125 :: RW_ELSE_IF :: pr_cond id' ++ pr_vs b' ++ CH 125 :: RW_ELSE :: CH 123 :: pr_vs b'' ++ CH 125 :: r) b R1 ltac:(congruence) Hb eq_refl) as HV. unfold when in HV. rewrite Ho in HV.
    eapply agrees_bind; [exact HV|]. cbn beta. intros s2 e2 (_ & He2 & _ & _ & Hg2) R2. rewrite ch_eq. cbn [orerr].
    destruct (elif_skip s2 e2 id' (pr_vs b' ++ CH 125 :: RW_ELSE :: CH 123 :: pr_vs b'' ++ CH 125 :: r) R2 Hg2) as (s3 & -> & R3 & Hg3 & Ho3 & He3); [by rewrite He2|]. cbn [obind rbind].
    rewrite <- (sbind_ret (Ret (false, e2))). pose proof (vars_spec s3 e2 (CH 125 :: RW_ELSE :: CH 123 :: pr_vs b'' ++ CH 125 :: r) b' R3 Hg3 Hb' eq_refl) as HV3. unfold when in HV3. rewrite Ho3 in HV3.
    eapply agrees_bind; [exact HV3|]. cbn beta. intros s4 e4 (_ & He4 & _ & _ & Hg4) R4. pose proof (else_end s4 e4 r b'' R4 Hg4 Hb'') as HE. rewrite He4, He3 in HE. exact HE.
  - destruct Hs1 as (s0 & -> & R0 & Hs0). change (gstk (hx s0 ?h ?y)) with (gstk s0) in Hg1. change (on (hx s0 ?h ?y)) with (on s0) in Ho. change (ifevertrue (hx s0 ?h ?y)) with (ifevertrue s0) in Hev.
    unfold variable_definitions at 1. destruct Hb as [Hbne Hbw].
    destruct (off_vars b (S (length (pr_vs b ++ CH 125 :: RW_ELSE_IF :: pr_cond id' ++ pr_vs b' ++ CH 125 :: RW_ELSE :: CH 123 :: pr_vs b'' ++ CH 125 :: r))) s0 [None] (Some (length (heap s0) + 0)%nat) Gone
      (CH 125 :: RW_ELSE_IF :: pr_cond id' ++ pr_vs b' ++ CH 125 :: RW_ELSE :: CH 123 :: pr_vs b'' ++ CH 125 :: r) Hbne) as (k & h & y & -> & Hy); [apply Nat.le_le_succ_r, concat_length; intros; apply pr_v_ne|done|done|congruence|done|by exists 0%nat|].
    cbn [obind rbind]. rewrite ch_eq. cbn [orerr]. assert (rel (set_intstk k s0) e) as R0' by (destruct R0; by split).
    pose proof (elif_test (set_intstk k s0) e id' (pr_vs b' ++ CH 125 :: RW_ELSE :: CH 123 :: pr_vs b'' ++ CH 125 :: r) h y b R0' ltac:(cbn; congruence) Hev Hy) as HT.
    destruct (elif_value b e) as [n| |f]; [|done|by rewrite HT]. destruct HT as (s3 & -> & R3 & Hg3 & Ho3 & He3). cbn [obind rbind].
    assert ((if 0 <? n then sem_vs mem cmem b' e else sem_vs mem cmem b'' e) = sbind (when s3 (sem_vs mem cmem b' e) e) (fun e => if ifevertrue s3 =? 0 then sem_vs mem cmem b'' e else Ret (false, e))) as ->.
    { unfold when. rewrite Ho3, He3. destruct (0 <? n); [by rewrite sbind_ret|done]. }
    eapply agrees_bind; [by apply (vars_spec s3 e _ b' R3 Hg3 Hb')|]. cbn beta. intros s4 e4 (_ & He4 & _ & _ & Hg4) R4. rewrite <- He4. by apply else_end.
Qed.

Lemma if_spec s e r x : rel s e -> top s -> wf_stm x -> no_else r -> (match x with SIf _ _ | SIfElse _ _ _ => True | _ => False end) ->
  agrees top r (ifstm_definition mem cmem s (pr_stm x ++ r)) (sem_stm mem cmem x e).
Proof.
  intros R [Ht Hg] Hw Hr Hx. unfold ifstm_definition. destruct x as [|id b|id b b'| |]; try done; cbn [pr_stm app rw orerr sem_stm]; rewrite decide_True by done; cbn [orerr]; rewrite <- !app_assoc.
  - destruct (if_cond s e id (pr_vs b ++ [CH 125] ++ r) R) as (s1 & -> & R1 & Hg1 & Ho & _ & _). cbn [obind rbind]. rewrite <- sbind_ret. rewrite <- Ho. eapply agrees_bind; [apply (vars_spec s1 e ([CH 125] ++ r) b R1); [congruence|done|done]|].
    cbn beta. intros s2 e2 (_ & _ & _ & _ & Hg2) R2. cbn [app]. rewrite ch_eq. cbn [orerr].
    assert (agrees top r (Ret (Ok (act_endif s2) r)) (Ret (false, e2))) as HA by (split; [done|split; [destruct R2; by split|done]]). by destruct r as [|[] r].
  - destruct Hw as [Hb Hb']. cbn [app]. rewrite <- !app_assoc. cbn [app]. destruct (if_cond s e id (pr_vs b ++ CH 125 :: RW_ELSE :: CH 123 :: pr_vs b' ++ CH 125 :: r) R) as (s1 & E1 & R1 & Hg1 & Ho & Hev & _). rewrite E1. cbn [obind rbind].
    assert ((if 0 <? value_of e id then sem_vs mem cmem b e else sem_vs mem cmem b' e) = sbind (when s1 (sem_vs mem cmem b e) e) (fun e => if ifevertrue s1 =? 0 then sem_vs mem cmem b' e else Ret (false, e))) as ->.
    { unfold when. rewrite Ho, Hev. destruct (0 <? value_of e id); [by rewrite sbind_ret|done]. }
    eapply agrees_bind; [apply (vars_spec s1 e _ b R1); [congruence|done|done]|]. cbn beta. intros s2 e2 (_ & He2 & _ & _ & Hg2) R2. rewrite ch_eq. cbn [orerr]. rewrite <- He2. by apply else_spec.
Qed.

(** *** [switch] *)
Definition sw (n : Z) (on_ tf : bool) (s : pst) : Prop := sw_value s = n /\ on s = on_ /\ sw_tf s = Z.b2z tf /\ gstk s = [].
(** The labels before a body raise both flags when one of them is the value. *)
Lemma labels_spec n l : forall fuel s e on_ tf r, l <> [] -> (length l <= fuel)%nat -> starts_case r = false -> rel s e -> sw n on_ tf s ->
  match hits n l with
  | Ret h => exists s', many1 starts_case case_label fuel s (pr_labels l ++ r) = Ret (Ok s' r) /\ rel s' e /\ sw n (h || on_) (h || tf) s'
  | Fault f => many1 starts_case case_label fuel s (pr_labels l ++ r) = Fault f
  | Block => False
  end.
Proof.
  induction l as [|t l IH]; intros fuel s e on_ tf r Hne Hf Hr R (S1 & S2 & S3 & S4); [done|]. destruct fuel as [|fuel]; [cbn in Hf; lia|]. unfold pr_labels. cbn [fmap list_fmap concat many1 pr_label app case_label hits]. rewrite token_first, finish_eq. unfold act_case.
  rewrite (hx_text s _ _ 0 t) by done. cbn [obind]. pose proof (atoi_returns t) as Hb. destruct (atoi t) as [m| |f]; [|done|done]. cbn [obind rbind]. set (s1 := if _ =? m then _ else _).
  assert (rel s1 e /\ sw n ((n =? m) || on_) ((n =? m) || tf) s1) as [R1 W1].
  { pose proof (rel_hx s e [Some t] (Some (length (heap s) + 0)%nat) R) as R'. unfold s1. change (sw_value (hx s ?h ?y)) with (sw_value s). rewrite S1. destruct (n =? m); [|done]. split; [destruct R'; by split|done]. }
  destruct l as [|t' l].
  - cbn [fmap list_fmap concat app hits obind]. rewrite Hr, orb_false_r. by exists s1.
  - cbn [fmap list_fmap concat pr_label app starts_case]. specialize (IH fuel s1 e _ _ r ltac:(done) ltac:(cbn in *; lia) Hr R1 W1). destruct (hits n (t' :: l)) as [h| |f]; cbn [obind]; [|done|exact IH].
    destruct IH as (s2 & E2 & R2 & W2). exists s2. split; [exact E2|]. split; [done|]. rewrite (orb_comm (n =? m)), <- !orb_assoc. exact W2.
Qed.

Definition pr_cases (cs : list clause) (d : option dclause) (r : list token) : list token := concat (pr_clause <$> cs) ++ pr_default d ++ CH 125 :: r.
Lemma pr_labels_cons l r : l <> [] -> exists r', pr_labels l ++ r = RW_CASE :: r'.
Proof. destruct l as [|t l]; [done|]. intros _. unfold pr_labels. cbn. by eexists. Qed.
(** What may come behind a clause. *)
Lemma pr_cases_start cs d r : Forall wf_clause cs -> exists t r', pr_cases cs d r = t :: r' /\ ((cs = [] /\ d = None /\ t = CH 125 /\ r' = r) \/ ((cs <> [] \/ d <> None) /\ (t = RW_CASE \/ t = RW_DEFAULT))).
Proof.
  intros Hw. unfold pr_cases. destruct cs as [|c cs].
  - destruct d as [d|]; [|eexists _, _; split; [done|by left]]. cbn. unfold pr_dclause. rewrite <- app_assoc. destruct (dlabels d) as [|t l]; [cbn; eexists _, _; split; [done|right; split; [by right|by right]]|]. destruct (pr_labels_cons (t :: l) (([RW_DEFAULT; CH 58] ++ pr_vs (dbody d) ++ [RW_BREAK; CH 59]) ++ CH 125 :: r) ltac:(done)) as [r' ->]. eexists _, _. split; [done|right; split; [by right|by left]].
  - inversion_clear Hw as [|? ? [Hl _] _]. cbn [fmap list_fmap concat]. unfold pr_clause. rewrite <- !app_assoc. edestruct (pr_labels_cons (labels c)) as [r' ->]; [done|]. eexists _, _. split; [done|right; split; [by left|by left]].
Qed.
Lemma pr_labels_length l r : (length l <= length (pr_labels l ++ r))%nat.
Proof. unfold pr_labels. by apply concat_length. Qed.

Lemma sw_same n on_ tf s s' : sw n on_ tf s -> same s s' -> sw n on_ tf s'.
Proof. intros (A & B & C & D) H. pose proof (same_on _ _ H) as Ho. destruct H as (_ & _ & E & F & G). unfold sw. split_and!; congruence. Qed.
Definition idle (s : pst) : Prop := gstk s = [].

Lemma break_spec s e r n on_ tf : rel s e -> sw n on_ tf s -> agrees (sw n false tf) r (break_stm s (RW_BREAK :: CH 59 :: r)) (Ret (false, e)).
Proof. intros R (A & B & C & D). unfold break_stm. cbn [rw]. rewrite decide_True by done. cbn [orerr]. rewrite finish_eq. cbn. split; [done|]. split; [destruct R; by split|done]. Qed.

Lemma default_spec s e r n on_ tf l : rel s e -> sw n on_ tf s -> Forall wf_v l ->
  agrees idle r (default_part mem cmem s (CH 58 :: pr_vs l ++ RW_BREAK :: CH 59 :: r)) (if negb tf || on_ then sem_vs mem cmem l e else Ret (false, e)).
Proof.
  intros R (A & B & C & D) Hl. unfold default_part. rewrite finish_eq. cbn [obind rbind]. set (s1 := act_default s). assert (rel s1 e /\ sw n (negb tf || on_) tf s1) as [R1 W1].
  { unfold s1, act_default. rewrite C. destruct tf; cbn; [done|]. split; [destruct R; by split|done]. }
  assert (on s1 = negb tf || on_) as <- by apply W1. rewrite <- sbind_ret. eapply agrees_bind; [apply (opt_spec s1 e _ l R1 ltac:(apply W1) Hl); done|]. cbn beta. intros s2 e2 H2 R2. eapply agrees_mono; [eapply break_spec; [done|by eapply sw_same]|]. intros s' H. apply H.
Qed.

(** The body of a clause and its [break]. *)
Lemma body_spec s e r c n on_ tf : rel s e -> sw n on_ tf s -> wf_clause c -> starts_var r = false -> (match r with RW_BREAK :: _ => False | _ => True end) ->
  let ts := pr_vs (body c) ++ (if breaks c then [RW_BREAK; CH 59] else []) ++ r in
  agrees (sw n (negb (breaks c) && on_) tf) r
    (if starts_var ts then rbind (variable_definitions mem cmem s ts) (fun s r => match r with RW_BREAK :: _ => break_stm s r | _ => Ret (Ok s r) end) else break_stm s ts)
    (if on_ then sem_vs mem cmem (body c) e else Ret (false, e)).
Proof.
  intros R W (_ & Hwf & Hne) Hr Hb ts. assert (on s = on_) as <- by apply W. subst ts. destruct (decide (body c = [])) as [Hnil|Hbody].
  - destruct Hne as [?| Hbr]; [done|]. rewrite Hnil, Hbr. cbn. destruct (on s); eapply break_spec; eauto.
  - assert (starts_var (pr_vs (body c) ++ (if breaks c then [RW_BREAK; CH 59] else []) ++ r) = true) as -> by (destruct (body c) as [|v l]; [done|]; unfold pr_vs; cbn [fmap list_fmap concat]; rewrite <- app_assoc; apply pr_v_start).
    rewrite <- sbind_ret. eapply agrees_bind; [apply (vars_spec s e _ (body c) R ltac:(apply W)); [done|by destruct (breaks c)]|]. cbn beta. intros s2 e2 H2 R2. pose proof (sw_same _ _ _ _ _ W H2) as W2. destruct (breaks c); cbn [app negb andb].
    + eapply break_spec; eauto.
    + assert (agrees (sw n (on s) tf) r (Ret (Ok s2 r)) (Ret (false, e2))) as HA by done. destruct r as [|[] r]; done.
Qed.

(** A switch that begins with a label. *)
Lemma cases_step fuel s r r1 s1 ts : ts = RW_CASE :: r1 -> many1 starts_case case_label (S (length ts)) s ts = Ret (Ok s1 r) ->
  case_statements mem cmem (S fuel) s ts = match r with
    | RW_DEFAULT :: r => default_part mem cmem s1 r
    | _ => rbind (if starts_var r then rbind (variable_definitions mem cmem s1 r) (fun s r => match r with RW_BREAK :: _ => break_stm s r | _ => Ret (Ok s r) end) else break_stm s1 r) (fun s r =>
             match r with (RW_CASE | RW_DEFAULT) :: _ => case_statements mem cmem fuel s r | _ => Ret (Ok s r) end)
    end.
Proof. intros -> H. cbn [case_statements]. by rewrite H. Qed.

Lemma cases_fault fuel s r1 f ts : ts = RW_CASE :: r1 -> many1 starts_case case_label (S (length ts)) s ts = Fault f -> case_statements mem cmem (S fuel) s ts = Fault f.
Proof. intros -> H. cbn [case_statements]. by rewrite H. Qed.

Lemma cases_spec n cs d r : forall fuel s e on_ tf, Forall wf_clause cs -> (match d with Some d => Forall wf_v (dbody d) | None => True end) ->
  (cs <> [] \/ d <> None) -> (length cs < fuel)%nat -> rel s e -> sw n on_ tf s ->
  agrees idle (CH 125 :: r) (case_statements mem cmem fuel s (pr_cases cs d r)) (sem_cases mem cmem n on_ tf cs d e).
Proof.
  induction cs as [|c cs IH]; intros fuel s e on_ tf Hw Hd Hne Hf R W; (destruct fuel as [|fuel]; [cbn in Hf; lia|]).
  - destruct d as [d|]; [|exfalso; by destruct Hne as [Hne|Hne]; apply Hne]. unfold pr_cases, pr_default, pr_dclause. cbn [fmap list_fmap concat app sem_cases]. rewrite <- !app_assoc. cbn [app]. rewrite <- !app_assoc. cbn [app]. destruct (dlabels d) as [|t l] eqn:El.
    + cbn. by eapply default_spec.
    + set (rest := RW_DEFAULT :: _). pose proof (labels_spec n (t :: l) (S (length (pr_labels (t :: l) ++ rest))) s e on_ tf rest ltac:(done) ltac:(apply Nat.le_le_succ_r, pr_labels_length) eq_refl R W) as HL.
      destruct (pr_labels_cons (t :: l) rest ltac:(done)) as [r' Hr']. destruct (hits n (t :: l)) as [h| |f]; [|done|by rewrite (cases_fault _ _ _ _ _ Hr' HL)].
      destruct HL as (s1 & E1 & R1 & W1). rewrite (cases_step _ _ _ _ _ _ Hr' E1). by eapply default_spec.
  - inversion_clear Hw as [|? ? Hc Hcs]. destruct (pr_cases_start cs d r Hcs) as (t & r' & Hstart & Ht).
    assert (pr_cases (c :: cs) d r = pr_labels (labels c) ++ pr_vs (body c) ++ (if breaks c then [RW_BREAK; CH 59] else []) ++ pr_cases cs d r) as Hpr by (unfold pr_cases, pr_clause; cbn [fmap list_fmap concat]; by rewrite <- !app_assoc).
    set (ts := pr_vs (body c) ++ _) in Hpr. assert (starts_case ts = false /\ (match ts with RW_DEFAULT :: _ => False | _ => True end)) as [Hts Hts'].
    { subst ts. unfold wf_clause in Hc. destruct (body c) as [|[] l]; [|done..]. destruct Hc as (_ & _ & [?| ->]); done. }
    rewrite Hpr. pose proof (labels_spec n (labels c) (S (length (pr_labels (labels c) ++ ts))) s e on_ tf ts ltac:(apply Hc) ltac:(apply Nat.le_le_succ_r, pr_labels_length) Hts R W) as HL.
    cbn [sem_cases]. destruct (pr_labels_cons (labels c) ts ltac:(apply Hc)) as [r1 Hr1]. destruct (hits n (labels c)) as [h| |f]; [|done|by rewrite (cases_fault _ _ _ _ _ Hr1 HL)].
    destruct HL as (s1 & E1 & R1 & W1). rewrite (cases_step _ _ _ _ _ _ Hr1 E1). clear E1 Hr1 r1. cbn [obind].
    assert (forall A (f : list token -> A) x, match ts with RW_DEFAULT :: r => f r | _ => x end = x) as Hm by (intros A f x; by destruct ts as [|[]]). rewrite Hm.
    eapply agrees_bind; [apply (body_spec s1 e (pr_cases cs d r) c _ _ _ R1 W1 Hc)|].
    + rewrite Hstart. by destruct Ht as [(_ & _ & -> & _)|[_ [-> | ->]]].
    + rewrite Hstart. by destruct Ht as [(_ & _ & -> & _)|[_ [-> | ->]]].
    + cbn beta. intros s2 e2 W2 R2. destruct Ht as [(-> & -> & -> & ->)|[Hne' Ht]].
      * cbn. split; [done|]. split; [done|apply W2].
      * assert (agrees idle (CH 125 :: r) (case_statements mem cmem fuel s2 (pr_cases cs d r)) (sem_cases mem cmem n (negb (breaks c) && (h || on_)) (h || tf) cs d e2)) as HA by (apply IH; try done; cbn in Hf; lia).
        rewrite Hstart in *. by destruct Ht as [-> | ->].
Qed.

Lemma switch_cond s e id r : rel s e -> gstk s = [] -> exists s', condition s (pr_cond id ++ r) act_switch true = Ret (Ok s' r) /\ rel s' e /\ sw (value_of e id) false false s'.
Proof.
  intros R Hg. destruct (condition_spec s e id r act_switch (fun n s => set_sw_tf 0 (set_iftrue 0 (set_sw_value n s))) R) as (s' & E & R' & Hs); [by intros n s0 p|]. exists s'. split; [done|]. split; [done|]. rewrite Hs. unfold sw, on. by cbn.
Qed.
Lemma clauses_length cs d r : Forall wf_clause cs -> (length cs <= length (pr_cases cs d r))%nat.
Proof.
  intros Hw. unfold pr_cases. apply concat_length. intros c Hc. rewrite Forall_forall in Hw. destruct (Hw c Hc) as [Hl _]. unfold pr_clause. destruct (pr_labels_cons (labels c) (pr_vs (body c) ++ (if breaks c then [RW_BREAK; CH 59] else [])) Hl) as [r' ->]. done.
Qed.
Lemma switch_spec s e r id cs d : rel s e -> top s -> wf_stm (SSwitch id cs d) -> agrees top r (switch_definition mem cmem s (pr_stm (SSwitch id cs d) ++ r)) (sem_stm mem cmem (SSwitch id cs d) e).
Proof.
  intros R [Ht Hg] (Hcs & Hne & Hd). unfold switch_definition. cbn [pr_stm app rw sem_stm]. rewrite decide_True by done. cbn [orerr].
  replace ((pr_cond id ++ concat (pr_clause <$> cs) ++ pr_default d ++ [CH 125]) ++ r) with (pr_cond id ++ pr_cases cs d r) by (unfold pr_cases; by rewrite <- !app_assoc).
  destruct (switch_cond s e id (pr_cases cs d r) R Hg) as (s1 & -> & R1 & W1). cbn [obind rbind]. rewrite <- sbind_ret.
  eapply agrees_bind; [apply (cases_spec (value_of e id) cs d r); try done; apply le_n_S, clauses_length, Hcs|]. cbn beta. intros s2 e2 Hg2 R2. rewrite finish_eq. cbn [obind]. split; [done|]. split; [destruct R2; by split|done].
Qed.

(** *** Statements *)
Lemma stm_spec s e r x : rel s e -> top s -> wf_stm x -> no_else r -> agrees top r (statement_definition mem cmem s (pr_stm x ++ r)) (sem_stm mem cmem x e).
Proof.
  intros R Ht Hw Hr. destruct x as [v|id b|id b b'|id b id' b' b''|id cs d].
  - assert (statement_definition mem cmem s (pr_stm (SVar v) ++ r) = variable_definition mem cmem s (pr_v v ++ r)) as -> by (by destruct v).
    cbn [sem_stm]. pose proof (var_spec s e r v R ltac:(apply Ht) Hw) as HV. unfold when in HV. rewrite (on_top s ltac:(apply Ht)) in HV. eapply agrees_mono; [exact HV|]. intros s' (Hi & _ & _ & _ & Hg). split; [|done]. rewrite Hi. apply Ht.
  - by apply (if_spec s e r (SIf id b)).
  - by apply (if_spec s e r (SIfElse id b b')).
  - destruct Hw as (Hb & Hb' & Hb''). by apply (elif_spec s e r id b id' b' b'').
  - by apply switch_spec.
Qed.
Lemma pr_stm_start x r : starts_stm (pr_stm x ++ r) = true /\ no_else (pr_stm x ++ r).
Proof. by destruct x as [[]| | | |]. Qed.
Lemma stms_spec s e r l : rel s e -> top s -> l <> [] -> Forall wf_stm l -> starts_stm r = false -> no_else r ->
  agrees top r (many1 starts_stm (statement_definition mem cmem) (S (length (concat (pr_stm <$> l) ++ r))) s (concat (pr_stm <$> l) ++ r)) (sem_stms mem cmem l e).
Proof.
  intros R Ht Hne Hw Hr Hr'. rewrite Forall_forall in Hw. apply (many1_spec _ _ pr_stm _ top no_else); try done.
  - intros x s1 e1 r' Hx HI HR Hok. apply stm_spec; try done; by apply Hw.
  - intros x r' _. apply pr_stm_start.
  - apply Nat.le_le_succ_r, concat_length. by intros [[]| | | |] _.
Qed.

(** *** The table of rules *)

(** The percentages, as the scanner makes them. *)
Definition wf_rule (x : rule) : Prop := match x with Increase _ t | Lower _ t => (0 < length t <= 9)%nat | Normal _ => True end.
Lemma rel_rule s e c f n : rel s e -> rel (set_conf (snd (sysconf_add_special (conf s) c f n)) s) (set_rule c f n e).
Proof.
  intros R. unfold sysconf_add_special, set_rule. cbn [snd]. destruct ((0 <=? c) && (c <? Z.of_nat MAX_SPECIAL_STUDENT_RULES_ENTRY)); [|by destruct s]. destruct R as [R1 R2 R3 R4 R5]. split; cbn; try done. by rewrite R4.
Qed.
Lemma tag_percent s c f t : (0 < length t <= 9)%nat -> add_tag_percent s [39; c; 39] f t = (let* n := percent t in Ret (set_conf (snd (sysconf_add_special (conf s) c f n)) s)).
Proof. intros H. unfold add_tag_percent, percent. rewrite take_ge by lia. by destruct t; [cbn in H; lia|]. Qed.
Lemma add_special_hx s h y c f n : set_conf (snd (sysconf_add_special (conf (hx s h y)) c f n)) (hx s h y) = hx (set_conf (snd (sysconf_add_special (conf s) c f n)) s) h y.
Proof. done. Qed.

Lemma tag_spec s e c f t r : rel s e -> top s -> (0 < length t <= 9)%nat -> let '(p, s1) := token_text s [39; c; 39] in let '(q, s2) := token_text s1 t in
  agrees top r (finish 59 s2 (CH 59 :: r) (fun s => act_tag s p f q)) (let* n := percent t in Ret (false, set_rule c f n e)).
Proof.
  intros R Ht Hl. rewrite token_first, hx_token. cbn [app length]. rewrite finish_eq. unfold act_tag. rewrite (hx_text s _ _ 0 [39; c; 39]), (hx_text s _ _ 1 t) by done. cbn [obind]. rewrite tag_percent by done. pose proof (atoi_returns (take (length t - 1) t)) as Hb. fold (percent t) in Hb. destruct (percent t) as [n| |]; cbn [obind]; try done.
  rewrite add_special_hx. unfold free2. set (s' := set_conf _ s). rewrite (hx_free' s' s _ _ 0 [39; c; 39]) by done. cbn [obind]. rewrite (hx_free' s' s _ _ 1 t) by done. cbn [obind]. split; [done|]. split; [by apply rel_hx, rel_rule|done].
Qed.
Lemma rule_spec s e x r : rel s e -> top s -> wf_rule x -> agrees top r (tag_definition s (pr_rule x ++ r)) (sem_rule x e).
Proof.
  intros R Ht Hw. destruct x as [c t|c t|c]; cbn [pr_rule app tag_definition sem_rule].
  - exact (tag_spec s e c 1 t r R Ht Hw).
  - exact (tag_spec s e c 2 t r R Ht Hw).
  - rewrite token_first, finish_eq. unfold act_tag0. rewrite (hx_text s _ _ 0 [39; c; 39]) by done. cbn [obind]. rewrite tag_percent by (cbn; lia). change (percent [48; 37]) with (Ret 0). cbn [obind]. rewrite add_special_hx. set (s' := set_conf _ s).
    rewrite (hx_free' s' s _ _ 0 [39; c; 39]) by done. cbn [obind]. split; [done|]. split; [by apply rel_hx, rel_rule|done].
Qed.
Lemma rules_spec s e r l : rel s e -> top s -> l <> [] -> Forall wf_rule l ->
  agrees top r (special_definition s (CH 123 :: concat (pr_rule <$> l) ++ CH 125 :: r)) (sem_rules l e).
Proof.
  intros R Ht Hne Hw. rewrite Forall_forall in Hw. unfold special_definition. rewrite ch_eq. cbn [orerr]. rewrite <- sbind_ret. eapply agrees_bind; [apply (many1_spec _ _ pr_rule _ top (fun _ => True)); try done|].
  - intros x s1 e1 r' Hx HI HR _. apply rule_spec; [done|done|by apply Hw].
  - by intros [] r' _.
  - apply Nat.le_le_succ_r, concat_length. by intros [] _.
  - cbn beta. intros s1 e1 Ht1 R1. rewrite finish_eq. done.
Qed.

(** *** Files *)
Definition wf_rules (p : prog) : Prop := match rules p with Some (l, _) => Forall wf_rule l | None => True end.
Lemma prog_spec s e p : rel s e -> top s -> wf_prog p -> wf_rules p -> agrees (fun _ => True) [] (full_definition mem cmem s (pr_prog p)) (sem_prog mem cmem p e).
Proof.
  intros R Ht (Hne & Hw & Hrules) Hwr. unfold full_definition, pr_prog, sem_prog, wf_rules in *. destruct (rules p) as [[l vs]|].
  - destruct Hrules as [Hl Hvs]. eapply agrees_bind; [by apply stms_spec|]. cbn beta. intros s1 e1 Ht1 R1. cbn [app]. eapply agrees_bind; [by apply rules_spec|]. cbn beta. intros s2 e2 [Hi2 Hg2] R2. rewrite <- (app_nil_r (pr_vs vs)).
    pose proof (opt_spec s2 e2 [] vs R2 Hg2 Hvs eq_refl) as HO. unfold when in HO. rewrite (on_top s2 Hi2) in HO. by eapply agrees_mono.
  - eapply agrees_bind; [by apply stms_spec|]. cbn beta. intros s1 e1 Ht1 R1. done.
Qed.
End simulation.

(** ** What the scanner gives *)
Definition short_percent (t : token) : Prop := match t with PERCENT w => (0 < length w <= 9)%nat | _ => True end.
Lemma assoc_in w l t : assoc w l = Some t -> t ∈ l.*2.
Proof. induction l as [|[k u] l IH]; cbn; [done|]. destruct (decide (k = w)); [intros [= ->]; by left|]. intros H. right. by apply IH. Qed.
Lemma keyword_short w t : assoc w keywords = Some t -> short_percent t.
Proof. intros H%assoc_in. revert t H. apply Forall_forall. unfold keywords. cbn. repeat constructor. Qed.
Lemma lex_short fuel l : Forall short_percent (lex_loop fuel l).
Proof.
  revert l. induction fuel as [|fuel IH]; intros l; cbn; [done|]. assert (match lex1 l with Some (Some t, _) => short_percent t | _ => True end) as H.
  { unfold lex1, word. repeat (case_match; simplify_eq; try done); [by eapply keyword_short|]. match goal with Hw : (_ <=? 3)%nat = true |- _ => apply Nat.leb_le in Hw end. cbn. rewrite length_app. cbn. lia. }
  destruct (lex1 l) as [[[t|] r]|]; [|apply IH|done]. constructor; [done|apply IH].
Qed.
Lemma rules_short file p : yylex file = pr_prog p -> wf_rules p.
Proof.
  intros E. pose proof (lex_short (length file) file) as H. fold (yylex file) in H. rewrite E in H. unfold pr_prog, wf_rules in *. destruct (rules p) as [[l vs]|]; [|done]. rewrite !Forall_app in H. destruct H as (_ & _ & H & _). clear E.
  induction l as [|x l IH]; [done|]. cbn [fmap list_fmap concat] in H. rewrite Forall_app in H. destruct H as [Hx Hl]. constructor; [|by apply IH]. rewrite Forall_forall in Hx. destruct x as [c t|c t|c]; [| |done]; (apply (Hx (PERCENT t)); set_solver).
Qed.

(** ** A file means what its statements say *)
Definition strs (h : list (option (list Z))) (r : option (list (option nat)) * Z) : option (list (option (list Z))) * Z := (fmap (M := option) (fmap (M := list) (deref_p h)) (fst r), snd r).
(** What the module tells about every key and every rule is what the environment has. *)
Definition tells (s : sysconf) (h : list (option (list Z))) (e : env) : Prop :=
  (forall k, match smap e !! lower k with
    | Some (n, v, l, sl) => sysconf_int s k = n /\ sysconf_str s k = v /\ sysconf_get_int_list s k = (l, n) /\ strs h (sysconf_get_str_list s k) = (sl, n)
    | None => sysconf_int s k = -1 /\ sysconf_str s k = None /\ sysconf_get_int_list s k = (None, 0) /\ strs h (sysconf_get_str_list s k) = (None, 0) end) /\
  forall c, sysconf_get_special s c = if (0 <=? c) && (c <? Z.of_nat MAX_SPECIAL_STUDENT_RULES_ENTRY) then match srules e !! Z.to_nat c with Some (f, n) => (f, Some n) | None => (0, None) end else (0, None).
Lemma rel_tells s e : rel s e -> tells (conf s) (heap s) e.
Proof.
  intros [R1 R2 _ R4 _]. split; [|intros c; unfold sysconf_get_special; by rewrite R4]. intros k. destruct (gets (conf s) k R1) as (-> & -> & -> & ->). unfold o_str, o_int, o_ints, o_strs. rewrite R2, lookup_fmap. by destruct (abs (conf s) !! lower k) as [[[[n v] l] sl]|].
Qed.

Lemma rel_init mem variable n : rel (pst0 (snd (addentry_int mem (init_module sysconf0) variable n))) (assign mem variable (n, None, None, None) env0).
Proof.
  assert (rel (pst0 (init_module sysconf0)) env0) as R.
  { split; [constructor|done|by apply map_Forall_empty|by vm_compute|done]. }
  unfold addentry_int. rewrite (with_store mem _ _ _ n None None None) by done. exact (rel_store mem _ _ variable (n, None, None, None) R I).
Qed.

(** C24: reading a configuration file gives what its statements say, one after the other, of an
    abstract store: assignments, lists, conditionals on earlier settings, [switch] with labels
    that fall through until a [break] and its default, [print], [exit], and the table of
    rules.  Every key is then told as the abstract store has it, with its texts, the output
    is the same, and a file that calls [exit] ends the program there.  The reading fails,
    with the same fault, exactly where the meaning does: where a number is out of range,
    where an empty text is printed, and at an [else-if] whose first condition is false.
    Such an [else-if] does not test its own name but the text of the last token of the
    skipped body ([elif_value]): if that was freed, as after most statements, freed memory
    is read; if the body ends with a list of strings, the setting named by its last element
    is tested.  Elsewhere no text is used after it was freed, nor freed twice. *)
Theorem config_means mem cmem (k : kernel) (file text variable : list Z) (n : Z) (p : prog) :
  k_fs k (config_name k file) = Some (text, true) -> yylex text = pr_prog p -> wf_prog p ->
  match initial_sysconf_module mem (yyparse mem cmem) k sysconf0 (Some file) variable n, sem_prog mem cmem p (assign mem variable (n, None, None, None) env0) with
  | Ret (rc, s, Some (printed, h)), Ret (exited, e) => rc = (if exited : bool then None else Some true) /\ printed = sout e /\ tells s h e
  | Fault f, Fault g => f = g
  | _, _ => False
  end.
Proof.
  intros Hf Hl Hw. unfold initial_sysconf_module. rewrite Hf. unfold yyparse. rewrite Hl. pose proof (prog_spec mem cmem _ _ p (rel_init mem variable n) (conj eq_refl eq_refl) Hw (rules_short _ _ Hl)) as H.
  destruct (full_definition _ _ _ _) as [[s r|s|s]| |], (sem_prog _ _ _ _) as [[[|] e]| |]; cbn in H |- *; try done.
  - destruct H as (-> & R & _). split; [done|]. split; [symmetry; apply R|by apply rel_tells].
  - split; [done|]. split; [symmetry; apply H|by apply rel_tells].
Qed.

(** ** Writing a file *)
Fixpoint spelling (t : token) (l : list (list Z * token)) : list Z := match l with [] => [] | (k, u) :: l => if decide (u = t) then k else spelling t l end.
Definition spell (t : token) : list Z :=
  match t with
  | IDENTIFIER w | DIGIT w | PERCENT w => w
  | QSTRING w => 34 :: w ++ [34]
  | SQ_CHARACTER c => [39; c; 39]
  | CH c => [c]
  | _ => spelling t keywords
  end.
Definition render (ts : list token) : list Z := concat ((fun t => spell t ++ [32]) <$> ts).

(** The tokens that a file can have: a name is no reserved word, a text has no quote and no
    end of line, and the characters that begin something else are not tokens. *)
Definition lexable (t : token) : bool :=
  match t with
  | IDENTIFIER w => match w with c :: _ => id_start c | [] => false end && forallb id_char w && bool_decide (assoc w keywords = None)
  | DIGIT w => negb (bool_decide (w = [])) && forallb is_digit w
  | QSTRING w => forallb in_string w
  | SQ_CHARACTER c => (7 <=? c) && (c <=? 122)
  | PERCENT w => bool_decide (last w = Some 37) && forallb is_digit (take (length w - 1) w) && (2 <=? length w)%nat && (length w <=? 4)%nat
  | CH c => (0 <? c) && (c <? 128) && negb (is_ws c) && negb (id_start c) && negb (is_digit c) && negb (bool_decide (c ∈ [35; LF; 26; 13; 34; 39]))
  | _ => true
  end.

Lemma span_app p w d r : forallb p w = true -> p d = false -> span p (w ++ d :: r) = (w, d :: r).
Proof. intros H Hd. induction w as [|c w IH]; cbn in *; [by rewrite Hd|]. apply andb_prop in H as [-> H]. by rewrite (IH H). Qed.
Lemma digit_class c : is_digit c = true -> is_ws c = false /\ (c =? 35) = false /\ (c =? 47) = false /\ (c =? LF) || (c =? 26) || (c =? 13) = false /\ id_start c = false.
Proof. unfold is_digit, is_ws, id_start, LF. intros H. lia. Qed.
Lemma start_class c : id_start c = true -> is_ws c = false /\ (c =? 35) = false /\ (c =? 47) = false /\ (c =? LF) || (c =? 26) || (c =? 13) = false.
Proof. unfold is_ws, id_start, LF. intros H. lia. Qed.

Lemma lex1_word w c l r : w = c :: l -> id_start c = true -> forallb id_char w = true -> lex1 (w ++ 32 :: r) = Some (Some (word w), 32 :: r).
Proof.
  intros -> Hc Hw. destruct (start_class c Hc) as (H1 & H2 & H3 & H4). pose proof (span_app id_char (c :: l) 32 r Hw eq_refl) as Hs. cbn [app] in Hs |- *. unfold lex1. rewrite H1, H2, H3, H4, Hc. cbn [orb andb]. by rewrite Hs.
Qed.
Lemma lex1_digits w d r : w <> [] -> forallb is_digit w = true -> is_digit d = false -> lex1 (w ++ d :: r) = match d :: r with
  | 37 :: r' => if (length w <=? 3)%nat then Some (Some (PERCENT (w ++ [37])), r') else Some (Some (DIGIT w), d :: r)
  | _ => Some (Some (DIGIT w), d :: r) end.
Proof.
  intros Hn Hw Hd. pose proof (span_app is_digit w d r Hw Hd) as Hs. destruct w as [|c l]; [done|]. cbn [forallb] in Hw. apply andb_prop in Hw as [Hc _]. destruct (digit_class c Hc) as (H1 & H2 & H3 & H4 & H5). cbn [app] in Hs |- *. unfold lex1. rewrite H1, H2, H3, H4, H5, Hc. cbn [orb andb]. by rewrite Hs.
Qed.
Lemma lex1_spell t r : lexable t = true -> lex1 (spell t ++ 32 :: r) = Some (Some t, 32 :: r).
Proof.
  intros H. destruct t as [| | | | |w|w|w| | | |c|w| | | | | | | |c]; try done.
  - cbn [lexable] in H. rewrite !andb_true_iff, bool_decide_eq_true in H. destruct H as [[Hc Hw] Ha]. destruct w as [|c l]; [done|]. cbn [spell]. rewrite (lex1_word (c :: l) c l) by done. unfold word. by rewrite Ha.
  - cbn in H. rewrite andb_true_iff, negb_true_iff, bool_decide_eq_false in H. destruct H as [Hn Hw]. cbn [spell]. by rewrite lex1_digits.
  - cbn in H. cbn [spell app]. rewrite <- app_assoc. cbn. pose proof (span_app in_string w 34 (32 :: r) H eq_refl) as ->. done.
  - cbn in H. cbn. by rewrite H.
  - cbn in H. rewrite !andb_true_iff, bool_decide_eq_true, !Nat.leb_le in H. destruct H as [[[Hl Hw] H2] H4]. apply last_Some in Hl as [w' ->]. rewrite length_app in *. cbn [length] in *. replace (length w' + 1 - 1)%nat with (length w') in Hw by lia. rewrite take_app_length in Hw.
    cbn [spell]. rewrite <- app_assoc. cbn [app]. rewrite lex1_digits; [|intros ->; cbn in H2; lia|done|done]. by rewrite (proj2 (Nat.leb_le _ _)) by lia.
  - cbn [lexable] in H. rewrite !andb_true_iff, !negb_true_iff, bool_decide_eq_false in H. destruct H as [[[[[Hp Hq] Hws] Hid] Hdg] Hin]. rewrite !not_elem_of_cons in Hin. destruct Hin as (N1 & N2 & N3 & N4 & N5 & N6 & _). cbn [spell app]. unfold lex1. rewrite Hws, Hid, Hdg.
    assert ((c =? 35) || (c =? 47) && bool_decide (head (32 :: r) = Some 47) = false) as -> by (rewrite bool_decide_eq_false_2 by done; rewrite andb_false_r; lia). assert ((c =? LF) || (c =? 26) || (c =? 13) = false) as -> by lia.
    rewrite (proj2 (Z.eqb_neq c 39)), (proj2 (Z.eqb_neq c 34)), Hp, Hq by done. done.
Qed.
Lemma spell_head t : lexable t = true -> exists c l, spell t = c :: l /\ is_ws c = false.
Proof.
  intros H. destruct t as [| | | | |w|w|w| | | |c|w| | | | | | | |c]; try (eexists _, _; split; [reflexivity|reflexivity]); cbn [lexable spell] in *; rewrite ?andb_true_iff in H.
  - destruct H as [[H _] _]. destruct w as [|c l]; [done|]. exists c, l. split; [done|]. by apply start_class.
  - destruct H as [Hn H]. destruct w as [|c l]; [done|]. cbn in H. apply andb_prop in H as [H _]. exists c, l. split; [done|]. by apply digit_class.
  - destruct H as [[[_ H] H2] _]. apply Nat.leb_le in H2. destruct w as [|c [|d l]]; [cbn in H2; lia..|]. cbn in H. apply andb_prop in H as [H _]. exists c, (d :: l). split; [done|]. by apply digit_class.
  - rewrite !negb_true_iff in H. exists c, []. split; [done|apply H].
Qed.

Lemma lex_render_loop ts : forall fuel, Forall (fun t => lexable t = true) ts -> (length (render ts) <= fuel)%nat -> lex_loop fuel (render ts) = ts.
Proof.
  induction ts as [|t ts IH]; intros fuel Hl Hf; [by destruct fuel|]. inversion_clear Hl as [|? ? Ht Hts]. unfold render in *. cbn [fmap list_fmap concat] in *. fold (render ts) in *. rewrite <- app_assoc in *. cbn [app] in *.
  destruct (spell_head t Ht) as (c & l & Hs & _). pose proof (lex1_spell t (render ts) Ht) as H1. rewrite length_app in Hf. cbn [length] in Hf. assert (0 < length (spell t))%nat as Hpos by (rewrite Hs; cbn; lia). destruct fuel as [|[|fuel]]; [lia..|]. cbn [lex_loop]. rewrite H1. f_equal.
  change (lex1 (32 :: render ts)) with (Some (@None token, snd (span is_ws (render ts)))). cbv iota beta.
  assert (snd (span is_ws (render ts)) = render ts) as ->; [|apply IH; [done|lia]]. destruct ts as [|t' ts]; [done|]. inversion_clear Hts as [|? ? Ht' _]. destruct (spell_head t' Ht') as (c' & l' & Hs' & Hw'). unfold render. cbn [fmap list_fmap concat]. rewrite Hs'. cbn. by rewrite Hw'.
Qed.

(** C25: tokens written with spaces between them are read back as they were. *)
Theorem scan_render (ts : list token) : Forall (fun t => lexable t = true) ts -> yylex (render ts) = ts.
Proof. intros H. by apply lex_render_loop. Qed.

(** *** A file *)
Definition bytes (s : String.string) : list Z := (fun a => Z.of_N (Ascii.N_of_ascii a)) <$> String.list_ascii_of_string s.
Definition demo : prog :=
  mk_prog
    [SVar (VInt (bytes "port"%string) (bytes "8000"%string)); SVar (VOn (bytes "verbose"%string)); SVar (VInts (bytes "ids"%string) [bytes "7"%string; bytes "9"%string]); SVar (VStrs (bytes "dirs"%string) [bytes "/a"%string; []]);
     SIfElif (bytes "port"%string) [VInt (bytes "a"%string) (bytes "1"%string)] (bytes "none"%string) [VExit] [VExit];
     SIfElif (bytes "none"%string) [VStrs (bytes "l"%string) [bytes "verbose"%string]] (bytes "other"%string) [VInt (bytes "b"%string) (bytes "2"%string)] [VInt (bytes "b"%string) (bytes "3"%string)];
     SIfElse (bytes "Verbose"%string) [VPrint (bytes "hello\n"%string)] [VExit];
     SSwitch (bytes "mode"%string) [mk_clause [bytes "1"%string] [VOff (bytes "one"%string)] true; mk_clause [bytes "2"%string; bytes "3"%string] [VStr (bytes "two"%string) (bytes "x"%string)] false]
       (Some (mk_dclause [] [VInt (bytes "other"%string) (bytes "5"%string)]))]
    (Some ([Increase 97 (bytes "10%"%string); Normal 98], [VInt (bytes "end"%string) (bytes "1"%string)])).
Definition demo_k : kernel := mk_kernel (fun p => Some (render (pr_prog demo), true)) [] 0.
Lemma scan_render_witness : yylex (render (pr_prog demo)) = pr_prog demo.
Proof. apply scan_render. apply (bool_decide_unpack (Forall (fun t => lexable t = true) (pr_prog demo))). vm_compute. exact I. Defined.
Lemma tells_get s h e k : tells s h e -> sysconf_int s k = value_of e k /\ sysconf_str s k = (smap e !! lower k ≫= fun c => c.1.1.2).
Proof. intros [H _]. specialize (H k). unfold value_of. destruct (smap e !! lower k) as [[[[n v] l] sl]|]; cbn; naive_solver. Qed.
Lemma demo_wf : wf_prog demo.
Proof. split; [done|]. split; [|split; [done|repeat constructor]]. repeat (constructor; try (repeat constructor; done)). Qed.
Lemma config_means_witness :
  match initial_sysconf_module (fun _ => true) (yyparse (fun _ => true) (fun _ => true)) demo_k sysconf0 (Some [47]) (bytes "mode"%string) 3 with
  | Ret (rc, s, Some (printed, h)) => rc = Some true /\ printed = bytes "hello"%string ++ [LF] /\ sysconf_int s (bytes "PORT"%string) = 8000 /\ sysconf_str s (bytes "two"%string) = Some (bytes "x"%string) /\ sysconf_int s (bytes "other"%string) = 5 /\ sysconf_int s (bytes "a"%string) = 1 /\ sysconf_int s (bytes "b"%string) = 2
  | _ => False
  end.
Proof.
  assert (yylex (render (pr_prog demo)) = pr_prog demo) as Hl by (vm_compute; reflexivity).
  pose proof (config_means (fun _ => true) (fun _ => true) demo_k [47] (render (pr_prog demo)) (bytes "mode"%string) 3 demo eq_refl Hl demo_wf) as H.
  remember (sem_prog _ _ _ _) as y eqn:Ey. vm_compute in Ey. subst y. destruct (initial_sysconf_module _ _ _ _ _ _ _) as [[[rc s] [[pr h]|]]| |]; [|destruct H..]. destruct H as (-> & -> & Ht). split; [done|]. split; [vm_compute; reflexivity|].
  split; [|split; [|split; [|split]]]; (edestruct tells_get as [H1 H2]; [exact Ht|]); (rewrite H1 || rewrite H2); vm_compute; reflexivity.
Defined.

(** [else-if] asks for the value of the parenthesis in front of its name, which is the text
    of the last token that had one; the action of that token has freed it. *)
Theorem else_if_use_after_free :
  yyparse (fun _ => true) (fun _ => true) sysconf0 (render (pr_prog (mk_prog [SIfElif (bytes "a"%string) [VInt (bytes "x"%string) (bytes "1"%string)] (bytes "b"%string) [VInt (bytes "x"%string) (bytes "2"%string)] [VInt (bytes "x"%string) (bytes "3"%string)]] None)))
  = Fault UseAfterFree.
Proof. vm_compute. reflexivity. Qed.
End SM.
