(* ===== verification/FtpClient.v ===== *)
(** * FtpClient.v: the file transfer client, ftpclient/ftpclient.c

    The client of the file transfer protocol: a control connection on which commands are
    answered by replies of one or more lines, and a connection per transfer, to the address
    that the reply to PASV tells.

    The bytes that arrive on a connection are a list; at its end [getc] gives EOF for ever.
    [peer] tells for an address and a port what the other side sends, [chunk] how much a
    [read] returns, [wr] and [swr] how much a [write] to a file and to a connection takes; [ok] is the success of the other calls.
    Memory for the client and its buffer is taken to be found.  Cells of the two arrays that
    were never written are [None].  What [verbose] and [debug] print is left out. *)

From stdpp Require Import strings gmap.
From S2P Require Import Prelude Posix Cstr Simconf Playlist.

Module FTP.
Import CS SC.

Definition bytes (s : string) : list Z := (fun a => Z.of_N (Ascii.N_of_ascii a)) <$> String.list_ascii_of_string s.

(** arpa/ftp.h and arpa/telnet.h *)
Definition PRELIM : Z := 1.
Definition COMPLETE : Z := 2.
Definition CONTINUE : Z := 3.
Definition IAC : Z := 255.
Definition DONT : Z := 254.
Definition DO : Z := 253.
Definition WONT : Z := 252.
Definition WILL : Z := 251.
Definition BUFSIZ : Z := 8192.

(** [FILE *cin, *cout]: not yet set, open, NULL, closed, or open on a closed socket. *)
Inductive handle := HUninit | HOpen | HNull | HFreed | HShut.

(** The structure, and what the program has sent and stored. *)
Record ftp := mk_ftp {
  servaddr : option (Z * Z);
  data_addr : option (Z * Z);
  connected : Z; have_peer : Z; passive : Z; verbose : Z; debug : Z; login_ok : Z;
  mode : option Z;
  sockfd : Z; datafd : Z;
  code : option Z;
  ctl : handle;
  pasv : list (option Z);
  reply_string : list (option Z);
  restart_point : Z;
  cin : list Z;                       (* still to be read *)
  cout : list Z;                      (* sent *)
  sent : list (Z * Z * list Z);       (* on the data connections *)
  files : gmap (list Z) (list Z);
  stdout : list Z;
}.
Definition set_servaddr v s := mk_ftp v (data_addr s) (connected s) (have_peer s) (passive s) (verbose s) (debug s) (login_ok s) (mode s) (sockfd s) (datafd s) (code s) (ctl s) (pasv s) (reply_string s) (restart_point s) (cin s) (cout s) (sent s) (files s) (stdout s).
Definition set_data_addr v s := mk_ftp (servaddr s) v (connected s) (have_peer s) (passive s) (verbose s) (debug s) (login_ok s) (mode s) (sockfd s) (datafd s) (code s) (ctl s) (pasv s) (reply_string s) (restart_point s) (cin s) (cout s) (sent s) (files s) (stdout s).
Definition set_flags c h p vb db l s := mk_ftp (servaddr s) (data_addr s) c h p vb db l (mode s) (sockfd s) (datafd s) (code s) (ctl s) (pasv s) (reply_string s) (restart_point s) (cin s) (cout s) (sent s) (files s) (stdout s).
Definition set_connected v s := set_flags v (have_peer s) (passive s) (verbose s) (debug s) (login_ok s) s.
Definition set_have_peer v s := set_flags (connected s) v (passive s) (verbose s) (debug s) (login_ok s) s.
Definition set_passive v s := set_flags (connected s) (have_peer s) v (verbose s) (debug s) (login_ok s) s.
Definition set_verbose v s := set_flags (connected s) (have_peer s) (passive s) v (debug s) (login_ok s) s.
Definition set_debug v s := set_flags (connected s) (have_peer s) (passive s) (verbose s) v (login_ok s) s.
Definition set_login_ok v s := set_flags (connected s) (have_peer s) (passive s) (verbose s) (debug s) v s.
Definition set_mode v s := mk_ftp (servaddr s) (data_addr s) (connected s) (have_peer s) (passive s) (verbose s) (debug s) (login_ok s) v (sockfd s) (datafd s) (code s) (ctl s) (pasv s) (reply_string s) (restart_point s) (cin s) (cout s) (sent s) (files s) (stdout s).
Definition set_fds c d s := mk_ftp (servaddr s) (data_addr s) (connected s) (have_peer s) (passive s) (verbose s) (debug s) (login_ok s) (mode s) c d (code s) (ctl s) (pasv s) (reply_string s) (restart_point s) (cin s) (cout s) (sent s) (files s) (stdout s).
Definition set_sockfd v s := set_fds v (datafd s) s.
Definition set_datafd v s := set_fds (sockfd s) v s.
Definition set_code v s := mk_ftp (servaddr s) (data_addr s) (connected s) (have_peer s) (passive s) (verbose s) (debug s) (login_ok s) (mode s) (sockfd s) (datafd s) v (ctl s) (pasv s) (reply_string s) (restart_point s) (cin s) (cout s) (sent s) (files s) (stdout s).
Definition set_ctl v i s := mk_ftp (servaddr s) (data_addr s) (connected s) (have_peer s) (passive s) (verbose s) (debug s) (login_ok s) (mode s) (sockfd s) (datafd s) (code s) v (pasv s) (reply_string s) (restart_point s) i (cout s) (sent s) (files s) (stdout s).
Definition set_line i o p r s := mk_ftp (servaddr s) (data_addr s) (connected s) (have_peer s) (passive s) (verbose s) (debug s) (login_ok s) (mode s) (sockfd s) (datafd s) (code s) (ctl s) p r (restart_point s) i o (sent s) (files s) (stdout s).
Definition set_restart_point v s := mk_ftp (servaddr s) (data_addr s) (connected s) (have_peer s) (passive s) (verbose s) (debug s) (login_ok s) (mode s) (sockfd s) (datafd s) (code s) (ctl s) (pasv s) (reply_string s) v (cin s) (cout s) (sent s) (files s) (stdout s).
Definition set_sent v s := mk_ftp (servaddr s) (data_addr s) (connected s) (have_peer s) (passive s) (verbose s) (debug s) (login_ok s) (mode s) (sockfd s) (datafd s) (code s) (ctl s) (pasv s) (reply_string s) (restart_point s) (cin s) (cout s) v (files s) (stdout s).
Definition set_files v s := mk_ftp (servaddr s) (data_addr s) (connected s) (have_peer s) (passive s) (verbose s) (debug s) (login_ok s) (mode s) (sockfd s) (datafd s) (code s) (ctl s) (pasv s) (reply_string s) (restart_point s) (cin s) (cout s) (sent s) v (stdout s).
Definition set_stdout v s := mk_ftp (servaddr s) (data_addr s) (connected s) (have_peer s) (passive s) (verbose s) (debug s) (login_ok s) (mode s) (sockfd s) (datafd s) (code s) (ctl s) (pasv s) (reply_string s) (restart_point s) (cin s) (cout s) (sent s) (files s) v.
Definition send (b : list Z) (s : ftp) : ftp := set_line (cin s) (cout s ++ b) (pasv s) (reply_string s) s.

(** [short] fields. *)
Definition to_short (z : Z) : Z := let u := u16 z in if u <? 2 ^ 15 then u else u - 2 ^ 16.

(** ** getreply *)

(** The variables of the loops. *)
Record lst := mk_lst { dig : Z; n : Z; lcode : Z; pflag : Z; px : Z; continuation : Z; cp : Z; lpasv : list (option Z); lreply : list (option Z) }.

(** One character of a line that is no IAC. *)
Definition reply_char (s : lst) (c : Z) : outcome lst :=
  let* d := ck (dig s + 1) in
  let code := if (d <? 4) && is_digit c then lcode s * 10 + (c - 48) else lcode s in
  let pf := if (pflag s =? 0) && (code =? 227) then 1 else pflag s in
  let pf := if (4 <? d) && (pf =? 1) && is_digit c then 2 else pf in
  let* r := (if pf =? 2 then
               if negb (c =? CR) && negb (c =? 41) then
                 if px s <? zlen (lpasv s) - 1 then let* p := aset (lpasv s) (px s) (Some c) in Ret (p, px s + 1, pf) else Ret (lpasv s, px s, pf)
               else let* p := aset (lpasv s) (px s) (Some 0) in Ret (p, px s, 3)
             else Ret (lpasv s, px s, pf)) in
  let '(pa, px, pf) := r in
  let* r := (if (d =? 4) && (c =? 45) then let* k := ck (continuation s + 1) in Ret (if continuation s =? 0 then code else 0, k) else Ret (code, continuation s)) in
  let '(code, cont) := r in
  let n := if n s =? 0 then c else n s in
  let* r := (if cp s <? zlen (lreply s) - 1 then let* b := aset (lreply s) (cp s) (Some c) in Ret (b, cp s + 1) else Ret (lreply s, cp s)) in
  let '(b, cp) := r in
  Ret (mk_lst d n code pf px cont cp pa b).

(** Up to the end of the line; the rest, and what is sent.  At the end of the stream the loop
    does not end before [dig] overflows. *)
Fixpoint read_line (l : list Z) (s : lst) (out : list Z) : outcome (lst * list Z * list Z) :=
  match l with
  | [] => Fault SignedOverflow
  | c :: l =>
      if c =? LF then Ret (s, l, out)
      else if c =? IAC then
        match l with
        | [] => Fault SignedOverflow
        | o :: l =>
            if (o =? WILL) || (o =? WONT) then
              match l with a :: b :: l => read_line l s (out ++ [IAC; DONT; a] ++ [IAC; WONT; b]) | _ => Fault SignedOverflow end
            else if (o =? DO) || (o =? DONT) then
              match l with a :: l => read_line l s (out ++ [IAC; WONT; a]) | _ => Fault SignedOverflow end
            else read_line l s out
        end
      else let* s := reply_char s c in read_line l s out
  end.

Fixpoint reply_loop (fuel : nat) (originalcode pf px0 cont : Z) (s : ftp) : outcome (Z * ftp) :=
  match fuel with
  | O => Fault OutOfFuel
  | S fuel =>
      let* r := read_line (cin s) (mk_lst 0 0 0 pf px0 cont 0 (pasv s) (reply_string s)) (cout s) in
      let '(t, l, out) := r in
      if negb (continuation t =? 0) && negb (lcode t =? originalcode) then
        reply_loop fuel (if originalcode =? 0 then lcode t else originalcode) (pflag t) (px t) (continuation t) (set_line l out (lpasv t) (lreply t) s)
      else
        let* b := aset (lreply t) (cp t) (Some 0) in
        Ret (n t - 48, set_code (Some (lcode t)) (set_line l out (lpasv t) b s))
  end.
(** Every line takes at least one byte. *)
Definition getreply (s : ftp) : outcome (Z * ftp) := reply_loop (S (length (cin s))) 0 0 0 0 s.

(** ** Commands and connections *)

(** System calls that may fail. *)
Inductive call := Socket | Getsockname | Fdopen_in | Fdopen_out | Fdopen_data | Fopen (p : list Z).

(** The string in an array. *)
Fixpoint cells (l : list (option Z)) : outcome (list Z) :=
  match l with
  | [] => Fault OutOfBounds
  | None :: _ => Fault Uninit
  | Some c :: l => if c =? 0 then Ret [] else let* s := cells l in Ret (c :: s)
  end.

(** [%ld] of [sscanf]. *)
Definition is_space (c : Z) : bool := (c =? 32) || (9 <=? c) && (c <=? 13).
Fixpoint skip_space (s : list Z) : list Z := match s with c :: s' => if is_space c then skip_space s' else s | [] => [] end.
Fixpoint scan_digits (acc : Z) (s : list Z) : Z * list Z := match s with c :: s' => if is_digit c then scan_digits (acc * 10 + (c - 48)) s' else (acc, s) | [] => (acc, []) end.
Definition long_ok (z : Z) : bool := (- 2 ^ 63 <=? z) && (z <? 2 ^ 63).
Definition scan_ld (s : list Z) : outcome (option (Z * list Z)) :=
  let s := skip_space s in
  let '(sg, s) := match s with 45 :: s => (-1, s) | 43 :: s => (1, s) | _ => (1, s) end in
  match s with
  | c :: _ => if is_digit c then let '(v, r) := scan_digits 0 s in if long_ok (sg * v) then Ret (Some (sg * v, r)) else Fault SignedOverflow else Ret None
  | [] => Ret None
  end.
(** The numbers that were converted by [k] times [%ld] with commas between. *)
Fixpoint scan_list (k : nat) (s : list Z) : outcome (list Z) :=
  match k with
  | O => Ret []
  | S k =>
      let* r := scan_ld s in
      match r with
      | None => Ret []
      | Some (v, s) => match k, s with
                       | O, _ => Ret [v]
                       | _, 44 :: s => let* l := scan_list k s in Ret (v :: l)
                       | _, _ => Ret [v]
                       end
      end
  end.

Section client.
Context (peer : Z -> Z -> option (list Z)) (chunk wr swr : Z -> Z -> Z) (ok : call -> bool) (resolve : list Z -> option Z) (blksize : Z).

Definition command (s : ftp) (line : list Z) : outcome (Z * ftp) :=
  match ctl s with
  | HUninit => Fault Uninit
  | HFreed => Fault UseAfterFree
  | HNull => Ret (0, set_code (Some (-1)) s)
  | HOpen => getreply (send (line ++ [CR; LF]) s)
  | HShut => getreply s
  end.

(** The socket of a transfer; descriptors are not followed further. *)
Definition newfd : Z := 3.

Definition pasv_addr (l : list Z) : option (Z * Z) :=
  match l with
  | [a1; a2; a3; a4; p1; p2] =>
      Some (u32 (Z.lor (Z.lor (Z.lor (Z.shiftl (u64 a1) 24) (Z.shiftl (u64 a2) 16)) (Z.shiftl (u64 a3) 8)) (u64 a4)), u16 (Z.lor (Z.shiftl (u64 p1) 8) (u64 p2)))
  | _ => None
  end.

Definition initconn (s : ftp) : outcome (Z * ftp) :=
  if passive s =? 0 then Ret (0, s)
  else if ok Socket then
    let* r := command (set_datafd newfd s) (bytes "PASV") in
    let '(rc, s) := r in
    if negb (rc =? COMPLETE) then Ret (0, set_passive 0 s)
    else
      let* str := cells (pasv s) in
      let* l := scan_list 6 str in
      match pasv_addr l with
      | None => Ret (0, set_passive 0 s)
      | Some (a, p) =>
          let s := set_data_addr (Some (a, p)) s in
          match peer a p with None => Ret (0, s) | Some _ => Ret (1, s) end
      end
  else Ret (0, set_datafd (-1) s).

(** The other side's bytes on the connection that [initconn] made, when [fdopen] works. *)
Definition dataconn (s : ftp) : option (Z * Z * list Z) :=
  if negb (passive s =? 0) && ok Fdopen_data then
    match data_addr s with Some (a, p) => match peer a p with Some b => Some (a, p, b) | None => None end | None => None end
  else None.

Definition with_arg (cmd : list Z) (arg : option (list Z)) : list Z := match arg with Some a => cmd ++ 32 :: a | None => cmd end.

(** The file is read and written to the connection; the inner loop ends at a
    [write] that fails. *)
Fixpoint write_all (fuel : nat) (pos : Z) (b : list Z) : outcome (list Z) :=
  match b, fuel with
  | [], _ => Ret []
  | _, O => Fault OutOfFuel
  | _, S fuel =>
      let d := Z.min (zlen b) (swr pos (zlen b)) in
      if d <=? 0 then Ret [] else let* r := write_all fuel (pos + d) (drop (Z.to_nat d) b) in Ret (take (Z.to_nat d) b ++ r)
  end.
Definition read_len (size pos avail : Z) : Z := Z.max 1 (Z.min (Z.min size avail) (chunk pos (Z.min size avail))).
Fixpoint put_loop (fuel : nat) (pos : Z) (l : list Z) : outcome (list Z) :=
  match l, fuel with
  | [], _ => Ret []
  | _, O => Fault OutOfFuel
  | _, S fuel =>
      let c := read_len BUFSIZ pos (zlen l) in
      let b := take (Z.to_nat c) l in
      let* w := write_all (length b) pos b in
      let* r := put_loop fuel (pos + c) (drop (Z.to_nat c) l) in Ret (w ++ r)
  end.

Definition sendrequest (s : ftp) (cmd local : list Z) (remote : option (list Z)) : outcome (Z * ftp) :=
  match files s !! local, ok (Fopen local) with
  | Some data, true =>
      let* r := initconn s in
      let '(rc, s) := r in
      if rc =? 0 then Ret (0, set_code (Some (-1)) s)
      else
        let* r := command s (with_arg cmd remote) in
        let '(rc, s) := r in
        if negb (rc =? PRELIM) then Ret (0, s)
        else match dataconn s with
             | None => Ret (0, s)
             | Some (a, p, _) =>
                 let* b := put_loop (length data) 0 data in
                 let* r := getreply (set_datafd (-1) (set_sent (sent s ++ [(a, p, b)]) s)) in
                 Ret (1, snd r)
             end
  | _, _ => Ret (0, s)
  end.

(** Where a transfer is stored. *)
Inductive dest := ToStdout | ToFile (p : list Z).
Definition append (d : dest) (b : list Z) (s : ftp) : ftp :=
  match d with ToStdout => set_stdout (stdout s ++ b) s | ToFile p => set_files (<[p := default [] (files s !! p) ++ b]> (files s)) s end.
(** [fopen] with the mode "a" or "w". *)
Definition fopen_write (p : list Z) (app : bool) (s : ftp) : ftp := set_files (<[p := if app then default [] (files s !! p) else []]> (files s)) s.
Definition open_local (local : option (list Z)) (app : bool) (s : ftp) : outcome (dest * ftp) :=
  match local with
  | None => Ret (ToStdout, s)
  | Some p =>
      if decide (p = [45]) then Ret (ToStdout, s)
      else if decide (head p = Some 124) then Fault Uninit
      else if ok (Fopen p) then Ret (ToFile p, fopen_write p app s) else Fault NullDeref
  end.

(** A short [write] ends the transfer. *)
Fixpoint get_loop (fuel : nat) (d : dest) (pos : Z) (l : list Z) (s : ftp) : outcome ftp :=
  match l, fuel with
  | [], _ => Ret s
  | _, O => Fault OutOfFuel
  | _, S fuel =>
      let c := read_len blksize pos (zlen l) in
      let w := Z.min c (wr pos c) in
      let s := append d (take (Z.to_nat w) l) s in
      if w =? c then get_loop fuel d (pos + c) (drop (Z.to_nat c) l) s else Ret s
  end.

Definition RETR : list Z := bytes "RETR".
(** The value is 0 on every way. *)
Definition recvrequest (s : ftp) (cmd : list Z) (local remote : option (list Z)) (app : bool) : outcome (Z * ftp) :=
  let* r := initconn s in
  let '(rc, s) := r in
  if rc =? 0 then Ret (0, set_code (Some (-1)) s)
  else
    let* r := (if bool_decide (cmd = RETR) && negb (restart_point s =? 0) then command s (bytes "REST " ++ PL.dec 20 (restart_point s)) else Ret (CONTINUE, s)) in
    let '(rc, s) := r in
    if negb (rc =? CONTINUE) then Ret (0, s)
    else
      let* r := command s (with_arg cmd remote) in
      let '(rc, s) := r in
      if negb (rc =? PRELIM) then Ret (0, s)
      else
        let* r := open_local local app s in
        let '(d, s) := r in
        match dataconn s with
        | None => Fault NullDeref
        | Some (_, _, data) =>
            let* s := get_loop (length data) d 0 data s in
            let* r := getreply (set_datafd (-1) s) in
            Ret (0, snd r)
        end.

(** ** The operations *)
Definition ftpclient_setpeer (s : ftp) (host : list Z) (port : Z) : Z * ftp :=
  match resolve host with
  | Some a => (1, set_have_peer 1 (set_servaddr (Some (a, u16 port)) s))
  | None => (0, set_servaddr None s)
  end.

Definition ftpclient_settype (s : ftp) (binary : Z) : outcome (Z * ftp) :=
  let flag := if binary =? 0 then 0 else 1 in
  let* r := command s (bytes "TYPE " ++ (if flag =? 0 then bytes "A" else bytes "I")) in
  let '(rc, s) := r in
  let s := if rc =? COMPLETE then set_mode (Some flag) s else s in
  match mode s with Some m => Ret (m, s) | None => Fault Uninit end.

Definition simple (s : ftp) (line : list Z) : outcome (Z * ftp) := let* r := command s line in Ret (1, snd r).
Definition ftpclient_quit (s : ftp) : outcome (Z * ftp) := simple s (bytes "QUIT").
Definition ftpclient_cdup (s : ftp) : outcome (Z * ftp) := simple s (bytes "CDUP").
Definition ftpclient_cwd (s : ftp) (path : list Z) : outcome (Z * ftp) := simple s (bytes "CWD " ++ path).
Definition ftpclient_del (s : ftp) (path : list Z) : outcome (Z * ftp) := simple s (bytes "DELE " ++ path).
Definition ftpclient_dir (s : ftp) (path : option (list Z)) : outcome (Z * ftp) :=
  let* r := recvrequest s (bytes "LIST") (Some [45]) path false in Ret (1, snd r).

Definition getit (s : ftp) (restartit app : bool) (rm lc : option (list Z)) : outcome (Z * ftp) :=
  let s := set_restart_point 0 s in
  let s := if restartit then match lc ≫= fun p => files s !! p with Some data => set_restart_point (zlen data) s | None => s end else s in
  let* r := recvrequest s RETR lc rm app in Ret (1, snd r).
Definition ftpclient_reget (s : ftp) (rm lc : option (list Z)) : outcome (Z * ftp) := getit s true true rm lc.
Definition ftpclient_get (s : ftp) (rm lc : option (list Z)) : outcome (Z * ftp) := getit s false false rm lc.
Definition ftpclient_put (s : ftp) (rm : option (list Z)) (lc : list Z) : outcome (Z * ftp) :=
  let* r := sendrequest s (bytes "STOR") lc rm in Ret (1, snd r).

(** [index (reply_string + 4, ' ')], and the blank there, or a dot in front of it, becomes
    the end of the string. *)
Fixpoint find_blank (l : list (option Z)) (i : Z) : outcome (option Z) :=
  match l with
  | [] => Fault OutOfBounds
  | None :: _ => Fault Uninit
  | Some c :: l => if c =? 32 then Ret (Some i) else if c =? 0 then Ret None else find_blank l (i + 1)
  end.
Definition cut_system (s : ftp) : outcome ftp :=
  let* p := find_blank (drop 4 (reply_string s)) 4 in
  match p with
  | None => Ret s
  | Some i =>
      let* c := aget (reply_string s) (i - 1) in
      let i := if decide (c = Some 46) then i - 1 else i in
      let* b := aset (reply_string s) i (Some 0) in
      Ret (set_line (cin s) (cout s) (pasv s) b s)
  end.
Definition ftpclient_login (s : ftp) (user pass : list Z) : outcome (Z * ftp) :=
  let* r := command s (bytes "USER " ++ user) in
  let '(n, s) := r in
  let* r := (if n =? CONTINUE then command s (bytes "PASS " ++ pass) else Ret (n, s)) in
  let '(n, s) := r in
  if negb (n =? COMPLETE) then Ret (0, s)
  else
    let* r := command s (bytes "SYST") in
    let '(n, s) := r in
    let* s := (if n =? COMPLETE then cut_system s else Ret s) in
    Ret (1, set_login_ok 1 s).

(** Nothing arrives any more; what the library may have buffered is not followed. *)
Definition ftpclient_close (s : ftp) : Z * ftp :=
  (1, if 0 <=? sockfd s then set_sockfd (-1) (set_ctl (match ctl s with HOpen => HShut | h => h end) [] s) else s).

Definition ftpclient_connect (s : ftp) : outcome (Z * ftp) :=
  if have_peer s =? 0 then Ret (0, s)
  else
    let new := if ok Socket then match servaddr s with Some _ => newfd | None => -1 end else -1 in
    let s := if sockfd s <? 0 then set_sockfd new s else s in
    if sockfd s <? 0 then Ret (0, s)
    else if negb (connected s =? 0) then Ret (0, s)
    else
      match servaddr s ≫= fun ap => peer (fst ap) (snd ap) with
      | None => Ret (0, s)
      | Some stream =>
          if negb (ok Getsockname) then Ret (0, snd (ftpclient_close s))
          else if negb (ok Fdopen_in && ok Fdopen_out) then Ret (0, snd (ftpclient_close (set_ctl (if ok Fdopen_out then HFreed else HNull) [] s)))
          else
            let* r := getreply (set_ctl HOpen stream s) in
            let '(rc, s) := r in
            if 2 <? rc then Ret (0, set_code (Some (-1)) (snd (ftpclient_close (set_ctl HFreed [] s))))
            else Ret (1, set_connected 1 s)
      end.

Definition ftpclient_debug (s : ftp) (v : Z) : Z * ftp := (debug s, set_debug (to_short v) s).
Definition ftpclient_verbose (s : ftp) (v : Z) : Z * ftp := (verbose s, set_verbose (to_short v) s).
Definition ftpclient_passive (s : ftp) (v : Z) : Z * ftp := (passive s, set_passive (to_short v) s).
End client.

(** The files that there are come with the new client. *)
Definition new_ftpclient (fs : gmap (list Z) (list Z)) : ftp :=
  mk_ftp None None 0 0 0 0 0 0 None (-1) (-1) None HUninit (replicate 64 None) (replicate (Z.to_nat BUFSIZ) None) 0 [] [] [] fs [].
End FTP.
