(* ===== verification/FtpSpec.v ===== *)
(** * FtpSpec.v: the file transfer client against a server that answers

    What a reply leaves in the variables of [getreply], line by line; the address in the
    reply to PASV; the transfers; and whole sessions of the client of [FtpClient.v] with a
    server given by its replies and the bytes of its connections.  At the end the defects,
    and a server as an example. *)

From stdpp Require Import strings gmap.
From S2P Require Import Prelude Posix Cstr Simconf Playlist FtpClient.

Module FTS.
Import CS SC FTP.

(** ** Replies *)

(** A character of a line, when no counter overflows. *)
Definition code_step (s : lst) (c : Z) : Z := if (dig s + 1 <? 4) && is_digit c then lcode s * 10 + (c - 48) else lcode s.
Definition flag_step (s : lst) (c : Z) : Z :=
  let pf := if (pflag s =? 0) && (code_step s c =? 227) then 1 else pflag s in
  if (4 <? dig s + 1) && (pf =? 1) && is_digit c then 2 else pf.
Definition pasv_step (pf : Z) (s : lst) (c : Z) : list (option Z) * Z * Z :=
  if pf =? 2 then
    if negb (c =? CR) && negb (c =? 41) then if px s <? 63 then (<[Z.to_nat (px s) := Some c]> (lpasv s), px s + 1, pf) else (lpasv s, px s, pf)
    else (<[Z.to_nat (px s) := Some 0]> (lpasv s), px s, 3)
  else (lpasv s, px s, pf).
Definition dash (s : lst) (c : Z) : bool := (dig s + 1 =? 4) && (c =? 45).
Definition next (s : lst) (c : Z) : lst :=
  let p := pasv_step (flag_step s c) s c in
  mk_lst (dig s + 1) (if n s =? 0 then c else n s) (if dash s c && negb (continuation s =? 0) then 0 else code_step s c) p.2 p.1.2 (if dash s c then continuation s + 1 else continuation s)
    (if cp s <? 8191 then cp s + 1 else cp s) p.1.1 (if cp s <? 8191 then <[Z.to_nat (cp s) := Some c]> (lreply s) else lreply s).

(** The arrays have their sizes and the indices are in them. *)
Definition lok (s : lst) : Prop := zlen (lpasv s) = 64 /\ zlen (lreply s) = 8192 /\ 0 <= px s <= 63 /\ 0 <= cp s <= 8191 /\ 0 <= dig s /\ 0 <= continuation s.
Lemma next_ok s c : lok s -> lok (next s c).
Proof.
  intros (H1 & H2 & H3 & H4 & H5 & H6). unfold lok, next. cbn. assert (zlen (pasv_step (flag_step s c) s c).1.1 = 64 /\ 0 <= (pasv_step (flag_step s c) s c).1.2 <= 63) as [-> Hp].
  { unfold pasv_step. repeat case_match; cbn; rewrite ?zlen_insert; lia. }
  split_and!; try lia; repeat case_match; rewrite ?zlen_insert; lia.
Qed.
Lemma reply_char_next s c : lok s -> dig s < INT_MAX -> continuation s < INT_MAX -> reply_char s c = Ret (next s c).
Proof.
  intros (H1 & H2 & H3 & H4 & H5 & H6) Hd Hc. unfold reply_char, next. rewrite (ck_Ret (dig s + 1)) by int_lia. cbn [obind]. rewrite H1, H2. change (64 - 1) with 63. change (8192 - 1) with 8191. fold (code_step s c) (flag_step s c) (dash s c). 
  rewrite (ck_Ret (continuation s + 1)) by int_lia. rewrite !(aset_Ret (lpasv s)), (aset_Ret (lreply s)) by lia. unfold pasv_step.
  destruct (flag_step s c =? 2); [destruct (negb (c =? CR) && negb (c =? 41)); [destruct (px s <? 63)|]|]; cbn [obind fst snd]; (destruct (dash s c); cbn [obind andb]; [destruct (continuation s =? 0)|]; cbn [negb]; destruct (cp s <? 8191); done).
Qed.

Definition plain (t : list Z) : Prop := Forall (fun c => c <> LF /\ c <> IAC) t.
Lemma next_cont s c : continuation (next s c) <= continuation s + 1.
Proof. unfold next. cbn. destruct (dash s c); lia. Qed.
Lemma read_plain t : forall s r out, plain t -> lok s -> dig s + zlen t <= INT_MAX -> continuation s + zlen t <= INT_MAX -> read_line (t ++ LF :: r) s out = Ret (foldl next s t, r, out).
Proof.
  induction t as [|c t IH]; intros s r out Hp Ho Hd Hc; [done|]. inversion_clear Hp as [|? ? [H1 H2] Hp']. rewrite zlen_cons in *. pose proof (zlen_nonneg t). cbn [app read_line foldl]. rewrite (proj2 (Z.eqb_neq c LF)), (proj2 (Z.eqb_neq c IAC)) by done. rewrite reply_char_next by (done || lia). cbn [obind].
  pose proof (next_cont s c). apply IH; [done|by apply next_ok| |lia]. cbn. lia.
Qed.

(** *** What a line leaves *)
Definition code_of (t : list Z) : Z := foldl (fun a c => if is_digit c then a * 10 + (c - 48) else a) 0 t.
Definition dashed (t : list Z) : bool := bool_decide (t !! 3%nat = Some 45).
Definition line0 (pf px cont : Z) (pa b : list (option Z)) : lst := mk_lst 0 0 0 pf px cont 0 pa b.

Lemma line_spec pf px cont pa b t : let s := foldl next (line0 pf px cont pa b) t in
  dig s = zlen t /\ lcode s = (if dashed t && negb (cont =? 0) then 0 else code_of (take 3 t)) /\ continuation s = (if dashed t then cont + 1 else cont).
Proof.
  induction t as [|c t IH] using rev_ind; [done|]. cbn zeta in *. rewrite foldl_snoc. destruct IH as (H1 & H2 & H3). set (s := foldl next _ t) in *. cbn [next dig lcode continuation]. rewrite H1, zlen_app, zlen_cons, zlen_nil. split; [lia|].
  unfold dash, code_step. rewrite H1, H2, H3. unfold dashed, zlen. destruct (decide (length t < 3)%nat) as [L|L].
  - rewrite !lookup_ge_None_2 by (rewrite ?length_app; cbn; lia). rewrite !bool_decide_eq_false_2 by done. rewrite !take_ge by (rewrite ?length_app; cbn; lia). unfold code_of. rewrite foldl_snoc. rewrite (proj2 (Z.ltb_lt _ 4)), (proj2 (Z.eqb_neq _ 4)) by lia. cbn [andb]. by destruct (is_digit c).
  - rewrite (proj2 (Z.ltb_ge _ 4)) by lia. cbn [andb]. rewrite !take_app_le by lia. destruct (decide (length t = 3)%nat) as [L3|L3].
    + rewrite L3. rewrite lookup_ge_None_2 by lia. rewrite bool_decide_eq_false_2 by done. rewrite lookup_app_r by lia. rewrite L3. cbn [Nat.sub lookup list_lookup andb]. change (Z.of_nat 3 + 1 =? 4) with true. cbn [andb].
      destruct (c =? 45) eqn:E; [rewrite bool_decide_eq_true_2 by (f_equal; lia)|rewrite bool_decide_eq_false_2 by (intros [= ?]; lia)]; done.
    + rewrite lookup_app_l by lia. rewrite (proj2 (Z.eqb_neq _ 4)) by lia. cbn [andb]. done.
Qed.

Lemma n_keep t : forall s, n s <> 0 -> n (foldl next s t) = n s.
Proof. induction t as [|c t IH]; intros s H; [done|]. cbn [foldl]. rewrite IH; cbn; by rewrite (proj2 (Z.eqb_neq _ 0)). Qed.
Lemma line_n pf px cont pa b c t : c <> 0 -> n (foldl next (line0 pf px cont pa b) (c :: t)) = c.
Proof. intros H. cbn [foldl]. by rewrite n_keep. Qed.
Lemma fold_ok t : forall s, lok s -> lok (foldl next s t).
Proof. induction t as [|c t IH]; intros s H; [done|]. cbn. apply IH. by apply next_ok. Qed.

Lemma insert_next {A} (w b : list A) k x : length w = k -> (k < length b)%nat -> <[k := x]> (w ++ drop k b) = w ++ x :: drop (S k) b.
Proof.
  intros <- H. destruct (lookup_lt_is_Some_2 b (length w) H) as [y Hy]. rewrite (drop_S b y (length w) Hy). by rewrite insert_app_r_alt, Nat.sub_diag by lia.
Qed.
(** The room for a reply, without its end. *)
Definition room : nat := Z.to_nat 8191.
Lemma room_eq : Z.of_nat room = 8191.
Proof. done. Qed.
#[local] Opaque room.
Lemma line_text pf px cont pa b t : zlen b = 8192 -> let s := foldl next (line0 pf px cont pa b) t in
  cp s = Z.of_nat (length (take room t)) /\ lreply s = (Some <$> take room t) ++ drop (length (take room t)) b.
Proof.
  intros Hb. pose proof room_eq as HR. induction t as [|c t IH] using rev_ind; [by rewrite take_nil|]. cbn zeta in *. rewrite foldl_snoc. destruct IH as [H1 H2]. set (s := foldl next _ t) in *. cbn [next cp lreply]. rewrite H1, H2. rewrite length_take in *. unfold zlen in Hb.
  destruct (decide (length t < room)%nat) as [L|L].
  - rewrite (take_ge (t ++ [c])) by (rewrite length_app; cbn; lia). rewrite take_ge by lia. rewrite length_app, Nat.min_r by lia. cbn [length]. rewrite (proj2 (Z.ltb_lt _ 8191)) by lia. rewrite Nat2Z.id. rewrite insert_next by (rewrite ?length_fmap; lia). rewrite fmap_app, <- app_assoc. replace (length t + 1)%nat with (S (length t)) by lia. split; [lia|done].
  - rewrite take_app_le by lia. rewrite length_take. rewrite Nat.min_l by lia. rewrite (proj2 (Z.ltb_ge _ 8191)) by lia. done.
Qed.

(** A reply: three digits, for a reply of several lines the rest of the first and the lines
    between, and the rest of the last line. *)
Record reply := mk_reply { digits : Z * Z * Z; before : option (list Z * list (list Z)); after : list Z }.
Definition d3 (R : reply) : list Z := let '(a, b, c) := digits R in [a; b; c].
Definition rcode (R : reply) : Z := code_of (d3 R).
Definition lines (R : reply) : list (list Z) := match before R with None => [] | Some (f, ms) => (d3 R ++ 45 :: f) :: ms end.
Definition last_line (R : reply) : list Z := d3 R ++ after R.
Definition render (R : reply) : list Z := concat ((fun l => l ++ [LF]) <$> lines R) ++ last_line R ++ [LF].
(** A line between the first and the last does not begin with the code and anything but a dash. *)
Definition inner (R : reply) (l : list Z) : Prop := dashed l = true \/ code_of (take 3 l) <> rcode R.
Definition wf_reply (R : reply) : Prop :=
  let '(a, b, c) := digits R in 49 <= a <= 57 /\ 48 <= b <= 57 /\ 48 <= c <= 57 /\ head (after R) <> Some 45 /\ plain (last_line R) /\ Forall plain (lines R) /\
  match before R with None => True | Some (_, ms) => Forall (inner R) ms end /\ zlen (render R) <= INT_MAX.

Definition sized (s : ftp) : Prop := zlen (pasv s) = 64 /\ zlen (reply_string s) = 8192.
(** The state after a reply whose last line is [t]. *)
Definition answered (s : ftp) (r t : list Z) (code : Z) (pa b : list (option Z)) : ftp :=
  set_code (Some code) (set_line r (cout s) pa ((Some <$> take room t) ++ Some 0 :: drop (S (length (take room t))) b) s).

Lemma lok_line0 s pf px cont : sized s -> 0 <= px <= 63 -> 0 <= cont -> lok (line0 pf px cont (pasv s) (reply_string s)).
Proof. intros [H1 H2] Hp Hc. unfold lok, line0. cbn. lia. Qed.

(** The last line of a reply. *)
Lemma last_spec R fuel orig pf px cont s r : wf_reply R -> sized s -> 0 <= px <= 63 -> 0 <= cont -> cont + zlen (last_line R) <= INT_MAX -> (cont = 0 \/ orig = rcode R) ->
  cin s = last_line R ++ LF :: r -> reply_loop (S fuel) orig pf px cont s = Ret ((digits R).1.1 - 48, answered s r (last_line R) (rcode R) (lpasv (foldl next (line0 pf px cont (pasv s) (reply_string s)) (last_line R))) (reply_string s)).
Proof.
  intros W Hs Hp Hc Hl Ho Hin. unfold wf_reply in W. destruct (digits R) as [[a b] c] eqn:ED. destruct W as (Ha & Hb & Hc3 & Hd & Hpl & _). cbn [reply_loop]. rewrite Hin. change (mk_lst 0 0 0 pf px cont 0 (pasv s) (reply_string s)) with (line0 pf px cont (pasv s) (reply_string s)). rewrite read_plain; [|done|by apply lok_line0|cbn; lia|done]. cbn [obind].
  assert (last_line R = a :: b :: c :: after R) as El by (unfold last_line, d3; by rewrite ED). set (t := foldl next _ _).
  destruct (line_spec pf px cont (pasv s) (reply_string s) (last_line R)) as (_ & H2 & H3). fold t in H2, H3. assert (dashed (last_line R) = false) as Hda.
  { unfold dashed. apply bool_decide_eq_false. rewrite El. cbn. by destruct (after R). }
  rewrite Hda in H2, H3. cbn [andb] in H2. assert (lcode t = rcode R) as Hcode by (rewrite H2, El; unfold rcode, d3; by rewrite ED). rewrite H3, Hcode.
  assert (negb (cont =? 0) && negb (rcode R =? orig) = false) as -> by (destruct Ho as [-> | ->]; [done|by rewrite Z.eqb_refl, andb_false_r]).
  destruct (line_text pf px cont (pasv s) (reply_string s) (last_line R) ltac:(apply Hs)) as [T1 T2]. fold t in T1, T2. rewrite T1, T2. pose proof room_eq. destruct Hs as [_ Hs]. unfold zlen in Hs. pose proof (length_take (last_line R) room).
  rewrite aset_Ret by (unfold zlen; rewrite length_app, length_fmap, length_drop; lia). rewrite Nat2Z.id. cbn [obind]. rewrite insert_next by (rewrite ?length_fmap; lia).
  assert (n t = a) as -> by (unfold t; rewrite El; apply line_n; lia). done.
Qed.

(** A line that is not the last. *)
Lemma more_spec fuel orig pf x cont s t r : plain t -> sized s -> 0 <= x <= 63 -> 0 <= cont -> cont + zlen t <= INT_MAX -> cin s = t ++ LF :: r ->
  let k := if dashed t && negb (cont =? 0) then 0 else code_of (take 3 t) in let cont' := if dashed t then cont + 1 else cont in
  cont' <> 0 -> k <> orig -> exists pf' px' pa b, reply_loop (S fuel) orig pf x cont s = reply_loop fuel (if orig =? 0 then k else orig) pf' px' cont' (set_line r (cout s) pa b s) /\ 0 <= px' <= 63 /\ zlen pa = 64 /\ zlen b = 8192.
Proof.
  intros Hp Hs Hx Hc Hl Hin k cont' Hc' Hk. cbn [reply_loop]. rewrite Hin. change (mk_lst 0 0 0 pf x cont 0 (pasv s) (reply_string s)) with (line0 pf x cont (pasv s) (reply_string s)). pose proof (lok_line0 s pf x cont Hs Hx Hc) as Hok.
  rewrite read_plain by (try done; cbn; lia). cbn [obind]. destruct (line_spec pf x cont (pasv s) (reply_string s) t) as (_ & H2 & H3). pose proof (fold_ok t _ Hok) as (L1 & L2 & L3 & _). set (u := foldl next _ t) in *. fold k in H2. fold cont' in H3. rewrite H2, H3.
  rewrite (proj2 (Z.eqb_neq cont' 0)), (proj2 (Z.eqb_neq k orig)) by done. cbn [negb andb]. by exists (pflag u), (px u), (lpasv u), (lreply u).
Qed.
Lemma rcode_range R : wf_reply R -> 100 <= rcode R <= 999.
Proof.
  unfold wf_reply, rcode, d3. destruct (digits R) as [[a b] c]. intros (Ha & Hb & Hc & _). unfold code_of. cbn [foldl]. assert (is_digit a = true /\ is_digit b = true /\ is_digit c = true) as (-> & -> & ->) by (unfold is_digit; lia). lia.
Qed.
Lemma inner_spec R ms : wf_reply R -> Forall (inner R) ms -> Forall plain ms -> forall fuel pf x cont s r, sized s -> 0 <= x <= 63 -> 0 < cont -> cont + zlen (concat ((fun l => l ++ [LF]) <$> ms) ++ last_line R) <= INT_MAX -> (length ms < fuel)%nat ->
  cin s = concat ((fun l => l ++ [LF]) <$> ms) ++ last_line R ++ LF :: r ->
  exists pa b, reply_loop fuel (rcode R) pf x cont s = Ret ((digits R).1.1 - 48, answered s r (last_line R) (rcode R) pa b) /\ zlen pa = 64 /\ zlen b = 8192.
Proof.
  intros W Hi Hp. pose proof (rcode_range R W) as HR. induction ms as [|l ms IH]; intros fuel pf x cont s r Hs Hx Hc Hl Hf Hin; (destruct fuel as [|fuel]; [lia|]).
  - cbn [fmap list_fmap concat app] in *. rewrite (last_spec R fuel (rcode R) pf x cont s r) by (done || lia || by right). eexists _, _. split; [done|]. split; [|apply Hs]. apply fold_ok, lok_line0; (done || lia).
  - inversion_clear Hi as [|? ? Hl1 Hi']. inversion_clear Hp as [|? ? Hp1 Hp']. cbn [fmap list_fmap concat] in *. rewrite <- !app_assoc in *. cbn [app] in *. rewrite !zlen_app, zlen_cons in Hl. pose proof (zlen_nonneg l). pose proof (zlen_nonneg (concat ((fun l => l ++ [LF]) <$> ms) ++ last_line R)).
    destruct (more_spec fuel (rcode R) pf x cont s l _ Hp1 Hs Hx ltac:(lia) ltac:(lia) Hin) as (pf' & x' & pa & b & -> & Hx' & Hpa & Hb).
    + destruct (dashed l); lia.
    + rewrite (proj2 (Z.eqb_neq cont 0)) by lia. cbn [negb]. rewrite andb_true_r. destruct Hl1 as [-> | Hl1]; [lia|]. destruct (dashed l); lia.
    + rewrite (proj2 (Z.eqb_neq (rcode R) 0)) by lia. edestruct (IH Hi' Hp' fuel pf' x' (if dashed l then cont + 1 else cont) (set_line (concat ((fun l => l ++ [LF]) <$> ms) ++ last_line R ++ LF :: r) (cout s) pa b s) r) as (pa' & b' & E & H1 & H2); [done|done|destruct (dashed l); lia|rewrite zlen_app in *; destruct (dashed l); lia|cbn in Hf; lia|done|]. by exists pa', b'.
Qed.

Lemma lines_length R r : (length (lines R) <= length (render R ++ r))%nat.
Proof.
  unfold render. rewrite !length_app. assert (length (lines R) <= length (concat ((fun l => l ++ [LF]) <$> lines R)))%nat; [|lia]. generalize (lines R). intros ls. induction ls as [|l ls IH]; cbn; [lia|]. rewrite !length_app. cbn. lia.
Qed.
(** A reply is read to its end. *)
Lemma getreply_spec R s r : wf_reply R -> sized s -> cin s = render R ++ r ->
  exists pa b, getreply s = Ret ((digits R).1.1 - 48, answered s r (last_line R) (rcode R) pa b) /\ zlen pa = 64 /\ zlen b = 8192 /\ (before R = None -> pa = lpasv (foldl next (line0 0 0 0 (pasv s) (reply_string s)) (last_line R))).
Proof.
  intros W Hs Hin. pose proof (rcode_range R W) as HR. pose proof (lines_length R r) as HL. unfold getreply. rewrite Hin. set (fuel := length (render R ++ r)) in *. unfold render in Hin. rewrite <- !app_assoc in Hin. cbn [app] in Hin. pose proof W as W'. unfold wf_reply in W'. destruct (digits R) as [[a b] c] eqn:ED. destruct W' as (_ & _ & _ & _ & Hpl & Hpls & Hms & Hz).
  unfold render in Hz. rewrite !zlen_app, zlen_cons, zlen_nil in Hz. unfold lines in *. destruct (before R) as [[f ms]|] eqn:EB.
  - inversion_clear Hpls as [|? ? Hp1 Hp']. cbn [fmap list_fmap concat length] in *. rewrite <- !app_assoc in Hin. cbn [app] in Hin. rewrite !zlen_app in Hz. pose proof (zlen_nonneg (concat ((fun l => l ++ [LF]) <$> ms))). pose proof (zlen_nonneg (last_line R)). rewrite !zlen_cons, ?zlen_nil in Hz. pose proof (zlen_nonneg f). pose proof (zlen_nonneg (d3 R)).
    assert (take 3 (d3 R ++ 45 :: f) = d3 R /\ dashed (d3 R ++ 45 :: f) = true) as [T1 T2] by (unfold d3; rewrite ED; split; [done|unfold dashed; by rewrite bool_decide_eq_true_2]).
    assert (cin s = (d3 R ++ 45 :: f) ++ LF :: concat ((fun l => l ++ [LF]) <$> ms) ++ last_line R ++ LF :: r) as Hin' by (rewrite Hin, <- !app_assoc; done).
    destruct (more_spec fuel 0 0 0 0 s (d3 R ++ 45 :: f) _ Hp1 Hs ltac:(lia) ltac:(lia) ltac:(rewrite zlen_app, zlen_cons; lia) Hin') as (pf' & x' & pa & b0 & -> & Hx' & Hpa & Hb); [by rewrite T2|rewrite T1, T2; cbn [andb negb]; change (0 =? 0) with true; cbn; fold (rcode R); lia|].
    rewrite T1, T2. cbn [andb negb]. change (0 =? 0) with true. cbn iota. cbn [negb]. fold (rcode R).
    edestruct (inner_spec R ms W Hms Hp' fuel pf' x' (0 + 1) (set_line (concat ((fun l => l ++ [LF]) <$> ms) ++ last_line R ++ LF :: r) (cout s) pa b0 s) r) as (pa' & b' & E & E1 & E2); [done|done|lia|rewrite zlen_app; lia|lia|done|]. exists pa', b'. rewrite ED in E. done.
  - cbn [fmap list_fmap concat app] in *. rewrite zlen_nil in Hz. rewrite (last_spec R _ 0 0 0 0 s r) by (done || lia || by left). rewrite ED. eexists _, _. split; [done|]. split; [apply fold_ok, lok_line0; (done || lia)|]. split; [apply Hs|done].
Qed.

(** *** The address in the reply to PASV *)
Lemma flag_keep s c : pflag s = 2 \/ pflag s = 3 \/ (pflag s = 1 /\ is_digit c = false) -> flag_step s c = pflag s.
Proof. unfold flag_step. intros [-> | [-> | [-> ->]]]; cbn; [by rewrite andb_false_r|by rewrite andb_false_r|by rewrite andb_false_r]. Qed.
Lemma pre_spec t : forall s, Forall (fun c => is_digit c = false) t -> pflag s = 1 -> 4 <= dig s ->
  let s' := foldl next s t in pflag s' = 1 /\ px s' = px s /\ lpasv s' = lpasv s /\ 4 <= dig s'.
Proof.
  induction t as [|c t IH]; intros s Ht Hf Hd; [done|]. inversion_clear Ht as [|? ? Hc Ht']. cbn [foldl]. assert (pasv_step (flag_step s c) s c = (lpasv s, px s, 1)) as E by (rewrite flag_keep by auto; unfold pasv_step; by rewrite Hf).
  assert (pflag (next s c) = 1 /\ px (next s c) = px s /\ lpasv (next s c) = lpasv s) as (N1 & N2 & N3) by (unfold next; by rewrite E).
  destruct (IH (next s c) Ht' N1) as (H1 & H2 & H3 & H4); [cbn; lia|]. cbn zeta. by rewrite H2, H3.
Qed.
Definition addr_char (c : Z) : Prop := c <> CR /\ c <> 41.
Lemma addr_step s c w pa : flag_step s c = 2 -> addr_char c -> px s = zlen w -> lpasv s = w ++ drop (length w) pa -> zlen w < 63 -> zlen pa = 64 ->
  let s' := next s c in pflag s' = 2 /\ px s' = zlen (w ++ [Some c]) /\ lpasv s' = (w ++ [Some c]) ++ drop (length (w ++ [Some c])) pa.
Proof.
  intros Hf [H1 H2] Hp Hl Hw Hpa. unfold next, pasv_step. rewrite Hf. cbn [Z.eqb]. rewrite (proj2 (Z.eqb_neq c CR)), (proj2 (Z.eqb_neq c 41)) by done. cbn [negb andb]. rewrite Hp. rewrite (proj2 (Z.ltb_lt _ 63)) by done. cbn [pflag px lpasv fst snd]. rewrite zlen_app, zlen_cons, zlen_nil. split; [done|]. split; [done|].
  rewrite Hl. unfold zlen in *. rewrite Nat2Z.id, insert_next by (lia || done). rewrite length_app, <- app_assoc. cbn [length app]. by rewrite Nat.add_1_r.
Qed.
Lemma addr_spec pa t : forall s w, Forall addr_char t -> pflag s = 2 -> px s = zlen w -> lpasv s = w ++ drop (length w) pa -> zlen w + zlen t <= 63 -> zlen pa = 64 ->
  let s' := foldl next s t in pflag s' = 2 /\ px s' = zlen (w ++ (Some <$> t)) /\ lpasv s' = (w ++ (Some <$> t)) ++ drop (length (w ++ (Some <$> t))) pa.
Proof.
  induction t as [|c t IH]; intros s w Ht Hf Hp Hl Hw Hpa; [cbn; by rewrite app_nil_r|]. inversion_clear Ht as [|? ? Hc Ht']. rewrite zlen_cons in Hw. pose proof (zlen_nonneg t). cbn [foldl].
  destruct (addr_step s c w pa) as (H1 & H2 & H3); try done; [by rewrite flag_keep by auto|lia|]. destruct (IH (next s c) (w ++ [Some c]) Ht' H1 H2 H3) as (I1 & I2 & I3); [rewrite zlen_app, zlen_cons, zlen_nil; lia|done|]. cbn zeta. rewrite fmap_cons. change (Some c :: (Some <$> t)) with ([Some c] ++ (Some <$> t)). by rewrite (app_assoc w [Some c]).
Qed.
Lemma post_spec t : forall s, pflag s = 3 -> lpasv (foldl next s t) = lpasv s.
Proof.
  induction t as [|c t IH]; intros s Hf; [done|]. cbn [foldl]. assert (pasv_step (flag_step s c) s c = (lpasv s, px s, 3)) as E by (rewrite flag_keep by auto; unfold pasv_step; by rewrite Hf). rewrite IH; unfold next; by rewrite E.
Qed.

Lemma pasv_text pa b pre d addr post : zlen pa = 64 -> Forall (fun c => is_digit c = false) pre -> is_digit d = true -> Forall addr_char addr -> zlen addr < 63 ->
  lpasv (foldl next (line0 0 0 0 pa b) ([50; 50; 55; 32] ++ pre ++ (d :: addr) ++ 41 :: post)) = (Some <$> d :: addr) ++ Some 0 :: drop (S (length (d :: addr))) pa.
Proof.
  intros Hpa Hpre Hd Ha Hl. pose proof (zlen_nonneg addr). rewrite !foldl_app. set (s1 := foldl next _ [50; 50; 55; 32]). destruct (pre_spec pre s1 Hpre) as (P1 & P2 & P3 & P4); [done|by cbn|]. set (s2 := foldl next s1 pre) in *. cbn zeta in *. change (px s1) with 0 in P2. change (lpasv s1) with pa in P3.
  cbn [foldl]. assert (addr_char d) as Hdc by (unfold is_digit in Hd; unfold addr_char, CR; lia).
  destruct (addr_step s2 d [] pa) as (A1 & A2 & A3); [|done|done|done|by rewrite zlen_nil|done|]. { unfold flag_step. rewrite P1. cbn. rewrite Hd. by rewrite (proj2 (Z.ltb_lt 4 _)) by lia. }
  destruct (addr_spec pa addr (next s2 d) [Some d] Ha A1 A2 A3) as (B1 & B2 & B3); [rewrite zlen_cons, zlen_nil; lia|done|]. set (s3 := foldl next (next s2 d) addr) in *. cbn zeta in *.
  rewrite post_spec; unfold next, pasv_step; rewrite (flag_keep s3) by auto; rewrite B1; cbn; [|done]. rewrite B2, B3. unfold zlen. rewrite Nat2Z.id. rewrite insert_next; [by rewrite length_app, length_fmap|done|]. unfold zlen in *. rewrite length_app, length_fmap. cbn. lia.
Qed.
Lemma cells_text t rest : Forall (fun c => c <> 0) t -> cells ((Some <$> t) ++ Some 0 :: rest) = Ret t.
Proof. induction 1 as [|c t Hc _ IH]; cbn; [done|]. rewrite (proj2 (Z.eqb_neq c 0)) by done. by rewrite IH. Qed.

Lemma scan_app w : forall acc r, Forall (fun c => is_digit c = true) w -> scan_digits acc (w ++ r) = scan_digits (foldl (fun a c => a * 10 + (c - 48)) acc w) r.
Proof. induction w as [|c w IH]; intros acc r H; [done|]. inversion_clear H as [|? ? Hc Hw]. cbn. rewrite Hc. by apply IH. Qed.
Lemma dec_spec fuel : forall n, 0 <= n < 10 ^ Z.of_nat fuel -> Forall (fun c => is_digit c = true) (PL.dec fuel n) /\ foldl (fun a c => a * 10 + (c - 48)) 0 (PL.dec fuel n) = n /\ (fuel <> O -> PL.dec fuel n <> []).
Proof.
  induction fuel as [|fuel IH]; intros n Hn; [cbn in *; split_and!; [constructor|lia|done]|]. cbn [PL.dec]. destruct (n <? 10) eqn:E.
  - split_and!; [constructor; [unfold is_digit; lia|constructor]|cbn; lia|done].
  - rewrite Nat2Z.inj_succ, Z.pow_succ_r in Hn by lia. pose proof (Z.mod_pos_bound n 10 ltac:(lia)). destruct (IH (n / 10)) as (H1 & H2 & _); [split; [apply Z.div_pos; lia|apply Z.div_lt_upper_bound; lia]|]. rewrite foldl_snoc, H2. split_and!.
    + apply Forall_app. split; [done|]. constructor; [unfold is_digit; lia|constructor].
    + pose proof (Z.div_mod n 10 ltac:(lia)). lia.
    + intros _. by destruct (PL.dec fuel (n / 10)).
Qed.
Definition byte (n : Z) : Prop := 0 <= n <= 255.
Definition no_digit (r : list Z) : Prop := match r with c :: _ => is_digit c = false | [] => True end.
Lemma scan_ld_dec n r : byte n -> no_digit r -> scan_ld (PL.dec 20 n ++ r) = Ret (Some (n, r)).
Proof.
  intros Hn Hr. destruct (dec_spec 20 n ltac:(unfold byte in Hn; lia)) as (H1 & H2 & H3). specialize (H3 ltac:(done)). unfold scan_ld. pose proof (scan_app (PL.dec 20 n) 0 r H1) as HS. rewrite H2 in HS. destruct (PL.dec 20 n) as [|c w]; [done|]. inversion_clear H1 as [|? ? Hc _].
  cbn [app] in *. cbn [skip_space]. assert (is_space c = false) as -> by (unfold is_digit, is_space in *; lia).
  assert (match c :: w ++ r with 45 :: s => (-1, s) | 43 :: s => (1, s) | _ => (1, c :: w ++ r) end = (1, c :: w ++ r)) as ->.
  { unfold is_digit in Hc. assert (c = 48 \/ c = 49 \/ c = 50 \/ c = 51 \/ c = 52 \/ c = 53 \/ c = 54 \/ c = 55 \/ c = 56 \/ c = 57) as Hc' by lia. by destruct_or! Hc'; subst c. }
  cbv iota beta. rewrite Hc, HS. assert (scan_digits n r = (n, r)) as -> by (destruct r as [|c' r]; [done|]; cbn in *; by rewrite Hr). unfold byte in Hn. rewrite Z.mul_1_l. assert (long_ok n = true) as -> by (unfold long_ok; lia). done.
Qed.

(** The six numbers of an address with commas. *)
Definition comma_dec (y : Z) : list Z := 44 :: PL.dec 20 y.
Definition addr_text (l : list Z) : list Z := match l with [] => [] | x :: l => PL.dec 20 x ++ concat (comma_dec <$> l) end.
Lemma scan_list_cons k x s : byte x -> scan_list (S (S k)) (PL.dec 20 x ++ 44 :: s) = (let* l := scan_list (S k) s in Ret (x :: l)).
Proof. intros H. remember (S k) as k' eqn:E. cbn [scan_list]. rewrite scan_ld_dec by done. by subst k'. Qed.
Lemma scan_list_text l : Forall byte l -> scan_list (length l) (addr_text l) = Ret l.
Proof.
  intros H. destruct l as [|x l]; [done|]. revert x H. induction l as [|y l IH]; intros x H; inversion_clear H as [|? ? Hx Hl].
  - cbn [addr_text fmap list_fmap concat length scan_list]. by rewrite scan_ld_dec.
  - cbn [addr_text fmap list_fmap concat length app comma_dec]. rewrite scan_list_cons by done. specialize (IH y Hl). cbn [addr_text length] in IH. by rewrite IH.
Qed.

Lemma lor_add a b k : 0 <= k -> 0 <= b < 2 ^ k -> Z.lor (Z.shiftl a k) b = a * 2 ^ k + b.
Proof.
  intros Hk Hb. rewrite <- Z.shiftl_mul_pow2 by done. assert (Z.land (Z.shiftl a k) b = 0) as HL; [|by rewrite Z.add_nocarry_lxor, Z.lxor_lor by done]. apply Z.bits_inj'. intros i Hi. rewrite Z.land_spec, Z.bits_0. destruct (decide (i < k)) as [L|L]; [by rewrite Z.shiftl_spec_low|].
  rewrite andb_false_iff. right. destruct (decide (b = 0)) as [->|Hb0]; [apply Z.bits_0|]. apply Z.bits_above_log2; [lia|]. apply Z.log2_lt_pow2; [lia|]. apply Z.lt_le_trans with (2 ^ k); [lia|]. apply Z.pow_le_mono_r; lia.
Qed.
Lemma pasv_addr_eq a1 a2 a3 a4 p1 p2 : Forall byte [a1; a2; a3; a4; p1; p2] -> pasv_addr [a1; a2; a3; a4; p1; p2] = Some (a1 * 2 ^ 24 + a2 * 2 ^ 16 + a3 * 2 ^ 8 + a4, p1 * 2 ^ 8 + p2).
Proof.
  intros H. rewrite !Forall_cons in H. destruct H as (H1 & H2 & H3 & H4 & H5 & H6 & _). unfold byte in *. unfold pasv_addr, u64. rewrite !Z.mod_small by lia.
  assert (Z.lor (Z.shiftl a1 24) (Z.shiftl a2 16) = Z.shiftl (a1 * 2 ^ 8 + a2) 16) as ->. { rewrite (Z.shiftl_mul_pow2 a2), lor_add by lia. rewrite Z.shiftl_mul_pow2 by lia. lia. }
  assert (Z.lor (Z.shiftl (a1 * 2 ^ 8 + a2) 16) (Z.shiftl a3 8) = Z.shiftl ((a1 * 2 ^ 8 + a2) * 2 ^ 8 + a3) 8) as ->. { rewrite (Z.shiftl_mul_pow2 a3), lor_add by lia. rewrite !Z.shiftl_mul_pow2 by lia. lia. }
  rewrite !lor_add by lia. unfold u32, u16. rewrite !Z.mod_small by lia. f_equal. f_equal. lia.
Qed.

(** ** What the operations do with a server that answers *)
Definition CRLF : list Z := [CR; LF].
(** Only the control connection has moved: [o] has been sent and [r] is left to read. *)
Definition moved (s : ftp) (o r : list Z) (s' : ftp) : Prop :=
  exists c pa b, s' = set_code c (set_line r (cout s ++ o) pa b s) /\ zlen pa = 64 /\ zlen b = 8192.
Lemma moved_sized s o r s' : moved s o r s' -> sized s' /\ cin s' = r /\ cout s' = cout s ++ o /\ ctl s' = ctl s /\ passive s' = passive s /\ files s' = files s /\ mode s' = mode s /\ restart_point s' = restart_point s /\ data_addr s' = data_addr s /\ sent s' = sent s /\ stdout s' = stdout s.
Proof. intros (c & pa & b & -> & H1 & H2). done. Qed.
Lemma moved_trans s o1 r1 s1 o2 r2 s2 : moved s o1 r1 s1 -> moved s1 o2 r2 s2 -> moved s (o1 ++ o2) r2 s2.
Proof. intros (c & pa & b & -> & _) (c' & pa' & b' & -> & H1 & H2). exists c', pa', b'. split; [|done]. unfold set_code, set_line. cbn. by rewrite app_assoc. Qed.
Lemma moved_nil s r : sized s -> cin s = r -> moved s [] r s.
Proof. intros [H1 H2] <-. exists (code s), (pasv s), (reply_string s). rewrite app_nil_r. by destruct s. Qed.

Lemma answered_len s r t c pa b : zlen b = 8192 -> zlen (reply_string (answered s r t c pa b)) = 8192.
Proof. intros H. unfold answered. cbn [reply_string set_code set_line]. pose proof room_eq. unfold zlen in *. pose proof (length_take t room). rewrite length_app, length_fmap. cbn [length]. rewrite length_drop. lia. Qed.
(** The kind of a reply: its first digit. *)
Definition kind (R : reply) : Z := (digits R).1.1 - 48.
Lemma reply_moves R s r : wf_reply R -> sized s -> cin s = render R ++ r -> exists s', getreply s = Ret (kind R, s') /\ moved s [] r s' /\ code s' = Some (rcode R).
Proof.
  intros W Hs Hin. destruct (getreply_spec R s r W Hs Hin) as (pa & b & E & H1 & H2 & _). eexists. split; [exact E|]. split; [|done]. exists (Some (rcode R)), pa, (reply_string (answered s r (last_line R) (rcode R) pa b)). split; [by rewrite app_nil_r|]. split; [done|]. by apply answered_len.
Qed.

Section operations.
Context (peer : Z -> Z -> option (list Z)) (chunk wr swr : Z -> Z -> Z) (ok : call -> bool) (resolve : list Z -> option Z) (blksize : Z).
Implicit Types (s : ftp) (R : reply).

Lemma command_moves R s line r : wf_reply R -> sized s -> ctl s = HOpen -> cin s = render R ++ r -> exists s', command s line = Ret (kind R, s') /\ moved s (line ++ CRLF) r s' /\ code s' = Some (rcode R).
Proof.
  intros W Hs Hc Hin. unfold command. rewrite Hc. destruct (reply_moves R (send (line ++ [CR; LF]) s) r W Hs Hin) as (s' & E & (c & pa & b & -> & H1 & H2) & Hcode). eexists. split; [exact E|]. split; [|done]. exists c, pa, b. split; [|done]. unfold set_code, set_line, send. cbn. by rewrite app_nil_r.
Qed.

(** [227 ... (a1,a2,a3,a4,p1,p2)...] *)
Definition pasv_reply (pre : list Z) (l : list Z) (post : list Z) : reply := mk_reply (50, 50, 55) None (32 :: pre ++ addr_text l ++ 41 :: post).
Definition address (l : list Z) : Z * Z := match l with [a1; a2; a3; a4; p1; p2] => (a1 * 2 ^ 24 + a2 * 2 ^ 16 + a3 * 2 ^ 8 + a4, p1 * 2 ^ 8 + p2) | _ => (0, 0) end.
Lemma dec_len n : byte n -> (length (PL.dec 20 n) <= 3)%nat.
Proof.
  unfold byte. intros H. cbn [PL.dec]. destruct (n <? 10) eqn:E1; [cbn; lia|]. destruct (n / 10 <? 10) eqn:E2; [cbn; lia|]. assert (n / 10 / 10 <? 10 = true) as -> by (apply Z.ltb_lt; rewrite Z.div_div by lia; apply Z.div_lt_upper_bound; lia). cbn. lia.
Qed.
Lemma addr_text_chars l : Forall byte l -> length l = 6%nat -> exists d t, addr_text l = d :: t /\ is_digit d = true /\ Forall addr_char t /\ zlen t < 63 /\ Forall (fun c => c <> 0) (d :: t).
Proof.
  intros Hb Hl. assert (Forall (fun c => is_digit c = true \/ c = 44) (addr_text l) /\ (length (addr_text l) <= 4 * length l)%nat) as [Hc Hlen].
  { destruct l as [|x l]; [done|]. clear Hl. inversion_clear Hb as [|? ? Hx Hb']. unfold addr_text. assert (Forall (fun c => is_digit c = true \/ c = 44) (concat (comma_dec <$> l)) /\ (length (concat (comma_dec <$> l)) <= 4 * length l)%nat) as [I1 I2].
    { induction Hb' as [|y l Hy _ [I1 I2]]; [split; [constructor|cbn; lia]|]. cbn [fmap list_fmap concat]. split; [|rewrite length_app; unfold comma_dec at 1; cbn [length]; pose proof (dec_len y Hy); lia]. apply Forall_app. split; [|done]. constructor; [by right|]. destruct (dec_spec 20 y ltac:(unfold byte in Hy; lia)) as [D _]. eapply Forall_impl; [exact D|]. by left. }
    destruct (dec_spec 20 x ltac:(unfold byte in Hx; lia)) as [D _]. split; [apply Forall_app; split; [eapply Forall_impl; [exact D|]; by left|done]|]. rewrite length_app. pose proof (dec_len x Hx). cbn [length]. lia. }
  destruct l as [|x l]; [done|]. inversion_clear Hb as [|? ? Hx _]. destruct (dec_spec 20 x ltac:(unfold byte in Hx; lia)) as (D & _ & Hne). unfold addr_text in *. destruct (PL.dec 20 x) as [|d t]; [by destruct Hne|]. inversion_clear D as [|? ? Hd _]. cbn [app] in *. eexists d, _. split; [done|]. split; [done|]. inversion_clear Hc as [|? ? _ Ht].
  split; [eapply Forall_impl; [exact Ht|]; intros c [Hc| ->]; [unfold is_digit in Hc; unfold addr_char, CR; lia|done]|]. split; [unfold zlen; cbn [length] in *; lia|]. constructor; [unfold is_digit in Hd; lia|]. eapply Forall_impl; [exact Ht|]. intros c [Hc| ->]; [unfold is_digit in Hc; lia|done].
Qed.

Lemma initconn_moves pre l post s r data : wf_reply (pasv_reply pre l post) -> Forall (fun c => is_digit c = false) pre -> Forall byte l -> length l = 6%nat -> sized s -> ctl s = HOpen -> passive s <> 0 -> ok Socket = true ->
  peer (address l).1 (address l).2 = Some data -> cin s = render (pasv_reply pre l post) ++ r ->
  exists s', initconn peer ok s = Ret (1, s') /\ moved (set_data_addr (Some (address l)) (set_datafd newfd s)) (bytes "PASV" ++ CRLF) r s'.
Proof.
  intros W Hpre Hb Hl Hs Hc Hp Ho Hpeer Hin. unfold initconn. rewrite (proj2 (Z.eqb_neq _ 0)) by done. rewrite Ho. unfold command. change (ctl (set_datafd newfd s)) with (ctl s). rewrite Hc. set (s0 := send _ _).
  destruct (getreply_spec _ s0 r W Hs Hin) as (pa & b & E & H1 & H2 & Hpa). rewrite E. cbn [obind]. change ((digits (pasv_reply pre l post)).1.1 - 48) with 2. cbn [negb Z.eqb COMPLETE Pos.eqb]. specialize (Hpa eq_refl).
  destruct (addr_text_chars l Hb Hl) as (d & t & Et & Hd & Ht & Hlen & Hnz). change (pasv (answered s0 r ?x ?y pa b)) with pa.
  assert (pa = (Some <$> d :: t) ++ Some 0 :: drop (S (length (d :: t))) (pasv s0)) as ->.
  { rewrite Hpa. unfold last_line, d3, pasv_reply. cbn [digits after]. rewrite Et. apply (pasv_text (pasv s0) (reply_string s0) pre d t post); try done. apply Hs. }
  rewrite cells_text by done. cbn [obind]. rewrite <- Et in H1 |- *. pose proof (scan_list_text l Hb) as HS. rewrite Hl in HS. rewrite HS. cbn [obind]. destruct l as [|a1 [|a2 [|a3 [|a4 [|p1 [|p2 [|]]]]]]]; try done. rewrite pasv_addr_eq by done. cbn [address fst snd] in *. rewrite Hpeer. eexists. split; [done|].
  eexists _, _, (reply_string (answered s0 r (last_line (pasv_reply pre [a1; a2; a3; a4; p1; p2] post)) 0 [] b)). split; [reflexivity|]. split; [done|]. by apply answered_len.
Qed.

(** *** Transfers *)
Definition opened (d : dest) (s : ftp) : Prop := match d with ToStdout => True | ToFile p => is_Some (files s !! p) end.
Lemma append_opened d b s : opened d s -> opened d (append d b s).
Proof. destruct d as [|p]; [done|]. intros _. cbn. rewrite lookup_insert_eq. by eexists. Qed.
Lemma append_app d b b' s : append d b' (append d b s) = append d (b ++ b') s.
Proof. destruct d as [|p]; unfold append, set_stdout, set_files; cbn; [by rewrite app_assoc|]. by rewrite lookup_insert_eq, insert_insert_eq, app_assoc. Qed.
Lemma append_nil d s : opened d s -> append d [] s = s.
Proof. destruct d as [|p]; cbn; [intros _; unfold set_stdout; rewrite app_nil_r; by destruct s|]. intros [x Hx]. rewrite Hx. cbn. rewrite app_nil_r. unfold set_files. rewrite insert_id by done. by destruct s. Qed.

Lemma read_len_range size pos avail : 0 < size -> 0 < avail -> 0 < read_len chunk size pos avail <= avail.
Proof. unfold read_len. lia. Qed.
Lemma get_loop_spec d : 0 < blksize -> (forall p k, 0 < k -> wr p k = k) -> forall fuel pos l s, (length l <= fuel)%nat -> opened d s -> get_loop chunk wr blksize fuel d pos l s = Ret (append d l s).
Proof.
  intros Hb Hw. induction fuel as [|fuel IH]; intros pos l s Hf Ho; (destruct l as [|c l]; [by rewrite append_nil|]); [cbn in Hf; lia|]. cbn [get_loop]. pose proof (read_len_range blksize pos (zlen (c :: l)) Hb ltac:(rewrite zlen_cons; pose proof (zlen_nonneg l); lia)) as Hr. set (k := read_len _ _ _ _) in *.
  rewrite Hw by lia. rewrite Z.min_id, Z.eqb_refl. rewrite IH; [|rewrite length_drop; cbn in Hf |- *; lia|by apply append_opened]. by rewrite append_app, take_drop.
Qed.
Lemma write_all_spec : (forall p k, 0 < k -> 0 < swr p k) -> forall fuel pos b, (length b <= fuel)%nat -> write_all swr fuel pos b = Ret b.
Proof.
  intros Hw. induction fuel as [|fuel IH]; intros pos b Hf; (destruct b as [|c b]; [done|]); [cbn in Hf; lia|]. cbn [write_all]. pose proof (zlen_nonneg b). specialize (Hw pos (zlen (c :: b)) ltac:(rewrite zlen_cons; lia)). set (d := Z.min _ _). assert (0 < d) as Hd by (subst d; rewrite zlen_cons in *; lia).
  rewrite (proj2 (Z.leb_gt d 0)) by lia. rewrite IH by (rewrite length_drop; cbn in Hf |- *; lia). cbn [obind]. by rewrite take_drop.
Qed.
Lemma put_loop_spec : (forall p k, 0 < k -> 0 < swr p k) -> forall fuel pos l, (length l <= fuel)%nat -> put_loop chunk swr fuel pos l = Ret l.
Proof.
  intros Hw. induction fuel as [|fuel IH]; intros pos l Hf; (destruct l as [|c l]; [done|]); [cbn in Hf; lia|]. cbn [put_loop]. pose proof (read_len_range BUFSIZ pos (zlen (c :: l)) ltac:(done) ltac:(rewrite zlen_cons; pose proof (zlen_nonneg l); lia)) as Hr. set (k := read_len _ _ _ _) in *.
  rewrite write_all_spec by (done || lia). cbn [obind]. rewrite IH by (rewrite length_drop; cbn in Hf |- *; lia). cbn [obind]. by rewrite take_drop.
Qed.

(** The replies to a transfer: to PASV, to the command, and at the end. *)
Record transfer := mk_transfer { t_pre : list Z; t_addr : list Z; t_post : list Z; t_data : list Z; t_start : reply; t_end : reply }.
Definition wf_transfer (T : transfer) : Prop :=
  wf_reply (pasv_reply (t_pre T) (t_addr T) (t_post T)) /\ Forall (fun c => is_digit c = false) (t_pre T) /\ Forall byte (t_addr T) /\ length (t_addr T) = 6%nat /\
  wf_reply (t_start T) /\ kind (t_start T) = PRELIM /\ wf_reply (t_end T) /\ peer (address (t_addr T)).1 (address (t_addr T)).2 = Some (t_data T).
Definition t_pasv (T : transfer) : list Z := render (pasv_reply (t_pre T) (t_addr T) (t_post T)).
(** A name that stands for a file. *)
Definition names_file (p : list Z) : Prop := p <> [45] /\ head p <> Some 124.

(** The state in which commands are answered. *)
Definition ready (s : ftp) : Prop := sized s /\ ctl s = HOpen /\ passive s <> 0 /\ ok Socket = true /\ ok Fdopen_data = true.
Definition stored (s : ftp) (T : transfer) (fs : gmap (list Z) (list Z)) (rp : Z) : ftp := set_datafd (-1) (set_data_addr (Some (address (t_addr T))) (set_files fs (set_restart_point rp s))).

Lemma moved_ready s o r s' : moved s o r s' -> ready s -> ready s'.
Proof. intros (c & pa & b & -> & H1 & H2) (_ & R2 & R3 & R4 & R5). by split_and!. Qed.

Lemma dataconn_eq s a p b : passive s <> 0 -> ok Fdopen_data = true -> data_addr s = Some (a, p) -> peer a p = Some b -> dataconn peer ok s = Some (a, p, b).
Proof. intros H1 H2 H3 H4. unfold dataconn. rewrite (proj2 (Z.eqb_neq _ 0)) by done. rewrite H2, H3, H4. done. Qed.
Lemma append_file p b s f : files s !! p = Some f -> append (ToFile p) b s = set_files (<[p := f ++ b]> (files s)) s.
Proof. intros H. unfold append. by rewrite H. Qed.
Lemma fopen_append p app b s : append (ToFile p) b (fopen_write p app s) = set_files (<[p := (if app then default [] (files s !! p) else []) ++ b]> (files s)) s.
Proof. rewrite (append_file _ _ _ (if app then default [] (files s !! p) else [])) by (cbn; by rewrite lookup_insert_eq). unfold fopen_write. cbn [files set_files]. by rewrite insert_insert_eq. Qed.

Lemma recv_spec T s cmd lc rm app rest s1 r1 (f : list Z) : 0 < blksize -> (forall p k, 0 < k -> wr p k = k) -> wf_transfer T -> ready s -> names_file lc -> ok (Fopen lc) = true ->
  (* the answers to PASV and to a restart have been read *)
  (exists s0, initconn peer ok s = Ret (1, s0) /\ (if bool_decide (cmd = RETR) && negb (restart_point s0 =? 0) then command s0 (bytes "REST " ++ PL.dec 20 (restart_point s0)) else Ret (CONTINUE, s0)) = Ret (CONTINUE, s1) /\ moved (set_data_addr (Some (address (t_addr T))) (set_datafd newfd s)) rest (render (t_start T) ++ render (t_end T) ++ r1) s1) ->
  f = (if app : bool then default [] (files s !! lc) else []) ->
  exists s', recvrequest peer chunk wr ok blksize s cmd (Some lc) (Some rm) app = Ret (0, s') /\ moved (stored s T (<[lc := f ++ t_data T]> (files s)) (restart_point s)) (rest ++ (cmd ++ 32 :: rm) ++ CRLF) r1 s'.
Proof.
  intros Hb Hw (_ & _ & _ & _ & W1 & K1 & W2 & Hpeer) HR [N1 N2] Hopen (s0 & E0 & E1 & M1) ->. unfold recvrequest. rewrite E0. cbn [obind Z.eqb]. rewrite E1. cbn [obind]. change (negb (CONTINUE =? CONTINUE)) with false. cbv iota.
  assert (ready (set_data_addr (Some (address (t_addr T))) (set_datafd newfd s))) as HR0 by exact HR. pose proof (moved_ready _ _ _ _ M1 HR0) as HR1. destruct HR1 as (Hs1 & Hc1 & Hp1 & _ & Hfd). pose proof (moved_sized _ _ _ _ M1) as (_ & Hin & _).
  destruct (command_moves (t_start T) s1 (with_arg cmd (Some rm)) _ W1 Hs1 Hc1 Hin) as (s2 & E2 & M2 & _). rewrite E2. cbn [obind]. rewrite K1. cbn [Z.eqb negb PRELIM Pos.eqb]. pose proof (moved_trans _ _ _ _ _ _ _ M1 M2) as M. destruct M as (c & pa & b & -> & L1 & L2).
  unfold open_local. rewrite decide_False, decide_False by done. rewrite Hopen. cbn [obind]. destruct (address (t_addr T)) as [ad po] eqn:EA. cbn [fst snd] in Hpeer. set (s2 := set_code c _). rewrite (dataconn_eq (fopen_write lc app s2) ad po (t_data T) (proj1 (proj2 (proj2 HR))) Hfd eq_refl Hpeer).
  rewrite (get_loop_spec (ToFile lc)) by (try done; cbn; rewrite lookup_insert_eq; by eexists). cbn [obind]. rewrite fopen_append.
  set (s3 := set_datafd (-1) _). destruct (reply_moves (t_end T) s3 r1 W2) as (s4 & E4 & M4 & _); [done|done|]. rewrite E4. cbn [obind snd]. eexists. split; [done|]. destruct M4 as (c' & pa' & b' & -> & L1' & L2'). exists c', pa', b'. split; [|done]. rewrite app_nil_r. unfold stored. rewrite EA. reflexivity.
Qed.

Lemma get_moves T s rm lc r : 0 < blksize -> (forall p k, 0 < k -> wr p k = k) -> wf_transfer T -> ready s -> names_file lc -> ok (Fopen lc) = true -> cin s = t_pasv T ++ render (t_start T) ++ render (t_end T) ++ r ->
  exists s', ftpclient_get peer chunk wr ok blksize s (Some rm) (Some lc) = Ret (1, s') /\ moved (stored s T (<[lc := t_data T]> (files s)) 0) ((bytes "PASV" ++ CRLF) ++ (RETR ++ 32 :: rm) ++ CRLF) r s'.
Proof.
  intros Hb Hw WT HR Hn Ho Hin. pose proof WT as (P1 & P2 & P3 & P4 & _ & _ & _ & P5). set (s0 := set_restart_point 0 s). assert (ready s0) as HR0 by exact HR. destruct HR as (R1 & R2 & R3 & R4 & R5).
  destruct (initconn_moves (t_pre T) (t_addr T) (t_post T) s0 (render (t_start T) ++ render (t_end T) ++ r) (t_data T) P1 P2 P3 P4 R1 R2 R3 R4 P5 Hin) as (s1 & E1 & M1).
  edestruct (recv_spec T s0 RETR lc rm false (bytes "PASV" ++ CRLF) s1 r [] Hb Hw WT HR0 Hn Ho) as (s2 & E2 & M2); [|done|].
  { exists s1. split; [done|]. split; [|done]. pose proof (moved_sized _ _ _ _ M1) as (_ & _ & _ & _ & _ & _ & _ & Hrp & _). rewrite Hrp. done. }
  unfold ftpclient_get, getit. fold s0. rewrite E2. cbn [obind snd]. eexists. split; [done|]. exact M2.
Qed.

(** What is missing of a file is asked for and added to it. *)
Lemma reget_moves T Rr s rm lc old r : 0 < blksize -> (forall p k, 0 < k -> wr p k = k) -> wf_transfer T -> ready s -> names_file lc -> ok (Fopen lc) = true -> wf_reply Rr -> kind Rr = CONTINUE -> files s !! lc = Some old -> old <> [] ->
  cin s = t_pasv T ++ render Rr ++ render (t_start T) ++ render (t_end T) ++ r ->
  exists s', ftpclient_reget peer chunk wr ok blksize s (Some rm) (Some lc) = Ret (1, s') /\
    moved (stored s T (<[lc := old ++ t_data T]> (files s)) (zlen old)) (((bytes "PASV" ++ CRLF) ++ (bytes "REST " ++ PL.dec 20 (zlen old)) ++ CRLF) ++ (RETR ++ 32 :: rm) ++ CRLF) r s'.
Proof.
  intros Hb Hw WT HR Hn Ho WR KR Hold Hne Hin. pose proof WT as (P1 & P2 & P3 & P4 & _ & _ & _ & P5). set (s0 := set_restart_point (zlen old) s). assert (ready s0) as HR0 by exact HR. destruct HR as (R1 & R2 & R3 & R4 & R5).
  destruct (initconn_moves (t_pre T) (t_addr T) (t_post T) s0 (render Rr ++ render (t_start T) ++ render (t_end T) ++ r) (t_data T) P1 P2 P3 P4 R1 R2 R3 R4 P5 Hin) as (s1 & E1 & M1).
  pose proof (moved_sized _ _ _ _ M1) as (S1 & Hin1 & _ & Hc1 & _ & _ & _ & Hrp & _). destruct (command_moves Rr s1 (bytes "REST " ++ PL.dec 20 (zlen old)) (render (t_start T) ++ render (t_end T) ++ r) WR S1) as (s2 & E2 & M2 & _); [by rewrite Hc1|done|].
  edestruct (recv_spec T s0 RETR lc rm true ((bytes "PASV" ++ CRLF) ++ (bytes "REST " ++ PL.dec 20 (zlen old)) ++ CRLF) s2 r old Hb Hw WT HR0 Hn Ho) as (s3 & E3 & M3); [|by cbn; rewrite Hold|].
  { exists s1. split; [done|]. split; [|by eapply moved_trans]. rewrite Hrp. cbn [restart_point set_restart_point set_data_addr set_datafd set_fds s0]. rewrite bool_decide_eq_true_2 by done. rewrite (proj2 (Z.eqb_neq _ 0)) by (destruct old; [done|rewrite zlen_cons; pose proof (zlen_nonneg old); lia]). cbn [negb andb]. by rewrite E2, KR. }
  unfold ftpclient_reget, getit. cbn [option_bind mbind]. change (files (set_restart_point 0 s)) with (files s). rewrite Hold. change (set_restart_point (zlen old) (set_restart_point 0 s)) with s0. rewrite E3. cbn [obind snd]. eexists. split; [done|]. exact M3.
Qed.

(** A file is sent as it is. *)
Lemma put_moves T s rm lc content r : (forall p k, 0 < k -> 0 < swr p k) -> wf_transfer T -> ready s -> ok (Fopen lc) = true -> files s !! lc = Some content -> cin s = t_pasv T ++ render (t_start T) ++ render (t_end T) ++ r ->
  exists s', ftpclient_put peer chunk swr ok s (Some rm) lc = Ret (1, s') /\
    moved (set_sent (sent s ++ [((address (t_addr T)).1, (address (t_addr T)).2, content)]) (stored s T (files s) (restart_point s))) ((bytes "PASV" ++ CRLF) ++ (bytes "STOR" ++ 32 :: rm) ++ CRLF) r s'.
Proof.
  intros Hw (P1 & P2 & P3 & P4 & W1 & K1 & W2 & P5) HR Ho Hf Hin. pose proof HR as (R1 & R2 & R3 & R4 & R5). unfold ftpclient_put, sendrequest. rewrite Hf, Ho.
  destruct (initconn_moves (t_pre T) (t_addr T) (t_post T) s (render (t_start T) ++ render (t_end T) ++ r) (t_data T) P1 P2 P3 P4 R1 R2 R3 R4 P5 Hin) as (s1 & E1 & M1). rewrite E1. cbn [obind Z.eqb]. pose proof (moved_sized _ _ _ _ M1) as (S1 & Hin1 & _ & Hc1 & _).
  destruct (command_moves (t_start T) s1 (with_arg (bytes "STOR") (Some rm)) (render (t_end T) ++ r) W1 S1) as (s2 & E2 & M2 & _); [by rewrite Hc1|done|]. rewrite E2. cbn [obind]. rewrite K1. cbn [Z.eqb negb PRELIM Pos.eqb]. pose proof (moved_trans _ _ _ _ _ _ _ M1 M2) as (c & pa & b & -> & L1 & L2).
  unfold dataconn. cbn [passive data_addr set_code set_line set_data_addr set_datafd set_fds]. rewrite (proj2 (Z.eqb_neq (passive s) 0)) by done. cbn [negb andb]. rewrite R5. destruct (address (t_addr T)) as [ad po] eqn:EA. cbn [fst snd] in *. rewrite P5. rewrite put_loop_spec by done. cbn [obind].
  set (s3 := set_datafd (-1) _). destruct (reply_moves (t_end T) s3 r W2) as (s4 & E4 & M4 & _); [done|done|]. rewrite E4. cbn [obind snd]. eexists. split; [done|]. destruct M4 as (c' & pa' & b' & -> & L1' & L2'). exists c', pa', b'. split; [|done]. rewrite app_nil_r. unfold stored. rewrite EA. reflexivity.
Qed.

(** *** Login *)
Lemma find_blank_spec u rest i : find_blank ((Some <$> u) ++ Some 0 :: rest) i = Ret None \/ exists k, find_blank ((Some <$> u) ++ Some 0 :: rest) i = Ret (Some k) /\ i <= k < i + zlen u.
Proof.
  revert i. induction u as [|c u IH]; intros i; [by left|]. cbn [fmap list_fmap app find_blank]. rewrite zlen_cons. pose proof (zlen_nonneg u). destruct (c =? 32); [right; exists i; split; [done|lia]|]. destruct (c =? 0); [by left|]. destruct (IH (i + 1)) as [H'|(k & H' & Hk)]; [by left|]. right. exists k. split; [done|lia].
Qed.
Lemma cut_spec s t rest : reply_string s = (Some <$> t) ++ Some 0 :: rest -> (4 <= length t)%nat -> zlen (reply_string s) = 8192 -> exists b, cut_system s = Ret (set_line (cin s) (cout s) (pasv s) b s) /\ zlen b = 8192.
Proof.
  intros E Hl Hz. unfold cut_system. assert (drop 4 (reply_string s) = (Some <$> drop 4 t) ++ Some 0 :: rest) as -> by (rewrite E, drop_app_le by (rewrite length_fmap; lia); by rewrite fmap_drop).
  destruct (find_blank_spec (drop 4 t) rest 4) as [-> | (k & -> & Hk)]; cbn [obind]; [exists (reply_string s); split; [by destruct s|done]|]. assert (4 <= k < 4 + zlen t) as Hk' by (unfold zlen in *; rewrite length_drop in Hk; lia). assert (zlen t < 8192) as Ht by (rewrite E, zlen_app, zlen_cons in Hz; pose proof (zlen_nonneg rest); unfold zlen in *; rewrite length_fmap in Hz; lia).
  assert (k < 8192) as Hk8 by (unfold zlen in *; rewrite length_drop in Hk; lia). destruct (aget_lt (reply_string s) (k - 1) ltac:(lia)) as (x & -> & _). cbn [obind]. destruct (decide (x = Some 46)); rewrite aset_Ret by lia; cbn [obind]; eexists; (split; [done|by rewrite zlen_insert]).
Qed.
Lemma syst_spec R s r : wf_reply R -> after R <> [] -> sized s -> ctl s = HOpen -> cin s = render R ++ r ->
  exists s' s2, command s (bytes "SYST") = Ret (kind R, s') /\ (if kind R =? COMPLETE then cut_system s' else Ret s') = Ret s2 /\ moved s (bytes "SYST" ++ CRLF) r s2.
Proof.
  intros W Ha Hs Hc Hin. unfold command. rewrite Hc. set (s0 := send _ s). destruct (getreply_spec R s0 r W Hs Hin) as (pa & b & E & H1 & H2 & _). pose proof (answered_len s0 r (last_line R) (rcode R) pa b H2) as HL. set (s' := answered _ _ _ _ _ _) in *. exists s'. destruct (kind R =? COMPLETE) eqn:EK.
  - destruct (cut_spec s' (take room (last_line R)) (drop (S (length (take room (last_line R)))) b)) as (b' & Eb & Hb'); [done| |done|].
    { rewrite length_take. unfold last_line, d3. destruct (digits R) as [[x y] z]. rewrite length_app. cbn [length]. pose proof room_eq. destruct (after R); [done|]. cbn. lia. }
    eexists. split; [done|]. split; [exact Eb|]. exists (Some (rcode R)), pa, b'. done.
  - exists s'. split; [done|]. split; [done|]. exists (Some (rcode R)), pa, (reply_string s'). done.
Qed.

(** *** Sessions *)

(** What a program does between login and quit, with what the server does about it. *)
Inductive action :=
  | Get (rm lc : list Z) (T : transfer)
  | Reget (rm lc : list Z) (Rr : reply) (T : transfer)
  | Put (rm lc : list Z) (T : transfer)
  | Cwd (path : list Z) (R : reply)
  | Del (path : list Z) (R : reply).
Definition perform (s : ftp) (a : action) : outcome (Z * ftp) :=
  match a with
  | Get rm lc _ => ftpclient_get peer chunk wr ok blksize s (Some rm) (Some lc)
  | Reget rm lc _ _ => ftpclient_reget peer chunk wr ok blksize s (Some rm) (Some lc)
  | Put rm lc _ => ftpclient_put peer chunk swr ok s (Some rm) lc
  | Cwd path _ => ftpclient_cwd s path
  | Del path _ => ftpclient_del s path
  end.
Fixpoint performs (s : ftp) (l : list action) : outcome ftp :=
  match l with [] => Ret s | a :: l => let* r := perform s a in performs (snd r) l end.

(** The part of a file that there is. *)
Definition part (fs : gmap (list Z) (list Z)) (lc : list Z) : list Z := default [] (fs !! lc).
Definition is_part (fs : gmap (list Z) (list Z)) (lc : list Z) : bool := negb (bool_decide (part fs lc = [])).
Definition t_replies (T : transfer) : list Z := render (t_start T) ++ render (t_end T).
Definition answers (fs : gmap (list Z) (list Z)) (a : action) : list Z :=
  match a with
  | Get _ _ T | Put _ _ T => t_pasv T ++ t_replies T
  | Reget _ lc Rr T => t_pasv T ++ (if is_part fs lc then render Rr else []) ++ t_replies T
  | Cwd _ R | Del _ R => render R
  end.
Definition PASV_line : list Z := bytes "PASV" ++ CRLF.
Definition commands (fs : gmap (list Z) (list Z)) (a : action) : list Z :=
  match a with
  | Get rm _ _ => PASV_line ++ (RETR ++ 32 :: rm) ++ CRLF
  | Reget rm lc _ _ => PASV_line ++ (if is_part fs lc then (bytes "REST " ++ PL.dec 20 (zlen (part fs lc))) ++ CRLF else []) ++ (RETR ++ 32 :: rm) ++ CRLF
  | Put rm _ _ => PASV_line ++ (bytes "STOR" ++ 32 :: rm) ++ CRLF
  | Cwd path _ => (bytes "CWD " ++ path) ++ CRLF
  | Del path _ => (bytes "DELE " ++ path) ++ CRLF
  end.
Definition files_after (fs : gmap (list Z) (list Z)) (a : action) : gmap (list Z) (list Z) :=
  match a with Get _ lc T => <[lc := t_data T]> fs | Reget _ lc _ T => <[lc := part fs lc ++ t_data T]> fs | _ => fs end.
Definition sent_by (fs : gmap (list Z) (list Z)) (a : action) : list (Z * Z * list Z) :=
  match a with Put _ lc T => [((address (t_addr T)).1, (address (t_addr T)).2, part fs lc)] | _ => [] end.
Definition wf_action (fs : gmap (list Z) (list Z)) (a : action) : Prop :=
  match a with
  | Get _ lc T => wf_transfer T /\ names_file lc /\ ok (Fopen lc) = true
  | Reget _ lc Rr T => wf_transfer T /\ names_file lc /\ ok (Fopen lc) = true /\ wf_reply Rr /\ kind Rr = CONTINUE
  | Put _ lc T => wf_transfer T /\ ok (Fopen lc) = true /\ is_Some (fs !! lc)
  | Cwd _ R | Del _ R => wf_reply R
  end.

Lemma reget0_moves T s rm lc r : 0 < blksize -> (forall p k, 0 < k -> wr p k = k) -> wf_transfer T -> ready s -> names_file lc -> ok (Fopen lc) = true -> part (files s) lc = [] -> cin s = t_pasv T ++ t_replies T ++ r ->
  exists s', ftpclient_reget peer chunk wr ok blksize s (Some rm) (Some lc) = Ret (1, s') /\ moved (stored s T (<[lc := t_data T]> (files s)) 0) (PASV_line ++ (RETR ++ 32 :: rm) ++ CRLF) r s'.
Proof.
  intros Hb Hw WT HR Hn Ho Hp Hin. unfold t_replies in Hin. rewrite <- app_assoc in Hin. pose proof WT as (P1 & P2 & P3 & P4 & _ & _ & _ & P5). set (s0 := set_restart_point 0 s). assert (ready s0) as HR0 by exact HR. destruct HR as (R1 & R2 & R3 & R4 & R5).
  destruct (initconn_moves (t_pre T) (t_addr T) (t_post T) s0 (render (t_start T) ++ render (t_end T) ++ r) (t_data T) P1 P2 P3 P4 R1 R2 R3 R4 P5 Hin) as (s1 & E1 & M1).
  edestruct (recv_spec T s0 RETR lc rm true PASV_line s1 r [] Hb Hw WT HR0 Hn Ho) as (s2 & E2 & M2); [|by symmetry|].
  { exists s1. split; [done|]. split; [|done]. pose proof (moved_sized _ _ _ _ M1) as (_ & _ & _ & _ & _ & _ & _ & Hrp & _). rewrite Hrp. done. }
  unfold ftpclient_reget, getit. cbn [option_bind mbind]. change (files (set_restart_point 0 s)) with (files s). unfold part in Hp.
  assert (match files s !! lc with Some data => set_restart_point (zlen data) (set_restart_point 0 s) | None => set_restart_point 0 s end = s0) as -> by (destruct (files s !! lc) as [x|]; [cbn in Hp; by subst x|done]).
  rewrite E2. cbn [obind snd]. eexists. split; [done|]. exact M2.
Qed.
Lemma simple_moves R s line r : wf_reply R -> ready s -> cin s = render R ++ r -> exists s', simple s line = Ret (1, s') /\ moved s (line ++ CRLF) r s'.
Proof. intros W (R1 & R2 & _) Hin. destruct (command_moves R s line r W R1 R2 Hin) as (s' & E & M & _). unfold simple. rewrite E. by exists s'. Qed.

(** What a session keeps, and what it changes. *)
Definition reached (s : ftp) (o r : list Z) (fs : gmap (list Z) (list Z)) (up : list (Z * Z * list Z)) (s' : ftp) : Prop :=
  ready s' /\ cin s' = r /\ cout s' = cout s ++ o /\ files s' = fs /\ sent s' = sent s ++ up.
Lemma moved_reached s x o r s' : moved x o r s' -> ready x -> cout x = cout s -> forall up, sent x = sent s ++ up -> reached s o r (files x) up s'.
Proof. intros M HR Hc up Hu. pose proof (moved_ready _ _ _ _ M HR). destruct (moved_sized _ _ _ _ M) as (_ & H1 & H2 & _ & _ & H3 & _ & _ & _ & H4 & _). unfold reached. rewrite H1, H2, H3, H4, Hc, Hu. by split_and!. Qed.

Lemma perform_spec s a r : 0 < blksize -> (forall p k, 0 < k -> wr p k = k) -> (forall p k, 0 < k -> 0 < swr p k) -> ready s -> wf_action (files s) a -> cin s = answers (files s) a ++ r ->
  exists s', perform s a = Ret (1, s') /\ reached s (commands (files s) a) r (files_after (files s) a) (sent_by (files s) a) s'.
Proof.
  intros Hb Hw Hsw HR WA Hin. destruct a as [rm lc T|rm lc Rr T|rm lc T|path R|path R]; cbn [wf_action perform answers commands files_after sent_by] in *.
  - destruct WA as (WT & Hn & Ho). unfold t_replies in Hin. rewrite <- !app_assoc in Hin. destruct (get_moves T s rm lc r Hb Hw WT HR Hn Ho Hin) as (s' & E & M). exists s'. split; [done|]. apply (moved_reached s _ _ _ _ M HR eq_refl []). by rewrite app_nil_r.
  - destruct WA as (WT & Hn & Ho & WR & KR). unfold is_part in *. destruct (bool_decide_reflect (part (files s) lc = [])) as [Hp|Hp]; cbn [negb] in *.
    + cbn [app] in *. rewrite <- !app_assoc in Hin. destruct (reget0_moves T s rm lc r Hb Hw WT HR Hn Ho Hp Hin) as (s' & E & M). exists s'. split; [done|]. rewrite Hp. apply (moved_reached s _ _ _ _ M HR eq_refl []). by rewrite app_nil_r.
    + unfold part in *. destruct (files s !! lc) as [old|] eqn:Ef; [|done]. cbn [default] in *. unfold t_replies in Hin. rewrite <- !app_assoc in Hin. destruct (reget_moves T Rr s rm lc old r Hb Hw WT HR Hn Ho WR KR Ef Hp Hin) as (s' & E & M). exists s'. split; [done|]. rewrite <- app_assoc in M. apply (moved_reached s _ _ _ _ M HR eq_refl []). by rewrite app_nil_r.
  - destruct WA as (WT & Ho & [content Hf]). unfold t_replies in Hin. rewrite <- !app_assoc in Hin. destruct (put_moves T s rm lc content r Hsw WT HR Ho Hf Hin) as (s' & E & M). exists s'. split; [done|]. unfold part. rewrite Hf. by apply (moved_reached s _ _ _ _ M HR eq_refl).
  - destruct (simple_moves R s (bytes "CWD " ++ path) r WA HR Hin) as (s' & E & M). exists s'. split; [done|]. apply (moved_reached s _ _ _ _ M HR eq_refl []). by rewrite app_nil_r.
  - destruct (simple_moves R s (bytes "DELE " ++ path) r WA HR Hin) as (s' & E & M). exists s'. split; [done|]. apply (moved_reached s _ _ _ _ M HR eq_refl []). by rewrite app_nil_r.
Qed.

Fixpoint wf_actions (fs : gmap (list Z) (list Z)) (l : list action) : Prop := match l with [] => True | a :: l => wf_action fs a /\ wf_actions (files_after fs a) l end.
Fixpoint all_answers (fs : gmap (list Z) (list Z)) (l : list action) : list Z := match l with [] => [] | a :: l => answers fs a ++ all_answers (files_after fs a) l end.
Fixpoint all_commands (fs : gmap (list Z) (list Z)) (l : list action) : list Z := match l with [] => [] | a :: l => commands fs a ++ all_commands (files_after fs a) l end.
Fixpoint all_sent (fs : gmap (list Z) (list Z)) (l : list action) : list (Z * Z * list Z) := match l with [] => [] | a :: l => sent_by fs a ++ all_sent (files_after fs a) l end.
Lemma performs_spec l : 0 < blksize -> (forall p k, 0 < k -> wr p k = k) -> (forall p k, 0 < k -> 0 < swr p k) -> forall s r, ready s -> wf_actions (files s) l -> cin s = all_answers (files s) l ++ r ->
  exists s', performs s l = Ret s' /\ reached s (all_commands (files s) l) r (foldl files_after (files s) l) (all_sent (files s) l) s'.
Proof.
  intros Hb Hw Hsw. induction l as [|a l IH]; intros s r HR HA Hin; cbn [wf_actions all_answers all_commands all_sent performs foldl] in *.
  - exists s. split; [done|]. unfold reached. rewrite !app_nil_r. by split_and!.
  - destruct HA as [WA HA]. rewrite <- app_assoc in Hin. destruct (perform_spec s a _ Hb Hw Hsw HR WA Hin) as (s1 & E1 & R1 & I1 & O1 & F1 & U1). rewrite E1. cbn [obind snd]. rewrite <- F1 in HA, I1. destruct (IH s1 r R1 HA I1) as (s2 & E2 & R2 & I2 & O2 & F2 & U2). exists s2. split; [done|].
    unfold reached. rewrite I2, O2, F2, U2, O1, F1, U1, !app_assoc. by split_and!.
Qed.

(** A session: connect, log in, work, quit. *)
Record hello := mk_hello { h_greet : reply; h_user : reply; h_pass : reply; h_syst : reply; h_type : reply; h_quit : reply }.
Definition wf_hello (H : hello) : Prop :=
  wf_reply (h_greet H) /\ kind (h_greet H) <= 2 /\ wf_reply (h_user H) /\ (kind (h_user H) = COMPLETE \/ kind (h_user H) = CONTINUE /\ wf_reply (h_pass H) /\ kind (h_pass H) = COMPLETE) /\
  wf_reply (h_syst H) /\ after (h_syst H) <> [] /\ wf_reply (h_type H) /\ kind (h_type H) = COMPLETE /\ wf_reply (h_quit H).
Definition asks_pass (H : hello) : bool := kind (h_user H) =? CONTINUE.
Definition login_answers (H : hello) : list Z := render (h_user H) ++ (if asks_pass H then render (h_pass H) else []) ++ render (h_syst H).
Definition login_commands (H : hello) (user pass : list Z) : list Z := (bytes "USER " ++ user) ++ CRLF ++ (if asks_pass H then (bytes "PASS " ++ pass) ++ CRLF else []) ++ bytes "SYST" ++ CRLF.

Lemma login_moves H s user pass r : wf_hello H -> sized s -> ctl s = HOpen -> cin s = login_answers H ++ r ->
  exists s', ftpclient_login s user pass = Ret (1, set_login_ok 1 s') /\ moved s (login_commands H user pass) r s'.
Proof.
  intros (_ & _ & W1 & W2 & W3 & W4 & _) Hs Hc Hin. unfold login_answers, login_commands, asks_pass in *. rewrite <- !app_assoc in Hin. unfold ftpclient_login. destruct (command_moves (h_user H) s (bytes "USER " ++ user) _ W1 Hs Hc Hin) as (s1 & E1 & M1 & _). rewrite E1. cbn [obind]. destruct (moved_sized _ _ _ _ M1) as (S1 & I1 & _ & C1 & _).
  assert (exists s2, (if kind (h_user H) =? CONTINUE then command s1 (bytes "PASS " ++ pass) else Ret (kind (h_user H), s1)) = Ret (COMPLETE, s2) /\ moved s (((bytes "USER " ++ user) ++ CRLF) ++ (if kind (h_user H) =? CONTINUE then (bytes "PASS " ++ pass) ++ CRLF else [])) (render (h_syst H) ++ r) s2) as (s2 & -> & M2).
  { destruct W2 as [K|(K & Wp & Kp)]; rewrite K in *.
    - change (COMPLETE =? CONTINUE) with false in *. cbv iota in *. exists s1. split; [done|]. rewrite app_nil_r. exact M1.
    - change (CONTINUE =? CONTINUE) with true in *. cbv iota in *. destruct (command_moves (h_pass H) s1 (bytes "PASS " ++ pass) (render (h_syst H) ++ r) Wp S1) as (s2 & E2 & M2 & _); [by rewrite C1|done|]. exists s2. rewrite E2, Kp. split; [done|]. by eapply moved_trans. }
  cbn [obind]. change (negb (COMPLETE =? COMPLETE)) with false. cbv iota. destruct (moved_sized _ _ _ _ M2) as (S2 & I2 & _ & C2 & _). destruct (syst_spec (h_syst H) s2 r W3 W4 S2) as (s3 & s4 & E3 & E4 & M4); [by rewrite C2|done|]. rewrite E3. cbn [obind]. rewrite E4. cbn [obind]. exists s4. split; [done|].
  pose proof (moved_trans _ _ _ _ _ _ _ M2 M4) as M. rewrite <- !app_assoc in M. exact M.
Qed.

Definition session (fs : gmap (list Z) (list Z)) (host : list Z) (port : Z) (user pass : list Z) (l : list action) : outcome (Z * Z * Z * ftp) :=
  let s := snd (ftpclient_setpeer resolve (new_ftpclient fs) host port) in
  let s := snd (ftpclient_passive s 1) in
  let* r := ftpclient_connect peer ok s in
  let '(c, s) := r in
  let* r := ftpclient_login s user pass in
  let '(u, s) := r in
  let* r := ftpclient_settype s 1 in
  let '(t, s) := r in
  let* s := performs s l in
  let* r := ftpclient_quit s in
  Ret (c, u, t, snd (ftpclient_close (snd r))).

Lemma connect_moves R s a p stream r : wf_reply R -> kind R <= 2 -> sized s -> have_peer s <> 0 -> sockfd s < 0 -> connected s = 0 -> servaddr s = Some (a, p) -> peer a p = Some stream -> ok Socket = true -> ok Getsockname = true -> ok Fdopen_in = true -> ok Fdopen_out = true -> stream = render R ++ r ->
  exists s', ftpclient_connect peer ok s = Ret (1, set_connected 1 s') /\ moved (set_ctl HOpen stream (set_sockfd newfd s)) [] r s'.
Proof.
  intros W K Hs Hp Hf Hc Ha Hpeer O1 O2 O3 O4 ->. unfold ftpclient_connect. rewrite (proj2 (Z.eqb_neq (have_peer s) 0)) by done. rewrite O1, Ha. rewrite (proj2 (Z.ltb_lt (sockfd s) 0)) by done. change (sockfd (set_sockfd newfd s) <? 0) with false. cbv iota zeta. change (connected (set_sockfd newfd s)) with (connected s). rewrite Hc. change (negb (0 =? 0)) with false. cbv iota.
  change (servaddr (set_sockfd newfd s)) with (servaddr s). rewrite Ha. cbn [option_bind mbind fst snd]. rewrite Hpeer, O2, O3, O4. cbn [negb andb]. set (s1 := set_ctl HOpen _ _). destruct (reply_moves R s1 r W Hs eq_refl) as (s2 & E & M & _). rewrite E. cbn [obind]. rewrite (proj2 (Z.ltb_ge 2 _)) by done. by exists s2.
Qed.
Lemma type_moves R s r : wf_reply R -> kind R = COMPLETE -> sized s -> ctl s = HOpen -> cin s = render R ++ r -> exists s', ftpclient_settype s 1 = Ret (1, set_mode (Some 1) s') /\ moved s (bytes "TYPE I" ++ CRLF) r s'.
Proof.
  intros W K Hs Hc Hin. unfold ftpclient_settype. cbn [Z.eqb]. destruct (command_moves R s (bytes "TYPE " ++ bytes "I") r W Hs Hc Hin) as (s' & E & M & _). rewrite E. cbn [obind]. rewrite K. cbn [Z.eqb COMPLETE Pos.eqb]. by exists s'.
Qed.
Lemma new_sized fs : sized (new_ftpclient fs).
Proof. unfold sized, new_ftpclient. cbn [pasv reply_string]. by rewrite !zlen_replicate. Qed.

(** C22: a whole session.  Whatever the server answers to connecting, logging in, changing
    directories, fetching, fetching the rest, storing and deleting, in replies of one or many
    lines with any text, as long as each is a reply of the kind the protocol has for success
    and the addresses of its passive replies are where it sends: the client connects and logs
    in, sends exactly the commands of these actions in their order, stores under each local
    name the bytes that came on that connection, or adds them to the part that was there,
    and sends the contents of its files however the connection takes them. *)
Theorem ftp_session (fs : gmap (list Z) (list Z)) (host user pass : list Z) (a port : Z) (H : hello) (l : list action) (r : list Z) :
  0 < blksize -> (forall p k, 0 < k -> wr p k = k) -> (forall p k, 0 < k -> 0 < swr p k) ->
  ok Socket = true -> ok Getsockname = true -> ok Fdopen_in = true -> ok Fdopen_out = true -> ok Fdopen_data = true ->
  resolve host = Some a -> 0 <= port < 2 ^ 16 -> wf_hello H -> wf_actions fs l ->
  peer a port = Some (render (h_greet H) ++ login_answers H ++ render (h_type H) ++ all_answers fs l ++ render (h_quit H) ++ r) ->
  exists s, session fs host port user pass l = Ret (1, 1, 1, s) /\
    cout s = login_commands H user pass ++ (bytes "TYPE I" ++ CRLF) ++ all_commands fs l ++ bytes "QUIT" ++ CRLF /\
    files s = foldl files_after fs l /\ sent s = all_sent fs l.
Proof.
  intros Hb Hw Hsw O1 O2 O3 O4 O5 Hres Hport WH HA Hpeer. pose proof WH as (W1 & K1 & _ & _ & _ & _ & W2 & K2 & W3). unfold session, ftpclient_setpeer. rewrite Hres. cbn [snd]. assert (u16 port = port) as -> by (unfold u16; apply Z.mod_small; lia). set (s0 := snd (ftpclient_passive _ 1)).
  destruct (connect_moves (h_greet H) s0 a port _ _ W1 K1 (new_sized fs) ltac:(done) ltac:(done) eq_refl eq_refl Hpeer O1 O2 O3 O4 eq_refl) as (s1 & -> & M1). cbn [obind]. destruct M1 as (c1 & pa1 & b1 & -> & L1 & L1').
  set (s1 := set_connected 1 _). destruct (login_moves H s1 user pass _ WH (conj L1 L1') eq_refl eq_refl) as (s2 & -> & M2). cbn [obind]. destruct M2 as (c2 & pa2 & b2 & -> & L2 & L2').
  set (s2 := set_login_ok 1 _). destruct (type_moves (h_type H) s2 _ W2 K2 (conj L2 L2') eq_refl eq_refl) as (s3 & -> & M3). cbn [obind]. destruct M3 as (c3 & pa3 & b3 & -> & L3 & L3').
  set (s3 := set_mode (Some 1) _). assert (ready s3) as R3 by (split; [split; [exact L3|exact L3']|by split_and!]). destruct (performs_spec l Hb Hw Hsw s3 (render (h_quit H) ++ r) R3 HA eq_refl) as (s4 & -> & R4 & I4 & T4 & F4 & U4). cbn [obind].
  unfold ftpclient_quit. destruct (simple_moves (h_quit H) s4 (bytes "QUIT") r W3 R4 I4) as (s5 & -> & M5). cbn [obind snd]. destruct (moved_sized _ _ _ _ M5) as (_ & _ & T5 & _ & _ & F5 & _ & _ & _ & U5 & _). eexists. split; [done|]. unfold ftpclient_close. cbn [snd].
  assert (forall x, cout (if 0 <=? sockfd s5 then set_sockfd (-1) (set_ctl x [] s5) else s5) = cout s5 /\ files (if 0 <=? sockfd s5 then set_sockfd (-1) (set_ctl x [] s5) else s5) = files s5 /\ sent (if 0 <=? sockfd s5 then set_sockfd (-1) (set_ctl x [] s5) else s5) = sent s5) as HC by (intros x; by destruct (0 <=? sockfd s5)).
  destruct (HC (match ctl s5 with HOpen => HShut | h => h end)) as (-> & -> & ->). rewrite T5, F5, U5, T4, F4, U4. split; [|split; reflexivity]. change (cout s3) with (([] ++ login_commands H user pass) ++ bytes "TYPE I" ++ CRLF). rewrite <- !app_assoc. done.
Qed.
End operations.

(** A reply is read to its end and no further, whether it has one line or many
    and whatever its text, and gives its code and the kind that its first digit tells.  A
    line between the first and the last must not begin with the code unless a dash follows. *)
Theorem getreply_correct (R : reply) (s : ftp) (r : list Z) : wf_reply R -> sized s -> cin s = render R ++ r ->
  exists s', getreply s = Ret (kind R, s') /\ code s' = Some (rcode R) /\ cin s' = r /\ cout s' = cout s /\ files s' = files s /\ sized s'.
Proof.
  intros W Hs Hin. destruct (reply_moves R s r W Hs Hin) as (s' & E & M & Hc). destruct (moved_sized _ _ _ _ M) as (H1 & H2 & H3 & _ & _ & H4 & _). exists s'. rewrite app_nil_r in H3. by split_and!.
Qed.

(** ** Defects *)

Lemma reply_char_inv s c s' : lok s -> reply_char s c = Ret s' -> s' = next s c.
Proof.
  intros (H1 & H2 & H3 & H4 & H5 & H6). unfold reply_char, next. rewrite H1, H2. change (64 - 1) with 63. change (8192 - 1) with 8191. rewrite !(aset_Ret (lpasv s)), (aset_Ret (lreply s)) by lia. destruct (ck (dig s + 1)) as [d| |] eqn:E; try done. apply ck_inv in E as [-> _]. cbn [obind]. fold (code_step s c) (flag_step s c) (dash s c). unfold pasv_step.
  assert (forall k, ck (continuation s + 1) = Ret k -> k = continuation s + 1) as Hk by (intros k Ek; by apply ck_inv in Ek as [-> _]).
  destruct (flag_step s c =? 2); [destruct (negb (c =? CR) && negb (c =? 41)); [destruct (px s <? 63)|]|]; cbn [obind fst snd]; (destruct (dash s c); cbn [obind andb]; [destruct (ck (continuation s + 1)) as [k| |]; cbn [obind]; try done; rewrite (Hk k eq_refl); destruct (continuation s =? 0)|]; cbn [negb]; destruct (cp s <? 8191); cbn [obind]; by intros [= <-]).
Qed.
(** When the connection ends within a line, [getreply] does not return. *)
Lemma read_line_end t : forall s out, LF ∉ t -> lok s -> forall x, read_line t s out <> Ret x.
Proof.
  induction t as [t IH] using (induction_ltof1 _ (@length Z)). unfold ltof in IH. intros s out Ht Ho x. destruct t as [|c t]; [done|]. apply not_elem_of_cons in Ht as [Hc Ht]. cbn [read_line]. rewrite (proj2 (Z.eqb_neq c LF)) by done. destruct (c =? IAC).
  - destruct t as [|o t]; [done|]. apply not_elem_of_cons in Ht as [_ Ht]. destruct (_ || _); [|destruct (_ || _)].
    + destruct t as [|a [|b t]]; try done. rewrite !not_elem_of_cons in Ht. apply IH; [cbn; lia|apply Ht|done].
    + destruct t as [|a t]; try done. rewrite !not_elem_of_cons in Ht. apply IH; [cbn; lia|apply Ht|done].
    + apply IH; [cbn; lia|done|done].
  - destruct (reply_char s c) as [s1| |] eqn:E; try done. cbn [obind]. apply IH; [cbn; lia|done|]. rewrite (reply_char_inv s c s1 Ho E). by apply next_ok.
Qed.
Theorem reply_needs_line (s : ftp) : sized s -> LF ∉ cin s -> forall x, getreply s <> Ret x.
Proof.
  intros Hs Ht x. unfold getreply. cbn [reply_loop]. pose proof (read_line_end (cin s) (line0 0 0 0 (pasv s) (reply_string s)) (cout s) Ht ltac:(by apply lok_line0)) as H. unfold line0 in H. destruct (read_line (cin s) _ (cout s)) as [y| |]; try done. by destruct (H y).
Qed.

(** A client that was closed cannot connect again: it still counts as connected. *)
Theorem closed_stays_connected peer ok (s : ftp) : connected s <> 0 -> have_peer s <> 0 -> exists s', ftpclient_connect peer ok (snd (ftpclient_close s)) = Ret (0, s').
Proof.
  intros Hc Hp. set (s1 := snd (ftpclient_close s)). assert (connected s1 = connected s /\ have_peer s1 = have_peer s) as [E1 E2] by (unfold s1, ftpclient_close; cbn [snd]; by destruct (0 <=? sockfd s)). unfold ftpclient_connect. rewrite (proj2 (Z.eqb_neq (have_peer s1) 0)) by congruence. cbv zeta. set (s2 := if sockfd s1 <? 0 then _ else _).
  assert (connected s2 = connected s1) as E3 by (unfold s2; by destruct (sockfd s1 <? 0)). destruct (sockfd s2 <? 0); [by eexists|]. rewrite E3, E1, (proj2 (Z.eqb_neq (connected s) 0)) by done. cbn [negb]. by eexists.
Qed.

(** [get] reports success whatever happens. *)
Theorem get_always_succeeds peer chunk wr ok blksize (s : ftp) rm lc x s' : ftpclient_get peer chunk wr ok blksize s rm lc = Ret (x, s') -> x = 1.
Proof. unfold ftpclient_get, getit. cbv iota. destruct (recvrequest _ _ _ _ _ _ _ _ _) as [y| |]; cbn; try done. by intros [= <- _]. Qed.

(** The mode of a client whose first TYPE is refused was never set. *)
Theorem refused_type_uninit (R : reply) (s : ftp) (r : list Z) (binary : Z) : wf_reply R -> kind R <> COMPLETE -> sized s -> ctl s = HOpen -> mode s = None -> cin s = render R ++ r -> ftpclient_settype s binary = Fault Uninit.
Proof.
  intros W K Hs Hc Hm Hin. unfold ftpclient_settype. set (line := bytes "TYPE " ++ _). destruct (command_moves R s line r W Hs Hc Hin) as (s' & E & M & _). rewrite E. cbn [obind]. rewrite (proj2 (Z.eqb_neq _ _) K). destruct (moved_sized _ _ _ _ M) as (_ & _ & _ & _ & _ & _ & -> & _). by rewrite Hm.
Qed.

(** The byte after the option of a WILL or WONT is taken for the option of a DO. *)
Definition with_input (t : list Z) : ftp := set_ctl HOpen t (new_ftpclient ∅).
Theorem will_eats_a_byte : match getreply (with_input ([IAC; WILL; 1] ++ bytes "220 ready" ++ [CR; LF])) with Ret (_, s) => code s = Some 20 | _ => False end.
Proof. vm_compute. reflexivity. Qed.
(** A line of a reply that begins with more digits than the code ends it. *)
Theorem digits_end_reply : match getreply (with_input (bytes "220-hello" ++ [CR; LF] ++ bytes "2200 files" ++ [CR; LF] ++ bytes "220 ready" ++ [CR; LF])) with
  | Ret (_, s) => cin s = bytes "220 ready" ++ [CR; LF] | _ => False end.
Proof. vm_compute. reflexivity. Qed.

(** ** A server *)
#[global] Instance wf_reply_dec R : Decision (wf_reply R).
Proof. unfold wf_reply, plain, inner. destruct (digits R) as [[a b] c], (before R) as [[f ms]|]; apply _. Defined.
Definition line_reply (a b c : Z) (t : string) : reply := mk_reply (a, b, c) None (32 :: bytes t ++ [CR]).
Definition demo_greet : reply := mk_reply (50, 50, 48) (Some (bytes "welcome" ++ [CR], [bytes "220-to" ++ [CR]; bytes " our server" ++ [CR]])) (32 :: bytes "ready" ++ [CR]).
Definition demo_hello : hello :=
  mk_hello demo_greet (line_reply 51 51 49 "password?") (line_reply 50 51 48 "ok") (line_reply 50 49 53 "UNIX Type: L8") (line_reply 50 48 48 "type set") (line_reply 50 50 49 "bye").
Definition demo_transfer (port : Z) (data : list Z) : transfer :=
  mk_transfer (bytes "Entering Passive Mode (") [10; 0; 0; 9; 4; port] (bytes "." ++ [CR]) data (line_reply 49 53 48 "opening") (line_reply 50 50 54 "done").
Definition demo_actions : list action :=
  [Cwd (bytes "songs") (line_reply 50 53 48 "ok"); Get (bytes "a.mp3") (bytes "a") (demo_transfer 1 [1; 2; 3]);
   Reget (bytes "b.mp3") (bytes "b") (line_reply 51 53 48 "restart") (demo_transfer 2 [6; 7]); Put (bytes "c.mp3") (bytes "b") (demo_transfer 3 [])].
Definition demo_files : gmap (list Z) (list Z) := {[bytes "b" := [4; 5]]}.
Definition demo_peer (a p : Z) : option (list Z) :=
  if p =? 21 then Some (render (h_greet demo_hello) ++ login_answers demo_hello ++ render (h_type demo_hello) ++ all_answers demo_files demo_actions ++ render (h_quit demo_hello) ++ [])
  else if p =? 1025 then Some [1; 2; 3] else if p =? 1026 then Some [6; 7] else if p =? 1027 then Some [] else None.
Ltac wf_dec := match goal with |- wf_reply ?R => apply (bool_decide_unpack (wf_reply R)); vm_compute; exact I end.
Lemma demo_transfer_wf port data : 1 <= port <= 3 -> demo_peer (10 * 2 ^ 24 + 9) (4 * 2 ^ 8 + port) = Some data -> wf_transfer demo_peer (demo_transfer port data).
Proof.
  intros Hp Hd. unfold wf_transfer. assert (port = 1 \/ port = 2 \/ port = 3) as Hp' by lia. split; [by destruct_or! Hp'; subst port; wf_dec|]. split; [apply (bool_decide_unpack (Forall (fun c => is_digit c = false) (bytes "Entering Passive Mode ("))); vm_compute; exact I|].
  split; [cbn; repeat constructor; unfold byte; lia|]. split; [done|]. split; [wf_dec|]. split; [done|]. split; [wf_dec|]. exact Hd.
Qed.
Lemma demo_actions_wf : wf_actions demo_peer (fun _ => true) demo_files demo_actions.
Proof.
  split; [change (wf_reply (line_reply 50 53 48 "ok")); wf_dec|]. split; [split; [by apply demo_transfer_wf|by split]|]. split; [split; [by apply demo_transfer_wf|split; [by split|split; [done|split; [wf_dec|done]]]]|]. split; [|done]. split; [by apply demo_transfer_wf|]. split; [done|]. vm_compute. by eexists.
Qed.
Lemma demo_hello_wf : wf_hello demo_hello.
Proof. split; [wf_dec|]. split; [done|]. split; [wf_dec|]. split; [right; split; [done|split; [wf_dec|done]]|]. split; [wf_dec|]. split; [done|]. split; [wf_dec|]. split; [done|]. wf_dec. Qed.

Lemma ftp_session_witness :
  match session demo_peer (fun _ k => 2) (fun _ k => k) (fun _ k => 1) (fun _ => true) (fun _ => Some 7) 4096 demo_files (bytes "host") 21 (bytes "ftp") (bytes "me") demo_actions with
  | Ret (c, u, t, s) => c = 1 /\ u = 1 /\ t = 1 /\ files s !! bytes "a" = Some [1; 2; 3] /\ files s !! bytes "b" = Some [4; 5; 6; 7] /\ sent s = [(167772169, 1027, [4; 5; 6; 7])]
  | _ => False
  end.
Proof.
  destruct (ftp_session demo_peer (fun _ k => 2) (fun _ k => k) (fun _ k => 1) (fun _ => true) (fun _ => Some 7) 4096 demo_files (bytes "host") (bytes "ftp") (bytes "me") 7 21 demo_hello demo_actions [] ltac:(lia) ltac:(intros; reflexivity) ltac:(intros; reflexivity) eq_refl eq_refl eq_refl eq_refl eq_refl eq_refl ltac:(lia) demo_hello_wf demo_actions_wf eq_refl) as (s & E & _ & Hf & Hu).
  rewrite E, Hf, Hu. split_and!; vm_compute; reflexivity.
Defined.
Lemma getreply_correct_witness : exists s', getreply (with_input (render demo_greet ++ [1])) = Ret (2, s') /\ code s' = Some 220 /\ cin s' = [1].
Proof.
  destruct (getreply_correct demo_greet (with_input (render demo_greet ++ [1])) [1] ltac:(wf_dec) (new_sized ∅) eq_refl) as (s' & E & Hc & Hi & _). exists s'. split; [exact E|]. split; [exact Hc|exact Hi].
Defined.
End FTS.
