(* ===== verification/Eten.v ===== *)
(** * Eten.v: the fonts of the on-screen display, ETen/etenlib.c

    Four font files are opened together: the standard characters, the half-width ones, and
    two files of special characters.  A pattern is read into one static array of 72 bytes.
    A font file is its bytes and its file position; a read at its end, or behind a seek that
    failed, leaves the array or the position as they were.  [fs] tells the readable files. *)

From S2P Require Import Prelude Posix.

Module ET.

Record font := mk_font { fdata : list Z; fpos : Z }.
(** [held]: the table [f24fd] has the descriptors of the fonts. *)
Record eten := mk_eten { pat : list Z; stdfont : option font; ascfont : option font; spcfont : option font; spcfsupp : option font; held : bool }.
Definition eten0 : eten := mk_eten (replicate 72 0) None None None None false.

Definition fontfname : list (list Z) :=
  [[115; 116; 100; 102; 111; 110; 116]; [97; 115; 99; 102; 111; 110; 116]; [115; 112; 99; 102; 111; 110; 116]; [115; 112; 99; 102; 115; 117; 112; 112]].
(** The descriptors from number [k] on are closed; the fonts themselves still name them. *)
Definition close_from (k : nat) (s : eten) : eten :=
  let old j f := if held s && (k <=? j)%nat then None else f in
  mk_eten (pat s) (old 0%nat (stdfont s)) (old 1%nat (ascfont s)) (old 2%nat (spcfont s)) (old 3%nat (spcfsupp s)) false.
Definition close_ETen_fonts (s : eten) : eten := close_from 0 s.
(** [sprintf (filename, "%s/%s.%d", path, name, 24)] *)
Definition font_path (path name : list Z) : list Z := path ++ [47] ++ name ++ [46; 50; 52].
Definition open_font (fs : list Z -> option (list Z)) (path name : list Z) : option font := (fun d => mk_font d 0) <$> fs (font_path path name).
(** 1 when all four are there.  When one is not, what has been opened is closed, together
    with the fonts behind it that were open before. *)
Fixpoint open_fonts (l : list (option font)) : list font := match l with Some f :: l => f :: open_fonts l | _ => [] end.
Definition init_ETen_fonts (fs : list Z -> option (list Z)) (path : list Z) (s : eten) : Z * eten :=
  if 200 <? zlen path then (0, s)
  else match open_fonts (open_font fs path <$> fontfname) with
       | [a; b; c; d] => (1, mk_eten (pat s) (Some a) (Some b) (Some c) (Some d) true)
       | l => (0, close_from (S (length l)) s)
       end.

(** [lseek] to [off] and [read] of [n] bytes into [pat]. *)
Definition fetch (f : option font) (off n : Z) (p : list Z) : option font * list Z :=
  match f with
  | None => (None, p)
  | Some f =>
      let at_ := if off <? 0 then fpos f else off in
      let got := slice (fdata f) at_ n in
      (Some (mk_font (fdata f) (at_ + zlen got)), got ++ drop (length got) p)
  end.

Definition ET_half_font24 (bp : Z) (s : eten) : eten :=
  let '(f, p) := fetch (ascfont s) (48 * bp) 48 (pat s) in mk_eten p (stdfont s) f (spcfont s) (spcfsupp s) (held s).

Definition isbig5 (hi lo : Z) : bool := ((0x81 <=? hi) && (hi <=? 0xFE)) && (((0x40 <=? lo) && (lo <=? 0x7e)) || ((0xA1 <=? lo) && (lo <=? 0xFE))).

Definition chcode (hbp lbp : Z) : Z :=
  let codep := hbp * 256 + lbp in
  let lt := if 161 <=? lbp then lbp - 34 else lbp in
  if hbp <? 129 then hbp
  else if hbp <? 164 then 157 * (hbp - 161) + lt - 64
  else if (0xC6A1 <=? codep) && (codep <=? 0xC8FE) then 157 * (hbp - 0xC6) + lt - 64 - 161
  else 157 * (hbp - 164) + lt - 64.

Definition ET_full_font24 (hbp lbp : Z) (s : eten) : eten :=
  let cnum := hbp * 256 + lbp in
  if (0xA140 <=? cnum) && (cnum <=? 0xA3FE) then
    let '(f, p) := fetch (spcfont s) (72 * chcode hbp lbp) 72 (pat s) in mk_eten p (stdfont s) (ascfont s) f (spcfsupp s) (held s)
  else if (0xC6A1 <=? cnum) && (cnum <=? 0xC8FE) then
    let '(f, p) := fetch (spcfsupp s) (72 * chcode hbp lbp) 72 (pat s) in mk_eten p (stdfont s) (ascfont s) (spcfont s) f (held s)
  else
    let '(f, p) := fetch (stdfont s) (72 * chcode hbp lbp) 72 (pat s) in mk_eten p f (ascfont s) (spcfont s) (spcfsupp s) (held s).

(** ** The fonts hold one pattern per character *)

(** The characters of a font file. *)
Definition special (h l : Z) : Prop := 0xA140 <= h * 256 + l <= 0xA3FE.
Definition supplement (h l : Z) : Prop := 0xC6A1 <= h * 256 + l <= 0xC8FE.
Definition standard (h l : Z) : Prop := 164 <= h /\ ~ supplement h l.
(** The number of the second byte among the 157 that there are. *)
Definition low (l : Z) : Z := if 161 <=? l then l - 98 else l - 64.
Lemma low_range h l : isbig5 h l = true -> 0 <= low l < 157.
Proof. unfold isbig5, low. intros H. destruct (161 <=? l) eqn:E; lia. Qed.
Lemma chcode_low h l : isbig5 h l = true -> chcode h l = if h <? 164 then 157 * (h - 161) + low l else if (0xC6A1 <=? h * 256 + l) && (h * 256 + l <=? 0xC8FE) then 157 * (h - 0xC6) + low l - 161 else 157 * (h - 164) + low l.
Proof. unfold isbig5, chcode, low. intros H. assert (h <? 129 = false) as -> by lia. destruct (161 <=? l) eqn:E; repeat case_match; lia. Qed.

(** Two characters of one file have different numbers, none of them negative. *)
Lemma chcode_inj h l h' l' : isbig5 h l = true -> isbig5 h' l' = true ->
  (special h l /\ special h' l') \/ (standard h l /\ standard h' l') -> 0 <= chcode h l /\ (chcode h l = chcode h' l' -> h = h' /\ l = l').
Proof.
  intros B B' HF. pose proof (low_range h l B) as L. pose proof (low_range h' l' B') as L'. rewrite !chcode_low by done. unfold isbig5 in B, B'.
  assert (low l = low l' -> l = l') as HL. { unfold low. destruct (161 <=? l) eqn:E, (161 <=? l') eqn:E'; lia. }
  destruct HF as [[S1 S2]|[[S1 S1'] [S2 S2']]].
  - unfold special in *. assert (h <? 164 = true /\ h' <? 164 = true) as [-> ->] by lia. split; [|intros E; assert (h = h') by lia; split; [done|apply HL; lia]]. assert (161 <= h) by lia. lia.
  - unfold supplement in *. assert (h <? 164 = false /\ h' <? 164 = false) as [-> ->] by lia. rewrite !(proj2 (andb_false_iff _ _)) by lia. split; [lia|]. intros E. assert (h = h') by lia. split; [done|apply HL; lia].
Qed.

(** The supplementary characters of the row C6 have numbers below 0, so that the seek fails
    and what follows the last character that was read is drawn. *)
Theorem chcode_supplement l : 0xA1 <= l <= 0xFE -> chcode 0xC6 l < 0.
Proof. intros H. assert (isbig5 0xC6 l = true) as B by (unfold isbig5; lia). pose proof (low_range _ _ B) as L. rewrite chcode_low by done. change (0xC6 <? 164) with false. cbv iota. rewrite (proj2 (andb_true_iff _ _)) by (split; lia). lia. Qed.
Lemma chcode_supplement_witness : chcode 0xC6 0xA1 < 0.
Proof. apply chcode_supplement. lia. Defined.
End ET.
