(* ===== verification/Rmimage.v ===== *)
(** * Rmimage.v: images of the on-screen display, rmosdlib/rmimage256.c

    An image is one block of bytes: a header of 8, a palette of 256 entries of 4, and a byte
    per pixel.  The drawing functions take any coordinates and clip.

    [char] is signed, as on the machines of the set-top boxes, so that a pixel that is read
    is between -128 and 127; [frac a b j] is [(int) ((float) a / (float) b * j)], and [yuv]
    the three sums of products in floating point of setPaletteRGB, as integers.  The default
    palette is given.  Memory is taken to be found where not stated. *)

From Stdlib Require Import ZifyBool.
From S2P Require Import Prelude Posix Eten.

Module RI.
Import ET.

Record rmimage256 := mk_img { img : list Z; width : Z; height : Z; size : Z }.
Definition set_img (l : list Z) (im : rmimage256) : rmimage256 := mk_img l (width im) (height im) (size im).
Definition PALETTE_OFFSET : Z := 8.
Definition IMAGE_OFFSET : Z := 1032.

Definition img_size (im : rmimage256) : Z := size im.
Definition img_width (im : rmimage256) : Z := width im.
Definition img_height (im : rmimage256) : Z := height im.

(** [ptr[pos]] of a [char *ptr = &img[IMAGE_OFFSET]]. *)
Definition schar (b : Z) : Z := if b <? 128 then b else b - 256.
Definition get_px (im : rmimage256) (pos : Z) : outcome Z := let* b := aget (img im) (IMAGE_OFFSET + pos) in Ret (schar b).
Definition set_px (im : rmimage256) (pos c : Z) : outcome rmimage256 := let* l := aset (img im) (IMAGE_OFFSET + pos) (u8 c) in Ret (set_img l im).

(** [for (x = x0, c = 0; c < n; x++, c++)] *)
Fixpoint for_up {A} (n : nat) (x c : Z) (body : Z -> Z -> A -> outcome A) (s : A) : outcome A :=
  match n with
  | O => Ret s
  | S n => let* s := body x c s in let* x' := ck (x + 1) in for_up n x' (c + 1) body s
  end.
(** The loops over a rectangle with their clipping; [op x k xc yc] is the innermost statement. *)
Definition box (xx yy xl yl : Z) (op : Z -> Z -> Z -> Z -> rmimage256 -> outcome rmimage256) (im : rmimage256) : outcome rmimage256 :=
  for_up (Z.to_nat yl) yy 0 (fun y yc im =>
    if (0 <=? y) && (y <? height im) then
      let* k := ck (y * width im) in
      for_up (Z.to_nat xl) xx 0 (fun x xc im => if (0 <=? x) && (x <? width im) then op x k xc yc im else Ret im) im
    else Ret im) im.

(** ** Palettes *)
Definition copy_to (im : rmimage256) (off : Z) (b : list Z) : outcome rmimage256 := let* l := blit (img im) off b in Ret (set_img l im).
(** [n] bytes of a block. *)
Definition bytes_of (l : list Z) (off n : Z) : outcome (list Z) := if (0 <=? off) && (off + n <=? zlen l) then Ret (slice l off n) else Fault OutOfBounds.

Definition img_loadPalette (im : rmimage256) (palette : list Z) : outcome rmimage256 := let* b := bytes_of palette 0 1024 in copy_to im PALETTE_OFFSET b.
Definition img_copyPalette (im other : rmimage256) : outcome rmimage256 := let* b := bytes_of (img other) PALETTE_OFFSET 1024 in copy_to im PALETTE_OFFSET b.
Definition set_entry (im : rmimage256) (entry : Z) (b : list Z) : outcome rmimage256 := if (0 <=? entry) && (entry <=? 255) then copy_to im (PALETTE_OFFSET + entry * 4) b else Ret im.
Definition clamp (v : Z) : Z := if v <? 0 then 0 else if 0xff <? v then 0xff else v.
Definition img_setPaletteRGB (yuv : Z -> Z -> Z -> Z * Z * Z) (im : rmimage256) (entry rr gg bb : Z) : outcome rmimage256 :=
  let '(y, u, v) := yuv (Z.rem rr 256) (Z.rem gg 256) (Z.rem bb 256) in set_entry im entry [0xff; clamp y; clamp u; clamp v].
Definition img_setPaletteYUV (im : rmimage256) (entry yy uu vv : Z) : outcome rmimage256 := set_entry im entry [0xff; u8 (Z.rem yy 256); u8 (Z.rem uu 256); u8 (Z.rem vv 256)].
Definition img_setPaletteColor (im : rmimage256) (entry : Z) (aRGB : list Z) : outcome rmimage256 :=
  if (0 <=? entry) && (entry <=? 255) then let* b := bytes_of aRGB 0 4 in copy_to im (PALETTE_OFFSET + entry * 4) b else Ret im.

(** ** Drawing *)
Definition img_line (frac : Z -> Z -> Z -> Z) (im : rmimage256) (xx yy xl yl cidx : Z) : outcome rmimage256 :=
  if (cidx <? 0) || (255 <? cidx) then Ret im
  else if yl <=? xl then
    for_up (Z.to_nat xl) xx 0 (fun i j im =>
      let* k := ck (frac yl xl j + yy) in
      if (0 <=? i) && (i <? width im) && (0 <=? k) && (k <? height im) then let* p := ck (k * width im) in let* p := ck (i + p) in set_px im p cidx else Ret im) im
  else
    for_up (Z.to_nat yl) yy 0 (fun i j im =>
      let* k := ck (frac xl yl j + xx) in
      if (0 <=? k) && (k <? width im) && (0 <=? i) && (i <? height im) then let* p := ck (i * width im) in let* p := ck (k + p) in set_px im p cidx else Ret im) im.
Definition img_lineto (frac : Z -> Z -> Z -> Z) (im : rmimage256) (x1 y1 x2 y2 cidx : Z) : outcome rmimage256 :=
  let* xl := ck (x2 - x1) in let* yl := ck (y2 - y1) in img_line frac im x1 y1 xl yl cidx.

Definition put_if (b : bool) (im : rmimage256) (x k c : Z) : outcome rmimage256 := if b then let* p := ck (x + k) in set_px im p c else Ret im.
Definition img_rectangle (im : rmimage256) (xx yy xl yl cidx : Z) (fill : bool) : outcome rmimage256 :=
  if (cidx <? 0) || (255 <? cidx) then Ret im
  else if fill then box xx yy xl yl (fun x k _ _ im => let* p := ck (x + k) in set_px im p cidx) im
  else
    let w := width im in let h := height im in
    let* k := ck (yy + yl) in
    let* x := ck (yy * w) in
    let* y := ck (k * w) in
    let* im := for_up (Z.to_nat xl) xx 0 (fun i _ im =>
      if (0 <=? i) && (i <? w) then let* im := put_if ((0 <=? yy) && (yy <? h)) im i x cidx in put_if ((0 <=? k) && (k <? h)) im i y cidx else Ret im) im in
    let* k := ck (xx + xl) in
    for_up (Z.to_nat yl) yy 0 (fun i _ im =>
      if (0 <=? i) && (i <? h) then
        let* y := ck (i * w) in
        let* im := put_if ((0 <=? xx) && (xx <? w)) im xx y cidx in put_if ((0 <=? k) && (k <? w)) im k y cidx
      else Ret im) im.

Definition img_atob (im : rmimage256) (xx yy xl yl aidx bidx : Z) : outcome rmimage256 :=
  box xx yy xl yl (fun x k _ _ im => let* p := ck (x + k) in let* v := get_px im p in if v =? aidx then set_px im p bidx else Ret im) im.

(** The row [i] of the other image is computed where it is used. *)
Definition img_paste (im : rmimage256) (xx yy : Z) (other : rmimage256) : outcome rmimage256 :=
  box xx yy (width other) (height other) (fun x k xc yc im =>
    let* i := ck (yc * width other) in
    let* q := ck (xc + i) in
    let* v := get_px other q in
    let* p := ck (x + k) in set_px im p v) im.

(** The loops of img_border over the neighbours: is there one of the colour [fc]? *)
Fixpoint near_col (n : nat) (i j x y fc bw : Z) (im : rmimage256) : outcome bool :=
  match n with
  | O => Ret false
  | S n =>
      let* yj := ck (y + j) in
      let next := near_col n i (j + 1) x y fc bw im in
      if (yj <? 0) || (height im <=? yj) then next
      else
        let* dist := ck (Z.abs i + Z.abs j) in
        if (dist =? 0) || (bw <? dist) then next
        else let* r := ck (yj * width im) in let* pos := ck (x + i + r) in let* v := get_px im pos in if v =? fc then Ret true else next
  end.
Fixpoint near_row (n : nat) (i x y fc bw : Z) (im : rmimage256) : outcome bool :=
  match n with
  | O => Ret false
  | S n =>
      let* xi := ck (x + i) in
      let next := near_row n (i + 1) x y fc bw im in
      if (xi <? 0) || (width im <=? xi) then next
      else let* b := near_col (Z.to_nat (2 * bw + 1)) i (- bw) x y fc bw im in if b : bool then Ret true else next
  end.
Definition img_border (im : rmimage256) (xx yy xl yl fc bc bw : Z) : outcome rmimage256 :=
  let w := width im in let h := height im in
  let* xe := ck (xx + xl) in
  let* ye := ck (yy + yl) in
  let xb := if 0 <? xx then xx else 0 in
  let yb := if 0 <? yy then yy else 0 in
  let xe := if xe <? w then xe else w in
  let ye := if ye <? h then ye else h in
  for_up (Z.to_nat (ye - yb)) yb 0 (fun y _ im =>
    let* k := ck (y * w) in
    for_up (Z.to_nat (xe - xb)) xb 0 (fun x _ im =>
      let* p := ck (x + k) in
      let* v := get_px im p in
      if (v =? fc) || (v =? bc) then Ret im
      else let* b := near_row (Z.to_nat (2 * bw + 1)) (- bw) x y fc bw im in if b : bool then set_px im p bc else Ret im) im) im.

(** The eight pixels of a byte, from bit [i] on; [bmb] has been shifted. *)
Fixpoint bits (n : nat) (x xx j bmb fidx bidx realwidth : Z) (im : rmimage256) : outcome (Z * rmimage256) :=
  match n with
  | O => Ret (x, im)
  | S n =>
      if x <? 0 then let* x' := ck (x + 1) in bits n x' xx j (Z.shiftl bmb 1) fidx bidx realwidth im
      else if width im <=? x then Ret (x, im)
      else
        let* d := ck (x - xx) in
        if realwidth <? d then Ret (x, im)
        else
          let c := if negb (Z.land bmb 0x80 =? 0) then fidx else bidx in
          let* p := ck (j + x) in
          let* im := set_px im p c in
          let* x' := ck (x + 1) in bits n x' xx j (Z.shiftl bmb 1) fidx bidx realwidth im
  end.
Fixpoint bitmap_row (n : nat) (ww k x xx j : Z) (bmp : list Z) (fidx bidx realwidth : Z) (im : rmimage256) : outcome rmimage256 :=
  match n with
  | O => Ret im
  | S n => let* q := ck (k + ww) in let* b := aget bmp q in let* r := bits 8 x xx j (schar b) fidx bidx realwidth im in bitmap_row n (ww + 1) k (fst r) xx j bmp fidx bidx realwidth (snd r)
  end.
(** [hh] counts down: the rows of the bitmap are upside down. *)
Fixpoint bitmap_rows (n : nat) (y xx : Z) (bmp : list Z) (bw : Z) (fidx bidx realwidth : Z) (im : rmimage256) : outcome rmimage256 :=
  match n with
  | O => Ret im
  | S n =>
      let next im := let* y' := ck (y + 1) in bitmap_rows n y' xx bmp bw fidx bidx realwidth im in
      if y <? 0 then next im
      else if height im <=? y then Ret im
      else
        let* j := ck (y * width im) in
        let* k := ck (Z.of_nat n * bw) in
        let* im := bitmap_row (Z.to_nat bw) 0 k xx xx j bmp fidx bidx realwidth im in next im
  end.
Definition img_packedBitmap (im : rmimage256) (xx yy fidx bidx : Z) (bmp : list Z) (w h realwidth : Z) : outcome (Z * rmimage256) :=
  let* im := bitmap_rows (Z.to_nat h) yy xx bmp w fidx bidx realwidth im in Ret (1, im).

(** ** Text *)

(** The static variables [have_eten] and [et]. *)
Record fonts := mk_fonts { have_eten : Z; et : eten }.
Definition fonts0 : fonts := mk_fonts 0 eten0.
Definition init_eten (fs : list Z -> option (list Z)) (path : list Z) (f : fonts) : Z * fonts :=
  if negb (have_eten f =? 0) then (have_eten f, f)
  else let '(rc, e) := init_ETen_fonts fs path (et f) in if rc =? 0 then (-1, mk_fonts (-1) e) else (1, mk_fonts 1 e).

(** A left shift of a 32-bit [int]. *)
Definition shl1 (v : Z) : Z := to_int (u32 (2 * v)).
(** One bit of a pattern, [scale] pixels wide and high. *)
Definition dot (x y scale c : Z) (im : rmimage256) : outcome rmimage256 :=
  for_up (Z.to_nat scale) y 0 (fun y _ im =>
    if (y <? 0) || (height im <=? y) then Ret im
    else for_up (Z.to_nat scale) x 0 (fun x _ im =>
      if (x <? 0) || (width im <=? x) then Ret im
      else let* r := ck (y * width im) in let* p := ck (x + r) in set_px im p c) im) im.
Fixpoint dots (n : nat) (x y v fm fidx bidx scale : Z) (im : rmimage256) : outcome (Z * rmimage256) :=
  match n with
  | O => Ret (x, im)
  | S n =>
      let* im := dot x y scale (if negb (Z.land v fm =? 0) then fidx else bidx) im in
      let* x' := ck (x + scale) in dots n x' y (shl1 v) fm fidx bidx scale im
  end.
(** The rows of a pattern from [yh] on; the last value of [x]. *)
Fixpoint glyph (n : nat) (yh xw y x : Z) (full : bool) (pattern : list Z) (fidx bidx scale : Z) (im : rmimage256) : outcome (Z * rmimage256) :=
  match n with
  | O => Ret (x, im)
  | S n =>
      let k := yh * (if full then 3 else 2) in
      let* a := aget pattern k in
      let* b := aget pattern (k + 1) in
      let* v := (if full then let* c := aget pattern (k + 2) in Ret (a * 65536 + b * 256 + c) else Ret (a * 256 + b)) in
      let* r := dots (if full then 24 else 12) xw y v (if full then 0x800000 else 0x8000) fidx bidx scale im in
      let* y' := ck (y + scale) in glyph n (yh + 1) xw y' (fst r) full pattern fidx bidx scale (snd r)
  end.
Fixpoint text_loop (s : list Z) (x yy rc fidx bidx scale space : Z) (e : eten) (im : rmimage256) {struct s} : outcome (Z * eten * rmimage256) :=
  match s with
  | [] => Ret (rc, e, im)
  | word :: s' =>
      let draw full e s :=
        let* r := glyph 24 0 x yy x full (pat e) fidx bidx scale im in
        let* x' := ck (fst r + space) in text_loop s x' yy (fst r) fidx bidx scale space e (snd r) in
      match s' with
      | lookahead :: s'' => if isbig5 word lookahead then draw true (ET_full_font24 word lookahead e) s'' else draw false (ET_half_font24 word e) s'
      | [] => draw false (ET_half_font24 word e) s'
      end
  end.
Definition etfonts : list Z := [101; 116; 102; 111; 110; 116; 115].
Definition img_drawText (fs : list Z -> option (list Z)) (f : fonts) (im : rmimage256) (xx yy fidx bidx scale space : Z) (s : list Z) : outcome (Z * fonts * rmimage256) :=
  let '(rc, f) := init_eten fs etfonts f in
  if rc <=? 0 then Ret (0, f, im)
  else let* r := text_loop s xx yy 0 fidx bidx scale space (et f) im in let '(rc, e, im) := r in Ret (rc, mk_fonts (have_eten f) e, im).

(** ** Making images *)
Definition header (w h isize : Z) : list Z :=
  [0x3e; Z.shiftr (Z.land isize 0xff0000) 16; Z.shiftr (Z.land isize 0x00ff00) 8; Z.land isize 0xff; Z.shiftr (Z.land w 0xff00) 8; Z.land w 0xff; Z.shiftr (Z.land h 0xff00) 8; Z.land h 0xff].
Definition new_rmimage256 (palette : list Z) (mem : Z -> bool) (w h : Z) : outcome (option rmimage256) :=
  let* a := ck (w * h) in
  let* isize := ck (a + 1032) in
  (* a negative size is more than there is *)
  if (isize <? 0) || negb (mem isize) then Ret None
  else
    let* l := blit (replicate (Z.to_nat isize) 0) 0 (header w h isize) in
    let* p := bytes_of palette 0 1024 in
    let* l := blit l PALETTE_OFFSET p in
    Ret (Some (mk_img l w h isize)).
Definition new_rmimage256_from_raw (palette : list Z) (mem : Z -> bool) (raw : list Z) : outcome (option rmimage256) :=
  let* m := aget raw 0 in
  if negb (m =? 0x3e) then Ret None
  else
    let* a := aget raw 4 in let* b := aget raw 5 in let* c := aget raw 6 in let* d := aget raw 7 in
    let* r := new_rmimage256 palette mem (Z.lor (Z.shiftl a 8) b) (Z.lor (Z.shiftl c 8) d) in
    match r with
    | None => Ret None
    | Some im => let* b := bytes_of raw 0 (size im) in let* im := copy_to im 0 b in Ret (Some im)
    end.

(** ** Images as pictures *)
Definition byte (b : Z) : Prop := 0 <= b < 256.
Definition wf (im : rmimage256) : Prop := 0 <= width im /\ 0 <= height im /\ size im = width im * height im + IMAGE_OFFSET /\ size im <= INT_MAX /\ zlen (img im) = size im /\ Forall byte (img im).
Definition inside (im : rmimage256) (x y : Z) : Prop := 0 <= x < width im /\ 0 <= y < height im.
Definition pixel (im : rmimage256) (x y : Z) : Z := default 0 (img im !! Z.to_nat (IMAGE_OFFSET + (x + y * width im))).
Definition same_dim (im im' : rmimage256) : Prop := width im' = width im /\ height im' = height im.
(** The pixels have changed as [F] says, and nothing else. *)
Definition painted (im im' : rmimage256) (F : Z -> Z -> Z -> Z) : Prop :=
  wf im' /\ same_dim im im' /\ take (Z.to_nat IMAGE_OFFSET) (img im') = take (Z.to_nat IMAGE_OFFSET) (img im) /\ forall x y, inside im x y -> pixel im' x y = F x y (pixel im x y).
Definition at_ (x y : Z) (h : Z -> Z -> Z -> Z) (x' y' v : Z) : Z := if (x' =? x) && (y' =? y) then h x' y' v else v.

Lemma inside_same im im' x y : same_dim im im' -> inside im x y <-> inside im' x y.
Proof. unfold inside. intros [-> ->]. done. Qed.
Lemma pos_range im x y : wf im -> inside im x y -> 0 <= y * width im <= INT_MAX /\ 0 <= x + y * width im /\ IMAGE_OFFSET + (x + y * width im) < size im.
Proof.
  intros (W1 & W2 & W3 & W4 & _) [Hx Hy]. assert ((y + 1) * width im <= height im * width im) by (apply Z.mul_le_mono_nonneg_r; lia). assert (0 <= y * width im) by (apply Z.mul_nonneg_nonneg; lia). unfold IMAGE_OFFSET in *. rewrite (Z.mul_comm (height im)) in *. lia.
Qed.
Lemma pos_inj im x y x' y' : inside im x y -> inside im x' y' -> x + y * width im = x' + y' * width im -> x = x' /\ y = y'.
Proof. intros [Hx Hy] [Hx' Hy'] E. assert (y = y') as ->; [|lia]. destruct (Z.lt_trichotomy y y') as [H|[H|H]]; [|done|]; exfalso; nia. Qed.

Lemma painted_refl im : wf im -> painted im im (fun _ _ v => v).
Proof. done. Qed.
Lemma painted_ext im im' F G : painted im im' F -> (forall x y v, inside im x y -> F x y v = G x y v) -> painted im im' G.
Proof. intros (P1 & P2 & P3 & P4) H. split; [done|]. split; [done|]. split; [done|]. intros x y Hi. rewrite <- H by done. by apply P4. Qed.
Lemma painted_trans im im1 im2 F G : painted im im1 F -> painted im1 im2 G -> painted im im2 (fun x y v => G x y (F x y v)).
Proof.
  intros (P1 & P2 & P3 & P4) (Q1 & Q2 & Q3 & Q4). split; [done|]. destruct P2 as [D1 D2], Q2 as [E1 E2]. split; [split; congruence|]. split; [congruence|]. intros x y Hi. rewrite Q4 by (by apply (inside_same im)). by rewrite P4.
Qed.

Lemma get_px_spec im x y : wf im -> inside im x y -> get_px im (x + y * width im) = Ret (schar (pixel im x y)).
Proof.
  intros W Hi. pose proof (pos_range im x y W Hi) as (_ & H1 & H2). pose proof W as (_ & _ & _ & _ & W5 & _). unfold get_px, pixel, IMAGE_OFFSET in *. destruct (aget_lt (img im) (1032 + (x + y * width im)) ltac:(lia)) as (b & -> & Hb). by rewrite Hb.
Qed.
Lemma set_px_spec im x y c : wf im -> inside im x y -> exists im', set_px im (x + y * width im) c = Ret im' /\ painted im im' (at_ x y (fun _ _ _ => u8 c)).
Proof.
  intros W Hi. pose proof (pos_range im x y W Hi) as (_ & H1 & H2). pose proof W as (W1 & W2 & W3 & W4 & W5 & W6). unfold set_px. rewrite aset_Ret by (unfold IMAGE_OFFSET in *; lia). cbn [obind]. eexists. split; [done|]. split; [|split; [done|split]].
  - unfold wf, set_img. cbn [img width height size]. rewrite zlen_insert. split_and!; try done. apply Forall_insert; [done|]. unfold byte, u8. apply Z.mod_pos_bound. lia.
  - cbn [img set_img]. rewrite take_insert_ge; [done|]. unfold IMAGE_OFFSET in *. lia.
  - intros x' y' Hi'. unfold pixel, at_, set_img. cbn [img width]. pose proof (pos_range im x' y' W Hi') as (_ & H1' & H2'). destruct ((x' =? x) && (y' =? y)) eqn:E.
    + assert (x' = x /\ y' = y) as [-> ->] by lia. rewrite list_lookup_insert_eq; [done|]. unfold zlen in W5. unfold IMAGE_OFFSET in *. lia.
    + rewrite list_lookup_insert_ne; [done|]. intros E2. assert (x + y * width im = x' + y' * width im) as E3 by (unfold IMAGE_OFFSET in *; lia). destruct (pos_inj im x y x' y' Hi Hi' E3) as [-> ->]. by rewrite !Z.eqb_refl in E.
Qed.
Lemma pixel_byte im x y : wf im -> byte (pixel im x y).
Proof. intros (_ & _ & _ & _ & _ & W). unfold pixel. destruct (img im !! _) as [b|] eqn:E; cbn; [|done]. by eapply Forall_lookup_1. Qed.

(** *** Loops *)
Fixpoint gfold (n : nat) (i : Z) (g : Z -> Z -> Z -> Z -> Z) (x y v : Z) : Z := match n with O => v | S n => gfold n (i + 1) g x y (g i x y v) end.
Lemma for_up_paint (I : rmimage256 -> Prop) body g im : forall n i c im1,
  (forall i' im1, i <= i' < i + Z.of_nat n -> wf im1 -> same_dim im im1 -> I im1 -> exists im2, body i' (i' - i + c) im1 = Ret im2 /\ painted im1 im2 (g i') /\ I im2) ->
  INT_MIN <= i -> i + Z.of_nat n <= INT_MAX -> wf im1 -> same_dim im im1 -> I im1 -> exists im', for_up n i c body im1 = Ret im' /\ painted im1 im' (gfold n i g) /\ I im'.
Proof.
  induction n as [|n IH]; intros i c im1 Hb Hi1 Hi2 W D HI; [by exists im1|]. cbn [for_up gfold]. destruct (Hb i im1 ltac:(lia) W D HI) as (im2 & E & P & HI2). rewrite Z.sub_diag, Z.add_0_l in E. rewrite E. cbn [obind]. rewrite ck_Ret by int_lia. cbn [obind].
  assert (same_dim im im2) as D2 by (destruct P as (_ & [E1 E2] & _), D as [E3 E4]; split; congruence). destruct (IH (i + 1) (c + 1) im2) as (im3 & E3 & P3 & HI3); try done; [|lia|lia|apply P|].
  - intros i' im4 Hi' W4 D4 HI4. destruct (Hb i' im4 ltac:(lia) W4 D4 HI4) as (im5 & E5 & R5). exists im5. split; [|done]. rewrite <- E5. f_equal. lia.
  - exists im3. split; [done|]. split; [|done]. by eapply painted_trans.
Qed.
(** Every pixel is met once. *)
Lemma gfold_once n : forall i g sel h x y v, (forall i v, g i x y v = if sel =? i then h x y v else v) -> gfold n i g x y v = if (i <=? sel) && (sel <? i + Z.of_nat n) then h x y v else v.
Proof.
  induction n as [|n IH]; intros i g sel h x y v Hg; cbn [gfold].
  - change (Z.of_nat 0) with 0. rewrite Z.add_0_r. destruct ((i <=? sel) && (sel <? i)) eqn:E; [lia|done].
  - rewrite (IH (i + 1) g sel h x y _ Hg), Hg, Nat2Z.inj_succ. pose proof (Nat2Z.is_nonneg n). destruct (sel =? i) eqn:E, ((i + 1 <=? sel) && (sel <? i + 1 + Z.of_nat n)) eqn:E1, ((i <=? sel) && (sel <? i + Z.succ (Z.of_nat n))) eqn:E2; try done; lia.
Qed.

Definition in_rect (xx yy xl yl x y : Z) : bool := (xx <=? x) && (x <? xx + xl) && (yy <=? y) && (y <? yy + yl).
(** No counter overflows. *)
Definition fits (xx xl : Z) : Prop := INT_MIN <= xx /\ xx + Z.max 0 xl <= INT_MAX.
Lemma row_spec (I : rmimage256 -> Prop) xx xl y im op h : wf im -> 0 <= y < height im -> fits xx xl -> I im ->
  (forall x im1, inside im x y -> xx <= x < xx + xl -> wf im1 -> same_dim im im1 -> I im1 -> exists im2, op x (x - xx) im1 = Ret im2 /\ painted im1 im2 (at_ x y h) /\ I im2) ->
  exists im', for_up (Z.to_nat xl) xx 0 (fun x xc im => if (0 <=? x) && (x <? width im) then op x xc im else Ret im) im = Ret im' /\ painted im im' (fun x' y' v => if (y' =? y) && (xx <=? x') && (x' <? xx + xl) then h x' y' v else v) /\ I im'.
Proof.
  intros W Hy [F1 F2] HI Hop. edestruct (for_up_paint I (fun x xc im => if (0 <=? x) && (x <? width im) then op x xc im else Ret im) (fun x => at_ x y h) im (Z.to_nat xl) xx 0 im) as (im' & E & P & HI'); try done; [|lia|].
  - intros x im1 Hx W1 D1 HI1. rewrite Z.add_0_r. destruct D1 as [D1 D1']. rewrite D1. destruct ((0 <=? x) && (x <? width im)) eqn:Ex; [apply Hop; try done; [split; lia|lia]|]. exists im1. split; [done|]. split; [|done]. eapply painted_ext; [by apply painted_refl|]. intros x' y' v [Hx' _]. unfold at_. rewrite D1 in Hx'. by rewrite (proj2 (andb_false_iff _ _)) by lia.
  - exists im'. split; [done|]. split; [|done]. eapply painted_ext; [exact P|]. intros x' y' v _. rewrite (gfold_once _ xx _ x' (fun x' y' v => if y' =? y then h x' y' v else v)) by (intros i v'; unfold at_; destruct (x' =? i); by destruct (y' =? y)).
    destruct (y' =? y); cbn [andb]; [|by repeat case_match]. destruct (xx <=? x') eqn:E1; cbn [andb]; [|done]. replace (x' <? xx + Z.of_nat (Z.to_nat xl)) with (x' <? xx + xl) by (destruct (x' <? xx + xl) eqn:E2; destruct (x' <? xx + Z.of_nat (Z.to_nat xl)) eqn:E3; lia). done.
Qed.
Lemma row_ck im y : wf im -> 0 <= y < height im -> ck (y * width im) = Ret (y * width im).
Proof. intros W Hy. apply ck_Ret. destruct (decide (width im = 0)) as [->|Hw]; [rewrite Z.mul_0_r; int_lia|]. pose proof (pos_range im 0 y W ltac:(destruct W as (? & _); split; lia)). int_lia. Qed.
Lemma box_spec xx yy xl yl im op h : wf im -> fits xx xl -> fits yy yl ->
  (forall x y im1, inside im x y -> in_rect xx yy xl yl x y = true -> wf im1 -> same_dim im im1 -> exists im2, op x (y * width im) (x - xx) (y - yy) im1 = Ret im2 /\ painted im1 im2 (at_ x y h)) ->
  exists im', box xx yy xl yl op im = Ret im' /\ painted im im' (fun x y v => if in_rect xx yy xl yl x y then h x y v else v).
Proof.
  intros W F1 F2 Hop. unfold box. edestruct (for_up_paint (fun _ => True) (fun y yc im => if (0 <=? y) && (y <? height im) then let* k := ck (y * width im) in for_up (Z.to_nat xl) xx 0 (fun x xc im => if (0 <=? x) && (x <? width im) then op x k xc yc im else Ret im) im else Ret im)
    (fun y x' y' v => if (y' =? y) && (xx <=? x') && (x' <? xx + xl) then h x' y' v else v) im (Z.to_nat yl) yy 0 im) as (im' & E & P & _); try done; [|apply F2|unfold fits in F2; lia|].
  - intros y im1 Hy W1 D1 _. rewrite Z.add_0_r. pose proof D1 as [D2 D3]. rewrite D3. destruct ((0 <=? y) && (y <? height im)) eqn:Ey.
    + rewrite D2, row_ck by (done || lia). cbn [obind]. edestruct (row_spec (fun _ => True) xx xl y im1 (fun x xc im2 => op x (y * width im) xc (y - yy) im2) h) as (im2 & E2 & P2 & _); try done; [lia| |by exists im2].
      intros x im3 Hi Hx W3 D4 _. apply (inside_same im im1) in Hi; [|done]. destruct (Hop x y im3 Hi) as (im4 & E4 & P4); [unfold in_rect; lia|done|destruct D1, D4; split; congruence|]. exists im4. by split_and!.
    + exists im1. split; [done|]. split; [|done]. eapply painted_ext; [by apply painted_refl|]. intros x' y' v [_ Hy']. rewrite D3 in Hy'. by rewrite (proj2 (Z.eqb_neq y' y)) by lia.
  - exists im'. split; [done|]. eapply painted_ext; [exact P|]. intros x' y' v _. rewrite (gfold_once _ yy _ y' (fun x' y' v => if (xx <=? x') && (x' <? xx + xl) then h x' y' v else v)) by (intros i v'; by destruct (y' =? i)).
    unfold in_rect. rewrite <- (andb_assoc ((xx <=? x') && (x' <? xx + xl))). assert ((y' <? yy + Z.of_nat (Z.to_nat yl)) = (y' <? yy + Z.max 0 yl)) as -> by (rewrite ZifyInst.of_nat_to_nat_eq; done). destruct ((xx <=? x') && (x' <? xx + xl)); cbn [andb]; [|by repeat case_match]. destruct ((yy <=? y') && (y' <? yy + Z.max 0 yl)) eqn:E1, ((yy <=? y') && (y' <? yy + yl)) eqn:E3; try done; lia.
Qed.
End RI.
