(* ===== verification/RmDraw.v ===== *)
(** * RmDraw.v: what the drawing functions of rmimage256.c paint

    For each of them a function on pixels ([filled], [outlined], [lined], [replaced],
    [pasted], [framed], [bitmapped], [written]) and the proof that, from any well-formed image
    and with any clipping, it returns and paints just this. *)

From Stdlib Require Import ZifyBool.
From S2P Require Import Prelude Posix Eten Rmimage.

Module RD.
Import ET RI.

(** ** What the drawing functions paint *)
Lemma pos_ck im x y : wf im -> inside im x y -> ck (x + y * width im) = Ret (x + y * width im).
Proof. intros W Hi. apply ck_Ret. destruct (pos_range im x y W Hi) as (_ & H1 & H2). destruct W as (_ & _ & _ & W4 & _). unfold IMAGE_OFFSET in *. int_lia. Qed.
Lemma inside_dim im im1 x y : inside im x y -> same_dim im im1 -> inside im1 x y.
Proof. intros H D. by apply (inside_same im). Qed.
Lemma u8_id c : 0 <= c < 256 -> u8 c = c.
Proof. intros H. unfold u8. apply Z.mod_small. lia. Qed.
Lemma u8_schar b : byte b -> u8 (schar b) = b.
Proof. unfold byte, u8, schar. intros H. destruct (b <? 128) eqn:E; [apply Z.mod_small; lia|]. rewrite <- (Z.mod_add _ 1) by lia. rewrite Z.mod_small; lia. Qed.
Lemma put_spec im im1 x y c : same_dim im im1 -> wf im1 -> inside im x y -> exists im2, (let* p := ck (x + y * width im) in set_px im1 p c) = Ret im2 /\ painted im1 im2 (at_ x y (fun _ _ _ => u8 c)).
Proof.
  intros D W Hi. pose proof (inside_dim _ _ _ _ Hi D) as Hi1. destruct D as [<- _]. rewrite pos_ck by done. cbn [obind]. by apply set_px_spec.
Qed.

Definition filled (xx yy xl yl c : Z) (x y v : Z) : Z := if in_rect xx yy xl yl x y then c else v.
Lemma fill_spec im xx yy xl yl c : wf im -> fits xx xl -> fits yy yl -> 0 <= c <= 255 -> exists im', img_rectangle im xx yy xl yl c true = Ret im' /\ painted im im' (filled xx yy xl yl c).
Proof.
  intros W F1 F2 Hc. unfold img_rectangle. assert ((c <? 0) || (255 <? c) = false) as -> by lia. destruct (box_spec xx yy xl yl im (fun x k _ _ im => let* p := ck (x + k) in set_px im p c) (fun _ _ _ => u8 c) W F1 F2) as (im' & E & P).
  - intros x y im1 Hi _ W1 D. by apply put_spec.
  - exists im'. split; [done|]. rewrite u8_id in P by lia. exact P.
Qed.

Definition replaced (xx yy xl yl a b : Z) (x y v : Z) : Z := if in_rect xx yy xl yl x y && (schar v =? a) then u8 b else v.
Lemma atob_spec im xx yy xl yl a b : wf im -> fits xx xl -> fits yy yl -> exists im', img_atob im xx yy xl yl a b = Ret im' /\ painted im im' (replaced xx yy xl yl a b).
Proof.
  intros W F1 F2. destruct (box_spec xx yy xl yl im (fun x k _ _ im => let* p := ck (x + k) in let* v := get_px im p in if v =? a then set_px im p b else Ret im) (fun _ _ v => if schar v =? a then u8 b else v) W F1 F2) as (im' & E & P).
  - intros x y im1 Hi _ W1 D. pose proof (inside_dim _ _ _ _ Hi D) as Hi1. destruct D as [<- _]. rewrite pos_ck by done. cbn [obind]. rewrite get_px_spec by done. cbn [obind]. destruct (schar (pixel im1 x y) =? a) eqn:Ea.
    + destruct (set_px_spec im1 x y b W1 Hi1) as (im2 & E2 & P1 & P2 & P3 & P4). exists im2. split; [done|]. split; [done|]. split; [done|]. split; [done|]. intros x' y' Hi'. rewrite P4 by done. unfold at_. destruct ((x' =? x) && (y' =? y)) eqn:Exy; [|done]. assert (x' = x /\ y' = y) as [-> ->] by lia. by rewrite Ea.
    + exists im1. split; [done|]. split; [done|]. split; [done|]. split; [done|]. intros x' y' Hi'. unfold at_. destruct ((x' =? x) && (y' =? y)) eqn:Exy; [|done]. assert (x' = x /\ y' = y) as [-> ->] by lia. by rewrite Ea.
  - exists im'. split; [done|]. eapply painted_ext; [exact P|]. intros x y v _. unfold replaced. by destruct (in_rect xx yy xl yl x y).
Qed.

Definition pasted (xx yy : Z) (other : rmimage256) (x y v : Z) : Z := if in_rect xx yy (width other) (height other) x y then pixel other (x - xx) (y - yy) else v.
Lemma paste_spec im xx yy other : wf im -> wf other -> fits xx (width other) -> fits yy (height other) -> exists im', img_paste im xx yy other = Ret im' /\ painted im im' (pasted xx yy other).
Proof.
  intros W Wo F1 F2. unfold img_paste. apply (box_spec xx yy (width other) (height other) im _ (fun x y _ => pixel other (x - xx) (y - yy)) W F1 F2). intros x y im1 Hi Hr W1 D. unfold in_rect in Hr. assert (inside other (x - xx) (y - yy)) as Ho by (split; lia). rewrite (row_ck other) by (done || apply Ho). cbn [obind]. rewrite (pos_ck other) by done. cbn [obind]. rewrite (get_px_spec other) by done. cbn [obind].
  destruct (put_spec im im1 x y (schar (pixel other (x - xx) (y - yy))) D W1 Hi) as (im2 & E & P). exists im2. split; [done|]. eapply painted_ext; [exact P|]. intros x' y' v _. unfold at_. destruct ((x' =? x) && (y' =? y)) eqn:Exy; [|done]. assert (x' = x /\ y' = y) as [-> ->] by lia. apply u8_schar. by apply pixel_byte.
Qed.

(** A loop over the columns ([sel x y = x]) or the rows ([sel x y = y]). *)
Lemma sweep_spec (I : rmimage256 -> Prop) (sel : Z -> Z -> Z) h body im i n : wf im -> fits i n -> I im ->
  (forall i' im1, i <= i' < i + n -> wf im1 -> same_dim im im1 -> I im1 -> exists im2, body i' (i' - i) im1 = Ret im2 /\ painted im1 im2 (fun x y v => if sel x y =? i' then h x y v else v) /\ I im2) ->
  exists im', for_up (Z.to_nat n) i 0 body im = Ret im' /\ painted im im' (fun x y v => if (i <=? sel x y) && (sel x y <? i + n) then h x y v else v) /\ I im'.
Proof.
  intros W [F1 F2] HI Hb. destruct (for_up_paint I body (fun i' x y v => if sel x y =? i' then h x y v else v) im (Z.to_nat n) i 0 im) as (im' & E & P & HI'); try done; [|lia|].
  - intros i' im1 Hi W1 D HI1. rewrite Z.add_0_r. apply Hb; try done. lia.
  - exists im'. split; [done|]. split; [|done]. eapply painted_ext; [exact P|]. intros x y v _. rewrite (gfold_once _ i _ (sel x y) h) by done. rewrite ZifyInst.of_nat_to_nat_eq. destruct ((i <=? sel x y) && (sel x y <? i + n)) eqn:E1, ((i <=? sel x y) && (sel x y <? i + Z.max 0 n)) eqn:E2; try done; lia.
Qed.
(** A pixel that is drawn only where it is inside. *)
Lemma put_clip im im1 (b : bool) x y c : same_dim im im1 -> wf im1 -> (b = true <-> inside im x y) -> 0 <= c <= 255 ->
  exists im2, (if b then let* r := ck (y * width im) in let* p := ck (x + r) in set_px im1 p c else Ret im1) = Ret im2 /\ painted im1 im2 (at_ x y (fun _ _ _ => c)).
Proof.
  intros D W Hb Hc. destruct b.
  - assert (inside im x y) as Hi by (by apply Hb). pose proof (inside_dim _ _ _ _ Hi D) as Hi1. destruct (put_spec im im1 x y c D W Hi) as (im2 & E2 & P2). rewrite u8_id in P2 by lia. exists im2. split; [|done]. destruct D as [D1 _]. rewrite <- D1 in *. rewrite row_ck by (done || apply Hi1). exact E2.
  - exists im1. split; [done|]. eapply painted_ext; [by apply painted_refl|]. intros x' y' v Hi. apply (inside_same im im1) in Hi; [|done]. unfold at_. destruct ((x' =? x) && (y' =? y)) eqn:E; [|done]. assert (x' = x /\ y' = y) as [-> ->] by lia. by apply Hb in Hi.
Qed.

(** One pixel in every column, or in every row. *)
Definition lined (frac : Z -> Z -> Z -> Z) (xx yy xl yl c : Z) (x y v : Z) : Z :=
  if (if yl <=? xl then (xx <=? x) && (x <? xx + xl) && (y =? frac yl xl (x - xx) + yy) else (yy <=? y) && (y <? yy + yl) && (x =? frac xl yl (y - yy) + xx)) then c else v.
Lemma img_line_spec frac im xx yy xl yl c : wf im -> fits xx xl -> fits yy yl -> 0 <= c <= 255 -> (forall j, 0 <= j < xl -> int_ok (frac yl xl j + yy)) -> (forall j, 0 <= j < yl -> int_ok (frac xl yl j + xx)) ->
  exists im', img_line frac im xx yy xl yl c = Ret im' /\ painted im im' (lined frac xx yy xl yl c).
Proof.
  intros W F1 F2 Hc Hf Hf'. unfold img_line. assert ((c <? 0) || (255 <? c) = false) as -> by lia. unfold lined. destruct (yl <=? xl) eqn:El.
  - edestruct (sweep_spec (fun _ => True) (fun x _ => x) (fun x' y' v => if y' =? frac yl xl (x' - xx) + yy then c else v)) as (im' & E & P & _); [exact W|exact F1|done| |exists im'; split; [exact E|]].
    + intros i im1 Hi W1 D _. cbn beta. rewrite (ck_Ret (frac yl xl (i - xx) + yy)) by (apply Hf; lia). cbn [obind]. rewrite (proj1 D), (proj2 D). set (k := frac yl xl (i - xx) + yy). destruct (put_clip im im1 ((0 <=? i) && (i <? width im) && (0 <=? k) && (k <? height im)) i k c D W1) as (im2 & E2 & P2); [unfold inside; lia|done|]. exists im2. split; [done|]. split; [|done]. eapply painted_ext; [exact P2|]. intros x' y' v _. unfold at_. destruct (x' =? i) eqn:Ex; [|done]. by assert (x' = i) as -> by lia.
    + eapply painted_ext; [exact P|]. intros x y v _. cbn beta. by destruct ((xx <=? x) && (x <? xx + xl)).
  - edestruct (sweep_spec (fun _ => True) (fun _ y => y) (fun x' y' v => if x' =? frac xl yl (y' - yy) + xx then c else v)) as (im' & E & P & _); [exact W|exact F2|done| |exists im'; split; [exact E|]].
    + intros i im1 Hi W1 D _. cbn beta. rewrite (ck_Ret (frac xl yl (i - yy) + xx)) by (apply Hf'; lia). cbn [obind]. rewrite (proj1 D), (proj2 D). set (k := frac xl yl (i - yy) + xx). destruct (put_clip im im1 ((0 <=? k) && (k <? width im) && (0 <=? i) && (i <? height im)) k i c D W1) as (im2 & E2 & P2); [unfold inside; lia|done|]. exists im2. split; [done|]. split; [|done]. eapply painted_ext; [exact P2|]. intros x' y' v _. unfold at_. rewrite andb_comm. destruct (y' =? i) eqn:Ex; [|done]. by assert (y' = i) as -> by lia.
    + eapply painted_ext; [exact P|]. intros x y v _. cbn beta. by destruct ((yy <=? y) && (y <? yy + yl)).
Qed.

(** The outline: [xl] pixels of two rows and [yl] of two columns. *)
Definition outlined (xx yy xl yl c : Z) (x y v : Z) : Z :=
  if ((xx <=? x) && (x <? xx + xl) && ((y =? yy) || (y =? yy + yl))) || ((yy <=? y) && (y <? yy + yl) && ((x =? xx) || (x =? xx + xl))) then c else v.
Lemma put_if_spec im im1 b x y c : same_dim im im1 -> wf im1 -> (b = true <-> inside im x y) -> 0 <= c <= 255 ->
  exists im2, put_if b im1 x (y * width im) c = Ret im2 /\ painted im1 im2 (at_ x y (fun _ _ _ => c)).
Proof.
  intros D W Hb Hc. destruct (put_clip im im1 b x y c D W Hb Hc) as (im2 & E & P). exists im2. split; [|done]. rewrite <- E. unfold put_if. destruct b; [|done]. assert (inside im x y) as Hi by (by apply Hb). pose proof (inside_dim _ _ _ _ Hi D) as Hi1. destruct D as [D1 _]. rewrite <- D1. by rewrite row_ck by (done || apply Hi1).
Qed.
Lemma put_two im im1 b b' x y x' y' c : same_dim im im1 -> wf im1 -> (b = true <-> inside im x y) -> (b' = true <-> inside im x' y') -> 0 <= c <= 255 ->
  exists im2, (let* im2 := put_if b im1 x (y * width im) c in put_if b' im2 x' (y' * width im) c) = Ret im2 /\ painted im1 im2 (fun i j v => if ((i =? x) && (j =? y)) || ((i =? x') && (j =? y')) then c else v).
Proof.
  intros D W Hb Hb' Hc. destruct (put_if_spec im im1 b x y c D W Hb Hc) as (im2 & E & P). destruct (put_if_spec im im2 b' x' y' c) as (im3 & E3 & P3); [|apply P|done|done|].
  - destruct P as (_ & [P1 P2] & _), D as [D1 D2]. split; congruence.
  - exists im3. split; [by rewrite E|]. eapply painted_ext; [eapply painted_trans; [exact P|exact P3]|]. intros i j v _. unfold at_. by destruct ((i =? x) && (j =? y)), ((i =? x') && (j =? y')).
Qed.
Lemma outline_spec im xx yy xl yl c : wf im -> fits xx xl -> fits yy yl -> 0 <= c <= 255 -> int_ok (xx + xl) -> int_ok (yy + yl) -> int_ok (yy * width im) -> int_ok ((yy + yl) * width im) ->
  exists im', img_rectangle im xx yy xl yl c false = Ret im' /\ painted im im' (outlined xx yy xl yl c).
Proof.
  intros W F1 F2 Hc O1 O2 O3 O4. unfold img_rectangle. assert ((c <? 0) || (255 <? c) = false) as -> by lia. rewrite (ck_Ret (yy + yl)) by done. cbn [obind]. rewrite !ck_Ret by done. cbn [obind].
  edestruct (sweep_spec (fun _ => True) (fun x _ => x) (fun _ y' v => if (y' =? yy) || (y' =? yy + yl) then c else v)) as (im1 & E & P & _); [exact W|exact F1|done| |rewrite E; clear E; cbn [obind]].
  - intros i im1 Hi W1 D _. cbn beta. destruct ((0 <=? i) && (i <? width im)) eqn:Ei.
    + destruct (put_two im im1 ((0 <=? yy) && (yy <? height im)) ((0 <=? yy + yl) && (yy + yl <? height im)) i yy i (yy + yl) c D W1) as (im2 & E2 & P2); [unfold inside; lia|unfold inside; lia|done|]. exists im2. split; [done|]. split; [|done]. eapply painted_ext; [exact P2|]. intros x' y' v _. cbn beta. by destruct (x' =? i).
    + exists im1. split; [done|]. split; [|done]. eapply painted_ext; [by apply painted_refl|]. intros x' y' v Hin. apply (inside_same im im1) in Hin; [|done]. destruct Hin. by rewrite (proj2 (Z.eqb_neq x' i)) by lia.
  - edestruct (sweep_spec (fun _ => True) (fun _ y => y) (fun x' _ v => if (x' =? xx) || (x' =? xx + xl) then c else v)) as (im2 & E & P2 & _); [apply P|exact F2|done| |exists im2; split; [exact E|]].
    + intros i im2 Hi W1 D2 _. assert (same_dim im im2) as D by (destruct P as (_ & [P1 P2] & _), D2 as [Q1 Q2]; split; congruence). cbn beta. destruct ((0 <=? i) && (i <? height im)) eqn:Ei.
      * rewrite row_ck by (done || lia). cbn [obind]. destruct (put_two im im2 ((0 <=? xx) && (xx <? width im)) ((0 <=? xx + xl) && (xx + xl <? width im)) xx i (xx + xl) i c D W1) as (im3 & E3 & P3); [unfold inside; lia|unfold inside; lia|done|]. exists im3. split; [done|]. split; [|done]. eapply painted_ext; [exact P3|]. intros x' y' v _. cbn beta. by destruct (x' =? xx), (x' =? xx + xl), (y' =? i).
      * exists im2. split; [done|]. split; [|done]. eapply painted_ext; [by apply painted_refl|]. intros x' y' v Hin. apply (inside_same im im2) in Hin; [|done]. destruct Hin. by rewrite (proj2 (Z.eqb_neq y' i)) by lia.
    + eapply painted_ext; [eapply painted_trans; [exact P|exact P2]|]. intros x y v _. cbn beta. unfold outlined. by destruct ((xx <=? x) && (x <? xx + xl)), ((yy <=? y) && (y <? yy + yl)), (y =? yy), (y =? yy + yl), (x =? xx), (x =? xx + xl).
Qed.

(** *** Borders *)

(** Is there a pixel of the colour [fc] at a distance of at most [bw]? *)
Definition near_in (w h : Z) (px : Z -> Z -> Z) (x y fc bw i j : Z) : bool :=
  negb ((x + i <? 0) || (w <=? x + i)) && (negb ((y + j <? 0) || (h <=? y + j)) && (negb ((Z.abs i + Z.abs j =? 0) || (bw <? Z.abs i + Z.abs j)) && (schar (px (x + i) (y + j)) =? fc))).
Definition bordered_in (w h : Z) (px : Z -> Z -> Z) (fc bw x y : Z) : bool := existsb (fun i => existsb (near_in w h px x y fc bw i) (seqZ (- bw) (2 * bw + 1))) (seqZ (- bw) (2 * bw + 1)).
Definition near (im : rmimage256) : Z -> Z -> Z -> Z -> Z -> Z -> bool := near_in (width im) (height im) (pixel im).
Definition bordered (im : rmimage256) : Z -> Z -> Z -> Z -> bool := bordered_in (width im) (height im) (pixel im).
Lemma seqZ_S i n : seqZ i (Z.of_nat (S n)) = i :: seqZ (i + 1) (Z.of_nat n).
Proof. rewrite seqZ_cons by lia. do 2 f_equal; lia. Qed.
Lemma near_col_spec im x y fc bw i : wf im -> inside im x y -> bw <= 1032 -> Z.abs i <= bw -> 0 <= x + i < width im -> forall n j, - bw <= j -> j + Z.of_nat n <= bw + 1 ->
  near_col n i j x y fc bw im = Ret (existsb (near im x y fc bw i) (seqZ j (Z.of_nat n))).
Proof.
  intros W [Hx Hy] Hbw Hi Hxi. assert (height im <= height im * width im) by nia. pose proof W as (_ & _ & W3 & W4 & _). unfold IMAGE_OFFSET in W3. induction n as [|n IH]; intros j Hj Hn; [done|]. rewrite seqZ_S. cbn [near_col existsb]. rewrite (ck_Ret (y + j)) by int_lia. cbn [obind]. rewrite IH by lia. set (R := existsb _ (seqZ (j + 1) _)). unfold near, near_in. assert ((x + i <? 0) || (width im <=? x + i) = false) as -> by lia. cbn [negb andb].
  destruct ((y + j <? 0) || (height im <=? y + j)) eqn:E; cbn [negb andb orb]; [done|]. rewrite (ck_Ret (Z.abs i + Z.abs j)) by int_lia. cbn [obind]. destruct ((Z.abs i + Z.abs j =? 0) || (bw <? Z.abs i + Z.abs j)) eqn:Ed; cbn [negb andb orb]; [done|]. assert (inside im (x + i) (y + j)) as Hin by (split; lia). rewrite row_ck by (done || apply Hin). cbn [obind]. rewrite pos_ck by done. cbn [obind]. rewrite get_px_spec by done. cbn [obind]. by destruct (schar _ =? fc).
Qed.
Lemma near_row_spec im x y fc bw : wf im -> inside im x y -> bw <= 1032 -> forall n i, - bw <= i -> i + Z.of_nat n <= bw + 1 ->
  near_row n i x y fc bw im = Ret (existsb (fun i => existsb (near im x y fc bw i) (seqZ (- bw) (2 * bw + 1))) (seqZ i (Z.of_nat n))).
Proof.
  intros W Hin Hbw. pose proof Hin as [Hx Hy]. assert (width im <= width im * height im) by nia. pose proof W as (_ & _ & W3 & W4 & _). unfold IMAGE_OFFSET in W3. induction n as [|n IH]; intros i Hi Hn; [done|]. rewrite seqZ_S. cbn [near_row existsb]. rewrite (ck_Ret (x + i)) by int_lia. cbn [obind]. rewrite IH by lia. destruct ((x + i <? 0) || (width im <=? x + i)) eqn:E.
  - replace (existsb (near im x y fc bw i) (seqZ (- bw) (2 * bw + 1))) with false; [done|]. symmetry. apply not_true_iff_false. intros (j & _ & Hj)%existsb_exists. unfold near, near_in in Hj. by rewrite E in Hj.
  - rewrite (near_col_spec im x y fc bw i W Hin Hbw) by lia. cbn [obind]. rewrite Z2Nat.id by lia. by destruct (existsb _ (seqZ (- bw) _)).
Qed.
Lemma bordered_spec im x y fc bw : wf im -> inside im x y -> bw <= 1032 -> near_row (Z.to_nat (2 * bw + 1)) (- bw) x y fc bw im = Ret (bordered im fc bw x y).
Proof.
  intros W Hin Hbw. destruct (decide (0 <= bw)) as [H|H]; [by rewrite (near_row_spec im x y fc bw W Hin Hbw), Z2Nat.id by lia|]. unfold bordered, bordered_in. replace (Z.to_nat (2 * bw + 1)) with O by lia. by rewrite (seqZ_nil (- bw)) by lia.
Qed.

(** The pixels of the colour [fc] are those of [im]. *)
Definition same_fc (fc : Z) (im im1 : rmimage256) : Prop := forall x y, inside im x y -> (schar (pixel im1 x y) =? fc) = (schar (pixel im x y) =? fc).
Lemma existsb_ext {A} (f g : A -> bool) l : (forall a, f a = g a) -> existsb f l = existsb g l.
Proof. intros H. induction l as [|a l IH]; [done|]. cbn. by rewrite H, IH. Qed.
Lemma bordered_ext w h px px' fc bw x y : (forall x y, 0 <= x < w -> 0 <= y < h -> (schar (px' x y) =? fc) = (schar (px x y) =? fc)) -> bordered_in w h px' fc bw x y = bordered_in w h px fc bw x y.
Proof.
  intros S. apply existsb_ext. intros i. apply existsb_ext. intros j. unfold near_in. destruct ((x + i <? 0) || (w <=? x + i)) eqn:E1; [done|]. destruct ((y + j <? 0) || (h <=? y + j)) eqn:E2; [done|]. cbn [negb andb]. f_equal. apply S; lia.
Qed.
Lemma bordered_same fc bw im im1 x y : same_dim im im1 -> same_fc fc im im1 -> bordered im1 fc bw x y = bordered im fc bw x y.
Proof. intros [D1 D2] S. unfold bordered. rewrite D1, D2. apply bordered_ext. intros x' y' Hx Hy. by apply S. Qed.
Definition border_in (w h : Z) (px : Z -> Z -> Z) (fc bc bw x y v : Z) : Z := if (schar v =? fc) || (schar v =? bc) || negb (bordered_in w h px fc bw x y) then v else u8 bc.
Definition border_of (im : rmimage256) : Z -> Z -> Z -> Z -> Z -> Z -> Z := border_in (width im) (height im) (pixel im).
Lemma border_px im im1 x y fc bc bw : wf im1 -> same_dim im im1 -> same_fc fc im im1 -> inside im x y -> bw <= 1032 -> schar (u8 bc) <> fc ->
  exists im2, (let* p := ck (x + y * width im) in let* v := get_px im1 p in
    if (v =? fc) || (v =? bc) then Ret im1 else let* b := near_row (Z.to_nat (2 * bw + 1)) (- bw) x y fc bw im1 in if b : bool then set_px im1 p bc else Ret im1) = Ret im2
    /\ painted im1 im2 (at_ x y (border_of im fc bc bw)) /\ same_fc fc im im2.
Proof.
  intros W D S Hi Hbw Hbc. pose proof (inside_dim _ _ _ _ Hi D) as Hi1. assert (width im1 = width im) as Dw by apply D. rewrite <- Dw, pos_ck by done. cbn [obind]. rewrite get_px_spec by done. cbn [obind]. rewrite bordered_spec, (bordered_same fc bw im im1) by done. cbn [obind].
  assert (forall v, pixel im1 x y = v -> border_of im fc bc bw x y v = v -> painted im1 im1 (at_ x y (border_of im fc bc bw))) as Hsame.
  { intros v Ev Hb. split; [done|]. split; [done|]. split; [done|]. intros x' y' _. unfold at_. destruct ((x' =? x) && (y' =? y)) eqn:Exy; [|done]. assert (x' = x /\ y' = y) as [-> ->] by lia. by rewrite Ev. }
  destruct ((schar (pixel im1 x y) =? fc) || (schar (pixel im1 x y) =? bc)) eqn:E; [exists im1; split; [done|]; split; [|done]; eapply Hsame; [done|]; unfold border_of, border_in; by rewrite E|]. destruct (bordered im fc bw x y) eqn:Eb; [|exists im1; split; [done|]; split; [|done]; eapply Hsame; [done|]; unfold border_of, border_in; fold (bordered im); by rewrite Eb, orb_true_r].
  destruct (set_px_spec im1 x y bc W Hi1) as (im2 & E2 & P). exists im2. split; [done|]. pose proof P as (P1 & P2 & P3 & P4). split.
  - split; [done|]. split; [done|]. split; [done|]. intros x' y' Hi'. rewrite P4 by done. unfold at_. destruct ((x' =? x) && (y' =? y)) eqn:Exy; [|done]. assert (x' = x /\ y' = y) as [-> ->] by lia. unfold border_of, border_in. fold (bordered im). by rewrite E, Eb.
  - intros x' y' Hi'. rewrite P4 by (by apply (inside_same im im1)). unfold at_. destruct ((x' =? x) && (y' =? y)) eqn:Exy; [|by apply S]. assert (x' = x /\ y' = y) as [-> ->] by lia. rewrite <- S by done. apply orb_false_iff in E as [-> _]. by apply Z.eqb_neq.
Qed.
Definition framed (w h : Z) (px : Z -> Z -> Z) (xx yy xl yl fc bc bw x y v : Z) : Z := if in_rect xx yy xl yl x y then border_in w h px fc bc bw x y v else v.
Lemma border_spec im xx yy xl yl fc bc bw : wf im -> int_ok xx -> int_ok yy -> int_ok (xx + xl) -> int_ok (yy + yl) -> bw <= 1032 -> schar (u8 bc) <> fc ->
  exists im', img_border im xx yy xl yl fc bc bw = Ret im' /\ painted im im' (framed (width im) (height im) (pixel im) xx yy xl yl fc bc bw).
Proof.
  intros W X1 X2 O1 O2 Hbw Hbc. unfold img_border. rewrite !ck_Ret by done. cbn [obind]. unfold int_ok in *. set (xb := if 0 <? xx then xx else 0). set (yb := if 0 <? yy then yy else 0). set (xe := if xx + xl <? width im then xx + xl else width im). set (ye := if yy + yl <? height im then yy + yl else height im).
  assert (xb = Z.max 0 xx /\ yb = Z.max 0 yy /\ xe = Z.min (width im) (xx + xl) /\ ye = Z.min (height im) (yy + yl)) as (Hxb & Hyb & Hxe & Hye) by (unfold xb, yb, xe, ye; repeat split; case_match; lia). clearbody xb yb xe ye.
  edestruct (sweep_spec (same_fc fc im) (fun _ y => y) (fun x y v => if (xb <=? x) && (x <? xb + (xe - xb)) then border_of im fc bc bw x y v else v)) as (im' & E & P & _); [exact W| |done| |exists im'; split; [exact E|]].
  - unfold fits. int_lia.
  - intros y im1 Hy W1 D1 S1. cbn beta. rewrite row_ck by (done || lia). cbn [obind]. edestruct (sweep_spec (same_fc fc im) (fun x _ => x) (fun x' y' v => if y' =? y then border_of im fc bc bw x' y' v else v)) as (im2 & E2 & P2 & S2); [exact W1| |exact S1| |exists im2; split; [exact E2|]; split; [|done]].
    + unfold fits. int_lia.
    + intros x im2 Hx W2 D2 S2. assert (same_dim im im2) as D by (destruct D1, D2; split; congruence). cbn beta. destruct (border_px im im2 x y fc bc bw) as (im3 & E3 & P3 & S3); try done; [split; lia|]. exists im3. split; [done|]. split; [|done]. eapply painted_ext; [exact P3|]. intros x' y' v _. unfold at_. by destruct (x' =? x).
    + eapply painted_ext; [exact P2|]. intros x' y' v _. cbn beta. by destruct ((xb <=? x') && (x' <? xb + (xe - xb))), (y' =? y).
  - eapply painted_ext; [exact P|]. intros x y v [Hx Hy]. cbn beta. unfold framed, in_rect. fold (border_of im). destruct ((yb <=? y) && (y <? yb + (ye - yb))) eqn:E1, ((xb <=? x) && (x <? xb + (xe - xb))) eqn:E2, ((xx <=? x) && (x <? xx + xl) && (yy <=? y) && (y <? yy + yl)) eqn:E3; try done; lia.
Qed.

(** *** Bitmaps *)
Lemma land_pow2 v k : 0 <= k -> negb (Z.land v (2 ^ k) =? 0) = Z.testbit v k.
Proof.
  intros Hk. destruct (Z.testbit v k) eqn:E.
  - apply negb_true_iff, Z.eqb_neq. intros E2. assert (Z.testbit (Z.land v (2 ^ k)) k = false) as E3 by (rewrite E2; apply Z.bits_0). by rewrite Z.land_spec, E, Z.pow2_bits_true in E3 by done.
  - apply negb_false_iff, Z.eqb_eq. apply Z.bits_inj'. intros n Hn. rewrite Z.land_spec, Z.bits_0. destruct (decide (n = k)) as [->|Hne]; [by rewrite E|]. by rewrite Z.pow2_bits_false, andb_false_r by done.
Qed.
Lemma schar_bit b k : byte b -> 0 <= k < 8 -> Z.testbit (schar b) k = Z.testbit b k.
Proof. intros Hb Hk. rewrite <- (Z.mod_pow2_bits_low (schar b) 8 k) by lia. f_equal. by apply u8_schar. Qed.
(** The bit [i] of a byte from its left, [bmb <<= 1] done [i] times. *)
Lemma bmb_bit b i : byte b -> 0 <= i < 8 -> negb (Z.land (Z.shiftl (schar b) i) 0x80 =? 0) = Z.testbit b (7 - i).
Proof. intros Hb Hi. rewrite (land_pow2 _ 7) by lia. rewrite Z.shiftl_spec by lia. apply schar_bit; [done|lia]. Qed.

Lemma bits_spec im y xx b fidx bidx rw x0 : byte b -> 0 <= y < height im -> xx <= x0 -> INT_MIN <= x0 -> x0 + 8 - xx <= INT_MAX -> x0 + 8 <= INT_MAX -> forall n im1 x, (n <= 8)%nat -> x = x0 + (8 - Z.of_nat n) -> wf im1 -> same_dim im im1 ->
  exists x' im2, bits n x xx (y * width im) (Z.shiftl (schar b) (8 - Z.of_nat n)) fidx bidx rw im1 = Ret (x', im2)
    /\ painted im1 im2 (fun i j v => if (j =? y) && ((x <=? i) && (i <? x0 + 8)) && (i - xx <=? rw) then u8 (if Z.testbit b (7 - (i - x0)) then fidx else bidx) else v)
    /\ x' <= x0 + 8 /\ xx <= x' /\ INT_MIN <= x' /\ (x' = x0 + 8 \/ 0 <= x' /\ (width im <= x' \/ rw < x' - xx)).
Proof.
  intros Hb Hy Hxx M1 M2 M3. induction n as [|n IH]; intros im1 x Hn Ex W D.
  - exists x, im1. cbn [bits]. split; [done|]. split; [|lia]. eapply painted_ext; [by apply painted_refl|]. intros i j v _. destruct ((x <=? i) && (i <? x0 + 8)) eqn:E; [lia|]. by rewrite andb_false_r.
  - assert (8 - Z.of_nat (S n) + 1 = 8 - Z.of_nat n) as En by lia. cbn [bits]. rewrite Z.shiftl_shiftl, En by lia. rewrite (ck_Ret (x + 1)) by int_lia. cbn [obind]. rewrite (proj1 D). destruct (x <? 0) eqn:E0.
    + destruct (IH im1 (x + 1)) as (x' & im2 & E & P & R); [lia|lia|done|done|]. exists x', im2. split; [done|]. split; [|done]. eapply painted_ext; [exact P|]. intros i j v [Hi _]. cbn beta. replace (x + 1 <=? i) with (x <=? i) by (destruct (x <=? i) eqn:?, (x + 1 <=? i) eqn:?; lia). done.
    + destruct (width im <=? x) eqn:Ew; [|rewrite (ck_Ret (x - xx)) by int_lia; cbn [obind]; destruct (rw <? x - xx) eqn:Er].
      * exists x, im1. split; [done|]. split; [|lia]. eapply painted_ext; [by apply painted_refl|]. intros i j v [Hi _]. rewrite (proj1 D) in Hi. by rewrite (proj2 (Z.leb_gt x i)), andb_false_r by lia.
      * exists x, im1. split; [done|]. split; [|lia]. eapply painted_ext; [by apply painted_refl|]. intros i j v _. destruct ((j =? y) && ((x <=? i) && (i <? x0 + 8)) && (i - xx <=? rw)) eqn:E; [lia|done].
      * rewrite (Z.add_comm (y * width im)), bmb_bit by (done || lia). destruct (put_spec im im1 x y (if Z.testbit b (7 - (8 - Z.of_nat (S n))) then fidx else bidx) D W) as (im2 & E2 & P2); [split; lia|]. destruct (ck (x + y * width im)) as [p| |] eqn:Ep; [|done|done]. cbn [obind] in E2 |- *. rewrite E2. cbn [obind].
        destruct (IH im2 (x + 1)) as (x' & im3 & E & P & R); [lia|lia|apply P2|destruct P2 as (_ & [? ?] & _), D; split; congruence|]. exists x', im3. split; [done|]. split; [|done]. eapply painted_ext; [by eapply painted_trans|]. intros i j v _. unfold at_. cbn beta. replace (8 - Z.of_nat (S n)) with (x - x0) by lia. destruct (j =? y) eqn:Ej; [|by rewrite andb_false_r]. destruct (i =? x) eqn:Ei; cbn [andb].
        -- assert (i = x) as -> by lia. rewrite (proj2 (Z.leb_gt (x + 1) x)) by lia. cbn [andb]. assert ((x <=? x) && (x <? x0 + 8) && (x - xx <=? rw) = true) as -> by lia. done.
        -- replace (x + 1 <=? i) with (x <=? i) by (destruct (x <=? i) eqn:?, (x + 1 <=? i) eqn:?; lia). done.
Qed.
Definition bmp_bit (bmp : list Z) (k d : Z) : bool := Z.testbit (default 0 (bmp !! Z.to_nat (k + d / 8))) (7 - d mod 8).
Lemma bmp_bit_at bmp k ww b d : bmp !! Z.to_nat (k + ww) = Some b -> 8 * ww <= d < 8 * ww + 8 -> bmp_bit bmp k d = Z.testbit b (7 - (d - 8 * ww)).
Proof. intros Hb Hd. unfold bmp_bit. assert (d / 8 = ww) as Eq by (symmetry; apply (Z.div_unique d 8 ww (d - 8 * ww)); lia). rewrite (Z.mod_eq d 8), Eq, Hb by lia. done. Qed.

Section bitmap.
  Context (im : rmimage256) (xx bw fidx bidx rw : Z) (bmp : list Z).
  Context (Hbw : 0 <= bw) (Hxx : INT_MIN <= xx) (Hxe : xx + 8 * bw <= INT_MAX) (H8 : 8 * bw <= INT_MAX) (Hbmp : Forall byte bmp).

Lemma bits_stopped n x y b im1 : wf im1 -> same_dim im im1 -> 0 <= x -> xx <= x -> x - xx <= INT_MAX -> width im <= x \/ rw < x - xx -> bits (S n) x xx y b fidx bidx rw im1 = Ret (x, im1).
Proof.
  intros W [D _] Hx1 Hx2 Hx3 Hs. cbn [bits]. rewrite (proj2 (Z.ltb_ge x 0)) by lia. rewrite D. destruct (width im <=? x) eqn:E; [done|]. rewrite (ck_Ret (x - xx)) by int_lia. cbn [obind]. by rewrite (proj2 (Z.ltb_lt rw (x - xx))) by lia.
Qed.
Lemma bitmap_row_spec y k : 0 <= y < height im -> 0 <= k -> k + bw <= zlen bmp -> zlen bmp <= INT_MAX -> forall n ww x im1, 0 <= ww -> ww + Z.of_nat n = bw -> wf im1 -> same_dim im im1 -> xx <= x <= xx + 8 * ww -> x = xx + 8 * ww \/ 0 <= x /\ (width im <= x \/ rw < x - xx) ->
  exists im2, bitmap_row n ww k x xx (y * width im) bmp fidx bidx rw im1 = Ret im2
    /\ painted im1 im2 (fun i j v => if (j =? y) && ((xx + 8 * ww <=? i) && (i <? xx + 8 * bw)) && (i - xx <=? rw) then u8 (if bmp_bit bmp k (i - xx) then fidx else bidx) else v).
Proof.
  intros Hy Hk Hl Hm. induction n as [|n IH]; intros ww x im1 Hw En W D Hx Hs.
  - exists im1. cbn [bitmap_row]. split; [done|]. eapply painted_ext; [by apply painted_refl|]. intros i j v _. destruct ((xx + 8 * ww <=? i) && (i <? xx + 8 * bw)) eqn:E; [lia|]. by rewrite andb_false_r.
  - cbn [bitmap_row]. rewrite (ck_Ret (k + ww)) by int_lia. cbn [obind]. destruct (aget_lt bmp (k + ww)) as (b & -> & Hb); [lia|]. cbn [obind]. assert (byte b) as Bb by (by eapply Forall_lookup_1).
    assert (exists x' im2, bits 8 x xx (y * width im) (schar b) fidx bidx rw im1 = Ret (x', im2) /\ painted im1 im2 (fun i j v => if (j =? y) && ((xx + 8 * ww <=? i) && (i <? xx + 8 * (ww + 1))) && (i - xx <=? rw) then u8 (if bmp_bit bmp k (i - xx) then fidx else bidx) else v)
      /\ xx <= x' <= xx + 8 * (ww + 1) /\ (x' = xx + 8 * (ww + 1) \/ 0 <= x' /\ (width im <= x' \/ rw < x' - xx))) as (x' & im2 & E & P & Hx' & Hs').
    { destruct (decide (x = xx + 8 * ww)) as [->|Hne].
      - destruct (bits_spec im y xx b fidx bidx rw (xx + 8 * ww)) with (n := 8%nat) (im1 := im1) (x := xx + 8 * ww) as (x' & im2 & E & P & R); try done; try lia. exists x', im2. split; [done|]. split; [|lia]. eapply painted_ext; [exact P|]. intros i j v _. cbn beta. replace (xx + 8 * (ww + 1)) with (xx + 8 * ww + 8) by lia. destruct ((xx + 8 * ww <=? i) && (i <? xx + 8 * ww + 8)) eqn:Ei; [|by rewrite andb_false_r]. rewrite (bmp_bit_at bmp k ww b) by (done || lia). by replace (i - xx - 8 * ww) with (i - (xx + 8 * ww)) by lia.
      - destruct Hs as [?|[Hx0 Hs]]; [done|]. exists x, im1. rewrite bits_stopped by (done || lia). split; [done|]. split; [|lia]. eapply painted_ext; [by apply painted_refl|]. intros i j v [Hi _]. rewrite (proj1 D) in Hi. destruct ((j =? y) && ((xx + 8 * ww <=? i) && (i <? xx + 8 * (ww + 1))) && (i - xx <=? rw)) eqn:Ei; [lia|done]. }
    rewrite E. cbn [obind fst snd]. destruct (IH (ww + 1) x' im2) as (im3 & E3 & P3); [lia|lia|apply P|destruct P as (_ & [? ?] & _), D; split; congruence|done|done|]. exists im3. split; [done|]. eapply painted_ext; [by eapply painted_trans|]. intros i j v _. cbn beta. destruct (j =? y); cbn [andb]; [|done]. destruct (i - xx <=? rw); [|by rewrite !andb_false_r]. rewrite !andb_true_r.
    destruct ((xx + 8 * (ww + 1) <=? i) && (i <? xx + 8 * bw)) eqn:E1, ((xx + 8 * ww <=? i) && (i <? xx + 8 * (ww + 1))) eqn:E2, ((xx + 8 * ww <=? i) && (i <? xx + 8 * bw)) eqn:E4; try done; lia.
Qed.
Definition bitmapped (yb ye x y v : Z) : Z :=
  if (yb <=? y) && (y <? ye) && ((xx <=? x) && (x <? xx + 8 * bw)) && (x - xx <=? rw) then u8 (if bmp_bit bmp ((ye - 1 - y) * bw) (x - xx) then fidx else bidx) else v.
Lemma bitmap_rows_spec : zlen bmp <= INT_MAX -> forall n y im1, Z.of_nat n * bw <= zlen bmp -> fits y (Z.of_nat n) -> wf im1 -> same_dim im im1 ->
  exists im2, bitmap_rows n y xx bmp bw fidx bidx rw im1 = Ret im2 /\ painted im1 im2 (bitmapped y (y + Z.of_nat n)).
Proof.
  intros Hm. induction n as [|n IH]; intros y im1 Hn F W D.
  - exists im1. split; [done|]. eapply painted_ext; [by apply painted_refl|]. intros i j v _. unfold bitmapped. rewrite Z.add_0_r. destruct ((y <=? j) && (j <? y)) eqn:E; [lia|done].
  - cbn [bitmap_rows]. assert (fits (y + 1) (Z.of_nat n)) as F' by (unfold fits in *; lia). assert (y + Z.of_nat (S n) = y + 1 + Z.of_nat n) as Ee by lia. rewrite Ee. rewrite (ck_Ret (y + 1)) by (unfold fits in F; int_lia). cbn [obind]. destruct (y <? 0) eqn:E0.
    + destruct (IH (y + 1) im1) as (im2 & E & P); [nia|done|done|done|]. exists im2. split; [done|]. eapply painted_ext; [exact P|]. intros i j v [_ Hj]. unfold bitmapped. by replace (y + 1 <=? j) with (y <=? j) by (destruct (y <=? j) eqn:?, (y + 1 <=? j) eqn:?; lia).
    + rewrite (proj1 D), (proj2 D). destruct (height im <=? y) eqn:Eh.
      * exists im1. split; [done|]. eapply painted_ext; [by apply painted_refl|]. intros i j v [_ Hj]. rewrite (proj2 D) in Hj. unfold bitmapped. by rewrite (proj2 (Z.leb_gt y j)) by lia.
      * assert (ck (y * width im) = Ret (y * width im)) as -> by (rewrite <- (proj1 D); apply row_ck; [done|rewrite (proj2 D); lia]). cbn [obind]. rewrite (ck_Ret (Z.of_nat n * bw)) by (assert (0 <= Z.of_nat n * bw) by nia; int_lia). cbn [obind]. destruct (bitmap_row_spec y (Z.of_nat n * bw)) with (n := Z.to_nat bw) (ww := 0) (x := xx) (im1 := im1) as (im2 & E & P); try done; try lia. rewrite E. cbn [obind].
        destruct (IH (y + 1) im2) as (im3 & E3 & P3); [nia|done|apply P|destruct P as (_ & [? ?] & _), D; split; congruence|]. exists im3. split; [done|]. eapply painted_ext; [by eapply painted_trans|]. intros i j v _. cbn beta. unfold bitmapped. rewrite Z.mul_0_r, Z.add_0_r. destruct ((xx <=? i) && (i <? xx + 8 * bw)) eqn:Ei; [|by rewrite !andb_false_r]. destruct (i - xx <=? rw); [|by rewrite !andb_false_r]. rewrite !andb_true_r. destruct (j =? y) eqn:Ej.
        -- assert (j = y) as -> by lia. rewrite (proj2 (Z.leb_gt (y + 1) y)) by lia. cbn [andb]. assert ((y <=? y) && (y <? y + 1 + Z.of_nat n) = true) as -> by lia. by replace (y + 1 + Z.of_nat n - 1 - y) with (Z.of_nat n) by lia.
        -- by replace (y + 1 <=? j) with (y <=? j) by (destruct (y <=? j) eqn:?, (y + 1 <=? j) eqn:?; lia).
Qed.
End bitmap.
Lemma packed_spec im xx yy fidx bidx bmp bw h rw : wf im -> 0 <= bw -> 0 <= h -> INT_MIN <= xx -> xx + 8 * bw <= INT_MAX -> 8 * bw <= INT_MAX -> fits yy h -> Forall byte bmp -> h * bw <= zlen bmp <= INT_MAX ->
  exists im', img_packedBitmap im xx yy fidx bidx bmp bw h rw = Ret (1, im') /\ painted im im' (bitmapped xx bw fidx bidx rw bmp yy (yy + h)).
Proof.
  intros W Hbw Hh Hx Hxe H8 F Hb [Hl1 Hl2]. unfold img_packedBitmap. destruct (bitmap_rows_spec im xx bw fidx bidx rw bmp Hbw Hx Hxe H8 Hb Hl2 (Z.to_nat h) yy im) as (im' & E & P); try done; [by rewrite Z2Nat.id|by rewrite Z2Nat.id|]. rewrite E. cbn [obind]. exists im'. split; [done|]. by rewrite Z2Nat.id in P by done.
Qed.

(** *** Text *)
Lemma clip_neg a n : (a <? 0) || (n <=? a) = negb ((0 <=? a) && (a <? n)).
Proof. destruct ((a <? 0) || (n <=? a)) eqn:E1, ((0 <=? a) && (a <? n)) eqn:E2; try done; lia. Qed.
Lemma for_up_ext {A} (f g : Z -> Z -> A -> outcome A) n : (forall i c a, f i c a = g i c a) -> forall i c a, for_up n i c f a = for_up n i c g a.
Proof. intros H. induction n as [|n IH]; intros i c a; [done|]. cbn [for_up]. rewrite H. destruct (g i c a); cbn [obind]; [|done|done]. destruct (ck (i + 1)); cbn [obind]; [|done|done]. apply IH. Qed.
(** A dot is a square that is filled. *)
Lemma dot_spec im x y scale c : wf im -> fits x scale -> fits y scale -> exists im', dot x y scale c im = Ret im' /\ painted im im' (fun i j v => if in_rect x y scale scale i j then u8 c else v).
Proof.
  intros W F1 F2. unfold dot. edestruct (sweep_spec (fun _ => True) (fun _ j => j) (fun i j v => if (x <=? i) && (i <? x + scale) then u8 c else v)) as (im' & E & P & _); [exact W|exact F2|done| |exists im'; split; [exact E|]].
  - intros j im1 Hj W1 D1 _. cbn beta. rewrite clip_neg. destruct ((0 <=? j) && (j <? height im1)) eqn:Ej; cbn [negb].
    + edestruct (row_spec (fun _ => True) x scale j im1 (fun i _ im => let* r := ck (j * width im) in let* p := ck (i + r) in set_px im p c) (fun _ _ _ => u8 c)) as (im2 & E2 & P2 & _); [done|lia|done|done| |exists im2; split; [|split; [|done]]].
      * intros i im2 Hi _ W2 D2 _. pose proof (inside_dim _ _ _ _ Hi D2) as Hi2. destruct (put_spec im1 im2 i j c D2 W2 Hi) as (im3 & E3 & P3). exists im3. split; [|done]. rewrite row_ck by (done || apply Hi2). cbn [obind]. by rewrite (proj1 D2).
      * rewrite <- E2. apply for_up_ext. intros i k a. rewrite clip_neg. by destruct ((0 <=? i) && (i <? width a)).
      * eapply painted_ext; [exact P2|]. intros i k v _. cbn beta. by destruct (k =? j).
    + exists im1. split; [done|]. split; [|done]. eapply painted_ext; [by apply painted_refl|]. intros i k v [_ Hk]. by rewrite (proj2 (Z.eqb_neq k j)) by lia.
  - eapply painted_ext; [exact P|]. intros i j v _. cbn beta. unfold in_rect. by destruct (x <=? i), (i <? x + scale), (y <=? j), (j <? y + scale).
Qed.
Lemma shl1_bit v k : 0 < k < 32 -> Z.testbit (shl1 v) k = Z.testbit v (k - 1).
Proof.
  intros Hk. assert (forall w, Z.testbit (to_int w) k = Z.testbit w k) as T.
  { intros w. unfold to_int, u32. rewrite <- (Z.mod_pow2_bits_low w 32 k) by lia. case_match; [done|]. rewrite <- (Z.mod_pow2_bits_low (_ - _) 32 k) by lia. f_equal. rewrite <- (Z.mod_add _ 1) by lia. rewrite Z.mul_1_l, Z.sub_add. by rewrite Zmod_mod. }
  unfold shl1. rewrite T. unfold u32. rewrite Z.mod_pow2_bits_low by lia. rewrite <- (Z.mul_comm v 2). change 2 with (2 ^ 1). rewrite Z.mul_pow2_bits by lia. done.
Qed.
Lemma dots_spec y m fidx bidx scale : m < 32 -> 0 <= scale -> fits y scale -> forall n x v im, Z.of_nat n <= m + 1 -> INT_MIN <= x -> x + Z.of_nat n * scale <= INT_MAX -> wf im ->
  exists im', dots n x y v (2 ^ m) fidx bidx scale im = Ret (x + Z.of_nat n * scale, im') /\ painted im im' (fun i j p => if in_rect x y (Z.of_nat n * scale) scale i j then u8 (if Z.testbit v (m - (i - x) / scale) then fidx else bidx) else p).
Proof.
  intros Hm Hs F2. induction n as [|n IH]; intros x v im Hn M1 M2 W.
  - exists im. rewrite Z.mul_0_l, Z.add_0_r. split; [done|]. eapply painted_ext; [by apply painted_refl|]. intros i j p _. destruct (in_rect x y 0 scale i j) eqn:E; [unfold in_rect in E; lia|done].
  - cbn [dots]. rewrite land_pow2 by lia. assert (Z.of_nat (S n) * scale = scale + Z.of_nat n * scale) as Es by lia. assert (0 <= Z.of_nat n * scale) by nia. rewrite Es in *. destruct (dot_spec im x y scale (if Z.testbit v m then fidx else bidx) W ltac:(unfold fits; lia) F2) as (im1 & E1 & P1). rewrite E1. cbn [obind]. rewrite (ck_Ret (x + scale)) by int_lia. cbn [obind].
    destruct (IH (x + scale) (shl1 v) im1) as (im2 & E2 & P2); [lia|lia|lia|apply P1|]. exists im2. split; [by rewrite E2, Z.add_assoc|]. eapply painted_ext; [by eapply painted_trans|]. intros i j p _. cbn beta. unfold in_rect. destruct ((x + scale <=? i) && (i <? x + scale + Z.of_nat n * scale) && (y <=? j) && (j <? y + scale)) eqn:B1.
    + assert (0 < scale) as Hp by (destruct (decide (scale = 0)) as [->|]; [rewrite Z.mul_0_r in B1; lia|lia]). assert ((x <=? i) && (i <? x + (scale + Z.of_nat n * scale)) && (y <=? j) && (j <? y + scale) = true) as -> by lia. assert ((i - x) / scale = (i - (x + scale)) / scale + 1) as Ed by (rewrite <- Z.div_add by lia; f_equal; lia). assert (0 <= (i - (x + scale)) / scale) by (apply Z.div_pos; lia). assert ((i - (x + scale)) / scale < Z.of_nat n) by (apply Z.div_lt_upper_bound; [lia|rewrite (Z.mul_comm scale); lia]). rewrite shl1_bit by lia. rewrite Ed. by rewrite (Z.sub_add_distr m).
    + destruct ((x <=? i) && (i <? x + scale) && (y <=? j) && (j <? y + scale)) eqn:B2.
      * assert ((x <=? i) && (i <? x + (scale + Z.of_nat n * scale)) && (y <=? j) && (j <? y + scale) = true) as -> by lia. rewrite Z.div_small by lia. by rewrite Z.sub_0_r.
      * assert ((x <=? i) && (i <? x + (scale + Z.of_nat n * scale)) && (y <=? j) && (j <? y + scale) = false) as -> by lia. done.
Qed.

Lemma join_bit w c p : byte c -> 0 <= p -> Z.testbit (w * 256 + c) p = if p <? 8 then Z.testbit c p else Z.testbit w (p - 8).
Proof.
  unfold byte. intros Hc Hp. destruct (p <? 8) eqn:E.
  - rewrite <- (Z.mod_pow2_bits_low (w * 256 + c) 8 p) by lia. change (2 ^ 8) with 256. rewrite Z.add_comm, Z.mod_add, Z.mod_small by lia. done.
  - assert ((w * 256 + c) / 2 ^ 8 = w) as <- by (change (2 ^ 8) with 256; rewrite Z.add_comm, Z.div_add, Z.div_small by lia; lia). rewrite Z.div_pow2_bits by lia. assert ((w * 256 + c) / 2 ^ 8 = w) as -> by (change (2 ^ 8) with 256; rewrite Z.add_comm, Z.div_add, Z.div_small by lia; lia). f_equal. lia.
Qed.
Definition fw (full : bool) : Z := if full then 24 else 12.
Definition ff (full : bool) : Z := if full then 3 else 2.
Lemma row_bits (full : bool) pat k a b v d : 0 <= k -> Forall byte pat -> pat !! Z.to_nat k = Some a -> pat !! Z.to_nat (k + 1) = Some b ->
  (if full then exists c, pat !! Z.to_nat (k + 2) = Some c /\ v = a * 65536 + b * 256 + c else v = a * 256 + b) -> 0 <= d < fw full -> Z.testbit v ((if full then 23 else 15) - d) = bmp_bit pat k d.
Proof.
  intros Hk HF Ha Hb Hv Hd. assert (byte a) by (by eapply Forall_lookup_1). assert (byte b) by (by eapply Forall_lookup_1). destruct full; cbn [fw] in Hd.
  - destruct Hv as (c & Hc & ->). assert (byte c) by (by eapply Forall_lookup_1). replace (a * 65536 + b * 256 + c) with ((a * 256 + b) * 256 + c) by lia. rewrite !join_bit by (done || lia). destruct (23 - d <? 8) eqn:E1; [rewrite (bmp_bit_at pat k 2 c) by (done || lia); f_equal; lia|]. rewrite !join_bit by (done || lia). destruct (23 - d - 8 <? 8) eqn:E2; [rewrite (bmp_bit_at pat k 1 b) by (done || lia); f_equal; lia|]. rewrite (bmp_bit_at pat k 0 a) by (rewrite ?Z.add_0_r; done || lia). f_equal. lia.
  - subst v. rewrite !join_bit by (done || lia). destruct (15 - d <? 8) eqn:E1; [rewrite (bmp_bit_at pat k 1 b) by (done || lia); f_equal; lia|]. rewrite (bmp_bit_at pat k 0 a) by (rewrite ?Z.add_0_r; done || lia). f_equal. lia.
Qed.
(** A character: the bits of its pattern, each [scale] pixels wide and high. *)
Definition written (full : bool) (pat : list Z) (xw y n yh fidx bidx scale i j p : Z) : Z :=
  if in_rect xw y (fw full * scale) (n * scale) i j then u8 (if bmp_bit pat ((yh + (j - y) / scale) * ff full) ((i - xw) / scale) then fidx else bidx) else p.
Lemma written_step (full : bool) pat xw y n yh fidx bidx scale i j p a b v : 0 <= scale -> 0 <= n -> 0 <= yh * ff full -> Forall byte pat -> pat !! Z.to_nat (yh * ff full) = Some a -> pat !! Z.to_nat (yh * ff full + 1) = Some b -> (if full then exists c, pat !! Z.to_nat (yh * ff full + 2) = Some c /\ v = a * 65536 + b * 256 + c else v = a * 256 + b) ->
  written full pat xw (y + scale) n (yh + 1) fidx bidx scale i j (if in_rect xw y (fw full * scale) scale i j then u8 (if Z.testbit v ((if full then 23 else 15) - (i - xw) / scale) then fidx else bidx) else p) = written full pat xw y (n + 1) yh fidx bidx scale i j p.
Proof.
  intros Hs Hn Hk HF Ha Hb Hv. assert (0 <= n * scale) by nia. unfold written. rewrite (Z.mul_add_distr_r n 1 scale), Z.mul_1_l. unfold in_rect. destruct ((xw <=? i) && (i <? xw + fw full * scale)) eqn:Ei; cbn [andb]; [|done]. assert (0 < scale) as Hp by (destruct (decide (scale = 0)) as [->|]; [rewrite Z.mul_0_r in Ei; lia|lia]).
  destruct ((y + scale <=? j) && (j <? y + scale + n * scale)) eqn:E1.
  - assert ((y <=? j) && (j <? y + (n * scale + scale)) = true) as -> by lia. assert ((j - y) / scale = (j - (y + scale)) / scale + 1) as -> by (rewrite <- Z.div_add by lia; f_equal; lia). by rewrite (Z.add_comm (_ / scale) 1), (Z.add_assoc yh).
  - destruct ((y <=? j) && (j <? y + scale)) eqn:E2.
    + assert ((y <=? j) && (j <? y + (n * scale + scale)) = true) as -> by lia. rewrite (Z.div_small (j - y)) by lia. rewrite Z.add_0_r. rewrite (row_bits full pat (yh * ff full) a b v) by (done || (split; [apply Z.div_pos; lia|apply Z.div_lt_upper_bound; [lia|rewrite (Z.mul_comm scale); lia]])). done.
    + assert ((y <=? j) && (j <? y + (n * scale + scale)) = false) as -> by lia. done.
Qed.
Lemma glyph_spec full pat xw fidx bidx scale : zlen pat = 72 -> Forall byte pat -> 0 <= scale -> INT_MIN <= xw -> xw + fw full * scale <= INT_MAX -> forall n yh y x im, 0 <= yh -> yh + Z.of_nat n <= 24 -> INT_MIN <= y -> y + Z.of_nat n * scale <= INT_MAX -> wf im ->
  exists im', glyph n yh xw y x full pat fidx bidx scale im = Ret (if (n =? 0)%nat then x else xw + fw full * scale, im') /\ painted im im' (written full pat xw y (Z.of_nat n) yh fidx bidx scale).
Proof.
  intros L HF Hs M1 M2. induction n as [|n IH]; intros yh y x im Hy Hn Y1 Y2 W.
  - exists im. split; [done|]. eapply painted_ext; [by apply painted_refl|]. intros i j p _. unfold written. destruct (in_rect xw y (fw full * scale) (Z.of_nat 0 * scale) i j) eqn:E; [unfold in_rect in E; change (Z.of_nat 0) with 0 in E; lia|done].
  - cbn [glyph]. fold (ff full). assert (0 <= yh * ff full /\ yh * ff full + ff full <= 72) as Hk by (unfold ff; destruct full; lia). destruct (aget_lt pat (yh * ff full)) as (a & -> & Ha); [unfold ff in *; destruct full; lia|]. destruct (aget_lt pat (yh * ff full + 1)) as (b & -> & Hb); [unfold ff in *; destruct full; lia|]. cbn [obind].
    assert (Z.of_nat (S n) * scale = scale + Z.of_nat n * scale) as Es by lia. assert (0 <= Z.of_nat n * scale) by nia.
    assert (exists v im1, (let* v := (if full then let* c := aget pat (yh * ff full + 2) in Ret (a * 65536 + b * 256 + c) else Ret (a * 256 + b)) in dots (if full then 24 else 12) xw y v (if full then 0x800000 else 0x8000) fidx bidx scale im) = Ret (xw + fw full * scale, im1) /\ (if full then exists c, pat !! Z.to_nat (yh * ff full + 2) = Some c /\ v = a * 65536 + b * 256 + c else v = a * 256 + b)
      /\ painted im im1 (fun i j p => if in_rect xw y (fw full * scale) scale i j then u8 (if Z.testbit v ((if full then 23 else 15) - (i - xw) / scale) then fidx else bidx) else p)) as (v & im1 & E & Hv & P).
    { destruct full; cbn [fw ff] in *.
      - destruct (aget_lt pat (yh * 3 + 2)) as (c & -> & Hc); [lia|]. cbn [obind]. destruct (dots_spec y 23 fidx bidx scale ltac:(lia) Hs ltac:(unfold fits; lia) 24 xw (a * 65536 + b * 256 + c) im) as (im1 & E & P); try done; try lia. exists (a * 65536 + b * 256 + c), im1. split; [exact E|]. split; [by exists c|exact P].
      - cbn [obind]. destruct (dots_spec y 15 fidx bidx scale ltac:(lia) Hs ltac:(unfold fits; lia) 12 xw (a * 256 + b) im) as (im1 & E & P); try done; try lia. exists (a * 256 + b), im1. split; [exact E|]. split; [done|exact P]. }
    destruct (if full then let* c := aget pat (yh * ff full + 2) in Ret (a * 65536 + b * 256 + c) else Ret (a * 256 + b)) as [v'| |]; cbn [obind] in E |- *; [|done|done]. rewrite E. cbn [obind fst snd]. rewrite (ck_Ret (y + scale)) by int_lia. cbn [obind]. destruct (IH (yh + 1) (y + scale) (xw + fw full * scale) im1) as (im2 & E2 & P2); [lia|lia|lia|lia|apply P|]. exists im2. split; [rewrite E2; by destruct n|]. eapply painted_ext; [by eapply painted_trans|]. intros i j p _. cbn beta. rewrite (written_step full pat xw y (Z.of_nat n) yh fidx bidx scale i j p a b v) by (done || lia). do 1 f_equal. lia.
Qed.
End RD.
