(* ===== verification/RmSpec.v ===== *)
(** * RmSpec.v: images as pictures

    Texts, palettes and new images; then every function of an image as an operation on
    pictures, and the refinement for any sequence of them.  At the end what the functions do
    not do.  An image that is pasted is another one than the one that is drawn on. *)

From Stdlib Require Import ZifyBool.
From S2P Require Import Prelude Posix Eten Rmimage RmDraw.

Module RS.
Import ET RI RD.

(** The fonts give bytes. *)
Definition font_ok (f : option font) : Prop := match f with Some f => Forall byte (fdata f) | None => True end.
Definition et_ok (e : eten) : Prop := zlen (pat e) = 72 /\ Forall byte (pat e) /\ font_ok (stdfont e) /\ font_ok (ascfont e) /\ font_ok (spcfont e) /\ font_ok (spcfsupp e).
Lemma fetch_ok f off n p : font_ok f -> zlen p = 72 -> Forall byte p -> n <= 72 -> font_ok (fst (fetch f off n p)) /\ zlen (snd (fetch f off n p)) = 72 /\ Forall byte (snd (fetch f off n p)).
Proof.
  intros Hf Hl Hp Hn. destruct f as [f|]; [|done]. cbn [fetch fst snd font_ok fdata]. set (a := if off <? 0 then fpos f else off). assert (Forall byte (slice (fdata f) a n)) as Hs by (unfold slice; by apply Forall_take, Forall_drop). assert (length (slice (fdata f) a n) <= 72)%nat as Hle by (unfold slice; rewrite length_take; lia). split; [done|]. split.
  - unfold zlen in *. rewrite length_app, length_drop. lia.
  - apply Forall_app. split; [done|by apply Forall_drop].
Qed.
Lemma half_ok w e : et_ok e -> et_ok (ET_half_font24 w e).
Proof. intros (H1 & H2 & H3 & H4 & H5 & H6). unfold ET_half_font24. destruct (fetch_ok (ascfont e) (48 * w) 48 (pat e) H4 H1 H2 ltac:(lia)) as (F1 & F2 & F3). destruct (fetch _ _ _ _) as [f p]. cbn in *. by split_and!. Qed.
Lemma full_ok h l e : et_ok e -> et_ok (ET_full_font24 h l e).
Proof.
  intros (H1 & H2 & H3 & H4 & H5 & H6). unfold ET_full_font24.
  case_match; [|case_match]; [destruct (fetch_ok (spcfont e) (72 * chcode h l) 72 (pat e) H5 H1 H2 ltac:(lia)) as (F1 & F2 & F3)|destruct (fetch_ok (spcfsupp e) (72 * chcode h l) 72 (pat e) H6 H1 H2 ltac:(lia)) as (F1 & F2 & F3)|destruct (fetch_ok (stdfont e) (72 * chcode h l) 72 (pat e) H3 H1 H2 ltac:(lia)) as (F1 & F2 & F3)]; destruct (fetch _ _ _ _) as [f p]; cbn in *; by split_and!.
Qed.

(** The characters of a text: where each begins, its width and its pattern. *)
Fixpoint layout (s : list Z) (x scale space : Z) (e : eten) : list (Z * bool * list Z) * eten :=
  match s with
  | [] => ([], e)
  | word :: s' =>
      match s' with
      | lookahead :: s'' =>
          if isbig5 word lookahead then let e := ET_full_font24 word lookahead e in let '(l, e') := layout s'' (x + 24 * scale + space) scale space e in ((x, true, pat e) :: l, e')
          else let e := ET_half_font24 word e in let '(l, e') := layout s' (x + 12 * scale + space) scale space e in ((x, false, pat e) :: l, e')
      | [] => let e := ET_half_font24 word e in ([(x, false, pat e)], e)
      end
  end.
Definition texted (l : list (Z * bool * list Z)) (yy fidx bidx scale i j p : Z) : Z := fold_left (fun p '(x, full, pat) => written full pat x yy 24 0 fidx bidx scale i j p) l p.
(** The end of the last character. *)
Definition text_end (rc scale : Z) (l : list (Z * bool * list Z)) : Z := fold_left (fun _ '(x, full, _) => x + fw full * scale) l rc.

Section text.
  Context (yy fidx bidx scale space : Z) (Hs : 0 <= scale) (Hp : 0 <= space) (Hy1 : INT_MIN <= yy) (Hy2 : yy + 24 * scale <= INT_MAX).
Lemma char_spec full x e im : et_ok e -> wf im -> INT_MIN <= x -> x + fw full * scale + space <= INT_MAX ->
  exists im', glyph 24 0 x yy x full (pat e) fidx bidx scale im = Ret (x + fw full * scale, im') /\ painted im im' (written full (pat e) x yy 24 0 fidx bidx scale).
Proof. intros (H1 & H2 & _) W M1 M2. apply (glyph_spec full (pat e) x fidx bidx scale H1 H2 Hs M1); try done; lia. Qed.
Lemma text_loop_spec : forall n s x rc e im, (length s <= n)%nat -> et_ok e -> wf im -> INT_MIN <= x -> x + (24 * scale + space) * zlen s <= INT_MAX ->
  exists im', text_loop s x yy rc fidx bidx scale space e im = Ret (text_end rc scale (fst (layout s x scale space e)), snd (layout s x scale space e), im') /\ painted im im' (texted (fst (layout s x scale space e)) yy fidx bidx scale).
Proof.
  induction n as [|n IH]; intros s x rc e im Hn He W M1 M2; [destruct s; [by exists im|cbn in Hn; lia]|]. destruct s as [|word s']; [by exists im|].
  assert (forall full e s, (length s <= n)%nat -> (length s < length (word :: s'))%nat -> et_ok e -> exists im',
    (let* r := glyph 24 0 x yy x full (pat e) fidx bidx scale im in let* x' := ck (fst r + space) in text_loop s x' yy (fst r) fidx bidx scale space e (snd r)) = Ret (text_end (x + fw full * scale) scale (fst (layout s (x + fw full * scale + space) scale space e)), snd (layout s (x + fw full * scale + space) scale space e), im')
    /\ painted im im' (texted ((x, full, pat e) :: fst (layout s (x + fw full * scale + space) scale space e)) yy fidx bidx scale)) as Hdraw.
  { intros full e1 s Hl1 Hl2 He1. assert (fw full <= 24 /\ 0 <= fw full) as [Hf1 Hf2] by (by destruct full). assert (fw full * scale <= 24 * scale /\ 0 <= fw full * scale) by nia. assert ((24 * scale + space) * zlen s <= (24 * scale + space) * (zlen (word :: s') - 1)) by (unfold zlen; nia). destruct (char_spec full x e1 im He1 W M1) as (im1 & E1 & P1); [unfold zlen in *; nia|]. rewrite E1. cbn [obind fst snd]. rewrite (ck_Ret (x + fw full * scale + space)) by (unfold zlen in *; nia || int_lia). cbn [obind].
    destruct (IH s (x + fw full * scale + space) (x + fw full * scale) e1 im1) as (im2 & E2 & P2); [done|done|apply P1|lia|lia|]. exists im2. split; [exact E2|]. eapply painted_ext; [by eapply painted_trans|]. done. }
  cbn [text_loop layout]. destruct s' as [|lookahead s''].
  - destruct (Hdraw false (ET_half_font24 word e) []) as (im' & E & P); [cbn; lia|cbn; lia|by apply half_ok|]. exists im'. split; [exact E|exact P].
  - destruct (isbig5 word lookahead).
    + destruct (Hdraw true (ET_full_font24 word lookahead e) s'') as (im' & E & P); [cbn in *; lia|cbn; lia|by apply full_ok|]. exists im'. cbn [fw] in *. destruct (layout s'' _ _ _ _) as [l e']. by split.
    + destruct (Hdraw false (ET_half_font24 word e) (lookahead :: s'')) as (im' & E & P); [cbn in *; lia|cbn; lia|by apply half_ok|]. exists im'. cbn [fw] in *. destruct (layout (lookahead :: s'') _ _ _ _) as [l e']. by split.
Qed.
End text.

(** ** Palettes and new images *)

(** [im] is a picture of [w] by [h] pixels with the colours [pal]. *)
Record picture := mk_pic { pal : list Z; px : Z -> Z -> Z }.
Definition shows (w h : Z) (im : rmimage256) (p : picture) : Prop :=
  wf im /\ width im = w /\ height im = h /\ slice (img im) 0 8 = header w h (w * h + 1032) /\ slice (img im) 8 1024 = pal p /\ forall x y, inside im x y -> pixel im x y = px p x y.
Lemma slice_take_prefix (l : list Z) off n m : 0 <= off -> 0 <= n -> off + n <= m -> slice (take (Z.to_nat m) l) off n = slice l off n.
Proof. intros H1 H2 H3. apply list_eq. intros i. destruct (Z.lt_ge_cases (Z.of_nat i) n); [rewrite !lookup_slice, lookup_take_lt by lia; done|by rewrite !lookup_slice_ge by lia]. Qed.
Lemma shows_painted w h im p im' F px' : shows w h im p -> painted im im' F -> (forall x y, inside im x y -> px' x y = F x y (px p x y)) -> shows w h im' (mk_pic (pal p) px').
Proof.
  intros (_ & <- & <- & S3 & S4 & S5) (P1 & [D1 D2] & P3 & P4) HF. split; [done|]. split; [done|]. split; [done|]. rewrite <- (slice_take_prefix (img im') 0 8 IMAGE_OFFSET), P3, slice_take_prefix by (done || lia). split; [done|]. cbn [pal px]. rewrite <- (slice_take_prefix (img im') 8 1024 IMAGE_OFFSET), P3, slice_take_prefix by (done || lia). split; [done|]. intros x y Hi. assert (inside im x y) as Hi' by (unfold inside in *; congruence). rewrite HF, P4 by done. by rewrite S5.
Qed.

(** [b] at [off] of a palette. *)
Definition patch (l : list Z) (off : Z) (b : list Z) : list Z := take (Z.to_nat off) l ++ b ++ drop (Z.to_nat (off + zlen b)) l.
Lemma blit_bytes l off b l' : Forall byte l -> Forall byte b -> blit l off b = Ret l' -> Forall byte l'.
Proof. intros Hl Hb E. unfold blit in E. case_match; [|done]. injection E as <-. apply Forall_app. split; [by apply Forall_take|]. apply Forall_app. split; [done|by apply Forall_drop]. Qed.
Lemma copy_spec w h im p off b : shows w h im p -> 0 <= off -> off + zlen b <= 1024 -> Forall byte b -> exists im', copy_to im (PALETTE_OFFSET + off) b = Ret im' /\ shows w h im' (mk_pic (patch (pal p) off b) (px p)).
Proof.
  intros (W & Dw & Dh & S3 & S4 & S5) Ho Hl Hb. pose proof W as (W1 & W2 & W3 & W4 & W5 & W6). assert (0 <= width im * height im) by nia. unfold copy_to, PALETTE_OFFSET, IMAGE_OFFSET in *. destruct (blit_Ret (img im) (8 + off) b) as (l & E & L1 & L2 & L3); [lia|lia|]. rewrite E. cbn [obind]. eexists. split; [done|]. unfold zlen in *.
  assert (Forall byte l) as Hbl by (eapply blit_bytes; [exact W6|exact Hb|exact E]).
  split; [unfold wf, IMAGE_OFFSET, zlen; cbn; split_and!; try done; lia|]. cbn [img set_img width height pal px]. split; [done|]. split; [done|]. split; [|split].
  - rewrite <- S3. apply list_eq. intros i. destruct (Z.lt_ge_cases (Z.of_nat i) 8); [rewrite !lookup_slice by lia; apply L3; lia|by rewrite !lookup_slice_ge by lia].
  - rewrite <- S4. assert (length (slice (img im) 8 1024) = 1024%nat) as Ls by (unfold slice; rewrite length_take, length_drop; lia). unfold patch. apply list_eq. intros i. destruct (Z.lt_ge_cases (Z.of_nat i) 1024) as [Hi|Hi].
    + rewrite lookup_slice by lia. destruct (Z.lt_ge_cases (Z.of_nat i) off) as [H1|H1]; [rewrite L3, lookup_app_l, lookup_take_lt, lookup_slice by (rewrite ?length_take; lia); done|]. rewrite lookup_app_r, length_take by (rewrite length_take; lia). replace (Z.to_nat off `min` length (slice (img im) 8 1024))%nat with (Z.to_nat off) by lia. destruct (Z.lt_ge_cases (Z.of_nat i) (off + zlen b)) as [H2|H2]; unfold zlen in H2.
      * rewrite lookup_app_l by lia. rewrite <- L2 at 1. rewrite lookup_slice by lia. f_equal. lia.
      * rewrite L3 by lia. rewrite lookup_app_r, lookup_drop by lia. rewrite lookup_slice by (unfold zlen; lia). f_equal. unfold zlen. lia.
    + rewrite lookup_slice_ge by done. symmetry. apply lookup_ge_None. rewrite !length_app, length_take, length_drop, Ls. unfold zlen. lia.
  - intros x y Hi. rewrite <- S5 by done. unfold pixel. cbn [img width set_img]. rewrite L3; [done|]. pose proof (pos_range im x y W Hi). unfold IMAGE_OFFSET. lia.
Qed.
Lemma entry_spec w h im p entry b : shows w h im p -> zlen b = 4 -> Forall byte b ->
  exists im', set_entry im entry b = Ret im' /\ shows w h im' (mk_pic (if (0 <=? entry) && (entry <=? 255) then patch (pal p) (entry * 4) b else pal p) (px p)).
Proof. intros S Hl Hb. unfold set_entry. destruct ((0 <=? entry) && (entry <=? 255)) eqn:E; [apply copy_spec; try done; lia|]. exists im. by destruct p. Qed.
Lemma u8_byte z : byte (u8 z).
Proof. unfold byte, u8. apply Z.mod_pos_bound. lia. Qed.
Lemma clamp_byte z : byte (clamp z).
Proof. unfold byte, clamp. repeat case_match; lia. Qed.
Lemma patch_all l b : zlen b = 1024 -> zlen l = 1024 -> patch l 0 b = b.
Proof. intros H1 H2. unfold patch. rewrite Z.add_0_l. change (Z.to_nat 0) with O. rewrite take_0, drop_ge by (unfold zlen in *; lia). by rewrite app_nil_r. Qed.

Lemma header_bytes w h s : zlen (header w h s) = 8 /\ Forall byte (header w h s).
Proof.
  split; [done|]. assert (forall z, byte (Z.land z 0xff)) as B0. { intros z. unfold byte. change 255 with (Z.ones 8). rewrite Z.land_ones by lia. apply Z.mod_pos_bound. lia. }
  assert (forall z m k, 0 <= k -> m = Z.shiftl 0xff k -> byte (Z.shiftr (Z.land z m) k)) as B1. { intros z m k Hk ->. rewrite Z.shiftr_land, Z.shiftr_shiftl_l, Z.sub_diag by lia. apply B0. }
  unfold header. do 8 (apply Forall_cons; split; [lazymatch goal with |- byte (Z.shiftr _ _) => apply B1; [lia|reflexivity] | |- byte (Z.land _ _) => apply B0 | _ => unfold byte; lia end|]). apply Forall_nil_2.
Qed.
Lemma split_16 v : 0 <= v < 65536 -> Z.lor (Z.shiftl (Z.shiftr (Z.land v 0xff00) 8) 8) (Z.land v 0xff) = v.
Proof.
  intros Hv. apply Z.bits_inj'. intros n Hn. rewrite Z.lor_spec, Z.land_spec, Z.shiftl_spec by lia. change 0xff00 with (Z.shiftl (Z.ones 8) 8). change 0xff with (Z.ones 8). destruct (Z.lt_ge_cases n 8) as [H|H].
  - rewrite (Z.testbit_neg_r _ (n - 8)) by lia. rewrite (Z.ones_spec_low 8 n) by lia. by rewrite andb_true_r.
  - rewrite (Z.ones_spec_high 8 n), andb_false_r, orb_false_r by lia. rewrite Z.shiftr_spec, Z.sub_add, Z.land_spec, Z.shiftl_spec by lia. destruct (Z.lt_ge_cases n 16) as [H1|H1]; [by rewrite (Z.ones_spec_low 8 (n - 8)), andb_true_r by lia|]. rewrite (Z.ones_spec_high 8 (n - 8)), andb_false_r by lia. symmetry. destruct (decide (v = 0)) as [->|Hne]; [apply Z.bits_0|]. apply Z.bits_above_log2; [lia|]. assert (Z.log2 v < 16) by (apply Z.log2_lt_pow2; lia). lia.
Qed.
Lemma bytes_all l n : zlen l = n -> bytes_of l 0 n = Ret l.
Proof. intros <-. unfold bytes_of. rewrite Z.add_0_l, !Z.leb_refl. cbn [andb]. by rewrite slice_all_eq. Qed.
Section fresh.
  Context (palette : list Z) (mem : Z -> bool) (Hpal : zlen palette = 1024) (Hbytes : Forall byte palette).
Lemma new_spec w h : 0 <= w -> 0 <= h -> w * h + 1032 <= INT_MAX -> mem (w * h + 1032) = true -> exists im, new_rmimage256 palette mem w h = Ret (Some im) /\ size im = w * h + 1032 /\ shows w h im (mk_pic palette (fun _ _ => 0)).
Proof.
  intros Hw Hh Hm Hmem. unfold new_rmimage256. assert (0 <= w * h) by nia. rewrite (ck_Ret (w * h)) by int_lia. cbn [obind]. rewrite (ck_Ret (w * h + 1032)) by int_lia. cbn [obind]. rewrite Hmem. assert ((w * h + 1032 <? 0) || negb true = false) as -> by (cbn [negb]; lia). destruct (header_bytes w h (w * h + 1032)) as [H8 Hhb]. set (l0 := replicate (Z.to_nat (w * h + 1032)) 0). assert (zlen l0 = w * h + 1032) as L0 by (unfold zlen, l0; rewrite length_replicate; lia).
  destruct (blit_Ret l0 0 (header w h (w * h + 1032))) as (l1 & E1 & L1 & L2 & L3); [lia|lia|]. rewrite E1. cbn [obind]. rewrite bytes_all by done. cbn [obind]. set (im0 := mk_img l1 w h (w * h + 1032)).
  assert (forall i, 8 <= Z.of_nat i -> Z.of_nat i < w * h + 1032 -> l1 !! i = Some 0) as Z0. { intros i Hi1 Hi2. rewrite L3 by lia. unfold l0. apply lookup_replicate_2. lia. }
  assert (shows w h im0 (mk_pic (replicate 1024 0) (fun _ _ => 0))) as S0.
  { split.
    - unfold wf, im0, IMAGE_OFFSET. cbn [img width height size]. split_and!; try done; try lia. eapply blit_bytes; [|exact Hhb|exact E1]. by apply Forall_replicate.
    - unfold im0. cbn [img width height pal px]. split; [done|]. split; [done|]. split; [by rewrite H8 in L2|]. split.
      + apply list_eq. intros i. destruct (Z.lt_ge_cases (Z.of_nat i) 1024); [rewrite lookup_slice, Z0 by lia; symmetry; apply lookup_replicate_2; lia|]. rewrite lookup_slice_ge by lia. symmetry. apply lookup_replicate_None. lia.
      + intros x y Hi. unfold pixel. cbn [img width]. destruct Hi as [Hx Hy]. cbn [width height] in *. rewrite Z0; [done| |]; unfold IMAGE_OFFSET; nia. }
  destruct (copy_spec w h im0 _ 0 palette S0) as (im & E & S); [lia|lia|done|]. unfold copy_to in E. change (PALETTE_OFFSET + 0) with PALETTE_OFFSET in E. cbn [img im0] in E. destruct (blit l1 PALETTE_OFFSET palette) as [l2| |]; [|done|done]. cbn [obind] in E |- *. injection E as <-. eexists. split; [done|]. split; [done|]. cbn [pal] in S. rewrite patch_all in S by (done || (unfold zlen; by rewrite length_replicate)). exact S.
Qed.
Lemma header_at w h im p i b : shows w h im p -> 0 <= i < 8 -> header w h (w * h + 1032) !! Z.to_nat i = Some b -> aget (img im) i = Ret b.
Proof. intros (_ & _ & _ & S & _) Hi Hb. unfold aget. rewrite (proj2 (Z.ltb_ge i 0)) by lia. rewrite <- S, lookup_slice in Hb by lia. change (Z.to_nat 0 + Z.to_nat i)%nat with (Z.to_nat i) in Hb. by rewrite Hb. Qed.
Lemma raw_spec w h im p : shows w h im p -> w < 65536 -> h < 65536 -> mem (w * h + 1032) = true -> new_rmimage256_from_raw palette mem (img im) = Ret (Some im).
Proof.
  intros S Hw Hh Hmem. pose proof S as ((W1 & W2 & W3 & W4 & W5 & W6) & Dw & Dh & _). unfold IMAGE_OFFSET in *. rewrite Dw, Dh in *. unfold new_rmimage256_from_raw. rewrite (header_at w h im p 0 0x3e) by done. cbn [obind Z.eqb Pos.eqb negb]. rewrite (header_at w h im p 4 (Z.shiftr (Z.land w 0xff00) 8)) by done. cbn [obind]. rewrite (header_at w h im p 5 (Z.land w 0xff)) by done. cbn [obind]. rewrite (header_at w h im p 6 (Z.shiftr (Z.land h 0xff00) 8)) by done. cbn [obind]. rewrite (header_at w h im p 7 (Z.land h 0xff)) by done. cbn [obind]. rewrite !split_16 by lia.
  destruct (new_spec w h W1 W2) as (im0 & -> & Z0 & ((_ & _ & _ & _ & V5 & _) & Dw0 & Dh0 & _)); [lia|done|]. cbn [obind]. rewrite Z0, bytes_all by lia. cbn [obind]. unfold copy_to, blit. rewrite V5, W5, Z0, W3, Z.add_0_l, !Z.leb_refl. cbn [andb obind]. do 2 f_equal. unfold set_img. rewrite Z0, Dw0, Dh0. change (Z.to_nat 0) with O. rewrite take_0, drop_ge by (unfold zlen in *; lia). rewrite app_nil_r. destruct im. cbn [img width height size] in *. by subst.
Qed.
End fresh.

(** ** Every operation of an image *)
Inductive op :=
  | Line (xx yy xl yl cidx : Z)
  | LineTo (x1 y1 x2 y2 cidx : Z)
  | Rectangle (xx yy xl yl cidx : Z) (fill : bool)
  | AtoB (xx yy xl yl aidx bidx : Z)
  | Paste (xx yy : Z) (other : rmimage256)
  | Border (xx yy xl yl fc bc bw : Z)
  | PackedBitmap (xx yy fidx bidx : Z) (bmp : list Z) (bw bh realwidth : Z)
  | DrawText (xx yy fidx bidx scale space : Z) (s : list Z)
  | LoadPalette (palette : list Z)
  | CopyPalette (other : rmimage256)
  | SetRGB (entry rr gg bb : Z)
  | SetYUV (entry yy uu vv : Z)
  | SetColor (entry : Z) (aRGB : list Z).

(** No coordinate overflows; blocks that are read are there. *)
Definition coord (c : Z) : Prop := - 2 ^ 22 <= c <= 2 ^ 22.
Definition fine (w h : Z) (o : op) : Prop :=
  match o with
  | Line xx yy xl yl _ => coord xx /\ coord yy /\ coord xl /\ coord yl
  | LineTo x1 y1 x2 y2 _ => coord x1 /\ coord y1 /\ coord (x2 - x1) /\ coord (y2 - y1)
  | Rectangle xx yy xl yl _ fill => coord xx /\ coord yy /\ coord xl /\ coord yl /\ (fill = false -> int_ok (yy * w) /\ int_ok ((yy + yl) * w))
  | AtoB xx yy xl yl _ _ => coord xx /\ coord yy /\ coord xl /\ coord yl
  | Paste xx yy other => coord xx /\ coord yy /\ wf other /\ coord (width other) /\ coord (height other)
  | Border xx yy xl yl fc bc bw => coord xx /\ coord yy /\ coord xl /\ coord yl /\ bw <= 1032 /\ schar (u8 bc) <> fc
  | PackedBitmap xx yy _ _ bmp bw bh _ => coord xx /\ coord yy /\ 0 <= bw /\ coord bw /\ 0 <= bh /\ coord bh /\ Forall byte bmp /\ bh * bw <= zlen bmp <= INT_MAX
  | DrawText xx yy _ _ scale space s => coord xx /\ coord yy /\ 0 <= scale /\ coord scale /\ 0 <= space /\ xx + (24 * scale + space) * zlen s <= INT_MAX
  | LoadPalette palette => 1024 <= zlen palette /\ Forall byte palette
  | CopyPalette other => wf other
  | SetRGB _ _ _ _ => True
  | SetYUV _ _ _ _ => True
  | SetColor _ aRGB => 4 <= zlen aRGB /\ Forall byte aRGB
  end.

Section session.
  Context (fs : list Z -> option (list Z)) (frac : Z -> Z -> Z -> Z) (yuv : Z -> Z -> Z -> Z * Z * Z).
(** The functions, with what they return. *)
Definition exec (o : op) (f : fonts) (im : rmimage256) : outcome (Z * fonts * rmimage256) :=
  let void m := let* im := m in Ret (0, f, im) in
  match o with
  | Line xx yy xl yl c => void (img_line frac im xx yy xl yl c)
  | LineTo x1 y1 x2 y2 c => void (img_lineto frac im x1 y1 x2 y2 c)
  | Rectangle xx yy xl yl c fill => void (img_rectangle im xx yy xl yl c fill)
  | AtoB xx yy xl yl a b => void (img_atob im xx yy xl yl a b)
  | Paste xx yy other => void (img_paste im xx yy other)
  | Border xx yy xl yl fc bc bw => void (img_border im xx yy xl yl fc bc bw)
  | PackedBitmap xx yy fi bi bmp bw bh rw => let* r := img_packedBitmap im xx yy fi bi bmp bw bh rw in Ret (fst r, f, snd r)
  | DrawText xx yy fi bi scale space s => img_drawText fs f im xx yy fi bi scale space s
  | LoadPalette palette => void (img_loadPalette im palette)
  | CopyPalette other => void (img_copyPalette im other)
  | SetRGB e r g b => void (img_setPaletteRGB yuv im e r g b)
  | SetYUV e y u v => void (img_setPaletteYUV im e y u v)
  | SetColor e a => void (img_setPaletteColor im e a)
  end.
(** What they are for, on pictures. *)
Definition entry_of (p : picture) (e : Z) (b : list Z) : picture := mk_pic (if (0 <=? e) && (e <=? 255) then patch (pal p) (e * 4) b else pal p) (px p).
Definition paint (p : picture) (F : Z -> Z -> Z -> Z) : picture := mk_pic (pal p) (fun x y => F x y (px p x y)).
Definition colour (c : Z) (F : Z -> Z -> Z -> Z) (x y v : Z) : Z := if (c <? 0) || (255 <? c) then v else F x y v.
Definition draw (w h : Z) (o : op) (f : fonts) (p : picture) : Z * fonts * picture :=
  match o with
  | Line xx yy xl yl c => (0, f, paint p (colour c (lined frac xx yy xl yl c)))
  | LineTo x1 y1 x2 y2 c => (0, f, paint p (colour c (lined frac x1 y1 (x2 - x1) (y2 - y1) c)))
  | Rectangle xx yy xl yl c fill => (0, f, paint p (colour c (if fill then filled xx yy xl yl c else outlined xx yy xl yl c)))
  | AtoB xx yy xl yl a b => (0, f, paint p (replaced xx yy xl yl a b))
  | Paste xx yy other => (0, f, paint p (pasted xx yy other))
  | Border xx yy xl yl fc bc bw => (0, f, paint p (framed w h (px p) xx yy xl yl fc bc bw))
  | PackedBitmap xx yy fi bi bmp bw bh rw => (1, f, paint p (bitmapped xx bw fi bi rw bmp yy (yy + bh)))
  | DrawText xx yy fi bi scale space s =>
      let '(rc, f) := init_eten fs etfonts f in
      if rc <=? 0 then (0, f, p) else let '(l, e) := layout s xx scale space (et f) in (text_end 0 scale l, mk_fonts (have_eten f) e, paint p (texted l yy fi bi scale))
  | LoadPalette palette => (0, f, mk_pic (slice palette 0 1024) (px p))
  | CopyPalette other => (0, f, mk_pic (slice (img other) 8 1024) (px p))
  | SetRGB e r g b => let '(y, u, v) := yuv (Z.rem r 256) (Z.rem g 256) (Z.rem b 256) in (0, f, entry_of p e [0xff; clamp y; clamp u; clamp v])
  | SetYUV e y u v => (0, f, entry_of p e [0xff; u8 (Z.rem y 256); u8 (Z.rem u 256); u8 (Z.rem v 256)])
  | SetColor e a => (0, f, entry_of p e (slice a 0 4))
  end.

(** A sequence of them. *)
Fixpoint run (ops : list op) (f : fonts) (im : rmimage256) : outcome (list Z * rmimage256) :=
  match ops with [] => Ret ([], im) | o :: ops => let* r := exec o f im in let '(rc, f, im) := r in let* r := run ops f im in Ret (rc :: fst r, snd r) end.
Fixpoint sketch (w h : Z) (ops : list op) (f : fonts) (p : picture) : list Z * picture :=
  match ops with [] => ([], p) | o :: ops => let '(rc, f, p) := draw w h o f p in let '(l, p) := sketch w h ops f p in (rc :: l, p) end.

  Context (Hfs : forall name d, fs name = Some d -> Forall byte d).
  Context (Hfrac : forall a b j, Z.abs a <= 2 ^ 22 -> b <= 2 ^ 22 -> 0 <= j < b -> Z.abs (frac a b j) <= Z.abs a).

Lemma open_fonts_ok l : Forall font_ok l -> Forall (fun f => font_ok (Some f)) (open_fonts l).
Proof. induction 1 as [|[f|] l H _ IH]; cbn [open_fonts]; [done| |done]. by apply Forall_cons. Qed.
Lemma close_ok k e : et_ok e -> et_ok (close_from k e).
Proof. intros (H1 & H2 & H3 & H4 & H5 & H6). unfold et_ok, close_from. cbn. split_and!; try done; by case_match. Qed.
Lemma init_ok path f : et_ok (et f) -> et_ok (et (snd (init_eten fs path f))).
Proof.
  intros H. unfold init_eten. destruct (negb (have_eten f =? 0)); [done|]. assert (et_ok (snd (init_ETen_fonts fs path (et f)))) as Hi; [|destruct (init_ETen_fonts fs path (et f)) as [rc e]; by destruct (rc =? 0)].
  unfold init_ETen_fonts. destruct (200 <? zlen path); [done|]. assert (Forall (fun f => font_ok (Some f)) (open_fonts (open_font fs path <$> fontfname))) as HF.
  { apply open_fonts_ok, Forall_fmap, Forall_true. intros name. cbn. unfold open_font. destruct (fs (font_path path name)) as [d|] eqn:E; [|done]. cbn. by eapply Hfs. }
  destruct (open_fonts _) as [|a [|b [|c [|d [|? ?]]]]]; cbn [snd]; try (by apply close_ok). rewrite !Forall_cons in HF. destruct HF as (F1 & F2 & F3 & F4 & _). destruct H as (H1 & H2 & _). by split_and!.
Qed.
Lemma paint_shows w h im p im' F F' : shows w h im p -> painted im im' F -> (forall x y v, inside im x y -> F' x y v = F x y v) -> shows w h im' (paint p F').
Proof. intros S P HF. eapply shows_painted; [done|done|]. intros x y Hi. cbn beta. by rewrite HF. Qed.

(** [m] gives an image that shows [p']. *)
Definition gives (w h : Z) (m : outcome rmimage256) (p' : picture) : Prop := exists im', m = Ret im' /\ shows w h im' p'.
Lemma gives_paint w h im p m F F' : shows w h im p -> (exists im', m = Ret im' /\ painted im im' F) -> (forall x y v, inside im x y -> F' x y v = F x y v) -> gives w h m (paint p F').
Proof. intros S (im' & E & P) HF. exists im'. split; [done|]. by eapply paint_shows. Qed.
Lemma gives_colour w h im p m c F : shows w h im p -> ((c <? 0) || (255 <? c) = true -> m = Ret im) -> (0 <= c <= 255 -> exists im', m = Ret im' /\ painted im im' F) -> gives w h m (paint p (colour c F)).
Proof.
  intros S H1 H2. destruct ((c <? 0) || (255 <? c)) eqn:E.
  - apply (gives_paint w h im p m (fun _ _ v => v)); [done|exists im; split; [by apply H1|]; apply painted_refl, S|]. intros x y v _. unfold colour. by rewrite E.
  - apply (gives_paint w h im p m F); [done|apply H2; lia|]. intros x y v _. unfold colour. by rewrite E.
Qed.
Lemma line_gives w h im p xx yy xl yl c : shows w h im p -> coord xx -> coord yy -> coord xl -> coord yl -> gives w h (img_line frac im xx yy xl yl c) (paint p (colour c (lined frac xx yy xl yl c))).
Proof.
  unfold coord. intros S C1 C2 C3 C4. eapply gives_colour; [done|by intros E; unfold img_line; rewrite E|]. intros Hc. apply img_line_spec; [apply S|unfold fits; int_lia|unfold fits; int_lia|done| |].
  - intros j Hj. pose proof (Hfrac yl xl j ltac:(lia) ltac:(lia) Hj). int_lia.
  - intros j Hj. pose proof (Hfrac xl yl j ltac:(lia) ltac:(lia) Hj). int_lia.
Qed.
Lemma rectangle_gives w h im p xx yy xl yl c fill : shows w h im p -> fine w h (Rectangle xx yy xl yl c fill) -> gives w h (img_rectangle im xx yy xl yl c fill) (paint p (colour c (if fill then filled xx yy xl yl c else outlined xx yy xl yl c))).
Proof.
  cbn [fine]. unfold coord. intros S (C1 & C2 & C3 & C4 & C5). eapply gives_colour; [done|by intros E; unfold img_rectangle; rewrite E|]. intros Hc. pose proof S as (W & Dw & _). destruct fill; [apply fill_spec; try done; unfold fits; int_lia|]. destruct (C5 eq_refl) as [O1 O2]. apply outline_spec; rewrite ?Dw; try done; unfold fits; int_lia.
Qed.
Lemma border_gives w h im p xx yy xl yl fc bc bw : shows w h im p -> fine w h (Border xx yy xl yl fc bc bw) -> gives w h (img_border im xx yy xl yl fc bc bw) (paint p (framed w h (px p) xx yy xl yl fc bc bw)).
Proof.
  cbn [fine]. unfold coord. intros S (C1 & C2 & C3 & C4 & C5 & C6). pose proof S as (W & Dw & Dh & _ & _ & S5). eapply gives_paint; [done|apply border_spec; try done; int_lia|]. intros x y v Hi. rewrite Dw, Dh. unfold framed, border_in. rewrite (bordered_ext w h (pixel im) (px p)); [done|]. intros x' y' Hx Hy. rewrite S5; [done|]. unfold inside. by rewrite Dw, Dh.
Qed.
Lemma palette_gives w h im p b : shows w h im p -> Forall byte b -> zlen b = 1024 -> gives w h (copy_to im PALETTE_OFFSET b) (mk_pic b (px p)).
Proof.
  intros S Hb Hl. destruct (copy_spec w h im p 0 b S) as (im' & E & S'); [lia|lia|done|]. exists im'. split; [exact E|]. rewrite patch_all in S'; [done|done|]. destruct S as ((W1 & W2 & W3 & _ & W5 & _) & _ & _ & _ & <- & _). unfold slice, zlen, IMAGE_OFFSET in *. rewrite length_take, length_drop. assert (0 <= width im * height im) by nia. lia.
Qed.
Lemma bytes_of_slice l off n : 0 <= off -> 0 <= n -> off + n <= zlen l -> Forall byte l -> bytes_of l off n = Ret (slice l off n) /\ Forall byte (slice l off n) /\ zlen (slice l off n) = n.
Proof.
  intros H1 H2 H3 HF. unfold bytes_of. assert ((0 <=? off) && (off + n <=? zlen l) = true) as -> by lia. split; [done|]. split; [unfold slice; by apply Forall_take, Forall_drop|]. unfold slice, zlen in *. rewrite length_take, length_drop. lia.
Qed.
Lemma pal_len w h im p : shows w h im p -> 1032 <= zlen (img im).
Proof. intros ((W1 & W2 & W3 & _ & W5 & _) & _). unfold IMAGE_OFFSET in *. nia. Qed.
Lemma layout_two word la s x scale space e : layout (word :: la :: s) x scale space e =
  (if isbig5 word la then let e := ET_full_font24 word la e in let '(l, e') := layout s (x + 24 * scale + space) scale space e in ((x, true, pat e) :: l, e')
   else let e := ET_half_font24 word e in let '(l, e') := layout (la :: s) (x + 12 * scale + space) scale space e in ((x, false, pat e) :: l, e')).
Proof. done. Qed.
Lemma layout_ok scale space : forall n s x e, (length s <= n)%nat -> et_ok e -> et_ok (snd (layout s x scale space e)).
Proof.
  induction n as [|n IH]; intros s x e Hn He; [by destruct s; [|cbn in Hn; lia]|]. destruct s as [|word [|la s]]; [done|by apply half_ok|]. rewrite layout_two. destruct (isbig5 word la); cbv zeta.
  - specialize (IH s (x + 24 * scale + space) (ET_full_font24 word la e) ltac:(cbn in Hn; lia) (full_ok word la e He)). by destruct (layout s _ _ _ _).
  - specialize (IH (la :: s) (x + 12 * scale + space) (ET_half_font24 word e) ltac:(cbn in *; lia) (half_ok word e He)). by destruct (layout (la :: s) _ _ _ _).
Qed.
Lemma text_gives w h im p f xx yy fi bi scale space s : shows w h im p -> et_ok (et f) -> fine w h (DrawText xx yy fi bi scale space s) ->
  let '(rc, f', p') := draw w h (DrawText xx yy fi bi scale space s) f p in exists im', img_drawText fs f im xx yy fi bi scale space s = Ret (rc, f', im') /\ shows w h im' p' /\ et_ok (et f').
Proof.
  cbn [fine draw]. unfold coord. intros S Hf (C1 & C2 & C3 & C4 & C5 & C6). unfold img_drawText. pose proof (init_ok etfonts f Hf) as He. destruct (init_eten fs etfonts f) as [rc f']. cbn [snd] in He. destruct (rc <=? 0); [by exists im|].
  destruct (text_loop_spec yy fi bi scale space C3 C5 ltac:(int_lia) ltac:(int_lia) (length s) s xx 0 (et f') im) as (im' & E & P); [done|done|apply S|int_lia|done|]. pose proof (layout_ok scale space (length s) s xx (et f') ltac:(done) He) as Ho. destruct (layout s xx scale space (et f')) as [l e]. cbn [fst snd] in *. rewrite E. cbn [obind]. exists im'. split; [done|]. split; [|done]. by eapply paint_shows.
Qed.
Lemma palettes_give w h o f im p : shows w h im p -> fine w h o -> match o with LoadPalette _ | CopyPalette _ | SetRGB _ _ _ _ | SetYUV _ _ _ _ | SetColor _ _ => True | _ => False end ->
  let '(rc, f', p') := draw w h o f p in exists im', exec o f im = Ret (rc, f', im') /\ shows w h im' p' /\ f' = f.
Proof.
  intros S Ho Hk. assert (forall m p', gives w h m p' -> exists im', (let* im := m in Ret (0, f, im)) = Ret (0, f, im') /\ shows w h im' p' /\ f = f) as V by (intros m p' (im' & -> & S'); by exists im'). assert (byte 0xff) as Bff by (unfold byte; lia).
  destruct o as [| | | | | | | |palette|other|e r g b|e y u v|e a]; try done; cbn [fine draw exec] in *; clear Hk.
  - apply V. destruct Ho as [H1 H2]. destruct (bytes_of_slice palette 0 1024) as (E & B & L); try done; try lia. unfold img_loadPalette. rewrite E. by apply (palette_gives w h im p).
  - apply V. pose proof Ho as (W1 & W2 & W3 & _ & W5 & W6). unfold IMAGE_OFFSET in W3. destruct (bytes_of_slice (img other) 8 1024) as (E & B & L); try done; try nia. unfold img_copyPalette. change (bytes_of (img other) PALETTE_OFFSET 1024) with (bytes_of (img other) 8 1024). rewrite E. by apply (palette_gives w h im p).
  - unfold img_setPaletteRGB. destruct (yuv (Z.rem r 256) (Z.rem g 256) (Z.rem b 256)) as [[y u] v]. apply V, entry_spec; [done|done|]. do 3 (apply Forall_cons; split; [done || apply clamp_byte|]). apply Forall_singleton, clamp_byte.
  - apply V, entry_spec; [done|done|]. do 3 (apply Forall_cons; split; [done || apply u8_byte|]). apply Forall_singleton, u8_byte.
  - apply V. destruct Ho as [H1 H2]. destruct (bytes_of_slice a 0 4) as (E & B & L); try done; try lia. destruct (entry_spec w h im p e (slice a 0 4) S L B) as (im' & E' & S'). exists im'. split; [|done]. unfold img_setPaletteColor. rewrite E. cbn [obind]. exact E'.
Qed.
Lemma exec_draws w h o f im p : shows w h im p -> et_ok (et f) -> fine w h o -> let '(rc, f', p') := draw w h o f p in exists im', exec o f im = Ret (rc, f', im') /\ shows w h im' p' /\ et_ok (et f').
Proof.
  intros S Hf Ho. assert (forall m p', gives w h m p' -> exists im', (let* im := m in Ret (0, f, im)) = Ret (0, f, im') /\ shows w h im' p' /\ et_ok (et f)) as V by (intros m p' (im' & -> & S'); by exists im'). pose proof S as (W & Dw & Dh & _).
  destruct o as [xx yy xl yl c|x1 y1 x2 y2 c|xx yy xl yl c fill|xx yy xl yl a b|xx yy other|xx yy xl yl fc bc bw|xx yy fi bi bmp bw bh rw|xx yy fi bi scale space s|palette|other|e r g b|e y u v|e a].
  - destruct Ho as (C1 & C2 & C3 & C4). by apply V, line_gives.
  - destruct Ho as (C1 & C2 & C3 & C4). apply V. unfold img_lineto. rewrite !ck_Ret by (unfold coord in *; int_lia). by apply line_gives.
  - by apply V, rectangle_gives.
  - destruct Ho as (C1 & C2 & C3 & C4). unfold coord in *. eapply V, gives_paint; [done|by apply atob_spec; try done; unfold fits; int_lia|done].
  - destruct Ho as (C1 & C2 & C3 & C4 & C5). unfold coord in *. eapply V, gives_paint; [done|by apply paste_spec; try done; unfold fits; int_lia|done].
  - by apply V, border_gives.
  - destruct Ho as (C1 & C2 & C3 & C4 & C5 & C6 & C7 & C8). unfold coord in *. cbn [draw exec]. destruct (packed_spec im xx yy fi bi bmp bw bh rw) as (im' & E & P); try done; try (unfold fits; int_lia). rewrite E. cbn [obind fst snd]. exists im'. split; [done|]. split; [|done]. by eapply paint_shows.
  - by apply text_gives.
  - destruct (palettes_give w h (LoadPalette palette) f im p S Ho I) as (im' & E & S' & _). by exists im'.
  - destruct (palettes_give w h (CopyPalette other) f im p S Ho I) as (im' & E & S' & _). by exists im'.
  - pose proof (palettes_give w h (SetRGB e r g b) f im p S Ho I) as H. destruct (draw w h (SetRGB e r g b) f p) as [[rc f'] p']. destruct H as (im' & E & S' & ->). by exists im'.
  - destruct (palettes_give w h (SetYUV e y u v) f im p S Ho I) as (im' & E & S' & _). by exists im'.
  - destruct (palettes_give w h (SetColor e a) f im p S Ho I) as (im' & E & S' & _). by exists im'.
Qed.
Lemma run_sketch w h ops : forall f im p, shows w h im p -> et_ok (et f) -> Forall (fine w h) ops -> exists im', run ops f im = Ret (fst (sketch w h ops f p), im') /\ shows w h im' (snd (sketch w h ops f p)).
Proof.
  induction ops as [|o ops IH]; intros f im p S He Ho; [by exists im|]. apply Forall_cons in Ho as [Ho Hos]. cbn [run sketch]. pose proof (exec_draws w h o f im p S He Ho) as H. destruct (draw w h o f p) as [[rc f'] p']. destruct H as (im1 & -> & S1 & He1). cbn [obind]. destruct (IH f' im1 p' S1 He1 Hos) as (im2 & -> & S2). cbn [obind]. exists im2. by destruct (sketch w h ops f' p').
Qed.
End session.

Lemma eten0_ok : et_ok eten0.
Proof. unfold et_ok, eten0. cbn [pat stdfont ascfont spcfont spcfsupp font_ok]. split_and!; try done. apply Forall_replicate. unfold byte. lia. Qed.
(** C23: an image shows what has been drawn.  With fonts of bytes, and a quotient of a line that
    does not pass the line's end, for any size an [int] holds and any sequence of operations
    whose coordinates do not overflow: the image is made, every call returns with the result
    of the specification, header, palette and pixels are those of the picture that the
    operations give, and an image made from the bytes is the same one. *)
Theorem image_draws fs frac yuv palette mem w h ops :
  (forall name d, fs name = Some d -> Forall byte d) ->
  (forall a b j, Z.abs a <= 2 ^ 22 -> b <= 2 ^ 22 -> 0 <= j < b -> Z.abs (frac a b j) <= Z.abs a) ->
  zlen palette = 1024 -> Forall byte palette -> 0 <= w -> 0 <= h -> w * h + 1032 <= INT_MAX -> mem (w * h + 1032) = true -> Forall (fine w h) ops ->
  exists im im', new_rmimage256 palette mem w h = Ret (Some im) /\
    run fs frac yuv ops fonts0 im = Ret (fst (sketch fs frac yuv w h ops fonts0 (mk_pic palette (fun _ _ => 0))), im') /\
    shows w h im' (snd (sketch fs frac yuv w h ops fonts0 (mk_pic palette (fun _ _ => 0)))) /\
    (w < 65536 -> h < 65536 -> new_rmimage256_from_raw palette mem (img im') = Ret (Some im')).
Proof.
  intros Hfs Hfrac Hp Hb Hw Hh Hm Hmem Hops. destruct (new_spec palette mem Hp Hb w h Hw Hh Hm Hmem) as (im & E & _ & S). destruct (run_sketch fs frac yuv Hfs Hfrac w h ops fonts0 im _ S eten0_ok Hops) as (im' & E' & S'). exists im, im'. split; [done|]. split; [done|]. split; [done|]. intros H1 H2. by eapply raw_spec.
Qed.

(** ** What the functions do not do *)

(** A line is drawn to the right or down; one to the left and up, or back along a row or a
    column, is not drawn at all. *)
Theorem lineto_back frac im x1 y1 x2 y2 c : int_ok (x2 - x1) -> int_ok (y2 - y1) -> x2 <= x1 -> y2 <= y1 -> img_lineto frac im x1 y1 x2 y2 c = Ret im.
Proof. intros O1 O2 Hx Hy. unfold img_lineto. rewrite !ck_Ret by done. cbn [obind]. unfold img_line. replace (Z.to_nat (x2 - x1)) with O by lia. replace (Z.to_nat (y2 - y1)) with O by lia. by repeat case_match. Qed.
Lemma lineto_back_witness : img_lineto (fun _ _ _ => 0) (mk_img (replicate 1034 0) 2 1 1034) 1 0 0 0 5 = Ret (mk_img (replicate 1034 0) 2 1 1034).
Proof. apply lineto_back; int_lia. Defined.

(** The pixels are read as [char]: those with a colour of 128 or more are never found. *)
Theorem atob_high im xx yy xl yl a b : wf im -> fits xx xl -> fits yy yl -> 128 <= a -> exists im', img_atob im xx yy xl yl a b = Ret im' /\ painted im im' (fun _ _ v => v).
Proof.
  intros W F1 F2 Ha. destruct (atob_spec im xx yy xl yl a b W F1 F2) as (im' & E & P1 & P2 & P3 & P4). exists im'. split; [done|]. split; [done|]. split; [done|]. split; [done|]. intros x y Hi. rewrite P4 by done. pose proof (pixel_byte im x y W) as Hb. unfold replaced, byte, schar in *. destruct (in_rect xx yy xl yl x y); [|done]. cbn [andb]. case_match; [|done]. destruct (pixel im x y <? 128) eqn:?; lia.
Qed.

(** An outline is one pixel wider and higher than the rectangle that is filled, and has no
    lower right corner. *)
Theorem outline_size xx yy xl yl c v : 0 < xl -> 0 < yl ->
  outlined xx yy xl yl c (xx + xl) yy v = c /\ filled xx yy xl yl c (xx + xl) yy v = v /\ outlined xx yy xl yl c xx (yy + yl) v = c /\ filled xx yy xl yl c xx (yy + yl) v = v /\ outlined xx yy xl yl c (xx + xl) (yy + yl) v = v.
Proof.
  intros Hx Hy. unfold outlined, filled, in_rect. rewrite !Z.eqb_refl, !Z.leb_refl, !Z.ltb_irrefl. rewrite ?andb_false_r, ?andb_true_r, ?orb_true_r, ?orb_true_l. cbn [andb orb]. rewrite !(proj2 (Z.ltb_lt yy (yy + yl))), !(proj2 (Z.ltb_lt xx (xx + xl))) by lia. cbn [andb orb]. rewrite ?andb_false_r, ?orb_true_r. done.
Qed.

(** The column [realwidth] of a bitmap is drawn too: here a row of one byte of which eight
    bits are meant covers nine pixels of two bytes. *)
Example packed_extra_column : (let* r := img_packedBitmap (mk_img (replicate 1048 0) 16 1 1048) 0 0 1 2 [0; 0x80] 2 1 8 in Ret (slice (img (snd r)) 1032 10)) = Ret [2; 2; 2; 2; 2; 2; 2; 2; 1; 0].
Proof. vm_compute. reflexivity. Qed.

(** A width below 0 gives a block without room for the palette. *)
Example new_negative : new_rmimage256 (replicate 1024 0) (fun _ => true) (- 1) 500 = Fault OutOfBounds.
Proof. vm_compute. reflexivity. Qed.

(** A frame of the screen: two rectangles, a line, a text with a border around it. *)
Lemma quot_frac a b j : Z.abs a <= 2 ^ 22 -> b <= 2 ^ 22 -> 0 <= j < b -> Z.abs (Z.quot (a * j) b) <= Z.abs a.
Proof. intros _ _ Hj. rewrite <- Z.quot_abs by lia. rewrite Z.abs_mul, (Z.abs_eq j), (Z.abs_eq b), Z.quot_div_nonneg by nia. apply Z.div_le_upper_bound; nia. Qed.
Definition frame : list op :=
  [Rectangle 0 0 40 30 3 true; Rectangle 2 2 10 10 4 false; Line (-3) 1 20 7 5; DrawText 4 3 1 0 1 2 [65; 0xA4; 0x40; 66]; Border 0 0 40 30 1 9 2; AtoB 0 0 40 30 4 6; SetYUV 9 10 20 30; PackedBitmap 1 1 7 8 [0xaa; 0x55] 1 2 7].
Definition all_fonts (name : list Z) : option (list Z) := Some (replicate 96 0xaa).
Lemma image_draws_witness : exists im im', new_rmimage256 (replicate 1024 7) (fun _ => true) 40 30 = Ret (Some im) /\
  run all_fonts (fun a b j => Z.quot (a * j) b) (fun _ _ _ => (0, 0, 0)) frame fonts0 im = Ret ([0; 0; 0; 56; 0; 0; 0; 1], im') /\ new_rmimage256_from_raw (replicate 1024 7) (fun _ => true) (img im') = Ret (Some im').
Proof.
  destruct (image_draws all_fonts (fun a b j => Z.quot (a * j) b) (fun _ _ _ => (0, 0, 0)) (replicate 1024 7) (fun _ => true) 40 30 frame) as (im & im' & E1 & E2 & _ & E3).
  - intros name d H. assert (d = replicate 96 0xaa) as -> by (unfold all_fonts in H; congruence). apply Forall_replicate. unfold byte. lia.
  - exact quot_frac.
  - reflexivity.
  - apply Forall_replicate. unfold byte. lia.
  - lia.
  - lia.
  - int_lia.
  - reflexivity.
  - unfold frame. repeat (apply Forall_cons; split); try apply Forall_nil_2; cbn [fine]; unfold coord; unfold zlen; cbn [length]; try int_lia.
    + split_and!; try int_lia. vm_compute. discriminate.
    + split_and!; try int_lia. repeat (apply Forall_cons; split); try apply Forall_nil_2; unfold byte; lia.
  - exists im, im'. split; [exact E1|]. split; [|apply E3; lia]. rewrite E2. reflexivity.
Defined.
End RS.
